(* ===== verification/_CoqProject ===== *)
-Q . S2P
Prelude.v
Mmu.v
Hw.v
Irq.v
Spinlock.v
Proc.v
ProcLocks.v
ProcSpec.v
ProcWait.v
ProcExit.v
KSync.v
Uthread.v
Umalloc.v
UmallocSpec.v
UmallocTheorems.v
Pipe.v
Bytes.v
BlockCache.v
Bio.v
Ide.v
IdeTheorems.v
Log.v
LogTxn.v
Strings.v
Printf.v
Kalloc.v
Grep.v
Console.v
Uart.v
Vm.v
Mp.v
VmSpec.v
VmUser.v
VmGrow.v
VmCopy.v
AddrSpace.v
Store.v
LogStore.v
Fs.v
FsBlocks.v
FsInode.v
FsFile.v
FsIcache.v
FsTrunc.v
FsDir.v
FsPath.v
File.v
FsImage.v
Utils.v
FileSpec.v
FsTheorems.v
FsAlloc.v
FsNames.v
FileTheorems.v
Mkfs.v
MkfsSpec.v
MkfsFiles.v
MkfsTheorems.v
Exec.v
ExecMem.v
ExecSpec.v
ExecStack.v
ExecSwitch.v
ExecTheorems.v
Bootmain.v
Syscall.v
Sysfile.v
SysfileSpec.v
SysfileTheorems.v
Sysproc.v
SysprocSpec.v
SysprocTheorems.v
Sh.v
ShSpec.v
ShLex.v
ShParse.v
ShTheorems.v
ShPrint.v
ShRun.v
ShRunTheorems.v
