(* ===== verification/Prelude.v ===== *)
(** * xv6 with kernel threads: a verification development

    The program is the teaching kernel xv6 for the 32-bit x86, in C, extended
    with kernel threads, mutexes and condition variables (proc.c, kthread.h)
    and with a library of user-level threads (uthread.c).  This development
    translates its parts into executable definitions and proves what makes
    them correct.

    ** How code is translated

    A function with effects is a function of the monad [M S] below: a state
    passes through it and it ends in one of the values of [outcome]: it
    returns ([Ret]), panics ([Panic], the message of panic), gives the CPU to
    the scheduler ([Sched]), loops for ever ([Hang]) or accesses memory outside
    of the object it means to access ([Fault]).  An array access out of range
    is a [Fault], never a silent default.  A function that sleeps is split
    where it gives up the CPU: the part after that is an operation whose name
    ends in [_resume].  [uint] and [int] arithmetic wraps through [u32] and
    [s32].  Pointers into tables are indices, a null pointer is [None] or 0.
    The critical section of a lock is one step where the lock is held
    throughout; where the code releases it in between, other CPUs can be
    interleaved there.

    ** Files and parts

    - Processes and locks.  [Spinlock]: spinlock.c, with interrupt nesting,
      and single memory accesses of any number of CPUs as a step relation.
      [Proc]: proc.c and proc.h, [kst] is the process table with the mutex and
      condition tables; page tables, files and inodes are reached through the
      class [Services].  [ProcLocks], [ProcSpec], [ProcWait], [ProcExit]: lock
      states and the theorems on allocproc and fork; on wait, kill, wakeup and
      the scheduler; on exit, thread creation and join.  [KSync]: the mutexes
      and condition variables of proc.c.  [Sysproc], [SysprocSpec],
      [SysprocTheorems]: sysproc.c and trap.c, the clock and the interrupt
      table.
    - User programs and libraries.  [Uthread]: uthread.c over the class
      [UAlloc] of malloc and free, which [Umalloc], [UmallocSpec],
      [UmallocTheorems] (umalloc.c) satisfy.  [Strings]: string.c and ulib.c.
      [Printf]: printf.c and cprintf.  [Grep]: grep.c.  [Utils]: cat, wc,
      echo, ls, kill, ln, mkdir and rm.  The shell: [Sh] is the parser of sh.c
      on the buffer of the line, [ShSpec] a parser on lists of tokens,
      [ShLex], [ShParse], [ShTheorems], [ShPrint] relate them; [ShRun] and
      [ShRunTheorems] run the commands.
    - Memory.  [Mmu]: mmu.h, memlayout.h and traps.h.  [Kalloc]: kalloc.c.  [Vm]: vm.c
      on byte memory; [VmSpec], [VmUser], [VmGrow], [VmCopy] follow its page
      tables ([vm], [aspace]) and [AddrSpace] has the theorems.
    - Programs.  [Exec]: exec.c and elf.h over vm.c and fs.c; [ExecMem],
      [ExecSpec], [ExecStack], [ExecSwitch] follow the address space it builds
      and [ExecTheorems] has the theorems.
    - Disk and files, bottom up.  [Bytes]: the layout of structs in blocks.
      [BlockCache]: the class of the buffer cache and its laws.  [Bio]: bio.c
      and memide.c, which satisfy them.  [Log], [LogTxn]: log.c over any
      [BlockCache], recovery and transactions.  [Store]: the class of the log
      as fs.c uses it; [LogStore]: log.c satisfies it.  [Fs]: fs.c over any
      [Store]; [FsBlocks], [FsInode], [FsFile], [FsIcache], [FsTrunc],
      [FsDir], [FsPath] follow its layers and [FsTheorems], [FsAlloc],
      [FsNames] have the theorems; [FsImage] is a disk for examples.  [Pipe]:
      pipe.c.  [File], [FileSpec], [FileTheorems]: file.c.  [Mkfs],
      [MkfsSpec], [MkfsFiles], [MkfsTheorems]: mkfs.c, which makes the image.
    - System calls and devices.  [Syscall]: syscall.c.  [Sysfile],
      [SysfileSpec], [SysfileTheorems]: sysfile.c.  [Console]: console.c and
      kbd.c.
    - Hardware.  [Hw]: the port instructions of x86.h over the class [Bus] of
      what the devices answer, the static variables of the drivers, and the
      documented behaviour of each device as a reference machine with a class
      of buses that have it; [pc] is a bus with all of them.  [Irq]: picirq.c,
      ioapic.c, timer.c and lapic.c.  [Mp]: mp.c and startothers of main.c.
      [Uart]: uart.c.  [Ide], [IdeTheorems]: ide.c.  [Bootmain]: bootmain.c.

    ** What is shown

    - Crash safety: a transaction is atomic however many of its disk writes a
      crash cuts off, recovery can itself crash and be repeated
      ([LogTxn], [Log]); closing the last reference to an unlinked file frees
      it in one such transaction ([FileTheorems]); a write system call leaves
      after a crash some whole rounds written ([SysfileTheorems]).
    - The file system against abstract files: the contents of a file are a
      list of bytes ([contents]), a directory a map from names to inode
      numbers ([dir_inum]), the disk a tree ([walk]); readi, writei,
      dirlink, dirlookup, namex, iput, balloc and bfree implement the
      operations on these and leave everything else alone.
    - Descriptors: every call of sysfile.c keeps every descriptor covered by a
      reference, also when it fails or sleeps in the middle ([SysfileSpec]).
    - Arguments from user space never make the kernel fault while it fetches
      them ([Syscall]); system calls, timer interrupts and faults do to the
      process what they should ([SysprocSpec]); sleep(n) returns the first
      time that the process runs after n ticks, and at the n-th tick when it
      is alone ([SysprocTheorems]).
    - Address spaces: page accounting and translation as the processor sees
      it ([hw]), for growing, copying and freeing ([AddrSpace]), with the case
      in which allocuvm leaves a hole; the page allocator never hands out a
      page twice ([Kalloc]).
    - Processes: fork, wait, exit, thread creation and join on every branch,
      with what fork leaves of an entry's former owner;
      mutual exclusion and queues of mutexes as a refinement of a FIFO list;
      the lost wakeup and the other defects of the thread extension as
      theorems ([KSync], [ProcExit]).
    - Programs: exec starts a program with the memory, stack and registers it
      expects, or leaves the process as it was ([ExecTheorems]);
      mkfs makes a file system that satisfies the kernel's invariants.
    - Devices: the disk driver serves requests in order and does to the buffers
      and the disk what memide.c does ([IdeTheorems]); the boot loader loads
      the kernel and returns on anything else ([Bootmain]); the keyboard types
      the legends of its keys ([Console]); mpinit reads the tables of the BIOS and
      startothers starts the processors in them ([Mp]); the interrupt
      controllers end up with the interrupts that were enabled.
    - The shell: the parser implements its grammar, ends on every line and
      inverts printing ([ShTheorems], [ShPrint]); a command runs the programs
      it means with the descriptors it means, whichever of its system calls
      fail ([ShRunTheorems]).
    - User level: malloc never gives out memory twice and fails only when
      sbrk does; the schedulers of uthread.c, their fairness and their
      failures; pipes as FIFO queues without lost wakeups; the console as a
      line editor on lists; printf and cprintf print alike; grep's matcher
      decides its regular expressions.

    ** Fuel

    Recursion follows the data (lists, table indices) wherever the code loops
    over a table.  Where it does not, the fuel is at least the number of
    rounds: loops over a file's bytes take the size of the file divided by the
    step, plus one ([isdirempty], dirlookup, dirlink); namex takes the length
    of the path; printint as many digits as 32 bits have; a scan of the thread
    table as many slots as it has, where only the proved hang runs out; the
    parser of the shell takes four steps per character of the line, its
    terminator included.  Loops that poll a device take a bound on how long it is
    busy, a hypothesis on the device.  The loop of readseg in bootmain.c has
    more fuel than it has rounds below the top of memory; beyond it, it is
    proved not to end.  The theorems are about results, so that
    running out of fuel would refute them.

    ** Not modelled

    The assembly files (entry.S, swtch.S, trapasm.S, vectors.S, usys.S,
    initcode.S, bootasm.S, entryother.S) and the rest of main.c, which calls
    the initialisation functions of the parts in order.  Locks of the drivers:
    their critical sections are single steps.  The file system theorems use
    [iderw] of memide.c, which the code offers in place of ide.c; for ide.c
    [IdeTheorems] shows the same effect.  The nodes of the shell's parser come
    from a malloc that succeeds, as the code takes it to.  init.c is a loop of fork, exec and wait.  The
    test programs (usertests.c, forktest.c, stressfs.c, uthread_sanity.c,
    kt.c, zombie.c) exercise the code above.  usys.S, vectors.S and kernel.ld
    symbols are arguments where they are used: [end_] is the end of the kernel,
    [data_] where its writable data starts. *)
From stdpp Require Export base sets list list_numbers numbers option strings gmap.
From Stdlib Require Export ZArith Lia.

#[global] Open Scope Z_scope.

(** ** Machine integers *)

(** [uint]: unsigned 32-bit arithmetic wraps modulo 2^32. *)
Definition u32 (z : Z) : Z := z mod 2 ^ 32.
(** [int]: two's-complement signed 32-bit value of [z]. *)
Definition s32 (z : Z) : Z := (z + 2 ^ 31) mod 2 ^ 32 - 2 ^ 31.
(** [uchar] *)
Definition u8 (z : Z) : Z := z mod 256.
(** [ushort] *)
Definition u16 (z : Z) : Z := z mod 2 ^ 16.

Lemma u32_range z : 0 <= u32 z < 2 ^ 32.
Proof. unfold u32. apply Z.mod_pos_bound. lia. Qed.

Lemma u32_small z : 0 <= z < 2 ^ 32 -> u32 z = z.
Proof. apply Z.mod_small. Qed.

Lemma s32_small z : - 2 ^ 31 <= z < 2 ^ 31 -> s32 z = z.
Proof. intros. unfold s32. rewrite Z.mod_small; lia. Qed.

Lemma u32_u32 z : u32 (u32 z) = u32 z.
Proof. unfold u32. apply Zmod_mod. Qed.

Lemma u32_add_l a b : u32 (u32 a + b) = u32 (a + b).
Proof. unfold u32. apply Zplus_mod_idemp_l. Qed.

Lemma u32_add_r a b : u32 (a + u32 b) = u32 (a + b).
Proof. unfold u32. apply Zplus_mod_idemp_r. Qed.

Lemma u32_sub_l a b : u32 (u32 a - b) = u32 (a - b).
Proof. unfold u32. apply Zminus_mod_idemp_l. Qed.

Lemma u32_sub_r a b : u32 (a - u32 b) = u32 (a - b).
Proof. unfold u32. apply Zminus_mod_idemp_r. Qed.

(** ** Outcomes of kernel code

    A C function of the kernel that runs in state [S] either returns a value,
    stops the machine in [panic], gives up the CPU (a call of [sched] from
    [sleep], [yield] or an exit path; the state is the one the scheduler
    sees), spins for ever, or performs an access that the C language leaves
    undefined (an index out of an array's range, a null pointer). *)
Inductive outcome (S A : Type) : Type :=
| Ret (a : A) (s : S)
| Panic (msg : string)
| Sched (s : S)
| Hang
| Fault.
Arguments Ret {S A} a s.
Arguments Panic {S A} msg.
Arguments Sched {S A} s.
Arguments Hang {S A}.
Arguments Fault {S A}.

Definition M (S A : Type) : Type := S -> outcome S A.

Section Monad.
Context {S : Type}.

Definition ret {A} (a : A) : M S A := fun s => Ret a s.
Definition bind {A B} (m : M S A) (f : A -> M S B) : M S B :=
  fun s =>
    match m s with
    | Ret a s' => f a s'
    | Panic msg => Panic msg
    | Sched s' => Sched s'
    | Hang => Hang
    | Fault => Fault
    end.
Definition panic {A} (msg : string) : M S A := fun _ => Panic msg.
Definition fault {A} : M S A := fun _ => Fault.
Definition hang {A} : M S A := fun _ => Hang.
Definition get : M S S := fun s => Ret s s.
Definition gets {A} (f : S -> A) : M S A := fun s => Ret (f s) s.
Definition modify (f : S -> S) : M S unit := fun s => Ret tt (f s).
(** A read that is undefined behaviour when the option is empty. *)
Definition gets_opt {A} (f : S -> option A) : M S A :=
  fun s => match f s with Some a => Ret a s | None => Fault end.
(** A write that is undefined behaviour when the option is empty. *)
Definition modify_opt (f : S -> option S) : M S unit :=
  fun s => match f s with Some s' => Ret tt s' | None => Fault end.
Definition when (b : bool) (m : M S unit) : M S unit :=
  if b then m else ret tt.

(** [for (x : l) body], in order. *)
Fixpoint mfor {A} (l : list A) (body : A -> M S unit) : M S unit :=
  match l with
  | [] => ret tt
  | x :: l' => bind (body x) (fun _ => mfor l' body)
  end.
End Monad.

Declare Scope xv6_scope.
Delimit Scope xv6_scope with xv6.
Notation "x '<~' m ';;;' k" := (bind m (fun x => k))
  (at level 100, m at next level, right associativity) : xv6_scope.
Notation "m ';;;' k" := (bind m (fun _ => k))
  (at level 100, right associativity) : xv6_scope.
#[global] Open Scope xv6_scope.

(** Run an operation on a component of the state. *)
Definition zoom {S T A} (g : S -> T) (p : T -> S -> S) (m : M T A) : M S A :=
  fun s =>
    match m (g s) with
    | Ret a t => Ret a (p t s)
    | Panic msg => Panic msg
    | Sched t => Sched (p t s)
    | Hang => Hang
    | Fault => Fault
    end.

Lemma bind_assoc {S A B C} (m : M S A) (f : A -> M S B) (g : B -> M S C) s :
  bind (bind m f) g s = bind m (fun a => bind (f a) g) s.
Proof. unfold bind. by destruct (m s). Qed.

Lemma bind_ret_inv {S A B} (m : M S A) (f : A -> M S B) s b s' :
  bind m f s = Ret b s' -> exists a s1, m s = Ret a s1 /\ f a s1 = Ret b s'.
Proof. unfold bind. destruct (m s); naive_solver. Qed.

(** An operation keeps [I] on every way of leaving it with a state. *)
Definition keeps {S A} (I : S -> Prop) (m : M S A) : Prop :=
  forall s, I s ->
    match m s with
    | Ret _ s' => I s'
    | Sched s' => I s'
    | _ => True
    end.

Lemma keeps_ret {S A} (I : S -> Prop) (a : A) : keeps I (ret a).
Proof. by intros s Hs. Qed.

Lemma keeps_bind {S A B} (I : S -> Prop) (m : M S A) (f : A -> M S B) :
  keeps I m -> (forall a, keeps I (f a)) -> keeps I (bind m f).
Proof.
  intros Hm Hf s Hs. unfold bind. specialize (Hm s Hs).
  destruct (m s); try done. by apply Hf.
Qed.

Lemma keeps_modify {S} (I : S -> Prop) (f : S -> S) :
  (forall s, I s -> I (f s)) -> keeps I (modify f).
Proof. intros Hf s Hs. by apply Hf. Qed.

Lemma keeps_gets {S A} (I : S -> Prop) (f : S -> A) : keeps I (gets f).
Proof. by intros s Hs. Qed.

Lemma keeps_gets_opt {S A} (I : S -> Prop) (f : S -> option A) :
  keeps I (gets_opt f).
Proof. intros s Hs. unfold gets_opt. by destruct (f s). Qed.

Lemma keeps_panic {S A} (I : S -> Prop) msg : keeps I (@panic S A msg).
Proof. by intros s Hs. Qed.

Lemma keeps_mfor {S A} (I : S -> Prop) (l : list A) body :
  (forall a, a ∈ l -> keeps I (body a)) -> keeps I (mfor l body).
Proof.
  induction l as [|x l IH]; intros H; [apply keeps_ret|].
  apply keeps_bind; [apply H; left|]. intros _. apply IH.
  intros a Ha. apply H. by right.
Qed.

(** [post m s Q]: if [m] returns from [s] then [Q] holds of the result. *)
Definition post {S A} (m : M S A) (s : S) (Q : A -> S -> Prop) : Prop :=
  match m s with Ret a s' => Q a s' | _ => True end.

Lemma post_elim {S A} (m : M S A) s Q a s' : post m s Q -> m s = Ret a s' -> Q a s'.
Proof. unfold post. by intros H E; rewrite E in H. Qed.

Lemma post_bind {S A B} (m : M S A) (f : A -> M S B) s Q :
  post m s (fun a s1 => post (f a) s1 Q) -> post (bind m f) s Q.
Proof. unfold post, bind. by destruct (m s). Qed.

Lemma post_weaken {S A} (m : M S A) s (P Q : A -> S -> Prop) :
  post m s P -> (forall a s', P a s' -> Q a s') -> post m s Q.
Proof. unfold post. destruct (m s); auto. Qed.

Lemma post_gets_opt {S A} (f : S -> option A) s (Q : A -> S -> Prop) :
  (forall a, f s = Some a -> Q a s) -> post (gets_opt f) s Q.
Proof. unfold post, gets_opt. destruct (f s); auto. Qed.

Lemma post_modify_opt {S} (f : S -> option S) s (Q : unit -> S -> Prop) :
  (forall s', f s = Some s' -> Q tt s') -> post (modify_opt f) s Q.
Proof. unfold post, modify_opt. destruct (f s); auto. Qed.

Lemma post_zoom {S T A} (g : S -> T) (p : T -> S -> S) (m : M T A) s (Q : A -> S -> Prop) :
  (forall a t, Q a (p t s)) -> post (zoom g p m) s Q.
Proof. intros HQ. unfold post, zoom. destruct (m (g s)); auto. Qed.

Lemma post_gets {S A} (f : S -> A) s (Q : A -> S -> Prop) : Q (f s) s -> post (gets f) s Q.
Proof. done. Qed.

Lemma post_modify {S} (f : S -> S) s (Q : unit -> S -> Prop) :
  Q tt (f s) -> post (modify f) s Q.
Proof. done. Qed.

Lemma post_ret {S A} (a : A) (s : S) (Q : A -> S -> Prop) : Q a s -> post (ret a) s Q.
Proof. done. Qed.

Lemma post_when {S} b (m : M S unit) s (Q : unit -> S -> Prop) :
  (b = true -> post m s Q) -> (b = false -> Q tt s) -> post (when b m) s Q.
Proof. destruct b; simpl; intros H1 H2; [by apply H1|by apply H2]. Qed.

Lemma mfor_app {S A} (l1 l2 : list A) (body : A -> M S unit) s :
  mfor (l1 ++ l2) body s = bind (mfor l1 body) (fun _ => mfor l2 body) s.
Proof.
  revert s. induction l1 as [|x l1 IH]; intros s; [done|].
  simpl. rewrite bind_assoc. unfold bind at 1 2.
  destruct (body x s); [apply IH|done..].
Qed.

(** Invariant rule for a counted loop whose body always returns. *)
Lemma mfor_seq_inv {S} (I : nat -> S -> Prop) k n (body : nat -> M S unit) s :
  I k s ->
  (forall j s, (k <= j < k + n)%nat -> I j s ->
     exists s', body j s = Ret tt s' /\ I (Datatypes.S j) s') ->
  exists s', mfor (seq k n) body s = Ret tt s' /\ I (k + n)%nat s'.
Proof.
  revert k s. induction n as [|n IH]; intros k s Hi Hb.
  - exists s. by rewrite Nat.add_0_r.
  - destruct (Hb k s ltac:(lia) Hi) as (s1 & Hr & Hi1).
    destruct (IH (Datatypes.S k) s1 Hi1) as (s2 & Hr2 & Hi2).
    { intros j s' Hj. apply Hb. lia. }
    exists s2. replace (k + Datatypes.S n)%nat with (Datatypes.S k + n)%nat by lia.
    simpl. unfold bind. by rewrite Hr.
Qed.

(** ** Arrays *)

(** [l[i]] for a C index [i]; [None] when [i] is out of range. *)
Definition rd {A} (l : list A) (i : Z) : option A :=
  if decide (0 <= i) then l !! Z.to_nat i else None.

(** [l[i] = x]; [None] when [i] is out of range. *)
Definition wr {A} (l : list A) (i : Z) (x : A) : option (list A) :=
  if decide (0 <= i < Z.of_nat (length l)) then Some (<[Z.to_nat i := x]> l)
  else None.

Lemma rd_Some {A} (l : list A) i x :
  rd l i = Some x -> 0 <= i < Z.of_nat (length l) /\ l !! Z.to_nat i = Some x.
Proof.
  unfold rd. case_decide; [|done]. intros Hl.
  pose proof (lookup_lt_Some _ _ _ Hl). split; [lia|done].
Qed.

Lemma rd_in_range {A} (l : list A) i :
  0 <= i < Z.of_nat (length l) -> exists x, rd l i = Some x.
Proof.
  intros H. unfold rd. rewrite decide_True by lia.
  apply lookup_lt_is_Some_2. lia.
Qed.

Lemma wr_Some {A} (l : list A) i x l' :
  wr l i x = Some l' -> length l' = length l /\ rd l' i = Some x /\
    (forall j, j <> i -> rd l' j = rd l j).
Proof.
  unfold wr. case_decide; [|done]. intros [= <-].
  rewrite length_insert. split; [done|]. unfold rd. split.
  - rewrite decide_True by lia. apply list_lookup_insert_eq. lia.
  - intros j Hj. case_decide; [|done]. apply list_lookup_insert_ne. lia.
Qed.

Lemma wr_in_range {A} (l : list A) i x :
  0 <= i < Z.of_nat (length l) -> exists l', wr l i x = Some l'.
Proof. intros H. unfold wr. rewrite decide_True by done. eauto. Qed.

(** ** Table scans

    Most tables of the kernel are searched for the first entry that satisfies
    a condition ([allocproc], [filealloc], [fdalloc], [kthread_mutex_alloc],
    ...). *)
Fixpoint find_first {A} (P : A -> bool) (l : list A) : option nat :=
  match l with
  | [] => None
  | x :: l' => if P x then Some 0%nat else S <$> find_first P l'
  end.

Lemma alter_insert {A} (g : A -> A) (l : list A) i x : l !! i = Some x -> alter g i l = <[i := g x]> l.
Proof.
  intros E. apply list_eq. intros j. destruct (decide (j = i)) as [->|Hj].
  - rewrite list_lookup_alter_eq, E. simpl. symmetry. apply list_lookup_insert_eq. by eapply lookup_lt_Some.
  - by rewrite list_lookup_alter_ne, list_lookup_insert_ne by done.
Qed.

Lemma find_first_Some {A} (P : A -> bool) l i :
  find_first P l = Some i <->
  (exists x, l !! i = Some x /\ P x = true) /\
  (forall j y, (j < i)%nat -> l !! j = Some y -> P y = false).
Proof.
  revert i. induction l as [|x l IH]; intros i; simpl.
  - split; [done|]. intros [[? [? _]] _]. done.
  - destruct (P x) eqn:HP.
    + split.
      * intros [= <-]. split; [by exists x|]. lia.
      * intros [_ H]. destruct i; [done|].
        specialize (H 0%nat x ltac:(lia) eq_refl). congruence.
    + rewrite fmap_Some. split.
      * intros (k & Hk & ->). apply IH in Hk as [Hex Hlt]. split; [done|].
        intros [|j] y Hj Hy; simpl in *; [congruence|].
        eapply Hlt; [|done]. lia.
      * intros [(y & Hy & HPy) Hlt]. destruct i as [|i]; simpl in *; [congruence|].
        exists i. split; [|done]. apply IH. split; [by exists y|].
        intros j z Hj Hz. apply (Hlt (S j) z); [lia|done].
Qed.

Lemma find_first_None {A} (P : A -> bool) l :
  find_first P l = None <-> (forall x, x ∈ l -> P x = false).
Proof.
  induction l as [|x l IH]; simpl.
  - split; [|done]. intros _ x Hx. by apply elem_of_nil in Hx.
  - destruct (P x) eqn:HP.
    + split; [done|]. intros H. specialize (H x ltac:(left)). congruence.
    + rewrite fmap_None, IH. split.
      * intros H y Hy. apply elem_of_cons in Hy as [->|Hy]; auto.
      * intros H y Hy. apply H. by right.
Qed.

Lemma find_first_lt {A} (P : A -> bool) l i :
  find_first P l = Some i -> (i < length l)%nat.
Proof.
  intros [(x & Hx & _) _]%find_first_Some. by eapply lookup_lt_Some.
Qed.

Lemma find_first_fmap {A B} (P : B -> bool) (f : A -> B) l :
  find_first P (f <$> l) = find_first (fun x => P (f x)) l.
Proof.
  induction l as [|x l IH]; [done|]. rewrite fmap_cons. cbn [find_first].
  by rewrite IH.
Qed.

Lemma find_first_ext {A} (P Q : A -> bool) l :
  (forall x, x ∈ l -> P x = Q x) -> find_first P l = find_first Q l.
Proof.
  induction l as [|x l IH]; intros H; [done|]. simpl.
  rewrite (H x ltac:(left)), IH; [done|]. intros y Hy. apply H. by right.
Qed.

(** Scanning by index is scanning the table. *)
Lemma find_first_seq {A} (P : A -> bool) (l : list A) :
  find_first (fun i => match l !! i with Some p => P p | None => false end)
    (seq 0 (length l)) = find_first P l.
Proof.
  induction l as [|x l IH]; [done|]. simpl. destruct (P x); [done|].
  rewrite <- IH, <- fmap_S_seq, find_first_fmap. done.
Qed.

(** ** Automation *)
Create HintDb xv6.
#[export] Hint Resolve keeps_ret keeps_gets keeps_gets_opt keeps_panic : xv6.
#[export] Hint Extern 1 (keeps _ (bind _ _)) => (apply keeps_bind; [|intros ?]) : xv6.

(** Symbolic execution of a monadic operation: unfold the combinators and
    simplify. *)
Ltac mred :=
  cbv beta delta [bind ret get gets modify panic fault hang when zoom gets_opt
                  modify_opt]; cbn beta iota.

(** The same, one operation at a time: the equations of the combinators at a
    state, as a rewrite database. *)
Lemma bind_ret {S A B} (a : A) (f : A -> M S B) s : bind (ret a) f s = f a s.
Proof. done. Qed.
Lemma bind_gets {S A B} (g : S -> A) (f : A -> M S B) s :
  bind (gets g) f s = f (g s) s.
Proof. done. Qed.
Lemma bind_modify {S B} (g : S -> S) (f : unit -> M S B) s :
  bind (modify g) f s = f tt (g s).
Proof. done. Qed.
Lemma bind_Ret {S A B} (m : M S A) (f : A -> M S B) s a s' :
  m s = Ret a s' -> bind m f s = f a s'.
Proof. unfold bind. by intros ->. Qed.
Lemma bind_gets_opt {S A B} (g : S -> option A) (f : A -> M S B) s a :
  g s = Some a -> bind (gets_opt g) f s = f a s.
Proof. intros E. apply bind_Ret. unfold gets_opt. by rewrite E. Qed.

#[export] Hint Rewrite @bind_assoc @bind_ret @bind_gets @bind_modify : xv6run.

Ltac mrun := repeat (progress (autorewrite with xv6run; cbn beta iota)).

(** Split a monadic equation [bind m f s = Ret b s'] repeatedly. *)
Ltac minv H :=
  let a := fresh "r" in let s := fresh "s" in
  let H1 := fresh H in
  apply bind_ret_inv in H as (a & s & H1 & H).

(** Case analysis on every [match]/[if] scrutinee of the goal. *)
Ltac case_all :=
  repeat match goal with
  | |- context [match ?x with _ => _ end] => destruct x eqn:?
  end.
