(* ===== verification/Mmu.v ===== *)
(** * Memory layout, MMU formats and traps (mmu.h, memlayout.h, traps.h)

    The constants and macros the memory code is written with: page rounding,
    the split of a virtual address into directory index, table index and
    offset, page table entries, segment and gate descriptors; the numbers
    of traps and interrupts. *)
From S2P Require Import Prelude.

(** ** memlayout.h *)

Definition EXTMEM : Z := 0x100000.
Definition PHYSTOP : Z := 0xE000000.
Definition DEVSPACE : Z := 0xFE000000.
Definition KERNBASE : Z := 0x80000000.
Definition KERNLINK : Z := KERNBASE + EXTMEM.

Definition v2p (a : Z) : Z := u32 (a - KERNBASE).
Definition p2v (a : Z) : Z := u32 (a + KERNBASE).

(** ** Pages *)

Definition PGSIZE : Z := 4096.
Definition PGSHIFT : Z := 12.
Definition PTXSHIFT : Z := 12.
Definition PDXSHIFT : Z := 22.
Definition NPDENTRIES : nat := 1024.
Definition NPTENTRIES : nat := 1024.

Definition PDX (va : Z) : Z := Z.land (Z.shiftr va PDXSHIFT) 0x3FF.
Definition PTX (va : Z) : Z := Z.land (Z.shiftr va PTXSHIFT) 0x3FF.
Definition PGADDR (d t o : Z) : Z :=
  u32 (Z.lor (Z.lor (Z.shiftl d PDXSHIFT) (Z.shiftl t PTXSHIFT)) o).

(** [~(PGSIZE-1)] as a 32-bit mask is the complement of the low bits. *)
Definition PGROUNDUP (sz : Z) : Z := Z.ldiff (u32 (sz + PGSIZE - 1)) (PGSIZE - 1).
Definition PGROUNDDOWN (a : Z) : Z := Z.ldiff a (PGSIZE - 1).

Definition PTE_P : Z := 0x001.
Definition PTE_W : Z := 0x002.
Definition PTE_U : Z := 0x004.
Definition PTE_PS : Z := 0x080.
Definition PTE_ADDR (pte : Z) : Z := Z.ldiff pte 0xFFF.
Definition PTE_FLAGS (pte : Z) : Z := Z.land pte 0xFFF.

(** ** Segments and gates *)

Definition FL_IF : Z := 0x200.
Definition SEG_KCODE : Z := 1.
Definition SEG_KDATA : Z := 2.
Definition SEG_KCPU : Z := 3.
Definition SEG_UCODE : Z := 4.
Definition SEG_UDATA : Z := 5.
Definition SEG_TSS : Z := 6.
Definition DPL_USER : Z := 3.
Definition STA_X : Z := 0x8.
Definition STA_W : Z := 0x2.
Definition STA_R : Z := 0x2.
Definition STS_T32A : Z := 0x9.
Definition STS_IG32 : Z := 0xE.
Definition STS_TG32 : Z := 0xF.

(** [struct segdesc]; the fields that every macro sets to constants are
    [s], [p], [avl], [rsv1], [db] and [g]. *)
Record segdesc := Segdesc {
  lim_15_0 : Z;
  base_15_0 : Z;
  base_23_16 : Z;
  seg_type : Z;
  seg_s : Z;
  seg_dpl : Z;
  seg_p : Z;
  lim_19_16 : Z;
  seg_avl : Z;
  seg_rsv1 : Z;
  seg_db : Z;
  seg_g : Z;
  base_31_24 : Z
}.

Definition SEG (type base lim dpl : Z) : segdesc :=
  Segdesc (Z.land (Z.shiftr lim 12) 0xffff) (Z.land base 0xffff)
    (Z.land (Z.shiftr base 16) 0xff) type 1 dpl 1 (Z.shiftr lim 28) 0 0 1 1
    (Z.shiftr base 24).

Definition SEG16 (type base lim dpl : Z) : segdesc :=
  Segdesc (Z.land lim 0xffff) (Z.land base 0xffff)
    (Z.land (Z.shiftr base 16) 0xff) type 1 dpl 1 (Z.shiftr lim 16) 0 0 1 0
    (Z.shiftr base 24).

(** The base and the highest offset a descriptor means to the processor. *)
Definition seg_base (d : segdesc) : Z :=
  Z.lor (Z.lor (base_15_0 d) (Z.shiftl (base_23_16 d) 16)) (Z.shiftl (base_31_24 d) 24).
Definition seg_limit (d : segdesc) : Z :=
  let l := Z.lor (lim_15_0 d) (Z.shiftl (lim_19_16 d) 16) in
  if seg_g d =? 1 then Z.lor (Z.shiftl l 12) 0xfff else l.

Record gatedesc := Gatedesc {
  off_15_0 : Z;
  gate_cs : Z;
  gate_args : Z;
  gate_rsv1 : Z;
  gate_type : Z;
  gate_s : Z;
  gate_dpl : Z;
  gate_p : Z;
  off_31_16 : Z
}.

Definition SETGATE (istrap : bool) (sel off d : Z) : gatedesc :=
  Gatedesc (Z.land off 0xffff) sel 0 0 (if istrap then STS_TG32 else STS_IG32) 0 d 1
    (Z.shiftr off 16).

Definition gate_offset (g : gatedesc) : Z :=
  Z.lor (off_15_0 g) (Z.shiftl (off_31_16 g) 16).

(** ** Arithmetic of the macros *)

Lemma ldiff_low a k : 0 <= k -> Z.ldiff a (Z.ones k) = a - a mod 2 ^ k.
Proof.
  intros Hk. rewrite Z.ldiff_ones_r by done. rewrite Z.shiftl_mul_pow2, Z.shiftr_div_pow2 by done.
  pose proof (Z.div_mod a (2 ^ k)). lia.
Qed.

Lemma page_mod a : (a - a mod 4096) mod 4096 = 0.
Proof. by rewrite Zminus_mod_idemp_r, Z.sub_diag. Qed.

Lemma PGROUNDDOWN_eq a : PGROUNDDOWN a = a - a mod 4096.
Proof. unfold PGROUNDDOWN. change (PGSIZE - 1) with (Z.ones 12). by rewrite ldiff_low by lia. Qed.

Lemma PTE_ADDR_eq a : PTE_ADDR a = a - a mod 4096.
Proof. unfold PTE_ADDR. change 0xFFF with (Z.ones 12). by rewrite ldiff_low by lia. Qed.

Lemma PTE_FLAGS_eq a : PTE_FLAGS a = a mod 4096.
Proof. unfold PTE_FLAGS. change 0xFFF with (Z.ones 12). by rewrite Z.land_ones by lia. Qed.

Lemma PGROUNDUP_eq a :
  0 <= a -> a + 4095 < 2 ^ 32 -> PGROUNDUP a = a + 4095 - (a + 4095) mod 4096.
Proof.
  intros H0 H1. unfold PGROUNDUP. change (PGSIZE - 1) with (Z.ones 12).
  rewrite ldiff_low by lia. unfold PGSIZE. replace (a + 4096 - 1) with (a + 4095) by lia.
  by rewrite u32_small by lia.
Qed.

Lemma PDX_eq va : PDX va = (va / 4194304) mod 1024.
Proof.
  unfold PDX. change 0x3FF with (Z.ones 10). rewrite Z.land_ones by lia.
  by rewrite Z.shiftr_div_pow2 by (unfold PDXSHIFT; lia).
Qed.

Lemma PTX_eq va : PTX va = (va / 4096) mod 1024.
Proof.
  unfold PTX. change 0x3FF with (Z.ones 10). rewrite Z.land_ones by lia.
  by rewrite Z.shiftr_div_pow2 by (unfold PTXSHIFT; lia).
Qed.

(** Disjoint bit fields: [lor] is addition. *)
Lemma lor_shiftl_add a b k : 0 <= k -> 0 <= b < 2 ^ k -> Z.lor (Z.shiftl a k) b = a * 2 ^ k + b.
Proof.
  intros Hk Hb. rewrite <- Z.shiftl_mul_pow2 by done. apply Z.bits_inj'. intros i Hi.
  rewrite Z.add_nocarry_lxor.
  - rewrite Z.lxor_spec, Z.lor_spec, Z.shiftl_spec by done.
    destruct (decide (i < k)).
    + rewrite (Z.testbit_neg_r a) by lia. by destruct (Z.testbit b i).
    + assert (Z.testbit b i = false) as ->; [|by rewrite xorb_false_r, orb_false_r].
      destruct (decide (b = 0)) as [->|]; [apply Z.bits_0|].
      apply Z.bits_above_log2; [lia|]. apply Z.lt_le_trans with k; [|lia].
      apply Z.log2_lt_pow2; lia.
  - apply Z.bits_inj'. intros j Hj. rewrite Z.land_spec, Z.shiftl_spec, Z.bits_0 by done.
    destruct (decide (j < k)); [by rewrite Z.testbit_neg_r by lia|].
    assert (Z.testbit b j = false) as ->; [|apply andb_false_r].
    destruct (decide (b = 0)) as [->|]; [apply Z.bits_0|].
    apply Z.bits_above_log2; [lia|]. apply Z.lt_le_trans with k; [|lia].
    apply Z.log2_lt_pow2; lia.
Qed.

(** A virtual address is put together again from its directory index, its
    table index and its offset in the page. *)
Theorem PGADDR_split va :
  0 <= va < 2 ^ 32 -> PGADDR (PDX va) (PTX va) (va mod PGSIZE) = va.
Proof.
  intros Hva. unfold PGADDR, PGSIZE. rewrite <- Z.lor_assoc.
  assert (0 <= PTX va < 1024) by (rewrite PTX_eq; apply Z.mod_pos_bound; lia).
  assert (0 <= va mod 4096 < 4096) by (apply Z.mod_pos_bound; lia).
  rewrite (lor_shiftl_add (PTX va)) by (unfold PTXSHIFT; simpl; lia).
  rewrite lor_shiftl_add by (unfold PDXSHIFT, PTXSHIFT in *; simpl; lia).
  unfold PDXSHIFT, PTXSHIFT. rewrite PDX_eq, PTX_eq.
  assert (E : va / 4194304 = va / 4096 / 1024) by (rewrite Z.div_div by lia; done).
  rewrite E. rewrite (Z.mod_small (va / 4096 / 1024)).
  - rewrite u32_small; pose proof (Z.div_mod va 4096); pose proof (Z.div_mod (va / 4096) 1024); lia.
  - split; [apply Z.div_pos; [apply Z.div_pos|]; lia|].
    apply Z.div_lt_upper_bound; [lia|]. apply Z.div_lt_upper_bound; lia.
Qed.

Lemma PGADDR_split_witness : PGADDR (PDX 0x80ABCDEF) (PTX 0x80ABCDEF) (0x80ABCDEF mod PGSIZE) = 0x80ABCDEF.
Proof. apply (PGADDR_split 0x80ABCDEF). lia. Defined.

(** Cut a word in two halves and put it together again. *)
Lemma lor_split a k : 0 <= k -> Z.lor (Z.land a (Z.ones k)) (Z.shiftl (Z.shiftr a k) k) = a.
Proof.
  intros Hk. apply Z.bits_inj'. intros i Hi.
  rewrite Z.lor_spec, Z.land_spec, Z.testbit_ones_nonneg, Z.shiftl_spec by done.
  destruct (decide (i < k)) as [E|E].
  - rewrite (proj2 (Z.ltb_lt i k)), (Z.testbit_neg_r _ (i - k)) by lia.
    by rewrite andb_true_r, orb_false_r.
  - rewrite (proj2 (Z.ltb_ge i k)), Z.shiftr_spec by lia. rewrite andb_false_r. simpl.
    f_equal. lia.
Qed.

(** The processor reads back from an interrupt gate the handler address it
    was set up with, and from a segment descriptor the base and, in units of
    pages, the limit. *)
Theorem descriptors_decode type base lim dpl istrap sel off d :
  0 <= base < 2 ^ 32 -> 0 <= lim < 2 ^ 32 -> 0 <= off < 2 ^ 32 ->
  gate_offset (SETGATE istrap sel off d) = off /\
  seg_base (SEG type base lim dpl) = base /\
  seg_limit (SEG type base lim dpl) = Z.lor lim 0xfff.
Proof.
  intros Hb Hl Ho. split_and!.
  - unfold gate_offset. simpl. change 0xffff with (Z.ones 16). by apply lor_split.
  - unfold seg_base. simpl. change 0xffff with (Z.ones 16). change 0xff with (Z.ones 8).
    rewrite <- Z.lor_assoc.
    replace (Z.shiftr base 24) with (Z.shiftr (Z.shiftr base 16) 8)
      by (by rewrite Z.shiftr_shiftr by lia).
    replace 24 with (8 + 16) by lia. rewrite <- Z.shiftl_shiftl by lia.
    rewrite <- Z.shiftl_lor, lor_split by lia. by apply lor_split.
  - unfold seg_limit. simpl. change 0xffff with (Z.ones 16).
    replace (Z.shiftr lim 28) with (Z.shiftr (Z.shiftr lim 12) 16)
      by (by rewrite Z.shiftr_shiftr by lia).
    rewrite lor_split by lia. change 0xfff with (Z.ones 12).
    rewrite <- (lor_split lim 12) at 2 by lia.
    rewrite (Z.lor_comm (Z.land _ _)), <- Z.lor_assoc. f_equal.
    apply Z.bits_inj'. intros i Hi. rewrite Z.lor_spec, Z.land_spec.
    by destruct (Z.testbit lim i), (Z.testbit (Z.ones 12) i).
Qed.

Lemma descriptors_decode_witness :
  gate_offset (SETGATE true 8 0x80104567 3) = 0x80104567 /\
  seg_base (SEG 10 0x12345678 0xffffffff 0) = 0x12345678 /\
  seg_limit (SEG 10 0x12345678 0xffffffff 0) = 0xffffffff.
Proof. exact (descriptors_decode 10 0x12345678 0xffffffff 0 true 8 0x80104567 3
                ltac:(lia) ltac:(lia) ltac:(lia)). Defined.

(** ** Trap and interrupt numbers (traps.h) *)

Definition T_SYSCALL : Z := 64.
Definition T_IRQ0 : Z := 32.
Definition IRQ_TIMER : Z := 0.
Definition IRQ_KBD : Z := 1.
Definition IRQ_COM1 : Z := 4.
Definition IRQ_IDE : Z := 14.
Definition IRQ_ERROR : Z := 19.
Definition IRQ_SPURIOUS : Z := 31.
