(* ===== verification/Hw.v ===== *)
(** * Ports, device registers and the devices behind them

    The instructions of x86.h that reach devices: [inb] and [outb] on ports,
    [insl] and [outsl] for 32-bit words in bulk, and loads and stores of the
    registers that are mapped into memory.  What the devices answer is the
    class [Bus]: a device state [D] with one function per kind of access;
    [mach] adds the static variables of the drivers and of mp.c.  Then the
    documented behaviour of the interrupt controllers, the disk drive and the
    serial port, each as a small reference machine with a class that says when
    a bus has such a device on it.  The theorems on the drivers are proved for
    every bus with these laws; [pc] is one. *)
From S2P Require Import Prelude.

(** Bulk transfers move [cnt] words of 4 bytes, here as bytes. *)
Class Bus (D : Type) := {
  bus_inb : Z -> D -> Z * D;
  bus_outb : Z -> Z -> D -> D;
  bus_insl : Z -> nat -> D -> list Z * D;
  bus_outsl : Z -> list Z -> D -> D;
  bus_load : Z -> D -> Z * D;
  bus_store : Z -> Z -> D -> D
}.

(** The static variables: irqmask of picirq.c, uart of uart.c, lapic, ismp,
    ncpu, ioapicid, the ids of cpus and bcpu of mp.c; [wrv] is the warm reset
    vector, two shorts in low memory that lapic.c writes. *)
Record mach (D : Type) := Mach {
  bus : D;
  irqmask : Z;
  uart : bool;
  lapic : Z;
  ismp : bool;
  ncpu : Z;
  ioapicid : Z;
  cpu_id : list Z;
  bcpu : Z;
  wrv : Z * Z
}.
Arguments Mach {D}.
Arguments bus {D}.
Arguments irqmask {D}.
Arguments uart {D}.
Arguments lapic {D}.
Arguments ismp {D}.
Arguments ncpu {D}.
Arguments ioapicid {D}.
Arguments cpu_id {D}.
Arguments bcpu {D}.
Arguments wrv {D}.

Definition set_bus {D} (v : D) (m : mach D) : mach D :=
  Mach v (irqmask m) (uart m) (lapic m) (ismp m) (ncpu m) (ioapicid m) (cpu_id m) (bcpu m) (wrv m).
Definition set_irqmask {D} (v : Z) (m : mach D) : mach D :=
  Mach (bus m) v (uart m) (lapic m) (ismp m) (ncpu m) (ioapicid m) (cpu_id m) (bcpu m) (wrv m).
Definition set_uart {D} (v : bool) (m : mach D) : mach D :=
  Mach (bus m) (irqmask m) v (lapic m) (ismp m) (ncpu m) (ioapicid m) (cpu_id m) (bcpu m) (wrv m).
Definition set_wrv {D} (v : Z * Z) (m : mach D) : mach D :=
  Mach (bus m) (irqmask m) (uart m) (lapic m) (ismp m) (ncpu m) (ioapicid m) (cpu_id m) (bcpu m) v.

Section Access.
Context {D : Type} `{Bus D}.

Definition inb (port : Z) : M (mach D) Z :=
  fun m => let '(v, d) := bus_inb port (bus m) in Ret v (set_bus d m).
Definition outb (port data : Z) : M (mach D) unit :=
  modify (fun m => set_bus (bus_outb port (u8 data) (bus m)) m).
(** The bytes that [insl] puts at its [addr]. *)
Definition insl (port : Z) (cnt : nat) : M (mach D) (list Z) :=
  fun m => let '(l, d) := bus_insl port cnt (bus m) in Ret l (set_bus d m).
Definition outsl (port : Z) (data : list Z) : M (mach D) unit :=
  modify (fun m => set_bus (bus_outsl port data (bus m)) m).
(** Access to a register in memory: a volatile uint. *)
Definition load_reg (a : Z) : M (mach D) Z :=
  fun m => let '(v, d) := bus_load a (bus m) in Ret v (set_bus d m).
Definition store_reg (a v : Z) : M (mach D) unit :=
  modify (fun m => set_bus (bus_store a (u32 v) (bus m)) m).
End Access.

(** ** The 8259A interrupt controllers

    A write of ICW1 (bit 4 set) to the command port starts the initialisation
    and clears the mask; ICW2 (vector base), ICW3 (unless ICW1 said single)
    and ICW4 (if ICW1 announced it) follow on the data port; after that the
    data port is the mask. *)
Inductive icw := Icw2 (single icw4 : bool) | Icw3 (icw4 : bool) | Icw4 | Operate.
Record chip := Chip { c_base : Z; c_mask : Z; c_phase : icw }.

Definition chip_cmd (v : Z) (c : chip) : chip :=
  if Z.testbit v 4 then Chip (c_base c) 0 (Icw2 (Z.testbit v 1) (Z.testbit v 0)) else c.
Definition chip_data (v : Z) (c : chip) : chip :=
  let last (four : bool) := if four then Icw4 else Operate in
  match c_phase c with
  | Icw2 single four => Chip (Z.land v 0xF8) (c_mask c) (if single then last four else Icw3 four)
  | Icw3 four => Chip (c_base c) (c_mask c) (last four)
  | Icw4 => Chip (c_base c) (c_mask c) Operate
  | Operate => Chip (c_base c) v Operate
  end.
Definition pic_outb (p v : Z) (cs : chip * chip) : chip * chip :=
  let '(c1, c2) := cs in
  if p =? 0x20 then (chip_cmd v c1, c2) else
  if p =? 0x21 then (chip_data v c1, c2) else
  if p =? 0xA0 then (c1, chip_cmd v c2) else
  if p =? 0xA1 then (c1, chip_data v c2) else cs.

Class PicBus (D : Type) `{Bus D} := {
  pics : D -> chip * chip;
  pics_outb p v d : pics (bus_outb p v d) = pic_outb p v (pics d)
}.

(** ** The I/O APIC: a register select and a data window *)
Record ioregs := IoRegs { io_sel : Z; io_reg : gmap Z Z }.

Definition IOBASE : Z := 0xFEC00000.
Definition io_store (a v : Z) (r : ioregs) : ioregs :=
  if a =? IOBASE then IoRegs v (io_reg r) else
  if a =? IOBASE + 16 then IoRegs (io_sel r) (<[io_sel r := v]> (io_reg r)) else r.

Class IoapicBus (D : Type) `{Bus D} := {
  ioapic : D -> ioregs;
  ioapic_store a v d : ioapic (bus_store a v d) = io_store a v (ioapic d);
  ioapic_data d : let '(v, d') := bus_load (IOBASE + 16) d in
    v = default 0 (io_reg (ioapic d) !! io_sel (ioapic d)) /\ ioapic d' = ioapic d
}.

(** ** The local APIC at [base]

    Its registers by index, the interprocessor interrupts that writes of the
    command register (index 0xC0) have sent, each to the APIC named by the
    register 0xC4, and how many more readings show the last one pending. *)
Record lapicst := Lapic { l_reg : gmap Z Z; l_ipis : list (Z * Z); l_pending : nat }.

Class LapicBus (D : Type) `{Bus D} (base : Z) := {
  local : D -> lapicst;
  local_store i v d : 0 <= i < 256 -> i <> 0xC0 ->
    local (bus_store (base + 4 * i) v d) =
      Lapic (<[i := v]> (l_reg (local d))) (l_ipis (local d)) (l_pending (local d));
  local_send v d : exists n, local (bus_store (base + 4 * 0xC0) v d) =
    Lapic (<[0xC0 := v]> (l_reg (local d)))
      (l_ipis (local d) ++ [(Z.shiftr (default 0 (l_reg (local d) !! 0xC4)) 24, v)]) n;
  local_load i d : 0 <= i < 256 -> i <> 0xC0 ->
    let '(v, d') := bus_load (base + 4 * i) d in
    v = default 0 (l_reg (local d) !! i) /\ local d' = local d;
  local_sent d : let '(v, d') := bus_load (base + 4 * 0xC0) d in
    (Z.land v 0x1000 =? 0) = (l_pending (local d) =? 0)%nat /\
    local d' = Lapic (l_reg (local d)) (l_ipis (local d)) (pred (l_pending (local d)));
  local_out p v d : local (bus_outb p v d) = local d
}.

(** ** The disk drives, for transfers of one sector by programmed I/O

    The address is taken from the registers: the drive from bit 4 of the
    device register, the sector from the 28 bits of the LBA registers.  A
    command for a sector the drive does not have sets the error bit. *)
Inductive acmd := AIdle | ARead (k : Z * Z) | AWrite (k : Z * Z).
Record atast := Ata {
  a_media : gmap (Z * Z) (list Z);
  a_two : bool;
  a_regs : gmap Z Z;
  a_cmd : acmd;
  a_err : bool
}.

Definition a_get (p : Z) (a : atast) : Z := default 0 (a_regs a !! p).
Definition a_drive (a : atast) : Z := Z.land (Z.shiftr (a_get 0x1f6 a) 4) 1.
Definition a_addr (a : atast) : Z * Z :=
  (a_drive a,
   a_get 0x1f3 a + 2 ^ 8 * a_get 0x1f4 a + 2 ^ 16 * a_get 0x1f5 a
   + 2 ^ 24 * Z.land (a_get 0x1f6 a) 0x0f).
Definition a_present (a : atast) : bool := a_two a || (a_drive a =? 0).

Definition ata_command (v : Z) (a : atast) : atast :=
  let start c := Ata (a_media a) (a_two a) (a_regs a) c false in
  let error := Ata (a_media a) (a_two a) (a_regs a) AIdle true in
  match a_media a !! a_addr a with
  | Some _ =>
      if negb (a_get 0x1f2 a =? 1) then error else
      if v =? 0x20 then start (ARead (a_addr a)) else
      if v =? 0x30 then start (AWrite (a_addr a)) else error
  | None => error
  end.
Definition ata_outb (p v : Z) (a : atast) : atast :=
  if p =? 0x1f7 then ata_command v a else
  if (0x1f2 <=? p) && (p <=? 0x1f6) then
    Ata (a_media a) (a_two a) (<[p := v]> (a_regs a)) (a_cmd a) (a_err a)
  else a.
Definition ata_outsl (l : list Z) (a : atast) : atast :=
  match a_cmd a with
  | AWrite k => Ata (<[k := l]> (a_media a)) (a_two a) (a_regs a) AIdle (a_err a)
  | _ => a
  end.
Definition ata_insl (a : atast) : option (list Z * atast) :=
  match a_cmd a with
  | ARead k =>
      (fun l => (l, Ata (a_media a) (a_two a) (a_regs a) AIdle (a_err a))) <$> a_media a !! k
  | _ => None
  end.

(** [busy d]: how many more readings of the status show the drive busy. *)
Class AtaBus (D : Type) `{Bus D} := {
  ata : D -> atast;
  busy : D -> nat;
  ata_out p v d : ata (bus_outb p v d) = ata_outb p v (ata d);
  ata_outs l d : ata (bus_outsl 0x1f0 l d) = ata_outsl l (ata d);
  ata_ins d l a : busy d = 0%nat -> ata_insl (ata d) = Some (l, a) ->
    exists d', bus_insl 0x1f0 128 d = (l, d') /\ ata d' = a;
  ata_store a v d : ata (bus_store a v d) = ata d;
  ata_status d : let '(r, d') := bus_inb 0x1f7 d in
    ata d' = ata d /\
    if a_present (ata d) then
      r <> 0 /\ busy d' = pred (busy d) /\
      (Z.land r 0xC0 = 0x40 <-> busy d = 0%nat) /\
      (busy d = 0%nat -> (Z.land r 0x21 =? 0) = negb (a_err (ata d)))
    else r = 0
}.

(** ** The serial port

    Bytes received, bytes sent, how many more readings of the line status show
    the transmitter full (up to [com1_lag] after a byte), and whether the divisor latch is open (bit 7 of the
    line control register), which takes the place of the data register. *)
Record serialst := Serial { s_in : list Z; s_out : list Z; s_full : nat; s_dlab : bool }.

Class UartBus (D : Type) `{Bus D} := {
  com1 : D -> serialst;
  com1_status d : let '(r, d') := bus_inb 0x3fd d in
    com1 d' = Serial (s_in (com1 d)) (s_out (com1 d)) (pred (s_full (com1 d))) (s_dlab (com1 d)) /\
    r <> 0xFF /\
    (Z.land r 0x20 =? 0) = negb (s_full (com1 d) =? 0)%nat /\
    (Z.land r 0x01 =? 0) = match s_in (com1 d) with [] => true | _ => false end;
  com1_data d : s_dlab (com1 d) = false -> let '(r, d') := bus_inb 0x3f8 d in
    match s_in (com1 d) with
    | [] => com1 d' = com1 d
    | b :: l => r = b /\ com1 d' = Serial l (s_out (com1 d)) (s_full (com1 d)) false
    end;
  com1_lag : nat;
  com1_send v d : s_dlab (com1 d) = false -> s_full (com1 d) = 0%nat ->
    exists n, (n <= com1_lag)%nat /\
      com1 (bus_outb 0x3f8 v d) = Serial (s_in (com1 d)) (s_out (com1 d) ++ [v]) n false;
  com1_latch v d : s_dlab (com1 d) = true -> com1 (bus_outb 0x3f8 v d) = com1 d;
  com1_control v d : com1 (bus_outb 0x3fb v d) =
    Serial (s_in (com1 d)) (s_out (com1 d)) (s_full (com1 d)) (Z.testbit v 7);
  com1_ack d : com1 (bus_inb 0x3fa d).2 = com1 d;
  com1_other p v d : p <> 0x3f8 -> p <> 0x3fb -> com1 (bus_outb p v d) = com1 d;
  com1_store a v d : com1 (bus_store a v d) = com1 d
}.

(** ** A machine with all of these devices

    An instance of the classes of devices, for the examples: the drive is
    busy for up to seven readings of its status after a command, the serial
    port for two readings after a byte. *)

Record pc := Pc {
  p_pics : chip * chip;
  p_io : ioregs;
  p_ata : atast;
  p_busy : nat;
  p_com : serialst;
  p_local : lapicst
}.

Definition pc_status (d : pc) : Z :=
  if a_present (p_ata d) then
    if (Nat.min 7 (p_busy d) =? 0)%nat then 0x40 + (if a_err (p_ata d) then 1 else 0) else 0x80
  else 0.

Definition pc_line (c : serialst) : Z :=
  (if (s_full c =? 0)%nat then 0x20 else 0) + match s_in c with [] => 0 | _ => 1 end.

Definition com_data (c : serialst) : Z * serialst :=
  match s_in c with
  | b :: l => if s_dlab c then (0, c) else (b, Serial l (s_out c) (s_full c) false)
  | [] => (0, c)
  end.

Definition com_outb (p v : Z) (c : serialst) : serialst :=
  if p =? 0x3fb then Serial (s_in c) (s_out c) (s_full c) (Z.testbit v 7) else
  if (p =? 0x3f8) && negb (s_dlab c) then Serial (s_in c) (s_out c ++ [v]) 2 false else c.

(** The registers of the local APIC. *)
Definition LBASE : Z := 0xFEE00000.
Definition local_index (a : Z) : option Z :=
  if (LBASE <=? a) && (a <? LBASE + 1024) && (a mod 4 =? 0) then Some ((a - LBASE) / 4) else None.
Definition local_put (a v : Z) (l : lapicst) : lapicst :=
  match local_index a with
  | None => l
  | Some i =>
      if i =? 0xC0 then
        Lapic (<[i := v]> (l_reg l)) (l_ipis l ++ [(Z.shiftr (default 0 (l_reg l !! 0xC4)) 24, v)]) 2
      else Lapic (<[i := v]> (l_reg l)) (l_ipis l) (l_pending l)
  end.
Definition local_get (a : Z) (l : lapicst) : Z * lapicst :=
  match local_index a with
  | None => (0, l)
  | Some i =>
      if i =? 0xC0 then (if (Nat.min 2 (l_pending l) =? 0)%nat then 0 else 0x1000,
                         Lapic (l_reg l) (l_ipis l) (pred (Nat.min 2 (l_pending l))))
      else (default 0 (l_reg l !! i), l)
  end.

#[export] Instance pc_bus : Bus pc := {
  bus_inb p d :=
    if p =? 0x1f7 then
      (pc_status d, Pc (p_pics d) (p_io d) (p_ata d) (pred (Nat.min 7 (p_busy d))) (p_com d) (p_local d))
    else if p =? 0x3fd then
      (pc_line (p_com d), Pc (p_pics d) (p_io d) (p_ata d) (p_busy d)
         (Serial (s_in (p_com d)) (s_out (p_com d)) (pred (s_full (p_com d))) (s_dlab (p_com d))) (p_local d))
    else if p =? 0x3f8 then
      ((com_data (p_com d)).1, Pc (p_pics d) (p_io d) (p_ata d) (p_busy d) (com_data (p_com d)).2 (p_local d))
    else (0, d);
  bus_outb p v d :=
    Pc (pic_outb p v (p_pics d)) (p_io d) (ata_outb p v (p_ata d))
      (if p =? 0x1f7 then 7%nat else p_busy d) (com_outb p v (p_com d)) (p_local d);
  bus_insl p cnt d :=
    match ata_insl (p_ata d) with
    | Some (l, a) => (l, Pc (p_pics d) (p_io d) a (p_busy d) (p_com d) (p_local d))
    | None => ([], d)
    end;
  bus_outsl p l d :=
    Pc (p_pics d) (p_io d) (ata_outsl l (p_ata d)) (p_busy d) (p_com d) (p_local d);
  bus_load a d :=
    if a =? IOBASE + 16 then (default 0 (io_reg (p_io d) !! io_sel (p_io d)), d)
    else let '(v, l) := local_get a (p_local d) in
         (v, Pc (p_pics d) (p_io d) (p_ata d) (p_busy d) (p_com d) l);
  bus_store a v d :=
    Pc (p_pics d) (io_store a v (p_io d)) (p_ata d) (p_busy d) (p_com d) (local_put a v (p_local d))
}.

#[export] Instance pc_pic : PicBus pc.
Proof. refine {| pics := p_pics |}. done. Defined.

#[export] Instance pc_ioapic : IoapicBus pc.
Proof. refine {| ioapic := p_io |}; done. Defined.

#[export] Instance pc_ata : AtaBus pc.
Proof.
  refine {| ata := p_ata; busy d := Nat.min 7 (p_busy d) |}; try done.
  - intros d l a _ E. cbn. rewrite E. by eexists.
  - intros d. cbn -[Nat.min]. split; [done|]. unfold pc_status. destruct (a_present _); [|done].
    destruct (Nat.min 7 (p_busy d)) as [|n] eqn:E; cbn -[Nat.min].
    + by destruct (a_err _).
    + split_and!; [done|apply Nat.min_r; lia|done|done].
Defined.

#[export] Instance pc_uart : UartBus pc.
Proof.
  refine {| com1 := p_com; com1_lag := 2 |}; try done.
  - intros d. cbn. unfold pc_line. split; [done|].
    destruct (s_full _); destruct (s_in _); done.
  - intros d Hd. cbn. unfold com_data. rewrite Hd. by destruct (s_in _).
  - intros v d Hd _. exists 2%nat. cbn. unfold com_outb. by rewrite Hd.
  - intros v d Hd. cbn. unfold com_outb. by rewrite Hd.
  - intros p v d H1 H2. cbn. unfold com_outb. apply Z.eqb_neq in H1, H2. by rewrite H1, H2.
Defined.

Lemma local_index_at i : 0 <= i < 256 -> local_index (LBASE + 4 * i) = Some i.
Proof.
  intros Hi. unfold local_index, LBASE. rewrite (proj2 (Z.leb_le _ _)), (proj2 (Z.ltb_lt _ _)) by lia.
  rewrite (proj2 (Z.eqb_eq _ _)).
  - cbn [andb]. f_equal. symmetry. apply Z.div_unique with 0; lia.
  - rewrite Z.mul_comm, Z_mod_plus_full. done.
Qed.

#[export] Instance pc_lapic : LapicBus pc LBASE.
Proof.
  refine {| local d := Lapic (l_reg (p_local d)) (l_ipis (p_local d)) (Nat.min 2 (l_pending (p_local d))) |}.
  - intros i v d Hi Hne. cbn -[Nat.min]. unfold local_put. rewrite local_index_at by done.
    by rewrite (proj2 (Z.eqb_neq _ _)).
  - intros v d. exists 2%nat. done.
  - intros i d Hi Hne. cbn -[Nat.min]. rewrite (proj2 (Z.eqb_neq _ _)) by (unfold IOBASE, LBASE; lia).
    unfold local_get. rewrite local_index_at by done. by rewrite (proj2 (Z.eqb_neq i _)).
  - intros d. cbn -[Nat.min]. change (LBASE + 4 * 192 =? IOBASE + 16) with false. cbv iota.
    unfold local_get. change (local_index (LBASE + 4 * 192)) with (Some 192). cbn -[Nat.min].
    destruct (Nat.min 2 (l_pending (p_local d))) as [|n] eqn:E; [done|]. cbn -[Nat.min].
    split; [done|]. f_equal. lia.
  - done.
Defined.

Lemma pc_sent (d : pc) : (l_pending (local (base := LBASE) d) < 3)%nat.
Proof. cbn -[Nat.min]. lia. Qed.

Lemma pc_busy (d : pc) : (busy d < 8)%nat.
Proof. cbn -[Nat.min]. lia. Qed.

(** Two drives of two sectors each, nothing initialised. *)
Definition sector (x : Z) : list Z := replicate 512 x.
Definition pc_demo (input : list Z) : mach pc :=
  Mach (Pc (Chip 0 0 Operate, Chip 0 0 Operate) (IoRegs 0 (<[1 := 0x170011]> ∅))
    (Ata (list_to_map [((0, 0), sector 10); ((0, 1), sector 11); ((1, 0), sector 20); ((1, 1), sector 21)])
       true ∅ AIdle false) 3 (Serial input [] 0 false) (Lapic {[8 := 0]} [] 0))
    0xFFFB false 0xFEE00000 true 2 0 [0; 1] 0 (0, 0).
