(* ===== verification/Irq.v ===== *)
(** * Interrupt controllers and the timer (picirq.c, ioapic.c, lapic.c, timer.c)

    The two 8259A controllers, the I/O APIC, the interval timer and the local
    APIC.  The
    theorems follow them to the state of the devices: which interrupts are
    let through, with which vector and to which CPU. *)
From S2P Require Import Prelude Mmu Hw.

Section Irq.
Context {D : Type} `{Bus D}.

(** ** picirq.c *)

Definition IO_PIC1 : Z := 0x20.
Definition IO_PIC2 : Z := 0xA0.
Definition IRQ_SLAVE : Z := 2.

(** The initial value of irqmask. *)
Definition irqmask0 : Z := Z.land 0xFFFF (Z.lnot (Z.shiftl 1 IRQ_SLAVE)).

Definition picsetmask (mask : Z) : M (mach D) unit :=
  modify (set_irqmask mask);;;
  outb (IO_PIC1 + 1) mask;;;
  outb (IO_PIC2 + 1) (Z.shiftr mask 8).

Definition picenable (irq : Z) : M (mach D) unit :=
  m <~ gets irqmask;;;
  picsetmask (u16 (Z.land m (Z.lnot (Z.shiftl 1 irq)))).

Definition picinit : M (mach D) unit :=
  outb (IO_PIC1 + 1) 0xFF;;;
  outb (IO_PIC2 + 1) 0xFF;;;
  outb IO_PIC1 0x11;;;
  outb (IO_PIC1 + 1) T_IRQ0;;;
  outb (IO_PIC1 + 1) (Z.shiftl 1 IRQ_SLAVE);;;
  outb (IO_PIC1 + 1) 0x3;;;
  outb IO_PIC2 0x11;;;
  outb (IO_PIC2 + 1) (T_IRQ0 + 8);;;
  outb (IO_PIC2 + 1) IRQ_SLAVE;;;
  outb (IO_PIC2 + 1) 0x3;;;
  outb IO_PIC1 0x68;;;
  outb IO_PIC1 0x0a;;;
  outb IO_PIC2 0x68;;;
  outb IO_PIC2 0x0a;;;
  m <~ gets irqmask;;;
  when (negb (m =? 0xFFFF)) (picsetmask m).

(** ** ioapic.c *)

Definition IOAPIC : Z := 0xFEC00000.
Definition REG_ID : Z := 0x00.
Definition REG_VER : Z := 0x01.
Definition REG_TABLE : Z := 0x10.
Definition INT_DISABLED : Z := 0x00010000.

(** The fields of struct ioapic: reg at offset 0, data at offset 16. *)
Definition ioapicread (reg : Z) : M (mach D) Z :=
  store_reg IOAPIC reg;;;
  load_reg (IOAPIC + 16).

Definition ioapicwrite (reg data : Z) : M (mach D) unit :=
  store_reg IOAPIC reg;;;
  store_reg (IOAPIC + 16) data.

(** The message about a wrong id goes no further. *)
Definition ioapicinit : M (mach D) unit :=
  mp <~ gets ismp;;;
  when mp
    (v <~ ioapicread REG_VER;;;
     let maxintr := Z.land (Z.shiftr v 16) 0xFF in
     ioapicread REG_ID;;;
     mfor (seq 0 (Z.to_nat (maxintr + 1))) (fun i =>
       ioapicwrite (REG_TABLE + 2 * Z.of_nat i) (Z.lor INT_DISABLED (T_IRQ0 + Z.of_nat i));;;
       ioapicwrite (REG_TABLE + 2 * Z.of_nat i + 1) 0)).

Definition ioapicenable (irq cpunum : Z) : M (mach D) unit :=
  mp <~ gets ismp;;;
  when mp
    (ioapicwrite (REG_TABLE + 2 * irq) (T_IRQ0 + irq);;;
     ioapicwrite (REG_TABLE + 2 * irq + 1) (Z.shiftl cpunum 24)).

(** ** timer.c *)

Definition IO_TIMER1 : Z := 0x040.
Definition TIMER_FREQ : Z := 1193182.
Definition TIMER_DIV (x : Z) : Z := (TIMER_FREQ + x / 2) / x.
Definition TIMER_MODE : Z := IO_TIMER1 + 3.

Definition timerinit : M (mach D) unit :=
  outb TIMER_MODE (Z.lor (Z.lor 0x00 0x04) 0x30);;;
  outb IO_TIMER1 (TIMER_DIV 100 mod 256);;;
  outb IO_TIMER1 (TIMER_DIV 100 / 256);;;
  picenable IRQ_TIMER.
End Irq.

(** ** What reaches the 8259A controllers *)

Section Pic.
Context {D : Type} `{Bus D} `{!PicBus D}.
Implicit Types m : mach D.

(** Both controllers are initialised and their masks are irqmask. *)
Definition pic_ready m : Prop :=
  pics (bus m) = (Chip T_IRQ0 (u8 (irqmask m)) Operate,
                  Chip (T_IRQ0 + 8) (u8 (Z.shiftr (irqmask m) 8)) Operate).

Definition masked (x : Z) (irqs : list Z) : Z :=
  foldl (fun y irq => u16 (Z.land y (Z.lnot (Z.shiftl 1 irq)))) x irqs.

Lemma picsetmask_run x m :
  exists m', picsetmask x m = Ret tt m' /\ irqmask m' = x /\
    forall c1 c2, pics (bus m) = (c1, c2) ->
      pics (bus m') = (chip_data (u8 x) c1, chip_data (u8 (Z.shiftr x 8)) c2).
Proof.
  eexists. split; [done|]. split; [done|]. intros c1 c2 E. cbn. by rewrite !pics_outb, E.
Qed.

Lemma picenable_run irq m :
  exists m', picenable irq m = Ret tt m' /\ irqmask m' = masked (irqmask m) [irq] /\
    (pic_ready m -> pic_ready m').
Proof.
  destruct (picsetmask_run (masked (irqmask m) [irq]) m) as (m' & E & Hi & Hp).
  exists m'. split; [done|]. split; [done|]. intros R. unfold pic_ready in *.
  by rewrite (Hp _ _ R), Hi.
Qed.

Lemma picenables_run irqs m :
  exists m', mfor irqs picenable m = Ret tt m' /\ irqmask m' = masked (irqmask m) irqs /\
    (pic_ready m -> pic_ready m').
Proof.
  revert m. induction irqs as [|irq l IH]; intros m; [by exists m|].
  destruct (picenable_run irq m) as (m1 & E1 & Hi1 & R1).
  destruct (IH m1) as (m2 & E2 & Hi2 & R2). exists m2. cbn [mfor].
  rewrite (bind_Ret _ _ _ _ _ E1). split; [done|]. split; [|auto].
  by rewrite Hi2, Hi1.
Qed.

Lemma picinit_run m :
  irqmask m <> 0xFFFF ->
  exists m', picinit m = Ret tt m' /\ irqmask m' = irqmask m /\ pic_ready m'.
Proof.
  intros Hx. apply Z.eqb_neq in Hx. unfold picinit, outb. rewrite !bind_modify, bind_gets.
  cbn [irqmask set_bus]. rewrite Hx. cbn [negb when].
  eexists. split; [done|]. split; [done|]. unfold pic_ready. cbn.
  rewrite !pics_outb. by destruct (pics (bus m)).
Qed.

Lemma masked_spec irqs x k :
  0 <= k < 16 -> Forall (fun irq => 0 <= irq) irqs ->
  Z.testbit (masked x irqs) k = Z.testbit x k && bool_decide (k ∉ irqs).
Proof.
  intros Hk. revert x. induction irqs as [|irq l IH]; intros x F.
  - rewrite bool_decide_true by apply not_elem_of_nil. by rewrite andb_true_r.
  - apply Forall_cons in F as [Hi F]. change (masked x (irq :: l)) with (masked (masked x [irq]) l).
    rewrite IH by done. cbn [masked foldl]. unfold u16. rewrite Z.mod_pow2_bits_low by lia.
    rewrite Z.land_spec, Z.lnot_spec, Z.shiftl_1_l, Z.pow2_bits_eqb by lia.
    rewrite <- andb_assoc. f_equal. destruct (Z.eqb_spec irq k) as [->|Hne]; cbn.
    + symmetry. apply bool_decide_false. intros Hn. apply Hn. left.
    + apply bool_decide_ext. rewrite not_elem_of_cons. naive_solver.
Qed.

Lemma mask_bits x k : 0 <= k < 16 ->
  Z.testbit (Z.lor (u8 x) (Z.shiftl (u8 (Z.shiftr x 8)) 8)) k = Z.testbit x k.
Proof.
  intros Hk. unfold u8. change 256 with (2 ^ 8). rewrite Z.lor_spec, Z.shiftl_spec by lia.
  destruct (decide (k < 8)) as [Hl|Hl].
  - rewrite Z.mod_pow2_bits_low, (Z.testbit_neg_r _ (k - 8)), orb_false_r by lia. done.
  - rewrite Z.mod_pow2_bits_high, Z.mod_pow2_bits_low, Z.shiftr_spec by lia. cbn.
    f_equal. lia.
Qed.

(** Whatever was enabled before or after the controllers are initialised, they
    end up programmed for the vectors from T_IRQ0 on, with exactly the enabled
    interrupts and the cascade let through. *)
Theorem pic_lets_through before after m :
  irqmask m = irqmask0 -> Forall (fun irq => 0 <= irq) (before ++ after) ->
  exists m' k1 k2,
    (mfor before picenable;;; picinit;;; mfor after picenable) m = Ret tt m' /\
    pics (bus m') = (Chip T_IRQ0 k1 Operate, Chip (T_IRQ0 + 8) k2 Operate) /\
    forall irq, 0 <= irq < 16 ->
      Z.testbit (Z.lor k1 (Z.shiftl k2 8)) irq = false <->
      irq = IRQ_SLAVE \/ irq ∈ before ++ after.
Proof.
  intros Hm F. destruct (picenables_run before m) as (m1 & E1 & Hi1 & _).
  assert (Hbit : forall k l, Forall (fun irq => 0 <= irq) l -> 0 <= k < 16 ->
    Z.testbit (masked irqmask0 l) k = false <-> k = IRQ_SLAVE \/ k ∈ l).
  { intros k l Fl Hk. rewrite masked_spec by done. change irqmask0 with (0xFFFF - 2 ^ 2).
    assert (Ek : Z.testbit (0xFFFF - 2 ^ 2) k = negb (k =? IRQ_SLAVE)).
    { assert (In k (map Z.of_nat (seq 0 16))) as Hin.
      { apply in_map_iff. exists (Z.to_nat k). split; [lia|]. apply in_seq. lia. }
      cbn in Hin. repeat destruct Hin as [<-|Hin]; done. }
    rewrite Ek. destruct (Z.eqb_spec k IRQ_SLAVE); cbn [negb andb]; [naive_solver|].
    rewrite bool_decide_eq_false. destruct (decide (k ∈ l)); naive_solver. }
  apply Forall_app in F as [Fb Fa].
  assert (Hne : irqmask m1 <> 0xFFFF).
  { intros E. pose proof (proj2 (Hbit IRQ_SLAVE before Fb ltac:(unfold IRQ_SLAVE; lia)) (or_introl eq_refl)) as B.
    by rewrite <- Hm, <- Hi1, E in B. }
  destruct (picinit_run m1 Hne) as (m2 & E2 & Hi2 & R2).
  destruct (picenables_run after m2) as (m3 & E3 & Hi3 & R3). specialize (R3 R2).
  exists m3, (u8 (irqmask m3)), (u8 (Z.shiftr (irqmask m3) 8)).
  split; [|split; [done|]].
  - rewrite (bind_Ret _ _ _ _ _ E1), (bind_Ret _ _ _ _ _ E2). done.
  - intros k Hk. rewrite mask_bits by done. rewrite Hi3, Hi2, Hi1, Hm.
    change (masked (masked irqmask0 before) after) with
      (foldl (fun y irq => u16 (Z.land y (Z.lnot (Z.shiftl 1 irq)))) (masked irqmask0 before) after).
    unfold masked at 1. rewrite <- foldl_app. apply Hbit; [by apply Forall_app|done].
Qed.
End Pic.

(** ** The redirection table of the I/O APIC *)

Section Ioapic.
Context {D : Type} `{Bus D} `{!IoapicBus D}.
Implicit Types m : mach D.

Lemma ioapicwrite_run reg v m :
  0 <= reg < 2 ^ 32 ->
  exists d, ioapicwrite reg v m = Ret tt (set_bus d m) /\
    ioapic d = IoRegs reg (<[reg := u32 v]> (io_reg (ioapic (bus m)))).
Proof.
  intros Hr. eexists. split; [done|]. cbn. rewrite !ioapic_store, (u32_small reg) by done.
  by destruct (ioapic (bus m)).
Qed.

Lemma ioapicread_run reg m :
  0 <= reg < 2 ^ 32 ->
  exists d, ioapicread reg m = Ret (default 0 (io_reg (ioapic (bus m)) !! reg)) (set_bus d m) /\
    io_reg (ioapic d) = io_reg (ioapic (bus m)).
Proof.
  intros Hr. unfold ioapicread, store_reg. rewrite bind_modify, u32_small by done.
  unfold load_reg. cbn [bus set_bus]. pose proof (ioapic_data (bus_store IOAPIC reg (bus m))) as L.
  destruct (bus_load _ _) as [v d]. destruct L as [-> L]. exists d. rewrite L, ioapic_store.
  by destruct (ioapic (bus m)).
Qed.

(** The two registers of an entry. *)
Definition redir (t : gmap Z Z) (i : Z) : option (Z * Z) :=
  lo ← t !! (REG_TABLE + 2 * i); hi ← t !! (REG_TABLE + 2 * i + 1); Some (lo, hi).

Lemma entry_run i lo hi m :
  0 <= i < 2 ^ 16 ->
  exists d, (ioapicwrite (REG_TABLE + 2 * i) lo;;; ioapicwrite (REG_TABLE + 2 * i + 1) hi) m
      = Ret tt (set_bus d m) /\
    redir (io_reg (ioapic d)) i = Some (u32 lo, u32 hi) /\
    forall j, j <> i -> redir (io_reg (ioapic d)) j = redir (io_reg (ioapic (bus m))) j.
Proof.
  intros Hi. unfold REG_TABLE.
  destruct (ioapicwrite_run (0x10 + 2 * i) lo m ltac:(lia)) as (d1 & E1 & R1).
  destruct (ioapicwrite_run (0x10 + 2 * i + 1) hi (set_bus d1 m) ltac:(lia)) as (d2 & E2 & R2).
  exists d2. rewrite (bind_Ret _ _ _ _ _ E1), E2. split; [done|].
  rewrite R2. cbn [bus set_bus io_reg]. rewrite R1. cbn [io_reg]. unfold redir, REG_TABLE. split.
  - rewrite (lookup_insert_ne _ (0x10 + 2 * i + 1) (0x10 + 2 * i)) by lia. by rewrite !lookup_insert_eq.
  - intros j Hj. by rewrite !lookup_insert_ne by lia.
Qed.

Definition disabled (i : Z) : Z * Z := (Z.lor INT_DISABLED (T_IRQ0 + i), 0).
(** What an entry holds after the calls of [ioapicenable] for [irqs]. *)
Definition routed (irqs : list (Z * Z)) (i : Z) : Z * Z :=
  foldl (fun e '(irq, cpu) => if irq =? i then (T_IRQ0 + irq, u32 (Z.shiftl cpu 24)) else e)
    (disabled i) irqs.

Lemma ioapicinit_run m :
  ismp m = true ->
  let maxintr := Z.land (Z.shiftr (default 0 (io_reg (ioapic (bus m)) !! REG_VER)) 16) 0xFF in
  exists d, ioapicinit m = Ret tt (set_bus d m) /\
    forall i, 0 <= i <= maxintr -> redir (io_reg (ioapic d)) i = Some (disabled i).
Proof.
  intros Hmp maxintr. unfold ioapicinit. rewrite bind_gets, Hmp. cbn [when].
  destruct (ioapicread_run REG_VER m ltac:(unfold REG_VER; lia)) as (d1 & E1 & R1). rewrite (bind_Ret _ _ _ _ _ E1).
  destruct (ioapicread_run REG_ID (set_bus d1 m) ltac:(unfold REG_ID; lia)) as (d2 & E2 & R2).
  rewrite (bind_Ret _ _ _ _ _ E2). fold maxintr. change (set_bus d2 (set_bus d1 m)) with (set_bus d2 m).
  assert (Hmax : 0 <= maxintr < 256).
  { unfold maxintr. change 0xFF with (Z.ones 8). rewrite Z.land_ones by lia.
    apply Z.mod_pos_bound. lia. }
  destruct (mfor_seq_inv (fun k s => exists d, s = set_bus d m /\
      forall i, 0 <= i < Z.of_nat k -> redir (io_reg (ioapic d)) i = Some (disabled i))
    0 (Z.to_nat (maxintr + 1)) (fun i =>
       ioapicwrite (REG_TABLE + 2 * Z.of_nat i) (Z.lor INT_DISABLED (T_IRQ0 + Z.of_nat i));;;
       ioapicwrite (REG_TABLE + 2 * Z.of_nat i + 1) 0) (set_bus d2 m))
    as (s' & Es & d & -> & Hd).
  - exists d2. split; [done|]. lia.
  - intros j s Hj (d & -> & Hd).
    destruct (entry_run (Z.of_nat j) (Z.lor INT_DISABLED (T_IRQ0 + Z.of_nat j)) 0 (set_bus d m)
      ltac:(lia)) as (d' & E' & Hi & Ho).
    exists (set_bus d' m). split; [done|]. exists d'. split; [done|]. intros i Hin.
    destruct (decide (i = Z.of_nat j)) as [->|Hne].
    + rewrite Hi. unfold disabled. do 2 f_equal. apply u32_small.
      split; [apply Z.lor_nonneg; unfold INT_DISABLED, T_IRQ0; lia|].
      eapply Z.le_lt_trans; [|by instantiate (1 := 0x10000 + 0x1ff)].
      rewrite Z.lor_comm. unfold INT_DISABLED, T_IRQ0.
      pose proof (Z.add_lor_land (32 + Z.of_nat j) 65536).
      pose proof (Z.land_nonneg (32 + Z.of_nat j) 65536). lia.
    + rewrite Ho by done. apply Hd. lia.
  - exists d. split; [done|]. intros i Hi. apply Hd. lia.
Qed.

Lemma ioapicenable_run irq cpu m :
  ismp m = true -> 0 <= irq < 2 ^ 16 ->
  exists d, ioapicenable irq cpu m = Ret tt (set_bus d m) /\
    redir (io_reg (ioapic d)) irq = Some (T_IRQ0 + irq, u32 (Z.shiftl cpu 24)) /\
    forall j, j <> irq -> redir (io_reg (ioapic d)) j = redir (io_reg (ioapic (bus m))) j.
Proof.
  intros Hmp Hi. unfold ioapicenable. rewrite bind_gets, Hmp. cbn [when].
  destruct (entry_run irq (T_IRQ0 + irq) (Z.shiftl cpu 24) m Hi) as (d & E & E1 & E2).
  exists d. rewrite E1, (u32_small (T_IRQ0 + irq)) by (unfold T_IRQ0; lia). done.
Qed.

(** On a multiprocessor every entry of the redirection table ends up either
    with the vector of its interrupt and the CPU it was last enabled for, or
    disabled. *)
Theorem ioapic_routes irqs m :
  ismp m = true ->
  let maxintr := Z.land (Z.shiftr (default 0 (io_reg (ioapic (bus m)) !! REG_VER)) 16) 0xFF in
  Forall (fun e => 0 <= e.1 <= maxintr) irqs ->
  exists d,
    (ioapicinit;;; mfor irqs (fun e => ioapicenable e.1 e.2)) m = Ret tt (set_bus d m) /\
    forall i, 0 <= i <= maxintr -> redir (io_reg (ioapic d)) i = Some (routed irqs i).
Proof.
  intros Hmp maxintr F. destruct (ioapicinit_run m Hmp) as (d0 & E0 & H0). fold maxintr in H0.
  assert (Hmax : maxintr < 2 ^ 16).
  { unfold maxintr. change 0xFF with (Z.ones 8). rewrite Z.land_ones by lia.
    eapply Z.lt_trans; [apply Z.mod_pos_bound; lia|done]. }
  rewrite (bind_Ret _ _ _ _ _ E0). clear E0.
  assert (G : forall e0 d, Forall (fun e => 0 <= e.1 <= maxintr) irqs ->
    (forall i, 0 <= i <= maxintr -> redir (io_reg (ioapic d)) i = Some (e0 i)) ->
    exists d', mfor irqs (fun e => ioapicenable e.1 e.2) (set_bus d m) = Ret tt (set_bus d' m) /\
      forall i, 0 <= i <= maxintr -> redir (io_reg (ioapic d')) i =
        Some (foldl (fun e '(irq, cpu) =>
          if irq =? i then (T_IRQ0 + irq, u32 (Z.shiftl cpu 24)) else e) (e0 i) irqs)).
  { clear F H0 d0. induction irqs as [|[irq cpu] l IH]; intros e0 d F Hd; [by exists d|].
    apply Forall_cons in F as [Hi F]. cbn [fst] in Hi.
    destruct (ioapicenable_run irq cpu (set_bus d m) Hmp ltac:(lia)) as (d1 & E1 & H1 & Ho).
    destruct (IH (fun i => if irq =? i then (T_IRQ0 + irq, u32 (Z.shiftl cpu 24)) else e0 i) d1 F)
      as (d2 & E2 & H2).
    { intros i Hin. destruct (Z.eqb_spec irq i) as [<-|Hne]; [done|].
      rewrite Ho by done. by apply Hd. }
    exists d2. cbn [mfor fst snd]. by rewrite (bind_Ret _ _ _ _ _ E1). }
  apply (G disabled); done.
Qed.
End Ioapic.

(** ** The local APIC (lapic.c)

    Registers are at [lapic + 4 * index]; [lapic] is 0 when there is none.
    [fuel] bounds how often the delivery status is read.  The message of
    [cpunum] goes no further. *)

Definition ID : Z := 0x0020 / 4.
Definition VER : Z := 0x0030 / 4.
Definition TPR : Z := 0x0080 / 4.
Definition EOI : Z := 0x00B0 / 4.
Definition SVR : Z := 0x00F0 / 4.
Definition ENABLE : Z := 0x00000100.
Definition ESR : Z := 0x0280 / 4.
Definition ICRLO : Z := 0x0300 / 4.
Definition INIT : Z := 0x00000500.
Definition STARTUP : Z := 0x00000600.
Definition DELIVS : Z := 0x00001000.
Definition ASSERT : Z := 0x00004000.
Definition LEVEL : Z := 0x00008000.
Definition BCAST : Z := 0x00080000.
Definition ICRHI : Z := 0x0310 / 4.
Definition TIMER : Z := 0x0320 / 4.
Definition X1 : Z := 0x0000000B.
Definition PERIODIC : Z := 0x00020000.
Definition PCINT : Z := 0x0340 / 4.
Definition LINT0 : Z := 0x0350 / 4.
Definition LINT1 : Z := 0x0360 / 4.
Definition ERROR : Z := 0x0370 / 4.
Definition MASKED : Z := 0x00010000.
Definition TICR : Z := 0x0380 / 4.
Definition TDCR : Z := 0x03E0 / 4.
Definition IO_RTC : Z := 0x70.

Section Lapic.
Context {D : Type} `{Bus D} (fuel : nat).

Definition lapicr (index : Z) : M (mach D) Z :=
  l <~ gets lapic;;; load_reg (l + 4 * index).

Definition lapicw (index value : Z) : M (mach D) unit :=
  l <~ gets lapic;;;
  store_reg (l + 4 * index) value;;;
  lapicr ID;;;
  ret tt.

(** The loop of [lapicinit] on the delivery status. *)
Fixpoint delivered (n : nat) : M (mach D) unit :=
  match n with
  | O => hang
  | S n' => v <~ lapicr ICRLO;;; if Z.land v DELIVS =? 0 then ret tt else delivered n'
  end.

Definition lapicinit (c : Z) : M (mach D) unit :=
  l <~ gets lapic;;;
  when (negb (l =? 0))
    (lapicw SVR (Z.lor ENABLE (T_IRQ0 + IRQ_SPURIOUS));;;
     lapicw TDCR X1;;;
     lapicw TIMER (Z.lor PERIODIC (T_IRQ0 + IRQ_TIMER));;;
     lapicw TICR 10000000;;;
     lapicw LINT0 MASKED;;;
     lapicw LINT1 MASKED;;;
     v <~ lapicr VER;;;
     when (4 <=? Z.land (Z.shiftr v 16) 0xFF) (lapicw PCINT MASKED);;;
     lapicw ERROR (T_IRQ0 + IRQ_ERROR);;;
     lapicw ESR 0;;;
     lapicw ESR 0;;;
     lapicw EOI 0;;;
     lapicw ICRHI 0;;;
     lapicw ICRLO (Z.lor (Z.lor BCAST INIT) LEVEL);;;
     delivered fuel;;;
     lapicw TPR 0).

Definition cpunum : M (mach D) Z :=
  l <~ gets lapic;;;
  if negb (l =? 0) then v <~ lapicr ID;;; ret (Z.shiftr v 24) else ret 0.

Definition lapiceoi : M (mach D) unit :=
  l <~ gets lapic;;;
  when (negb (l =? 0)) (lapicw EOI 0).

Definition microdelay (us : Z) : M (mach D) unit := ret tt.

Definition lapicstartap (apicid a : Z) : M (mach D) unit :=
  outb IO_RTC 0xF;;;
  outb (IO_RTC + 1) 0x0A;;;
  modify (set_wrv (0, u16 (Z.shiftr a 4)));;;
  lapicw ICRHI (Z.shiftl apicid 24);;;
  lapicw ICRLO (Z.lor (Z.lor INIT LEVEL) ASSERT);;;
  microdelay 200;;;
  lapicw ICRLO (Z.lor INIT LEVEL);;;
  microdelay 100;;;
  mfor (seq 0 2) (fun _ =>
    lapicw ICRHI (Z.shiftl apicid 24);;;
    lapicw ICRLO (Z.lor STARTUP (Z.shiftr a 12));;;
    microdelay 200).
End Lapic.

Section LapicTheorems.
Context {D : Type} `{Bus D} (base : Z) `{!LapicBus D base} (fuel : nat).
Context (Hfuel : forall d : D, (l_pending (local (base := base) d) < fuel)%nat).
Implicit Types m : mach D.
Abbreviation loc := (local (base := base)).
Abbreviation reg d i := (default 0 (l_reg (loc d) !! i)).

Lemma lapicr_run m i d : lapic m = base -> 0 <= i < 256 -> i <> ICRLO ->
  exists d', lapicr i (set_bus d m) = Ret (reg d i) (set_bus d' m) /\ loc d' = loc d.
Proof.
  intros Hbase Hi Hne. unfold lapicr. rewrite bind_gets. cbn [lapic set_bus]. rewrite Hbase.
  unfold load_reg. cbn [bus set_bus]. pose proof (local_load i d Hi Hne) as L.
  destruct (bus_load _ d) as [v d']. destruct L as [-> L]. by exists d'.
Qed.

Lemma lapicw_run m i v d : lapic m = base -> 0 <= i < 256 -> i <> ICRLO ->
  exists d', lapicw i v (set_bus d m) = Ret tt (set_bus d' m) /\
    loc d' = Lapic (<[i := u32 v]> (l_reg (loc d))) (l_ipis (loc d)) (l_pending (loc d)).
Proof.
  intros Hbase Hi Hne. unfold lapicw, store_reg. rewrite bind_gets, bind_modify. cbn [lapic set_bus bus].
  rewrite Hbase. destruct (lapicr_run m ID (bus_store (base + 4 * i) (u32 v) d)) as (d' & E & L); [done..|].
  exists d'. rewrite (bind_Ret _ _ _ _ _ E), L, local_store by done. done.
Qed.

Lemma lapicw_send m v d :
  lapic m = base ->
  exists d' n, lapicw ICRLO v (set_bus d m) = Ret tt (set_bus d' m) /\
    loc d' = Lapic (<[ICRLO := u32 v]> (l_reg (loc d)))
      (l_ipis (loc d) ++ [(Z.shiftr (reg d ICRHI) 24, u32 v)]) n.
Proof.
  intros Hbase. unfold lapicw, store_reg. rewrite bind_gets, bind_modify. cbn [lapic set_bus bus]. rewrite Hbase.
  destruct (lapicr_run m ID (bus_store (base + 4 * ICRLO) (u32 v) d)) as (d' & E & L); [done..|].
  destruct (local_send (u32 v) d) as [n Hn]. exists d', n.
  rewrite (bind_Ret _ _ _ _ _ E), L. split; [done|]. exact Hn.
Qed.

Lemma delivered_run m n d : lapic m = base -> (l_pending (loc d) < n)%nat ->
  exists d', delivered n (set_bus d m) = Ret tt (set_bus d' m) /\
    l_reg (loc d') = l_reg (loc d) /\ l_ipis (loc d') = l_ipis (loc d).
Proof.
  intros Hbase. revert d. induction n as [|n IH]; intros d Hn; [lia|]. cbn [delivered].
  unfold lapicr. rewrite bind_assoc, bind_gets. cbn [lapic set_bus]. rewrite Hbase.
  unfold load_reg, bind at 1. cbn [bus set_bus]. pose proof (local_sent d) as L. change (0x0300 / 4) with 0xC0.
  unfold ICRLO. change (0x0300 / 4) with 0xC0.
  destruct (bus_load _ d) as [v d']. destruct L as [Hv L]. unfold DELIVS. rewrite Hv.
  destruct (Nat.eqb_spec (l_pending (loc d)) 0) as [E|E].
  - exists d'. by rewrite L.
  - destruct (IH d') as (d2 & E2 & R2 & I2); [rewrite L; cbn; lia|].
    exists d2. split; [exact E2|]. by rewrite R2, I2, L.
Qed.

(** One step of a sequence of writes. *)
Ltac lwrite :=
  match goal with |- context [bind (lapicw ?i ?v) _ (set_bus ?d ?m)] =>
    let d' := fresh "d" in let E := fresh "E" in let L := fresh "L" in
    first [ destruct (lapicw_run m i v d) as (d' & E & L); [done|done|done|]
          | destruct (lapicw_send m v d) as (d' & ? & E & L); [done|] ];
    rewrite (bind_Ret _ _ _ _ _ E); clear E
  end.

(** Reads the registers back through the writes. *)
Ltac lregs :=
  repeat (first
    [ match goal with L : loc ?d = _ |- context [loc ?d] => rewrite L; cbn [l_reg l_ipis] end
    | match goal with R : l_reg (loc ?d) = _ |- context [l_reg (loc ?d)] => rewrite R end
    | match goal with R : l_ipis (loc ?d) = _ |- context [l_ipis (loc ?d)] => rewrite R end
    | rewrite lookup_insert_eq
    | rewrite lookup_insert_ne by done
    | match goal with R : forall i, i <> _ -> ?r !! i = _ |- context [?r !! _] => rewrite R by done end ]);
  try done.

Lemma pcint_run m v d :
  lapic m = base ->
  exists d' r, when v (lapicw PCINT MASKED) (set_bus d m) = Ret tt (set_bus d' m) /\
    loc d' = Lapic r (l_ipis (loc d)) (l_pending (loc d)) /\
    forall i, i <> PCINT -> r !! i = l_reg (loc d) !! i.
Proof.
  intros Hbase. destruct v; cbn [when].
  - destruct (lapicw_run m PCINT MASKED d) as (d' & E & L); [done..|]. eexists d', _.
    split; [done|]. split; [exact L|]. intros i Hi. by rewrite lookup_insert_ne.
  - exists d, (l_reg (loc d)). split; [done|]. by destruct (loc d).
Qed.

(** [lapicinit] ends, and leaves the local APIC enabled, with the clock
    interrupt periodic at the vector that [trap] takes for the clock, errors
    and spurious interrupts at vectors of their own, the interrupt lines
    masked and every priority let through; it sends one broadcast. *)
Theorem lapicinit_programs m c d0 :
  lapic m = base -> base <> 0 ->
  exists d, lapicinit fuel c (set_bus d0 m) = Ret tt (set_bus d m) /\
    Forall (fun e => l_reg (loc d) !! e.1 = Some e.2)
      [(SVR, Z.lor ENABLE (T_IRQ0 + IRQ_SPURIOUS)); (TIMER, Z.lor PERIODIC (T_IRQ0 + IRQ_TIMER));
       (TICR, 10000000); (TDCR, X1); (LINT0, MASKED); (LINT1, MASKED); (ERROR, T_IRQ0 + IRQ_ERROR); (TPR, 0)] /\
    l_ipis (loc d) = l_ipis (loc d0) ++ [(0, Z.lor (Z.lor BCAST INIT) LEVEL)].
Proof.
  intros Hbase Hpresent. unfold lapicinit. rewrite bind_gets. cbn [lapic set_bus]. rewrite Hbase.
  apply Z.eqb_neq in Hpresent as Hp. rewrite Hp. cbn [negb when]. do 6 lwrite.
  match goal with |- context [bind (lapicr VER) _ (set_bus ?d ?m)] =>
    destruct (lapicr_run m VER d) as (x5 & E5 & K5); [done..|] end.
  rewrite (bind_Ret _ _ _ _ _ E5). clear E5.
  match goal with |- context [bind (when ?v (lapicw PCINT MASKED)) _ _] =>
    destruct (pcint_run m v x5 Hbase) as (x6 & r6 & E6 & K6 & R6) end.
  rewrite (bind_Ret _ _ _ _ _ E6). clear E6. do 6 lwrite.
  match goal with |- context [bind (delivered fuel) _ (set_bus ?d ?m)] =>
    destruct (delivered_run m fuel d Hbase (Hfuel d)) as (x7 & E7 & R7 & I7) end.
  rewrite (bind_Ret _ _ _ _ _ E7). clear E7.
  destruct (lapicw_run m TPR 0 x7) as (x8 & E8 & K8); [done..|]. exists x8. split; [done|].
  split; [repeat constructor; cbn [fst snd]|]; lregs.
Qed.

(** [lapicstartap] sends the APIC of the other CPU, and no other, the sequence
    of the startup protocol: INIT asserted and deasserted, then STARTUP twice
    with the page of the code; the warm reset vector points to it. *)
Theorem startap_sequence m apicid a d0 :
  lapic m = base -> 0 <= apicid < 256 -> 0 <= a < 2 ^ 20 ->
  exists d, lapicstartap apicid a (set_bus d0 m) = Ret tt (set_bus d (set_wrv (0, a / 2 ^ 4) m)) /\
    l_ipis (loc d) = l_ipis (loc d0) ++
      [(apicid, Z.lor (Z.lor INIT LEVEL) ASSERT); (apicid, Z.lor INIT LEVEL);
       (apicid, Z.lor STARTUP (a / 2 ^ 12)); (apicid, Z.lor STARTUP (a / 2 ^ 12))] /\
    l_reg (loc d) !! ID = l_reg (loc d0) !! ID.
Proof.
  intros Hbase Hid Ha. unfold lapicstartap, outb, microdelay. rewrite !bind_modify. cbn [bus set_bus].
  rewrite !Z.shiftr_div_pow2 by lia.
  assert (u16 (a / 2 ^ 4) = a / 2 ^ 4) as ->.
  { apply Z.mod_small. split; [apply Z.div_pos; lia|]. apply Z.div_lt_upper_bound; lia. }
  set (m' := set_wrv (0, a / 2 ^ 4) m). set (d1 := bus_outb _ _ (bus_outb _ _ d0)).
  match goal with |- context [bind _ _ ?st] => change st with (set_bus d1 m') end.
  assert (Hb' : lapic m' = base) by done. cbn [mfor seq].
  lwrite. lwrite. rewrite bind_ret. lwrite. rewrite bind_ret, bind_assoc. lwrite. rewrite bind_assoc.
  lwrite. rewrite bind_ret, !bind_assoc. lwrite. rewrite bind_assoc. lwrite.
  assert (Hd1 : loc d1 = loc d0) by (unfold d1; by rewrite !local_out).
  assert (Hhi : Z.shiftr (u32 (Z.shiftl apicid 24)) 24 = apicid).
  { rewrite u32_small, Z.shiftr_shiftl_l, Z.shiftl_0_r by (rewrite ?Z.shiftl_mul_pow2; lia). done. }
  assert (Hst : u32 (Z.lor STARTUP (a / 2 ^ 12)) = Z.lor STARTUP (a / 2 ^ 12)).
  { apply u32_small. assert (0 <= a / 2 ^ 12 < 2 ^ 8).
    { split; [apply Z.div_pos; lia|]. apply Z.div_lt_upper_bound; lia. }
    pose proof (Z.add_lor_land STARTUP (a / 2 ^ 12)). pose proof (Z.land_nonneg STARTUP (a / 2 ^ 12)).
    pose proof (Z.lor_nonneg STARTUP (a / 2 ^ 12)). unfold STARTUP in *. lia. }
  eexists. split; [done|]. split; lregs. unfold default, id. rewrite !Hhi, Hst, <- !app_assoc. done.
Qed.
End LapicTheorems.
