(* ===== verification/Spinlock.v ===== *)
(** * Spin locks (spinlock.c, spinlock.h)

    Two views of the same code.  The sequential view gives [pushcli],
    [popcli], [holding], [acquire] and [release] as operations of one CPU on
    the lock words; the other components run their critical sections with it,
    so that a missing or doubled [release] shows up as a panic.  The
    interleaving view splits [acquire] and [release] into their memory
    accesses and runs any number of CPUs against one lock.  The debugging
    array [pcs] is not part of the state; the stack walk that fills it is
    [getcallerpcs]. *)
From S2P Require Import Prelude Mmu.

(** ** Sequential view *)

Record spinlock := Spinlock {
  locked : Z;
  name : string;
  lcpu : option nat
}.

(** The fields of [struct cpu] that locking uses, and the interrupt flag of
    its eflags register. *)
Record cpu := Cpu {
  id : nat;
  ncli : Z;
  intena : bool;
  eflags_if : bool
}.

Record lstate := LState {
  this_cpu : cpu;
  locks : list spinlock
}.

Definition set_cpu (c : cpu) (s : lstate) : lstate := LState c (locks s).
Definition set_lock (i : nat) (lk : spinlock) (s : lstate) : lstate :=
  LState (this_cpu s) (<[i := lk]> (locks s)).

Definition readeflags : M lstate bool := gets (fun s => eflags_if (this_cpu s)).
Definition set_if (b : bool) : M lstate unit :=
  modify (fun s => set_cpu (Cpu (id (this_cpu s)) (ncli (this_cpu s))
                              (intena (this_cpu s)) b) s).
Definition cli : M lstate unit := set_if false.
Definition sti : M lstate unit := set_if true.
Definition set_ncli (n : Z) : M lstate unit :=
  modify (fun s => set_cpu (Cpu (id (this_cpu s)) n (intena (this_cpu s))
                              (eflags_if (this_cpu s))) s).
Definition set_intena (b : bool) : M lstate unit :=
  modify (fun s => set_cpu (Cpu (id (this_cpu s)) (ncli (this_cpu s)) b
                              (eflags_if (this_cpu s))) s).

Definition initlock (i : nat) (nm : string) : M lstate unit :=
  modify (set_lock i (Spinlock 0 nm None)).

Definition pushcli : M lstate unit :=
  eflags <~ readeflags;;;
  cli;;;
  n <~ gets (fun s => ncli (this_cpu s));;;
  set_ncli (n + 1);;;
  when (n =? 0) (set_intena eflags).

Definition popcli : M lstate unit :=
  eflags <~ readeflags;;;
  if eflags then panic "popcli - interruptible" else
  n <~ gets (fun s => ncli (this_cpu s));;;
  set_ncli (n - 1);;;
  if n - 1 <? 0 then panic "popcli" else
  ena <~ gets (fun s => intena (this_cpu s));;;
  when ((n - 1 =? 0) && ena) sti.

(** [lock->locked && lock->cpu == cpu] *)
Definition holding_lk (me : nat) (lk : spinlock) : bool :=
  negb (locked lk =? 0) && bool_decide (lcpu lk = Some me).

Definition holding (i : nat) : M lstate bool :=
  lk <~ gets_opt (fun s => locks s !! i);;;
  me <~ gets (fun s => id (this_cpu s));;;
  ret (holding_lk me lk).

(** [xchg(&lk->locked, v)] returns the old value. *)
Definition xchg (i : nat) (v : Z) : M lstate Z :=
  lk <~ gets_opt (fun s => locks s !! i);;;
  modify (set_lock i (Spinlock v (name lk) (lcpu lk)));;;
  ret (locked lk).

Definition set_lcpu (i : nat) (c : option nat) : M lstate unit :=
  lk <~ gets_opt (fun s => locks s !! i);;;
  modify (set_lock i (Spinlock (locked lk) (name lk) c)).

(** The loop [while(xchg(&lk->locked, 1) != 0);] of one CPU in isolation
    finds the lock free at once or never. *)
Definition acquire (i : nat) : M lstate unit :=
  pushcli;;;
  h <~ holding i;;;
  if h : bool then panic "acquire" else
  old <~ xchg i 1;;;
  if negb (old =? 0) then hang else
  me <~ gets (fun s => id (this_cpu s));;;
  set_lcpu i (Some me).

Definition release (i : nat) : M lstate unit :=
  h <~ holding i;;;
  if negb h then panic "release" else
  set_lcpu i None;;;
  xchg i 0;;;
  popcli.

(** The saved %ebp chain: [ebp[1]] is the return address, [ebp[0]] the
    caller's frame.  [mem a] is the word at address [a]. *)
Fixpoint walk_frames (mem : Z -> Z) (n : nat) (ebp : Z) : list Z :=
  match n with
  | O => []
  | S n' =>
      if (ebp =? 0) || (ebp <? KERNBASE) || (ebp =? 0xffffffff)
      then replicate (S n') 0
      else mem (ebp + 4) :: walk_frames mem n' (mem ebp)
  end.

Definition getcallerpcs (mem : Z -> Z) (v : Z) : list Z :=
  walk_frames mem 10 (v - 8).

(** ** Properties of the sequential view *)

(** A CPU that is between critical sections with interrupts on. *)
Definition quiet (c : cpu) : Prop :=
  0 <= ncli c /\ (0 < ncli c -> eflags_if c = false).

Lemma pushcli_run s :
  pushcli s =
  Ret tt (set_cpu (Cpu (id (this_cpu s)) (ncli (this_cpu s) + 1)
                     (if ncli (this_cpu s) =? 0 then eflags_if (this_cpu s)
                      else intena (this_cpu s)) false) s).
Proof.
  unfold pushcli, readeflags, cli, set_if, set_ncli, set_intena. mred. simpl.
  by destruct (ncli (this_cpu s) =? 0).
Qed.

Lemma popcli_run s :
  eflags_if (this_cpu s) = false -> 0 < ncli (this_cpu s) ->
  popcli s =
  Ret tt (set_cpu (Cpu (id (this_cpu s)) (ncli (this_cpu s) - 1)
                     (intena (this_cpu s))
                     ((ncli (this_cpu s) - 1 =? 0) && intena (this_cpu s))) s).
Proof.
  intros Hf Hn. unfold popcli, readeflags, sti, set_if, set_ncli. mred.
  rewrite Hf. simpl. destruct (ncli (this_cpu s) - 1 <? 0) eqn:E; [lia|].
  destruct ((ncli (this_cpu s) - 1 =? 0) && intena (this_cpu s)) eqn:E2;
    simpl; rewrite ?E2; by rewrite ?Hf.
Qed.

(** Well-bracketed sequences of [pushcli] and [popcli]. *)
Inductive cliop := Push | Pop.

Inductive balanced : list cliop -> Prop :=
| bal_nil : balanced []
| bal_wrap l : balanced l -> balanced (Push :: l ++ [Pop])
| bal_app l1 l2 : balanced l1 -> balanced l2 -> balanced (l1 ++ l2).

Definition run_cliop (o : cliop) : M lstate unit :=
  match o with Push => pushcli | Pop => popcli end.

Lemma quiet_push c :
  quiet c -> quiet (Cpu (id c) (ncli c + 1)
    (if ncli c =? 0 then eflags_if c else intena c) false).
Proof. unfold quiet. simpl. lia. Qed.

Lemma balanced_run l s :
  balanced l -> quiet (this_cpu s) ->
  exists ena,
    mfor l run_cliop s =
      Ret tt (set_cpu (Cpu (id (this_cpu s)) (ncli (this_cpu s)) ena
                         (eflags_if (this_cpu s))) s) /\
    (0 < ncli (this_cpu s) -> ena = intena (this_cpu s)).
Proof.
  intros Hb. revert s. induction Hb as [|l Hb IH|l1 l2 Hb1 IH1 Hb2 IH2]; intros s Hq.
  - exists (intena (this_cpu s)). by destruct s as [[]].
  - simpl. unfold bind at 1. rewrite pushcli_run.
    set (s1 := set_cpu _ s).
    destruct (IH s1 (quiet_push _ Hq)) as (ena & Hrun & Hena).
    rewrite mfor_app. unfold bind at 1. rewrite Hrun.
    specialize (Hena ltac:(subst s1; simpl; destruct Hq; lia)).
    subst s1; simpl in *. subst ena. unfold bind.
    destruct Hq as [H0 H1]. rewrite popcli_run by (simpl; auto; lia). simpl.
    replace (ncli (this_cpu s) + 1 - 1) with (ncli (this_cpu s)) by lia.
    eexists. unfold set_cpu. simpl. split.
    + do 3 f_equal. destruct (ncli (this_cpu s) =? 0) eqn:E; simpl; [done|].
      symmetry. apply H1. lia.
    + intros. destruct (ncli (this_cpu s) =? 0) eqn:E; [lia|done].
  - destruct (IH1 s Hq) as (e1 & R1 & E1).
    rewrite mfor_app. unfold bind. rewrite R1. simpl.
    edestruct (IH2 (set_cpu (Cpu (id (this_cpu s)) (ncli (this_cpu s)) e1
                     (eflags_if (this_cpu s))) s)) as (e2 & R2 & E2).
    { done. }
    exists e2. rewrite R2. simpl in *. split; [done|].
    intros H. rewrite E2, E1; done.
Qed.

Theorem cli_nesting l s :
  balanced l -> quiet (this_cpu s) ->
  exists s', mfor l run_cliop s = Ret tt s' /\
    ncli (this_cpu s') = ncli (this_cpu s) /\
    eflags_if (this_cpu s') = eflags_if (this_cpu s) /\
    locks s' = locks s.
Proof.
  intros Hb Hq. destruct (balanced_run l s Hb Hq) as (ena & -> & _). eauto.
Qed.

Theorem acquire_release_id s i lk :
  locks s !! i = Some lk -> locked lk = 0 -> lcpu lk = None ->
  quiet (this_cpu s) ->
  exists s1 ena,
    acquire i s = Ret tt s1 /\
    holding i s1 = Ret true s1 /\
    eflags_if (this_cpu s1) = false /\
    acquire i s1 = Panic "acquire" /\
    release i s1 =
      Ret tt (set_cpu (Cpu (id (this_cpu s)) (ncli (this_cpu s)) ena
                         (eflags_if (this_cpu s))) s).
Proof.
  intros Hl Hf Hc [Hn Hq].
  assert (Hlen : (i < length (locks s))%nat) by by eapply lookup_lt_Some.
  assert (Hacq : acquire i s =
    Ret tt (LState (Cpu (id (this_cpu s)) (ncli (this_cpu s) + 1)
      (if ncli (this_cpu s) =? 0 then eflags_if (this_cpu s)
       else intena (this_cpu s)) false)
      (<[i := Spinlock 1 (name lk) (Some (id (this_cpu s)))]> (locks s)))).
  { unfold acquire. unfold bind at 1. rewrite pushcli_run.
    unfold holding, xchg, set_lcpu. mred. simpl. rewrite Hl.
    unfold holding_lk. rewrite Hf. simpl. rewrite Hl. simpl. rewrite Hf. simpl.
    rewrite list_lookup_insert_eq by done. simpl. unfold set_lock. simpl.
    by rewrite list_insert_insert_eq. }
  eexists _, _. split; [exact Hacq|].
  assert (Hlk : locks s !! i = Some lk -> forall c,
    <[i := Spinlock 1 (name lk) c]> (locks s) !! i = Some (Spinlock 1 (name lk) c)).
  { intros _ c. by apply list_lookup_insert_eq. }
  split_and!.
  - unfold holding. mred. simpl. rewrite Hlk by done. unfold holding_lk. simpl.
    by rewrite bool_decide_true.
  - done.
  - unfold acquire. unfold bind at 1. rewrite pushcli_run.
    unfold holding. mred. simpl. rewrite Hlk by done. unfold holding_lk. simpl.
    by rewrite bool_decide_true.
  - unfold release, holding, set_lcpu, xchg. mred. simpl. rewrite Hlk by done.
    unfold holding_lk. simpl. rewrite bool_decide_true by done. simpl.
    rewrite Hlk by done. simpl.
    rewrite list_lookup_insert_eq by by rewrite length_insert.
    simpl. rewrite popcli_run by (simpl; lia || done). simpl. unfold set_cpu. simpl.
    rewrite !list_insert_insert_eq.
    rewrite (list_insert_id (locks s) i) by (rewrite Hl; destruct lk; simpl in *; congruence).
    replace (ncli (this_cpu s) + 1 - 1) with (ncli (this_cpu s)) by lia.
    do 3 f_equal. destruct (ncli (this_cpu s) =? 0) eqn:E; simpl; [done|].
    symmetry. apply Hq. lia.
Qed.

Lemma release_run s i lk :
  locks s !! i = Some lk -> locked lk <> 0 -> lcpu lk = Some (id (this_cpu s)) ->
  eflags_if (this_cpu s) = false -> 0 < ncli (this_cpu s) ->
  release i s =
  Ret tt (LState (Cpu (id (this_cpu s)) (ncli (this_cpu s) - 1) (intena (this_cpu s))
                    ((ncli (this_cpu s) - 1 =? 0) && intena (this_cpu s)))
            (<[i := Spinlock 0 (name lk) None]> (locks s))).
Proof.
  intros Hl Hlk Hc Hf Hn.
  assert (Hlen : (i < length (locks s))%nat) by by eapply lookup_lt_Some.
  unfold release, holding, set_lcpu, xchg. mred. rewrite Hl.
  unfold holding_lk. rewrite Hc, bool_decide_true by done.
  destruct (locked lk =? 0) eqn:E; [lia|]. simpl. rewrite Hl. simpl.
  rewrite list_lookup_insert_eq by done. simpl.
  rewrite popcli_run by done. unfold set_cpu, set_lock. simpl.
  by rewrite list_insert_insert_eq.
Qed.

Lemma release_not_holding s i lk :
  locks s !! i = Some lk -> holding_lk (id (this_cpu s)) lk = false ->
  release i s = Panic "release".
Proof. intros Hl Hh. unfold release, holding. mred. by rewrite Hl, Hh. Qed.

(** ** Interleaving view

    Program points of a CPU around one lock.  [&&] reads [locked] first and
    [cpu] only when [locked] is set, as [holding] does. *)
Inductive pc :=
| Outside      (* not using the lock *)
| AcqHold1     (* acquire: after pushcli, reads lk->locked of holding() *)
| AcqHold2     (* acquire: reads lk->cpu of holding() *)
| AcqSpin      (* acquire: while(xchg(&lk->locked, 1) != 0) *)
| AcqSetCpu    (* acquire: lk->cpu = cpu *)
| Inside       (* critical section *)
| RelHold1     (* release: reads lk->locked of holding() *)
| RelHold2     (* release: reads lk->cpu of holding() *)
| RelClrCpu    (* release: lk->cpu = 0 *)
| RelXchg      (* release: xchg(&lk->locked, 0) *)
| Panicked (msg : string).

Record mstate := MState {
  m_locked : Z;
  m_cpu : option nat;
  m_pc : nat -> pc
}.

Definition upd_pc (f : nat -> pc) (c : nat) (p : pc) : nat -> pc :=
  fun c' => if decide (c' = c) then p else f c'.

(** One memory access of CPU [c]. *)
Inductive mstep (c : nat) : mstate -> mstate -> Prop :=
| st_enter l o f : f c = Outside ->
    mstep c (MState l o f) (MState l o (upd_pc f c AcqHold1))
| st_hold1 l o f : f c = AcqHold1 ->
    mstep c (MState l o f)
      (MState l o (upd_pc f c (if l =? 0 then AcqSpin else AcqHold2)))
| st_hold2 l o f : f c = AcqHold2 ->
    mstep c (MState l o f)
      (MState l o (upd_pc f c (if decide (o = Some c) then Panicked "acquire" else AcqSpin)))
| st_spin l o f : f c = AcqSpin ->
    mstep c (MState l o f)
      (MState 1 o (upd_pc f c (if l =? 0 then AcqSetCpu else AcqSpin)))
| st_setcpu l o f : f c = AcqSetCpu ->
    mstep c (MState l o f) (MState l (Some c) (upd_pc f c Inside))
| st_leave l o f : f c = Inside ->
    mstep c (MState l o f) (MState l o (upd_pc f c RelHold1))
| st_rel1 l o f : f c = RelHold1 ->
    mstep c (MState l o f)
      (MState l o (upd_pc f c (if l =? 0 then Panicked "release" else RelHold2)))
| st_rel2 l o f : f c = RelHold2 ->
    mstep c (MState l o f)
      (MState l o (upd_pc f c (if decide (o = Some c) then RelClrCpu else Panicked "release")))
| st_clrcpu l o f : f c = RelClrCpu ->
    mstep c (MState l o f) (MState l None (upd_pc f c RelXchg))
| st_xchg0 l o f : f c = RelXchg ->
    mstep c (MState l o f) (MState 0 o (upd_pc f c Outside)).

Inductive mreach : mstate -> Prop :=
| mreach_init : mreach (MState 0 None (fun _ => Outside))
| mreach_step s s' c : mreach s -> mstep c s s' -> mreach s'.

(** Between the successful [xchg] of [acquire] and the [xchg] of [release]. *)
Definition owns (p : pc) : bool :=
  match p with
  | AcqSetCpu | Inside | RelHold1 | RelHold2 | RelClrCpu | RelXchg => true
  | _ => false
  end.

(** Owner whose [lk->cpu] is recorded. *)
Definition recorded (p : pc) : bool :=
  match p with
  | Inside | RelHold1 | RelHold2 | RelClrCpu => true
  | _ => false
  end.

Definition is_panic (p : pc) : bool :=
  match p with Panicked _ => true | _ => false end.

Record lock_inv (s : mstate) : Prop := {
  li_bit : m_locked s = 0 \/ m_locked s = 1;
  li_owner : forall c, owns (m_pc s c) = true -> m_locked s = 1;
  li_unique : forall c d, owns (m_pc s c) = true -> owns (m_pc s d) = true -> c = d;
  li_cpu : forall c, m_cpu s = Some c <-> recorded (m_pc s c) = true;
  li_panic : forall c, is_panic (m_pc s c) = false
}.

Lemma recorded_owns p : recorded p = true -> owns p = true.
Proof. by destruct p. Qed.

Lemma upd_pc_eq f c p : upd_pc f c p c = p.
Proof. unfold upd_pc. by rewrite decide_True. Qed.

Lemma upd_pc_ne f c p d : d <> c -> upd_pc f c p d = f d.
Proof. intros. unfold upd_pc. by rewrite decide_False. Qed.

(** Case split on whether CPU [d] is the one that moved. *)
Ltac split_cpu d c :=
  destruct (decide (d = c)) as [->|?];
  [rewrite ?upd_pc_eq in *|rewrite ?upd_pc_ne in * by done].

(** Moves that neither take nor give up the lock. *)
Lemma lock_inv_stay c l o f p :
  lock_inv (MState l o f) -> is_panic p = false ->
  owns p = owns (f c) -> recorded p = recorded (f c) ->
  lock_inv (MState l o (upd_pc f c p)).
Proof.
  intros [Hbit Hown Huniq Hcpu Hpan] Hp Ho Hr. simpl in *. split; simpl.
  - done.
  - intros d. split_cpu d c; [rewrite Ho|]; apply Hown.
  - intros d e. split_cpu d c; split_cpu e c; rewrite ?Ho; auto.
  - intros d. split_cpu d c; rewrite ?Hr; apply Hcpu.
  - intros d. split_cpu d c; auto.
Qed.

Lemma lock_free_no_owner s c : lock_inv s -> m_locked s = 0 -> owns (m_pc s c) = false.
Proof.
  intros Hi Hl. destruct (owns (m_pc s c)) eqn:E; [|done].
  apply (li_owner s Hi) in E. lia.
Qed.

Lemma lock_inv_take c o f :
  lock_inv (MState 0 o f) -> lock_inv (MState 1 o (upd_pc f c AcqSetCpu)).
Proof.
  intros Hi. pose proof (fun d => lock_free_no_owner _ d Hi eq_refl) as Hno.
  destruct Hi as [Hbit Hown Huniq Hcpu Hpan]. simpl in *.
  assert (Hnr : forall d, recorded (f d) = false).
  { intros d. specialize (Hno d). by destruct (f d). }
  split; simpl.
  - by right.
  - done.
  - intros d e. split_cpu d c; split_cpu e c; rewrite ?Hno; done.
  - intros d. rewrite Hcpu, Hnr. split_cpu d c; rewrite ?Hnr; done.
  - intros d. split_cpu d c; auto.
Qed.

Lemma lock_inv_record c l o f :
  lock_inv (MState l o f) -> f c = AcqSetCpu ->
  lock_inv (MState l (Some c) (upd_pc f c Inside)).
Proof.
  intros [Hbit Hown Huniq Hcpu Hpan] E. simpl in *.
  assert (Hc : owns (f c) = true) by by rewrite E.
  assert (Hne : forall d, d <> c -> owns (f d) = false).
  { intros d Hd. destruct (owns (f d)) eqn:Ed; [|done].
    by rewrite (Huniq d c) in Hd. }
  split; simpl.
  - done.
  - intros d. split_cpu d c; [intros _; by apply (Hown c)|apply Hown].
  - intros d e. split_cpu d c; split_cpu e c; rewrite ?Hne by done; done.
  - intros d. split_cpu d c; [done|].
    assert (recorded (f d) = false) as ->.
    { specialize (Hne d). destruct (f d); naive_solver. }
    naive_solver.
  - intros d. split_cpu d c; auto.
Qed.

Lemma lock_inv_clear c l o f :
  lock_inv (MState l o f) -> f c = RelClrCpu ->
  lock_inv (MState l None (upd_pc f c RelXchg)).
Proof.
  intros [Hbit Hown Huniq Hcpu Hpan] E. simpl in *.
  assert (Ho : o = Some c) by (apply Hcpu; by rewrite E). subst o.
  split; simpl.
  - done.
  - intros d. split_cpu d c; [|apply Hown].
    intros _. apply (Hown c). by rewrite E.
  - intros d e. specialize (Huniq d e). split_cpu d c; split_cpu e c;
      rewrite ?E in Huniq; auto.
  - intros d. split_cpu d c; [done|]. rewrite <- (Hcpu d). naive_solver.
  - intros d. split_cpu d c; auto.
Qed.

Lemma lock_inv_drop c l o f :
  lock_inv (MState l o f) -> f c = RelXchg ->
  lock_inv (MState 0 o (upd_pc f c Outside)).
Proof.
  intros [Hbit Hown Huniq Hcpu Hpan] E. simpl in *.
  assert (Hc : owns (f c) = true) by by rewrite E.
  assert (Hne : forall d, d <> c -> owns (f d) = false).
  { intros d Hd. destruct (owns (f d)) eqn:Ed; [|done].
    by rewrite (Huniq d c) in Hd. }
  split; simpl.
  - by left.
  - intros d. split_cpu d c; rewrite ?Hne by done; done.
  - intros d e. split_cpu d c; [done|]. rewrite ?Hne by done. done.
  - intros d. rewrite (Hcpu d). split_cpu d c; [by rewrite E|done].
  - intros d. split_cpu d c; auto.
Qed.

Lemma lock_inv_step c s s' : lock_inv s -> mstep c s s' -> lock_inv s'.
Proof.
  intros Hi Hst.
  destruct Hst as [l o f E|l o f E|l o f E|l o f E|l o f E|l o f E|l o f E|l o f E|l o f E|l o f E];
    pose proof (li_owner _ Hi c) as Ho; pose proof (li_cpu _ Hi c) as Hc;
    simpl in Ho, Hc; rewrite E in Ho, Hc; simpl in Ho, Hc.
  - by apply lock_inv_stay; rewrite ?E.
  - destruct (l =? 0); by apply lock_inv_stay; rewrite ?E.
  - rewrite decide_False by naive_solver. by apply lock_inv_stay; rewrite ?E.
  - destruct (li_bit _ Hi) as [Hl|Hl]; simpl in Hl; subst l; simpl.
    + by apply lock_inv_take.
    + by apply lock_inv_stay; rewrite ?E.
  - by eapply lock_inv_record.
  - by apply lock_inv_stay; rewrite ?E.
  - specialize (Ho eq_refl). subst l. by apply lock_inv_stay; rewrite ?E.
  - rewrite decide_True by naive_solver. by apply lock_inv_stay; rewrite ?E.
  - by eapply lock_inv_clear.
  - by eapply lock_inv_drop.
Qed.

Lemma lock_inv_reach s : mreach s -> lock_inv s.
Proof.
  induction 1 as [|s s' c Hr IH Hst]; [|by eapply lock_inv_step].
  split; simpl; naive_solver.
Qed.

(** C37: with any number of CPUs interleaving the memory accesses of [acquire]
    and [release] on one lock, at most one CPU is in the critical section, and
    neither the [holding] check of [acquire] nor that of [release] panics. *)
Theorem spinlock_mutual_exclusion s c d :
  mreach s ->
  (m_pc s c = Inside -> m_pc s d = Inside -> c = d) /\
  (forall msg, m_pc s c <> Panicked msg).
Proof.
  intros Hi%lock_inv_reach. split.
  - intros Hc Hd. apply (li_unique s Hi); by rewrite ?Hc, ?Hd.
  - intros msg Hp. pose proof (li_panic s Hi c) as H. by rewrite Hp in H.
Qed.

(** The CPU inside is the one that [holding] reports. *)
Theorem holding_iff_owner s c :
  mreach s -> m_pc s c = Inside ->
  holding_lk c (Spinlock (m_locked s) "" (m_cpu s)) = true /\
  (forall d, d <> c -> holding_lk d (Spinlock (m_locked s) "" (m_cpu s)) = false).
Proof.
  intros Hi%lock_inv_reach Hc.
  assert (m_locked s = 1) as Hl by (apply (li_owner s Hi c); by rewrite Hc).
  assert (m_cpu s = Some c) as Hm by (apply (li_cpu s Hi c); by rewrite Hc).
  unfold holding_lk. simpl. rewrite Hl, Hm. simpl. split.
  - by rewrite bool_decide_true.
  - intros d Hd. apply bool_decide_false. congruence.
Qed.

(** CPU 1 took the lock. *)
Lemma spinlock_mutual_exclusion_witness :
  exists s, mreach s /\ m_pc s 1%nat = Inside /\ forall d, m_pc s d = Inside -> 1%nat = d.
Proof.
  pose (f0 := fun _ : nat => Outside).
  pose (f1 := upd_pc f0 1 AcqHold1). pose (f2 := upd_pc f1 1 AcqSpin).
  pose (f3 := upd_pc f2 1 AcqSetCpu). pose (f4 := upd_pc f3 1 Inside).
  assert (Hr : mreach (MState 1 (Some 1%nat) f4)).
  { apply (mreach_step (MState 1 None f3) _ 1); [|by apply st_setcpu].
    apply (mreach_step (MState 0 None f2) _ 1); [|by apply (st_spin 1 0 None f2)].
    apply (mreach_step (MState 0 None f1) _ 1); [|by apply (st_hold1 1 0 None f1)].
    apply (mreach_step (MState 0 None f0) _ 1); [apply mreach_init|by apply st_enter]. }
  exists (MState 1 (Some 1%nat) f4). split; [exact Hr|]. split; [reflexivity|].
  intros d Hd. exact (proj1 (spinlock_mutual_exclusion _ 1 d Hr) eq_refl Hd).
Defined.
