(* ===== verification/Proc.v ===== *)
(** * Process table and kernel threads (proc.c, proc.h, kthread.h)

    The state of proc.c: the process table, the mutex and condition-variable
    tables, the globals and the CPU's current process.  Every function of
    proc.c up to [exit] is an operation here; the mutexes and condition
    variables are in KSync.  A function that reaches [sched] ends in outcome
    [Sched]; what it does when it runs again is a separate [_resume]
    operation.  Page tables, files and inodes are reached through the
    interface [Services]. *)
From S2P Require Import Prelude Mmu Spinlock.

(** ** Data *)

Definition NPROC : nat := 64.
Definition NOFILE : nat := 16.
Definition MAX_THREADS : Z := 256.
Definition MAX_MUTEXES : Z := 64.
Definition MAX_CONDS : Z := 64.
Definition KSTACKSIZE : Z := 4096.

Inductive procstate :=
| UNUSED | EMBRYO | SLEEPING | RUNNABLE | RUNNING | ZOMBIE | BLOCKING.

#[export] Instance procstate_eq_dec : EqDecision procstate.
Proof. solve_decision. Defined.

(** Sleep channels are addresses; the ones of proc.c are entries of the
    process table and [&ticks]. *)
Inductive channel := ChProc (i : nat) | ChTicks | ChAddr (a : Z).

#[export] Instance channel_eq_dec : EqDecision channel.
Proof. solve_decision. Defined.

(** Registers saved in a trap frame (x86.h). *)
Record trapframe := Trapframe {
  edi : Z;
  esi : Z;
  ebp : Z;
  oesp : Z;
  ebx : Z;
  edx : Z;
  ecx : Z;
  eax : Z;
  gs : Z;
  fs : Z;
  es : Z;
  ds : Z;
  trapno : Z;
  err : Z;
  eip : Z;
  cs : Z;
  eflags : Z;
  esp : Z;
  ss : Z
}.

Definition set_eax (v : Z) (r : trapframe) : trapframe :=
  Trapframe (edi r) (esi r) (ebp r) (oesp r) (ebx r) (edx r) (ecx r) v (gs r)
    (fs r) (es r) (ds r) (trapno r) (err r) (eip r) (cs r) (eflags r) (esp r)
    (ss r).
Definition set_eip (v : Z) (r : trapframe) : trapframe :=
  Trapframe (edi r) (esi r) (ebp r) (oesp r) (ebx r) (edx r) (ecx r) (eax r)
    (gs r) (fs r) (es r) (ds r) (trapno r) (err r) v (cs r) (eflags r) (esp r)
    (ss r).
Definition set_esp (v : Z) (r : trapframe) : trapframe :=
  Trapframe (edi r) (esi r) (ebp r) (oesp r) (ebx r) (edx r) (ecx r) (eax r)
    (gs r) (fs r) (es r) (ds r) (trapno r) (err r) (eip r) (cs r) (eflags r) v
    (ss r).

Definition sizeof_trapframe : Z := 76.

(** Registers saved by [swtch] (struct context). *)
Record context_regs := Context {
  c_edi : Z;
  c_esi : Z;
  c_ebx : Z;
  c_ebp : Z;
  c_eip : Z
}.

Definition sizeof_context : Z := 20.

(** [struct proc].  A [struct proc*] is an index into the table and a null
    pointer is [None]; other pointers are addresses with 0 for null.  [tfv]
    and [ctxv] are the contents behind the pointers [tf] and [context], and
    [retword] is the stack word above the context. *)
Record proc := Proc {
  sz : Z;
  pgdir : Z;
  kstack : Z;
  state : procstate;
  pid : Z;
  parent : option nat;
  tf : Z;
  tfv : trapframe;
  context : Z;
  ctxv : context_regs;
  retword : Z;
  chan : option channel;
  killed : bool;
  ofile : list Z;
  cwd : Z;
  pname : string;
  threadId : Z;
  sleepingThreads : list (option nat)
}.

Definition set_sz (v : Z) (r : proc) : proc :=
  Proc v (pgdir r) (kstack r) (state r) (pid r) (parent r) (tf r) (tfv r)
    (context r) (ctxv r) (retword r) (chan r) (killed r) (ofile r) (cwd r)
    (pname r) (threadId r) (sleepingThreads r).
Definition set_pgdir (v : Z) (r : proc) : proc :=
  Proc (sz r) v (kstack r) (state r) (pid r) (parent r) (tf r) (tfv r)
    (context r) (ctxv r) (retword r) (chan r) (killed r) (ofile r) (cwd r)
    (pname r) (threadId r) (sleepingThreads r).
Definition set_kstack (v : Z) (r : proc) : proc :=
  Proc (sz r) (pgdir r) v (state r) (pid r) (parent r) (tf r) (tfv r)
    (context r) (ctxv r) (retword r) (chan r) (killed r) (ofile r) (cwd r)
    (pname r) (threadId r) (sleepingThreads r).
Definition set_state (v : procstate) (r : proc) : proc :=
  Proc (sz r) (pgdir r) (kstack r) v (pid r) (parent r) (tf r) (tfv r)
    (context r) (ctxv r) (retword r) (chan r) (killed r) (ofile r) (cwd r)
    (pname r) (threadId r) (sleepingThreads r).
Definition set_pid (v : Z) (r : proc) : proc :=
  Proc (sz r) (pgdir r) (kstack r) (state r) v (parent r) (tf r) (tfv r)
    (context r) (ctxv r) (retword r) (chan r) (killed r) (ofile r) (cwd r)
    (pname r) (threadId r) (sleepingThreads r).
Definition set_parent (v : option nat) (r : proc) : proc :=
  Proc (sz r) (pgdir r) (kstack r) (state r) (pid r) v (tf r) (tfv r)
    (context r) (ctxv r) (retword r) (chan r) (killed r) (ofile r) (cwd r)
    (pname r) (threadId r) (sleepingThreads r).
Definition set_tf (v : Z) (r : proc) : proc :=
  Proc (sz r) (pgdir r) (kstack r) (state r) (pid r) (parent r) v (tfv r)
    (context r) (ctxv r) (retword r) (chan r) (killed r) (ofile r) (cwd r)
    (pname r) (threadId r) (sleepingThreads r).
Definition set_tfv (v : trapframe) (r : proc) : proc :=
  Proc (sz r) (pgdir r) (kstack r) (state r) (pid r) (parent r) (tf r) v
    (context r) (ctxv r) (retword r) (chan r) (killed r) (ofile r) (cwd r)
    (pname r) (threadId r) (sleepingThreads r).
Definition set_context (v : Z) (r : proc) : proc :=
  Proc (sz r) (pgdir r) (kstack r) (state r) (pid r) (parent r) (tf r) (tfv r)
    v (ctxv r) (retword r) (chan r) (killed r) (ofile r) (cwd r) (pname r)
    (threadId r) (sleepingThreads r).
Definition set_ctxv (v : context_regs) (r : proc) : proc :=
  Proc (sz r) (pgdir r) (kstack r) (state r) (pid r) (parent r) (tf r) (tfv r)
    (context r) v (retword r) (chan r) (killed r) (ofile r) (cwd r) (pname r)
    (threadId r) (sleepingThreads r).
Definition set_retword (v : Z) (r : proc) : proc :=
  Proc (sz r) (pgdir r) (kstack r) (state r) (pid r) (parent r) (tf r) (tfv r)
    (context r) (ctxv r) v (chan r) (killed r) (ofile r) (cwd r) (pname r)
    (threadId r) (sleepingThreads r).
Definition set_chan (v : option channel) (r : proc) : proc :=
  Proc (sz r) (pgdir r) (kstack r) (state r) (pid r) (parent r) (tf r) (tfv r)
    (context r) (ctxv r) (retword r) v (killed r) (ofile r) (cwd r) (pname r)
    (threadId r) (sleepingThreads r).
Definition set_killed (v : bool) (r : proc) : proc :=
  Proc (sz r) (pgdir r) (kstack r) (state r) (pid r) (parent r) (tf r) (tfv r)
    (context r) (ctxv r) (retword r) (chan r) v (ofile r) (cwd r) (pname r)
    (threadId r) (sleepingThreads r).
Definition set_ofile (v : list Z) (r : proc) : proc :=
  Proc (sz r) (pgdir r) (kstack r) (state r) (pid r) (parent r) (tf r) (tfv r)
    (context r) (ctxv r) (retword r) (chan r) (killed r) v (cwd r) (pname r)
    (threadId r) (sleepingThreads r).
Definition set_cwd (v : Z) (r : proc) : proc :=
  Proc (sz r) (pgdir r) (kstack r) (state r) (pid r) (parent r) (tf r) (tfv r)
    (context r) (ctxv r) (retword r) (chan r) (killed r) (ofile r) v (pname r)
    (threadId r) (sleepingThreads r).
Definition set_pname (v : string) (r : proc) : proc :=
  Proc (sz r) (pgdir r) (kstack r) (state r) (pid r) (parent r) (tf r) (tfv r)
    (context r) (ctxv r) (retword r) (chan r) (killed r) (ofile r) (cwd r) v
    (threadId r) (sleepingThreads r).
Definition set_threadId (v : Z) (r : proc) : proc :=
  Proc (sz r) (pgdir r) (kstack r) (state r) (pid r) (parent r) (tf r) (tfv r)
    (context r) (ctxv r) (retword r) (chan r) (killed r) (ofile r) (cwd r)
    (pname r) v (sleepingThreads r).
Definition set_sleepingThreads (v : list (option nat)) (r : proc) : proc :=
  Proc (sz r) (pgdir r) (kstack r) (state r) (pid r) (parent r) (tf r) (tfv r)
    (context r) (ctxv r) (retword r) (chan r) (killed r) (ofile r) (cwd r)
    (pname r) (threadId r) v.

Definition on_tf (f : trapframe -> trapframe) (p : proc) : proc :=
  set_tfv (f (tfv p)) p.

(** kthread_mutex_t and kthread_cond_t *)
Record kthread_mutex_t := Mutex {
  m_tid : Z;
  m_sleepingTID : list Z;
  m_status : Z;
  m_count : Z;
  m_startIndex : Z
}.

Definition set_m_tid (v : Z) (r : kthread_mutex_t) : kthread_mutex_t :=
  Mutex v (m_sleepingTID r) (m_status r) (m_count r) (m_startIndex r).
Definition set_m_sleepingTID (v : list Z) (r : kthread_mutex_t) : kthread_mutex_t :=
  Mutex (m_tid r) v (m_status r) (m_count r) (m_startIndex r).
Definition set_m_status (v : Z) (r : kthread_mutex_t) : kthread_mutex_t :=
  Mutex (m_tid r) (m_sleepingTID r) v (m_count r) (m_startIndex r).
Definition set_m_count (v : Z) (r : kthread_mutex_t) : kthread_mutex_t :=
  Mutex (m_tid r) (m_sleepingTID r) (m_status r) v (m_startIndex r).
Definition set_m_startIndex (v : Z) (r : kthread_mutex_t) : kthread_mutex_t :=
  Mutex (m_tid r) (m_sleepingTID r) (m_status r) (m_count r) v.

Record kthread_cond_t := Cond {
  c_status : Z;
  c_sleepingTID : list Z;
  c_count : Z;
  c_startIndex : Z;
  c_waitingMutexID : Z
}.

Definition set_c_status (v : Z) (r : kthread_cond_t) : kthread_cond_t :=
  Cond v (c_sleepingTID r) (c_count r) (c_startIndex r) (c_waitingMutexID r).
Definition set_c_sleepingTID (v : list Z) (r : kthread_cond_t) : kthread_cond_t :=
  Cond (c_status r) v (c_count r) (c_startIndex r) (c_waitingMutexID r).
Definition set_c_count (v : Z) (r : kthread_cond_t) : kthread_cond_t :=
  Cond (c_status r) (c_sleepingTID r) v (c_startIndex r) (c_waitingMutexID r).
Definition set_c_startIndex (v : Z) (r : kthread_cond_t) : kthread_cond_t :=
  Cond (c_status r) (c_sleepingTID r) (c_count r) v (c_waitingMutexID r).
Definition set_c_waitingMutexID (v : Z) (r : kthread_cond_t) : kthread_cond_t :=
  Cond (c_status r) (c_sleepingTID r) (c_count r) (c_startIndex r) v.

(** ** State

    [lks] holds the spin locks and the CPU's interrupt state (lock 0 is
    ptable.lock, 1 mtable.lock, 2 ctable.lock, 3 tickslock); [curproc] is the
    per-CPU [proc]; [klog] records the integers printed by [cprintf]; [world]
    is the state of the services. *)
Record kst (W : Type) := Kst {
  lks : lstate;
  ptable : list proc;
  mtable : list kthread_mutex_t;
  ctable : list kthread_cond_t;
  initproc : option nat;
  nextpid : Z;
  nextThread : Z;
  first : bool;
  curproc : option nat;
  klog : list Z;
  world : W
}.
Arguments Kst {W}.
Arguments lks {W}.
Arguments ptable {W}.
Arguments mtable {W}.
Arguments ctable {W}.
Arguments initproc {W}.
Arguments nextpid {W}.
Arguments nextThread {W}.
Arguments first {W}.
Arguments curproc {W}.
Arguments klog {W}.
Arguments world {W}.

Definition set_lks {W} (v : lstate) (r : kst W) : kst W :=
  Kst v (ptable r) (mtable r) (ctable r) (initproc r) (nextpid r)
    (nextThread r) (first r) (curproc r) (klog r) (world r).
Definition set_ptable {W} (v : list proc) (r : kst W) : kst W :=
  Kst (lks r) v (mtable r) (ctable r) (initproc r) (nextpid r) (nextThread r)
    (first r) (curproc r) (klog r) (world r).
Definition set_mtable {W} (v : list kthread_mutex_t) (r : kst W) : kst W :=
  Kst (lks r) (ptable r) v (ctable r) (initproc r) (nextpid r) (nextThread r)
    (first r) (curproc r) (klog r) (world r).
Definition set_ctable {W} (v : list kthread_cond_t) (r : kst W) : kst W :=
  Kst (lks r) (ptable r) (mtable r) v (initproc r) (nextpid r) (nextThread r)
    (first r) (curproc r) (klog r) (world r).
Definition set_initproc {W} (v : option nat) (r : kst W) : kst W :=
  Kst (lks r) (ptable r) (mtable r) (ctable r) v (nextpid r) (nextThread r)
    (first r) (curproc r) (klog r) (world r).
Definition set_nextpid {W} (v : Z) (r : kst W) : kst W :=
  Kst (lks r) (ptable r) (mtable r) (ctable r) (initproc r) v (nextThread r)
    (first r) (curproc r) (klog r) (world r).
Definition set_nextThread {W} (v : Z) (r : kst W) : kst W :=
  Kst (lks r) (ptable r) (mtable r) (ctable r) (initproc r) (nextpid r) v
    (first r) (curproc r) (klog r) (world r).
Definition set_first {W} (v : bool) (r : kst W) : kst W :=
  Kst (lks r) (ptable r) (mtable r) (ctable r) (initproc r) (nextpid r)
    (nextThread r) v (curproc r) (klog r) (world r).
Definition set_curproc {W} (v : option nat) (r : kst W) : kst W :=
  Kst (lks r) (ptable r) (mtable r) (ctable r) (initproc r) (nextpid r)
    (nextThread r) (first r) v (klog r) (world r).
Definition set_klog {W} (v : list Z) (r : kst W) : kst W :=
  Kst (lks r) (ptable r) (mtable r) (ctable r) (initproc r) (nextpid r)
    (nextThread r) (first r) (curproc r) v (world r).
Definition set_world {W} (v : W) (r : kst W) : kst W :=
  Kst (lks r) (ptable r) (mtable r) (ctable r) (initproc r) (nextpid r)
    (nextThread r) (first r) (curproc r) (klog r) v.

Definition PTABLE : nat := 0.
Definition MTABLE : nat := 1.
Definition CTABLE : nat := 2.
Definition TICKSLOCK : nat := 3.

(** What proc.c calls in kalloc.c, vm.c, file.c, fs.c and log.c, and the link
    addresses it stores.  Allocation functions return 0 when they fail. *)
Class Services (W : Type) := {
  sym_forkret : Z;
  sym_trapret : Z;
  kalloc : M W Z;
  kfree : Z -> M W unit;
  setupkvm : M W Z;
  inituvm : Z -> M W unit;
  copyuvm : Z -> Z -> M W Z;
  freevm : Z -> M W unit;
  allocuvm : Z -> Z -> Z -> M W Z;
  deallocuvm : Z -> Z -> Z -> M W Z;
  switchuvm : Z -> M W unit;
  switchkvm : M W unit;
  uva2ka : Z -> Z -> M W Z;
  store_user : Z -> Z -> M W unit;
  filedup : Z -> M W Z;
  fileclose : Z -> M W unit;
  idup : Z -> M W Z;
  iput : Z -> M W unit;
  namei : string -> M W Z;
  initlog : M W unit
}.

Section Ops.
Context {W : Type} `{Services W}.

Abbreviation K := (M (kst W)).

Definition call {A} (m : M W A) : K A := zoom world set_world m.
Definition acquire_l (i : nat) : K unit := zoom lks set_lks (acquire i).
Definition release_l (i : nat) : K unit := zoom lks set_lks (release i).
Definition holding_l (i : nat) : K bool := zoom lks set_lks (holding i).

Definition get_proc (i : nat) : K proc := gets_opt (fun s => ptable s !! i).
Definition upd_proc (i : nat) (f : proc -> proc) : K unit :=
  modify (fun s => set_ptable (alter f i (ptable s)) s).

(** The per-CPU variable [proc]; using it when it is null is a fault. *)
Definition me : K nat := gets_opt curproc.
Definition cur : K proc := i <~ me;;; get_proc i.
Definition upd_cur (f : proc -> proc) : K unit := i <~ me;;; upd_proc i f.

Definition is_state (st : procstate) (p : proc) : bool := bool_decide (state p = st).

Definition pinit : K unit := zoom lks set_lks (initlock PTABLE "ptable").

(** *** Allocation *)

Definition allocproc : K (option nat) :=
  acquire_l PTABLE;;;
  t <~ gets ptable;;;
  match find_first (is_state UNUSED) t with
  | None => release_l PTABLE;;; ret None
  | Some i =>
      upd_proc i (set_state EMBRYO);;;
      np <~ gets nextpid;;;
      upd_proc i (set_pid np);;;
      modify (set_nextpid (s32 (np + 1)));;;
      release_l PTABLE;;;
      k <~ call kalloc;;;
      upd_proc i (set_kstack k);;;
      if k =? 0 then upd_proc i (set_state UNUSED);;; ret None else
      let sp := k + KSTACKSIZE in
      let sp := sp - sizeof_trapframe in
      upd_proc i (set_tf sp);;;
      let sp := sp - 4 in
      upd_proc i (set_retword sym_trapret);;;
      let sp := sp - sizeof_context in
      upd_proc i (set_context sp);;;
      upd_proc i (set_ctxv (Context 0 0 0 0 sym_forkret));;;
      ret (Some i)
  end.

Definition user_tf : trapframe :=
  let cs := Z.lor (Z.shiftl SEG_UCODE 3) DPL_USER in
  let ds := Z.lor (Z.shiftl SEG_UDATA 3) DPL_USER in
  Trapframe 0 0 0 0 0 0 0 0 0 0 ds ds 0 0 0 cs FL_IF PGSIZE ds.

(** [p] is used without a null check: a failed [allocproc] is a fault. *)
Definition userinit : K unit :=
  r <~ allocproc;;;
  modify (set_initproc r);;;
  match r with
  | None => fault
  | Some p =>
      pg <~ call setupkvm;;;
      upd_proc p (set_pgdir pg);;;
      if pg =? 0 then panic "userinit: out of memory?" else
      call (inituvm pg);;;
      upd_proc p (set_sz PGSIZE);;;
      upd_proc p (set_tfv user_tf);;;
      upd_proc p (set_pname "initcode");;;
      ip <~ call (namei "/");;;
      upd_proc p (set_cwd ip);;;
      upd_proc p (set_state RUNNABLE)
  end.

Definition growproc (n : Z) : K Z :=
  p <~ cur;;;
  sz' <~ (if 0 <? n then call (allocuvm (pgdir p) (sz p) (u32 (sz p + n)))
          else if n <? 0 then call (deallocuvm (pgdir p) (sz p) (u32 (sz p + n)))
          else ret (sz p));;;
  if negb (n =? 0) && (sz' =? 0) then ret (-1) else
  upd_cur (set_sz sz');;;
  call (switchuvm (pgdir p));;;
  ret 0.

(** The common failure path of [fork] and [kthread_create]. *)
Definition drop_kstack (i : nat) : K unit :=
  np <~ get_proc i;;;
  call (kfree (kstack np));;;
  upd_proc i (set_kstack 0);;;
  upd_proc i (set_state UNUSED).

Definition dup_fd (i fd : nat) : K unit :=
  p <~ cur;;;
  f <~ gets_opt (fun _ => ofile p !! fd);;;
  if f =? 0 then ret tt else
  f' <~ call (filedup f);;;
  upd_proc i (fun np => set_ofile (<[fd := f']> (ofile np)) np).

Definition clear_joiner (i k : nat) : K unit :=
  upd_proc i (fun np => set_sleepingThreads (<[k := None]> (sleepingThreads np)) np).

Definition fork : K Z :=
  r <~ allocproc;;;
  match r with
  | None => ret (-1)
  | Some i =>
      upd_proc i (set_threadId (-1));;;
      p <~ cur;;;
      pg <~ call (copyuvm (pgdir p) (sz p));;;
      upd_proc i (set_pgdir pg);;;
      if pg =? 0 then drop_kstack i;;; ret (-1) else
      upd_proc i (set_sz (sz p));;;
      m <~ me;;;
      upd_proc i (set_parent (Some m));;;
      upd_proc i (set_tfv (tfv p));;;
      upd_proc i (on_tf (set_eax 0));;;
      mfor (seq 0 NOFILE) (dup_fd i);;;
      ip <~ call (idup (cwd p));;;
      upd_proc i (set_cwd ip);;;
      np <~ get_proc i;;;
      upd_proc i (set_state RUNNABLE);;;
      upd_proc i (set_pname (pname p));;;
      mfor (seq 0 64) (clear_joiner i);;;
      ret (pid np)
  end.

(** *** Sleeping and waking *)

Definition sched : K unit :=
  h <~ holding_l PTABLE;;;
  if negb h then panic "sched ptable.lock" else
  c <~ gets (fun s => this_cpu (lks s));;;
  if negb (ncli c =? 1) then panic "sched locks" else
  p <~ cur;;;
  if is_state RUNNING p then panic "sched running" else
  if eflags_if c then panic "sched interruptible" else
  (fun s => Sched s).

(** The rest of [sched] when the scheduler switches back: [ena] is the local
    variable [intena], the value of cpu->intena before the switch. *)
Definition sched_resume (ena : bool) : K unit := zoom lks set_lks (set_intena ena).

Definition sleep (ch : channel) (lk : nat) : K unit :=
  c <~ gets curproc;;;
  match c with
  | None => panic "sleep"
  | Some i =>
      when (negb (lk =? PTABLE)%nat) (acquire_l PTABLE;;; release_l lk);;;
      upd_proc i (set_chan (Some ch));;;
      upd_proc i (set_state SLEEPING);;;
      sched
  end.

(** The rest of [sleep], when the process runs again. *)
Definition sleep_resume (ena : bool) (lk : nat) : K unit :=
  sched_resume ena;;;
  upd_cur (set_chan None);;;
  when (negb (lk =? PTABLE)%nat) (release_l PTABLE;;; acquire_l lk).

Definition wake (ch : option channel) (p : proc) : proc :=
  if is_state SLEEPING p && bool_decide (chan p = ch) then set_state RUNNABLE p else p.

Definition wakeup1 (ch : option channel) : K unit :=
  modify (fun s => set_ptable (wake ch <$> ptable s) s).

Definition wakeup (ch : option channel) : K unit :=
  acquire_l PTABLE;;;
  wakeup1 ch;;;
  release_l PTABLE.

Definition yield : K unit :=
  acquire_l PTABLE;;;
  upd_cur (set_state RUNNABLE);;;
  sched.

Definition yield_resume (ena : bool) : K unit := sched_resume ena;;; release_l PTABLE.

Definition forkret : K unit :=
  release_l PTABLE;;;
  f <~ gets first;;;
  when f (modify (set_first false);;; call initlog).

(** *** Waiting for children *)

Definition reap (i : nat) : K Z :=
  p <~ get_proc i;;;
  call (kfree (kstack p));;;
  upd_proc i (set_kstack 0);;;
  call (freevm (pgdir p));;;
  upd_proc i (set_state UNUSED);;;
  upd_proc i (set_pid 0);;;
  upd_proc i (set_parent None);;;
  upd_proc i (set_pname "");;;
  upd_proc i (set_killed false);;;
  ret (pid p).

Definition child_of (i : nat) (p : proc) : bool := bool_decide (parent p = Some i).

(** One round of [wait]'s loop, with ptable.lock held. *)
Definition wait_round : K Z :=
  m <~ me;;;
  t <~ gets ptable;;;
  match find_first (fun p => child_of m p && is_state ZOMBIE p) t with
  | Some i =>
      r <~ reap i;;;
      release_l PTABLE;;;
      ret r
  | None =>
      p <~ cur;;;
      if negb (existsb (child_of m) t) || killed p then
        release_l PTABLE;;; ret (-1)
      else sleep (ChProc m) PTABLE;;; ret 0
  end.

Definition wait : K Z := acquire_l PTABLE;;; wait_round.
Definition wait_resume (ena : bool) : K Z := sleep_resume ena PTABLE;;; wait_round.

(** [kill] acts on the first entry with the given pid, in any state. *)
Definition kill (n : Z) : K Z :=
  acquire_l PTABLE;;;
  t <~ gets ptable;;;
  match find_first (fun p => pid p =? n) t with
  | Some i =>
      upd_proc i (set_killed true);;;
      p <~ get_proc i;;;
      when (is_state SLEEPING p) (upd_proc i (set_state RUNNABLE));;;
      release_l PTABLE;;;
      ret 0
  | None => release_l PTABLE;;; ret (-1)
  end.

(** *** The scheduler *)

(** The body of the scan loop at entry [i]: switch to a runnable process. *)
Definition sched_switch (i : nat) : K bool :=
  p <~ get_proc i;;;
  if negb (is_state RUNNABLE p) then ret false else
  modify (set_curproc (Some i));;;
  call (switchuvm (pgdir p));;;
  upd_proc i (set_state RUNNING);;;
  ret true.

(** The scan from entry [i] on, up to the first switch. *)
Fixpoint sched_scan (l : list nat) : K (option nat) :=
  match l with
  | [] => ret None
  | i :: l' =>
      b <~ sched_switch i;;;
      if b : bool then ret (Some i) else sched_scan l'
  end.

(** One pass of the outer loop: sti, acquire, scan to the first runnable. *)
Definition scheduler_pass : K (option nat) :=
  zoom lks set_lks sti;;;
  acquire_l PTABLE;;;
  r <~ sched_scan (seq 0 NPROC);;;
  match r with
  | Some i => ret (Some i)
  | None => release_l PTABLE;;; ret None
  end.

(** Back in the scheduler after process [i] called [sched]: the scan goes on
    behind it. *)
Definition scheduler_return (i : nat) : K (option nat) :=
  call switchkvm;;;
  modify (set_curproc None);;;
  r <~ sched_scan (seq (S i) (NPROC - S i));;;
  match r with
  | Some j => ret (Some j)
  | None => release_l PTABLE;;; ret None
  end.

(** *** Process listing *)

(** The entry of [states[]] for a state; the array stops at ZOMBIE. *)
Definition state_name (st : procstate) : string :=
  match st with
  | UNUSED => "unused"
  | EMBRYO => "embryo"
  | SLEEPING => "sleep "
  | RUNNABLE => "runble"
  | RUNNING => "run   "
  | ZOMBIE => "zombie"
  | BLOCKING => "???"
  end.

Fixpoint until_zero (l : list Z) : list Z :=
  match l with
  | [] => []
  | x :: l' => if x =? 0 then [] else x :: until_zero l'
  end.

(** One printed line per used entry; [mem] is kernel memory, read to print
    the call stack of a sleeping process. *)
Definition procdump (mem : Z -> Z) : K (list (Z * string * string * list Z)) :=
  t <~ gets ptable;;;
  ret (omap (fun p =>
    if is_state UNUSED p then None else
    Some (pid p, state_name (state p), pname p,
          if is_state SLEEPING p
          then until_zero (getcallerpcs mem (c_ebp (ctxv p) + 8)) else []))
    t).

(** *** Signals *)

(** [register_handler] pushes eip on the user stack and redirects it. *)
Definition register_handler (sighandler : Z) : K unit :=
  p <~ cur;;;
  addr <~ call (uva2ka (pgdir p) (esp (tfv p)));;;
  if Z.land (esp (tfv p)) 0xFFF =? 0 then panic "esp_offset == 0" else
  call (store_user (addr + Z.land (u32 (esp (tfv p) - 4)) 0xFFF) (eip (tfv p)));;;
  upd_cur (on_tf (fun t => set_esp (u32 (esp t - 4)) t));;;
  upd_cur (on_tf (set_eip sighandler)).

(** *** Kernel threads *)

Definition share_fd (i fd : nat) : K unit :=
  p <~ cur;;;
  f <~ gets_opt (fun _ => ofile p !! fd);;;
  when (negb (f =? 0))
    (upd_proc i (fun np => set_ofile (<[fd := f]> (ofile np)) np)).

Definition kthread_create (start_func stack stack_size : Z) : K Z :=
  r <~ allocproc;;;
  match r with
  | None => ret (-1)
  | Some i =>
      mfor (seq 0 64) (clear_joiner i);;;
      p <~ cur;;;
      pg <~ call (copyuvm (pgdir p) (sz p));;;
      upd_proc i (set_pgdir pg);;;
      if pg =? 0 then drop_kstack i;;; ret (-1) else
      nt <~ gets nextThread;;;
      modify (set_nextThread (s32 (nt + 1)));;;
      upd_proc i (set_threadId (s32 (nt + 1)));;;
      upd_proc i (set_pid (pid p));;;
      upd_proc i (set_pgdir (pgdir p));;;
      upd_proc i (set_sz (sz p));;;
      upd_proc i (set_parent (parent p));;;
      upd_proc i (set_tfv (tfv p));;;
      upd_proc i (on_tf (set_eip start_func));;;
      upd_proc i (on_tf (set_esp (u32 (stack + stack_size))));;;
      upd_proc i (on_tf (set_eax 0));;;
      mfor (seq 0 NOFILE) (share_fd i);;;
      upd_proc i (set_cwd (cwd p));;;
      np <~ get_proc i;;;
      upd_proc i (set_state RUNNABLE);;;
      upd_proc i (set_pname "thread");;;
      ret (pid np)
  end.

Definition kthread_id : K Z := p <~ cur;;; ret (threadId p).

(** *** Exiting *)

Definition close_fd (fd : nat) : K unit :=
  p <~ cur;;;
  f <~ gets_opt (fun _ => ofile p !! fd);;;
  when (negb (f =? 0))
    (call (fileclose f);;;
     upd_cur (fun p => set_ofile (<[fd := 0]> (ofile p)) p)).

(** Pass an abandoned child to init. *)
Definition reparent (m i : nat) : K unit :=
  p <~ get_proc i;;;
  when (child_of m p)
    (ini <~ gets initproc;;;
     upd_proc i (set_parent ini);;;
     when (is_state ZOMBIE p) (wakeup1 (ChProc <$> ini))).

Definition New_exit : K unit :=
  m <~ me;;;
  ini <~ gets initproc;;;
  if bool_decide (ini = Some m) then panic "init exiting" else
  mfor (seq 0 NOFILE) close_fd;;;
  p <~ cur;;;
  call (iput (cwd p));;;
  upd_cur (set_cwd 0);;;
  acquire_l PTABLE;;;
  q <~ cur;;;
  wakeup1 (ChProc <$> parent q);;;
  mfor (seq 0 NPROC) (reparent m);;;
  upd_cur (set_state ZOMBIE);;;
  sched;;;
  panic "zombie exit".

Definition live_thread_of (n : Z) (p : proc) : bool :=
  (pid p =? n) && negb (is_state ZOMBIE p) && negb (is_state UNUSED p).

Definition wake_joiner (k : nat) : K unit :=
  p <~ cur;;;
  j <~ gets_opt (fun _ => sleepingThreads p !! k);;;
  when (bool_decide (j <> None)) (wakeup1 (ChProc <$> j)).

(** Free the entry of another, already exited, thread of the process. *)
Definition reap_thread (q : proc) (i : nat) : K unit :=
  p <~ get_proc i;;;
  when (is_state ZOMBIE p && (pid p =? pid q) && negb (threadId q =? threadId p))
    (call (kfree (kstack p));;;
     upd_proc i (set_kstack 0);;;
     upd_proc i (set_state UNUSED);;;
     upd_proc i (set_pid 0);;;
     upd_proc i (set_parent None);;;
     upd_proc i (set_pname "");;;
     upd_proc i (set_killed false)).

Definition kthread_exit : K unit :=
  acquire_l PTABLE;;;
  m <~ me;;;
  ini <~ gets initproc;;;
  if bool_decide (ini = Some m) then panic "init exiting" else
  mfor (seq 0 64) wake_joiner;;;
  q <~ cur;;;
  t <~ gets ptable;;;
  if (length (filter (fun p => live_thread_of (pid q) p = true) t) =? 1)%nat then
    mfor (seq 0 NPROC) (reap_thread q);;;
    release_l PTABLE;;;
    New_exit
  else
    upd_cur (set_state ZOMBIE);;;
    sched;;;
    panic "zombie exit".

Definition manage_exits : K unit := kthread_exit.
Definition exit : K unit := manage_exits.

(** *** Joining *)

Definition joinable (tid : Z) (p : proc) : bool :=
  (threadId p =? tid) && negb (is_state ZOMBIE p).

(** The slot of [sleepingThreads] that [kthread_join] uses; 64, one past the
    array, when all are taken. *)
Definition join_slot (p : proc) : nat :=
  match find_first (fun j => bool_decide (j = None)) (firstn 64 (sleepingThreads p)) with
  | Some k => k
  | None => 64%nat
  end.

Definition kthread_join (tid : Z) : K Z :=
  acquire_l PTABLE;;;
  t <~ gets ptable;;;
  match find_first (joinable tid) t with
  | None => release_l PTABLE;;; ret (-1)
  | Some i =>
      m <~ me;;;
      p <~ get_proc i;;;
      when (join_slot p <? 64)%nat
        (upd_proc i (fun q => set_sleepingThreads
                       (<[join_slot p := Some m]> (sleepingThreads q)) q));;;
      sleep (ChProc m) PTABLE;;;
      ret 0
  end.

(** After the sleep: [i] and [k] are the local variables [p] and [i] of the
    C function.  Slot 64 lies outside the array. *)
Definition kthread_join_resume (ena : bool) (i k : nat) : K Z :=
  sleep_resume ena PTABLE;;;
  p <~ get_proc i;;;
  if (k <? length (sleepingThreads p))%nat then
    clear_joiner i k;;;
    release_l PTABLE;;;
    ret 0
  else fault.

End Ops.
