(* ===== verification/ProcLocks.v ===== *)
(** * Lock states seen by proc.c

    Canonical lock states of one CPU ([busy c hs]: exactly the locks [hs] are
    held, by CPU [c]), how [acquire] and [release] move between them, and the
    rules that run a monadic operation of [kst] step by step. *)
From S2P Require Import Prelude Spinlock Proc.

Definition lock_names : list string := ["ptable"; "mtable"; "ctable"; "time"].

Definition lk_of (c : nat) (hs : list nat) (i : nat) (nm : string) : spinlock :=
  if bool_decide (i ∈ hs) then Spinlock 1 nm (Some c) else Spinlock 0 nm None.

Definition lks_with (c : nat) (n : Z) (ena ifl : bool) (hs : list nat) : lstate :=
  LState (Cpu c n ena ifl) (imap (lk_of c hs) lock_names).

(** No lock held, interrupts on; [ena] is the last saved interrupt flag. *)
Definition idle (c : nat) (ena : bool) : lstate := lks_with c 0 ena true [].

(** The locks [hs] held (a non-empty list), interrupts off. *)
Definition busy (c : nat) (hs : list nat) : lstate :=
  lks_with c (Z.of_nat (length hs)) true false hs.

Lemma acquire_idle c e i :
  (i < 4)%nat -> acquire i (idle c e) = Ret tt (busy c [i]).
Proof.
  intros Hi. do 4 (destruct i as [|i]; [by vm_compute|]). lia.
Qed.

Lemma acquire_busy1 c i j :
  (i < 4)%nat -> (j < 4)%nat -> i <> j ->
  acquire i (busy c [j]) = Ret tt (busy c [i; j]).
Proof.
  intros Hi Hj Hij.
  do 4 (destruct i as [|i]; [do 4 (destruct j as [|j]; [by vm_compute|]); lia|]).
  lia.
Qed.

Lemma acquire_busy2 c i j k :
  (i < 4)%nat -> (j < 4)%nat -> (k < 4)%nat -> i <> j -> i <> k -> j <> k ->
  acquire i (busy c [j; k]) = Ret tt (busy c [i; j; k]).
Proof.
  intros Hi Hj Hk ???.
  do 4 (destruct i as [|i]; [do 4 (destruct j as [|j];
    [do 4 (destruct k as [|k]; [by vm_compute|]); lia|]); lia|]).
  lia.
Qed.

Ltac rel_tac :=
  eapply eq_trans; [eapply release_run; [vm_compute; reflexivity|done..]|by vm_compute].

Lemma release_busy1 c i :
  (i < 4)%nat -> release i (busy c [i]) = Ret tt (idle c true).
Proof. intros Hi. do 4 (destruct i as [|i]; [by rel_tac|]). lia. Qed.

Lemma release_busy2 c i j :
  (i < 4)%nat -> (j < 4)%nat -> i <> j ->
  release i (busy c [i; j]) = Ret tt (busy c [j]).
Proof.
  intros Hi Hj Hij.
  do 4 (destruct i as [|i]; [do 4 (destruct j as [|j]; [by rel_tac|]); lia|]).
  lia.
Qed.

Lemma release_busy2' c i j :
  (i < 4)%nat -> (j < 4)%nat -> i <> j ->
  release i (busy c [j; i]) = Ret tt (busy c [j]).
Proof.
  intros Hi Hj Hij.
  do 4 (destruct i as [|i]; [do 4 (destruct j as [|j]; [by rel_tac|]); lia|]).
  lia.
Qed.

Lemma release_busy3 c i j k :
  (i < 4)%nat -> (j < 4)%nat -> (k < 4)%nat -> i <> j -> i <> k -> j <> k ->
  release i (busy c [i; j; k]) = Ret tt (busy c [j; k]).
Proof.
  intros Hi Hj Hk ???.
  do 4 (destruct i as [|i]; [do 4 (destruct j as [|j];
    [do 4 (destruct k as [|k]; [by rel_tac|]); lia|]); lia|]).
  lia.
Qed.

Lemma holding_busy c i hs :
  i = 0%nat -> i ∈ hs -> holding i (busy c hs) = Ret true (busy c hs).
Proof.
  intros -> Hi. unfold holding. mred. cbn. unfold lk_of at 1.
  rewrite bool_decide_true by done. unfold holding_lk. simpl.
  by rewrite bool_decide_true.
Qed.

(** ** A recording service world

    The smallest instance of [Services]: a supply of page addresses and a
    record of the calls made.  The witnesses evaluate proc.c over it. *)
Inductive svc_call :=
| CKalloc (a : Z) | CKfree (a : Z) | CSetupkvm (a : Z) | CCopyuvm (from sz to : Z)
| CFreevm (a : Z) | CFiledup (f : Z) | CFileclose (f : Z) | CIdup (ip : Z)
| CIput (ip : Z) | CInitlog | CSwitch (pg : Z) | CUvm (pg from to : Z).

Record rworld := RWorld { next_page : Z; calls : list svc_call }.

Definition rlog (c : rworld -> svc_call) (adv : Z) {A} (r : rworld -> A) : M rworld A :=
  fun w => Ret (r w) (RWorld (next_page w + adv) (calls w ++ [c w])).

#[export] Instance recording : Services rworld := {
  sym_forkret := 0x80103000;
  sym_trapret := 0x80105000;
  kalloc := rlog (fun w => CKalloc (next_page w)) 4096 next_page;
  kfree a := rlog (fun _ => CKfree a) 0 (fun _ => tt);
  setupkvm := rlog (fun w => CSetupkvm (next_page w)) 4096 next_page;
  inituvm a := ret tt;
  copyuvm pg sz := rlog (fun w => CCopyuvm pg sz (next_page w)) 4096 next_page;
  freevm a := rlog (fun _ => CFreevm a) 0 (fun _ => tt);
  allocuvm pg o n := rlog (fun _ => CUvm pg o n) 0 (fun _ => n);
  deallocuvm pg o n := rlog (fun _ => CUvm pg o n) 0 (fun _ => n);
  switchuvm pg := rlog (fun _ => CSwitch pg) 0 (fun _ => tt);
  switchkvm := ret tt;
  uva2ka pg a := ret a;
  store_user a v := ret tt;
  filedup f := rlog (fun _ => CFiledup f) 0 (fun _ => f);
  fileclose f := rlog (fun _ => CFileclose f) 0 (fun _ => tt);
  idup ip := rlog (fun _ => CIdup ip) 0 (fun _ => ip);
  iput ip := rlog (fun _ => CIput ip) 0 (fun _ => tt);
  namei _ := ret 1;
  initlog := rlog (fun _ => CInitlog) 0 (fun _ => tt)
}.

(** The same world out of memory for page tables. *)
Definition no_copyuvm : Services rworld := {|
  sym_forkret := 0x80103000;
  sym_trapret := 0x80105000;
  kalloc := kalloc;
  kfree := kfree;
  setupkvm := ret 0;
  inituvm := inituvm;
  copyuvm pg sz := ret 0;
  freevm := freevm;
  allocuvm := allocuvm;
  deallocuvm := deallocuvm;
  switchuvm := switchuvm;
  switchkvm := switchkvm;
  uva2ka := uva2ka;
  store_user := store_user;
  filedup := filedup;
  fileclose := fileclose;
  idup := idup;
  iput := iput;
  namei := namei;
  initlog := initlog
|}.

(** Entries and states for the witnesses. *)
Definition zero_tf : trapframe := Trapframe 0 0 0 0 0 0 0 0 0 0 0 0 0 0 0 0 0 0 0.
Definition free_proc : proc :=
  Proc 0 0 0 UNUSED 0 None 0 zero_tf 0 (Context 0 0 0 0 0) 0 None false
    (replicate NOFILE 0) 0 "" 0 (replicate 64 None).

Definition table_of (l : list proc) : list proc := l ++ replicate (NPROC - length l) free_proc.

(** init in entry 0, the given entries behind it, entry [m] running. *)
Definition init_proc : proc :=
  set_sz 4096 (set_pgdir 0x1000 (set_kstack 0x2000 (set_state SLEEPING
    (set_chan (Some (ChProc 0)) (set_pid 1 (set_cwd 1 free_proc)))))).

Definition demo (m : nat) (l : list proc) (np : Z) : kst rworld :=
  Kst (idle 0 false) (table_of (init_proc :: l))
    (replicate 64 (Mutex 0 (replicate 256 0) 0 0 0))
    (replicate 64 (Cond 0 (replicate 256 0) 0 0 0))
    (Some 0%nat) np 0 false (Some m) [] (RWorld 0x10000 []).

Definition user_proc (n : Z) (pg k : Z) (st : procstate) (par : option nat) (tid : Z) : proc :=
  set_sz 8192 (set_pgdir pg (set_kstack k (set_state st (set_pid n
    (set_parent par (set_cwd 1 (set_threadId tid
      (set_ofile (7 :: 8 :: replicate 14 0) free_proc)))))))).

(** Discharge the equational side conditions of a property at a concrete
    state. *)
Ltac side :=
  lazymatch goal with
  | |- exists _, _ => idtac
  | |- forall _, _ => idtac
  | |- _ /\ _ => idtac
  | |- _ => first [reflexivity | discriminate | idtac]
  end.
