(* ===== verification/ProcSpec.v ===== *)
(** * Properties of the process table (proc.c)

    How operations of the process table run step by step, and the behaviour of
    [allocproc] and [fork] on every branch. *)
From S2P Require Import Prelude Spinlock Proc ProcLocks.

(** ** Running operations symbolically *)

Section Run.
Context {W : Type} `{Services W}.
Implicit Types s : kst W.

Lemma acquire_l_idle c e i s :
  lks s = idle c e -> (i < 4)%nat -> acquire_l i s = Ret tt (set_lks (busy c [i]) s).
Proof. intros Hl Hi. unfold acquire_l, zoom. by rewrite Hl, acquire_idle. Qed.

Lemma release_l_busy1 c i s :
  lks s = busy c [i] -> (i < 4)%nat -> release_l i s = Ret tt (set_lks (idle c true) s).
Proof. intros Hl Hi. unfold release_l, zoom. by rewrite Hl, release_busy1. Qed.

Lemma acquire_l_busy1 c i j s :
  lks s = busy c [j] -> (i < 4)%nat -> (j < 4)%nat -> i <> j ->
  acquire_l i s = Ret tt (set_lks (busy c [i; j]) s).
Proof. intros Hl ???. unfold acquire_l, zoom. by rewrite Hl, acquire_busy1. Qed.

Lemma release_l_busy2 c i j s :
  lks s = busy c [i; j] -> (i < 4)%nat -> (j < 4)%nat -> i <> j ->
  release_l i s = Ret tt (set_lks (busy c [j]) s).
Proof. intros Hl ???. unfold release_l, zoom. by rewrite Hl, release_busy2. Qed.

Lemma release_l_busy2' c i j s :
  lks s = busy c [j; i] -> (i < 4)%nat -> (j < 4)%nat -> i <> j ->
  release_l i s = Ret tt (set_lks (busy c [j]) s).
Proof. intros Hl ???. unfold release_l, zoom. by rewrite Hl, release_busy2'. Qed.

Lemma bind_upd_proc {A} i g (f : unit -> M (kst W) A) s :
  bind (upd_proc i g) f s = f tt (set_ptable (alter g i (ptable s)) s).
Proof. done. Qed.

Lemma me_run s i : curproc s = Some i -> me s = Ret i s.
Proof. intros E. unfold me, gets_opt. by rewrite E. Qed.

Lemma cur_run s i p :
  curproc s = Some i -> ptable s !! i = Some p -> cur s = Ret p s.
Proof.
  intros Hc Hp. unfold cur. erewrite bind_Ret by by apply me_run.
  unfold get_proc, gets_opt. by rewrite Hp.
Qed.

Lemma get_proc_run s i p : ptable s !! i = Some p -> get_proc i s = Ret p s.
Proof. intros Hp. unfold get_proc, gets_opt. by rewrite Hp. Qed.

Lemma upd_cur_run s i g :
  curproc s = Some i -> upd_cur g s = Ret tt (set_ptable (alter g i (ptable s)) s).
Proof. intros Hc. unfold upd_cur. by erewrite bind_Ret by by apply me_run. Qed.

Lemma call_Ret {A} (m : M W A) s a w :
  m (world s) = Ret a w -> call m s = Ret a (set_world w s).
Proof. unfold call, zoom. by intros ->. Qed.

Lemma sched_busy c s i p :
  lks s = busy c [PTABLE] -> curproc s = Some i -> ptable s !! i = Some p ->
  state p <> RUNNING -> sched s = Sched s.
Proof.
  intros Hl Hc Hp Hst. unfold sched.
  erewrite bind_Ret.
  2: { unfold holding_l, zoom. rewrite Hl, holding_busy; [reflexivity|done|left]. }
  assert (Hs : set_lks (busy c [PTABLE]) s = s) by (rewrite <- Hl; by destruct s).
  rewrite Hs. simpl. unfold cur, me, get_proc. mred. rewrite Hl.
  change (ncli (this_cpu (busy c [PTABLE]))) with 1.
  change (eflags_if (this_cpu (busy c [PTABLE]))) with false. cbn.
  rewrite Hc, Hp. unfold is_state. by rewrite bool_decide_false.
Qed.

End Run.

#[export] Hint Rewrite @bind_upd_proc : xv6run.

(** Reduce projections of an updated kernel state: [kred] when the state is a
    constructor application, [ksimp] when it is a variable under updates. *)
Ltac kred :=
  cbv beta iota delta [lks ptable mtable ctable initproc nextpid nextThread first
       curproc klog world set_lks set_ptable set_mtable set_ctable set_initproc
       set_nextpid set_nextThread set_first set_curproc set_klog set_world].

Ltac kredh :=
  cbv beta iota delta [lks ptable mtable ctable initproc nextpid nextThread first
       curproc klog world set_lks set_ptable set_mtable set_ctable set_initproc
       set_nextpid set_nextThread set_first set_curproc set_klog set_world] in *.

Ltac ksimp :=
  cbn [lks ptable mtable ctable initproc nextpid nextThread first curproc klog
       world set_lks set_ptable set_mtable set_ctable set_initproc set_nextpid
       set_nextThread set_first set_curproc set_klog set_world].

Ltac ksimps :=
  cbn [lks ptable mtable ctable initproc nextpid nextThread first curproc klog
       world set_lks set_ptable set_mtable set_ctable set_initproc set_nextpid
       set_nextThread set_first set_curproc set_klog set_world] in *.

(** Open a state variable. *)
Ltac kopen s := destruct s; kredh; subst.

Ltac krun := repeat (progress (mrun; kred)).

(** Run a lock operation on ptable.lock alone. *)
Ltac kacq := erewrite bind_Ret by (eapply acquire_l_idle; [done|unfold PTABLE, MTABLE, CTABLE; lia]); kred.
Ltac krel := erewrite bind_Ret by (eapply release_l_busy1; [done|unfold PTABLE, MTABLE, CTABLE; lia]); kred.

(** Compose the updates of one entry. *)
Ltac fuse := rewrite ?list_alter_alter_eq; unfold compose.

(** ** Allocation *)

Section Alloc.
Context {W : Type} `{Services W}.
Implicit Types s : kst W.

(** The entry that [allocproc] leaves behind. *)
Definition embryo (n k : Z) (p : proc) : proc :=
  set_ctxv (Context 0 0 0 0 sym_forkret)
    (set_context (k + 4096 - 76 - 4 - 20)
      (set_retword sym_trapret
        (set_tf (k + 4096 - 76)
          (set_kstack k (set_pid n (set_state EMBRYO p)))))).

Lemma allocproc_full s c e :
  lks s = idle c e ->
  (forall p, p ∈ ptable s -> state p <> UNUSED) ->
  allocproc s = Ret None (set_lks (idle c true) s).
Proof.
  intros Hl Hall. unfold allocproc. kopen s. kacq. krun.
  rewrite (proj2 (find_first_None _ _)).
  2: { intros p Hp. apply bool_decide_false. by apply Hall. }
  krel. done.
Qed.

Lemma allocproc_found s c e i k w :
  lks s = idle c e ->
  find_first (is_state UNUSED) (ptable s) = Some i ->
  kalloc (world s) = Ret k w ->
  allocproc s =
    if k =? 0 then
      Ret None (set_world w (set_lks (idle c true)
        (set_nextpid (s32 (nextpid s + 1))
          (set_ptable (alter (fun p => set_state UNUSED (set_kstack 0
             (set_pid (nextpid s) (set_state EMBRYO p)))) i (ptable s)) s))))
    else
      Ret (Some i) (set_world w (set_lks (idle c true)
        (set_nextpid (s32 (nextpid s + 1))
          (set_ptable (alter (embryo (nextpid s) k) i (ptable s)) s)))).
Proof.
  intros Hl Hf Hk. unfold allocproc. kopen s. kacq. krun.
  rewrite Hf. krun. krel. erewrite bind_Ret by (by apply call_Ret). krun.
  destruct (k =? 0) eqn:Ek; krun.
  - assert (k = 0) by lia. subst k. unfold ret. by rewrite !list_alter_alter_eq.
  - unfold ret. by rewrite !list_alter_alter_eq.
Qed.

Lemma allocproc_ok s c e i k w :
  lks s = idle c e ->
  find_first (is_state UNUSED) (ptable s) = Some i ->
  kalloc (world s) = Ret k w -> k <> 0 ->
  allocproc s =
      Ret (Some i) (set_world w (set_lks (idle c true)
        (set_nextpid (s32 (nextpid s + 1))
          (set_ptable (alter (embryo (nextpid s) k) i (ptable s)) s)))).
Proof.
  intros. erewrite allocproc_found by done. by destruct (Z.eqb_spec k 0).
Qed.

Lemma allocproc_nomem s c e i w :
  lks s = idle c e ->
  find_first (is_state UNUSED) (ptable s) = Some i ->
  kalloc (world s) = Ret 0 w ->
  allocproc s =
      Ret None (set_world w (set_lks (idle c true)
        (set_nextpid (s32 (nextpid s + 1))
          (set_ptable (alter (fun p => set_state UNUSED (set_kstack 0
             (set_pid (nextpid s) (set_state EMBRYO p)))) i (ptable s)) s)))).
Proof. intros. by erewrite allocproc_found by done. Qed.

(** Entries other than the allocated one are untouched, and a failed
    allocation leaves its entry free again. *)
Lemma alter_other {A} (f : A -> A) i j (l : list A) :
  j <> i -> alter f i l !! j = l !! j.
Proof. intros. by apply list_lookup_alter_ne. Qed.

Lemma alter_same {A} (f : A -> A) i (l : list A) x :
  l !! i = Some x -> alter f i l !! i = Some (f x).
Proof. intros E. by rewrite list_lookup_alter_eq, E. Qed.

End Alloc.

(** ** Loops over the arrays of an entry *)

Section Loops.
Context {W : Type} `{Services W}.
Implicit Types s : kst W.

(** Clearing [sleepingThreads[0..63]]. *)
Definition clear_all (l : list (option nat)) : list (option nat) :=
  fold_left (fun l j => <[j := None]> l) (seq 0 64) l.

Lemma fold_clear_length k n (l : list (option nat)) :
  length (fold_left (fun l j => <[j := None]> l) (seq k n) l) = length l.
Proof.
  revert k l. induction n as [|n IH]; intros k l; [done|].
  simpl. by rewrite IH, length_insert.
Qed.

Lemma fold_clear_lookup k n (l : list (option nat)) j :
  (k <= j < k + n)%nat -> (j < length l)%nat ->
  fold_left (fun l j => <[j := None]> l) (seq k n) l !! j = Some None.
Proof.
  revert k l. induction n as [|n IH]; intros k l Hj Hl; [lia|]. simpl.
  destruct (decide (j = k)) as [->|Hne].
  - clear IH. assert (Hk : <[k:=None]> l !! k = Some None) by by apply list_lookup_insert_eq.
    revert Hk. generalize (<[k:=None]> l). intros l' Hk.
    assert (G : forall m l', (k < m)%nat -> l' !! k = Some None ->
      fold_left (fun (l : list (option nat)) j => <[j := None]> l) (seq m n) l' !! k = Some None).
    { clear. induction n as [|n IH]; intros m l' Hm Hk; [done|]. simpl.
      apply IH; [lia|]. rewrite list_lookup_insert_ne by lia. done. }
    apply G; [lia|done].
  - apply IH; [lia|]. by rewrite length_insert.
Qed.

Lemma clear_all_64 (l : list (option nat)) :
  length l = 64%nat -> clear_all l = replicate 64 None.
Proof.
  intros Hl. apply list_eq. intros j. destruct (decide (j < 64)%nat).
  - unfold clear_all. rewrite fold_clear_lookup by lia.
    symmetry. by apply lookup_replicate_2.
  - unfold clear_all. rewrite !lookup_ge_None_2; [done|..];
      rewrite ?fold_clear_length, ?length_replicate; lia.
Qed.

Lemma clear_joiners_run i k n s :
  mfor (seq k n) (clear_joiner i) s =
  Ret tt (set_ptable (alter (fun p => set_sleepingThreads
    (fold_left (fun l j => <[j := None]> l) (seq k n) (sleepingThreads p)) p) i
    (ptable s)) s).
Proof.
  revert k s. induction n as [|n IH]; intros k s.
  - simpl. unfold ret. rewrite list_alter_id by by intros []. by destruct s.
  - simpl. unfold clear_joiner at 1. mrun. ksimp. rewrite IH. ksimp.
    by rewrite list_alter_alter_eq.
Qed.

Lemma clear_joiners_64 i s :
  mfor (seq 0 64) (clear_joiner i) s =
  Ret tt (set_ptable (alter (fun p => set_sleepingThreads
    (clear_all (sleepingThreads p)) p) i (ptable s)) s).
Proof. apply clear_joiners_run. Qed.

(** Copying the open files of the parent into an entry. *)
Definition pick (a b : Z) : Z := if a =? 0 then b else a.

Definition mix (k : nat) (pf cf : list Z) : list Z :=
  zip_with pick (take k pf) (take k cf) ++ drop k cf.

Lemma mix_0 pf cf : mix 0 pf cf = cf.
Proof. done. Qed.

Lemma mix_S k pf cf f :
  length pf = length cf -> pf !! k = Some f ->
  mix (S k) pf cf = if f =? 0 then mix k pf cf else <[k := f]> (mix k pf cf).
Proof.
  intros Hlen Hf. assert (Hk : (k < length pf)%nat) by by eapply lookup_lt_Some.
  destruct (lookup_lt_is_Some_2 cf k ltac:(lia)) as [g Hg].
  unfold mix. rewrite (take_S_r pf _ f), (take_S_r cf _ g) by done.
  rewrite zip_with_app by (rewrite !length_take; lia). simpl.
  rewrite <- app_assoc. simpl. rewrite (drop_S cf g k) by done.
  assert (Hl : length (zip_with pick (take k pf) (take k cf)) = k).
  { rewrite length_zip_with, !length_take. lia. }
  unfold pick at 2. destruct (f =? 0); [done|].
  rewrite insert_app_r_alt by lia. rewrite Hl, Nat.sub_diag. done.
Qed.

Lemma mix_all pf cf n :
  length pf = n -> length cf = n -> mix n pf cf = zip_with pick pf cf.
Proof.
  intros Hp Hc. unfold mix. rewrite !firstn_all2, drop_ge by lia.
  apply app_nil_r.
Qed.

(** The references taken: one [filedup] per open file, in fd order. *)
Fixpoint dup_world (l : list Z) : M W unit :=
  match l with
  | [] => ret tt
  | f :: l' => if f =? 0 then dup_world l' else filedup f;;; dup_world l'
  end.

(** [filedup] returns its argument. *)
Definition filedup_id : Prop :=
  forall f w f' w', filedup f w = Ret f' w' -> f' = f.

Lemma dup_fds_run (Hid : filedup_id) m p i k n s w :
  curproc s = Some m -> m <> i -> ptable s !! m = Some p ->
  length (ofile p) = (k + n)%nat ->
  (forall q, ptable s !! i = Some q -> length (ofile q) = (k + n)%nat) ->
  dup_world (drop k (ofile p)) (world s) = Ret tt w ->
  forall cf, (forall q, ptable s !! i = Some q -> ofile q = mix k (ofile p) cf) ->
  length cf = (k + n)%nat ->
  mfor (seq k n) (dup_fd i) s =
  Ret tt (set_world w (set_ptable
    (alter (fun q => set_ofile (mix (k + n) (ofile p) cf) q) i (ptable s)) s)).
Proof.
  revert k s w. induction n as [|n IH]; intros k s w Hm Hmi Hp Hlen Hlen' Hdup cf Hcf Hlcf.
  - simpl. rewrite drop_ge in Hdup by lia. injection Hdup as <-.
    rewrite Nat.add_0_r.
    assert (alter (fun q => set_ofile (mix k (ofile p) cf) q) i (ptable s) = ptable s) as ->.
    { rewrite <- (list_alter_id (fun q => q) (ptable s) i) at 2 by done.
      apply list_alter_ext; [|done]. intros q Hq.
      rewrite <- (Hcf q Hq). by destruct q. }
    by destruct s.
  - simpl. unfold dup_fd at 1. mrun. ksimp.
    erewrite bind_Ret by by apply (cur_run s m p).
    destruct (lookup_lt_is_Some_2 (ofile p) k ltac:(lia)) as [f Hf].
    mrun. ksimp. erewrite bind_gets_opt by done.
    rewrite (drop_S _ f k Hf) in Hdup. simpl in Hdup.
    assert (Hmix := mix_S k (ofile p) cf f ltac:(lia) Hf).
    replace (k + S n)%nat with (S k + n)%nat in * by lia.
    destruct (f =? 0) eqn:Ef.
    + mrun. ksimp. erewrite (IH (S k) s w); try done.
      intros q Hq. rewrite Hmix. by apply Hcf.
    + apply bind_ret_inv in Hdup as (f' & w1 & Hfd & Hdup).
      pose proof (Hid _ _ _ _ Hfd) as ->. mrun. ksimp.
      erewrite bind_Ret by by apply call_Ret. mrun. ksimp.
      erewrite (IH (S k) _ w); try done; ksimp.
      * by rewrite list_alter_alter_eq.
      * by rewrite alter_other.
      * intros q. rewrite list_lookup_alter_eq. intros (q0 & Hq0 & ->)%fmap_Some.
        simpl. rewrite length_insert. by apply Hlen'.
      * intros q. rewrite list_lookup_alter_eq. intros (q0 & Hq0 & ->)%fmap_Some.
        simpl. by rewrite Hmix, (Hcf q0 Hq0).
Qed.

(** Copying the file pointers without taking references (kthread_create). *)
Lemma share_fds_run m p i k n s :
  curproc s = Some m -> m <> i -> ptable s !! m = Some p ->
  length (ofile p) = (k + n)%nat ->
  forall cf, (forall q, ptable s !! i = Some q -> ofile q = mix k (ofile p) cf) ->
  length cf = (k + n)%nat ->
  mfor (seq k n) (share_fd i) s =
  Ret tt (set_ptable
    (alter (fun q => set_ofile (mix (k + n) (ofile p) cf) q) i (ptable s)) s).
Proof.
  revert k s. induction n as [|n IH]; intros k s Hm Hmi Hp Hlen cf Hcf Hlcf.
  - simpl. rewrite Nat.add_0_r.
    assert (alter (fun q => set_ofile (mix k (ofile p) cf) q) i (ptable s) = ptable s) as ->.
    { rewrite <- (list_alter_id (fun q => q) (ptable s) i) at 2 by done.
      apply list_alter_ext; [|done]. intros q Hq.
      rewrite <- (Hcf q Hq). by destruct q. }
    by destruct s.
  - simpl. unfold share_fd at 1. mrun. ksimp.
    erewrite bind_Ret by by apply (cur_run s m p).
    destruct (lookup_lt_is_Some_2 (ofile p) k ltac:(lia)) as [f Hf].
    mrun. ksimp. erewrite bind_gets_opt by done.
    assert (Hmix := mix_S k (ofile p) cf f ltac:(lia) Hf).
    replace (k + S n)%nat with (S k + n)%nat in * by lia.
    destruct (f =? 0) eqn:Ef; simpl.
    + mrun. ksimp. erewrite (IH (S k) s); try done.
      intros q Hq. rewrite Hmix. by apply Hcf.
    + mrun. ksimp. erewrite (IH (S k)); try done; ksimp.
      * by rewrite list_alter_alter_eq.
      * by rewrite alter_other.
      * intros q. rewrite list_lookup_alter_eq. intros (q0 & Hq0 & ->)%fmap_Some.
        simpl. by rewrite Hmix, (Hcf q0 Hq0).
Qed.

End Loops.

(** ** fork *)

Section Fork.
Context {W : Type} `{Services W}.
Implicit Types s : kst W.

(** The child that [fork] makes from the free entry [old]. *)
Definition fork_child (m : nat) (p : proc) (n k pg ip : Z) (old : proc) : proc :=
  Proc (sz p) pg k RUNNABLE n (Some m) (k + 4096 - 76) (set_eax 0 (tfv p))
    (k + 4096 - 76 - 4 - 20) (Context 0 0 0 0 sym_forkret) sym_trapret
    (chan old) (killed old) (zip_with pick (ofile p) (ofile old)) ip (pname p)
    (-1) (replicate 64 None).

(** Array lengths of the entries. *)
Definition entry_shape (p : proc) : Prop :=
  length (ofile p) = NOFILE /\ length (sleepingThreads p) = 64%nat.

Lemma find_first_other (t : list proc) i m p :
  find_first (is_state UNUSED) t = Some i -> t !! m = Some p ->
  state p <> UNUSED -> m <> i.
Proof.
  intros [(q & Hq & Hs) _]%find_first_Some Hp Hst ->.
  apply bool_decide_eq_true in Hs. congruence.
Qed.

Lemma fork_ok_run (Hid : filedup_id) s c e m p i old k pg ip w1 w2 w3 w4 :
  lks s = idle c e -> curproc s = Some m -> ptable s !! m = Some p ->
  state p <> UNUSED ->
  find_first (is_state UNUSED) (ptable s) = Some i -> ptable s !! i = Some old ->
  entry_shape p -> entry_shape old ->
  kalloc (world s) = Ret k w1 -> k <> 0 ->
  copyuvm (pgdir p) (sz p) w1 = Ret pg w2 -> pg <> 0 ->
  dup_world (ofile p) w2 = Ret tt w3 ->
  idup (cwd p) w3 = Ret ip w4 ->
  fork s = Ret (nextpid s)
    (set_world w4 (set_lks (idle c true) (set_nextpid (s32 (nextpid s + 1))
      (set_ptable (alter (fun _ => fork_child m p (nextpid s) k pg ip old) i (ptable s)) s)))).
Proof.
  intros Hl Hm Hp Hst Hf Hold [Hp1 Hp2] [Ho1 Ho2] Hk Hk0 Hpg Hpg0 Hdup Hip.
  assert (Hmi : m <> i) by by eapply find_first_other.
  kopen s.
  unfold fork. erewrite bind_Ret by by eapply allocproc_ok. kred. krun.
  erewrite bind_Ret by (eapply (cur_run _ m p); [done|]; kred; by rewrite !alter_other).
  erewrite bind_Ret by by apply call_Ret. krun.
  destruct (pg =? 0) eqn:Epg; [lia|]. krun.
  erewrite bind_Ret by by apply me_run. krun. fuse.
  erewrite bind_Ret.
  2: { eapply (dup_fds_run Hid m p i 0 16 _ w3); kred; try done.
       - by rewrite alter_other.
       - intros q. rewrite list_lookup_alter_eq, Hold. by intros [= <-].
       - intros q. rewrite list_lookup_alter_eq, Hold. intros [= <-]. reflexivity. }
  simpl plus. kred. fuse.
  erewrite bind_Ret by by apply call_Ret. krun. fuse.
  erewrite bind_Ret by (apply get_proc_run; kred; by rewrite list_lookup_alter_eq, Hold).
  krun. fuse. erewrite bind_Ret by apply clear_joiners_64. kred. fuse.
  unfold ret, set_ptable, set_world, set_lks, set_nextpid. kred. do 2 f_equal.
  apply list_alter_ext; [|done]. intros q. rewrite Hold. intros [= <-].
  unfold fork_child, embryo. cbn -[mix clear_all replicate].
  by rewrite mix_all, clear_all_64 by done.
Qed.

(** C25: when an entry is free and the services succeed, [fork] returns the next
    pid in the parent; the first free entry becomes a runnable child with that
    pid, the copied address space, the parent's registers with eax 0, the
    parent's size, name and open files (one [filedup] each) and thread id -1;
    every other entry is unchanged and no lock stays held.  A descriptor that
    the parent does not use, and the mark of a killed process, are not reset:
    the child has there what the free entry was left with, so that it has
    exactly the parent's files when the entry had none. *)
Theorem fork_spawns_child (Hid : filedup_id) s c e m p i old k pg ip w1 w2 w3 w4 :
  lks s = idle c e -> curproc s = Some m -> ptable s !! m = Some p ->
  state p <> UNUSED ->
  find_first (is_state UNUSED) (ptable s) = Some i -> ptable s !! i = Some old ->
  entry_shape p -> entry_shape old ->
  kalloc (world s) = Ret k w1 -> k <> 0 ->
  copyuvm (pgdir p) (sz p) w1 = Ret pg w2 -> pg <> 0 ->
  dup_world (ofile p) w2 = Ret tt w3 ->
  idup (cwd p) w3 = Ret ip w4 ->
  exists s' q, fork s = Ret (nextpid s) s' /\
    ptable s' !! i = Some q /\
    state q = RUNNABLE /\ pid q = nextpid s /\ parent q = Some m /\
    threadId q = -1 /\ pgdir q = pg /\ sz q = sz p /\
    tfv q = set_eax 0 (tfv p) /\ c_eip (ctxv q) = sym_forkret /\
    (forall fd f g, ofile p !! fd = Some f -> ofile old !! fd = Some g ->
       ofile q !! fd = Some (if decide (f = 0) then g else f)) /\
    (ofile old = replicate NOFILE 0 -> ofile q = ofile p) /\
    killed q = killed old /\ cwd q = ip /\ pname q = pname p /\
    kstack q <= context q < tf q /\ tf q + sizeof_trapframe = kstack q + KSTACKSIZE /\
    (forall j, j <> i -> ptable s' !! j = ptable s !! j) /\
    lks s' = idle c true /\ world s' = w4.
Proof.
  intros Hl Hm Hp Hst Hf Hold Hs1 Hs2 Hk Hk0 Hpg Hpg0 Hdup Hip.
  eexists _, (fork_child m p (nextpid s) k pg ip old).
  split; [by eapply fork_ok_run|]. ksimp.
  rewrite list_lookup_alter_eq, Hold. simpl.
  unfold sizeof_trapframe, KSTACKSIZE. split_and!; try done; try lia.
  - intros fd f g Hfd Hg. rewrite lookup_zip_with, Hfd. simpl. rewrite Hg. simpl. unfold pick. f_equal.
    destruct (Z.eqb_spec f 0); [by rewrite decide_True|by rewrite decide_False].
  - intros Hz. replace (ofile old) with (replicate NOFILE 0) by (by rewrite Hz). destruct Hs1 as [Hlen _]. clear -Hlen. unfold NOFILE in *.
    revert Hlen. generalize (ofile p). generalize 16%nat. intros n l <-.
    induction l as [|x l IH]; [done|]. simpl. rewrite IH.
    unfold pick. destruct (Z.eqb_spec x 0) as [->|]; done.
  - intros j Hj. by rewrite alter_other.
Qed.

(** When any allocation fails, [fork] returns -1 and the table has the same
    used entries as before: the entry that was tried is free again. *)
Definition same_used (t t' : list proc) (i : nat) : Prop :=
  (forall j, j <> i -> t' !! j = t !! j) /\
  (forall q, t' !! i = Some q -> state q = UNUSED /\ kstack q = 0).

(** If [copyuvm] fails, [fork] frees the kernel stack it had allocated,
    returns -1 and leaves every used entry as it was. *)
Theorem fork_copyuvm_fails s c e m p i old k w1 w2 w3 :
  lks s = idle c e -> curproc s = Some m -> ptable s !! m = Some p ->
  state p <> UNUSED ->
  find_first (is_state UNUSED) (ptable s) = Some i -> ptable s !! i = Some old ->
  kalloc (world s) = Ret k w1 -> k <> 0 ->
  copyuvm (pgdir p) (sz p) w1 = Ret 0 w2 ->
  kfree k w2 = Ret tt w3 ->
  exists s', fork s = Ret (-1) s' /\ same_used (ptable s) (ptable s') i /\
    lks s' = idle c true /\ world s' = w3.
Proof.
  intros Hl Hm Hp Hst Hf Hold Hk Hk0 Hpg Hfree.
  assert (Hmi : m <> i) by by eapply find_first_other.
  kopen s.
  unfold fork. erewrite bind_Ret by by eapply allocproc_ok. kred. krun.
  erewrite bind_Ret by (eapply (cur_run _ m p); [done|]; kred; by rewrite !alter_other).
  erewrite bind_Ret by by apply call_Ret. krun. simpl. fuse. unfold drop_kstack. krun.
  erewrite bind_Ret by (apply get_proc_run; kred; by rewrite list_lookup_alter_eq, Hold).
  krun. erewrite bind_Ret by by apply call_Ret. krun. fuse.
  eexists. split; [reflexivity|]. kred. unfold same_used. split_and!; try done.
  - intros j Hj. by rewrite alter_other.
  - intros q. rewrite list_lookup_alter_eq, Hold. by intros [= <-].
Qed.

End Fork.

Definition fork_demo : kst rworld :=
  demo 1 [user_proc 2 0x3000 0x4000 RUNNING (Some 0%nat) (-1)] 3.

Lemma fork_spawns_child_witness :
  exists s' q, fork fork_demo = Ret 3 s' /\ ptable s' !! 2%nat = Some q /\
    state q = RUNNABLE /\ pid q = 3 /\ ofile q = 7 :: 8 :: replicate 14 0.
Proof.
  edestruct (fork_spawns_child (W := rworld)) with (s := fork_demo) (c := 0%nat) (e := false)
    (m := 1%nat) (i := 2%nat) as (s' & q & Hr & Hq & Hst & Hpid & _ & _ & _ & _ & _ & _ & _ & Hof & _).
  all: side.
  { by intros f w f' w' [= <- _]. }
  { split; reflexivity. }
  { split; reflexivity. }
  exists s', q. split_and!; try done. by apply Hof.
Defined.

Lemma fork_copyuvm_fails_witness :
  exists s', @fork _ no_copyuvm fork_demo = Ret (-1) s' /\
    same_used (ptable fork_demo) (ptable s') 2 /\
    lks s' = idle 0 true /\ calls (world s') = [CKalloc 0x10000; CKfree 0x10000].
Proof.
  edestruct (@fork_copyuvm_fails rworld no_copyuvm) with (s := fork_demo) (c := 0%nat)
    (e := false) (m := 1%nat) (i := 2%nat) as (s' & Hr & Hu & Hl & Hw).
  all: side.
  exists s'. rewrite Hw. split_and!; done.
Defined.
