(* ===== verification/ProcWait.v ===== *)
(** * wait, kill, wakeup and the scheduler (proc.c)

    Behaviour of [wait], [kill], [wakeup], [sleep] and the scheduler's scan on
    every branch. *)
From S2P Require Import Prelude Spinlock Proc ProcLocks ProcSpec.

Section Wait.
Context {W : Type} `{Services W}.
Implicit Types s : kst W.

(** The entry after [wait] has freed it. *)
Definition reaped (p : proc) : proc :=
  set_killed false (set_pname "" (set_parent None (set_pid 0
    (set_state UNUSED (set_kstack 0 p))))).

Lemma reap_run s i p w1 w2 :
  ptable s !! i = Some p ->
  kfree (kstack p) (world s) = Ret tt w1 ->
  freevm (pgdir p) w1 = Ret tt w2 ->
  reap i s = Ret (pid p) (set_world w2 (set_ptable (alter reaped i (ptable s)) s)).
Proof.
  intros Hp Hk Hf. unfold reap. kopen s.
  erewrite bind_Ret by by apply get_proc_run.
  erewrite bind_Ret by by apply call_Ret. krun.
  erewrite bind_Ret by by apply call_Ret. krun.
  unfold ret. by rewrite !list_alter_alter_eq.
Qed.

Definition zombie_child (m : nat) (p : proc) : bool := child_of m p && is_state ZOMBIE p.

(** C26: [wait] with a zombie child: the first such entry of the table is freed
    (kernel stack and address space returned, pid 0, no parent, not killed),
    its pid is returned, no other entry changes and ptable.lock is free. *)
Theorem wait_reaps_zombie s c e m i p w1 w2 :
  lks s = idle c e -> curproc s = Some m ->
  find_first (zombie_child m) (ptable s) = Some i -> ptable s !! i = Some p ->
  kfree (kstack p) (world s) = Ret tt w1 ->
  freevm (pgdir p) w1 = Ret tt w2 ->
  exists s', wait s = Ret (pid p) s' /\
    ptable s' !! i = Some (reaped p) /\
    (forall j, j <> i -> ptable s' !! j = ptable s !! j) /\
    lks s' = idle c true /\ world s' = w2.
Proof.
  intros Hl Hm Hf Hp Hk Hfr. unfold wait, wait_round. kopen s.
  kacq. erewrite bind_Ret by by apply me_run. krun.
  change (fun p => child_of m p && is_state ZOMBIE p) with (zombie_child m).
  rewrite Hf. krun. erewrite bind_Ret by by eapply reap_run. kred.
  krel. eexists. split; [reflexivity|]. kred. split_and!; try done.
  - by apply alter_same.
  - intros j Hj. by apply alter_other.
Qed.

(** [wait] without a zombie child returns -1 at once, changing no entry,
    when the caller has no children or has been killed; otherwise it goes to
    sleep on its own entry, with ptable.lock handed to the scheduler. *)
Theorem wait_no_zombie s c e m p :
  lks s = idle c e -> curproc s = Some m -> ptable s !! m = Some p ->
  find_first (zombie_child m) (ptable s) = None ->
  if negb (existsb (child_of m) (ptable s)) || killed p
  then wait s = Ret (-1) (set_lks (idle c true) s)
  else exists s', wait s = Sched s' /\
    ptable s' !! m = Some (set_state SLEEPING (set_chan (Some (ChProc m)) p)) /\
    (forall j, j <> m -> ptable s' !! j = ptable s !! j) /\
    lks s' = busy c [PTABLE].
Proof.
  intros Hl Hm Hp Hf. unfold wait, wait_round. kopen s.
  kacq. erewrite bind_Ret by by apply me_run. krun.
  change (fun p => child_of m p && is_state ZOMBIE p) with (zombie_child m).
  rewrite Hf. erewrite bind_Ret by by apply (cur_run _ m p).
  destruct (negb _ || _); [by krel|].
  unfold bind, sleep. krun. unfold when. simpl. krun.
  erewrite sched_busy; try done.
  - eexists. split; [reflexivity|]. kred. rewrite list_alter_alter_eq.
    split_and!; try done.
    + by rewrite (alter_same _ _ _ p).
    + intros j Hj. by apply alter_other.
  - kred. by rewrite list_alter_alter_eq, (alter_same _ _ _ p).
  - done.
Qed.

(** ** wakeup *)

(** [wakeup] makes runnable exactly the entries that sleep on the channel;
    all other fields and entries keep their value. *)
Theorem wakeup_exact s c e ch :
  lks s = idle c e ->
  exists s', wakeup ch s = Ret tt s' /\ lks s' = idle c true /\
    length (ptable s') = length (ptable s) /\
    forall j p, ptable s !! j = Some p ->
      ptable s' !! j =
        Some (if decide (state p = SLEEPING /\ chan p = ch)
              then set_state RUNNABLE p else p).
Proof.
  intros Hl. unfold wakeup. kopen s. kacq. unfold wakeup1. krun.
  unfold release_l, zoom. kred. rewrite release_busy1 by (unfold PTABLE; lia).
  eexists. split; [reflexivity|]. kred. rewrite length_fmap. split_and!; try done.
  intros j p Hp. rewrite list_lookup_fmap, Hp. simpl. f_equal.
  unfold wake, is_state. repeat case_bool_decide; case_decide; naive_solver.
Qed.

(** ** kill *)

(** [kill n] marks the first entry whose pid is [n], in whatever state it
    is, and makes it runnable if it sleeps; it returns -1 and changes nothing
    when no entry has the pid. *)
Theorem kill_first s c e n :
  lks s = idle c e ->
  match find_first (fun p => pid p =? n) (ptable s) with
  | None => kill n s = Ret (-1) (set_lks (idle c true) s)
  | Some i => exists s' p, kill n s = Ret 0 s' /\ ptable s !! i = Some p /\
      pid p = n /\
      ptable s' !! i = Some (set_killed true
        (if decide (state p = SLEEPING) then set_state RUNNABLE p else p)) /\
      (forall j, j <> i -> ptable s' !! j = ptable s !! j) /\
      lks s' = idle c true
  end.
Proof.
  intros Hl. unfold kill. kopen s. kacq. krun.
  destruct (find_first _ _) as [i|] eqn:Hf; [|by krel].
  pose proof Hf as [(p & Hp & Hn) _]%find_first_Some. krun.
  erewrite bind_Ret by (apply get_proc_run; kred; by apply alter_same).
  unfold is_state. simpl. destruct (decide (state p = SLEEPING)) as [E|E].
  - rewrite bool_decide_true by done. unfold when. krun. krel.
    rewrite list_alter_alter_eq. eexists _, p. split; [reflexivity|]. kred.
    split_and!; try done; [lia| |].
    + by rewrite (alter_same _ _ _ p), decide_True.
    + intros j Hj. by apply alter_other.
  - rewrite bool_decide_false by done. unfold when. krun. krel.
    eexists _, p. split; [reflexivity|]. kred.
    split_and!; try done; [lia| |].
    + by rewrite (alter_same _ _ _ p), decide_False.
    + intros j Hj. by apply alter_other.
Qed.

(** ** The scheduler *)

(** Every runnable entry has a page directory. *)
Definition runnable_mapped (t : list proc) : Prop :=
  forall j p, t !! j = Some p -> state p = RUNNABLE -> pgdir p <> 0.

(** [switchuvm] panics only on a process without a page directory. *)
Definition switchuvm_ok : Prop :=
  forall pg w, pg <> 0 -> exists w', switchuvm pg w = Ret tt w'.

Lemma sched_scan_run l s :
  (forall i, i ∈ l -> exists p, ptable s !! i = Some p) ->
  runnable_mapped (ptable s) -> switchuvm_ok ->
  match find_first (fun i => match ptable s !! i with
                             | Some p => is_state RUNNABLE p | None => false end) l with
  | None => sched_scan l s = Ret None s
  | Some k => exists i p w, l !! k = Some i /\ ptable s !! i = Some p /\
      state p = RUNNABLE /\
      sched_scan l s = Ret (Some i) (set_world w (set_curproc (Some i)
        (set_ptable (alter (set_state RUNNING) i (ptable s)) s)))
  end.
Proof.
  intros Hin Hmap Hsw. induction l as [|i l IH]; [done|]. simpl.
  destruct (Hin i ltac:(left)) as [p Hp]. rewrite Hp.
  specialize (IH ltac:(intros j Hj; apply Hin; by right)).
  unfold sched_switch. rewrite bind_assoc. erewrite bind_Ret by by apply get_proc_run.
  destruct (is_state RUNNABLE p) eqn:E; simpl.
  - apply bool_decide_eq_true in E.
    destruct (Hsw (pgdir p) (world s)) as [w Hw]; [by eapply Hmap|].
    exists i, p, w. split_and!; try done.
    destruct s. krun. erewrite bind_Ret by by apply call_Ret. by krun.
  - krun. destruct (find_first _ l); simpl; [|done]. done.
Qed.

Lemma sched_scan_none l s :
  (forall i, i ∈ l -> exists p, ptable s !! i = Some p /\ state p <> RUNNABLE) ->
  sched_scan l s = Ret None s.
Proof.
  intros Hin. induction l as [|i l IH]; [done|]. simpl.
  destruct (Hin i ltac:(left)) as (p & Hp & Hst).
  unfold sched_switch. rewrite bind_assoc. erewrite bind_Ret by by apply get_proc_run.
  unfold is_state. rewrite bool_decide_false by done. simpl. rewrite bind_ret.
  apply IH. intros j Hj. apply Hin. by right.
Qed.

Lemma scheduler_pass_run s c e :
  lks s = idle c e -> length (ptable s) = NPROC ->
  runnable_mapped (ptable s) -> switchuvm_ok ->
  match find_first (is_state RUNNABLE) (ptable s) with
  | Some i => exists s', scheduler_pass s = Ret (Some i) s' /\
      curproc s' = Some i /\ lks s' = busy c [PTABLE] /\
      ptable s' = alter (set_state RUNNING) i (ptable s)
  | None => exists s', scheduler_pass s = Ret None s' /\
      ptable s' = ptable s /\ lks s' = idle c true
  end.
Proof.
  intros Hl Hlen Hmap Hsw. unfold scheduler_pass.
  assert (Hsti : zoom lks set_lks sti s = Ret tt (set_lks (idle c e) s)).
  { unfold zoom. by rewrite Hl. }
  erewrite bind_Ret by exact Hsti. kopen s. kacq.
  pose proof (sched_scan_run (seq 0 NPROC)
    (Kst (busy c [PTABLE]) ptable mtable ctable initproc nextpid nextThread first
       curproc klog world)) as Hscan. kredh. rewrite <- Hlen, find_first_seq in Hscan.
  rewrite <- Hlen. specialize (Hscan ltac:(intros i Hi; apply lookup_lt_is_Some_2;
    apply elem_of_seq in Hi; lia) Hmap Hsw).
  destruct (find_first _ ptable) as [k|].
  - destruct Hscan as (i & p & w & Hi & Hp & Hst & Hrun).
    apply lookup_seq in Hi as [-> _].
    erewrite bind_Ret by exact Hrun. eexists. split; [reflexivity|]. by kred.
  - erewrite bind_Ret by exact Hscan. krun. krel. eexists. split; [reflexivity|]. by kred.
Qed.

(** One pass of the scheduler switches to the runnable entry with the
    smallest index, which becomes the running, current process while
    ptable.lock stays held; with no runnable entry it releases the lock and
    leaves the table alone. *)
Theorem scheduler_picks_first s c e :
  lks s = idle c e -> length (ptable s) = NPROC ->
  runnable_mapped (ptable s) -> switchuvm_ok ->
  match find_first (is_state RUNNABLE) (ptable s) with
  | Some i => exists s', scheduler_pass s = Ret (Some i) s' /\
      curproc s' = Some i /\ lks s' = busy c [PTABLE] /\
      ptable s' = alter (set_state RUNNING) i (ptable s)
  | None => exists s', scheduler_pass s = Ret None s' /\
      ptable s' = ptable s /\ lks s' = idle c true
  end.
Proof. apply scheduler_pass_run. Qed.

(** Back in the scheduler with nothing left to run in this pass. *)
Lemma scheduler_return_none s c i w :
  lks s = busy c [PTABLE] -> length (ptable s) = NPROC ->
  switchkvm (world s) = Ret tt w ->
  (forall j p, (i < j)%nat -> ptable s !! j = Some p -> state p <> RUNNABLE) ->
  scheduler_return i s = Ret None (set_lks (idle c true) (set_curproc None (set_world w s))).
Proof.
  intros Hl Hlen Hk Hnr. unfold scheduler_return. kopen s.
  erewrite bind_Ret by by apply call_Ret. krun.
  erewrite bind_Ret.
  2: { apply sched_scan_none. intros j Hj. apply elem_of_seq in Hj.
       destruct (ptable !! j) as [p|] eqn:Hp; [|by apply lookup_ge_None in Hp; lia].
       exists p. split; [exact Hp|]. by apply (Hnr j); [lia|]. }
  krun. by krel.
Qed.

End Wait.

(** ** The properties at concrete states *)

(** A parent with a live and an exited child. *)
Definition wait_demo : kst rworld :=
  demo 1 [user_proc 2 0x3000 0x4000 RUNNING (Some 0%nat) (-1);
          user_proc 3 0x5000 0x6000 SLEEPING (Some 1%nat) (-1);
          user_proc 4 0x7000 0x8000 ZOMBIE (Some 1%nat) (-1)] 5.

Lemma wait_reaps_zombie_witness :
  exists s', wait wait_demo = Ret 4 s' /\
    ptable s' !! 3%nat = Some (reaped (user_proc 4 0x7000 0x8000 ZOMBIE (Some 1%nat) (-1))) /\
    calls (world s') = [CKfree 0x8000; CFreevm 0x7000].
Proof.
  edestruct (wait_reaps_zombie (W := rworld)) with (s := wait_demo) (c := 0%nat)
    (e := false) (m := 1%nat) (i := 3%nat) as (s' & Hr & Hp & _ & _ & Hw); side.
  exists s'. rewrite Hw. split_and!; done.
Defined.

Definition wait_sleep_demo : kst rworld :=
  demo 1 [user_proc 2 0x3000 0x4000 RUNNING (Some 0%nat) (-1);
          user_proc 3 0x5000 0x6000 SLEEPING (Some 1%nat) (-1)] 4.

Lemma wait_no_zombie_witness :
  exists s', wait wait_sleep_demo = Sched s' /\
    state <$> (ptable s' !! 1%nat) = Some SLEEPING.
Proof.
  edestruct (wait_no_zombie (W := rworld)) with (s := wait_sleep_demo) (c := 0%nat)
    (e := false) (m := 1%nat) (p := user_proc 2 0x3000 0x4000 RUNNING (Some 0%nat) (-1)) as (s' & Hr & Hp & _); side.
  exists s'. split; [exact Hr|by rewrite Hp].
Defined.

Lemma wakeup_exact_witness :
  exists s', wakeup (Some (ChProc 0)) wait_demo = Ret tt s' /\
    state <$> (ptable s' !! 0%nat) = Some RUNNABLE /\
    state <$> (ptable s' !! 2%nat) = Some SLEEPING.
Proof.
  destruct (wakeup_exact (W := rworld) wait_demo 0 false (Some (ChProc 0)) eq_refl)
    as (s' & Hr & _ & _ & Hp).
  exists s'. split; [exact Hr|]. split; erewrite Hp by reflexivity; reflexivity.
Defined.

Lemma kill_first_witness :
  exists s', kill 3 wait_demo = Ret 0 s' /\
    killed <$> (ptable s' !! 2%nat) = Some true /\
    state <$> (ptable s' !! 2%nat) = Some RUNNABLE.
Proof.
  destruct (kill_first (W := rworld) wait_demo 0 false 3 eq_refl)
    as (s' & p & Hr & Hp & _ & Hp' & _).
  exists s'. split; [exact Hr|]. injection Hp as <-. by rewrite Hp'.
Defined.

Definition sched_demo : kst rworld :=
  demo 0 [user_proc 2 0x3000 0x4000 ZOMBIE (Some 0%nat) (-1);
          user_proc 3 0x5000 0x6000 RUNNABLE (Some 1%nat) (-1)] 4.

Lemma scheduler_picks_first_witness :
  exists s', scheduler_pass sched_demo = Ret (Some 2%nat) s' /\ curproc s' = Some 2%nat.
Proof.
  destruct (scheduler_picks_first (W := rworld) sched_demo 0 false)
    as (s' & Hr & Hc & _); side.
  - intros j p. do 3 (destruct j; [by intros [= <-]|]).
    intros Hj. change (replicate 61 free_proc !! j = Some p) in Hj.
    by apply lookup_replicate in Hj as [-> _].
  - intros pg w _. by eexists.
  - by exists s'.
Defined.
