(* ===== verification/ProcExit.v ===== *)
(** * Exit, kernel-thread creation and join (proc.c)

    [New_exit], [kthread_exit], [kthread_create] and [kthread_join]: what each
    does to the table, to the address spaces and to the sleepers. *)
From S2P Require Import Prelude Spinlock Proc ProcLocks ProcSpec ProcWait.

Section Exit.
Context {W : Type} `{Services W}.
Implicit Types s : kst W.

(** ** Loops of the exit paths *)

(** Waking the sleepers of a set of channels. *)
Definition wake_any (chs : list (option channel)) (p : proc) : proc :=
  if bool_decide (state p = SLEEPING /\ chan p ∈ chs) then set_state RUNNABLE p else p.

Lemma wake_wake_any ch chs p : wake_any chs (wake ch p) = wake_any (ch :: chs) p.
Proof.
  unfold wake_any, wake, is_state.
  repeat case_bool_decide; simpl in *; try done; set_solver.
Qed.

Lemma wake_any_nil p : wake_any [] p = p.
Proof. unfold wake_any. case_bool_decide; [set_solver|done]. Qed.

Lemma set_ptable_id s : set_ptable (ptable s) s = s.
Proof. by destruct s. Qed.

Definition chans_of (l : list (option nat)) : list (option channel) :=
  (fun j : option nat => ChProc <$> j) <$> filter (fun j => j <> None) l.

Lemma wake_joiners_run m p k n s :
  curproc s = Some m -> ptable s !! m = Some p -> state p <> SLEEPING ->
  length (sleepingThreads p) = (k + n)%nat ->
  mfor (seq k n) wake_joiner s =
  Ret tt (set_ptable (wake_any (chans_of (drop k (sleepingThreads p))) <$> ptable s) s).
Proof.
  intros Hm Hp Hst Hlen.
  revert k s Hm Hp Hlen. induction n as [|n IH]; intros k s Hm Hp Hlen.
  - simpl. rewrite drop_ge by lia. unfold chans_of. simpl. unfold ret. f_equal.
    rewrite (list_fmap_ext _ (fun p => p)), list_fmap_id; [by rewrite set_ptable_id|].
    intros. apply wake_any_nil.
  - simpl. unfold wake_joiner at 1. mrun. ksimp. erewrite bind_Ret by by apply (cur_run _ m p).
    destruct (lookup_lt_is_Some_2 (sleepingThreads p) k ltac:(lia)) as [j Hj].
    mrun. ksimp. erewrite bind_gets_opt by done. rewrite (drop_S _ j k Hj).
    unfold chans_of. destruct j as [j|].
    + rewrite filter_cons_True by done. unfold when, wakeup1.
      rewrite bool_decide_true by done. mrun. ksimp. rewrite (IH (S k)); ksimp.
      * f_equal. destruct s; unfold set_ptable; ksimp. f_equal.
        rewrite <- list_fmap_compose. apply list_fmap_ext.
        intros _ q _. unfold compose. apply wake_wake_any.
      * done.
      * rewrite list_lookup_fmap, Hp. simpl. f_equal. unfold wake, is_state.
        by rewrite bool_decide_false.
      * lia.
    + rewrite filter_cons_False by naive_solver. unfold when.
      rewrite bool_decide_false by naive_solver. mrun.
      rewrite (IH (S k)); [done|done|done|lia].
Qed.

Lemma live_wake_any n chs p : live_thread_of n (wake_any chs p) = live_thread_of n p.
Proof.
  unfold wake_any. case_bool_decide as E; [|done]. destruct E as [E _].
  unfold live_thread_of, is_state. simpl. rewrite E. done.
Qed.

Definition live_threads (n : Z) (t : list proc) : nat :=
  length (filter (fun p => live_thread_of n p = true) t).

Lemma live_threads_wake n chs t :
  live_threads n (wake_any chs <$> t) = live_threads n t.
Proof.
  unfold live_threads. induction t as [|p t IH]; [done|].
  rewrite fmap_cons, !filter_cons, live_wake_any.
  case_decide; simpl; by rewrite IH.
Qed.

Lemma wake_any_running chs p : state p = RUNNING -> wake_any chs p = p.
Proof. intros E. unfold wake_any. rewrite bool_decide_false; [done|]. intros [? _]. congruence. Qed.

(** The common start of [kthread_exit]: lock, init check, wake the joiners. *)
Lemma kthread_exit_start s c e m q :
  lks s = idle c e -> curproc s = Some m -> ptable s !! m = Some q ->
  state q = RUNNING -> initproc s <> Some m ->
  length (sleepingThreads q) = 64%nat ->
  let t := wake_any (chans_of (sleepingThreads q)) <$> ptable s in
  kthread_exit s =
  (if (live_threads (pid q) (ptable s) =? 1)%nat then
     mfor (seq 0 NPROC) (reap_thread q);;; release_l PTABLE;;; New_exit
   else upd_cur (set_state ZOMBIE);;; sched;;; panic "zombie exit")
  (set_ptable t (set_lks (busy c [PTABLE]) s)).
Proof.
  intros Hl Hm Hq Hst Hini Hlen t. unfold kthread_exit.
  assert (Hq' : t !! m = Some q).
  { unfold t. rewrite list_lookup_fmap, Hq. simpl. by rewrite wake_any_running. }
  kopen s. kacq. erewrite bind_Ret by by apply me_run. mrun.
  rewrite bool_decide_false by done.
  erewrite bind_Ret by (apply (wake_joiners_run m q 0 64); [done|done|congruence|done]).
  erewrite bind_Ret by by apply (cur_run _ m q). mrun. kred. fold t.
  replace (length (filter _ t)) with (live_threads (pid q) ptable); [done|].
  by rewrite <- (live_threads_wake (pid q) (chans_of (sleepingThreads q))).
Qed.

Lemma kthread_exit_not_last_run s c e m q :
  lks s = idle c e -> curproc s = Some m -> ptable s !! m = Some q ->
  state q = RUNNING -> initproc s <> Some m ->
  length (sleepingThreads q) = 64%nat ->
  live_threads (pid q) (ptable s) <> 1%nat ->
  kthread_exit s = Sched (set_lks (busy c [PTABLE]) (set_ptable (alter (set_state ZOMBIE) m
    (wake_any (chans_of (sleepingThreads q)) <$> ptable s)) s)).
Proof.
  intros Hl Hm Hq Hst Hini Hlen Hlive.
  erewrite kthread_exit_start by done.
  destruct (Nat.eqb_spec (live_threads (pid q) (ptable s)) 1); [done|].
  assert (Hq' : (wake_any (chans_of (sleepingThreads q)) <$> ptable s) !! m = Some q).
  { rewrite list_lookup_fmap, Hq. simpl. by rewrite wake_any_running. }
  kopen s. erewrite bind_Ret by by apply upd_cur_run. kred.
  unfold bind. erewrite sched_busy; kred; try done; [by apply alter_same|done].
Qed.

(** [kthread_exit] of a thread that is not the last one of its process
    makes the thread a zombie, wakes exactly the threads registered as its
    joiners, closes no file and enters the scheduler holding only
    ptable.lock. *)
Theorem kthread_exit_not_last s c e m q :
  lks s = idle c e -> curproc s = Some m -> ptable s !! m = Some q ->
  state q = RUNNING -> initproc s <> Some m ->
  length (sleepingThreads q) = 64%nat ->
  live_threads (pid q) (ptable s) <> 1%nat ->
  exists s', kthread_exit s = Sched s' /\
    ptable s' !! m = Some (set_state ZOMBIE q) /\
    (forall j p, j <> m -> ptable s !! j = Some p ->
       ptable s' !! j = Some (wake_any (chans_of (sleepingThreads q)) p)) /\
    world s' = world s /\ lks s' = busy c [PTABLE].
Proof.
  intros Hl Hm Hq Hst Hini Hlen Hlive. eexists.
  split; [by eapply kthread_exit_not_last_run|]. kopen s. split_and!; try done.
  - apply alter_same. rewrite list_lookup_fmap, Hq. simpl. by rewrite wake_any_running.
  - intros j p Hj Hp. rewrite alter_other by done. by rewrite list_lookup_fmap, Hp.
Qed.

(** ** New_exit *)

Fixpoint close_world (l : list Z) : M W unit :=
  match l with
  | [] => ret tt
  | f :: l' => if f =? 0 then close_world l' else fileclose f;;; close_world l'
  end.

Lemma close_fds_run m p k n s w :
  curproc s = Some m -> ptable s !! m = Some p -> length (ofile p) = (k + n)%nat ->
  close_world (drop k (ofile p)) (world s) = Ret tt w ->
  (forall j, (j < k)%nat -> ofile p !! j = Some 0) ->
  mfor (seq k n) close_fd s =
  Ret tt (set_world w (set_ptable (alter (set_ofile (replicate (k + n) 0)) m (ptable s)) s)).
Proof.
  revert k p s w. induction n as [|n IH]; intros k p s w Hm Hp Hlen Hw Hz.
  - simpl. rewrite drop_ge in Hw by lia. injection Hw as <-.
    assert (alter (set_ofile (replicate (k + 0) 0)) m (ptable s) = ptable s) as ->.
    { rewrite <- (list_alter_id (fun q => q) (ptable s) m) at 2 by done.
      apply list_alter_ext; [|done]. intros q Hq.
      assert (q = p) as -> by congruence.
      replace (replicate (k + 0) 0) with (ofile p); [by destruct p|].
      apply list_eq. intros j. destruct (decide (j < k)%nat).
      - rewrite Hz by done. symmetry. apply lookup_replicate_2. lia.
      - rewrite !lookup_ge_None_2; rewrite ?length_replicate; try lia. done. }
    by destruct s.
  - simpl. unfold close_fd at 1. mrun. erewrite bind_Ret by by apply (cur_run _ m p).
    destruct (lookup_lt_is_Some_2 (ofile p) k ltac:(lia)) as [f Hf].
    mrun. erewrite bind_gets_opt by done. rewrite (drop_S _ f k Hf) in Hw. simpl in Hw.
    replace (k + S n)%nat with (S k + n)%nat in * by lia. unfold when.
    destruct (f =? 0) eqn:Ef; simpl.
    + assert (f = 0) as -> by lia. mrun. erewrite (IH (S k) p); try done.
      intros j Hj. destruct (decide (j = k)) as [->|]; [done|]. apply Hz. lia.
    + apply bind_ret_inv in Hw as ([] & w1 & Hw1 & Hw). mrun.
      erewrite bind_Ret by by apply call_Ret.
      erewrite bind_Ret by by apply upd_cur_run. ksimp.
      erewrite (IH (S k) (set_ofile (<[k := 0]> (ofile p)) p)); ksimp; try done.
      * rewrite list_alter_alter_eq. unfold compose. done.
      * by rewrite (alter_same _ _ _ p).
      * simpl. by rewrite length_insert.
      * simpl. by rewrite drop_insert_lt by lia.
      * intros j Hj. simpl. destruct (decide (j = k)) as [->|].
        -- apply list_lookup_insert_eq. lia.
        -- rewrite list_lookup_insert_ne by done. apply Hz. lia.
Qed.

(** A child of the exiting entry [m] is given to init. *)
Definition adopted (m : nat) (ini : option nat) (p : proc) : proc :=
  if child_of m p then set_parent ini p else p.

Definition wake_if (b : bool) (ch : option channel) (p : proc) : proc :=
  if b then wake ch p else p.

Lemma wake_parent ch p : parent (wake ch p) = parent p.
Proof. unfold wake. by case_match. Qed.

Lemma wake_zombie ch p : is_state ZOMBIE (wake ch p) = is_state ZOMBIE p.
Proof.
  unfold wake, is_state. repeat case_bool_decide; simpl in *;
    repeat case_bool_decide; simpl in *; congruence.
Qed.

Lemma wake_if_child b ch m p : child_of m (wake_if b ch p) = child_of m p.
Proof. unfold wake_if, child_of. destruct b; [by rewrite wake_parent|done]. Qed.

Lemma wake_if_zombie b ch p : is_state ZOMBIE (wake_if b ch p) = is_state ZOMBIE p.
Proof. unfold wake_if. destruct b; [by rewrite wake_zombie|done]. Qed.

Lemma wake_idem ch p : wake ch (wake ch p) = wake ch p.
Proof.
  unfold wake at 1 3. unfold wake, is_state. repeat case_bool_decide; simpl in *; done.
Qed.

Lemma wake_if_or b1 b2 ch p :
  wake_if b2 ch (wake_if b1 ch p) = wake_if (b1 || b2) ch p.
Proof. destruct b1, b2; simpl; try done. apply wake_idem. Qed.

Lemma wake_if_set_parent b ch ini p :
  wake_if b ch (set_parent ini p) = set_parent ini (wake_if b ch p).
Proof. unfold wake_if, wake, is_state. destruct b; [|done]. simpl. by case_match. Qed.

Lemma existsb_take_S {A} (P : A -> bool) (l : list A) k x :
  l !! k = Some x -> existsb P (take (S k) l) = existsb P (take k l) || P x.
Proof.
  intros Hx. rewrite (take_S_r _ _ x) by done. rewrite existsb_app. simpl.
  by rewrite orb_false_r.
Qed.

Lemma existsb_fmap_inv {A} (P : A -> bool) (f : A -> A) l :
  (forall x, P (f x) = P x) -> existsb P (f <$> l) = existsb P l.
Proof.
  intros Hf. induction l as [|x l IH]; [done|]. rewrite fmap_cons. simpl.
  by rewrite Hf, IH.
Qed.

Lemma existsb_alter_inv {A} (P : A -> bool) (f : A -> A) i l :
  (forall x, P (f x) = P x) -> existsb P (alter f i l) = existsb P l.
Proof.
  intros Hf. revert i. induction l as [|x l IH]; intros [|i]; try done; simpl.
  - by rewrite Hf.
  - by rewrite <- (IH i).
Qed.

(** The table after the loop has passed the first [k] entries. *)
Definition after_reparent (m : nat) (ini : option nat) (k : nat) (t : list proc) : list proc :=
  imap (fun j p => wake_if (existsb (zombie_child m) (take k t)) (ChProc <$> ini)
                     (if (j <? k)%nat then adopted m ini p else p)) t.

Lemma reparent_run m s :
  initproc s <> Some m -> length (ptable s) = NPROC ->
  mfor (seq 0 NPROC) (reparent m) s =
  Ret tt (set_ptable (after_reparent m (initproc s) NPROC (ptable s)) s).
Proof.
  intros Hini Hlen. set (ini := initproc s) in *. set (t := ptable s) in *.
  destruct (mfor_seq_inv (fun k s' => s' = set_ptable (after_reparent m ini k t) s)
    0 NPROC (reparent m) s) as (s' & Hr & ->); [| |done].
  - replace (after_reparent m ini 0 t) with t; [by unfold t; rewrite set_ptable_id|].
    apply list_eq. intros j. unfold after_reparent. rewrite list_lookup_imap.
    by destruct (t !! j).
  - intros k s' Hk ->.
    destruct (lookup_lt_is_Some_2 t k ltac:(lia)) as [p Hp].
    set (ch := ChProc <$> ini). set (b := existsb (zombie_child m) (take k t)).
    assert (Hp' : after_reparent m ini k t !! k = Some (wake_if b ch p)).
    { unfold after_reparent. rewrite list_lookup_imap, Hp. simpl.
      destruct (Nat.ltb_spec k k); [lia|done]. }
    unfold reparent. erewrite bind_Ret by by apply get_proc_run.
    rewrite wake_if_child, wake_if_zombie. unfold when.
    assert (Hex := existsb_take_S (zombie_child m) t k p Hp). fold b in Hex.
    unfold zombie_child at 2 in Hex.
    destruct (child_of m p) eqn:Hc; simpl in Hex.
    + mrun. ksimp. fold ini. exists (set_ptable (after_reparent m ini (S k) t) s).
      split; [|done].
      assert (Halt : alter (set_parent ini) k (after_reparent m ini k t) =
        imap (fun j p => wake_if b ch (if (j <? S k)%nat then adopted m ini p else p)) t).
      { apply list_eq. intros j. destruct (decide (j = k)) as [->|Hne].
        - rewrite (alter_same _ _ _ _ Hp'), list_lookup_imap, Hp. simpl.
          destruct (Nat.ltb_spec k (S k)); [|lia]. unfold adopted. rewrite Hc.
          by rewrite wake_if_set_parent.
        - rewrite alter_other by done. unfold after_reparent. rewrite !list_lookup_imap.
          destruct (t !! j); [|done]. simpl. fold b ch.
          destruct (Nat.ltb_spec j k), (Nat.ltb_spec j (S k)); try lia; done. }
      destruct (is_state ZOMBIE p) eqn:Hz.
      * unfold wakeup1, modify. ksimp. rewrite Halt.
        unfold after_reparent. rewrite Hex, orb_true_r. fold ch. f_equal.
        destruct s; unfold set_ptable; ksimp. f_equal.
        apply list_eq. intros j. rewrite list_lookup_fmap, !list_lookup_imap.
        destruct (t !! j); [|done]. simpl. f_equal.
        change (wake ch) with (wake_if true ch). by rewrite wake_if_or, orb_true_r.
      * unfold ret. ksimp. rewrite Halt. unfold after_reparent.
        rewrite Hex, orb_false_r. by destruct s.
    + exists (set_ptable (after_reparent m ini k t) s). split; [done|].
      f_equal. unfold after_reparent. rewrite Hex, orb_false_r.
      apply list_eq. intros j. rewrite !list_lookup_imap.
      destruct (t !! j) eqn:Hj; [|done]. simpl. do 2 f_equal.
      destruct (Nat.ltb_spec j k), (Nat.ltb_spec j (S k)); try lia; try done.
      assert (j = k) as -> by lia. unfold adopted.
      assert (p0 = p) as -> by congruence. by rewrite Hc.
Qed.

(** [New_exit] of a process other than init closes every open file once and
    drops its current directory, wakes a parent sleeping in [wait], gives its
    children to init (waking init when one of them is a zombie), becomes a
    zombie and enters the scheduler holding only ptable.lock; afterwards no
    entry has it as parent. *)
Theorem New_exit_spec s c e m q w1 w2 :
  lks s = idle c e -> curproc s = Some m -> ptable s !! m = Some q ->
  state q = RUNNING -> parent q <> Some m -> initproc s <> Some m ->
  length (ptable s) = NPROC -> length (ofile q) = NOFILE ->
  close_world (ofile q) (world s) = Ret tt w1 ->
  iput (cwd q) w1 = Ret tt w2 ->
  exists s', New_exit s = Sched s' /\ lks s' = busy c [PTABLE] /\ world s' = w2 /\
    ptable s' !! m = Some (set_state ZOMBIE (set_cwd 0 (set_ofile (replicate 16 0) q))) /\
    (forall j p, ptable s' !! j = Some p -> parent p <> Some m) /\
    (forall j p, j <> m -> ptable s !! j = Some p ->
       ptable s' !! j = Some
         (wake_if (existsb (zombie_child m) (ptable s)) (ChProc <$> initproc s)
            (adopted m (initproc s) (wake (ChProc <$> parent q) p)))).
Proof.
  intros Hl Hm Hq Hst Hpar Hini Hlen Hof Hcl Hip. unfold New_exit.
  erewrite bind_Ret by by apply me_run. mrun. rewrite bool_decide_false by done.
  erewrite bind_Ret by (eapply (close_fds_run m q 0 16); [done..|lia]). simpl plus.
  set (q1 := set_ofile (replicate 16 0) q).
  kopen s. erewrite bind_Ret by (apply (cur_run _ m q1); [done|kred; by rewrite (alter_same _ _ _ q)]).
  erewrite bind_Ret by by apply call_Ret. erewrite bind_Ret by by apply upd_cur_run. kred.
  kacq. rewrite list_alter_alter_eq.
  set (q2 := set_cwd 0 q1).
  erewrite bind_Ret by (apply (cur_run _ m q2); [done|kred; by rewrite (alter_same _ _ _ q)]).
  unfold wakeup1. mrun. kred.
  set (t := wake _ <$> _).
  assert (Htm : t !! m = Some q2).
  { unfold t. rewrite list_lookup_fmap, (alter_same _ _ _ q) by done. simpl. f_equal.
    unfold wake, is_state. by rewrite bool_decide_false by (unfold compose; simpl; congruence). }
  assert (Htj : forall j p, j <> m -> ptable !! j = Some p ->
     t !! j = Some (wake (ChProc <$> parent q) p)).
  { intros j p Hj Hp. unfold t. by rewrite list_lookup_fmap, alter_other, Hp. }
  assert (Htlen : length t = NPROC).
  { unfold t. by rewrite length_fmap, length_alter. }
  assert (Hzc : existsb (zombie_child m) t = existsb (zombie_child m) ptable).
  { unfold t. rewrite existsb_fmap_inv, existsb_alter_inv; [done|done|].
    intros p. unfold zombie_child, child_of. by rewrite wake_parent, wake_zombie. }
  erewrite bind_Ret by by apply reparent_run. kred.
  assert (Htake : take NPROC t = t) by (apply firstn_all2; lia).
  assert (Hafter : forall j p, t !! j = Some p ->
    after_reparent m initproc NPROC t !! j =
    Some (wake_if (existsb (zombie_child m) ptable) (ChProc <$> initproc)
            (adopted m initproc p))).
  { intros j p Hj. pose proof (lookup_lt_Some _ _ _ Hj).
    unfold after_reparent. rewrite list_lookup_imap, Hj, Htake, Hzc. simpl.
    destruct (Nat.ltb_spec j NPROC); [done|lia]. }
  assert (Hq2 : after_reparent m initproc NPROC t !! m = Some q2).
  { erewrite Hafter by exact Htm. unfold adopted, child_of.
    rewrite bool_decide_false by done. unfold wake_if, wake, is_state.
    rewrite bool_decide_false by (simpl; congruence). by case_match. }
  erewrite bind_Ret by by apply upd_cur_run. kred.
  unfold bind. erewrite sched_busy; kred; try done; [|by apply alter_same|done].
  eexists. split; [reflexivity|]. kred. split_and!; try done.
  - by rewrite (alter_same _ _ _ q2).
  - intros j p. destruct (decide (j = m)) as [->|Hj].
    + rewrite (alter_same _ _ _ q2) by done. intros [= <-]. done.
    + rewrite alter_other by done. intros Hp.
      assert (exists p0, t !! j = Some p0) as [p0 Hp0].
      { apply lookup_lt_is_Some_2. apply lookup_lt_Some in Hp.
        unfold after_reparent in Hp. by rewrite length_imap in Hp. }
      erewrite Hafter in Hp by exact Hp0. injection Hp as <-.
      unfold wake_if, adopted, child_of. destruct (existsb (zombie_child m) ptable);
        rewrite ?wake_parent; case_bool_decide; simpl; done.
  - intros j p Hj Hp. rewrite alter_other by done. by erewrite Hafter by by apply Htj.
Qed.

(** ** The last thread of a process *)

(** An exited thread of [q]'s process other than [q]. *)
Definition dead_sibling (q p : proc) : bool :=
  is_state ZOMBIE p && (pid p =? pid q) && negb (threadId q =? threadId p).

Definition free_sibling (q p : proc) : proc :=
  if dead_sibling q p then reaped p else p.

Lemma reap_threads_run q k n s w :
  length (ptable s) = (k + n)%nat ->
  mfor (kstack <$> filter (fun p => dead_sibling q p = true) (drop k (ptable s))) kfree
    (world s) = Ret tt w ->
  mfor (seq k n) (reap_thread q) s =
  Ret tt (set_world w (set_ptable
    (imap (fun j p => if (j <? k)%nat then p else free_sibling q p) (ptable s)) s)).
Proof.
  revert k s w. induction n as [|n IH]; intros k s w Hlen Hw.
  - simpl. rewrite drop_ge in Hw by lia. injection Hw as <-.
    replace (imap _ (ptable s)) with (ptable s); [by destruct s|].
    apply list_eq. intros j. rewrite list_lookup_imap.
    destruct (ptable s !! j) eqn:Hj; [|done]. simpl.
    apply lookup_lt_Some in Hj. destruct (Nat.ltb_spec j k); [done|lia].
  - destruct (lookup_lt_is_Some_2 (ptable s) k ltac:(lia)) as [p Hp].
    rewrite (drop_S _ p k Hp), filter_cons in Hw.
    simpl. unfold reap_thread at 1. mrun. erewrite bind_Ret by by apply get_proc_run.
    change (is_state ZOMBIE p && (pid p =? pid q) && negb (threadId q =? threadId p))
      with (dead_sibling q p).
    replace (k + S n)%nat with (S k + n)%nat in Hlen by lia. unfold when.
    destruct (dead_sibling q p) eqn:Hd.
    + rewrite decide_True in Hw by done. simpl in Hw.
      apply bind_ret_inv in Hw as ([] & w1 & Hw1 & Hw). mrun.
      erewrite bind_Ret by by apply call_Ret.
      destruct s as [ls t mt ct ini np nt fst cur kl wo]; cbn [ptable world] in *. krun. rewrite !list_alter_alter_eq.
      erewrite (IH (S k)); kred.
      * do 2 f_equal.
        apply list_eq. intros j. rewrite !list_lookup_imap.
        destruct (decide (j = k)) as [->|Hj].
        -- rewrite (alter_same _ _ _ p), Hp by done. simpl. unfold free_sibling. rewrite Hd.
           destruct (Nat.ltb_spec k (S k)), (Nat.ltb_spec k k); try lia. done.
        -- rewrite alter_other by done. destruct (t !! j); [|done]. simpl.
           destruct (Nat.ltb_spec j (S k)), (Nat.ltb_spec j k); try lia; done.
      * by rewrite length_alter.
      * rewrite drop_alter_lt by lia. exact Hw.
    + rewrite decide_False in Hw by congruence. mrun.
      erewrite (IH (S k)) by done. do 3 f_equal.
      apply list_eq. intros j. rewrite !list_lookup_imap.
      destruct (ptable s !! j) eqn:Hj; [|done]. simpl in *. f_equal.
      destruct (Nat.ltb_spec j (S k)), (Nat.ltb_spec j k); try lia; try done.
      assert (j = k) as -> by lia. assert (p0 = p) as -> by congruence.
      unfold free_sibling. by rewrite Hd.
Qed.

(** [kthread_exit] of the last live thread of a process wakes its joiners,
    returns the kernel stacks of the process's other, already exited, threads
    and frees their entries, releases ptable.lock, and goes on as
    [New_exit]. *)
Theorem kthread_exit_last s c e m q w :
  lks s = idle c e -> curproc s = Some m -> ptable s !! m = Some q ->
  state q = RUNNING -> initproc s <> Some m ->
  length (ptable s) = NPROC -> length (sleepingThreads q) = 64%nat ->
  live_threads (pid q) (ptable s) = 1%nat ->
  mfor (kstack <$> filter (fun p => dead_sibling q p = true)
          (wake_any (chans_of (sleepingThreads q)) <$> ptable s)) kfree
    (world s) = Ret tt w ->
  exists s1, kthread_exit s = New_exit s1 /\ lks s1 = idle c true /\
    curproc s1 = Some m /\ world s1 = w /\
    ptable s1 !! m = Some q /\
    forall j p, ptable s !! j = Some p ->
      ptable s1 !! j =
        Some (free_sibling q (wake_any (chans_of (sleepingThreads q)) p)).
Proof.
  intros Hl Hm Hq Hst Hini Hlen Hsl Hlive Hw.
  erewrite kthread_exit_start by done. rewrite Hlive. cbn [Nat.eqb].
  set (t := wake_any _ <$> ptable s) in *.
  erewrite bind_Ret.
  2: { apply (reap_threads_run q 0 NPROC _ w); ksimp; [|done].
       unfold t. by rewrite length_fmap. }
  kopen s. krel.
  assert (Hlook : forall j p, ptable !! j = Some p ->
    imap (fun j p => if (j <? 0)%nat then p else free_sibling q p) t !! j =
    Some (free_sibling q (wake_any (chans_of (sleepingThreads q)) p))).
  { intros j p Hp. unfold t. by rewrite list_lookup_imap, list_lookup_fmap, Hp. }
  eexists. split; [reflexivity|]. kred. split_and!; try done.
  rewrite (Hlook m q Hq), wake_any_running by done. unfold free_sibling, dead_sibling, is_state.
  by rewrite bool_decide_false by congruence.
Qed.

(** ** Creating threads *)

(** The entry that [kthread_create] makes from the free entry [old]. *)
Definition new_thread (p : proc) (tid k start stack size : Z) (old : proc) : proc :=
  Proc (sz p) (pgdir p) k RUNNABLE (pid p) (parent p) (k + 4096 - 76)
    (set_eax 0 (set_esp (u32 (stack + size)) (set_eip start (tfv p))))
    (k + 4096 - 76 - 4 - 20) (Context 0 0 0 0 sym_forkret) sym_trapret
    (chan old) (killed old) (zip_with pick (ofile p) (ofile old)) (cwd p) "thread"
    tid (replicate 64 None).

Lemma kthread_create_run s c e m p i old k pg w1 w2 start stack size :
  lks s = idle c e -> curproc s = Some m -> ptable s !! m = Some p ->
  state p <> UNUSED ->
  find_first (is_state UNUSED) (ptable s) = Some i -> ptable s !! i = Some old ->
  entry_shape p -> entry_shape old ->
  kalloc (world s) = Ret k w1 -> k <> 0 ->
  copyuvm (pgdir p) (sz p) w1 = Ret pg w2 -> pg <> 0 ->
  kthread_create start stack size s = Ret (pid p)
    (set_world w2 (set_nextThread (s32 (nextThread s + 1)) (set_lks (idle c true)
      (set_nextpid (s32 (nextpid s + 1)) (set_ptable
        (alter (fun _ => new_thread p (s32 (nextThread s + 1)) k start stack size old) i
           (ptable s)) s))))).
Proof.
  intros Hl Hm Hp Hst Hf Hold [Hp1 Hp2] [Ho1 Ho2] Hk Hk0 Hpg Hpg0.
  assert (Hmi : m <> i) by by eapply find_first_other.
  kopen s. unfold kthread_create. erewrite bind_Ret by by eapply allocproc_ok. kred.
  erewrite bind_Ret by apply clear_joiners_64. kred.
  erewrite bind_Ret by (eapply (cur_run _ m p); [done|]; kred; by rewrite !alter_other).
  erewrite bind_Ret by by apply call_Ret. krun.
  destruct (pg =? 0) eqn:Epg; [lia|]. krun. fuse.
  erewrite bind_Ret.
  2: { eapply (share_fds_run m p i 0 16); kred; try done.
       - by rewrite alter_other.
       - intros q. rewrite list_lookup_alter_eq, Hold. intros [= <-]. lazy [embryo on_tf]. reflexivity. }
  simpl plus. krun. fuse.
  erewrite bind_Ret by (apply get_proc_run; kred; by rewrite list_lookup_alter_eq, Hold).
  krun. fuse. unfold ret. do 2 f_equal.
  apply list_alter_ext; [|done]. intros q. rewrite Hold. intros [= <-].
  unfold new_thread, embryo, compose. cbn -[mix clear_all replicate].
  by rewrite mix_all, clear_all_64 by done.
Qed.

(** [kthread_create] returns the caller's pid; the first free entry becomes
    a runnable thread of the same process: same pid, parent, page directory
    and size, a new thread id, starting at [start] with its stack pointer at
    the end of the given stack and eax 0; the caller and all other entries
    are unchanged.  The file and directory pointers are shared without taking
    references: apart from the two allocations no service is called. *)
Theorem kthread_create_thread s c e m p i old k pg w1 w2 start stack size :
  lks s = idle c e -> curproc s = Some m -> ptable s !! m = Some p ->
  state p <> UNUSED ->
  find_first (is_state UNUSED) (ptable s) = Some i -> ptable s !! i = Some old ->
  entry_shape p -> entry_shape old ->
  kalloc (world s) = Ret k w1 -> k <> 0 ->
  copyuvm (pgdir p) (sz p) w1 = Ret pg w2 -> pg <> 0 ->
  exists s' q, kthread_create start stack size s = Ret (pid p) s' /\
    ptable s' !! i = Some q /\
    state q = RUNNABLE /\ pid q = pid p /\ threadId q = s32 (nextThread s + 1) /\
    nextThread s' = s32 (nextThread s + 1) /\
    parent q = parent p /\ pgdir q = pgdir p /\ sz q = sz p /\
    eip (tfv q) = start /\ esp (tfv q) = u32 (stack + size) /\ eax (tfv q) = 0 /\
    cwd q = cwd p /\
    (forall fd f, ofile p !! fd = Some f -> f <> 0 -> ofile q !! fd = Some f) /\
    (forall j, j <> i -> ptable s' !! j = ptable s !! j) /\
    lks s' = idle c true /\ world s' = w2.
Proof.
  intros Hl Hm Hp Hst Hf Hold Hs1 Hs2 Hk Hk0 Hpg Hpg0.
  eexists _, (new_thread p (s32 (nextThread s + 1)) k start stack size old).
  split; [by eapply kthread_create_run|]. ksimp.
  rewrite list_lookup_alter_eq, Hold. simpl. split_and!; try done.
  - intros fd f Hfd Hf0.
    assert (exists g, ofile old !! fd = Some g) as [g Hg].
    { apply lookup_lt_is_Some_2. apply lookup_lt_Some in Hfd.
      destruct Hs1 as [-> _] in Hfd. by destruct Hs2 as [-> _]. }
    rewrite lookup_zip_with, Hfd. simpl. rewrite Hg. simpl. f_equal.
    unfold pick. by destruct (Z.eqb_spec f 0).
  - intros j Hj. by rewrite alter_other.
Qed.

(** The page directory that [kthread_create] obtains from [copyuvm] is
    dropped: if no entry used that fresh directory before the call, none does
    afterwards, and it has not been freed. *)
Theorem kthread_create_leaks_copy s c e m p i old k pg w1 w2 start stack size :
  lks s = idle c e -> curproc s = Some m -> ptable s !! m = Some p ->
  state p <> UNUSED ->
  find_first (is_state UNUSED) (ptable s) = Some i -> ptable s !! i = Some old ->
  entry_shape p -> entry_shape old ->
  kalloc (world s) = Ret k w1 -> k <> 0 ->
  copyuvm (pgdir p) (sz p) w1 = Ret pg w2 -> pg <> 0 ->
  (forall j q, ptable s !! j = Some q -> pgdir q <> pg) ->
  exists s', kthread_create start stack size s = Ret (pid p) s' /\
    (forall j q, ptable s' !! j = Some q -> pgdir q <> pg) /\ world s' = w2.
Proof.
  intros Hl Hm Hp Hst Hf Hold Hs1 Hs2 Hk Hk0 Hpg Hpg0 Hfresh.
  eexists. split; [by eapply kthread_create_run|]. ksimp. split; [|done].
  intros j q. destruct (decide (j = i)) as [->|Hj].
  - rewrite list_lookup_alter_eq, Hold. intros [= <-]. simpl. by eapply Hfresh.
  - rewrite alter_other by done. apply Hfresh.
Qed.

(** ** Joining *)

(** The joined entry with [m] in its first free slot, if it has one. *)
Definition add_joiner (m : nat) (p : proc) : proc :=
  if (join_slot p <? 64)%nat then
    set_sleepingThreads (<[join_slot p := Some m]> (sleepingThreads p)) p
  else p.

Lemma kthread_join_sleeps s c e m q tid i p :
  lks s = idle c e -> curproc s = Some m -> ptable s !! m = Some q ->
  threadId q <> tid -> find_first (joinable tid) (ptable s) = Some i ->
  ptable s !! i = Some p ->
  i <> m /\
  kthread_join tid s = Sched (set_lks (busy c [PTABLE]) (set_ptable
    (alter (fun q => set_state SLEEPING (set_chan (Some (ChProc m)) q)) m
       (alter (add_joiner m) i (ptable s))) s)).
Proof.
  intros Hl Hm Hq Hne Hf Hp. unfold kthread_join. kopen s. kacq. krun.
  rewrite Hf. apply find_first_Some in Hf as [(p' & Hp' & Hj) _].
  assert (p' = p) as -> by congruence.
  apply andb_true_iff in Hj as [Htid%Z.eqb_eq _].
  assert (Him : i <> m) by (intros ->; congruence). split; [done|].
  erewrite bind_Ret by by apply me_run. erewrite bind_Ret by by apply get_proc_run.
  set (s1 := Kst (busy c [PTABLE]) (alter (add_joiner m) i ptable) mtable ctable initproc
               nextpid nextThread first (Some m) klog world).
  erewrite (bind_Ret (when _ _) _ _ tt s1).
  2: { unfold s1, when. kred. destruct (join_slot p <? 64)%nat eqn:E.
       - unfold upd_proc, modify. kred. do 2 f_equal. apply list_alter_ext; [|done].
         intros x. rewrite Hp. intros [= <-]. unfold add_joiner. by rewrite E.
       - unfold ret. do 2 f_equal. rewrite <- (list_alter_id (fun q => q) ptable i) at 1 by done.
         apply list_alter_ext; [|done]. intros x. rewrite Hp. intros [= <-].
         unfold add_joiner. by rewrite E. }
  unfold s1, bind, sleep. krun. unfold when. simpl. krun. rewrite list_alter_alter_eq.
  rewrite (sched_busy c _ m (set_state SLEEPING (set_chan (Some (ChProc m)) q)));
    [done..| |done].
  kred. by rewrite (alter_same _ _ _ q) by by rewrite alter_other.
Qed.

Lemma kthread_join_none s c e m tid :
  lks s = idle c e -> curproc s = Some m ->
  find_first (joinable tid) (ptable s) = None ->
  kthread_join tid s = Ret (-1) (set_lks (idle c true) s).
Proof.
  intros Hl Hm Hf. unfold kthread_join. kopen s. kacq. krun. rewrite Hf. by krel.
Qed.

Lemma chans_of_elem m l : Some m ∈ l -> Some (ChProc m) ∈ chans_of l.
Proof.
  intros Hin. unfold chans_of. apply list_elem_of_fmap. exists (Some m).
  split; [done|]. by apply list_elem_of_filter.
Qed.

Lemma live_threads_two n t i j p q :
  i <> j -> t !! i = Some p -> t !! j = Some q ->
  live_thread_of n p = true -> live_thread_of n q = true ->
  live_threads n t <> 1%nat.
Proof.
  intros Hij Hp Hq Lp Lq Hone. unfold live_threads in Hone.
  destruct (filter _ t) as [|x [|]] eqn:E; try done.
  assert (forall k a b, (a < b)%nat -> t !! a = Some k -> forall k', t !! b = Some k' ->
    live_thread_of n k = true -> live_thread_of n k' = true -> False) as Hno.
  { intros k a b Hab Ha k' Hb Lk Lk'.
    apply list_elem_of_split_length in Ha as (l1 & l2 & -> & ->).
    rewrite lookup_app_r, lookup_cons in Hb by lia.
    destruct (b - length l1)%nat as [|r] eqn:Er; [lia|].
    apply list_elem_of_split_length in Hb as (l3 & l4 & -> & _).
    apply (f_equal length) in E.
    rewrite filter_app, filter_cons, filter_app, filter_cons in E.
    rewrite !decide_True in E by done. rewrite length_app in E. simpl in E.
    rewrite length_app in E. simpl in E. lia. }
  destruct (Nat.lt_total i j) as [|[|]]; [by eapply (Hno p i j)|done|by eapply (Hno q j i)].
Qed.

Lemma add_joiner_slot m p :
  (join_slot p < 64)%nat -> add_joiner m p = set_sleepingThreads (<[join_slot p := Some m]> (sleepingThreads p)) p.
Proof. intros Hs. unfold add_joiner. by destruct (Nat.ltb_spec (join_slot p) 64); [|lia]. Qed.

(** The exit of a thread that [m] has joined. *)
Lemma exit_wakes_joiner s c e m q i p :
  lks s = idle c e -> curproc s = Some i -> initproc s <> Some i -> i <> m ->
  ptable s !! m = Some (set_state SLEEPING (set_chan (Some (ChProc m)) q)) ->
  ptable s !! i = Some (set_state RUNNING (add_joiner m p)) -> pid p = pid q ->
  length (sleepingThreads p) = 64%nat -> (join_slot p < 64)%nat ->
  exists s', kthread_exit s = Sched s' /\
    ptable s' !! m = Some (set_state RUNNABLE (set_chan (Some (ChProc m)) q)) /\
    ptable s' !! i = Some (set_state ZOMBIE (add_joiner m p)).
Proof.
  intros Hl Hc Hini Him Hm Hi Hpid Hlen Hslot. pose proof (add_joiner_slot m p Hslot) as Hadd.
  set (p' := set_state RUNNING (add_joiner m p)) in *.
  assert (Hch : Some (ChProc m) ∈ chans_of (sleepingThreads p')).
  { apply chans_of_elem. unfold p'. rewrite Hadd. simpl.
    apply list_elem_of_lookup_2 with (join_slot p). by rewrite list_lookup_insert_eq by lia. }
  eexists. split.
  - eapply (kthread_exit_not_last_run s c e i p'); try done.
    + unfold p'. rewrite Hadd. simpl. by rewrite length_insert.
    + eapply (live_threads_two _ _ i m); [done|done|done|..];
        unfold live_thread_of, is_state, p'; rewrite Hadd; simpl; by rewrite ?Hpid, Z.eqb_refl.
  - ksimp. split.
    + rewrite alter_other, list_lookup_fmap, Hm by done. simpl. f_equal.
      unfold wake_any. by rewrite bool_decide_true.
    + rewrite (alter_same _ _ _ p') by (rewrite list_lookup_fmap, Hi; simpl; by rewrite wake_any_running).
      unfold p'. by rewrite Hadd.
Qed.

(** The rest of [kthread_join], when the joiner runs again. *)
Lemma kthread_join_resume_run s c e m i k r :
  lks s = lks_with c 1 e false [PTABLE] -> curproc s = Some m -> i <> m ->
  ptable s !! i = Some r -> (k < length (sleepingThreads r))%nat ->
  kthread_join_resume true i k s = Ret 0 (set_lks (idle c true) (set_ptable
    (alter (fun r => set_sleepingThreads (<[k := None]> (sleepingThreads r)) r) i
       (alter (set_chan None) m (ptable s))) s)).
Proof.
  intros Hl Hc Him Hi Hk. unfold kthread_join_resume, sleep_resume, sched_resume. kopen s. rewrite bind_assoc.
  erewrite bind_Ret by (unfold zoom; kred; reflexivity). rewrite bind_assoc.
  erewrite bind_Ret by by apply upd_cur_run. kred. change (negb (PTABLE =? PTABLE)%nat) with false. cbn [when]. krun.
  erewrite bind_Ret by (apply get_proc_run; kred; by rewrite alter_other).
  rewrite (proj2 (Nat.ltb_lt _ _) Hk). unfold clear_joiner. krun. by krel.
Qed.

(** C27: joining meets exiting.  A thread that joins another thread of its
    process (with a free slot in the joiner array) goes to sleep.  The other
    thread's [kthread_exit], whenever it runs, makes it runnable; and when it
    is scheduled after that, [kthread_join] returns 0 with no lock held, the
    joiner no longer on a channel and its slot free again.  In between, other
    processes may change everything but the entries of the two threads. *)
Theorem kthread_join_exit s c e m q tid i p :
  lks s = idle c e -> curproc s = Some m -> ptable s !! m = Some q ->
  threadId q <> tid -> find_first (joinable tid) (ptable s) = Some i ->
  ptable s !! i = Some p -> pid p = pid q ->
  length (sleepingThreads p) = 64%nat -> (join_slot p < 64)%nat ->
  exists s1, kthread_join tid s = Sched s1 /\
    ptable s1 !! m = Some (set_state SLEEPING (set_chan (Some (ChProc m)) q)) /\
  forall s2 c2 e2, lks s2 = idle c2 e2 -> curproc s2 = Some i -> initproc s2 <> Some i ->
    ptable s2 !! m = ptable s1 !! m -> ptable s2 !! i = set_state RUNNING <$> ptable s1 !! i ->
  exists s3, kthread_exit s2 = Sched s3 /\
    ptable s3 !! m = Some (set_state RUNNABLE (set_chan (Some (ChProc m)) q)) /\
    state <$> (ptable s3 !! i) = Some ZOMBIE /\
  forall s4 c4 e4, lks s4 = lks_with c4 1 e4 false [PTABLE] -> curproc s4 = Some m ->
    ptable s4 !! m = set_state RUNNING <$> ptable s3 !! m -> ptable s4 !! i = ptable s3 !! i ->
  exists s5 r, kthread_join_resume true i (join_slot p) s4 = Ret 0 s5 /\ lks s5 = idle c4 true /\
    ptable s5 !! m = Some (set_state RUNNING (set_chan None q)) /\
    ptable s5 !! i = Some r /\ sleepingThreads r !! join_slot p = Some None /\
    (forall j, j <> i -> j <> m -> ptable s5 !! j = ptable s4 !! j).
Proof.
  intros Hl Hm Hq Hne Hf Hp Hpid Hlen Hslot.
  destruct (kthread_join_sleeps s c e m q tid i p) as [Him Hjoin]; [done..|].
  eexists. split; [exact Hjoin|]. ksimp.
  assert (H1m : forall t : list proc, t = alter (fun q => set_state SLEEPING (set_chan (Some (ChProc m)) q)) m
      (alter (add_joiner m) i (ptable s)) ->
    t !! m = Some (set_state SLEEPING (set_chan (Some (ChProc m)) q)) /\ t !! i = Some (add_joiner m p)).
  { intros t ->. split.
    - apply (alter_same (fun q => set_state SLEEPING (set_chan (Some (ChProc m)) q))). by rewrite alter_other.
    - rewrite alter_other by done. by apply alter_same. }
  destruct (H1m _ eq_refl) as [Em Ei]. split; [done|]. rewrite Em, Ei.
  intros s2 c2 e2 Hl2 Hc2 Hini H2m H2i.
  destruct (exit_wakes_joiner s2 c2 e2 m q i p) as (s3 & Hexit & H3m & H3i); try done.
  exists s3. split; [done|]. split; [done|]. split; [by rewrite H3i|]. rewrite H3m, H3i.
  intros s4 c4 e4 Hl4 Hc4 H4m H4i. rewrite (add_joiner_slot m p Hslot) in H4i.
  eexists _, _. split; [eapply (kthread_join_resume_run s4 c4 e4 m); try done; simpl; rewrite length_insert; lia|].
  ksimp. split; [done|]. split_and!.
  - rewrite alter_other by done. erewrite alter_same by exact H4m. done.
  - erewrite alter_same by (rewrite alter_other by done; exact H4i). reflexivity.
  - simpl. apply list_lookup_insert_eq. rewrite length_insert. lia.
  - intros j Hj1 Hj2. by rewrite !alter_other.
Qed.

End Exit.

(** ** The properties at concrete states *)

(** Process 2 with three threads: 0 runs and is joined by thread 7, which
    sleeps; thread 8 has exited. *)
Definition thread_demo (joiner : procstate) : kst rworld :=
  demo 1 [set_sleepingThreads (Some 2%nat :: replicate 63 None)
            (user_proc 2 0x3000 0x4000 RUNNING (Some 0%nat) (-1));
          set_chan (Some (ChProc 2)) (user_proc 2 0x3000 0x6000 joiner (Some 0%nat) 7);
          user_proc 2 0x3000 0x8000 ZOMBIE (Some 0%nat) 8] 3.

Lemma kthread_exit_not_last_witness :
  exists s', kthread_exit (thread_demo SLEEPING) = Sched s' /\
    state <$> (ptable s' !! 1%nat) = Some ZOMBIE /\
    state <$> (ptable s' !! 2%nat) = Some RUNNABLE.
Proof.
  edestruct (kthread_exit_not_last (W := rworld)) with (s := thread_demo SLEEPING)
    (c := 0%nat) (e := false) (m := 1%nat) as (s' & Hr & Hm & Ho & _); side.
  exists s'. split; [exact Hr|]. rewrite Hm. split; [done|].
  erewrite (Ho 2%nat) by done. by vm_compute.
Defined.

Lemma kthread_exit_last_witness :
  exists s1, kthread_exit (thread_demo ZOMBIE) = New_exit s1 /\
    state <$> (ptable s1 !! 2%nat) = Some UNUSED /\
    state <$> (ptable s1 !! 3%nat) = Some UNUSED /\
    calls (world s1) = [CKfree 0x6000; CKfree 0x8000].
Proof.
  edestruct (kthread_exit_last (W := rworld)) with (s := thread_demo ZOMBIE)
    (c := 0%nat) (e := false) (m := 1%nat)
    (w := RWorld 0x10000 [CKfree 0x6000; CKfree 0x8000])
    as (s1 & Hr & _ & _ & Hw & _ & Ho).
  all: lazymatch goal with
       | |- mfor _ _ _ = _ => by vm_compute
       | |- live_threads _ _ = _ => by vm_compute
       | _ => side
       end.
  exists s1. split; [exact Hr|]. rewrite Hw. split_and!; [..|done];
    erewrite Ho by done; by vm_compute.
Defined.

Definition exit_demo : kst rworld :=
  demo 1 [user_proc 2 0x3000 0x4000 RUNNING (Some 0%nat) (-1);
          user_proc 3 0x5000 0x6000 ZOMBIE (Some 1%nat) (-1)] 4.

Lemma New_exit_spec_witness :
  exists s', New_exit exit_demo = Sched s' /\
    calls (world s') = [CFileclose 7; CFileclose 8; CIput 1] /\
    parent <$> (ptable s' !! 2%nat) = Some (Some 0%nat) /\
    state <$> (ptable s' !! 0%nat) = Some RUNNABLE.
Proof.
  edestruct (New_exit_spec (W := rworld)) with (s := exit_demo)
    (c := 0%nat) (e := false) (m := 1%nat) as (s' & Hr & _ & Hw & _ & _ & Ho); side.
  exists s'. split; [exact Hr|]. rewrite Hw. split_and!; [done|..];
    erewrite Ho by done; by vm_compute.
Defined.

Definition create_demo : kst rworld :=
  demo 1 [user_proc 2 0x3000 0x4000 RUNNING (Some 0%nat) (-1)] 3.

Lemma kthread_create_thread_witness :
  exists s' q, kthread_create 0x100 0x2000 1024 create_demo = Ret 2 s' /\
    ptable s' !! 2%nat = Some q /\ pid q = 2 /\ threadId q = 1 /\ pgdir q = 0x3000 /\
    eip (tfv q) = 0x100 /\ esp (tfv q) = 0x2400.
Proof.
  edestruct (kthread_create_thread (W := rworld)) with (s := create_demo) (c := 0%nat)
    (e := false) (m := 1%nat) (i := 2%nat) (start := 0x100) (stack := 0x2000) (size := 1024)
    as (s' & q & Hr & Hq & _ & Hpid & Htid & _ & _ & Hpg & _ & Heip & Hesp & _).
  all: side.
  { split; reflexivity. }
  { split; reflexivity. }
  exists s', q. split_and!; done.
Defined.

Lemma kthread_create_leaks_copy_witness :
  exists s', kthread_create 0x100 0x2000 1024 create_demo = Ret 2 s' /\
    (forall j q, ptable s' !! j = Some q -> pgdir q <> 0x11000) /\
    calls (world s') = [CKalloc 0x10000; CCopyuvm 0x3000 8192 0x11000].
Proof.
  edestruct (kthread_create_leaks_copy (W := rworld)) with (s := create_demo) (c := 0%nat)
    (e := false) (m := 1%nat) (i := 2%nat) (start := 0x100) (stack := 0x2000) (size := 1024)
    as (s' & Hr & Hno & Hw).
  all: side.
  { split; reflexivity. }
  { split; reflexivity. }
  { intros j q. do 2 (destruct j; [by intros [= <-]|]). intros Hj.
    change (replicate 62 free_proc !! j = Some q) in Hj.
    by apply lookup_replicate in Hj as [-> _]. }
  exists s'. rewrite Hw. split_and!; done.
Defined.

(** Thread 7 joins thread 8; then thread 8 runs and exits. *)
Definition join_demo : kst rworld :=
  demo 1 [user_proc 2 0x3000 0x4000 RUNNING (Some 0%nat) 7;
          user_proc 2 0x3000 0x6000 RUNNABLE (Some 0%nat) 8] 3.
Definition join_demo1 : kst rworld :=
  match kthread_join 8 join_demo with Sched s => s | _ => join_demo end.
Definition join_demo2 : kst rworld :=
  set_lks (idle 0 true) (set_curproc (Some 2%nat)
    (set_ptable (alter (set_state RUNNING) 2%nat (ptable join_demo1)) join_demo1)).
Definition join_demo3 : kst rworld :=
  match kthread_exit join_demo2 with Sched s => s | _ => join_demo end.
Definition join_demo4 : kst rworld :=
  set_curproc (Some 1%nat) (set_ptable (alter (set_state RUNNING) 1%nat (ptable join_demo3)) join_demo3).

Lemma kthread_join_exit_witness :
  exists s5, kthread_join_resume true 2 0 join_demo4 = Ret 0 s5 /\
    state <$> (ptable s5 !! 1%nat) = Some RUNNING.
Proof.
  edestruct (kthread_join_exit (W := rworld)) with (s := join_demo) (c := 0%nat) (e := false) (m := 1%nat) (tid := 8)
    (i := 2%nat) (q := user_proc 2 0x3000 0x4000 RUNNING (Some 0%nat) 7)
    (p := user_proc 2 0x3000 0x6000 RUNNABLE (Some 0%nat) 8) as (s1 & E1 & _ & H2).
  all: lazymatch goal with
       | |- exists _, _ => idtac
       | |- (_ < _)%nat => vm_compute; lia
       | _ => vm_compute; first [reflexivity | discriminate]
       end.
  assert (s1 = join_demo1) as -> by (unfold join_demo1; by rewrite E1).
  destruct (H2 join_demo2 0%nat true) as (s3 & E3 & _ & _ & H4);
    [vm_compute; first [reflexivity | discriminate]..|].
  assert (s3 = join_demo3) as -> by (unfold join_demo3; by rewrite E3).
  destruct (H4 join_demo4 0%nat true) as (s5 & r & E5 & _ & Hm & _);
    [vm_compute; first [reflexivity | discriminate]..|].
  exists s5. split; [exact E5|]. by rewrite Hm.
Defined.

(** ** Two runs that go wrong *)

(** The scheduler switches to entry [i], which is then in user code. *)
Definition run_user (i : nat) (o : outcome (kst rworld) unit) : kst rworld :=
  match o with
  | Sched s => set_lks (idle 0 true) (set_curproc (Some i) (set_ptable (alter (set_state RUNNING) i (ptable s)) s))
  | _ => join_demo
  end.

(** A thread exits with the descriptors 0 and 1 in its entry, the rest of its
    process exits and frees the entry, and process 3, which has no file open,
    forks: its child has the two stale files of the thread, which are closed
    and for which nobody called filedup. *)
Definition stale_demo : kst rworld :=
  demo 2 [user_proc 2 0x3000 0x4000 RUNNABLE (Some 0%nat) (-1);
          user_proc 2 0x3000 0x6000 RUNNING (Some 0%nat) 7;
          set_ofile (replicate NOFILE 0) (user_proc 3 0x5000 0x8000 RUNNABLE (Some 0%nat) (-1))] 4.

Theorem fork_inherits_stale_files :
  match fork (run_user 3 (kthread_exit (run_user 1 (kthread_exit stale_demo)))) with
  | Ret r s =>
      r = 4 /\ ofile <$> (ptable s !! 3%nat) = Some (replicate NOFILE 0) /\
      (fun q => (state q, parent q, ofile q)) <$> (ptable s !! 2%nat) =
        Some (RUNNABLE, Some 3%nat, 7 :: 8 :: replicate 14 0) /\
      calls (world s) = [CKfree 0x6000; CFileclose 7; CFileclose 8; CIput 1; CKalloc 0x10000;
                         CCopyuvm 0x5000 8192 0x11000; CIdup 1]
  | _ => False
  end.
Proof. vm_compute. by split_and!. Qed.

(** [kthread_join] sleeps on the channel on which [wait] sleeps and does not
    look again when it wakes up: the exit of a child of the joiner ends the
    join although the thread is still there. *)
Definition early_demo : kst rworld :=
  demo 1 [user_proc 2 0x3000 0x4000 RUNNING (Some 0%nat) 7;
          user_proc 2 0x3000 0x6000 RUNNABLE (Some 0%nat) 8;
          user_proc 3 0x5000 0x8000 RUNNABLE (Some 1%nat) (-1)] 4.

Theorem join_returns_early :
  match kthread_exit (run_user 3 (bind (kthread_join 8) (fun _ => ret tt) early_demo)) with
  | Sched s =>
      match kthread_join_resume true 2 0
        (set_curproc (Some 1%nat) (set_ptable (alter (set_state RUNNING) 1%nat (ptable s)) s)) with
      | Ret r s' => state <$> (ptable s !! 1%nat) = Some RUNNABLE /\ r = 0 /\ state <$> (ptable s' !! 2%nat) = Some RUNNABLE
      | _ => False
      end
  | _ => False
  end.
Proof. vm_compute. by split_and!. Qed.
