(* ===== verification/KSync.v ===== *)
(** * Kernel mutexes and condition variables (proc.c, kthread.h)

    [kthread_mutex_*] and [kthread_cond_*] on the tables mtable and ctable.
    The ids come from user space and are used as array indices unchecked: an
    id outside 0..63 is a [Fault] of the model.  [kthread_mutex_lock] and
    [kthread_cond_wait] block between two critical sections; they are split at
    the points where the locks are released, [mutex_lock_enter] /
    [cond_wait_enter] followed by [block], so that other CPUs can be
    interleaved there. *)
From S2P Require Import Prelude Spinlock Proc ProcLocks ProcSpec.

Definition M_UNUSED : Z := 0.
Definition M_UNLOCKED : Z := 1.
Definition M_LOCKED : Z := 2.
Definition C_UNUSED : Z := 0.
Definition C_USED : Z := 1.

(** ** Operations *)

(** [isInQueue]: the scan from startIndex; [None] when it leaves the array or
    the fuel runs out. *)
Fixpoint queue_scan (fuel : nat) (l : list Z) (i checkUntil tid : Z) : option bool :=
  match fuel with
  | O => None
  | S fuel =>
      if i =? checkUntil then Some false else
      match rd l i with
      | None => None
      | Some t => if t =? tid then Some true
                  else queue_scan fuel l (Z.rem (i + 1) MAX_MUTEXES) checkUntil tid
      end
  end.

Definition isInQueue (m : kthread_mutex_t) (tid : Z) : option bool :=
  queue_scan 66 (m_sleepingTID m) (m_startIndex m)
    (Z.rem (m_startIndex m + m_count m + 1) MAX_MUTEXES) tid.

(** Put [tid] at the end of the mutex's queue, unless it is there already. *)
Definition mutex_enqueue (tid : Z) (m : kthread_mutex_t) : option kthread_mutex_t :=
  match isInQueue m tid with
  | None => None
  | Some true => Some m
  | Some false =>
      let destinationIndex := Z.rem (m_startIndex m + m_count m) MAX_THREADS in
      match wr (m_sleepingTID m) destinationIndex tid with
      | None => None
      | Some l => Some (set_m_count (m_count m + 1) (set_m_sleepingTID l m))
      end
  end.

(** The queue part of [kthread_mutex_unlock]: the thread at startIndex, and
    the mutex without it. *)
Definition mutex_dequeue (m : kthread_mutex_t) : option (Z * kthread_mutex_t) :=
  match rd (m_sleepingTID m) (m_startIndex m) with
  | None => None
  | Some t =>
      Some (t, if t =? 0 then m else
                 set_m_startIndex (Z.rem (m_startIndex m + 1) MAX_THREADS)
                   (set_m_count (m_count m - 1) m))
  end.

Definition cond_enqueue (tid mutex_id : Z) (c : kthread_cond_t) : option kthread_cond_t :=
  let destinationIndex := Z.rem (c_startIndex c + c_count c) MAX_THREADS in
  match wr (c_sleepingTID c) destinationIndex tid with
  | None => None
  | Some l => Some (set_c_waitingMutexID mutex_id
                      (set_c_count (c_count c + 1) (set_c_sleepingTID l c)))
  end.

Definition cond_dequeue (c : kthread_cond_t) : option (Z * kthread_cond_t) :=
  match rd (c_sleepingTID c) (c_startIndex c) with
  | None => None
  | Some t => Some (t, set_c_startIndex (Z.rem (c_startIndex c + 1) MAX_THREADS)
                         (set_c_count (c_count c - 1) c))
  end.

Definition lift {W A} (o : option A) : M (kst W) A := gets_opt (fun _ => o).

Section Ops.
Context {W : Type} `{Services W}.

Abbreviation K := (M (kst W)).

Definition minit : K unit := zoom lks set_lks (initlock MTABLE "mtable").
Definition cinit : K unit := zoom lks set_lks (initlock CTABLE "ctable").

(** mtable.kthread_locks[id] and ctable.conds[id] *)
Definition get_mutex (id : Z) : K kthread_mutex_t := gets_opt (fun s => rd (mtable s) id).
Definition put_mutex (id : Z) (m : kthread_mutex_t) : K unit :=
  modify_opt (fun s => (fun t => set_mtable t s) <$> wr (mtable s) id m).
Definition get_cond (id : Z) : K kthread_cond_t := gets_opt (fun s => rd (ctable s) id).
Definition put_cond (id : Z) (c : kthread_cond_t) : K unit :=
  modify_opt (fun s => (fun t => set_ctable t s) <$> wr (ctable s) id c).

Definition kthread_mutex_alloc : K Z :=
  acquire_l MTABLE;;;
  t <~ gets mtable;;;
  match find_first (fun m => m_status m =? M_UNUSED) t with
  | Some i =>
      put_mutex (Z.of_nat i)
        (Mutex 0 (replicate (Z.to_nat MAX_THREADS) 0) M_UNLOCKED 0 0);;;
      release_l MTABLE;;;
      ret (Z.of_nat i)
  | None => release_l MTABLE;;; ret (-1)
  end.

Definition kthread_mutex_dealloc (mutex_id : Z) : K Z :=
  acquire_l MTABLE;;;
  m <~ get_mutex mutex_id;;;
  if m_status m =? M_UNLOCKED then
    put_mutex mutex_id (set_m_status M_UNUSED m);;;
    release_l MTABLE;;;
    ret 0
  else
    release_l MTABLE;;;
    ret (-1).

(** One round of [kthread_mutex_lock] up to the release of mtable.lock:
    [Some r] when the function returns [r], [None] when it goes on to block.
    With any other status the next round would take mtable.lock again. *)
Definition mutex_lock_enter (mutex_id : Z) : K (option Z) :=
  acquire_l MTABLE;;;
  m <~ get_mutex mutex_id;;;
  if m_status m =? M_UNUSED then
    release_l MTABLE;;;
    ret (Some (-1))
  else if m_status m =? M_UNLOCKED then
    p <~ cur;;;
    put_mutex mutex_id (set_m_tid (threadId p) (set_m_status M_LOCKED m));;;
    release_l MTABLE;;;
    ret (Some 0)
  else if m_status m =? M_LOCKED then
    p <~ cur;;;
    m' <~ lift (mutex_enqueue (threadId p) m);;;
    put_mutex mutex_id m';;;
    release_l MTABLE;;;
    ret None
  else panic "acquire".

Definition block : K unit :=
  acquire_l PTABLE;;;
  upd_cur (set_state BLOCKING);;;
  sched.

Definition kthread_mutex_lock (mutex_id : Z) : K Z :=
  r <~ mutex_lock_enter mutex_id;;;
  match r with
  | Some v => ret v
  | None => block;;; ret (-1)
  end.

Definition kthread_mutex_lock_resume (ena : bool) (mutex_id : Z) : K Z :=
  sched_resume ena;;;
  release_l PTABLE;;;
  acquire_l MTABLE;;;
  release_l MTABLE;;;
  kthread_mutex_lock mutex_id.

(** Make the first blocked thread with this id runnable. *)
Definition blocked_tid (tid : Z) (p : proc) : bool :=
  is_state BLOCKING p && (threadId p =? tid).

Definition wake_tid (tid : Z) (t : list proc) : list proc :=
  match find_first (blocked_tid tid) t with
  | Some i => alter (set_state RUNNABLE) i t
  | None => t
  end.

Definition wake_blocked (tid : Z) : K unit :=
  modify (fun s => set_ptable (wake_tid tid (ptable s)) s).

Definition cprintf_ints (l : list Z) : K unit :=
  modify (fun s => set_klog (klog s ++ l) s).

Definition kthread_mutex_unlock (mutex_id : Z) : K Z :=
  acquire_l MTABLE;;;
  m <~ get_mutex mutex_id;;;
  cprintf_ints (m_sleepingTID m);;;
  p <~ cur;;;
  if (threadId p =? m_tid m) && (m_status m =? M_LOCKED) then
    d <~ lift (mutex_dequeue (set_m_tid 0 (set_m_status M_UNLOCKED m)));;;
    put_mutex mutex_id d.2;;;
    cprintf_ints [d.1; m_startIndex d.2];;;
    acquire_l PTABLE;;;
    wake_blocked d.1;;;
    release_l PTABLE;;;
    release_l MTABLE;;;
    ret 0
  else
    release_l MTABLE;;;
    ret (-1).

Definition kthread_cond_alloc : K Z :=
  acquire_l CTABLE;;;
  t <~ gets ctable;;;
  match find_first (fun c => c_status c =? C_UNUSED) t with
  | Some i =>
      put_cond (Z.of_nat i) (Cond C_USED (replicate (Z.to_nat MAX_THREADS) 0) 0 0 0);;;
      release_l CTABLE;;;
      ret (Z.of_nat i)
  | None => release_l CTABLE;;; ret (-1)
  end.

Definition kthread_cond_dealloc (cond_id : Z) : K Z :=
  acquire_l CTABLE;;;
  c <~ get_cond cond_id;;;
  if c_status c =? C_USED then
    put_cond cond_id (set_c_status C_UNUSED c);;;
    release_l CTABLE;;;
    ret 0
  else
    release_l CTABLE;;;
    ret (-1).

(** [kthread_cond_wait] up to the release of ctable.lock; [None] when it goes
    on to block. *)
Definition cond_wait_enter (cond_id mutex_id : Z) : K (option Z) :=
  acquire_l CTABLE;;;
  c <~ get_cond cond_id;;;
  if c_status c =? C_USED then
    p <~ cur;;;
    c' <~ lift (cond_enqueue (threadId p) mutex_id c);;;
    put_cond cond_id c';;;
    kthread_mutex_unlock mutex_id;;;
    release_l CTABLE;;;
    ret None
  else
    release_l CTABLE;;;
    ret (Some (-1)).

Definition kthread_cond_wait (cond_id mutex_id : Z) : K Z :=
  r <~ cond_wait_enter cond_id mutex_id;;;
  match r with
  | Some v => ret v
  | None => block;;; ret 0
  end.

Definition kthread_cond_wait_resume (ena : bool) : K Z :=
  sched_resume ena;;;
  release_l PTABLE;;;
  ret 0.

Definition kthread_cond_signal (cond_id : Z) : K Z :=
  acquire_l CTABLE;;;
  c <~ get_cond cond_id;;;
  when (negb (c_count c =? 0))
    (d <~ lift (cond_dequeue c);;;
     put_cond cond_id d.2;;;
     acquire_l MTABLE;;;
     m <~ get_mutex (c_waitingMutexID d.2);;;
     put_mutex (c_waitingMutexID d.2) (set_m_tid d.1 m);;;
     release_l MTABLE;;;
     acquire_l PTABLE;;;
     wake_blocked d.1;;;
     release_l PTABLE);;;
  release_l CTABLE;;;
  ret 0.

End Ops.

(** ** The waiting queue

    The queue of a mutex as a list: [qrep m q] says that the slots before
    startIndex are past entries, the next [count] slots are [q] and no slot
    behind them has been used since the mutex was allocated. *)
Record qrep (m : kthread_mutex_t) (q : list Z) : Prop := {
  q_split : exists pre, m_sleepingTID m =
      pre ++ q ++ replicate (256 - (length pre + length q)) 0 /\
    m_startIndex m = Z.of_nat (length pre) /\ (length pre + length q <= 256)%nat;
  q_count : m_count m = Z.of_nat (length q);
  q_nonzero : Forall (fun t => t <> 0) q
}.

(** Slots used since allocation. *)
Definition used (m : kthread_mutex_t) : Z := m_startIndex m + m_count m.

Definition spec_enqueue (t : Z) (q : list Z) : list Z :=
  if decide (t ∈ q) then q else q ++ [t].

Lemma queue_scan_run a b c tid fuel :
  (length b < fuel)%nat -> (length a + length b <= 64)%nat -> (length b < 64)%nat ->
  queue_scan fuel (a ++ b ++ c) (Z.rem (Z.of_nat (length a)) MAX_MUTEXES)
    (Z.rem (Z.of_nat (length a + length b)) MAX_MUTEXES) tid =
  Some (bool_decide (tid ∈ b)).
Proof.
  revert a fuel. induction b as [|x b IH]; intros a fuel Hf Hl Hb; destruct fuel as [|fuel];
    simpl in *; try lia.
  - by rewrite Nat.add_0_r, Z.eqb_refl.
  - unfold MAX_MUTEXES in *. rewrite (Z.rem_small (Z.of_nat (length a))) by lia.
    destruct (Z.eqb_spec (Z.of_nat (length a)) (Z.rem (Z.of_nat (length a + S (length b))) 64))
      as [E|_].
    { rewrite Z.rem_mod_nonneg in E by lia.
      destruct (decide (length a + S (length b) = 64)%nat) as [E'|].
      - rewrite E' in E. change (Z.of_nat 64 mod 64) with 0 in E. lia.
      - rewrite Z.mod_small in E by lia. lia. }
    unfold rd. rewrite decide_True, Nat2Z.id by lia.
    rewrite lookup_app_r, Nat.sub_diag by done. simpl.
    destruct (Z.eqb_spec x tid) as [->|Hne].
    + rewrite bool_decide_true; [done|left].
    + specialize (IH (a ++ [x]) fuel). rewrite length_app in IH. simpl in IH.
      rewrite <- app_assoc in IH. simpl in IH.
      replace (Z.of_nat (length a) + 1) with (Z.of_nat (length a + 1)) by lia.
      replace (length a + S (length b))%nat with (length a + 1 + length b)%nat by lia.
      rewrite IH by lia. f_equal. apply bool_decide_ext. set_solver.
Qed.

Lemma isInQueue_spec m q tid :
  qrep m q -> used m < 63 -> tid <> 0 ->
  isInQueue m tid = Some (bool_decide (tid ∈ q)).
Proof.
  intros [(pre & Hl & Hs & Hle) Hc _] Hu Ht. unfold used in Hu. unfold isInQueue.
  rewrite Hs, Hc in Hu |- *. rewrite Hl.
  destruct (256 - (length pre + length q))%nat as [|k] eqn:Ek; [lia|].
  change (replicate (S k) 0) with ([0] ++ replicate k 0).
  rewrite (app_assoc q [0]).
  pose proof (queue_scan_run pre (q ++ [0]) (replicate k 0) tid 66) as Hr.
  rewrite length_app in Hr. simpl length in Hr.
  rewrite (Z.rem_small (Z.of_nat (length pre))) in Hr by (unfold MAX_MUTEXES; lia).
  replace (Z.of_nat (length pre) + Z.of_nat (length q) + 1)
    with (Z.of_nat (length pre + (length q + 1))) by lia.
  rewrite Hr by lia. f_equal. apply bool_decide_ext.
  rewrite elem_of_app, list_elem_of_singleton. tauto.
Qed.

Lemma mutex_enqueue_refines m q t :
  qrep m q -> used m < 63 -> t <> 0 ->
  exists m', mutex_enqueue t m = Some m' /\ qrep m' (spec_enqueue t q) /\
    used m' <= used m + 1 /\
    m_status m' = m_status m /\ m_tid m' = m_tid m /\ m_startIndex m' = m_startIndex m.
Proof.
  intros Hq Hu Ht. unfold mutex_enqueue. erewrite isInQueue_spec by done.
  unfold spec_enqueue. destruct (decide (t ∈ q)) as [Hin|Hin].
  { rewrite bool_decide_true by done. exists m. split_and!; try done. lia. }
  rewrite bool_decide_false by done. cbv zeta.
  destruct Hq as [(pre & Hl & Hs & Hle) Hc Hnz]. unfold used in *. rewrite Hs, Hc in Hu |- *.
  unfold MAX_THREADS. rewrite Z.rem_small by lia.
  destruct (256 - (length pre + length q))%nat as [|k] eqn:Ek; [lia|].
  unfold wr. rewrite decide_True.
  2: { rewrite Hl, !length_app, length_replicate. lia. }
  eexists. split; [reflexivity|]. unfold used. simpl.
  split_and!; try done; [|lia].
  constructor; simpl; [|rewrite length_app; simpl; lia
    |by apply Forall_app; split; [|apply Forall_singleton]].
  exists pre. split_and!; [|done|rewrite length_app; simpl; lia].
  rewrite Hl. replace (Z.to_nat _) with (length pre + (length q + 0))%nat by lia.
  rewrite insert_app_r, insert_app_r. simpl. rewrite <- app_assoc. do 3 f_equal.
  rewrite length_app. simpl. replace (256 - _)%nat with k by lia. done.
Qed.

Lemma mutex_dequeue_refines m q :
  qrep m q -> used m < 256 ->
  exists m', mutex_dequeue m = Some (hd 0 q, m') /\ qrep m' (tl q) /\ used m' = used m /\
    m_status m' = m_status m /\ m_tid m' = m_tid m.
Proof.
  intros [(pre & Hl & Hs & Hle) Hc Hnz] Hu. unfold used, mutex_dequeue in *.
  rewrite Hs, Hc in Hu |- *. unfold rd. rewrite decide_True, Nat2Z.id by lia.
  rewrite Hl, lookup_app_r, Nat.sub_diag by done.
  destruct q as [|t q]; simpl in *.
  - destruct (256 - (length pre + 0))%nat as [|k] eqn:Ek; [lia|]. simpl.
    exists m. split_and!; try done; [|lia]. constructor; simpl; [|done|done].
    exists pre. simpl. split_and!; try done. by rewrite Hl, Ek.
  - apply Forall_cons in Hnz as [Ht Hnz]. destruct (Z.eqb_spec t 0) as [?|_]; [done|].
    eexists. split; [reflexivity|]. simpl. unfold MAX_THREADS.
    rewrite Z.rem_small by lia. split_and!; try done; [|lia].
    constructor; simpl; [|lia|done]. exists (pre ++ [t]). simpl.
    rewrite length_app, Hl. simpl. split_and!; [|lia|lia].
    rewrite <- app_assoc. simpl. do 3 f_equal. f_equal. lia.
Qed.

(** Sequences of lock and unlock calls seen by the queue. *)
Inductive qop := Enq (t : Z) | Deq.

Fixpoint run_queue (ops : list qop) (m : kthread_mutex_t) : option (list Z * kthread_mutex_t) :=
  match ops with
  | [] => Some ([], m)
  | Enq t :: ops => match mutex_enqueue t m with
                    | Some m => run_queue ops m
                    | None => None
                    end
  | Deq :: ops => match mutex_dequeue m with
                  | Some (t, m) =>
                      match run_queue ops m with
                      | Some (out, m) => Some (t :: out, m)
                      | None => None
                      end
                  | None => None
                  end
  end.

(** A first-in first-out queue without duplicates; 0 when empty. *)
Fixpoint spec_queue (ops : list qop) (q : list Z) : list Z :=
  match ops with
  | [] => []
  | Enq t :: ops => spec_queue ops (spec_enqueue t q)
  | Deq :: ops => hd 0 q :: spec_queue ops (tl q)
  end.

Definition is_enq (o : qop) : bool := match o with Enq _ => true | Deq => false end.
Definition enq_count (ops : list qop) : Z :=
  Z.of_nat (length (filter (fun o => is_enq o = true) ops)).

Definition fresh_mutex : kthread_mutex_t := Mutex 0 (replicate 256 0) M_UNLOCKED 0 0.

Lemma fresh_qrep : qrep fresh_mutex [].
Proof.
  constructor; [|done|done]. exists []. split_and!; [done|done|simpl; lia].
Qed.

Lemma run_queue_refines ops m q :
  qrep m q -> used m + enq_count ops <= 63 ->
  Forall (fun o => o <> Enq 0) ops ->
  exists m', run_queue ops m = Some (spec_queue ops q, m').
Proof.
  revert m q. induction ops as [|o ops IH]; intros m q Hq Hu Hnz; simpl; [eauto|].
  apply Forall_cons in Hnz as [Ho Hnz]. unfold enq_count in *. rewrite filter_cons in Hu.
  destruct o as [t|].
  - rewrite decide_True in Hu by done. simpl in Hu.
    destruct (mutex_enqueue_refines m q t) as (m1 & -> & Hq1 & Hu1 & _); [done|lia|congruence|].
    apply IH; [done|lia|done].
  - rewrite decide_False in Hu by done.
    destruct (mutex_dequeue_refines m q) as (m1 & -> & Hq1 & Hu1 & _); [done|lia|].
    destruct (IH m1 (tl q)) as [m2 ->]; [done|lia|done|]. eauto.
Qed.

(** C28: the waiting queue of a freshly allocated mutex hands threads out in the
    order in which they queued, each once, for any sequence of calls with at
    most 63 queueing attempts. *)
Theorem mutex_queue_fifo ops :
  enq_count ops <= 63 -> Forall (fun o => o <> Enq 0) ops ->
  exists m', run_queue ops fresh_mutex = Some (spec_queue ops [], m').
Proof. intros Hn Hnz. apply run_queue_refines; [apply fresh_qrep|done|done]. Qed.

Lemma mutex_queue_fifo_witness :
  exists m', run_queue [Enq 3; Enq 5; Enq 3; Deq; Enq 7; Deq; Deq; Deq] fresh_mutex =
    Some ([3; 5; 7; 0], m').
Proof.
  apply (mutex_queue_fifo [Enq 3; Enq 5; Enq 3; Deq; Enq 7; Deq; Deq; Deq]).
  - vm_compute. discriminate.
  - repeat (apply Forall_cons; split; [discriminate|]). by apply Forall_nil.
Defined.

(** Slots are not cleared when threads leave the queue.  After 256 threads
    have passed through the queue of a mutex it is empty, but a thread whose
    id is left in slot 0 is taken to be in the queue already and is not put
    there, and an unlock dequeues that stale id and makes count negative. *)
Theorem mutex_queue_stale :
  exists m, run_queue (concat (replicate 256 [Enq 1; Deq])) fresh_mutex =
      Some (replicate 256 1, m) /\
    m_count m = 0 /\
    mutex_enqueue 1 m = Some m /\
    exists m', mutex_dequeue m = Some (1, m') /\ m_count m' = -1.
Proof. eexists. split; [vm_compute; reflexivity|]. split_and!; try reflexivity. eauto. Qed.

(** ** Behaviour of the operations *)

Section Spec.
Context {W : Type} `{Services W}.
Implicit Types s : kst W.

Lemma get_mutex_run s id mu : rd (mtable s) id = Some mu -> get_mutex id s = Ret mu s.
Proof. intros E. unfold get_mutex, gets_opt. by rewrite E. Qed.

Lemma get_cond_run s id cv : rd (ctable s) id = Some cv -> get_cond id s = Ret cv s.
Proof. intros E. unfold get_cond, gets_opt. by rewrite E. Qed.

Lemma put_mutex_run s id mu mu' :
  rd (mtable s) id = Some mu ->
  put_mutex id mu' s = Ret tt (set_mtable (<[Z.to_nat id := mu']> (mtable s)) s).
Proof.
  intros [Hr _]%rd_Some. unfold put_mutex, modify_opt, wr. by rewrite decide_True.
Qed.

Lemma put_cond_run s id cv cv' :
  rd (ctable s) id = Some cv ->
  put_cond id cv' s = Ret tt (set_ctable (<[Z.to_nat id := cv']> (ctable s)) s).
Proof.
  intros [Hr _]%rd_Some. unfold put_cond, modify_opt, wr. by rewrite decide_True.
Qed.

Lemma lift_run {A} (o : option A) a s : o = Some a -> lift o s = Ret a s.
Proof. by intros ->. Qed.

(** A lock context: the lock states around a critical section on mtable.lock
    entered with [l0] held. *)
Record lctx (l0 l1 l2 l3 : lstate) : Prop := {
  ctx_acq : acquire MTABLE l0 = Ret tt l1;
  ctx_acq_p : acquire PTABLE l1 = Ret tt l2;
  ctx_rel_p : release PTABLE l2 = Ret tt l1;
  ctx_rel : release MTABLE l1 = Ret tt l3
}.

Lemma lctx_idle c e :
  lctx (idle c e) (busy c [MTABLE]) (busy c [PTABLE; MTABLE]) (idle c true).
Proof.
  split; [apply acquire_idle|apply acquire_busy1|apply release_busy2|apply release_busy1];
    unfold PTABLE, MTABLE; lia.
Qed.

Lemma lctx_cond c :
  lctx (busy c [CTABLE]) (busy c [MTABLE; CTABLE]) (busy c [PTABLE; MTABLE; CTABLE])
    (busy c [CTABLE]).
Proof.
  split; [apply acquire_busy1|apply acquire_busy2|apply release_busy3|apply release_busy2];
    unfold PTABLE, MTABLE, CTABLE; lia.
Qed.

Lemma zoom_lks s l (m : M lstate unit) :
  m (lks s) = Ret tt l -> zoom lks set_lks m s = Ret tt (set_lks l s).
Proof. intros E. unfold zoom. by rewrite E. Qed.

(** [kthread_mutex_lock] in one critical section. *)
Definition lock_outcome (tid : Z) (mu : kthread_mutex_t) :
    option (option Z * kthread_mutex_t) :=
  if m_status mu =? M_UNUSED then Some (Some (-1), mu)
  else if m_status mu =? M_UNLOCKED then
    Some (Some 0, set_m_tid tid (set_m_status M_LOCKED mu))
  else if m_status mu =? M_LOCKED then (fun mu' => (None, mu')) <$> mutex_enqueue tid mu
  else None.

Lemma insert_rd {A} (l : list A) i x : rd l i = Some x -> <[Z.to_nat i := x]> l = l.
Proof. intros [_ Hl]%rd_Some. by apply list_insert_id. Qed.

Lemma lock_enter_run s c e m p id mu r mu' :
  lks s = idle c e -> curproc s = Some m -> ptable s !! m = Some p ->
  rd (mtable s) id = Some mu -> lock_outcome (threadId p) mu = Some (r, mu') ->
  mutex_lock_enter id s =
    Ret r (set_lks (idle c true) (set_mtable (<[Z.to_nat id := mu']> (mtable s)) s)).
Proof.
  intros Hl Hm Hp Hmu Ho. unfold mutex_lock_enter. kopen s. kacq.
  erewrite bind_Ret by by apply get_mutex_run.
  unfold lock_outcome in Ho.
  destruct (m_status mu =? M_UNUSED).
  { injection Ho as <- <-. krel. by rewrite insert_rd. }
  destruct (m_status mu =? M_UNLOCKED).
  { injection Ho as <- <-. erewrite bind_Ret by by apply (cur_run _ m p).
    erewrite bind_Ret by by eapply put_mutex_run. kred. by krel. }
  destruct (m_status mu =? M_LOCKED); [|done].
  destruct (mutex_enqueue (threadId p) mu) as [mu1|] eqn:En; [|done].
  injection Ho as <- <-. erewrite bind_Ret by by apply (cur_run _ m p).
  erewrite bind_Ret by by apply lift_run.
  erewrite bind_Ret by by eapply put_mutex_run. kred. by krel.
Qed.

Lemma block_run s c e m p :
  lks s = idle c e -> curproc s = Some m -> ptable s !! m = Some p ->
  block s = Sched (set_lks (busy c [PTABLE])
    (set_ptable (alter (set_state BLOCKING) m (ptable s)) s)).
Proof.
  intros Hl Hm Hp. unfold block. kopen s. kacq.
  erewrite bind_Ret by by apply upd_cur_run. kred.
  by rewrite (sched_busy c _ m (set_state BLOCKING p)); [..|kred; apply alter_same|done].
Qed.

(** [kthread_mutex_unlock] by thread [tid]. *)
Definition unlock_ok (tid : Z) (mu : kthread_mutex_t) : bool :=
  (tid =? m_tid mu) && (m_status mu =? M_LOCKED).

Lemma unlock_run s l0 l1 l2 l3 m p id mu t mu' :
  lctx l0 l1 l2 l3 -> lks s = l0 ->
  curproc s = Some m -> ptable s !! m = Some p -> rd (mtable s) id = Some mu ->
  unlock_ok (threadId p) mu = true ->
  mutex_dequeue (set_m_tid 0 (set_m_status M_UNLOCKED mu)) = Some (t, mu') ->
  kthread_mutex_unlock id s = Ret 0
    (set_lks l3 (set_klog ((klog s ++ m_sleepingTID mu) ++ [t; m_startIndex mu'])
      (set_ptable (wake_tid t (ptable s))
        (set_mtable (<[Z.to_nat id := mu']> (mtable s)) s)))).
Proof.
  intros [H1 H2 H3 H4] Hl Hm Hp Hmu Ho Hd. unfold kthread_mutex_unlock, acquire_l, release_l.
  kopen s. erewrite bind_Ret by by apply zoom_lks. kred.
  erewrite bind_Ret by by apply get_mutex_run. unfold cprintf_ints. krun.
  erewrite bind_Ret by by apply (cur_run _ m p). unfold unlock_ok in Ho. rewrite Ho.
  erewrite bind_Ret by by apply lift_run.
  erewrite bind_Ret by by eapply put_mutex_run. krun.
  erewrite bind_Ret by by apply zoom_lks. kred. unfold wake_blocked. krun.
  erewrite bind_Ret by by apply zoom_lks. kred.
  by erewrite bind_Ret by by apply zoom_lks.
Qed.

Lemma unlock_fails s l0 l1 l2 l3 m p id mu :
  lctx l0 l1 l2 l3 -> lks s = l0 ->
  curproc s = Some m -> ptable s !! m = Some p -> rd (mtable s) id = Some mu ->
  unlock_ok (threadId p) mu = false ->
  kthread_mutex_unlock id s =
    Ret (-1) (set_lks l3 (set_klog (klog s ++ m_sleepingTID mu) s)).
Proof.
  intros [H1 H2 H3 H4] Hl Hm Hp Hmu Ho. unfold kthread_mutex_unlock, acquire_l, release_l.
  kopen s. erewrite bind_Ret by by apply zoom_lks. kred.
  erewrite bind_Ret by by apply get_mutex_run. unfold cprintf_ints. krun.
  erewrite bind_Ret by by apply (cur_run _ m p). unfold unlock_ok in Ho. rewrite Ho.
  by erewrite bind_Ret by by apply zoom_lks.
Qed.

End Spec.

(** ** Mutual exclusion

    The critical sections of all CPUs, interleaved.  Each step is one critical
    section of some process [m] on some CPU [c], entered with no lock held;
    what the rest of the kernel does to the process table is unconstrained. *)

Section Exclusion.
Context {W : Type} `{Services W}.
Implicit Types s : kst W.

Definition enter (c m : nat) s : kst W := set_curproc (Some m) (set_lks (idle c true) s).

Inductive event := ELock (id : Z) | EUnlock (id : Z).

(** The unlock inside [kthread_cond_wait] is recorded when it succeeds. *)
Definition wait_events (m : nat) (cond_id mutex_id : Z) s : list event :=
  match ptable s !! m, rd (mtable s) mutex_id, rd (ctable s) cond_id with
  | Some p, Some mu, Some cv =>
      if unlock_ok (threadId p) mu && (c_status cv =? C_USED) then [EUnlock mutex_id] else []
  | _, _, _ => []
  end.

Inductive sync_step (s : kst W) : list event -> kst W -> Prop :=
| st_lock c m id r s' :
    mutex_lock_enter id (enter c m s) = Ret r s' ->
    sync_step s (if decide (r = Some 0) then [ELock id] else []) s'
| st_unlock c m id r s' :
    kthread_mutex_unlock id (enter c m s) = Ret r s' ->
    sync_step s (if decide (r = 0) then [EUnlock id] else []) s'
| st_alloc c m r s' :
    kthread_mutex_alloc (enter c m s) = Ret r s' -> sync_step s [] s'
| st_dealloc c m id r s' :
    kthread_mutex_dealloc id (enter c m s) = Ret r s' -> sync_step s [] s'
| st_cond_wait c m cid mid r s' :
    cond_wait_enter cid mid (enter c m s) = Ret r s' ->
    sync_step s (wait_events m cid mid s) s'
| st_signal c m cid r s' :
    kthread_cond_signal cid (enter c m s) = Ret r s' -> sync_step s [] s'
| st_other s' :
    mtable s' = mtable s -> sync_step s [] s'.

Inductive sync_run (s0 : kst W) : list event -> kst W -> Prop :=
| run_nil : sync_run s0 [] s0
| run_step tr s ev s' : sync_run s0 tr s -> sync_step s ev s' -> sync_run s0 (tr ++ ev) s'.

(** Successful locks minus successful unlocks of a mutex. *)
Definition ev_delta (id : Z) (ev : event) : Z :=
  match ev with
  | ELock i => if i =? id then 1 else 0
  | EUnlock i => if i =? id then -1 else 0
  end.
Fixpoint outstanding (id : Z) (tr : list event) : Z :=
  match tr with [] => 0 | ev :: tr => ev_delta id ev + outstanding id tr end.

Lemma outstanding_app id tr1 tr2 :
  outstanding id (tr1 ++ tr2) = outstanding id tr1 + outstanding id tr2.
Proof. induction tr1; simpl; lia. Qed.

Definition held (mu : kthread_mutex_t) : Z := if m_status mu =? M_LOCKED then 1 else 0.

(** What one step does to the locked status of every mutex. *)
Definition tracks (t t' : list kthread_mutex_t) (ev : list event) : Prop :=
  forall id mu', rd t' id = Some mu' ->
    exists mu, rd t id = Some mu /\ held mu' = held mu + outstanding id ev.

Lemma tracks_refl t : tracks t t [].
Proof. intros id mu Hmu. exists mu. split; [done|]. simpl. lia. Qed.

Lemma tracks_insert t id mu mu' ev :
  rd t id = Some mu -> held mu' = held mu + outstanding id ev ->
  (forall j, j <> id -> outstanding j ev = 0) ->
  tracks t (<[Z.to_nat id := mu']> t) ev.
Proof.
  intros Hmu Hh Hev j x Hx. pose proof (rd_Some _ _ _ Hmu) as [Hr _].
  assert (wr t id mu' = Some (<[Z.to_nat id := mu']> t)) as (_ & H1 & H2)%wr_Some
    by (unfold wr; by rewrite decide_True).
  destruct (decide (j = id)) as [->|Hj].
  - rewrite H1 in Hx. injection Hx as <-. eauto.
  - rewrite H2 in Hx by done. exists x. rewrite Hev by done. split; [done|lia].
Qed.

(** The lock operations and the services leave mtable alone. *)
Lemma post_acquire i s (Q : unit -> kst W -> Prop) :
  (forall l, Q tt (set_lks l s)) -> post (acquire_l i) s Q.
Proof. intros HQ. apply post_zoom. by intros []. Qed.
Lemma post_release i s (Q : unit -> kst W -> Prop) :
  (forall l, Q tt (set_lks l s)) -> post (release_l i) s Q.
Proof. intros HQ. apply post_zoom. by intros []. Qed.
Lemma post_get_mutex id s (Q : _ -> kst W -> Prop) :
  (forall mu, rd (mtable s) id = Some mu -> Q mu s) -> post (get_mutex id) s Q.
Proof. intros HQ. by apply post_gets_opt. Qed.
Lemma post_get_cond id s (Q : _ -> kst W -> Prop) :
  (forall cv, rd (ctable s) id = Some cv -> Q cv s) -> post (get_cond id) s Q.
Proof. intros HQ. by apply post_gets_opt. Qed.
Lemma post_put_mutex id mu s (Q : _ -> kst W -> Prop) :
  Q tt (set_mtable (<[Z.to_nat id := mu]> (mtable s)) s) -> post (put_mutex id mu) s Q.
Proof.
  intros HQ. apply post_modify_opt. intros s'. unfold wr. case_decide; [|done].
  by intros [= <-].
Qed.
Lemma post_put_cond id cv s (Q : _ -> kst W -> Prop) :
  Q tt (set_ctable (<[Z.to_nat id := cv]> (ctable s)) s) -> post (put_cond id cv) s Q.
Proof.
  intros HQ. apply post_modify_opt. intros s'. unfold wr. case_decide; [|done].
  by intros [= <-].
Qed.
Lemma post_cur s (Q : _ -> kst W -> Prop) :
  (forall m p, curproc s = Some m -> ptable s !! m = Some p -> Q p s) -> post cur s Q.
Proof.
  intros HQ. apply post_bind, post_gets_opt. intros m Hm. apply post_gets_opt. eauto.
Qed.

End Exclusion.

(** One step through an operation of this file, for a postcondition. *)
Ltac pstep :=
  lazymatch goal with
  | |- post (bind _ _) _ _ => apply post_bind
  | |- post (acquire_l _) _ _ => apply post_acquire; intros ?; ksimp
  | |- post (release_l _) _ _ => apply post_release; intros ?; ksimp
  | |- post (get_mutex _) _ _ => apply post_get_mutex; let mu := fresh "mu" in let E := fresh "Emu" in intros mu E; ksimps
  | |- post (get_cond _) _ _ => apply post_get_cond; let cv := fresh "cv" in let E := fresh "Ecv" in intros cv E; ksimps
  | |- post (put_mutex _ _) _ _ => apply post_put_mutex; ksimp
  | |- post (put_cond _ _) _ _ => apply post_put_cond; ksimp
  | |- post cur _ _ => apply post_cur;
      let m := fresh "m" in let p := fresh "p" in let Em := fresh "Em" in
      let Ep := fresh "Ep" in intros m p Em Ep; ksimps
  | |- post (lift _) _ _ => apply post_gets_opt; intros ? ?
  | |- post (gets _) _ _ => apply post_gets; ksimp
  | |- post (modify _) _ _ => apply post_modify; ksimp
  | |- post (ret _) _ _ => apply post_ret; ksimp
  | |- post (panic _) _ _ => exact I
  | |- post (if ?b then _ else _) _ _ => destruct b eqn:?
  end.
Ltac psteps := repeat pstep.

Section Mutex.
Context {W : Type} `{Services W}.
Implicit Types s : kst W.

Lemma held_enqueue t mu mu' : mutex_enqueue t mu = Some mu' -> held mu' = held mu.
Proof.
  unfold mutex_enqueue. destruct (isInQueue mu t) as [[]|]; [by intros [= <-]| |done].
  cbv zeta. by destruct (wr _ _ _); [intros [= <-]|].
Qed.

Lemma held_dequeue mu t mu' : mutex_dequeue mu = Some (t, mu') -> held mu' = held mu.
Proof.
  unfold mutex_dequeue. destruct (rd _ _) as [z|]; [|done]. intros [= <- <-].
  by destruct (z =? 0).
Qed.

Lemma lock_tracks id s :
  post (mutex_lock_enter id) s (fun r s' =>
    tracks (mtable s) (mtable s') (if decide (r = Some 0) then [ELock id] else [])).
Proof.
  unfold mutex_lock_enter. psteps.
  - rewrite decide_False by done. apply tracks_refl.
  - rewrite decide_True by done. eapply tracks_insert; [done|..]; simpl.
    + rewrite Z.eqb_refl. unfold held. simpl.
      assert (m_status mu = 1) as -> by (unfold M_UNLOCKED in *; lia). done.
    + intros j Hj. destruct (Z.eqb_spec id j); [congruence|done].
  - rewrite decide_False by done. eapply tracks_insert; [done|..|done].
    erewrite held_enqueue by done. simpl. lia.
Qed.

Lemma unlock_tracks id s :
  post (kthread_mutex_unlock id) s (fun r s' =>
    tracks (mtable s) (mtable s') (if decide (r = 0) then [EUnlock id] else []) /\
    (r = 0 \/ r = -1) /\
    (r = 0 <-> exists m p mu, curproc s = Some m /\ ptable s !! m = Some p /\
       rd (mtable s) id = Some mu /\ unlock_ok (threadId p) mu = true)).
Proof.
  unfold kthread_mutex_unlock, cprintf_ints, wake_blocked. psteps.
  - split_and!; [|by left|].
    + rewrite decide_True by done. eapply tracks_insert; [done|..]; simpl.
      * rewrite Z.eqb_refl. destruct a as [t mu']. simpl. erewrite held_dequeue by done.
        apply andb_true_iff in Heqb as [_ Hst]. unfold held. rewrite Hst. done.
      * intros j Hj. destruct (Z.eqb_spec id j); [congruence|done].
    + split; [|done]. intros _. unfold unlock_ok. naive_solver.
  - split_and!; [|by right|].
    + rewrite decide_False by done. apply tracks_refl.
    + split; [done|]. intros (m' & p' & mu' & Em' & Ep' & Emu' & Hok). unfold unlock_ok in *.
      assert (m' = m) as -> by congruence. assert (p' = p) as -> by congruence.
      assert (mu' = mu) as -> by congruence. congruence.
Qed.

Lemma alloc_tracks s :
  post kthread_mutex_alloc s (fun _ s' => tracks (mtable s) (mtable s') []).
Proof.
  unfold kthread_mutex_alloc. psteps.
  destruct (find_first _ _) as [i|] eqn:Hf; psteps; [|apply tracks_refl].
  apply find_first_Some in Hf as [(mu & Hmu & Hst) _].
  eapply (tracks_insert _ _ mu); [|..|done].
  - unfold rd. by rewrite decide_True, Nat2Z.id by lia.
  - unfold held. simpl. assert (m_status mu = 0) as -> by (unfold M_UNUSED in *; lia). done.
Qed.

Lemma dealloc_tracks id s :
  post (kthread_mutex_dealloc id) s (fun _ s' => tracks (mtable s) (mtable s') []).
Proof.
  unfold kthread_mutex_dealloc. psteps; [|apply tracks_refl].
  eapply tracks_insert; [done|..|done]. unfold held. simpl.
  assert (m_status mu = 1) as -> by (unfold M_UNLOCKED in *; lia). done.
Qed.

Lemma signal_tracks cid s :
  post (kthread_cond_signal cid) s (fun _ s' => tracks (mtable s) (mtable s') []).
Proof.
  unfold kthread_cond_signal, wake_blocked. do 4 pstep. apply post_bind, post_when; intros _.
  - psteps. eapply tracks_insert; [done|..|done]. unfold held. simpl. lia.
  - psteps. apply tracks_refl.
Qed.

Lemma cond_wait_tracks m cid mid s :
  curproc s = Some m ->
  post (cond_wait_enter cid mid) s (fun _ s' =>
    tracks (mtable s) (mtable s') (wait_events m cid mid s)).
Proof.
  intros Hm. unfold cond_wait_enter. psteps.
  - eapply post_weaken; [apply unlock_tracks|]. ksimp. intros r s1 (Ht & Hr & Hiff).
    psteps. unfold wait_events.
    assert (m = m0) as <- by congruence.
    rewrite Ep. destruct (rd (mtable s) mid) as [mu|] eqn:Hmu.
    + rewrite Ecv, Heqb, andb_true_r. destruct (unlock_ok (threadId p) mu) eqn:Hu.
      * rewrite decide_True in Ht; [done|]. apply Hiff. by exists m, p, mu.
      * rewrite decide_False in Ht; [done|].
        intros (m' & p' & mu' & ? & ? & ? & ?)%Hiff. congruence.
    + rewrite decide_False in Ht; [done|].
      intros (m' & p' & mu' & ? & ? & ? & ?)%Hiff. congruence.
  - replace (wait_events m cid mid s) with (@nil event); [apply tracks_refl|].
    unfold wait_events. destruct (ptable s !! m), (rd (mtable s) mid); try done.
    by rewrite Ecv, Heqb, andb_false_r.
Qed.

Lemma step_tracks s ev s' : sync_step s ev s' -> tracks (mtable s) (mtable s') ev.
Proof.
  destruct 1 as [c m id r s' Hr|c m id r s' Hr|c m r s' Hr|c m id r s' Hr
                |c m cid mid r s' Hr|c m cid r s' Hr|s' Hr].
  - exact (post_elim _ _ _ _ _ (lock_tracks id (enter c m s)) Hr).
  - exact (proj1 (post_elim _ _ _ _ _ (unlock_tracks id (enter c m s)) Hr)).
  - exact (post_elim _ _ _ _ _ (alloc_tracks (enter c m s)) Hr).
  - exact (post_elim _ _ _ _ _ (dealloc_tracks id (enter c m s)) Hr).
  - exact (post_elim _ _ _ _ _ (cond_wait_tracks m cid mid (enter c m s) eq_refl) Hr).
  - exact (post_elim _ _ _ _ _ (signal_tracks cid (enter c m s)) Hr).
  - rewrite Hr. apply tracks_refl.
Qed.

(** C29: mutual exclusion.  In every interleaving of the mutex and condition
    variable calls of all processes, starting with no mutex in use, the
    successful locks of a mutex exceed its successful unlocks by one exactly
    while its status is M_LOCKED and by zero otherwise: between two successful
    locks of a mutex there is a successful unlock. *)
Theorem mutex_mutual_exclusion s0 tr s id mu :
  (forall i m0, rd (mtable s0) i = Some m0 -> m_status m0 = M_UNUSED) ->
  sync_run s0 tr s -> rd (mtable s) id = Some mu ->
  outstanding id tr = if m_status mu =? M_LOCKED then 1 else 0.
Proof.
  intros H0 Hrun. revert id mu. change (forall id mu, rd (mtable s) id = Some mu ->
    outstanding id tr = held mu).
  induction Hrun as [|tr s ev s' Hrun IH Hstep]; intros id mu Hmu.
  - unfold held. by rewrite (H0 id mu Hmu).
  - destruct (step_tracks _ _ _ Hstep id mu Hmu) as (mu0 & Hmu0 & Hh).
    rewrite outstanding_app, (IH id mu0 Hmu0). lia.
Qed.

End Mutex.

(** ** Handing the mutex over *)

Section Handoff.
Context {W : Type} `{Services W}.
Implicit Types s : kst W.

Lemma rd_insert_same {A} (l : list A) i x y :
  rd l i = Some x -> rd (<[Z.to_nat i := y]> l) i = Some y.
Proof.
  intros [Hr _]%rd_Some. unfold rd. rewrite decide_True by lia.
  apply list_lookup_insert_eq. lia.
Qed.

Lemma mutex_lock_blocks s c m p id mu mu' :
  ptable s !! m = Some p -> rd (mtable s) id = Some mu ->
  lock_outcome (threadId p) mu = Some (None, mu') ->
  kthread_mutex_lock id (enter c m s) = Sched (set_lks (busy c [PTABLE])
    (set_curproc (Some m) (set_ptable (alter (set_state BLOCKING) m (ptable s))
      (set_mtable (<[Z.to_nat id := mu']> (mtable s)) s)))).
Proof.
  intros Hp Hmu Ho. unfold kthread_mutex_lock, enter.
  erewrite bind_Ret by (eapply (lock_enter_run _ c true m p); ksimp; done).
  unfold bind. erewrite block_run; [|ksimp; done..]. by kopen s.
Qed.

Lemma wake_tid_unique t i p tid :
  t !! i = Some p -> state p = BLOCKING -> threadId p = tid ->
  (forall j q, t !! j = Some q -> threadId q = tid -> j = i) ->
  wake_tid tid t = alter (set_state RUNNABLE) i t.
Proof.
  intros Hp Hst Htid Huniq. unfold wake_tid.
  destruct (find_first (blocked_tid tid) t) as [k|] eqn:Hf.
  - apply find_first_Some in Hf as [(q & Hq & Hb) _].
    apply andb_true_iff in Hb as [_ Hb%Z.eqb_eq].
    by rewrite (Huniq k q Hq Hb).
  - exfalso. pose proof (proj1 (find_first_None _ _) Hf p
      (list_elem_of_lookup_2 _ _ _ Hp)) as Hno.
    unfold blocked_tid, is_state in Hno.
    rewrite bool_decide_true in Hno by done. simpl in Hno. lia.
Qed.

Lemma wake_alone t a pa :
  t !! a = Some pa ->
  (forall j q, t !! j = Some q -> threadId q = threadId pa -> j = a) ->
  wake_tid (threadId pa) (alter (set_state BLOCKING) a t) !! a =
    Some (set_state RUNNABLE (set_state BLOCKING pa)).
Proof.
  intros Ha Huniq. rewrite (wake_tid_unique _ a (set_state BLOCKING pa)); try done.
  - by apply alter_same, alter_same.
  - by apply alter_same.
  - intros j q. destruct (decide (j = a)) as [->|Hj]; [done|].
    rewrite alter_other by done. apply Huniq.
Qed.

Lemma qrep_fields m m' q :
  qrep m q -> m_sleepingTID m' = m_sleepingTID m -> m_startIndex m' = m_startIndex m ->
  m_count m' = m_count m -> qrep m' q.
Proof. intros [Hs Hc Hn] E1 E2 E3. split; rewrite ?E1, ?E2, ?E3; done. Qed.

(** The state of a thread that has been woken and picked by the scheduler. *)
Definition resumed (c m : nat) s : kst W :=
  set_lks (busy c [PTABLE]) (set_curproc (Some m)
    (set_ptable (alter (set_state RUNNING) m (ptable s)) s)).

Lemma sched_resume_busy c hs s :
  lks s = busy c hs -> sched_resume true s = Ret tt (set_lks (busy c hs) s).
Proof. intros Hl. unfold sched_resume, zoom. by rewrite Hl. Qed.

Lemma lock_resume_gets s c m p id mu :
  ptable s !! m = Some p -> rd (mtable s) id = Some mu -> m_status mu = M_UNLOCKED ->
  exists s', kthread_mutex_lock_resume true id (resumed c m s) = Ret 0 s' /\
    rd (mtable s') id = Some (set_m_tid (threadId p) (set_m_status M_LOCKED mu)).
Proof.
  intros Hp Hmu Hst. unfold kthread_mutex_lock_resume, resumed. kopen s.
  erewrite bind_Ret by by apply sched_resume_busy. kred. krel. kacq. krel.
  unfold kthread_mutex_lock. erewrite bind_Ret.
  2: { eapply (lock_enter_run _ c true m (set_state RUNNING p)); kred; try done.
       - by rewrite (alter_same _ _ _ p).
       - unfold lock_outcome. by rewrite Hst. }
  eexists. split; [reflexivity|]. kred. by eapply rd_insert_same.
Qed.

(** A contended mutex changes hands.  Thread [a] locks a mutex that thread
    [b] holds and nobody waits for: [a] blocks; the unlock by [b] makes it
    runnable; when the scheduler picks it, its call returns 0 with the mutex
    locked by [a] and no one waiting. *)
Theorem mutex_handoff s ca cb cr a pa b pb id mu :
  ptable s !! a = Some pa -> ptable s !! b = Some pb -> a <> b ->
  rd (mtable s) id = Some mu -> m_status mu = M_LOCKED -> m_tid mu = threadId pb ->
  qrep mu [] -> used mu < 63 -> threadId pa <> 0 ->
  (forall j q, ptable s !! j = Some q -> threadId q = threadId pa -> j = a) ->
  exists s1 s2 s3 mu3,
    kthread_mutex_lock id (enter ca a s) = Sched s1 /\
    state <$> (ptable s1 !! a) = Some BLOCKING /\
    kthread_mutex_unlock id (enter cb b s1) = Ret 0 s2 /\
    state <$> (ptable s2 !! a) = Some RUNNABLE /\
    kthread_mutex_lock_resume true id (resumed cr a s2) = Ret 0 s3 /\
    rd (mtable s3) id = Some mu3 /\ m_status mu3 = M_LOCKED /\
    m_tid mu3 = threadId pa /\ qrep mu3 [].
Proof.
  intros Ha Hb Hab Hmu Hst Htid Hq Hu Hnz Huniq.
  destruct (mutex_enqueue_refines mu [] (threadId pa)) as (mu1 & Hen & Hq1 & Hu1 & E1 & E2 & _);
    [done..|]. unfold spec_enqueue in Hq1. rewrite decide_False in Hq1 by set_solver. simpl in Hq1.
  destruct (mutex_dequeue_refines (set_m_tid 0 (set_m_status M_UNLOCKED mu1)) [threadId pa])
    as (mu2 & Hde & Hq2 & _ & E3 & _); [by eapply qrep_fields|unfold used in *; simpl; lia|].
  simpl in Hde, Hq2, E3.
  set (t1 := alter (set_state BLOCKING) a (ptable s)).
  pose proof (wake_alone (ptable s) a pa Ha Huniq) as Hw. fold t1 in Hw.
  pose proof (mutex_lock_blocks s ca a pa id mu mu1 Ha Hmu) as Hlock.
  set (s1 := set_lks _ (set_curproc (Some a) _)) in Hlock.
  assert (Hunl : exists s2, kthread_mutex_unlock id (enter cb b s1) = Ret 0 s2 /\
    ptable s2 = wake_tid (threadId pa) t1 /\ rd (mtable s2) id = Some mu2).
  { eexists. split.
    - eapply (unlock_run _ _ _ _ _ b pb id mu1); unfold enter, s1; ksimp; try done.
      + apply lctx_idle.
      + by rewrite alter_other.
      + by eapply rd_insert_same.
      + unfold unlock_ok. by rewrite E1, E2, Hst, Htid, Z.eqb_refl.
    - unfold enter, s1; ksimp. split; [done|]. by do 2 eapply rd_insert_same. }
  destruct Hunl as (s2 & Hunl & Ht2 & Hm2). rewrite <- Ht2 in Hw.
  destruct (lock_resume_gets s2 cr a _ id mu2 Hw Hm2 E3) as (s3 & Hr3 & Hm3).
  exists s1, s2, s3. eexists.
  split_and!; [..|exact Hr3|exact Hm3|done|done|by eapply qrep_fields].
  - apply Hlock. unfold lock_outcome. by rewrite Hst, Hen.
  - unfold s1. ksimp. by rewrite (alter_same _ _ _ pa).
  - done.
  - by rewrite Hw.
Qed.

Lemma wake_tid_none t tid :
  (forall j q, t !! j = Some q -> state q = BLOCKING -> threadId q <> tid) ->
  wake_tid tid t = t.
Proof.
  intros Hno. unfold wake_tid.
  destruct (find_first (blocked_tid tid) t) as [k|] eqn:Hf; [|done].
  apply find_first_Some in Hf as [(q & Hq & Hb) _].
  apply andb_true_iff in Hb as [Hs%bool_decide_eq_true Hb%Z.eqb_eq].
  by destruct (Hno k q Hq Hs).
Qed.

(** The wakeup of [mutex_handoff] is lost when the unlock runs between the
    waiter's two critical sections: [a] has queued itself but is not yet
    BLOCKING, so the unlock dequeues it without waking it; [a] then blocks,
    with the mutex unlocked and its queue empty. *)
Theorem mutex_lost_wakeup s ca cb a pa b pb id mu :
  ptable s !! a = Some pa -> state pa = RUNNING -> ptable s !! b = Some pb -> a <> b ->
  rd (mtable s) id = Some mu -> m_status mu = M_LOCKED -> m_tid mu = threadId pb ->
  qrep mu [] -> used mu < 63 -> threadId pa <> 0 ->
  (forall j q, ptable s !! j = Some q -> threadId q = threadId pa -> j = a) ->
  exists s1 s2 s3 mu3,
    mutex_lock_enter id (enter ca a s) = Ret None s1 /\
    kthread_mutex_unlock id (enter cb b s1) = Ret 0 s2 /\
    block (enter ca a s2) = Sched s3 /\
    state <$> (ptable s3 !! a) = Some BLOCKING /\
    rd (mtable s3) id = Some mu3 /\ m_status mu3 = M_UNLOCKED /\ qrep mu3 [].
Proof.
  intros Ha Hrun Hb Hab Hmu Hst Htid Hq Hu Hnz Huniq.
  destruct (mutex_enqueue_refines mu [] (threadId pa)) as (mu1 & Hen & Hq1 & Hu1 & E1 & E2 & _);
    [done..|]. unfold spec_enqueue in Hq1. rewrite decide_False in Hq1 by set_solver. simpl in Hq1.
  destruct (mutex_dequeue_refines (set_m_tid 0 (set_m_status M_UNLOCKED mu1)) [threadId pa])
    as (mu2 & Hde & Hq2 & _ & E3 & _); [by eapply qrep_fields|unfold used in *; simpl; lia|].
  simpl in Hde, Hq2, E3.
  assert (Hw : wake_tid (threadId pa) (ptable s) = ptable s).
  { apply wake_tid_none. intros j q Hj Hbl Heq. rewrite (Huniq j q) in Hj by done. congruence. }
  eexists _, _, _, mu2. split; [|split; [|split; [|split_and!; [..|done|done]]]].
  - eapply (lock_enter_run _ ca true a pa id mu); unfold enter; ksimp; try done.
    unfold lock_outcome. by rewrite Hst, Hen.
  - eapply (unlock_run _ _ _ _ _ b pb id mu1); unfold enter; ksimp; try done.
    + apply lctx_idle.
    + by eapply rd_insert_same.
    + unfold unlock_ok. by rewrite E1, E2, Hst, Htid, Z.eqb_refl.
  - unfold enter. ksimp. rewrite Hw. eapply (block_run _ ca true a pa); ksimp; done.
  - ksimp. by rewrite (alter_same _ _ _ pa).
  - ksimp. by do 2 eapply rd_insert_same.
Qed.

Lemma cond_wait_blocks s c m p cid mid cv cv' mu t mu' :
  ptable s !! m = Some p -> rd (ctable s) cid = Some cv -> c_status cv = C_USED ->
  cond_enqueue (threadId p) mid cv = Some cv' ->
  rd (mtable s) mid = Some mu -> unlock_ok (threadId p) mu = true ->
  mutex_dequeue (set_m_tid 0 (set_m_status M_UNLOCKED mu)) = Some (t, mu') ->
  wake_tid t (ptable s) !! m = Some p ->
  exists lg, kthread_cond_wait cid mid (enter c m s) = Sched (set_lks (busy c [PTABLE])
    (set_klog lg (set_curproc (Some m)
      (set_ptable (alter (set_state BLOCKING) m (wake_tid t (ptable s)))
        (set_mtable (<[Z.to_nat mid := mu']> (mtable s))
          (set_ctable (<[Z.to_nat cid := cv']> (ctable s)) s)))))).
Proof.
  intros Hp Hcv Hus Hen Hmu Hok Hde Hw. unfold kthread_cond_wait, enter. kopen s.
  eexists. erewrite bind_Ret.
  2: { unfold cond_wait_enter. kacq. erewrite bind_Ret by by apply get_cond_run.
       rewrite Hus. simpl. erewrite bind_Ret by by apply (cur_run _ m p).
       erewrite bind_Ret by by apply lift_run.
       erewrite bind_Ret by by eapply put_cond_run. kred.
       erewrite bind_Ret by by eapply (unlock_run _ _ _ _ _ m p mid mu); [apply lctx_cond|..].
       kred. krel. reflexivity. }
  unfold bind. by erewrite (block_run _ c true m p).
Qed.

Lemma signal_wakes s c m cid cv t cv' mu :
  rd (ctable s) cid = Some cv -> c_count cv <> 0 -> cond_dequeue cv = Some (t, cv') ->
  rd (mtable s) (c_waitingMutexID cv') = Some mu ->
  kthread_cond_signal cid (enter c m s) = Ret 0 (set_lks (idle c true)
    (set_curproc (Some m) (set_ptable (wake_tid t (ptable s))
      (set_mtable (<[Z.to_nat (c_waitingMutexID cv') := set_m_tid t mu]> (mtable s))
        (set_ctable (<[Z.to_nat cid := cv']> (ctable s)) s))))).
Proof.
  intros Hcv Hcnt Hde Hmu. unfold kthread_cond_signal, enter. kopen s. kacq.
  erewrite bind_Ret by by apply get_cond_run.
  destruct (Z.eqb_spec (c_count cv) 0) as [|_]; [done|]. simpl. unfold when.
  rewrite bind_assoc. erewrite bind_Ret by by apply lift_run. simpl. rewrite bind_assoc.
  erewrite bind_Ret by by eapply put_cond_run. kred. rewrite bind_assoc.
  erewrite bind_Ret by (eapply acquire_l_busy1; [done|unfold MTABLE, CTABLE; lia..]). kred.
  rewrite bind_assoc. erewrite bind_Ret by by apply get_mutex_run.
  rewrite bind_assoc. erewrite bind_Ret by by eapply put_mutex_run. kred. rewrite bind_assoc.
  erewrite bind_Ret by (eapply release_l_busy2; [done|unfold MTABLE, CTABLE; lia..]). kred.
  rewrite bind_assoc.
  erewrite bind_Ret by (eapply acquire_l_busy1; [done|unfold PTABLE, CTABLE; lia..]). kred.
  unfold wake_blocked. krun.
  erewrite bind_Ret by (eapply release_l_busy2; [done|unfold PTABLE, CTABLE; lia..]). kred.
  by krel.
Qed.

(** A condition variable with no one waiting. *)
Definition cond_empty (cv : kthread_cond_t) : Prop :=
  c_status cv = C_USED /\ c_count cv = 0 /\ 0 <= c_startIndex cv < 256 /\
  length (c_sleepingTID cv) = 256%nat.

Lemma cond_one_waiter cv t mid :
  cond_empty cv -> exists cv1 cv2, cond_enqueue t mid cv = Some cv1 /\
    c_count cv1 = 1 /\ cond_dequeue cv1 = Some (t, cv2) /\
    cond_empty cv2 /\ c_waitingMutexID cv2 = mid.
Proof.
  intros (Hus & Hc & Hs & Hlen). unfold cond_enqueue. rewrite Hc, Z.add_0_r.
  unfold MAX_THREADS. rewrite Z.rem_small by lia. unfold wr. rewrite decide_True by lia.
  eexists _, _. split; [reflexivity|]. simpl. split; [lia|].
  unfold cond_dequeue. simpl. unfold rd. rewrite decide_True by lia.
  rewrite list_lookup_insert_eq by lia. split; [reflexivity|]. split; [|done].
  unfold cond_empty, MAX_THREADS. simpl. rewrite length_insert.
  pose proof (Z.rem_bound_pos (c_startIndex cv + 1) 256). split_and!; [done|lia|lia|lia|done].
Qed.

(** A condition variable wait and the signal that ends it.  Thread [a]
    holds the mutex and waits; it blocks with the mutex unlocked; the signal
    by [b] makes it runnable; when it runs again its wait returns 0.  At that
    point the mutex is still M_UNLOCKED: the wait does not take it back, and
    only its tid field names [a]. *)
Theorem cond_wait_signal s ca cb cr a pa b cid mid cv mu :
  ptable s !! a = Some pa -> rd (ctable s) cid = Some cv -> cond_empty cv ->
  rd (mtable s) mid = Some mu -> m_status mu = M_LOCKED -> m_tid mu = threadId pa ->
  qrep mu [] -> used mu < 63 ->
  (forall j q, ptable s !! j = Some q -> threadId q = threadId pa -> j = a) ->
  (forall j q, ptable s !! j = Some q -> state q = BLOCKING -> threadId q <> 0) ->
  exists s1 s2 s3 mu3,
    kthread_cond_wait cid mid (enter ca a s) = Sched s1 /\
    state <$> (ptable s1 !! a) = Some BLOCKING /\
    kthread_cond_signal cid (enter cb b s1) = Ret 0 s2 /\
    state <$> (ptable s2 !! a) = Some RUNNABLE /\
    kthread_cond_wait_resume true (resumed cr a s2) = Ret 0 s3 /\
    rd (mtable s3) mid = Some mu3 /\ m_status mu3 = M_UNLOCKED /\ m_tid mu3 = threadId pa.
Proof.
  intros Ha Hcv Hemp Hmu Hst Htid Hq Hu Huniq Hbl.
  destruct (cond_one_waiter cv (threadId pa) mid Hemp) as (cv1 & cv2 & He & Hc1 & Hd & _ & Hmid).
  destruct (mutex_dequeue_refines (set_m_tid 0 (set_m_status M_UNLOCKED mu)) [])
    as (mu2 & Hde & _ & _ & E3 & _); [by eapply qrep_fields|unfold used in *; simpl; lia|].
  simpl in Hde, E3.
  assert (Hw0 : wake_tid 0 (ptable s) = ptable s) by by apply wake_tid_none.
  destruct (cond_wait_blocks s ca a pa cid mid cv cv1 mu 0 mu2) as [lg Hwait]; try done.
  { by destruct Hemp. }
  { unfold unlock_ok. by rewrite Htid, Hst, Z.eqb_refl. }
  { by rewrite Hw0. }
  rewrite Hw0 in Hwait. set (t1 := alter (set_state BLOCKING) a (ptable s)) in *.
  set (s1 := set_lks _ _) in Hwait.
  pose proof (wake_alone (ptable s) a pa Ha Huniq) as Hw. fold t1 in Hw.
  assert (Hsig := signal_wakes s1 cb b cid cv1 (threadId pa) cv2 mu2).
  unfold s1 at 1 2 4 5 6 in Hsig. ksimps. rewrite Hmid in Hsig.
  eexists s1, _, _, (set_m_tid (threadId pa) mu2). split_and!; [done|..].
  - unfold s1. ksimp. unfold t1. by rewrite (alter_same _ _ _ pa).
  - apply Hsig; [by eapply rd_insert_same|lia|done|by eapply rd_insert_same].
  - ksimp. by rewrite Hw.
  - unfold kthread_cond_wait_resume, resumed.
    erewrite bind_Ret by by apply sched_resume_busy. ksimp.
    by erewrite bind_Ret by (eapply release_l_busy1; [done|unfold PTABLE; lia]).
  - ksimp. by do 2 eapply rd_insert_same.
  - done.
  - done.
Qed.

End Handoff.

(** ** The properties at concrete states *)

(** Threads 7 (entry 1) and 8 (entry 2) of process 2; mutex 0 held by [owner]. *)
Definition sync_demo (owner : Z) : kst rworld :=
  set_ctable (<[0%nat := Cond C_USED (replicate 256 0) 0 0 0]>
                (replicate 64 (Cond 0 (replicate 256 0) 0 0 0)))
    (set_mtable (<[0%nat := Mutex owner (replicate 256 0) M_LOCKED 0 0]>
                   (replicate 64 (Mutex 0 (replicate 256 0) 0 0 0)))
      (demo 1 [user_proc 2 0x3000 0x4000 RUNNING (Some 0%nat) 7;
               user_proc 2 0x3000 0x6000 RUNNING (Some 0%nat) 8] 3)).

Lemma sync_demo_unique owner j q :
  ptable (sync_demo owner) !! j = Some q -> threadId q = 7 -> j = 1%nat.
Proof.
  do 3 (destruct j as [|j]; [by intros [= <-]|]). intros Hj.
  change (replicate 61 free_proc !! j = Some q) in Hj.
  by apply lookup_replicate in Hj as [-> _].
Qed.

Lemma sync_demo_none_blocked owner j q :
  ptable (sync_demo owner) !! j = Some q -> state q <> BLOCKING.
Proof.
  do 3 (destruct j as [|j]; [by intros [= <-]|]). intros Hj.
  change (replicate 61 free_proc !! j = Some q) in Hj.
  by apply lookup_replicate in Hj as [-> _].
Qed.

Lemma empty_qrep tid st : qrep (Mutex tid (replicate 256 0) st 0 0) [].
Proof. by eapply qrep_fields; [apply fresh_qrep|..]. Qed.

Lemma mutex_handoff_witness :
  exists s1 s2 s3, kthread_mutex_lock 0 (enter 0 1 (sync_demo 8)) = Sched s1 /\
    kthread_mutex_unlock 0 (enter 1 2 s1) = Ret 0 s2 /\
    kthread_mutex_lock_resume true 0 (resumed 0 1 s2) = Ret 0 s3.
Proof.
  edestruct (mutex_handoff (W := rworld)) with (s := sync_demo 8) (ca := 0%nat) (cb := 1%nat)
    (cr := 0%nat) (a := 1%nat) (b := 2%nat) (id := 0)
    as (s1 & s2 & s3 & mu3 & H1 & _ & H2 & _ & H3 & _).
  all: side.
  { apply empty_qrep. }
  { intros j q. apply sync_demo_unique. }
  exists s1, s2, s3. split_and!; done.
Defined.

Lemma mutex_lost_wakeup_witness :
  exists s1 s2 s3, mutex_lock_enter 0 (enter 0 1 (sync_demo 8)) = Ret None s1 /\
    kthread_mutex_unlock 0 (enter 1 2 s1) = Ret 0 s2 /\
    block (enter 0 1 s2) = Sched s3 /\ state <$> (ptable s3 !! 1%nat) = Some BLOCKING.
Proof.
  edestruct (mutex_lost_wakeup (W := rworld)) with (s := sync_demo 8) (ca := 0%nat)
    (cb := 1%nat) (a := 1%nat) (b := 2%nat) (id := 0)
    as (s1 & s2 & s3 & mu3 & H1 & H2 & H3 & H4 & _).
  all: side.
  { apply empty_qrep. }
  { intros j q. apply sync_demo_unique. }
  exists s1, s2, s3. split_and!; done.
Defined.

Lemma cond_wait_signal_witness :
  exists s1 s2 s3 mu3, kthread_cond_wait 0 0 (enter 0 1 (sync_demo 7)) = Sched s1 /\
    kthread_cond_signal 0 (enter 1 2 s1) = Ret 0 s2 /\
    kthread_cond_wait_resume true (resumed 0 1 s2) = Ret 0 s3 /\
    rd (mtable s3) 0 = Some mu3 /\ m_status mu3 = M_UNLOCKED.
Proof.
  edestruct (cond_wait_signal (W := rworld)) with (s := sync_demo 7) (ca := 0%nat)
    (cb := 1%nat) (cr := 0%nat) (a := 1%nat) (b := 2%nat) (cid := 0) (mid := 0)
    (cv := Cond C_USED (replicate 256 0) 0 0 0)
    (pa := user_proc 2 0x3000 0x4000 RUNNING (Some 0%nat) 7)
    (mu := Mutex 7 (replicate 256 0) M_LOCKED 0 0)
    as (s1 & s2 & s3 & mu3 & H1 & _ & H2 & _ & H3 & H4 & H5 & _).
  all: side.
  { unfold cond_empty. simpl. split_and!; (reflexivity || lia). }
  { apply empty_qrep. }
  { intros j q. apply sync_demo_unique. }
  { intros j q Hj Hb. by destruct (sync_demo_none_blocked 7 j q Hj). }
  exists s1, s2, s3, mu3. split_and!; done.
Defined.

(** No mutex in use. *)
Definition sync_start : kst rworld :=
  demo 1 [user_proc 2 0x3000 0x4000 RUNNING (Some 0%nat) 7] 3.

Lemma sync_start_unused i m0 :
  rd (mtable sync_start) i = Some m0 -> m_status m0 = M_UNUSED.
Proof.
  intros [_ Hl]%rd_Some. change (mtable sync_start)
    with (replicate 64 (Mutex 0 (replicate 256 0) 0 0 0)) in Hl.
  by apply lookup_replicate in Hl as [-> _].
Qed.

Lemma mutex_mutual_exclusion_witness :
  exists s mu, sync_run sync_start [ELock 0] s /\ rd (mtable s) 0 = Some mu /\
    outstanding 0 [ELock 0] = if m_status mu =? M_LOCKED then 1 else 0.
Proof.
  assert (exists s, sync_run sync_start [ELock 0] s /\
    rd (mtable s) 0 = Some (Mutex 7 (replicate 256 0) M_LOCKED 0 0)) as (s & Hr & Hm).
  { eexists. split.
    - eapply (run_step _ ([] ++ []) _ [ELock 0]); [eapply run_step; [apply run_nil|]|].
      + eapply (st_alloc _ 0 1). vm_compute. reflexivity.
      + apply (st_lock _ 0 1 0 (Some 0)). vm_compute. reflexivity.
    - vm_compute. reflexivity. }
  eexists s, _. split_and!; [exact Hr|exact Hm|].
  exact (mutex_mutual_exclusion (W := rworld) sync_start [ELock 0] s 0 _
           sync_start_unused Hr Hm).
Defined.
