(* ===== verification/Uthread.v ===== *)
(** * User-level threads (uthread.c, uthread.h)

    The thread table, the two schedulers (round robin, and round robin within
    the best priority) and the thread operations.  [thread] is the index of the
    running thread.  A switch of stacks ends an operation with an [action]: the
    new thread's first call, a return on the loaded stack, or the exit of the
    process.  malloc and free are reached through [UAlloc]; Umalloc.v has the
    code. *)
From S2P Require Import Prelude.

Definition MAX_UTHREADS : Z := 64.
Definition STACK_SIZE : Z := 4096.
Definition PRIORITIES : Z := 10.
Definition SCHED_RR : Z := 0.
Definition SCHED_PB : Z := 1.

Record uthread_t := UThread {
  tid : Z;
  ss_sp : Z;
  ss_bp : Z;
  stack_aloc : Z;
  ss_size : Z;
  priority : Z;
  start_func : Z;
  firstRun : Z
}.

Definition set_tid (v : Z) (r : uthread_t) : uthread_t :=
  UThread v (ss_sp r) (ss_bp r) (stack_aloc r) (ss_size r) (priority r)
    (start_func r) (firstRun r).
Definition set_ss_sp (v : Z) (r : uthread_t) : uthread_t :=
  UThread (tid r) v (ss_bp r) (stack_aloc r) (ss_size r) (priority r)
    (start_func r) (firstRun r).
Definition set_ss_bp (v : Z) (r : uthread_t) : uthread_t :=
  UThread (tid r) (ss_sp r) v (stack_aloc r) (ss_size r) (priority r)
    (start_func r) (firstRun r).
Definition set_stack_aloc (v : Z) (r : uthread_t) : uthread_t :=
  UThread (tid r) (ss_sp r) (ss_bp r) v (ss_size r) (priority r)
    (start_func r) (firstRun r).
Definition set_ss_size (v : Z) (r : uthread_t) : uthread_t :=
  UThread (tid r) (ss_sp r) (ss_bp r) (stack_aloc r) v (priority r)
    (start_func r) (firstRun r).
Definition set_priority (v : Z) (r : uthread_t) : uthread_t :=
  UThread (tid r) (ss_sp r) (ss_bp r) (stack_aloc r) (ss_size r) v
    (start_func r) (firstRun r).
Definition set_start_func (v : Z) (r : uthread_t) : uthread_t :=
  UThread (tid r) (ss_sp r) (ss_bp r) (stack_aloc r) (ss_size r) (priority r)
    v (firstRun r).
Definition set_firstRun (v : Z) (r : uthread_t) : uthread_t :=
  UThread (tid r) (ss_sp r) (ss_bp r) (stack_aloc r) (ss_size r) (priority r)
    (start_func r) v.

Record ust (W : Type) := Ust {
  SCHED_POLICY : Z;
  PB_RR_INDEXES : list Z;
  RR_INDEX : Z;
  thread : option Z;
  next_tid : Z;
  threads : list uthread_t;
  numberOfCT : Z;
  esp : Z;
  ebp : Z;
  uworld : W
}.
Arguments Ust {W}.
Arguments SCHED_POLICY {W}.
Arguments PB_RR_INDEXES {W}.
Arguments RR_INDEX {W}.
Arguments thread {W}.
Arguments next_tid {W}.
Arguments threads {W}.
Arguments numberOfCT {W}.
Arguments esp {W}.
Arguments ebp {W}.
Arguments uworld {W}.

Definition set_SCHED_POLICY {W} (v : Z) (r : ust W) : ust W :=
  Ust v (PB_RR_INDEXES r) (RR_INDEX r) (thread r) (next_tid r) (threads r)
    (numberOfCT r) (esp r) (ebp r) (uworld r).
Definition set_PB_RR_INDEXES {W} (v : list Z) (r : ust W) : ust W :=
  Ust (SCHED_POLICY r) v (RR_INDEX r) (thread r) (next_tid r) (threads r)
    (numberOfCT r) (esp r) (ebp r) (uworld r).
Definition set_RR_INDEX {W} (v : Z) (r : ust W) : ust W :=
  Ust (SCHED_POLICY r) (PB_RR_INDEXES r) v (thread r) (next_tid r) (threads r)
    (numberOfCT r) (esp r) (ebp r) (uworld r).
Definition set_thread {W} (v : option Z) (r : ust W) : ust W :=
  Ust (SCHED_POLICY r) (PB_RR_INDEXES r) (RR_INDEX r) v (next_tid r)
    (threads r) (numberOfCT r) (esp r) (ebp r) (uworld r).
Definition set_next_tid {W} (v : Z) (r : ust W) : ust W :=
  Ust (SCHED_POLICY r) (PB_RR_INDEXES r) (RR_INDEX r) (thread r) v (threads r)
    (numberOfCT r) (esp r) (ebp r) (uworld r).
Definition set_threads {W} (v : list uthread_t) (r : ust W) : ust W :=
  Ust (SCHED_POLICY r) (PB_RR_INDEXES r) (RR_INDEX r) (thread r) (next_tid r)
    v (numberOfCT r) (esp r) (ebp r) (uworld r).
Definition set_numberOfCT {W} (v : Z) (r : ust W) : ust W :=
  Ust (SCHED_POLICY r) (PB_RR_INDEXES r) (RR_INDEX r) (thread r) (next_tid r)
    (threads r) v (esp r) (ebp r) (uworld r).
Definition set_esp {W} (v : Z) (r : ust W) : ust W :=
  Ust (SCHED_POLICY r) (PB_RR_INDEXES r) (RR_INDEX r) (thread r) (next_tid r)
    (threads r) (numberOfCT r) v (ebp r) (uworld r).
Definition set_ebp {W} (v : Z) (r : ust W) : ust W :=
  Ust (SCHED_POLICY r) (PB_RR_INDEXES r) (RR_INDEX r) (thread r) (next_tid r)
    (threads r) (numberOfCT r) (esp r) v (uworld r).
Definition set_uworld {W} (v : W) (r : ust W) : ust W :=
  Ust (SCHED_POLICY r) (PB_RR_INDEXES r) (RR_INDEX r) (thread r) (next_tid r)
    (threads r) (numberOfCT r) (esp r) (ebp r) v.

Class UAlloc (W : Type) := {
  malloc : Z -> M W Z;
  free : Z -> M W unit
}.

(** Where control goes at the end of an operation. *)
Inductive action :=
| Wrap (start_func : Z)   (* wrap_function(start_func) *)
| Back                    (* return, on the stack just loaded *)
| ProcExit.               (* exit() *)

(** The static initializers: only the first index is -1. *)
Definition ust_init {W} (policy sp bp : Z) (w : W) : ust W :=
  Ust policy (-1 :: replicate 9 0) (-1) None 1
    (replicate 64 (UThread 0 0 0 0 0 0 0 0)) 0 sp bp w.

Section Ops.
Context {W : Type} `{UAlloc W}.

Abbreviation U := (M (ust W)).

Definition get_thread (i : Z) : U uthread_t := gets_opt (fun s => rd (threads s) i).
Definition upd_thread (i : Z) (f : uthread_t -> uthread_t) : U unit :=
  modify_opt (fun s => t ← rd (threads s) i; (fun ts => set_threads ts s) <$> wr (threads s) i (f t)).
Definition cur_thread : U Z := gets_opt thread.

(** The loop shared by the schedulers: from [i], the first slot that is wanted
    or equal to [last].  64 rounds visit every slot; a scan that has not
    stopped by then never does. *)
Fixpoint scan (fuel : nat) (wanted : uthread_t -> bool) (i last : Z) : U Z :=
  match fuel with
  | O => hang
  | S fuel =>
      if i =? last then ret i else
      t <~ get_thread i;;;
      if wanted t then ret i
      else scan fuel wanted (Z.rem (i + 1) MAX_UTHREADS) last
  end.

Definition in_use (t : uthread_t) : bool := negb (tid t =? 0).
Definition in_priority (p : Z) (t : uthread_t) : bool := in_use t && (priority t =? p).

Definition getNextRoundRobin : U Z :=
  last <~ gets RR_INDEX;;;
  i <~ scan 64 in_use (Z.rem (last + 1) MAX_UTHREADS) last;;;
  modify (set_RR_INDEX i);;;
  ret i.

Definition getNumberOfCurrentThreads : U Z := gets numberOfCT.

Definition getNumberOfThreadInPrioirity (p : Z) : U Z :=
  gets (fun s => Z.of_nat (length (filter (fun t => in_priority p t = true) (threads s)))).

Fixpoint pb_loop (ps : list Z) : U Z :=
  match ps with
  | [] => ret (-1)
  | p :: ps =>
      n <~ getNumberOfThreadInPrioirity p;;;
      if n =? 0 then pb_loop ps else
      last <~ gets_opt (fun s => rd (PB_RR_INDEXES s) p);;;
      i <~ scan 64 (in_priority p) (Z.rem (last + 1) MAX_UTHREADS) last;;;
      modify_opt (fun s => (fun l => set_PB_RR_INDEXES l s) <$> wr (PB_RR_INDEXES s) p i);;;
      ret i
  end.

Definition getNextPB : U Z := pb_loop (seqZ 0 PRIORITIES).

(** The scheduling policy. *)
Definition next_to_run : U Z :=
  pol <~ gets SCHED_POLICY;;;
  if pol =? SCHED_RR then getNextRoundRobin
  else if pol =? SCHED_PB then getNextPB
  else ret (-1).

Definition freeThread (ti : Z) : U unit :=
  modify (fun s => set_numberOfCT (s32 (numberOfCT s - 1)) s);;;
  t <~ get_thread ti;;;
  ts <~ gets threads;;;
  match find_first (fun x => tid t =? tid x) ts with
  | Some i =>
      zoom uworld set_uworld (free (stack_aloc t));;;
      upd_thread (Z.of_nat i) (set_tid 0);;;
      upd_thread (Z.of_nat i) (set_priority PRIORITIES)
  | None => ret tt
  end.

Definition uthread_create (start : Z) (prio : Z) : U Z :=
  ts <~ gets threads;;;
  match find_first (fun x => tid x =? 0) ts with
  | Some k =>
      let i := Z.of_nat k in
      n <~ gets next_tid;;;
      upd_thread i (set_tid n);;;
      modify (fun s => set_next_tid (s32 (next_tid s + 1)) s);;;
      stack_bp <~ zoom uworld set_uworld (malloc STACK_SIZE);;;
      upd_thread i (set_stack_aloc stack_bp);;;
      upd_thread i (set_ss_bp (u32 (stack_bp + STACK_SIZE - 4)));;;
      upd_thread i (set_ss_sp (u32 (stack_bp + STACK_SIZE - 4)));;;
      upd_thread i (set_ss_size STACK_SIZE);;;
      upd_thread i (set_priority prio);;;
      upd_thread i (set_start_func start);;;
      upd_thread i (set_firstRun 1);;;
      modify (fun s => set_numberOfCT (s32 (numberOfCT s + 1)) s);;;
      t <~ get_thread i;;;
      ret (tid t)
  | None => ret (-1)
  end.

(** thread = &threads[i]: forming the address of an element that does not
    exist is already undefined. *)
Definition set_running (i : Z) : U unit :=
  get_thread i;;;
  modify (set_thread (Some i)).

Definition load_stack (i : Z) : U unit :=
  t <~ get_thread i;;;
  modify (set_ebp (ss_bp t));;;
  modify (set_esp (ss_sp t)).

(** Start a thread that never ran; otherwise return. *)
Definition first_run (i : Z) : U action :=
  t <~ get_thread i;;;
  if firstRun t =? 1 then upd_thread i (set_firstRun 0);;; ret (Wrap (start_func t))
  else ret Back.

Definition uthread_yield : U action :=
  me <~ cur_thread;;;
  b <~ gets ebp;;;
  upd_thread me (set_ss_bp b);;;
  p <~ gets esp;;;
  upd_thread me (set_ss_sp p);;;
  i <~ next_to_run;;;
  set_running i;;;
  load_stack i;;;
  first_run i.

Definition uthread_exit : U action :=
  n <~ getNumberOfCurrentThreads;;;
  me <~ cur_thread;;;
  if n =? 1 then freeThread me;;; ret ProcExit
  else
    freeThread me;;;
    i <~ next_to_run;;;
    set_running i;;;
    load_stack i;;;
    first_run i.

(** The first thread runs on the caller's stack. *)
Definition uthread_start_all : U action :=
  i <~ next_to_run;;;
  set_running i;;;
  a <~ first_run i;;;
  match a with
  | Back => load_stack i;;; ret Back
  | _ => ret a
  end.

Definition uthread_setpr (p : Z) : U Z :=
  if (0 <=? p) && (p <=? 9) then
    me <~ cur_thread;;;
    t <~ get_thread me;;;
    upd_thread me (set_priority p);;;
    ret (priority t)
  else ret (-1).

Definition uthread_getpr : U Z := me <~ cur_thread;;; t <~ get_thread me;;; ret (priority t).
Definition uthread_self : U uthread_t := me <~ cur_thread;;; get_thread me.

(** What [printALL] prints: tid and priority of the first [k] slots. *)
Definition printALL (k : Z) : U (list (Z * Z)) :=
  gets_opt (fun s => mapM (fun i => (fun t => (tid t, priority t)) <$> rd (threads s) i)
                       (seqZ 0 k)).

End Ops.

(** ** The schedulers *)

(** Slots in the order in which a scan that last stopped at [last] visits
    them. *)
Definition slot_after (last : Z) (d : nat) : Z := (last + 1 + Z.of_nat d) mod 64.

Definition wanted_at (wanted : uthread_t -> bool) (ts : list uthread_t) (i : Z) : bool :=
  match rd ts i with Some t => wanted t | None => false end.

Definition next_slot (wanted : uthread_t -> bool) (ts : list uthread_t) (last : Z) : option Z :=
  slot_after last <$>
    find_first (fun d => wanted_at wanted ts (slot_after last d) || (slot_after last d =? last))
      (seq 0 64).

Lemma slot_after_range last d : 0 <= slot_after last d < 64.
Proof. apply Z.mod_pos_bound. lia. Qed.

Lemma slot_after_S last d :
  slot_after last (S d) = Z.rem (slot_after last d + 1) MAX_UTHREADS.
Proof.
  pose proof (slot_after_range last d). unfold MAX_UTHREADS.
  rewrite Z.rem_mod_nonneg by lia. unfold slot_after. rewrite Zplus_mod_idemp_l. f_equal. lia.
Qed.

Lemma slot_after_0 last : -1 <= last -> slot_after last 0 = Z.rem (last + 1) MAX_UTHREADS.
Proof.
  intros Hl. unfold slot_after, MAX_UTHREADS. rewrite Z.rem_mod_nonneg by lia. f_equal. lia.
Qed.

Section Sched.
Context {W : Type} `{UAlloc W}.
Implicit Types s : ust W.

Lemma scan_run_from wanted last s d n :
  length (threads s) = 64%nat ->
  scan n wanted (slot_after last d) last s =
  match find_first (fun d => wanted_at wanted (threads s) (slot_after last d) ||
                             (slot_after last d =? last)) (seq d n) with
  | Some k => Ret (slot_after last (d + k)) s
  | None => Hang
  end.
Proof.
  intros Hlen. revert d. induction n as [|n IH]; intros d; [done|]. simpl.
  pose proof (slot_after_range last d) as Hr.
  destruct (rd_in_range (threads s) (slot_after last d)) as [t Ht]; [lia|].
  destruct (slot_after last d =? last) eqn:E.
  - rewrite orb_true_r, Nat.add_0_r. done.
  - unfold get_thread. erewrite bind_gets_opt by done. unfold wanted_at at 1. rewrite Ht, orb_false_r.
    destruct (wanted t); [by rewrite Nat.add_0_r|].
    rewrite <- slot_after_S, IH. destruct (find_first _ _); [|done]. simpl.
    by rewrite Nat.add_succ_r.
Qed.

Lemma scan_run wanted last s :
  length (threads s) = 64%nat -> -1 <= last ->
  scan 64 wanted (Z.rem (last + 1) MAX_UTHREADS) last s =
  match next_slot wanted (threads s) last with Some i => Ret i s | None => Hang end.
Proof.
  intros Hlen Hl. rewrite <- slot_after_0 by done. rewrite scan_run_from by done.
  unfold next_slot. by destruct (find_first _ _).
Qed.

(** The slot at a given distance. *)
Lemma slot_after_reach last i :
  -1 <= last < 64 -> 0 <= i < 64 -> exists d, (d < 64)%nat /\ slot_after last d = i.
Proof.
  intros Hl Hi. exists (Z.to_nat ((i - last - 1) mod 64)).
  pose proof (Z.mod_pos_bound (i - last - 1) 64). split; [lia|].
  unfold slot_after. rewrite Z2Nat.id, Zplus_mod_idemp_r by lia.
  replace (last + 1 + (i - last - 1)) with i by lia. apply Z.mod_small. lia.
Qed.

Lemma next_slot_Some wanted ts last i :
  next_slot wanted ts last = Some i ->
  0 <= i < 64 /\ exists d, (d < 64)%nat /\ i = slot_after last d /\
    (wanted_at wanted ts i = true \/ i = last) /\
    forall d', (d' < d)%nat ->
      wanted_at wanted ts (slot_after last d') = false /\ slot_after last d' <> last.
Proof.
  unfold next_slot. destruct (find_first _ _) as [k|] eqn:Hf; [|done]. intros [= <-].
  apply find_first_Some in Hf as [(d & Hd & Hp) Hmin]. apply lookup_seq in Hd as [-> Hk].
  split; [apply slot_after_range|]. exists k. split_and!; [lia|done| |].
  - apply orb_true_iff in Hp as [?|?%Z.eqb_eq]; [by left|by right].
  - intros d' Hd'. specialize (Hmin d' d' Hd'). rewrite lookup_seq_lt in Hmin by lia.
    specialize (Hmin eq_refl). apply orb_false_iff in Hmin as [? ?%Z.eqb_neq]. done.
Qed.

Lemma next_slot_wanted wanted ts last j :
  -1 <= last < 64 -> 0 <= j < 64 -> wanted_at wanted ts j = true ->
  exists i d, next_slot wanted ts last = Some i /\ 0 <= i < 64 /\
    wanted_at wanted ts i = true /\ (d < 64)%nat /\ i = slot_after last d /\
    forall d', (d' < d)%nat -> wanted_at wanted ts (slot_after last d') = false.
Proof.
  intros Hl Hj Hw. destruct (next_slot wanted ts last) as [i|] eqn:Hn.
  - apply next_slot_Some in Hn as (Hi & d & Hd & -> & Hor & Hmin). eexists _, d.
    split_and!; [done|lia|lia| |done|done|by apply Hmin].
    destruct (wanted_at wanted ts (slot_after last d)) eqn:E; [done|].
    destruct Hor as [?|Heq]; [done|]. exfalso.
    destruct (slot_after_reach last j Hl Hj) as (dj & Hdj & Hsj).
    destruct (decide (dj < d)%nat) as [Hlt|Hge].
    + destruct (Hmin dj Hlt) as [Hno _]. rewrite Hsj in Hno. congruence.
    + assert (dj <> d) by (intros ->; congruence).
      assert (d = 63)%nat; [|lia].
      unfold slot_after in Heq. rewrite (Z.mod_eq (last + 1 + Z.of_nat d) 64) in Heq by lia.
      pose proof (Z.div_le_mono (last + 1 + Z.of_nat d) 127 64).
      pose proof (Z.div_le_mono 0 (last + 1 + Z.of_nat d) 64). lia.
  - exfalso. unfold next_slot in Hn. destruct (find_first _ _) as [|] eqn:Hf; [done|].
    destruct (slot_after_reach last j Hl Hj) as (dj & Hdj & Hsj).
    pose proof (proj1 (find_first_None _ _) Hf dj) as Hno. rewrite elem_of_seq in Hno.
    specialize (Hno ltac:(lia)). simpl in Hno. rewrite Hsj, Hw in Hno. done.
Qed.

(** The round-robin scheduler returns, and remembers, the next slot in use
    after the last one in cyclic order, when any slot is in use. *)
Theorem getNextRoundRobin_spec s j :
  length (threads s) = 64%nat -> -1 <= RR_INDEX s < 64 ->
  0 <= j < 64 -> wanted_at in_use (threads s) j = true ->
  exists i d, getNextRoundRobin s = Ret i (set_RR_INDEX i s) /\
    0 <= i < 64 /\ wanted_at in_use (threads s) i = true /\
    (d < 64)%nat /\ i = slot_after (RR_INDEX s) d /\
    forall d', (d' < d)%nat -> wanted_at in_use (threads s) (slot_after (RR_INDEX s) d') = false.
Proof.
  intros Hlen Hrr Hj Hw.
  destruct (next_slot_wanted in_use (threads s) (RR_INDEX s) j Hrr Hj Hw)
    as (i & d & Hn & Hi & Hwi & Hd & Hid & Hmin).
  exists i, d. split_and!; try done; try lia.
  unfold getNextRoundRobin. mrun. unfold bind at 1.
  rewrite scan_run, Hn by (done || lia). done.
Qed.

(** On an empty table the first round-robin choice never returns. *)
Theorem getNextRoundRobin_hangs s :
  length (threads s) = 64%nat -> RR_INDEX s = -1 ->
  (forall i, wanted_at in_use (threads s) i = false) ->
  getNextRoundRobin s = Hang.
Proof.
  intros Hlen Hrr Hno. unfold getNextRoundRobin. mrun. unfold bind.
  rewrite scan_run by (done || lia).
  destruct (next_slot _ _ _) as [i|] eqn:Hn; [|done].
  apply next_slot_Some in Hn as (Hi & d & _ & _ & [Hw|Hl] & _); [|lia].
  by rewrite Hno in Hw.
Qed.

(** *** Priorities *)

Definition has_priority (ts : list uthread_t) (p : Z) : bool := existsb (in_priority p) ts.

(** The best (smallest) priority of a thread in use. *)
Definition best_priority (ts : list uthread_t) : option Z :=
  match find_first (has_priority ts) (seqZ 0 PRIORITIES) with
  | Some k => Some (Z.of_nat k)
  | None => None
  end.

Lemma count_priority ts p :
  (Z.of_nat (length (filter (fun t => in_priority p t = true) ts)) =? 0) =
  negb (has_priority ts p).
Proof.
  unfold has_priority. induction ts as [|t ts IH]; [done|].
  rewrite filter_cons. simpl. destruct (in_priority p t) eqn:E.
  - rewrite decide_True by done. simpl. lia.
  - by rewrite decide_False by congruence.
Qed.

Lemma pb_loop_run s k n :
  length (threads s) = 64%nat -> length (PB_RR_INDEXES s) = 10%nat ->
  Forall (fun i => -1 <= i < 64) (PB_RR_INDEXES s) ->
  (k + n = 10)%nat ->
  pb_loop (Z.of_nat <$> seq k n) s =
  match find_first (has_priority (threads s)) (Z.of_nat <$> seq k n) with
  | None => Ret (-1) s
  | Some j =>
      let p := Z.of_nat (k + j) in
      match next_slot (in_priority p) (threads s)
              (default 0 (rd (PB_RR_INDEXES s) p)) with
      | Some i => Ret i (set_PB_RR_INDEXES (<[(k + j)%nat := i]> (PB_RR_INDEXES s)) s)
      | None => Hang
      end
  end.
Proof.
  intros Hlen Hpb Hrange. revert k. induction n as [|n IH]; intros k Hk; [done|].
  rewrite <- cons_seq, fmap_cons. cbn [pb_loop find_first].
  unfold getNumberOfThreadInPrioirity. mrun. rewrite count_priority.
  destruct (has_priority (threads s) (Z.of_nat k)) eqn:Hp; cbn [negb]; cbn iota.
  - destruct (rd_in_range (PB_RR_INDEXES s) (Z.of_nat k)) as [last Hl]; [lia|].
    rewrite Nat.add_0_r. erewrite bind_gets_opt by done. cbv zeta. rewrite Hl. simpl default.
    pose proof (rd_Some _ _ _ Hl) as [_ Hlk]. rewrite Nat2Z.id in Hlk.
    pose proof (Forall_lookup_1 _ _ _ _ Hrange Hlk) as Hb. simpl in Hb.
    unfold bind at 1. rewrite scan_run by (done || lia).
    destruct (next_slot _ _ _) as [i|]; [|done]. unfold bind, modify_opt, wr.
    rewrite decide_True by lia. simpl. by rewrite Nat2Z.id.
  - rewrite IH by lia. destruct (find_first _ _) as [j|]; [|done]. cbv zeta. simpl.
    by rewrite Nat.add_succ_r.
Qed.

Lemma seqZ_priorities : seqZ 0 PRIORITIES = Z.of_nat <$> seq 0 10.
Proof. by vm_compute. Qed.

Definition pb_ok s : Prop :=
  length (threads s) = 64%nat /\ length (PB_RR_INDEXES s) = 10%nat /\
  Forall (fun i => -1 <= i < 64) (PB_RR_INDEXES s).

Lemma getNextPB_run s :
  pb_ok s ->
  getNextPB s =
  match best_priority (threads s) with
  | None => Ret (-1) s
  | Some p =>
      match next_slot (in_priority p) (threads s)
              (default 0 (rd (PB_RR_INDEXES s) p)) with
      | Some i => Ret i (set_PB_RR_INDEXES (<[Z.to_nat p := i]> (PB_RR_INDEXES s)) s)
      | None => Hang
      end
  end.
Proof.
  intros (H1 & H2 & H3). unfold getNextPB, best_priority.
  rewrite seqZ_priorities, pb_loop_run by done. destruct (find_first _ _); [|done].
  cbv zeta. by rewrite Nat2Z.id.
Qed.

Lemma best_priority_Some ts p :
  best_priority ts = Some p ->
  0 <= p < 10 /\ has_priority ts p = true /\
  forall q, 0 <= q < p -> has_priority ts q = false.
Proof.
  unfold best_priority. destruct (find_first _ _) as [k|] eqn:Hf; [|done]. intros [= <-].
  apply find_first_Some in Hf as [(p & Hk & Hp) Hmin].
  apply lookup_seqZ in Hk as [-> Hk]. rewrite Z.add_0_l in Hp. unfold PRIORITIES in Hk.
  split_and!; [lia|lia|done|]. intros q Hq. apply (Hmin (Z.to_nat q)); [lia|].
  apply lookup_seqZ. unfold PRIORITIES. lia.
Qed.

Lemma has_priority_slot ts p :
  length ts = 64%nat -> has_priority ts p = true ->
  exists j, 0 <= j < 64 /\ wanted_at (in_priority p) ts j = true.
Proof.
  intros Hlen Hp. apply existsb_exists in Hp as (t & Hin & Ht).
  apply list_elem_of_In, list_elem_of_lookup_1 in Hin as [k Hk].
  pose proof (lookup_lt_Some _ _ _ Hk). exists (Z.of_nat k). split; [lia|].
  unfold wanted_at, rd. rewrite decide_True, Nat2Z.id by lia. by rewrite Hk.
Qed.

Lemma has_priority_intro ts p j :
  wanted_at (in_priority p) ts j = true -> has_priority ts p = true.
Proof.
  unfold wanted_at. destruct (rd ts j) as [t|] eqn:Hr; [|done]. intros Ht.
  apply rd_Some in Hr as [_ Hr]. apply existsb_exists. exists t. split; [|done].
  apply list_elem_of_In. by eapply list_elem_of_lookup_2.
Qed.

Lemma pb_last s p : pb_ok s -> 0 <= p < 10 ->
  exists last, rd (PB_RR_INDEXES s) p = Some last /\ -1 <= last < 64.
Proof.
  intros (_ & Hlen & Hall) Hp.
  destruct (rd_in_range (PB_RR_INDEXES s) p) as [last Hl]; [lia|]. exists last.
  split; [done|]. apply rd_Some in Hl as [_ Hl]. by apply (Forall_lookup_1 _ _ _ _ Hall Hl).
Qed.

(** The priority scheduler chooses a thread of the best priority that any
    thread has, the next one in cyclic order after that priority's last
    choice, and remembers it; it returns -1 when no thread has a priority from
    0 to 9. *)
Theorem getNextPB_spec s :
  pb_ok s ->
  match best_priority (threads s) with
  | None => getNextPB s = Ret (-1) s
  | Some p => exists last i d,
      rd (PB_RR_INDEXES s) p = Some last /\
      getNextPB s = Ret i (set_PB_RR_INDEXES (<[Z.to_nat p := i]> (PB_RR_INDEXES s)) s) /\
      0 <= i < 64 /\ wanted_at (in_priority p) (threads s) i = true /\
      (forall q, 0 <= q < p -> has_priority (threads s) q = false) /\
      (d < 64)%nat /\ i = slot_after last d /\
      forall d', (d' < d)%nat ->
        wanted_at (in_priority p) (threads s) (slot_after last d') = false
  end.
Proof.
  intros Hok. rewrite getNextPB_run by done.
  destruct (best_priority (threads s)) as [p|] eqn:Hb; [|done].
  apply best_priority_Some in Hb as (Hp & Hhas & Hbest).
  destruct (pb_last s p Hok Hp) as (last & Hl & Hr). rewrite Hl. simpl default.
  destruct (has_priority_slot _ _ (proj1 Hok) Hhas) as (j & Hj & Hw).
  destruct (next_slot_wanted _ _ last j Hr Hj Hw) as (i & d & -> & Hi & Hwi & Hd & Hid & Hmin).
  exists last, i, d. split_and!; try done; lia.
Qed.

(** Successive choices of the scheduler. *)
Fixpoint pb_calls (n : nat) : M (ust W) (list Z) :=
  match n with
  | O => ret []
  | S n => i <~ getNextPB;;; l <~ pb_calls n;;; ret (i :: l)
  end.

Lemma slot_after_after last d e :
  slot_after (slot_after last d) e = slot_after last (d + S e).
Proof.
  unfold slot_after. rewrite <- Zplus_assoc, Zplus_mod_idemp_l. f_equal. lia.
Qed.

Lemma pb_reaches p D s last :
  pb_ok s -> best_priority (threads s) = Some p -> rd (PB_RR_INDEXES s) p = Some last ->
  (D < 64)%nat -> wanted_at (in_priority p) (threads s) (slot_after last D) = true ->
  exists n l s', (n <= S D)%nat /\ pb_calls n s = Ret l s' /\ slot_after last D ∈ l.
Proof.
  revert s last. induction (lt_wf D) as [D _ IH]. intros s last Hok Hb Hl HD Hw.
  pose proof (best_priority_Some _ _ Hb) as (Hp & _).
  destruct (pb_last s p Hok Hp) as (last' & Hl' & Hr).
  assert (last' = last) as -> by congruence.
  destruct (next_slot_wanted _ _ last _ Hr (slot_after_range last D) Hw)
    as (i & d & Hn & Hi & Hwi & Hd & Hid & Hmin).
  assert (HdD : (d <= D)%nat).
  { destruct (decide (d <= D)%nat); [done|]. rewrite Hmin in Hw by lia. done. }
  pose proof (getNextPB_run s Hok) as Hrun. rewrite Hb, Hl in Hrun. simpl default in Hrun.
  rewrite Hn in Hrun.
  destruct (decide (d = D)) as [->|Hne].
  - eexists 1%nat, [i], _. split_and!; [lia| |rewrite Hid; left].
    simpl. unfold bind. by rewrite Hrun.
  - set (s1 := set_PB_RR_INDEXES _ s) in *.
    destruct (IH (D - d - 1)%nat ltac:(lia) s1 i) as (n & l & s' & Hn' & Hrun' & Hin).
    + destruct Hok as (H1 & H2 & H3). split_and!; simpl; [done|by rewrite length_insert|].
      apply Forall_insert; [done|lia].
    + done.
    + unfold s1. simpl. unfold rd. rewrite decide_True by lia.
      apply list_lookup_insert_eq. destruct Hok as (_ & H2 & _). lia.
    + lia.
    + rewrite Hid, slot_after_after. replace (d + S (D - d - 1))%nat with D by lia. done.
    + exists (S n), (i :: l), s'. split_and!; [lia| |].
      * simpl. unfold bind at 1. rewrite Hrun. unfold bind. by rewrite Hrun'.
      * right. rewrite Hid, slot_after_after in Hin.
        by replace (d + S (D - d - 1))%nat with D in Hin by lia.
Qed.

(** C30: no starvation.  While the thread table does not change, every thread of
    the best priority is chosen within 64 calls of the priority scheduler. *)
Theorem pb_no_starvation s p j :
  pb_ok s -> best_priority (threads s) = Some p ->
  0 <= j < 64 -> wanted_at (in_priority p) (threads s) j = true ->
  exists n l s', (n <= 64)%nat /\ pb_calls n s = Ret l s' /\ j ∈ l.
Proof.
  intros Hok Hb Hj Hw. pose proof (best_priority_Some _ _ Hb) as (Hp & _).
  destruct (pb_last s p Hok Hp) as (last & Hl & Hr).
  destruct (slot_after_reach last j Hr Hj) as (D & HD & <-).
  destruct (pb_reaches p D s last) as (n & l & s' & Hn & Hrun & Hin); try done.
  exists n, l, s'. split_and!; [lia|done|done].
Qed.

End Sched.

(** ** The thread table *)

Section Table.
Context {W : Type} `{UAlloc W}.
Implicit Types s : ust W.

(** Slots in use. *)
Definition live (ts : list uthread_t) : Z :=
  Z.of_nat (length (filter (fun t => in_use t = true) ts)).

(** The invariant of the thread table. *)
Record uwf s : Prop := {
  u_pb : pb_ok s;
  u_rr : -1 <= RR_INDEX s < 64;
  u_next : 0 < next_tid s < 2 ^ 31;
  u_tid : forall i t, threads s !! i = Some t -> 0 <= tid t < next_tid s;
  u_uniq : forall i j t u, threads s !! i = Some t -> threads s !! j = Some u ->
    tid t = tid u -> tid t <> 0 -> i = j;
  u_live : numberOfCT s = live (threads s)
}.

Lemma live_insert ts k t t' :
  ts !! k = Some t ->
  live (<[k := t']> ts) =
  live ts + (if in_use t' then 1 else 0) - (if in_use t then 1 else 0).
Proof.
  intros Hk. apply list_elem_of_split_length in Hk as (l1 & l2 & -> & ->).
  rewrite <- (Nat.add_0_r (length l1)), insert_app_r. simpl.
  unfold live. rewrite !filter_app, !filter_cons, !length_app.
  destruct (in_use t), (in_use t'); repeat (rewrite decide_True by done);
    repeat (rewrite decide_False by done); simpl; lia.
Qed.

Lemma live_bound ts : 0 <= live ts <= Z.of_nat (length ts).
Proof. unfold live. pose proof (length_filter (fun t => in_use t = true) ts). lia. Qed.

Lemma upd_thread_run s i t f :
  rd (threads s) i = Some t ->
  upd_thread i f s = Ret tt (set_threads (<[Z.to_nat i := f t]> (threads s)) s).
Proof.
  intros Hr. unfold upd_thread, modify_opt. rewrite Hr. simpl. unfold wr.
  apply rd_Some in Hr as [Hr _]. by rewrite decide_True.
Qed.

Lemma get_thread_run s i t : rd (threads s) i = Some t -> get_thread i s = Ret t s.
Proof. intros Hr. unfold get_thread, gets_opt. by rewrite Hr. Qed.

Lemma rd_insert ts i (t u : uthread_t) :
  rd ts i = Some t -> rd (<[Z.to_nat i := u]> ts) i = Some u.
Proof.
  intros [Hr _]%rd_Some. unfold rd. rewrite decide_True by lia.
  apply list_lookup_insert_eq. lia.
Qed.

Lemma rd_nat (ts : list uthread_t) k t : ts !! k = Some t -> rd ts (Z.of_nat k) = Some t.
Proof. intros Hk. unfold rd. by rewrite decide_True, Nat2Z.id by lia. Qed.

End Table.

Ltac ured :=
  cbv beta iota delta [SCHED_POLICY PB_RR_INDEXES RR_INDEX thread next_tid threads numberOfCT
    esp ebp uworld set_SCHED_POLICY set_PB_RR_INDEXES set_RR_INDEX set_thread set_next_tid
    set_threads set_numberOfCT set_esp set_ebp set_uworld].
Ltac uredh :=
  cbv beta iota delta [SCHED_POLICY PB_RR_INDEXES RR_INDEX thread next_tid threads numberOfCT
    esp ebp uworld set_SCHED_POLICY set_PB_RR_INDEXES set_RR_INDEX set_thread set_next_tid
    set_threads set_numberOfCT set_esp set_ebp set_uworld] in *.
Ltac uopen s := destruct s; uredh; subst.
Ltac urun := repeat (progress (mrun; ured)).

(** Run an update of a slot whose content is known. *)
Ltac uupd :=
  erewrite bind_Ret by (eapply upd_thread_run; ured; first [eassumption | by eapply rd_insert]);
  urun; rewrite ?list_insert_insert_eq.
Ltac uget :=
  erewrite bind_Ret by (eapply get_thread_run; ured; first [eassumption | by eapply rd_insert]);
  urun.

Section Create.
Context {W : Type} `{UAlloc W}.
Implicit Types s : ust W.

(** The slot filled by [uthread_create]. *)
Definition created (n start prio stack : Z) : uthread_t :=
  UThread n (u32 (stack + 4092)) (u32 (stack + 4092)) stack 4096 prio start 1.

Lemma uthread_create_run s k t start prio stack w :
  find_first (fun x => tid x =? 0) (threads s) = Some k -> threads s !! k = Some t ->
  malloc STACK_SIZE (uworld s) = Ret stack w ->
  uthread_create start prio s = Ret (next_tid s)
    (set_numberOfCT (s32 (numberOfCT s + 1)) (set_uworld w
      (set_next_tid (s32 (next_tid s + 1))
        (set_threads (<[k := created (next_tid s) start prio stack]> (threads s)) s)))).
Proof.
  intros Hf Hk Hm. unfold uthread_create. uopen s. urun.
  rewrite Hf. cbv zeta. pose proof (rd_nat _ _ _ Hk) as Hr. urun. uupd.
  erewrite bind_Ret by (unfold zoom; ured; by rewrite Hm). ured.
  do 7 uupd. uget. unfold ret, created. simpl. rewrite Nat2Z.id.
  by replace (stack + STACK_SIZE - 4) with (stack + 4092) by (unfold STACK_SIZE; lia).
Qed.

(** [uthread_create] fills the first free slot with a new thread id, the
    priority and the start function, ready to run on its own stack, and counts
    it; the other slots do not change and the table invariant is kept.  With no
    free slot it returns -1 and changes nothing. *)
Theorem uthread_create_spec s start prio :
  uwf s -> next_tid s + 1 < 2 ^ 31 ->
  (forall n w, exists a w', malloc n w = Ret a w') ->
  match find_first (fun x => tid x =? 0) (threads s) with
  | None => uthread_create start prio s = Ret (-1) s
  | Some k => exists s' stack, uthread_create start prio s = Ret (next_tid s) s' /\
      threads s' = <[k := created (next_tid s) start prio stack]> (threads s) /\
      next_tid s' = next_tid s + 1 /\ numberOfCT s' = numberOfCT s + 1 /\ uwf s'
  end.
Proof.
  intros Hwf Hn Hm. destruct (find_first _ _) as [k|] eqn:Hf.
  2: { unfold uthread_create. mrun. by rewrite Hf. }
  pose proof Hf as [(t & Hk & Ht) _]%find_first_Some.
  destruct (Hm STACK_SIZE (uworld s)) as (stack & w & Hmal).
  pose proof (uthread_create_run s k t start prio stack w Hf Hk Hmal) as Hrun.
  destruct Hwf as [(Hlen & Hpb1 & Hpb2) Hrr Hnext Htid Huniq Hlive].
  pose proof (live_insert _ _ _ (created (next_tid s) start prio stack) Hk) as Hli.
  pose proof (live_bound (<[k := created (next_tid s) start prio stack]> (threads s))) as Hlb.
  rewrite length_insert in Hlb.
  unfold in_use in Hli. simpl tid in Hli. rewrite Ht in Hli. simpl in Hli.
  replace (next_tid s =? 0) with false in Hli by lia. simpl in Hli.
  rewrite (s32_small (next_tid s + 1)), (s32_small (numberOfCT s + 1)) in Hrun by lia.
  eexists _, stack. split; [exact Hrun|]. destruct s; simpl in *. split_and!; try done.
  constructor; simpl; [|done|lia|..|lia].
  - split_and!; simpl; [by rewrite length_insert|done|done].
  - intros i u [(-> & <- & _)|(Hne & Hu)]%list_lookup_insert_Some; simpl; [lia|].
    specialize (Htid _ _ Hu). lia.
  - intros i j u v [(-> & <- & _)|(Hi & Hu)]%list_lookup_insert_Some
      [(Hj & <- & _)|(Hj & Hv)]%list_lookup_insert_Some; simpl; intros E Hnz.
    + done.
    + specialize (Htid _ _ Hv). lia.
    + specialize (Htid _ _ Hu). lia.
    + by eapply Huniq.
Qed.

End Create.

(** ** Switching *)

Section Switch.
Context {W : Type} `{UAlloc W}.
Implicit Types s : ust W.

Definition freed (t : uthread_t) : uthread_t := set_priority PRIORITIES (set_tid 0 t).

(** The state after control has moved to slot [i] with content [t]. *)
Definition switched (i : Z) (t : uthread_t) s : ust W :=
  set_esp (ss_sp t) (set_ebp (ss_bp t) (set_thread (Some i)
    (if firstRun t =? 1 then set_threads (<[Z.to_nat i := set_firstRun 0 t]> (threads s)) s
     else s))).

Lemma switch_run s i t :
  rd (threads s) i = Some t ->
  (set_running i;;; load_stack i;;; first_run i) s =
  Ret (if firstRun t =? 1 then Wrap (start_func t) else Back) (switched i t s).
Proof.
  intros Hr. unfold set_running, load_stack, first_run, switched. uopen s.
  rewrite bind_assoc. uget. uget. uget.
  destruct (firstRun t =? 1); [|done]. by uupd.
Qed.

Lemma freeThread_run s m t w :
  uwf s -> rd (threads s) m = Some t -> tid t <> 0 ->
  free (stack_aloc t) (uworld s) = Ret tt w ->
  freeThread m s = Ret tt (set_numberOfCT (numberOfCT s - 1) (set_uworld w
    (set_threads (<[Z.to_nat m := freed t]> (threads s)) s))).
Proof.
  intros Hwf Hr Ht Hw. pose proof (rd_Some _ _ _ Hr) as [Hm Hl].
  assert (Hf : find_first (fun x => tid t =? tid x) (threads s) = Some (Z.to_nat m)).
  { apply find_first_Some. split; [exists t; by rewrite Z.eqb_refl|].
    intros j y Hj Hy. apply Z.eqb_neq. intros E.
    assert (j = Z.to_nat m); [|lia].
    apply (u_uniq _ Hwf j (Z.to_nat m) y t); congruence. }
  destruct Hwf as [(Hlen & _ & _) _ _ _ _ Hlive].
  pose proof (live_bound (threads s)) as Hb. rewrite Hlen in Hb.
  unfold freeThread. uopen s. urun. rewrite (s32_small (_ - 1)) by lia.
  uget. rewrite Hf.
  erewrite bind_Ret by (unfold zoom; ured; by rewrite Hw). ured. rewrite Z2Nat.id by lia.
  uupd. erewrite upd_thread_run by by eapply rd_insert. ured.
  by rewrite list_insert_insert_eq.
Qed.

(** All threads in use have a priority that the scheduler looks at. *)
Definition prios_ok (ts : list uthread_t) : Prop :=
  forall i t, ts !! i = Some t -> in_use t = true -> 0 <= priority t < 10.

Lemma live_best ts :
  prios_ok ts -> live ts <> 0 -> exists p, best_priority ts = Some p.
Proof.
  intros Hp Hl. assert (exists i t, ts !! i = Some t /\ in_use t = true) as (i & t & Hi & Ht).
  { unfold live in Hl. destruct (filter _ ts) as [|t l] eqn:E; [done|].
    assert (t ∈ t :: l) as Hin by left. rewrite <- E in Hin.
    apply list_elem_of_filter in Hin as [Ht Hin].
    apply list_elem_of_lookup_1 in Hin as [i Hi]. eauto. }
  unfold best_priority. destruct (find_first _ _) as [k|] eqn:Hf; [eauto|]. exfalso.
  specialize (Hp i t Hi Ht).
  pose proof (proj1 (find_first_None _ _) Hf (priority t)) as Hno.
  rewrite elem_of_seqZ in Hno. unfold PRIORITIES in Hno. specialize (Hno ltac:(lia)).
  rewrite (has_priority_intro ts (priority t) (Z.of_nat i)) in Hno; [done|].
  unfold wanted_at. rewrite (rd_nat _ _ _ Hi). unfold in_priority.
  by rewrite Ht, Z.eqb_refl.
Qed.

(** Replacing a slot's content keeping tid. *)
Lemma uwf_upd s i t t' :
  uwf s -> threads s !! i = Some t -> tid t' = tid t ->
  uwf (set_threads (<[i := t']> (threads s)) s).
Proof.
  intros [(Hlen & Hpb1 & Hpb2) Hrr Hnext Htid Huniq Hlive] Hi Ht.
  pose proof (live_insert _ _ _ t' Hi) as Hli.
  unfold in_use in Hli. rewrite Ht in Hli.
  constructor; simpl; [|done|done|..|lia].
  - split_and!; simpl; [by rewrite length_insert|done|done].
  - intros j u [(-> & <- & _)|(Hne & Hu)]%list_lookup_insert_Some; [|by eauto].
    rewrite Ht. by eauto.
  - intros j k u v [(-> & <- & _)|(Hj & Hu)]%list_lookup_insert_Some
      [(Hk & <- & _)|(Hk & Hv)]%list_lookup_insert_Some; intros E Hnz; try rewrite Ht in *;
      subst; eauto using eq_sym.
Qed.

Lemma uwf_freed s m t w :
  uwf s -> threads s !! m = Some t -> tid t <> 0 ->
  uwf (set_numberOfCT (numberOfCT s - 1) (set_uworld w
    (set_threads (<[m := freed t]> (threads s)) s))).
Proof.
  intros [(Hlen & Hpb1 & Hpb2) Hrr Hnext Htid Huniq Hlive] Hm Ht.
  pose proof (live_insert _ _ _ (freed t) Hm) as Hli.
  unfold in_use in Hli. simpl in Hli. replace (tid t =? 0) with false in Hli by lia.
  simpl in Hli. constructor; simpl; [|done|done|..|lia].
  - split_and!; simpl; [by rewrite length_insert|done|done].
  - intros j u [(-> & <- & _)|(Hne & Hu)]%list_lookup_insert_Some; simpl; [lia|by eauto].
  - intros j k u v [(-> & <- & _)|(Hj & Hu)]%list_lookup_insert_Some
      [(Hk & <- & _)|(Hk & Hv)]%list_lookup_insert_Some; simpl; intros E Hnz; try lia; eauto.
Qed.

Lemma uwf_pb s p i :
  uwf s -> 0 <= i < 64 -> uwf (set_PB_RR_INDEXES (<[p := i]> (PB_RR_INDEXES s)) s).
Proof.
  intros [(Hlen & Hpb1 & Hpb2) Hrr Hnext Htid Huniq Hlive] Hi.
  constructor; simpl; try done. split_and!; simpl; [done|by rewrite length_insert|].
  apply Forall_insert; [done|lia].
Qed.

Lemma uwf_switched s i t : uwf s -> rd (threads s) i = Some t -> uwf (switched i t s).
Proof.
  intros Hwf [_ Hi]%rd_Some. unfold switched.
  assert (uwf (if firstRun t =? 1
               then set_threads (<[Z.to_nat i := set_firstRun 0 t]> (threads s)) s else s)) as Hx.
  { destruct (firstRun t =? 1); [by eapply uwf_upd|done]. }
  destruct Hx as [H1 H2 H3 H4 H5 H6]. by constructor.
Qed.

Lemma live_pos ts i t : ts !! i = Some t -> in_use t = true -> live ts <> 0.
Proof.
  intros Hi Ht. unfold live. destruct (filter _ ts) eqn:E; [|simpl; lia].
  assert (t ∈ filter (fun t => in_use t = true) ts) as Hin
    by (apply list_elem_of_filter; split; [done|by eapply list_elem_of_lookup_2]).
  rewrite E in Hin. by apply not_elem_of_nil in Hin.
Qed.

Lemma best_priority_upd ts i t t' :
  ts !! i = Some t -> tid t' = tid t -> priority t' = priority t ->
  best_priority (<[i := t']> ts) = best_priority ts.
Proof.
  intros Hi Ht Hp. unfold best_priority. erewrite find_first_ext; [done|].
  intros q _. unfold has_priority.
  apply list_elem_of_split_length in Hi as (l1 & l2 & -> & ->).
  rewrite <- (Nat.add_0_r (length l1)), insert_app_r, !existsb_app. simpl.
  unfold in_priority, in_use. by rewrite Ht, Hp.
Qed.

Lemma pb_choice s :
  uwf s -> SCHED_POLICY s = SCHED_PB -> prios_ok (threads s) -> live (threads s) <> 0 ->
  exists i t p s1, next_to_run s = Ret i s1 /\ rd (threads s) i = Some t /\
    in_priority p t = true /\ best_priority (threads s) = Some p /\
    s1 = set_PB_RR_INDEXES (<[Z.to_nat p := i]> (PB_RR_INDEXES s)) s /\ 0 <= i < 64.
Proof.
  intros Hwf Hpol Hpr Hl. destruct (live_best _ Hpr Hl) as [p Hb].
  pose proof (best_priority_Some _ _ Hb) as (Hp & Hhas & _).
  pose proof (u_pb _ Hwf) as Hok.
  destruct (pb_last s p Hok Hp) as (last & Hlast & Hr).
  destruct (has_priority_slot _ _ (proj1 Hok) Hhas) as (j & Hj & Hw).
  destruct (next_slot_wanted _ _ last j Hr Hj Hw) as (i & d & Hn & Hi & Hwi & _).
  unfold wanted_at in Hwi. destruct (rd (threads s) i) as [t|] eqn:Hrd; [|done].
  exists i, t, p. eexists. split_and!; try done; try lia.
  unfold next_to_run. mrun. rewrite Hpol. simpl. rewrite getNextPB_run by done.
  rewrite Hb, Hlast. simpl default. by rewrite Hn.
Qed.

(** [uthread_yield] saves the stack of the running thread in its slot,
    and moves control to a thread of the best priority: its saved stack is
    loaded, it becomes the running thread, and it is started if it never ran.
    The table invariant is kept. *)
Theorem uthread_yield_spec s m t :
  uwf s -> SCHED_POLICY s = SCHED_PB -> prios_ok (threads s) ->
  thread s = Some m -> rd (threads s) m = Some t -> in_use t = true ->
  exists i u p s',
    uthread_yield s = Ret (if firstRun u =? 1 then Wrap (start_func u) else Back) s' /\
    rd (<[Z.to_nat m := set_ss_sp (esp s) (set_ss_bp (ebp s) t)]> (threads s)) i = Some u /\
    in_priority p u = true /\ best_priority (threads s) = Some p /\
    thread s' = Some i /\ esp s' = ss_sp u /\ ebp s' = ss_bp u /\ uwf s'.
Proof.
  intros Hwf Hpol Hpr Hth Hm Ht. pose proof (rd_Some _ _ _ Hm) as [Hmr Hml].
  set (t1 := set_ss_sp (esp s) (set_ss_bp (ebp s) t)).
  set (s1 := set_threads (<[Z.to_nat m := t1]> (threads s)) s).
  assert (Hwf1 : uwf s1) by by eapply uwf_upd.
  assert (Hpr1 : prios_ok (threads s1)).
  { intros i u [(_ & <- & _)|(Hne & Hu)]%list_lookup_insert_Some Hin; [|by eapply Hpr].
    by apply (Hpr (Z.to_nat m) t). }
  assert (Hl1 : live (threads s1) <> 0).
  { apply (live_pos _ (Z.to_nat m) t1); [|done]. apply list_lookup_insert_eq.
    by eapply lookup_lt_Some. }
  destruct (pb_choice s1 Hwf1 Hpol Hpr1 Hl1) as (i & u & p & s2 & Hn & Hr & Hp & Hb & -> & Hi).
  eexists i, u, p, _. split; [|split_and!; [exact Hr|done|..]].
  - unfold uthread_yield. unfold cur_thread. erewrite bind_gets_opt by done. mrun.
    erewrite bind_Ret by by eapply upd_thread_run. mrun.
    erewrite bind_Ret by (eapply upd_thread_run; destruct s; by eapply rd_insert).
    erewrite bind_Ret.
    2: { rewrite <- Hn. f_equal. unfold s1. destruct s. simpl.
         by rewrite list_insert_insert_eq. }
    by apply switch_run.
  - unfold s1 in Hb. simpl in Hb. by rewrite (best_priority_upd _ _ t) in Hb.
  - done.
  - done.
  - done.
  - apply uwf_switched; [by apply uwf_pb|done].
Qed.

(** [uthread_exit] of the last thread frees its slot and stack and exits
    the process; otherwise it frees the slot and moves control to a remaining
    thread of the best remaining priority.  The table invariant is kept. *)
Theorem uthread_exit_spec s m t w :
  uwf s -> SCHED_POLICY s = SCHED_PB -> prios_ok (threads s) ->
  thread s = Some m -> rd (threads s) m = Some t -> in_use t = true ->
  free (stack_aloc t) (uworld s) = Ret tt w ->
  let ts := <[Z.to_nat m := freed t]> (threads s) in
  if numberOfCT s =? 1 then
    exists s', uthread_exit s = Ret ProcExit s' /\ threads s' = ts /\ live ts = 0 /\ uwf s'
  else exists i u p s',
    uthread_exit s = Ret (if firstRun u =? 1 then Wrap (start_func u) else Back) s' /\
    rd ts i = Some u /\ i <> m /\ in_priority p u = true /\ best_priority ts = Some p /\
    thread s' = Some i /\ esp s' = ss_sp u /\ ebp s' = ss_bp u /\ uwf s'.
Proof.
  intros Hwf Hpol Hpr Hth Hm Ht Hw ts. pose proof (rd_Some _ _ _ Hm) as [Hmr Hml].
  assert (Hnz : tid t <> 0) by (unfold in_use in Ht; lia).
  pose proof (freeThread_run s m t w Hwf Hm Hnz Hw) as Hfree.
  pose proof (uwf_freed s (Z.to_nat m) t w Hwf Hml Hnz) as Hwf1.
  set (s1 := set_numberOfCT _ _) in *.
  assert (Hli : live ts = numberOfCT s - 1).
  { unfold ts. rewrite (live_insert _ _ _ _ Hml), (u_live _ Hwf), Ht. simpl. lia. }
  assert (Hexit : uthread_exit s = (if numberOfCT s =? 1 then ret ProcExit
    else i <~ next_to_run;;; set_running i;;; load_stack i;;; first_run i) s1).
  { unfold uthread_exit, getNumberOfCurrentThreads, cur_thread. mrun.
    erewrite bind_gets_opt by done.
    destruct (numberOfCT s =? 1); by erewrite bind_Ret by exact Hfree. }
  rewrite Hexit. destruct (Z.eqb_spec (numberOfCT s) 1) as [E|E].
  - exists s1. split_and!; [done|done|lia|done].
  - assert (Hpr1 : prios_ok (threads s1)).
    { intros i u [(_ & <- & _)|(Hne & Hu)]%list_lookup_insert_Some Hin; [done|by eapply Hpr]. }
    destruct (pb_choice s1 Hwf1 Hpol Hpr1) as (i & u & p & s2 & Hn & Hr & Hp & Hb & -> & Hi);
      [simpl; fold ts; lia|].
    eexists i, u, p, _. split; [|split_and!; [exact Hr|..]].
    + erewrite bind_Ret by exact Hn. by apply switch_run.
    + intros ->. simpl in Hr. erewrite rd_insert in Hr by done. injection Hr as <-. done.
    + done.
    + exact Hb.
    + done.
    + done.
    + done.
    + apply uwf_switched; [by apply uwf_pb|done].
Qed.

(** [uthread_setpr] changes the running thread's priority and returns the
    old one for a priority from 0 to 9, and otherwise returns -1 and changes
    nothing. *)
Theorem uthread_setpr_spec s m t p :
  uwf s -> thread s = Some m -> rd (threads s) m = Some t ->
  if decide (0 <= p <= 9) then
    exists s', uthread_setpr p s = Ret (priority t) s' /\ uthread_getpr s' = Ret p s' /\ uwf s'
  else uthread_setpr p s = Ret (-1) s.
Proof.
  intros Hwf Hth Hm. unfold uthread_setpr. pose proof (rd_Some _ _ _ Hm) as [Hmr Hml].
  case_decide as Hp.
  - replace ((0 <=? p) && (p <=? 9)) with true by lia.
    unfold cur_thread. erewrite bind_gets_opt by done.
    erewrite bind_Ret by by apply get_thread_run.
    erewrite bind_Ret by by eapply upd_thread_run. eexists. split; [reflexivity|].
    split; [|by eapply uwf_upd]. unfold uthread_getpr, cur_thread.
    erewrite bind_gets_opt by done.
    erewrite bind_Ret by (apply get_thread_run; by eapply rd_insert). done.
  - by replace ((0 <=? p) && (p <=? 9)) with false by lia.
Qed.

(** The priority given to [uthread_create] is not checked.  A thread whose
    priority is outside 0..9 is never chosen: when only such threads remain,
    [uthread_yield] indexes the table with -1. *)
Theorem uthread_yield_bad_priority s m t :
  uwf s -> SCHED_POLICY s = SCHED_PB -> thread s = Some m -> rd (threads s) m = Some t ->
  (forall i u, threads s !! i = Some u -> in_use u = true -> ~ (0 <= priority u < 10)) ->
  uthread_yield s = Fault.
Proof.
  intros Hwf Hpol Hth Hm Hbad. unfold uthread_yield, cur_thread.
  pose proof (rd_Some _ _ _ Hm) as [Hmr Hml].
  erewrite bind_gets_opt by done. mrun.
  erewrite bind_Ret by by eapply upd_thread_run. mrun.
  erewrite bind_Ret by (eapply upd_thread_run; destruct s; by eapply rd_insert).
  set (s1 := set_threads _ _).
  assert (Hwf1 : uwf s1).
  { eapply uwf_upd; [by eapply uwf_upd| |].
    - destruct s. apply list_lookup_insert_eq. by eapply lookup_lt_Some.
    - done. }
  assert (Hb : best_priority (threads s1) = None).
  { unfold s1. destruct s. simpl in *. rewrite list_insert_insert_eq.
    rewrite (best_priority_upd _ _ t) by done.
    destruct (best_priority threads0) as [p|] eqn:E; [|done]. exfalso.
    apply best_priority_Some in E as (Hp & Hhas & _).
    apply existsb_exists in Hhas as (u & Hin & Hu).
    apply list_elem_of_In, list_elem_of_lookup_1 in Hin as [i Hi].
    apply andb_true_iff in Hu as [Hu Hpu%Z.eqb_eq]. apply (Hbad i u Hi Hu). lia. }
  erewrite (bind_Ret next_to_run _ s1 (-1) s1); [done|].
  unfold next_to_run. mrun. replace (SCHED_POLICY s1) with SCHED_PB by by destruct s.
  simpl. rewrite getNextPB_run by apply (u_pb _ Hwf1). by rewrite Hb.
Qed.

End Switch.

(** ** The properties at concrete states *)

(** malloc as a bump allocator. *)
#[export] Instance bump : UAlloc Z := {
  malloc n := fun w => Ret w (w + n);
  free _ := ret tt
}.

Definition empty_slot : uthread_t := UThread 0 0 0 0 0 0 0 0.

(** Threads 1 and 2 with priorities [q] and [p]; thread 1 runs. *)
Definition uth_pair (q p : Z) : ust Z :=
  Ust SCHED_PB (-1 :: replicate 9 0) (-1) (Some 0) 3
    (set_firstRun 0 (created 1 100 q 4096) :: created 2 200 p 8192 :: replicate 62 empty_slot)
    2 4000 4004 12288.
Definition uth_demo : Z -> ust Z := uth_pair 3.

Lemma uth_pair_slot q p i t :
  threads (uth_pair q p) !! i = Some t ->
  (i = 0%nat /\ tid t = 1 /\ priority t = q) \/ (i = 1%nat /\ tid t = 2 /\ priority t = p) \/
  tid t = 0.
Proof.
  do 2 (destruct i as [|i]; [intros [= <-]; tauto|]). intros Hi.
  change (replicate 62 empty_slot !! i = Some t) in Hi.
  apply lookup_replicate in Hi as [-> _]. tauto.
Qed.

Lemma uth_pair_wf q p : uwf (uth_pair q p).
Proof.
  constructor.
  - split_and!; [done|done|]. repeat (apply Forall_cons; split; [lia|]). apply Forall_nil_2.
  - simpl. lia.
  - simpl. lia.
  - intros i t Hi. simpl next_tid. apply uth_pair_slot in Hi. lia.
  - intros i j t u Hi Hj. apply uth_pair_slot in Hi, Hj. lia.
  - done.
Qed.

Lemma uth_demo_prios p : 0 <= p < 10 -> prios_ok (threads (uth_demo p)).
Proof.
  intros Hp i t Hi Ht. apply uth_pair_slot in Hi. unfold in_use in Ht. lia.
Qed.

Lemma getNextPB_spec_witness :
  exists i s', getNextPB (uth_demo 2) = Ret i s' /\ i = 1.
Proof.
  destruct (getNextPB_spec (uth_demo 2) (u_pb _ (uth_pair_wf 3 2)))
    as (last & i & d & _ & Hr & _ & Hw & _).
  eexists i, _. split; [exact Hr|]. vm_compute in Hr. by injection Hr.
Defined.

Lemma pb_no_starvation_witness :
  exists n l s', (n <= 64)%nat /\ pb_calls n (uth_demo 3) = Ret l s' /\ 0 ∈ l.
Proof.
  apply (pb_no_starvation (uth_demo 3) 3 0).
  - apply uth_pair_wf.
  - reflexivity.
  - lia.
  - reflexivity.
Defined.

Lemma uthread_create_spec_witness :
  exists s' stack, uthread_create 300 5 (uth_demo 2) = Ret 3 s' /\
    threads s' = <[2%nat := created 3 300 5 stack]> (threads (uth_demo 2)).
Proof.
  destruct (uthread_create_spec (uth_demo 2) 300 5) as (s' & stack & Hr & Ht & _).
  - apply uth_pair_wf.
  - simpl. lia.
  - intros n w. by eexists _, _.
  - exists s', stack. split; [exact Hr|exact Ht].
Defined.

Lemma uthread_yield_spec_witness :
  exists a i s', uthread_yield (uth_demo 2) = Ret a s' /\ thread s' = Some i.
Proof.
  edestruct (uthread_yield_spec (uth_demo 2) 0) as (i & u & p & s' & Hr & _ & _ & _ & Ht & _).
  - apply uth_pair_wf.
  - reflexivity.
  - apply uth_demo_prios. lia.
  - reflexivity.
  - reflexivity.
  - reflexivity.
  - eexists _, i, s'. split; [exact Hr|exact Ht].
Defined.

Lemma uthread_exit_spec_witness :
  exists a i s', uthread_exit (uth_demo 2) = Ret a s' /\ thread s' = Some i /\ i <> 0.
Proof.
  edestruct (uthread_exit_spec (uth_demo 2) 0)
    as (i & u & p & s' & Hr & _ & Hne & _ & _ & Ht & _).
  - apply uth_pair_wf.
  - reflexivity.
  - apply uth_demo_prios. lia.
  - reflexivity.
  - reflexivity.
  - reflexivity.
  - reflexivity.
  - eexists _, i, s'. split_and!; [exact Hr|exact Ht|exact Hne].
Defined.

Lemma getNextRoundRobin_spec_witness :
  exists i s', getNextRoundRobin (uth_demo 2) = Ret i s' /\ 0 <= i < 64.
Proof.
  destruct (getNextRoundRobin_spec (uth_demo 2) 1 eq_refl)
    as (i & d & Hr & Hi & _).
  - simpl. lia.
  - lia.
  - reflexivity.
  - eexists i, _. split; [exact Hr|exact Hi].
Defined.

Lemma getNextRoundRobin_hangs_witness :
  getNextRoundRobin (set_threads (replicate 64 empty_slot) (uth_demo 2)) = Hang.
Proof.
  apply getNextRoundRobin_hangs.
  - reflexivity.
  - reflexivity.
  - intros i. unfold wanted_at. destruct (rd _ i) as [t|] eqn:Ht; [|reflexivity].
    apply rd_Some in Ht as [_ Ht]. apply lookup_replicate in Ht as [-> _]. reflexivity.
Defined.

Lemma uthread_setpr_spec_witness :
  exists s', uthread_setpr 7 (uth_demo 2) = Ret 3 s' /\ uthread_getpr s' = Ret 7 s'.
Proof.
  destruct (uthread_setpr_spec (uth_demo 2) 0 (set_firstRun 0 (created 1 100 3 4096)) 7
              (uth_pair_wf 3 2) eq_refl eq_refl) as (s' & Hr & Hg & _).
  exists s'. split; [exact Hr|exact Hg].
Defined.

Lemma uthread_yield_bad_priority_witness : uthread_yield (uth_pair 10 (-1)) = Fault.
Proof.
  apply (uthread_yield_bad_priority _ 0 (set_firstRun 0 (created 1 100 10 4096))).
  - apply uth_pair_wf.
  - reflexivity.
  - reflexivity.
  - reflexivity.
  - intros i u Hi Hu. apply uth_pair_slot in Hi. unfold in_use in Hu. lia.
Defined.
