(* ===== verification/Umalloc.v ===== *)
(** * The heap of user programs (umalloc.c)

    malloc and free by Kernighan and Ritchie: a circular list of free blocks in
    the order of their addresses, threaded through the blocks themselves.
    Memory is a partial map of words, for the two words of a [Header] (ptr,
    size; a unit of 8 bytes); reading a word that was never written is a fault.
    [sbrk] is the system call, over a state of its own; [base_] is the address
    of the static [base]. *)
From S2P Require Import Prelude.

Record heap (B : Type) := Heap {
  freep : Z;
  words : gmap Z Z;
  brk : B
}.
Arguments Heap {B}.
Arguments freep {B}.
Arguments words {B}.
Arguments brk {B}.

Section Heap.
Context {B : Type} (base_ : Z) (sbrk : Z -> M B Z).
Abbreviation U := (M (heap B)).

Definition set_freep (v : Z) (h : heap B) : heap B := Heap v (words h) (brk h).
Definition set_words (v : gmap Z Z) (h : heap B) : heap B := Heap (freep h) v (brk h).
Definition set_brk (v : B) (h : heap B) : heap B := Heap (freep h) (words h) v.

(** p->s.ptr and p->s.size *)
Definition get_ptr (p : Z) : U Z := gets_opt (fun h => words h !! p).
Definition get_size (p : Z) : U Z := gets_opt (fun h => words h !! (p + 4)).
Definition put_ptr (p v : Z) : U unit := modify (fun h => set_words (<[p := v]> (words h)) h).
Definition put_size (p v : Z) : U unit := modify (fun h => set_words (<[p + 4 := v]> (words h)) h).

(** p + n for a [Header*] *)
Definition units (p n : Z) : Z := u32 (p + 8 * n).

(** The loop of [free] from [p]: the block after which [bp] belongs. *)
Fixpoint free_loop (fuel : nat) (bp p : Z) : U Z :=
  match fuel with
  | O => hang
  | S fuel' =>
      n <~ get_ptr p;;;
      if (p <? bp) && (bp <? n) then ret p else
      if (n <=? p) && ((p <? bp) || (bp <? n)) then ret p else
      free_loop fuel' bp n
  end.

Definition free (ap : Z) : U unit :=
  let bp := units ap (-1) in
  f <~ gets freep;;;
  fuel <~ gets (fun h => S (size (words h)));;;
  p <~ free_loop fuel bp f;;;
  n <~ get_ptr p;;;
  s <~ get_size bp;;;
  (if units bp s =? n then
     ns <~ get_size n;;;
     put_size bp (u32 (s + ns));;;
     nn <~ get_ptr n;;;
     put_ptr bp nn
   else put_ptr bp n);;;
  ps <~ get_size p;;;
  (if units p ps =? bp then
     s <~ get_size bp;;;
     put_size p (u32 (ps + s));;;
     n <~ get_ptr bp;;;
     put_ptr p n
   else put_ptr p bp);;;
  modify (set_freep p).

(** [None] for a null pointer. *)
Definition morecore (nu : Z) : U (option Z) :=
  let nu := if nu <? 4096 then 4096 else nu in
  p <~ zoom brk set_brk (sbrk (s32 (nu * 8)));;;
  if p =? -1 then ret None else
  put_size (u32 p) nu;;;
  free (units (u32 p) 1);;;
  f <~ gets freep;;;
  ret (Some f).

(** The loop of [malloc] with [p] and [prevp]. *)
Fixpoint malloc_loop (fuel : nat) (nunits prevp p : Z) : U Z :=
  match fuel with
  | O => hang
  | S fuel' =>
      s <~ get_size p;;;
      if nunits <=? s then
        q <~ (if s =? nunits then n <~ get_ptr p;;; put_ptr prevp n;;; ret p
              else put_size p (u32 (s - nunits));;;
                   let q := units p (u32 (s - nunits)) in
                   put_size q nunits;;; ret q);;;
        modify (set_freep prevp);;;
        ret (units q 1)
      else
        f <~ gets freep;;;
        r <~ (if p =? f then morecore nunits else ret (Some p));;;
        match r with
        | None => ret 0
        | Some p => n <~ get_ptr p;;; malloc_loop fuel' nunits p n
        end
  end.

Definition nunits_of (nbytes : Z) : Z := u32 (u32 (nbytes + 7) / 8 + 1).

Definition malloc (nbytes : Z) : U Z :=
  let nunits := nunits_of nbytes in
  f <~ gets freep;;;
  when (f =? 0)
    (modify (set_freep base_);;;
     put_ptr base_ base_;;;
     put_size base_ 0);;;
  prevp <~ gets freep;;;
  fuel <~ gets (fun h => (2 * size (words h) + 4)%nat);;;
  p <~ get_ptr prevp;;;
  malloc_loop fuel nunits prevp p.
End Heap.
