(* ===== verification/UmallocSpec.v ===== *)
(** * What malloc and free guarantee (umalloc.c)

    The invariant [heap_ok] of the heap: the free blocks are in the order of
    their addresses, apart from each other and from the blocks in use, and the
    circular list runs through all of them.  malloc and free keep it, lose no
    memory and never write into a block in use. *)
From stdpp Require Import sorting.
From S2P Require Import Prelude Umalloc.

(** ** Lists of blocks *)

Abbreviation block := (Z * Z)%type.

Definition first_of (l : list block) (e : Z) : Z := match l with [] => e | (a, _) :: _ => a end.

(** The words of the blocks [l] link each to the next and the last to [e]. *)
Fixpoint linked (w : gmap Z Z) (l : list block) (e : Z) : Prop :=
  match l with
  | [] => True
  | (a, s) :: l' => w !! a = Some (first_of l' e) /\ w !! (a + 4) = Some s /\ linked w l' e
  end.

(** Block [x] ends before [y] starts, with something in between. *)
Definition before (x y : block) : Prop := x.1 + 8 <= y.1 /\ x.1 + 8 * x.2 < y.1.

Lemma first_of_app l1 l2 e : first_of (l1 ++ l2) e = first_of l1 (first_of l2 e).
Proof. by destruct l1 as [|[a s] l1]. Qed.

Lemma linked_app w l1 l2 e : linked w (l1 ++ l2) e <-> linked w l1 (first_of l2 e) /\ linked w l2 e.
Proof.
  induction l1 as [|[a s] l1 IH]; simpl; [naive_solver|]. rewrite first_of_app, IH. naive_solver.
Qed.

Lemma linked_frame w w' l e :
  (forall a s, (a, s) ∈ l -> w' !! a = w !! a /\ w' !! (a + 4) = w !! (a + 4)) -> linked w l e -> linked w' l e.
Proof.
  induction l as [|[a s] l IH]; simpl; [done|]. intros Hw (H1 & H2 & H3).
  destruct (Hw a s) as [-> ->]; [left|]. split_and!; try done. apply IH; [|done].
  intros b t Hb. apply (Hw b t). by right.
Qed.

Lemma linked_lookup w l e i a s :
  linked w l e -> l !! i = Some (a, s) -> w !! a = Some (first_of (drop (S i) l) e) /\ w !! (a + 4) = Some s.
Proof.
  revert i. induction l as [|[b t] l IH]; intros i; [done|]. intros (H1 & H2 & H3).
  destruct i as [|i]; simpl; [by intros [= -> ->]|]. by apply IH.
Qed.

Lemma sorted_app R (l1 l2 : list block) :
  StronglySorted R (l1 ++ l2) <->
  StronglySorted R l1 /\ StronglySorted R l2 /\ forall x y, x ∈ l1 -> y ∈ l2 -> R x y.
Proof.
  induction l1 as [|x l1 IH]; simpl.
  - split; [|naive_solver]. intros Hs. split_and!; [constructor|done|]. by intros ? ? ?%elem_of_nil.
  - split.
    + intros Hs. inversion Hs as [|? ? Hs' Hf]; subst. apply IH in Hs' as (H1 & H2 & H3).
      apply Forall_app in Hf as [Hf1 Hf2]. split_and!; [by constructor|done|].
      intros a b [->|Ha]%elem_of_cons Hb; [|by apply H3]. by eapply Forall_forall.
    + intros (H1 & H2 & H3). inversion H1 as [|? ? Hs' Hf]; subst. constructor.
      * apply IH. split_and!; [done|done|]. intros a b Ha Hb. apply H3; [by right|done].
      * apply Forall_app. split; [done|]. apply Forall_forall. intros b Hb. apply H3; [left|done].
Qed.

Lemma sorted_lookup R (l : list block) i j x y :
  StronglySorted R l -> (i < j)%nat -> l !! i = Some x -> l !! j = Some y -> R x y.
Proof.
  intros Hs Hij Hi Hj. rewrite <- (take_drop j l) in Hs. apply sorted_app in Hs as (_ & _ & H3).
  apply H3.
  - apply list_elem_of_lookup_2 with i. by rewrite lookup_take_lt.
  - apply list_elem_of_lookup_2 with 0%nat. rewrite lookup_drop. by rewrite Nat.add_0_r.
Qed.

Lemma linked_length w l e : StronglySorted before l -> linked w l e -> (length l <= size w)%nat.
Proof.
  intros Hs Hl. rewrite <- (length_fmap fst), <- size_dom.
  assert (Hnd : NoDup l.*1).
  { apply NoDup_alt. intros i j a Hi Hj. apply list_lookup_fmap_Some in Hi as ([a1 s1] & -> & Hi), Hj as ([a2 s2] & E & Hj).
    destruct (decide (i < j)%nat) as [Hlt|]; [|destruct (decide (j < i)%nat) as [Hlt|]; [|lia]].
    - destruct (sorted_lookup _ _ _ _ _ _ Hs Hlt Hi Hj). simpl in *. lia.
    - destruct (sorted_lookup _ _ _ _ _ _ Hs Hlt Hj Hi). simpl in *. lia. }
  rewrite <- (size_list_to_set (C := gset Z) l.*1) by done. apply subseteq_size.
  intros a Ha. apply elem_of_list_to_set, list_elem_of_lookup in Ha as [i Hi].
  apply list_lookup_fmap_Some in Hi as ([a1 s1] & -> & Hi). apply elem_of_dom.
  destruct (linked_lookup _ _ _ _ _ _ Hl Hi) as [Hw _]. by eexists.
Qed.

(** ** The invariant *)

Section Heap.
Context {B : Type} (base_ : Z) (sbrk : Z -> M B Z) (top : B -> Z).
Implicit Types h : heap B.

(** The block [a] of [s] units lies above [base] and below the top of the
    process, which is below the kernel. *)
Definition in_heap (t a s : Z) : Prop := 0 < s /\ base_ + 8 <= a /\ a + 8 * s <= t.

(** The blocks [a] and [b] do not overlap. *)
Definition apart (a s b t : Z) : Prop := a + 8 * s <= b \/ b + 8 * t <= a.

(** [bl] are the free blocks, [u] maps the blocks in use to their sizes. *)
Record heap_ok h (bl : list block) (u : gmap Z Z) : Prop := {
  ho_base : 0 < base_;
  ho_top : top (brk h) <= 2 ^ 31;
  ho_linked : linked (words h) ((base_, 0) :: bl) base_;
  ho_sorted : StronglySorted before ((base_, 0) :: bl);
  ho_free : forall a s, (a, s) ∈ bl -> in_heap (top (brk h)) a s;
  ho_used : forall a s, u !! a = Some s -> in_heap (top (brk h)) a s /\ words h !! (a + 4) = Some s;
  ho_apart : forall a s b t, (a, s) ∈ bl -> u !! b = Some t -> apart a s b t;
  ho_used_apart : forall a s b t, u !! a = Some s -> u !! b = Some t -> a <> b -> apart a s b t;
  ho_freep : exists i s, ((base_, 0) :: bl) !! i = Some (freep h, s)
}.

Definition free_units (bl : list block) : Z := foldr (fun x n => x.2 + n) 0 bl.

Lemma free_units_app l1 l2 : free_units (l1 ++ l2) = free_units l1 + free_units l2.
Proof. unfold free_units. induction l1 as [|x l1 IH]; simpl; [done|]. lia. Qed.

(** The words of the blocks in use are what they were. *)
Definition kept (u : gmap Z Z) h h' : Prop :=
  forall b t x, u !! b = Some t -> b <= x < b + 8 * t -> words h' !! x = words h !! x.

(** A block that is neither free nor in use. *)
Record loose h (bl : list block) (u : gmap Z Z) (a s : Z) : Prop := {
  lo_heap : in_heap (top (brk h)) a s;
  lo_size : words h !! (a + 4) = Some s;
  lo_free : forall b t, (b, t) ∈ bl -> apart a s b t;
  lo_used : forall b t, u !! b = Some t -> apart a s b t
}.

Lemma bind_get_ptr {A} p (f : Z -> M (heap B) A) h v : words h !! p = Some v -> bind (get_ptr p) f h = f v h.
Proof. intros Hw. by apply (bind_gets_opt (fun h => words h !! p)). Qed.

Lemma bind_get_size {A} p (f : Z -> M (heap B) A) h v : words h !! (p + 4) = Some v -> bind (get_size p) f h = f v h.
Proof. intros Hw. by apply (bind_gets_opt (fun h => words h !! (p + 4))). Qed.

(** ** free *)

(** The place of address [bp] in the list: after block [k]. *)
Definition place (l : list block) (bp : Z) (k : nat) : Prop :=
  (exists p ps, l !! k = Some (p, ps) /\ p < bp) /\
  forall j a s, (k < j)%nat -> l !! j = Some (a, s) -> bp < a.

Lemma free_loop_stop l bp k p ps fuel h :
  linked (words h) l base_ -> StronglySorted before l -> (forall a s, (a, s) ∈ l -> base_ <= a) ->
  place l bp k -> l !! k = Some (p, ps) -> free_loop (S fuel) bp p h = Ret p h.
Proof.
  intros Hl Hs Hb [(p' & ps' & Hk & Hlt) Hgt] Hk'. rewrite Hk' in Hk. injection Hk as <- <-.
  destruct (linked_lookup _ _ _ _ _ _ Hl Hk') as [Hn _]. cbn [free_loop].
  rewrite (bind_get_ptr _ _ _ _ Hn).
  destruct (drop (S k) l) as [|[b t] r] eqn:Ed; cbn [first_of].
  - assert (base_ <= p) by (eapply Hb; by eapply list_elem_of_lookup_2).
    destruct (Z.ltb_spec p bp); [|lia]. destruct (Z.ltb_spec bp base_); [lia|]. cbn [andb].
    destruct (Z.leb_spec base_ p); [done|lia].
  - assert (Hb' : l !! S k = Some (b, t)).
    { rewrite <- (Nat.add_0_r (S k)), <- lookup_drop, Ed. done. }
    assert (bp < b) by (eapply (Hgt (S k)); [lia|done]).
    destruct (Z.ltb_spec p bp); [|lia]. by destruct (Z.ltb_spec bp b); [|lia].
Qed.

(** A block that is not the place: the loop goes on to the next one. *)
Lemma free_loop_next l bp k i a s fuel h :
  linked (words h) l base_ -> StronglySorted before l -> (forall a s, (a, s) ∈ l -> base_ <= a) -> base_ < bp ->
  place l bp k -> (forall j b t, l !! j = Some (b, t) -> b <> bp) -> l !! i = Some (a, s) -> i <> k ->
  free_loop (S fuel) bp a h = free_loop fuel bp (first_of (drop (S i) l) base_) h.
Proof.
  intros Hl Hs Hb Hbp [(p & ps & Hk & Hlt) Hgt] Hne Hi Hik.
  destruct (linked_lookup _ _ _ _ _ _ Hl Hi) as [Hn _]. cbn [free_loop].
  rewrite (bind_get_ptr _ _ _ _ Hn).
  assert (base_ <= a) by (eapply Hb; by eapply list_elem_of_lookup_2).
  destruct (drop (S i) l) as [|[b t] r] eqn:Ed; cbn [first_of].
  - assert (k < i)%nat.
    { assert (length l <= S i)%nat by (apply (f_equal length) in Ed; rewrite length_drop in Ed; simpl in Ed; lia).
      apply lookup_lt_Some in Hk. lia. }
    assert (bp < a) by (by eapply Hgt).
    destruct (Z.ltb_spec a bp); [lia|]. destruct (Z.ltb_spec bp base_); [lia|]. cbn [andb orb]. by rewrite andb_false_r.
  - assert (Hb' : l !! S i = Some (b, t)).
    { rewrite <- (Nat.add_0_r (S i)), <- lookup_drop, Ed. done. }
    destruct (sorted_lookup _ _ i (S i) _ _ Hs ltac:(lia) Hi Hb') as [Hab _]. simpl in Hab.
    assert (Hcond : (a <? bp) && (bp <? b) = false).
    { destruct (decide (i < k)%nat) as [Hik'|].
      - destruct (Z.ltb_spec bp b); [|by rewrite andb_false_r].
        destruct (decide (S i = k)) as [<-|]; [rewrite Hk in Hb'; injection Hb' as -> ->; lia|].
        destruct (sorted_lookup _ _ (S i) k _ _ Hs ltac:(lia) Hb' Hk) as [Hbk _]. simpl in Hbk. lia.
      - destruct (Z.ltb_spec a bp); [|done]. assert (bp < a) by (eapply Hgt; [|done]; lia). lia. }
    rewrite Hcond. by destruct (Z.leb_spec b a); [lia|].
Qed.

Lemma first_of_drop (l : list block) i b t e : l !! i = Some (b, t) -> first_of (drop i l) e = b.
Proof. intros Hi. by rewrite (drop_S _ _ _ Hi). Qed.

Section Search.
Context (h : heap B) (bl : list block) (bp : Z) (k : nat) (p ps : Z).
Let l := (base_, 0) :: bl.
Hypothesis Hl : linked (words h) l base_.
Hypothesis Hs : StronglySorted before l.
Hypothesis Hbp : base_ < bp.
Hypothesis Hk : l !! k = Some (p, ps).
Hypothesis Hplace : place l bp k.
Hypothesis Hne : forall j b t, l !! j = Some (b, t) -> b <> bp.

Lemma search_base a s : (a, s) ∈ l -> base_ <= a.
Proof.
  intros [i Hi]%list_elem_of_lookup. destruct i as [|i]; [by injection Hi as <- _; lia|].
  destruct (sorted_lookup _ _ 0 (S i) _ _ Hs ltac:(lia) eq_refl Hi). simpl in *. lia.
Qed.

Lemma search_up n i a s fuel :
  (k = i + n)%nat -> l !! i = Some (a, s) -> (n < fuel)%nat -> free_loop fuel bp a h = Ret p h.
Proof.
  revert i a s fuel. induction n as [|n IH]; intros i a s fuel Hn Hi Hf; (destruct fuel as [|fuel]; [lia|]).
  - replace i with k in Hi by lia. rewrite Hk in Hi. injection Hi as <- <-.
    eapply free_loop_stop; try done. apply search_base.
  - erewrite free_loop_next; try done; [|apply search_base|lia].
    destruct (l !! S i) as [[b t]|] eqn:Hsi.
    + rewrite (first_of_drop _ _ _ _ _ Hsi). eapply (IH (S i)); [lia|done|lia].
    + apply lookup_ge_None in Hsi. apply lookup_lt_Some in Hk. lia.
Qed.

Lemma search_run i a s fuel : l !! i = Some (a, s) -> (length l <= fuel)%nat -> free_loop fuel bp a h = Ret p h.
Proof.
  intros Hi Hf. pose proof (lookup_lt_Some _ _ _ Hk) as Hkl.
  destruct (decide (i <= k)%nat) as [Hik|Hik]; [eapply (search_up (k - i) i); [lia|done|lia]|].
  assert (Hfuel : (length l - i + k < fuel)%nat) by lia. clear Hf.
  pose proof (lookup_lt_Some _ _ _ Hi) as Hil. remember (length l - i)%nat as n eqn:En.
  revert i a s fuel Hi Hik Hfuel Hil En. induction n as [|n IH]; intros; [lia|].
  destruct fuel as [|fuel]; [lia|]. erewrite free_loop_next; try done; [|apply search_base|lia].
  destruct (l !! S i) as [[b t]|] eqn:Hsi.
  - rewrite (first_of_drop _ _ _ _ _ Hsi). pose proof (lookup_lt_Some _ _ _ Hsi).
    eapply (IH (S i)); [done|lia|lia|lia|lia].
  - rewrite drop_ge by (by apply lookup_ge_None). cbn [first_of].
    eapply (search_up k 0); [lia|reflexivity|lia].
Qed.
End Search.

(** Every address above [base] that is no block has a place. *)
Lemma place_exists bl bp :
  StronglySorted before ((base_, 0) :: bl) -> base_ < bp -> (forall a s, (a, s) ∈ bl -> a <> bp) ->
  exists pre p ps post, (base_, 0) :: bl = pre ++ (p, ps) :: post /\ p < bp /\ (forall a s, (a, s) ∈ post -> bp < a).
Proof.
  generalize 0 as s0. generalize base_ as b0. induction bl as [|[a s] bl IH]; intros b0 s0 Hs Hlt Hne.
  - exists [], b0, s0, []. split_and!; try done. by intros ? ? ?%elem_of_nil.
  - inversion Hs as [|? ? Hs' Hf]; subst.
    destruct (decide (a < bp)) as [Ha|Ha].
    + destruct (IH a s Hs' Ha) as (pre & p & ps & post & E & ? & ?); [intros x t Hx; apply (Hne x t); by right|].
      exists ((b0, s0) :: pre), p, ps, post. rewrite E. done.
    + exists [], b0, s0, ((a, s) :: bl). split_and!; try done.
      assert (a <> bp) by (apply (Hne a s); left).
      intros x t [[= -> ->]|Hx]%elem_of_cons; [lia|].
      inversion Hs' as [|? ? _ Hf']; subst. rewrite Forall_forall in Hf'. destruct (Hf' _ Hx). simpl in *. lia.
Qed.

(** Only the header at [a] differs. *)
Definition header_only (a : Z) (w w' : gmap Z Z) : Prop := forall x, x <> a -> x <> a + 4 -> w' !! x = w !! x.

Lemma units_eq p n : 0 <= p + 8 * n < 2 ^ 32 -> units p n = p + 8 * n.
Proof. apply u32_small. Qed.

(** The block [bp] is linked to what follows and joined with it if adjacent. *)
Lemma join_right h bp s post t0 :
  linked (words h) post base_ -> words h !! (bp + 4) = Some s -> StronglySorted before post ->
  0 < base_ < bp -> 0 < s -> bp + 8 * s <= t0 <= 2 ^ 31 -> (forall b t, (b, t) ∈ post -> bp + 8 * s <= b /\ 0 < t /\ b + 8 * t <= t0) ->
  exists s1 post1 w1, (if units bp s =? first_of post base_ then
       ns <~ get_size (first_of post base_);;; put_size bp (u32 (s + ns));;;
       nn <~ get_ptr (first_of post base_);;; put_ptr bp nn
     else put_ptr bp (first_of post base_)) h = Ret tt (set_words w1 h) /\
    w1 !! bp = Some (first_of post1 base_) /\ w1 !! (bp + 4) = Some s1 /\ header_only bp (words h) w1 /\
    (forall b t, (b, t) ∈ post1 -> (b, t) ∈ post /\ bp + 8 * s1 < b) /\ StronglySorted before post1 /\
    linked (words h) post1 base_ /\ (s1 = s /\ post1 = post \/ exists t, post = (bp + 8 * s, t) :: post1 /\ s1 = s + t).
Proof.
  intros Hl Hw Hs Hb Hs0 Htop Hpost. rewrite units_eq by lia.
  destruct (Z.eqb_spec (bp + 8 * s) (first_of post base_)) as [E|Hne].
  - destruct post as [|[b t] post]; cbn [first_of] in E |- *; [lia|]. subst b.
    destruct Hl as (Hp & Hsz & Hl). inversion Hs as [|? ? Hs' Hf]; subst.
    destruct (Hpost (bp + 8 * s) t) as (_ & Ht & Htt); [left|].
    rewrite (bind_get_size _ _ _ _ Hsz). unfold put_size, put_ptr. rewrite bind_modify.
    erewrite bind_get_ptr by (simpl; rewrite lookup_insert_ne by lia; exact Hp).
    exists (s + t), post, (<[bp := first_of post base_]> (<[bp + 4 := u32 (s + t)]> (words h))).
    rewrite u32_small by lia. split; [done|]. split; [by rewrite lookup_insert_eq|].
    split; [by rewrite lookup_insert_ne, lookup_insert_eq by lia|].
    split; [by intros x ??; rewrite !lookup_insert_ne by done|].
    split_and!; try done; [|by right; exists t]. intros b t' Hb'. split; [by right|].
    rewrite Forall_forall in Hf. destruct (Hf _ Hb') as [_ Hlt]. simpl in Hlt. lia.
  - exists s, post, (<[bp := first_of post base_]> (words h)). split; [done|].
    split; [by rewrite lookup_insert_eq|]. split; [by rewrite lookup_insert_ne by lia|].
    split; [by intros x ??; rewrite lookup_insert_ne by done|]. split_and!; try done; [|by left].
    intros b t Hbt. split; [done|]. destruct (Hpost b t Hbt) as (Hle & _).
    destruct post as [|[c tc] post]; [by apply elem_of_nil in Hbt|]. cbn [first_of] in Hne.
    apply elem_of_cons in Hbt as [[= -> ->]|Hbt]; [lia|].
    inversion Hs as [|? ? _ Hf]; subst. rewrite Forall_forall in Hf. destruct (Hf _ Hbt) as [Hc _].
    destruct (Hpost c tc) as (Hle' & _); [left|]. simpl in Hc. lia.
Qed.

(** The block [p] is linked to the block [bp] behind it or joined with it. *)
Lemma join_left h p ps bp s1 n1 t0 :
  words h !! bp = Some n1 -> words h !! (bp + 4) = Some s1 -> 0 < p -> 0 <= ps -> 0 < s1 ->
  p + 8 <= bp -> p + 8 * ps <= bp -> bp + 8 * s1 <= t0 <= 2 ^ 31 ->
  exists w2, (if units p ps =? bp then
       s <~ get_size bp;;; put_size p (u32 (ps + s));;; n <~ get_ptr bp;;; put_ptr p n
     else put_ptr p bp) h = Ret tt (set_words w2 h) /\ header_only p (words h) w2 /\
    w2 !! p = Some (if decide (p + 8 * ps = bp) then n1 else bp) /\
    w2 !! (p + 4) = (if decide (p + 8 * ps = bp) then Some (ps + s1) else words h !! (p + 4)).
Proof.
  intros Hn Hs Hp Hps Hs1 Hpb Hle Htop. rewrite units_eq by lia.
  destruct (Z.eqb_spec (p + 8 * ps) bp) as [E|Hne].
  - rewrite (bind_get_size _ _ _ _ Hs). unfold put_size, put_ptr. rewrite bind_modify.
    erewrite bind_get_ptr by (simpl; rewrite lookup_insert_ne by lia; exact Hn).
    eexists. split; [reflexivity|]. rewrite !decide_True by done. rewrite u32_small by lia.
    split; [by intros x ??; simpl; rewrite !lookup_insert_ne by done|]. simpl.
    by rewrite lookup_insert_eq, lookup_insert_ne, lookup_insert_eq by lia.
  - eexists. split; [reflexivity|]. rewrite !decide_False by done.
    split; [by intros x ??; rewrite lookup_insert_ne by done|].
    by rewrite lookup_insert_eq, lookup_insert_ne by lia.
Qed.

(** A block of the list: [base], or one in the heap apart from those in use. *)
Definition good (t : Z) (u : gmap Z Z) (x : block) : Prop :=
  x = (base_, 0) \/ in_heap t x.1 x.2 /\ forall b c, u !! b = Some c -> apart x.1 x.2 b c.

Lemma heap_ok_good h bl u x : heap_ok h bl u -> x ∈ (base_, 0) :: bl -> good (top (brk h)) u x.
Proof.
  intros Hok [->|Hx]%elem_of_cons; [by left|]. right. destruct x as [a s]. split; [by eapply ho_free|].
  intros b c Hb. by eapply ho_apart.
Qed.

Lemma heap_ok_intro h l u :
  0 < base_ -> top (brk h) <= 2 ^ 31 -> (exists bl, l = (base_, 0) :: bl) ->
  linked (words h) l base_ -> StronglySorted before l -> (forall x, x ∈ l -> good (top (brk h)) u x) ->
  (forall a s, u !! a = Some s -> in_heap (top (brk h)) a s /\ words h !! (a + 4) = Some s) ->
  (forall a s b t, u !! a = Some s -> u !! b = Some t -> a <> b -> apart a s b t) ->
  (exists s, (freep h, s) ∈ l) -> heap_ok h (tail l) u.
Proof.
  intros Hb Ht [bl ->] Hl Hs Hg Hu Huu [s Hf]. simpl.
  assert (Hin : forall a s, (a, s) ∈ bl -> in_heap (top (brk h)) a s /\ forall b c, u !! b = Some c -> apart a s b c).
  { intros a s' Ha. destruct (Hg (a, s')) as [[= -> ->]|Hg']; [by right| |done].
    inversion Hs as [|? ? _ Hf']; subst. rewrite Forall_forall in Hf'. destruct (Hf' _ Ha). simpl in *. lia. }
  split; try done.
  - intros a s' Ha. by apply Hin.
  - intros a s' b t Ha Hb'. by apply (Hin a s' Ha).
  - apply list_elem_of_lookup in Hf as [i Hi]. by exists i, s.
Qed.

(** The list with the block [(bp, s1)] behind [(p, ps)]. *)
Definition with_block (pre : list block) (p ps bp s1 : Z) (post1 : list block) : list block :=
  if decide (p + 8 * ps = bp) then pre ++ (p, ps + s1) :: post1 else pre ++ (p, ps) :: (bp, s1) :: post1.

Lemma with_block_linked w w2 pre p ps bp s1 post1 :
  linked w pre p -> linked w post1 base_ ->
  (forall a s, (a, s) ∈ pre -> a + 8 <= p) -> p + 8 <= bp -> (forall a s, (a, s) ∈ post1 -> bp + 8 <= a) ->
  (forall x, x <> bp -> x <> bp + 4 -> x <> p -> x <> p + 4 -> w2 !! x = w !! x) ->
  w2 !! p = Some (if decide (p + 8 * ps = bp) then first_of post1 base_ else bp) ->
  w2 !! (p + 4) = Some (if decide (p + 8 * ps = bp) then ps + s1 else ps) ->
  w2 !! bp = Some (first_of post1 base_) -> w2 !! (bp + 4) = Some s1 ->
  linked w2 (with_block pre p ps bp s1 post1) base_.
Proof.
  intros Hpre Hpost Hp Hpb Hpo Hw H1 H2 H3 H4.
  assert (Hpre2 : linked w2 pre p).
  { eapply linked_frame; [|exact Hpre]. intros a s Ha. specialize (Hp a s Ha). split; apply Hw; lia. }
  assert (Hpost2 : linked w2 post1 base_).
  { eapply linked_frame; [|exact Hpost]. intros a s Ha. specialize (Hpo a s Ha). split; apply Hw; lia. }
  unfold with_block. destruct (decide _); apply linked_app; simpl; split_and!; done.
Qed.

Lemma with_block_units pre p ps bp s1 post1 :
  free_units (with_block pre p ps bp s1 post1) = free_units pre + ps + s1 + free_units post1.
Proof. unfold with_block. destruct (decide _); rewrite free_units_app; simpl; lia. Qed.

Lemma with_block_sorted pre p ps bp s1 post1 :
  StronglySorted before (pre ++ [(p, ps)]) -> StronglySorted before post1 -> p + 8 <= bp -> p + 8 * ps <= bp -> 0 < s1 ->
  (forall b t, (b, t) ∈ post1 -> bp + 8 * s1 < b) ->
  StronglySorted before (with_block pre p ps bp s1 post1).
Proof.
  intros Hpre Hpost Hpb Hle Hs1 Hgt. apply sorted_app in Hpre as (Hpre & _ & Hpp).
  assert (Hp1 : forall x, x ∈ pre -> x.1 + 8 <= p /\ x.1 + 8 * x.2 < p).
  { intros x Hx. destruct (Hpp x (p, ps) Hx); [left|done]. }
  assert (Hbp : Forall (before (bp, s1)) post1).
  { apply Forall_forall. intros [b t] Hb. specialize (Hgt b t Hb). split; simpl; lia. }
  unfold with_block. destruct (decide _) as [E|Hne]; apply sorted_app; split_and!; try done.
  - constructor; [done|]. apply Forall_forall. intros [b t] Hb. specialize (Hgt b t Hb). split; simpl; lia.
  - intros [a s] y Ha Hy. specialize (Hp1 _ Ha). simpl in Hp1.
    apply elem_of_cons in Hy as [->|Hy]; [split; simpl; lia|]. destruct y as [b t]. specialize (Hgt b t Hy). split; simpl; lia.
  - constructor; [by constructor|]. constructor; [split; simpl; lia|].
    apply Forall_forall. intros [b t] Hb. specialize (Hgt b t Hb). split; simpl; lia.
  - intros [a s] y Ha Hy. specialize (Hp1 _ Ha). simpl in Hp1.
    apply elem_of_cons in Hy as [->|[->|Hy]%elem_of_cons]; [split; simpl; lia..|].
    destruct y as [b t]. specialize (Hgt b t Hy). split; simpl; lia.
Qed.

(** Two adjacent blocks apart from a third are apart from it when joined. *)
Lemma apart_join a s t b c : 0 < c -> 0 < s -> 0 < t -> apart a s b c -> apart (a + 8 * s) t b c -> apart a (s + t) b c.
Proof. unfold apart. lia. Qed.

Lemma with_block_good t u pre p ps bp s1 post1 :
  (forall x, x ∈ pre -> good t u x) -> good t u (p, ps) -> good t u (bp, s1) -> (forall x, x ∈ post1 -> good t u x) ->
  p < bp -> (forall b c, u !! b = Some c -> 0 < c) ->
  forall x, x ∈ with_block pre p ps bp s1 post1 -> good t u x.
Proof.
  intros Hpre Hp Hbp Hpost Hlt Hu x. unfold with_block.
  destruct (decide _) as [E|]; rewrite elem_of_app, !elem_of_cons; [|naive_solver].
  intros [Hx|[->|Hx]]; [by apply Hpre| |by apply Hpost].
  destruct Hp as [[= -> ->]|[Hp1 Hp2]]; [lia|]. destruct Hbp as [[= -> ->]|[Hb1 Hb2]]; [unfold in_heap in *; simpl in *; lia|].
  right. unfold in_heap in *. simpl in *. split; [lia|]. intros b c Hb.
  apply apart_join; [by eapply Hu|lia|lia|by apply Hp2|rewrite E; by apply Hb2].
Qed.

(** Where a loose block belongs. *)
Record spot h (bl : list block) (u : gmap Z Z) (bp s : Z) pre p ps post : Prop := {
  sp_list : (base_, 0) :: bl = pre ++ (p, ps) :: post;
  sp_pos : 0 < p /\ 0 <= ps /\ p + 8 <= bp /\ p + 8 * ps <= bp;
  sp_post : forall b t, (b, t) ∈ post -> bp + 8 * s <= b /\ 0 < t /\ b + 8 * t <= top (brk h);
  sp_good : forall x, x ∈ pre ++ (p, ps) :: post -> good (top (brk h)) u x;
  sp_links : linked (words h) pre p /\ words h !! p = Some (first_of post base_) /\ words h !! (p + 4) = Some ps /\
             linked (words h) post base_;
  sp_sorted : StronglySorted before (pre ++ [(p, ps)]) /\ StronglySorted before post
}.

Lemma spot_exists h bl u bp s :
  heap_ok h bl u -> loose h bl u bp s -> exists pre p ps post, spot h bl u bp s pre p ps post.
Proof.
  intros Hok [(Hs0 & Hge & Hle) Hsz Hlf Hlu]. pose proof Hok as [Hb Ht Hl Hs Hf _ _ _ _].
  destruct (place_exists bl bp Hs) as (pre & p & ps & post & E & Hlt & Hgt); [lia|..].
  { intros a c Ha ->. destruct (Hlf bp c Ha); destruct (Hf bp c Ha); lia. }
  assert (Hbl : forall a c, (a, c) ∈ pre ++ (p, ps) :: post -> (a, c) = (base_, 0) \/ (a, c) ∈ bl).
  { intros a c Ha. rewrite <- E in Ha. by apply elem_of_cons in Ha. }
  exists pre, p, ps, post. split; [done|..].
  - destruct (Hbl p ps) as [[= -> ->]|Hp]; [set_solver|lia|].
    destruct (Hf p ps Hp) as (? & ? & ?). destruct (Hlf p ps Hp); lia.
  - intros b t Hbt. specialize (Hgt b t Hbt). destruct (Hbl b t) as [[= -> ->]|Hp]; [set_solver|lia|].
    destruct (Hf b t Hp) as (? & ? & ?). destruct (Hlf b t Hp); lia.
  - intros x Hx. eapply heap_ok_good; [exact Hok|by rewrite E].
  - rewrite E in Hl. apply linked_app in Hl as [Hlpre (Hwp & Hwps & Hlpost)]. done.
  - rewrite E in Hs. replace (pre ++ (p, ps) :: post) with ((pre ++ [(p, ps)]) ++ post) in Hs by (by rewrite <- app_assoc).
    by apply sorted_app in Hs as (? & ? & _).
Qed.

(** The loop of [free] finds the spot. *)
Lemma spot_search h bl u bp s pre p ps post :
  heap_ok h bl u -> loose h bl u bp s -> spot h bl u bp s pre p ps post ->
  free_loop (S (size (words h))) bp (freep h) h = Ret p h.
Proof.
  intros Hok [(Hs0 & Hge & Hle) _ Hlf _] [E Hpp Hpost _ _ _].
  pose proof Hok as [Hb Ht Hl Hs Hf _ _ _ (fi & fs & Hfp)].
  eapply (search_run h bl bp (length pre) p ps); try done; [lia|..].
  - rewrite E. by apply list_lookup_middle.
  - split; [exists p, ps; split; [rewrite E; by apply list_lookup_middle|lia]|].
    intros j a c Hj Hja. rewrite E, lookup_app_r in Hja by lia.
    replace (j - length pre)%nat with (S (j - length pre - 1)) in Hja by lia.
    simpl in Hja. apply list_elem_of_lookup_2 in Hja. destruct (Hpost a c Hja). lia.
  - intros j b t Hj Hbt. destruct j as [|j]; [injection Hj as <- <-; lia|].
    apply (list_elem_of_lookup_2 bl j) in Hj. subst b. destruct (Hf bp t Hj) as (? & ? & ?). destruct (Hlf bp t Hj); lia.
  - pose proof (linked_length _ _ _ Hs Hl). lia.
Qed.

(** The run of [free] on a loose block: the words it leaves, in terms of the
    block joined with its successor. *)
Lemma free_run h bl u bp s pre p ps post :
  heap_ok h bl u -> loose h bl u bp s -> spot h bl u bp s pre p ps post ->
  exists s1 post1 w2, free (bp + 8) h = Ret tt (Heap p w2 (brk h)) /\
    linked w2 (with_block pre p ps bp s1 post1) base_ /\
    (forall x, x <> bp -> x <> bp + 4 -> x <> p -> x <> p + 4 -> w2 !! x = words h !! x) /\
    (forall b t, (b, t) ∈ post1 -> (b, t) ∈ post /\ bp + 8 * s1 < b) /\ StronglySorted before post1 /\
    (s1 = s /\ post1 = post \/ exists t, post = (bp + 8 * s, t) :: post1 /\ s1 = s + t).
Proof.
  intros Hok Hlo Hsp. pose proof Hlo as [(Hs0 & Hge & Hle) Hsz Hlf Hlu]. pose proof Hok as [Hb Ht _ _ _ _ _ _ _].
  pose proof Hsp as [E Hpp Hpost _ (Hlpre & Hwp & Hwps & Hlpost) [Hspre Hspost]].
  destruct (join_right h bp s post (top (brk h)) Hlpost Hsz Hspost) as (s1 & post1 & w1 & Er & W1 & W2 & W3 & Hp1 & Hsp1 & Hlp1 & Hcase); [lia..|done|].
  assert (Hs1 : 0 < s1 /\ bp + 8 * s1 <= top (brk h)).
  { destruct Hcase as [[-> ->]|(t & -> & ->)]; [lia|]. destruct (Hpost (bp + 8 * s) t) as (_ & ? & ?); [left|]. lia. }
  assert (Hw1ps : w1 !! (p + 4) = Some ps) by (rewrite W3 by lia; done).
  destruct (join_left (set_words w1 h) p ps bp s1 (first_of post1 base_) (top (brk h))) as (w2 & El & Hw2 & W4 & W5); [done|done|lia..|].
  exists s1, post1, w2. assert (Hoff : forall x, x <> bp -> x <> bp + 4 -> x <> p -> x <> p + 4 -> w2 !! x = words h !! x).
  { intros x ????. rewrite Hw2 by done. by apply W3. }
  split; [|split; [|done]].
  - unfold free. replace (units (bp + 8) (-1)) with bp by (rewrite units_eq; lia). rewrite !bind_gets.
    rewrite (bind_Ret _ _ _ _ _ (spot_search _ _ _ _ _ _ _ _ _ Hok Hlo Hsp)).
    rewrite (bind_get_ptr _ _ _ _ Hwp), (bind_get_size _ _ _ _ Hsz), (bind_Ret _ _ _ _ _ Er).
    rewrite (bind_get_size p _ (set_words w1 h) _ Hw1ps), (bind_Ret _ _ _ _ _ El). done.
  - apply (with_block_linked (words h)); try done; [|lia|..].
    + intros a c Ha. apply sorted_app in Hspre as (_ & _ & Hpp'). destruct (Hpp' (a, c) (p, ps) Ha); [left|done].
    + intros a c Ha. destruct (Hp1 a c Ha). lia.
    + rewrite W5. simpl. rewrite Hw1ps. by destruct (decide _).
    + rewrite Hw2 by lia. done.
    + rewrite Hw2 by lia. done.
Qed.

(** [free] of a loose block. *)
Lemma free_insert h bl u bp s :
  heap_ok h bl u -> loose h bl u bp s ->
  exists h' bl', free (bp + 8) h = Ret tt h' /\ heap_ok h' bl' u /\ free_units bl' = free_units bl + s /\
    brk h' = brk h /\ kept u h h' /\ (length bl' <= S (length bl))%nat /\ (exists a c, (a, c) ∈ bl' /\ s <= c).
Proof.
  intros Hok Hlo. destruct (spot_exists h bl u bp s Hok Hlo) as (pre & p & ps & post & Hsp).
  destruct (free_run h bl u bp s pre p ps post Hok Hlo Hsp) as (s1 & post1 & w2 & Ef & Hl2 & Hoff & Hp1 & Hsp1 & Hcase).
  pose proof Hlo as [(Hs0 & Hge & Hle) Hsz Hlf Hlu]. pose proof Hok as [Hb Ht _ _ Hf Hu _ Huu _].
  destruct Hsp as [E Hpp Hpost Hgood _ [Hspre Hspost]].
  assert (Hhead : exists bl', with_block pre p ps bp s1 post1 = (base_, 0) :: bl').
  { unfold with_block. destruct pre as [|x pre]; simpl in E.
    - injection E as <- <- <-. rewrite decide_False by lia. by eexists.
    - injection E as <- ->. destruct (decide _); by eexists. }
  destruct Hhead as [bl' Ebl']. exists (Heap p w2 (brk h)), bl'. split; [done|].
  assert (Hgb : good (top (brk h)) u (bp, s1)).
  { right. destruct Hcase as [[-> ->]|(t & -> & ->)]; [by split|]. simpl.
    destruct (Hpost (bp + 8 * s) t) as (_ & ? & ?); [left|]. split; [unfold in_heap; lia|].
    intros b c Hbc. destruct (Hu b c Hbc) as [(? & _) _]. apply apart_join; [done..|by apply Hlu|].
    destruct (Hgood (bp + 8 * s, t)) as [[= Hx1 Hx2]|[_ Ha]]; [set_solver|lia|by apply Ha]. }
  assert (Hkept : kept u h (Heap p w2 (brk h))).
  { intros b t x Hbt Hx. simpl. destruct (Hlu b t Hbt) as [H1|H1];
      (destruct (Hgood (p, ps)) as [[= -> ->]|[H2 H3]]; [set_solver| |]);
      [destruct (Hu b t Hbt) as [(? & ? & ?) _]; apply Hoff; lia| |destruct (Hu b t Hbt) as [(? & ? & ?) _]; apply Hoff; lia|];
      unfold in_heap in H2; simpl in H2; destruct (H3 b t Hbt) as [H4|H4]; simpl in H4; apply Hoff; lia. }
  assert (Hs1 : 0 < s1 /\ s <= s1 /\ s1 + free_units post1 = s + free_units post).
  { destruct Hcase as [[-> ->]|(t & -> & ->)]; [lia|]. destruct (Hpost (bp + 8 * s) t) as (_ & ? & ?); [left|]. simpl. lia. }
  split_and!; try done.
  - change bl' with (tail ((base_, 0) :: bl')). rewrite <- Ebl'. apply heap_ok_intro; try done; [by exists bl'|..].
    + apply with_block_sorted; try done; [lia..|]. intros b t Hbt. by destruct (Hp1 b t Hbt).
    + apply with_block_good; try done; [|by apply Hgood; set_solver| |lia|].
      * intros x Hx. apply Hgood. set_solver.
      * intros [b t] Hx. apply Hgood. destruct (Hp1 b t Hx). set_solver.
      * intros b c Hbc. by destruct (Hu b c Hbc) as [(? & _) _].
    + intros a c Hac. destruct (Hu a c Hac) as [Hi Hw]. split; [done|].
      rewrite (Hkept a c) by (done || (destruct Hi; lia)). done.
    + simpl. unfold with_block. destruct (decide _); [exists (ps + s1)|exists ps]; rewrite elem_of_app, elem_of_cons; auto.
  - assert (Hun : free_units ((base_, 0) :: bl') = free_units ((base_, 0) :: bl) + s); [|simpl in Hun; lia].
    rewrite <- Ebl', E, with_block_units, free_units_app. simpl. lia.
  - assert (Hlen : (length ((base_, 0%Z) :: bl') <= S (length ((base_, 0%Z) :: bl)))%nat); [|simpl in Hlen; lia].
    rewrite <- Ebl', E. unfold with_block. destruct Hcase as [[_ ->]|(t & -> & _)]; destruct (decide _); rewrite !length_app; simpl; lia.
  - assert (Hex : exists a c, (a, c) ∈ with_block pre p ps bp s1 post1 /\ s <= c).
    { unfold with_block. destruct (decide _); [exists p, (ps + s1)|exists bp, s1]; (split; [rewrite elem_of_app, !elem_of_cons; auto|lia]). }
    destruct Hex as (a & c & Ha & Hc). rewrite Ebl' in Ha. apply elem_of_cons in Ha as [[= -> ->]|Ha]; [lia|].
    by exists a, c.
Qed.

Lemma heap_ok_delete h bl u a s :
  heap_ok h bl u -> u !! a = Some s -> heap_ok h bl (delete a u) /\ loose h bl (delete a u) a s.
Proof.
  intros [Hb Ht Hl Hs Hf Hu Hap Huu Hfp] Ha.
  assert (Hdel : forall b t, delete a u !! b = Some t -> u !! b = Some t /\ b <> a) by (intros b t [??]%lookup_delete_Some; done).
  destruct (Hu a s Ha) as [Hi Hw]. split; split; try done.
  - intros b t [Hb' _]%Hdel. by apply Hu.
  - intros b t c d Hbt [Hc _]%Hdel. by eapply Hap.
  - intros b t c d [Hb' _]%Hdel [Hc _]%Hdel. by apply Huu.
  - intros b t Hbt. destruct (Hap b t a s Hbt Ha) as [|]; unfold apart; lia.
  - intros b t [Hb' Hne]%Hdel. by apply Huu.
Qed.

(** ** malloc *)

(** The block [(a, s)] behind [(q, qs)] in the list. *)
Record taken h (bl : list block) (u : gmap Z Z) pre q qs a s post : Prop := {
  ta_list : (base_, 0) :: bl = pre ++ (q, qs) :: (a, s) :: post;
  ta_heap : in_heap (top (brk h)) a s;
  ta_good : forall x, x ∈ pre ++ (q, qs) :: post -> good (top (brk h)) u x;
  ta_used : forall b t, u !! b = Some t -> apart a s b t /\ (q + 8 <= b \/ b + 8 * t <= q);
  ta_pre : forall x, x ∈ pre -> x.1 + 8 <= q /\ x.1 + 8 * x.2 < a;
  ta_q : q + 8 <= a /\ q + 8 * qs < a;
  ta_post : forall x, x ∈ post -> a + 8 * s < x.1;
  ta_links : linked (words h) pre q /\ words h !! q = Some a /\ words h !! (q + 4) = Some qs /\
             words h !! a = Some (first_of post base_) /\ words h !! (a + 4) = Some s /\ linked (words h) post base_;
  ta_sorted : StronglySorted before pre /\ StronglySorted before post /\
              (forall x, x ∈ pre -> before x (q, qs)) /\ (forall x y, x ∈ pre -> y ∈ post -> before x y) /\
              (forall y, y ∈ post -> before (q, qs) y)
}.

Lemma taken_intro h bl u pre q qs a s post :
  heap_ok h bl u -> (base_, 0) :: bl = pre ++ (q, qs) :: (a, s) :: post -> taken h bl u pre q qs a s post.
Proof.
  intros Hok E. pose proof Hok as [Hb Ht Hl Hs Hf Hu Hap Huu _]. rewrite E in Hl, Hs.
  apply linked_app in Hl as (L1 & L2 & L3 & L4 & L5 & L6). simpl in L1, L2.
  apply sorted_app in Hs as (S1 & S2 & S3). inversion S2 as [|? ? S2' F1]; subst. inversion S2' as [|? ? S4 F2]; subst.
  inversion F1 as [|? ? [Hqa1 Hqa2] F1']; subst. simpl in Hqa1, Hqa2. rewrite Forall_forall in F1', F2.
  assert (Hg : forall x, x ∈ pre ++ (q, qs) :: (a, s) :: post -> good (top (brk h)) u x).
  { intros x Hx. eapply heap_ok_good; [exact Hok|by rewrite E]. }
  assert (Hq : q = base_ /\ qs = 0 \/ in_heap (top (brk h)) q qs /\ forall b c, u !! b = Some c -> apart q qs b c).
  { destruct (Hg (q, qs)) as [[= -> ->]|?]; [set_solver|by left|by right]. }
  assert (Ha : in_heap (top (brk h)) a s /\ forall b c, u !! b = Some c -> apart a s b c).
  { destruct (Hg (a, s)) as [[= -> ->]|?]; [set_solver| |done]. unfold in_heap in Hq. lia. }
  split; try done.
  - apply Ha.
  - intros x Hx. apply Hg. set_solver.
  - intros b t Hbt. split; [by apply Ha|]. destruct (Hu b t Hbt) as [(? & ? & ?) _].
    destruct Hq as [[-> ->]|[(? & ? & ?) Hq]]; [lia|]. destruct (Hq b t Hbt); lia.
  - intros x Hx. destruct (S3 x (q, qs) Hx) as [? _]; [left|]. destruct (S3 x (a, s) Hx) as [_ ?]; [set_solver|]. done.
  - intros x Hx. by destruct (F2 x Hx).
  - split_and!; try done.
    + intros x Hx. apply S3; [done|left].
    + intros x y Hx Hy. apply S3; [done|set_solver].
Qed.

(** Use of the part [(r, n)] at the end of the block: [post'] is the rest of
    the block, if any, and the blocks behind it. *)
Lemma taken_ok h bl u pre q qs a s post r n post' w' :
  heap_ok h bl u -> taken h bl u pre q qs a s post -> a <= r -> r + 8 * n = a + 8 * s -> 0 < n ->
  (post' = post /\ r = a \/ post' = (a, s - n) :: post /\ n < s) ->
  linked w' (pre ++ (q, qs) :: post') base_ -> w' !! (r + 4) = Some n ->
  (forall x, x <> q -> x <> a + 4 -> x <> r + 4 -> w' !! x = words h !! x) ->
  let h' := Heap q w' (brk h) in
  exists bl', heap_ok h' bl' (<[r := n]> u) /\ u !! r = None /\ kept u h h' /\ free_units bl' + n = free_units bl.
Proof.
  intros Hok [E Hin Hg Hu2 Hpre Hq Hpost _ (S1 & S2 & S3 & S4 & S5)] Har Hrn Hn Hcase Hl Hwr Hoff h'.
  pose proof Hok as [Hb Ht _ _ _ Hu _ Huu _]. destruct Hin as (Hs0 & Ha1 & Ha2).
  assert (Hhead : exists bl', pre ++ (q, qs) :: post' = (base_, 0) :: bl').
  { destruct pre as [|x pre]; simpl in E; [injection E as <- <- _|injection E as <- _]; by eexists. }
  destruct Hhead as [bl' Ebl']. exists bl'.
  assert (Hnone : u !! r = None).
  { destruct (u !! r) as [t|] eqn:Hr; [|done]. destruct (Hu r t Hr) as [(? & _) _].
    destruct (Hu2 r t Hr) as [[|] _]; lia. }
  assert (Hkept : kept u h h').
  { intros b t x Hbt Hx. destruct (Hu2 b t Hbt) as [Hab Hqb]. destruct (Hu b t Hbt) as [(? & _) _].
    apply Hoff; destruct Hab, Hqb; lia. }
  assert (Hrb : forall b t, u !! b = Some t -> apart r n b t).
  { intros b t Hbt. destruct (Hu b t Hbt) as [(? & _) _]. destruct (Hu2 b t Hbt) as [[|] _]; [left|right]; lia. }
  assert (Hpost' : forall x, x ∈ post' -> x ∈ post \/ x = (a, s - n) /\ n < s).
  { destruct Hcase as [[-> _]|[-> ?]]; [by left|]. intros x [->|?]%elem_of_cons; [by right|by left]. }
  split; [|split_and!; try done].
  - change bl' with (tail ((base_, 0) :: bl')). rewrite <- Ebl'. apply heap_ok_intro; try done; [by exists bl'|..].
    + apply sorted_app. split_and!; [done| |].
      * constructor; [destruct Hcase as [[-> _]|[-> ?]]; [done|]|].
        { constructor; [done|]. apply Forall_forall. intros [b t] Hb'. specialize (Hpost _ Hb'). split; simpl in *; lia. }
        apply Forall_forall. intros x Hx. destruct (Hpost' x Hx) as [?|[-> ?]]; [by apply S5|]. split; simpl; lia.
      * intros x y Hx Hy. apply elem_of_cons in Hy as [->|Hy]; [by apply S3|].
        destruct (Hpost' y Hy) as [?|[-> ?]]; [by apply S4|]. destruct (Hpre x Hx). split; simpl; lia.
    + intros x Hx.
      assert (Hx' : x ∈ pre ++ (q, qs) :: post \/ x = (a, s - n) /\ n < s).
      { apply elem_of_app in Hx as [Hx|[->|Hx]%elem_of_cons]; [left; set_solver..|].
        destruct (Hpost' x Hx) as [?|?]; [left; set_solver|by right]. }
      destruct Hx' as [Hx'|[-> Hlt]].
      * destruct (Hg x Hx') as [->|[Hi Hx2]]; [by left|right]. split; [done|]. intros b c [[<- <-]|[_ Hb']]%lookup_insert_Some; [|by apply Hx2].
        apply elem_of_app in Hx' as [Hxx|[->|Hxx]%elem_of_cons].
        -- destruct (Hpre x Hxx). left. lia.
        -- left. simpl. lia.
        -- specialize (Hpost x Hxx). right. lia.
      * right. simpl. split; [split; lia|]. intros b c [[<- <-]|[_ Hb']]%lookup_insert_Some; [left; lia|].
        destruct (Hu b c Hb') as [(? & _) _]. destruct (Hu2 b c Hb') as [[|] _]; [left|right]; lia.
    + intros b t [[<- <-]|[_ Hb']]%lookup_insert_Some; [split; [split; simpl; lia|done]|].
      destruct (Hu b t Hb') as [(? & ? & ?) Hw]. split; [done|]. rewrite (Hkept b t) by (done || lia). done.
    + intros b t c d [[<- <-]|[_ Hb']]%lookup_insert_Some [[<- <-]|[_ Hc]]%lookup_insert_Some Hne; try done.
      * by apply Hrb.
      * specialize (Hrb b t Hb'). unfold apart in *. lia.
      * by apply Huu.
    + exists qs. simpl. rewrite elem_of_app, elem_of_cons. auto.
  - assert (Hun : free_units ((base_, 0) :: bl') + n = free_units ((base_, 0) :: bl)); [|simpl in Hun; lia].
    rewrite <- Ebl', E, !free_units_app. destruct Hcase as [[-> ->]|[-> ?]]; simpl; lia.
Qed.
(** Taking [n] units from the block [a], which follows [q]. *)
Lemma malloc_take h bl u pre q qs a s post n fuel :
  heap_ok h bl u -> (base_, 0) :: bl = pre ++ (q, qs) :: (a, s) :: post -> 0 < n <= s ->
  exists r h' bl', malloc_loop sbrk (S fuel) n q a h = Ret (r + 8) h' /\ heap_ok h' bl' (<[r := n]> u) /\
    u !! r = None /\ kept u h h' /\ brk h' = brk h /\ free_units bl' + n = free_units bl.
Proof.
  intros Hok E Hn. pose proof (taken_intro _ _ _ _ _ _ _ _ _ Hok E) as Hta.
  pose proof Hta as [_ (Hs0 & Ha1 & Ha2) _ _ Hpre Hq Hpost (L1 & L2 & L3 & L4 & L5 & L6) _].
  pose proof (ho_base _ _ _ Hok) as Hb. pose proof (ho_top _ _ _ Hok) as Ht.
  cbn [malloc_loop]. rewrite (bind_get_size _ _ _ _ L5). destruct (Z.leb_spec n s); [|lia].
  destruct (Z.eqb_spec s n) as [->|Hne].
  - rewrite bind_assoc, (bind_get_ptr _ _ _ _ L4). unfold put_ptr. mrun.
    destruct (taken_ok h bl u pre q qs a n post a n post (<[q := first_of post base_]> (words h)) Hok Hta)
      as (bl' & H1 & H2 & H3 & H4); try lia; [by left| | | |].
    + apply linked_app. split; [|split_and!].
      * eapply linked_frame; [|exact L1]. intros b t Hb'. destruct (Hpre _ Hb'). simpl in *. by rewrite !lookup_insert_ne by lia.
      * by rewrite lookup_insert_eq.
      * by rewrite lookup_insert_ne by lia.
      * eapply linked_frame; [|exact L6]. intros b t Hb'. specialize (Hpost _ Hb'). simpl in *. by rewrite !lookup_insert_ne by lia.
    + by rewrite lookup_insert_ne by lia.
    + intros x ???. by rewrite lookup_insert_ne by done.
    + exists a, (Heap q (<[q := first_of post base_]> (words h)) (brk h)), bl'.
      rewrite units_eq by lia. replace (a + 8 * 1) with (a + 8) by lia. done.
  - rewrite (u32_small (s - n)) by lia. unfold put_size. mrun. rewrite (units_eq a) by lia.
    set (r := a + 8 * (s - n)).
    destruct (taken_ok h bl u pre q qs a s post r n ((a, s - n) :: post) (<[r + 4 := n]> (<[a + 4 := s - n]> (words h))) Hok Hta)
      as (bl' & H1 & H2 & H3 & H4); try lia; [right; split; [done|lia]| | | |].
    + apply linked_app. cbn [first_of linked]. split; [|split_and!].
      * eapply linked_frame; [|exact L1]. intros b t Hb'. destruct (Hpre _ Hb'). simpl in *. by rewrite !lookup_insert_ne by lia.
      * rewrite !lookup_insert_ne by lia. done.
      * by rewrite !lookup_insert_ne by lia.
      * by rewrite !lookup_insert_ne by lia.
      * by rewrite lookup_insert_ne, lookup_insert_eq by lia.
      * eapply linked_frame; [|exact L6]. intros b t Hb'. specialize (Hpost _ Hb'). simpl in *. by rewrite !lookup_insert_ne by lia.
    + by rewrite lookup_insert_eq.
    + intros x ???. by rewrite !lookup_insert_ne by done.
    + exists r, (Heap q (<[r + 4 := n]> (<[a + 4 := s - n]> (words h))) (brk h)), bl'.
      rewrite units_eq by lia. replace (r + 8 * 1) with (r + 8) by lia. done.
Qed.

(** A block that is too small and not the one the search started from. *)
Lemma malloc_next h bl u i a s n prevp fuel :
  heap_ok h bl u -> ((base_, 0) :: bl) !! i = Some (a, s) -> s < n -> a <> freep h ->
  malloc_loop sbrk (S fuel) n prevp a h = malloc_loop sbrk fuel n a (first_of (drop (S i) ((base_, 0) :: bl)) base_) h.
Proof.
  intros Hok Hi Hlt Hne. destruct (linked_lookup _ _ _ _ _ _ (ho_linked _ _ _ Hok) Hi) as [Hn Hs].
  cbn [malloc_loop]. rewrite (bind_get_size _ _ _ _ Hs). destruct (Z.leb_spec n s); [lia|].
  rewrite bind_gets. destruct (Z.eqb_spec a (freep h)); [done|]. rewrite bind_ret.
  by rewrite (bind_get_ptr _ _ _ _ Hn).
Qed.

Section Scan.
Context (h : heap B) (bl : list block) (u : gmap Z Z) (n : Z) (kf : nat) (fs : Z).
Let l := (base_, 0) :: bl.
Hypothesis Hok : heap_ok h bl u.
Hypothesis Hn : 0 < n.
Hypothesis Hkf : l !! kf = Some (freep h, fs).

Lemma scan_ne i a s : l !! i = Some (a, s) -> i <> kf -> a <> freep h.
Proof.
  intros Hi Hne ->. pose proof (ho_sorted _ _ _ Hok) as Hs.
  destruct (decide (i < kf)%nat) as [Hlt|].
  - destruct (sorted_lookup _ _ _ _ _ _ Hs Hlt Hi Hkf). simpl in *. lia.
  - destruct (sorted_lookup _ _ kf i _ _ Hs ltac:(lia) Hkf Hi). simpl in *. lia.
Qed.

(** From block [i] over too small blocks up to block [i + k]. *)
Lemma scan_up k i a s prevp b t fuel :
  l !! i = Some (a, s) -> l !! (i + k)%nat = Some (b, t) ->
  (forall m x, (i <= m < i + k)%nat -> l !! m = Some x -> x.2 < n /\ m <> kf) ->
  malloc_loop sbrk (fuel + k) n prevp a h =
  malloc_loop sbrk fuel n (if decide (k = 0%nat) then prevp else from_option fst 0 (l !! (i + k - 1)%nat)) b h.
Proof.
  revert i a s prevp fuel. induction k as [|k IH]; intros i a s prevp fuel Hi Hk Hsm.
  - rewrite Nat.add_0_r in Hk |- *. rewrite Hi in Hk. by injection Hk as <- <-.
  - destruct (Hsm i (a, s)) as [Hlt Hne]; [lia|done|]. rewrite Nat.add_succ_r.
    rewrite (malloc_next h bl u i a s n prevp (fuel + k) Hok Hi Hlt (scan_ne i a s Hi Hne)).
    destruct (l !! S i) as [[c d]|] eqn:Hsi.
    + fold l. rewrite (first_of_drop _ _ _ _ _ Hsi). rewrite (IH (S i) c d); try done.
      * rewrite (decide_False (P := S k = 0%nat)) by lia. destruct (decide (k = 0%nat)) as [->|].
        -- replace (i + 1 - 1)%nat with i by lia. by rewrite Hi.
        -- do 3 f_equal. lia.
      * by replace (S i + k)%nat with (i + S k)%nat by lia.
      * intros m x Hm. apply Hsm. lia.
    + apply lookup_ge_None in Hsi. apply lookup_lt_Some in Hk. lia.
Qed.

(** From a block behind [freep] to the end of the list and around to [base]. *)
Lemma scan_around k i prevp fuel :
  (i + k = length l)%nat -> (kf < i)%nat -> (forall m x, (i <= m)%nat -> l !! m = Some x -> x.2 < n) ->
  exists prevp', malloc_loop sbrk (fuel + k) n prevp (first_of (drop i l) base_) h = malloc_loop sbrk fuel n prevp' base_ h.
Proof.
  revert i prevp. induction k as [|k IH]; intros i prevp Hk Hi Hsm.
  - exists prevp. rewrite drop_ge by lia. by rewrite Nat.add_0_r.
  - destruct (lookup_lt_is_Some_2 l i) as [[a s] Hia]; [lia|]. rewrite (first_of_drop _ _ _ _ _ Hia), Nat.add_succ_r.
    rewrite (malloc_next h bl u i a s n prevp (fuel + k) Hok Hia (Hsm i (a, s) (le_n i) Hia) (scan_ne i a s Hia ltac:(lia))).
    apply IH; [lia|lia|]. intros m x Hm. apply Hsm. lia.
Qed.
Lemma split_two (j : nat) x y : l !! j = Some x -> l !! S j = Some y -> l = take j l ++ x :: y :: drop (S (S j)) l.
Proof. intros Hx Hy. rewrite <- (drop_S _ _ _ Hy), <- (drop_S _ _ _ Hx). by rewrite take_drop. Qed.

(** With a block that is large enough the search ends at one. *)
Lemma scan_fit fuel :
  (exists m x, l !! m = Some x /\ n <= x.2) -> (length l <= fuel)%nat ->
  exists pre q qs a s post fuel', l = pre ++ (q, qs) :: (a, s) :: post /\ n <= s /\
    malloc_loop sbrk (S fuel) n (freep h) (first_of (drop (S kf) l) base_) h = malloc_loop sbrk (S fuel') n q a h.
Proof.
  intros (m & x & Hm & Hx) Hf. pose proof (lookup_lt_Some _ _ _ Hkf) as Hkl.
  set (P := fun x : block => n <=? x.2).
  destruct (find_first P (drop (S kf) l)) as [d|] eqn:Ef.
  - apply find_first_Some in Ef as [([a s] & Hd & Hs) Hbefore]. rewrite lookup_drop in Hd.
    apply Z.leb_le in Hs. simpl in Hs. pose proof (lookup_lt_Some _ _ _ Hd) as Hdl.
    destruct (lookup_lt_is_Some_2 l (kf + d)) as [[q qs] Hq]; [lia|].
    destruct (lookup_lt_is_Some_2 l (S kf)) as [[b t] Hb]; [lia|].
    exists (take (kf + d) l), q, qs, a, s, (drop (S (S (kf + d))) l), (fuel - d)%nat.
    split; [by apply split_two|]. split; [done|]. rewrite (first_of_drop _ _ _ _ _ Hb).
    replace (S fuel) with (S (fuel - d) + d)%nat by lia.
    rewrite (scan_up d (S kf) b t (freep h) a s); try done.
    + destruct (decide (d = 0%nat)) as [->|].
      * rewrite Nat.add_0_r, Hkf in Hq. by injection Hq as <- <-.
      * replace (S kf + d - 1)%nat with (kf + d)%nat by lia. by rewrite Hq.
    + intros j y Hj Hy. split; [|lia]. specialize (Hbefore (j - S kf)%nat y ltac:(lia)).
      rewrite lookup_drop in Hbefore. replace (S kf + (j - S kf))%nat with j in Hbefore by lia.
      by apply Z.leb_gt, Hbefore.
  - assert (Hnone : forall j y, (S kf <= j)%nat -> l !! j = Some y -> y.2 < n).
    { intros j y Hj Hy. apply Z.leb_gt. change (P y = false). eapply find_first_None; [exact Ef|].
      apply list_elem_of_lookup_2 with (j - S kf)%nat. rewrite lookup_drop. by replace (S kf + (j - S kf))%nat with j by lia. }
    destruct (find_first P l) as [j|] eqn:Ef2.
    2: { exfalso. pose proof (proj1 (find_first_None P l) Ef2 x (list_elem_of_lookup_2 _ _ _ Hm)) as Hc.
         apply Z.leb_gt in Hc. lia. }
    apply find_first_Some in Ef2 as [([a s] & Hj & Hs) Hbefore]. apply Z.leb_le in Hs. simpl in Hs.
    assert (Hjk : (0 < j <= kf)%nat).
    { split; [destruct j; [injection Hj as <- <-; lia|lia]|].
      destruct (decide (S kf <= j)%nat); [|lia]. specialize (Hnone j (a, s) ltac:(done) Hj). simpl in Hnone. lia. }
    destruct (lookup_lt_is_Some_2 l (j - 1)) as [[q qs] Hq]; [lia|].
    destruct (scan_around (length l - S kf) (S kf) (freep h) (S (fuel - (length l - S kf))) ltac:(lia) ltac:(lia) Hnone) as [prevp Hsc].
    exists (take (j - 1) l), q, qs, a, s, (drop (S (S (j - 1))) l), (fuel - (length l - S kf) - j)%nat.
    split; [apply split_two; [done|by replace (S (j - 1)) with j by lia]|]. split; [done|].
    replace (S (fuel - (length l - S kf)) + (length l - S kf))%nat with (S fuel) in Hsc by lia. rewrite Hsc.
    replace (S (fuel - (length l - S kf))) with (S (fuel - (length l - S kf) - j) + j)%nat by lia.
    rewrite (scan_up j 0 base_ 0 prevp a s); try done.
    + rewrite decide_False by lia. rewrite Nat.add_0_l, Hq. done.
    + intros i y Hi Hy. split; [|lia]. apply Z.leb_gt. eapply Hbefore; [|done]. lia.
Qed.

(** Without one it comes back to where it started. *)
Lemma scan_nofit fuel :
  (forall m x, l !! m = Some x -> x.2 < n) -> (length l <= fuel)%nat ->
  exists q fuel', (fuel <= fuel' + length l)%nat /\
    malloc_loop sbrk (S fuel) n (freep h) (first_of (drop (S kf) l) base_) h = malloc_loop sbrk (S fuel') n q (freep h) h.
Proof.
  intros Hno Hf. pose proof (lookup_lt_Some _ _ _ Hkf) as Hkl.
  destruct (scan_around (length l - S kf) (S kf) (freep h) (S (fuel - (length l - S kf))) ltac:(lia) ltac:(lia)
              (fun m x _ => Hno m x)) as [prevp Hsc].
  replace (S (fuel - (length l - S kf)) + (length l - S kf))%nat with (S fuel) in Hsc by lia. rewrite Hsc.
  replace (S (fuel - (length l - S kf))) with (S (fuel - (length l - S kf) - kf) + kf)%nat by lia.
  rewrite (scan_up kf 0 base_ 0 prevp (freep h) fs); try done.
  - eexists _, _. split; [|reflexivity]. lia.
  - intros i y Hi Hy. split; [by eapply Hno|lia].
Qed.
End Scan.

(** sbrk(n) for a positive n returns the old top of the process and moves it
    up by n, or returns -1; a process ends below the kernel. *)
Definition sbrk_grows : Prop :=
  forall n b, 0 < n < 2 ^ 31 -> exists r b', sbrk n b = Ret r b' /\
    (r = -1 /\ top b' = top b \/ r = top b /\ 0 <= top b /\ top b' = top b + n /\ top b' <= 2 ^ 31).

(** The kernel does not give the memory that [n] more units take. *)
Definition refused (n : Z) (b b' : B) : Prop := sbrk (8 * Z.max n 4096) b = Ret (-1) b'.

(** [morecore] adds a free block of at least [n] units, or fails. *)
Lemma morecore_run h bl u n :
  sbrk_grows -> heap_ok h bl u -> base_ + 8 <= top (brk h) -> 0 < n -> 8 * Z.max n 4096 < 2 ^ 31 ->
  exists r h', morecore sbrk n h = Ret r h' /\ kept u h h' /\
    (r = None /\ heap_ok h' bl u /\ top (brk h') = top (brk h) /\ refused n (brk h) (brk h') \/
     r = Some (freep h') /\ exists bl', heap_ok h' bl' u /\
       top (brk h') - top (brk h) = 8 * (free_units bl' - free_units bl) /\ base_ + 8 <= top (brk h') /\
       (length bl' <= S (length bl))%nat /\ exists a c, (a, c) ∈ bl' /\ n <= c).
Proof.
  intros Hsb Hok Hbt Hn Hmax. pose proof Hok as [Hb Ht Hl Hs Hf Hu Hap Huu Hfp]. unfold morecore.
  set (nu := if n <? 4096 then 4096 else n).
  assert (Hnu : n <= nu /\ 0 < nu /\ 8 * nu < 2 ^ 31 /\ 8 * Z.max n 4096 = nu * 8)
    by (unfold nu; destruct (Z.ltb_spec n 4096); lia).
  rewrite s32_small by lia. destruct (Hsb (nu * 8) (brk h)) as (r & b' & Er & Hr); [lia|].
  assert (Ez : zoom brk set_brk (sbrk (nu * 8)) h = Ret r (set_brk b' h)) by (unfold zoom; by rewrite Er).
  rewrite (bind_Ret _ _ _ _ _ Ez). destruct Hr as [[-> Htop]|(-> & Hpos & Htop & Hle)].
  { exists None, (set_brk b' h). split; [done|]. split; [done|]. left. split; [done|].
    split; [|split; [done|unfold refused; by replace (8 * Z.max n 4096) with (nu * 8) by lia]].
    split; try done; simpl; by rewrite Htop. }
  destruct (Z.eqb_spec (top (brk h)) (-1)); [lia|]. rewrite u32_small by lia. unfold put_size. rewrite bind_modify.
  set (p := top (brk h)) in *. rewrite units_eq by lia. replace (p + 8 * 1) with (p + 8) by lia.
  set (h1 := set_words (<[p + 4 := nu]> (words (set_brk b' h))) (set_brk b' h)).
  assert (Hlt : forall a s, (a, s) ∈ (base_, 0) :: bl -> a + 8 <= p).
  { intros a s [[= -> ->]|Ha]%elem_of_cons; [done|]. destruct (Hf a s Ha). lia. }
  assert (Hk1 : kept u h h1).
  { intros b t x Hbt' Hx. simpl. destruct (Hu b t Hbt') as [(? & ? & ?) _]. rewrite lookup_insert_ne by lia. done. }
  assert (Hok1 : heap_ok h1 bl u).
  { split; try done; cbn [brk words h1 set_words set_brk].
    - apply (linked_frame (words h)); [|exact Hl]. intros a s Ha. specialize (Hlt a s Ha). by rewrite !lookup_insert_ne by lia.
    - intros a s Ha. destruct (Hf a s Ha) as (? & ? & ?). split_and!; simpl; lia.
    - intros a s Ha. destruct (Hu a s Ha) as [(? & ? & ?) ?]. split; [split_and!; simpl; lia|]. by rewrite lookup_insert_ne by lia. }
  assert (Hlo : loose h1 bl u p nu).
  { split; simpl.
    - split_and!; lia.
    - by rewrite lookup_insert_eq.
    - intros b t Hb'. destruct (Hf b t Hb') as (? & ? & ?). right. lia.
    - intros b t Hb'. destruct (Hu b t Hb') as [(? & ? & ?) _]. right. lia. }
  destruct (free_insert h1 bl u p nu Hok1 Hlo) as (h' & bl' & Ef & Hok' & Hun & Hbrk & Hk & Hlen & (a & c & Hac & Hc)).
  rewrite (bind_Ret _ _ _ _ _ Ef), bind_gets. exists (Some (freep h')), h'. split; [done|].
  split; [intros b t x Hb' Hx; rewrite (Hk b t x Hb' Hx); by eapply Hk1|]. right. split; [done|]. exists bl'.
  rewrite Hbrk. simpl. split_and!; [done|lia|lia|done|]. exists a, c. split; [done|lia].
Qed.

Lemma nunits_of_eq nbytes : 0 <= nbytes < 2 ^ 31 -> nunits_of nbytes = (nbytes + 7) / 8 + 1.
Proof.
  intros Hn. unfold nunits_of. rewrite (u32_small (nbytes + 7)) by lia.
  apply u32_small. pose proof (Z.div_mod (nbytes + 7) 8). pose proof (Z.mod_pos_bound (nbytes + 7) 8). lia.
Qed.

(** What a search of [malloc] gives. *)
Definition malloc_got h (bl : list block) (u : gmap Z Z) (n r : Z) h' : Prop :=
  exists a bl', r = a + 8 /\ u !! a = None /\ heap_ok h' bl' (<[a := n]> u) /\
     top (brk h') - top (brk h) = 8 * (free_units bl' + n - free_units bl).

(** No free block has [n] units. *)
Definition no_fit (bl : list block) (n : Z) : Prop := forall a c, (a, c) ∈ bl -> c < n.

Definition malloc_result h (bl : list block) (u : gmap Z Z) (n r : Z) h' : Prop :=
  kept u h h' /\ base_ + 8 <= top (brk h') /\
  (r = 0 /\ heap_ok h' bl u /\ top (brk h') = top (brk h) /\ no_fit bl n /\ refused n (brk h) (brk h') \/
   malloc_got h bl u n r h').

Lemma malloc_search_fit h bl u n kf fs fuel :
  heap_ok h bl u -> 0 < n -> ((base_, 0) :: bl) !! kf = Some (freep h, fs) -> base_ + 8 <= top (brk h) ->
  (exists a c, (a, c) ∈ bl /\ n <= c) -> (S (length bl) <= fuel)%nat ->
  exists r h', malloc_loop sbrk (S fuel) n (freep h) (first_of (drop (S kf) ((base_, 0) :: bl)) base_) h = Ret r h' /\
    kept u h h' /\ base_ + 8 <= top (brk h') /\ malloc_got h bl u n r h'.
Proof.
  intros Hok Hn Hkf Hbt (a & c & Hac & Hc) Hf. apply list_elem_of_lookup in Hac as [m Hm].
  destruct (scan_fit h bl u n kf fs Hok Hn Hkf fuel) as (pre & q & qs & a' & s & post & fuel' & E & Hs & ->);
    [by exists (S m), (a, c)|done|].
  destruct (malloc_take h bl u pre q qs a' s post n fuel' Hok E) as (r & h' & bl' & Er & H1 & H2 & H3 & H4 & H5); [lia|].
  exists (r + 8), h'. split; [done|]. split; [done|]. rewrite H4. split; [done|]. exists r, bl'. rewrite H4. split_and!; try done. lia.
Qed.

Lemma malloc_search h bl u n kf fs fuel :
  sbrk_grows -> heap_ok h bl u -> 0 < n -> 8 * Z.max n 4096 < 2 ^ 31 ->
  ((base_, 0) :: bl) !! kf = Some (freep h, fs) -> base_ + 8 <= top (brk h) -> (2 * length bl + 4 <= fuel)%nat ->
  exists r h', malloc_loop sbrk (S fuel) n (freep h) (first_of (drop (S kf) ((base_, 0) :: bl)) base_) h = Ret r h' /\
    malloc_result h bl u n r h'.
Proof.
  intros Hsb Hok Hn Hmax Hkf Hbt Hf.
  destruct (decide (Exists (fun x : block => n <= x.2) bl)) as [Hex|Hno].
  { apply Exists_exists in Hex as ([a c] & Hac & Hc).
    destruct (malloc_search_fit h bl u n kf fs fuel) as (r & h' & E & Hk & Hb & Hg); try done; [by exists a, c|lia|].
    exists r, h'. split; [done|]. split; [done|]. split; [done|]. by right. }
  assert (Hsmall : forall m x, ((base_, 0) :: bl) !! m = Some x -> x.2 < n).
  { intros [|m] x Hx; [injection Hx as <-; simpl; lia|]. apply (list_elem_of_lookup_2 bl m) in Hx.
    destruct (decide (n <= x.2)) as [Hle|]; [|lia]. exfalso. apply Hno, Exists_exists. by exists x. }
  destruct (scan_nofit h bl u n kf fs Hok Hkf fuel Hsmall) as (q & fuel' & Hf' & ->); [simpl; lia|].
  destruct (linked_lookup _ _ _ _ _ _ (ho_linked _ _ _ Hok) Hkf) as [_ Hs].
  cbn [malloc_loop]. rewrite (bind_get_size _ _ _ _ Hs). pose proof (Hsmall kf _ Hkf) as Hfs. simpl in Hfs.
  destruct (Z.leb_spec n fs); [lia|]. rewrite bind_gets, Z.eqb_refl.
  destruct (morecore_run h bl u n Hsb Hok Hbt Hn Hmax) as (r & h1 & Em & Hk1 & Hcase). rewrite (bind_Ret _ _ _ _ _ Em).
  destruct Hcase as [(-> & Hok1 & Ht1 & Href)|(-> & bl1 & Hok1 & Ht1 & Hbt1 & Hlen1 & Hfit)].
  { exists 0, h1. split; [done|]. split; [done|]. split; [lia|]. left. split_and!; try done.
    intros a c Hac. apply list_elem_of_lookup in Hac as [m Hm]. by apply (Hsmall (S m) (a, c)). }
  destruct (ho_freep _ _ _ Hok1) as (k1 & fs1 & Hk1').
  destruct (linked_lookup _ _ _ _ _ _ (ho_linked _ _ _ Hok1) Hk1') as [Hn1 _].
  rewrite (bind_get_ptr _ _ _ _ Hn1). simpl in Hf'. destruct fuel' as [|fuel']; [lia|].
  destruct (malloc_search_fit h1 bl1 u n k1 fs1 fuel' Hok1 Hn Hk1' Hbt1 Hfit) as (r & h2 & E2 & Hk2 & Hb2 & Hres); [simpl; lia|].
  exists r, h2. split; [done|]. split; [intros b t x Hb Hx; rewrite (Hk2 b t x Hb Hx); by eapply Hk1|]. split; [done|].
  right. destruct Hres as (a & bl2 & -> & Hnone & Hok2 & Hun). exists a, bl2. split_and!; try done. lia.
Qed.

(** ** The theorems *)

(** A heap of a program: the first call of malloc sets up the list. *)
Record uheap h (bl : list block) (u : gmap Z Z) : Prop := {
  uh_top : base_ + 8 <= top (brk h);
  uh_ok : heap_ok h bl u \/ freep h = 0 /\ bl = [] /\ u = ∅ /\ 0 < base_ /\ top (brk h) <= 2 ^ 31
}.

Lemma heap_ok_freep h bl u : heap_ok h bl u -> freep h <> 0.
Proof.
  intros [Hb Ht Hl Hs Hf _ _ _ (i & s & Hi)]. destruct i as [|i]; [injection Hi as <- _; lia|].
  apply (list_elem_of_lookup_2 bl i) in Hi. destruct (Hf _ _ Hi) as (? & ? & ?). lia.
Qed.

Lemma malloc_run h bl u nbytes :
  sbrk_grows -> uheap h bl u -> 0 <= nbytes < 2 ^ 31 - 16 ->
  exists r h', malloc base_ sbrk nbytes h = Ret r h' /\ kept u h h' /\
    (r = 0 /\ uheap h' bl u /\ top (brk h') = top (brk h) /\
       no_fit bl (nunits_of nbytes) /\ refused (nunits_of nbytes) (brk h) (brk h') \/
     exists a bl', r = a + 8 /\ u !! a = None /\ uheap h' bl' (<[a := nunits_of nbytes]> u) /\
       top (brk h') - top (brk h) = 8 * (free_units bl' + nunits_of nbytes - free_units bl)).
Proof.
  intros Hsb [Hbt Hok] Hn. unfold malloc. rewrite bind_gets.
  assert (Hinit : exists h1, (when (freep h =? 0) (modify (set_freep base_);;; put_ptr base_ base_;;; put_size base_ 0)) h = Ret tt h1 /\
                    heap_ok h1 bl u /\ brk h1 = brk h /\ kept u h h1).
  { destruct Hok as [Hok|(Hf & -> & -> & Hb & Ht)].
    - pose proof (heap_ok_freep _ _ _ Hok). rewrite (proj2 (Z.eqb_neq _ _)) by done. by exists h.
    - rewrite Hf. eexists. split; [reflexivity|]. split; [|done]. split; try done; simpl.
      + rewrite lookup_insert_ne, !lookup_insert_eq by lia. done.
      + repeat constructor.
      + by intros ? ? ?%elem_of_nil.
      + by exists 0%nat, 0. }
  destruct Hinit as (h1 & E1 & Hok1 & Hb1 & Hk1). rewrite (bind_Ret _ _ _ _ _ E1), !bind_gets.
  destruct (ho_freep _ _ _ Hok1) as (kf & fs & Hkf).
  destruct (linked_lookup _ _ _ _ _ _ (ho_linked _ _ _ Hok1) Hkf) as [Hnx _]. rewrite (bind_get_ptr _ _ _ _ Hnx).
  rewrite (nunits_of_eq nbytes) by lia. set (n := (nbytes + 7) / 8 + 1).
  assert (Hnn : 0 < n /\ 8 * Z.max n 4096 < 2 ^ 31).
  { unfold n. pose proof (Z.div_mod (nbytes + 7) 8). pose proof (Z.mod_pos_bound (nbytes + 7) 8). lia. }
  pose proof (linked_length _ _ _ (ho_sorted _ _ _ Hok1) (ho_linked _ _ _ Hok1)) as Hlen. simpl in Hlen.
  replace (2 * size (words h1) + 4)%nat with (S (2 * size (words h1) + 3)) by lia.
  destruct (malloc_search h1 bl u n kf fs (2 * size (words h1) + 3)) as (r & h' & E & Hk & Hb' & Hres); try done; [lia|lia|by rewrite Hb1|lia|].
  exists r, h'. split; [done|]. split; [intros b t x Hb Hx; rewrite (Hk b t x Hb Hx); by eapply Hk1|].
  rewrite <- Hb1. destruct Hres as [(-> & Hok' & Ht' & Hnf & Href)|(a & bl' & -> & Hnone & Hok' & Hun)].
  - left. split; [done|]. split; [|done]. split; [done|by left].
  - right. exists a, bl'. split_and!; try done. split; [done|by left].
Qed.

(** C23: malloc(n) for n below 2^31 - 16 returns 0 only when no free block is
    large enough and sbrk refused the memory for another, and then with the
    heap as it was.  Otherwise it returns a block of its own: at least n bytes
    that overlap no other block in use and no free block.  No byte is lost, and
    the words of the blocks in use keep their values. *)
Theorem malloc_gives_block h bl u nbytes :
  sbrk_grows -> uheap h bl u -> 0 <= nbytes < 2 ^ 31 - 16 ->
  exists r h', malloc base_ sbrk nbytes h = Ret r h' /\ kept u h h' /\
    (r = 0 /\ uheap h' bl u /\ top (brk h') = top (brk h) /\
       (forall b t, (b, t) ∈ bl -> 8 * (t - 1) < nbytes) /\
       sbrk (8 * Z.max (nunits_of nbytes) 4096) (brk h) = Ret (-1) (brk h') \/
     r <> 0 /\ exists n bl', u !! (r - 8) = None /\ uheap h' bl' (<[r - 8 := n]> u) /\ nbytes <= 8 * (n - 1) /\
       r + nbytes <= top (brk h') /\
       (forall b t, u !! b = Some t -> r + nbytes <= b \/ b + 8 * t <= r) /\
       (forall b t, (b, t) ∈ bl' -> r + nbytes <= b \/ b + 8 * t <= r) /\
       top (brk h') - top (brk h) = 8 * (free_units bl' + n - free_units bl)).
Proof.
  intros Hsb Hu Hn. destruct (malloc_run h bl u nbytes Hsb Hu Hn) as (r & h' & E & Hk & [(-> & Hok & Ht & Hnf & Href)|(a & bl' & -> & Hnone & Hok & Hun)]).
  { exists 0, h'. split; [done|]. split; [done|]. left. split_and!; try done. intros b t Hbt. specialize (Hnf b t Hbt).
    rewrite nunits_of_eq in Hnf by lia. pose proof (Z.div_mod (nbytes + 7) 8). pose proof (Z.mod_pos_bound (nbytes + 7) 8). lia. }
  exists (a + 8), h'. split; [done|]. split; [done|]. right.
  assert (Hsz : nbytes <= 8 * (nunits_of nbytes - 1)).
  { rewrite nunits_of_eq by lia. pose proof (Z.div_mod (nbytes + 7) 8). pose proof (Z.mod_pos_bound (nbytes + 7) 8). lia. }
  pose proof Hok as [_ [[Hb Ht _ _ Hf Hus Hap Huu _]|(_ & _ & He & _)]]; [|by apply insert_non_empty in He].
  destruct (Hus a (nunits_of nbytes)) as [(? & ? & ?) _]; [by rewrite lookup_insert_eq|].
  split; [lia|]. exists (nunits_of nbytes), bl'. replace (a + 8 - 8) with a by lia. split_and!; try done; [lia|..].
  - intros b t Hbt. assert (a <> b) by congruence.
    destruct (Huu a (nunits_of nbytes) b t) as [|]; [by rewrite lookup_insert_eq|by rewrite lookup_insert_ne|done|lia|lia].
  - intros b t Hbt. destruct (Hap b t a (nunits_of nbytes) Hbt) as [|]; [by rewrite lookup_insert_eq|lia|lia].
Qed.

Lemma free_block h bl u a s :
  uheap h bl u -> u !! a = Some s ->
  exists h' bl', free (a + 8) h = Ret tt h' /\ uheap h' bl' (delete a u) /\
    free_units bl' = free_units bl + s /\ brk h' = brk h /\ kept (delete a u) h h'.
Proof.
  intros [Hbt [Hok|(_ & _ & -> & _)]] Ha; [|done].
  destruct (heap_ok_delete h bl u a s Hok Ha) as [Hok' Hlo].
  destruct (free_insert h bl (delete a u) a s Hok' Hlo) as (h' & bl' & E & Hok2 & Hun & Hb & Hk & _).
  exists h', bl'. split_and!; try done. split; [by rewrite Hb|by left].
Qed.

(** C24: a block that malloc returned can be freed: the heap is then well formed
    with the blocks that were in use before, their words are untouched, and
    all of the block, and what malloc got from the kernel for it, is free. *)
Theorem free_malloc h bl u nbytes r h1 :
  sbrk_grows -> uheap h bl u -> 0 <= nbytes < 2 ^ 31 - 16 -> malloc base_ sbrk nbytes h = Ret r h1 -> r <> 0 ->
  exists h2 bl2, free r h1 = Ret tt h2 /\ uheap h2 bl2 u /\ kept u h h2 /\
    8 * (free_units bl2 - free_units bl) = top (brk h2) - top (brk h).
Proof.
  intros Hsb Hu Hn Em Hr. destruct (malloc_run h bl u nbytes Hsb Hu Hn) as (r' & h' & E & Hk & Hres).
  rewrite Em in E. injection E as <- <-. destruct Hres as [(-> & _)|(a & bl' & -> & Hnone & Hok & Hun)]; [done|].
  destruct (free_block h1 bl' (<[a := nunits_of nbytes]> u) a (nunits_of nbytes) Hok) as (h2 & bl2 & Ef & Hok2 & Hun2 & Hb2 & Hk2);
    [by rewrite lookup_insert_eq|].
  rewrite delete_insert_id in Hok2, Hk2 by done. exists h2, bl2. split_and!; try done.
  - intros b t x Hb Hx. rewrite (Hk2 b t x Hb Hx). by eapply Hk.
  - rewrite Hb2. lia.
Qed.
End Heap.
