(* ===== verification/UmallocTheorems.v ===== *)
(** * The heap at work

    malloc and free over a process that grows up to a limit, as the allocator
    of uthread.c, and where they go wrong. *)
From S2P Require Import Prelude Uthread Umalloc UmallocSpec.

(** sbrk of a process whose top may not pass [lim]. *)
Definition sbrk_lim (lim : Z) (n : Z) : M N Z :=
  fun b => if Z.of_N b + n <=? lim then Ret (Z.of_N b) (Z.to_N (Z.of_N b + n)) else Ret (-1) b.

Lemma sbrk_lim_grows lim : lim <= 2 ^ 31 -> sbrk_grows (sbrk_lim lim) Z.of_N.
Proof.
  intros Hl n b Hn. unfold sbrk_lim. destruct (Z.leb_spec (Z.of_N b + n) lim).
  - eexists _, _. split; [reflexivity|]. right. lia.
  - eexists _, _. split; [reflexivity|]. by left.
Qed.

(** A program whose static data ends with [base] at 4000, and its top at 4096. *)
Definition h_demo : heap N := Heap 0 ∅ 4096%N.
Definition mib : Z := 2 ^ 20.

Lemma h_demo_ok : uheap 4000 Z.of_N h_demo [] ∅.
Proof. split; [simpl; lia|]. right. split_and!; done || (simpl; lia). Qed.

Lemma malloc_gives_block_witness :
  exists r h', malloc 4000 (sbrk_lim mib) 100 h_demo = Ret r h' /\ r <> 0 /\ r + 100 <= Z.of_N (brk h').
Proof.
  destruct (malloc_gives_block 4000 (sbrk_lim mib) Z.of_N h_demo [] ∅ 100) as (r & h' & E & _ & Hr);
    [by apply sbrk_lim_grows|apply h_demo_ok|lia|].
  exists r, h'. split; [exact E|]. destruct Hr as [(_ & _ & _ & _ & Href)|(Hr & n & bl' & _ & _ & _ & Ht & _)].
  - exfalso. revert Href. by vm_compute.
  - split; [exact Hr|exact Ht].
Defined.

(** The run of [malloc] in the next witness. *)
Definition after_malloc : option (Z * heap N) :=
  match malloc 4000 (sbrk_lim mib) 100 h_demo with Ret r h => Some (r, h) | _ => None end.
Definition p_demo : Z := match after_malloc with Some (r, _) => r | None => 0 end.
Definition h_demo1 : heap N := match after_malloc with Some (_, h) => h | None => h_demo end.

Lemma free_malloc_witness :
  exists h2, free p_demo h_demo1 = Ret tt h2 /\ exists bl, 8 * free_units bl = Z.of_N (brk h2) - 4096.
Proof.
  destruct (free_malloc 4000 (sbrk_lim mib) Z.of_N h_demo [] ∅ 100 p_demo h_demo1) as (h2 & bl2 & E & _ & _ & Hu);
    [by apply sbrk_lim_grows|apply h_demo_ok|lia|vm_compute; reflexivity|vm_compute; discriminate|].
  exists h2. split; [exact E|]. exists bl2. change (free_units []) with 0 in Hu. change (Z.of_N (brk h_demo)) with 4096 in Hu. lia.
Defined.

(** Near 2^32 the computation of the number of units wraps around:
    malloc(2^32 - 4) succeeds and returns a block that holds no byte at all,
    its header included one unit. *)
Theorem malloc_wraps :
  exists r h', malloc 4000 (sbrk_lim mib) (2 ^ 32 - 4) h_demo = Ret r h' /\ r <> 0 /\ words h' !! (r - 4) = Some 1.
Proof. eexists _, _. split; [vm_compute; reflexivity|]. split; [discriminate|by vm_compute]. Qed.

(** ** As the allocator of the thread library *)

Definition heap_alloc (lim : Z) : UAlloc (heap N) := {|
  Uthread.malloc := Umalloc.malloc 4000 (sbrk_lim lim);
  Uthread.free := Umalloc.free
|}.

Definition creates (lim : Z) (k : nat) : outcome (ust (heap N)) unit :=
  mfor (seq 0 k) (fun _ => r <~ @uthread_create _ (heap_alloc lim) 0x100 1;;; ret tt) (ust_init SCHED_RR 0 0 h_demo).

(** Stacks of two threads on this heap: 4096 bytes each, one below the other. *)
Example uthread_stacks :
  match creates mib 2 with
  | Ret _ s => stack_aloc <$> take 2 (threads s) = [32768; 28664]
  | _ => False
  end.
Proof. by vm_compute. Qed.

(** [uthread_create] does not test the result of malloc: without memory it
    still returns a thread identifier, of a thread whose stack starts at
    address 0, in the text of the program. *)
Theorem uthread_create_no_memory :
  match creates 4096 1 with
  | Ret _ s => (fun t => (tid t, stack_aloc t, ss_sp t)) <$> head (threads s) = Some (1, 0, 4092)
  | _ => False
  end.
Proof. by vm_compute. Qed.
