(* ===== verification/Pipe.v ===== *)
(** * Pipes (pipe.c)

    The ring buffer of a pipe with its free-running 32-bit counters.  The code
    runs under p->lock from entry to [sleep] or [release]; [pipewrite] and
    [piperead] are the code of one such section, which is also what runs again
    after a sleep.  They return the pipe, the channels woken, in order, and
    how the section ends.  [pipe_step] interleaves the sections of any number
    of readers and writers. *)
From S2P Require Import Prelude.

Definition PIPESIZE : Z := 512.

Record pipe := Pipe {
  data : list Z;
  nread : Z;
  nwrite : Z;
  readopen : bool;
  writeopen : bool
}.

(** The wait channels &p->nread and &p->nwrite. *)
Inductive pchan := CNread | CNwrite.

Definition pipe_init (junk : list Z) : pipe := Pipe junk 0 0 true true.

Definition full (p : pipe) : bool := nwrite p =? u32 (nread p + PIPESIZE).
Definition empty (p : pipe) : bool := nread p =? nwrite p.

(** p->data[p->nwrite++ % PIPESIZE] = b; the index is always in range. *)
Definition put (b : Z) (p : pipe) : pipe :=
  Pipe (<[Z.to_nat (nwrite p mod PIPESIZE) := b]> (data p)) (nread p)
    (u32 (nwrite p + 1)) (readopen p) (writeopen p).

(** p->data[p->nread++ % PIPESIZE] *)
Definition peek (p : pipe) : Z := default 0 (data p !! Z.to_nat (nread p mod PIPESIZE)).
Definition advance (p : pipe) : pipe :=
  Pipe (data p) (u32 (nread p + 1)) (nwrite p) (readopen p) (writeopen p).

Inductive wend :=
| WDone                   (* return n *)
| WFail                   (* return -1 *)
| WSleep (rest : list Z). (* sleep(&p->nwrite), then go on with [rest] *)

(** One section of [pipewrite]; [bs] are the bytes still to be written. *)
Fixpoint pipewrite (killed : bool) (bs : list Z) (p : pipe) : pipe * list pchan * wend :=
  match bs with
  | [] => (p, [CNread], WDone)
  | b :: bs' =>
      if full p then
        if negb (readopen p) || killed then (p, [], WFail)
        else (p, [CNread], WSleep bs)
      else pipewrite killed bs' (put b p)
  end.

Inductive rend :=
| RDone (out : list Z)    (* return the number of bytes *)
| RFail                   (* return -1 *)
| RSleep.                 (* sleep(&p->nread) *)

(** The copy loop of [piperead]. *)
Fixpoint read_loop (n : nat) (p : pipe) : list Z * pipe :=
  match n with
  | O => ([], p)
  | S n => if empty p then ([], p)
           else let '(out, p') := read_loop n (advance p) in (peek p :: out, p')
  end.

Definition piperead (killed : bool) (n : nat) (p : pipe) : pipe * list pchan * rend :=
  if empty p && writeopen p then
    if killed then (p, [], RFail) else (p, [], RSleep)
  else let '(out, p') := read_loop n p in (p', [CNwrite], RDone out).

(** [pipeclose]; the flag says whether the page is freed. *)
Definition pipeclose (writable : bool) (p : pipe) : pipe * list pchan * bool :=
  let '(p', ch) :=
    if writable then (Pipe (data p) (nread p) (nwrite p) (readopen p) false, CNread)
    else (Pipe (data p) (nread p) (nwrite p) false (writeopen p), CNwrite) in
  (p', [ch], negb (readopen p') && negb (writeopen p')).

(** ** The buffer is a queue *)

(** Number of bytes in the buffer, and the bytes in order. *)
Definition count (p : pipe) : Z := u32 (nwrite p - nread p).
Definition slot (p : pipe) (k : nat) : Z :=
  default 0 (data p !! Z.to_nat ((nread p + Z.of_nat k) mod PIPESIZE)).
Definition content (p : pipe) : list Z := slot p <$> seq 0 (Z.to_nat (count p)).

Record pipe_ok (p : pipe) : Prop := {
  p_len : length (data p) = 512%nat;
  p_nread : 0 <= nread p < 2 ^ 32;
  p_nwrite : 0 <= nwrite p < 2 ^ 32;
  p_count : count p <= PIPESIZE
}.

Lemma count_range p : 0 <= count p < 2 ^ 32.
Proof. apply u32_range. Qed.

Lemma full_count p : pipe_ok p -> full p = (count p =? PIPESIZE).
Proof.
  intros [_ Hr Hw _]. unfold full, count, u32, PIPESIZE.
  destruct (decide (nread p + 512 < 2 ^ 32)).
  - rewrite (Z.mod_small (nread p + 512)) by lia.
    destruct (decide (nread p <= nwrite p)).
    + rewrite Z.mod_small by lia. lia.
    + rewrite <- (Z.mod_add _ 1), Z.mod_small by lia. lia.
  - rewrite <- (Z.mod_add (nread p + 512) (-1)), (Z.mod_small (_ + -1 * _)) by lia.
    destruct (decide (nread p <= nwrite p)).
    + rewrite Z.mod_small by lia. lia.
    + rewrite <- (Z.mod_add _ 1), Z.mod_small by lia. lia.
Qed.

Lemma empty_count p : pipe_ok p -> empty p = (count p =? 0).
Proof.
  intros [_ Hr Hw _]. unfold empty, count, u32.
  destruct (decide (nread p <= nwrite p)).
  - rewrite Z.mod_small by lia. lia.
  - rewrite <- (Z.mod_add _ 1), Z.mod_small by lia. lia.
Qed.

Lemma empty_content p : pipe_ok p -> empty p = true <-> content p = [].
Proof.
  intros Hp. rewrite empty_count by done. unfold content. pose proof (count_range p).
  split; [intros ->%Z.eqb_eq; done|].
  destruct (Z.to_nat (count p)) eqn:E; [lia|done].
Qed.

Lemma content_length p : Z.of_nat (length (content p)) = count p.
Proof.
  unfold content. rewrite length_fmap, length_seq. pose proof (count_range p). lia.
Qed.

Lemma count_put b p : pipe_ok p -> full p = false -> count (put b p) = count p + 1.
Proof.
  intros Hp Hf. rewrite full_count in Hf by done. pose proof (p_count _ Hp).
  unfold PIPESIZE in *. unfold count in *. simpl. rewrite u32_sub_l.
  replace (nwrite p + 1 - nread p) with (nwrite p - nread p + 1) by lia.
  rewrite <- u32_add_l, (u32_small (_ + 1)); [done|].
  pose proof (u32_range (nwrite p - nread p)). lia.
Qed.

Lemma count_advance p : pipe_ok p -> empty p = false -> count (advance p) = count p - 1.
Proof.
  intros Hp He. rewrite empty_count in He by done. unfold count in *. simpl.
  rewrite u32_sub_r. replace (nwrite p - (nread p + 1)) with (nwrite p - nread p - 1) by lia.
  rewrite <- u32_sub_l, (u32_small (_ - 1)); [done|].
  pose proof (u32_range (nwrite p - nread p)). lia.
Qed.

(** The counters agree modulo the buffer size, because it divides 2^32. *)
Lemma u32_mod_512 z : u32 z mod 512 = z mod 512.
Proof.
  unfold u32. change (2 ^ 32) with (512 * 8388608).
  rewrite Z.rem_mul_r by lia. rewrite Z.mul_comm, Z.mod_add by lia. apply Zmod_mod.
Qed.

Lemma nwrite_mod p : nwrite p mod 512 = (nread p + count p) mod 512.
Proof.
  unfold count. rewrite <- Zplus_mod_idemp_r, u32_mod_512, Zplus_mod_idemp_r.
  f_equal. lia.
Qed.

Lemma put_ok b p : pipe_ok p -> full p = false -> pipe_ok (put b p).
Proof.
  intros Hp Hf. pose proof (count_put b p Hp Hf) as Hc.
  rewrite full_count in Hf by done. pose proof (p_count _ Hp). destruct Hp as [Hl Hr Hw _].
  constructor; [simpl; by rewrite length_insert|done|apply u32_range|lia].
Qed.

Lemma advance_ok p : pipe_ok p -> empty p = false -> pipe_ok (advance p).
Proof.
  intros Hp He. pose proof (count_advance p Hp He) as Hc.
  pose proof (p_count _ Hp). destruct Hp as [Hl Hr Hw _].
  constructor; [done|apply u32_range|done|lia].
Qed.

Lemma content_put b p :
  pipe_ok p -> full p = false -> content (put b p) = content p ++ [b].
Proof.
  intros Hp Hf. unfold content. rewrite count_put by done.
  pose proof (count_range p). rewrite full_count in Hf by done. pose proof (p_count _ Hp).
  unfold PIPESIZE in *. rewrite Z2Nat.inj_add, seq_app, fmap_app by lia. simpl.
  assert (Hidx : forall k, (Z.of_nat k < 512) -> 0 <= (nread p + Z.of_nat k) mod 512 < 512)
    by (intros; apply Z.mod_pos_bound; lia).
  f_equal.
  - apply list_fmap_ext. intros i k Hk. apply lookup_seq in Hk as [-> Hk]. simpl.
    unfold slot, put, PIPESIZE. simpl. rewrite list_lookup_insert_ne; [done|].
    rewrite nwrite_mod. intros Heq%Z2Nat.inj; [|apply Z.mod_pos_bound; lia..].
    assert (Hdiv : (nread p + count p - (nread p + Z.of_nat i)) mod 512 = 0)
      by (rewrite Zminus_mod, Heq, Z.sub_diag; done).
    replace (nread p + count p - (nread p + Z.of_nat i)) with (count p - Z.of_nat i)
      in Hdiv by lia.
    rewrite Z.mod_small in Hdiv by lia. lia.
  - f_equal. unfold slot, put, PIPESIZE. simpl. rewrite Z2Nat.id by lia.
    rewrite <- nwrite_mod. rewrite list_lookup_insert_eq; [done|].
    rewrite (p_len _ Hp). pose proof (Z.mod_pos_bound (nwrite p) 512). lia.
Qed.

Lemma content_advance p :
  pipe_ok p -> empty p = false -> content p = peek p :: content (advance p).
Proof.
  intros Hp He. unfold content. rewrite count_advance by done.
  pose proof (count_range p). rewrite empty_count in He by done.
  replace (Z.to_nat (count p)) with (S (Z.to_nat (count p - 1))) by lia.
  rewrite <- cons_seq, fmap_cons. f_equal.
  - unfold slot, peek. do 3 f_equal. f_equal. lia.
  - rewrite <- fmap_S_seq, <- list_fmap_compose. apply list_fmap_ext.
    intros i k _. unfold slot, compose, advance, PIPESIZE. simpl.
    rewrite <- (Zplus_mod_idemp_l (u32 _)), u32_mod_512, Zplus_mod_idemp_l.
    do 4 f_equal. lia.
Qed.

(** ** One section at a time *)

(** [pipewrite] appends a prefix of its bytes: all of them when it is done, and
    otherwise as many as fit, leaving the pipe full. *)
Lemma pipewrite_spec killed bs p :
  pipe_ok p ->
  let '(p', ws, r) := pipewrite killed bs p in
  pipe_ok p' /\ readopen p' = readopen p /\ writeopen p' = writeopen p /\
  exists done rest, bs = done ++ rest /\ content p' = content p ++ done /\
    match r with
    | WDone => rest = [] /\ ws = [CNread]
    | WFail => rest <> [] /\ full p' = true /\ ws = [] /\ (readopen p = false \/ killed = true)
    | WSleep l => l = rest /\ rest <> [] /\ full p' = true /\ ws = [CNread] /\
                  readopen p = true /\ killed = false
    end.
Proof.
  revert p. induction bs as [|b bs IH]; intros p Hp; simpl.
  - split_and!; try done. exists [], []. rewrite !app_nil_r. split_and!; done.
  - destruct (full p) eqn:Hf.
    + destruct (negb (readopen p) || killed) eqn:E.
      * split_and!; try done. exists [], (b :: bs). rewrite app_nil_r. split_and!; try done.
        apply orb_true_iff in E as [E%negb_true_iff|E]; tauto.
      * split_and!; try done. exists [], (b :: bs). rewrite app_nil_r.
        apply orb_false_iff in E as [E%negb_false_iff E']. split_and!; done.
    + specialize (IH (put b p) (put_ok b p Hp Hf)).
      destruct (pipewrite killed bs (put b p)) as [[p' ws] r].
      destruct IH as (H1 & H2 & H3 & done' & rest & -> & Hc & Hr).
      split_and!; try done. exists (b :: done'), rest. split_and!; [done| |done].
      by rewrite Hc, content_put, <- app_assoc.
Qed.

Lemma read_loop_spec n p :
  pipe_ok p ->
  let '(out, p') := read_loop n p in
  pipe_ok p' /\ readopen p' = readopen p /\ writeopen p' = writeopen p /\
  content p = out ++ content p' /\ length out = Nat.min n (length (content p)) /\
  (empty p = false -> full p' = true -> out = []).
Proof.
  revert p. induction n as [|n IH]; intros p Hp; simpl.
  - split_and!; done.
  - destruct (empty p) eqn:He.
    + apply empty_content in He as Hc; [|done]. split_and!; try done. by rewrite Hc.
    + specialize (IH (advance p) (advance_ok p Hp He)).
      destruct (read_loop n (advance p)) as [out p'].
      destruct IH as (H1 & H2 & H3 & Hc & Hl & _).
      split_and!; try done.
      * by rewrite (content_advance p Hp He), Hc.
      * rewrite (content_advance p Hp He). simpl. by rewrite Hl.
      * intros _ Hf. exfalso. rewrite full_count in Hf by done.
        pose proof (content_length p) as Hlp. pose proof (content_length p') as Hlp'.
        rewrite (content_advance p Hp He), Hc in Hlp. simpl in Hlp.
        rewrite length_app in Hlp. pose proof (p_count _ Hp). lia.
Qed.

(** A write of at most the free space followed by a read of the same size
    gives the bytes back, in order, whatever the positions of the counters. *)
Theorem pipe_roundtrip killed bs p :
  pipe_ok p -> empty p = true -> bs <> [] -> Z.of_nat (length bs) <= PIPESIZE ->
  exists p1 p2, pipewrite killed bs p = (p1, [CNread], WDone) /\
    piperead killed (length bs) p1 = (p2, [CNwrite], RDone bs) /\ empty p2 = true.
Proof.
  intros Hp He Hbs Hlen. pose proof (pipewrite_spec killed bs p Hp) as Hw.
  apply empty_content in He as Hc0; [|done].
  destruct (pipewrite killed bs p) as [[p1 ws] r].
  destruct Hw as (Hp1 & _ & _ & dn & rest & Hbs' & Hc1 & Hr). rewrite Hc0 in Hc1. simpl in Hc1.
  pose proof (content_length p1) as Hl1. rewrite Hc1 in Hl1.
  assert (rest = [] /\ r = WDone /\ ws = [CNread]) as (-> & -> & ->).
  { destruct r as [| |l]; [naive_solver|..]; exfalso.
    - destruct Hr as (Hne & Hf & _). rewrite full_count in Hf by done. subst bs.
      rewrite length_app in Hlen. destruct rest; [done|]. simpl in Hlen. lia.
    - destruct Hr as (_ & Hne & Hf & _). rewrite full_count in Hf by done. subst bs.
      rewrite length_app in Hlen. destruct rest; [done|]. simpl in Hlen. lia. }
  rewrite app_nil_r in Hbs'. subst dn.
  pose proof (read_loop_spec (length bs) p1 Hp1) as Hrd.
  destruct (empty p1) eqn:He1.
  { apply empty_content in He1; [|done]. congruence. }
  destruct (read_loop (length bs) p1) as [out p2] eqn:Erl.
  destruct Hrd as (Hp2 & _ & _ & Hc2 & Hlo & _). rewrite Hc1 in Hc2, Hlo.
  rewrite Nat.min_id in Hlo.
  assert (out = bs /\ content p2 = []) as [-> Hc3].
  { assert (content p2 = []) as E.
    { apply (f_equal length) in Hc2. rewrite length_app in Hc2.
      apply length_zero_iff_nil. lia. }
    rewrite E, app_nil_r in Hc2. done. }
  exists p1, p2. split_and!; [done| |by apply empty_content].
  unfold piperead. by rewrite He1, Erl.
Qed.

(** ** Readers and writers interleaved *)

(** Sleeping and woken callers: for a writer the bytes it still has to write,
    for a reader the size it asked for.  [written] and [got] are the bytes put
    into and taken out of the pipe so far. *)
Record psys := PSys {
  pp : pipe;
  wsleep : list (list Z);
  wready : list (list Z);
  rsleep : list nat;
  rready : list nat;
  written : list Z;
  got : list Z
}.

(** wakeup of the channels [ws] *)
Definition wake_all (ws : list pchan) (y : psys) : psys :=
  fold_left (fun y ch => match ch with
    | CNread => PSys (pp y) (wsleep y) (wready y) [] (rsleep y ++ rready y) (written y) (got y)
    | CNwrite => PSys (pp y) [] (wsleep y ++ wready y) (rsleep y) (rready y) (written y) (got y)
    end) ws y.

(** The state after a section of [pipewrite] with the bytes [bs]. *)
Definition after_write (killed : bool) (bs : list Z) (y : psys) : psys :=
  let '(p', ws, r) := pipewrite killed bs (pp y) in
  let put_bytes := match r with WDone => bs
                   | WFail => take (length (content p') - length (content (pp y))) bs
                   | WSleep rest => take (length bs - length rest) bs end in
  let y1 := wake_all ws y in
  PSys p' (match r with WSleep rest => rest :: wsleep y1 | _ => wsleep y1 end)
    (wready y1) (rsleep y1) (rready y1) (written y1 ++ put_bytes) (got y1).

Definition after_read (killed : bool) (n : nat) (y : psys) : psys :=
  let '(p', ws, r) := piperead killed n (pp y) in
  let y1 := wake_all ws y in
  PSys p' (wsleep y1) (wready y1)
    (match r with RSleep => n :: rsleep y1 | _ => rsleep y1 end)
    (rready y1) (written y1) (got y1 ++ match r with RDone out => out | _ => [] end).

Definition after_close (writable : bool) (y : psys) : psys :=
  let '(p', ws, _) := pipeclose writable (pp y) in
  let y1 := wake_all ws y in
  PSys p' (wsleep y1) (wready y1) (rsleep y1) (rready y1) (written y1) (got y1).

(** One section of some caller.  A caller holds a reference to an open end, and
    an end is closed only when no caller uses it (fileclose calls pipeclose for
    the last reference).  [late] says whether a writer may find itself killed
    at a full pipe. *)
Inductive pipe_step (late : bool) (y : psys) : psys -> Prop :=
| ps_write killed bs :
    writeopen (pp y) = true ->
    (late = false -> killed = true -> (pipewrite killed bs (pp y)).2 <> WFail) ->
    pipe_step late y (after_write killed bs y)
| ps_write_again killed bs l1 l2 :
    wready y = l1 ++ bs :: l2 ->
    (late = false -> killed = true -> (pipewrite killed bs (pp y)).2 <> WFail) ->
    pipe_step late y (after_write killed bs
      (PSys (pp y) (wsleep y) (l1 ++ l2) (rsleep y) (rready y) (written y) (got y)))
| ps_read killed n :
    readopen (pp y) = true -> pipe_step late y (after_read killed n y)
| ps_read_again killed n l1 l2 :
    rready y = l1 ++ n :: l2 ->
    pipe_step late y (after_read killed n
      (PSys (pp y) (wsleep y) (wready y) (rsleep y) (l1 ++ l2) (written y) (got y)))
| ps_close_read :
    rsleep y = [] -> rready y = [] -> pipe_step late y (after_close false y)
| ps_close_write :
    wsleep y = [] -> wready y = [] -> pipe_step late y (after_close true y)
| ps_kill_writer bs l1 l2 :
    wsleep y = l1 ++ bs :: l2 ->
    pipe_step late y
      (PSys (pp y) (l1 ++ l2) (bs :: wready y) (rsleep y) (rready y) (written y) (got y))
| ps_kill_reader n l1 l2 :
    rsleep y = l1 ++ n :: l2 ->
    pipe_step late y
      (PSys (pp y) (wsleep y) (wready y) (l1 ++ l2) (n :: rready y) (written y) (got y)).

Inductive pipe_run (late : bool) (y : psys) : psys -> Prop :=
| pr_refl : pipe_run late y y
| pr_step z z' : pipe_run late y z -> pipe_step late z z' -> pipe_run late y z'.

Definition pipe_start (junk : list Z) : psys := PSys (pipe_init junk) [] [] [] [] [] [].

(** The bytes taken out, followed by those in the buffer, are the bytes put in. *)
Definition fifo_inv (y : psys) : Prop :=
  pipe_ok (pp y) /\ got y ++ content (pp y) = written y.

Lemma wake_all_fields ws y :
  pp (wake_all ws y) = pp y /\ written (wake_all ws y) = written y /\
  got (wake_all ws y) = got y.
Proof.
  revert y. induction ws as [|ch ws IH]; intros y; [done|]. simpl.
  destruct (IH match ch with
    | CNread => PSys (pp y) (wsleep y) (wready y) [] (rsleep y ++ rready y) (written y) (got y)
    | CNwrite => PSys (pp y) [] (wsleep y ++ wready y) (rsleep y) (rready y) (written y) (got y)
    end) as (-> & -> & ->). by destruct ch.
Qed.

Lemma fifo_write killed bs y : fifo_inv y -> fifo_inv (after_write killed bs y).
Proof.
  intros [Hp Hf]. unfold after_write. pose proof (pipewrite_spec killed bs _ Hp) as Hw.
  destruct (pipewrite killed bs (pp y)) as [[p' ws] r].
  destruct Hw as (Hp' & _ & _ & dn & rest & Hbs & Hc & Hr).
  destruct (wake_all_fields ws y) as (_ & E1 & E2).
  split; simpl; [done|]. rewrite E1, E2, Hc, app_assoc, Hf. f_equal.
  rewrite Hbs. destruct r as [| |l].
  - destruct Hr as [-> _]. by rewrite app_nil_r.
  - rewrite length_app, Nat.add_comm, Nat.add_sub. symmetry. apply take_app_length.
  - destruct Hr as [-> _]. rewrite length_app, Nat.add_sub. symmetry. apply take_app_length.
Qed.

Lemma fifo_read killed n y : fifo_inv y -> fifo_inv (after_read killed n y).
Proof.
  intros [Hp Hf]. unfold after_read, piperead.
  destruct (empty (pp y) && writeopen (pp y)).
  { by destruct killed; split; simpl; rewrite ?app_nil_r. }
  pose proof (read_loop_spec n _ Hp) as Hr. destruct (read_loop n (pp y)) as [out p'].
  destruct Hr as (Hp' & _ & _ & Hc & _).
  destruct (wake_all_fields [CNwrite] y) as (_ & E1 & E2).
  split; simpl; [done|]. by rewrite <- app_assoc, <- Hc.
Qed.

Lemma fifo_step late y y' : fifo_inv y -> pipe_step late y y' -> fifo_inv y'.
Proof.
  intros Hy. destruct 1 as [killed bs _ _|killed bs l1 l2 _ _|killed n _|killed n l1 l2 _|_ _|_ _| |].
  - by apply fifo_write.
  - apply fifo_write. by destruct y.
  - by apply fifo_read.
  - apply fifo_read. by destruct y.
  - destruct Hy as [[Hl Hr Hw Hc] Hf]. by split.
  - destruct Hy as [[Hl Hr Hw Hc] Hf]. by split.
  - done.
  - done.
Qed.

Lemma pipe_init_ok junk : length junk = 512%nat -> pipe_ok (pipe_init junk).
Proof. intros Hl. constructor; simpl; try done; try lia. Qed.

(** C35: a pipe is first in, first out: in every interleaving of reads, writes,
    closes and kills, the bytes the readers have received, followed by those in
    the buffer, are exactly the bytes accepted from the writers, in order, and
    at most 512 are in the buffer. *)
Theorem pipe_fifo junk late y :
  length junk = 512%nat -> pipe_run late (pipe_start junk) y ->
  got y ++ content (pp y) = written y /\ (length (content (pp y)) <= 512)%nat.
Proof.
  intros Hj Hrun. assert (fifo_inv y) as [Hp Hf].
  { induction Hrun as [|z z' _ IH Hs]; [|by eapply fifo_step].
    split; [by apply pipe_init_ok|done]. }
  split; [done|]. pose proof (content_length (pp y)). pose proof (p_count _ Hp).
  unfold PIPESIZE in *. lia.
Qed.

(** ** No wakeup is lost *)

Record wake_inv (y : psys) : Prop := {
  w_ok : pipe_ok (pp y);
  w_rsleep : rsleep y <> [] -> empty (pp y) = true /\ writeopen (pp y) = true;
  w_wsleep : wsleep y <> [] -> full (pp y) = true /\ readopen (pp y) = true;
  w_readers : rsleep y ++ rready y <> [] -> readopen (pp y) = true;
  w_writers : wsleep y ++ wready y <> [] -> writeopen (pp y) = true
}.

Lemma full_not_empty p : pipe_ok p -> full p = true -> empty p = false.
Proof. intros Hp. rewrite full_count, empty_count by done. unfold PIPESIZE. lia. Qed.

Lemma app_ne_nil {A} (l1 l2 : list A) x : l1 ++ x :: l2 <> [].
Proof. by destruct l1. Qed.

Lemma app_ne_nil_r {A} (l1 l2 : list A) : l2 <> [] -> l1 ++ l2 <> [].
Proof. by destruct l1. Qed.

(** A write at a pipe that is already full changes nothing. *)
Lemma pipewrite_full killed bs p :
  full p = true -> bs <> [] ->
  (pipewrite killed bs p).1.1 = p /\ (pipewrite killed bs p).2 <> WDone.
Proof. intros Hf Hb. destruct bs; [done|]. simpl. rewrite Hf. by destruct (_ || _). Qed.

Lemma wake_write killed bs y :
  wake_inv y -> writeopen (pp y) = true ->
  (killed = true -> (pipewrite killed bs (pp y)).2 <> WFail) ->
  wake_inv (after_write killed bs y).
Proof.
  intros [Hok Hrs Hws Hrd Hwr] Hopen Hk. unfold after_write.
  pose proof (pipewrite_spec killed bs _ Hok) as Hw.
  pose proof (pipewrite_full killed bs (pp y)) as Hfull.
  destruct (pipewrite killed bs (pp y)) as [[p' ws] r]. simpl in Hk, Hfull.
  destruct Hw as (Hok' & Ero & Ewo & dn & rest & Hbs & Hc & Hr).
  destruct r as [| |l].
  - destruct Hr as [-> ->]. constructor; simpl; rewrite ?Ero, ?Ewo; try done.
    intros Hne. destruct (Hws Hne) as [Hf Hro]. destruct (decide (bs = [])) as [->|Hb].
    + symmetry in Hbs. rewrite app_nil_r in Hbs. subst dn. rewrite app_nil_r in Hc.
      split; [|done]. rewrite full_count in Hf |- * by done.
      by rewrite <- content_length, Hc, content_length.
    + by destruct (Hfull Hf Hb) as [_ []].
  - destruct Hr as (Hne & Hf' & -> & Hor).
    assert (Hro : readopen (pp y) = false).
    { destruct Hor as [?|Hkd]; [done|]. by destruct (Hk Hkd). }
    assert (rsleep y = []) as Ers.
    { destruct (rsleep y) eqn:E; [done|]. rewrite Hrd in Hro by done. done. }
    constructor; simpl; rewrite ?Ero, ?Ewo, ?Ers; try done.
    + intros Hs. destruct (Hws Hs). congruence.
    + rewrite Ers in Hrd. done.
  - destruct Hr as (-> & Hne & Hf' & -> & Hro & _).
    constructor; simpl; rewrite ?Ero, ?Ewo; try done.
Qed.

Lemma wake_read killed n y :
  wake_inv y -> readopen (pp y) = true -> wake_inv (after_read killed n y).
Proof.
  intros [Hok Hrs Hws Hrd Hwr] Hopen. unfold after_read, piperead.
  destruct (empty (pp y) && writeopen (pp y)) eqn:E.
  - apply andb_true_iff in E as [He Hwo]. destruct killed; constructor; simpl; done.
  - pose proof (read_loop_spec n _ Hok) as Hr. destruct (read_loop n (pp y)) as [out p'].
    destruct Hr as (Hok' & Ero & Ewo & _). constructor; simpl; rewrite ?Ero, ?Ewo; try done.
    intros Hne. destruct (Hrs Hne) as [He Hwo]. by rewrite He, Hwo in E.
Qed.

Lemma wake_step y y' : wake_inv y -> pipe_step false y y' -> wake_inv y'.
Proof.
  intros Hy. destruct 1 as [killed bs Ho Hk|killed bs l1 l2 Hr Hk|killed n Ho|killed n l1 l2 Hr
    |E1 E2|E1 E2|bs l1 l2 E|n l1 l2 E].
  - apply wake_write; auto.
  - destruct Hy as [Hok Hrs Hws Hrd Hwr].
    assert (writeopen (pp y) = true) as Ho.
    { apply Hwr. rewrite Hr. apply app_ne_nil_r, app_ne_nil. }
    apply wake_write; auto. constructor; done.
  - by apply wake_read.
  - destruct Hy as [Hok Hrs Hws Hrd Hwr].
    assert (readopen (pp y) = true) as Ho.
    { apply Hrd. rewrite Hr. apply app_ne_nil_r, app_ne_nil. }
    apply wake_read; [constructor; done|done].
  - destruct Hy as [[Hl Hr Hw Hc] Hrs Hws Hrd Hwr].
    constructor; simpl; rewrite ?E1, ?E2; try done.
  - destruct Hy as [[Hl Hr Hw Hc] Hrs Hws Hrd Hwr].
    constructor; simpl; rewrite ?E1, ?E2; try done.
  - destruct Hy as [Hok Hrs Hws Hrd Hwr]. rewrite E in Hws, Hwr.
    specialize (Hws (app_ne_nil _ _ _)). constructor; simpl; auto.
    intros _. apply Hwr. rewrite <- app_assoc. simpl. apply app_ne_nil.
  - destruct Hy as [Hok Hrs Hws Hrd Hwr]. rewrite E in Hrs, Hrd.
    specialize (Hrs (app_ne_nil _ _ _)). constructor; simpl; auto.
    intros _. apply Hrd. rewrite <- app_assoc. simpl. apply app_ne_nil.
Qed.

(** C36: no wakeup is lost.  As long as no writer is found killed at a full pipe,
    a reader sleeps only while the pipe is empty and can still be written, and
    a writer sleeps only while it is full and can still be read. *)
Theorem pipe_no_lost_wakeup junk y :
  length junk = 512%nat -> pipe_run false (pipe_start junk) y ->
  (rsleep y <> [] -> empty (pp y) = true /\ writeopen (pp y) = true) /\
  (wsleep y <> [] -> full (pp y) = true /\ readopen (pp y) = true).
Proof.
  intros Hj Hrun. assert (wake_inv y) as [_ H1 H2 _ _]; [|done].
  induction Hrun as [|z z' _ IH Hs]; [|by eapply wake_step].
  constructor; simpl; (done || by apply pipe_init_ok).
Qed.

(** A writer that has filled the pipe and finds itself killed returns
    without waking the readers: a reader can be left asleep at a full pipe. *)
Theorem pipe_killed_writer_strands_reader :
  exists y, pipe_run true (pipe_start (replicate 512 0)) y /\
    rsleep y <> [] /\ full (pp y) = true.
Proof.
  exists (after_write true (replicate 513 7) (after_read false 1 (pipe_start (replicate 512 0)))).
  split; [|split; [by vm_compute|by vm_compute]].
  eapply pr_step; [eapply pr_step; [apply pr_refl|]|].
  - apply (ps_read true _ false 1). reflexivity.
  - apply (ps_write true _ true (replicate 513 7)); [by vm_compute|intros [=]].
Qed.

(** ** The properties at concrete states *)

Lemma pipe_roundtrip_witness :
  exists p1 p2, pipewrite false [1; 2; 3] (Pipe (replicate 512 0) 4294967294 4294967294 true true)
      = (p1, [CNread], WDone) /\
    piperead false 3 p1 = (p2, [CNwrite], RDone [1; 2; 3]).
Proof.
  destruct (pipe_roundtrip false [1; 2; 3]
    (Pipe (replicate 512 0) 4294967294 4294967294 true true)) as (p1 & p2 & H1 & H2 & _).
  - constructor; simpl; (reflexivity || lia || discriminate).
  - reflexivity.
  - discriminate.
  - discriminate.
  - exists p1, p2. split; [exact H1|exact H2].
Defined.

Definition pipe_demo : psys :=
  after_read false 2 (after_write false [5; 6; 7] (pipe_start (replicate 512 0))).

Lemma pipe_demo_run late : pipe_run late (pipe_start (replicate 512 0)) pipe_demo.
Proof.
  eapply pr_step; [eapply pr_step; [apply pr_refl|]|].
  - apply (ps_write late _ false [5; 6; 7]); [reflexivity|intros _ [=]].
  - apply (ps_read late _ false 2). by vm_compute.
Qed.

Lemma pipe_fifo_witness : got pipe_demo ++ content (pp pipe_demo) = written pipe_demo.
Proof.
  exact (proj1 (pipe_fifo (replicate 512 0) true pipe_demo eq_refl (pipe_demo_run true))).
Defined.

(** A reader asleep at the fresh pipe. *)
Definition pipe_sleeper : psys := after_read false 2 (pipe_start (replicate 512 0)).

Lemma pipe_sleeper_run : pipe_run false (pipe_start (replicate 512 0)) pipe_sleeper.
Proof.
  eapply pr_step; [apply pr_refl|]. apply (ps_read false _ false 2). reflexivity.
Qed.

Lemma pipe_no_lost_wakeup_witness :
  rsleep pipe_sleeper = [2%nat] /\
  empty (pp pipe_sleeper) = true /\ writeopen (pp pipe_sleeper) = true.
Proof.
  split; [reflexivity|].
  apply (proj1 (pipe_no_lost_wakeup (replicate 512 0) pipe_sleeper eq_refl pipe_sleeper_run)).
  discriminate.
Defined.
