(* ===== verification/Bytes.v ===== *)
(** * Bytes in memory

    Little-endian 16- and 32-bit fields of a byte array (the x86 layout of the
    structs that the kernel reads from and writes to disk blocks), and the
    block copies of string.c on lists of bytes. *)
From S2P Require Import Prelude.

Definition is_byte (b : Z) : Prop := 0 <= b < 256.

(** ** Fields *)

Definition le4 (v : Z) : list Z :=
  [v mod 256; (v / 256) mod 256; (v / 65536) mod 256; (v / 16777216) mod 256].
Definition le2 (v : Z) : list Z := [v mod 256; (v / 256) mod 256].

Definition of_le4 (a b c d : Z) : Z := a + 256 * b + 65536 * c + 16777216 * d.

(** The [uint] at byte offset [off], and its update. *)
Definition get32 (d : list Z) (off : nat) : option Z :=
  match drop off d with
  | a :: b :: c :: e :: _ => Some (of_le4 a b c e)
  | _ => None
  end.
Definition put32 (off : nat) (v : Z) (d : list Z) : list Z :=
  take off d ++ le4 v ++ drop (off + 4) d.

(** The [ushort] at byte offset [off], and its update. *)
Definition get16 (d : list Z) (off : nat) : option Z :=
  match drop off d with
  | a :: b :: _ => Some (a + 256 * b)
  | _ => None
  end.
Definition put16 (off : nat) (v : Z) (d : list Z) : list Z :=
  take off d ++ le2 v ++ drop (off + 2) d.

Lemma of_le4_le4 v : of_le4 (v mod 256) ((v / 256) mod 256) ((v / 65536) mod 256)
  ((v / 16777216) mod 256) = u32 v.
Proof.
  unfold of_le4, u32. change (2 ^ 32) with (256 * (256 * (256 * 256))).
  rewrite (Z.rem_mul_r v 256), (Z.rem_mul_r (v / 256) 256), (Z.rem_mul_r (v / 256 / 256) 256)
    by lia.
  rewrite !Z.div_div by lia. change (256 * 256) with 65536.
  change (65536 * 256) with 16777216. lia.
Qed.

Lemma length_put32 off v d : (off + 4 <= length d)%nat -> length (put32 off v d) = length d.
Proof.
  intros Hl. unfold put32. rewrite !length_app, length_take, length_drop. simpl. lia.
Qed.

Lemma get32_put32 off v d :
  (off + 4 <= length d)%nat -> get32 (put32 off v d) off = Some (u32 v).
Proof.
  intros Hl. unfold get32, put32. rewrite drop_app_length' by (rewrite length_take; lia).
  simpl. by rewrite of_le4_le4.
Qed.

Lemma drop_put32_lt off v d k :
  (off + 4 <= length d)%nat -> (off + 4 <= k)%nat -> drop k (put32 off v d) = drop k d.
Proof.
  intros Hl Hk. unfold put32. rewrite drop_app_ge by (rewrite length_take; lia).
  rewrite length_take, Nat.min_l by lia.
  rewrite drop_app_ge by (simpl; lia). simpl length. rewrite drop_drop. f_equal. lia.
Qed.

Lemma get32_put32_after off v d k :
  (off + 4 <= length d)%nat -> (off + 4 <= k)%nat -> get32 (put32 off v d) k = get32 d k.
Proof. intros Hl Hk. unfold get32. by rewrite drop_put32_lt. Qed.

Lemma get32_take d k n : (k + 4 <= n)%nat -> get32 (take n d) k = get32 d k.
Proof.
  intros Hk. unfold get32.
  assert (drop k (take n d) = take (n - k) (drop k d)) as ->
    by (rewrite take_drop_commute; do 2 f_equal; lia).
  destruct (n - k)%nat as [|[|[|[|m]]]] eqn:E; try lia.
  by destruct (drop k d) as [|? [|? [|? [|? ?]]]].
Qed.

Lemma get32_put32_before off v d k :
  (off + 4 <= length d)%nat -> (k + 4 <= off)%nat -> get32 (put32 off v d) k = get32 d k.
Proof.
  intros Hl Hk. rewrite <- (get32_take _ k off), <- (get32_take d k off) by lia.
  unfold put32. by rewrite take_app_length' by (rewrite length_take; lia).
Qed.
