(* ===== verification/BlockCache.v ===== *)
(** * The buffer cache as its clients see it

    log.c and fs.c use a cached disk block through a [struct buf*] obtained
    from [bread]: they read and change b->data, write it through with
    [bwrite], mark it dirty and give it back with [brelse].  [BlockCache] has
    these operations and [BlockCacheLaws] what the clients rely on; Bio.v has
    the code and proves the laws. *)
From S2P Require Import Prelude.

Definition NBUF : nat := 10.
Definition BSIZE : Z := 512.
Definition ROOTDEV : Z := 1.

(** [B] is the state of the cache and the disk, [H] the type of buffers. *)
Class BlockCache (B H : Type) := {
  bread : Z -> M B H;                (* bread(ROOTDEV, sector) *)
  bsector : H -> M B Z;              (* b->sector *)
  bdata : H -> M B (list Z);         (* b->data *)
  bset : H -> list Z -> M B unit;    (* memmove(b->data, ..., BSIZE) *)
  bwrite : H -> M B unit;
  bmark : H -> M B unit;             (* b->flags |= B_DIRTY *)
  brelse : H -> M B unit
}.

Class BlockCacheLaws (B H : Type) `{BlockCache B H} := {
  (** The invariant; the sectors on the disk with their content; what a reader
      of a sector sees; the buffers handed out; the sectors with the dirty bit;
      the disk writes since the start. *)
  binv : B -> Prop;
  disk : B -> Z -> option (list Z);
  view : B -> Z -> option (list Z);
  held : B -> gmap Z H;
  dirty : B -> gset Z;
  writes : B -> list (Z * list Z);

  view_length b s d : binv b -> view b s = Some d -> length d = 512%nat;
  disk_view b s : binv b -> is_Some (disk b s) <-> is_Some (view b s);
  clean_view b s : binv b -> s ∉ dirty b -> held b !! s = None -> view b s = disk b s;

  bread_law b s :
    binv b -> held b !! s = None -> is_Some (disk b s) ->
    s ∈ dirty b \/ (size (dom (held b) ∪ dirty b) < NBUF)%nat ->
    exists h b', bread s b = Ret h b' /\ binv b' /\ held b' = <[s := h]> (held b) /\
      dirty b' = dirty b /\ writes b' = writes b /\
      (forall t, view b' t = view b t) /\ (forall t, disk b' t = disk b t);
  bsector_law b s h :
    binv b -> held b !! s = Some h -> bsector h b = Ret s b;
  bdata_law b s h d :
    binv b -> held b !! s = Some h -> view b s = Some d -> bdata h b = Ret d b;
  bset_law b s h d :
    binv b -> held b !! s = Some h -> length d = 512%nat ->
    exists b', bset h d b = Ret tt b' /\ binv b' /\ held b' = held b /\
      dirty b' = dirty b /\ writes b' = writes b /\ view b' s = Some d /\
      (forall t, t <> s -> view b' t = view b t) /\ (forall t, disk b' t = disk b t);
  bwrite_law b s h d :
    binv b -> held b !! s = Some h -> view b s = Some d ->
    exists b', bwrite h b = Ret tt b' /\ binv b' /\ held b' = held b /\
      dirty b' = dirty b ∖ {[s]} /\ writes b' = writes b ++ [(s, d)] /\
      (forall t, view b' t = view b t) /\ disk b' s = Some d /\
      (forall t, t <> s -> disk b' t = disk b t);
  bmark_law b s h :
    binv b -> held b !! s = Some h ->
    exists b', bmark h b = Ret tt b' /\ binv b' /\ held b' = held b /\
      dirty b' = {[s]} ∪ dirty b /\ writes b' = writes b /\
      (forall t, view b' t = view b t) /\ (forall t, disk b' t = disk b t);
  brelse_law b s h :
    binv b -> held b !! s = Some h -> s ∈ dirty b \/ view b s = disk b s ->
    exists b', brelse h b = Ret tt b' /\ binv b' /\ held b' = delete s (held b) /\
      dirty b' = dirty b /\ writes b' = writes b /\
      (forall t, view b' t = view b t) /\ (forall t, disk b' t = disk b t)
}.
