(* ===== verification/Bio.v ===== *)
(** * The buffer cache (bio.c) on the memory disk (memide.c)

    Ten buffers in an array, threaded on a list in order of use ([lru], most
    recently used first; the doubly linked list of the code).  [iderw] is the
    one of memide.c, which copies between the buffer and the disk image at
    once.  The proofs discharge the interface [BlockCacheLaws] that the log
    and the file system are verified against. *)
From S2P Require Import Prelude BlockCache.

(** The three flag bits, device, sector and data of a struct buf. *)
Record buf := Buf {
  b_busy : bool;
  b_valid : bool;
  b_dirty : bool;
  b_dev : Z;
  b_sector : Z;
  b_data : list Z
}.

Definition set_b_busy (v : bool) (c : buf) : buf :=
  Buf v (b_valid c) (b_dirty c) (b_dev c) (b_sector c) (b_data c).
Definition set_b_dirty (v : bool) (c : buf) : buf :=
  Buf (b_busy c) (b_valid c) v (b_dev c) (b_sector c) (b_data c).
Definition set_b_data (v : list Z) (c : buf) : buf :=
  Buf (b_busy c) (b_valid c) (b_dirty c) (b_dev c) (b_sector c) v.

(** bcache and the disk image; [wlog] records the disk writes. *)
Record bst := Bst {
  bufs : list buf;
  lru : list nat;
  memdisk : list (list Z);
  wlog : list (Z * list Z)
}.

Definition set_bufs (v : list buf) (s : bst) : bst := Bst v (lru s) (memdisk s) (wlog s).
Definition set_lru (v : list nat) (s : bst) : bst := Bst (bufs s) v (memdisk s) (wlog s).

(** ** Operations *)

(** [binit]: every buffer is put at the head of the list. *)
Definition binit (image : list (list Z)) : bst :=
  Bst (replicate NBUF (Buf false false false (2 ^ 32 - 1) 0 (replicate 512 0)))
    (fold_left (fun l i => i :: l) (seq 0 NBUF) []) image [].

Definition get_buf (i : nat) : M bst buf := gets_opt (fun s => bufs s !! i).
Definition upd_buf (i : nat) (f : buf -> buf) : M bst unit :=
  modify (fun s => set_bufs (alter f i (bufs s)) s).

(** [iderw] of memide.c *)
Definition iderw (i : nat) : M bst unit :=
  c <~ get_buf i;;;
  if negb (b_busy c) then panic "iderw: buf not busy" else
  if b_valid c && negb (b_dirty c) then panic "iderw: nothing to do" else
  if negb (b_dev c =? 1) then panic "iderw: request not for disk 1" else
  n <~ gets (fun s => Z.of_nat (length (memdisk s)));;;
  if n <=? b_sector c then panic "iderw: sector out of range" else
  if b_dirty c then
    modify_opt (fun s => (fun m => Bst (bufs s) (lru s) m (wlog s ++ [(b_sector c, b_data c)]))
                           <$> wr (memdisk s) (b_sector c) (b_data c));;;
    upd_buf i (fun c => Buf (b_busy c) true false (b_dev c) (b_sector c) (b_data c))
  else
    d <~ gets_opt (fun s => rd (memdisk s) (b_sector c));;;
    upd_buf i (fun c => Buf (b_busy c) true (b_dirty c) (b_dev c) (b_sector c) d).

Definition is_for (l : list buf) (dev sec : Z) (i : nat) : bool :=
  match l !! i with Some c => (b_dev c =? dev) && (b_sector c =? sec) | None => false end.
Definition recyclable (l : list buf) (i : nat) : bool :=
  match l !! i with Some c => negb (b_busy c) && negb (b_dirty c) | None => false end.

(** [bget] sleeps while another process has the buffer. *)
Definition bget (dev sec : Z) : M bst nat :=
  l <~ gets bufs;;;
  order <~ gets lru;;;
  match find (is_for l dev sec) order with
  | Some i =>
      c <~ get_buf i;;;
      if b_busy c then (fun s => Sched s)
      else upd_buf i (set_b_busy true);;; ret i
  | None =>
      match find (recyclable l) (rev order) with
      | Some i =>
          upd_buf i (fun c => Buf true false false dev sec (b_data c));;;
          ret i
      | None => panic "bget: no buffers"
      end
  end.

Definition bread_buf (dev sec : Z) : M bst nat :=
  i <~ bget dev sec;;;
  c <~ get_buf i;;;
  when (negb (b_valid c)) (iderw i);;;
  ret i.

Definition bwrite_buf (i : nat) : M bst unit :=
  c <~ get_buf i;;;
  if negb (b_busy c) then panic "bwrite" else
  upd_buf i (set_b_dirty true);;;
  iderw i.

Definition brelse_buf (i : nat) : M bst unit :=
  c <~ get_buf i;;;
  if negb (b_busy c) then panic "brelse" else
  modify (fun s => set_lru (i :: filter (fun j => j <> i) (lru s)) s);;;
  upd_buf i (set_b_busy false).

#[export] Instance bio : BlockCache bst nat := {
  bread := bread_buf ROOTDEV;
  bsector i := c <~ get_buf i;;; ret (b_sector c);
  bdata i := c <~ get_buf i;;; ret (b_data c);
  bset i d := upd_buf i (set_b_data d);
  bwrite := bwrite_buf;
  bmark i := upd_buf i (set_b_dirty true);
  brelse := brelse_buf
}.

(** ** Invariant and abstraction *)

Record bio_inv (s : bst) : Prop := {
  bi_len : length (bufs s) = NBUF;
  bi_lru : lru s ≡ₚ seq 0 NBUF;
  bi_uniq : forall i j c e, bufs s !! i = Some c -> bufs s !! j = Some e ->
    b_dev c = 1 -> b_dev e = 1 -> b_sector c = b_sector e -> i = j;
  bi_free : forall i c, bufs s !! i = Some c -> b_dev c <> 1 ->
    b_busy c = false /\ b_dirty c = false;
  bi_valid : forall i c, bufs s !! i = Some c -> b_dev c = 1 ->
    b_valid c = true /\ 0 <= b_sector c < Z.of_nat (length (memdisk s)) /\
    length (b_data c) = 512%nat;
  bi_clean : forall i c, bufs s !! i = Some c -> b_dev c = 1 ->
    b_busy c = false -> b_dirty c = false -> rd (memdisk s) (b_sector c) = Some (b_data c);
  bi_blocks : Forall (fun d => length d = 512%nat) (memdisk s)
}.

Fixpoint held_from (k : nat) (l : list buf) : gmap Z nat :=
  match l with
  | [] => ∅
  | c :: l => if b_busy c then <[b_sector c := k]> (held_from (S k) l)
              else held_from (S k) l
  end.

Definition bio_held (s : bst) : gmap Z nat := held_from 0 (bufs s).
Definition bio_dirty (s : bst) : gset Z :=
  list_to_set (b_sector <$> filter (fun c => b_dirty c = true) (bufs s)).
Definition bio_disk (s : bst) (sec : Z) : option (list Z) := rd (memdisk s) sec.
Definition bio_view (s : bst) (sec : Z) : option (list Z) :=
  match find (fun c => (b_dev c =? 1) && (b_sector c =? sec)) (bufs s) with
  | Some c => Some (b_data c)
  | None => rd (memdisk s) sec
  end.

Lemma held_from_lookup k l s i :
  (forall a b c e, l !! a = Some c -> l !! b = Some e -> b_busy c = true ->
     b_busy e = true -> b_sector c = b_sector e -> a = b) ->
  held_from k l !! s = Some i <->
  exists j c, i = (k + j)%nat /\ l !! j = Some c /\ b_busy c = true /\ b_sector c = s.
Proof.
  revert k. induction l as [|x l IH]; intros k Hu.
  - simpl. rewrite lookup_empty. split; [done|]. by intros (j & c & _ & Hj & _).
  - assert (IH' := IH (S k) (fun a b c e Ha Hb Hc He Hs =>
      eq_add_S _ _ (Hu (S a) (S b) c e Ha Hb Hc He Hs))). clear IH. simpl.
    assert (Htail : held_from (S k) l !! s = Some i <->
      exists j c, i = (k + S j)%nat /\ (x :: l) !! S j = Some c /\ b_busy c = true /\
        b_sector c = s).
    { rewrite IH'. split; intros (j & c & -> & Hj); exists j, c; (split; [lia|exact Hj]). }
    destruct (b_busy x) eqn:Hx.
    + destruct (decide (b_sector x = s)) as [<-|Hne].
      * rewrite lookup_insert_eq. split.
        -- intros [= <-]. exists 0%nat, x. split_and!; [lia|done..].
        -- intros (j & c & -> & Hj & Hc & Hs). f_equal.
           assert (j = 0%nat) as -> by (apply (Hu j 0%nat c x); done). lia.
      * rewrite lookup_insert_ne, Htail by done. split.
        -- intros (j & c & Hj). by exists (S j), c.
        -- intros (j & c & -> & Hj & Hc & Hs). destruct j as [|j]; [|by exists j, c].
           simpl in Hj. congruence.
    + rewrite Htail. split.
      * intros (j & c & Hj). by exists (S j), c.
      * intros (j & c & -> & Hj & Hc & Hs). destruct j as [|j]; [|by exists j, c].
        simpl in Hj. congruence.
Qed.

Lemma bio_busy_dev s i c : bio_inv s -> bufs s !! i = Some c -> b_busy c = true -> b_dev c = 1.
Proof.
  intros Hi Hc Hb. destruct (decide (b_dev c = 1)); [done|].
  destruct (bi_free _ Hi i c); [done..|congruence].
Qed.

Lemma bio_dirty_dev s i c : bio_inv s -> bufs s !! i = Some c -> b_dirty c = true -> b_dev c = 1.
Proof.
  intros Hi Hc Hb. destruct (decide (b_dev c = 1)); [done|].
  destruct (bi_free _ Hi i c); [done..|congruence].
Qed.

Lemma bio_held_lookup s sec i :
  bio_inv s ->
  bio_held s !! sec = Some i <->
  exists c, bufs s !! i = Some c /\ b_busy c = true /\ b_sector c = sec.
Proof.
  intros Hi. unfold bio_held. rewrite held_from_lookup.
  - split; [intros (j & c & -> & Hc); exists c; by rewrite Nat.add_0_l|].
    intros (c & Hc). by exists i, c.
  - intros a b c e Ha Hb Hc He Hs. eapply bi_uniq; eauto using bio_busy_dev.
Qed.

Lemma bio_dirty_elem s sec :
  sec ∈ bio_dirty s <-> exists i c, bufs s !! i = Some c /\ b_dirty c = true /\ b_sector c = sec.
Proof.
  unfold bio_dirty. rewrite elem_of_list_to_set, list_elem_of_fmap. split.
  - intros (c & -> & Hc). apply list_elem_of_filter in Hc as [Hd Hc].
    apply list_elem_of_lookup_1 in Hc as [i Hi]. eauto 10.
  - intros (i & c & Hi & Hd & <-). exists c. split; [done|].
    apply list_elem_of_filter. split; [done|]. by eapply list_elem_of_lookup_2.
Qed.

Lemma bio_view_cached s i c :
  bio_inv s -> bufs s !! i = Some c -> b_dev c = 1 -> bio_view s (b_sector c) = Some (b_data c).
Proof.
  intros Hi Hc Hdev. unfold bio_view. destruct (find _ _) as [e|] eqn:Hf.
  - apply find_some in Hf as [Hin He]. apply andb_true_iff in He as [?%Z.eqb_eq ?%Z.eqb_eq].
    apply list_elem_of_In, list_elem_of_lookup_1 in Hin as [j Hj].
    assert (j = i) as -> by (by eapply (bi_uniq _ Hi); eauto). congruence.
  - exfalso. apply list_elem_of_lookup_2, list_elem_of_In in Hc.
    pose proof (find_none _ _ Hf _ Hc) as Hno. simpl in Hno. lia.
Qed.

Lemma bio_view_uncached s sec :
  (forall i c, bufs s !! i = Some c -> b_dev c = 1 -> b_sector c <> sec) ->
  bio_view s sec = rd (memdisk s) sec.
Proof.
  intros Hno. unfold bio_view. destruct (find _ _) as [e|] eqn:Hf; [|done].
  apply find_some in Hf as [Hin He]. apply andb_true_iff in He as [?%Z.eqb_eq ?%Z.eqb_eq].
  apply list_elem_of_In, list_elem_of_lookup_1 in Hin as [j Hj]. by destruct (Hno j e).
Qed.

(** Either a buffer holds the sector, or none does. *)
Lemma bio_cached_dec s sec :
  (exists i c, bufs s !! i = Some c /\ b_dev c = 1 /\ b_sector c = sec) \/
  (forall i c, bufs s !! i = Some c -> b_dev c = 1 -> b_sector c <> sec).
Proof.
  destruct (find (fun c => (b_dev c =? 1) && (b_sector c =? sec)) (bufs s)) as [c|] eqn:Hf.
  - left. apply find_some in Hf as [Hin He]. apply andb_true_iff in He as [?%Z.eqb_eq ?%Z.eqb_eq].
    apply list_elem_of_In, list_elem_of_lookup_1 in Hin as [i Hi]. eauto.
  - right. intros i c Hc Hdev Hs. apply list_elem_of_lookup_2, list_elem_of_In in Hc.
    pose proof (find_none _ _ Hf _ Hc) as Hno. simpl in Hno. lia.
Qed.

(** ** One buffer changes *)

Section Update.
Context (s : bst) (i : nat) (c c' : buf) (l' : list nat) (m' : list (list Z))
  (w' : list (Z * list Z)).

(** Buffer [i], with content [c], becomes [c'] for sector [sec]; if it held
    another sector it was free and clean, and no other buffer holds [sec]. *)
Context (Hinv : bio_inv s) (Hc : bufs s !! i = Some c)
  (Hold : b_dev c = 1 -> b_sector c = b_sector c' \/ (b_busy c = false /\ b_dirty c = false))
  (Hnew : forall j e, j <> i -> bufs s !! j = Some e -> b_dev e = 1 -> b_sector e <> b_sector c')
  (Hdev : b_dev c' = 1) (Hval : b_valid c' = true) (Hlen : length (b_data c') = 512%nat)
  (Hsec : 0 <= b_sector c' < Z.of_nat (length (memdisk s)))
  (Hclean : b_busy c' = false -> b_dirty c' = false ->
     rd m' (b_sector c') = Some (b_data c'))
  (Hlru : l' ≡ₚ seq 0 NBUF) (Hmlen : length m' = length (memdisk s))
  (Hm512 : Forall (fun d => length d = 512%nat) m')
  (Hmem : forall t, t <> b_sector c' -> rd m' t = rd (memdisk s) t).

Let s' := Bst (<[i := c']> (bufs s)) l' m' w'.

Lemma upd_lookup j e :
  bufs s' !! j = Some e <-> (j = i /\ e = c') \/ (j <> i /\ bufs s !! j = Some e).
Proof.
  simpl. rewrite list_lookup_insert_Some. split.
  - intros [(<- & <- & _)|[? ?]]; [by left|right; by split].
  - intros [[-> ->]|[? ?]]; [|right; by split]. left. split_and!; [done..|].
    by eapply lookup_lt_Some.
Qed.

Lemma upd_inv : bio_inv s'.
Proof.
  destruct Hinv as [H1 H2 H3 H4 H5 H6 H7]. constructor.
  - simpl. by rewrite length_insert.
  - done.
  - intros a b e f Ha Hb De Df Es. apply upd_lookup in Ha as [[-> ->]|[Na Ha]];
      apply upd_lookup in Hb as [[-> ->]|[Nb Hb]]; [done|..|by eapply H3].
    + by destruct (Hnew b f).
    + by destruct (Hnew a e).
  - intros a e Ha De. apply upd_lookup in Ha as [[-> ->]|[Na Ha]]; [done|by eapply H4].
  - intros a e Ha De. simpl memdisk. rewrite Hmlen.
    apply upd_lookup in Ha as [[-> ->]|[Na Ha]]; [done|by eapply H5].
  - intros a e Ha De Be Ie. apply upd_lookup in Ha as [[-> ->]|[Na Ha]]; [by apply Hclean|].
    simpl memdisk. rewrite Hmem by by eapply Hnew. by eapply H6.
  - done.
Qed.

Lemma upd_view_same : bio_view s' (b_sector c') = Some (b_data c').
Proof. apply (bio_view_cached s' i); [apply upd_inv|apply upd_lookup; by left|done]. Qed.

Lemma upd_view_other t : t <> b_sector c' -> bio_view s' t = bio_view s t.
Proof.
  intros Ht. destruct (bio_cached_dec s t) as [(j & e & He & De & <-)|Hno].
  - rewrite (bio_view_cached s j e Hinv He De).
    destruct (decide (j = i)) as [->|Hj].
    + assert (e = c) as -> by congruence. destruct (Hold De) as [?|[Hb Hd]]; [done|].
      rewrite bio_view_uncached.
      * simpl. rewrite Hmem by done. by apply (bi_clean _ Hinv i).
      * intros k f Hk Df. apply upd_lookup in Hk as [[-> ->]|[Nk Hk]]; [done|].
        intros E. apply Nk. by eapply (bi_uniq _ Hinv).
    + apply (bio_view_cached s' j); [apply upd_inv|apply upd_lookup; by right|done].
  - rewrite (bio_view_uncached s t Hno), bio_view_uncached.
    + simpl. by rewrite Hmem.
    + intros k f Hk Df. apply upd_lookup in Hk as [[-> ->]|[Nk Hk]]; [done|by eapply Hno].
Qed.

Lemma upd_held :
  bio_held s' = if b_busy c' then <[b_sector c' := i]> (bio_held s)
                else delete (b_sector c') (bio_held s).
Proof.
  apply map_eq. intros t. apply option_eq. intros j.
  rewrite (bio_held_lookup s' t j upd_inv).
  assert (Hother : t <> b_sector c' -> (exists e, bufs s' !! j = Some e /\ b_busy e = true /\
    b_sector e = t) <-> bio_held s !! t = Some j).
  { intros Ht. rewrite (bio_held_lookup s t j Hinv). split; intros (e & He & Be & <-).
    - apply upd_lookup in He as [[-> ->]|[Nj He]]; [done|eauto].
    - exists e. split_and!; try done. apply upd_lookup. right. split; [|done].
      intros ->. assert (e = c) as -> by congruence.
      destruct (Hold ltac:(by eapply bio_busy_dev)) as [?|[? _]]; congruence. }
  destruct (decide (t = b_sector c')) as [->|Ht].
  - destruct (b_busy c') eqn:Hb.
    + rewrite lookup_insert_eq. split.
      * intros (e & He & Be & Es). apply upd_lookup in He as [[-> ->]|[Nj He]]; [done|].
        destruct (Hnew j e); [done|done|by eapply bio_busy_dev|done].
      * intros [= <-]. exists c'. split_and!; [apply upd_lookup; by left|done|done].
    + rewrite lookup_delete_eq. split; [|done].
      intros (e & He & Be & Es). apply upd_lookup in He as [[-> ->]|[Nj He]]; [congruence|].
      destruct (Hnew j e); [done|done|by eapply bio_busy_dev|done].
  - rewrite Hother by done.
    destruct (b_busy c'); [by rewrite lookup_insert_ne|by rewrite lookup_delete_ne].
Qed.

Lemma upd_dirty :
  bio_dirty s' = if b_dirty c' then {[b_sector c']} ∪ bio_dirty s
                 else bio_dirty s ∖ {[b_sector c']}.
Proof.
  pose proof (fun j e => bio_dirty_dev s j e Hinv) as Hdd.
  assert (Hother : forall t, t <> b_sector c' -> t ∈ bio_dirty s' <-> t ∈ bio_dirty s).
  { intros t Ht. rewrite !bio_dirty_elem. split; intros (j & e & He & De & <-).
    - apply upd_lookup in He as [[-> ->]|[Nj He]]; [done|eauto 10].
    - exists j, e. split_and!; try done. apply upd_lookup. right. split; [|done].
      intros ->. assert (e = c) as -> by congruence.
      destruct (Hold ltac:(by eapply Hdd)) as [?|[_ ?]]; congruence. }
  assert (Hsame : b_sector c' ∈ bio_dirty s' <-> b_dirty c' = true).
  { rewrite bio_dirty_elem. split.
    - intros (j & e & He & De & Es). apply upd_lookup in He as [[-> ->]|[Nj He]]; [done|].
      destruct (Hnew j e); [done|done|by eapply Hdd|done].
    - intros Hd. exists i, c'. split_and!; [apply upd_lookup; by left|done|done]. }
  apply leibniz_equiv. intros t. destruct (decide (t = b_sector c')) as [->|Ht].
  - rewrite Hsame. destruct (b_dirty c'); [|done || set_solver]. set_solver.
  - rewrite Hother by done. destruct (b_dirty c'); set_solver.
Qed.

End Update.

(** ** The laws *)

Lemma lookup_replaced {A} (l : list A) i x y : l !! i = Some x -> <[i := y]> l !! i = Some y.
Proof. intros Hi. apply list_lookup_insert_eq. by eapply lookup_lt_Some. Qed.

Lemma get_buf_run s i c : bufs s !! i = Some c -> get_buf i s = Ret c s.
Proof. intros E. unfold get_buf, gets_opt. by rewrite E. Qed.

Lemma upd_buf_run s i c f :
  bufs s !! i = Some c ->
  upd_buf i f s = Ret tt (Bst (<[i := f c]> (bufs s)) (lru s) (memdisk s) (wlog s)).
Proof. intros E. unfold upd_buf, modify, set_bufs. by rewrite (alter_insert _ _ _ c). Qed.

Lemma find_lru_cached s i c sec :
  bio_inv s -> bufs s !! i = Some c -> b_dev c = 1 -> b_sector c = sec ->
  find (is_for (bufs s) 1 sec) (lru s) = Some i.
Proof.
  intros Hi Hc Hd Hs. assert (Hin : i ∈ lru s).
  { rewrite (bi_lru _ Hi). apply elem_of_seq. apply lookup_lt_Some in Hc.
    rewrite (bi_len _ Hi) in Hc. lia. }
  destruct (find _ _) as [j|] eqn:Hf.
  - apply find_some in Hf as [_ Hj]. unfold is_for in Hj.
    destruct (bufs s !! j) as [e|] eqn:He; [|done].
    apply andb_true_iff in Hj as [?%Z.eqb_eq ?%Z.eqb_eq]. f_equal.
    by eapply (bi_uniq _ Hi); eauto; congruence.
  - exfalso. apply list_elem_of_In in Hin. pose proof (find_none _ _ Hf _ Hin) as Hno.
    unfold is_for in Hno. rewrite Hc in Hno. lia.
Qed.

Lemma find_lru_uncached s sec :
  (forall i c, bufs s !! i = Some c -> b_dev c = 1 -> b_sector c <> sec) ->
  find (is_for (bufs s) 1 sec) (lru s) = None.
Proof.
  intros Hno. destruct (find _ _) as [j|] eqn:Hf; [|done].
  apply find_some in Hf as [_ Hj]. unfold is_for in Hj.
  destruct (bufs s !! j) as [e|] eqn:He; [|done].
  apply andb_true_iff in Hj as [?%Z.eqb_eq ?%Z.eqb_eq]. by destruct (Hno j e).
Qed.

(** A buffer can be recycled unless all ten are taken. *)
Lemma find_lru_free s :
  bio_inv s -> (size (dom (bio_held s) ∪ bio_dirty s) < NBUF)%nat ->
  exists i c, find (recyclable (bufs s)) (rev (lru s)) = Some i /\
    bufs s !! i = Some c /\ b_busy c = false /\ b_dirty c = false.
Proof.
  intros Hi Hsz. destruct (find _ _) as [i|] eqn:Hf.
  - apply find_some in Hf as [_ Hr]. unfold recyclable in Hr.
    destruct (bufs s !! i) as [c|] eqn:Hc; [|done]. exists i, c.
    apply andb_true_iff in Hr as [?%negb_true_iff ?%negb_true_iff]. done.
  - exfalso.
    assert (Hall : forall i c, bufs s !! i = Some c -> b_busy c = true \/ b_dirty c = true).
    { intros i c Hc. assert (In i (rev (lru s))) as Hin.
      { apply in_rev. rewrite rev_involutive. apply list_elem_of_In.
        rewrite (bi_lru _ Hi). apply elem_of_seq. apply lookup_lt_Some in Hc.
        rewrite (bi_len _ Hi) in Hc. lia. }
      pose proof (find_none _ _ Hf _ Hin) as Hno. unfold recyclable in Hno. rewrite Hc in Hno.
      destruct (b_busy c), (b_dirty c); simpl in Hno; auto. }
    assert (Hdev : forall i c, bufs s !! i = Some c -> b_dev c = 1).
    { intros i c Hc. destruct (decide (b_dev c = 1)); [done|].
      destruct (bi_free _ Hi i c Hc), (Hall i c Hc); congruence. }
    assert (Hsub : (list_to_set (b_sector <$> bufs s) : gset Z) ⊆ dom (bio_held s) ∪ bio_dirty s).
    { intros t. rewrite elem_of_list_to_set. intros Ht.
      apply list_elem_of_fmap in Ht as (c & -> & Hin).
      apply list_elem_of_lookup_1 in Hin as [i Hc]. apply elem_of_union.
      destruct (Hall i c Hc) as [Hb|Hb].
      - left. apply elem_of_dom. exists i. apply bio_held_lookup; [done|eauto].
      - right. apply bio_dirty_elem. eauto. }
    apply subseteq_size in Hsub. rewrite size_list_to_set in Hsub.
    + rewrite length_fmap, (bi_len _ Hi) in Hsub. lia.
    + apply NoDup_alt. intros a b t Ha Hb.
      apply list_lookup_fmap_Some in Ha as (ca & -> & Ha).
      apply list_lookup_fmap_Some in Hb as (cb & Et & Hb).
      by eapply (bi_uniq _ Hi); eauto.
Qed.

Lemma bio_disk_some s sec : is_Some (bio_disk s sec) -> 0 <= sec < Z.of_nat (length (memdisk s)).
Proof. intros [d [Hr _]%rd_Some]. done. Qed.

Lemma rd_512 s t d : bio_inv s -> rd (memdisk s) t = Some d -> length d = 512%nat.
Proof.
  intros Hi [_ Hl]%rd_Some. exact (Forall_lookup_1 _ _ _ _ (bi_blocks _ Hi) Hl).
Qed.

Lemma bio_held_none s sec i c :
  bio_inv s -> bio_held s !! sec = None -> bufs s !! i = Some c -> b_dev c = 1 ->
  b_sector c = sec -> b_busy c = false.
Proof.
  intros Hi Hn Hc Hd Hs. destruct (b_busy c) eqn:Hb; [|done].
  assert (bio_held s !! sec = Some i) by (apply bio_held_lookup; eauto). congruence.
Qed.

Lemma bio_dirty_iff s i c :
  bio_inv s -> bufs s !! i = Some c -> b_dev c = 1 ->
  b_sector c ∈ bio_dirty s <-> b_dirty c = true.
Proof.
  intros Hi Hc Hd. rewrite bio_dirty_elem. split; [|eauto].
  intros (j & e & He & De & Es).
  pose proof (bio_dirty_dev s j e Hi He De).
  assert (j = i) as -> by (by eapply (bi_uniq _ Hi); eauto). congruence.
Qed.

Lemma bio_alone s i c :
  bio_inv s -> bufs s !! i = Some c -> b_dev c = 1 ->
  forall j e, j <> i -> bufs s !! j = Some e -> b_dev e = 1 -> b_sector e <> b_sector c.
Proof. intros Hi Hc Hd j e Hj He De E. apply Hj. by eapply (bi_uniq _ Hi). Qed.

(** The flags of a cached buffer change. *)
Lemma bio_reflag s i c c' l' :
  bio_inv s -> bufs s !! i = Some c -> b_dev c = 1 -> b_dev c' = 1 ->
  b_sector c' = b_sector c -> b_data c' = b_data c -> b_valid c' = true ->
  (b_busy c' = false -> b_dirty c' = false ->
     rd (memdisk s) (b_sector c) = Some (b_data c)) ->
  l' ≡ₚ seq 0 NBUF ->
  let s' := Bst (<[i := c']> (bufs s)) l' (memdisk s) (wlog s) in
  bio_inv s' /\
  bio_held s' = (if b_busy c' then <[b_sector c := i]> (bio_held s)
                 else delete (b_sector c) (bio_held s)) /\
  bio_dirty s' = (if b_dirty c' then {[b_sector c]} ∪ bio_dirty s
                  else bio_dirty s ∖ {[b_sector c]}) /\
  (forall t, bio_view s' t = bio_view s t).
Proof.
  intros Hi Hc Hd Hd' Es Ed Hv Hcl Hl. cbv zeta.
  destruct (bi_valid _ Hi i c Hc Hd) as (_ & Hr & Hlen).
  pose proof (bio_alone s i c Hi Hc Hd) as Hal. rewrite <- Es in Hal, Hr, Hcl |- *.
  rewrite <- Ed in Hlen, Hcl.
  assert (HI := upd_inv s i c c' l' (memdisk s) (wlog s) Hi Hc Hal Hd' Hv Hlen Hr Hcl Hl
    eq_refl (bi_blocks _ Hi) (fun _ _ => eq_refl)).
  assert (Hold : b_dev c = 1 -> b_sector c = b_sector c' \/ (b_busy c = false /\ b_dirty c = false))
    by (intros _; by left).
  pose proof (bi_blocks _ Hi) as Hblk.
  split_and!; [done|by apply (upd_held s i c)|by apply (upd_dirty s i c)|].
  intros t. destruct (decide (t = b_sector c')) as [->|Ht].
  - rewrite (bio_view_cached _ i c' HI) by (done || by eapply lookup_replaced).
    by rewrite Es, Ed, (bio_view_cached s i c).
  - by apply (upd_view_other s i c).
Qed.

Lemma bio_bread_cached s sec i c :
  bio_inv s -> bio_held s !! sec = None -> bufs s !! i = Some c -> b_dev c = 1 ->
  b_sector c = sec ->
  exists s', bread_buf ROOTDEV sec s = Ret i s' /\ bio_inv s' /\
    bio_held s' = <[sec := i]> (bio_held s) /\ bio_dirty s' = bio_dirty s /\
    wlog s' = wlog s /\ (forall t, bio_view s' t = bio_view s t) /\
    (forall t, bio_disk s' t = bio_disk s t).
Proof.
  intros Hi Hh Hc Hdev Hs. unfold bread_buf, bget. mrun. change ROOTDEV with 1.
  rewrite (find_lru_cached s i c sec) by done.
  pose proof (bio_held_none s sec i c Hi Hh Hc Hdev Hs) as Hb.
  destruct (bi_valid _ Hi i c Hc Hdev) as (Hv & _).
  rewrite bind_assoc. erewrite bind_Ret by by apply get_buf_run. rewrite Hb, bind_assoc.
  erewrite bind_Ret by by apply upd_buf_run. mrun.
  erewrite bind_Ret by (apply get_buf_run; by eapply lookup_replaced).
  simpl b_valid. rewrite Hv. mrun.
  destruct (bio_reflag s i c (set_b_busy true c) (lru s)) as (HI & HH & HD & HV); try done.
  { apply (bi_lru _ Hi). }
  eexists. split; [reflexivity|]. split_and!; try done.
  - rewrite HH. simpl. by rewrite Hs.
  - rewrite HD. simpl. pose proof (bio_dirty_iff s i c Hi Hc Hdev) as Hiff.
    destruct (b_dirty c); set_solver.
Qed.

Lemma bio_bread_uncached s sec :
  bio_inv s -> bio_held s !! sec = None -> is_Some (bio_disk s sec) ->
  (forall i c, bufs s !! i = Some c -> b_dev c = 1 -> b_sector c <> sec) ->
  (size (dom (bio_held s) ∪ bio_dirty s) < NBUF)%nat ->
  exists i s', bread_buf ROOTDEV sec s = Ret i s' /\ bio_inv s' /\
    bio_held s' = <[sec := i]> (bio_held s) /\ bio_dirty s' = bio_dirty s /\
    wlog s' = wlog s /\ (forall t, bio_view s' t = bio_view s t) /\
    (forall t, bio_disk s' t = bio_disk s t).
Proof.
  intros Hi Hh Hd Hno Hsz. pose proof (bio_disk_some s sec Hd) as Hr.
  destruct Hd as [d Hd]. destruct (find_lru_free s Hi Hsz) as (i & c & Hf & Hc & Hb & Hdt).
  set (c1 := Buf true false false 1 sec (b_data c)). set (c2 := Buf true true false 1 sec d).
  assert (Hrun : bread_buf ROOTDEV sec s =
    Ret i (Bst (<[i := c2]> (bufs s)) (lru s) (memdisk s) (wlog s))).
  { unfold bread_buf, bget. mrun. change ROOTDEV with 1.
    rewrite find_lru_uncached by done. rewrite Hf, bind_assoc.
    erewrite bind_Ret by by apply upd_buf_run. mrun. fold c1.
    pose proof (lookup_replaced _ _ _ c1 Hc) as Hl1.
    erewrite bind_Ret by by apply get_buf_run. simpl. unfold iderw. rewrite !bind_assoc.
    erewrite bind_Ret by by apply get_buf_run. simpl. mrun. cbn [memdisk].
    replace (Z.of_nat (length (memdisk s)) <=? sec) with false by lia.
    rewrite bind_assoc. erewrite bind_gets_opt by exact Hd.
    erewrite bind_Ret by by apply upd_buf_run. cbn [bufs lru memdisk wlog].
    by rewrite list_insert_insert_eq. }
  assert (Hl : length d = 512%nat) by by eapply rd_512.
  assert (Hold : b_dev c = 1 -> b_sector c = b_sector c2 \/ (b_busy c = false /\ b_dirty c = false))
    by (intros _; by right).
  assert (Hnew : forall j e, j <> i -> bufs s !! j = Some e -> b_dev e = 1 -> b_sector e <> b_sector c2)
    by (intros j e _ He; by eapply Hno).
  pose proof (bi_lru _ Hi) as Hlru. pose proof (bi_blocks _ Hi) as Hblk.
  exists i. eexists. split; [exact Hrun|].
  assert (HI : bio_inv (Bst (<[i := c2]> (bufs s)) (lru s) (memdisk s) (wlog s)))
    by by apply (upd_inv s i c).
  split_and!; [done|by rewrite (upd_held s i c) by done| |done| |done].
  - rewrite (upd_dirty s i c) by done. simpl.
    assert (sec ∉ bio_dirty s); [|set_solver]. rewrite bio_dirty_elem.
    intros (j & e & He & De & Es).
    pose proof (bio_dirty_dev s j e Hi He De). by destruct (Hno j e).
  - intros t. destruct (decide (t = sec)) as [->|Ht]; [|by apply (upd_view_other s i c)].
    rewrite (bio_view_uncached s sec Hno).
    change sec with (b_sector c2) at 1. rewrite (upd_view_same s i c) by done. done.
Qed.

Lemma bio_bread s sec :
  bio_inv s -> bio_held s !! sec = None -> is_Some (bio_disk s sec) ->
  sec ∈ bio_dirty s \/ (size (dom (bio_held s) ∪ bio_dirty s) < NBUF)%nat ->
  exists i s', bread_buf ROOTDEV sec s = Ret i s' /\ bio_inv s' /\
    bio_held s' = <[sec := i]> (bio_held s) /\ bio_dirty s' = bio_dirty s /\
    wlog s' = wlog s /\ (forall t, bio_view s' t = bio_view s t) /\
    (forall t, bio_disk s' t = bio_disk s t).
Proof.
  intros Hi Hh Hd Hroom.
  destruct (bio_cached_dec s sec) as [(i & c & Hc & Hdev & Hs)|Hno].
  - exists i. by apply (bio_bread_cached s sec i c).
  - destruct Hroom as [Hin|Hsz]; [|by apply bio_bread_uncached]. exfalso.
    apply bio_dirty_elem in Hin as (i & c & Hc & Hdt & Hs).
    pose proof (bio_dirty_dev s i c Hi Hc Hdt). by destruct (Hno i c).
Qed.

Lemma held_buf s sec i :
  bio_inv s -> bio_held s !! sec = Some i ->
  exists c, bufs s !! i = Some c /\ b_busy c = true /\ b_sector c = sec /\ b_dev c = 1.
Proof.
  intros Hi Hh. apply bio_held_lookup in Hh as (c & Hc & Hb & Hs); [|done].
  exists c. split_and!; try done. by eapply bio_busy_dev.
Qed.

Lemma insert_held s sec i :
  bio_inv s -> bio_held s !! sec = Some i -> <[sec := i]> (bio_held s) = bio_held s.
Proof. intros _ Hh. by apply insert_id. Qed.

Lemma bio_bset s sec i d :
  bio_inv s -> bio_held s !! sec = Some i -> length d = 512%nat ->
  exists s', upd_buf i (set_b_data d) s = Ret tt s' /\ bio_inv s' /\ bio_held s' = bio_held s /\
    bio_dirty s' = bio_dirty s /\ wlog s' = wlog s /\ bio_view s' sec = Some d /\
    (forall t, t <> sec -> bio_view s' t = bio_view s t) /\
    (forall t, bio_disk s' t = bio_disk s t).
Proof.
  intros Hi Hh Hl. destruct (held_buf s sec i Hi Hh) as (c & Hc & Hb & <- & Hd).
  destruct (bi_valid _ Hi i c Hc Hd) as (Hv & Hr & _). set (c' := set_b_data d c).
  pose proof (bio_alone s i c Hi Hc Hd) as Hal.
  pose proof (bi_blocks _ Hi) as Hblk. pose proof (bi_lru _ Hi) as Hlru.
  assert (Hold : b_dev c = 1 -> b_sector c = b_sector c' \/ (b_busy c = false /\ b_dirty c = false))
    by (intros _; by left).
  assert (Hcl : b_busy c' = false -> b_dirty c' = false ->
    rd (memdisk s) (b_sector c') = Some (b_data c')) by (simpl; congruence).
  eexists. split; [by apply upd_buf_run|]. fold c'.
  split_and!; [by apply (upd_inv s i c)|..|done|by apply (upd_view_same s i c c')| |done].
  - rewrite (upd_held s i c) by done. simpl. rewrite Hb. by apply insert_held.
  - rewrite (upd_dirty s i c) by done. simpl.
    pose proof (bio_dirty_iff s i c Hi Hc Hd). destruct (b_dirty c); set_solver.
  - intros t Ht. by apply (upd_view_other s i c c').
Qed.

Lemma bio_bmark s sec i :
  bio_inv s -> bio_held s !! sec = Some i ->
  exists s', upd_buf i (set_b_dirty true) s = Ret tt s' /\ bio_inv s' /\
    bio_held s' = bio_held s /\ bio_dirty s' = {[sec]} ∪ bio_dirty s /\ wlog s' = wlog s /\
    (forall t, bio_view s' t = bio_view s t) /\ (forall t, bio_disk s' t = bio_disk s t).
Proof.
  intros Hi Hh. destruct (held_buf s sec i Hi Hh) as (c & Hc & Hb & <- & Hd).
  destruct (bi_valid _ Hi i c Hc Hd) as (Hv & _).
  destruct (bio_reflag s i c (set_b_dirty true c) (lru s)) as (HI & HH & HD & HV); try done.
  { apply (bi_lru _ Hi). }
  eexists. split; [by apply upd_buf_run|]. split_and!; try done.
  rewrite HH. simpl. rewrite Hb. by apply insert_held.
Qed.

Lemma bio_brelse s sec i :
  bio_inv s -> bio_held s !! sec = Some i -> sec ∈ bio_dirty s \/ bio_view s sec = bio_disk s sec ->
  exists s', brelse_buf i s = Ret tt s' /\ bio_inv s' /\ bio_held s' = delete sec (bio_held s) /\
    bio_dirty s' = bio_dirty s /\ wlog s' = wlog s /\
    (forall t, bio_view s' t = bio_view s t) /\ (forall t, bio_disk s' t = bio_disk s t).
Proof.
  intros Hi Hh Hor. destruct (held_buf s sec i Hi Hh) as (c & Hc & Hb & <- & Hd).
  destruct (bi_valid _ Hi i c Hc Hd) as (Hv & _).
  pose proof (bio_dirty_iff s i c Hi Hc Hd) as Hdi.
  set (l' := i :: filter (fun j => j <> i) (lru s)).
  destruct (bio_reflag s i c (set_b_busy false c) l') as (HI & HH & HD & HV); try done.
  { simpl. intros _ Hnd. destruct Hor as [Hin|Hvw]; [apply Hdi in Hin; congruence|].
    rewrite (bio_view_cached s i c) in Hvw by done. done. }
  { unfold l'. pose proof (bi_lru _ Hi) as Hp. apply NoDup_Permutation.
    - apply NoDup_cons. split; [rewrite list_elem_of_filter; tauto|].
      apply NoDup_filter. rewrite Hp. apply NoDup_seq.
    - apply NoDup_seq.
    - intros j. rewrite elem_of_cons, list_elem_of_filter, Hp.
      assert (i ∈ seq 0 NBUF).
      { apply elem_of_seq. apply lookup_lt_Some in Hc. rewrite (bi_len _ Hi) in Hc. lia. }
      destruct (decide (j = i)) as [->|]; tauto. }
  eexists. split.
  - unfold brelse_buf. erewrite bind_Ret by by apply get_buf_run. rewrite Hb. simpl. mrun.
    by apply upd_buf_run.
  - cbn [bufs lru memdisk wlog set_lru]. fold l'. split_and!; try done.
    rewrite HD. simpl. destruct (b_dirty c); set_solver.
Qed.

Lemma bio_bwrite s sec i d :
  bio_inv s -> bio_held s !! sec = Some i -> bio_view s sec = Some d ->
  exists s', bwrite_buf i s = Ret tt s' /\ bio_inv s' /\ bio_held s' = bio_held s /\
    bio_dirty s' = bio_dirty s ∖ {[sec]} /\ wlog s' = wlog s ++ [(sec, d)] /\
    (forall t, bio_view s' t = bio_view s t) /\ bio_disk s' sec = Some d /\
    (forall t, t <> sec -> bio_disk s' t = bio_disk s t).
Proof.
  intros Hi Hh Hvw. destruct (held_buf s sec i Hi Hh) as (c & Hc & Hb & <- & Hd).
  destruct (bi_valid _ Hi i c Hc Hd) as (Hv & Hr & Hl).
  rewrite (bio_view_cached s i c) in Hvw by done. injection Hvw as <-.
  set (c1 := set_b_dirty true c).
  set (c2 := Buf (b_busy c) true false (b_dev c) (b_sector c) (b_data c)).
  set (m' := <[Z.to_nat (b_sector c) := b_data c]> (memdisk s)).
  assert (Hwr : wr (memdisk s) (b_sector c) (b_data c) = Some m')
    by (unfold wr; by rewrite decide_True).
  destruct (wr_Some _ _ _ _ Hwr) as (Hmlen & Hmsame & Hmother).
  assert (Hrun : bwrite_buf i s = Ret tt
    (Bst (<[i := c2]> (bufs s)) (lru s) m' (wlog s ++ [(b_sector c, b_data c)]))).
  { unfold bwrite_buf. erewrite bind_Ret by by apply get_buf_run. rewrite Hb. simpl.
    erewrite bind_Ret by by apply upd_buf_run. fold c1. unfold iderw.
    pose proof (lookup_replaced _ _ _ c1 Hc) as Hl1.
    erewrite bind_Ret by by apply get_buf_run. simpl. rewrite Hb, Hv, Hd. simpl. mrun.
    cbn [memdisk]. replace (_ <=? b_sector c) with false by lia.
    unfold bind, modify_opt. cbn [memdisk bufs lru wlog]. rewrite Hwr. simpl.
    erewrite upd_buf_run by done. cbn [bufs lru memdisk wlog].
    rewrite list_insert_insert_eq. unfold c2. simpl. by rewrite Hd. }
  pose proof (bio_alone s i c Hi Hc Hd) as Hal. pose proof (bi_lru _ Hi) as Hlru.
  assert (Hold : b_dev c = 1 -> b_sector c = b_sector c2 \/ (b_busy c = false /\ b_dirty c = false))
    by (intros _; by left).
  assert (Hm512 : Forall (fun d => length d = 512%nat) m')
    by (apply Forall_insert; [apply (bi_blocks _ Hi)|done]).
  assert (Hcl : b_busy c2 = false -> b_dirty c2 = false -> rd m' (b_sector c2) = Some (b_data c2))
    by done.
  eexists. split; [exact Hrun|].
  split_and!; [by apply (upd_inv s i c)|..|done| |done|done].
  - rewrite (upd_held s i c) by done. simpl. rewrite Hb. by apply insert_held.
  - by rewrite (upd_dirty s i c) by done.
  - intros t. destruct (decide (t = b_sector c)) as [->|Ht]; [|by apply (upd_view_other s i c c2)].
    rewrite (bio_view_cached s i c) by done. by apply (upd_view_same s i c c2).
Qed.

#[export] Program Instance bio_laws : BlockCacheLaws bst nat := {|
  binv := bio_inv;
  disk := bio_disk;
  view := bio_view;
  held := bio_held;
  dirty := bio_dirty;
  writes := wlog
|}.
Next Obligation.
  intros s sec d Hi Hv. simpl in *.
  destruct (bio_cached_dec s sec) as [(i & c & Hc & Hd & <-)|Hno].
  - rewrite (bio_view_cached s i c) in Hv by done. injection Hv as <-.
    by apply (bi_valid _ Hi i c Hc Hd).
  - rewrite bio_view_uncached in Hv by done. by eapply rd_512.
Qed.
Next Obligation.
  intros s sec Hi. simpl. destruct (bio_cached_dec s sec) as [(i & c & Hc & Hd & <-)|Hno].
  - rewrite (bio_view_cached s i c) by done. split; [by eexists|]. intros _.
    destruct (bi_valid _ Hi i c Hc Hd) as (_ & Hr & _). by apply rd_in_range.
  - by rewrite bio_view_uncached.
Qed.
Next Obligation.
  intros s sec Hi Hnd Hh. simpl in *.
  destruct (bio_cached_dec s sec) as [(i & c & Hc & Hd & <-)|Hno].
  - rewrite (bio_view_cached s i c) by done. symmetry.
    apply (bi_clean _ Hi i c Hc Hd); [by eapply bio_held_none|].
    destruct (b_dirty c) eqn:E; [|done]. by apply (bio_dirty_iff s i c Hi Hc Hd) in E.
  - by rewrite bio_view_uncached.
Qed.
Next Obligation. intros s sec. simpl. apply bio_bread. Qed.
Next Obligation.
  intros s sec i Hi Hh. simpl in *. destruct (held_buf s sec i Hi Hh) as (c & Hc & _ & <- & _).
  by erewrite bind_Ret by by apply get_buf_run.
Qed.
Next Obligation.
  intros s sec i d Hi Hh Hv. simpl in *. destruct (held_buf s sec i Hi Hh) as (c & Hc & _ & <- & Hd).
  rewrite (bio_view_cached s i c) in Hv by done. injection Hv as <-.
  by erewrite bind_Ret by by apply get_buf_run.
Qed.
Next Obligation. intros s sec i d. simpl. apply bio_bset. Qed.
Next Obligation. intros s sec i d. simpl. apply bio_bwrite. Qed.
Next Obligation. intros s sec i. simpl. apply bio_bmark. Qed.
Next Obligation. intros s sec i. simpl. apply bio_brelse. Qed.
