(* ===== verification/Ide.v ===== *)
(** * The disk driver (ide.c)

    Requests wait in a queue linked through the buffers; the first one is
    being served by the drive, and the interrupt handler finishes it and
    starts the next.  Buffers are indices into an array, [qnext] is the field
    of that name.  [fuel] bounds how often [idewait] reads the status.
    A process in [iderw] gives up the CPU until its request is done and
    continues with [iderw_resume]; [awake] records the calls of wakeup. *)
From S2P Require Import Prelude Mmu Hw Irq BlockCache Bio.

Record idest (D : Type) := Idest {
  dbufs : list buf;
  qnext : list (option nat);
  idequeue : option nat;
  havedisk1 : bool;
  awake : list nat;
  machine : mach D
}.
Arguments Idest {D}.
Arguments dbufs {D}.
Arguments qnext {D}.
Arguments idequeue {D}.
Arguments havedisk1 {D}.
Arguments awake {D}.
Arguments machine {D}.

Section Ide.
Context {D : Type} `{Bus D} (fuel : nat).
Abbreviation I := (M (idest D)).

Definition set_dbufs (v : list buf) (s : idest D) : idest D :=
  Idest v (qnext s) (idequeue s) (havedisk1 s) (awake s) (machine s).
Definition set_qnext (v : list (option nat)) (s : idest D) : idest D :=
  Idest (dbufs s) v (idequeue s) (havedisk1 s) (awake s) (machine s).
Definition set_idequeue (v : option nat) (s : idest D) : idest D :=
  Idest (dbufs s) (qnext s) v (havedisk1 s) (awake s) (machine s).
Definition set_havedisk1 (v : bool) (s : idest D) : idest D :=
  Idest (dbufs s) (qnext s) (idequeue s) v (awake s) (machine s).
Definition set_awake (v : list nat) (s : idest D) : idest D :=
  Idest (dbufs s) (qnext s) (idequeue s) (havedisk1 s) v (machine s).
Definition set_machine (v : mach D) (s : idest D) : idest D :=
  Idest (dbufs s) (qnext s) (idequeue s) (havedisk1 s) (awake s) v.

Definition onm {A} (m : M (mach D) A) : I A := zoom machine set_machine m.
Definition get_dbuf (b : nat) : I buf := gets_opt (fun s => dbufs s !! b).
Definition upd_dbuf (b : nat) (f : buf -> buf) : I unit :=
  modify (fun s => set_dbufs (alter f b (dbufs s)) s).
Definition get_qnext (b : nat) : I (option nat) := gets_opt (fun s => qnext s !! b).
Definition put_qnext (b : nat) (v : option nat) : I unit :=
  modify_opt (fun s => (fun l => set_qnext l s) <$> wr (qnext s) (Z.of_nat b) v).

Definition IDE_BSY : Z := 0x80.
Definition IDE_DRDY : Z := 0x40.
Definition IDE_DF : Z := 0x20.
Definition IDE_ERR : Z := 0x01.
Definition IDE_CMD_READ : Z := 0x20.
Definition IDE_CMD_WRITE : Z := 0x30.

(** The loop of [idewait]: the status once the drive is ready. *)
Fixpoint poll_ready (n : nat) : M (mach D) Z :=
  match n with
  | O => hang
  | S n' =>
      r <~ inb 0x1f7;;;
      if Z.land r (Z.lor IDE_BSY IDE_DRDY) =? IDE_DRDY then ret r else poll_ready n'
  end.

Definition idewait (checkerr : bool) : M (mach D) Z :=
  r <~ poll_ready fuel;;;
  if checkerr && negb (Z.land r (Z.lor IDE_DF IDE_ERR) =? 0) then ret (-1) else ret 0.

(** The loop of [ideinit]: does drive 1 answer within [n] readings? *)
Fixpoint probe (n : nat) : M (mach D) bool :=
  match n with
  | O => ret false
  | S n' => r <~ inb 0x1f7;;; if negb (r =? 0) then ret true else probe n'
  end.

Definition ideinit : I unit :=
  onm (picenable IRQ_IDE);;;
  n <~ gets (fun s => ncpu (machine s));;;
  onm (ioapicenable IRQ_IDE (n - 1));;;
  onm (idewait false);;;
  onm (outb 0x1f6 (Z.lor 0xe0 (Z.shiftl 1 4)));;;
  two <~ onm (probe 1000);;;
  when two (modify (set_havedisk1 true));;;
  onm (outb 0x1f6 (Z.lor 0xe0 (Z.shiftl 0 4))).

(** [idestart] on the buffer [c]. *)
Definition start_request (c : buf) : M (mach D) unit :=
  idewait false;;;
  outb 0x3f6 0;;;
  outb 0x1f2 1;;;
  outb 0x1f3 (Z.land (b_sector c) 0xff);;;
  outb 0x1f4 (Z.land (Z.shiftr (b_sector c) 8) 0xff);;;
  outb 0x1f5 (Z.land (Z.shiftr (b_sector c) 16) 0xff);;;
  outb 0x1f6 (Z.lor (Z.lor 0xe0 (Z.shiftl (Z.land (b_dev c) 1) 4))
                (Z.land (Z.shiftr (b_sector c) 24) 0x0f));;;
  if b_dirty c then
    outb 0x1f7 IDE_CMD_WRITE;;;
    outsl 0x1f0 (b_data c)
  else
    outb 0x1f7 IDE_CMD_READ.

Definition idestart (b : option nat) : I unit :=
  match b with
  | None => panic "idestart"
  | Some b => c <~ get_dbuf b;;; onm (start_request c)
  end.

Definition ideintr : I unit :=
  q <~ gets idequeue;;;
  match q with
  | None => ret tt
  | Some b =>
      n <~ get_qnext b;;;
      modify (set_idequeue n);;;
      c <~ get_dbuf b;;;
      (if negb (b_dirty c) then
         r <~ onm (idewait true);;;
         when (0 <=? r) (l <~ onm (insl 0x1f0 (512 / 4));;; upd_dbuf b (set_b_data l))
       else ret tt);;;
      upd_dbuf b (fun c => Buf (b_busy c) true false (b_dev c) (b_sector c) (b_data c));;;
      modify (fun s => set_awake (awake s ++ [b]) s);;;
      q <~ gets idequeue;;;
      match q with None => ret tt | Some _ => idestart q end
  end.

(** [*pp], where [pp] points to [idequeue] or to the qnext of a buffer. *)
Definition deref (pp : option nat) : I (option nat) :=
  match pp with None => gets idequeue | Some b => get_qnext b end.

(** The loop of [iderw] that looks for the end of the queue. *)
Fixpoint queue_end (n : nat) (pp : option nat) : I (option nat) :=
  p <~ deref pp;;;
  match p, n with
  | None, _ => ret pp
  | Some b, S n' => queue_end n' (Some b)
  | Some _, O => hang
  end.

(** The end of [iderw], where it waits for the request to finish. *)
Definition iderw_resume (b : nat) : I unit :=
  c <~ get_dbuf b;;;
  if b_valid c && negb (b_dirty c) then ret tt else (fun s => Sched s).

Definition iderw (b : nat) : I unit :=
  c <~ get_dbuf b;;;
  if negb (b_busy c) then panic "iderw: buf not busy" else
  if b_valid c && negb (b_dirty c) then panic "iderw: nothing to do" else
  two <~ gets havedisk1;;;
  if negb (b_dev c =? 0) && negb two then panic "iderw: ide disk 1 not present" else
  put_qnext b None;;;
  n <~ gets (fun s => length (dbufs s));;;
  pp <~ queue_end n None;;;
  (match pp with None => modify (set_idequeue (Some b)) | Some e => put_qnext e (Some b) end);;;
  q <~ gets idequeue;;;
  when (bool_decide (q = Some b)) (idestart (Some b));;;
  iderw_resume b.
End Ide.

(** ** The drive as the driver talks to it

    Waiting for the drive and starting a request (ide.c), on any bus with a
    drive ([AtaBus]) whose busy times stay below the bound of [idewait]. *)

(** The drive and sector that a request is for: the drive is one bit, the
    address 28 bits. *)
Definition addr (c : buf) : Z * Z := (b_dev c mod 2, b_sector c mod 2 ^ 28).

Section Drive.
Context {D : Type} `{Bus D} `{!AtaBus D} (fuel : nat).
Context (Hfuel : forall d : D, (busy d < fuel)%nat).
Implicit Types m : mach D.

Lemma poll_ready_run n m :
  (busy (bus m) < n)%nat -> a_present (ata (bus m)) = true ->
  exists r d, poll_ready n m = Ret r (set_bus d m) /\ ata d = ata (bus m) /\ busy d = 0%nat /\
    (Z.land r 0x21 =? 0) = negb (a_err (ata d)).
Proof.
  revert m. induction n as [|n IH]; intros m Hb Hp; [lia|]. cbn [poll_ready].
  unfold bind, inb. pose proof (ata_status (bus m)) as L.
  destruct (bus_inb 0x1f7 (bus m)) as [r d]. rewrite Hp in L.
  destruct L as (Ha & _ & Hbusy & Hr & He).
  change (Z.lor IDE_BSY IDE_DRDY) with 0xC0. unfold IDE_DRDY. destruct (Z.eqb_spec (Z.land r 0xC0) 0x40) as [E|E].
  - apply Hr in E. exists r, d. rewrite Ha. split_and!; [done|done|by rewrite Hbusy, E|auto].
  - assert (busy (bus m) <> 0%nat) by naive_solver.
    destruct (IH (set_bus d m)) as (r' & d' & Er & Ha' & Hrest); cbn [bus set_bus].
    + lia.
    + by rewrite Ha.
    + exists r', d'. rewrite Er. split; [done|]. split; [by rewrite Ha'|done].
Qed.

Lemma idewait_run chk m :
  a_present (ata (bus m)) = true ->
  exists d, idewait fuel chk m = Ret (if chk && a_err (ata d) then -1 else 0) (set_bus d m) /\
    ata d = ata (bus m) /\ busy d = 0%nat.
Proof.
  intros Hp. destruct (poll_ready_run fuel m (Hfuel _) Hp) as (r & d & E & Ha & Hb & He).
  exists d. split; [|done]. unfold idewait. rewrite (bind_Ret _ _ _ _ _ E).
  change (Z.lor IDE_DF IDE_ERR) with 0x21. rewrite He, negb_involutive. by destruct (_ && _).
Qed.

(** ** The address registers *)

Lemma low_byte s : 0 <= s -> Z.land s 0xff = s mod 2 ^ 8.
Proof. intros. change 0xff with (Z.ones 8). by apply Z.land_ones. Qed.

Lemma dev_reg dev s : 0 <= s ->
  let v := Z.lor (Z.lor 0xe0 (Z.shiftl (Z.land dev 1) 4)) (Z.land (Z.shiftr s 24) 0x0f) in
  u8 v = v /\ Z.land (Z.shiftr v 4) 1 = dev mod 2 /\ Z.land v 0x0f = s / 2 ^ 24 mod 2 ^ 4.
Proof.
  intros Hs v. subst v.
  assert (Z.land dev 1 = dev mod 2) as -> by (by apply (Z.land_ones dev 1)).
  assert (Z.land (Z.shiftr s 24) 0x0f = s / 2 ^ 24 mod 2 ^ 4) as ->.
  { rewrite <- Z.shiftr_div_pow2 by lia. by apply (Z.land_ones _ 4). }
  pose proof (Z.mod_pos_bound dev 2 ltac:(lia)) as Hd.
  pose proof (Z.mod_pos_bound (s / 2 ^ 24) (2 ^ 4) ltac:(lia)) as Hh.
  set (h := s / 2 ^ 24 mod 2 ^ 4) in *. clearbody h. clear Hs.
  assert (In h (map Z.of_nat (seq 0 16))) as Hin.
  { apply in_map_iff. exists (Z.to_nat h). split; [lia|]. apply in_seq. lia. }
  assert (dev mod 2 = 0 \/ dev mod 2 = 1) as [->| ->] by lia;
    cbn in Hin; repeat destruct Hin as [<-|Hin]; done.
Qed.

Lemma split28 s : 0 <= s ->
  s mod 2 ^ 8 + 2 ^ 8 * (s / 2 ^ 8 mod 2 ^ 8) + 2 ^ 16 * (s / 2 ^ 16 mod 2 ^ 8)
  + 2 ^ 24 * (s / 2 ^ 24 mod 2 ^ 4) = s mod 2 ^ 28.
Proof.
  intros Hs. change (2 ^ 28) with (2 ^ 8 * (2 ^ 8 * (2 ^ 8 * 2 ^ 4))).
  rewrite !Z.rem_mul_r, !Z.div_div by lia.
  change (2 ^ 8 * 2 ^ 8) with (2 ^ 16). change (2 ^ 16 * 2 ^ 8) with (2 ^ 24). lia.
Qed.

(** The registers that [start_request] sets before the command. *)
Lemma start_registers c m :
  0 <= b_sector c -> a_present (ata (bus m)) = true ->
  exists d a, ata d = (if b_dirty c then ata_outsl (b_data c) (ata_command 0x30 a) else ata_command 0x20 a) /\
    start_request fuel c m = Ret tt (set_bus d m) /\
    a_addr a = addr c /\ a_get 0x1f2 a = 1 /\ a_media a = a_media (ata (bus m)) /\
    a_two a = a_two (ata (bus m)).
Proof.
  intros Hs Hp. unfold start_request. destruct (idewait_run false m Hp) as (d & E & Ha & _).
  rewrite (bind_Ret _ _ _ _ _ E). destruct (dev_reg (b_dev c) (b_sector c) Hs) as (Hv & Hv4 & Hv15).
  set (v := Z.lor (Z.lor 0xe0 _) _) in *. unfold outb, outsl. rewrite !bind_modify, Hv.
  assert (Hu8 : forall x, u8 (Z.land x 0xff) = Z.land x 0xff).
  { intros x. unfold u8. change 0xff with (Z.ones 8). rewrite Z.land_ones by lia. apply Zmod_mod. }
  rewrite !Hu8. change (u8 0) with 0. change (u8 1) with 1. cbn [bus set_bus].
  set (a := ata (bus m)) in *.
  set (a1 := Ata (a_media a) (a_two a)
    (<[0x1f6 := v]> (<[0x1f5 := Z.land (Z.shiftr (b_sector c) 16) 255]>
      (<[0x1f4 := Z.land (Z.shiftr (b_sector c) 8) 255]>
      (<[0x1f3 := Z.land (b_sector c) 255]> (<[0x1f2 := 1]> (a_regs a)))))) (a_cmd a) (a_err a)).
  assert (Hadr : a_addr a1 = addr c).
  { unfold a_addr, a_drive, a_get, addr, a1. cbn [a_regs].
    repeat first [rewrite lookup_insert_eq | rewrite lookup_insert_ne by done].
    unfold default, id. rewrite Hv4, Hv15. f_equal.
    rewrite !low_byte by (try apply Z.shiftr_nonneg; done). rewrite !Z.shiftr_div_pow2 by lia.
    by apply split28. }
  assert (Hcnt : a_get 0x1f2 a1 = 1).
  { unfold a_get, a1. cbn [a_regs]. by rewrite !lookup_insert_ne, lookup_insert_eq by done. }
  destruct (b_dirty c); eexists _, a1; (split; [|split; [done|by split_and!]]); cbn [bus set_bus].
  - by rewrite ata_outs, !ata_out, Ha.
  - by rewrite !ata_out, Ha.
Qed.

(** The drive works on the request [c] and the sectors were [media] before:
    a write is already on the disk, a read has its data ready. *)
Definition serving (c : buf) (media : gmap (Z * Z) (list Z)) (a : atast) : Prop :=
  a_err a = false /\
  if b_dirty c then a_media a = <[addr c := b_data c]> media
  else a_media a = media /\ a_cmd a = ARead (addr c).

Lemma command_ok v a x c :
  a_media a !! a_addr a = Some x -> a_get 0x1f2 a = 1 -> v = 0x20 \/ v = 0x30 ->
  c = (if v =? 0x20 then ARead (a_addr a) else AWrite (a_addr a)) ->
  ata_command v a = Ata (a_media a) (a_two a) (a_regs a) c false.
Proof. intros E1 E2 [-> | ->] ->; unfold ata_command; by rewrite E1, E2. Qed.

Lemma request_run c m x :
  0 <= b_sector c -> a_present (ata (bus m)) = true ->
  (b_dev c mod 2 <> 0 -> a_two (ata (bus m)) = true) ->
  a_media (ata (bus m)) !! addr c = Some x ->
  exists d, start_request fuel c m = Ret tt (set_bus d m) /\
    serving c (a_media (ata (bus m))) (ata d) /\
    a_two (ata d) = a_two (ata (bus m)) /\ a_present (ata d) = true.
Proof.
  intros Hs Hp H2 Hx. destruct (start_registers c m Hs Hp) as (d & a & Ed & Er & Ha & Hc & Hm & Ht).
  exists d. split; [done|]. rewrite <- Hm, <- Ha in Hx.
  assert (Hdr : a_two a || (a_drive a =? 0) = true).
  { rewrite Ht. assert (a_drive a = b_dev c mod 2) as -> by (by injection Ha).
    destruct (Z.eqb_spec (b_dev c mod 2) 0); [apply orb_true_r|]. by rewrite H2. }
  unfold serving. destruct (b_dirty c).
  - rewrite (command_ok 0x30 a x _ Hx Hc (or_intror eq_refl) eq_refl) in Ed.
    cbn in Ed. rewrite Ed. cbn. rewrite <- Hm, <- Ha. done.
  - rewrite (command_ok 0x20 a x _ Hx Hc (or_introl eq_refl) eq_refl) in Ed.
    rewrite Ed. cbn. rewrite <- Hm, <- Ha. done.
Qed.

(** C12: a request reaches only the sector that 28 bits of its number and one bit of
    its device select, on whatever drive: every other sector stays as it is,
    no sector appears or disappears, and the drive reports an error exactly
    when it does not have that sector. *)
Theorem start_bounds c m :
  0 <= b_sector c -> a_present (ata (bus m)) = true ->
  exists d, start_request fuel c m = Ret tt (set_bus d m) /\
    (forall dev sec, dev <> b_dev c mod 2 \/ sec <> b_sector c mod 2 ^ 28 ->
       a_media (ata d) !! (dev, sec) = a_media (ata (bus m)) !! (dev, sec)) /\
    dom (a_media (ata d)) = dom (a_media (ata (bus m))) /\
    (a_err (ata d) = true <-> a_media (ata (bus m)) !! (b_dev c mod 2, b_sector c mod 2 ^ 28) = None).
Proof.
  intros Hs Hp. destruct (start_registers c m Hs Hp) as (d & a & Ed & Er & Ha & Hc & Hm & _).
  exists d. split; [done|]. change (b_dev c mod 2, b_sector c mod 2 ^ 28) with (addr c).
  rewrite Ed, <- Hm, <- Ha. clear Ed. destruct (a_media a !! a_addr a) as [x|] eqn:Hx.
  - destruct (b_dirty c).
    + rewrite (command_ok 0x30 a x _ Hx Hc (or_intror eq_refl) eq_refl). cbn. split_and!; [|apply dom_insert_lookup_L; by rewrite Hx|done].
      intros dev sec Hne. rewrite Ha, lookup_insert_ne; [done|]. unfold addr. intros E. injection E as E1 E2. naive_solver.
    + by rewrite (command_ok 0x20 a x _ Hx Hc (or_introl eq_refl) eq_refl).
  - assert (Eerr : forall v, ata_command v a = Ata (a_media a) (a_two a) (a_regs a) AIdle true).
    { intros v. unfold ata_command. by rewrite Hx. }
    rewrite !Eerr. by destruct (b_dirty c).
Qed.

(** The data of a finished read. *)
Lemma fetch_run c m x media :
  a_present (ata (bus m)) = true -> b_dirty c = false -> serving c media (ata (bus m)) ->
  media !! addr c = Some x ->
  exists d, idewait fuel true m = Ret 0 (set_bus d m) /\
    exists d', insl 0x1f0 (512 / 4) (set_bus d m) = Ret x (set_bus d' m) /\
      a_media (ata d') = media /\ a_two (ata d') = a_two (ata (bus m)) /\
      a_present (ata d') = true.
Proof.
  intros Hp Hd [He Hs] Hx. rewrite Hd in Hs. destruct Hs as [Hm Hc].
  destruct (idewait_run true m Hp) as (d & E & Ha & Hb). exists d.
  rewrite Ha, He in E. split; [done|].
  destruct (ata_ins d x (Ata media (a_two (ata d)) (a_regs (ata d)) AIdle (a_err (ata d)))) as (d' & Ei & Ed').
  { done. }
  { unfold ata_insl. rewrite Ha, Hc, Hm, Hx. done. }
  exists d'. unfold insl. cbn [bus set_bus]. change (512 / 4)%nat with 128%nat.
  rewrite Ei, Ed', <- Ha. cbn. split_and!; [done|done|done|].
  rewrite <- Ha in Hp. exact Hp.
Qed.
End Drive.
