(* ===== verification/IdeTheorems.v ===== *)
(** * The disk driver as a queue of transfers

    What ide.c promises: requests are served one at a time in the order in
    which they were made, whenever interrupts arrive.  [dspec] is the queue of
    requests with the sectors and buffers as they are when every request that
    was finished took effect at once; [drep] relates it to the driver, whose
    first request is already on its way in the drive. *)
From S2P Require Import Prelude BlockCache Bio Mmu Hw Irq Ide.

Record dspec := DSpec {
  sp_bufs : list buf;
  sp_media : gmap (Z * Z) (list Z);
  sp_two : bool;
  sp_queue : list nat;
  sp_done : list nat
}.

Definition finish (c : buf) (l : list Z) : buf := Buf (b_busy c) true false (b_dev c) (b_sector c) l.

(** A request takes effect: a dirty buffer goes to the disk, another one gets
    the contents of its sector. *)
Definition transfer (c : buf) (media : gmap (Z * Z) (list Z)) : buf * gmap (Z * Z) (list Z) :=
  if b_dirty c then (finish c (b_data c), <[addr c := b_data c]> media)
  else (finish c (default (b_data c) (media !! addr c)), media).

(** Requests, interrupts, and what owners do with buffers that are not queued. *)
Inductive dop := ORw (b : nat) | OIntr | OUse (b : nat) (c : buf).

Definition spec_op (o : dop) (σ : dspec) : dspec :=
  match o with
  | ORw b => DSpec (sp_bufs σ) (sp_media σ) (sp_two σ) (sp_queue σ ++ [b]) (sp_done σ)
  | OIntr =>
      match sp_queue σ with
      | [] => σ
      | b :: q =>
          match sp_bufs σ !! b with
          | Some c => DSpec (<[b := (transfer c (sp_media σ)).1]> (sp_bufs σ))
                        (transfer c (sp_media σ)).2 (sp_two σ) q (sp_done σ ++ [b])
          | None => σ
          end
      end
  | OUse b c => DSpec (<[b := c]> (sp_bufs σ)) (sp_media σ) (sp_two σ) (sp_queue σ) (sp_done σ)
  end.

(** A buffer that can be passed to iderw: locked, with something to do, for a
    sector that a drive has. *)
Definition request (σ : dspec) (c : buf) : Prop :=
  b_busy c = true /\ b_valid c && negb (b_dirty c) = false /\ 0 <= b_sector c /\
  (b_dev c = 0 \/ sp_two σ = true) /\ is_Some (sp_media σ !! addr c).

Definition waiting (σ : dspec) (b : nat) : Prop :=
  exists c, sp_bufs σ !! b = Some c /\ request σ c.

Definition legal (o : dop) (σ : dspec) : Prop :=
  match o with
  | ORw b => b ∉ sp_queue σ /\ waiting σ b
  | OIntr => True
  | OUse b c => b ∉ sp_queue σ
  end.

Fixpoint legals (os : list dop) (σ : dspec) : Prop :=
  match os with [] => True | o :: os => legal o σ /\ legals os (spec_op o σ) end.

Definition spec_ops (os : list dop) (σ : dspec) : dspec := foldl (fun σ o => spec_op o σ) σ os.

Definition requests (os : list dop) : list nat :=
  omap (fun o => match o with ORw b => Some b | _ => None end) os.
Definition interrupts (os : list dop) : nat :=
  length (omap (fun o => match o with OIntr => Some tt | _ => None end) os).

Lemma request_after o σ c : request σ c -> request (spec_op o σ) c.
Proof.
  intros (H1 & H2 & H3 & H4 & H5). repeat split; try done.
  - destruct o; cbn; try done. destruct (sp_queue σ) as [|b q]; [done|]. by destruct (sp_bufs σ !! b).
  - destruct o; cbn; [done| |done]. destruct (sp_queue σ) as [|b q]; [done|].
    destruct (sp_bufs σ !! b) as [e|]; [|done]. cbn. unfold transfer. destruct (b_dirty e); [|done].
    cbn. destruct (decide (addr e = addr c)) as [->|Hne]; [by rewrite lookup_insert_eq|].
    by rewrite lookup_insert_ne.
Qed.

Definition spec_ok (σ : dspec) : Prop := NoDup (sp_queue σ) /\ Forall (waiting σ) (sp_queue σ).

Lemma spec_ok_op o σ : legal o σ -> spec_ok σ -> spec_ok (spec_op o σ).
Proof.
  intros Hl [Hn Hw]. assert (K : forall e, e ∈ sp_queue σ ->
    sp_bufs (spec_op o σ) !! e = sp_bufs σ !! e -> waiting (spec_op o σ) e).
  { intros e He Eq. destruct (proj1 (Forall_forall _ _) Hw e He) as (c & E & Hr).
    exists c. rewrite Eq. split; [done|]. by apply request_after. }
  destruct o as [b| |b c]; cbn [legal] in Hl; unfold spec_ok.
  - destruct Hl as [Hb (c & E & Hr)]. split.
    + apply NoDup_app. split; [done|]. split; [|apply NoDup_singleton]. intros x Hx.
      rewrite list_elem_of_singleton. by intros ->.
    + apply Forall_app. split; [apply Forall_forall; intros e He; by apply K|].
      apply Forall_singleton. exists c. split; [done|]. by apply (request_after (ORw b)).
  - destruct (sp_queue σ) as [|b q] eqn:Eq; [cbn; rewrite !Eq; by split|].
    apply Forall_cons in Hw as [(c & E & _) _]. apply NoDup_cons in Hn as [Hb Hn].
    cbn in K |- *. rewrite Eq, E in K |- *. cbn. split; [done|]. apply Forall_forall. intros e He.
    apply K; [by right|]. cbn. rewrite list_lookup_insert_ne; [done|]. by intros <-.
  - split; [done|]. apply Forall_forall. intros e He. apply K; [done|]. cbn.
    rewrite list_lookup_insert_ne; [done|]. by intros ->.
Qed.

(** An interrupt finishes the first request. *)
Lemma spec_intr b q σ : spec_ok σ -> sp_queue σ = b :: q ->
  exists c, sp_bufs σ !! b = Some c /\ spec_op OIntr σ =
    DSpec (<[b := (transfer c (sp_media σ)).1]> (sp_bufs σ)) (transfer c (sp_media σ)).2
      (sp_two σ) q (sp_done σ ++ [b]).
Proof.
  intros [_ Hw] Eq. rewrite Eq in Hw. apply Forall_cons in Hw as [(c & E & _) _].
  exists c. split; [done|]. cbn. by rewrite Eq, E.
Qed.

(** Finished requests and the queue together are the requests in order. *)
Lemma spec_order os σ :
  spec_ok σ -> legals os σ ->
  sp_done (spec_ops os σ) ++ sp_queue (spec_ops os σ) = sp_done σ ++ sp_queue σ ++ requests os.
Proof.
  revert σ. induction os as [|o os IH]; intros σ Hok Hl; [by rewrite app_nil_r|].
  destruct Hl as [Ho Hl]. change (spec_ops (o :: os) σ) with (spec_ops os (spec_op o σ)).
  rewrite IH by (try apply spec_ok_op; done). destruct o as [b| |b c]; [cbn; by rewrite <- app_assoc| |done].
  destruct (sp_queue σ) as [|b q] eqn:Eq; [cbn; by rewrite !Eq|].
  destruct (spec_intr b q σ Hok Eq) as (c & _ & ->). cbn. by rewrite <- app_assoc.
Qed.

Definition touches (b : nat) (o : dop) : Prop :=
  match o with ORw e => e = b | OIntr => False | OUse e _ => e = b end.

(** A finished buffer stays as it is until its owner uses it. *)
Lemma spec_settled os b σ c :
  spec_ok σ -> legals os σ -> Forall (fun o => ~ touches b o) os ->
  b ∉ sp_queue σ -> sp_bufs σ !! b = Some c -> sp_bufs (spec_ops os σ) !! b = Some c.
Proof.
  revert σ. induction os as [|o os IH]; intros σ Hok Hl Ht Hb E; [done|].
  destruct Hl as [Ho Hl]. apply Forall_cons in Ht as [Ht0 Ht].
  apply (IH (spec_op o σ)); try done; [by apply spec_ok_op|..]; destruct o as [e| |e c']; cbn in Ht0.
  - cbn. rewrite not_elem_of_app, list_elem_of_singleton. naive_solver.
  - destruct (sp_queue σ) as [|e q] eqn:Eq; [cbn; by rewrite !Eq|].
    destruct (spec_intr e q σ Hok Eq) as (c' & _ & ->). cbn. by apply not_elem_of_cons in Hb as [_ Hb].
  - done.
  - done.
  - destruct (sp_queue σ) as [|e q] eqn:Eq; [cbn; by rewrite Eq|].
    destruct (spec_intr e q σ Hok Eq) as (c' & _ & ->). cbn.
    apply not_elem_of_cons in Hb as [Hne _]. by rewrite list_lookup_insert_ne by done.
  - cbn. by rewrite list_lookup_insert_ne by done.
Qed.

Lemma spec_done_mono os σ : sp_done σ `prefix_of` sp_done (spec_ops os σ).
Proof.
  revert σ. induction os as [|o os IH]; intros σ; [done|]. etrans; [|apply (IH (spec_op o σ))].
  destruct o; cbn; [done| |done]. destruct (sp_queue σ); [done|]. destruct (_ !! _); [|done].
  by apply prefix_app_r.
Qed.

(** The request at position [k] of the queue is finished after [k + 1] interrupts. *)
Lemma spec_served os b k σ :
  spec_ok σ -> legals os σ -> Forall (fun o => ~ touches b o) os ->
  sp_queue σ !! k = Some b -> (k < interrupts os)%nat ->
  b ∈ sp_done (spec_ops os σ) /\
  exists c, sp_bufs (spec_ops os σ) !! b = Some c /\ b_valid c = true /\ b_dirty c = false.
Proof.
  revert k σ. induction os as [|o os IH]; intros k σ Hok Hl Ht Hk Hn; [cbn in Hn; lia|].
  pose proof (spec_ok_op o σ (proj1 Hl) Hok) as Hok1. destruct Hl as [Ho Hl].
  apply Forall_cons in Ht as [Ht0 Ht].
  change (spec_ops (o :: os) σ) with (spec_ops os (spec_op o σ)).
  destruct o as [e| |e c]; [apply (IH k); try done| |by apply (IH k)].
  { cbn. by apply lookup_app_l_Some. }
  destruct (sp_queue σ) as [|e q] eqn:Eq; [done|].
  destruct (spec_intr e q σ Hok Eq) as (c & E & E1). rewrite E1 in Hl, Hok1 |- *. cbn in Hn.
  destruct k as [|k]; [injection Hk as ->|apply (IH k); try done; unfold interrupts; lia].
  pose proof Hok as [Hnd _]. rewrite Eq in Hnd. apply NoDup_cons in Hnd as [Hbq _]. split.
  - eapply elem_of_prefix; [|apply spec_done_mono]. apply elem_of_app. right. by left.
  - eexists. split; [apply spec_settled; try done; cbn; by rewrite list_lookup_insert_eq; [|eapply lookup_lt_Some]|].
    unfold transfer. by destruct (b_dirty c).
Qed.

Section Refine.
Context {D : Type} `{Bus D} (fuel : nat).

(** A request ends in a sleep, an interrupt returns. *)
Definition drive_op (o : dop) (s : idest D) : option (idest D) :=
  match o with
  | ORw b => match iderw fuel b s with Sched s' => Some s' | _ => None end
  | OIntr => match ideintr fuel s with Ret _ s' => Some s' | _ => None end
  | OUse b c => Some (set_dbufs (<[b := c]> (dbufs s)) s)
  end.

Fixpoint drive_ops (os : list dop) (s : idest D) : option (idest D) :=
  match os with [] => Some s | o :: os => s' ← drive_op o s; drive_ops os s' end.

(** The list [q] is linked from [h] on. *)
Fixpoint linked (nx : list (option nat)) (h : option nat) (q : list nat) : Prop :=
  match q with
  | [] => h = None
  | b :: q => h = Some b /\ exists n, nx !! b = Some n /\ linked nx n q
  end.

Context `{!AtaBus D} (Hfuel : forall d : D, (busy d < fuel)%nat).
Abbreviation drv s := (ata (bus (machine s))).
Implicit Types s : idest D.

Record drep (s : idest D) (σ : dspec) : Prop := {
  dr_bufs : dbufs s = sp_bufs σ;
  dr_len : length (qnext s) = length (dbufs s);
  dr_queue : linked (qnext s) (idequeue s) (sp_queue σ);
  dr_nodup : NoDup (sp_queue σ);
  dr_wait : Forall (waiting σ) (sp_queue σ);
  dr_awake : awake s = sp_done σ;
  dr_have : havedisk1 s = sp_two σ;
  dr_two : a_two (drv s) = sp_two σ;
  dr_present : a_present (drv s) = true;
  dr_drive : match sp_queue σ with
    | [] => a_media (drv s) = sp_media σ
    | b :: _ => exists c, sp_bufs σ !! b = Some c /\ serving c (sp_media σ) (drv s)
    end
}.

(** ** The queue *)

Lemma linked_upd nx h q b v :
  b ∉ q -> linked nx h q -> linked (<[b := v]> nx) h q.
Proof.
  revert h. induction q as [|e q IH]; intros h Hb; [done|].
  apply not_elem_of_cons in Hb as [Hne Hb]. intros (-> & n & E & L). split; [done|].
  exists n. split; [by rewrite list_lookup_insert_ne|auto].
Qed.

Lemma linked_snoc nx h q e b :
  linked nx h (q ++ [e]) -> NoDup (q ++ [e]) -> b ∉ q ++ [e] -> nx !! b = Some None ->
  linked (<[e := Some b]> nx) h (q ++ [e; b]).
Proof.
  revert h. induction q as [|x q IH]; intros h L N Hb Eb; cbn in *.
  - destruct L as (-> & n & E & ->). split; [done|]. apply not_elem_of_cons in Hb as [Hne _].
    exists (Some b). rewrite list_lookup_insert_eq by (by eapply lookup_lt_Some). split; [done|].
    split; [done|]. exists None. by rewrite list_lookup_insert_ne by done.
  - destruct L as (-> & n & E & L). apply NoDup_cons in N as [Hx N].
    apply not_elem_of_cons in Hb as [Hne Hb]. split; [done|]. exists n. split.
    + rewrite list_lookup_insert_ne; [done|]. intros <-. apply Hx, elem_of_app. right. by left.
    + by apply IH.
Qed.

Lemma queue_end_run q n pp h s :
  deref pp s = Ret h s -> linked (qnext s) h q -> (length q <= n)%nat ->
  queue_end n pp s = Ret (match last q with Some e => Some e | None => pp end) s.
Proof.
  revert n pp h. induction q as [|b q IH]; intros n pp h E L Hn; cbn in L.
  - destruct n; cbn [queue_end]; rewrite (bind_Ret _ _ _ _ _ E), L; done.
  - destruct L as (-> & nx & En & L). destruct n as [|n]; [cbn in Hn; lia|].
    cbn [queue_end]. rewrite (bind_Ret _ _ _ _ _ E), (IH n (Some b) nx).
    + rewrite last_cons. by destruct (last q).
    + cbn. unfold get_qnext, gets_opt. by rewrite En.
    + done.
    + cbn in Hn. lia.
Qed.

Lemma put_qnext_run b v s :
  (b < length (qnext s))%nat -> put_qnext b v s = Ret tt (set_qnext (<[b := v]> (qnext s)) s).
Proof.
  intros Hb. unfold put_qnext, modify_opt, wr. rewrite decide_True by lia. by rewrite Nat2Z.id.
Qed.

Lemma onmach_run {A} (m : M (mach D) A) s a t :
  m (machine s) = Ret a t -> onm m s = Ret a (set_machine t s).
Proof. intros E. unfold onm, zoom. by rewrite E. Qed.

Lemma queue_short s σ : drep s σ -> (length (sp_queue σ) <= length (dbufs s))%nat.
Proof.
  intros R. rewrite <- (length_seq (length (dbufs s)) 0). apply submseteq_length, NoDup_submseteq.
  - apply R.
  - intros b Hb. apply elem_of_seq. destruct (proj1 (Forall_forall _ _) (dr_wait _ _ R) b Hb) as (c & E & _).
    rewrite <- (dr_bufs _ _ R) in E. apply lookup_lt_Some in E. lia.
Qed.

(** ** Requests *)

(** [idestart] on a request of the specification. *)
Lemma idestart_run b c s σ :
  dbufs s !! b = Some c -> request σ c -> a_two (drv s) = sp_two σ -> a_present (drv s) = true ->
  a_media (drv s) = sp_media σ ->
  exists d, idestart fuel (Some b) s = Ret tt (set_machine (set_bus d (machine s)) s) /\
    serving c (sp_media σ) (ata d) /\ a_two (ata d) = sp_two σ /\ a_present (ata d) = true.
Proof.
  intros E (_ & _ & Hs & Hdev & [x Hx]) Ht Hp Hm. rewrite <- Hm in Hx.
  destruct (request_run fuel Hfuel c (machine s) x Hs Hp) as (d & Er & Hse & Ht' & Hp').
  { intros Hn. rewrite Ht. by destruct Hdev as [E0|]; [rewrite E0 in Hn|]. }
  { done. }
  exists d. cbn [idestart]. unfold get_dbuf. erewrite bind_gets_opt by exact E. rewrite (onmach_run _ _ _ _ Er).
  rewrite <- Hm, <- Ht. done.
Qed.

(** The guards of [iderw] let a request through. *)
Lemma iderw_enters b c s σ :
  drep s σ -> dbufs s !! b = Some c -> request σ c ->
  iderw fuel b s = (pp <~ queue_end (length (dbufs s)) None;;;
    (match pp with None => modify (set_idequeue (Some b)) | Some e => put_qnext e (Some b) end);;;
    q <~ gets idequeue;;;
    when (bool_decide (q = Some b)) (idestart fuel (Some b));;;
    iderw_resume b) (set_qnext (<[b := None]> (qnext s)) s).
Proof.
  intros R E (Hbusy & Hnd & _ & Hdev & _). unfold iderw, get_dbuf.
  erewrite bind_gets_opt by exact E. rewrite Hbusy, Hnd. cbn [negb].
  rewrite bind_gets, (dr_have _ _ R).
  assert (negb (b_dev c =? 0) && negb (sp_two σ) = false) as ->.
  { destruct Hdev as [-> | ->]; [done|apply andb_false_r]. }
  rewrite (bind_Ret _ _ _ _ _ (put_qnext_run b None s ltac:(rewrite (dr_len _ _ R); by eapply lookup_lt_Some))).
  by rewrite bind_gets.
Qed.

Lemma resume_sleeps b c s σ :
  dbufs s !! b = Some c -> request σ c -> iderw_resume b s = Sched s.
Proof.
  intros E (_ & Hnd & _). unfold iderw_resume, get_dbuf. erewrite bind_gets_opt by exact E. by rewrite Hnd.
Qed.

Lemma rw_step b s σ :
  drep s σ -> legal (ORw b) σ ->
  exists s', iderw fuel b s = Sched s' /\ drep s' (spec_op (ORw b) σ).
Proof.
  intros R (Hnq & c & E & Hreq). pose proof (dr_bufs _ _ R) as Eb. rewrite <- Eb in E.
  assert (Hlt : (b < length (qnext s))%nat) by (rewrite (dr_len _ _ R); by eapply lookup_lt_Some).
  rewrite (iderw_enters b c s σ R E Hreq). set (s1 := set_qnext _ s).
  pose proof (linked_upd _ _ _ b None Hnq (dr_queue _ _ R)) as L.
  rewrite (bind_Ret _ _ _ _ _ (queue_end_run (sp_queue σ) _ None (idequeue s1) s1 eq_refl L (queue_short _ _ R))).
  assert (Hw : Forall (waiting (spec_op (ORw b) σ)) (sp_queue σ ++ [b])).
  { apply Forall_app. split; [apply (dr_wait _ _ R)|]. apply Forall_singleton. exists c.
    split; [cbn; by rewrite <- Eb|done]. }
  assert (Hnd : NoDup (sp_queue σ ++ [b])).
  { apply NoDup_app. split; [apply R|]. split; [|apply NoDup_singleton]. intros x Hx.
    rewrite list_elem_of_singleton. by intros ->. }
  assert (Hl1 : length (<[b := None]> (qnext s)) = length (dbufs s)) by (rewrite length_insert; apply R).
  destruct R as [_ Hlen Hq _ _ Haw Hhave Htwo Hpr Hdr].
  destruct (sp_queue σ) as [|e q _] eqn:Eq using rev_ind.
  - cbn [last]. rewrite bind_modify, bind_gets. cbn [idequeue set_idequeue].
    rewrite bool_decide_true by done. cbn [when].
    destruct (idestart_run b c (set_idequeue (Some b) s1) σ E Hreq Htwo Hpr Hdr) as (d & Es & Hse & Ht & Hp).
    rewrite (bind_Ret _ _ _ _ _ Es). eexists. split; [by apply (resume_sleeps b c _ σ)|].
    constructor; cbn; rewrite ?Eq; try done.
    + split; [done|]. exists None. by rewrite list_lookup_insert_eq.
    + exists c. by rewrite <- Eb.
  - rewrite last_snoc. destruct (proj1 (Forall_app _ _ _) Hw) as [Hwq _].
    destruct (proj1 (Forall_forall _ _) Hwq e) as (ce & Ee & _).
    { apply elem_of_app. right. by left. }
    cbn in Ee. rewrite <- Eb in Ee. apply lookup_lt_Some in Ee. rewrite <- Hl1 in Ee.
    rewrite (bind_Ret _ _ _ _ _ (put_qnext_run e (Some b) s1 Ee)), bind_gets.
    rewrite bool_decide_false.
    2:{ intros Hh. cbn in Hh. destruct q as [|x q]; cbn in Hq; destruct Hq as [Hx _];
        rewrite Hx in Hh; injection Hh as ->; apply Hnq; left. }
    cbn [when]. rewrite bind_ret. eexists. split; [by apply (resume_sleeps b c _ σ)|].
    constructor; cbn; rewrite ?Eq; try done.
    + by rewrite !length_insert.
    + rewrite <- app_assoc. apply linked_snoc; try done; [by apply NoDup_app in Hnd as [? _]|].
      by rewrite list_lookup_insert_eq.
    + by destruct q.
Qed.

(** ** Interrupts *)

(** The transfer of the first request, in the handler. *)
Lemma complete_run b c s media x :
  dbufs s !! b = Some c -> a_present (drv s) = true -> serving c media (drv s) ->
  media !! addr c = Some x ->
  exists d,
    ((if negb (b_dirty c) then
        r <~ onm (idewait fuel true);;;
        when (0 <=? r) (l <~ onm (insl 0x1f0 (512 / 4));;; upd_dbuf b (set_b_data l))
      else ret tt);;;
     upd_dbuf b (fun c => Buf (b_busy c) true false (b_dev c) (b_sector c) (b_data c))) s
    = Ret tt (set_dbufs (<[b := (transfer c media).1]> (dbufs s)) (set_machine (set_bus d (machine s)) s)) /\
    a_media (ata d) = (transfer c media).2 /\ a_two (ata d) = a_two (drv s) /\
    a_present (ata d) = true.
Proof.
  intros E Hp Hse Hx. unfold transfer, upd_dbuf. destruct (b_dirty c) eqn:Ed; cbn [negb].
  - exists (bus (machine s)). rewrite bind_ret. unfold modify. destruct Hse as [_ Hm]. rewrite Ed in Hm.
    cbn [fst snd]. rewrite (alter_insert _ _ _ _ E).
    split; [by destruct s as [? ? ? ? ? []]|done].
  - destruct (fetch_run fuel Hfuel c (machine s) x media Hp Ed Hse Hx) as (d & Ew & d' & Ei & Hm & Ht & Hp').
    exists d'. rewrite bind_assoc, (bind_Ret _ _ _ _ _ (onmach_run _ _ _ _ Ew)). cbn [when Z.leb].
    change (0 <=? 0) with true. cbn [when].
    rewrite bind_assoc, (bind_Ret _ _ _ _ _ (onmach_run _ (set_machine (set_bus d (machine s)) s) _ _ Ei)).
    rewrite bind_modify. unfold modify. cbn [dbufs set_dbufs set_machine fst snd]. rewrite Hx.
    rewrite (alter_insert _ _ _ _ E).
    assert (Hb : (b < length (dbufs s))%nat) by (by eapply lookup_lt_Some).
    rewrite (alter_insert _ _ _ (set_b_data x c)) by (by rewrite list_lookup_insert_eq).
    by rewrite list_insert_insert_eq.
Qed.

Lemma intr_step s σ :
  drep s σ -> exists s', ideintr fuel s = Ret tt s' /\ drep s' (spec_op OIntr σ).
Proof.
  intros R. pose proof (dr_bufs _ _ R) as Eb. unfold ideintr. rewrite bind_gets.
  destruct (sp_queue σ) as [|b q] eqn:Eq.
  { pose proof (dr_queue _ _ R) as Hq. rewrite Eq in Hq. cbn in Hq. rewrite Hq.
    exists s. split; [done|]. cbn. by rewrite Eq. }
  pose proof (dr_queue _ _ R) as Hq. pose proof (dr_drive _ _ R) as Hdr.
  pose proof (dr_wait _ _ R) as Hw. pose proof (dr_nodup _ _ R) as Hnd.
  rewrite Eq in Hq, Hdr, Hw, Hnd. destruct Hq as (-> & n & En & L). destruct Hdr as (c & E & Hse).
  apply NoDup_cons in Hnd as [Hbq Hnd]. apply Forall_cons in Hw as [(c' & E' & Hreq) Hw].
  assert (c' = c) as -> by congruence. pose proof E as Es. rewrite <- Eb in Es.
  destruct Hreq as (_ & _ & _ & _ & x & Hx).
  unfold get_qnext, get_dbuf. erewrite bind_gets_opt by exact En. rewrite bind_modify.
  erewrite bind_gets_opt by exact Es. rewrite <- bind_assoc.
  destruct (complete_run b c (set_idequeue n s) (sp_media σ) x Es (dr_present _ _ R) Hse Hx)
    as (d & Er & Hm & Ht & Hp).
  rewrite (bind_Ret _ _ _ _ _ Er), bind_modify, bind_gets. cbn [idequeue set_idequeue set_dbufs set_machine set_awake].
  set (s1 := set_awake _ _). rewrite (dr_two _ _ R : a_two (drv (set_idequeue n s)) = _) in Ht.
  set (σ' := DSpec (<[b := (transfer c (sp_media σ)).1]> (sp_bufs σ)) (transfer c (sp_media σ)).2
    (sp_two σ) q (sp_done σ ++ [b])).
  assert (Eσ : spec_op OIntr σ = σ') by (cbn; by rewrite Eq, E). rewrite Eσ.
  assert (Hw' : Forall (waiting σ') q).
  { apply Forall_forall. intros e He. destruct (proj1 (Forall_forall _ _) Hw e He) as (ce & Ee & Hr).
    exists ce. split; [|rewrite <- Eσ; by apply request_after].
    cbn. rewrite list_lookup_insert_ne; [done|]. by intros <-. }
  assert (K : forall d2, a_two (ata d2) = sp_two σ -> a_present (ata d2) = true ->
    match q with [] => a_media (ata d2) = sp_media σ'
    | b2 :: _ => exists c2, sp_bufs σ' !! b2 = Some c2 /\ serving c2 (sp_media σ') (ata d2) end ->
    drep (set_machine (set_bus d2 (machine s)) s1) σ').
  { intros d2 H2 Hp2 Hd2. constructor; cbn; try done.
    - by rewrite Eb.
    - rewrite length_insert. apply R.
    - by rewrite (dr_awake _ _ R).
    - apply (dr_have _ _ R). }
  destruct q as [|b2 q].
  { cbn in L. rewrite L. exists s1. split; [done|]. by apply (K d). }
  pose proof L as (-> & _). apply Forall_cons in Hw' as [(c2 & E2 & Hr2) _].
  assert (E2' : dbufs s1 !! b2 = Some c2) by (cbn; by rewrite Eb).
  destruct (idestart_run b2 c2 s1 σ' E2' Hr2 Ht Hp Hm) as (d2 & Es2 & Hse2 & Ht2 & Hp2).
  exists (set_machine (set_bus d2 (machine s)) s1). split; [done|]. apply K; try done. by exists c2.
Qed.

(** ** Runs *)

Lemma use_step b c s σ :
  drep s σ -> b ∉ sp_queue σ -> drep (set_dbufs (<[b := c]> (dbufs s)) s) (spec_op (OUse b c) σ).
Proof.
  intros [Hb Hl Hq Hn Hw Ha Hh Ht Hp Hd] Hbq.
  assert (Hlook : forall e, e ∈ sp_queue σ -> <[b := c]> (sp_bufs σ) !! e = sp_bufs σ !! e).
  { intros e He. apply list_lookup_insert_ne. by intros ->. }
  constructor; cbn; try done.
  - by rewrite Hb.
  - by rewrite length_insert.
  - apply Forall_forall. intros e He. destruct (proj1 (Forall_forall _ _) Hw e He) as (ce & Ee & Hr).
    exists ce. cbn. by rewrite Hlook.
  - destruct (sp_queue σ) as [|e q]; [done|]. rewrite Hlook by left. done.
Qed.

Lemma drive_ops_run os s σ :
  drep s σ -> legals os σ -> exists s', drive_ops os s = Some s' /\ drep s' (spec_ops os σ).
Proof.
  revert s σ. induction os as [|o os IH]; intros s σ R Hl; [by exists s|]. destruct Hl as [Ho Hl].
  assert (exists s1, drive_op o s = Some s1 /\ drep s1 (spec_op o σ)) as (s1 & E1 & R1).
  { destruct o as [b| |b c]; cbn [drive_op].
    - destruct (rw_step b s σ R Ho) as (s1 & -> & R1). by exists s1.
    - destruct (intr_step s σ R) as (s1 & -> & R1). by exists s1.
    - eexists. split; [done|]. by apply use_step. }
  destruct (IH s1 (spec_op o σ) R1 Hl) as (s2 & E2 & R2). exists s2. cbn [drive_ops]. by rewrite E1.
Qed.

(** ** Initialisation *)

Lemma probe_run n (m : mach D) :
  (0 < n)%nat ->
  exists d, probe n m = Ret (a_present (ata (bus m))) (set_bus d m) /\ ata d = ata (bus m).
Proof.
  revert m. induction n as [|n IH]; intros m Hn; [lia|]. cbn [probe]. unfold bind, inb.
  pose proof (ata_status (bus m)) as L. destruct (bus_inb 0x1f7 (bus m)) as [r d].
  destruct L as [Ha L]. destruct (a_present (ata (bus m))) eqn:Hp.
  - destruct L as [Hr _]. apply Z.eqb_neq in Hr. rewrite Hr. by exists d.
  - rewrite L. cbn [negb Z.eqb]. destruct n as [|n]; [by exists d|].
    destruct (IH (set_bus d m) ltac:(lia)) as (d' & E & Ha'). cbn [bus set_bus] in E, Ha'.
    rewrite E, Ha, Hp. exists d'. by rewrite Ha'.
Qed.

(** The state the loader leaves, with drive 0 selected. *)
Definition fresh s : Prop :=
  idequeue s = None /\ havedisk1 s = false /\ awake s = [] /\
  length (qnext s) = length (dbufs s) /\ a_drive (drv s) = 0.

Definition spec0 s : dspec := DSpec (dbufs s) (a_media (drv s)) (a_two (drv s)) [] [].

Lemma picenable_drive irq (m : mach D) :
  exists m', picenable irq m = Ret tt m' /\ ata (bus m') = ata (bus m).
Proof. eexists. split; [done|]. cbn. by rewrite !ata_out. Qed.

Lemma ioapicenable_drive irq cpu (m : mach D) :
  exists m', ioapicenable irq cpu m = Ret tt m' /\ ata (bus m') = ata (bus m).
Proof.
  unfold ioapicenable. rewrite bind_gets. destruct (ismp m); [|by exists m].
  eexists. split; [done|]. cbn. by rewrite !ata_store.
Qed.

Lemma ideinit_run s :
  fresh s -> exists s', ideinit fuel s = Ret tt s' /\ drep s' (spec0 s).
Proof.
  intros (Hq & Hh & Ha & Hl & Hd). destruct (picenable_drive IRQ_IDE (machine s)) as (m1 & E1 & A1).
  set (s1 := set_machine m1 s).
  destruct (ioapicenable_drive IRQ_IDE (ncpu (machine s1) - 1) m1) as (m2 & E2 & A2).
  assert (Hp : a_present (ata (bus m2)) = true) by (unfold a_present; rewrite A2, A1, Hd; apply orb_true_r).
  destruct (idewait_run fuel Hfuel false m2 Hp) as (d3 & E3 & A3 & _). cbn [andb] in E3.
  set (m4 := set_bus (bus_outb 0x1f6 (u8 0xf0) d3) m2).
  destruct (probe_run 1000 m4 ltac:(lia)) as (d5 & E5 & A5).
  assert (A4 : ata (bus m4) = ata_outb 0x1f6 0xf0 (drv s)).
  { unfold m4. cbn [bus set_bus]. by rewrite ata_out, A3, A2, A1. }
  assert (Hsel : a_present (ata (bus m4)) = a_two (drv s)).
  { rewrite A4. unfold a_present, a_drive, a_get. cbn. rewrite lookup_insert_eq. apply orb_false_r. }
  rewrite Hsel in E5. unfold ideinit. rewrite (bind_Ret _ _ _ _ _ (onmach_run _ _ _ _ E1)), bind_gets.
  rewrite (bind_Ret _ _ _ _ _ (onmach_run _ s1 _ _ E2)).
  rewrite (bind_Ret _ _ _ _ _ (onmach_run _ (set_machine m2 s1) _ _ E3)).
  rewrite (bind_Ret _ _ _ _ _ (onmach_run _ (set_machine (set_bus d3 m2) s1) tt m4 eq_refl)).
  rewrite (bind_Ret _ _ _ _ _ (onmach_run _ (set_machine m4 s1) _ _ E5)).
  set (s5 := set_machine (set_bus d5 m4) s1).
  assert (Ew : when (a_two (drv s)) (modify (set_havedisk1 true)) s5
    = Ret tt (set_havedisk1 (a_two (drv s)) s5)).
  { destruct (a_two (drv s)); [done|]. unfold s5, s1, set_havedisk1. cbn. by rewrite <- Hh. }
  rewrite (bind_Ret _ _ _ _ _ Ew). eexists. split; [done|].
  assert (A6 : ata (bus_outb 0x1f6 (u8 0xe0) d5) = ata_outb 0x1f6 0xe0 (ata_outb 0x1f6 0xf0 (drv s))).
  { by rewrite ata_out, A5, A4. }
  change 0xe0 with (Z.lor 0xe0 (Z.shiftl 0 4)) in A6 at 1.
  constructor; cbn; try done; [by apply NoDup_nil|rewrite A6..]; try done.
  unfold a_present, a_drive, a_get. cbn. rewrite lookup_insert_eq. apply orb_true_r.
Qed.

(** C10: after [ideinit] the driver serves the requests one at a time in the order
    in which they were made, wherever interrupts fall between them: no
    request panics or is lost, the wakeups are those of the finished requests
    in order, the buffers are those of the specification and so is the disk
    when no request is pending; a process whose request is pending sleeps
    on. *)
Theorem ide_refines s :
  fresh s ->
  exists s1, ideinit fuel s = Ret tt s1 /\
    forall os, legals os (spec0 s) ->
    let σ := spec_ops os (spec0 s) in
    exists s', drive_ops os s1 = Some s' /\ dbufs s' = sp_bufs σ /\
      awake s' = sp_done σ /\ awake s' ++ sp_queue σ = requests os /\
      (sp_queue σ = [] -> a_media (drv s') = sp_media σ) /\
      forall b, b ∈ sp_queue σ -> iderw_resume b s' = Sched s'.
Proof.
  intros Hf. destruct (ideinit_run s Hf) as (s1 & E1 & R1). exists s1. split; [done|].
  intros os Hl σ. destruct (drive_ops_run os s1 _ R1 Hl) as (s' & E & R). exists s'.
  split; [done|]. split; [apply R|]. split; [apply R|].
  assert (Hok : spec_ok (spec0 s)) by (split; [apply NoDup_nil_2|constructor]).
  split; [rewrite (dr_awake _ _ R); by apply (spec_order os (spec0 s))|]. split.
  - intros Eq. pose proof (dr_drive _ _ R) as Hd. fold σ in Hd. by rewrite Eq in Hd.
  - intros b Hb. destruct (proj1 (Forall_forall _ _) (dr_wait _ _ R) b Hb) as (c & Ec & Hr).
    eapply (resume_sleeps b c _ (spec_ops os (spec0 s))); [by rewrite (dr_bufs _ _ R)|done].
Qed.

(** Every request is finished: when [k] requests are before it in the queue,
    the process that made it has been woken and returns from [iderw] after
    [k + 1] interrupts, whatever else is requested in between. *)
Theorem ide_serves os s σ b k :
  drep s σ -> legals os σ -> Forall (fun o => ~ touches b o) os ->
  sp_queue σ !! k = Some b -> (k < interrupts os)%nat ->
  exists s', drive_ops os s = Some s' /\ b ∈ awake s' /\ iderw_resume b s' = Ret tt s'.
Proof.
  intros R Hl Ht Hk Hn. destruct (drive_ops_run os s σ R Hl) as (s' & E & R'). exists s'.
  split; [done|]. destruct (spec_served os b k σ) as [Hin (c & Ec & Hv & Hd)]; try done.
  { split; apply R. }
  split; [by rewrite (dr_awake _ _ R')|]. rewrite <- (dr_bufs _ _ R') in Ec.
  unfold iderw_resume, get_dbuf. erewrite bind_gets_opt by exact Ec. by rewrite Hv, Hd.
Qed.

(** ** ide.c and memide.c *)

(** Drive 1 holds the disk image of memide.c. *)
Definition image_on (media : gmap (Z * Z) (list Z)) (image : list (list Z)) : Prop :=
  Z.of_nat (length image) <= 2 ^ 28 /\
  forall i, 0 <= i < 2 ^ 28 -> media !! (1, i) = rd image i.

(** What the call of memide.c does when it returns. *)
Lemma memide_run b t t' :
  Bio.iderw b t = Ret tt t' ->
  exists c, bufs t !! b = Some c /\ b_busy c = true /\ b_valid c && negb (b_dirty c) = false /\
    b_dev c = 1 /\
    exists x, rd (memdisk t) (b_sector c) = Some x /\
      if b_dirty c then bufs t' = <[b := finish c (b_data c)]> (bufs t) /\
        memdisk t' = <[Z.to_nat (b_sector c) := b_data c]> (memdisk t)
      else bufs t' = <[b := finish c x]> (bufs t) /\ memdisk t' = memdisk t.
Proof.
  unfold Bio.iderw, get_buf. intros E.
  apply bind_ret_inv in E as (c & s0 & Ec & E). unfold gets_opt in Ec.
  destruct (bufs t !! b) as [c0|] eqn:Eb; [|done]. injection Ec as -> <-. exists c. split; [done|].
  destruct (b_busy c); [|done]. cbn [negb] in E. destruct (b_valid c && _) eqn:Ev; [done|].
  destruct (Z.eqb_spec (b_dev c) 1) as [Ed|]; [|done]. cbn [negb] in E. rewrite bind_gets in E.
  destruct (Z.leb_spec (Z.of_nat (length (memdisk t))) (b_sector c)) as [|Hlt]; [done|].
  split_and!; try done. unfold upd_buf in E. destruct (b_dirty c) eqn:Edd.
  - apply bind_ret_inv in E as ([] & s1 & E1 & E). unfold modify_opt, wr in E1.
    case_decide as Hr; [|done]. cbn in E1. injection E1 as <-. injection E as <-.
    destruct (rd_in_range _ _ Hr) as [x Hx]. exists x. split; [done|]. cbn.
    by rewrite (alter_insert _ _ _ _ Eb).
  - apply bind_ret_inv in E as (x & s1 & E1 & E). unfold gets_opt in E1.
    destruct (rd _ _) as [y|] eqn:Ey; [|done]. injection E1 as -> <-. injection E as <-.
    exists x. split; [done|]. cbn. rewrite (alter_insert _ _ _ _ Eb), Edd. done.
Qed.

(** C11: with no other request in the queue, [iderw] of ide.c and one interrupt do
    to the buffers and to drive 1 what [iderw] of memide.c does to the
    buffers and the disk image, whenever that one returns. *)
Theorem ide_like_memide b s σ t t' :
  drep s σ -> sp_queue σ = [] -> sp_two σ = true -> bufs t = sp_bufs σ ->
  image_on (sp_media σ) (memdisk t) -> Bio.iderw b t = Ret tt t' ->
  exists s1 s2, iderw fuel b s = Sched s1 /\ ideintr fuel s1 = Ret tt s2 /\
    iderw_resume b s2 = Ret tt s2 /\ dbufs s2 = bufs t' /\
    image_on (a_media (drv s2)) (memdisk t').
Proof.
  intros R Hq Ht Hb [Hlen Hi] E. destruct (memide_run b t t' E) as (c & Ec & Hbusy & Hv & Hd & x & Hx & Ht').
  destruct (rd_Some _ _ _ Hx) as [Hr Hx']. rewrite Hb in Ec.
  assert (Ha : addr c = (1, b_sector c)).
  { unfold addr. by rewrite Hd, (Z.mod_small (b_sector c)) by lia. }
  assert (Hl : legal (ORw b) σ).
  { cbn. rewrite Hq. split; [apply not_elem_of_nil|]. exists c. split; [done|].
    repeat split; try done; [lia|by right|]. rewrite Ha, Hi, Hx by lia. done. }
  destruct (rw_step b s σ R Hl) as (s1 & E1 & R1). destruct (intr_step s1 _ R1) as (s2 & E2 & R2).
  exists s1, s2. split; [done|]. split; [done|].
  assert (Es : spec_op OIntr (spec_op (ORw b) σ) = DSpec (<[b := (transfer c (sp_media σ)).1]> (sp_bufs σ))
    (transfer c (sp_media σ)).2 (sp_two σ) [] (sp_done σ ++ [b])) by (cbn; rewrite Hq; cbn; by rewrite Ec).
  rewrite Es in R2. pose proof (dr_bufs _ _ R2) as B2. pose proof (dr_drive _ _ R2) as D2. cbn in B2, D2.
  assert (Hbl : (b < length (sp_bufs σ))%nat) by (by eapply lookup_lt_Some).
  split.
  { unfold iderw_resume, get_dbuf. erewrite bind_gets_opt; [|by rewrite B2; apply list_lookup_insert_eq].
    unfold transfer. by destruct (b_dirty c). }
  rewrite B2, D2. unfold transfer. destruct (b_dirty c); destruct Ht' as [-> ->]; cbn [fst snd].
  - rewrite Hb. split; [done|]. rewrite Ha. split; [by rewrite length_insert|]. intros i Hin.
    destruct (decide (i = b_sector c)) as [->|Hne].
    + rewrite lookup_insert_eq. unfold rd. rewrite decide_True by lia. symmetry.
      apply list_lookup_insert_eq. lia.
    + rewrite lookup_insert_ne by congruence. rewrite Hi by done. unfold rd.
      rewrite !decide_True by lia. by rewrite list_lookup_insert_ne by lia.
  - rewrite Hb, Ha, Hi, Hx by lia. done.
Qed.
End Refine.

(** ** Examples *)

(** A write and two reads, on the machine [pc_demo]. *)
Definition ide_demo : idest pc :=
  Idest [Buf true false true 1 0 (sector 7); Buf true false false 1 0 (sector 0);
         Buf true false false 0 1 (sector 0)] [None; None; None] None false [] (pc_demo []).

Definition demo_ops : list dop := [ORw 0; ORw 1; OIntr; ORw 2; OIntr; OIntr; OIntr].

Lemma demo_fresh : fresh ide_demo.
Proof. by repeat split. Qed.

#[export] Instance request_dec σ c : Decision (request σ c).
Proof. unfold request. apply _. Defined.

#[export] Instance waiting_dec σ b : Decision (waiting σ b).
Proof.
  refine (match sp_bufs σ !! b as r return sp_bufs σ !! b = r -> _ with
          | Some c => fun E => cast_if (decide (request σ c))
          | None => fun E => right _
          end eq_refl); [by exists c|intros (e & Ee & Hr); by simplify_eq|intros (e & Ee & _); by simplify_eq].
Defined.

#[export] Instance legal_dec o σ : Decision (legal o σ).
Proof. destruct o; cbn; apply _. Defined.

#[export] Instance legals_dec os σ : Decision (legals os σ).
Proof. revert σ. induction os as [|o os IH]; intros σ; cbn; apply _. Defined.

Lemma demo_legal : legals demo_ops (spec0 ide_demo).
Proof. apply (bool_decide_unpack _). by vm_compute. Qed.

Lemma ide_refines_witness :
  exists s1 s', ideinit 8 ide_demo = Ret tt s1 /\ drive_ops 8 demo_ops s1 = Some s' /\
    awake s' = [0; 1; 2]%nat /\
    map b_data (dbufs s') = [sector 7; sector 7; sector 11].
Proof.
  destruct (ide_refines 8 pc_busy ide_demo demo_fresh) as (s1 & E1 & K).
  destruct (K demo_ops demo_legal) as (s' & E & Hb & Ha & _). exists s1, s'.
  split; [done|]. split; [done|]. rewrite Hb, Ha. by split; vm_compute.
Defined.

(** The state with the first request in the drive and the second behind it. *)
Lemma demo_reached : exists s, drep s (spec_ops [ORw 0; ORw 1] (spec0 ide_demo)).
Proof.
  destruct (ideinit_run 8 pc_busy ide_demo demo_fresh) as (s1 & _ & R1).
  destruct (drive_ops_run 8 pc_busy [ORw 0; ORw 1]%nat s1 _ R1) as (s & _ & R); [|by exists s].
  apply (bool_decide_unpack _). by vm_compute.
Qed.

Lemma ide_serves_witness :
  exists s s' : idest pc, drive_ops 8 [OIntr; ORw 2; OIntr] s = Some s' /\
    (1%nat) ∈ awake s' /\ iderw_resume 1 s' = Ret tt s'.
Proof.
  destruct demo_reached as (s & R). exists s.
  apply (ide_serves 8 pc_busy _ s _ 1 1 R).
  - apply (bool_decide_unpack _). by vm_compute.
  - repeat constructor; cbn; lia.
  - done.
  - cbn. lia.
Defined.

Lemma start_bounds_witness :
  exists d, start_request 8 (Buf true false true 3 (2 ^ 28 + 1) (sector 5)) (pc_demo [])
      = Ret tt (set_bus d (pc_demo [])) /\
    a_media (ata d) !! (1, 0) = Some (sector 20) /\ a_media (ata d) !! (0, 1) = Some (sector 11).
Proof.
  destruct (start_bounds 8 pc_busy (Buf true false true 3 (2 ^ 28 + 1) (sector 5)) (pc_demo []))
    as (d & E & K & _); [done|done|].
  exists d. split; [done|]. split; rewrite K; (done || (left; done) || (right; done)).
Defined.

(** A disk of two blocks for memide.c, the same as drive 1. *)
Definition mem_demo : bst := Bst (dbufs ide_demo) [0; 1; 2]%nat [sector 20; sector 21] [].

Lemma demo_image : image_on (a_media (ata (bus (pc_demo [])))) (memdisk mem_demo).
Proof.
  split; [done|]. intros i Hi. destruct (decide (i = 0)) as [->|H0]; [done|].
  destruct (decide (i = 1)) as [->|H1]; [done|].
  trans (@None (list Z)).
  - cbn -[sector]. rewrite !lookup_insert_ne by congruence. apply lookup_empty.
  - unfold rd. rewrite decide_True by lia. symmetry. apply lookup_ge_None. cbn. lia.
Qed.

Lemma ide_like_memide_witness :
  exists s s1 s2 : idest pc, iderw 8 0 s = Sched s1 /\ ideintr 8 s1 = Ret tt s2 /\
    iderw_resume 0 s2 = Ret tt s2 /\ rd (dbufs s2) 0 = Some (Buf true true false 1 0 (sector 7)).
Proof.
  destruct (ideinit_run 8 pc_busy ide_demo demo_fresh) as (s & _ & R).
  destruct (Bio.iderw 0 mem_demo) as [[] t'| | | |] eqn:E; try by vm_compute in E.
  destruct (ide_like_memide 8 pc_busy 0 s _ mem_demo t' R) as (s1 & s2 & E1 & E2 & E3 & E4 & _); try done.
  { apply demo_image. }
  exists s, s1, s2. split_and!; try done. rewrite E4. by vm_compute in E; injection E as <-.
Defined.

(** ** Errors of the drive

    A failed read is not reported: the handler marks the buffer valid with
    whatever it held, and [iderw] returns as if it had read the sector. *)
Lemma read_error_is_valid :
  let c := Buf true false false 0 5 (sector 99) in
  match ideinit 8 (set_dbufs [c] (set_qnext [None] ide_demo)) with
  | Ret _ s =>
      match iderw 8 0 s with
      | Sched s => match ideintr 8 s with
                   | Ret _ s => iderw_resume 0 s = Ret tt s /\ dbufs s = [Buf true true false 0 5 (sector 99)]
                   | _ => False
                   end
      | _ => False
      end
  | _ => False
  end.
Proof. by vm_compute. Qed.
