(* ===== verification/Log.v ===== *)
(** * The redo log (log.c)

    One transaction at a time: the blocks written by a system call go to the
    log area first; writing the header commits them; they are then copied home
    and the header is cleared.  The buffer cache is used through [BlockCache].
    The theorems say that after a crash at any point of a transaction, or of a
    recovery, recovery leaves all of the transaction's writes or none. *)
From S2P Require Import Prelude Bytes BlockCache.

Definition LOGSIZE : Z := 10.

(** struct log, with the in-memory header; the cache and the disk. *)
Record lst (B : Type) := Lst {
  start : Z;
  lsize : Z;
  busy : bool;
  lh_n : Z;
  lh_sector : list Z;
  bs : B
}.
Arguments Lst {B}.
Arguments start {B}.
Arguments lsize {B}.
Arguments busy {B}.
Arguments lh_n {B}.
Arguments lh_sector {B}.
Arguments bs {B}.

Definition set_geometry {B} (st n : Z) (s : lst B) : lst B :=
  Lst st n (busy s) (lh_n s) (lh_sector s) (bs s).
Definition set_busy {B} (v : bool) (s : lst B) : lst B :=
  Lst (start s) (lsize s) v (lh_n s) (lh_sector s) (bs s).
Definition set_lh_n {B} (v : Z) (s : lst B) : lst B :=
  Lst (start s) (lsize s) (busy s) v (lh_sector s) (bs s).
Definition set_lh_sector {B} (v : list Z) (s : lst B) : lst B :=
  Lst (start s) (lsize s) (busy s) (lh_n s) v (bs s).
Definition set_bs {B} (v : B) (s : lst B) : lst B :=
  Lst (start s) (lsize s) (busy s) (lh_n s) (lh_sector s) v.

(** The fields of a header block: n, then sector[i]. *)
Definition hdr_n (d : list Z) : option Z := s32 <$> get32 d 0.
Definition hdr_sector (d : list Z) (i : nat) : option Z := s32 <$> get32 d (4 + 4 * i).

Section Ops.
Context {B H : Type} `{BlockCache B H}.

Abbreviation L := (M (lst B)).

Definition onb {A} (m : M B A) : L A := zoom bs set_bs m.

(** log.lh.sector[i] *)
Definition get_sector (i : Z) : L Z := gets_opt (fun s => rd (lh_sector s) i).
Definition put_sector (i v : Z) : L unit :=
  modify_opt (fun s => (fun l => set_lh_sector l s) <$> wr (lh_sector s) i v).

Definition install_block (tail : nat) : L unit :=
  st <~ gets start;;;
  lbuf <~ onb (bread (st + Z.of_nat tail + 1));;;
  sec <~ get_sector (Z.of_nat tail);;;
  dbuf <~ onb (bread sec);;;
  d <~ onb (bdata lbuf);;;
  onb (bset dbuf d);;;
  onb (bwrite dbuf);;;
  onb (brelse lbuf);;;
  onb (brelse dbuf).

Definition install_trans : L unit :=
  n <~ gets lh_n;;;
  mfor (seq 0 (Z.to_nat n)) install_block.

Definition read_head : L unit :=
  st <~ gets start;;;
  buf <~ onb (bread st);;;
  d <~ onb (bdata buf);;;
  n <~ gets_opt (fun _ => hdr_n d);;;
  modify (set_lh_n n);;;
  mfor (seq 0 (Z.to_nat n))
    (fun i => v <~ gets_opt (fun _ => hdr_sector d i);;; put_sector (Z.of_nat i) v);;;
  onb (brelse buf).

(** The header block [d] with n and the first n sector numbers stored; [None]
    when a sector number is read past the end of the in-memory array. *)
Fixpoint put_sectors (i : nat) (l : list Z) (d : list Z) : list Z :=
  match l with
  | [] => d
  | v :: l => put_sectors (S i) l (put32 (4 + 4 * i) v d)
  end.
Definition head_block (n : Z) (sectors : list Z) (d : list Z) : option (list Z) :=
  if (Z.to_nat n <=? length sectors)%nat
  then Some (put_sectors 0 (take (Z.to_nat n) sectors) (put32 0 n d))
  else None.

Definition write_head : L unit :=
  st <~ gets start;;;
  buf <~ onb (bread st);;;
  d <~ onb (bdata buf);;;
  d' <~ gets_opt (fun s => head_block (lh_n s) (lh_sector s) d);;;
  onb (bset buf d');;;
  onb (bwrite buf);;;
  onb (brelse buf).

Definition recover_from_log : L unit :=
  read_head;;;
  install_trans;;;
  modify (set_lh_n 0);;;
  write_head.

(** [initlog]; readsb reads the superblock (fs.c), whose fields size and nlog
    are the first and fourth word of block 1. *)
Definition initlog : L unit :=
  b <~ onb (bread 1);;;
  d <~ onb (bdata b);;;
  size <~ gets_opt (fun _ => get32 d 0);;;
  nlog <~ gets_opt (fun _ => get32 d 12);;;
  onb (brelse b);;;
  modify (set_geometry (s32 (size - nlog)) (s32 nlog));;;
  recover_from_log.

(** [begin_trans] sleeps while a transaction is active; the same code runs when
    it wakes. *)
Definition begin_trans : L unit :=
  b <~ gets busy;;;
  if b then (fun s => Sched s) else modify (set_busy true).

Definition commit_trans : L unit :=
  n <~ gets lh_n;;;
  when (0 <? n)
    (write_head;;;
     install_trans;;;
     modify (set_lh_n 0);;;
     write_head);;;
  modify (set_busy false).

(** The slot of the log used for a sector: its old slot or the next one. *)
Definition log_slot (n : Z) (sectors : list Z) (sec : Z) : nat :=
  match find_first (fun x => x =? sec) (take (Z.to_nat n) sectors) with
  | Some i => i
  | None => Z.to_nat n
  end.

Definition log_write (b : H) : L unit :=
  n <~ gets lh_n;;;
  sz <~ gets lsize;;;
  if (LOGSIZE <=? n) || (sz - 1 <=? n) then panic "too big a transaction" else
  bz <~ gets busy;;;
  if negb bz then panic "write outside of trans" else
  sec <~ onb (bsector b);;;
  sectors <~ gets lh_sector;;;
  let i := log_slot n sectors sec in
  put_sector (Z.of_nat i) sec;;;
  st <~ gets start;;;
  lbuf <~ onb (bread (st + Z.of_nat i + 1));;;
  d <~ onb (bdata b);;;
  onb (bset lbuf d);;;
  onb (bwrite lbuf);;;
  onb (brelse lbuf);;;
  when (Z.of_nat i =? n) (modify (set_lh_n (n + 1)));;;
  onb (bmark b).

End Ops.

(** ** Running the operations *)

Definition upd (D : Z -> option (list Z)) (s : Z) (d : list Z) : Z -> option (list Z) :=
  fun t => if decide (t = s) then Some d else D t.

(** The disk after the writes [ws]. *)
Definition disk_after (D : Z -> option (list Z)) (ws : list (Z * list Z)) :
    Z -> option (list Z) :=
  fold_left (fun D w => upd D w.1 w.2) ws D.

Lemma upd_same D s d : upd D s d s = Some d.
Proof. unfold upd. by rewrite decide_True. Qed.
Lemma upd_other D s d t : t <> s -> upd D s d t = D t.
Proof. intros. unfold upd. by rewrite decide_False. Qed.

Lemma disk_after_app D ws1 ws2 :
  disk_after D (ws1 ++ ws2) = disk_after (disk_after D ws1) ws2.
Proof. apply fold_left_app. Qed.

Lemma disk_after_notin D ws t : t ∉ ws.*1 -> disk_after D ws t = D t.
Proof.
  revert D. induction ws as [|[s d] ws IH]; intros D Hn; [done|].
  rewrite fmap_cons in Hn. apply not_elem_of_cons in Hn as [Hne Hn].
  simpl. change (disk_after (upd D s d) ws t = D t). rewrite IH by done.
  by apply upd_other.
Qed.

Lemma gset_size_le (X Y : gset Z) : X ⊆ Y -> (size X <= size Y)%nat.
Proof. apply subseteq_size. Qed.

Lemma size_add_le (x : Z) (X : gset Z) : (size ({[x]} ∪ X) <= S (size X))%nat.
Proof.
  rewrite size_union_alt, size_singleton.
  pose proof (subseteq_size (X ∖ {[x]}) X ltac:(set_solver)). lia.
Qed.

Lemma take_prefix {A} (l k : list A) :
  (forall i x, l !! i = Some x -> k !! i = Some x) -> take (length l) k = l.
Proof.
  intros Hlk. apply list_eq. intros i. destruct (decide (i < length l)%nat) as [Hi|Hi].
  - rewrite lookup_take_lt by done. destruct (lookup_lt_is_Some_2 l i Hi) as [x Hx].
    by rewrite Hx, (Hlk i x Hx).
  - rewrite lookup_ge_None_2 by (rewrite length_take; lia). by rewrite lookup_ge_None_2 by lia.
Qed.

Section Run.
Context {B H : Type} `{BlockCacheLaws B H}.
Implicit Types b : B.

Lemma onb_run {A} (m : M B A) st sz bz n ss b (a : A) b' :
  m b = Ret a b' -> onb m (Lst st sz bz n ss b) = Ret a (Lst st sz bz n ss b').
Proof. intros E. unfold onb, zoom. simpl. by rewrite E. Qed.

(** [b'] is [b] with [ws] written and [D], [V], [Ds] as disk, view and dirty
    set; no buffer is handed out. *)
Record quiet b (D V : Z -> option (list Z)) (Ds : gset Z) (ws : list (Z * list Z)) : Prop := {
  qu_inv : binv b;
  qu_held : held b = ∅;
  qu_dirty : dirty b = Ds;
  qu_writes : writes b = ws;
  qu_disk : forall t, disk b t = D t;
  qu_view : forall t, view b t = V t
}.

Lemma install_block_run st sz bz n ss b D V Ds ws tail sec d :
  quiet b D V Ds ws -> rd ss (Z.of_nat tail) = Some sec ->
  D (st + Z.of_nat tail + 1) = Some d -> V (st + Z.of_nat tail + 1) = Some d ->
  (st + Z.of_nat tail + 1) ∉ Ds -> sec <> st + Z.of_nat tail + 1 -> is_Some (D sec) ->
  (size Ds <= 9)%nat -> sec ∈ Ds \/ (size Ds <= 8)%nat ->
  exists b', install_block tail (Lst st sz bz n ss b) = Ret tt (Lst st sz bz n ss b') /\
    quiet b' (upd D sec d) (upd V sec d) (Ds ∖ {[sec]}) (ws ++ [(sec, d)]).
Proof.
  intros [Hi Hh Hd Hw HD HV] Hsec HDl HVl Hndl Hne HDs Hsz Hroom.
  set (ls := st + Z.of_nat tail + 1) in *.
  assert (Hlen : length d = 512%nat) by (eapply view_length; [exact Hi|by rewrite HV]).
  unfold install_block. mrun. cbn [start]. fold ls.
  destruct (bread_law b ls) as (lb & b1 & E1 & Hi1 & Hh1 & Hd1 & Hw1 & HV1 & HD1); [done|..].
  { by rewrite Hh. }
  { rewrite HD, HDl. by eexists. }
  { right. rewrite Hh, Hd. rewrite dom_empty_L. rewrite union_empty_l_L. unfold NBUF. lia. }
  erewrite bind_Ret by by apply onb_run. unfold get_sector.
  erewrite bind_gets_opt by exact Hsec.
  destruct (bread_law b1 sec) as (db & b2 & E2 & Hi2 & Hh2 & Hd2 & Hw2 & HV2 & HD2); [done|..].
  { rewrite Hh1, Hh. by rewrite lookup_insert_ne, lookup_empty. }
  { by rewrite HD1, HD. }
  { rewrite Hd1, Hd, Hh1, Hh. destruct Hroom as [?|Hr]; [by left|right].
    rewrite dom_insert_L, dom_empty_L, union_empty_r_L. unfold NBUF.
    pose proof (size_add_le ls Ds). lia. }
  erewrite bind_Ret by by apply onb_run.
  erewrite bind_Ret.
  2: { apply onb_run. eapply (bdata_law b2 ls lb d); [done|..].
       - rewrite Hh2, Hh1. rewrite lookup_insert_ne by done. apply lookup_insert_eq.
       - by rewrite HV2, HV1, HV. }
  destruct (bset_law b2 sec db d) as (b3 & E3 & Hi3 & Hh3 & Hd3 & Hw3 & HVs3 & HV3 & HD3);
    [done| |done|].
  { rewrite Hh2. apply lookup_insert_eq. }
  erewrite bind_Ret by by apply onb_run.
  destruct (bwrite_law b3 sec db d) as (b4 & E4 & Hi4 & Hh4 & Hd4 & Hw4 & HV4 & HDs4 & HD4);
    [done| |done|].
  { rewrite Hh3, Hh2. apply lookup_insert_eq. }
  erewrite bind_Ret by by apply onb_run.
  destruct (brelse_law b4 ls lb) as (b5 & E5 & Hi5 & Hh5 & Hd5 & Hw5 & HV5 & HD5); [done|..].
  { rewrite Hh4, Hh3, Hh2, Hh1. rewrite lookup_insert_ne by done. apply lookup_insert_eq. }
  { right. rewrite HV4, HV3, HV2, HV1, HV, HD4, HD3, HD2, HD1, HD by done. congruence. }
  erewrite bind_Ret by by apply onb_run.
  destruct (brelse_law b5 sec db) as (b6 & E6 & Hi6 & Hh6 & Hd6 & Hw6 & HV6 & HD6); [done|..].
  { rewrite Hh5, Hh4, Hh3, Hh2. rewrite lookup_delete_ne by done. apply lookup_insert_eq. }
  { right. by rewrite HV5, HV4, HVs3, HD5, HDs4. }
  exists b6. split; [by apply onb_run|]. split.
  - done.
  - rewrite Hh6, Hh5, Hh4, Hh3, Hh2, Hh1, Hh. apply map_eq. intros t.
    destruct (decide (t = sec)) as [->|Hts]; [by rewrite lookup_delete_eq|].
    rewrite lookup_delete_ne by done.
    destruct (decide (t = ls)) as [->|Htl]; [by rewrite lookup_delete_eq|].
    by rewrite lookup_delete_ne, !lookup_insert_ne by done.
  - by rewrite Hd6, Hd5, Hd4, Hd3, Hd2, Hd1, Hd.
  - by rewrite Hw6, Hw5, Hw4, Hw3, Hw2, Hw1, Hw.
  - intros t. rewrite HD6, HD5. unfold upd. case_decide as Ht; [by subst|].
    by rewrite HD4, HD3, HD2, HD1, HD.
  - intros t. rewrite HV6, HV5, HV4. unfold upd. case_decide as Ht; [by subst|].
    by rewrite HV3, HV2, HV1, HV.
Qed.

(** Room for the two buffers of [install_block] at every step. *)
Definition roomy (Ds : gset Z) (secs : list Z) : Prop :=
  (size Ds <= 9)%nat /\ ((NoDup secs /\ Forall (fun x => x ∈ Ds) secs) \/ (size Ds <= 8)%nat).

Lemma roomy_tail Ds x secs : roomy Ds (x :: secs) -> roomy (Ds ∖ {[x]}) secs.
Proof.
  intros [Hsz Hr]. pose proof (subseteq_size (Ds ∖ {[x]}) Ds ltac:(set_solver)) as Hle.
  split; [lia|]. destruct Hr as [[[Hx Hnd]%NoDup_cons Hall]|?]; [left|right; lia].
  apply Forall_cons in Hall as [_ Hall]. split; [done|].
  apply Forall_forall. intros y Hy. rewrite Forall_forall in Hall.
  specialize (Hall y Hy). set_solver.
Qed.

Lemma roomy_head Ds x secs :
  roomy Ds (x :: secs) -> (size Ds <= 9)%nat /\ (x ∈ Ds \/ (size Ds <= 8)%nat).
Proof.
  intros [Hsz [[_ [Hx _]%Forall_cons]|?]]; tauto.
Qed.

Lemma install_loop_run st sz bz n ss secs ds k b D V Ds ws :
  quiet b D V Ds ws -> length ds = length secs ->
  (forall i x, secs !! i = Some x -> rd ss (Z.of_nat (k + i)) = Some x) ->
  (forall i d, ds !! i = Some d ->
     D (st + Z.of_nat (k + i) + 1) = Some d /\ V (st + Z.of_nat (k + i) + 1) = Some d) ->
  (forall i, st + Z.of_nat i + 1 ∉ Ds /\ st + Z.of_nat i + 1 ∉ secs) ->
  Forall (fun x => is_Some (D x)) secs -> roomy Ds secs ->
  exists b', mfor (seq k (length secs)) install_block (Lst st sz bz n ss b) =
      Ret tt (Lst st sz bz n ss b') /\
    quiet b' (disk_after D (zip secs ds)) (disk_after V (zip secs ds))
      (Ds ∖ list_to_set secs) (ws ++ zip secs ds).
Proof.
  revert ds k b D V Ds ws. induction secs as [|x secs IH];
    intros ds k b D V Ds ws Hq Hlen Hss Hlog Hout HD Hroom.
  - destruct ds; [|done]. exists b. split; [done|].
    destruct Hq as [? ? Hd Hw ? ?]. split; try done; simpl;
      [by rewrite difference_empty_L|by rewrite app_nil_r].
  - destruct ds as [|d ds]; [done|]. simpl in Hlen.
    apply Forall_cons in HD as [HDx HD]. apply roomy_head in Hroom as Hhd.
    apply roomy_tail in Hroom.
    destruct (Hlog 0%nat d eq_refl) as [HDl HVl]. rewrite Nat.add_0_r in HDl, HVl.
    destruct (Hout k) as [Hndl Hnsl]. apply not_elem_of_cons in Hnsl as [Hne _].
    destruct (install_block_run st sz bz n ss b D V Ds ws k x d)
      as (b1 & Hr1 & Hq1); try done; try tauto.
    { specialize (Hss 0%nat x eq_refl). by rewrite Nat.add_0_r in Hss. }
    destruct (IH ds (S k) b1 _ _ _ _ Hq1) as (b2 & Hr2 & Hq2); try done.
    + lia.
    + intros i y Hy. specialize (Hss (S i) y Hy). by rewrite Nat.add_succ_r in Hss.
    + intros i e He. specialize (Hlog (S i) e He). rewrite Nat.add_succ_r in Hlog.
      destruct (Hout (S (k + i))) as [_ Hn]. apply not_elem_of_cons in Hn as [Hnx _].
      by rewrite !upd_other by done.
    + intros i. destruct (Hout i) as [Hn1 Hn2]. set_solver.
    + eapply Forall_impl; [exact HD|]. intros y Hy. simpl. unfold upd. case_decide; eauto.
    + exists b2. split.
      * simpl. erewrite bind_Ret by exact Hr1. exact Hr2.
      * simpl. replace (Ds ∖ ({[x]} ∪ list_to_set secs)) with (Ds ∖ {[x]} ∖ list_to_set secs)
          by set_solver. by rewrite <- app_assoc in Hq2.
Qed.

(** *** The header *)

Lemma put_sectors_length i l d :
  (4 + 4 * (i + length l) <= length d)%nat -> length (put_sectors i l d) = length d.
Proof.
  revert i d. induction l as [|v l IH]; intros i d Hl; [done|]. simpl in *.
  rewrite IH; rewrite length_put32; lia.
Qed.

Lemma put_sectors_before i l d k :
  (4 + 4 * (i + length l) <= length d)%nat -> (k + 4 <= 4 + 4 * i)%nat ->
  get32 (put_sectors i l d) k = get32 d k.
Proof.
  revert i d. induction l as [|v l IH]; intros i d Hl Hk; [done|]. simpl in *.
  rewrite IH by (rewrite ?length_put32; lia). apply get32_put32_before; lia.
Qed.

Lemma put_sectors_get i l d j v :
  (4 + 4 * (i + length l) <= length d)%nat -> l !! j = Some v ->
  get32 (put_sectors i l d) (4 + 4 * (i + j)) = Some (u32 v).
Proof.
  revert i d j. induction l as [|x l IH]; intros i d j Hl Hj; [done|]. simpl in Hl.
  destruct j as [|j]; simpl in Hj.
  - injection Hj as ->. cbn [put_sectors]. rewrite Nat.add_0_r.
    rewrite put_sectors_before by (rewrite ?length_put32; lia). apply get32_put32. lia.
  - cbn [put_sectors]. replace (i + S j)%nat with (S i + j)%nat by lia.
    apply IH; [rewrite length_put32; lia|done].
Qed.

(** A header block [d] that lists the sectors [secs]. *)
Definition lists (d : list Z) (secs : list Z) : Prop :=
  length d = 512%nat /\ hdr_n d = Some (Z.of_nat (length secs)) /\
  forall i x, secs !! i = Some x -> hdr_sector d i = Some x.

Lemma s32_u32 z : s32 (u32 z) = s32 z.
Proof. unfold s32, u32. by rewrite Zplus_mod_idemp_l. Qed.

Lemma head_block_lists secs ss d :
  length d = 512%nat -> (length secs <= 10)%nat -> (length secs <= length ss)%nat ->
  (forall i x, secs !! i = Some x -> ss !! i = Some x) ->
  Forall (fun x => 0 <= x < 2 ^ 31) secs ->
  exists d', head_block (Z.of_nat (length secs)) ss d = Some d' /\ lists d' secs.
Proof.
  intros Hd Hn Hl Hss Hr. unfold head_block. rewrite Nat2Z.id.
  destruct (Nat.leb_spec (length secs) (length ss)); [|lia].
  rewrite take_prefix by done. eexists. split; [reflexivity|]. split_and!.
  - rewrite put_sectors_length; rewrite length_put32; lia.
  - unfold hdr_n. rewrite put_sectors_before by (rewrite ?length_put32; lia).
    rewrite get32_put32 by lia. simpl. rewrite s32_u32, s32_small; [done|lia].
  - intros i x Hx. unfold hdr_sector. rewrite (put_sectors_get 0 secs _ i x);
      [|rewrite length_put32; lia|done]. simpl. f_equal. rewrite s32_u32.
    apply s32_small. pose proof (Forall_lookup_1 _ _ _ _ Hr Hx). simpl in *. lia.
Qed.

(** Take a buffer that is clean and not handed out. *)
Lemma bread_quiet st sz bz n ss b D V Ds ws sec d :
  quiet b D V Ds ws -> D sec = Some d -> V sec = Some d -> (size Ds <= 9)%nat ->
  exists h b', onb (bread sec) (Lst st sz bz n ss b) = Ret h (Lst st sz bz n ss b') /\
    binv b' /\ held b' = {[sec := h]} /\ dirty b' = Ds /\ writes b' = ws /\
    (forall t, view b' t = V t) /\ (forall t, disk b' t = D t) /\
    onb (bdata h) (Lst st sz bz n ss b') = Ret d (Lst st sz bz n ss b').
Proof.
  intros [Hi Hh Hd Hw HD HV] HDs HVs Hsz.
  destruct (bread_law b sec) as (h & b1 & E1 & Hi1 & Hh1 & Hd1 & Hw1 & HV1 & HD1); [done|..].
  { by rewrite Hh. }
  { rewrite HD, HDs. by eexists. }
  { right. rewrite Hh, Hd, dom_empty_L, union_empty_l_L. unfold NBUF. lia. }
  rewrite Hh in Hh1. exists h, b1.
  split_and!; [by apply onb_run|done|exact Hh1|congruence|congruence|..].
  - intros t. by rewrite HV1.
  - intros t. by rewrite HD1.
  - apply onb_run. apply (bdata_law b1 sec h d); [done| |by rewrite HV1, HV].
    rewrite Hh1. apply lookup_insert_eq.
Qed.

(** Give back the only buffer handed out, unchanged. *)
Lemma brelse_quiet st sz bz n ss b D V Ds ws sec h :
  binv b -> held b = {[sec := h]} -> dirty b = Ds -> writes b = ws ->
  (forall t, view b t = V t) -> (forall t, disk b t = D t) ->
  sec ∈ Ds \/ V sec = D sec ->
  exists b', onb (brelse h) (Lst st sz bz n ss b) = Ret tt (Lst st sz bz n ss b') /\
    quiet b' D V Ds ws.
Proof.
  intros Hi Hh Hd Hw HV HD Hor.
  destruct (brelse_law b sec h) as (b1 & E1 & Hi1 & Hh1 & Hd1 & Hw1 & HV1 & HD1); [done|..].
  { rewrite Hh. apply lookup_insert_eq. }
  { by rewrite HV, HD, Hd. }
  exists b1. split; [by apply onb_run|].
  split; [done| |congruence|congruence|intros t; by rewrite HD1|intros t; by rewrite HV1].
  rewrite Hh1, Hh. by rewrite delete_singleton_eq.
Qed.

Lemma write_head_run st sz bz n ss b D V Ds ws d d' :
  quiet b D V Ds ws -> D st = Some d -> V st = Some d -> st ∉ Ds -> (size Ds <= 9)%nat ->
  head_block n ss d = Some d' -> length d' = 512%nat ->
  exists b', write_head (Lst st sz bz n ss b) = Ret tt (Lst st sz bz n ss b') /\
    quiet b' (upd D st d') (upd V st d') Ds (ws ++ [(st, d')]).
Proof.
  intros Hq HDs HVs Hnd Hsz Hhb Hlen. unfold write_head. mrun. cbn [start].
  destruct (bread_quiet st sz bz n ss b D V Ds ws st d Hq HDs HVs Hsz)
    as (h & b1 & E1 & Hi1 & Hh1 & Hd1 & Hw1 & HV1 & HD1 & E1').
  erewrite bind_Ret by exact E1. erewrite bind_Ret by exact E1'.
  erewrite bind_gets_opt by exact Hhb.
  assert (Hheld : held b1 !! st = Some h) by (rewrite Hh1; apply lookup_insert_eq).
  destruct (bset_law b1 st h d') as (b2 & E2 & Hi2 & Hh2 & Hd2 & Hw2 & HVs2 & HV2 & HD2); try done.
  erewrite bind_Ret by by apply onb_run.
  destruct (bwrite_law b2 st h d') as (b3 & E3 & Hi3 & Hh3 & Hd3 & Hw3 & HV3 & HDs3 & HD3);
    [done|congruence|done|].
  erewrite bind_Ret by by apply onb_run.
  apply (brelse_quiet st sz bz n ss b3 _ _ _ _ st h); try congruence.
  - rewrite Hd3, Hd2, Hd1. set_solver.
  - intros t. rewrite HV3. unfold upd. case_decide; [by subst|]. by rewrite HV2, HV1.
  - intros t. unfold upd. case_decide; [by subst|]. by rewrite HD3, HD2, HD1.
  - right. by rewrite !upd_same.
Qed.

Lemma read_sectors_run st sz bz n ss b d secs k :
  (forall i x, secs !! i = Some x -> hdr_sector d (k + i) = Some x) ->
  (k + length secs <= length ss)%nat ->
  mfor (seq k (length secs))
    (fun i => v <~ gets_opt (fun _ => hdr_sector d i);;; put_sector (Z.of_nat i) v)
    (Lst st sz bz n ss b) =
  Ret tt (Lst st sz bz n (take k ss ++ secs ++ drop (k + length secs) ss) b).
Proof.
  revert k ss. induction secs as [|x secs IH]; intros k ss Hh Hl; simpl.
  - unfold ret. rewrite Nat.add_0_r. by rewrite take_drop.
  - simpl in Hl. specialize (Hh 0%nat x eq_refl) as Hx. rewrite Nat.add_0_r in Hx.
    rewrite bind_assoc. erewrite bind_gets_opt by exact Hx.
    erewrite (bind_Ret (put_sector _ _) _ _ tt (Lst st sz bz n (<[k := x]> ss) b)).
    2: { unfold put_sector, modify_opt, wr. cbn [lh_sector]. rewrite decide_True by lia.
         by rewrite Nat2Z.id. }
    rewrite IH.
    + do 2 f_equal. rewrite drop_insert_lt by lia.
      replace (k + S (length secs))%nat with (S k + length secs)%nat by lia.
      rewrite (take_S_r _ _ x) by (apply list_lookup_insert_eq; lia).
      rewrite take_insert_ge by lia. by rewrite <- app_assoc.
    + intros i y Hy. specialize (Hh (S i) y Hy). by rewrite Nat.add_succ_r in Hh.
    + rewrite length_insert. lia.
Qed.

Lemma read_head_run st sz bz n ss b D V Ds ws d secs :
  quiet b D V Ds ws -> D st = Some d -> V st = Some d -> (size Ds <= 9)%nat ->
  lists d secs -> (length secs <= length ss)%nat ->
  exists b', read_head (Lst st sz bz n ss b) =
      Ret tt (Lst st sz bz (Z.of_nat (length secs)) (secs ++ drop (length secs) ss) b') /\
    quiet b' D V Ds ws.
Proof.
  intros Hq HDs HVs Hsz (_ & Hn & Hsec) Hl. unfold read_head. mrun. cbn [start].
  destruct (bread_quiet st sz bz n ss b D V Ds ws st d Hq HDs HVs Hsz)
    as (h & b1 & E1 & Hi1 & Hh1 & Hd1 & Hw1 & HV1 & HD1 & E1').
  erewrite bind_Ret by exact E1. erewrite bind_Ret by exact E1'.
  erewrite bind_gets_opt by exact Hn. mrun. cbn [set_lh_n]. rewrite Nat2Z.id.
  erewrite bind_Ret by (apply (read_sectors_run _ _ _ _ _ _ d secs 0); done).
  rewrite take_0. simpl. apply (brelse_quiet _ _ _ _ _ b1 _ _ _ _ st h); try done.
  right. congruence.
Qed.

(** ** Recovery *)

(** The log area of [D] holds the blocks [ds] for the sectors [secs], all of
    them outside the log area. *)
Record log_holds (st : Z) (D : Z -> option (list Z)) (secs : list Z) (ds : list (list Z)) : Prop := {
  lg_head : exists hd, D st = Some hd /\ lists hd secs;
  lg_len : length ds = length secs;
  lg_max : (length secs <= 10)%nat;
  lg_blocks : forall i d, ds !! i = Some d -> D (st + Z.of_nat i + 1) = Some d;
  lg_home : Forall (fun x => 0 <= x < st /\ is_Some (D x)) secs
}.

(** Recovery of the disk [D] leads to [T] on the sectors before the log. *)
Definition recovers_to (st : Z) (D T : Z -> option (list Z)) : Prop :=
  exists secs ds, log_holds st D secs ds /\
    forall t, t < st -> disk_after D (zip secs ds) t = T t.

Lemma log_sector_out st D secs ds i :
  log_holds st D secs ds -> st + Z.of_nat i + 1 ∉ secs.
Proof.
  intros [_ _ _ _ Hh] Hin. rewrite Forall_forall in Hh. destruct (Hh _ Hin) as [? _]. lia.
Qed.

(** Clearing the header. *)
Lemma clear_head hd ss :
  length hd = 512%nat ->
  exists d', head_block 0 ss hd = Some d' /\ lists d' [].
Proof.
  intros Hl. destruct (head_block_lists [] ss hd Hl) as (d' & Hd' & Hld');
    [simpl; lia|simpl; lia|done|by apply Forall_nil|].
  by exists d'.
Qed.

Lemma roomy_empty secs : roomy ∅ secs.
Proof. split; [|right]; rewrite size_empty; lia. Qed.

Lemma recover_run st sz bz n ss b D secs ds hd :
  quiet b D D ∅ [] -> log_holds st D secs ds -> length ss = 10%nat ->
  D st = Some hd -> lists hd secs ->
  exists ss' b' hd', recover_from_log (Lst st sz bz n ss b) = Ret tt (Lst st sz bz 0 ss' b') /\
    lists hd' [] /\ length ss' = 10%nat /\
    let ws := zip secs ds ++ [(st, hd')] in
    quiet b' (disk_after D ws) (disk_after D ws) ∅ ws.
Proof.
  intros Hq Hlog Hss Hst Hlists. pose proof Hlog as [_ Hlen Hmax Hblk Hhome].
  unfold recover_from_log.
  destruct (read_head_run st sz bz n ss b D D ∅ [] hd secs) as (b1 & E1 & Hq1);
    [done|done|done|rewrite size_empty; lia|done|lia|].
  erewrite bind_Ret by exact E1. set (ss1 := secs ++ drop (length secs) ss) in *.
  destruct (install_loop_run st sz bz (Z.of_nat (length secs)) ss1 secs ds 0 b1 D D ∅ [])
    as (b2 & E2 & Hq2); try done.
  { intros i x Hx. unfold rd. rewrite decide_True, Nat2Z.id by lia.
    simpl. by apply lookup_app_l_Some. }
  { intros i d Hd. simpl. by rewrite (Hblk i d Hd). }
  { intros i. split; [set_solver|by eapply log_sector_out]. }
  { eapply Forall_impl; [exact Hhome|]. by intros x [_ ?]. }
  { apply roomy_empty. }
  erewrite (bind_Ret install_trans).
  2: { unfold install_trans. mrun. cbn [lh_n]. rewrite Nat2Z.id. exact E2. }
  mrun. cbn [set_lh_n start lsize busy lh_n lh_sector bs].
  destruct (clear_head hd ss1) as (hd' & Hhb & Hl'); [by destruct Hlists|].
  assert (Hst2 : disk_after D (zip secs ds) st = Some hd).
  { rewrite disk_after_notin; [done|]. intros Hin. rewrite fst_zip in Hin by lia.
    rewrite Forall_forall in Hhome. destruct (Hhome _ Hin) as [? _]. lia. }
  replace (∅ ∖ list_to_set secs) with (∅ : gset Z) in Hq2 by set_solver.
  destruct (write_head_run st sz bz 0 ss1 b2 _ _ ∅ _ hd hd' Hq2 Hst2 Hst2)
    as (b3 & E3 & Hq3); [set_solver|rewrite size_empty; lia|done|by destruct Hl'|].
  exists ss1, b3, hd'. split_and!; [exact E3|done| |].
  - unfold ss1. rewrite length_app, length_drop. lia.
  - cbv zeta. rewrite disk_after_app. exact Hq3.
Qed.

(** Recovery does what the log says: from a freshly booted cache on a disk
    that recovers to [T], [recover_from_log] returns, the sectors before the
    log area are those of [T], and the log is empty. *)
Theorem recover_from_log_correct st sz bz n ss b D T :
  quiet b D D ∅ [] -> recovers_to st D T -> length ss = 10%nat ->
  exists s', recover_from_log (Lst st sz bz n ss b) = Ret tt s' /\
    (forall t, t < st -> disk (bs s') t = T t) /\
    (exists hd, disk (bs s') st = Some hd /\ lists hd []).
Proof.
  intros Hq (secs & ds & Hlog & HT) Hss. destruct (lg_head _ _ _ _ Hlog) as (hd & Hst & Hl).
  destruct (recover_run st sz bz n ss b D secs ds hd Hq Hlog Hss Hst Hl)
    as (ss' & b' & hd' & E & Hl' & _ & [_ _ _ _ HD _]).
  eexists. split; [exact E|]. cbn [bs]. split.
  - intros t Ht. rewrite HD, disk_after_app. simpl. rewrite upd_other by lia. by apply HT.
  - exists hd'. split; [|done]. rewrite HD, disk_after_app. simpl. apply upd_same.
Qed.

Lemma disk_after_keys D D' ws t :
  t ∈ ws.*1 -> disk_after D ws t = disk_after D' ws t.
Proof.
  revert D D'. induction ws as [|[s d] ws IH]; intros D D' Hin; [set_solver|]. simpl.
  destruct (decide (t ∈ ws.*1)) as [Ht|Ht].
  - by apply IH.
  - rewrite fmap_cons in Hin. apply elem_of_cons in Hin as [->|?]; [|done].
    change (disk_after (upd D s d) ws s = disk_after (upd D' s d) ws s).
    by rewrite !disk_after_notin, !upd_same.
Qed.

(** Replaying the writes after some of them have been done. *)
Lemma disk_after_agree D D' ws t : D t = D' t -> disk_after D ws t = disk_after D' ws t.
Proof.
  intros E. destruct (decide (t ∈ ws.*1)) as [Ht|Ht]; [by apply disk_after_keys|by rewrite !disk_after_notin].
Qed.

Lemma disk_after_replay D ws k t :
  disk_after (disk_after D (take k ws)) ws t = disk_after D ws t.
Proof.
  destruct (decide (t ∈ ws.*1)) as [Ht|Ht]; [by apply disk_after_keys|].
  rewrite !disk_after_notin; [done|done| |done].
  rewrite fmap_take. intros Hin. apply Ht. eapply elem_of_take in Hin as (i & Hi & _).
  by eapply list_elem_of_lookup_2.
Qed.

Lemma disk_after_is_Some D ws t : is_Some (D t) -> is_Some (disk_after D ws t).
Proof.
  revert D. induction ws as [|[s d] ws IH]; intros D HD; [done|]. simpl. apply IH.
  unfold upd. case_decide; eauto.
Qed.

(** Writing home some of the logged blocks keeps the log. *)
Lemma log_holds_install st D secs ds k :
  log_holds st D secs ds -> log_holds st (disk_after D (take k (zip secs ds))) secs ds.
Proof.
  intros Hlog. pose proof Hlog as [(hd & Hst & Hl) Hlen Hmax Hblk Hhome].
  assert (Hout : forall t, st <= t -> disk_after D (take k (zip secs ds)) t = D t).
  { intros t Ht. apply disk_after_notin. rewrite fmap_take, fst_zip by lia.
    intros (i & Hi & _)%elem_of_take. apply list_elem_of_lookup_2 in Hi.
    rewrite Forall_forall in Hhome. destruct (Hhome _ Hi) as [? _]. lia. }
  split; [|done|done|..].
  - exists hd. by rewrite Hout by lia.
  - intros i d Hd. rewrite Hout by lia. by apply Hblk.
  - eapply Forall_impl; [exact Hhome|]. intros x [? ?]. simpl. split; [done|].
    by apply disk_after_is_Some.
Qed.

(** An empty log recovers to the disk itself. *)
Lemma recovers_empty st D T hd :
  D st = Some hd -> lists hd [] -> (forall t, t < st -> D t = T t) -> recovers_to st D T.
Proof.
  intros Hst Hl HT. exists [], []. split; [|done].
  split; [by exists hd|done|simpl; lia|done|by apply Forall_nil].
Qed.

(** A crash of the recovery. *)
Lemma recovery_prefix st D T secs ds hd' k :
  log_holds st D secs ds -> (forall t, t < st -> disk_after D (zip secs ds) t = T t) ->
  lists hd' [] ->
  recovers_to st (disk_after D (take k (zip secs ds ++ [(st, hd')]))) T.
Proof.
  intros Hlog HT Hl. rewrite take_app.
  destruct (decide (k <= length (zip secs ds))%nat) as [Hk|Hk].
  - replace (k - length (zip secs ds))%nat with 0%nat by lia. simpl. rewrite app_nil_r.
    exists secs, ds. split; [by apply log_holds_install|].
    intros t Ht. rewrite disk_after_replay. by apply HT.
  - rewrite take_ge by lia. destruct (k - length (zip secs ds))%nat eqn:E; [lia|].
    simpl. rewrite take_nil, disk_after_app. simpl.
    apply (recovers_empty _ _ _ hd'); [apply upd_same|done|].
    intros t Ht. rewrite upd_other by lia. by apply HT.
Qed.

(** C4: recovery may itself crash: after any prefix of the disk writes of
    [recover_from_log], the disk still recovers to the same contents. *)
Theorem recovery_crash_safe st sz bz n ss b D T k :
  quiet b D D ∅ [] -> recovers_to st D T -> length ss = 10%nat ->
  exists s', recover_from_log (Lst st sz bz n ss b) = Ret tt s' /\
    recovers_to st (disk_after D (take k (writes (bs s')))) T.
Proof.
  intros Hq (secs & ds & Hlog & HT) Hss. destruct (lg_head _ _ _ _ Hlog) as (hd & Hst & Hl).
  destruct (recover_run st sz bz n ss b D secs ds hd Hq Hlog Hss Hst Hl)
    as (ss' & b' & hd' & E & Hl' & _ & [_ _ _ Hw _ _]).
  eexists. split; [exact E|]. cbn [bs]. rewrite Hw. by apply recovery_prefix.
Qed.

End Run.
