(* ===== verification/LogTxn.v ===== *)
(** * Transactions of the redo log (log.c)

    A transaction is begun, some blocks are changed through the log and the
    transaction is committed; the theorem is that a crash after any number of
    its disk writes leaves a disk that recovers to the contents before or after
    the whole transaction. *)
From S2P Require Import Prelude Bytes BlockCache Bio Log.

Section Trans.
Context {B H : Type} `{BlockCacheLaws B H}.
Implicit Types b : B.

(** ** Transactions *)

Lemma log_write_run st sz n ss b h sec d i :
  binv b -> held b !! sec = Some h -> view b sec = Some d ->
  i = log_slot n ss sec -> 0 <= n < 10 -> n < sz - 1 -> (i < length ss)%nat ->
  is_Some (disk b (st + Z.of_nat i + 1)) -> held b !! (st + Z.of_nat i + 1) = None ->
  st + Z.of_nat i + 1 ∉ dirty b -> (size (dom (held b) ∪ dirty b) < NBUF)%nat ->
  exists b', log_write h (Lst st sz true n ss b) =
      Ret tt (Lst st sz true (if Z.of_nat i =? n then n + 1 else n) (<[i := sec]> ss) b') /\
    binv b' /\ held b' = held b /\ dirty b' = {[sec]} ∪ dirty b /\
    writes b' = writes b ++ [(st + Z.of_nat i + 1, d)] /\
    (forall t, view b' t = upd (view b) (st + Z.of_nat i + 1) d t) /\
    (forall t, disk b' t = upd (disk b) (st + Z.of_nat i + 1) d t).
Proof.
  intros Hi Hheld HV Hslot Hn Hsz Hil HDl Hlsn Hnd Hroom. set (ls := st + Z.of_nat i + 1) in *.
  assert (Hlen : length d = 512%nat) by by eapply view_length.
  assert (Hne : ls <> sec) by (intros E; congruence).
  unfold log_write. mrun. cbn [lh_n lsize]. unfold LOGSIZE.
  replace ((10 <=? n) || (sz - 1 <=? n)) with false by lia. mrun. cbn [busy negb].
  erewrite bind_Ret by (apply onb_run; by apply bsector_law). mrun. cbn [lh_sector].
  cbv zeta. rewrite <- Hslot.
  erewrite (bind_Ret (put_sector _ _) _ _ tt (Lst st sz true n (<[i := sec]> ss) b)).
  2: { unfold put_sector, modify_opt, wr. cbn [lh_sector]. rewrite decide_True by lia.
       by rewrite Nat2Z.id. }
  mrun. cbn [start]. fold ls.
  destruct (bread_law b ls) as (lb & b1 & E1 & Hi1 & Hh1 & Hd1 & Hw1 & HV1 & HD1); [done|..].
  { done. }
  { done. }
  { by right. }
  assert (Hheld1 : held b1 !! sec = Some h) by (rewrite Hh1, lookup_insert_ne; done).
  erewrite bind_Ret by by apply onb_run.
  erewrite bind_Ret by (apply onb_run; eapply (bdata_law b1 sec h d); [done|done|by rewrite HV1]).
  destruct (bset_law b1 ls lb d) as (b2 & E2 & Hi2 & Hh2 & Hd2 & Hw2 & HVs2 & HV2 & HD2); [done| |done|].
  { rewrite Hh1. apply lookup_insert_eq. }
  erewrite bind_Ret by by apply onb_run.
  destruct (bwrite_law b2 ls lb d) as (b3 & E3 & Hi3 & Hh3 & Hd3 & Hw3 & HV3 & HDs3 & HD3);
    [done| |done|].
  { rewrite Hh2, Hh1. apply lookup_insert_eq. }
  erewrite bind_Ret by by apply onb_run.
  destruct (brelse_law b3 ls lb) as (b4 & E4 & Hi4 & Hh4 & Hd4 & Hw4 & HV4 & HD4); [done|..].
  { rewrite Hh3, Hh2, Hh1. apply lookup_insert_eq. }
  { right. by rewrite HV3, HVs2, HDs3. }
  erewrite bind_Ret by by apply onb_run.
  assert (Hh4' : held b4 = held b) by (rewrite Hh4, Hh3, Hh2, Hh1; by rewrite delete_insert_id).
  destruct (bmark_law b4 sec h) as (b5 & E5 & Hi5 & Hh5 & Hd5 & Hw5 & HV5 & HD5); [done|..].
  { by rewrite Hh4'. }
  exists b5. split_and!.
  - unfold when. destruct (Z.of_nat i =? n); mrun; cbn [set_lh_n start lsize busy lh_n lh_sector bs];
      by apply onb_run.
  - done.
  - congruence.
  - rewrite Hd5, Hd4, Hd3, Hd2, Hd1. set_solver.
  - by rewrite Hw5, Hw4, Hw3, Hw2, Hw1.
  - intros t. rewrite HV5, HV4, HV3. unfold upd. case_decide; [by subst|]. by rewrite HV2, HV1.
  - intros t. rewrite HD5, HD4. unfold upd. case_decide; [by subst|]. by rewrite HD3, HD2, HD1.
Qed.

(** The use of the log that log.c prescribes: read a block, change it, log it,
    release it. *)
Definition update_block (u : Z * (list Z -> list Z)) : M (lst B) unit :=
  h <~ onb (bread u.1);;;
  d <~ onb (bdata h);;;
  onb (bset h (u.2 d));;;
  log_write h;;;
  onb (brelse h).

Definition transaction (us : list (Z * (list Z -> list Z))) : M (lst B) unit :=
  begin_trans;;;
  mfor us update_block;;;
  commit_trans.

(** What the updates do to the disk. *)
Definition apply_update (D : Z -> option (list Z)) (u : Z * (list Z -> list Z)) :
    Z -> option (list Z) :=
  fun t => if decide (t = u.1) then u.2 <$> D t else D t.
Definition apply_updates (D : Z -> option (list Z)) (us : list (Z * (list Z -> list Z))) :=
  fold_left apply_update us D.

(** A transaction in progress on a disk that was [D0] when it began, after the
    disk writes [W0]: the blocks [ds] are logged for [secs]; a reader sees [T]. *)
Record txn (st sz : Z) (D0 : Z -> option (list Z)) (W0 : list (Z * list Z)) (T : Z -> option (list Z)) (secs : list Z) (ds : list (list Z))
    (s : lst B) : Prop := {
  tx_state : exists ss b D V ws,
    s = Lst st sz true (Z.of_nat (length secs)) ss b /\ length ss = 10%nat /\
    (forall i x, secs !! i = Some x -> ss !! i = Some x) /\
    quiet b D V (list_to_set secs) (W0 ++ ws) /\
    (forall t, t <= st -> D t = D0 t) /\ (forall t, is_Some (D0 t) -> is_Some (D t)) /\
    (forall t, t < st -> V t = T t) /\ (forall t, st <= t -> V t = D t) /\
    (forall i d, ds !! i = Some d -> D (st + Z.of_nat i + 1) = Some d) /\
    Forall (fun w => st < w.1) ws /\ (forall t, D t = disk_after D0 ws t);
  tx_len : length ds = length secs;
  tx_nodup : NoDup secs;
  tx_home : Forall (fun x => 0 <= x < st /\ is_Some (D0 x)) secs;
  tx_logged : forall i x d, secs !! i = Some x -> ds !! i = Some d -> T x = Some d;
  tx_old : forall t, t ∉ secs -> T t = D0 t
}.

Lemma log_slot_cases n ss secs sec :
  n = Z.of_nat (length secs) -> (length secs <= length ss)%nat ->
  (forall i x, secs !! i = Some x -> ss !! i = Some x) ->
  (sec ∈ secs /\ secs !! log_slot n ss sec = Some sec) \/
  (sec ∉ secs /\ log_slot n ss sec = length secs).
Proof.
  intros -> Hl Hss. unfold log_slot. rewrite Nat2Z.id.
  rewrite take_prefix by done.
  destruct (find_first _ secs) as [i|] eqn:Hf.
  - left. apply find_first_Some in Hf as [(x & Hx & E%Z.eqb_eq) _]. subst x.
    split; [by eapply list_elem_of_lookup_2|done].
  - right. split; [|done]. intros Hin. pose proof (proj1 (find_first_None _ _) Hf sec Hin) as Hno.
    simpl in Hno. lia.
Qed.

Lemma update_block_bufs st sz n ss b D V Ds ws sec f i d :
  quiet b D V Ds ws -> V sec = Some d -> length (f d) = 512%nat -> is_Some (D sec) ->
  i = log_slot n ss sec -> 0 <= n < 10 -> n < sz - 1 -> (i < length ss)%nat ->
  is_Some (D (st + Z.of_nat i + 1)) -> st + Z.of_nat i + 1 <> sec ->
  st + Z.of_nat i + 1 ∉ Ds -> (size ({[sec]} ∪ Ds) < NBUF)%nat ->
  exists b', update_block (sec, f) (Lst st sz true n ss b) =
      Ret tt (Lst st sz true (if Z.of_nat i =? n then n + 1 else n) (<[i := sec]> ss) b') /\
    quiet b' (upd D (st + Z.of_nat i + 1) (f d))
      (upd (upd V sec (f d)) (st + Z.of_nat i + 1) (f d))
      ({[sec]} ∪ Ds) (ws ++ [(st + Z.of_nat i + 1, f d)]).
Proof.
  intros [Hi Hh Hd Hw HD HV] HVs Hlen HDs Hslot Hn Hsz Hil HDl Hne Hnd Hroom.
  set (ls := st + Z.of_nat i + 1) in *. unfold update_block. simpl.
  destruct (bread_law b sec) as (h & b1 & E1 & Hi1 & Hh1 & Hd1 & Hw1 & HV1 & HD1); [done|..].
  { by rewrite Hh. }
  { by rewrite HD. }
  { right. rewrite Hh, Hd, dom_empty_L, union_empty_l_L.
    pose proof (subseteq_size Ds ({[sec]} ∪ Ds) ltac:(set_solver)). lia. }
  rewrite Hh in Hh1. assert (Hheld : held b1 !! sec = Some h) by (rewrite Hh1; apply lookup_insert_eq).
  erewrite bind_Ret by by apply onb_run.
  erewrite bind_Ret by (apply onb_run; apply (bdata_law b1 sec h d); [done|done|by rewrite HV1, HV]).
  destruct (bset_law b1 sec h (f d)) as (b2 & E2 & Hi2 & Hh2 & Hd2 & Hw2 & HVs2 & HV2 & HD2); try done.
  erewrite bind_Ret by by apply onb_run.
  destruct (log_write_run st sz n ss b2 h sec (f d) i)
    as (b3 & E3 & Hi3 & Hh3 & Hd3 & Hw3 & HV3 & HD3); try done.
  { by rewrite Hh2. }
  { fold ls. by rewrite HD2, HD1, HD. }
  { fold ls. rewrite Hh2, Hh1. by rewrite lookup_insert_ne, lookup_empty. }
  { fold ls. by rewrite Hd2, Hd1, Hd. }
  { rewrite Hh2, Hh1, Hd2, Hd1, Hd, dom_insert_L, dom_empty_L, union_empty_r_L. done. }
  rewrite Hh2, Hh1 in Hh3. erewrite bind_Ret by exact E3. fold ls in HV3, HD3, Hw3.
  destruct (brelse_law b3 sec h) as (b4 & E4 & Hi4 & Hh4 & Hd4 & Hw4 & HV4 & HD4); [done|..].
  { rewrite Hh3. apply lookup_insert_eq. }
  { left. rewrite Hd3. set_solver. }
  exists b4. split; [by apply onb_run|]. split.
  - done.
  - rewrite Hh4, Hh3. apply delete_insert_id, lookup_empty.
  - by rewrite Hd4, Hd3, Hd2, Hd1, Hd.
  - by rewrite Hw4, Hw3, Hw2, Hw1, Hw.
  - intros t. rewrite HD4, HD3. unfold upd. case_decide; [done|]. by rewrite HD2, HD1, HD.
  - intros t. rewrite HV4, HV3. unfold upd. case_decide; [done|].
    case_decide; [by subst|]. by rewrite HV2, HV1, HV.
Qed.

(** The log area is on the disk and has room for ten blocks. *)
Definition geometry (st sz : Z) (D0 : Z -> option (list Z)) : Prop :=
  0 <= st < 2 ^ 31 /\ 11 <= sz /\
  forall i, (i < 10)%nat -> is_Some (D0 (st + Z.of_nat i + 1)).

Lemma size_list_to_set_le (l : list Z) : (size (list_to_set l : gset Z) <= length l)%nat.
Proof.
  induction l as [|x l IH]; [by rewrite list_to_set_nil, size_empty|].
  rewrite list_to_set_cons. pose proof (size_add_le x (list_to_set l)). simpl. lia.
Qed.

Lemma apply_update_same T sec f d :
  T sec = Some d -> apply_update T (sec, f) sec = Some (f d).
Proof. intros E. unfold apply_update. simpl. by rewrite decide_True, E. Qed.
Lemma apply_update_other T sec f t : t <> sec -> apply_update T (sec, f) t = T t.
Proof. intros E. unfold apply_update. simpl. by rewrite decide_False. Qed.

(** The logged sectors and blocks after logging [x] at slot [i]. *)
Lemma slot_update {A} (secs : list Z) (ds : list A) sec i (x : A) :
  length ds = length secs -> NoDup secs ->
  (sec ∈ secs /\ secs !! i = Some sec) \/ (sec ∉ secs /\ i = length secs) ->
  let secs' := if decide (sec ∈ secs) then secs else secs ++ [sec] in
  let ds' := if decide (sec ∈ secs) then <[i := x]> ds else ds ++ [x] in
  length ds' = length secs' /\ NoDup secs' /\ secs' !! i = Some sec /\ ds' !! i = Some x /\
  (if Z.of_nat i =? Z.of_nat (length secs) then Z.of_nat (length secs) + 1
   else Z.of_nat (length secs)) = Z.of_nat (length secs') /\
  (forall j y, j <> i -> secs' !! j = Some y -> secs !! j = Some y /\ y <> sec) /\
  (forall j y, j <> i -> ds' !! j = Some y -> ds !! j = Some y).
Proof.
  intros Hlen Hnd Hcase. cbv zeta. destruct Hcase as [[Hin Hi]|[Hin ->]].
  - rewrite !decide_True by done. pose proof (lookup_lt_Some _ _ _ Hi) as Hlt.
    split_and!; try done.
    + by rewrite length_insert.
    + apply list_lookup_insert_eq. lia.
    + destruct (Z.eqb_spec (Z.of_nat i) (Z.of_nat (length secs))); lia.
    + intros j y Hj Hy. split; [done|]. intros ->. apply Hj.
      by eapply NoDup_lookup.
    + intros j y Hj. by rewrite list_lookup_insert_ne.
  - rewrite !decide_False by done. split_and!.
    + rewrite !length_app. simpl. lia.
    + apply NoDup_app. split_and!; [done| |apply NoDup_singleton]. set_solver.
    + by apply list_lookup_middle.
    + by apply list_lookup_middle.
    + rewrite Z.eqb_refl, length_app. simpl. lia.
    + intros j y Hj [[? Hy]|[? ?]]%lookup_snoc_Some; [|lia]. split; [done|].
      intros ->. apply Hin. by eapply list_elem_of_lookup_2.
    + intros j y Hj [[? Hy]|[? ?]]%lookup_snoc_Some; [done|lia].
Qed.

Lemma txn_view st sz D0 W0 T secs ds s sec :
  txn st sz D0 W0 T secs ds s -> 0 <= sec < st -> is_Some (D0 sec) ->
  exists d, T sec = Some d /\ length d = 512%nat.
Proof.
  intros [(ss & b & D & V & ws & _ & _ & _ & [Hi _ _ _ HD HV] & _ & HDsome & HVT & _) _ _ _ _ _]
    Hsec HDs.
  assert (is_Some (view b sec)) as [d Hd] by (apply disk_view; [done|rewrite HD; auto]).
  exists d. split; [by rewrite <- HVT, <- HV by lia|by eapply view_length].
Qed.

Lemma update_block_txn st sz D0 W0 T secs ds s sec f :
  txn st sz D0 W0 T secs ds s -> geometry st sz D0 -> (length secs <= 9)%nat ->
  0 <= sec < st -> is_Some (D0 sec) ->
  (forall d, length d = 512%nat -> length (f d) = 512%nat) ->
  sec ∈ secs \/ (length secs <= 8)%nat ->
  exists s' ds', update_block (sec, f) s = Ret tt s' /\
    txn st sz D0 W0 (apply_update T (sec, f)) (if decide (sec ∈ secs) then secs else secs ++ [sec])
      ds' s'.
Proof.
  intros Htx (Hst & Hsz & Hlog) Hl9 Hsec HDs Hf Hroom.
  destruct (txn_view _ _ _ _ _ _ _ _ sec Htx Hsec HDs) as (d & HTd & Hd512).
  destruct Htx as [(ss & b & D & V & ws & -> & Hss & Hpre & Hq & HDold & HDsome & HVT & HVlog &
    Hblk & Hws & HDws) Hlen Hnd Hhome Hlogd Hold].
  pose proof (log_slot_cases (Z.of_nat (length secs)) ss secs sec eq_refl ltac:(lia) Hpre) as Hcase.
  set (i := log_slot (Z.of_nat (length secs)) ss sec) in *.
  assert (Hi10 : (i < 10)%nat).
  { destruct Hcase as [[_ Hi%lookup_lt_Some]|[Hn Hi]]; [lia|]. destruct Hroom; [done|lia]. }
  destruct (update_block_bufs st sz (Z.of_nat (length secs)) ss b D V (list_to_set secs) (W0 ++ ws) sec f i d)
    as (b' & E & Hq'); try done; try lia.
  { by rewrite HVT by lia. }
  { by apply Hf. }
  { by apply HDsome. }
  { by apply HDsome, Hlog. }
  { rewrite elem_of_list_to_set. intros Hin. rewrite Forall_forall in Hhome.
    destruct (Hhome _ Hin) as [? _]. lia. }
  { pose proof (size_list_to_set_le secs). unfold NBUF. destruct Hroom as [Hin|?].
    - replace ({[sec]} ∪ list_to_set secs) with (list_to_set secs : gset Z) by set_solver. lia.
    - pose proof (size_add_le sec (list_to_set secs)). lia. }
  pose proof (slot_update secs ds sec i (f d) Hlen Hnd Hcase) as
    (Hlen' & Hnd' & Hsi & Hdi & Hn' & Hsj & Hdj). cbv zeta in *.
  set (secs' := if decide (sec ∈ secs) then secs else secs ++ [sec]) in *.
  set (ds' := if decide (sec ∈ secs) then <[i := f d]> ds else ds ++ [f d]) in *.
  set (ls := st + Z.of_nat i + 1) in *. rewrite Hn' in E.
  assert (Hset : {[sec]} ∪ list_to_set secs = (list_to_set secs' : gset Z)).
  { unfold secs'. case_decide; set_solver. }
  rewrite Hset, <- app_assoc in Hq'. eexists _, ds'. split; [exact E|]. constructor; try done.
  - eexists _, b', _, _, _. split_and!; [reflexivity|by rewrite length_insert| |exact Hq'|..].
    + intros j x Hx. destruct (decide (j = i)) as [->|Hj].
      * rewrite list_lookup_insert_eq by lia. congruence.
      * rewrite list_lookup_insert_ne by done. apply Hpre. by apply Hsj.
    + intros t Ht. rewrite upd_other by lia. by apply HDold.
    + intros t Ht. unfold upd. case_decide; [by eexists|by apply HDsome].
    + intros t Ht. rewrite upd_other by lia. unfold upd, apply_update. simpl.
      case_decide as Et; [by subst; rewrite HTd|by apply HVT].
    + intros t Ht. unfold upd. case_decide; [done|].
      rewrite decide_False by lia. by apply HVlog.
    + intros j e Hj. destruct (decide (j = i)) as [->|Hji].
      * fold ls. rewrite upd_same. congruence.
      * rewrite upd_other by lia. by apply Hblk, Hdj.
    + apply Forall_app. split; [done|]. apply Forall_singleton. simpl. lia.
    + intros t. rewrite disk_after_app. simpl. unfold upd. case_decide; [done|by apply HDws].
  - unfold secs'. case_decide; [done|]. apply Forall_app. split; [done|]. by apply Forall_singleton.
  - intros j x e Hx He. destruct (decide (j = i)) as [->|Hji].
    + assert (x = sec) as -> by congruence. assert (e = f d) as -> by congruence.
      by apply apply_update_same.
    + destruct (Hsj j x Hji Hx) as [Hx' Hne]. rewrite apply_update_other by done.
      by eapply Hlogd; [|apply Hdj].
  - intros t Ht. unfold secs' in Ht. rewrite apply_update_other.
    + apply Hold. case_decide; set_solver.
    + intros ->. case_decide; set_solver.
Qed.

(** Updates of blocks outside the log area that keep the block size. *)
Definition good_update (st : Z) (D0 : Z -> option (list Z)) (u : Z * (list Z -> list Z)) : Prop :=
  0 <= u.1 < st /\ is_Some (D0 u.1) /\ forall d, length d = 512%nat -> length (u.2 d) = 512%nat.

Lemma size_NoDup (l : list Z) : NoDup l -> size (list_to_set l : gset Z) = length l.
Proof. apply size_list_to_set. Qed.

Lemma updates_txn st sz D0 W0 us T secs ds s :
  txn st sz D0 W0 T secs ds s -> geometry st sz D0 -> Forall (good_update st D0) us ->
  (size (list_to_set secs ∪ list_to_set us.*1 : gset Z) <= 9)%nat ->
  exists s' secs' ds', mfor us update_block s = Ret tt s' /\
    txn st sz D0 W0 (apply_updates T us) secs' ds' s' /\ (length secs' <= 9)%nat.
Proof.
  revert T secs ds s. induction us as [|[sec f] us IH]; intros T secs ds s Htx Hg Hall Hsz.
  - exists s, secs, ds. split_and!; [done|done|].
    rewrite <- size_NoDup by apply Htx.
    etrans; [apply gset_size_le|exact Hsz]. set_solver.
  - apply Forall_cons in Hall as [(Hsec & HDs & Hf) Hall]. simpl in Hsec, HDs, Hf.
    rewrite fmap_cons, list_to_set_cons in Hsz. simpl in Hsz.
    assert (Hl9 : (length secs <= 9)%nat).
    { rewrite <- size_NoDup by apply Htx. etrans; [apply gset_size_le|exact Hsz]. set_solver. }
    destruct (update_block_txn st sz D0 W0 T secs ds s sec f) as (s1 & ds1 & E1 & Htx1); try done.
    { destruct (decide (sec ∈ secs)) as [?|Hn]; [by left|right].
      assert (size ({[sec]} ∪ list_to_set secs : gset Z) = S (length secs)) as Hsize.
      { rewrite size_union, size_singleton, size_NoDup by (set_solver || apply Htx). done. }
      assert (S (length secs) <= 9)%nat; [|lia]. rewrite <- Hsize.
      etrans; [apply gset_size_le|exact Hsz]. set_solver. }
    destruct (IH _ _ _ _ Htx1 Hg Hall) as (s2 & secs2 & ds2 & E2 & Htx2 & Hl2).
    { etrans; [apply gset_size_le|exact Hsz]. case_decide; set_solver. }
    exists s2, secs2, ds2. split_and!; [|done|done].
    simpl. erewrite bind_Ret by exact E1. exact E2.
Qed.

Lemma disk_after_zip D secs ds i x d :
  NoDup secs -> length ds = length secs -> secs !! i = Some x -> ds !! i = Some d ->
  disk_after D (zip secs ds) x = Some d.
Proof.
  revert D ds i. induction secs as [|y secs IH]; intros D ds i Hnd Hlen Hx Hd; [done|].
  destruct ds as [|e ds]; [done|]. apply NoDup_cons in Hnd as [Hy Hnd]. simpl in *.
  destruct i as [|i]; simpl in *.
  - injection Hx as ->. injection Hd as ->.
    change (disk_after (upd D x d) (zip secs ds) x = Some d).
    rewrite disk_after_notin, upd_same; [done|]. rewrite fst_zip by lia. done.
  - by eapply IH; eauto.
Qed.

(** The committed blocks give what the readers saw. *)
Lemma txn_installs st sz D0 W0 T secs ds s D :
  txn st sz D0 W0 T secs ds s -> (forall t, t < st -> D t = D0 t) ->
  forall t, t < st -> disk_after D (zip secs ds) t = T t.
Proof.
  intros [_ Hlen Hnd Hhome Hlogd Hold] HD t Ht. destruct (decide (t ∈ secs)) as [Hin|Hin].
  - apply list_elem_of_lookup_1 in Hin as [i Hi].
    destruct (lookup_lt_is_Some_2 ds i) as [d Hd].
    { rewrite Hlen. by eapply lookup_lt_Some. }
    rewrite (disk_after_zip _ _ _ i t d) by done. symmetry. by eapply Hlogd.
  - rewrite disk_after_notin by (rewrite fst_zip by lia; done).
    rewrite HD by done. symmetry. by apply Hold.
Qed.

(** Committing a non-empty transaction. *)
Lemma commit_run st sz D0 W0 T secs ds s hd0 :
  txn st sz D0 W0 T secs ds s -> geometry st sz D0 -> (0 < length secs <= 9)%nat ->
  D0 st = Some hd0 -> length hd0 = 512%nat ->
  exists ws hd hd' ss' b' D', let ws' := ws ++ [(st, hd)] ++ zip secs ds ++ [(st, hd')] in
    commit_trans s = Ret tt (Lst st sz false 0 ss' b') /\ length ss' = 10%nat /\
    Forall (fun w => st < w.1) ws /\ lists hd secs /\ lists hd' [] /\
    log_holds st (upd (disk_after D0 ws) st hd) secs ds /\
    quiet b' D' D' ∅ (W0 ++ ws') /\ (forall t, D' t = disk_after D0 ws' t).
Proof.
  intros Htx (Hst & Hsz & Hlog) Hl Hhd Hhdl.
  destruct Htx as [(ss & b & D & V & ws & -> & Hss & Hpre & Hq & HDold & HDsome & HVT & HVlog &
    Hblk & Hws & HDws) Hlen Hnd Hhome Hlogd Hold].
  assert (Hrange : Forall (fun x => 0 <= x < 2 ^ 31) secs).
  { eapply Forall_impl; [exact Hhome|]. intros x [? _]. simpl. lia. }
  destruct (head_block_lists secs ss hd0) as (hd & Hhb & Hlists); [done|lia|lia|done|done|].
  assert (Hsize : (size (list_to_set secs : gset Z) <= 9)%nat)
    by (pose proof (size_list_to_set_le secs); lia).
  assert (Hstout : forall t, st <= t -> t ∉ secs).
  { intros t Ht Hin. rewrite Forall_forall in Hhome. destruct (Hhome _ Hin) as [? _]. lia. }
  assert (HDst : D st = Some hd0) by by rewrite HDold by lia.
  destruct (write_head_run st sz true (Z.of_nat (length secs)) ss b D V (list_to_set secs) (W0 ++ ws) hd0 hd)
    as (b1 & E1 & Hq1); try done.
  { by rewrite HVlog by lia. }
  { rewrite elem_of_list_to_set. apply Hstout. lia. }
  { by destruct Hlists. }
  assert (Hlogh : log_holds st (upd D st hd) secs ds).
  { split; [exists hd; by rewrite upd_same|done|lia|..].
    - intros i d Hd. rewrite upd_other by lia. by apply Hblk.
    - eapply Forall_impl; [exact Hhome|]. intros x [? Hx]. simpl. split; [done|].
      unfold upd. case_decide; [by eexists|by apply HDsome]. }
  destruct (install_loop_run st sz true (Z.of_nat (length secs)) ss secs ds 0 b1 (upd D st hd)
    (upd V st hd) (list_to_set secs) ((W0 ++ ws) ++ [(st, hd)])) as (b2 & E2 & Hq2); try done.
  { intros i x Hx. unfold rd. rewrite decide_True, Nat2Z.id by lia. simpl. by apply Hpre. }
  { intros i d Hd. simpl. rewrite !upd_other by lia. rewrite HVlog by lia.
    split; by apply Hblk. }
  { intros i. rewrite elem_of_list_to_set. split; apply Hstout; lia. }
  { eapply Forall_impl; [apply (lg_home _ _ _ _ Hlogh)|]. by intros x [_ ?]. }
  { split; [done|left]. split; [done|]. apply Forall_forall. intros x Hx.
    by rewrite elem_of_list_to_set. }
  replace (list_to_set secs ∖ list_to_set secs) with (∅ : gset Z) in Hq2 by set_solver.
  destruct (clear_head hd ss) as (hd' & Hhb' & Hl'); [by destruct Hlists|].
  assert (Hst2 : forall E, disk_after (upd E st hd) (zip secs ds) st = Some hd).
  { intros E0. rewrite disk_after_notin; [apply upd_same|]. rewrite fst_zip by lia.
    apply Hstout. lia. }
  destruct (write_head_run st sz true 0 ss b2 _ _ ∅ _ hd hd' Hq2 (Hst2 D) (Hst2 V))
    as (b3 & E3 & Hq3); [set_solver|rewrite size_empty; lia|done|by destruct Hl'|].
  set (D' := upd (disk_after (upd D st hd) (zip secs ds)) st hd') in Hq3.
  exists ws, hd, hd', ss, b3, D'. cbv zeta.
  assert (HD' : forall t, D' t = disk_after D0 (ws ++ [(st, hd)] ++ zip secs ds ++ [(st, hd')]) t).
  { intros t. unfold D'. rewrite !disk_after_app. cbn [disk_after fold_left fst snd]. unfold upd at 1 3. case_decide; [done|].
    apply disk_after_agree. unfold upd. case_decide; [done|]. apply HDws. }
  assert (HVD : forall t, upd (disk_after (upd V st hd) (zip secs ds)) st hd' t = D' t).
  { intros t. unfold D', upd at 1 3. case_decide; [done|]. destruct (decide (t ∈ secs)) as [Hin|Hin].
    - apply disk_after_keys. by rewrite fst_zip by lia.
    - apply disk_after_agree. unfold upd. case_decide; [done|]. destruct (decide (t < st)); [|apply HVlog; lia].
      rewrite HVT, HDold by lia. by apply Hold. }
  split_and!; try done.
  - unfold commit_trans. mrun. cbn [lh_n]. unfold when.
    replace (0 <? Z.of_nat (length secs)) with true by lia. rewrite !bind_assoc.
    erewrite bind_Ret by exact E1. rewrite bind_assoc.
    erewrite (bind_Ret install_trans).
    2: { unfold install_trans. mrun. cbn [lh_n]. rewrite Nat2Z.id. exact E2. }
    mrun. cbn [set_lh_n start lsize busy lh_n lh_sector bs].
    erewrite bind_Ret by exact E3. done.
  - destruct Hlogh as [Hh Hle Hmx Hb Hho]. split; [|done|done|..].
    + exists hd. by rewrite upd_same.
    + intros i d Hd. rewrite upd_other by lia. rewrite <- HDws. by apply Hblk.
    + eapply Forall_impl; [exact Hhome|]. intros x [? Hx]. simpl. split; [done|].
      unfold upd. case_decide; [by eexists|]. rewrite <- HDws. by apply HDsome.
  - destruct Hq3 as [Q1 Q2 Q3 Q4 Q5 Q6]. split; try done.
    + by rewrite Q4, <- !app_assoc.
    + intros t. by rewrite Q6, HVD.
Qed.

(** Writes to the log blocks leave the header and the sectors before it. *)
Lemma log_writes_keep st (D0 : Z -> option (list Z)) ws :
  Forall (fun w => st < w.1) ws ->
  forall j t, t <= st -> disk_after D0 (take j ws) t = D0 t.
Proof.
  intros Hws j t Ht. apply disk_after_notin. rewrite fmap_take.
  intros (i & Hi & _)%elem_of_take. apply list_lookup_fmap_Some in Hi as ([x d] & -> & Hx).
  pose proof (Forall_lookup_1 _ _ _ _ Hws Hx). simpl in *. lia.
Qed.

(** A crash within a committed transaction. *)
Lemma commit_prefix st D0 T secs ds ws hd hd0 hd' k :
  D0 st = Some hd0 -> lists hd0 [] -> Forall (fun w => st < w.1) ws ->
  log_holds st (upd (disk_after D0 ws) st hd) secs ds -> lists hd' [] ->
  (forall D, (forall t, t < st -> D t = D0 t) ->
     forall t, t < st -> disk_after D (zip secs ds) t = T t) ->
  let D := disk_after D0 (take k (ws ++ [(st, hd)] ++ zip secs ds ++ [(st, hd')])) in
  recovers_to st D D0 \/ recovers_to st D T.
Proof.
  intros Hhd Hl0 Hws Hlog Hl' HT. cbv zeta.
  pose proof (log_writes_keep st D0 ws Hws) as Hkeep.
  rewrite take_app. destruct (k - length ws)%nat as [|k'] eqn:Ek.
  - left. simpl. rewrite app_nil_r. apply (recovers_empty _ _ _ hd0); [|done|].
    + by rewrite Hkeep by lia.
    + intros t Ht. by rewrite Hkeep by lia.
  - right. rewrite take_ge by lia. cbn [app take]. rewrite disk_after_app.
    change (recovers_to st (disk_after (upd (disk_after D0 ws) st hd)
      (take k' (zip secs ds ++ [(st, hd')]))) T).
    apply recovery_prefix; [done| |done].
    intros t Ht. apply HT; [|done]. intros u Hu. rewrite upd_other by lia.
    rewrite <- (take_ge ws (length ws)) by lia. by apply Hkeep; lia.
Qed.

(** Committing: the disk is what the readers saw; a crash after any number of
    the disk writes since the beginning of the transaction leaves a disk that
    recovers to the old or the new contents. *)
Lemma commit_atomic st sz D0 W0 T secs ds s hd0 :
  txn st sz D0 W0 T secs ds s -> geometry st sz D0 -> (length secs <= 9)%nat ->
  D0 st = Some hd0 -> lists hd0 [] ->
  exists ss' b' D' ws', commit_trans s = Ret tt (Lst st sz false 0 ss' b') /\ length ss' = 10%nat /\
    quiet b' D' D' ∅ (W0 ++ ws') /\ (forall t, D' t = disk_after D0 ws' t) /\ (forall t, t < st -> D' t = T t) /\
    (exists hd', D' st = Some hd' /\ lists hd' []) /\
    forall k, let D := disk_after D0 (take k ws') in recovers_to st D D0 \/ recovers_to st D T.
Proof.
  intros Htx Hg Hl9 Hhd Hl0. destruct (decide (secs = [])) as [->|Hne].
  - destruct Htx as [(ss1 & b1 & D & V & ws & -> & Hss & _ & Hq1 & HDold & _ & HVT & HVlog & _ & Hws & HDws)
      _ _ _ _ Hold].
    exists ss1, b1, D, ws. split_and!; try done.
    + destruct Hq1 as [Q1 Q2 Q3 Q4 Q5 Q6]. split; try done. intros t. rewrite Q6.
      destruct (decide (t < st)); [|apply HVlog; lia]. rewrite HVT, HDold by lia. apply Hold. set_solver.
    + intros t Ht. rewrite HDold by lia. symmetry. apply Hold. set_solver.
    + exists hd0. by rewrite HDold by lia.
    + intros k. left. pose proof (log_writes_keep st D0 ws Hws k) as Hkeep.
      apply (recovers_empty _ _ _ hd0); [by rewrite Hkeep by lia|done|].
      intros t Ht. by rewrite Hkeep by lia.
  - assert (0 < length secs)%nat by (destruct secs; [done|simpl; lia]).
    destruct (commit_run st sz D0 W0 _ secs ds s hd0 Htx Hg) as
      (ws & hd & hd' & ss' & b' & D' & E & Hss & Hws & Hl & Hl' & Hlog & Hq & HD);
      [lia|done|by destruct Hl0|].
    exists ss', b', D', (ws ++ [(st, hd)] ++ zip secs ds ++ [(st, hd')]). split_and!; [done|done|done|done| | |].
    + intros t Ht. rewrite HD, !disk_after_app. cbn [disk_after fold_left fst snd].
      rewrite upd_other by lia.
      apply (txn_installs _ _ _ _ _ _ _ _ _ Htx); [|done].
      intros u Hu. rewrite upd_other by lia.
      rewrite <- (take_ge ws (length ws)) by lia.
      apply (log_writes_keep st D0 ws Hws). lia.
    + exists hd'. split; [|done]. rewrite HD, !disk_after_app. cbn [disk_after fold_left fst snd]. apply upd_same.
    + intros k. apply (commit_prefix _ _ _ _ _ _ _ hd0); try done.
      intros D HDD t Ht. by apply (txn_installs _ _ _ _ _ _ _ _ _ Htx).
Qed.

Lemma txn_begin st sz D0 W0 ss b :
  quiet b D0 D0 ∅ W0 -> length ss = 10%nat -> txn st sz D0 W0 D0 [] [] (Lst st sz true 0 ss b).
Proof.
  intros Hq Hss. constructor; try done; try apply NoDup_nil_2; try apply Forall_nil_2.
  exists ss, b, D0, D0, []. rewrite app_nil_r. by split_and!.
Qed.

(** C3: transactions are atomic with respect to crashes.  A transaction that
    changes at most nine distinct blocks through the log returns with all of
    its updates on the disk; and after a crash at any point of it (any prefix
    of its disk writes), recovery leads to the disk before the transaction or
    to the disk with all of its updates. *)
Theorem transaction_atomic st sz D0 us ss b hd0 :
  quiet b D0 D0 ∅ [] -> geometry st sz D0 -> length ss = 10%nat ->
  D0 st = Some hd0 -> lists hd0 [] -> Forall (good_update st D0) us ->
  (size (list_to_set us.*1 : gset Z) <= 9)%nat ->
  exists s', transaction us (Lst st sz false 0 ss b) = Ret tt s' /\ busy s' = false /\
    (forall t, t < st -> disk (bs s') t = apply_updates D0 us t) /\
    forall k, let D := disk_after D0 (take k (writes (bs s'))) in
      recovers_to st D D0 \/ recovers_to st D (apply_updates D0 us).
Proof.
  intros Hq Hg Hss Hhd Hl0 Hus Hsize.
  pose proof (txn_begin st sz D0 [] ss b Hq Hss) as Htx0.
  destruct (updates_txn st sz D0 [] us D0 [] [] _ Htx0 Hg Hus) as (s1 & secs & ds & E1 & Htx & Hl9).
  { simpl. by rewrite union_empty_l_L. }
  assert (Hrun : transaction us (Lst st sz false 0 ss b) = commit_trans s1).
  { unfold transaction, begin_trans. mrun. cbn [busy]. mrun. by erewrite bind_Ret by exact E1. }
  destruct (commit_atomic st sz D0 [] _ secs ds s1 hd0 Htx Hg Hl9 Hhd Hl0)
    as (ss' & b' & D' & ws' & E & _ & Hq' & _ & HT & _ & Hcr). rewrite Hrun. eexists. split; [exact E|].
  cbn [bs busy]. rewrite (qu_writes _ _ _ _ _ Hq'). split_and!; [done| |done].
  intros t Ht. rewrite (qu_disk _ _ _ _ _ Hq'). by apply HT.
Qed.

End Trans.

(** ** On the buffer cache of bio.c *)

Lemma binit_quiet image :
  Forall (fun d => length d = 512%nat) image ->
  quiet (binit image) (rd image) (rd image) ∅ [].
Proof.
  intros Hall.
  assert (Hdev : forall i c, bufs (binit image) !! i = Some c ->
    b_dev c <> 1 /\ b_busy c = false /\ b_dirty c = false).
  { intros i c Hc. change (replicate NBUF (Buf false false false (2 ^ 32 - 1) 0 (replicate 512 0))
      !! i = Some c) in Hc. apply lookup_replicate in Hc as [-> _]. done. }
  assert (Hi : bio_inv (binit image)).
  { constructor.
    - done.
    - change (rev (seq 0 NBUF) ≡ₚ seq 0 NBUF). symmetry. apply Permutation_rev.
    - intros i j c e Hc _ Dc. by destruct (Hdev i c Hc).
    - intros i c Hc _. by destruct (Hdev i c Hc).
    - intros i c Hc Dc. by destruct (Hdev i c Hc).
    - intros i c Hc Dc. by destruct (Hdev i c Hc).
    - done. }
  by split.
Qed.

(** A disk of 30 zeroed blocks with the log in blocks 16 to 27. *)
Definition image : list (list Z) := replicate 30 (replicate 512 0).
Definition log_demo : lst bst := Lst 16 11 false 0 (replicate 10 0) (binit image).
Definition fill (v : Z) (d : list Z) : list Z := v :: tail d.

(** The cache is too small for the largest transaction that [log_write]
    admits: the tenth distinct block of a transaction finds no free buffer. *)
Theorem transaction_ten_blocks_panics :
  transaction ((fun i => (i, fill 1)) <$> seqZ 0 10) log_demo = Panic "bget: no buffers".
Proof. by vm_compute. Qed.

Lemma image_blocks : Forall (fun d => length d = 512%nat) image.
Proof. apply Forall_replicate. by rewrite length_replicate. Qed.

Lemma image_some t : 0 <= t < 30 -> is_Some (rd image t).
Proof. intros Ht. apply rd_in_range. unfold image. rewrite length_replicate. lia. Qed.

Lemma image_head : rd image 16 = Some (replicate 512 0) /\ lists (replicate 512 0) [].
Proof. split; [done|]. by split_and!. Qed.

Lemma image_recovers : recovers_to 16 (rd image) (rd image).
Proof.
  eapply recovers_empty; [apply image_head|apply image_head|done].
Qed.

Lemma transaction_atomic_witness :
  exists s', transaction [(3, fill 7); (5, fill 8); (3, fill 9)] log_demo = Ret tt s' /\
    disk (bs s') 3 = Some (fill 9 (replicate 512 0)).
Proof.
  destruct (transaction_atomic 16 11 (rd image) [(3, fill 7); (5, fill 8); (3, fill 9)]
    (replicate 10 0) (binit image) (replicate 512 0)) as (s' & Hr & _ & HD & _).
  - apply binit_quiet, image_blocks.
  - split_and!; [lia|lia|lia|]. intros i Hi. apply image_some. lia.
  - reflexivity.
  - apply image_head.
  - apply image_head.
  - repeat apply Forall_cons_2; [..|apply Forall_nil_2];
      (split_and!; [simpl; lia|simpl; lia|apply image_some; simpl; lia|]);
      intros d Hd; unfold fill; simpl; destruct d; (discriminate || exact Hd).
  - vm_compute. lia.
  - exists s'. split; [exact Hr|]. rewrite HD by lia. reflexivity.
Defined.

Lemma recover_from_log_correct_witness :
  exists s', recover_from_log log_demo = Ret tt s' /\
    forall t, t < 16 -> disk (bs s') t = rd image t.
Proof.
  destruct (recover_from_log_correct 16 11 false 0 (replicate 10 0) (binit image) (rd image)
    (rd image)) as (s' & Hr & HT & _).
  - apply binit_quiet, image_blocks.
  - apply image_recovers.
  - reflexivity.
  - exists s'. split; [exact Hr|exact HT].
Defined.

Lemma recovery_crash_safe_witness :
  exists s', recover_from_log log_demo = Ret tt s' /\
    recovers_to 16 (disk_after (rd image) (take 1 (writes (bs s')))) (rd image).
Proof.
  apply (recovery_crash_safe 16 11 false 0 (replicate 10 0) (binit image) (rd image) (rd image) 1).
  - apply binit_quiet, image_blocks.
  - apply image_recovers.
  - reflexivity.
Defined.
