(* ===== verification/Strings.v ===== *)
(** * Strings and memory blocks (string.c, ulib.c)

    The block operations [memset], [memcmp] and [memmove] act on byte memory
    addressed by 32-bit pointers, because their arguments may overlap.  The
    string functions read a [char*] as the list of bytes from the pointer to
    the end of its object: reading past that end is [None].  A [char] is a
    byte from 0 to 255; the code tests it for equality and for being a digit
    only, where signedness does not matter. *)
From S2P Require Import Prelude.

(** ** Block operations of the kernel (string.c, x86.h) *)

Definition mem := Z -> Z.

Definition st1 (a v : Z) (m : mem) : mem := fun x => if x =? a then u8 v else m x.

Definition st4 (a v : Z) (m : mem) : mem :=
  st1 (u32 (a + 3)) (Z.shiftr v 24) (st1 (u32 (a + 2)) (Z.shiftr v 16)
    (st1 (u32 (a + 1)) (Z.shiftr v 8) (st1 a v m))).

(** [rep stosb], [rep stosl] *)
Fixpoint stosb (cnt : nat) (addr data : Z) (m : mem) : mem :=
  match cnt with
  | O => m
  | S k => stosb k (u32 (addr + 1)) data (st1 addr data m)
  end.

Fixpoint stosl (cnt : nat) (addr data : Z) (m : mem) : mem :=
  match cnt with
  | O => m
  | S k => stosl k (u32 (addr + 4)) data (st4 addr data m)
  end.

Definition memset (dst c n : Z) (m : mem) : mem :=
  if (Z.rem (s32 dst) 4 =? 0) && (n mod 4 =? 0) then
    let c := Z.land c 0xFF in
    stosl (Z.to_nat (n / 4)) dst
      (Z.lor (Z.lor (Z.lor (Z.shiftl c 24) (Z.shiftl c 16)) (Z.shiftl c 8)) c) m
  else stosb (Z.to_nat n) dst c m.

Fixpoint memcmp_loop (n : nat) (s1 s2 : Z) (m : mem) : Z :=
  match n with
  | O => 0
  | S k => if negb (m s1 =? m s2) then m s1 - m s2
           else memcmp_loop k (u32 (s1 + 1)) (u32 (s2 + 1)) m
  end.
Definition memcmp (v1 v2 n : Z) (m : mem) : Z := memcmp_loop (Z.to_nat n) v1 v2 m.

(** The two copy loops of [memmove]. *)
Fixpoint copy_down (n : nat) (d s : Z) (m : mem) : mem :=
  match n with
  | O => m
  | S k => let d := u32 (d - 1) in let s := u32 (s - 1) in
           copy_down k d s (st1 d (m s) m)
  end.

Fixpoint copy_up (n : nat) (d s : Z) (m : mem) : mem :=
  match n with
  | O => m
  | S k => copy_up k (u32 (d + 1)) (u32 (s + 1)) (st1 d (m s) m)
  end.

Definition memmove (dst src n : Z) (m : mem) : mem :=
  if (src <? dst) && (dst <? u32 (src + n)) then
    copy_down (Z.to_nat n) (u32 (dst + n)) (u32 (src + n)) m
  else copy_up (Z.to_nat n) dst src m.

(** The user library's [memmove] and [memset] (ulib.c). *)
Definition ulib_memmove (dst src n : Z) (m : mem) : mem := copy_up (Z.to_nat n) dst src m.
Definition ulib_memset (dst c n : Z) (m : mem) : mem := stosb (Z.to_nat n) dst c m.

(** ** Strings *)

Fixpoint strncmp (p q : list Z) (n : nat) {struct n} : option Z :=
  match n with
  | O => Some 0
  | S k =>
      match p, q with
      | x :: p', y :: q' =>
          if negb (x =? 0) && (x =? y) then strncmp p' q' k else Some (x - y)
      | _, _ => None
      end
  end.

Fixpoint strcmp (p q : list Z) : option Z :=
  match p, q with
  | x :: p', y :: q' => if negb (x =? 0) && (x =? y) then strcmp p' q' else Some (x - y)
  | _, _ => None
  end.

(** [while(n-- > 0 && ( *s++ = *t++ ) != 0)]: the bytes written and how many
    of the [n] are left. *)
Fixpoint copy_until (t : list Z) (n : nat) {struct n} : option (list Z * nat) :=
  match n with
  | O => Some ([], 0%nat)
  | S k =>
      match t with
      | [] => None
      | x :: t' =>
          if x =? 0 then Some ([0], k)
          else '(w, j) ← copy_until t' k; Some (x :: w, j)
      end
  end.

(** The bytes stored at [s]. *)
Definition strncpy (t : list Z) (n : Z) : option (list Z) :=
  '(w, k) ← copy_until t (Z.to_nat n); Some (w ++ replicate k 0).

(** Overwrite the start of a buffer. *)
Definition overlay (w s : list Z) : option (list Z) :=
  if (length w <=? length s)%nat then Some (w ++ drop (length w) s) else None.

(** The buffer [s] after the call. *)
Definition safestrcpy (s t : list Z) (n : Z) : option (list Z) :=
  if n <=? 0 then Some s else
  '(w, _) ← copy_until t (Z.to_nat (n - 1));
  overlay (w ++ [0]) s.

Fixpoint strlen (s : list Z) : option nat :=
  match s with
  | [] => None
  | x :: s' => if x =? 0 then Some 0%nat else S <$> strlen s'
  end.

(** The bytes [strcpy] stores, the terminator included. *)
Fixpoint strcpy (t : list Z) : option (list Z) :=
  match t with
  | [] => None
  | x :: t' => if x =? 0 then Some [0] else cons x <$> strcpy t'
  end.

(** The offset of the byte found; [Some None] is the null pointer. *)
Fixpoint strchr (s : list Z) (c : Z) : option (option nat) :=
  match s with
  | [] => None
  | x :: s' =>
      if x =? 0 then Some None
      else if x =? c then Some (Some 0%nat)
      else option_map (option_map S) (strchr s' c)
  end.

(** [gets] with the bytes that [read(0, &c, 1)] will deliver before the end of
    file: the bytes stored in [buf] and the input left. *)
Fixpoint gets_loop (n : nat) (input : list Z) : list Z * list Z :=
  match n with
  | O => ([], input)
  | S k =>
      match input with
      | [] => ([], [])
      | c :: rest =>
          if (c =? 10) || (c =? 13) then ([c], rest)
          else let '(w, r) := gets_loop k rest in (c :: w, r)
      end
  end.
Definition gets_line (max : Z) (input : list Z) : list Z * list Z :=
  let '(w, r) := gets_loop (Z.to_nat (max - 1)) input in (w ++ [0], r).

Fixpoint atoi_loop (s : list Z) (n : Z) : option Z :=
  match s with
  | [] => None
  | c :: s' =>
      if (48 <=? c) && (c <=? 57) then atoi_loop s' (s32 (n * 10 + c - 48)) else Some n
  end.
Definition atoi (s : list Z) : option Z := atoi_loop s 0.

(** ** Block operations: what they store *)

Lemma stosb_spec cnt addr data m x :
  0 <= addr -> addr + Z.of_nat cnt <= 2 ^ 32 ->
  stosb cnt addr data m x =
    if decide (addr <= x < addr + Z.of_nat cnt) then u8 data else m x.
Proof.
  revert addr m. induction cnt as [|cnt IH]; intros addr m H0 H1; simpl stosb.
  - by rewrite decide_False by lia.
  - destruct cnt as [|cnt].
    + simpl stosb. unfold st1. repeat case_decide; destruct (x =? addr) eqn:E; (done || lia).
    + rewrite (u32_small (addr + 1)), IH by lia. unfold st1.
      destruct (x =? addr) eqn:E; repeat case_decide; (done || lia).
Qed.

Lemma u32_next a n : 0 <= a -> a + Z.of_nat (S n) < 2 ^ 32 -> u32 (a + 1) = a + 1.
Proof. intros. apply u32_small. lia. Qed.

(** A word whose four bytes are all [c]. *)
Lemma word_of_bytes c j :
  0 <= c < 256 -> 0 <= j <= 3 ->
  u8 (Z.shiftr (Z.lor (Z.lor (Z.lor (Z.shiftl c 24) (Z.shiftl c 16)) (Z.shiftl c 8)) c)
        (8 * j)) = c.
Proof.
  intros Hc Hj. unfold u8. change 256 with (2 ^ 8). rewrite <- Z.land_ones by lia.
  apply Z.bits_inj'. intros i Hi.
  rewrite Z.land_spec, Z.testbit_ones_nonneg, Z.shiftr_spec, !Z.lor_spec, !Z.shiftl_spec by lia.
  destruct (decide (i < 8)) as [Hi8|Hi8].
  - rewrite (proj2 (Z.ltb_lt _ _) Hi8), andb_true_r.
    assert (Hout : forall k, k < 0 \/ 8 <= k -> Z.testbit c k = false).
    { intros k [Hk|Hk]; [by apply Z.testbit_neg_r|].
      destruct (decide (c = 0)) as [->|Hn]; [apply Z.bits_0|].
      apply Z.bits_above_log2; [lia|]. apply Z.lt_le_trans with 8; [|lia].
      apply Z.log2_lt_pow2; lia. }
    assert (Hj4 : j = 0 \/ j = 1 \/ j = 2 \/ j = 3) by lia.
    destruct (decide (j = 3)); [rewrite (Hout (i + 8 * j - 16)), (Hout (i + 8 * j - 8)),
      (Hout (i + 8 * j)) by lia; rewrite !orb_false_r; f_equal; lia|].
    rewrite (Hout (i + 8 * j - 24)) by lia.
    destruct (decide (j = 2)); [rewrite (Hout (i + 8 * j - 8)), (Hout (i + 8 * j)) by lia;
      rewrite !orb_false_r; cbn; f_equal; lia|].
    rewrite (Hout (i + 8 * j - 16)) by lia.
    destruct (decide (j = 1)); [rewrite (Hout (i + 8 * j)) by lia;
      rewrite !orb_false_r; cbn; f_equal; lia|].
    rewrite (Hout (i + 8 * j - 8)) by lia. cbn. f_equal. lia.
  - rewrite (proj2 (Z.ltb_ge _ _)) by lia. rewrite andb_false_r.
    destruct (decide (c = 0)) as [->|Hn]; [by rewrite Z.bits_0|].
    symmetry. apply Z.bits_above_log2; [lia|]. apply Z.lt_le_trans with 8; [|lia].
    apply Z.log2_lt_pow2; lia.
Qed.

Lemma stosl_spec cnt addr v c m x :
  (forall j, 0 <= j <= 3 -> u8 (Z.shiftr v (8 * j)) = c) ->
  0 <= addr -> addr + 4 * Z.of_nat cnt <= 2 ^ 32 ->
  stosl cnt addr v m x =
    if decide (addr <= x < addr + 4 * Z.of_nat cnt) then c else m x.
Proof.
  intros Hv. revert addr m. induction cnt as [|cnt IH]; intros addr m H0 H1; simpl stosl.
  - by rewrite decide_False by lia.
  - assert (Hst : forall y, st4 addr v m y = if decide (addr <= y < addr + 4) then c else m y).
    { intros y. unfold st4, st1. rewrite !u32_small by lia.
      pose proof (Hv 0 ltac:(lia)) as V0. rewrite Z.shiftr_0_r in V0.
      pose proof (Hv 1 ltac:(lia)) as V1. pose proof (Hv 2 ltac:(lia)) as V2.
      pose proof (Hv 3 ltac:(lia)) as V3. change (8 * 1) with 8 in V1.
      change (8 * 2) with 16 in V2. change (8 * 3) with 24 in V3.
      rewrite V0, V1, V2, V3.
      case_decide; repeat case_match; (done || lia). }
    destruct cnt as [|cnt].
    + simpl stosl. rewrite Hst. repeat case_decide; (done || lia).
    + rewrite (u32_small (addr + 4)), IH by lia. rewrite Hst.
      repeat case_decide; (done || lia).
Qed.

(** [memset] stores the low byte of [c] in exactly the [n] bytes at [dst],
    whether it takes the word-at-a-time path or the byte path. *)
Lemma memset_at dst c n m x :
  0 <= dst -> 0 <= n -> dst + n <= 2 ^ 32 ->
  memset dst c n m x = if decide (dst <= x < dst + n) then u8 c else m x.
Proof.
  intros Hd Hn Hb. unfold memset. destruct (_ && _) eqn:E.
  - rewrite (stosl_spec _ _ _ (u8 c)); [|..]; rewrite ?Z2Nat.id by (apply Z.div_pos; lia).
    + assert (4 * (n / 4) = n) as -> by (pose proof (Z.div_mod n 4); lia). done.
    + intros j Hj. unfold u8 at 2. change 0xFF with (Z.ones 8).
      rewrite Z.land_ones by lia. apply word_of_bytes; [|done].
      apply Z.mod_pos_bound. lia.
    + done.
    + pose proof (Z.div_mod n 4). lia.
  - rewrite stosb_spec by lia. by rewrite Z2Nat.id by lia.
Qed.

Definition bytes_ok (m : mem) : Prop := forall y, 0 <= m y < 256.

Lemma copy_up_spec n d s m x :
  0 <= d -> 0 <= s -> d + Z.of_nat n <= 2 ^ 32 -> s + Z.of_nat n <= 2 ^ 32 ->
  d <= s \/ s + Z.of_nat n <= d ->
  (forall y, 0 <= m y < 256) ->
  copy_up n d s m x = if decide (d <= x < d + Z.of_nat n) then m (s + (x - d)) else m x.
Proof.
  revert d s m. induction n as [|n IH]; intros d s m Hd Hs Hd' Hs' Hov Hm; simpl copy_up.
  - by rewrite decide_False by lia.
  - assert (Hb : forall v y, 0 <= st1 d v m y < 256).
    { intros v y. unfold st1. case_match; [|apply Hm]. apply Z.mod_pos_bound. lia. }
    assert (Hu : u8 (m s) = m s) by (apply Z.mod_small, Hm).
    destruct n as [|n].
    + simpl copy_up. unfold st1. rewrite Hu.
      case_decide; destruct (x =? d) eqn:E; (lia || done || f_equal; lia).
    + rewrite !u32_small, IH by (done || lia). unfold st1. rewrite Hu.
      repeat case_decide; repeat case_match; (lia || done || f_equal; lia).
Qed.

Lemma copy_down_spec n d s m x :
  0 <= d -> 0 <= s -> d + Z.of_nat n < 2 ^ 32 -> s + Z.of_nat n < 2 ^ 32 -> s < d ->
  (forall y, 0 <= m y < 256) ->
  copy_down n (d + Z.of_nat n) (s + Z.of_nat n) m x =
    if decide (d <= x < d + Z.of_nat n) then m (s + (x - d)) else m x.
Proof.
  revert m. induction n as [|n IH]; intros m Hd Hs Hd' Hs' Hov Hm; simpl copy_down.
  - by rewrite decide_False by lia.
  - rewrite !u32_small by lia.
    replace (d + Z.of_nat (S n) - 1) with (d + Z.of_nat n) by lia.
    replace (s + Z.of_nat (S n) - 1) with (s + Z.of_nat n) by lia.
    assert (Hu : forall a, u8 (m a) = m a) by (intros; apply Z.mod_small, Hm).
    assert (Hb : forall y, 0 <= st1 (d + Z.of_nat n) (m (s + Z.of_nat n)) m y < 256)
      by (intros y; unfold st1; destruct (y =? _); rewrite ?Hu; apply Hm).
    rewrite IH by (done || lia).
    unfold st1. rewrite Hu.
    repeat case_decide; repeat case_match; (lia || done || f_equal; lia).
Qed.

(** [memmove] copies correctly for any overlap, as long as neither block
    reaches the top of memory. *)
Lemma memmove_at dst src n m x :
  0 <= dst -> 0 <= src -> 0 <= n -> dst + n < 2 ^ 32 -> src + n < 2 ^ 32 ->
  (forall y, 0 <= m y < 256) ->
  memmove dst src n m x = if decide (dst <= x < dst + n) then m (src + (x - dst)) else m x.
Proof.
  intros Hd Hs Hn Hd' Hs' Hm. unfold memmove. rewrite (u32_small (src + n)) by lia.
  destruct (_ && _) eqn:E.
  - rewrite (u32_small (dst + n)) by lia.
    pose proof (copy_down_spec (Z.to_nat n) dst src m x) as H.
    rewrite Z2Nat.id in H by lia. apply H; (done || lia).
  - rewrite copy_up_spec by (done || lia). by rewrite Z2Nat.id by lia.
Qed.

(** Moving a block and looking at it again: whatever the overlap of source
    and destination, the destination holds the bytes the source held before and
    no other byte changes, so the kernel's [memmove] agrees with a copy through
    a temporary buffer. *)
Theorem memmove_overlap dst src n m :
  0 <= dst -> 0 <= src -> 0 <= n -> dst + n < 2 ^ 32 -> src + n < 2 ^ 32 -> bytes_ok m ->
  (fun j => memmove dst src n m (dst + j)) <$> seqZ 0 n = (fun j => m (src + j)) <$> seqZ 0 n /\
  (forall x, ~ (dst <= x < dst + n) -> memmove dst src n m x = m x).
Proof.
  intros Hd Hs Hn Hd' Hs' Hm. split.
  - apply list_fmap_ext. intros i j Hj. apply lookup_seqZ in Hj as [-> Hj].
    rewrite memmove_at, decide_True by (done || lia). f_equal. lia.
  - intros x Hx. by rewrite memmove_at, decide_False by (done || lia).
Qed.

(** Bytes 0..5 moved up by two over themselves. *)
Lemma memmove_overlap_witness :
  (fun j => memmove 2 0 6 (fun y => y mod 256) (2 + j)) <$> seqZ 0 6
  = (fun j => (0 + j) mod 256) <$> seqZ 0 6.
Proof.
  refine (proj1 (memmove_overlap 2 0 6 (fun y => y mod 256) _ _ _ _ _ _)); try lia.
  intros y. apply Z.mod_pos_bound. lia.
Defined.

(** The user library's [memmove] copies upwards only: with a destination that
    starts inside the source the first bytes are repeated. *)
Theorem ulib_memmove_repeats :
  map (ulib_memmove 2 0 6 (fun y => y mod 256)) [0; 1; 2; 3; 4; 5; 6; 7; 8]
  = [0; 1; 0; 1; 0; 1; 0; 1; 8].
Proof. reflexivity. Qed.

(** ** Strings: what they compute *)

(** The characters of a C string: the bytes before the first NUL. *)
Fixpoint cut (l : list Z) : list Z :=
  match l with
  | [] => []
  | x :: l' => if x =? 0 then [] else x :: cut l'
  end.

Lemma strlen_cut s n :
  strlen s = Some n -> length (cut s) = n /\ cut s = take n s /\ s !! n = Some 0.
Proof.
  revert n. induction s as [|x s IH]; intros n; [done|]. simpl.
  destruct (Z.eqb_spec x 0) as [->|Hx]; [by intros [= <-]|].
  intros (k & Hk & ->)%fmap_Some. destruct (IH k Hk) as (H1 & H2 & H3). simpl.
  by rewrite H1, <- H2.
Qed.

Lemma strlen_app_nul s r : cut s = s -> strlen (s ++ 0 :: r) = Some (length s).
Proof.
  induction s as [|x s IH]; [done|]. simpl. destruct (x =? 0); [done|].
  intros [= E]. by rewrite IH.
Qed.

Lemma cut_app_nul s r : cut s = s -> cut (s ++ 0 :: r) = s.
Proof.
  induction s as [|x s IH]; [done|]. simpl. destruct (x =? 0); [done|].
  intros [= E]. by rewrite IH.
Qed.

Lemma cut_app_nonnul s r : cut s = s -> cut (s ++ r) = s ++ cut r.
Proof.
  induction s as [|x s IH]; [done|]. simpl. destruct (x =? 0); [done|].
  intros [= E]. by rewrite IH.
Qed.

Lemma cut_cut s : cut (cut s) = cut s.
Proof.
  induction s as [|x s IH]; [done|]. simpl. destruct (x =? 0) eqn:E; [done|].
  simpl. by rewrite E, IH.
Qed.

Lemma cut_take s n : cut s = s -> cut (take n s) = take n s.
Proof.
  revert n. induction s as [|x s IH]; intros [|n]; [done..|]. simpl.
  destruct (x =? 0); [done|]. intros [= E]. by rewrite IH.
Qed.

Lemma cut_zeros k : cut (replicate k 0) = [].
Proof. by destruct k. Qed.

(** [strncmp] returns 0 exactly when the two strings agree on their first [n]
    characters. *)
Lemma strncmp_zero p q n r :
  strncmp p q n = Some r ->
  (r = 0 <-> take n (cut p) = take n (cut q)).
Proof.
  revert p q. induction n as [|n IH]; intros p q; simpl; [intros [=]; by subst|].
  destruct p as [|x p], q as [|y q]; [done..|]. simpl.
  destruct (Z.eqb_spec x 0) as [->|Hx]; simpl.
  - intros [= <-]. destruct (Z.eqb_spec y 0) as [->|Hy]; simpl; [done|].
    split; [lia|done].
  - destruct (Z.eqb_spec x y) as [->|Hxy].
    + intros Hr. apply IH in Hr. rewrite (proj2 (Z.eqb_neq y 0)) by done. simpl.
      rewrite Hr. split; [by intros ->|by intros [= ->]].
    + intros [= <-]. split; [lia|]. destruct (y =? 0); simpl; [done|].
      intros [= ->]. lia.
Qed.

Lemma copy_until_spec t n w k :
  copy_until t n = Some (w, k) ->
  (length w + k = n)%nat /\
  ((length (cut t) < n)%nat /\ w = cut t ++ [0] \/
   (n <= length (cut t))%nat /\ k = 0%nat /\ w = take n (cut t)).
Proof.
  revert t w k. induction n as [|n IH]; intros t w k; simpl.
  - intros [= <- <-]. split; [done|]. right. split; [lia|done].
  - destruct t as [|x t]; [done|]. simpl. destruct (x =? 0) eqn:E.
    + intros [= <- <-]. split; [done|]. left. split; [simpl; lia|done].
    + destruct (copy_until t n) as [[w' j]|] eqn:Hc; [|done]. simpl. intros [= <- <-].
      destruct (IH _ _ _ Hc) as (Hl & [[Hlt ->]|(Hge & -> & ->)]).
      * split; [simpl; lia|]. left. split; [lia|done].
      * split; [simpl; lia|]. right. split; [lia|done].
Qed.

Lemma copy_until_defined t n : strlen t <> None -> exists w k, copy_until t n = Some (w, k).
Proof.
  revert t. induction n as [|n IH]; intros t Ht; simpl; [by eexists _, _|].
  destruct t as [|x t]; [done|]. simpl in Ht. destruct (x =? 0); [by eexists _, _|].
  destruct (IH t) as (w & k & ->); [by intros E; rewrite E in Ht|]. by eexists _, _.
Qed.

(** [strncpy] stores the string padded with zeros to exactly [n] bytes; it is
    cut off, without a terminator, when it has [n] characters or more. *)
Lemma strncpy_spec t n w :
  0 <= n -> strncpy t n = Some w ->
  w = take (Z.to_nat n) (cut t) ++ replicate (Z.to_nat n - length (cut t)) 0.
Proof.
  intros Hn. unfold strncpy. destruct (copy_until t (Z.to_nat n)) as [[v k]|] eqn:Hc; [|done].
  simpl. intros [= <-].
  destruct (copy_until_spec _ _ _ _ Hc) as (Hl & [[Hlt ->]|(Hge & -> & ->)]).
  - rewrite length_app in Hl. simpl in Hl. rewrite take_ge by lia. rewrite <- app_assoc.
    replace (Z.to_nat n - length (cut t))%nat with (S k) by lia. done.
  - by replace (Z.to_nat n - length (cut t))%nat with 0%nat by lia.
Qed.

Lemma cut_strncpy t n w :
  0 <= n -> strncpy t n = Some w -> cut w = take (Z.to_nat n) (cut t) /\ length w = Z.to_nat n.
Proof.
  intros Hn Hw. rewrite (strncpy_spec t n w Hn Hw). split.
  - rewrite cut_app_nonnul by (apply cut_take, cut_cut). rewrite cut_zeros. apply app_nil_r.
  - rewrite length_app, length_take, length_replicate. lia.
Qed.

Lemma strncmp_self s n : strlen s <> None -> strncmp s s n = Some 0.
Proof.
  revert s. induction n as [|n IH]; intros s Hs; [done|]. destruct s as [|x s]; [done|].
  simpl in *. rewrite Z.eqb_refl, andb_true_r. destruct (Z.eqb_spec x 0) as [->|Hx]; [done|].
  simpl. apply IH. intros E. by rewrite E in Hs.
Qed.

(** Comparing at most [n] bytes of a field of exactly [n] bytes with a
    terminated string never reads outside either. *)
Lemma strncmp_defined p q n :
  strlen p <> None -> (n <= length q)%nat -> exists r, strncmp p q n = Some r.
Proof.
  revert p q. induction n as [|n IH]; intros p q Hp Hq; [by eexists|].
  destruct p as [|x p]; [done|]. destruct q as [|y q]; simpl in Hq; [lia|]. simpl in *.
  destruct (Z.eqb_spec x 0) as [->|Hx]; simpl; [by eexists|].
  destruct (x =? y); [|by eexists]. apply IH; [|lia]. intros E. by rewrite E in Hp.
Qed.

(** A name stored by [strncpy] in a field of [n] bytes compares equal, by
    [strncmp] over [n] bytes, with another string exactly when the two agree on
    their first [n] characters. *)
Theorem strncpy_strncmp s t n w :
  0 <= n -> strlen s <> None -> strncpy t n = Some w ->
  exists r, strncmp s w (Z.to_nat n) = Some r /\
    (r = 0 <-> take (Z.to_nat n) (cut s) = take (Z.to_nat n) (cut t)).
Proof.
  intros Hn Hs Hw. destruct (cut_strncpy t n w Hn Hw) as [Hc Hl].
  destruct (strncmp_defined s w (Z.to_nat n) Hs ltac:(lia)) as (r & Hr).
  exists r. split; [done|].
  rewrite (strncmp_zero _ _ _ _ Hr), Hc, take_take. by rewrite Nat.min_id.
Qed.

(** A 15-character name and its first 14 characters are the same entry. *)
Lemma strncpy_strncmp_witness :
  let t := map Z.of_nat (seq 97 15) ++ [0] in
  exists r, strncmp t (take 14 t) 14 = Some r /\ (r = 0 <-> take 14 (cut t) = take 14 (cut t)).
Proof.
  exact (strncpy_strncmp (map Z.of_nat (seq 97 15) ++ [0]) (map Z.of_nat (seq 97 15) ++ [0]) 14
           (take 14 (map Z.of_nat (seq 97 15) ++ [0]))
           ltac:(lia) ltac:(discriminate) ltac:(reflexivity)).
Defined.

(** [safestrcpy] into a buffer of at least [n > 0] bytes always succeeds on
    a terminated string: the buffer then holds the string cut to [n - 1]
    characters, terminated within the first [n] bytes, and its bytes from [n]
    on are unchanged. *)
Theorem safestrcpy_spec s t n :
  0 < n <= Z.of_nat (length s) -> strlen t <> None ->
  exists s', safestrcpy s t n = Some s' /\
    cut s' = take (Z.to_nat (n - 1)) (cut t) /\
    (exists k, strlen s' = Some k /\ (k < Z.to_nat n)%nat) /\
    length s' = length s /\ drop (Z.to_nat n) s' = drop (Z.to_nat n) s.
Proof.
  intros Hn Ht. unfold safestrcpy. rewrite (proj2 (Z.leb_gt n 0)) by lia.
  destruct (copy_until_defined t (Z.to_nat (n - 1)) Ht) as (w & k & Hw). rewrite Hw. simpl.
  destruct (copy_until_spec _ _ _ _ Hw) as (Hl & Hcase).
  unfold overlay. rewrite length_app. simpl.
  assert (Hlw : (length w + 1 <= Z.to_nat n)%nat) by lia.
  rewrite (proj2 (Nat.leb_le _ _)) by lia. eexists. split; [done|].
  assert (Hcut : exists c r, cut c = c /\ c = take (Z.to_nat (n - 1)) (cut t) /\
            (length c < Z.to_nat n)%nat /\ (w ++ [0]) ++ drop (length w + 1) s = c ++ 0 :: r).
  { destruct Hcase as [[Hlt ->]|(Hge & -> & ->)].
    - exists (cut t), ([0] ++ drop (length (cut t ++ [0]) + 1) s). rewrite length_app in Hl.
      split_and!; [apply cut_cut|by rewrite take_ge by lia|simpl in Hl; lia|].
      by rewrite <- !app_assoc.
    - exists (take (Z.to_nat (n - 1)) (cut t)), (drop (length (take (Z.to_nat (n - 1)) (cut t)) + 1) s).
      split_and!; [apply cut_take, cut_cut|done|rewrite length_take; lia|].
      by rewrite <- !app_assoc. }
  destruct Hcut as (c & r & Hc & Hct & Hlc & Heq). split_and!.
  - rewrite Heq, cut_app_nul by done. done.
  - exists (length c). rewrite Heq. split; [by apply strlen_app_nul|done].
  - rewrite !length_app, length_drop. simpl. lia.
  - rewrite drop_app, length_app. simpl.
    rewrite drop_ge by (rewrite length_app; simpl; lia). simpl. rewrite drop_drop. f_equal. lia.
Qed.

Lemma safestrcpy_spec_witness :
  exists s', safestrcpy [1; 2; 3; 4; 5] [97; 98; 99; 0] 3 = Some s' /\ cut s' = [97; 98].
Proof.
  destruct (safestrcpy_spec [1; 2; 3; 4; 5] [97; 98; 99; 0] 3 ltac:(simpl; lia)
              ltac:(discriminate)) as (s' & H1 & H2 & _).
  exists s'. split; [exact H1|exact H2].
Defined.

(** [gets_loop]: the line read, its length bound and what is left. *)
Lemma gets_loop_spec n input w r :
  gets_loop n input = (w, r) ->
  input = w ++ r /\ (length w <= n)%nat /\
  (forall i c, w !! i = Some c -> c = 10 \/ c = 13 -> S i = length w).
Proof.
  revert input w r. induction n as [|n IH]; intros input w r; simpl.
  - intros [= <- <-]. by split_and!.
  - destruct input as [|c rest]; [intros [= <- <-]; split_and!; simpl; (done || lia)|].
    destruct (_ || _) eqn:E.
    + intros [= <- <-]. split_and!; [done|simpl; lia|].
      by intros [|i] d.
    + destruct (gets_loop n rest) as [w' r'] eqn:Hg. intros [= <- <-].
      destruct (IH _ _ _ Hg) as (-> & Hl & Hnl). split_and!; [done|simpl; lia|].
      intros [|i] d; simpl; [intros [= <-]; lia|]. intros Hd Hcr.
      f_equal. by apply (Hnl i d).
Qed.

(** [gets] never stores more than [max] bytes, terminates what it stores,
    consumes exactly the bytes it stores and stops right after the first line
    break. *)
Theorem gets_spec max input w r :
  0 < max -> gets_line max input = (w, r) ->
  exists line, w = line ++ [0] /\ input = line ++ r /\ Z.of_nat (length w) <= max /\
    (forall i c, line !! i = Some c -> c = 10 \/ c = 13 -> S i = length line).
Proof.
  intros Hm. unfold gets_line. destruct (gets_loop _ _) as [l r'] eqn:Hg. intros [= <- <-].
  destruct (gets_loop_spec _ _ _ _ Hg) as (Hi & Hl & Hn).
  exists l. split_and!; [done|done| |done]. rewrite length_app. simpl. lia.
Qed.

Lemma gets_spec_witness :
  exists line, [108; 115; 10; 0] = line ++ [0] /\ [108; 115; 10; 120] = line ++ [120].
Proof.
  destruct (gets_spec 100 [108; 115; 10; 120] [108; 115; 10; 0] [120] ltac:(lia) eq_refl)
    as (line & H1 & H2 & _).
  exists line. split; [exact H1|exact H2].
Defined.

Lemma strcmp_zero p q r : strcmp p q = Some r -> (r = 0 <-> cut p = cut q).
Proof.
  revert q. induction p as [|x p IH]; intros [|y q]; simpl; [done..|].
  destruct (Z.eqb_spec x 0) as [->|Hx]; simpl.
  - intros [= <-]. destruct (Z.eqb_spec y 0) as [->|Hy]; [done|]. split; [lia|done].
  - destruct (Z.eqb_spec x y) as [->|Hxy].
    + intros Hr. rewrite (IH _ Hr), (proj2 (Z.eqb_neq y 0)) by done.
      split; [by intros ->|by intros [= ->]].
    + intros [= <-]. split; [lia|]. destruct (y =? 0); [done|]. intros [= ->]. lia.
Qed.

Lemma strchr_spec s c o :
  strchr s c = Some o ->
  match o with
  | Some i => cut s !! i = Some c /\ forall j, (j < i)%nat -> cut s !! j <> Some c
  | None => c ∉ cut s
  end.
Proof.
  revert o. induction s as [|x s IH]; intros o; simpl; [done|].
  destruct (Z.eqb_spec x 0) as [->|Hx]; [intros [= <-]; apply not_elem_of_nil|].
  destruct (Z.eqb_spec x c) as [->|Hc].
  - intros [= <-]. split; [done|lia].
  - destruct (strchr s c) as [o'|]; simpl; [|done]. intros [= <-].
    specialize (IH o' eq_refl). destruct o' as [i|]; simpl.
    + destruct IH as [H1 H2]. split; [done|]. intros [|j] Hj; [by intros [= ->]|].
      apply H2. lia.
    + rewrite not_elem_of_cons. done.
Qed.

Lemma strcpy_spec t w : strcpy t = Some w -> w = cut t ++ [0].
Proof.
  revert w. induction t as [|x t IH]; intros w; simpl; [done|].
  destruct (x =? 0); [by intros [= <-]|]. intros (v & Hv & ->)%fmap_Some.
  by rewrite (IH _ Hv).
Qed.

(** ** Words in byte memory *)

Definition ld4 (a : Z) (m : mem) : Z :=
  m a + 256 * m (u32 (a + 1)) + 65536 * m (u32 (a + 2)) + 16777216 * m (u32 (a + 3)).

(** A word address whose four bytes do not wrap. *)
Definition word_at (a : Z) : Prop := a mod 4 = 0 /\ 0 <= a < 2 ^ 32.

Lemma word_at_u32 a j : word_at a -> 0 <= j <= 3 -> u32 (a + j) = a + j.
Proof.
  intros [Ha Hr] Hj. apply u32_small.
  pose proof (Z.div_mod a 4). change (2 ^ 32) with (4 * 2 ^ 30) in *. lia.
Qed.

Lemma ld4_range a m : bytes_ok m -> 0 <= ld4 a m < 2 ^ 32.
Proof.
  intros Hm. unfold ld4. pose proof (Hm a). pose proof (Hm (u32 (a + 1))).
  pose proof (Hm (u32 (a + 2))). pose proof (Hm (u32 (a + 3))). lia.
Qed.

Lemma st1_bytes_ok a v m : bytes_ok m -> bytes_ok (st1 a v m).
Proof.
  intros Hm y. unfold st1. destruct (y =? a); [|apply Hm]. apply Z.mod_pos_bound. lia.
Qed.

Lemma st4_bytes_ok a v m : bytes_ok m -> bytes_ok (st4 a v m).
Proof. intros Hm. unfold st4. by repeat apply st1_bytes_ok. Qed.

Lemma st4_other a v m x : word_at a -> ~ (a <= x < a + 4) -> st4 a v m x = m x.
Proof.
  intros Ha Hx. unfold st4, st1. rewrite !word_at_u32 by (done || lia).
  by rewrite !(proj2 (Z.eqb_neq x _)) by lia.
Qed.

Lemma ld4_st4_same a v m : word_at a -> ld4 a (st4 a v m) = u32 v.
Proof.
  intros Ha. unfold ld4, st4, st1. rewrite !word_at_u32 by (done || lia).
  repeat (rewrite ?Z.eqb_refl; rewrite ?(proj2 (Z.eqb_neq (a + _) _)) by lia;
          rewrite ?(proj2 (Z.eqb_neq a _)) by lia).
  unfold u8, u32. rewrite !Z.shiftr_div_pow2 by lia.
  change (2 ^ 8) with 256. change (2 ^ 16) with (256 * 256).
  change (2 ^ 24) with (256 * 256 * 256).
  change (2 ^ 32) with (256 * (256 * (256 * 256))).
  rewrite (Z.rem_mul_r v 256), (Z.rem_mul_r (v / 256) 256), (Z.rem_mul_r (v / 256 / 256) 256) by lia.
  rewrite !Z.div_div by lia. rewrite ?Z.mul_assoc. lia.
Qed.

Lemma word_at_apart a b : word_at a -> word_at b -> a <> b -> a + 4 <= b \/ b + 4 <= a.
Proof. intros [Ha ?] [Hb ?] Hn. pose proof (Z.div_mod a 4). pose proof (Z.div_mod b 4). lia. Qed.

Lemma ld4_ext a m m' :
  word_at a -> (forall x, a <= x < a + 4 -> m x = m' x) -> ld4 a m = ld4 a m'.
Proof.
  intros Ha H. unfold ld4. rewrite !word_at_u32 by (done || lia). by rewrite !H by lia.
Qed.

Lemma ld4_st4_other a b v m : word_at a -> word_at b -> a <> b -> ld4 a (st4 b v m) = ld4 a m.
Proof.
  intros Ha Hb Hn. apply ld4_ext; [done|]. intros x Hx. apply st4_other; [done|].
  destruct (word_at_apart a b Ha Hb Hn); lia.
Qed.
