(* ===== verification/Printf.v ===== *)
(** * Formatted output (printf.c, and cprintf of console.c)

    The user library's [printf] and the kernel's [cprintf] as functions from
    the format and the argument words to the bytes they put out, in order.
    [deref] gives the bytes at a [char*] argument.  [None] is an access
    outside a buffer, the format or the arguments. *)
From S2P Require Import Prelude Strings.

Definition digits_upper : list Z :=
  [48; 49; 50; 51; 52; 53; 54; 55; 56; 57; 65; 66; 67; 68; 69; 70].
Definition digits_lower : list Z :=
  [48; 49; 50; 51; 52; 53; 54; 55; 56; 57; 97; 98; 99; 100; 101; 102].

(** The do-while loop of [printint]: the bytes put in [buf], which has room
    for [room] more. *)
Fixpoint put_digits (room : nat) (digits : list Z) (base x : Z) : option (list Z) :=
  match room with
  | O => None
  | S room' =>
      d ← rd digits (x mod base);
      if x / base =? 0 then Some [d] else cons d <$> put_digits room' digits base (x / base)
  end.

(** [xx] is the argument word read as an [int]. *)
Definition printint (digits : list Z) (xx base : Z) (sgn : bool) : option (list Z) :=
  let neg := sgn && (xx <? 0) in
  let x := if neg then u32 (- xx) else u32 xx in
  buf ← put_digits 16 digits base x;
  buf ← (if neg then if (length buf <? 16)%nat then Some (buf ++ [45]) else None else Some buf);
  Some (reverse buf).

(** ["(null)"] *)
Definition null_str : list Z := [40; 110; 117; 108; 108; 41; 0].

Section Formats.
Variable digits : list Z.
Variable deref : Z -> list Z.

(** The bytes put out for a [%s] argument. *)
Definition put_str (a : Z) : option (list Z) :=
  let s := if a =? 0 then null_str else deref a in
  match strlen s with Some _ => Some (cut s) | None => None end.

(** [printf] from state 0 ([esc = false]) or state '%' ([esc = true]). *)
Fixpoint printf_loop (fmt : list Z) (esc : bool) (ap : list Z) : option (list Z) :=
  match fmt with
  | [] => None
  | c :: fmt' =>
      if c =? 0 then Some [] else
      if negb esc then
        if c =? 37 then printf_loop fmt' true ap
        else cons c <$> printf_loop fmt' false ap
      else if c =? 100 then
        match ap with
        | [] => None
        | a :: ap' => o ← printint digits (s32 a) 10 true;
                      r ← printf_loop fmt' false ap'; Some (o ++ r)
        end
      else if (c =? 120) || (c =? 112) then
        match ap with
        | [] => None
        | a :: ap' => o ← printint digits (s32 a) 16 false;
                      r ← printf_loop fmt' false ap'; Some (o ++ r)
        end
      else if c =? 115 then
        match ap with
        | [] => None
        | a :: ap' => o ← put_str a; r ← printf_loop fmt' false ap'; Some (o ++ r)
        end
      else if c =? 99 then
        match ap with
        | [] => None
        | a :: ap' => cons (u8 a) <$> printf_loop fmt' false ap'
        end
      else if c =? 37 then cons c <$> printf_loop fmt' false ap
      else r ← printf_loop fmt' false ap; Some (37 :: c :: r)
  end.

(** The loop of [cprintf]. *)
Fixpoint cprintf_loop (fmt : list Z) (argp : list Z) : option (list Z) :=
  match fmt with
  | [] => None
  | c :: fmt' =>
      if c =? 0 then Some [] else
      if negb (c =? 37) then cons c <$> cprintf_loop fmt' argp else
      match fmt' with
      | [] => None
      | c :: fmt' =>
          if c =? 0 then Some [] else
          if c =? 100 then
            match argp with
            | [] => None
            | a :: argp' => o ← printint digits (s32 a) 10 true;
                            r ← cprintf_loop fmt' argp'; Some (o ++ r)
            end
          else if (c =? 120) || (c =? 112) then
            match argp with
            | [] => None
            | a :: argp' => o ← printint digits (s32 a) 16 false;
                            r ← cprintf_loop fmt' argp'; Some (o ++ r)
            end
          else if c =? 115 then
            match argp with
            | [] => None
            | a :: argp' => o ← put_str a; r ← cprintf_loop fmt' argp'; Some (o ++ r)
            end
          else if c =? 37 then cons 37 <$> cprintf_loop fmt' argp
          else r ← cprintf_loop fmt' argp; Some (37 :: c :: r)
      end
  end.
End Formats.

Definition printf (deref : Z -> list Z) (fmt args : list Z) : option (list Z) :=
  printf_loop digits_upper deref fmt false args.
(** The bytes [cprintf] passes to [consputc]. *)
Definition cprintf_out (deref : Z -> list Z) (fmt args : list Z) : option (list Z) :=
  cprintf_loop digits_lower deref fmt args.

(** ** Numbers *)

(** The number that digits, least significant first, stand for. *)
Fixpoint value (base : Z) (ds : list Z) : Z :=
  match ds with
  | [] => 0
  | d :: ds' => d + base * value base ds'
  end.

(** Ten digits are enough in base ten, eight in base sixteen. *)
Lemma put_digits_value room digits base x :
  (0 < room)%nat -> 1 < base <= Z.of_nat (length digits) -> 0 <= x < base ^ Z.of_nat room ->
  exists ds out, put_digits room digits base x = Some out /\
    Forall2 (fun d c => 0 <= d < base /\ rd digits d = Some c) ds out /\
    value base ds = x /\ (1 <= length out <= room)%nat.
Proof.
  intros Hr Hb. revert x Hr. induction room as [|room IH]; intros x Hr Hx; [lia|].
  assert (Hm : 0 <= x mod base < base) by (apply Z.mod_pos_bound; lia).
  destruct (rd_in_range digits (x mod base)) as [c Hc]; [lia|].
  simpl. rewrite Hc. simpl. destruct (Z.eqb_spec (x / base) 0) as [E|E].
  - exists [x mod base], [c]. split_and!; [done| |simpl; rewrite Z.mod_eq, E; lia|simpl; lia..].
    apply Forall2_cons; split; [done|]. apply Forall2_nil_2.
  - assert (Hq : 0 <= x / base < base ^ Z.of_nat room).
    { split; [apply Z.div_pos; lia|]. apply Z.div_lt_upper_bound; [lia|].
      rewrite Nat2Z.inj_succ, Z.pow_succ_r in Hx by lia. lia. }
    destruct (IH (x / base)) as (ds & out & Hp & Hf & Hv & Hl).
    { destruct room; [simpl in Hq|]; lia. }
    { done. }
    exists (x mod base :: ds), (c :: out). rewrite Hp. split_and!; [done|by constructor| |simpl; lia..].
    simpl. rewrite Hv. rewrite Z.mod_eq by lia. lia.
Qed.

Lemma atoi_loop_app ds cs n r :
  Forall2 (fun d c => 0 <= d < 10 /\ c = 48 + d) ds cs ->
  0 <= n -> n * 10 ^ Z.of_nat (length ds) + value 10 (reverse ds) < 2 ^ 31 ->
  atoi_loop (cs ++ 0 :: r) n = Some (n * 10 ^ Z.of_nat (length ds) + value 10 (reverse ds)).
Proof.
  assert (Happ : forall l d, value 10 (l ++ [d]) = value 10 l + d * 10 ^ Z.of_nat (length l)).
  { induction l as [|y l IHl]; intros d; [simpl; lia|]. simpl length. simpl value.
    rewrite IHl, Nat2Z.inj_succ, Z.pow_succ_r by lia. lia. }
  assert (Hpos : forall l, Forall (fun d => 0 <= d < 10) l -> 0 <= value 10 l).
  { induction 1; simpl; lia. }
  intros HF. revert n. induction HF as [|d c ds cs [Hd ->] HF IH]; intros n Hn Hlt.
  - simpl. f_equal. lia.
  - simpl atoi_loop.
    assert (E : n * 10 ^ Z.of_nat (length (d :: ds)) + value 10 (reverse (d :: ds))
      = (n * 10 + d) * 10 ^ Z.of_nat (length ds) + value 10 (reverse ds)).
    { rewrite reverse_cons, Happ, length_reverse. simpl length.
      rewrite Nat2Z.inj_succ, Z.pow_succ_r by lia. lia. }
    rewrite E in Hlt |- *.
    replace ((48 <=? 48 + d) && (48 + d <=? 57)) with true by lia.
    assert (0 <= value 10 (reverse ds)).
    { apply Hpos, Forall_reverse. clear -HF.
      induction HF as [|a b ? ? [Ha _]]; constructor; done. }
    pose proof (Z.pow_pos_nonneg 10 (Z.of_nat (length ds)) ltac:(lia) ltac:(lia)).
    replace (n * 10 + (48 + d) - 48) with (n * 10 + d) by lia.
    rewrite s32_small by nia. apply IH; [lia|lia].
Qed.

(** The digits below ten are the characters '0' to '9' in both tables. *)
Lemma decimal_digits ds out digits :
  digits = digits_upper \/ digits = digits_lower ->
  Forall2 (fun d c => 0 <= d < 10 /\ rd digits d = Some c) ds out ->
  Forall2 (fun d c => 0 <= d < 10 /\ c = 48 + d) ds out.
Proof.
  intros Ht HF. eapply Forall2_impl; [exact HF|]. intros d c [Hd Hc]. split; [done|].
  assert (Hcases : d = 0 \/ d = 1 \/ d = 2 \/ d = 3 \/ d = 4 \/ d = 5 \/ d = 6 \/ d = 7 \/ d = 8 \/ d = 9)
    by lia.
  destruct Ht as [-> | ->];
    repeat (destruct Hcases as [-> | Hcases]; [by injection Hc as <-|]);
    subst d; by injection Hc as <-.
Qed.

(** More room in the buffer changes nothing. *)
Lemma put_digits_room k j digits base x out :
  put_digits k digits base x = Some out -> put_digits (k + j) digits base x = Some out.
Proof.
  revert x out. induction k as [|k IH]; intros x out; simpl; [done|].
  destruct (rd digits _); simpl; [|done]. destruct (_ =? 0); [done|].
  intros (o & Ho & ->)%fmap_Some. by rewrite (IH _ _ Ho).
Qed.

(** [printint] prints every [int] but the smallest in base ten as an optional minus sign and
    digits that [atoi] reads back: the value itself when it is not negative,
    its absolute value after the sign when it is. *)
Theorem printint_atoi digits n :
  digits = digits_upper \/ digits = digits_lower -> - 2 ^ 31 < n < 2 ^ 31 ->
  exists ds, printint digits n 10 true = Some (if n <? 0 then 45 :: ds else ds) /\
    atoi (ds ++ [0]) = Some (Z.abs n) /\ (length ds <= 10)%nat.
Proof.
  intros Ht Hn. unfold printint. simpl andb.
  set (x := if n <? 0 then u32 (- n) else u32 n).
  assert (Hx : x = Z.abs n) by (unfold x; destruct (n <? 0) eqn:E; rewrite u32_small; lia).
  assert (Hlen : length digits = 16%nat) by (by destruct Ht as [-> | ->]).
  destruct (put_digits_value 10 digits 10 x) as (ds & out & Hp & Hf & Hv & Hl); [lia|lia|simpl; lia|].
  pose proof (put_digits_room 10 6 _ _ _ _ Hp) as Hp16. simpl (10 + 6)%nat in Hp16.
  rewrite Hp16. simpl. exists (reverse out).
  apply (decimal_digits _ _ _ Ht), Forall2_reverse in Hf.
  assert (Ha : atoi (reverse out ++ [0]) = Some (Z.abs n)).
  { unfold atoi. rewrite (atoi_loop_app (reverse ds) (reverse out)); [|done|lia|].
    - rewrite reverse_involutive. f_equal. lia.
    - rewrite reverse_involutive. lia. }
  split_and!; [|done|rewrite length_reverse; lia].
  destruct (n <? 0); [|done]. rewrite (proj2 (Nat.ltb_lt _ _)) by lia. simpl.
  by rewrite reverse_snoc.
Qed.

Lemma printint_atoi_witness :
  exists ds, printint digits_lower (-407) 10 true = Some (45 :: ds) /\
    atoi (ds ++ [0]) = Some 407.
Proof.
  destruct (printint_atoi digits_lower (-407) ltac:(by right) ltac:(lia)) as (ds & H1 & H2 & _).
  exists ds. split; [exact H1|exact H2].
Defined.

(** ** The two formatters agree *)

(** The format has no [%c] conversion, from state 0 or '%'. *)
Fixpoint no_pct_c (fmt : list Z) (esc : bool) : bool :=
  match fmt with
  | [] => true
  | c :: fmt' =>
      if c =? 0 then true
      else if esc then negb (c =? 99) && no_pct_c fmt' false
      else no_pct_c fmt' (c =? 37)
  end.

Lemma printf_cprintf_both digits deref fmt :
  (forall ap, no_pct_c fmt false = true ->
     printf_loop digits deref fmt false ap = cprintf_loop digits deref fmt ap) /\
  (forall ap, no_pct_c fmt true = true ->
     printf_loop digits deref fmt true ap = cprintf_loop digits deref (37 :: fmt) ap).
Proof.
  induction fmt as [|c fmt [IH1 IH2]]; [by split|]. split; intros ap; cbn [no_pct_c].
  - destruct (Z.eqb_spec c 0) as [->|Hc0]; [done|]. intros Hp.
    cbn [printf_loop]. rewrite (proj2 (Z.eqb_neq c 0)) by done. cbn [negb].
    destruct (Z.eqb_spec c 37) as [->|Hc].
    + by rewrite IH2.
    + cbn [cprintf_loop]. rewrite (proj2 (Z.eqb_neq c 0)), (proj2 (Z.eqb_neq c 37)) by done.
      cbn [negb]. by rewrite IH1.
  - cbn [printf_loop cprintf_loop]. change (37 =? 0) with false. change (37 =? 37) with true.
    cbn [negb]. destruct (Z.eqb_spec c 0) as [->|Hc0]; [done|].
    intros [Hc Hp]%andb_prop. apply negb_true_iff in Hc. rewrite Hc.
    assert (IH : forall ap', printf_loop digits deref fmt false ap' = cprintf_loop digits deref fmt ap')
      by (intros; by apply IH1).
    destruct (c =? 100); [destruct ap; [done|by rewrite IH]|].
    destruct (_ || _); [destruct ap; [done|by rewrite IH]|].
    destruct (c =? 115); [destruct ap; [done|by rewrite IH]|].
    rewrite IH. destruct (Z.eqb_spec c 37) as [->|H37]; done.
Qed.

(** On formats without [%c] the user's [printf] and the kernel's [cprintf]
    put out the same bytes, fail on the same inputs and treat unknown and
    unfinished conversions alike, given the same digit table. *)
Theorem printf_cprintf_equiv digits deref fmt args :
  no_pct_c fmt false = true ->
  printf_loop digits deref fmt false args = cprintf_loop digits deref fmt args.
Proof. apply printf_cprintf_both. Qed.

(** The format "a%d%%%q%" *)
Lemma printf_cprintf_equiv_witness :
  printf_loop digits_lower (fun _ => []) [97; 37; 100; 37; 37; 37; 113; 37; 0] false [4294967295]
  = Some [97; 45; 49; 37; 37; 113].
Proof.
  rewrite (printf_cprintf_equiv digits_lower (fun _ => []) [97; 37; 100; 37; 37; 37; 113; 37; 0]
             [4294967295] eq_refl). reflexivity.
Defined.
