(* ===== verification/Kalloc.v ===== *)
(** * Physical page allocator (kalloc.c)

    The free list runs through the free pages themselves: the first word of a
    free page is the address of the next one.  The state is the lock (lock 0
    of [klks]), the flag [use_lock], the list head and byte memory.  [end_] is
    the linker's symbol [end]. *)
From S2P Require Import Prelude Mmu Spinlock Strings.

Record kmem := Kmem {
  klks : lstate;
  use_lock : bool;
  freelist : Z;
  memory : mem
}.

Definition set_klks (v : lstate) (k : kmem) : kmem := Kmem v (use_lock k) (freelist k) (memory k).
Definition set_use_lock (v : bool) (k : kmem) : kmem := Kmem (klks k) v (freelist k) (memory k).
Definition set_freelist (v : Z) (k : kmem) : kmem := Kmem (klks k) (use_lock k) v (memory k).
Definition set_memory (v : mem) (k : kmem) : kmem := Kmem (klks k) (use_lock k) (freelist k) v.

Definition lock_kmem : M kmem unit :=
  u <~ gets use_lock;;; when u (zoom klks set_klks (acquire 0)).
Definition unlock_kmem : M kmem unit :=
  u <~ gets use_lock;;; when u (zoom klks set_klks (release 0)).

Section Kalloc.
Variable end_ : Z.

Definition kfree (v : Z) : M kmem unit :=
  if negb (v mod PGSIZE =? 0) || (v <? end_) || (PHYSTOP <=? v2p v) then panic "kfree" else
  modify (fun k => set_memory (memset v 1 PGSIZE (memory k)) k);;;
  lock_kmem;;;
  r <~ gets freelist;;;
  modify (fun k => set_memory (st4 v r (memory k)) k);;;
  modify (set_freelist v);;;
  unlock_kmem.

Definition kalloc : M kmem Z :=
  lock_kmem;;;
  r <~ gets freelist;;;
  when (negb (r =? 0)) (modify (fun k => set_freelist (ld4 r (memory k)) k));;;
  unlock_kmem;;;
  ret r.

(** [for(; p + PGSIZE <= vend; p += PGSIZE) kfree(p)]; [fuel] bounds the number
    of pages. *)
Fixpoint free_pages (fuel : nat) (p vend : Z) : M kmem unit :=
  match fuel with
  | O => hang
  | S fuel' =>
      if u32 (p + PGSIZE) <=? vend
      then kfree p;;; free_pages fuel' (u32 (p + PGSIZE)) vend
      else ret tt
  end.

Definition freerange (vstart vend : Z) : M kmem unit :=
  free_pages (S (Z.to_nat (vend / PGSIZE))) (PGROUNDUP vstart) vend.

Definition kinit1 (vstart vend : Z) : M kmem unit :=
  zoom klks set_klks (initlock 0 "kmem");;;
  modify (set_use_lock false);;;
  freerange vstart vend.

Definition kinit2 (vstart vend : Z) : M kmem unit :=
  freerange vstart vend;;;
  modify (set_use_lock true).

(** ** The pool of free pages *)

(** The linked list from [head] holds the pages [l], in order. *)
Fixpoint chain (m : mem) (head : Z) (l : list Z) : Prop :=
  match l with
  | [] => head = 0
  | p :: l' => head = p /\ chain m (ld4 p m) l'
  end.

(** What [kfree] accepts. *)
Definition page_ok (p : Z) : Prop :=
  p mod 4096 = 0 /\ end_ <= p < KERNBASE + PHYSTOP.

Definition lock_free (l : lstate) : Prop :=
  quiet (this_cpu l) /\ exists lk, locks l !! 0%nat = Some lk /\ locked lk = 0 /\ lcpu lk = None.

Record pool (k : kmem) (l : list Z) : Prop := {
  p_chain : chain (memory k) (freelist k) l;
  p_nodup : NoDup l;
  p_pages : Forall page_ok l;
  p_bytes : bytes_ok (memory k);
  p_lock : lock_free (klks k)
}.

(** Nothing but the lock's saved interrupt flag differs. *)
Definition same_locks (l l' : lstate) : Prop :=
  ncli (this_cpu l') = ncli (this_cpu l) /\ eflags_if (this_cpu l') = eflags_if (this_cpu l) /\
  id (this_cpu l') = id (this_cpu l) /\ locks l' = locks l.

(** The linker places the kernel in its half of the address space. *)
Hypothesis end_kernel : KERNLINK <= end_.

Lemma page_ok_word p : page_ok p -> word_at p /\ p <> 0 /\ 0 <= p /\ p + 4096 < 2 ^ 32.
Proof.
  intros [Hm Hr]. unfold KERNLINK, KERNBASE, EXTMEM, PHYSTOP in *. unfold word_at.
  pose proof (Z.div_mod p 4096). pose proof (Z.div_mod p 4).
  pose proof (Z.mod_pos_bound p 4). lia.
Qed.

Lemma page_ok_guard p :
  page_ok p -> negb (p mod PGSIZE =? 0) || (p <? end_) || (PHYSTOP <=? v2p p) = false.
Proof.
  intros [Hm Hr]. unfold PGSIZE, v2p.
  unfold KERNLINK, KERNBASE, EXTMEM, PHYSTOP in *. rewrite u32_small; lia.
Qed.

(** Different pages do not overlap. *)
Lemma pages_apart p q : page_ok p -> page_ok q -> p <> q -> p + 4096 <= q \/ q + 4096 <= p.
Proof. intros [Hp _] [Hq _] Hn. pose proof (Z.div_mod p 4096). pose proof (Z.div_mod q 4096). lia. Qed.

(** The list is read from the first words of its pages only. *)
Lemma chain_ext m m' h l :
  Forall page_ok l -> (forall p, p ∈ l -> ld4 p m' = ld4 p m) -> chain m h l -> chain m' h l.
Proof.
  revert h. induction l as [|p l IH]; intros h HF Hm; [done|]. simpl.
  intros [-> Hc]. split; [done|]. rewrite Hm by left.
  apply Forall_cons in HF as [_ HF]. apply IH; [done| |done]. intros q Hq. apply Hm. by right.
Qed.

(** A call between [lock_kmem] and [unlock_kmem]. *)
Lemma locked_section {A} (body : M kmem A) k f r :
  lock_free (klks k) ->
  (forall l, body (set_klks l k) = Ret r (set_klks l (f k))) -> use_lock (f k) = use_lock k ->
  exists l', (lock_kmem;;; x <~ body;;; unlock_kmem;;; ret x) k = Ret r (set_klks l' (f k)) /\
    same_locks (klks k) l' /\ lock_free l'.
Proof.
  intros (Hq & lk & Hl & Hlk & Hc) Hb Hu.
  unfold lock_kmem, unlock_kmem. destruct (use_lock k) eqn:E.
  - destruct (acquire_release_id (klks k) 0 lk Hl Hlk Hc Hq) as (s1 & ena & H1 & _ & _ & _ & H2).
    exists (set_cpu (Cpu (id (this_cpu (klks k))) (ncli (this_cpu (klks k))) ena
                         (eflags_if (this_cpu (klks k)))) (klks k)).
    unfold bind, gets. rewrite E. simpl. unfold zoom at 1. rewrite H1.
    rewrite Hb. simpl. rewrite Hu. unfold zoom. simpl. rewrite H2. split; [done|].
    split; [done|]. split; [exact Hq|]. by exists lk.
  - exists (klks k). unfold bind, gets. rewrite E. simpl.
    pose proof (Hb (klks k)) as Hb'. replace (set_klks (klks k) k) with k in Hb' by (by destruct k).
    rewrite Hb'. simpl. rewrite Hu. simpl. split; [done|]. split; [done|]. split; [done|]. by exists lk.
Qed.

Lemma kalloc_run k l :
  pool k l ->
  exists k', kalloc k = Ret (default 0 (head l)) k' /\ pool k' (tail l) /\
    memory k' = memory k /\ use_lock k' = use_lock k /\ same_locks (klks k) (klks k').
Proof.
  intros [Hc Hn Hp Hb Hl]. unfold kalloc.
  set (f := fun k => if negb (freelist k =? 0) then set_freelist (ld4 (freelist k) (memory k)) k else k).
  destruct (locked_section (r <~ gets freelist;;;
     when (negb (r =? 0)) (modify (fun k => set_freelist (ld4 r (memory k)) k));;; ret r) k f (freelist k))
    as (l' & Hr & Hs & Hf).
  - done.
  - intros l'. unfold f. mred. simpl. by destruct (freelist k =? 0).
  - unfold f. by destruct (negb _).
  - assert (E : freelist k = default 0 (head l)) by (destruct l; [done|by destruct Hc]).
    rewrite <- E. exists (set_klks l' (f k)). split.
    + rewrite <- Hr. unfold bind, gets, when. destruct (lock_kmem k); [|done..].
      destruct (negb _); simpl; done.
    + split; [|by unfold f; destruct (negb _)].
      destruct l as [|p l].
      * simpl in Hc. unfold f. rewrite Hc. simpl. by split.
      * destruct Hc as [Hfl Hc]. apply Forall_cons in Hp as [Hpp Hp].
        apply NoDup_cons in Hn as [_ Hn].
        destruct (page_ok_word p Hpp) as (_ & Hp0 & _). unfold f. rewrite Hfl.
        rewrite (proj2 (Z.eqb_neq p 0)) by done. simpl. by split.
Qed.

Lemma kfree_run k l v :
  pool k l -> page_ok v -> v ∉ l ->
  exists k', kfree v k = Ret tt k' /\ pool k' (v :: l) /\
    (forall x, ~ (v <= x < v + 4096) -> memory k' x = memory k x) /\
    use_lock k' = use_lock k /\ same_locks (klks k) (klks k').
Proof.
  intros [Hc Hn Hp Hb Hl] Hv Hnew. destruct (page_ok_word v Hv) as (Hw & Hv0 & Hv1 & Hv2).
  unfold kfree. rewrite page_ok_guard by done. mrun.
  set (m1 := memset v 1 PGSIZE (memory k)). set (k1 := set_memory m1 k).
  assert (Hm1 : forall x, m1 x = if decide (v <= x < v + 4096) then 1 else memory k x).
  { intros x. unfold m1. rewrite memset_at by (unfold PGSIZE; lia). done. }
  assert (Hb1 : bytes_ok m1).
  { intros x. rewrite Hm1. case_decide; [lia|apply Hb]. }
  set (f := fun k => set_freelist v (set_memory (st4 v (freelist k) (memory k)) k)).
  destruct (locked_section (r <~ gets freelist;;; modify (fun k => set_memory (st4 v r (memory k)) k);;;
     modify (set_freelist v)) k1 f tt) as (l' & Hr & Hs & Hf); [done|done|done|].
  exists (set_klks l' (f k1)). split.
  { rewrite <- Hr. unfold bind, gets, modify. destruct (lock_kmem k1); [|done..].
    by destruct (unlock_kmem _) as [[]| | | |]. }
  assert (Hout : forall x, ~ (v <= x < v + 4096) -> memory (f k1) x = memory k x).
  { intros x Hx. simpl. rewrite st4_other by (done || lia). by rewrite Hm1, decide_False. }
  assert (Hfl : u32 (freelist k) = freelist k).
  { destruct l as [|p l]; simpl in Hc; [by rewrite Hc|]. destruct Hc as [-> _].
    apply Forall_cons in Hp as [Hpp _]. apply page_ok_word in Hpp. apply u32_small. lia. }
  split; [|by split_and!]. split; simpl.
  - split; [done|]. rewrite ld4_st4_same, Hfl by done.
    eapply chain_ext; [done| |exact Hc]. intros p Hpl.
    assert (Hpp : page_ok p) by by eapply Forall_forall.
    apply ld4_ext; [by apply page_ok_word|]. intros x Hx. apply (Hout x).
    destruct (pages_apart p v Hpp Hv); [by intros ->|lia..].
  - by apply NoDup_cons.
  - by apply Forall_cons.
  - by apply st4_bytes_ok.
  - done.
Qed.

(** The pages [kfree]d by [freerange], in the order of the list it leaves. *)
Lemma free_pages_run fuel k l p vend n :
  pool k l -> p mod 4096 = 0 -> end_ <= p -> vend <= KERNBASE + PHYSTOP ->
  n = Z.to_nat ((vend - p) / 4096) -> p <= vend -> (n < fuel)%nat ->
  (forall q, q ∈ l -> q < p) ->
  exists k', free_pages fuel p vend k = Ret tt k' /\
    pool k' (reverse ((fun i => p + 4096 * i) <$> seqZ 0 (Z.of_nat n)) ++ l) /\
    use_lock k' = use_lock k.
Proof.
  revert fuel k l p. induction n as [|n IH]; intros fuel k l p Hpool Hal Hlo Hhi Hn Hpv Hfuel Hlt.
  all: destruct fuel as [|fuel]; [lia|]; cbn [free_pages]; unfold PGSIZE.
  all: assert (Hu : u32 (p + 4096) = p + 4096) by (apply u32_small;
         unfold KERNLINK, KERNBASE, EXTMEM, PHYSTOP in *; lia).
  all: rewrite Hu; pose proof (Z.div_mod (vend - p) 4096); pose proof (Z.mod_pos_bound (vend - p) 4096).
  - rewrite (proj2 (Z.leb_gt _ _)) by lia. by exists k.
  - rewrite (proj2 (Z.leb_le _ _)) by lia.
    assert (Hpg : page_ok p) by (split; [done|]; unfold PHYSTOP, KERNBASE in *; lia).
    destruct (kfree_run k l p Hpool Hpg) as (k1 & Hk1 & Hpool1 & _ & Hu1 & _).
    { intros Hin. specialize (Hlt _ Hin). lia. }
    erewrite bind_Ret by exact Hk1.
    destruct (IH fuel k1 (p :: l) (p + 4096)) as (k2 & Hk2 & Hpool2 & Hu2).
    + done.
    + rewrite <- Z.add_mod_idemp_r, Z_mod_same_full, Z.add_0_r by lia. done.
    + lia.
    + lia.
    + replace (vend - (p + 4096)) with (vend - p + (-1) * 4096) by lia.
      rewrite Z.div_add by lia. lia.
    + lia.
    + lia.
    + intros q Hq. apply elem_of_cons in Hq as [->|Hq]; [lia|]. specialize (Hlt _ Hq). lia.
    + exists k2. split; [done|]. split; [|congruence].
      replace (reverse ((fun i => p + 4096 * i) <$> seqZ 0 (Z.of_nat (S n))) ++ l)
        with (reverse ((fun i => p + 4096 + 4096 * i) <$> seqZ 0 (Z.of_nat n)) ++ p :: l); [done|].
      rewrite (seqZ_cons 0 (Z.of_nat (S n))) by lia. rewrite fmap_cons, reverse_cons, <- app_assoc. simpl.
      replace (p + 4096 * 0) with p by lia. f_equal. f_equal.
      replace (Z.succ 0) with (1 + 0) by lia. rewrite <- (fmap_add_seqZ 1).
      replace (Z.pred (Z.of_nat (S n))) with (Z.of_nat n) by lia.
      rewrite <- list_fmap_compose. apply list_fmap_ext. intros i x Hx. simpl. lia.
Qed.

(** [freerange] puts exactly the whole pages of a range on the free list,
    the highest one first, in front of the pages that were free before, and
    terminates. *)
Theorem freerange_pool k l vstart vend :
  pool k l -> end_ <= vstart <= vend -> vend <= KERNBASE + PHYSTOP ->
  PGROUNDUP vstart <= vend -> (forall q, q ∈ l -> q < PGROUNDUP vstart) ->
  exists k', freerange vstart vend k = Ret tt k' /\
    pool k' (reverse ((fun i => PGROUNDUP vstart + 4096 * i) <$>
               seqZ 0 ((vend - PGROUNDUP vstart) / 4096)) ++ l) /\
    use_lock k' = use_lock k.
Proof.
  intros Hp Hs Hv Hr Hl. unfold freerange.
  assert (Hup : PGROUNDUP vstart mod 4096 = 0 /\ vstart <= PGROUNDUP vstart).
  { rewrite PGROUNDUP_eq in * by (unfold KERNLINK, KERNBASE, EXTMEM, PHYSTOP in *; lia).
    pose proof (Z.mod_pos_bound (vstart + 4095) 4096 ltac:(lia)). split; [apply page_mod|lia]. }
  destruct (free_pages_run (S (Z.to_nat (vend / PGSIZE))) k l (PGROUNDUP vstart) vend
              (Z.to_nat ((vend - PGROUNDUP vstart) / 4096)))
    as (k' & Hk & Hpool & Hu); try (done || lia).
  - unfold PGSIZE. apply Nat.lt_succ_r, Z2Nat.inj_le; [apply Z.div_pos; lia|apply Z.div_pos|
      apply Z.div_le_mono]; unfold KERNLINK, KERNBASE, EXTMEM in *; lia.
  - exists k'. split; [exact Hk|]. split; [|done].
    rewrite Z2Nat.id in Hpool by (apply Z.div_pos; lia). exact Hpool.
Qed.

(** ** Clients *)

(** A client that frees only pages it was given. *)
Inductive kstep : kmem * list Z -> kmem * list Z -> Prop :=
| ks_alloc k k' own p :
    kalloc k = Ret p k' -> kstep (k, own) (k', if p =? 0 then own else p :: own)
| ks_free k k' l1 p l2 :
    kfree p k = Ret tt k' -> kstep (k, l1 ++ p :: l2) (k', l1 ++ l2).

Inductive ksteps : kmem * list Z -> kmem * list Z -> Prop :=
| kss_refl s : ksteps s s
| kss_step s t u : ksteps s t -> kstep t u -> ksteps s u.

Lemma ksteps_inv k l k' own :
  pool k l -> ksteps (k, []) (k', own) ->
  exists l', pool k' l' /\ NoDup (own ++ l') /\ own ++ l' ≡ₚ l.
Proof.
  intros Hpool Hrun. remember (k, []) as s eqn:Es. remember (k', own) as t eqn:Et.
  revert k' own Et. induction Hrun as [s|s t u Hrun IH Hst]; intros k' own ->.
  - injection Es as -> ->. exists l. split_and!; [done| |done]. apply Hpool.
  - subst s. inversion Hst as [k0 ? own0 p Ha|k0 ? l1 p l2 Hf]; subst.
    + destruct (IH eq_refl _ _ eq_refl) as (l' & Hp & Hnd & Hperm).
      destruct (kalloc_run _ _ Hp) as (k1 & Hk1 & Hp1 & _).
      rewrite Ha in Hk1. injection Hk1 as -> ->. exists (tail l').
      destruct l' as [|q l']; [done|]. simpl.
      destruct (page_ok_word q) as (_ & Hq & _); [by pose proof (p_pages _ _ Hp) as [? _]%Forall_cons|].
      rewrite (proj2 (Z.eqb_neq q 0)) by done. simpl.
      assert (Hsw : q :: own0 ++ l' ≡ₚ own0 ++ q :: l') by apply Permutation_middle.
      split_and!; [done|by rewrite Hsw|by rewrite Hsw].
    + destruct (IH eq_refl _ _ eq_refl) as (l' & Hp & Hnd & Hperm).
      assert (Hsw : (l1 ++ p :: l2) ++ l' ≡ₚ (l1 ++ l2) ++ p :: l').
      { rewrite <- !app_assoc. simpl. rewrite !Permutation_middle. done. }
      rewrite Hsw in Hnd, Hperm.
      assert (Hpage : page_ok p).
      { eapply Forall_forall; [apply (p_pages _ _ Hpool)|]. rewrite <- Hperm.
        apply elem_of_app. right. left. }
      destruct (kfree_run _ _ p Hp Hpage) as (k1 & Hk1 & Hp1 & _).
      { apply NoDup_app in Hnd as (_ & _ & Hnd). by apply NoDup_cons in Hnd as [? _]. }
      rewrite Hf in Hk1. injection Hk1 as ->. by exists (p :: l').
Qed.

(** C22: along every run of [kalloc] and [kfree] in which a page is freed only
    by a holder, no page is handed out twice: the pages held are distinct,
    none is on the free list, and free and held pages together are always the
    pages there were.  [kalloc] fails only when every page is held, and
    [kfree] of a held page never panics. *)
Theorem kalloc_exclusive k l k' own :
  pool k l -> ksteps (k, []) (k', own) ->
  exists l', pool k' l' /\ NoDup (own ++ l') /\ own ++ l' ≡ₚ l /\
    (exists p k2, kalloc k' = Ret p k2 /\ (p = 0 <-> l' = [])) /\
    (forall p, p ∈ own -> exists k2, kfree p k' = Ret tt k2).
Proof.
  intros Hpool Hrun. destruct (ksteps_inv _ _ _ _ Hpool Hrun) as (l' & Hp & Hnd & Hperm).
  exists l'. split_and!; [done..| |].
  - destruct (kalloc_run _ _ Hp) as (k2 & Hk & _). eexists _, k2. split; [exact Hk|].
    destruct l' as [|q l']; [done|]. simpl. split; [|done]. intros ->.
    pose proof (p_pages _ _ Hp) as [Hq _]%Forall_cons. by apply page_ok_word in Hq as (_ & ? & _).
  - intros p Hin. destruct (kfree_run k' l' p Hp) as (k2 & Hk & _); [| |by exists k2].
    + eapply Forall_forall; [apply (p_pages _ _ Hpool)|]. rewrite <- Hperm.
      apply elem_of_app. by left.
    + intros Hin'. apply NoDup_app in Hnd as (_ & Hdis & _). by apply (Hdis p).
Qed.
End Kalloc.

(** A machine with three free pages, and the allocator's first steps on it. *)
Definition kmem0 : kmem := Kmem (LState (Cpu 0 0 false true) [Spinlock 0 "kmem" None]) false 0 (fun _ => 0).
Definition end_demo : Z := 0x80112000.

Lemma kmem0_pool : pool end_demo kmem0 [].
Proof.
  split; [done|constructor|constructor|intros y; simpl; lia|].
  split; [split; [simpl; lia|simpl; lia]|]. by eexists.
Qed.

Lemma freerange_pool_witness :
  exists k', freerange end_demo 0x80112345 0x80115678 kmem0 = Ret tt k' /\
    pool end_demo k' [0x80114000; 0x80113000].
Proof.
  destruct (freerange_pool end_demo ltac:(unfold end_demo, KERNLINK, KERNBASE, EXTMEM; lia)
              kmem0 [] 0x80112345 0x80115678 kmem0_pool) as (k' & H1 & H2 & _).
  - unfold end_demo. lia.
  - unfold KERNBASE, PHYSTOP. lia.
  - vm_compute. discriminate.
  - intros q Hq. by apply elem_of_nil in Hq.
  - exists k'. split; [exact H1|]. exact H2.
Defined.

(** A pool of one page, allocated and freed again. *)
Definition kmem1 : kmem := set_freelist 0x80113000 kmem0.

Lemma kmem1_pool : pool end_demo kmem1 [0x80113000].
Proof.
  split; [by split|apply NoDup_singleton| |intros y; simpl; lia|apply kmem0_pool].
  constructor; [|constructor]. unfold page_ok, end_demo, KERNBASE, PHYSTOP. split; [done|lia].
Qed.

Definition kmem2 : kmem :=
  set_freelist 0 kmem1.

Lemma kmem2_steps : ksteps end_demo (kmem1, []) (kmem2, [0x80113000]).
Proof.
  eapply kss_step; [apply kss_refl|].
  apply (ks_alloc end_demo kmem1 kmem2 [] 0x80113000). reflexivity.
Qed.

Lemma kalloc_exclusive_witness :
  exists k2, kfree end_demo 0x80113000 kmem2 = Ret tt k2.
Proof.
  destruct (kalloc_exclusive end_demo ltac:(unfold end_demo, KERNLINK, KERNBASE, EXTMEM; lia)
              kmem1 [0x80113000] kmem2 [0x80113000] kmem1_pool kmem2_steps)
    as (l' & _ & _ & _ & _ & H).
  apply H. left.
Defined.
