(* ===== verification/Grep.v ===== *)
(** * The pattern matcher and the line loop of grep (grep.c)

    Strings without their terminator: the NUL that ends a pattern or a text is
    the end of the list.  The buffer of [grep] is the 1024 bytes of [buf],
    NULs included. *)
From S2P Require Import Prelude Strings.

(** ** The matcher *)

Definition STAR : Z := 42.
Definition DOT : Z := 46.
Definition DOLLAR : Z := 36.
Definition CARET : Z := 94.

(** [matchstar(c, re, text)] with [here] for [matchhere(re, _)]: try the rest
    of the pattern, then step over one more character. *)
Fixpoint matchstar (c : Z) (here : list Z -> bool) (text : list Z) : bool :=
  here text ||
  match text with
  | [] => false
  | t :: text' => ((t =? c) || (c =? DOT)) && matchstar c here text'
  end.

Fixpoint matchhere (re text : list Z) {struct re} : bool :=
  match re with
  | [] => true
  | c :: re' =>
      let plain :=
        if (c =? DOLLAR) && (match re' with [] => true | _ => false end)
        then match text with [] => true | _ => false end
        else match text with
             | [] => false
             | t :: text' => ((c =? DOT) || (c =? t)) && matchhere re' text'
             end in
      match re' with
      | s :: re'' => if s =? STAR then matchstar c (matchhere re'') text else plain
      | [] => plain
      end
  end.

(** The do-while loop over the suffixes of the text, the empty one included. *)
Fixpoint match_from (re text : list Z) : bool :=
  matchhere re text || match text with [] => false | _ :: text' => match_from re text' end.

Definition match_re (re text : list Z) : bool :=
  match re with
  | c :: re' => if c =? CARET then matchhere re' text else match_from re text
  | [] => match_from re text
  end.

(** ** The meaning of a pattern *)

(** A pattern is a list of single characters and starred characters, perhaps
    ended by an anchor; '.' stands for any character. *)
Inductive item := One (c : Z) | Star (c : Z) | Anchor.

Fixpoint items (re : list Z) : list item :=
  match re with
  | [] => []
  | c :: re' =>
      match re' with
      | [] => if c =? DOLLAR then [Anchor] else [One c]
      | s :: re'' => if s =? STAR then Star c :: items re'' else One c :: items re'
      end
  end.

Definition fits (c t : Z) : Prop := c = DOT \/ c = t.

(** [lang its w post]: the items match exactly [w] when [post] follows it. *)
Inductive lang : list item -> list Z -> list Z -> Prop :=
| lang_nil post : lang [] [] post
| lang_one c t its w post : fits c t -> lang its w post -> lang (One c :: its) (t :: w) post
| lang_star c ts its w post :
    Forall (fits c) ts -> lang its w post -> lang (Star c :: its) (ts ++ w) post
| lang_anchor its w : lang its w [] -> lang (Anchor :: its) w [].

Lemma matchstar_spec c (here : list Z -> bool) text :
  matchstar c here text = true <->
  exists ts rest, text = ts ++ rest /\ Forall (fits c) ts /\ here rest = true.
Proof.
  induction text as [|t text IH]; simpl.
  - rewrite orb_false_r. split.
    + intros H. by exists [], [].
    + intros (ts & rest & E & _ & H). symmetry in E. by apply app_nil in E as [-> ->].
  - rewrite orb_true_iff, andb_true_iff, IH. split.
    + intros [H|[Hc (ts & rest & -> & HF & H)]].
      * by exists [], (t :: text).
      * exists (t :: ts), rest. split; [done|]. split; [|done]. constructor; [|done].
        unfold fits. lia.
    + intros (ts & rest & E & HF & H). destruct ts as [|t' ts]; simpl in E.
      * subst rest. by left.
      * injection E as -> ->. apply Forall_cons in HF as [Hf HF]. right. split.
        { unfold fits in Hf. lia. }
        by exists ts, rest.
Qed.

(** A pattern matches at the start of a text when its items match a prefix. *)
Lemma matchhere_spec n re text :
  (length re <= n)%nat ->
  matchhere re text = true <-> exists w post, text = w ++ post /\ lang (items re) w post.
Proof.
  revert re text. induction n as [|n IH]; intros re text Hn.
  { destruct re; [|simpl in Hn; lia]. split; [|done]. intros _. exists [], text. by repeat constructor. }
  destruct re as [|c re]; [split; [|done]; intros _; exists [], text; by repeat constructor|].
  simpl in Hn. cbn [matchhere items].
  (* the single-character case, shared by the two shapes of the rest *)
  assert (Hone : forall re', (length re' <= n)%nat ->
    (match text with [] => false | t :: text' => ((c =? DOT) || (c =? t)) && matchhere re' text' end = true
     <-> exists w post, text = w ++ post /\ lang (One c :: items re') w post)).
  { intros re' Hre'. destruct text as [|t text].
    - split; [done|]. intros (w & post & E & HL). inversion HL; by subst.
    - rewrite andb_true_iff, (IH re' text) by done. split.
      + intros [Hc (w & post & -> & HL)]. exists (t :: w), post. split; [done|].
        constructor; [unfold fits; lia|done].
      + intros (w & post & E & HL). inversion HL as [|? t' ? w' ? Hf HL'| |]; subst.
        injection E as -> ->. split; [unfold fits in Hf; lia|]. by exists w', post. }
  destruct re as [|s re].
  - rewrite andb_true_r. destruct (c =? DOLLAR) eqn:Ed; [|apply (Hone []); simpl; lia].
    destruct text as [|t text]; (split; [|]).
    + intros _. exists [], []. split; [done|]. repeat constructor.
    + done.
    + done.
    + intros (w & post & E & HL). inversion HL as [| | |? ? HL']; subst. inversion HL'; subst. done.
  - destruct (s =? STAR).
    + rewrite matchstar_spec. simpl in Hn. split.
      * intros (ts & rest & -> & HF & H). apply IH in H as (w & post & -> & HL); [|lia].
        exists (ts ++ w), post. split; [by rewrite app_assoc|by constructor].
      * intros (w & post & -> & HL). inversion HL as [| |? ts ? w' ? HF HL'|]; subst.
        exists ts, (w' ++ post). split; [by rewrite app_assoc|]. split; [done|].
        apply IH; [lia|]. by exists w', post.
    + rewrite andb_false_r. apply Hone. simpl in *. lia.
Qed.

Lemma match_from_spec re text :
  match_from re text = true <-> exists pre rest, text = pre ++ rest /\ matchhere re rest = true.
Proof.
  induction text as [|t text IH]; simpl; rewrite orb_true_iff.
  - split.
    + intros [H|H]; [|done]. by exists [], [].
    + intros (pre & rest & E & H). symmetry in E. apply app_nil in E as [-> ->]. by left.
  - rewrite IH. split.
    + intros [H|(pre & rest & -> & H)]; [by exists [], (t :: text)|by exists (t :: pre), rest].
    + intros (pre & rest & E & H). destruct pre as [|t' pre]; simpl in E; [subst; by left|].
      injection E as -> ->. right. by exists pre, rest.
Qed.

(** C40: grep's matcher accepts a line exactly when some part of it is in the
    language of the pattern: the part may start anywhere, or only at the start
    of the line after '^', and must end the line when the pattern ends in
    '$'. *)
Theorem match_re_correct re text :
  match_re re text = true <->
  match re with
  | c :: re' =>
      if c =? CARET
      then exists w post, text = w ++ post /\ lang (items re') w post
      else exists pre w post, text = pre ++ w ++ post /\ lang (items re) w post
  | [] => True
  end.
Proof.
  assert (Hany : forall r, match_from r text = true <->
    exists pre w post, text = pre ++ w ++ post /\ lang (items r) w post).
  { intros r. rewrite match_from_spec. split.
    - intros (pre & rest & -> & H). apply (matchhere_spec (length r)) in H as (w & post & -> & HL); [|done].
      by exists pre, w, post.
    - intros (pre & w & post & -> & HL). exists pre, (w ++ post). split; [done|].
      apply (matchhere_spec (length r)); [done|]. by exists w, post. }
  destruct re as [|c re].
  - split; [done|]. intros _. by destruct text.
  - simpl. destruct (c =? CARET); [|apply Hany].
    by apply (matchhere_spec (length re)).
Qed.

(** The pattern ".*b$" on "aab", and "^b" on "ab". *)
Example match_re_examples :
  match_re [46; 42; 98; 36] [97; 97; 98] = true /\ match_re [94; 98] [97; 98] = false.
Proof. by split. Qed.

(** ** The line loop *)

Definition GREP_BUF : nat := 1024.

(** [read(fd, _, n)] on an input that arrives in pieces: at most [n] bytes of
    the next piece. *)
Definition read_piece (n : nat) (input : list (list Z)) : list Z * list (list Z) :=
  match input with
  | [] => ([], [])
  | c :: cs => (take n c, match drop n c with [] => cs | r => r :: cs end)
  end.

(** The inner loop from offset [p]: print every line that matches.  A line
    that does not match keeps the NUL written over its newline.  [None] is a
    [strchr] that runs off the buffer. *)
Fixpoint grep_lines (fuel : nat) (pattern : list Z) (p : nat) (buf out : list Z) :
    option (nat * list Z * list Z) :=
  match fuel with
  | O => None
  | S fuel' =>
      match strchr (drop p buf) 10 with
      | None => None
      | Some None => Some (p, buf, out)
      | Some (Some k) =>
          let q := (p + k)%nat in
          let buf := <[q := 0]> buf in
          if match_re pattern (cut (drop p buf)) then
            let buf := <[q := 10]> buf in
            grep_lines fuel' pattern (S q) buf (out ++ take (S k) (drop p buf))
          else grep_lines fuel' pattern (S q) buf out
      end
  end.

(** The outer loop; [m] is an [int].  A read into [buf + m] with a negative [m]
    is outside the buffer. *)
Fixpoint grep_loop (fuel : nat) (pattern : list Z) (m : Z) (buf : list Z) (input : list (list Z))
    (out : list Z) : option (list Z) :=
  match fuel with
  | O => None
  | S fuel' =>
      if m <? 0 then
        match input with [] => Some out | _ => None end
      else
      let '(data, input) := read_piece (Z.to_nat (1024 - m)) input in
      if (length data =? 0)%nat then Some out else
      let buf := take (Z.to_nat m) buf ++ data ++ drop (Z.to_nat m + length data) buf in
      let m := m + Z.of_nat (length data) in
      match grep_lines (S GREP_BUF) pattern 0 buf out with
      | None => None
      | Some (p, buf, out) =>
          let m := if (p =? 0)%nat then 0 else m in
          if 0 <? m then
            let m := m - Z.of_nat p in
            let buf := take (Z.to_nat m) (drop p buf) ++ drop (Z.to_nat m) buf in
            grep_loop fuel' pattern m buf input out
          else grep_loop fuel' pattern m buf input out
      end
  end.

(** What is printed for an input; enough fuel for one byte per read. *)
Definition grep (pattern : list Z) (input : list (list Z)) : option (list Z) :=
  grep_loop (S (length (concat input)) + length input) pattern 0 (replicate GREP_BUF 0) input [].

(** ** What grep should print *)

Fixpoint first_line (l : list Z) : option (list Z * list Z) :=
  match l with
  | [] => None
  | c :: l' => if c =? 10 then Some ([], l')
               else match first_line l' with Some (a, b) => Some (c :: a, b) | None => None end
  end.

Fixpoint matching_lines (fuel : nat) (pattern l : list Z) : list Z :=
  match fuel with
  | O => []
  | S fuel' =>
      match first_line l with
      | None => []
      | Some (a, b) => (if match_re pattern a then a ++ [10] else []) ++ matching_lines fuel' pattern b
      end
  end.

Lemma first_line_Some l a b : first_line l = Some (a, b) -> l = a ++ 10 :: b /\ 10 ∉ a.
Proof.
  revert a b. induction l as [|c l IH]; intros a b; simpl; [done|].
  destruct (Z.eqb_spec c 10) as [->|Hc].
  - intros [= <- <-]. split; [done|apply not_elem_of_nil].
  - destruct (first_line l) as [[a' b']|]; [|done]. intros [= <- <-].
    destruct (IH _ _ eq_refl) as [-> Hn]. split; [done|]. apply not_elem_of_cons. by split.
Qed.

Lemma first_line_None l : first_line l = None -> 10 ∉ l.
Proof.
  induction l as [|c l IH]; simpl; intros H; [apply not_elem_of_nil|].
  destruct (Z.eqb_spec c 10) as [->|Hc]; [done|]. destruct (first_line l) as [[]|]; [done|].
  apply not_elem_of_cons. split; [done|by apply IH].
Qed.

Lemma strchr_skip a r c : c ∉ a -> 0 ∉ a -> strchr (a ++ r) c = option_map (option_map (Nat.add (length a))) (strchr r c).
Proof.
  induction a as [|x a IH]; intros Hc H0; simpl.
  - by destruct (strchr r c) as [[]|].
  - apply not_elem_of_cons in Hc as [? Hc], H0 as [? H0].
    rewrite (proj2 (Z.eqb_neq x 0)), (proj2 (Z.eqb_neq x c)), IH by congruence.
    by destruct (strchr r c) as [[]|].
Qed.

Lemma cut_id a : 0 ∉ a -> cut a = a.
Proof.
  induction a as [|x a IH]; intros H; [done|]. apply not_elem_of_cons in H as [? H]. simpl.
  rewrite (proj2 (Z.eqb_neq x 0)) by congruence. by rewrite IH.
Qed.

(** The inner loop on text without NULs, followed by a NUL. *)
Lemma grep_lines_run n fuel pattern pre rest z out :
  (length rest <= n)%nat -> (n < fuel)%nat -> 0 ∉ rest ->
  exists p buf, grep_lines fuel pattern (length pre) (pre ++ rest ++ 0 :: z) out =
    Some (p, buf, out ++ matching_lines (S n) pattern rest) /\
    (p <= length pre + length rest)%nat.
Proof.
  revert fuel pre rest out. induction n as [|n IH]; intros fuel pre rest out Hn Hf H0.
  all: destruct fuel as [|fuel]; [lia|]; cbn [grep_lines matching_lines]; rewrite drop_app_length.
  { destruct rest; [|simpl in Hn; lia]. simpl. eexists _, _. split; [by rewrite app_nil_r|lia]. }
  destruct (first_line rest) as [[a b]|] eqn:Hl.
  - apply first_line_Some in Hl as [-> Ha]. rewrite length_app in Hn. simpl in Hn.
    rewrite elem_of_app, elem_of_cons in H0.
    rewrite <- app_assoc, strchr_skip by tauto. simpl. rewrite Nat.add_0_r.
    assert (E : forall c, <[(length pre + length a)%nat := c]> (pre ++ a ++ 10 :: b ++ 0 :: z)
                  = (pre ++ a ++ [c]) ++ b ++ 0 :: z).
    { intros c. rewrite insert_app_r. rewrite <- (Nat.add_0_r (length a)), insert_app_r. simpl.
      by rewrite <- !app_assoc. }
    rewrite E. assert (Hc : cut (drop (length pre) ((pre ++ a ++ [0]) ++ b ++ 0 :: z)) = a).
    { rewrite <- app_assoc, drop_app_length, <- app_assoc. simpl. apply cut_app_nul, cut_id. tauto. }
    rewrite Hc. replace (S (length pre + length a)) with (length (pre ++ a ++ [0]))
      by (rewrite !length_app; simpl; lia).
    destruct (match_re pattern a).
    + assert (E2 : <[(length pre + length a)%nat := 10]> ((pre ++ a ++ [0]) ++ b ++ 0 :: z)
                   = (pre ++ a ++ [10]) ++ b ++ 0 :: z).
      { rewrite <- (E 10). rewrite <- (E 0). by rewrite list_insert_insert_eq. }
      rewrite E2. replace (length (pre ++ a ++ [0])) with (length (pre ++ a ++ [10]))
        by (rewrite !length_app; done).
      assert (Ht : take (S (length a)) (drop (length pre) ((pre ++ a ++ [10]) ++ b ++ 0 :: z)) = a ++ [10]).
      { rewrite <- app_assoc, drop_app_length.
        replace (S (length a)) with (length (a ++ [10])) by (rewrite length_app; simpl; lia).
        apply take_app_length. }
      rewrite Ht.
      destruct (IH fuel (pre ++ a ++ [10]) b (out ++ a ++ [10])) as (p & buf & -> & Hp); [lia|lia|tauto|].
      exists p, buf. split; [by rewrite <- !app_assoc|].
      rewrite !length_app in *. simpl in *. lia.
    + destruct (IH fuel (pre ++ a ++ [0]) b out) as (p & buf & -> & Hp); [lia|lia|tauto|].
      exists p, buf. split; [done|]. rewrite !length_app in *. simpl in *. lia.
  - apply first_line_None in Hl. rewrite strchr_skip by done. simpl.
    eexists _, _. split; [by rewrite app_nil_r|lia].
Qed.

(** On an input of fewer than 1024 bytes that arrives in one read and holds
    no NUL, grep prints exactly its complete lines that match, in order. *)
Theorem grep_one_read pattern c :
  (0 < length c < 1024)%nat -> 0 ∉ c ->
  grep pattern [c] = Some (matching_lines (S (length c)) pattern c).
Proof.
  intros Hc H0. unfold grep. replace (S (length (concat [c])) + length [c])%nat with (S (S (length c)))
    by (simpl; rewrite app_nil_r; lia).
  assert (Hend : forall m b out, 0 <= m -> grep_loop (S (length c)) pattern m b [] out = Some out).
  { intros m b out Hm. simpl. by rewrite (proj2 (Z.ltb_ge m 0)) by lia. }
  remember (S (length c)) as f eqn:Hfe. cbn [grep_loop].
  rewrite (proj2 (Z.ltb_ge 0 0)) by lia. unfold read_piece.
  replace (Z.to_nat (1024 - 0)) with 1024%nat by done.
  rewrite (take_ge c), (drop_ge c) by lia. rewrite (proj2 (Nat.eqb_neq (length c) 0)) by lia.
  replace (take (Z.to_nat 0) (replicate GREP_BUF 0) ++ c ++
           drop (Z.to_nat 0 + length c) (replicate GREP_BUF 0))
    with ([] ++ c ++ 0 :: replicate (1023 - length c) 0).
  2: { simpl Z.to_nat. rewrite take_0. simpl (0 + _)%nat. rewrite drop_replicate.
       by replace (GREP_BUF - (Z.to_nat 0 + length c))%nat with (S (1023 - length c)) by (unfold GREP_BUF; lia). }
  destruct (grep_lines_run (length c) (S GREP_BUF) pattern [] c (replicate (1023 - length c) 0) [])
    as (p & buf & Hr & Hp); [lia|unfold GREP_BUF; lia|done|].
  simpl length in Hr. rewrite Hr. subst f. simpl in Hp.
  destruct (p =? 0)%nat; [apply Hend; lia|]. destruct (0 <? _); apply Hend; lia.
Qed.

(** "aaa", "b" in one read: the pattern "a" selects the first. *)
Lemma grep_one_read_witness : grep [97] [[97; 97; 97; 10; 98; 10]] = Some [97; 97; 97; 10].
Proof.
  rewrite (grep_one_read [97] [97; 97; 97; 10; 98; 10]).
  - reflexivity.
  - simpl. lia.
  - set_solver.
Defined.

(** The same two lines in two reads, split inside the second line: the
    buffer is not terminated after the bytes read, so bytes left over from the
    first read are taken for a line "a" and printed; and with more input to
    come the count of buffered bytes is negative, so that the next read starts
    before the buffer. *)
Theorem grep_stale_bytes :
  grep [97] [[97; 97; 97; 10; 98]; [10]] = Some [97; 97; 97; 10; 97; 10] /\
  grep [97] [[97; 97; 97; 10; 98]; [10]; [99; 10]] = None.
Proof. split; vm_compute; reflexivity. Qed.
