(* ===== verification/Console.v ===== *)
(** * The console (console.c, kbd.c, kbd.h)

    The line editor of [consoleintr] with its circular buffer, [consoleread],
    the CGA screen and the keyboard decoder.  The functions run with
    [input.lock] or [cons.lock] held, so each is one step; [consputc] calls are
    recorded in [echo], [wakeup(&input.r)] calls in [woken] and [procdump]
    calls in [dumps]. *)
From S2P Require Import Prelude.

(** ** Line input *)

Definition INPUT_BUF : Z := 128.
Definition BACKSPACE : Z := 0x100.
(** [C(x)] of a letter given by its code. *)
Definition Ctl (x : Z) : Z := x - 64.
Definition CTL_P : Z := Ctl 80.
Definition CTL_U : Z := Ctl 85.
Definition CTL_H : Z := Ctl 72.
Definition CTL_D : Z := Ctl 68.
Definition DEL : Z := 127.
Definition NL : Z := 10.
Definition CR : Z := 13.

Record cinput := CInput {
  ibuf : list Z;
  ir : Z;
  iw : Z;
  ie : Z;
  echo : list Z;
  woken : nat;
  dumps : nat
}.

Definition set_ie (v : Z) (s : cinput) : cinput :=
  CInput (ibuf s) (ir s) (iw s) v (echo s) (woken s) (dumps s).
Definition consputc_to (c : Z) (s : cinput) : cinput :=
  CInput (ibuf s) (ir s) (iw s) (ie s) (echo s ++ [c]) (woken s) (dumps s).

Definition buf_at (s : cinput) (i : Z) : option Z := ibuf s !! Z.to_nat (i mod INPUT_BUF).

(** One erased character: [input.e--; consputc(BACKSPACE)]. *)
Definition erase (s : cinput) : cinput := consputc_to BACKSPACE (set_ie (u32 (ie s - 1)) s).

(** The loop of control-U; [fuel] is at least [e - w]. *)
Fixpoint kill_line (fuel : nat) (s : cinput) : cinput :=
  match fuel with
  | O => s
  | S fuel' =>
      if negb (ie s =? iw s) && negb (bool_decide (buf_at s (u32 (ie s - 1)) = Some NL))
      then kill_line fuel' (erase s) else s
  end.

(** The body of [consoleintr]'s loop for one character. *)
Definition intr_char (c : Z) (s : cinput) : cinput :=
  if c =? CTL_P then CInput (ibuf s) (ir s) (iw s) (ie s) (echo s) (woken s) (S (dumps s))
  else if c =? CTL_U then kill_line (Z.to_nat (u32 (ie s - iw s))) s
  else if (c =? CTL_H) || (c =? DEL) then
    if negb (ie s =? iw s) then erase s else s
  else if negb (c =? 0) && (u32 (ie s - ir s) <? INPUT_BUF) then
    let c := if c =? CR then NL else c in
    let buf := <[Z.to_nat (ie s mod INPUT_BUF) := u8 c]> (ibuf s) in
    let e := u32 (ie s + 1) in
    let done := (c =? NL) || (c =? CTL_D) || (e =? u32 (ir s + INPUT_BUF)) in
    CInput buf (ir s) (if done then e else iw s) e (echo s ++ [c])
      (if done then S (woken s) else woken s) (dumps s)
  else s.

(** [consoleintr]: characters until [getc] has none ([getc() < 0]). *)
Fixpoint consoleintr (cs : list Z) (s : cinput) : cinput :=
  match cs with
  | [] => s
  | c :: cs' => if c <? 0 then s else consoleintr cs' (intr_char c s)
  end.

(** How a run of [consoleread] ends: with bytes, asleep with [left] bytes to
    read, or with -1 because the caller was killed. *)
Inductive cread := CBytes (l : list Z) | CSleeps (l : list Z) (left : nat) | CKilled.

(** The loop of [consoleread]: [target] bytes wanted, [n] of them left, [out]
    stored at [dst] so far. *)
Fixpoint console_loop (killed : bool) (target n : nat) (out : list Z) (s : cinput) :
    option (cread * cinput) :=
  match n with
  | O => Some (CBytes out, s)
  | S n' =>
      if ir s =? iw s then
        if killed then Some (CKilled, s) else Some (CSleeps out n, s)
      else
        c ← buf_at s (ir s);
        let s1 := CInput (ibuf s) (u32 (ir s + 1)) (iw s) (ie s) (echo s) (woken s) (dumps s) in
        if c =? CTL_D then
          if (n <? target)%nat
          then Some (CBytes out, s) else Some (CBytes out, s1)
        else if c =? NL then Some (CBytes (out ++ [c]), s1)
        else console_loop killed target n' (out ++ [c]) s1
  end.

Definition consoleread (killed : bool) (n : nat) (s : cinput) : option (cread * cinput) :=
  console_loop killed n n [] s.

(** ** The screen *)

Definition CRT_COLS : Z := 80.

(** The screen memory at [crt], the cursor position held in the CRT
    controller's registers 14 and 15, and the bytes sent to the serial port. *)
Record screen := Screen { crt : list Z; cur_hi : Z; cur_lo : Z; serial : list Z }.

(** [memset(crt + pos, 0, 2 * k)] *)
Definition blank (pos k : nat) (l : list Z) : list Z :=
  take pos l ++ replicate k 0 ++ drop (pos + k) l.

(** Scroll up when the cursor is below row 23. *)
Definition scroll (pos : Z) (l : list Z) : Z * list Z :=
  if 24 <=? pos / 80 then
    let l := take (23 * 80) (drop 80 l) ++ drop (23 * 80) l in
    let pos := pos - 80 in
    (pos, blank (Z.to_nat pos) (Z.to_nat (24 * 80 - pos)) l)
  else (pos, l).

Definition cgaputc (c : Z) (s : screen) : option screen :=
  let pos := Z.lor (Z.shiftl (cur_hi s) 8) (cur_lo s) in
  '(pos, l) ← (if c =? NL then Some (pos + 80 - pos mod 80, crt s)
               else if c =? BACKSPACE then Some ((if 0 <? pos then pos - 1 else pos), crt s)
               else l ← wr (crt s) pos (Z.lor (Z.land c 0xff) 0x0700); Some (pos + 1, l));
  let '(pos, l) := scroll pos l in
  l ← wr l pos (Z.lor 32 0x0700);
  Some (Screen l (u8 (Z.shiftr pos 8)) (u8 pos) (serial s)).

(** [consputc] when no CPU has panicked. *)
Definition consputc (c : Z) (s : screen) : option screen :=
  let bytes := if c =? BACKSPACE then [8; 32; 8] else [u8 c] in
  cgaputc c (Screen (crt s) (cur_hi s) (cur_lo s) (serial s ++ bytes)).

Fixpoint consolewrite (buf : list Z) (s : screen) : option screen :=
  match buf with
  | [] => Some s
  | c :: buf' => s1 ← consputc (Z.land c 0xff) s; consolewrite buf' s1
  end.

(** ** The keyboard *)

Definition SHIFT : Z := 1.
Definition CTL : Z := 2.
Definition ALT : Z := 4.
Definition CAPSLOCK : Z := 8.
Definition NUMLOCK : Z := 16.
Definition SCROLLLOCK : Z := 32.
Definition E0ESC : Z := 64.

(** An array of 256 bytes from its first entries and the designated ones. *)
Definition table (l : list Z) (ds : list (Z * Z)) : list Z :=
  foldl (fun t '(i, v) => <[Z.to_nat i := v]> t) (l ++ replicate (256 - length l) 0) ds.

Definition shiftcode : list Z := table
  []
  [(0x1d, 2); (0x2a, 1); (0x36, 1); (0x38, 4); (0x9d, 2); (0xb8, 4)].
Definition togglecode : list Z := table
  []
  [(0x3a, 8); (0x45, 16); (0x46, 32)].
Definition normalmap : list Z := table
  [0; 27; 49; 50; 51; 52; 53; 54; 55; 56; 57; 48; 45; 61; 8; 9;
   113; 119; 101; 114; 116; 121; 117; 105; 111; 112; 91; 93; 10; 0; 97; 115;
   100; 102; 103; 104; 106; 107; 108; 59; 39; 96; 0; 92; 122; 120; 99; 118;
   98; 110; 109; 44; 46; 47; 0; 42; 0; 32; 0; 0; 0; 0; 0; 0;
   0; 0; 0; 0; 0; 0; 0; 55; 56; 57; 45; 52; 53; 54; 43; 49;
   50; 51; 48; 46; 0; 0; 0; 0]
  [(0x9c, 10); (0xb5, 47); (0xc8, 226); (0xd0, 227); (0xc9, 230); (0xd1, 231);
   (0xcb, 228); (0xcd, 229); (0x97, 224); (0xcf, 225); (0xd2, 232); (0xd3, 233)].
Definition shiftmap : list Z := table
  [0; 27; 33; 64; 35; 36; 37; 94; 38; 42; 40; 41; 95; 43; 8; 9;
   81; 87; 69; 82; 84; 89; 85; 73; 79; 80; 123; 125; 10; 0; 65; 83;
   68; 70; 71; 72; 74; 75; 76; 58; 34; 126; 0; 124; 90; 88; 67; 86;
   66; 78; 77; 60; 62; 63; 0; 42; 0; 32; 0; 0; 0; 0; 0; 0;
   0; 0; 0; 0; 0; 0; 0; 55; 56; 57; 45; 52; 53; 54; 43; 49;
   50; 51; 48; 46; 0; 0; 0; 0]
  [(0x9c, 10); (0xb5, 47); (0xc8, 226); (0xd0, 227); (0xc9, 230); (0xd1, 231);
   (0xcb, 228); (0xcd, 229); (0x97, 224); (0xcf, 225); (0xd2, 232); (0xd3, 233)].
Definition ctlmap : list Z := table
  [0; 0; 0; 0; 0; 0; 0; 0; 0; 0; 0; 0; 0; 0; 0; 0;
   17; 23; 5; 18; 20; 25; 21; 9; 15; 16; 0; 0; 13; 0; 1; 19;
   4; 6; 7; 8; 10; 11; 12; 0; 0; 0; 0; 28; 26; 24; 3; 22;
   2; 14; 13; 0; 0; 239; 0; 0]
  [(0x9c, 13); (0xb5, 239); (0xc8, 226); (0xd0, 227); (0xc9, 230); (0xd1, 231);
   (0xcb, 228); (0xcd, 229); (0x97, 224); (0xcf, 225); (0xd2, 232); (0xd3, 233)].

(** The end of [kbdgetc], for a key pressed. *)
Definition key_down (data shift : Z) : option (Z * Z) :=
  code ← rd shiftcode data;
  tog ← rd togglecode data;
  let shift := Z.lxor (Z.lor shift code) tog in
  map ← rd [normalmap; shiftmap; ctlmap; ctlmap] (Z.land shift (Z.lor CTL SHIFT));
  c ← rd map data;
  let c := if negb (Z.land shift CAPSLOCK =? 0) then
             if (97 <=? c) && (c <=? 122) then c + 65 - 97
             else if (65 <=? c) && (c <=? 90) then c + 97 - 65 else c
           else c in
  Some (c, shift).

(** [kbdgetc] with the values of the status and data ports and the static
    variable [shift]: the result and the new [shift]. *)
Definition kbdgetc (st data shift : Z) : option (Z * Z) :=
  if Z.land st 1 =? 0 then Some (-1, shift) else
  if data =? 0xE0 then Some (0, Z.lor shift E0ESC) else
  if negb (Z.land data 0x80 =? 0) then
    code ← rd shiftcode (if negb (Z.land shift E0ESC =? 0) then data else Z.land data 0x7F);
    Some (0, Z.ldiff shift (Z.lor code E0ESC))
  else if negb (Z.land shift E0ESC =? 0)
  then key_down (Z.lor data 0x80) (Z.ldiff shift E0ESC)
  else key_down data shift.

(** [kbdintr]: the characters of the port readings, up to the first reading
    with no data. *)
Fixpoint kbdintr (ports : list (Z * Z)) (shift : Z) (s : cinput) : option (Z * cinput) :=
  match ports with
  | [] => Some (shift, s)
  | (st, data) :: ports' =>
      '(c, shift1) ← kbdgetc st data shift;
      if c <? 0 then Some (shift1, s) else kbdintr ports' shift1 (intr_char c s)
  end.

Definition cinput0 : cinput := CInput (replicate 128 0) 0 0 0 [] 0 0.

(** ** The line discipline the console promises *)

(** Bytes ready for readers, and the line being edited. *)
Record line := Line { ready : list Z; edit : list Z }.

Definition type_char (c : Z) (l : line) : line :=
  if c =? CTL_P then l
  else if c =? CTL_U then Line (ready l) []
  else if (c =? CTL_H) || (c =? DEL) then Line (ready l) (take (length (edit l) - 1) (edit l))
  else if negb (c =? 0) && (length (ready l) + length (edit l) <? 128)%nat then
    let c := if c =? CR then NL else c in
    if (c =? NL) || (c =? CTL_D) || (length (ready l) + length (edit l) =? 127)%nat
    then Line (ready l ++ edit l ++ [u8 c]) []
    else Line (ready l) (edit l ++ [u8 c])
  else l.

Fixpoint spec_read (killed : bool) (target n : nat) (out : list Z) (r : list Z) : cread * list Z :=
  match n with
  | O => (CBytes out, r)
  | S n' =>
      match r with
      | [] => (if killed then CKilled else CSleeps out n, [])
      | c :: r' =>
          if c =? CTL_D then (CBytes out, if (n <? target)%nat then r else r')
          else if c =? NL then (CBytes (out ++ [c]), r')
          else spec_read killed target n' (out ++ [c]) r'
      end
  end.

(** The circular buffer holds the ready bytes and then the edited line;
    [base] is the unbounded read index, and no newline is left in the line
    being edited. *)
Record cons_rep (s : cinput) (l : line) (base : Z) : Prop := {
  cr_len : length (ibuf s) = 128%nat;
  cr_base : 0 <= base;
  cr_r : ir s = u32 base;
  cr_w : iw s = u32 (base + Z.of_nat (length (ready l)));
  cr_e : ie s = u32 (base + Z.of_nat (length (ready l ++ edit l)));
  cr_room : (length (ready l ++ edit l) <= 128)%nat;
  cr_data : forall k x, (ready l ++ edit l) !! k = Some x ->
    ibuf s !! Z.to_nat ((base + Z.of_nat k) mod 128) = Some x;
  cr_line : NL ∉ edit l
}.

(** 32-bit indices that are at most 2^31 apart are equal only when they are
    the same number, and reduce to the same slot. *)
Lemma u32_close a d : 0 <= d < 2 ^ 32 -> u32 (u32 (a + d) - u32 a) = d.
Proof.
  intros Hd. rewrite u32_sub_l, u32_sub_r. replace (a + d - a) with d by lia. by apply u32_small.
Qed.

Lemma u32_eq_close a d : 0 <= d < 2 ^ 32 -> (u32 (a + d) =? u32 a) = (d =? 0).
Proof.
  intros Hd. destruct (Z.eqb_spec d 0) as [->|Hn]; [rewrite Z.add_0_r; apply Z.eqb_refl|].
  apply Z.eqb_neq. intros E. pose proof (u32_close a d Hd) as H. rewrite E, Z.sub_diag in H.
  rewrite u32_small in H by lia. lia.
Qed.

Lemma u32_slot a : u32 a mod 128 = a mod 128.
Proof.
  unfold u32. change (2 ^ 32) with (128 * 2 ^ 25). rewrite Z.rem_mul_r by lia.
  rewrite Z.mul_comm, Z_mod_plus_full. apply Z.mod_mod. lia.
Qed.

Lemma slot_inj a i j : (i < 128)%nat -> (j < 128)%nat ->
  Z.to_nat ((a + Z.of_nat i) mod 128) = Z.to_nat ((a + Z.of_nat j) mod 128) -> i = j.
Proof.
  intros Hi Hj E.
  pose proof (Z.mod_pos_bound (a + Z.of_nat i) 128 ltac:(lia)).
  pose proof (Z.mod_pos_bound (a + Z.of_nat j) 128 ltac:(lia)).
  pose proof (Z.div_mod (a + Z.of_nat i) 128 ltac:(lia)).
  pose proof (Z.div_mod (a + Z.of_nat j) 128 ltac:(lia)). lia.
Qed.

Section Rep.
Context (s : cinput) (l : line) (base : Z) (Hrep : cons_rep s l base).

Lemma rep_counts :
  u32 (ie s - iw s) = Z.of_nat (length (edit l)) /\
  u32 (ie s - ir s) = Z.of_nat (length (ready l ++ edit l)) /\
  (ie s =? iw s) = (length (edit l) =? 0)%nat /\
  (ir s =? iw s) = (length (ready l) =? 0)%nat.
Proof.
  destruct Hrep as [_ _ Hr Hw He Hroom _ _]. rewrite Hr, Hw, He. rewrite length_app in *.
  rewrite Nat2Z.inj_add, Z.add_assoc. split_and!.
  - apply u32_close. lia.
  - rewrite <- Z.add_assoc. apply u32_close. lia.
  - rewrite u32_eq_close by lia. destruct (edit l); simpl; lia.
  - rewrite Z.eqb_sym, u32_eq_close by lia. destruct (ready l); simpl; lia.
Qed.

Lemma rep_slot k x : (ready l ++ edit l) !! k = Some x ->
  buf_at s (u32 (base + Z.of_nat k)) = Some x.
Proof.
  intros Hk. unfold buf_at, INPUT_BUF. rewrite u32_slot. by apply (cr_data _ _ _ Hrep).
Qed.

(** Add a byte at the edit index. *)
Lemma push_rep x rd' ed' ec wk du :
  (length (ready l ++ edit l) < 128)%nat -> rd' ++ ed' = ready l ++ edit l ++ [x] -> NL ∉ ed' ->
  cons_rep (CInput (<[Z.to_nat (ie s mod INPUT_BUF) := x]> (ibuf s)) (ir s)
              (u32 (base + Z.of_nat (length rd'))) (u32 (ie s + 1)) ec wk du)
    (Line rd' ed') base.
Proof.
  intros Hlt E Hnl. destruct Hrep as [Hlen Hb Hr Hw He Hroom Hd _].
  set (total := ready l ++ edit l) in *.
  assert (E' : rd' ++ ed' = total ++ [x]) by (rewrite E; unfold total; by rewrite app_assoc).
  split; simpl; try done.
  - by rewrite length_insert.
  - rewrite He, u32_add_l, E', length_app. simpl. f_equal. lia.
  - rewrite E', length_app. simpl. lia.
  - intros k y Hk. rewrite E' in Hk. rewrite He. unfold INPUT_BUF. rewrite u32_slot.
    apply lookup_snoc_Some in Hk as [[Hkl Hk]|[-> ->]].
    + rewrite list_lookup_insert_ne; [by apply Hd|].
      intros Eq. apply slot_inj in Eq; lia.
    + apply list_lookup_insert_eq. rewrite Hlen.
      pose proof (Z.mod_pos_bound (base + Z.of_nat (length total)) 128). lia.
Qed.
End Rep.

Lemma erase_rep s rd ed x base :
  cons_rep s (Line rd (ed ++ [x])) base -> cons_rep (erase s) (Line rd ed) base.
Proof.
  intros [Hlen Hb Hr Hw He Hroom Hd Hnl]. simpl in *.
  rewrite !length_app in *. simpl in *. split; simpl; try done.
  - rewrite He, u32_sub_l, length_app. f_equal. lia.
  - rewrite length_app. lia.
  - intros k y Hk. apply Hd. rewrite app_assoc. by apply lookup_app_l_Some.
  - set_solver.
Qed.

Lemma kill_line_rep s rd ed base :
  cons_rep s (Line rd ed) base -> cons_rep (kill_line (length ed) s) (Line rd []) base.
Proof.
  revert s. induction ed as [|x ed IH] using rev_ind; intros s Hrep; [done|].
  rewrite length_app, Nat.add_1_r. cbn [kill_line].
  destruct (rep_counts _ _ _ Hrep) as (_ & _ & -> & _). cbn [edit]. rewrite length_app, Nat.add_1_r.
  cbn [Nat.eqb negb andb].
  assert (Hlast : buf_at s (u32 (ie s - 1)) = Some x).
  { rewrite (cr_e _ _ _ Hrep), u32_sub_l. cbn [ready edit].
    replace (base + Z.of_nat (length (rd ++ ed ++ [x])) - 1)
      with (base + Z.of_nat (length (rd ++ ed))) by (rewrite !length_app; cbn [length]; lia).
    apply (rep_slot _ _ _ Hrep). simpl. rewrite app_assoc. by apply list_lookup_middle. }
  rewrite Hlast, bool_decide_false; [|intros [= ->]; apply (cr_line _ _ _ Hrep); set_solver].
  simpl. by apply IH, erase_rep with x.
Qed.

Lemma intr_char_rep c s l base :
  0 <= c < 256 -> cons_rep s l base -> cons_rep (intr_char c s) (type_char c l) base.
Proof.
  intros Hc Hrep. destruct (rep_counts _ _ _ Hrep) as (Hew & Her & Hee & _).
  unfold intr_char, type_char.
  destruct (c =? CTL_P); [by destruct Hrep; split|].
  destruct (c =? CTL_U).
  { rewrite Hew, Nat2Z.id. destruct l. by apply kill_line_rep. }
  destruct (_ || _).
  { rewrite Hee. destruct l as [rd ed]. simpl.
    destruct ed as [|x ed _] using rev_ind; [done|].
    rewrite length_app. simpl. rewrite Nat.add_sub, Nat.add_1_r. simpl.
    rewrite take_app_length. by apply erase_rep with x. }
  rewrite Her. replace (Z.of_nat (length (ready l ++ edit l)) <? INPUT_BUF)
    with (length (ready l) + length (edit l) <? 128)%nat.
  2: { rewrite length_app. unfold INPUT_BUF.
       by destruct (Nat.ltb_spec (length (ready l) + length (edit l)) 128), (Z.ltb_spec
         (Z.of_nat (length (ready l) + length (edit l))) 128); try lia. }
  destruct (negb (c =? 0) && _) eqn:Hroom; [|done].
  apply andb_prop in Hroom as [_ Hroom%Nat.ltb_lt].
  set (c' := if c =? CR then NL else c).
  assert (Hc' : 0 <= c' < 256) by (unfold c', NL; destruct (c =? CR); lia).
  assert (Hlt : (length (ready l ++ edit l) < 128)%nat) by (rewrite length_app; lia).
  assert (Hfull : (u32 (ie s + 1) =? u32 (ir s + INPUT_BUF))
                  = (length (ready l) + length (edit l) =? 127)%nat).
  { rewrite (cr_e _ _ _ Hrep), (cr_r _ _ _ Hrep), !u32_add_l. unfold INPUT_BUF.
    set (n := length (ready l ++ edit l)) in *.
    replace (base + 128) with (base + Z.of_nat n + 1 + (127 - Z.of_nat n)) by lia.
    rewrite Z.eqb_sym, u32_eq_close by lia. unfold n. rewrite length_app.
    by destruct (Z.eqb_spec (127 - Z.of_nat (length (ready l) + length (edit l))) 0),
      (Nat.eqb_spec (length (ready l) + length (edit l)) 127); try lia. }
  rewrite Hfull. destruct (_ || _ || _) eqn:Hdone.
  - assert (E : u32 (ie s + 1) = u32 (base + Z.of_nat (length (ready l ++ edit l ++ [u8 c'])))).
    { rewrite (cr_e _ _ _ Hrep), u32_add_l, !length_app. simpl. f_equal. lia. }
    rewrite E at 1. eapply push_rep; [done|done|by rewrite app_nil_r|apply not_elem_of_nil].
  - rewrite (cr_w _ _ _ Hrep). eapply push_rep; [done|done|done|].
    rewrite elem_of_app, list_elem_of_singleton. unfold u8. rewrite Z.mod_small by lia.
    intros [Hin|E]; [by apply (cr_line _ _ _ Hrep)|]. lia.
Qed.

Lemma pop_rep s c rd ed base :
  cons_rep s (Line (c :: rd) ed) base ->
  cons_rep (CInput (ibuf s) (u32 (ir s + 1)) (iw s) (ie s) (echo s) (woken s) (dumps s))
    (Line rd ed) (base + 1).
Proof.
  intros [Hlen Hb Hr Hw He Hroom Hd Hnl]. split; simpl in *; try (done || lia).
  - by rewrite Hr, u32_add_l.
  - rewrite Hw. f_equal. lia.
  - rewrite He. f_equal. lia.
  - intros k x Hk. rewrite <- Z.add_assoc. replace (1 + Z.of_nat k) with (Z.of_nat (S k)) by lia.
    by apply Hd.
Qed.

Lemma console_loop_rep killed target n out s rd ed base :
  cons_rep s (Line rd ed) base ->
  exists s' base', console_loop killed target n out s = Some ((spec_read killed target n out rd).1, s') /\
    cons_rep s' (Line (spec_read killed target n out rd).2 ed) base'.
Proof.
  revert out s rd base. induction n as [|n IH]; intros out s rd base Hrep; [by exists s, base|].
  cbn [console_loop spec_read]. destruct (rep_counts _ _ _ Hrep) as (_ & _ & _ & ->). cbn [ready].
  destruct rd as [|c rd]; [by destruct killed; exists s, base|]. cbn [length Nat.eqb].
  assert (Hc : buf_at s (ir s) = Some c).
  { rewrite (cr_r _ _ _ Hrep), <- (Z.add_0_r base). by apply (rep_slot _ _ _ Hrep 0). }
  rewrite Hc. cbn [mbind option_bind].
  apply pop_rep in Hrep as Hrep'.
  destruct (c =? CTL_D); [destruct (_ <? _)%nat; eexists _, _; by split|].
  destruct (c =? NL); [eexists _, _; by split|]. by apply IH with (base + 1).
Qed.

(** ** Interleaved typing and reading *)

Inductive cevent := Key (c : Z) | Read (killed : bool) (n : nat).

Fixpoint run_console (evs : list cevent) (s : cinput) : option (list cread * cinput) :=
  match evs with
  | [] => Some ([], s)
  | Key c :: evs' => run_console evs' (intr_char c s)
  | Read killed n :: evs' =>
      '(r, s1) ← consoleread killed n s;
      '(rs, s2) ← run_console evs' s1;
      Some (r :: rs, s2)
  end.

Fixpoint spec_console (evs : list cevent) (l : line) : list cread * line :=
  match evs with
  | [] => ([], l)
  | Key c :: evs' => spec_console evs' (type_char c l)
  | Read killed n :: evs' =>
      let '(r, rd) := spec_read killed n n [] (ready l) in
      let '(rs, l') := spec_console evs' (Line rd (edit l)) in (r :: rs, l')
  end.

Definition key_ok (ev : cevent) : Prop :=
  match ev with Key c => 0 <= c < 256 | Read _ _ => True end.

Lemma run_console_rep evs s l base :
  Forall key_ok evs -> cons_rep s l base ->
  exists s' base', run_console evs s = Some ((spec_console evs l).1, s') /\
    cons_rep s' (spec_console evs l).2 base'.
Proof.
  revert s l base. induction evs as [|[c|killed n] evs IH]; intros s l base HF Hrep.
  - by exists s, base.
  - apply Forall_cons in HF as [Hc HF]. cbn [run_console spec_console].
    eapply IH; [done|]. by apply intr_char_rep.
  - apply Forall_cons in HF as [_ HF]. cbn [run_console spec_console].
    destruct l as [rd ed]. destruct (console_loop_rep killed n n [] s rd ed base Hrep)
      as (s1 & base1 & E & Hrep1).
    unfold consoleread. rewrite E. cbn [mbind option_bind ready edit].
    destruct (spec_read _ _ _ _ rd) as [r rd']. cbn [fst snd] in *.
    destruct (IH _ _ _ HF Hrep1) as (s2 & base2 & E2 & Hrep2). rewrite E2.
    cbn [mbind option_bind]. destruct (spec_console evs _) as [rs l'] eqn:Es. cbn [fst snd] in *.
    by exists s2, base2.
Qed.

(** C38: the console's circular buffer implements the line discipline: for every
    interleaving of typed characters and reads, whatever the wrap-around of
    the indices, each read returns what the specification on two lists says
    (a line at a time, erase and kill acting only on the unfinished line,
    control-D as end of file), and no access is outside the buffer. *)
Theorem console_refines evs :
  Forall key_ok evs ->
  exists s', run_console evs cinput0 = Some ((spec_console evs (Line [] [])).1, s').
Proof.
  intros HF. destruct (run_console_rep evs cinput0 (Line [] []) 0 HF) as (s' & _ & E & _).
  - split; simpl; (done || lia || apply not_elem_of_nil).
  - by exists s'.
Qed.

(** "xy", erase, "z", return; then a read of 10 bytes gives "xz" and a newline. *)
Lemma console_refines_witness :
  exists s', run_console [Key 120; Key 121; Key 8; Key 122; Key 13; Read false 10] cinput0
    = Some ([CBytes [120; 122; 10]], s').
Proof.
  apply (console_refines [Key 120; Key 121; Key 8; Key 122; Key 13; Read false 10]).
  repeat (constructor; [simpl; lia || done|]). constructor.
Defined.

(** ** The screen stays in its memory *)

Definition cursor (s : screen) : Z := Z.lor (Z.shiftl (cur_hi s) 8) (cur_lo s).

(** 25 rows of 80 cells, the cursor on one of them. *)
Record screen_ok (s : screen) : Prop := {
  so_len : length (crt s) = 2000%nat;
  so_cur : 0 <= cursor s < 2000
}.

Lemma cursor_regs l pos out :
  0 <= pos < 65536 -> cursor (Screen l (u8 (Z.shiftr pos 8)) (u8 pos) out) = pos.
Proof.
  intros Hp. unfold cursor, u8. cbn [cur_hi cur_lo].
  rewrite Z.shiftr_div_pow2, Z.shiftl_mul_pow2 by lia. change (2 ^ 8) with 256.
  rewrite (Z.mod_small (pos / 256)) by (split; [apply Z.div_pos; lia|apply Z.div_lt_upper_bound; lia]).
  rewrite <- Z.shiftl_mul_pow2 with (n := 8) by lia.
  assert (H0 : Z.land (Z.shiftl (pos / 256) 8) (pos mod 256) = 0).
  { apply Z.bits_inj'. intros i Hi. rewrite Z.land_spec, Z.shiftl_spec, Z.bits_0 by done.
    destruct (decide (i < 8)); [by rewrite Z.testbit_neg_r by lia|].
    change 256 with (2 ^ 8). rewrite <- Z.land_ones, Z.land_spec, Z.testbit_ones_nonneg by lia.
    rewrite (proj2 (Z.ltb_ge i 8)) by lia. by rewrite !andb_false_r. }
  rewrite <- Z.lxor_lor, <- Z.add_nocarry_lxor by done.
  rewrite Z.shiftl_mul_pow2 by lia. change (2 ^ 8) with 256. pose proof (Z.div_mod pos 256). lia.
Qed.

Lemma scroll_spec p l :
  0 <= p <= 2000 -> length l = 2000%nat ->
  exists l', scroll p l = (if 24 * 80 <=? p then p - 80 else p, l') /\ length l' = 2000%nat.
Proof.
  intros Hp Hl. unfold scroll.
  assert (Hrow : (24 <=? p / 80) = (24 * 80 <=? p)).
  { destruct (Z.leb_spec (24 * 80) p).
    - apply Z.leb_le, Z.div_le_lower_bound; lia.
    - apply Z.leb_gt, Z.div_lt_upper_bound; lia. }
  rewrite Hrow. destruct (24 * 80 <=? p) eqn:E; [|by eexists]. eexists. split; [done|].
  unfold blank. repeat (rewrite ?length_app, ?length_take, ?length_drop, ?length_replicate).
  rewrite Hl. lia.
Qed.

(** [cgaputc] never writes outside the screen memory: from a cursor
    anywhere on the 25 rows it returns, the cursor is then in the first 24
    rows or at the start of the last, and a newline or a full row scrolls. *)
Theorem cgaputc_ok c s :
  screen_ok s ->
  exists s', cgaputc c s = Some s' /\ screen_ok s' /\ cursor s' <= 24 * 80 /\
    cursor s' =
      (let p := if c =? NL then cursor s + 80 - cursor s mod 80
                else if c =? BACKSPACE then Z.max 0 (cursor s - 1) else cursor s + 1 in
       if 24 * 80 <=? p then p - 80 else p).
Proof.
  intros [Hlen Hcur]. unfold cgaputc. change (Z.lor _ (cur_lo s)) with (cursor s).
  set (p := if c =? NL then cursor s + 80 - cursor s mod 80
            else if c =? BACKSPACE then Z.max 0 (cursor s - 1) else cursor s + 1).
  assert (Hstep : exists l, (if c =? NL then Some (cursor s + 80 - cursor s mod 80, crt s)
      else if c =? BACKSPACE then Some ((if 0 <? cursor s then cursor s - 1 else cursor s), crt s)
      else l ← wr (crt s) (cursor s) (Z.lor (Z.land c 0xff) 0x0700); Some (cursor s + 1, l))
      = Some (p, l) /\ length l = 2000%nat).
  { unfold p. destruct (c =? NL); [by eexists|]. destruct (c =? BACKSPACE).
    - exists (crt s). split; [|done]. f_equal. f_equal. destruct (0 <? cursor s) eqn:E; lia.
    - destruct (wr_in_range (crt s) (cursor s) (Z.lor (Z.land c 0xff) 0x0700)) as [l Hl]; [lia|].
      rewrite Hl. exists l. split; [done|]. apply wr_Some in Hl as [-> _]. done. }
  destruct Hstep as (l & -> & Hl). cbn [mbind option_bind].
  assert (Hp : 0 <= p <= 2000).
  { unfold p. pose proof (Z.mod_pos_bound (cursor s) 80). pose proof (Z.div_mod (cursor s) 80).
    assert (cursor s / 80 <= 24) by (apply Z.lt_succ_r, Z.div_lt_upper_bound; lia).
    destruct (c =? NL); [lia|]. destruct (c =? BACKSPACE); lia. }
  destruct (scroll_spec p l Hp Hl) as (l2 & -> & Hl2). set (q := if 24 * 80 <=? p then p - 80 else p).
  assert (Hq : 0 <= q <= 1920) by (unfold q; destruct (24 * 80 <=? p) eqn:E; lia).
  destruct (wr_in_range l2 q (Z.lor 32 0x0700)) as [l3 Hl3]; [lia|]. rewrite Hl3. cbn [mbind option_bind].
  apply wr_Some in Hl3 as [Hl3 _]. eexists. split; [done|].
  rewrite !cursor_regs by lia. split; [|split; [lia|done]].
  split; [cbn [crt]; congruence|]. rewrite cursor_regs by lia. lia.
Qed.

(** A newline on the last line of a blank screen. *)
Lemma cgaputc_ok_witness :
  exists s', cgaputc NL (Screen (replicate 2000 0) 7 100 []) = Some s' /\ cursor s' = 1840.
Proof.
  destruct (cgaputc_ok NL (Screen (replicate 2000 0) 7 100 [])) as (s' & H1 & _ & _ & H2).
  - split; [reflexivity|]. vm_compute. split; [discriminate|reflexivity].
  - exists s'. split; [exact H1|exact H2].
Defined.

(** ** A keyboard

    What a US keyboard types, from the keys: the modifiers that are down and
    the locks that are on, the legends of the keys row by row, and what a key
    means under the modifiers. *)

Record kb := Kb { k_esc : bool; k_shift : bool; k_ctl : bool; k_alt : bool; k_caps : bool; k_num : bool; k_scroll : bool }.

#[export] Instance kb_eq_dec : EqDecision kb.
Proof. solve_decision. Defined.

(** A key with its legend and the one for shift, a modifier, a lock, or a key
    that does nothing. *)
Inductive key := Glyph (plain shifted : Z) | ModShift | ModCtl | ModAlt | LockCaps | LockNum | LockScroll | Dead.

Definition codes (w : string) : list Z := (fun c => Z.of_N (Ascii.N_of_ascii c)) <$> String.list_ascii_of_string w.

(** Keys side by side, from scan code [first] on. *)
Definition row (first : Z) (plain shifted : list Z) : list (Z * key) :=
  zip (seqZ first (Z.of_nat (length plain))) (zip_with Glyph plain shifted).

Definition main_keys : list (Z * key) :=
  row 0x01 [27] [27] ++
  row 0x02 (codes "1234567890-=") (codes "!@#$%^&*()_+") ++ row 0x0E [8; 9] [8; 9] ++
  row 0x10 (codes "qwertyuiop[]") (codes "QWERTYUIOP{}") ++ row 0x1C [NL] [NL] ++
  row 0x1E (codes "asdfghjkl;'`") (codes "ASDFGHJKL:" ++ [34; 126]) ++
  row 0x2B (codes "\zxcvbnm,./") (codes "|ZXCVBNM<>?") ++
  row 0x37 (codes "*") (codes "*") ++ row 0x39 (codes " ") (codes " ") ++
  row 0x47 (codes "789-456+1230.") (codes "789-456+1230.") ++
  [(0x1D, ModCtl); (0x2A, ModShift); (0x36, ModShift); (0x38, ModAlt); (0x3A, LockCaps); (0x45, LockNum); (0x46, LockScroll)].

(** The keys with the prefix 0xE0: those of the keypad, and the special keys,
    which type a code of their own; home where kbd.h has it. *)
Definition special (code c : Z) : Z * key := (code, Glyph c c).
Definition ext_keys : list (Z * key) :=
  [special 0x1C NL; special 0x35 47; special 0x17 0xE0; special 0x4F 0xE1; special 0x48 0xE2; special 0x50 0xE3;
   special 0x4B 0xE4; special 0x4D 0xE5; special 0x49 0xE6; special 0x51 0xE7; special 0x52 0xE8; special 0x53 0xE9;
   (0x1D, ModCtl); (0x38, ModAlt)].

Definition key_of (ext : bool) (code : Z) : key :=
  match list_find (fun x => x.1 = code) (if ext then ext_keys else main_keys) with
  | Some (_, (_, k)) => k
  | None => Dead
  end.

(** Control: of the letters and of the keys that have a meaning with it. *)
Definition control (c : Z) : Z :=
  if (97 <=? c) && (c <=? 122) then c - 96
  else if c =? NL then CR
  else if (c =? 92) || (c =? 47) then u8 (Ctl c)
  else if 0xE0 <=? c then c else 0.

Definition other_case (c : Z) : Z :=
  if (97 <=? c) && (c <=? 122) then c - 32 else if (65 <=? c) && (c <=? 90) then c + 32 else c.

Definition glyph (k : kb) (plain shifted : Z) : Z :=
  if k_ctl k then control plain else
  let c := if k_shift k then shifted else plain in
  if k_caps k then other_case c else c.

Definition set_esc (b : bool) (k : kb) : kb := Kb b (k_shift k) (k_ctl k) (k_alt k) (k_caps k) (k_num k) (k_scroll k).

(** A modifier goes down or up, a lock changes when its key goes down. *)
Definition modifier (b : bool) (x : key) (k : kb) : kb :=
  match x with
  | ModShift => Kb (k_esc k) b (k_ctl k) (k_alt k) (k_caps k) (k_num k) (k_scroll k)
  | ModCtl => Kb (k_esc k) (k_shift k) b (k_alt k) (k_caps k) (k_num k) (k_scroll k)
  | ModAlt => Kb (k_esc k) (k_shift k) (k_ctl k) b (k_caps k) (k_num k) (k_scroll k)
  | LockCaps => Kb (k_esc k) (k_shift k) (k_ctl k) (k_alt k) (xorb b (k_caps k)) (k_num k) (k_scroll k)
  | LockNum => Kb (k_esc k) (k_shift k) (k_ctl k) (k_alt k) (k_caps k) (xorb b (k_num k)) (k_scroll k)
  | LockScroll => Kb (k_esc k) (k_shift k) (k_ctl k) (k_alt k) (k_caps k) (k_num k) (xorb b (k_scroll k))
  | _ => k
  end.

(** One byte from the keyboard: the character typed, 0 for none. *)
Definition scan_byte (k : kb) (d : Z) : Z * kb :=
  if d =? 0xE0 then (0, set_esc true k) else
  let x := key_of (k_esc k) (d mod 128) in
  if 128 <=? d then (0, modifier false x (set_esc false k)) else
  let k := modifier true x (set_esc false k) in
  (match x with Glyph plain shifted => glyph k plain shifted | _ => 0 end, k).

(** The characters that a sequence of bytes types. *)
Fixpoint typed (k : kb) (ds : list Z) : list Z * kb :=
  match ds with
  | [] => ([], k)
  | d :: ds =>
      let '(c, k) := scan_byte k d in
      let '(cs, k) := typed k ds in (if c =? 0 then cs else c :: cs, k)
  end.

(** The bytes that the controller has, up to the first reading without. *)
Fixpoint scancodes (ports : list (Z * Z)) : list Z :=
  match ports with
  | [] => []
  | (st, data) :: ports => if Z.land st 1 =? 0 then [] else data :: scancodes ports
  end.

(** ** The keyboard feeds the console *)

(** The bits of the static variable [shift]. *)
Definition kb_of (shift : Z) : kb :=
  Kb (Z.testbit shift 6) (Z.testbit shift 0) (Z.testbit shift 1) (Z.testbit shift 2) (Z.testbit shift 3)
    (Z.testbit shift 4) (Z.testbit shift 5).

Definition decodes (shift data : Z) : bool :=
  match kbdgetc 1 data shift with
  | Some (c, shift') => bool_decide ((c, kb_of shift') = scan_byte (kb_of shift) data) &&
      ((0 <=? shift') && (shift' <? 128)) && ((0 <=? c) && (c <? 256))
  | None => false
  end.

(** For each of the values of [shift] and of the bytes. *)
Lemma decodes_all : forallb (fun shift => forallb (decodes shift) (seqZ 0 256)) (seqZ 0 128) = true.
Proof. by vm_compute. Qed.

(** [kbdgetc] is the keyboard. *)
Lemma kbdgetc_scans st data shift :
  0 <= data < 256 -> 0 <= shift < 128 -> Z.land st 1 <> 0 ->
  exists c shift', kbdgetc st data shift = Some (c, shift') /\ scan_byte (kb_of shift) data = (c, kb_of shift') /\
    0 <= shift' < 128 /\ 0 <= c < 256.
Proof.
  intros Hd Hs Hst. pose proof decodes_all as Ha. rewrite forallb_forall in Ha.
  specialize (Ha shift ltac:(apply list_elem_of_In, elem_of_seqZ; lia)). rewrite forallb_forall in Ha.
  specialize (Ha data ltac:(apply list_elem_of_In, elem_of_seqZ; lia)). unfold decodes in Ha.
  assert (kbdgetc st data shift = kbdgetc 1 data shift) as ->.
  { unfold kbdgetc. by rewrite (proj2 (Z.eqb_neq _ _) Hst). }
  destruct (kbdgetc 1 data shift) as [[c shift']|]; [|done]. exists c, shift'. split; [done|].
  destruct (bool_decide_reflect ((c, kb_of shift') = scan_byte (kb_of shift) data)); [|done]. split; [done|]. lia.
Qed.

(** C39: a keyboard interrupt types what was typed on the keyboard.  For every
    sequence of bytes from the controller, every state of the modifiers and
    locks and every state of the console, [kbdintr] takes the bytes up to the
    first reading without data, decodes them to the characters that the keys
    of a US keyboard type under shift, control and caps lock, all of them
    bytes, and enters exactly these, in order, into the console's line; it
    keeps the state of the modifiers and locks. *)
Theorem kbdintr_console ports shift s l base :
  Forall (fun '(_, data) => 0 <= data < 256) ports -> 0 <= shift < 128 -> cons_rep s l base ->
  exists shift' s', kbdintr ports shift s = Some (shift', s') /\ 0 <= shift' < 128 /\
    let '(cs, k) := typed (kb_of shift) (scancodes ports) in
    kb_of shift' = k /\ Forall (fun c => 0 < c < 256) cs /\ cons_rep s' (foldl (fun l c => type_char c l) l cs) base.
Proof.
  revert shift s l. induction ports as [|[st data] ports IH]; intros shift s l HF Hs Hrep.
  { by exists shift, s. }
  apply Forall_cons in HF as [Hd HF]. cbn [kbdintr scancodes].
  destruct (Z.eqb_spec (Z.land st 1) 0) as [E|Hst].
  { exists shift, s. split; [|done]. unfold kbdgetc. by rewrite E. }
  destruct (kbdgetc_scans st data shift Hd Hs Hst) as (c & shift1 & -> & Hsc & Hs1 & Hc).
  cbn [mbind option_bind typed]. rewrite Hsc, (proj2 (Z.ltb_ge c 0)) by lia.
  destruct (IH shift1 (intr_char c s) (type_char c l) HF Hs1) as (shift' & s' & E & Hs' & Ht).
  { by apply intr_char_rep. }
  exists shift', s'. split; [done|]. split; [done|]. destruct (typed (kb_of shift1) _) as [cs k].
  destruct Ht as (Hk & Hcs & Hr). destruct (Z.eqb_spec c 0) as [->|Hne]; [done|].
  split; [done|]. split; [constructor; [lia|done]|done].
Qed.

(** Shift down, 'a', shift up, 'b', control and 'h', return: "A" is left. *)
Lemma kbdintr_console_witness :
  exists shift' s',
    kbdintr [(1, 0x2A); (1, 0x1E); (1, 0xAA); (1, 0x30); (1, 0x1D); (1, 0x23); (1, 0x9D); (1, 0x1C); (0, 0)] 0 cinput0
      = Some (shift', s') /\ kb_of shift' = kb_of 0 /\ cons_rep s' (Line [65; NL] []) 0.
Proof.
  destruct (kbdintr_console [(1, 0x2A); (1, 0x1E); (1, 0xAA); (1, 0x30); (1, 0x1D); (1, 0x23); (1, 0x9D); (1, 0x1C); (0, 0)]
    0 cinput0 (Line [] []) 0) as (sh & s' & H1 & _ & H3).
  - repeat (constructor; [lia|]). constructor.
  - lia.
  - split; simpl; (done || lia || apply not_elem_of_nil).
  - exists sh, s'. split; [exact H1|]. vm_compute in H3. destruct H3 as (Hk & _ & Hr). split; [exact Hk|exact Hr].
Defined.
