(* ===== verification/Uart.v ===== *)
(** * The serial port (uart.c)

    [uartputc] waits for the transmitter for at most 128 readings of the
    status.  [uartintr] hands the bytes received to the line editor of the
    console. *)
From S2P Require Import Prelude Mmu Hw Irq Console.

Section Uart.
Context {D : Type} `{Bus D} (fuel : nat).

Definition COM1 : Z := 0x3f8.

(** The loop of [uartputc], with [n] readings left. *)
Fixpoint wait_transmit (n : nat) : M (mach D) unit :=
  match n with
  | O => ret tt
  | S n' => r <~ inb (COM1 + 5);;;
            if negb (Z.land r 0x20 =? 0) then ret tt else wait_transmit n'
  end.

Definition uartputc (c : Z) : M (mach D) unit :=
  u <~ gets uart;;;
  when u (wait_transmit 128;;; outb (COM1 + 0) c).

(** The characters of the announcement. *)
Definition xv6_text : list Z := [120; 118; 54; 46; 46; 46; 10].

Definition uartinit : M (mach D) unit :=
  outb (COM1 + 2) 0;;;
  outb (COM1 + 3) 0x80;;;
  outb (COM1 + 0) (115200 / 9600);;;
  outb (COM1 + 1) 0;;;
  outb (COM1 + 3) 0x03;;;
  outb (COM1 + 4) 0;;;
  outb (COM1 + 1) 0x01;;;
  r <~ inb (COM1 + 5);;;
  if r =? 0xFF then ret tt else
  modify (set_uart true);;;
  inb (COM1 + 2);;;
  inb (COM1 + 0);;;
  picenable IRQ_COM1;;;
  ioapicenable IRQ_COM1 0;;;
  mfor xv6_text uartputc.

Definition uartgetc : M (mach D) Z :=
  u <~ gets uart;;;
  if negb u then ret (-1) else
  r <~ inb (COM1 + 5);;;
  if Z.land r 0x01 =? 0 then ret (-1) else
  inb (COM1 + 0).

(** What [consoleintr] reads with [uartgetc] as getc, until it is negative. *)
Fixpoint getc_all (n : nat) : M (mach D) (list Z) :=
  match n with
  | O => hang
  | S n' => c <~ uartgetc;;;
            if c <? 0 then ret [] else l <~ getc_all n';;; ret (c :: l)
  end.

Definition uartintr : M (mach D * cinput) unit :=
  cs <~ zoom fst (fun m s => (m, snd s)) (getc_all fuel);;;
  modify (fun s => (fst s, consoleintr cs (snd s))).
End Uart.

Section UartTheorems.
Context {D : Type} `{Bus D} `{!UartBus D} (fuel : nat).
Implicit Types m : mach D.
Abbreviation com m := (com1 (bus m)).

Lemma status_run m :
  exists r d, inb (COM1 + 5) m = Ret r (set_bus d m) /\
    com1 d = Serial (s_in (com m)) (s_out (com m)) (pred (s_full (com m))) (s_dlab (com m)) /\
    r <> 0xFF /\ (Z.land r 0x20 =? 0) = negb (s_full (com m) =? 0)%nat /\
    (Z.land r 0x01 =? 0) = match s_in (com m) with [] => true | _ => false end.
Proof.
  unfold inb, COM1. change (0x3f8 + 5) with 0x3fd. pose proof (com1_status (bus m)) as L.
  destruct (bus_inb _ _) as [r d]. exists r, d. done.
Qed.

Lemma wait_run n m :
  (s_full (com m) <= n)%nat ->
  exists d, wait_transmit n m = Ret tt (set_bus d m) /\
    com1 d = Serial (s_in (com m)) (s_out (com m)) 0 (s_dlab (com m)).
Proof.
  revert m. induction n as [|n IH]; intros m Hn.
  - exists (bus m). cbn. split; [by destruct m|]. destruct (com m) as [? ? k ?]. cbn in Hn.
    by replace k with 0%nat by lia.
  - destruct (status_run m) as (r & d & E & Hd & _ & Hr & _). cbn [wait_transmit].
    rewrite (bind_Ret _ _ _ _ _ E), Hr, negb_involutive.
    destruct (Nat.eqb_spec (s_full (com m)) 0) as [E0|E0].
    + exists d. by rewrite Hd, E0.
    + destruct (IH (set_bus d m)) as (d' & E' & Hd'); cbn [bus set_bus] in *.
      { rewrite Hd. cbn [s_full]. lia. }
      exists d'. rewrite E'. split; [done|]. by rewrite Hd', Hd.
Qed.

Lemma putc_run c m :
  uart m = true -> s_dlab (com m) = false -> (s_full (com m) <= 128)%nat -> (com1_lag <= 128)%nat ->
  exists d, uartputc c m = Ret tt (set_bus d m) /\ s_dlab (com1 d) = false /\
    (s_full (com1 d) <= 128)%nat /\ s_in (com1 d) = s_in (com m) /\
    s_out (com1 d) = s_out (com m) ++ [u8 c].
Proof.
  intros Hu Hl Hf Hlag. unfold uartputc. rewrite bind_gets, Hu. cbn [when].
  destruct (wait_run 128 m Hf) as (d & E & Hd). rewrite (bind_Ret _ _ _ _ _ E). unfold outb, modify.
  destruct (com1_send (u8 c) d) as (n & Hn & Hs); [by rewrite Hd|by rewrite Hd|].
  eexists. split; [done|]. cbn [bus set_bus]. change (COM1 + 0) with 0x3f8. rewrite Hs, Hd. cbn.
  split_and!; [done|lia|done|done].
Qed.

Lemma puts_run cs m :
  uart m = true -> s_dlab (com m) = false -> (s_full (com m) <= 128)%nat -> (com1_lag <= 128)%nat ->
  exists d, mfor cs uartputc m = Ret tt (set_bus d m) /\ s_in (com1 d) = s_in (com m) /\
    s_out (com1 d) = s_out (com m) ++ map u8 cs /\
    s_dlab (com1 d) = false /\ (s_full (com1 d) <= 128)%nat.
Proof.
  intros Hu Hl Hf Hlag. revert m Hu Hl Hf. induction cs as [|c cs IH]; intros m Hu Hl Hf.
  - exists (bus m). cbn. rewrite app_nil_r. by destruct m.
  - destruct (putc_run c m Hu Hl Hf Hlag) as (d & E & Hl1 & Hf1 & Hi1 & Ho1).
    destruct (IH (set_bus d m) Hu Hl1 Hf1) as (d' & E' & Hi' & Ho' & Hr). exists d'. cbn [mfor].
    rewrite (bind_Ret _ _ _ _ _ E), E', Hi', Ho'. cbn [bus set_bus]. rewrite Hi1, Ho1, <- app_assoc. done.
Qed.

Lemma irq_keeps_com irq cpu m :
  exists m', (picenable irq;;; ioapicenable irq cpu) m = Ret tt m' /\ uart m' = uart m /\ com m' = com m.
Proof.
  unfold ioapicenable, picenable, picsetmask, outb. mrun. cbn [ismp set_bus set_irqmask].
  destruct (ismp m); cbn [when]; eexists; (split; [done|]); (split; [done|]); cbn [bus set_bus set_irqmask].
  - by rewrite !com1_store, !com1_other by done.
  - by rewrite !com1_other by done.
Qed.

(** The bytes read from the data register. *)
Lemma data_run m :
  s_dlab (com m) = false ->
  exists r d, inb (COM1 + 0) m = Ret r (set_bus d m) /\
    com1 d = Serial (tail (s_in (com m))) (s_out (com m)) (s_full (com m)) false /\
    (forall b l, s_in (com m) = b :: l -> r = b).
Proof.
  intros Hl. unfold inb. change (COM1 + 0) with 0x3f8. pose proof (com1_data (bus m) Hl) as L.
  destruct (bus_inb _ _) as [r d]. exists r, d. split; [done|].
  destruct (com m) as [[|b l] o f x]; cbn in *; [by subst x|]. destruct L as [-> L].
  split; [done|]. by intros ? ? [= -> _].
Qed.

(** The state of the port after [uartinit]: the announcement has been sent, and
    one byte that was waiting is lost. *)
Lemma uartinit_run m :
  (s_full (com m) <= 128)%nat -> (com1_lag <= 128)%nat ->
  exists m', uartinit m = Ret tt m' /\ uart m' = true /\ s_dlab (com m') = false /\
    s_in (com m') = tail (s_in (com m)) /\ s_out (com m') = s_out (com m) ++ xv6_text /\
    (s_full (com m') <= 128)%nat.
Proof.
  intros Hf Hlag. unfold uartinit. unfold outb at 1 2 3 4 5 6 7. rewrite !bind_modify.
  cbn [bus set_bus]. set (m1 := set_bus _ _).
  assert (C1 : com m1 = Serial (s_in (com m)) (s_out (com m)) (s_full (com m)) false).
  { unfold m1. cbn [bus set_bus]. change (COM1 + 0) with 0x3f8. change (COM1 + 3) with 0x3fb.
    rewrite !(com1_other (COM1 + 1)), !(com1_other (COM1 + 4)), com1_control by done.
    rewrite (com1_other (COM1 + 1)), com1_latch, com1_control by (rewrite ?com1_control; done).
    rewrite (com1_other (COM1 + 2)) by done. done. }
  destruct (status_run m1) as (r & d2 & E2 & C2 & Hr & _). rewrite (bind_Ret _ _ _ _ _ E2).
  apply Z.eqb_neq in Hr. rewrite Hr, bind_modify. set (m2 := set_uart true _).
  unfold inb at 1. unfold bind at 1. pose proof (com1_ack (bus m2)) as C3. change (COM1 + 2) with 0x3fa.
  destruct (bus_inb 0x3fa (bus m2)) as [r3 d3]. cbn [snd] in C3.
  assert (C3' : com1 d3 = Serial (s_in (com m)) (s_out (com m)) (pred (s_full (com m))) false).
  { rewrite C3. unfold m2. cbn [bus set_bus set_uart]. by rewrite C2, C1. }
  destruct (data_run (set_bus d3 m2)) as (r4 & d4 & E4 & C4 & _); [cbn [bus set_bus]; by rewrite C3'|].
  rewrite (bind_Ret _ _ _ _ _ E4), <- bind_assoc. cbn [bus set_bus] in C4.
  destruct (irq_keeps_com IRQ_COM1 0 (set_bus d4 (set_bus d3 m2))) as (m5 & E5 & U5 & C5).
  rewrite (bind_Ret _ _ _ _ _ E5). cbn [bus set_bus] in C5. rewrite C3' in C4. rewrite C4 in C5.
  destruct (puts_run xv6_text m5) as (d6 & E6 & I6 & O6 & L6 & F6); try done; try (rewrite C5; cbn; done || lia).
  rewrite E6. eexists. split; [done|]. cbn. rewrite I6, O6, L6, C5, U5. done.
Qed.

(** After [uartinit] the serial port has sent the announcement, and every
    string written with [uartputc] goes out byte for byte, as long as the
    transmitter is never full for more than 128 readings of its status. *)
Theorem uart_sends cs m :
  (s_full (com m) <= 128)%nat -> (com1_lag <= 128)%nat ->
  exists m', (uartinit;;; mfor cs uartputc) m = Ret tt m' /\
    s_out (com m') = s_out (com m) ++ xv6_text ++ map u8 cs.
Proof.
  intros Hf Hlag. destruct (uartinit_run m Hf Hlag) as (m1 & E1 & U1 & L1 & _ & O1 & F1).
  rewrite (bind_Ret _ _ _ _ _ E1). destruct (puts_run cs m1 U1 L1 F1 Hlag) as (d & E & _ & O & _).
  eexists. split; [done|]. cbn. by rewrite O, O1, <- app_assoc.
Qed.

Lemma getc_run m :
  uart m = true -> s_dlab (com m) = false ->
  exists d, uartgetc m = Ret (match s_in (com m) with b :: _ => b | [] => -1 end) (set_bus d m) /\
    s_dlab (com1 d) = false /\ s_in (com1 d) = tail (s_in (com m)) /\ s_out (com1 d) = s_out (com m).
Proof.
  intros Hu Hl. unfold uartgetc. rewrite bind_gets, Hu. cbn [negb].
  destruct (status_run m) as (r & d & E & C & _ & _ & Hr). rewrite (bind_Ret _ _ _ _ _ E), Hr.
  destruct (s_in (com m)) as [|b l] eqn:Ei.
  - exists d. by rewrite C.
  - destruct (data_run (set_bus d m)) as (r' & d' & E' & C' & Hb); cbn [bus set_bus] in *.
    { by rewrite C. }
    exists d'. rewrite E', C', C. rewrite (Hb b l) by (by rewrite C). done.
Qed.

Lemma getc_all_run n m :
  uart m = true -> s_dlab (com m) = false -> (length (s_in (com m)) < n)%nat ->
  Forall (fun b => 0 <= b) (s_in (com m)) ->
  exists d, getc_all n m = Ret (s_in (com m)) (set_bus d m) /\
    s_in (com1 d) = [] /\ s_out (com1 d) = s_out (com m).
Proof.
  revert m. induction n as [|n IH]; intros m Hu Hl Hn Hb; [lia|].
  destruct (getc_run m Hu Hl) as (d & E & Hl1 & Hi1 & Ho1). cbn [getc_all]. rewrite (bind_Ret _ _ _ _ _ E).
  destruct (s_in (com m)) as [|b l]; [by exists d|].
  apply Forall_cons in Hb as [Hb Hbl]. destruct (Z.ltb_spec b 0); [lia|]. cbn in Hi1, Hn.
  destruct (IH (set_bus d m) Hu Hl1) as (d' & E' & Hi' & Ho'); cbn [bus set_bus] in *; rewrite ?Hi1; try done; [lia|].
  exists d'. rewrite (bind_Ret _ _ _ _ _ E'), Hi1, Ho'. done.
Qed.

(** An interrupt of the serial port types exactly the bytes it has received
    into the console, in order, and leaves none behind. *)
Theorem uartintr_types m con :
  uart m = true -> s_dlab (com m) = false -> (length (s_in (com m)) < fuel)%nat ->
  Forall (fun b => 0 <= b) (s_in (com m)) ->
  exists m', uartintr fuel (m, con) = Ret tt (m', consoleintr (s_in (com m)) con) /\
    s_in (com m') = [] /\ s_out (com m') = s_out (com m).
Proof.
  intros Hu Hl Hn Hb. destruct (getc_all_run fuel m Hu Hl Hn Hb) as (d & E & Hi & Ho).
  exists (set_bus d m). unfold uartintr, bind, zoom. cbn [fst snd]. by rewrite E.
Qed.
End UartTheorems.
