(* ===== verification/Vm.v ===== *)
(** * Page tables (vm.c)

    The functions of vm.c on the byte memory and the page allocator of Kalloc.
    A page directory or page table is a page of memory whose words are read
    and written with [ld4] and [st4]; a [pte_t*] is the address of such a word.
    [data_] is the linker's symbol [data]. *)
From S2P Require Import Prelude Mmu Spinlock Strings Kalloc.

Section Vm.
Context (end_ data_ : Z).

Definition load (a : Z) : M kmem Z := gets (fun k => ld4 a (memory k)).
Definition store (a v : Z) : M kmem unit :=
  modify (fun k => set_memory (st4 a v (memory k)) k).
Definition mem_op (f : mem -> mem) : M kmem unit :=
  modify (fun k => set_memory (f (memory k)) k).

Definition present (e : Z) : bool := negb (Z.land e PTE_P =? 0).

Definition walkpgdir (pgdir va : Z) (alloc : bool) : M kmem Z :=
  let pde := u32 (pgdir + 4 * PDX va) in
  e <~ load pde;;;
  if present e then ret (u32 (p2v (PTE_ADDR e) + 4 * PTX va)) else
  if negb alloc then ret 0 else
  pgtab <~ kalloc;;;
  if pgtab =? 0 then ret 0 else
  mem_op (memset pgtab 0 PGSIZE);;;
  store pde (Z.lor (Z.lor (Z.lor (v2p pgtab) PTE_P) PTE_W) PTE_U);;;
  ret (u32 (pgtab + 4 * PTX va)).

(** One turn of the loop of [mappages]: -1 when no page table can be had. *)
Definition map_page (pgdir a pa perm : Z) : M kmem Z :=
  pte <~ walkpgdir pgdir a true;;;
  if pte =? 0 then ret (-1) else
  e <~ load pte;;;
  if present e then panic "remap" else
  store pte (Z.lor (Z.lor pa perm) PTE_P);;;
  ret 0.

Fixpoint map_loop (fuel : nat) (pgdir a last pa perm : Z) : M kmem Z :=
  match fuel with
  | O => hang
  | S fuel' =>
      r <~ map_page pgdir a pa perm;;;
      if r <? 0 then ret (-1) else
      if a =? last then ret 0 else
      map_loop fuel' pgdir (u32 (a + PGSIZE)) last (u32 (pa + PGSIZE)) perm
  end.

(** The loop runs until [a] meets [last]: that many turns. *)
Definition mappages (pgdir va size pa perm : Z) : M kmem Z :=
  let a := PGROUNDDOWN va in
  let last := PGROUNDDOWN (u32 (va + size - 1)) in
  map_loop (S (Z.to_nat (u32 (last - a) / PGSIZE))) pgdir a last pa perm.

(** [kmap[]]: virt, phys_start, phys_end, perm *)
Definition kmap : list (Z * Z * Z * Z) :=
  [ (KERNBASE, 0, EXTMEM, PTE_W);
    (KERNLINK, u32 (KERNLINK - KERNBASE), u32 (data_ - KERNBASE), 0);
    (data_, u32 (data_ - KERNBASE), PHYSTOP, PTE_W);
    (DEVSPACE, DEVSPACE, 0, PTE_W) ].

Fixpoint map_kernel (ks : list (Z * Z * Z * Z)) (pgdir : Z) : M kmem bool :=
  match ks with
  | [] => ret true
  | (virt, phys_start, phys_end, perm) :: ks' =>
      r <~ mappages pgdir virt (u32 (phys_end - phys_start)) phys_start perm;;;
      if r <? 0 then ret false else map_kernel ks' pgdir
  end.

Definition setupkvm : M kmem Z :=
  pgdir <~ kalloc;;;
  if pgdir =? 0 then ret 0 else
  mem_op (memset pgdir 0 PGSIZE);;;
  if DEVSPACE <? p2v PHYSTOP then panic "PHYSTOP too high" else
  ok <~ map_kernel kmap pgdir;;;
  if ok : bool then ret pgdir else ret 0.

(** [init] is the address of the initial code. *)
Definition inituvm (pgdir init sz : Z) : M kmem unit :=
  if PGSIZE <=? sz then panic "inituvm: more than a page" else
  mem <~ kalloc;;;
  mem_op (memset mem 0 PGSIZE);;;
  mappages pgdir 0 PGSIZE (v2p mem) (Z.lor PTE_W PTE_U);;;
  mem_op (memmove mem init sz).

Fixpoint dealloc_loop (fuel : nat) (pgdir a oldsz : Z) : M kmem unit :=
  match fuel with
  | O => hang
  | S fuel' =>
      if negb (a <? oldsz) then ret tt else
      pte <~ walkpgdir pgdir a false;;;
      if pte =? 0 then
        dealloc_loop fuel' pgdir (u32 (u32 (a + (Z.of_nat NPTENTRIES - 1) * PGSIZE) + PGSIZE)) oldsz
      else
        e <~ load pte;;;
        when (present e)
          (let pa := PTE_ADDR e in
           if pa =? 0 then panic "kfree" else
           kfree end_ (p2v pa);;;
           store pte 0);;;
        dealloc_loop fuel' pgdir (u32 (a + PGSIZE)) oldsz
  end.

Definition deallocuvm (pgdir oldsz newsz : Z) : M kmem Z :=
  if oldsz <=? newsz then ret oldsz else
  dealloc_loop (S (Z.to_nat (oldsz / PGSIZE + 1))) pgdir (PGROUNDUP newsz) oldsz;;;
  ret newsz.

Fixpoint alloc_loop (fuel : nat) (pgdir a oldsz newsz : Z) : M kmem Z :=
  match fuel with
  | O => hang
  | S fuel' =>
      if negb (a <? newsz) then ret newsz else
      mem <~ kalloc;;;
      if mem =? 0 then deallocuvm pgdir newsz oldsz;;; ret 0 else
      mem_op (memset mem 0 PGSIZE);;;
      mappages pgdir a PGSIZE (v2p mem) (Z.lor PTE_W PTE_U);;;
      alloc_loop fuel' pgdir (u32 (a + PGSIZE)) oldsz newsz
  end.

Definition allocuvm (pgdir oldsz newsz : Z) : M kmem Z :=
  if KERNBASE <=? newsz then ret 0 else
  if newsz <? oldsz then ret oldsz else
  alloc_loop (S (Z.to_nat (newsz / PGSIZE + 1))) pgdir (PGROUNDUP oldsz) oldsz newsz.

Definition free_table (pgdir : Z) (i : nat) : M kmem unit :=
  e <~ load (u32 (pgdir + 4 * Z.of_nat i));;;
  when (present e) (kfree end_ (p2v (PTE_ADDR e))).

Definition freevm (pgdir : Z) : M kmem unit :=
  if pgdir =? 0 then panic "freevm: no pgdir" else
  deallocuvm pgdir KERNBASE 0;;;
  mfor (seq 0 NPDENTRIES) (free_table pgdir);;;
  kfree end_ pgdir.

Definition clearpteu (pgdir uva : Z) : M kmem unit :=
  pte <~ walkpgdir pgdir uva false;;;
  if pte =? 0 then panic "clearpteu" else
  e <~ load pte;;;
  store pte (Z.ldiff e PTE_U).

(** The loop of [copyuvm]: [false] is the jump to [bad]. *)
Fixpoint copy_loop (fuel : nat) (pgdir d sz i : Z) : M kmem bool :=
  match fuel with
  | O => hang
  | S fuel' =>
      if negb (i <? sz) then ret true else
      pte <~ walkpgdir pgdir i false;;;
      if pte =? 0 then panic "copyuvm: pte should exist" else
      e <~ load pte;;;
      if negb (present e) then panic "copyuvm: page not present" else
      let pa := PTE_ADDR e in
      mem <~ kalloc;;;
      if mem =? 0 then ret false else
      mem_op (memmove mem (p2v pa) PGSIZE);;;
      r <~ mappages d i PGSIZE (v2p mem) (Z.lor PTE_W PTE_U);;;
      if r <? 0 then ret false else
      copy_loop fuel' pgdir d sz (u32 (i + PGSIZE))
  end.

Definition copyuvm (pgdir sz : Z) : M kmem Z :=
  d <~ setupkvm;;;
  if d =? 0 then ret 0 else
  ok <~ copy_loop (S (Z.to_nat (sz / PGSIZE + 1))) pgdir d sz 0;;;
  if ok : bool then ret d else freevm d;;; ret 0.

(** [walkpgdir]'s result is used unchecked: reading through a null pointer is
    a fault. *)
Definition uva2ka (pgdir uva : Z) : M kmem Z :=
  pte <~ walkpgdir pgdir uva false;;;
  if pte =? 0 then fault else
  e <~ load pte;;;
  if Z.land e PTE_P =? 0 then ret 0 else
  if Z.land e PTE_U =? 0 then ret 0 else
  ret (p2v (PTE_ADDR e)).

(** The bytes [buf] stored from address [a] on. *)
Definition poke (a : Z) (buf : list Z) (m : mem) : mem :=
  fun x => if decide (a <= x) then default (m x) (buf !! Z.to_nat (x - a)) else m x.

(** The buffer of the kernel is the list of its bytes. *)
Fixpoint copyout_loop (fuel : nat) (pgdir va : Z) (buf : list Z) : M kmem Z :=
  match fuel with
  | O => hang
  | S fuel' =>
      let len := Z.of_nat (length buf) in
      if negb (0 <? len) then ret 0 else
      let va0 := PGROUNDDOWN va in
      pa0 <~ uva2ka pgdir va0;;;
      if pa0 =? 0 then ret (-1) else
      let n := PGSIZE - (va - va0) in
      let n := if len <? n then len else n in
      mem_op (poke (u32 (pa0 + (va - va0))) (take (Z.to_nat n) buf));;;
      copyout_loop fuel' pgdir (u32 (va0 + PGSIZE)) (drop (Z.to_nat n) buf)
  end.

Definition copyout (pgdir va : Z) (buf : list Z) : M kmem Z :=
  copyout_loop (S (S (Z.to_nat (Z.of_nat (length buf) / PGSIZE + 1)))) pgdir va buf.

End Vm.

(** ** Loading a program *)

(** The program file is read in a larger state: [onm] runs on the memory, and
    [readi off n] gives the bytes read or nothing for an error (-1). *)
Section Load.
Context {X : Type} (onm : forall A, M kmem A -> M X A) (readi : Z -> Z -> M X (option (list Z))).

Fixpoint load_pages (fuel : nat) (pgdir addr offset sz i : Z) : M X Z :=
  match fuel with
  | O => hang
  | S fuel' =>
      if negb (i <? sz) then ret 0 else
      pte <~ onm _ (walkpgdir pgdir (u32 (addr + i)) false);;;
      if pte =? 0 then panic "loaduvm: address should exist" else
      e <~ onm _ (load pte);;;
      let pa := PTE_ADDR e in
      let n := if sz - i <? PGSIZE then sz - i else PGSIZE in
      r <~ readi (u32 (offset + i)) n;;;
      match r with
      | None => ret (-1)
      | Some buf =>
          onm _ (mem_op (poke (p2v pa) buf));;;
          if negb (Z.of_nat (length buf) =? n) then ret (-1) else
          load_pages fuel' pgdir addr offset sz (u32 (i + PGSIZE))
      end
  end.

Definition loaduvm (pgdir addr offset sz : Z) : M X Z :=
  if negb (addr mod PGSIZE =? 0) then panic "loaduvm: addr must be page aligned" else
  load_pages (S (Z.to_nat (sz / PGSIZE + 1))) pgdir addr offset sz 0.
End Load.

(** ** Segments and the hardware registers *)

(** What [seginit], [switchkvm] and [switchuvm] set: the descriptor table, the
    task segment's stack, %gs, the task register and %cr3. *)
Record cpuregs := Cpuregs {
  gdt : list segdesc;
  ts_ss0 : Z;
  ts_esp0 : Z;
  reg_gs : Z;
  reg_tr : Z;
  cr3 : Z
}.

(** [cpu_addr] is the address of the per-CPU variables. *)
Definition seginit (cpu_addr : Z) (c : cpuregs) : cpuregs :=
  let g := gdt c in
  let g := <[Z.to_nat SEG_KCODE := SEG (Z.lor STA_X STA_R) 0 0xffffffff 0]> g in
  let g := <[Z.to_nat SEG_KDATA := SEG STA_W 0 0xffffffff 0]> g in
  let g := <[Z.to_nat SEG_UCODE := SEG (Z.lor STA_X STA_R) 0 0xffffffff DPL_USER]> g in
  let g := <[Z.to_nat SEG_UDATA := SEG STA_W 0 0xffffffff DPL_USER]> g in
  let g := <[Z.to_nat SEG_KCPU := SEG STA_W cpu_addr 8 0]> g in
  Cpuregs g (ts_ss0 c) (ts_esp0 c) (Z.shiftl SEG_KCPU 3) (reg_tr c) (cr3 c).

Definition switchkvm (kpgdir : Z) (c : cpuregs) : cpuregs :=
  Cpuregs (gdt c) (ts_ss0 c) (ts_esp0 c) (reg_gs c) (reg_tr c) (v2p kpgdir).

Definition set_seg_s (v : Z) (d : segdesc) : segdesc :=
  Segdesc (lim_15_0 d) (base_15_0 d) (base_23_16 d) (seg_type d) v (seg_dpl d) (seg_p d)
    (lim_19_16 d) (seg_avl d) (seg_rsv1 d) (seg_db d) (seg_g d) (base_31_24 d).

(** [ts_addr] is the address of the task segment, [kstack] the current
    process's kernel stack. *)
Definition switchuvm (ts_addr kstack pgdir : Z) : M (lstate * cpuregs) unit :=
  zoom fst (fun l s => (l, snd s)) pushcli;;;
  modify (fun s => let c := snd s in
    (fst s, Cpuregs (<[Z.to_nat SEG_TSS := set_seg_s 0 (SEG16 STS_T32A ts_addr (104 - 1) 0)]> (gdt c))
              (Z.shiftl SEG_KDATA 3) (u32 (kstack + 4096)) (reg_gs c) (Z.shiftl SEG_TSS 3) (cr3 c)));;;
  if pgdir =? 0 then panic "switchuvm: no pgdir" else
  modify (fun s => let c := snd s in
    (fst s, Cpuregs (gdt c) (ts_ss0 c) (ts_esp0 c) (reg_gs c) (reg_tr c) (v2p pgdir)));;;
  zoom fst (fun l s => (l, snd s)) popcli.
