(* ===== verification/Mp.v ===== *)
(** * Processors: the tables of the BIOS (mp.c, mp.h) and their start (main.c)

    [mem] is the physical memory that the BIOS filled, a byte per address.
    mpinit looks for the floating pointer structure, follows it to the
    configuration table and counts the processors in it.  Messages go no
    further.  The theorems are against tables as lists of entries.  startothers
    of main.c starts the processors that were found. *)
From S2P Require Import Prelude Mmu Spinlock Strings Kalloc Vm Hw Irq.

Definition NCPU : nat := 8.
Definition MPPROC : Z := 0x00.
Definition MPBUS : Z := 0x01.
Definition MPIOAPIC : Z := 0x02.
Definition MPIOINTR : Z := 0x03.
Definition MPLINTR : Z := 0x04.
Definition MPBOOT : Z := 0x02.

(** sizeof(struct mp), struct mpconf, struct mpproc, struct mpioapic *)
Definition sizeof_mp : Z := 16.
Definition sizeof_mpconf : Z := 44.
Definition sizeof_mpproc : Z := 20.
Definition sizeof_mpioapic : Z := 8.

Section Mp.
Context {D : Type} `{Bus D} (mem : Z -> Z).

Definition ushort_at (a : Z) : Z := mem a + 2 ^ 8 * mem (a + 1).
Definition uint_at (a : Z) : Z := ushort_at a + 2 ^ 16 * ushort_at (a + 2).
Definition bytes_at (a : Z) (n : nat) : list Z := map (fun i => mem (a + Z.of_nat i)) (seq 0 n).

(** [sum] *)
Definition sum (a : Z) (len : Z) : Z := u8 (foldl Z.add 0 (bytes_at a (Z.to_nat len))).

Definition mp_signature : list Z := [95; 77; 80; 95].
Definition conf_signature : list Z := [80; 67; 77; 80].
Definition memcmp0 (a : Z) (l : list Z) : bool := bool_decide (bytes_at a (length l) = l).

(** The loop of [mpsearch1], with [n] structures left. *)
Fixpoint search_loop (n : nat) (p : Z) : option Z :=
  match n with
  | O => None
  | S n' =>
      if memcmp0 p mp_signature && (sum p sizeof_mp =? 0) then Some p
      else search_loop n' (p + sizeof_mp)
  end.

(** [len] is a multiple of the size in every call. *)
Definition mpsearch1 (a len : Z) : option Z := search_loop (Z.to_nat (len / sizeof_mp)) a.

Definition mpsearch : option Z :=
  let bda := 0x400 in
  let p := Z.shiftl (Z.lor (Z.shiftl (mem (bda + 0x0F)) 8) (mem (bda + 0x0E))) 4 in
  let first :=
    if negb (p =? 0) then mpsearch1 p 1024
    else let p := Z.lor (Z.shiftl (mem (bda + 0x14)) 8) (mem (bda + 0x13)) * 1024 in
         mpsearch1 (u32 (p - 1024)) 1024 in
  match first with
  | Some mp => Some mp
  | None => mpsearch1 0xF0000 0x10000
  end.

(** The structure and the table, when both are there. *)
Definition mpconfig : option (Z * Z) :=
  match mpsearch with
  | None => None
  | Some mp =>
      let conf := uint_at (mp + 4) in
      if conf =? 0 then None else
      if negb (memcmp0 conf conf_signature) then None else
      if negb (mem (conf + 6) =? 1) && negb (mem (conf + 6) =? 4) then None else
      if negb (sum conf (ushort_at (conf + 4)) =? 0) then None else
      Some (mp, conf)
  end.

Definition set_ismp (v : bool) (m : mach D) : mach D :=
  Mach (bus m) (irqmask m) (uart m) (lapic m) v (ncpu m) (ioapicid m) (cpu_id m) (bcpu m) (wrv m).
Definition set_lapic (v : Z) (m : mach D) : mach D :=
  Mach (bus m) (irqmask m) (uart m) v (ismp m) (ncpu m) (ioapicid m) (cpu_id m) (bcpu m) (wrv m).
Definition set_ncpu (v : Z) (m : mach D) : mach D :=
  Mach (bus m) (irqmask m) (uart m) (lapic m) (ismp m) v (ioapicid m) (cpu_id m) (bcpu m) (wrv m).
Definition set_ioapicid (v : Z) (m : mach D) : mach D :=
  Mach (bus m) (irqmask m) (uart m) (lapic m) (ismp m) (ncpu m) v (cpu_id m) (bcpu m) (wrv m).
Definition set_cpu_id (v : list Z) (m : mach D) : mach D :=
  Mach (bus m) (irqmask m) (uart m) (lapic m) (ismp m) (ncpu m) (ioapicid m) v (bcpu m) (wrv m).
Definition set_bcpu (v : Z) (m : mach D) : mach D :=
  Mach (bus m) (irqmask m) (uart m) (lapic m) (ismp m) (ncpu m) (ioapicid m) (cpu_id m) v (wrv m).

Definition mpbcpu : M (mach D) Z := gets bcpu.

(** The case MPPROC of the loop of [mpinit]. *)
Definition mp_proc (p : Z) : M (mach D) unit :=
  n <~ gets ncpu;;;
  when (negb (n =? mem (p + 1))) (modify (set_ismp false));;;
  when (negb (Z.land (mem (p + 3)) MPBOOT =? 0)) (modify (set_bcpu n));;;
  modify_opt (fun m => (fun l => set_cpu_id l m) <$> wr (cpu_id m) n n);;;
  modify (set_ncpu (n + 1)).

(** The loop of [mpinit] from [p] to [e]. *)
Fixpoint mp_loop (fuel : nat) (p e : Z) : M (mach D) unit :=
  if p <? e then
    match fuel with
    | O => hang
    | S fuel' =>
        let t := mem p in
        if t =? MPPROC then mp_proc p;;; mp_loop fuel' (p + sizeof_mpproc) e
        else if t =? MPIOAPIC then
          modify (set_ioapicid (mem (p + 1)));;; mp_loop fuel' (p + sizeof_mpioapic) e
        else if (t =? MPBUS) || (t =? MPIOINTR) || (t =? MPLINTR) then mp_loop fuel' (p + 8) e
        else modify (set_ismp false);;; mp_loop fuel' p e
    end
  else ret tt.

Definition mpinit (fuel : nat) : M (mach D) unit :=
  modify (set_bcpu 0);;;
  match mpconfig with
  | None => ret tt
  | Some (mp, conf) =>
      modify (set_ismp true);;;
      modify (set_lapic (uint_at (conf + 36)));;;
      mp_loop fuel (conf + sizeof_mpconf) (conf + ushort_at (conf + 4));;;
      ok <~ gets ismp;;;
      if negb ok then
        modify (set_ncpu 1);;;
        modify (set_lapic 0);;;
        modify (set_ioapicid 0)
      else
        when (negb (mem (mp + 12) =? 0))
          (outb 0x22 0x70;;;
           v <~ inb 0x23;;;
           outb 0x23 (Z.lor v 1))
  end.
End Mp.

(** ** Tables as lists of entries *)

Inductive mpentry :=
| EProc (apicid version flags : Z) (rest : list Z)
| EIoapic (apicno : Z) (rest : list Z)
| EOther (type : Z) (rest : list Z).

Definition encode (e : mpentry) : list Z :=
  match e with
  | EProc id v f rest => MPPROC :: id :: v :: f :: rest
  | EIoapic id rest => MPIOAPIC :: id :: rest
  | EOther t rest => t :: rest
  end.
Definition encodes (es : list mpentry) : list Z := es ≫= encode.

Definition entry_ok (e : mpentry) : Prop :=
  match e with
  | EProc _ _ _ rest => length rest = 16%nat
  | EIoapic _ rest => length rest = 6%nat
  | EOther t rest => t ∈ [MPBUS; MPIOINTR; MPLINTR] /\ length rest = 7%nat
  end.

(** The processors of a table, with APIC id and flags. *)
Definition procs (es : list mpentry) : list (Z * Z) :=
  omap (fun e => match e with EProc id _ f _ => Some (id, f) | _ => None end) es.
(** The last processor flagged for booting, counting from [n]; [b] without one. *)
Fixpoint boot (n b : Z) (ps : list (Z * Z)) : Z :=
  match ps with
  | [] => b
  | (_, f) :: ps => boot (n + 1) (if Z.land f MPBOOT =? 0 then b else n) ps
  end.
(** The last I/O APIC. *)
Definition last_ioapic (b : Z) (es : list mpentry) : Z :=
  foldl (fun b e => match e with EIoapic id _ => id | _ => b end) b es.
(** The APIC ids are [n], [n + 1], ... *)
Fixpoint numbered (n : Z) (ps : list (Z * Z)) : bool :=
  match ps with [] => true | (id, _) :: ps => (n =? id) && numbered (n + 1) ps end.

Section MpTheorems.
Context {D : Type} `{Bus D} (mem : Z -> Z).
Implicit Types m : mach D.

Definition stored (a : Z) (l : list Z) : Prop :=
  forall i x, l !! i = Some x -> mem (a + Z.of_nat i) = x.

Lemma stored_bytes a l : bytes_at mem a (length l) = l -> stored a l.
Proof.
  intros E i x Hi. pose proof (lookup_lt_Some _ _ _ Hi) as Hlt. rewrite <- E in Hi. unfold bytes_at in Hi.
  rewrite list_lookup_fmap, lookup_seq_lt in Hi by done. by injection Hi.
Qed.

Lemma stored_app a l1 l2 :
  stored a (l1 ++ l2) -> stored a l1 /\ stored (a + Z.of_nat (length l1)) l2.
Proof.
  intros S. split.
  - intros i x E. apply S. by apply lookup_app_l_Some.
  - intros i x E. rewrite <- Z.add_assoc, <- Nat2Z.inj_add. apply S.
    rewrite lookup_app_r by lia. by replace (length l1 + i - length l1)%nat with i by lia.
Qed.

Lemma mp_proc_run p id v f rest m :
  stored p (encode (EProc id v f rest)) -> 0 <= ncpu m < Z.of_nat (length (cpu_id m)) ->
  mp_proc mem p m = Ret tt (Mach (bus m) (irqmask m) (uart m) (lapic m) (ismp m && (ncpu m =? id))
    (ncpu m + 1) (ioapicid m) (<[Z.to_nat (ncpu m) := ncpu m]> (cpu_id m))
    (if Z.land f MPBOOT =? 0 then bcpu m else ncpu m) (wrv m)).
Proof.
  intros S Hn. unfold mp_proc. rewrite bind_gets.
  assert (mem (p + 1) = id) as -> by (by apply (S 1%nat)).
  assert (mem (p + 3) = f) as -> by (by apply (S 3%nat)).
  destruct m as [d im u l mp n io ids b w]. cbn in Hn |- *.
  destruct (Z.eqb_spec n id), (Z.land f MPBOOT =? 0); cbn; unfold bind, modify, modify_opt, wr; cbn;
    rewrite decide_True by lia; cbn; by rewrite ?andb_true_r, ?andb_false_r.
Qed.

(** The machine after the entries [es]. *)
Fixpoint visit (es : list mpentry) (m : mach D) : mach D :=
  match es with
  | [] => m
  | EProc id _ f _ :: es =>
      visit es (Mach (bus m) (irqmask m) (uart m) (lapic m) (ismp m && (ncpu m =? id))
        (ncpu m + 1) (ioapicid m) (<[Z.to_nat (ncpu m) := ncpu m]> (cpu_id m))
        (if Z.land f MPBOOT =? 0 then bcpu m else ncpu m) (wrv m))
  | EIoapic id _ :: es => visit es (set_ioapicid id m)
  | EOther _ _ :: es => visit es m
  end.

Lemma mp_loop_run es fuel p m :
  stored p (encodes es) -> Forall entry_ok es -> (length es <= fuel)%nat -> 0 <= ncpu m ->
  ncpu m + Z.of_nat (length (procs es)) <= Z.of_nat (length (cpu_id m)) ->
  mp_loop mem fuel p (p + Z.of_nat (length (encodes es))) m = Ret tt (visit es m).
Proof.
  revert fuel p m. induction es as [|e es IH]; intros fuel p m S F Hf Hn Hlen.
  { cbn. rewrite Z.add_0_r. by destruct fuel; cbn; rewrite Z.ltb_irrefl. }
  apply Forall_cons in F as [He F]. destruct fuel as [|fuel]; [cbn in Hf; lia|]. cbn in Hf.
  change (encodes (e :: es)) with (encode e ++ encodes es) in *.
  apply stored_app in S as [S1 S2]. rewrite length_app. cbn [mp_loop].
  assert (Hpos : (0 < length (encode e))%nat) by (destruct e; cbn; lia).
  destruct (Z.ltb_spec p (p + Z.of_nat (length (encode e) + length (encodes es)))); [|lia].
  rewrite Nat2Z.inj_add, Z.add_assoc.
  assert (mem p = default 0 (head (encode e))) as ->.
  { rewrite <- (Z.add_0_r p). destruct e; by apply (S1 0%nat). }
  assert (Hsz : Z.of_nat (length (encode e)) =
    match e with EProc _ _ _ _ => sizeof_mpproc | EIoapic _ _ => sizeof_mpioapic | EOther _ _ => 8 end).
  { destruct e; cbn in He |- *; unfold sizeof_mpproc, sizeof_mpioapic; lia. }
  rewrite Hsz in S2 |- *. clear Hsz Hpos.
  destruct e as [ap v f rest|ap rest|t rest]; cbn [entry_ok] in He; cbn [encode head].
  - unfold default, Datatypes.id. cbn [Z.eqb MPPROC].
    change (procs (EProc ap v f rest :: es)) with ((ap, f) :: procs es) in Hlen. cbn [length] in Hlen.
    rewrite (bind_Ret _ _ _ _ _ (mp_proc_run p _ v f rest m S1 ltac:(lia))).
    cbn [visit]. apply IH; try done; [lia|cbn; lia|]. cbn. rewrite length_insert. lia.
  - unfold default, Datatypes.id. change (MPIOAPIC =? MPPROC) with false. change (MPIOAPIC =? MPIOAPIC) with true.
    cbv iota. rewrite bind_modify.
    assert (mem (p + 1) = ap) as -> by (by apply (S1 1%nat)).
    cbn [visit]. apply IH; try done. lia.
  - destruct He as [Ht Hr]. cbn [visit]. unfold default, Datatypes.id.
    assert ((t =? MPPROC) = false /\ (t =? MPIOAPIC) = false /\
      (t =? MPBUS) || (t =? MPIOINTR) || (t =? MPLINTR) = true) as (-> & -> & ->).
    { assert (t = MPBUS \/ t = MPIOINTR \/ t = MPLINTR) as [-> |[-> | ->]] by set_solver; done. }
    apply IH; try done. lia.
Qed.

Lemma visit_spec es m :
  0 <= ncpu m -> ncpu m + Z.of_nat (length (procs es)) <= Z.of_nat (length (cpu_id m)) ->
  let m' := visit es m in
  ncpu m' = ncpu m + Z.of_nat (length (procs es)) /\ lapic m' = lapic m /\ bus m' = bus m /\
  ismp m' = ismp m && numbered (ncpu m) (procs es) /\ ioapicid m' = last_ioapic (ioapicid m) es /\
  bcpu m' = boot (ncpu m) (bcpu m) (procs es) /\ length (cpu_id m') = length (cpu_id m) /\
  (forall i, (i < Z.to_nat (ncpu m))%nat -> cpu_id m' !! i = cpu_id m !! i) /\
  (forall i, ncpu m <= Z.of_nat i < ncpu m' -> cpu_id m' !! i = Some (Z.of_nat i)).
Proof.
  revert m. induction es as [|[ap v f rest|ap rest|t rest] es IH]; intros m Hn Hlen m'.
  { cbn. rewrite Z.add_0_r, andb_true_r. split_and!; try done. lia. }
  - change (procs (EProc ap v f rest :: es)) with ((ap, f) :: procs es) in *. cbn [length] in *.
    subst m'. cbn [visit]. set (m1 := Mach _ _ _ _ _ _ _ _ _ _).
    assert (Hl1 : length (cpu_id m1) = length (cpu_id m)) by apply length_insert.
    destruct (IH m1) as (H1 & H2 & H3 & H4 & H5 & H6 & H7 & H8 & H9); [cbn; lia|rewrite Hl1; cbn; lia|].
    assert (N1 : ncpu m1 = ncpu m + 1) by done.
    split_and!; try done; [lia|by rewrite H4; cbn; rewrite andb_assoc|by rewrite H7|..].
    + intros i Hi. rewrite H8 by lia. cbn. rewrite list_lookup_insert_ne by lia. done.
    + intros i Hi. destruct (decide (Z.of_nat i = ncpu m)) as [E|E]; [|apply H9; lia].
      rewrite H8 by lia. cbn. replace i with (Z.to_nat (ncpu m)) by lia.
      rewrite list_lookup_insert_eq by lia. f_equal. lia.
  - apply (IH (set_ioapicid ap m)); done.
  - apply (IH m); done.
Qed.

(** [mpinit] reads the configuration table back: for every table that lists up
    to eight processors it ends, and if their APIC ids are 0, 1, ... in order
    it has counted and numbered them, and knows the boot processor, the local
    APIC and the last I/O APIC; otherwise it falls back to one processor. *)
Theorem mpinit_reads_table es fuel mp conf m :
  mpconfig mem = Some (mp, conf) -> stored (conf + sizeof_mpconf) (encodes es) ->
  ushort_at mem (conf + 4) = sizeof_mpconf + Z.of_nat (length (encodes es)) ->
  Forall entry_ok es -> (length (procs es) <= NCPU)%nat -> (length es <= fuel)%nat ->
  ncpu m = 0 -> length (cpu_id m) = NCPU ->
  exists m', mpinit mem fuel m = Ret tt m' /\ ismp m' = numbered 0 (procs es) /\
    if numbered 0 (procs es) then
      ncpu m' = Z.of_nat (length (procs es)) /\ lapic m' = uint_at mem (conf + 36) /\
      ioapicid m' = last_ioapic (ioapicid m) es /\ bcpu m' = boot 0 0 (procs es) /\
      (forall i, (i < length (procs es))%nat -> cpu_id m' !! i = Some (Z.of_nat i))
    else ncpu m' = 1 /\ lapic m' = 0 /\ ioapicid m' = 0.
Proof.
  intros Ec S El F Hp Hf Hn Hlen. unfold mpinit. rewrite bind_modify, Ec, !bind_modify.
  set (m1 := set_lapic _ _). rewrite El, Z.add_assoc. unfold NCPU in *.
  assert (N1 : ncpu m1 = 0) by done. assert (L1 : length (cpu_id m1) = 8%nat) by done.
  rewrite (bind_Ret _ _ _ _ _ (mp_loop_run es fuel _ m1 S F Hf ltac:(lia) ltac:(lia))), bind_gets.
  destruct (visit_spec es m1 ltac:(lia) ltac:(lia)) as (H1 & H2 & _ & H4 & H5 & H6 & _ & _ & H9).
  rewrite N1 in *. cbn [ismp set_lapic set_ismp m1 andb] in H4. rewrite H4. set (m2 := visit es m1) in *.
  destruct (numbered 0 (procs es)); cbn [negb].
  - assert (exists d, (when (negb (mem (mp + 12) =? 0)) (outb 0x22 0x70;;; v <~ inb 0x23;;; outb 0x23 (Z.lor v 1))) m2
      = Ret tt (set_bus d m2)) as [d ->].
    { destruct (_ =? 0); cbn [negb when]; [by exists (bus m2); destruct m2|].
      unfold outb. rewrite bind_modify. unfold bind, inb. cbn. destruct (bus_inb _ _) as [v d]. by eexists. }
    exists (set_bus d m2). split; [done|]. split; [done|]. cbn.
    split_and!; [lia|done|done|done|]. intros i Hi. apply H9. lia.
  - eexists. split; [done|]. by cbn.
Qed.

(** ** The search *)

Definition valid_mp (p : Z) : bool := memcmp0 mem p mp_signature && (sum mem p sizeof_mp =? 0).

(** [mpsearch1] gives the first structure with signature and checksum, at a
    multiple of 16 from the start, and nothing only when there is none. *)
Theorem mpsearch1_first a len :
  match mpsearch1 mem a len with
  | Some q => exists k, q = a + 16 * Z.of_nat k /\ (k < Z.to_nat (len / 16))%nat /\ valid_mp q = true /\
      forall j, (j < k)%nat -> valid_mp (a + 16 * Z.of_nat j) = false
  | None => forall j, (j < Z.to_nat (len / 16))%nat -> valid_mp (a + 16 * Z.of_nat j) = false
  end.
Proof.
  unfold mpsearch1. change sizeof_mp with 16. generalize (Z.to_nat (len / 16)) as n. intros n. revert a.
  induction n as [|n IH]; intros a; cbn [search_loop]; [lia|].
  fold (valid_mp a). destruct (valid_mp a) eqn:Ev.
  { exists 0%nat. rewrite Z.add_0_r. split_and!; try done; lia. }
  assert (K : forall j, a + sizeof_mp + 16 * Z.of_nat j = a + 16 * Z.of_nat (S j)) by (unfold sizeof_mp; lia).
  specialize (IH (a + sizeof_mp)). destruct (search_loop _ _ _) as [q|].
  - destruct IH as (k & -> & Hk & Hv & Hj). exists (S k). rewrite K in *. split_and!; try done; [lia|].
    intros [|j] Hlt; [by rewrite Z.add_0_r|]. rewrite <- K. apply Hj. lia.
  - intros [|j] Hlt; [by rewrite Z.add_0_r|]. rewrite <- K. apply IH. lia.
Qed.

(** ** Defects *)

(** An entry of an unknown type is never left: the machine hangs in the loop
    although the code means to fall back to one processor. *)
Lemma unknown_entry_hangs fuel p e m :
  p < e -> 4 < mem p -> mp_loop mem fuel p e m = Hang.
Proof.
  intros Hp Ht. revert m. induction fuel as [|fuel IH]; intros m; cbn [mp_loop];
    destruct (Z.ltb_spec p e); try lia; [done|].
  unfold MPPROC, MPIOAPIC, MPBUS, MPIOINTR, MPLINTR.
  destruct (Z.eqb_spec (mem p) 0), (Z.eqb_spec (mem p) 1), (Z.eqb_spec (mem p) 2),
    (Z.eqb_spec (mem p) 3), (Z.eqb_spec (mem p) 4); try lia.
  cbn [orb]. rewrite bind_modify. apply IH.
Qed.

(** The ninth processor of a table is written beyond the array cpus. *)
Lemma ninth_processor_faults p m :
  ncpu m = 8 -> length (cpu_id m) = NCPU -> mp_proc mem p m = Fault.
Proof.
  intros Hn Hl. unfold mp_proc. rewrite bind_gets, Hn.
  destruct (8 =? mem (p + 1)), (Z.land (mem (p + 3)) MPBOOT =? 0); cbn;
    unfold bind, modify, modify_opt, wr; cbn; unfold NCPU in Hl; by rewrite Hl.
Qed.
End MpTheorems.

(** ** An example: two processors, a bus and an I/O APIC *)

Definition conf_demo : list Z :=
  [80; 67; 77; 80; 100; 0; 4; 32] ++ replicate 26 0 ++ [4; 0; 0; 0; 224; 254; 0; 0; 0; 0].
Definition table_demo : list mpentry :=
  [EProc 0 20 3 (replicate 16 0); EProc 1 20 1 (replicate 16 0); EOther 1 (replicate 7 7);
   EIoapic 5 (replicate 6 0)].
Definition mp_demo : list Z := [95; 77; 80; 95; 0; 16; 0; 0; 1; 4; 144; 0; 0; 0; 0; 0].

Definition at_ (base : Z) (l : list Z) (a : Z) : option Z :=
  if decide (base <= a < base + Z.of_nat (length l)) then l !! Z.to_nat (a - base) else None.
Definition mem_demo (a : Z) : Z :=
  match at_ 0xF0010 mp_demo a with
  | Some x => x
  | None => default 0 (at_ 0x1000 (conf_demo ++ encodes table_demo) a)
  end.

Definition boot_demo : mach pc :=
  Mach (bus (pc_demo [])) 0 false 0 false 0 0 (replicate 8 0) 0 (0, 0).

Lemma conf_found : mpconfig mem_demo = Some (0xF0010, 0x1000).
Proof. by vm_compute. Qed.

Lemma table_stored : stored mem_demo (0x1000 + sizeof_mpconf) (encodes table_demo).
Proof. apply stored_bytes. by vm_compute. Qed.

Lemma mpinit_reads_table_witness :
  exists m', mpinit mem_demo 4 boot_demo = Ret tt m' /\
    ismp m' = true /\ ncpu m' = 2 /\ ioapicid m' = 5 /\ bcpu m' = 0.
Proof.
  destruct (mpinit_reads_table mem_demo table_demo 4 0xF0010 0x1000 boot_demo conf_found table_stored)
    as (m' & E & H1 & N & _ & I & B & _).
  - by vm_compute.
  - by repeat constructor.
  - by vm_compute; lia.
  - by vm_compute; lia.
  - done.
  - done.
  - exists m'. split; [exact E|]. split; [exact H1|]. split; [exact N|]. split; [exact I|exact B].
Defined.

(** ** Starting the other processors (main.c) *)

Record smp (D : Type) := Smp { smach : mach D; skmem : kmem }.
Arguments Smp {D}.
Arguments smach {D}.
Arguments skmem {D}.

Section Start.
(** [bin], [size]: the image of entryother.S; [mpenter], [entrypgdir]: addresses
    of the linker; [up c]: how many readings of started of CPU [c] give 0. *)
Context {D : Type} `{Bus D} (fuel : nat) (bin size mpenter entrypgdir : Z) (up : nat -> nat).
Abbreviation P := (M (smp D)).

Definition onmach {A} (m : M (mach D) A) : P A := zoom smach (fun v s => Smp v (skmem s)) m.
Definition onkmem {A} (m : M kmem A) : P A := zoom skmem (fun v s => Smp (smach s) v) m.

Definition stack_size : Z := 4096.
Definition ap_code : Z := p2v 0x7000.

(** The loop on c->started. *)
Fixpoint spin (n k : nat) : P unit :=
  match k, n with
  | O, _ => ret tt
  | S k', S n' => spin n' k'
  | S _, O => hang
  end.

Definition start_cpu (c : nat) : P unit :=
  me <~ onmach cpunum;;;
  if Z.of_nat c =? me then ret tt else
  stack <~ onkmem kalloc;;;
  onkmem (mem_op (st4 (ap_code - 4) (u32 (stack + stack_size))));;;
  onkmem (mem_op (st4 (ap_code - 8) mpenter));;;
  onkmem (mem_op (st4 (ap_code - 12) (v2p entrypgdir)));;;
  id <~ gets_opt (fun s => cpu_id (smach s) !! c);;;
  onmach (lapicstartap (u8 id) (v2p ap_code));;;
  spin fuel (up c).

Definition startothers : P unit :=
  onkmem (mem_op (memmove ap_code bin size));;;
  n <~ gets (fun s => ncpu (smach s));;;
  mfor (seq 0 (Z.to_nat n)) start_cpu.
End Start.

Section StartTheorems.
Context {D : Type} `{Bus D} (base : Z) `{!LapicBus D base}.
Context (fuel : nat) (bin size mpenter entrypgdir : Z) (up : nat -> nat).
Context (Hup : forall c, (up c <= fuel)%nat).
Context (end_ : Z) (end_kernel : KERNLINK <= end_).
Abbreviation loc m := (local (base := base) (bus m)).

Lemma spin_run (n k : nat) (s : smp D) : (k <= n)%nat -> spin n k s = Ret tt s.
Proof.
  revert k. induction n as [|n IH]; intros [|k] Hk; cbn; try done; [lia|]. apply IH. lia.
Qed.

(** Memory below the kernel's pages may change. *)
Lemma pool_low k l m' :
  pool end_ k l -> bytes_ok m' -> (forall x, KERNLINK <= x -> m' x = memory k x) ->
  pool end_ (set_memory m' k) l.
Proof.
  intros [Hc Hn Hp Hb Hl] Hm Hx. split; try done. cbn.
  eapply chain_ext; [exact Hp| |exact Hc]. intros p Hin.
  pose proof (proj1 (Forall_forall _ _) Hp p Hin) as Hpok. destruct (page_ok_word _ end_kernel p Hpok) as (Hw & _).
  apply ld4_ext; [done|]. intros x Hr. apply Hx. destruct Hpok. lia.
Qed.

Lemma store_low k l a v :
  pool end_ k l -> word_at a -> a + 4 <= KERNLINK ->
  exists k', mem_op (st4 a v) k = Ret tt k' /\ pool end_ k' l.
Proof.
  intros Hp Ha Hlt. eexists. split; [done|]. apply pool_low; [done|by apply st4_bytes_ok, Hp|].
  intros x Hx. apply st4_other; [done|]. lia.
Qed.

(** What a processor is sent. *)
Definition startup (id : Z) : list (Z * Z) :=
  [(id, Z.lor (Z.lor INIT LEVEL) ASSERT); (id, Z.lor INIT LEVEL);
   (id, Z.lor STARTUP 7); (id, Z.lor STARTUP 7)].

(** [ids] as [mpinit] leaves them, and the CPU that runs, [me]. *)
Record running (s : smp D) (n : nat) (me : Z) : Prop := {
  ru_lapic : lapic (smach s) = base;
  ru_ncpu : ncpu (smach s) = Z.of_nat n;
  ru_ids : forall i, (i < n)%nat -> cpu_id (smach s) !! i = Some (Z.of_nat i);
  ru_me : exists v, l_reg (loc (smach s)) !! ID = Some v /\ Z.shiftr v 24 = me
}.

Lemma cpunum_run s n me :
  running s n me -> base <> 0 ->
  exists d, onmach cpunum s = Ret me (Smp (set_bus d (smach s)) (skmem s)) /\
    local (base := base) d = loc (smach s).
Proof.
  intros [Hl _ _ (v & Hv & Hme)] Hb.
  destruct (lapicr_run base (smach s) ID (bus (smach s)) Hl) as (d & E & L); [done|done|].
  replace (set_bus (bus (smach s)) (smach s)) with (smach s) in E by (by destruct (smach s)).
  exists d. split; [|done]. unfold onmach, zoom, cpunum. rewrite bind_gets, Hl.
  apply Z.eqb_neq in Hb. rewrite Hb. cbn [negb]. rewrite (bind_Ret _ _ _ _ _ E), Hv. cbn. by rewrite Hme.
Qed.

Lemma onkmem_run {A} (m : M kmem A) (s : smp D) a k :
  m (skmem s) = Ret a k -> onkmem m s = Ret a (Smp (smach s) k).
Proof. intros E. unfold onkmem, zoom. by rewrite E. Qed.

Definition others (me : Z) (c : nat) : bool := negb (Z.of_nat c =? me).

Lemma start_cpu_run c n me s l :
  running s n me -> base <> 0 -> (c < n)%nat -> (n <= NCPU)%nat -> pool end_ (skmem s) l ->
  exists s', start_cpu fuel mpenter entrypgdir up c s = Ret tt s' /\ running s' n me /\
    pool end_ (skmem s') (if others me c then tail l else l) /\
    l_ipis (loc (smach s')) = l_ipis (loc (smach s)) ++ if others me c then startup (Z.of_nat c) else [].
Proof.
  intros R Hb Hc Hn Hp. destruct (cpunum_run s n me R Hb) as (d & E & L). unfold start_cpu, others.
  rewrite (bind_Ret _ _ _ _ _ E). pose proof R as [R1 R2 R3 R4].
  destruct (Z.of_nat c =? me); cbn [negb].
  { eexists. split; [done|]. cbn. rewrite L, app_nil_r. split; [|done]. constructor; cbn; try done. by rewrite L. }
  destruct (kalloc_run end_ end_kernel (skmem s) l Hp) as (k1 & E1 & P1 & _).
  rewrite (bind_Ret _ _ _ _ _ (onkmem_run _ (Smp (set_bus d (smach s)) (skmem s)) _ _ E1)).
  assert (Hw : forall j, j = 4 \/ j = 8 \/ j = 12 -> word_at (ap_code - j) /\ ap_code - j + 4 <= KERNLINK).
  { intros j [-> |[-> | ->]]; by vm_compute. }
  destruct (store_low k1 _ (ap_code - 4) (u32 (default 0 (head l) + stack_size)) P1) as (k2 & E2 & P2); [by apply Hw; auto..|].
  rewrite (bind_Ret _ _ _ _ _ (onkmem_run _ (Smp _ k1) _ _ E2)).
  destruct (store_low k2 _ (ap_code - 8) mpenter P2) as (k3 & E3 & P3); [by apply Hw; auto..|].
  rewrite (bind_Ret _ _ _ _ _ (onkmem_run _ (Smp _ k2) _ _ E3)).
  destruct (store_low k3 _ (ap_code - 12) (v2p entrypgdir) P3) as (k4 & E4 & P4); [by apply Hw; auto..|].
  rewrite (bind_Ret _ _ _ _ _ (onkmem_run _ (Smp _ k3) _ _ E4)). cbn [smach skmem].
  erewrite bind_gets_opt by exact (R3 c Hc).
  assert (u8 (Z.of_nat c) = Z.of_nat c) as -> by (unfold NCPU in Hn; apply Z.mod_small; lia).
  destruct (startap_sequence base (smach s) (Z.of_nat c) (v2p ap_code) d R1) as (d5 & E5 & L5 & I5);
    [unfold NCPU in Hn; lia|by vm_compute|].
  erewrite bind_Ret; [|unfold onmach, zoom; cbn [smach]; rewrite E5; reflexivity].
  rewrite spin_run by done. eexists. split; [done|]. cbn. split; [constructor; cbn; try done|split; [done|]].
  - by rewrite I5, L.
  - by rewrite L5, L.
Qed.

(** [startothers] starts exactly the processors that [mpinit] counted, except
    the one it runs on: each is sent the startup sequence once, in order, with
    the page of the copied code, and each gets a page of its own for a stack,
    as long as there are pages. *)
Theorem startothers_starts s n me l :
  running s n me -> base <> 0 -> (n <= NCPU)%nat -> pool end_ (skmem s) l ->
  0 <= bin -> 0 <= size <= 0x1000 -> bin + size < 2 ^ 32 ->
  exists s', startothers fuel bin size mpenter entrypgdir up s = Ret tt s' /\
    l_ipis (loc (smach s')) = l_ipis (loc (smach s)) ++
      (filter (fun c => others me c = true) (seq 0 n) ≫= fun c => startup (Z.of_nat c)) /\
    pool end_ (skmem s') (drop (length (filter (fun c => others me c = true) (seq 0 n))) l).
Proof.
  intros R Hb Hn Hp H0 Hs Hbs. unfold startothers.
  assert (exists k1, mem_op (memmove ap_code bin size) (skmem s) = Ret tt k1 /\ pool end_ k1 l) as (k1 & E1 & P1).
  { eexists. split; [done|]. assert (Hcode : ap_code = 0x80007000) by done.
    apply pool_low; [done| |]; intros x; [|intros Hx]; rewrite memmove_at by (try apply (p_bytes _ _ _ Hp); lia).
    - destruct (decide _); apply (p_bytes _ _ _ Hp).
    - rewrite decide_False; [done|]. unfold KERNLINK, KERNBASE, EXTMEM in Hx. lia. }
  rewrite (bind_Ret _ _ _ _ _ (onkmem_run _ _ _ _ E1)), bind_gets. cbn [smach].
  rewrite (ru_ncpu _ _ _ R), Nat2Z.id. set (s1 := Smp (smach s) k1).
  assert (R1 : running s1 n me) by (destruct R; by constructor).
  change (smach s) with (smach s1). change k1 with (skmem s1) in P1. clearbody s1. clear R Hp E1 k1.
  assert (G : forall cs s l, Forall (fun c => (c < n)%nat) cs -> running s n me -> pool end_ (skmem s) l ->
    exists s', mfor cs (start_cpu fuel mpenter entrypgdir up) s = Ret tt s' /\
      l_ipis (loc (smach s')) = l_ipis (loc (smach s)) ++
        (filter (fun c => others me c = true) cs ≫= fun c => startup (Z.of_nat c)) /\
      pool end_ (skmem s') (drop (length (filter (fun c => others me c = true) cs)) l)).
  { clear s1 R1 P1 l s. induction cs as [|c cs IH]; intros s l F R Hp.
    { exists s. cbn. by rewrite app_nil_r. }
    apply Forall_cons in F as [Hc F].
    destruct (start_cpu_run c n me s l R Hb Hc Hn Hp) as (s2 & E2 & R2 & P2 & I2).
    destruct (IH s2 _ F R2 P2) as (s3 & E3 & I3 & P3). exists s3. cbn [mfor].
    rewrite (bind_Ret _ _ _ _ _ E2), E3, filter_cons. split; [done|].
    destruct (others me c); [rewrite decide_True by done|rewrite decide_False by done].
    - cbn [length]. split; [by rewrite I3, I2, bind_cons, app_assoc|].
      by destruct l; cbn in P3 |- *; [rewrite drop_nil in P3|].
    - split; [by rewrite I3, I2, app_nil_r|done]. }
  apply G; [|done|done]. apply Forall_forall. intros c Hc. apply elem_of_seq in Hc. lia.
Qed.
End StartTheorems.

(** Two processors, and the first one starts the second. *)
Lemma demo_running : running LBASE (Smp (pc_demo []) kmem0) 2 0.
Proof. split; [done|done| |by exists 0]. intros [|[|i]] Hi; [done|done|lia]. Qed.

Lemma startothers_demo :
  exists s', startothers 3 end_demo 0x100 0 0 (Nat.min 3) (Smp (pc_demo []) kmem0) = Ret tt s' /\
    l_ipis (local (base := LBASE) (bus (smach s'))) = startup 1.
Proof.
  destruct (startothers_starts LBASE 3 end_demo 0x100 0 0 (Nat.min 3) (Nat.le_min_l 3) end_demo
    ltac:(unfold end_demo, KERNLINK, KERNBASE, EXTMEM; lia) (Smp (pc_demo []) kmem0) 2 0 [] demo_running)
    as (s' & E & I & _).
  - done.
  - unfold NCPU. lia.
  - apply kmem0_pool.
  - unfold end_demo. lia.
  - lia.
  - unfold end_demo. lia.
  - exists s'. split; [exact E|]. rewrite I. reflexivity.
Qed.
