(* ===== verification/VmSpec.v ===== *)
(** * What the page-table code guarantees (vm.c)

    [hw] is the processor's own page walk.  The invariant [vm] describes the
    directory and table pages of an address space, [aspace] the user pages as
    well, and how all of them and the free pages are disjoint.  The theorems
    say what [mappages], [allocuvm], [deallocuvm], [freevm], [copyuvm] and
    [copyout] do to the translation and to memory. *)
From S2P Require Import Prelude Mmu Spinlock Strings Kalloc Vm.

(** ** Entries *)

Lemma present_odd e : present e = Z.odd e.
Proof.
  unfold present, PTE_P. change 1 with (Z.ones 1). rewrite Z.land_ones by lia.
  change (2 ^ 1) with 2. rewrite Zmod_odd. by destruct (Z.odd e).
Qed.

(** Flags in the low twelve bits of an aligned address. *)
Lemma lor_flags pa f : pa mod 4096 = 0 -> 0 <= f < 4096 -> Z.lor pa f = pa + f.
Proof.
  intros Ha Hf. replace pa with (Z.shiftl (pa / 4096) 12) at 1.
  - rewrite lor_shiftl_add by (simpl; lia). pose proof (Z.div_mod pa 4096). simpl. lia.
  - rewrite Z.shiftl_mul_pow2 by lia. pose proof (Z.div_mod pa 4096). simpl. lia.
Qed.

Lemma PTE_ADDR_flags pa f : pa mod 4096 = 0 -> 0 <= f < 4096 -> PTE_ADDR (pa + f) = pa.
Proof.
  intros Ha Hf. rewrite PTE_ADDR_eq. rewrite <- Z.add_mod_idemp_l, Ha by lia.
  rewrite Z.add_0_l, Z.mod_small by lia. lia.
Qed.

Lemma odd_flags pa f : pa mod 4096 = 0 -> Z.odd (pa + f) = Z.odd f.
Proof.
  intros Ha. rewrite Z.odd_add.
  assert (Z.odd pa = false) as ->; [|by rewrite xorb_false_l].
  rewrite (Z.div_mod pa 4096), Ha, Z.add_0_r, Z.odd_mul by lia. done.
Qed.

(** ** Pages and words *)

Section Spec.
Context (end_ data_ : Z) (end_kernel : KERNLINK <= end_).

Abbreviation page_ok := (page_ok end_).
Abbreviation pool := (pool end_).

Lemma page_pa p : page_ok p ->
  v2p p = p - KERNBASE /\ v2p p mod 4096 = 0 /\ p2v (v2p p) = p /\ 0 < v2p p < PHYSTOP.
Proof.
  intros [Hm Hr]. unfold v2p, p2v. unfold KERNLINK, KERNBASE, EXTMEM, PHYSTOP in *.
  rewrite !(u32_small (p - _)) by lia. split_and!; try lia.
  - rewrite Zminus_mod, Hm. done.
  - replace (p - 0x80000000 + 0x80000000) with p by lia. apply u32_small. lia.
Qed.

Lemma page_word p i : page_ok p -> 0 <= i < 1024 ->
  word_at (p + 4 * i) /\ u32 (p + 4 * i) = p + 4 * i.
Proof.
  intros Hp Hi. destruct (page_ok_word end_ end_kernel p Hp) as (_ & _ & H0 & H1). destruct Hp as [Hm _].
  assert (Hw : word_at (p + 4 * i)).
  { split; [|lia]. rewrite Z.mul_comm, Z_mod_plus_full. pose proof (Z.div_mod p 4096 ltac:(lia)).
    replace p with (4 * (1024 * (p / 4096))) by lia. rewrite Z.mul_comm. apply Z_mod_mult. }
  split; [done|]. apply u32_small. lia.
Qed.

(** ** The page walk of the processor *)

Definition hw (m : mem) (d va : Z) : option Z :=
  let pde := ld4 (d + 4 * PDX va) m in
  if Z.odd pde then
    let e := ld4 (p2v (PTE_ADDR pde) + 4 * PTX va) m in
    if Z.odd e then Some e else None
  else None.

Lemma PDX_range va : 0 <= PDX va < 1024.
Proof. rewrite PDX_eq. apply Z.mod_pos_bound. lia. Qed.
Lemma PTX_range va : 0 <= PTX va < 1024.
Proof. rewrite PTX_eq. apply Z.mod_pos_bound. lia. Qed.

(** Two addresses with the same indices are on the same page. *)
Lemma same_indices a b :
  0 <= a < 2 ^ 32 -> 0 <= b < 2 ^ 32 -> PDX a = PDX b -> PTX a = PTX b -> a / 4096 = b / 4096.
Proof.
  intros Ha Hb. rewrite !PDX_eq, !PTX_eq.
  assert (Hq : forall x, 0 <= x < 2 ^ 32 -> x / 4194304 = x / 4096 / 1024 /\ (x / 4194304) mod 1024 = x / 4194304).
  { intros x Hx. rewrite Z.div_div by lia. split; [done|]. apply Z.mod_small.
    split; [apply Z.div_pos; lia|apply Z.div_lt_upper_bound; lia]. }
  destruct (Hq a Ha) as [E1 E2], (Hq b Hb) as [E3 E4]. rewrite E2, E4, E1, E3.
  intros H1 H2. rewrite (Z.div_mod (a / 4096) 1024), (Z.div_mod (b / 4096) 1024) by lia. lia.
Qed.

(** The directory page [d] and its table pages [T], by directory index. *)
Record vm (m : mem) (d : Z) (T : gmap Z Z) : Prop := {
  v_dir : page_ok d;
  v_tab : forall i t, T !! i = Some t ->
    0 <= i < 1024 /\ page_ok t /\ t <> d /\ ld4 (d + 4 * i) m = v2p t + 7;
  v_none : forall i, 0 <= i < 1024 -> T !! i = None -> Z.odd (ld4 (d + 4 * i) m) = false;
  v_inj : forall i j t, T !! i = Some t -> T !! j = Some t -> i = j
}.

(** The walk by [T]. *)
Definition entry (m : mem) (T : gmap Z Z) (va : Z) : option Z :=
  match T !! PDX va with Some t => Some (ld4 (t + 4 * PTX va) m) | None => None end.

Lemma hw_entry m d T va :
  vm m d T ->
  hw m d va = match entry m T va with Some e => if Z.odd e then Some e else None | None => None end.
Proof.
  intros Hvm. unfold hw, entry. destruct (T !! PDX va) as [t|] eqn:HT.
  - destruct (v_tab _ _ _ Hvm _ _ HT) as (_ & Ht & _ & ->).
    destruct (page_pa t Ht) as (_ & Hal & Hback & _).
    rewrite odd_flags by done. change (Z.odd 7) with true. cbn iota.
    by rewrite PTE_ADDR_flags, Hback by (done || lia).
  - rewrite (v_none _ _ _ Hvm _ (PDX_range va) HT). done.
Qed.

Definition table_page (d : Z) (T : gmap Z Z) (p : Z) : Prop := p = d \/ exists i, T !! i = Some p.

Lemma table_page_ok m d T p : vm m d T -> table_page d T p -> page_ok p.
Proof. intros Hvm [->|(i & Hi)]; [apply Hvm|]. by destruct (v_tab _ _ _ Hvm _ _ Hi) as (_ & ? & _). Qed.

(** Memory outside the directory and table pages does not matter. *)
Lemma vm_frame m m' d T :
  vm m d T ->
  (forall p x, table_page d T p -> p <= x < p + 4096 -> m' x = m x) ->
  vm m' d T /\ (forall va, entry m' T va = entry m T va).
Proof.
  intros Hvm Hsame.
  assert (Hld : forall p i, table_page d T p -> 0 <= i < 1024 -> ld4 (p + 4 * i) m' = ld4 (p + 4 * i) m).
  { intros p i Hp Hi. assert (Hok : page_ok p) by by eapply table_page_ok.
    apply ld4_ext; [by apply page_word|]. intros x Hx. eapply Hsame; [done|lia]. }
  split; [split|].
  - apply Hvm.
  - intros i t Hi. destruct (v_tab _ _ _ Hvm _ _ Hi) as (? & ? & ? & <-). split_and!; try done; try lia.
    apply Hld; [by left|lia].
  - intros i Hr Hi. rewrite Hld by (done || by left). by apply (v_none _ _ _ Hvm).
  - apply Hvm.
  - intros va. unfold entry. destruct (T !! PDX va) as [t|] eqn:HT; [|done]. f_equal.
    apply Hld; [right; by eexists|apply PTX_range].
Qed.

Lemma hw_frame m m' d T va :
  vm m d T ->
  (forall p x, table_page d T p -> p <= x < p + 4096 -> m' x = m x) -> hw m' d va = hw m d va.
Proof.
  intros Hvm Hs. destruct (vm_frame _ _ _ _ Hvm Hs) as [Hvm' He].
  by rewrite (hw_entry m' d T), (hw_entry m d T), He.
Qed.

(** ** Walking and mapping one page *)

Lemma walk_found k d T va t alloc :
  vm (memory k) d T -> T !! PDX va = Some t ->
  walkpgdir d va alloc k = Ret (t + 4 * PTX va) k.
Proof.
  intros Hvm HT. destruct (v_tab _ _ _ Hvm _ _ HT) as (_ & Ht & _ & E).
  destruct (page_word d (PDX va) (v_dir _ _ _ Hvm) (PDX_range va)) as [_ Hu].
  destruct (page_pa t Ht) as (_ & Hal & Hback & _).
  unfold walkpgdir, load. mrun. rewrite Hu, E, present_odd, odd_flags by done.
  change (Z.odd 7) with true. cbn iota. rewrite PTE_ADDR_flags, Hback by (done || lia).
  destruct (page_word t (PTX va) Ht (PTX_range va)) as [_ Hu2]. by rewrite Hu2.
Qed.

Lemma walk_missing k d T va :
  vm (memory k) d T -> T !! PDX va = None -> walkpgdir d va false k = Ret 0 k.
Proof.
  intros Hvm HT. destruct (page_word d (PDX va) (v_dir _ _ _ Hvm) (PDX_range va)) as [_ Hu].
  unfold walkpgdir, load. mrun.
  by rewrite Hu, present_odd, (v_none _ _ _ Hvm _ (PDX_range va) HT).
Qed.

(** Storing an entry changes the walk of that page only. *)
Lemma store_entry m d T va t v :
  vm m d T -> T !! PDX va = Some t -> 0 <= va < 2 ^ 32 -> 0 <= v < 2 ^ 32 ->
  let m' := st4 (t + 4 * PTX va) v m in
  vm m' d T /\ entry m' T va = Some v /\
  (forall vb, 0 <= vb < 2 ^ 32 -> vb / 4096 <> va / 4096 -> entry m' T vb = entry m T vb) /\
  (forall x, ~ (t <= x < t + 4096) -> m' x = m x).
Proof.
  intros Hvm HT Hva Hv m'. destruct (v_tab _ _ _ Hvm _ _ HT) as (_ & Ht & Htd & _).
  pose proof (PTX_range va) as Hp. destruct (page_word t (PTX va) Ht Hp) as [Hw _].
  assert (Hout : forall x, ~ (t <= x < t + 4096) -> m' x = m x).
  { intros x Hx. apply st4_other; [done|lia]. }
  assert (Hdir : forall i, 0 <= i < 1024 -> ld4 (d + 4 * i) m' = ld4 (d + 4 * i) m).
  { intros i Hi. apply ld4_ext; [by apply page_word; [apply Hvm|]|]. intros x Hx. apply Hout.
    destruct (pages_apart end_ d t (v_dir _ _ _ Hvm) Ht); [congruence|lia..]. }
  split_and!; [split|..].
  - apply Hvm.
  - intros i u Hi. rewrite Hdir by (destruct (v_tab _ _ _ Hvm _ _ Hi); lia). by apply (v_tab _ _ _ Hvm).
  - intros i Hr Hi. rewrite Hdir by done. by apply (v_none _ _ _ Hvm).
  - apply Hvm.
  - unfold entry. rewrite HT. unfold m'. rewrite ld4_st4_same by done. f_equal. by apply u32_small.
  - intros vb Hvb Hne. unfold entry. destruct (T !! PDX vb) as [u|] eqn:Hu; [|done]. f_equal.
    destruct (v_tab _ _ _ Hvm _ _ Hu) as (_ & Hup & _).
    destruct (page_word u (PTX vb) Hup (PTX_range vb)) as [Hwu _].
    apply ld4_st4_other; [done|done|]. intros E. apply Hne.
    destruct (decide (u = t)) as [->|Hut].
    + apply same_indices; [done|done|by eapply (v_inj _ _ _ Hvm)|lia].
    + pose proof (PTX_range vb). destruct (pages_apart end_ u t Hup Ht Hut); lia.
  - done.
Qed.

(** ** Memory and the free list together *)

Lemma pool_frame k l m' :
  pool k l -> bytes_ok m' ->
  (forall p x, p ∈ l -> p <= x < p + 4096 -> m' x = memory k x) -> pool (set_memory m' k) l.
Proof.
  intros [Hc Hn Hp Hb Hl] Hb' Hs. split; [|done..]. simpl.
  eapply chain_ext; [done| |exact Hc]. intros p Hpl.
  assert (Hok : page_ok p) by by eapply Forall_forall.
  apply ld4_ext; [by apply (page_ok_word end_ end_kernel)|]. intros x Hx. apply (Hs p); [done|lia].
Qed.

(** An address space's tables beside the free pages [l]. *)
Record vspace (k : kmem) (d : Z) (T : gmap Z Z) (l : list Z) : Prop := {
  vs_vm : vm (memory k) d T;
  vs_pool : pool k l;
  vs_apart : forall p, table_page d T p -> p ∉ l
}.

Lemma page_in_pool k l p : pool k l -> p ∈ l -> page_ok p.
Proof. intros Hp Hin. eapply Forall_forall; [apply (p_pages _ _ _ Hp)|done]. Qed.

(** What entering a cleared page [t] in the directory does to the tables. *)
Definition add_table (d i t : Z) (m : mem) : mem := st4 (d + 4 * i) (v2p t + 7) (memset t 0 PGSIZE m).

Section FreshTable.
Context (m : mem) (d : Z) (T : gmap Z Z) (i t : Z).
Hypotheses (Hvm : vm m d T) (Hi : 0 <= i < 1024) (HT : T !! i = None) (Ht : page_ok t)
  (Hfresh : ~ table_page d T t).

Lemma fresh_ne_dir : t <> d.
Proof. intros ->. apply Hfresh. by left. Qed.

Lemma fresh_ne_tab j u : T !! j = Some u -> u <> t /\ j <> i.
Proof. intros Hu. split; [|congruence]. intros ->. apply Hfresh. right. by exists j. Qed.

Lemma add_table_clear x : ~ (d <= x < d + 4096) -> add_table d i t m x = if decide (t <= x < t + 4096) then 0 else m x.
Proof.
  intros Hx. destruct (page_word d i (v_dir _ _ _ Hvm) Hi) as [Hw _].
  destruct (page_ok_word end_ end_kernel t Ht) as (_ & _ & Ht1 & Ht2).
  unfold add_table. rewrite st4_other by (done || lia).
  by rewrite memset_at by (unfold PGSIZE; lia).
Qed.

Lemma add_table_dir j : 0 <= j < 1024 ->
  ld4 (d + 4 * j) (add_table d i t m) = if decide (j = i) then v2p t + 7 else ld4 (d + 4 * j) m.
Proof.
  intros Hj. pose proof (v_dir _ _ _ Hvm) as Hd.
  destruct (page_word d i Hd Hi) as [Hw _], (page_word d j Hd Hj) as [Hwj _].
  destruct (page_pa t Ht) as (Hv1 & Hal & Hback & Hv2). unfold add_table. case_decide as E.
  - subst. rewrite ld4_st4_same by done. apply u32_small. unfold PHYSTOP in *. lia.
  - rewrite ld4_st4_other by (done || lia). apply ld4_ext; [done|]. intros x Hx.
    destruct (page_ok_word end_ end_kernel t Ht) as (_ & _ & Ht1 & Ht2).
    rewrite memset_at by (unfold PGSIZE; lia). rewrite decide_False; [done|]. unfold PGSIZE.
    destruct (pages_apart end_ d t Hd Ht); [pose proof fresh_ne_dir; congruence|lia..].
Qed.

Lemma add_table_vm : vm (add_table d i t m) d (<[i := t]> T).
Proof.
  split; [apply Hvm|..].
  - intros j u Hu. destruct (decide (j = i)) as [->|Hne].
    + rewrite lookup_insert_eq in Hu. injection Hu as <-.
      rewrite add_table_dir, decide_True by done. pose proof fresh_ne_dir. split_and!; (done || lia).
    + rewrite lookup_insert_ne in Hu by done. destruct (v_tab _ _ _ Hvm _ _ Hu) as (Hj & ? & ? & ?).
      rewrite add_table_dir, decide_False by done. split_and!; (done || lia).
  - intros j Hj Hu. destruct (decide (j = i)) as [->|Hne]; [by rewrite lookup_insert_eq in Hu|].
    rewrite lookup_insert_ne in Hu by done. rewrite add_table_dir, decide_False by done.
    by apply (v_none _ _ _ Hvm).
  - intros j j' u Hu1 Hu2.
    apply lookup_insert_Some in Hu1 as [[<- <-]|[? Hu1]], Hu2 as [[<- E]|[? Hu2]]; try done.
    + by destruct (fresh_ne_tab _ _ Hu2).
    + rewrite <- E in Hu1. by destruct (fresh_ne_tab _ _ Hu1).
    + by eapply (v_inj _ _ _ Hvm).
Qed.

Lemma add_table_entry vb :
  entry (add_table d i t m) (<[i := t]> T) vb =
    if decide (PDX vb = i) then Some 0 else entry m T vb.
Proof.
  pose proof (v_dir _ _ _ Hvm) as Hd. pose proof (PTX_range vb) as Hx. unfold entry.
  assert (Hrd : forall u, page_ok u -> u <> d -> forall x, u + 4 * PTX vb <= x < u + 4 * PTX vb + 4 ->
    add_table d i t m x = if decide (t <= x < t + 4096) then 0 else m x).
  { intros u Hu Hud x Hxx. apply add_table_clear. destruct (pages_apart end_ u d Hu Hd Hud); lia. }
  case_decide as Hdec.
  - rewrite Hdec, lookup_insert_eq. f_equal. destruct (page_word t (PTX vb) Ht Hx) as [Hw _].
    pose proof (Hrd t Ht fresh_ne_dir) as Hz. unfold ld4.
    rewrite !(word_at_u32 (t + 4 * PTX vb)) by (done || lia).
    rewrite !Hz, !decide_True by lia. lia.
  - rewrite lookup_insert_ne by done. destruct (T !! PDX vb) as [u|] eqn:Hu; [|done]. f_equal.
    destruct (v_tab _ _ _ Hvm _ _ Hu) as (_ & Huok & Hud & _).
    destruct (fresh_ne_tab _ _ Hu) as [Hut _].
    apply ld4_ext; [by apply page_word|]. intros x Hxx. rewrite (Hrd u) by done.
    rewrite decide_False; [done|]. destruct (pages_apart end_ u t Huok Ht Hut); lia.
Qed.

Lemma add_table_bytes : bytes_ok m -> bytes_ok (add_table d i t m).
Proof.
  intros Hb. destruct (page_ok_word end_ end_kernel t Ht) as (_ & _ & Ht1 & Ht2).
  apply st4_bytes_ok. intros x. rewrite memset_at by (unfold PGSIZE; lia).
  case_decide; [done|apply Hb].
Qed.
End FreshTable.

(** A fresh table: [walkpgdir] clears it and enters it in the directory. *)
Lemma walk_alloc k d T va t l :
  vspace k d T (t :: l) -> T !! PDX va = None ->
  exists k', walkpgdir d va true k = Ret (t + 4 * PTX va) k' /\
    vspace k' d (<[PDX va := t]> T) l /\
    (forall vb, entry (memory k') (<[PDX va := t]> T) vb =
       if decide (PDX vb = PDX va) then Some 0 else entry (memory k) T vb) /\
    (forall x, ~ (d <= x < d + 4096) -> ~ (t <= x < t + 4096) -> memory k' x = memory k x).
Proof.
  intros [Hvm Hpool Hap] HT. pose proof (v_dir _ _ _ Hvm) as Hd. pose proof (PDX_range va) as Hi.
  assert (Ht : page_ok t) by (eapply page_in_pool; [done|left]).
  assert (Hfresh : ~ table_page d T t) by (intros Hp; apply (Hap t Hp); left).
  destruct (page_word d (PDX va) Hd Hi) as [_ Hud], (page_word t (PTX va) Ht (PTX_range va)) as [_ Hut].
  destruct (page_ok_word end_ end_kernel t Ht) as (_ & Ht0 & _). destruct (page_pa t Ht) as (_ & Hal & _).
  destruct (kalloc_run end_ end_kernel k (t :: l) Hpool) as (k1 & Hk1 & Hpool1 & Hm1 & _).
  assert (Hnd : t ∉ l /\ NoDup l) by (apply NoDup_cons; apply (p_nodup _ _ _ Hpool)).
  unfold walkpgdir, load. mrun. rewrite Hud, present_odd, (v_none _ _ _ Hvm _ Hi HT).
  cbn [negb]. rewrite (bind_Ret _ _ k t k1) by exact Hk1. rewrite (proj2 (Z.eqb_neq t 0)) by done.
  unfold mem_op, store. mrun. rewrite Hut.
  assert (Hpde : Z.lor (Z.lor (Z.lor (v2p t) PTE_P) PTE_W) PTE_U = v2p t + 7).
  { rewrite <- !Z.lor_assoc. rewrite lor_flags; [done|done|]. vm_compute. by split. }
  rewrite Hpde. exists (set_memory (add_table d (PDX va) t (memory k)) k1).
  split; [by rewrite <- Hm1|]. split; [split|split].
  - by apply add_table_vm.
  - apply pool_frame; [done|apply add_table_bytes; try done; apply Hpool|].
    intros p x Hp Hx. rewrite Hm1.
    assert (Hpok : page_ok p) by (eapply page_in_pool; [exact Hpool|by right]).
    rewrite (add_table_clear _ _ T), decide_False; try done;
      [destruct (pages_apart end_ p t Hpok Ht)|destruct (pages_apart end_ p d Hpok Hd)]; try lia.
    + intros ->. by apply Hnd.
    + intros ->. apply (Hap d); [by left|by right].
  - intros p Hp. assert (Hcase : p = t \/ table_page d T p).
    { destruct Hp as [->|(i & Hu)]; [right; by left|].
      apply lookup_insert_Some in Hu as [[_ <-]|[_ Hu]]; [by left|right; right; by eexists]. }
    destruct Hcase as [->|Hp']; [by destruct Hnd|]. intros Hin. by apply (Hap p Hp'); right.
  - intros vb. by apply add_table_entry.
  - intros x Hx1 Hx2. simpl. by rewrite (add_table_clear _ _ T), decide_False.
Qed.

(** The table pages as a list. *)
Definition vals (T : gmap Z Z) : list Z := (map_to_list T).*2.

Lemma elem_of_vals T p : p ∈ vals T <-> exists i, T !! i = Some p.
Proof.
  unfold vals. rewrite list_elem_of_fmap. split.
  - intros ([i q] & -> & H). exists i. by apply elem_of_map_to_list in H.
  - intros (i & H). exists (i, p). split; [done|]. by apply elem_of_map_to_list.
Qed.

Lemma vals_insert T i t : T !! i = None -> vals (<[i := t]> T) ≡ₚ t :: vals T.
Proof. intros H. unfold vals. by rewrite map_to_list_insert. Qed.

(** [T'] has the tables of [T] and new ones; the new ones left the free list. *)
Record grown (T T' : gmap Z Z) (l l' : list Z) : Prop := {
  g_sub : T ⊆ T';
  g_acct : vals T' ++ l' ≡ₚ vals T ++ l
}.

Lemma grown_refl T l : grown T T l l.
Proof. by split. Qed.
Lemma grown_trans T1 T2 T3 l1 l2 l3 : grown T1 T2 l1 l2 -> grown T2 T3 l2 l3 -> grown T1 T3 l1 l3.
Proof. intros [H1 E1] [H2 E2]. split; [by transitivity T2|]. by rewrite E2, E1. Qed.
Lemma grown_insert T i t l : T !! i = None -> grown T (<[i := t]> T) (t :: l) l.
Proof.
  intros H. split; [by apply insert_subseteq|]. rewrite (vals_insert T i t H). simpl.
  by rewrite Permutation_middle.
Qed.

(** Where the pages of the new tables come from. *)
Lemma grown_page d T T' l l' p : grown T T' l l' -> table_page d T' p -> table_page d T p \/ p ∈ l.
Proof.
  intros [_ E] [->|Hp]; [by left; left|]. apply elem_of_vals in Hp.
  assert (Hin : p ∈ vals T ++ l) by (rewrite <- E; apply elem_of_app; by left).
  apply elem_of_app in Hin as [Hin|Hin]; [left; right; by apply elem_of_vals|by right].
Qed.

Lemma grown_free T T' l l' p : grown T T' l l' -> NoDup (vals T ++ l) -> p ∈ l' -> p ∈ l.
Proof.
  intros [Hsub E] Hnd Hp.
  assert (Hnd' : NoDup (vals T' ++ l')) by by rewrite E.
  assert (Hin : p ∈ vals T ++ l) by (rewrite <- E; apply elem_of_app; by right).
  apply elem_of_app in Hin as [Hin|Hin]; [|done]. exfalso.
  apply elem_of_vals in Hin as (i & Hi). apply NoDup_app in Hnd' as (_ & Hdis & _).
  apply (Hdis p); [|done]. apply elem_of_vals. exists i. by eapply lookup_weaken.
Qed.

Lemma grown_tables d T T' l l' p : grown T T' l l' -> table_page d T p -> table_page d T' p.
Proof.
  intros [Hsub _] [->|(i & Hi)]; [by left|]. right. exists i. by eapply lookup_weaken.
Qed.

(** Memory is the same outside the directory and table pages. *)
Definition off_tables (d : Z) (T : gmap Z Z) (m m' : mem) : Prop :=
  forall x, (forall p, table_page d T p -> ~ (p <= x < p + 4096)) -> m' x = m x.

Lemma walk_true k d T va l :
  vspace k d T l -> 0 <= va < 2 ^ 32 ->
  exists k' T' l', vspace k' d T' l' /\ grown T T' l l' /\
    (forall vb, hw (memory k') d vb = hw (memory k) d vb) /\ off_tables d T' (memory k) (memory k') /\
    match T' !! PDX va with
    | Some t => walkpgdir d va true k = Ret (t + 4 * PTX va) k'
    | None => walkpgdir d va true k = Ret 0 k' /\ l' = []
    end.
Proof.
  intros Hvs Hva. pose proof (vs_vm _ _ _ _ Hvs) as Hvm. destruct (T !! PDX va) as [t|] eqn:HT.
  { exists k, T, l. rewrite HT. split_and!; try done. by eapply walk_found. }
  destruct l as [|t l].
  - destruct (kalloc_run end_ end_kernel k [] (vs_pool _ _ _ _ Hvs)) as (k1 & Hk1 & Hp1 & Hm1 & _).
    exists k1, T, []. rewrite HT, Hm1. split_and!; try done.
    + destruct Hvs as [_ _ Hap]. split; [by rewrite Hm1|done|done].
    + unfold walkpgdir, load. mrun.
      destruct (page_word d (PDX va) (v_dir _ _ _ Hvm) (PDX_range va)) as [_ Hu].
      rewrite Hu, present_odd, (v_none _ _ _ Hvm _ (PDX_range va) HT). cbn [negb].
      by rewrite (bind_Ret _ _ k 0 k1) by exact Hk1.
  - destruct (walk_alloc k d T va t l Hvs HT) as (k' & Hw & Hvs' & Hent & Hout).
    exists k', (<[PDX va := t]> T), l. rewrite lookup_insert_eq. split_and!; try done.
    + by apply grown_insert.
    + intros vb. rewrite (hw_entry _ _ _ _ (vs_vm _ _ _ _ Hvs')), (hw_entry _ _ _ _ Hvm), Hent.
      case_decide as E; [|done]. unfold entry. by rewrite E, HT.
    + intros x Hx. apply Hout; apply Hx; [by left|]. right. exists (PDX va). apply lookup_insert_eq.
Qed.

Lemma map_page_spec k d T l a pa perm :
  vspace k d T l -> 0 <= a < 2 ^ 32 -> hw (memory k) d a = None ->
  pa mod 4096 = 0 -> 0 <= pa -> pa + 4096 <= 2 ^ 32 -> 0 <= perm < 4096 ->
  exists k' T' l' r, map_page d a pa perm k = Ret r k' /\ vspace k' d T' l' /\ grown T T' l l' /\
    off_tables d T' (memory k) (memory k') /\
    (forall vb, 0 <= vb < 2 ^ 32 -> vb / 4096 <> a / 4096 -> hw (memory k') d vb = hw (memory k) d vb) /\
    (r = 0 /\ hw (memory k') d a = Some (pa + Z.lor perm 1) \/
     r = -1 /\ l' = [] /\ hw (memory k') d a = None).
Proof.
  intros Hvs Ha Hno Hal Hpa0 Hpa1 Hperm.
  destruct (walk_true k d T a l Hvs Ha) as (k1 & T' & l' & Hvs1 & Hg & Hhw & Hoff & Hcase).
  unfold map_page. destruct (T' !! PDX a) as [t|] eqn:HT.
  2: { destruct Hcase as [Hw ->]. exists k1, T', [], (-1). erewrite bind_Ret by exact Hw. simpl.
       split_and!; try done. right. by rewrite Hhw. }
  pose proof (vs_vm _ _ _ _ Hvs1) as Hvm1. destruct (v_tab _ _ _ Hvm1 _ _ HT) as (_ & Ht & _).
  pose proof (PTX_range a) as Hx. destruct (page_ok_word end_ end_kernel t Ht) as (_ & Ht0 & Ht1 & _).
  erewrite bind_Ret by exact Hcase. rewrite (proj2 (Z.eqb_neq _ 0)) by lia. unfold load, store. mrun.
  assert (Habs : Z.odd (ld4 (t + 4 * PTX a) (memory k1)) = false).
  { pose proof (Hhw a) as E. rewrite Hno, (hw_entry _ _ _ _ Hvm1) in E. unfold entry in E.
    rewrite HT in E. by destruct (Z.odd _). }
  rewrite present_odd, Habs.
  assert (Hf : 0 <= Z.lor perm 1 < 4096).
  { split; [apply Z.lor_nonneg; lia|]. destruct (decide (perm = 0)) as [->|]; [done|].
    apply Z.log2_lt_cancel. rewrite Z.log2_lor by lia. apply Z.max_lub_lt; [|done].
    change (Z.log2 4096) with 12. apply Z.log2_lt_pow2; lia. }
  assert (Hv : Z.lor (Z.lor pa perm) PTE_P = pa + Z.lor perm 1)
    by (rewrite <- Z.lor_assoc; by apply lor_flags).
  rewrite Hv. set (v := pa + Z.lor perm 1).
  destruct (store_entry (memory k1) d T' a t v Hvm1 HT Ha ltac:(unfold v; lia)) as (Hvm2 & He & Heo & Hmo).
  exists (set_memory (st4 (t + 4 * PTX a) v (memory k1)) k1), T', l', 0.
  assert (Htp : table_page d T' t) by (right; by exists (PDX a)).
  split_and!; [done| |done| | |].
  - destruct Hvs1 as [_ Hpool Hap]. split; [done| |done].
    apply pool_frame; [done|apply st4_bytes_ok; apply Hpool|].
    intros p x Hp Hxx. apply Hmo.
    assert (Hpok : page_ok p) by (eapply page_in_pool; [exact Hpool|done]).
    destruct (pages_apart end_ p t Hpok Ht); [by intros ->; apply (Hap t)|lia..].
  - intros x Hxx. simpl. rewrite Hmo by by apply Hxx. by apply Hoff.
  - intros vb Hvb Hne. simpl. rewrite <- Hhw, (hw_entry _ _ _ _ Hvm2), (hw_entry _ _ _ _ Hvm1). by rewrite Heo.
  - left. split; [done|]. simpl. rewrite (hw_entry _ _ _ _ Hvm2), He.
    unfold v. rewrite odd_flags by done. rewrite <- Z.bit0_odd, Z.lor_spec. by rewrite orb_true_r.
Qed.

(** ** Mapping a range *)

Lemma page_index a j : a mod 4096 = 0 -> (a + 4096 * j) / 4096 = a / 4096 + j /\ (a + 4096 * j) mod 4096 = 0.
Proof.
  intros Ha. rewrite (Z.mul_comm 4096). rewrite Z.div_add, Z_mod_plus_full by lia. done.
Qed.

(** What mapping the pages [a], [a + 4096], ..., [a + 4096 * n] leaves behind. *)
Record mapped (k k' : kmem) (d : Z) (T T' : gmap Z Z) (l l' : list Z) (a : Z) (n : nat) : Prop := {
  mp_space : vspace k' d T' l';
  mp_grown : grown T T' l l';
  mp_off : off_tables d T' (memory k) (memory k');
  mp_other : forall vb, 0 <= vb < 2 ^ 32 ->
    ~ (a / 4096 <= vb / 4096 <= a / 4096 + Z.of_nat n) -> hw (memory k') d vb = hw (memory k) d vb
}.

Lemma off_tables_trans d T1 T2 m1 m2 m3 :
  (forall p, table_page d T1 p -> table_page d T2 p) ->
  off_tables d T1 m1 m2 -> off_tables d T2 m2 m3 -> off_tables d T2 m1 m3.
Proof.
  intros Hsub H1 H2 x Hx. rewrite H2 by done. apply H1. intros p Hp. by apply Hx, Hsub.
Qed.

Lemma map_loop_spec n fuel k d T l a pa perm :
  vspace k d T l -> a mod 4096 = 0 -> 0 <= a -> a + 4096 * Z.of_nat n + 4096 <= 2 ^ 32 ->
  pa mod 4096 = 0 -> 0 <= pa -> pa + 4096 * Z.of_nat n + 4096 <= 2 ^ 32 -> 0 <= perm < 4096 ->
  (forall j, 0 <= j <= Z.of_nat n -> hw (memory k) d (a + 4096 * j) = None) -> (n < fuel)%nat ->
  exists k' T' l' r, map_loop fuel d a (a + 4096 * Z.of_nat n) pa perm k = Ret r k' /\
    mapped k k' d T T' l l' a n /\
    (r = 0 /\ (forall j, 0 <= j <= Z.of_nat n ->
                hw (memory k') d (a + 4096 * j) = Some (pa + 4096 * j + Z.lor perm 1)) \/
     r = -1 /\ l' = [] /\ hw (memory k') d (a + 4096 * Z.of_nat n) = None).
Proof.
  revert fuel k T l a pa. induction n as [|n IH];
    intros fuel k T l a pa Hvs Hal Ha0 Ha1 Hpal Hpa0 Hpa1 Hperm Hno Hfuel.
  all: destruct fuel as [|fuel]; [lia|]; cbn [map_loop].
  all: destruct (map_page_spec k d T l a pa perm) as (k1 & T1 & l1 & r & Hr & Hvs1 & Hg1 & Hoff1 & Hoth1 & Hres);
    [done|lia|specialize (Hno 0); rewrite Z.mul_0_r, Z.add_0_r in Hno; apply Hno; lia|done|lia|lia|done|].
  all: rewrite (bind_Ret _ _ _ _ _ Hr).
  all: destruct Hres as [[-> Hmap]|(-> & -> & Hnone)].
  2, 4: exists k1, T1, [], (-1); split_and!; [done|split; try done; intros vb Hvb Hne; apply Hoth1; lia|];
    right; split_and!; try done.
  2: by replace (a + 4096 * Z.of_nat 0) with a by lia.
  2: { rewrite Hoth1; [apply Hno; lia|lia|]. destruct (page_index a (Z.of_nat (S n)) Hal) as [-> _]. lia. }
  all: cbn [Z.ltb Z.compare].
  - replace (a + 4096 * Z.of_nat 0) with a by lia. rewrite Z.eqb_refl.
    exists k1, T1, l1, 0. split_and!; [done|split; try done; intros vb Hvb Hne; apply Hoth1; lia|].
    left. split; [done|]. intros j Hj. replace j with 0 by lia. rewrite !Z.mul_0_r, !Z.add_0_r. done.
  - rewrite (proj2 (Z.eqb_neq a _)) by lia. unfold PGSIZE. rewrite !u32_small by lia.
    destruct (page_index a 1 Hal) as [Hidx Hal'], (page_index pa 1 Hpal) as [_ Hpal'].
    rewrite !Z.mul_1_r in *.
    destruct (IH fuel k1 T1 l1 (a + 4096) (pa + 4096)) as (k2 & T2 & l2 & r2 & Hr2 & Hm2 & Hres2);
      try done; try lia.
    { intros j Hj. replace (a + 4096 + 4096 * j) with (a + 4096 * (1 + j)) by lia.
      rewrite Hoth1; [apply Hno; lia|lia|]. destruct (page_index a (1 + j) Hal) as [-> _]. lia. }
    replace (a + 4096 + 4096 * Z.of_nat n) with (a + 4096 * Z.of_nat (S n)) in Hr2 by lia.
    exists k2, T2, l2, r2. split_and!; [done| |].
    + destruct Hm2 as [Hs2 Hg2 Hoff2 Hoth2]. split; [done|by eapply grown_trans| |].
      * eapply off_tables_trans; [|exact Hoff1|exact Hoff2]. intros p. by apply (grown_tables _ _ _ _ _ _ Hg2).
      * intros vb Hvb Hne. rewrite Hoth2, Hoth1 by lia. done.
    + destruct Hres2 as [[-> Hall]|(-> & -> & Hlast)].
      2: { right. split_and!; try done. rewrite <- Hlast. f_equal. lia. }
      left. split; [done|]. intros j Hj.
      destruct (decide (j = 0)) as [->|Hj0].
      * rewrite !Z.mul_0_r, !Z.add_0_r. rewrite (mp_other _ _ _ _ _ _ _ _ _ Hm2) by lia. done.
      * specialize (Hall (j - 1) ltac:(lia)).
        replace (a + 4096 + 4096 * (j - 1)) with (a + 4096 * j) in Hall by lia.
        replace (pa + 4096 + 4096 * (j - 1)) with (pa + 4096 * j) in Hall by lia. done.
Qed.

Lemma mappages_run k d T l va size pa perm n :
  vspace k d T l -> 0 <= va -> 0 < size -> va + size <= 2 ^ 32 ->
  n = Z.to_nat ((va + size - 1) / 4096 - va / 4096) ->
  pa mod 4096 = 0 -> 0 <= pa -> pa + 4096 * Z.of_nat n + 4096 <= 2 ^ 32 -> 0 <= perm < 4096 ->
  (forall j, 0 <= j <= Z.of_nat n -> hw (memory k) d (PGROUNDDOWN va + 4096 * j) = None) ->
  exists k' T' l' r, mappages d va size pa perm k = Ret r k' /\
    mapped k k' d T T' l l' (PGROUNDDOWN va) n /\
    (r = 0 /\ (forall j, 0 <= j <= Z.of_nat n ->
                hw (memory k') d (PGROUNDDOWN va + 4096 * j) = Some (pa + 4096 * j + Z.lor perm 1)) \/
     r = -1 /\ l' = [] /\ hw (memory k') d (PGROUNDDOWN va + 4096 * Z.of_nat n) = None).
Proof.
  intros Hvs Hva Hsz Hend Hn Hpal Hpa0 Hpa1 Hperm Hno. unfold mappages.
  rewrite (u32_small (va + size - 1)) by lia.
  assert (Hdm : forall x, x - x mod 4096 = 4096 * (x / 4096)) by (intros x; pose proof (Z.div_mod x 4096); lia).
  assert (Hle : va / 4096 <= (va + size - 1) / 4096) by (apply Z.div_le_mono; lia).
  assert (Hlast : PGROUNDDOWN (va + size - 1) = PGROUNDDOWN va + 4096 * Z.of_nat n).
  { rewrite !PGROUNDDOWN_eq, !Hdm, Hn. lia. }
  assert (H0 : 0 <= PGROUNDDOWN va) by (rewrite PGROUNDDOWN_eq, Hdm; pose proof (Z.div_pos va 4096); lia).
  assert (Htop : PGROUNDDOWN (va + size - 1) + 4096 <= 2 ^ 32).
  { rewrite PGROUNDDOWN_eq, Hdm. assert ((va + size - 1) / 4096 < 2 ^ 20); [|lia].
    apply Z.div_lt_upper_bound; lia. }
  rewrite Hlast in *. replace (PGROUNDDOWN va + 4096 * Z.of_nat n - PGROUNDDOWN va) with (Z.of_nat n * 4096) by lia.
  rewrite u32_small by lia. unfold PGSIZE. rewrite Z.div_mul, Nat2Z.id by lia.
  apply map_loop_spec; try done; try lia. rewrite PGROUNDDOWN_eq. apply page_mod.
Qed.

(** The walk looks at the page number only. *)
Lemma hw_page m d a b : a / 4096 = b / 4096 -> hw m d a = hw m d b.
Proof.
  intros E. unfold hw. rewrite !PDX_eq, !PTX_eq, E.
  assert (H : forall x, x / 4194304 = x / 4096 / 1024) by (intros x; by rewrite Z.div_div by lia).
  by rewrite (H a), (H b), E.
Qed.

(** ** The kernel's part of a page table *)

Lemma empty_directory k d l :
  pool k l -> page_ok d -> d ∉ l ->
  let k' := set_memory (memset d 0 PGSIZE (memory k)) k in
  vspace k' d ∅ l /\ (forall va, hw (memory k') d va = None) /\
  (forall x, ~ (d <= x < d + 4096) -> memory k' x = memory k x).
Proof.
  intros Hpool Hd Hnin k'. destruct (page_ok_word end_ end_kernel d Hd) as (_ & _ & H0 & H1).
  assert (Hm : forall x, memory k' x = if decide (d <= x < d + 4096) then 0 else memory k x).
  { intros x. simpl. rewrite memset_at by (unfold PGSIZE; lia). done. }
  assert (Hout : forall x, ~ (d <= x < d + 4096) -> memory k' x = memory k x)
    by (intros x Hx; by rewrite Hm, decide_False).
  assert (Hz : forall i, 0 <= i < 1024 -> ld4 (d + 4 * i) (memory k') = 0).
  { intros i Hi. destruct (page_word d i Hd Hi) as [Hw _]. unfold ld4.
    rewrite !(word_at_u32 (d + 4 * i)) by (done || lia). rewrite !Hm, !decide_True by lia. lia. }
  assert (Hvm : vm (memory k') d ∅).
  { split; [done|..]; intros i; [intros t|intros Hi _; by rewrite Hz|intros j t];
      rewrite lookup_empty; done. }
  split_and!; [split|..]; try done.
  - apply pool_frame; [done| |].
    + intros x. rewrite memset_at by (unfold PGSIZE; lia). case_decide; [done|apply Hpool].
    + intros p x Hp Hx. apply Hout. assert (Hpok : page_ok p) by by eapply page_in_pool.
      destruct (pages_apart end_ p d Hpok Hd); [by intros ->|lia..].
  - intros p [->|(i & Hi)]; [done|by rewrite lookup_empty in Hi].
  - intros va. by rewrite (hw_entry _ _ _ _ Hvm).
Qed.

(** A region of [kmap]: whole pages, below 4GB on both sides. *)
Definition region_size (r : Z * Z * Z * Z) : Z := let '(_, ps, pe, _) := r in u32 (pe - ps).
Definition region_virt (r : Z * Z * Z * Z) : Z := let '(v, _, _, _) := r in v.
Definition region_phys (r : Z * Z * Z * Z) : Z := let '(_, ps, _, _) := r in ps.
Definition region_perm (r : Z * Z * Z * Z) : Z := let '(_, _, _, p) := r in p.

Record region_ok (r : Z * Z * Z * Z) : Prop := {
  ro_virt : region_virt r mod 4096 = 0 /\ 0 <= region_virt r;
  ro_phys : region_phys r mod 4096 = 0 /\ 0 <= region_phys r;
  ro_size : 0 < region_size r /\ region_size r mod 4096 = 0;
  ro_top : region_virt r + region_size r <= 2 ^ 32 /\ region_phys r + region_size r <= 2 ^ 32;
  ro_perm : 0 <= region_perm r < 4096
}.

(** The regions lie above [lo], in ascending order. *)
Fixpoint ascending (lo : Z) (ks : list (Z * Z * Z * Z)) : Prop :=
  match ks with
  | [] => True
  | r :: ks' => region_ok r /\ lo <= region_virt r /\ ascending (region_virt r + region_size r) ks'
  end.

(** One region of whole pages. *)
Lemma map_region_spec k d T l r :
  vspace k d T l -> region_ok r ->
  (forall vb, region_virt r <= vb < region_virt r + region_size r -> hw (memory k) d vb = None) ->
  exists k' T' l' c, mappages d (region_virt r) (region_size r) (region_phys r) (region_perm r) k = Ret c k' /\
    vspace k' d T' l' /\ grown T T' l l' /\ off_tables d T' (memory k) (memory k') /\
    (forall vb, 0 <= vb < 2 ^ 32 -> ~ (region_virt r <= vb < region_virt r + region_size r) ->
       hw (memory k') d vb = hw (memory k) d vb) /\
    (c = 0 /\ (forall vb, region_virt r <= vb < region_virt r + region_size r ->
       hw (memory k') d vb = Some (region_phys r + (PGROUNDDOWN vb - region_virt r) + Z.lor (region_perm r) 1)) \/
     c = -1 /\ l' = []).
Proof.
  intros Hvs [[Hv1 Hv2] [Hp1 Hp2] [Hs1 Hs2] [Ht1 Ht2] Hperm] Hno.
  set (v := region_virt r) in *. set (z := region_size r) in *. set (ps := region_phys r) in *.
  assert (Hz : z = 4096 * (z / 4096)) by (pose proof (Z.div_mod z 4096); lia).
  assert (Hvv : v = 4096 * (v / 4096)) by (pose proof (Z.div_mod v 4096); lia).
  assert (Hdown : PGROUNDDOWN v = v) by (rewrite PGROUNDDOWN_eq; lia).
  assert (Hlast : (v + z - 1) / 4096 = v / 4096 + z / 4096 - 1).
  { symmetry. apply Z.div_unique with 4095; lia. }
  set (n := Z.to_nat ((v + z - 1) / 4096 - v / 4096)).
  assert (Hn : Z.of_nat n = z / 4096 - 1) by (unfold n; rewrite Hlast; lia).
  destruct (mappages_run k d T l v z ps (region_perm r) n) as (k' & T' & l' & c & Hr & Hm & Hres); try done; try lia.
  { intros j Hj. rewrite Hdown. apply Hno. lia. }
  exists k', T', l', c. destruct Hm as [Hs Hg Hoff Hoth]. rewrite Hdown in Hoth. split_and!; try done.
  - intros vb Hvb Hne. apply Hoth; [done|]. intros [H1 H2]. apply Hne.
    pose proof (Z.div_mod vb 4096). pose proof (Z.mod_pos_bound vb 4096). lia.
  - destruct Hres as [[-> Hall]|(-> & -> & _)]; [|by right]. left. split; [done|]. intros vb Hvb.
    pose proof (Z.div_mod vb 4096 ltac:(lia)) as Hd. pose proof (Z.mod_pos_bound vb 4096 ltac:(lia)) as Hmo.
    specialize (Hall (vb / 4096 - v / 4096) ltac:(lia)). rewrite Hdown in Hall.
    rewrite (hw_page _ _ vb (v + 4096 * (vb / 4096 - v / 4096))), Hall.
    + f_equal. rewrite PGROUNDDOWN_eq. lia.
    + symmetry. destruct (page_index v (vb / 4096 - v / 4096) Hv1) as [-> _]. lia.
Qed.

Lemma map_kernel_spec ks lo k d T l :
  vspace k d T l -> ascending lo ks -> (forall vb, lo <= vb < 2 ^ 32 -> hw (memory k) d vb = None) ->
  exists k' T' l' ok, map_kernel ks d k = Ret ok k' /\
    vspace k' d T' l' /\ grown T T' l l' /\ off_tables d T' (memory k) (memory k') /\
    (forall vb, 0 <= vb < Z.min lo (2 ^ 32) -> hw (memory k') d vb = hw (memory k) d vb) /\
    (ok = true /\ (forall r vb, r ∈ ks -> region_virt r <= vb < region_virt r + region_size r ->
       hw (memory k') d vb = Some (region_phys r + (PGROUNDDOWN vb - region_virt r) + Z.lor (region_perm r) 1)) \/
     ok = false /\ l' = []).
Proof.
  revert lo k T l. induction ks as [|r ks IH]; intros lo k T l Hvs Hasc Hno.
  { exists k, T, l, true. split_and!; [done|done|apply grown_refl|done|done|]. left. split; [done|].
    intros r vb Hr. by apply elem_of_nil in Hr. }
  destruct Hasc as (Hr & Hlo & Hasc). destruct (ro_top r Hr) as [Htop _].
  destruct (ro_virt r Hr) as [_ Hv0]. destruct (ro_size r Hr) as [Hs0 _].
  destruct (map_region_spec k d T l r Hvs Hr) as (k1 & T1 & l1 & c & Hc & Hvs1 & Hg1 & Hoff1 & Hoth1 & Hres).
  { intros vb Hvb. apply Hno. lia. }
  destruct r as [[[v ps] pe] perm]. cbn [region_virt region_size region_phys region_perm map_kernel] in *.
  rewrite (bind_Ret _ _ _ _ _ Hc). destruct Hres as [[-> Hall]|[-> ->]].
  2: { exists k1, T1, [], false. split_and!; try done; [intros vb Hvb; apply Hoth1; lia|by right]. }
  cbn [Z.ltb Z.compare].
  destruct (IH (v + u32 (pe - ps)) k1 T1 l1 Hvs1 Hasc) as (k2 & T2 & l2 & ok & Hk2 & Hvs2 & Hg2 & Hoff2 & Hoth2 & Hres2).
  { intros vb Hvb. rewrite Hoth1 by lia. apply Hno. lia. }
  exists k2, T2, l2, ok. split_and!; try done.
  - by eapply grown_trans.
  - eapply off_tables_trans; [|exact Hoff1|exact Hoff2]. intros p. by apply (grown_tables _ _ _ _ _ _ Hg2).
  - intros vb Hvb. rewrite Hoth2, Hoth1 by lia. done.
  - destruct Hres2 as [[-> Hall2]|[-> ->]]; [|by right]. left. split; [done|]. intros r vb Hin Hvb.
    apply elem_of_cons in Hin as [->|Hin]; [|by apply Hall2].
    cbn [region_virt region_size region_phys region_perm] in *. rewrite Hoth2 by lia. by apply Hall.
Qed.

(** The linker script aligns the kernel's data to a page behind its text. *)
Context (data_page : data_ mod 4096 = 0) (data_range : KERNLINK < data_ < KERNBASE + PHYSTOP).

Lemma kmap_ascending : ascending KERNBASE (kmap data_).
Proof.
  unfold kmap. unfold KERNLINK, KERNBASE, EXTMEM, PHYSTOP, DEVSPACE, PTE_W in *.
  assert (Hu : u32 (data_ - 0x80000000) = data_ - 0x80000000) by (apply u32_small; lia).
  assert (Hm : (data_ - 0x80000000) mod 4096 = 0) by (rewrite Zminus_mod, data_page; done).
  assert (Hs1 : u32 (data_ - 0x80000000 - 0x100000) = data_ - 0x80100000) by (rewrite u32_small; lia).
  assert (Hs2 : u32 (0xE000000 - (data_ - 0x80000000)) = 0x8E000000 - data_) by (rewrite u32_small; lia).
  assert (Hm1 : (data_ - 0x80100000) mod 4096 = 0) by (rewrite Zminus_mod, data_page; done).
  assert (Hm2 : (0x8E000000 - data_) mod 4096 = 0) by (rewrite Zminus_mod, data_page; done).
  change (u32 (0x80000000 + 0x100000 - 0x80000000)) with 0x100000.
  repeat split; cbn [region_virt region_size region_phys region_perm]; rewrite ?Hu, ?Hs1, ?Hs2;
    try (done || lia).
Qed.

(** What a page table made by [setupkvm] maps: no user address; every kernel
    address to its physical address, out of reach of user code, the kernel's
    text read-only; the devices to themselves. *)
Record kernel_mapped (m : mem) (d : Z) : Prop := {
  km_user : forall va, 0 <= va < KERNBASE -> hw m d va = None;
  km_ram : forall va, KERNBASE <= va < KERNBASE + PHYSTOP ->
    exists f, hw m d va = Some (v2p (PGROUNDDOWN va) + f) /\ PTE_ADDR (v2p (PGROUNDDOWN va) + f) = v2p (PGROUNDDOWN va) /\
      f = (if decide (KERNLINK <= va < data_) then PTE_P else Z.lor PTE_W PTE_P);
  km_dev : forall va, DEVSPACE <= va < 2 ^ 32 -> hw m d va = Some (PGROUNDDOWN va + Z.lor PTE_W PTE_P)
}.

Lemma kernel_mapped_intro m d :
  (forall r, r ∈ kmap data_ -> forall vb, region_virt r <= vb < region_virt r + region_size r ->
    hw m d vb = Some (region_phys r + (PGROUNDDOWN vb - region_virt r) + Z.lor (region_perm r) 1)) ->
  (forall va, 0 <= va < KERNBASE -> hw m d va = None) -> kernel_mapped m d.
Proof.
  intros Hk Huser.
  unfold kmap in Hk. pose proof (Hk _ ltac:(left)) as K1.
  pose proof (Hk _ ltac:(right; left)) as K2. pose proof (Hk _ ltac:(right; right; left)) as K3.
  pose proof (Hk _ ltac:(right; right; right; left)) as K4.
  cbn [region_virt region_size region_phys region_perm] in *. clear Hk.
  unfold KERNLINK, KERNBASE, EXTMEM, PHYSTOP, DEVSPACE, PTE_W, PTE_P in *.
  rewrite !(u32_small (data_ - 0x80000000)) in * by lia.
  split.
  - done.
  - intros va Hva. unfold KERNLINK, KERNBASE, EXTMEM, PHYSTOP, PTE_W, PTE_P in *.
    assert (Hr : 0x80000000 <= PGROUNDDOWN va <= va /\ PGROUNDDOWN va mod 4096 = 0).
    { rewrite PGROUNDDOWN_eq. split; [|apply page_mod]. pose proof (Z.mod_pos_bound va 4096).
      pose proof (Z.div_mod va 4096). lia. }
    assert (Hv : v2p (PGROUNDDOWN va) = PGROUNDDOWN va - 0x80000000)
      by (unfold v2p, KERNBASE; apply u32_small; lia).
    rewrite Hv. assert (Hm : (PGROUNDDOWN va - 0x80000000) mod 4096 = 0)
      by (rewrite Zminus_mod, (proj2 Hr); done).
    refine (ex_intro _ _ (conj _ (conj _ eq_refl))); [|apply PTE_ADDR_flags; [done|]; case_decide; vm_compute; by split].
    case_decide as E.
    + rewrite K2 by (change (u32 (0x80000000 + 0x100000 - 0x80000000)) with 0x100000; rewrite u32_small; lia).
      change (u32 (0x80000000 + 0x100000 - 0x80000000)) with 0x100000.
      change (Z.lor 0 1) with 1. f_equal; lia.
    + change (Z.lor 2 1) with 3 in *. destruct (decide (va < 0x80100000)).
      * rewrite K1 by (change (u32 (0x100000 - 0)) with 0x100000; lia). done || (f_equal; lia).
      * rewrite K3 by (rewrite u32_small; lia). done || (f_equal; lia).
  - intros va Hva. unfold DEVSPACE, PTE_W, PTE_P in *.
    rewrite K4 by (change (u32 (0 - 0xFE000000)) with 0x2000000; lia). f_equal; lia.
Qed.

(** A directory has room for 1024 tables. *)
Lemma tables_bound m d T : vm m d T -> (length (vals T) <= 1024)%nat.
Proof.
  intros Hvm. unfold vals. rewrite length_fmap, <- (length_fmap fst).
  assert (Hsub : (map_to_list T).*1 ⊆+ seqZ 0 1024).
  { apply NoDup_submseteq; [apply NoDup_fst_map_to_list|]. intros i Hi.
    apply list_elem_of_fmap in Hi as ([j t] & -> & Hj). apply elem_of_map_to_list in Hj. apply elem_of_seqZ.
    destruct (v_tab _ _ _ Hvm _ _ Hj). simpl. lia. }
  apply submseteq_length in Hsub. rewrite length_seqZ in Hsub. done.
Qed.

Lemma setupkvm_run k l :
  pool k l ->
  (exists k', setupkvm data_ k = Ret 0 k' /\ pool k' [] /\ (length l <= 1025)%nat /\
     (forall x, (forall p, p ∈ l -> ~ (p <= x < p + 4096)) -> memory k' x = memory k x)) \/
  (exists k' d T l', setupkvm data_ k = Ret d k' /\ vspace k' d T l' /\ d :: vals T ++ l' ≡ₚ l /\
     kernel_mapped (memory k') d /\
     (forall x, (forall p, table_page d T p -> ~ (p <= x < p + 4096)) -> memory k' x = memory k x)).
Proof.
  intros Hpool. destruct (kalloc_run end_ end_kernel k l Hpool) as (k1 & Hk1 & Hp1 & Hm1 & _).
  unfold setupkvm. destruct l as [|d l].
  { left. exists k1. rewrite (bind_Ret _ _ k 0 k1) by exact Hk1. simpl. split_and!; try done; [lia|].
    intros x _. by rewrite Hm1. }
  assert (Hd : page_ok d) by (eapply page_in_pool; [exact Hpool|left]).
  destruct (page_ok_word end_ end_kernel d Hd) as (_ & Hd0 & _).
  assert (Hnd : d ∉ l /\ NoDup l) by (apply NoDup_cons; apply (p_nodup _ _ _ Hpool)).
  rewrite (bind_Ret _ _ k d k1) by exact Hk1. rewrite (proj2 (Z.eqb_neq d 0)) by done.
  unfold mem_op. mrun. destruct (empty_directory k1 d l Hp1 Hd (proj1 Hnd)) as (Hvs & Hno & Hout).
  set (k2 := set_memory _ k1) in *. change (DEVSPACE <? p2v PHYSTOP) with false.
  destruct (map_kernel_spec (kmap data_) KERNBASE k2 d ∅ l Hvs kmap_ascending (fun vb _ => Hno vb))
    as (k3 & T & l' & ok & Hk3 & Hvs3 & Hg & Hoff & Hoth & Hres).
  rewrite (bind_Ret _ _ _ _ _ Hk3).
  assert (Hacct : vals T ++ l' ≡ₚ l) by apply (g_acct _ _ _ _ Hg).
  assert (Hsame : forall x, (forall p, table_page d T p -> ~ (p <= x < p + 4096)) -> memory k3 x = memory k x).
  { intros x Hx. rewrite Hoff by done. rewrite Hout by (apply Hx; by left). by rewrite Hm1. }
  destruct Hres as [[-> Hall]|[-> ->]].
  2: { left. exists k3. split_and!; [done|apply Hvs3| |].
       { simpl. rewrite <- Hacct, app_nil_r. pose proof (tables_bound _ _ _ (vs_vm _ _ _ _ Hvs3)). lia. }
       intros x Hx. apply Hsame. intros p Hp.
       apply Hx. destruct Hp as [->|Hp]; [left|]. right. rewrite <- Hacct. apply elem_of_app. left.
       by apply elem_of_vals. }
  right. exists k3, d, T, l'. split_and!; [done|done|by rewrite Hacct| |done].
  apply kernel_mapped_intro; [intros r Hr vb; by apply Hall|].
  intros va Hva. rewrite Hoth by (unfold KERNBASE in *; lia). apply Hno.
Qed.
End Spec.
