(* ===== verification/VmUser.v ===== *)
(** * User memory: allocation, freeing, copying (vm.c)

    [aspace] adds the user pages to the tables of [vspace]: [U] maps the
    address of every user page to the memory page behind it.  The directory,
    the tables, the user pages, the pages [rest] of everyone else and the free
    pages are all different. *)
From S2P Require Import Prelude Mmu Spinlock Strings Kalloc Vm VmSpec.

(** Permutations of concatenated page lists, by counting. *)
Lemma count_cons (a : Z) l x :
  count_occ Z.eq_dec (a :: l) x = (count_occ Z.eq_dec [a] x + count_occ Z.eq_dec l x)%nat.
Proof. apply (count_occ_app Z.eq_dec [a]). Qed.

Ltac perm :=
  repeat match goal with
  | H : _ ≡ₚ _ |- _ => rewrite (Permutation_count_occ Z.eq_dec) in H
  end;
  rewrite (Permutation_count_occ Z.eq_dec); intros x;
  repeat match goal with
  | H : forall x, count_occ _ _ x = count_occ _ _ x |- _ => specialize (H x)
  end;
  repeat (rewrite ?count_occ_app in *;
    match goal with
    | |- context [count_occ _ (?a :: ?l) _] =>
        lazymatch l with [] => fail | _ => rewrite (count_cons a l) end
    | H : context [count_occ _ (?a :: ?l) _] |- _ =>
        lazymatch l with [] => fail | _ => rewrite (count_cons a l) in H end
    end);
  rewrite ?count_occ_app in *; change (count_occ Z.eq_dec [] x) with O in *; lia.

Section User.
Context (end_ data_ : Z) (end_kernel : KERNLINK <= end_).

Abbreviation page_ok := (page_ok end_).
Abbreviation pool := (pool end_).
Abbreviation vspace := (vspace end_).

Record aspace (k : kmem) (d : Z) (T U : gmap Z Z) (rest l : list Z) : Prop := {
  as_space : vspace k d T l;
  as_user : forall va, va mod 4096 = 0 -> 0 <= va < KERNBASE ->
    match U !! va with
    | Some p => exists f, 0 <= f < 4096 /\ hw (memory k) d va = Some (v2p p + f)
    | None => hw (memory k) d va = None
    end;
  as_dom : forall va p, U !! va = Some p -> va mod 4096 = 0 /\ 0 <= va < KERNBASE;
  as_pages : Forall page_ok (vals U ++ rest);
  as_nodup : NoDup (d :: vals T ++ vals U ++ rest ++ l)
}.

(** Every page below a user page has a table, as in memory that grew from 0. *)
Definition dense (T U : gmap Z Z) : Prop :=
  forall va p b, U !! va = Some p -> 0 <= b <= va -> is_Some (T !! PDX b).

Lemma vals_delete (U : gmap Z Z) a p : U !! a = Some p -> vals U ≡ₚ p :: vals (delete a U).
Proof.
  intros H. rewrite <- (vals_insert (delete a U) a p) by apply lookup_delete_eq.
  by rewrite insert_delete_id.
Qed.

Lemma as_user_page k d T U rest l va p : aspace k d T U rest l -> U !! va = Some p -> page_ok p.
Proof.
  intros Has Hp. pose proof (as_pages _ _ _ _ _ _ Has) as HF. eapply Forall_forall; [exact HF|].
  apply elem_of_app. left. apply elem_of_vals. by exists va.
Qed.

(** A page that is neither a table nor free. *)
Lemma as_user_apart k d T U rest l va p :
  aspace k d T U rest l -> U !! va = Some p -> ~ table_page d T p /\ p ∉ l.
Proof.
  intros Has Hp. pose proof (as_nodup _ _ _ _ _ _ Has) as Hnd.
  assert (Hin : p ∈ vals U) by (apply elem_of_vals; by exists va).
  apply NoDup_cons in Hnd as [Hd Hnd]. apply NoDup_app in Hnd as (_ & HT & Hnd).
  apply NoDup_app in Hnd as (_ & HU & _). split.
  - intros [->|Ht]; [apply Hd; set_solver|].
    apply (HT p); [by apply elem_of_vals|]. apply elem_of_app. by left.
  - intros Hl. apply (HU p Hin). apply elem_of_app. by right.
Qed.

Lemma as_rest_apart k d T U rest l p :
  aspace k d T U rest l -> p ∈ rest -> page_ok p /\ ~ table_page d T p /\ p ∉ l /\ p ∉ vals U.
Proof.
  intros Has Hp. pose proof (as_nodup _ _ _ _ _ _ Has) as Hnd.
  apply NoDup_cons in Hnd as [Hd Hnd]. apply NoDup_app in Hnd as (_ & HT & Hnd).
  apply NoDup_app in Hnd as (_ & HU & Hnd). apply NoDup_app in Hnd as (_ & HR & _). split_and!.
  - eapply Forall_forall; [apply (as_pages _ _ _ _ _ _ Has)|]. apply elem_of_app. by right.
  - intros [->|Ht]; [apply Hd; set_solver|].
    apply (HT p); [by apply elem_of_vals|]. set_solver.
  - by apply HR.
  - intros Hin. apply (HU p Hin). apply elem_of_app. by left.
Qed.

(** ** Taking a user page away *)

Lemma free_user_page k d T U rest l a p t :
  aspace k d T U rest l -> U !! a = Some p -> T !! PDX a = Some t ->
  exists k', (kfree end_ p;;; store (t + 4 * PTX a) 0) k = Ret tt k' /\
    aspace k' d T (delete a U) rest (p :: l) /\
    (forall x, ~ (p <= x < p + 4096) -> (forall q, table_page d T q -> ~ (q <= x < q + 4096)) ->
       memory k' x = memory k x) /\
    (forall vb, 0 <= vb < 2 ^ 32 -> vb / 4096 <> a / 4096 -> hw (memory k') d vb = hw (memory k) d vb).
Proof.
  intros Has HU HT. destruct Has as [[Hvm Hpool Hap] Huser Hdom Hpages Hnd] eqn:Eas.
  pose proof (as_user_page _ _ _ _ _ _ _ _ Has HU) as Hp.
  destruct (as_user_apart _ _ _ _ _ _ _ _ Has HU) as [Hpt Hpl]. clear Eas Has.
  destruct (Hdom _ _ HU) as [Hal Har].
  destruct (kfree_run end_ end_kernel k l p Hpool Hp Hpl) as (k1 & Hk1 & Hpool1 & Hm1 & _).
  assert (Hsame : forall q x, table_page d T q -> q <= x < q + 4096 -> memory k1 x = memory k x).
  { intros q x Hq Hx. apply Hm1. assert (Hqok : page_ok q) by by eapply table_page_ok.
    destruct (pages_apart end_ q p Hqok Hp); [by intros ->|lia..]. }
  destruct (vm_frame _ end_kernel _ _ _ _ Hvm Hsame) as [Hvm1 Hent1].
  destruct (store_entry _ end_kernel (memory k1) d T a t 0 Hvm1 HT) as (Hvm2 & He & Heo & Hmo);
    [unfold KERNBASE in *; lia|lia|].
  erewrite bind_Ret by exact Hk1. eexists. split; [reflexivity|].
  destruct (v_tab _ _ _ _ Hvm _ _ HT) as (_ & Htok & _).
  assert (Htp : table_page d T t) by (right; by exists (PDX a)).
  split; [split|split].
  - split; [done| |].
    + apply pool_frame; [done|done|apply st4_bytes_ok; apply Hpool1|].
      intros q x Hq Hx. apply Hmo. assert (Hqok : page_ok q) by by eapply page_in_pool.
      destruct (pages_apart end_ q t Hqok Htok); [|lia..]. intros ->.
      apply elem_of_cons in Hq as [->|Hq]; [done|by apply (Hap t)].
    + intros q Hq Hin. apply elem_of_cons in Hin as [->|Hin]; [done|by apply (Hap q)].
  - intros va Hva Hvr. simpl. rewrite (hw_entry _ end_kernel _ _ _ _ Hvm2).
    destruct (decide (va = a)) as [->|Hne].
    + by rewrite lookup_delete_eq, He.
    + rewrite lookup_delete_ne by done. rewrite Heo; [|unfold KERNBASE in *; lia|].
      * rewrite Hent1, <- (hw_entry _ end_kernel _ _ _ _ Hvm). by apply Huser.
      * pose proof (Z.div_mod va 4096). pose proof (Z.div_mod a 4096). lia.
  - intros va q Hq. apply lookup_delete_Some in Hq as [_ Hq]. by apply Hdom in Hq.
  - rewrite (vals_delete U a p HU) in Hpages. by apply Forall_cons in Hpages as [_ ?].
  - rewrite (vals_delete U a p HU) in Hnd. revert Hnd. apply NoDup_Permutation_proper.
    constructor. apply Permutation_app_head. simpl. rewrite <- !Permutation_middle.
    by rewrite !app_assoc, Permutation_middle.
  - intros x Hx1 Hx2. simpl. rewrite Hmo by by apply Hx2. by apply Hm1.
  - intros vb Hvb Hne. simpl. rewrite (hw_entry _ end_kernel _ _ _ _ Hvm2), Heo, Hent1 by done.
    by rewrite (hw_entry _ end_kernel _ _ _ _ Hvm).
Qed.

(** ** Freeing a range *)

(** The user pages outside [lo, hi). *)
Definition outside (lo hi : Z) (U : gmap Z Z) : gmap Z Z :=
  filter (fun kv => ~ (lo <= kv.1 < hi)) U.

Lemma outside_none lo hi U : (forall va p, U !! va = Some p -> ~ (lo <= va < hi)) -> outside lo hi U = U.
Proof. intros H. apply map_filter_id. intros va p. apply H. Qed.

Lemma outside_step lo hi U :
  lo < hi -> lo mod 4096 = 0 -> (forall va p, U !! va = Some p -> va mod 4096 = 0) ->
  outside lo hi U = outside (lo + 4096) hi (delete lo U).
Proof.
  intros Hlt Hlo Hal. apply map_eq. intros va. unfold outside. rewrite !map_lookup_filter.
  destruct (decide (va = lo)) as [->|Hne].
  - rewrite lookup_delete_eq. simpl. destruct (U !! lo) as [p|]; simpl; [|done].
    by rewrite option_guard_False by lia.
  - rewrite lookup_delete_ne by done. destruct (U !! va) as [p|] eqn:HU; simpl; [|done].
    assert (Hiff : ~ (lo <= va < hi) <-> ~ (lo + 4096 <= va < hi)).
    { specialize (Hal _ _ HU). pose proof (Z.div_mod va 4096). pose proof (Z.div_mod lo 4096). lia. }
    destruct (decide (lo <= va < hi)).
    + rewrite !option_guard_False by tauto. done.
    + rewrite !option_guard_True by tauto. done.
Qed.

(** Memory is the same off the tables and off the user pages in [lo, hi). *)
Definition off_range (d : Z) (T : gmap Z Z) (lo hi : Z) (U : gmap Z Z) (m m' : mem) : Prop :=
  forall x, (forall q, table_page d T q -> ~ (q <= x < q + 4096)) ->
    (forall va q, U !! va = Some q -> lo <= va < hi -> ~ (q <= x < q + 4096)) -> m' x = m x.

(** The mappings below [lo] and those of the kernel are the same. *)
Definition same_below (d lo : Z) (m m' : mem) : Prop :=
  forall va, 0 <= va < lo \/ KERNBASE <= va < 2 ^ 32 -> hw m' d va = hw m d va.

Lemma same_below_weaken d lo lo' m m' : lo <= lo' -> same_below d lo' m m' -> same_below d lo m m'.
Proof. intros Hl H va Hva. apply H. lia. Qed.

Lemma dense_delete T U a : dense T U -> dense T (delete a U).
Proof. intros H va p b Hp. apply lookup_delete_Some in Hp as [_ Hp]. by eapply H. Qed.

Lemma u32_page a : 0 <= a < 2 ^ 31 -> u32 (a + PGSIZE) = a + 4096.
Proof. intros. unfold PGSIZE. apply u32_small. lia. Qed.

Lemma dealloc_loop_spec fuel k d T U rest l a oldsz :
  aspace k d T U rest l -> dense T U -> a mod 4096 = 0 -> 0 <= a -> oldsz <= KERNBASE ->
  oldsz <= a + 4096 * (Z.of_nat fuel - 1) -> (0 < fuel)%nat ->
  exists k' l', dealloc_loop end_ fuel d a oldsz k = Ret tt k' /\
    aspace k' d T (outside a oldsz U) rest l' /\ vals (outside a oldsz U) ++ l' ≡ₚ vals U ++ l /\
    off_range d T a oldsz U (memory k) (memory k') /\ same_below d a (memory k) (memory k').
Proof.
  revert k U l a. induction fuel as [|fuel IH]; intros k U l a Has Hden Hal Ha Hold Hfuel Hf0; [lia|].
  cbn [dealloc_loop]. destruct (Z.ltb_spec a oldsz) as [Hlt|Hge]; cbn [negb].
  2: { exists k, l. rewrite outside_none by (intros; lia). done. }
  pose proof (vs_vm _ _ _ _ _ (as_space _ _ _ _ _ _ Has)) as Hvm.
  unfold KERNBASE in Hold. destruct (T !! PDX a) as [t|] eqn:HT.
  - rewrite (bind_Ret _ _ _ _ _ (walk_found _ end_kernel k d T a t false Hvm HT)).
    destruct (v_tab _ _ _ _ Hvm _ _ HT) as (_ & Htok & _). pose proof (PTX_range a) as Hx.
    destruct (page_ok_word end_ end_kernel t Htok) as (_ & Ht0 & Ht1 & _).
    rewrite (proj2 (Z.eqb_neq _ 0)) by lia. unfold load. mrun. rewrite present_odd, u32_page by lia.
    pose proof (as_user _ _ _ _ _ _ Has a Hal ltac:(unfold KERNBASE; lia)) as Hu.
    rewrite (hw_entry _ end_kernel _ _ _ _ Hvm) in Hu. unfold entry in Hu. rewrite HT in Hu.
    rewrite (outside_step a oldsz U Hlt Hal) by (intros va p Hp; by destruct (as_dom _ _ _ _ _ _ Has _ _ Hp)).
    destruct (page_index a 1 Hal) as [_ Hal1]. rewrite Z.mul_1_r in Hal1.
    destruct (U !! a) as [p|] eqn:HU.
    + destruct Hu as (f & Hf & E). pose proof (as_user_page _ _ _ _ _ _ _ _ Has HU) as Hp.
      destruct (page_pa _ end_kernel p Hp) as (_ & Hpal & Hback & Hv).
      destruct (Z.odd _) eqn:Hodd; [|done]. injection E as E. cbn [when]. rewrite E.
      rewrite PTE_ADDR_flags, Hback by done. rewrite (proj2 (Z.eqb_neq (v2p p) 0)) by lia.
      destruct (free_user_page k d T U rest l a p t Has HU HT) as (k1 & Hk1 & Has1 & Hoff1 & Hhw1).
      rewrite (bind_Ret _ _ _ _ _ Hk1).
      destruct (IH k1 (delete a U) (p :: l) (a + 4096) Has1 (dense_delete _ _ _ Hden) Hal1)
        as (k2 & l2 & Hk2 & Has2 & Hacct & Hoff2 & Hsb); [lia|unfold KERNBASE; lia|lia|lia|].
      exists k2, l2. split_and!; [done|done| | |].
      * rewrite Hacct, (vals_delete U a p HU). simpl. by rewrite Permutation_middle.
      * intros x Hx1 Hx2. rewrite Hoff2; [apply Hoff1| |]; try done.
        -- apply (Hx2 a); [done|lia].
        -- intros va q Hq Hr. apply lookup_delete_Some in Hq as [_ Hq]. apply (Hx2 va); [done|lia].
      * intros va Hva. rewrite Hsb by lia. unfold KERNBASE in Hva. apply Hhw1; [lia|].
        pose proof (Z.div_mod a 4096). pose proof (Z.div_mod va 4096). pose proof (Z.mod_pos_bound va 4096). lia.
    + destruct (Z.odd _) eqn:Hodd; [done|]. cbn [when]. rewrite bind_ret.
      rewrite (delete_id U a HU).
      destruct (IH k U l (a + 4096)) as (k2 & l2 & Hk2 & Has2 & Hacct & Hoff2 & Hsb); try done; try (unfold KERNBASE; lia).
      exists k2, l2. split_and!; try done; [|by eapply same_below_weaken; [|exact Hsb]; lia]. intros x Hx1 Hx2. apply Hoff2; [done|].
      intros va q Hq Hr. apply (Hx2 va); [done|lia].
  - rewrite (bind_Ret _ _ _ _ _ (walk_missing _ end_kernel k d T a Hvm HT)). cbn [Z.eqb].
    assert (Hnone : forall va p, U !! va = Some p -> va < a).
    { intros va p Hp. destruct (decide (va < a)); [done|].
      destruct (Hden va p a Hp) as [t Ht]; [lia|congruence]. }
    rewrite (outside_none a oldsz U) by (intros va p Hp; specialize (Hnone _ _ Hp); lia).
    replace (u32 (u32 (a + (Z.of_nat NPTENTRIES - 1) * PGSIZE) + PGSIZE)) with (a + 4194304)
      by (rewrite u32_add_l; change (Z.of_nat NPTENTRIES) with 1024; unfold PGSIZE;
          rewrite u32_small; lia).
    destruct (IH k U l (a + 4194304)) as (k2 & l2 & Hk2 & Has2 & Hacct & Hoff2 & Hsb); try done; try (unfold KERNBASE; lia).
    { destruct (page_index a 1024 Hal) as [_ E]. done. }
    rewrite (outside_none (a + 4194304) oldsz U) in Has2, Hacct
      by (intros va p Hp; specialize (Hnone _ _ Hp); lia).
    exists k2, l2. split_and!; try done; [|by eapply same_below_weaken; [|exact Hsb]; lia]. intros x Hx1 Hx2. apply Hoff2; [done|].
    intros va q Hq Hr. apply (Hx2 va); [done|lia].
Qed.

Lemma PGROUNDUP_page a : 0 <= a -> a <= KERNBASE ->
  PGROUNDUP a mod 4096 = 0 /\ a <= PGROUNDUP a < a + 4096.
Proof.
  intros H0 H1. unfold KERNBASE in H1. rewrite PGROUNDUP_eq by lia. split; [apply page_mod|].
  pose proof (Z.mod_pos_bound (a + 4095) 4096). lia.
Qed.

Lemma deallocuvm_run k d T U rest l oldsz newsz :
  aspace k d T U rest l -> dense T U -> 0 <= newsz -> newsz < oldsz <= KERNBASE ->
  exists k' l', deallocuvm end_ d oldsz newsz k = Ret newsz k' /\
    aspace k' d T (outside (PGROUNDUP newsz) oldsz U) rest l' /\
    vals (outside (PGROUNDUP newsz) oldsz U) ++ l' ≡ₚ vals U ++ l /\
    off_range d T (PGROUNDUP newsz) oldsz U (memory k) (memory k') /\
    same_below d (PGROUNDUP newsz) (memory k) (memory k').
Proof.
  intros Has Hden Hn Ho. unfold deallocuvm. rewrite (proj2 (Z.leb_gt oldsz newsz)) by lia.
  destruct (PGROUNDUP_page newsz Hn ltac:(lia)) as [Hal Hr].
  destruct (dealloc_loop_spec (S (Z.to_nat (oldsz / PGSIZE + 1))) k d T U rest l (PGROUNDUP newsz) oldsz)
    as (k' & l' & Hk & Has' & Hacct & Hoff & Hsb); try done; try lia.
  { unfold PGSIZE. pose proof (Z.div_mod oldsz 4096). pose proof (Z.mod_pos_bound oldsz 4096).
    pose proof (Z.div_pos oldsz 4096). lia. }
  exists k', l'. split_and!; try done. by rewrite (bind_Ret _ _ _ _ _ Hk).
Qed.

(** ** Freeing the tables *)

Definition tables_from (i : nat) (T : gmap Z Z) : gmap Z Z := filter (fun kv => Z.of_nat i <= kv.1) T.

Lemma tables_from_step i T :
  vals (tables_from i T) ≡ₚ match T !! Z.of_nat i with Some t => [t] | None => [] end ++ vals (tables_from (S i) T).
Proof.
  assert (Hne : tables_from (S i) T !! Z.of_nat i = None).
  { apply map_lookup_filter_None. right. intros t _. simpl. lia. }
  destruct (T !! Z.of_nat i) as [t|] eqn:HT.
  - assert (E : tables_from i T = <[Z.of_nat i := t]> (tables_from (S i) T)).
    { apply map_eq. intros j. unfold tables_from. destruct (decide (j = Z.of_nat i)) as [->|Hj].
      - rewrite lookup_insert_eq, map_lookup_filter, HT. simpl. by rewrite option_guard_True by lia.
      - rewrite lookup_insert_ne, !map_lookup_filter by done. destruct (T !! j); simpl; [|done].
        destruct (decide (Z.of_nat i <= j)).
        + by rewrite !option_guard_True by lia.
        + by rewrite !option_guard_False by lia. }
    rewrite E. by apply vals_insert.
  - assert (E : tables_from i T = tables_from (S i) T); [|by rewrite E].
    apply map_eq. intros j. unfold tables_from. rewrite !map_lookup_filter.
    destruct (decide (j = Z.of_nat i)) as [->|Hj]; [by rewrite HT|]. destruct (T !! j); simpl; [|done].
    destruct (decide (Z.of_nat i <= j)).
    + by rewrite !option_guard_True by lia.
    + by rewrite !option_guard_False by lia.
Qed.

Lemma free_tables_run k d T l :
  vspace k d T l -> NoDup (vals T ++ l) ->
  exists k' l', mfor (seq 0 NPDENTRIES) (free_table end_ d) k = Ret tt k' /\ pool k' l' /\
    l' ≡ₚ vals T ++ l /\ off_tables d T (memory k) (memory k').
Proof.
  intros Hvs Hnd. pose proof (vs_vm _ _ _ _ _ Hvs) as Hvm.
  destruct (mfor_seq_inv (fun i k' => exists l', pool k' l' /\
      vals (tables_from i T) ++ l' ≡ₚ vals T ++ l /\
      (forall x, (forall j t, T !! j = Some t -> ~ (t <= x < t + 4096)) -> memory k' x = memory k x))
      0 NPDENTRIES (free_table end_ d) k) as (k' & Hk & l' & Hp & Hacct & Hoff).
  - exists l. split_and!; [apply Hvs| |done].
    assert (E : tables_from 0 T = T); [|by rewrite E].
    apply map_filter_id. intros i t Hi. destruct (v_tab _ _ _ _ Hvm _ _ Hi). simpl. lia.
  - intros i k1 Hi (l1 & Hp1 & Hacct1 & Hoff1).
    assert (Hir : 0 <= Z.of_nat i < 1024) by (unfold NPDENTRIES in Hi; lia).
    destruct (page_word _ end_kernel d (Z.of_nat i) (v_dir _ _ _ _ Hvm) Hir) as [Hw Hu].
    unfold free_table, load. mrun. rewrite Hu.
    assert (E : ld4 (d + 4 * Z.of_nat i) (memory k1) = ld4 (d + 4 * Z.of_nat i) (memory k)).
    { apply ld4_ext; [done|]. intros x Hx. apply Hoff1. intros j t Hj.
      destruct (v_tab _ _ _ _ Hvm _ _ Hj) as (_ & Ht & Htd & _).
      destruct (pages_apart end_ t d Ht (v_dir _ _ _ _ Hvm) Htd); lia. }
    rewrite E, present_odd. pose proof (tables_from_step i T) as Hstep.
    destruct (T !! Z.of_nat i) as [t|] eqn:HT.
    + destruct (v_tab _ _ _ _ Hvm _ _ HT) as (_ & Ht & _ & ->).
      destruct (page_pa _ end_kernel t Ht) as (_ & Hal & Hback & _).
      rewrite odd_flags, PTE_ADDR_flags, Hback by (done || lia). change (Z.odd 7) with true. cbn [when].
      assert (Hnd1 : NoDup (t :: vals (tables_from (S i) T) ++ l1)).
      { rewrite Hstep in Hacct1. simpl in Hacct1. by rewrite Hacct1. }
      destruct (kfree_run end_ end_kernel k1 l1 t Hp1 Ht) as (k2 & Hk2 & Hp2 & Hm2 & _).
      { apply NoDup_cons in Hnd1 as [Hn _]. intros Hin. apply Hn. apply elem_of_app. by right. }
      exists k2. split; [done|]. exists (t :: l1). split_and!; [done| |].
      * rewrite <- Hacct1, Hstep. simpl. by rewrite Permutation_middle.
      * intros x Hx. rewrite Hm2 by by eapply Hx. by apply Hoff1.
    + rewrite (v_none _ _ _ _ Hvm _ Hir HT). exists k1. split; [done|]. exists l1.
      split_and!; [done| |done]. by rewrite <- Hacct1, Hstep.
  - exists k', l'. split_and!; [done|done| |].
    + rewrite <- Hacct. assert (E : tables_from (0 + NPDENTRIES) T = ∅); [|by rewrite E].
      apply map_empty_filter_2. intros i t Hi. destruct (v_tab _ _ _ _ Hvm _ _ Hi).
      change (Z.of_nat (0 + NPDENTRIES)) with 1024. cbn [fst]. lia.
    + intros x Hx. apply Hoff. intros j t Hj. apply Hx. right. by exists j.
Qed.

(** Every page of an address space goes back to the free list; nobody else's
    memory changes. *)
Lemma freevm_run k d T U rest l :
  aspace k d T U rest l -> dense T U ->
  exists k' l', freevm end_ d k = Ret tt k' /\ pool k' l' /\
    l' ≡ₚ d :: vals T ++ vals U ++ l /\
    (forall p x, p ∈ rest -> p <= x < p + 4096 -> memory k' x = memory k x).
Proof.
  intros Has Hden. pose proof (as_nodup _ _ _ _ _ _ Has) as Hnd0.
  pose proof (vs_vm _ _ _ _ _ (as_space _ _ _ _ _ _ Has)) as Hvm.
  pose proof (v_dir _ _ _ _ Hvm) as Hd. destruct (page_ok_word end_ end_kernel d Hd) as (_ & Hd0 & _).
  unfold freevm. rewrite (proj2 (Z.eqb_neq d 0)) by done.
  destruct (deallocuvm_run k d T U rest l KERNBASE 0 Has Hden) as (k1 & l1 & Hk1 & Has1 & Hacct1 & Hoff1 & _);
    [lia|unfold KERNBASE; lia|].
  change (PGROUNDUP 0) with 0 in *.
  assert (HU0 : outside 0 KERNBASE U = ∅).
  { apply map_empty_filter_2. intros va p Hp. destruct (as_dom _ _ _ _ _ _ Has _ _ Hp). simpl. tauto. }
  rewrite HU0 in *. assert (Hl1 : l1 ≡ₚ vals U ++ l) by exact Hacct1.
  rewrite (bind_Ret _ _ _ _ _ Hk1). pose proof (as_nodup _ _ _ _ _ _ Has1) as Hnd1.
  change (vals ∅) with (@nil Z) in Hnd1. simpl in Hnd1. apply NoDup_cons in Hnd1 as [Hdn Hnd1].
  destruct (free_tables_run k1 d T l1 (as_space _ _ _ _ _ _ Has1)) as (k2 & l2 & Hk2 & Hp2 & Hl2 & Hoff2).
  { apply NoDup_app in Hnd1 as (H1 & H2 & H3). apply NoDup_app in H3 as (_ & _ & H3).
    apply NoDup_app. split_and!; [done| |done]. intros x Hx Hx'. apply (H2 x Hx). apply elem_of_app. by right. }
  rewrite (bind_Ret _ _ _ _ _ Hk2).
  destruct (kfree_run end_ end_kernel k2 l2 d Hp2 Hd) as (k3 & Hk3 & Hp3 & Hm3 & _).
  { intros Hin. apply Hdn. rewrite Hl2 in Hin. rewrite !elem_of_app in *. tauto. }
  exists k3, (d :: l2). split_and!; [done|done|by rewrite Hl2, Hl1|].
  intros p x Hp Hx. destruct (as_rest_apart _ _ _ _ _ _ _ Has Hp) as (Hpok & Hpt & Hpl & HpU).
  assert (Hapart : forall q, page_ok q -> q <> p -> ~ (q <= x < q + 4096)).
  { intros q Hq Hqp. destruct (pages_apart end_ q p Hq Hpok Hqp); lia. }
  assert (Htab : forall q, table_page d T q -> ~ (q <= x < q + 4096)).
  { intros q Hq. apply Hapart; [by eapply table_page_ok|]. by intros ->. }
  rewrite Hm3, Hoff2, Hoff1; try done.
  - intros va q Hq _. apply Hapart; [by eapply as_user_page; [exact Has|]|].
    intros ->. apply HpU. apply elem_of_vals. by exists va.
  - apply Hapart; [done|]. intros ->. apply Hpt. by left.
Qed.
End User.
