(* ===== verification/VmGrow.v ===== *)
(** * Growing and copying an address space (vm.c)

    [allocuvm] adds zeroed pages, [copyuvm] builds a child's address space
    from a parent's.  Both are followed page by page with the [aspace] of the
    previous file; a page that the code takes and then forgets moves to the
    list of other people's pages, so the accounting shows it. *)
From S2P Require Import Prelude Mmu Spinlock Strings Kalloc Vm VmSpec VmUser.

Section Grow.
Context (end_ data_ : Z) (end_kernel : KERNLINK <= end_).

Abbreviation page_ok := (page_ok end_).
Abbreviation pool := (pool end_).
Abbreviation vspace := (vspace end_).
Abbreviation aspace := (aspace end_).

(** ** One page *)

Lemma kalloc_empty k d T U rest :
  aspace k d T U rest [] -> exists k', kalloc k = Ret 0 k' /\ aspace k' d T U rest [] /\ memory k' = memory k.
Proof.
  intros [[Hvm Hpool Hap] Hu Hdom Hpg Hnd].
  destruct (kalloc_run end_ end_kernel k [] Hpool) as (k1 & Hk1 & Hp1 & Hm1 & _).
  exists k1. split_and!; [done| |done]. split; try done; [split; try done; by rewrite Hm1|].
  by rewrite Hm1.
Qed.

Lemma take_page k d T U rest p l :
  aspace k d T U rest (p :: l) ->
  exists k', kalloc k = Ret p k' /\ p <> 0 /\ aspace k' d T U (p :: rest) l /\ memory k' = memory k.
Proof.
  intros [[Hvm Hpool Hap] Hu Hdom Hpg Hnd].
  destruct (kalloc_run end_ end_kernel k (p :: l) Hpool) as (k1 & Hk1 & Hp1 & Hm1 & _).
  assert (Hp : page_ok p) by (eapply page_in_pool; [exact Hpool|left]).
  destruct (page_ok_word end_ end_kernel p Hp) as (_ & Hp0 & _).
  exists k1. split_and!; [done|done| |done]. split.
  - split; [by rewrite Hm1|done|]. intros q Hq Hin. apply (Hap q Hq). by right.
  - by rewrite Hm1.
  - done.
  - rewrite <- Permutation_middle. by constructor.
  - revert Hnd. apply NoDup_Permutation_proper. perm.
Qed.

(** The user's and everyone else's pages are neither tables nor free. *)
Lemma owned_apart k d T U rest l p :
  aspace k d T U rest l -> p ∈ vals U ++ rest -> page_ok p /\ ~ table_page d T p /\ p ∉ l.
Proof.
  intros Has Hp. apply elem_of_app in Hp as [Hp|Hp].
  - apply elem_of_vals in Hp as (va & Hva). split; [by eapply as_user_page|by eapply as_user_apart].
  - by destruct (as_rest_apart _ end_kernel _ _ _ _ _ _ _ Has Hp) as (? & ? & ? & _).
Qed.

(** Writing such a page. *)
Lemma write_owned k d T U p rest l m' :
  aspace k d T U rest l -> p ∈ vals U ++ rest -> bytes_ok m' ->
  (forall x, ~ (p <= x < p + 4096) -> m' x = memory k x) ->
  aspace (set_memory m' k) d T U rest l /\ (forall va, hw m' d va = hw (memory k) d va).
Proof.
  intros Has Hin Hb Hm. destruct (owned_apart _ _ _ _ _ _ _ Has Hin) as (Hp & Hpt & Hpl).
  destruct Has as [[Hvm Hpool Hap] Hu Hdom Hpg Hnd].
  assert (Hs : forall q x, table_page d T q -> q <= x < q + 4096 -> m' x = memory k x).
  { intros q x Hq Hx. apply Hm. assert (Hqok : page_ok q) by by eapply table_page_ok.
    destruct (pages_apart end_ q p Hqok Hp); [by intros ->|lia..]. }
  pose proof (fun va => hw_frame _ end_kernel _ _ _ _ va Hvm Hs) as Hhw. split; [|done].
  split; try done.
  - split; [by apply (vm_frame _ end_kernel _ _ _ _ Hvm Hs)| |done]. apply pool_frame; [done|done|done|].
    intros q x Hq Hx. apply Hm. assert (Hqok : page_ok q) by by eapply page_in_pool.
    destruct (pages_apart end_ q p Hqok Hp); [by intros ->|lia..].
  - intros va Ha Hr. simpl. rewrite Hhw. by apply Hu.
Qed.

Lemma map_user k d T U p rest l a :
  aspace k d T U (p :: rest) l -> a mod 4096 = 0 -> 0 <= a < KERNBASE -> U !! a = None ->
  exists k' T' l' r, mappages d a PGSIZE (v2p p) (Z.lor PTE_W PTE_U) k = Ret r k' /\
    grown T T' l l' /\ off_tables d T' (memory k) (memory k') /\
    (forall vb, 0 <= vb < 2 ^ 32 -> vb / 4096 <> a / 4096 -> hw (memory k') d vb = hw (memory k) d vb) /\
    (r = 0 /\ aspace k' d T' (<[a := p]> U) rest l' /\ hw (memory k') d a = Some (v2p p + 7) \/
     r = -1 /\ aspace k' d T' U (p :: rest) l' /\ l' = []).
Proof.
  intros Has Hal Har HU. destruct (as_rest_apart _ end_kernel _ _ _ _ _ _ _ Has ltac:(left)) as (Hp & _).
  destruct Has as [Hvs Hu Hdom Hpg Hnd]. destruct (page_pa _ end_kernel p Hp) as (Hv & Hpal & _ & Hv0).
  unfold KERNBASE in Har. pose proof (Hu a Hal ltac:(unfold KERNBASE; lia)) as Hno. rewrite HU in Hno.
  assert (Hdn : PGROUNDDOWN a = a) by (rewrite PGROUNDDOWN_eq, Hal; lia).
  assert (Hlast : (a + PGSIZE - 1) / 4096 = a / 4096).
  { unfold PGSIZE. pose proof (Z.div_mod a 4096). symmetry. apply Z.div_unique with 4095; lia. }
  destruct (mappages_run end_ end_kernel k d T l a PGSIZE (v2p p) (Z.lor PTE_W PTE_U) 0)
    as (k' & T' & l' & r & Hr & [Hs Hg Hoff Hoth] & Hres); try done; try lia.
  { unfold PGSIZE; lia. }
  { unfold PHYSTOP in Hv0. lia. }
  { intros j Hj. rewrite Hdn. replace (a + 4096 * j) with a by lia. done. }
  rewrite Hdn in *. exists k', T', l', r.
  assert (Hacct : vals T' ++ l' ≡ₚ vals T ++ l) by apply (g_acct _ _ _ _ Hg).
  assert (Hother : forall vb, 0 <= vb < 2 ^ 32 -> vb / 4096 <> a / 4096 ->
            hw (memory k') d vb = hw (memory k) d vb) by (intros vb Hvb Hne; apply Hoth; lia).
  split_and!; [done|done|done|done|].
  assert (Huo : forall vb, vb mod 4096 = 0 -> 0 <= vb < KERNBASE -> vb <> a ->
            hw (memory k') d vb = hw (memory k) d vb).
  { unfold KERNBASE. intros vb Hvm Hvr Hne. apply Hother; [lia|].
    pose proof (Z.div_mod vb 4096). pose proof (Z.div_mod a 4096). lia. }
  destruct Hres as [[-> Hmap]|[-> Hnone]]; [left|right].
  - specialize (Hmap 0 ltac:(lia)). rewrite Z.mul_0_r, !Z.add_0_r in Hmap.
    split_and!; [done| |done]. split; [done| | | |].
    + intros vb Hb Hbr. destruct (decide (vb = a)) as [->|Hne].
      * rewrite lookup_insert_eq. exists 7. split; [lia|done].
      * rewrite lookup_insert_ne by done. rewrite Huo by done. by apply Hu.
    + intros vb q Hq. apply lookup_insert_Some in Hq as [[<- _]|[_ Hq]]; [done|by eapply Hdom].
    + rewrite (vals_insert U a p HU). simpl. by rewrite Permutation_middle.
    + revert Hnd. apply NoDup_Permutation_proper. pose proof (vals_insert U a p HU). perm.
  - destruct Hnone as [-> Hnone]. split_and!; [done| |done]. split; [done| |done|done|].
    + intros vb Hb Hbr. destruct (decide (vb = a)) as [->|Hne].
      * rewrite HU. rewrite Z.mul_0_r, Z.add_0_r in Hnone. done.
      * rewrite Huo by done. by apply Hu.
    + revert Hnd. apply NoDup_Permutation_proper. perm.
Qed.
(** Stores to the tables leave the user's and everyone else's pages alone. *)
Lemma off_tables_keeps k d T U rest l m m' p x :
  aspace k d T U rest l -> off_tables d T m m' -> p ∈ vals U ++ rest -> p <= x < p + 4096 -> m' x = m x.
Proof.
  intros Has Hoff Hp Hx. destruct (owned_apart _ _ _ _ _ _ _ Has Hp) as (Hok & Hnt & _). apply Hoff.
  intros q Hq. assert (Hqok : page_ok q) by (eapply table_page_ok; [apply Has|done]).
  destruct (pages_apart end_ q p Hqok Hok); [by intros ->|lia..].
Qed.

(** One more user page: take a free page, fill it, map it. *)
Lemma grow_page k d T U rest p l a fill :
  aspace k d T U rest (p :: l) -> a mod 4096 = 0 -> 0 <= a < KERNBASE -> U !! a = None ->
  bytes_ok (fill (memory k)) -> (forall x, ~ (p <= x < p + 4096) -> fill (memory k) x = memory k x) ->
  exists k1 k' T' l' r, kalloc k = Ret p k1 /\ p <> 0 /\ memory k1 = memory k /\
    mappages d a PGSIZE (v2p p) (Z.lor PTE_W PTE_U) (set_memory (fill (memory k1)) k1) = Ret r k' /\
    grown T T' l l' /\
    (forall q x, q ∈ vals U ++ rest -> q <= x < q + 4096 -> memory k' x = memory k x) /\
    (forall x, p <= x < p + 4096 -> memory k' x = fill (memory k) x) /\
    (forall vb, 0 <= vb < 2 ^ 32 -> vb / 4096 <> a / 4096 -> hw (memory k') d vb = hw (memory k) d vb) /\
    (r = 0 /\ aspace k' d T' (<[a := p]> U) rest l' /\ hw (memory k') d a = Some (v2p p + 7) \/
     r = -1 /\ aspace k' d T' U (p :: rest) l' /\ l' = []).
Proof.
  intros Has Hal Har HU Hfb Hfo. destruct (take_page _ _ _ _ _ _ _ Has) as (k1 & Hk1 & Hp0 & Has1 & Hm1).
  destruct (write_owned k1 d T U p (p :: rest) l (fill (memory k1)) Has1) as [Has2 Hhw2];
    [apply elem_of_app; right; left|by rewrite Hm1|by rewrite Hm1|].
  destruct (map_user _ d T U p rest l a Has2 Hal Har HU) as (k' & T' & l' & r & Hr & Hacct & Hoff & Hoth & Hres).
  assert (Hkeep : forall q x, q ∈ p :: vals U ++ rest -> q <= x < q + 4096 ->
            memory k' x = fill (memory k) x).
  { intros q x Hq Hx. rewrite <- Hm1. destruct Hres as [(_ & Has3 & _)|(_ & Has3 & _)];
      eapply (off_tables_keeps _ _ _ _ _ _ _ _ q x Has3 Hoff); try done.
    - by rewrite (vals_insert U a p HU).
    - by rewrite <- Permutation_middle. }
  exists k1, k', T', l', r. split_and!; try done.
  - intros q x Hq Hx. rewrite (Hkeep q) by (done || by right). apply Hfo.
    assert (Hq' : q ∈ vals U ++ p :: rest) by (rewrite <- Permutation_middle; by right).
    destruct (owned_apart _ _ _ _ _ _ _ Has1 Hq') as (Hqok & _).
    destruct (owned_apart _ _ _ _ _ _ p Has1) as (Hpok & _); [apply elem_of_app; right; left|].
    assert (Hne : q <> p); [|destruct (pages_apart end_ q p Hqok Hpok Hne); lia].
    intros ->. destruct (owned_apart _ _ _ _ _ _ _ Has Hq) as (_ & _ & Hn). apply Hn. left.
  - intros x Hx. apply (Hkeep p); [left|done].
  - intros vb Hvb Hne. rewrite Hoth by done. simpl. by rewrite Hhw2, Hm1.
Qed.

(** ** Memory that grew from 0 *)

Definition full (sz : Z) (U : gmap Z Z) : Prop :=
  forall va, va mod 4096 = 0 -> 0 <= va -> is_Some (U !! va) <-> va < sz.

Lemma full_dense k d T U rest l sz : aspace k d T U rest l -> full sz U -> dense T U.
Proof.
  intros Has Hfull va p b Hp Hb. destruct (as_dom _ _ _ _ _ _ _ Has _ _ Hp) as [Hal Har].
  pose proof (Z.div_mod b 4096 ltac:(lia)) as Hd. pose proof (Z.mod_pos_bound b 4096 ltac:(lia)) as Hm.
  pose proof (Z.div_pos b 4096 ltac:(lia) ltac:(lia)) as Hb0. set (c := 4096 * (b / 4096)).
  assert (Hc : c mod 4096 = 0) by (unfold c; rewrite Z.mul_comm; apply Z_mod_mult).
  assert (Hva : va < sz) by (apply (Hfull va Hal); [lia|by exists p]).
  destruct (proj2 (Hfull c Hc ltac:(unfold c; lia)) ltac:(unfold c; lia)) as [q Hq].
  pose proof (as_user _ _ _ _ _ _ _ Has c Hc ltac:(unfold c; lia)) as Hu. rewrite Hq in Hu.
  destruct Hu as (f & _ & E). rewrite (hw_page _ d c b) in E.
  2: { unfold c. by rewrite Z.mul_comm, Z.div_mul. }
  rewrite (hw_entry _ end_kernel _ _ T) in E by apply Has. unfold entry in E.
  destruct (T !! PDX b) as [t|]; [by exists t|done].
Qed.

Lemma full_insert sz U p : sz mod 4096 = 0 -> 0 <= sz -> full sz U -> full (sz + 4096) (<[sz := p]> U).
Proof.
  intros Hal H0 Hf va Hva Hv0. pose proof (Z.div_mod va 4096). pose proof (Z.div_mod sz 4096).
  destruct (decide (va = sz)) as [->|Hne].
  - rewrite lookup_insert_eq. split; [lia|by eexists].
  - rewrite lookup_insert_ne by done. rewrite (Hf va Hva Hv0). lia.
Qed.

Lemma full_up sz U : 0 <= sz <= KERNBASE -> full sz U <-> full (PGROUNDUP sz) U.
Proof.
  intros Hr. destruct (PGROUNDUP_page sz) as [Hal Hb]; [lia..|].
  split; intros Hf va Hva Hv0; rewrite (Hf va Hva Hv0);
    pose proof (Z.div_mod va 4096); pose proof (Z.div_mod (PGROUNDUP sz) 4096); lia.
Qed.
(** ** [allocuvm] *)

Lemma as_inj k d T U rest l va vb p :
  aspace k d T U rest l -> U !! va = Some p -> U !! vb = Some p -> va = vb.
Proof.
  intros Has Ha Hb. destruct (decide (va = vb)) as [|Hne]; [done|].
  pose proof (as_nodup _ _ _ _ _ _ _ Has) as Hnd. apply NoDup_cons in Hnd as [_ Hnd].
  apply NoDup_app in Hnd as (_ & _ & Hnd). apply NoDup_app in Hnd as (Hnd & _ & _).
  rewrite (vals_delete U va p Ha) in Hnd. apply NoDup_cons in Hnd as [Hn _]. destruct Hn.
  apply elem_of_vals. exists vb. by rewrite lookup_delete_ne.
Qed.

Lemma off_range_keeps k d T U rest l lo hi m m' p x :
  aspace k d T U rest l -> off_range d T lo hi U m m' ->
  p ∈ rest \/ (exists va, U !! va = Some p /\ ~ (lo <= va < hi)) -> p <= x < p + 4096 -> m' x = m x.
Proof.
  intros Has Hoff Hp Hx.
  assert (Hin : p ∈ vals U ++ rest).
  { apply elem_of_app. destruct Hp as [Hp|(va & Hva & _)]; [by right|left]. apply elem_of_vals. by exists va. }
  destruct (owned_apart _ _ _ _ _ _ _ Has Hin) as (Hok & Hnt & _). apply Hoff.
  - intros q Hq. assert (Hqok : page_ok q) by (eapply table_page_ok; [apply Has|done]).
    destruct (pages_apart end_ q p Hqok Hok); [by intros ->|lia..].
  - intros va q Hq Hr. pose proof (as_user_page _ _ _ _ _ _ _ _ _ Has Hq) as Hqok.
    destruct (pages_apart end_ q p Hqok Hok); [|lia..]. intros ->. destruct Hp as [Hp|(vb & Hvb & Hn)].
    + destruct (as_rest_apart _ end_kernel _ _ _ _ _ _ _ Has Hp) as (_ & _ & _ & HpU). apply HpU.
      apply elem_of_vals. by exists va.
    + by rewrite (as_inj _ _ _ _ _ _ _ _ _ Has Hq Hvb) in Hr.
Qed.

Lemma outside_insert lo hi U a p : lo <= a < hi -> outside lo hi (<[a := p]> U) = outside lo hi U.
Proof. intros Ha. apply map_filter_insert_not. intros y. simpl. tauto. Qed.

(** Out of memory: what was added is freed again. *)
Lemma alloc_out fuel k d T U rest a oldsz newsz :
  aspace k d T U rest [] -> dense T U -> 0 <= oldsz -> PGROUNDUP oldsz <= a -> oldsz <= KERNBASE ->
  a < newsz -> newsz < KERNBASE ->
  exists k' l', alloc_loop end_ (S fuel) d a oldsz newsz k = Ret 0 k' /\
    aspace k' d T (outside (PGROUNDUP oldsz) newsz U) rest l' /\
    vals (outside (PGROUNDUP oldsz) newsz U) ++ l' ≡ₚ vals U /\
    off_range d T (PGROUNDUP oldsz) newsz U (memory k) (memory k') /\
    same_below d (PGROUNDUP oldsz) (memory k) (memory k').
Proof.
  intros Has Hden H0 Ha Ho Hlt Hn. cbn [alloc_loop]. rewrite (proj2 (Z.ltb_lt a newsz) Hlt). cbn [negb].
  destruct (kalloc_empty _ _ _ _ _ Has) as (k1 & Hk1 & Has1 & Hm1).
  rewrite (bind_Ret _ _ k 0 k1) by exact Hk1. cbn [Z.eqb].
  destruct (PGROUNDUP_page oldsz H0 Ho) as [_ Hb].
  destruct (deallocuvm_run _ end_kernel k1 d T U rest [] newsz oldsz Has1 Hden) as (k2 & l2 & Hk2 & Has2 & Hacct & Hoff & Hsb);
    [lia..|].
  exists k2, l2. rewrite (bind_Ret _ _ _ _ _ Hk2). split_and!; [done|done| |by rewrite <- Hm1..].
  by rewrite Hacct, app_nil_r.
Qed.

(** The pages of [U'] that are new since [U] are writable user pages of zeroes. *)
Definition zeroed (m : mem) (d : Z) (U U' : gmap Z Z) : Prop :=
  forall va q, U' !! va = Some q -> U !! va = None ->
    hw m d va = Some (v2p q + 7) /\ (forall x, q <= x < q + 4096 -> m x = 0).

(** The pages of others, and those of [U] still in [U'], are untouched. *)
Definition kept (m m' : mem) (U U' : gmap Z Z) (rest : list Z) : Prop :=
  forall q x, q <= x < q + 4096 ->
    q ∈ rest \/ (exists va, U !! va = Some q /\ U' !! va = Some q) -> m' x = m x.

(** The mappings that stay: those of the process and of the kernel. *)
Definition old_or_kernel (U : gmap Z Z) (va : Z) : Prop := is_Some (U !! va) \/ KERNBASE <= va < 2 ^ 32.

Record alloc_result (k k' : kmem) (d : Z) (T T' U U' : gmap Z Z) (rest lost l l' : list Z) : Prop := {
  ar_space : aspace k' d T' U' (lost ++ rest) l';
  ar_lost : (length lost <= 1)%nat;
  ar_acct : vals T' ++ vals U' ++ lost ++ l' ≡ₚ vals T ++ vals U ++ l;
  ar_kept : kept (memory k) (memory k') U U' rest;
  ar_hw : forall va, old_or_kernel U va -> old_or_kernel U' va -> hw (memory k') d va = hw (memory k) d va
}.

(** Success: the old mappings stay; every page up to [newsz] is mapped, unless
    the table for the very last one could not be had, when that page is lost. *)
Record alloc_ok (k k' : kmem) (d newsz : Z) (U U' : gmap Z Z) (lost l' : list Z) : Prop := {
  ao_sub : U ⊆ U';
  ao_hw : forall va, old_or_kernel U va -> hw (memory k') d va = hw (memory k) d va;
  ao_zero : zeroed (memory k') d U U';
  ao_full : lost = [] /\ full newsz U' \/
            (exists p, lost = [p]) /\ l' = [] /\ full (PGROUNDUP newsz - 4096) U'
}.

Lemma alloc_done k d T U rest l newsz :
  aspace k d T U rest l -> full newsz U ->
  alloc_result k k d T T U U rest [] l l /\ alloc_ok k k d newsz U U [] l.
Proof.
  intros Has Hf. split; [split; [done|simpl; lia|done| |done]|split; [done|done| |by left]].
  - intros q x _ _. done.
  - intros va q H1 H2. congruence.
Qed.

(** One page mapped, and then the rest. *)
Lemma alloc_step_result k k1 k' d T T1 T' U U' rest lost p l l1 l' a :
  U !! a = None -> vals T1 ++ l1 ≡ₚ vals T ++ l ->
  (forall q x, q ∈ vals U ++ rest -> q <= x < q + 4096 -> memory k1 x = memory k x) ->
  (forall va, old_or_kernel U va -> hw (memory k1) d va = hw (memory k) d va) ->
  alloc_result k1 k' d T1 T' (<[a := p]> U) U' rest lost l1 l' ->
  alloc_result k k' d T T' U U' rest lost (p :: l) l'.
Proof.
  intros HU Hacct Hsame Hhw [Hs Hlo Ha Hk Hh]. split; [done|done| | |].
  - pose proof (vals_insert U a p HU). perm.
  - intros q x Hx Hq. rewrite (Hk q x Hx), (Hsame q x); try done.
    + apply elem_of_app. destruct Hq as [Hq|(va & Hva & _)]; [by right|left]. apply elem_of_vals. by exists va.
    + destruct Hq as [Hq|(va & Hva & Hva')]; [by left|right]. exists va. split; [|done].
      rewrite lookup_insert_ne; [done|]. congruence.
  - intros va Hva Hva'. rewrite Hh, Hhw; [done|done| |done]. destruct Hva as [[q Hq]|Hva]; [left|by right]. exists q.
    rewrite lookup_insert_ne; [done|]. congruence.
Qed.

Lemma alloc_step_ok k k1 k' d newsz U U' lost rest p l' a :
  U !! a = None ->
  (forall va, old_or_kernel U va -> hw (memory k1) d va = hw (memory k) d va) ->
  hw (memory k1) d a = Some (v2p p + 7) -> (forall x, p <= x < p + 4096 -> memory k1 x = 0) ->
  kept (memory k1) (memory k') (<[a := p]> U) U' rest ->
  alloc_ok k1 k' d newsz (<[a := p]> U) U' lost l' ->
  alloc_ok k k' d newsz U U' lost l'.
Proof.
  intros HU Hhw Hhwa Hz Hk [Hsub Hh Hz' Hf].
  assert (HU' : U' !! a = Some p) by (eapply lookup_weaken; [apply lookup_insert_eq|done]).
  split; [| | |done].
  - etransitivity; [by apply insert_subseteq|done].
  - intros va Hva. rewrite Hh, Hhw; [done|done|]. destruct Hva as [[q Hq]|Hva]; [left|by right]. exists q.
    rewrite lookup_insert_ne; [done|]. congruence.
  - intros va q Hq Hn. destruct (decide (va = a)) as [->|Hne].
    + replace q with p by congruence. split.
      * rewrite Hh; [done|]. left. by rewrite lookup_insert_eq.
      * intros x Hx. rewrite (Hk p x Hx); [by apply Hz|]. right. exists a. by rewrite lookup_insert_eq.
    + apply Hz'; [done|]. by rewrite lookup_insert_ne.
Qed.

Lemma out_result k k' d T U rest rest' lost l' lo hi :
  aspace k d T U rest' [] -> rest' = lost ++ rest ->
  aspace k' d T (outside lo hi U) rest' l' -> vals (outside lo hi U) ++ l' ≡ₚ vals U ->
  off_range d T lo hi U (memory k) (memory k') -> same_below d lo (memory k) (memory k') ->
  (forall va p, U !! va = Some p -> va < hi) -> (length lost <= 1)%nat ->
  alloc_result k k' d T T U (outside lo hi U) rest lost lost l'.
Proof.
  intros Has -> Has' Hacct Hoff Hsb Hhi Hlo. split; [done|done|perm| |].
  2: { intros va [_|Hva] [[q Hq]|Hva']; apply Hsb; try (by right). left. apply map_lookup_filter_Some in Hq as [Hq Hr].
       destruct (as_dom _ _ _ _ _ _ _ Has _ _ Hq). specialize (Hhi _ _ Hq). cbn [fst] in Hr. lia. }
  intros q x Hx Hq. eapply (off_range_keeps _ _ _ _ _ _ _ _ _ _ q x Has Hoff); [|done].
  destruct Hq as [Hq|(va & Hva & Hva')]; [left; apply elem_of_app; by right|right].
  exists va. split; [done|]. apply map_lookup_filter_Some in Hva' as [_ H]. done.
Qed.
Lemma page_memset p m : page_ok p -> bytes_ok m ->
  bytes_ok (memset p 0 PGSIZE m) /\
  (forall x, memset p 0 PGSIZE m x = if decide (p <= x < p + 4096) then 0 else m x).
Proof.
  intros Hp Hb. destruct (page_ok_word end_ end_kernel p Hp) as (_ & _ & H0 & H1).
  assert (Hat : forall x, memset p 0 PGSIZE m x = if decide (p <= x < p + 4096) then 0 else m x).
  { intros x. by rewrite memset_at by (unfold PGSIZE; lia). }
  split; [|done]. intros x. rewrite Hat. case_decide; [done|apply Hb].
Qed.

Lemma aspace_bytes k d T U rest l : aspace k d T U rest l -> bytes_ok (memory k).
Proof. intros Has. apply (vs_pool _ _ _ _ _ (as_space _ _ _ _ _ _ _ Has)). Qed.

Lemma aspace_free k d T U rest p l : aspace k d T U rest (p :: l) -> page_ok p.
Proof. intros Has. eapply page_in_pool; [apply Has|left]. Qed.

(** Too few free pages for the pages from [lo] to [newsz] and their tables. *)
Definition alloc_short (T : gmap Z Z) (l : list Z) (lo newsz : Z) : Prop :=
  Z.of_nat (length l + length (vals T)) <= 1024 + (PGROUNDUP newsz - lo) / 4096.

(** A page without a table: the free list is empty, so the next page, if there
    is one, ends the growth. *)
Lemma alloc_lost fuel k k1 d T T1 U rest p l a oldsz newsz :
  aspace k1 d T1 U (p :: rest) [] -> full a U -> vals T1 ++ [] ≡ₚ vals T ++ l ->
  (forall q x, q ∈ vals U ++ rest -> q <= x < q + 4096 -> memory k1 x = memory k x) ->
  (forall va, old_or_kernel U va -> hw (memory k1) d va = hw (memory k) d va) ->
  0 <= oldsz <= newsz -> newsz < KERNBASE -> a mod 4096 = 0 -> PGROUNDUP oldsz <= a < newsz -> (0 < fuel)%nat ->
  exists k' U' l' r, alloc_loop end_ fuel d (a + 4096) oldsz newsz k1 = Ret r k' /\
    alloc_result k k' d T T1 U U' rest [p] (p :: l) l' /\
    (r = newsz /\ alloc_ok k k' d newsz U U' [p] l' \/
     r = 0 /\ U' = outside (PGROUNDUP oldsz) newsz U) /\ alloc_short T (p :: l) a newsz.
Proof.
  intros Has Hf Hacct Hsame Hhw Hsz Hkb Hal Ha Hfu. destruct fuel as [|fuel]; [lia|].
  assert (Hshort : alloc_short T (p :: l) a newsz).
  { pose proof (tables_bound _ _ _ _ (vs_vm _ _ _ _ _ (as_space _ _ _ _ _ _ _ Has))) as Hb.
    apply Permutation_length in Hacct. rewrite !length_app in Hacct. simpl in Hacct. unfold alloc_short. cbn [length].
    destruct (PGROUNDUP_page newsz) as [Hna Hnb]; [lia..|].
    assert (1 <= (PGROUNDUP newsz - a) / 4096); [|lia]. apply Z.div_le_lower_bound; [lia|].
    pose proof (Z.div_mod a 4096 ltac:(lia)). pose proof (Z.div_mod (PGROUNDUP newsz) 4096 ltac:(lia)). lia. }
  pose proof (full_dense _ _ _ _ _ _ _ Has Hf) as Hden.
  assert (Hin : forall q (U' : gmap Z Z), q ∈ rest \/ (exists va, U !! va = Some q /\ U' !! va = Some q) -> q ∈ vals U ++ rest).
  { intros q U' Hq. apply elem_of_app. destruct Hq as [Hq|(va & Hva & _)]; [by right|left].
    apply elem_of_vals. by exists va. }
  destruct (Z.ltb_spec (a + 4096) newsz) as [Hlt|Hge].
  - destruct (alloc_out fuel k1 d T1 U (p :: rest) (a + 4096) oldsz newsz Has Hden) as (k' & l' & Hk' & Has' & Hac & Hoff & Hsb);
      [lia..|].
    exists k', (outside (PGROUNDUP oldsz) newsz U), l', 0. split_and!; [done| |by right|done].
    destruct (out_result k1 k' d T1 U rest (p :: rest) [p] l' (PGROUNDUP oldsz) newsz) as [H1 _ H2 H3 H4]; try done.
    { intros va q Hq. destruct (as_dom _ _ _ _ _ _ _ Has _ _ Hq) as [Hva Hvr].
      assert (va < a) by (apply (Hf va Hva); [lia|by exists q]). lia. }
    split; [done|done|perm| |intros va Hv1 Hv2; by rewrite H4, Hhw].
    intros q x Hx Hq. rewrite (H3 q x Hx Hq). by apply (Hsame q); [eapply Hin|].
  - cbn [alloc_loop]. rewrite (proj2 (Z.ltb_ge (a + 4096) newsz)) by lia. cbn [negb].
    exists k1, U, [], newsz. split_and!; [done| |left; split; [done|]|done].
    + split; [done|done|perm| |by auto]. intros q x Hx Hq. by apply (Hsame q); [eapply Hin|].
    + split; [done|done|intros va q H1 H2; congruence|right]. split_and!; [by exists p|done|].
      destruct (PGROUNDUP_page newsz) as [Hna Hnb]; [lia..|].
      replace (PGROUNDUP newsz - 4096) with a; [done|].
      pose proof (Z.div_mod a 4096). pose proof (Z.div_mod (PGROUNDUP newsz) 4096). lia.
Qed.

Lemma alloc_loop_spec fuel k d T U rest l a oldsz newsz :
  aspace k d T U rest l -> full a U -> a mod 4096 = 0 -> 0 <= oldsz <= newsz -> newsz < KERNBASE ->
  PGROUNDUP oldsz <= a <= PGROUNDUP newsz -> newsz <= a + 4096 * (Z.of_nat fuel - 1) -> (0 < fuel)%nat ->
  exists k' T' U' lost l' r, alloc_loop end_ fuel d a oldsz newsz k = Ret r k' /\
    alloc_result k k' d T T' U U' rest lost l l' /\
    (r = newsz /\ alloc_ok k k' d newsz U U' lost l' \/
     r = 0 /\ U' = outside (PGROUNDUP oldsz) newsz U) /\
    (r = newsz /\ lost = [] \/ alloc_short T l a newsz).
Proof.
  revert k T U l a. induction fuel as [|fuel IH]; intros k T U l a Has Hf Hal Hsz Hkb Ha Hfu Hfu0; [lia|].
  destruct (PGROUNDUP_page oldsz) as [Hoa Hob]; [lia..|]. destruct (PGROUNDUP_page newsz) as [Hna Hnb]; [lia..|].
  assert (Hstep : a < newsz -> a + 4096 <= PGROUNDUP newsz).
  { intros Hlt. pose proof (Z.div_mod a 4096). pose proof (Z.div_mod (PGROUNDUP newsz) 4096). lia. }
  destruct (Z.ltb_spec a newsz) as [Hlt|Hge].
  2: { cbn [alloc_loop]. rewrite (proj2 (Z.ltb_ge a newsz)) by lia. cbn [negb].
       assert (a = PGROUNDUP newsz) as ->.
       { pose proof (Z.div_mod a 4096). pose proof (Z.div_mod (PGROUNDUP newsz) 4096). lia. }
       exists k, T, U, [], l, newsz. destruct (alloc_done k d T U rest l newsz Has) as [H1 H2].
       - by apply full_up; [lia|].
       - split_and!; [done|done|by left|by left]. }
  specialize (Hstep Hlt). pose proof (full_dense _ _ _ _ _ _ _ Has Hf) as Hden. destruct l as [|p l].
  { destruct (alloc_out fuel k d T U rest a oldsz newsz Has Hden) as (k' & l' & Hk' & Has' & Hacct & Hoff & Hsb); [lia..|].
    exists k', T, (outside (PGROUNDUP oldsz) newsz U), [], l', 0. split_and!; [done| |by right|right].
    { eapply out_result; try done; [|simpl; lia]. intros va q Hq. destruct (as_dom _ _ _ _ _ _ _ Has _ _ Hq) as [Hva Hvr].
      assert (va < a) by (apply (Hf va Hva); [lia|by exists q]). lia. }
    pose proof (tables_bound _ _ _ _ (vs_vm _ _ _ _ _ (as_space _ _ _ _ _ _ _ Has))) as Hb. unfold alloc_short. simpl.
    pose proof (Z.div_pos (PGROUNDUP newsz - a) 4096 ltac:(lia) ltac:(lia)). lia. }
  assert (HUa : U !! a = None) by (apply eq_None_not_Some; rewrite (Hf a Hal); lia).
  pose proof (aspace_bytes _ _ _ _ _ _ Has) as Hb. pose proof (aspace_free _ _ _ _ _ _ _ Has) as Hp.
  destruct (page_memset p (memory k) Hp Hb) as [Hfb Hfa].
  destruct (grow_page k d T U rest p l a (memset p 0 PGSIZE) Has Hal) as
    (k0 & k1 & T1 & l1 & r & Hk0 & Hp0 & Hm0 & Hr & [Hsub Hacct] & Hsame & Hnew & Hoth & Hres); [lia|done|done| |].
  { intros x Hx. by rewrite Hfa, decide_False. }
  assert (Hstay : forall va, old_or_kernel U va -> hw (memory k1) d va = hw (memory k) d va).
  { intros va Hva. pose proof (Z.div_mod va 4096 ltac:(lia)). pose proof (Z.mod_pos_bound va 4096 ltac:(lia)). pose proof (Z.div_mod a 4096 ltac:(lia)).
    destruct Hva as [[q Hq]|Hva]; [destruct (as_dom _ _ _ _ _ _ _ Has _ _ Hq); assert (va <> a) by congruence|];
      (apply Hoth; unfold KERNBASE in *; lia). }
  cbn [alloc_loop]. rewrite (proj2 (Z.ltb_lt a newsz) Hlt). cbn [negb].
  rewrite (bind_Ret _ _ _ _ _ Hk0), (proj2 (Z.eqb_neq p 0) Hp0). unfold mem_op. mrun.
  rewrite (bind_Ret _ _ _ _ _ Hr). rewrite u32_page by (unfold KERNBASE in *; lia).
  destruct Hres as [(-> & Has1 & Hhw)|(-> & Has1 & ->)].
  - destruct (page_index a 1 Hal) as [_ Hal1]. rewrite Z.mul_1_r in Hal1.
    destruct (IH k1 T1 (<[a := p]> U) l1 (a + 4096)) as (k' & T' & U' & lost & l' & r & Hk' & Hres & Hcase & Hsh);
      try done; try lia; [apply full_insert; try done; lia|].
    exists k', T', U', lost, l', r. split_and!; [done|by eapply alloc_step_result| |].
    2: { destruct Hsh as [?|Hsh]; [by left|right]. unfold alloc_short in *. apply Permutation_length in Hacct. rewrite !length_app in Hacct.
         replace (PGROUNDUP newsz - a) with ((PGROUNDUP newsz - (a + 4096)) + 1 * 4096) by lia. rewrite Z.div_add by lia. cbn [length]. lia. }
    destruct Hcase as [[-> Hok]|[-> ->]]; [left; split; [done|]|right; split; [done|apply outside_insert; lia]].
    eapply (alloc_step_ok k k1 k' d newsz U U' lost rest); try done; [|apply Hres].
    intros x Hx. by rewrite Hnew, Hfa, decide_True.
  - destruct (alloc_lost fuel k k1 d T T1 U rest p l a oldsz newsz) as (k' & U' & l' & r & Hk' & Hres & Hcase & Hsh); try done; try lia.
    exists k', T1, U', [p], l', r. split_and!; try done. by right.
Qed.

(** The page is there but its table is not to be had: [allocuvm] does not
    notice, and the address stays unmapped. *)
Lemma alloc_hole k d T U rest p oldsz newsz :
  aspace k d T U rest [p] -> full oldsz U -> 0 <= oldsz <= newsz -> PGROUNDUP oldsz < newsz <= PGROUNDUP oldsz + 4096 ->
  newsz < KERNBASE -> T !! PDX (PGROUNDUP oldsz) = None ->
  exists k', allocuvm end_ d oldsz newsz k = Ret newsz k' /\ hw (memory k') d (PGROUNDUP oldsz) = None /\
    exists T', aspace k' d T' U (p :: rest) [].
Proof.
  intros Has Hf H0 Hn Hkb HT. destruct (PGROUNDUP_page oldsz) as [Hal Hb]; [lia..|].
  unfold allocuvm. rewrite (proj2 (Z.leb_gt KERNBASE newsz)), (proj2 (Z.ltb_ge newsz oldsz)) by lia.
  set (a := PGROUNDUP oldsz) in *. pose proof (Z.div_pos newsz PGSIZE ltac:(lia) ltac:(unfold PGSIZE; lia)) as Hq.
  destruct (Z.to_nat (newsz / PGSIZE + 1)) as [|fuel] eqn:Ef; [lia|]. cbn [alloc_loop].
  rewrite (proj2 (Z.ltb_lt a newsz)) by lia. cbn [negb].
  assert (HUa : U !! a = None) by (apply eq_None_not_Some; rewrite (Hf a Hal); lia).
  destruct (page_memset p (memory k)) as [Hfb Hfa]; [by eapply aspace_free|by eapply aspace_bytes|].
  destruct (grow_page k d T U rest p [] a (memset p 0 PGSIZE) Has Hal) as
    (k0 & k1 & T1 & l1 & r & Hk0 & Hp0 & Hm0 & Hr & [Hsub Hacct] & _ & _ & _ & Hres); [lia|done|done| |].
  { intros x Hx. by rewrite Hfa, decide_False. }
  rewrite (bind_Ret _ _ _ _ _ Hk0), (proj2 (Z.eqb_neq p 0) Hp0). unfold mem_op. mrun.
  rewrite (bind_Ret _ _ _ _ _ Hr), u32_page by (unfold KERNBASE in *; lia).
  rewrite (proj2 (Z.ltb_ge (a + 4096) newsz)) by lia. cbn [negb]. exists k1. split; [done|].
  destruct Hres as [(_ & Has1 & Hhw)|(_ & Has1 & ->)].
  - exfalso. rewrite (hw_entry _ end_kernel _ _ T1) in Hhw by apply Has1. unfold entry in Hhw.
    destruct (T1 !! PDX a) as [t|] eqn:HT1; [|done].
    assert (Hsub' : <[PDX a := t]> T ⊆ T1) by (by apply insert_subseteq_l).
    apply map_subseteq_size in Hsub'. rewrite map_size_insert_None in Hsub' by done.
    apply Permutation_length in Hacct. rewrite !length_app in Hacct. unfold vals in Hacct.
    rewrite !length_fmap, !length_map_to_list in Hacct. simpl in Hacct. lia.
  - split; [|by exists T1]. pose proof (as_user _ _ _ _ _ _ _ Has1 a Hal ltac:(lia)) as Hu. by rewrite HUa in Hu.
Qed.

(** [allocuvm] when the sizes make sense: either the memory has grown to
    [newsz] with pages of zeroes, or it is as it was and the result is 0.  All
    pages are accounted for; at most one is lost, and neither happens when
    enough pages are free. *)
Lemma allocuvm_run k d T U rest l oldsz newsz :
  aspace k d T U rest l -> full oldsz U -> 0 <= oldsz <= newsz -> newsz < KERNBASE ->
  exists k' T' U' lost l' r, allocuvm end_ d oldsz newsz k = Ret r k' /\
    alloc_result k k' d T T' U U' rest lost l l' /\
    (r = newsz /\ alloc_ok k k' d newsz U U' lost l' \/ r = 0 /\ U' = U) /\
    (r = newsz /\ lost = [] \/ alloc_short T l (PGROUNDUP oldsz) newsz).
Proof.
  intros Has Hf Hsz Hkb. unfold allocuvm. rewrite (proj2 (Z.leb_gt KERNBASE newsz)) by lia.
  rewrite (proj2 (Z.ltb_ge newsz oldsz)) by lia. destruct (PGROUNDUP_page oldsz) as [Hal Hb]; [lia..|].
  destruct (alloc_loop_spec (S (Z.to_nat (newsz / PGSIZE + 1))) k d T U rest l (PGROUNDUP oldsz) oldsz newsz)
    as (k' & T' & U' & lost & l' & r & Hk & Hres & Hcase & Hsh); try done.
  - by apply (full_up oldsz U ltac:(lia)).
  - destruct (PGROUNDUP_page newsz) as [Hal' Hb']; [lia..|].
    pose proof (Z.div_mod (PGROUNDUP oldsz) 4096). pose proof (Z.div_mod (PGROUNDUP newsz) 4096). lia.
  - unfold PGSIZE. pose proof (Z.div_mod newsz 4096). pose proof (Z.mod_pos_bound newsz 4096).
    pose proof (Z.div_pos newsz 4096). lia.
  - lia.
  - exists k', T', U', lost, l', r. split_and!; [done|done| |done]. destruct Hcase as [Hok|[-> ->]]; [by left|right].
    split; [done|]. apply outside_none. intros va p Hp Hr.
    destruct (as_dom _ _ _ _ _ _ _ Has _ _ Hp) as [Hva Hvr].
    assert (va < oldsz) by (apply (Hf va Hva); [lia|by exists p]). lia.
Qed.
End Grow.
