(* ===== verification/VmCopy.v ===== *)
(** * A child's copy of its parent's memory, and copying out to user memory (vm.c)

    [copyuvm] makes the address space of a forked process; [uva2ka] and
    [copyout] write through a page table.  The theorems about the page tables
    that the rest of the kernel relies on are at the end. *)
From S2P Require Import Prelude Mmu Spinlock Strings Kalloc Vm VmSpec VmUser VmGrow.

Section Copy.
Context (end_ data_ : Z) (end_kernel : KERNLINK <= end_).

Abbreviation page_ok := (page_ok end_).
Abbreviation pool := (pool end_).
Abbreviation vspace := (vspace end_).
Abbreviation aspace := (aspace end_).

(** An address space does not notice changes to other pages. *)
Lemma aspace_frame k k' d T U rest rest' l l' :
  aspace k d T U rest l -> pool k' l' ->
  (forall q x, table_page d T q -> q <= x < q + 4096 -> memory k' x = memory k x) ->
  Forall page_ok rest' -> NoDup (d :: vals T ++ vals U ++ rest' ++ l') ->
  aspace k' d T U rest' l'.
Proof.
  intros [[Hvm Hp Hap] Hu Hdom Hpg Hnd] Hpool Hs Hrest Hnd'. split; [| |done| |done].
  - split; [by apply (vm_frame _ end_kernel _ _ _ _ Hvm Hs)|done|]. intros p Hp' Hin.
    apply NoDup_cons in Hnd' as [Hd Hnd']. apply NoDup_app in Hnd' as (_ & HT & _).
    destruct Hp' as [->|Ht]; [apply Hd; rewrite !elem_of_app; tauto|].
    apply (HT p); [by apply elem_of_vals|]. rewrite !elem_of_app; tauto.
  - intros va Ha Hr. rewrite (hw_frame _ end_kernel _ _ _ _ va Hvm Hs). by apply Hu.
  - apply Forall_app in Hpg as [Hpg _]. by apply Forall_app.
Qed.

Lemma page_memmove q p m : page_ok q -> page_ok p -> bytes_ok m ->
  bytes_ok (memmove q p PGSIZE m) /\
  (forall x, memmove q p PGSIZE m x = if decide (q <= x < q + 4096) then m (p + (x - q)) else m x).
Proof.
  intros Hq Hp Hb. destruct (page_ok_word end_ end_kernel p Hp) as (_ & _ & H0 & H1).
  destruct (page_ok_word end_ end_kernel q Hq) as (_ & _ & H2 & H3).
  assert (Hat : forall x, memmove q p PGSIZE m x = if decide (q <= x < q + 4096) then m (p + (x - q)) else m x).
  { intros x. rewrite memmove_at by (done || unfold PGSIZE; lia). done. }
  split; [|done]. intros x. rewrite Hat. case_decide; apply Hb.
Qed.

(** ** The pages of the child *)

(** [U] in [m] holds, at the same addresses, what [PU] held in [m0]. *)
Definition copied (m0 m : mem) (d : Z) (PU U : gmap Z Z) : Prop :=
  forall va q, U !! va = Some q ->
    hw m d va = Some (v2p q + 7) /\
    exists p, PU !! va = Some p /\ (forall o, 0 <= o < 4096 -> m (q + o) = m0 (p + o)).

Record copy_result (k0 k k' : kmem) (d : Z) (T T' U U' : gmap Z Z) (own lost l l' : list Z) : Prop := {
  cr_space : aspace k' d T' U' (lost ++ own) l';
  cr_dense : dense T' U';
  cr_acct : vals T' ++ vals U' ++ lost ++ l' ≡ₚ vals T ++ vals U ++ l;
  cr_kept : forall q x, q ∈ own -> q <= x < q + 4096 -> memory k' x = memory k0 x;
  cr_kernel : forall va, KERNBASE <= va < 2 ^ 32 -> hw (memory k') d va = hw (memory k) d va
}.

(** The parent's entry for a page, as [copyuvm] reads it. *)
Lemma parent_page k0 k pd PT PU rest l0 i p :
  aspace k0 pd PT PU rest l0 -> dense PT PU -> PU !! i = Some p ->
  (forall q x, table_page pd PT q -> q <= x < q + 4096 -> memory k x = memory k0 x) ->
  exists t, walkpgdir pd i false k = Ret (t + 4 * PTX i) k /\ t + 4 * PTX i <> 0 /\
    present (ld4 (t + 4 * PTX i) (memory k)) = true /\
    p2v (PTE_ADDR (ld4 (t + 4 * PTX i) (memory k))) = p.
Proof.
  intros Has Hden Hp Hs. destruct (as_dom _ _ _ _ _ _ _ Has _ _ Hp) as [Hal Har].
  destruct (Hden i p i Hp ltac:(lia)) as [t HT]. exists t.
  destruct (vm_frame _ end_kernel _ _ _ _ (vs_vm _ _ _ _ _ (as_space _ _ _ _ _ _ _ Has)) Hs) as [Hvm _].
  pose proof (as_user _ _ _ _ _ _ _ Has i Hal Har) as Hu. rewrite Hp in Hu.
  rewrite <- (hw_frame _ end_kernel _ _ _ _ i (vs_vm _ _ _ _ _ (as_space _ _ _ _ _ _ _ Has)) Hs) in Hu.
  rewrite (hw_entry _ end_kernel _ _ _ _ Hvm) in Hu. unfold entry in Hu. rewrite HT in Hu.
  destruct Hu as (f & Hf & E). destruct (Z.odd _) eqn:Hodd; [|done]. injection E as E.
  destruct (v_tab _ _ _ _ Hvm _ _ HT) as (_ & Htok & _). pose proof (PTX_range i) as Hx.
  destruct (page_ok_word end_ end_kernel t Htok) as (_ & Ht0 & Ht1 & _).
  destruct (page_pa _ end_kernel p (as_user_page _ _ _ _ _ _ _ _ _ Has Hp)) as (_ & Hpal & Hback & _).
  split_and!; [by apply (walk_found _ end_kernel _ _ PT)|lia|by rewrite present_odd|].
  by rewrite E, PTE_ADDR_flags, Hback.
Qed.
Section Loop.
Context (k0 : kmem) (pd : Z) (PT PU : gmap Z Z) (rest l0 own : list Z) (sz : Z).
Hypotheses (Hpar : aspace k0 pd PT PU rest l0) (Hsz : 0 <= sz < KERNBASE) (Hpf : full sz PU)
  (Hown : forall q, table_page pd PT q \/ q ∈ vals PU -> q ∈ own).

Lemma copy_stop k d T U l :
  aspace k d T U own l -> full sz U -> copied (memory k0) (memory k) d PU U ->
  (forall q x, q ∈ own -> q <= x < q + 4096 -> memory k x = memory k0 x) ->
  copy_result k0 k k d T T U U own [] l l.
Proof. intros Has Hf Hc Hs. split; try done. by eapply full_dense. Qed.

Lemma copied_insert k k1 d U i q p :
  U !! i = None -> i mod 4096 = 0 -> 0 <= i < KERNBASE -> PU !! i = Some p -> copied (memory k0) (memory k) d PU U ->
  (forall va r, U !! va = Some r -> va mod 4096 = 0 /\ 0 <= va < KERNBASE) ->
  (forall va r x, U !! va = Some r -> r <= x < r + 4096 -> memory k1 x = memory k x) ->
  (forall vb, 0 <= vb < 2 ^ 32 -> vb / 4096 <> i / 4096 -> hw (memory k1) d vb = hw (memory k) d vb) ->
  hw (memory k1) d i = Some (v2p q + 7) -> (forall o, 0 <= o < 4096 -> memory k1 (q + o) = memory k0 (p + o)) ->
  copied (memory k0) (memory k1) d PU (<[i := q]> U).
Proof.
  intros HU Hal Hi HP Hc Hdom Hs Hoth Hhw Hcp va r Hr.
  apply lookup_insert_Some in Hr as [[<- <-]|[Hne Hr]]; [split; [done|by exists p]|].
  destruct (Hdom va r Hr) as [Hva Hvr]. destruct (Hc va r Hr) as (Hh & p' & Hp' & Hcp'). split.
  - rewrite Hoth; [done|unfold KERNBASE in *; lia|].
    pose proof (Z.div_mod va 4096). pose proof (Z.div_mod i 4096). lia.
  - exists p'. split; [done|]. intros o Ho. rewrite (Hs va r) by (done || lia). by apply Hcp'.
Qed.

Lemma copied_size m0 m d U : copied m0 m d PU U -> (length (vals U) <= length (vals PU))%nat.
Proof.
  intros Hc. unfold vals. rewrite !length_fmap, <- !(length_fmap fst). apply submseteq_length.
  apply NoDup_submseteq; [apply NoDup_fst_map_to_list|]. intros va Hva.
  apply list_elem_of_fmap in Hva as ([vb q] & -> & Hq). apply elem_of_map_to_list in Hq.
  destruct (Hc vb q Hq) as (_ & p & Hp & _). apply list_elem_of_fmap. exists (vb, p).
  split; [done|]. by apply elem_of_map_to_list.
Qed.

Lemma copy_loop_spec fuel k d T U l i :
  aspace k d T U own l -> full i U -> i mod 4096 = 0 -> 0 <= i <= PGROUNDUP sz ->
  sz <= i + 4096 * (Z.of_nat fuel - 1) -> (0 < fuel)%nat ->
  (forall q x, q ∈ own -> q <= x < q + 4096 -> memory k x = memory k0 x) ->
  copied (memory k0) (memory k) d PU U ->
  exists k' T' U' lost l' ok, copy_loop fuel pd d sz i k = Ret ok k' /\
    copy_result k0 k k' d T T' U U' own lost l l' /\
    (ok = true /\ lost = [] /\ full sz U' /\ copied (memory k0) (memory k') d PU U' \/
     ok = false /\ (length lost <= 1)%nat /\ l' = [] /\ (length (vals U') <= length (vals PU))%nat).
Proof.
  revert k T U l i. induction fuel as [|fuel IH]; intros k T U l i Has Hf Hal Hi Hfu Hfu0 Hs Hc; [lia|].
  destruct (PGROUNDUP_page sz) as [Hza Hzb]; [lia..|]. cbn [copy_loop].
  destruct (Z.ltb_spec i sz) as [Hlt|Hge]; cbn [negb].
  2: { assert (i = PGROUNDUP sz) as ->.
       { pose proof (Z.div_mod i 4096). pose proof (Z.div_mod (PGROUNDUP sz) 4096). lia. }
       assert (Hfs : full sz U) by (by apply (full_up sz U ltac:(lia))).
       exists k, T, U, [], l, true. split_and!; [done|by apply copy_stop|by left]. }
  destruct (proj2 (Hpf i Hal ltac:(lia)) Hlt) as [p Hp].
  assert (Hps : forall q x, table_page pd PT q -> q <= x < q + 4096 -> memory k x = memory k0 x)
    by (intros q x Hq; apply Hs, Hown; by left).
  destruct (parent_page k0 k pd PT PU rest l0 i p Hpar) as (t & Hw & Ht0 & Hpr & Hback); try done.
  { by eapply full_dense. }
  rewrite (bind_Ret _ _ _ _ _ Hw), (proj2 (Z.eqb_neq _ 0) Ht0). unfold load. mrun. rewrite Hpr. cbn [negb].
  rewrite Hback. destruct l as [|q l].
  { destruct (kalloc_empty _ end_kernel _ _ _ _ _ Has) as (k1 & Hk1 & Has1 & Hm1).
    rewrite (bind_Ret _ _ k 0 k1) by exact Hk1. cbn [Z.eqb].
    exists k1, T, U, [], [], false. split_and!; [done| |right; simpl; split_and!; try done; [lia|by eapply copied_size]].
    split; try done; [by eapply full_dense|by rewrite Hm1..]. }
  assert (HUi : U !! i = None) by (apply eq_None_not_Some; rewrite (Hf i Hal); lia).
  pose proof (as_user_page _ _ _ _ _ _ _ _ _ Hpar Hp) as Hpok.
  assert (Hpo : p ∈ own) by (apply Hown; right; apply elem_of_vals; by exists i).
  destruct (page_memmove q p (memory k)) as [Hfb Hfa];
    [by eapply aspace_free|done|by eapply aspace_bytes|].
  destruct (grow_page _ end_kernel k d T U own q l i (memmove q p PGSIZE) Has Hal) as
    (k1 & k2 & T2 & l2 & r & Hk1 & Hq0 & Hm1 & Hr & [_ Hacct] & Hsame & Hnew & Hoth & Hres); [lia|done|done| |].
  { intros x Hx. by rewrite Hfa, decide_False. }
  rewrite (bind_Ret _ _ _ _ _ Hk1), (proj2 (Z.eqb_neq q 0) Hq0). unfold mem_op. mrun.
  rewrite (bind_Ret _ _ _ _ _ Hr).
  assert (Hs2 : forall q x, q ∈ own -> q <= x < q + 4096 -> memory k2 x = memory k0 x).
  { intros q' x Hq' Hx. rewrite (Hsame q' x); [by apply (Hs q')| |done]. apply elem_of_app. by right. }
  assert (Hkern : forall va, KERNBASE <= va < 2 ^ 32 -> hw (memory k2) d va = hw (memory k) d va).
  { intros va Hva. unfold KERNBASE in *. apply Hoth; [lia|]. pose proof (Z.div_mod va 4096).
    pose proof (Z.div_mod i 4096). pose proof (Z.mod_pos_bound va 4096). lia. }
  destruct Hres as [(-> & Has2 & Hhw)|(-> & Has2 & ->)].
  2: { cbn [Z.ltb Z.compare]. exists k2, T2, U, [q], [], false.
       split_and!; [done| |right; simpl; split_and!; try done; by eapply copied_size].
       split; try done; [by eapply full_dense|perm]. }
  cbn [Z.ltb Z.compare]. rewrite u32_page by (unfold KERNBASE in *; lia).
  destruct (page_index i 1 Hal) as [_ Hal1]. rewrite Z.mul_1_r in Hal1.
  destruct (IH k2 T2 (<[i := q]> U) l2 (i + 4096)) as (k' & T' & U' & lost & l' & ok & Hk' & Hres & Hcase); try done.
  - apply full_insert; try done; lia.
  - pose proof (Z.div_mod i 4096). pose proof (Z.div_mod (PGROUNDUP sz) 4096). lia.
  - lia.
  - lia.
  - eapply (copied_insert k); try done; [lia|by apply Has| |].
    + intros va r x Hva. apply Hsame. apply elem_of_app. left. apply elem_of_vals. by exists va.
    + intros o Ho. rewrite Hnew, Hfa, decide_True by lia. replace (p + (q + o - q)) with (p + o) by lia.
      apply (Hs p); [done|lia].
  - exists k', T', U', lost, l', ok. split_and!; [done| |done]. destruct Hres as [H1 H2 H3 H4 H5].
    split; try done.
    + pose proof (vals_insert U i q HUi). perm.
    + intros va Hva. by rewrite H5, Hkern.
Qed.
End Loop.
(** ** [copyuvm] *)

(** The directory, the tables and the user pages of the parent and the pages
    of others hold what they held, and the parent's addresses are mapped as
    they were. *)
Record untouched (k k' : kmem) (pd : Z) (PT PU : gmap Z Z) (rest : list Z) : Prop := {
  un_bytes : forall q x, q ∈ pd :: vals PT ++ vals PU ++ rest -> q <= x < q + 4096 -> memory k' x = memory k x;
  un_hw : forall va, hw (memory k') pd va = hw (memory k) pd va
}.

Lemma untouched_pages k k' pd PT PU rest l :
  aspace k pd PT PU rest l ->
  (forall q x, q ∈ pd :: vals PT ++ vals PU ++ rest -> q <= x < q + 4096 -> memory k' x = memory k x) ->
  untouched k k' pd PT PU rest.
Proof.
  intros Has Hs. split; [done|]. intros va.
  apply (hw_frame _ end_kernel _ _ _ PT va (vs_vm _ _ _ _ _ (as_space _ _ _ _ _ _ _ Has))).
  intros q x Hq. apply Hs. destruct Hq as [->|Hq]; [left|right]. apply elem_of_app. left. by apply elem_of_vals.
Qed.

(** What a child made by [copyuvm] looks like beside its parent. *)
Record child (k k' : kmem) (pd : Z) (PT PU : gmap Z Z) (rest l : list Z) (sz d : Z)
    (T U : gmap Z Z) (l' : list Z) : Prop := {
  ch_space : aspace k' d T U (pd :: vals PT ++ vals PU ++ rest) l';
  ch_parent : aspace k' pd PT PU (d :: vals T ++ vals U ++ rest) l';
  ch_untouched : untouched k k' pd PT PU rest;
  ch_acct : d :: vals T ++ vals U ++ l' ≡ₚ l;
  ch_full : full sz U;
  ch_copied : copied (memory k) (memory k') d PU U;
  ch_kernel : exists m, kernel_mapped data_ m d /\
    (forall va, KERNBASE <= va < 2 ^ 32 -> hw (memory k') d va = hw m d va)
}.

Hypotheses (data_page : data_ mod 4096 = 0) (data_range : KERNLINK < data_ < KERNBASE + PHYSTOP).

(** The page table of [setupkvm] beside the pages of the parent. *)
Lemma child_start k pd PT PU rest l k1 d T l1 :
  aspace k pd PT PU rest l -> vspace k1 d T l1 -> d :: vals T ++ l1 ≡ₚ l -> kernel_mapped data_ (memory k1) d ->
  aspace k1 d T ∅ (pd :: vals PT ++ vals PU ++ rest) l1.
Proof.
  intros Has Hvs Hacct Hk. pose proof (as_nodup _ _ _ _ _ _ _ Has) as Hnd.
  pose proof (vs_vm _ _ _ _ _ (as_space _ _ _ _ _ _ _ Has)) as Hvm. split; [done| |done| |].
  - intros va _ Hva. rewrite lookup_empty. by apply (km_user _ _ _ Hk).
  - change (vals ∅) with (@nil Z). simpl. constructor; [apply Hvm|]. apply Forall_app. split; [|apply Has].
    apply Forall_forall. intros t Ht. apply elem_of_vals in Ht as (i & Hi).
    by destruct (v_tab _ _ _ _ Hvm _ _ Hi) as (_ & ? & _).
  - change (vals ∅) with (@nil Z). simpl. revert Hnd. apply NoDup_Permutation_proper. perm.
Qed.

(** Making tables does not touch the pages of others. *)
Lemma start_keeps k1 d T U own l1 (m : mem) :
  aspace k1 d T U own l1 -> (forall x, (forall p, table_page d T p -> ~ (p <= x < p + 4096)) -> memory k1 x = m x) ->
  forall q x, q ∈ own -> q <= x < q + 4096 -> memory k1 x = m x.
Proof.
  intros Has Hsame q x Hq Hx. apply Hsame. intros t Ht.
  destruct (owned_apart _ end_kernel _ _ _ _ _ _ q Has) as (Hqok & Hqt & _); [by apply elem_of_app; right|].
  assert (Htok : page_ok t) by (eapply table_page_ok; [apply Has|done]).
  destruct (pages_apart end_ t q Htok Hqok); [by intros ->|lia..].
Qed.

(** A parent whose pages were not touched, when the child's are gone. *)
Lemma parent_left k k' pd PT PU rest lost l l' :
  aspace k pd PT PU rest l -> pool k' l' -> lost ++ l' ≡ₚ l ->
  (forall q x, table_page pd PT q -> q <= x < q + 4096 -> memory k' x = memory k x) ->
  aspace k' pd PT PU (lost ++ rest) l'.
Proof.
  intros Has Hp Hl Hs. apply (aspace_frame k k' pd PT PU rest _ l l' Has Hp Hs).
  - apply Forall_app. split; [|by apply (proj1 (Forall_app _ _ _) (as_pages _ _ _ _ _ _ _ Has))].
    apply Forall_forall. intros q Hq. eapply page_in_pool; [apply Has|]. rewrite <- Hl. apply elem_of_app. by left.
  - pose proof (as_nodup _ _ _ _ _ _ _ Has) as Hnd. revert Hnd. apply NoDup_Permutation_proper. perm.
Qed.

Lemma parent_apart k pd PT PU rest l q p x :
  aspace k pd PT PU rest l -> q ∈ pd :: vals PT ++ vals PU ++ rest -> p ∈ l -> q <= x < q + 4096 -> ~ (p <= x < p + 4096).
Proof.
  intros Has Hq Hp Hx.
  assert (Hqo : page_ok q /\ q ∉ l).
  { rewrite elem_of_cons, elem_of_app in Hq.
    assert (Ht : table_page pd PT q -> page_ok q /\ q ∉ l).
    { intros Ht. split; [eapply table_page_ok; [apply Has|done]|]. by apply (vs_apart _ _ _ _ _ (as_space _ _ _ _ _ _ _ Has)). }
    destruct Hq as [->|[Hq|Hq]]; [by apply Ht; left|by apply Ht; right; apply elem_of_vals|].
    by destruct (owned_apart _ end_kernel _ _ _ _ _ _ q Has Hq) as (? & _ & ?). }
  destruct Hqo as [Hqok Hql]. assert (Hpok : page_ok p) by (eapply page_in_pool; [apply Has|done]).
  destruct (pages_apart end_ p q Hpok Hqok); [|lia..]. by intros ->.
Qed.

Lemma copyuvm_run k pd PT PU rest l sz :
  aspace k pd PT PU rest l -> full sz PU -> 0 <= sz < KERNBASE ->
  exists r k', copyuvm end_ data_ pd sz k = Ret r k' /\
    ((exists T U l', child k k' pd PT PU rest l sz r T U l') \/
     r = 0 /\ (length l <= 1026 + length (vals PU))%nat /\
       untouched k k' pd PT PU rest /\
       exists lost l', aspace k' pd PT PU (lost ++ rest) l' /\ lost ++ l' ≡ₚ l).
Proof.
  intros Has Hpf Hsz. unfold copyuvm.
  destruct (setupkvm_run end_ data_ end_kernel data_page data_range k l) as
    [(k1 & Hk1 & Hp1 & Hlen & Hs1)|(k1 & d & T & l1 & Hk1 & Hvs & Hacct & Hkm & Hsame)]; [apply Has| |].
  { assert (Hsame : forall q x, q ∈ pd :: vals PT ++ vals PU ++ rest -> q <= x < q + 4096 -> memory k1 x = memory k x).
    { intros q x Hq Hx. apply Hs1. intros p Hp. eapply parent_apart; try done. }
    exists 0, k1. rewrite (bind_Ret _ _ k 0 k1) by exact Hk1. split; [done|right].
    split_and!; [done|lia|by eapply untouched_pages|].
    exists l, []. split; [|by rewrite app_nil_r]. apply (parent_left k k1 pd PT PU rest l l []); [done|done|by rewrite app_nil_r|].
    intros q x Hq. apply Hsame. destruct Hq as [->|Hq]; [left|right]. apply elem_of_app. left. by apply elem_of_vals. }
  destruct (page_ok_word end_ end_kernel d (v_dir _ _ _ _ (vs_vm _ _ _ _ _ Hvs))) as (_ & Hd0 & _).
  rewrite (bind_Ret _ _ k d k1) by exact Hk1. rewrite (proj2 (Z.eqb_neq d 0)) by done.
  pose proof (child_start _ _ _ _ _ _ _ _ _ _ Has Hvs Hacct Hkm) as Hch.
  set (own := pd :: vals PT ++ vals PU ++ rest) in *.
  assert (Hown : forall q, table_page pd PT q \/ q ∈ vals PU -> q ∈ own).
  { intros q [[->|Hq]|Hq]; [left|right|right]; rewrite !elem_of_app, ?elem_of_vals; [by left|].
    right. left. by apply elem_of_vals. }
  pose proof (start_keeps _ _ _ _ _ _ _ Hch Hsame) as Hs1.
  destruct (copy_loop_spec k pd PT PU rest l own sz Has Hsz Hpf Hown (S (Z.to_nat (sz / PGSIZE + 1))) k1 d T ∅ l1 0)
    as (k2 & T2 & U2 & lost & l2 & ok & Hk2 & [Hsp Hden Hac Hkept Hkern] & Hcase); try done.
  { intros va Hva Hv0. rewrite lookup_empty. split; [by intros [? ?]|lia]. }
  { destruct (PGROUNDUP_page sz); lia. }
  { unfold PGSIZE. pose proof (Z.div_mod sz 4096). pose proof (Z.mod_pos_bound sz 4096).
    pose proof (Z.div_pos sz 4096). lia. }
  { lia. }
  rewrite (bind_Ret _ _ _ _ _ Hk2). change (vals ∅) with (@nil Z) in Hac. simpl in Hac.
  destruct Hcase as [(-> & -> & Hf2 & Hc2)|(-> & Hlost & -> & HUsz)].
  - exists d, k2. split; [done|left]. exists T2, U2, l2. split; try done.
    + apply (aspace_frame k k2 pd PT PU rest _ l l2 Has); [apply Hsp| | |].
      * intros q x Hq Hx. apply (Hkept q); [|done]. apply Hown. by left.
      * constructor; [apply Hvs|]. apply Forall_app. split; [|apply Forall_app; split].
        -- apply Forall_forall. intros t Ht. apply elem_of_vals in Ht as (i & Hi).
           by destruct (v_tab _ _ _ _ (vs_vm _ _ _ _ _ (as_space _ _ _ _ _ _ _ Hsp)) _ _ Hi) as (_ & ? & _).
        -- by apply (proj1 (Forall_app _ _ _) (as_pages _ _ _ _ _ _ _ Hsp)).
        -- by apply (proj1 (Forall_app _ _ _) (as_pages _ _ _ _ _ _ _ Has)).
      * pose proof (as_nodup _ _ _ _ _ _ _ Has) as Hnd. revert Hnd. apply NoDup_Permutation_proper. perm.
    + by eapply untouched_pages.
    + perm.
    + by exists (memory k1).
  - destruct (freevm_run end_ end_kernel k2 d T2 U2 _ [] Hsp Hden) as (k3 & l3 & Hk3 & Hp3 & Hl3 & Hs3).
    exists 0, k3. rewrite (bind_Ret _ _ _ _ _ Hk3). split; [done|right].
    assert (Hk30 : forall q x, q ∈ own -> q <= x < q + 4096 -> memory k3 x = memory k x).
    { intros q x Hq Hx. rewrite (Hs3 q x), (Hkept q x); try done. apply elem_of_app. by right. }
    split_and!; [done| |by eapply untouched_pages|].
    { pose proof (tables_bound _ _ _ _ (vs_vm _ _ _ _ _ (as_space _ _ _ _ _ _ _ Hsp))) as Hb.
      apply Permutation_length in Hac, Hacct. rewrite !length_app in *. simpl in *. rewrite length_app in *. lia. }
    assert (Hall : lost ++ l3 ≡ₚ l) by perm. exists lost, l3. split; [|done].
    eapply parent_left; try done. intros q x Hq. apply Hk30, Hown. by left.
Qed.
(** ** [copyout] *)

(** Where a user address is in memory. *)
Definition tr (U : gmap Z Z) (va : Z) : option Z :=
  match U !! PGROUNDDOWN va with Some p => Some (p + va mod 4096) | None => None end.

(** The page of [va] is there and open to user code. *)
Definition user_ok (m : mem) (d : Z) (U : gmap Z Z) (va : Z) : Prop :=
  exists p f, U !! PGROUNDDOWN va = Some p /\ 0 <= f < 4096 /\
    hw m d va = Some (v2p p + f) /\ Z.land f PTE_U <> 0.

Lemma land_low x b : 0 <= b < 4096 -> Z.land x b = Z.land (x mod 4096) b.
Proof.
  intros Hb. change 4096 with (2 ^ 12). rewrite <- Z.land_ones, <- Z.land_assoc by lia. f_equal.
  rewrite Z.land_comm, Z.land_ones by lia. symmetry. apply Z.mod_small. lia.
Qed.

Lemma land_flags pa f b : pa mod 4096 = 0 -> 0 <= f < 4096 -> 0 <= b < 4096 -> Z.land (pa + f) b = Z.land f b.
Proof.
  intros Hp Hf Hb. rewrite land_low by done. rewrite <- Z.add_mod_idemp_l, Hp by lia.
  by rewrite Z.mod_small by lia.
Qed.

Lemma uva2ka_run k d T U rest l va :
  aspace k d T U rest l -> user_ok (memory k) d U va ->
  exists p, U !! PGROUNDDOWN va = Some p /\ uva2ka d (PGROUNDDOWN va) k = Ret p k.
Proof.
  intros Has (p & f & Hp & Hf & Hhw & Hu). exists p. split; [done|].
  pose proof (vs_vm _ _ _ _ _ (as_space _ _ _ _ _ _ _ Has)) as Hvm.
  rewrite (hw_page _ d va (PGROUNDDOWN va)) in Hhw.
  2: { rewrite PGROUNDDOWN_eq. pose proof (Z.div_mod va 4096 ltac:(lia)) as E.
       replace (va - va mod 4096) with (va / 4096 * 4096) by lia. by rewrite Z.div_mul. }
  pose proof Hhw as Hodd. rewrite (hw_entry _ end_kernel _ _ _ _ Hvm) in Hodd. unfold entry in Hodd.
  destruct (T !! PDX (PGROUNDDOWN va)) as [t|] eqn:HT; [|done].
  destruct (Z.odd _) eqn:Ho; [|done]. injection Hodd as E.
  destruct (v_tab _ _ _ _ Hvm _ _ HT) as (_ & Htok & _). pose proof (PTX_range (PGROUNDDOWN va)) as Hx.
  destruct (page_ok_word end_ end_kernel t Htok) as (_ & Ht0 & Ht1 & _).
  destruct (page_pa _ end_kernel p (as_user_page _ _ _ _ _ _ _ _ _ Has Hp)) as (_ & Hpal & Hback & _).
  unfold uva2ka. rewrite (bind_Ret _ _ _ _ _ (walk_found _ end_kernel k d T _ t false Hvm HT)).
  rewrite (proj2 (Z.eqb_neq _ 0)) by lia. unfold load. mrun. rewrite E in *.
  assert (HP : Z.land (v2p p + f) PTE_P =? 0 = false).
  { pose proof (present_odd (v2p p + f)) as H. rewrite Ho in H. unfold present in H.
    by destruct (_ =? 0). }
  rewrite HP, land_flags by (done || unfold PTE_U; lia). rewrite (proj2 (Z.eqb_neq _ 0) Hu).
  by rewrite PTE_ADDR_flags, Hback.
Qed.

(** The bytes [buf] have gone to the addresses from [va] on, and nothing to
    anywhere else. *)
Definition written (U : gmap Z Z) (va : Z) (buf : list Z) (m m' : mem) : Prop :=
  (forall j b x, buf !! j = Some b -> tr U (va + Z.of_nat j) = Some x -> m' x = b) /\
  (forall x, (forall j, (j < length buf)%nat -> tr U (va + Z.of_nat j) <> Some x) -> m' x = m x).

Lemma tr_same_page U va p j :
  U !! PGROUNDDOWN va = Some p -> 0 <= j < 4096 - va mod 4096 -> tr U (va + j) = Some (p + va mod 4096 + j).
Proof.
  intros Hp Hj. pose proof (Z.mod_pos_bound va 4096 ltac:(lia)) as Hm.
  assert (E : (va + j) mod 4096 = va mod 4096 + j).
  { pose proof (Z.div_mod va 4096 ltac:(lia)). symmetry. apply Z.mod_unique with (va / 4096); lia. }
  unfold tr. rewrite PGROUNDDOWN_eq in *. rewrite E. replace (va + j - (va mod 4096 + j)) with (va - va mod 4096) by lia.
  rewrite Hp. f_equal. lia.
Qed.

Lemma tr_page k d T U rest l va x :
  aspace k d T U rest l -> tr U va = Some x ->
  exists p, U !! PGROUNDDOWN va = Some p /\ page_ok p /\ p <= x < p + 4096.
Proof.
  intros Has. unfold tr. destruct (U !! _) as [p|] eqn:Hp; [|done]. intros [= <-]. exists p.
  pose proof (Z.mod_pos_bound va 4096 ltac:(lia)). split_and!; [done|by eapply as_user_page|lia..].
Qed.

Lemma tr_inj k d T U rest l va vb x :
  aspace k d T U rest l -> tr U va = Some x -> tr U vb = Some x -> va = vb.
Proof.
  intros Has Ha Hb. pose proof Ha as Ha'. pose proof Hb as Hb'.
  destruct (tr_page _ _ _ _ _ _ _ _ Has Ha) as (p & Hp & Hpok & Hpx).
  destruct (tr_page _ _ _ _ _ _ _ _ Has Hb) as (q & Hq & Hqok & Hqx).
  assert (p = q) as ->.
  { destruct (decide (p = q)) as [|Hne]; [done|]. destruct (pages_apart end_ p q Hpok Hqok Hne); lia. }
  pose proof (as_inj _ _ _ _ _ _ _ _ _ _ Has Hp Hq) as E. rewrite !PGROUNDDOWN_eq in E.
  unfold tr in Ha', Hb'. rewrite Hp in Ha'. rewrite Hq in Hb'. injection Ha' as Ha'. injection Hb' as Hb'.
  pose proof (Z.div_mod va 4096). pose proof (Z.div_mod vb 4096). lia.
Qed.

Lemma written_app k d T U rest l va b1 b2 m1 m2 :
  aspace k d T U rest l -> written U va b1 (memory k) m1 -> written U (va + Z.of_nat (length b1)) b2 m1 m2 ->
  written U va (b1 ++ b2) (memory k) m2.
Proof.
  intros Has [W1 F1] [W2 F2]. split.
  - intros j b x Hj Hx. apply lookup_app_Some in Hj as [Hj|[Hge Hj]].
    + rewrite F2; [by eapply W1|]. intros j' Hj' Hx'. apply lookup_lt_Some in Hj.
      pose proof (tr_inj _ _ _ _ _ _ _ _ _ Has Hx Hx'). lia.
    + apply (W2 (j - length b1)%nat); [done|]. rewrite <- Hx. f_equal. lia.
  - intros x Hx. rewrite length_app in Hx. rewrite F2, F1; [done| |].
    + intros j Hj. apply Hx. lia.
    + intros j Hj. replace (va + Z.of_nat (length b1) + Z.of_nat j) with (va + Z.of_nat (length b1 + j)) by lia. apply Hx. lia.
Qed.

Lemma poke_at a buf m x : poke a buf m x = if decide (a <= x < a + Z.of_nat (length buf)) then default 0 (buf !! Z.to_nat (x - a)) else m x.
Proof.
  unfold poke. destruct (decide (a <= x)) as [Ha|Ha], (decide (a <= x < a + Z.of_nat (length buf))) as [Hb|Hb]; try done; try lia.
  - destruct (lookup_lt_is_Some_2 buf (Z.to_nat (x - a)) ltac:(lia)) as [b ->]. done.
  - by rewrite lookup_ge_None_2 by lia.
Qed.

Lemma poke_bytes a buf m : Forall (fun b => 0 <= b < 256) buf -> bytes_ok m -> bytes_ok (poke a buf m).
Proof.
  intros Hb Hm x. unfold poke. destruct (decide (a <= x)); [|apply Hm]. destruct (buf !! Z.to_nat (x - a)) as [b|] eqn:E; [|apply Hm].
  rewrite Forall_lookup in Hb. by eapply Hb.
Qed.

Lemma written_page U va p buf m :
  U !! PGROUNDDOWN va = Some p -> Z.of_nat (length buf) <= 4096 - va mod 4096 ->
  written U va buf m (poke (p + va mod 4096) buf m) /\
  (forall x, ~ (p <= x < p + 4096) -> poke (p + va mod 4096) buf m x = m x).
Proof.
  intros Hp Hn. pose proof (Z.mod_pos_bound va 4096 ltac:(lia)) as Hm. split; [split|].
  - intros j b x Hj Hx. pose proof (lookup_lt_Some _ _ _ Hj). rewrite (tr_same_page U va p (Z.of_nat j) Hp ltac:(lia)) in Hx. injection Hx as <-.
    rewrite poke_at, decide_True by lia. replace (Z.to_nat _) with j by lia. by rewrite Hj.
  - intros x Hx. rewrite poke_at. case_decide as E; [|done]. destruct (Hx (Z.to_nat (x - (p + va mod 4096)))); [lia|].
    rewrite (tr_same_page U va p _ Hp) by lia. f_equal. lia.
  - intros x Hx. rewrite poke_at, decide_False by lia. done.
Qed.

(** Writing into a user page. *)
Lemma poke_user k d T U rest l va p buf :
  aspace k d T U rest l -> U !! PGROUNDDOWN va = Some p -> Z.of_nat (length buf) <= 4096 - va mod 4096 ->
  Forall (fun b => 0 <= b < 256) buf ->
  let k' := set_memory (poke (p + va mod 4096) buf (memory k)) k in
  aspace k' d T U rest l /\ written U va buf (memory k) (memory k') /\ (forall vb, hw (memory k') d vb = hw (memory k) d vb) /\
  (forall x, ~ (p <= x < p + 4096) -> memory k' x = memory k x).
Proof.
  intros Has Hp Hn Hb k'. destruct (written_page U va p buf (memory k) Hp Hn) as [W Wo].
  destruct (write_owned _ end_kernel k d T U p rest l (poke (p + va mod 4096) buf (memory k)) Has) as [Has1 Hhw1]; [| |exact Wo|].
  { apply elem_of_app. left. apply elem_of_vals. by eexists. }
  { apply poke_bytes; [done|by eapply aspace_bytes]. }
  done.
Qed.

Lemma copyout_loop_spec fuel k d T U rest l va buf :
  aspace k d T U rest l -> 0 <= va -> va + Z.of_nat (length buf) <= KERNBASE -> Forall (fun b => 0 <= b < 256) buf ->
  (forall j, 0 <= j < Z.of_nat (length buf) -> user_ok (memory k) d U (va + j)) ->
  (0 < fuel)%nat -> (0 < Z.of_nat (length buf) -> Z.of_nat (length buf) <= 4096 * (Z.of_nat fuel - 1) - va mod 4096) ->
  exists k', copyout_loop fuel d va buf k = Ret 0 k' /\ aspace k' d T U rest l /\
    written U va buf (memory k) (memory k') /\ (forall vb, hw (memory k') d vb = hw (memory k) d vb).
Proof.
  revert k va buf. induction fuel as [|fuel IH]; intros k va buf Has Hva Hv Hb Hok Hf0 Hf; [lia|].
  cbn [copyout_loop]. cbv zeta. destruct (Z.ltb_spec 0 (Z.of_nat (length buf))) as [Hpos|Hz]; cbn [negb].
  2: { exists k. split_and!; [done|done| |done]. split; [|done]. intros j b x Hj. apply lookup_lt_Some in Hj. lia. }
  destruct (uva2ka_run k d T U rest l va Has) as (p & Hp & Hu).
  { specialize (Hok 0 ltac:(lia)). by rewrite Z.add_0_r in Hok. }
  rewrite (bind_Ret _ _ _ _ _ Hu). pose proof (as_user_page _ _ _ _ _ _ _ _ _ Has Hp) as Hpok.
  destruct (page_ok_word end_ end_kernel p Hpok) as (_ & Hp0 & Hp1 & Hp2).
  rewrite (proj2 (Z.eqb_neq p 0) Hp0). pose proof (Z.mod_pos_bound va 4096 ltac:(lia)) as Hm.
  assert (Ho : va - PGROUNDDOWN va = va mod 4096) by (rewrite PGROUNDDOWN_eq; lia). rewrite Ho.
  rewrite (u32_small (p + va mod 4096)) by lia. unfold PGSIZE.
  set (n := Z.to_nat (if Z.of_nat (length buf) <? 4096 - va mod 4096 then Z.of_nat (length buf) else 4096 - va mod 4096)).
  assert (Hn : 0 < Z.of_nat n <= 4096 - va mod 4096 /\ (n <= length buf)%nat /\ ((n < length buf)%nat -> Z.of_nat n = 4096 - va mod 4096))
    by (unfold n; destruct (Z.ltb_spec (Z.of_nat (length buf)) (4096 - va mod 4096)); lia).
  unfold KERNBASE in Hv. assert (Htl : length (take n buf) = n) by (rewrite length_take; lia).
  destruct (poke_user k d T U rest l va p (take n buf) Has Hp) as (Has1 & W & Hhw1 & _); [lia|by apply Forall_take|].
  unfold mem_op. mrun. set (k1 := set_memory _ k) in *.
  destruct (decide (n < length buf)%nat) as [Hlt|Hge].
  - assert (Hnext : PGROUNDDOWN va + 4096 = va + Z.of_nat n) by (rewrite PGROUNDDOWN_eq; lia).
    rewrite Hnext, (u32_small (va + Z.of_nat n)) by lia.
    assert (Hal : (va + Z.of_nat n) mod 4096 = 0).
    { rewrite <- Hnext, PGROUNDDOWN_eq. destruct (page_index (va - va mod 4096) 1) as [_ E]; [apply page_mod|].
      by rewrite Z.mul_1_r in E. }
    assert (Hdl : length (drop n buf) = (length buf - n)%nat) by apply length_drop.
    destruct (IH k1 (va + Z.of_nat n) (drop n buf) Has1) as (k' & Hk' & Has' & Hw' & Hhw'); try lia.
    + unfold KERNBASE; lia.
    + by apply Forall_drop.
    + intros j Hj. destruct (Hok (Z.of_nat n + j) ltac:(lia)) as (q & f & H1 & H2 & H3 & H4).
      rewrite Z.add_assoc in *. exists q, f. split_and!; try done; try lia. by rewrite Hhw1.
    + exists k'. split_and!; [done|done| |intros vb; by rewrite Hhw'].
      rewrite <- (take_drop n buf). eapply written_app; [exact Has|exact W|]. by rewrite Htl.
  - assert (n = length buf) as Hnl by lia. rewrite drop_ge by lia. rewrite take_ge in W by lia.
    exists k1. destruct fuel as [|fuel]; [lia|]. split_and!; [reflexivity|done|done|done].
Qed.

Lemma copyout_run k d T U rest l va buf :
  aspace k d T U rest l -> 0 <= va -> va + Z.of_nat (length buf) <= KERNBASE -> Forall (fun b => 0 <= b < 256) buf ->
  (forall j, 0 <= j < Z.of_nat (length buf) -> user_ok (memory k) d U (va + j)) ->
  exists k', copyout d va buf k = Ret 0 k' /\ aspace k' d T U rest l /\
    written U va buf (memory k) (memory k') /\ (forall vb, hw (memory k') d vb = hw (memory k) d vb).
Proof.
  intros Has Hva Hv Hb Hok. unfold copyout. apply copyout_loop_spec; try done; try lia.
  intros _. unfold PGSIZE. set (len := Z.of_nat (length buf)). pose proof (Z.div_mod len 4096). pose proof (Z.mod_pos_bound len 4096).
  pose proof (Z.div_pos len 4096). pose proof (Z.mod_pos_bound va 4096). lia.
Qed.
End Copy.
