(* ===== verification/AddrSpace.v ===== *)
(** * What vm.c guarantees

    The theorems about address spaces that the rest of the kernel relies on,
    with the memory of a machine they are shown to apply to. *)
From S2P Require Import Prelude Mmu Spinlock Strings Kalloc Vm VmSpec VmUser VmGrow VmCopy.

Lemma Ret_inj {S A} (a b : A) (s t : S) : Ret a s = Ret b t -> a = b /\ s = t.
Proof. by intros [= -> ->]. Qed.

(** ** A machine with 4000 free pages and a process of one page *)

Lemma end_demo_kernel : KERNLINK <= end_demo.
Proof. vm_compute. discriminate. Qed.

Definition pages_demo : list Z := reverse ((fun i => 0x80113000 + 4096 * i) <$> seqZ 0 4000).

Lemma pool_demo : exists k, pool end_demo k pages_demo.
Proof.
  destruct (free_pages_run end_demo end_demo_kernel 4001 kmem0 [] 0x80113000 (0x80113000 + 4096 * 4000) 4000)
    as (k & _ & Hp & _).
  - apply kmem0_pool.
  - done.
  - vm_compute. discriminate.
  - vm_compute. discriminate.
  - vm_compute. done.
  - lia.
  - lia.
  - intros q Hq. by apply elem_of_nil in Hq.
  - exists k. by rewrite app_nil_r in Hp.
Qed.

Lemma space_demo : exists k d T U l,
  aspace end_demo k d T U [] l /\ full 4096 U /\ (2000 + length (vals U) < length l)%nat /\
  user_ok (memory k) d U 0.
Proof.
  destruct pool_demo as (k0 & Hp0). assert (Hlen : length pages_demo = 4000%nat).
  { unfold pages_demo. rewrite length_reverse, length_fmap, length_seqZ. lia. }
  destruct pages_demo as [|d l] eqn:El; [done|].
  destruct (kalloc_run end_demo end_demo_kernel k0 (d :: l) Hp0) as (k1 & _ & Hp1 & _).
  assert (Hnd := p_nodup _ _ _ Hp0). pose proof Hnd as Hnd'. apply NoDup_cons in Hnd' as [Hd _].
  assert (Hdok : page_ok end_demo d) by (eapply page_in_pool; [exact Hp0|left]).
  destruct (empty_directory end_demo end_demo_kernel k1 d l Hp1 Hdok Hd) as (Hvs & Hno & _).
  set (k2 := set_memory _ k1) in *.
  assert (Has : aspace end_demo k2 d ∅ ∅ [] l) by (split; [done|intros; apply Hno|done|constructor|done]).
  destruct l as [|p l]; [done|].
  destruct (page_memset end_demo end_demo_kernel p (memory k2)) as [Hfb Hfa];
    [by eapply aspace_free|by eapply aspace_bytes|].
  destruct (grow_page end_demo end_demo_kernel k2 d ∅ ∅ [] p l 0 (memset p 0 PGSIZE) Has) as
    (k3 & k4 & T & l' & r & _ & _ & _ & _ & [_ Hacct] & _ & _ & _ & Hres);
    [reflexivity|unfold KERNBASE; lia|apply lookup_empty|exact Hfb| |].
  { intros x Hx. by rewrite Hfa, decide_False. }
  destruct Hres as [(_ & Has4 & Hhw)|(_ & Has4 & ->)].
  - exists k4, d, T, (<[0 := p]> ∅), l'. split; [done|]. split; [|split].
    2: { pose proof (tables_bound _ _ _ _ (vs_vm _ _ _ _ _ (as_space _ _ _ _ _ _ _ Has4))) as Hb.
         rewrite (Permutation_length (vals_insert ∅ 0 p (lookup_empty 0))).
         apply Permutation_length in Hacct. rewrite !length_app in Hacct. simpl in *. lia. }
    2: { exists p, 7. change (PGROUNDDOWN 0) with 0. rewrite lookup_insert_eq.
         split_and!; [done|lia|lia|exact Hhw|done]. }
    apply (full_insert 0 ∅ p); [done|done|]. intros va _ Hva. rewrite lookup_empty. split; [by intros [? ?]|lia].
  - exfalso. pose proof (tables_bound _ _ _ _ (vs_vm _ _ _ _ _ (as_space _ _ _ _ _ _ _ Has4))) as Hb.
    apply Permutation_length in Hacct. rewrite app_nil_r, length_app in Hacct. simpl in *. lia.
Qed.

(** ** The theorems *)

Section Theorems.
Context (end_ data_ : Z) (end_kernel : KERNLINK <= end_)
  (data_page : data_ mod 4096 = 0) (data_range : KERNLINK < data_ < KERNBASE + PHYSTOP).

(** [setupkvm] either makes a directory that maps every kernel address to
    its physical address with the kernel's text read-only, maps the devices,
    maps no user address and takes only the pages it needs, or returns 0,
    which it does only with at most 1025 free pages. *)
Theorem setupkvm_maps k l :
  pool end_ k l ->
  exists d k', setupkvm data_ k = Ret d k' /\
    (d = 0 /\ (length l <= 1025)%nat \/
     d <> 0 /\ kernel_mapped data_ (memory k') d /\
     exists T l', vspace end_ k' d T l' /\ d :: vals T ++ l' ≡ₚ l /\
       (forall x, (forall p, table_page d T p -> ~ (p <= x < p + 4096)) -> memory k' x = memory k x)).
Proof.
  intros Hp. destruct (setupkvm_run end_ data_ end_kernel data_page data_range k l Hp) as
    [(k1 & Hk1 & _ & Hl & _)|(k1 & d & T & l1 & Hk1 & Hvs & Hacct & Hkm & Hsame)].
  - exists 0, k1. split; [done|by left].
  - exists d, k1. split; [done|right]. split_and!; [|done|by exists T, l1].
    by destruct (page_ok_word end_ end_kernel d (v_dir _ _ _ _ (vs_vm _ _ _ _ _ Hvs))) as (_ & ? & _).
Qed.

(** [setupkvm] that fails has taken every free page and given none back. *)
Theorem setupkvm_leaks k l k' :
  pool end_ k l -> setupkvm data_ k = Ret 0 k' -> pool end_ k' [].
Proof.
  intros Hp H. destruct (setupkvm_run end_ data_ end_kernel data_page data_range k l Hp) as
    [(k1 & Hk1 & Hp1 & _)|(k1 & d & T & l1 & Hk1 & Hvs & _)].
  - pose proof (Ret_inj _ _ _ _ (eq_trans (eq_sym H) Hk1)) as [_ ->]. exact Hp1.
  - pose proof (Ret_inj _ _ _ _ (eq_trans (eq_sym H) Hk1)) as [<- _]. exfalso.
    destruct (page_ok_word end_ end_kernel 0 (v_dir _ _ _ _ (vs_vm _ _ _ _ _ Hvs))) as (_ & Hne & _).
    by apply Hne.
Qed.

(** What [allocuvm] has come to when it returns [r]. *)
Inductive alloc_case (k' : kmem) (d oldsz newsz : Z) (T U U' : gmap Z Z) (lost l l' : list Z) : Z -> Prop :=
| alloc_grown : lost = [] -> full newsz U' -> U ⊆ U' -> zeroed (memory k') d U U' ->
    alloc_case k' d oldsz newsz T U U' lost l l' newsz
| alloc_refused : U' = U -> alloc_short T l (PGROUNDUP oldsz) newsz ->
    alloc_case k' d oldsz newsz T U U' lost l l' 0
| alloc_last_page_missing p : lost = [p] -> l' = [] -> full (PGROUNDUP newsz - 4096) U' -> U ⊆ U' ->
    zeroed (memory k') d U U' -> alloc_short T l (PGROUNDUP oldsz) newsz ->
    alloc_case k' d oldsz newsz T U U' lost l l' newsz.

(** C20: growing a process from [oldsz] to [newsz].  With enough free pages it
    returns [newsz], every new page is a writable user page of zeroes, and no
    page is lost.  With too few it either returns 0 with the same user pages
    as before, or, when only the table of the very last page could not be had,
    it returns [newsz] although that page is not mapped: it is lost, and no
    page is free.  In every case the old pages hold the same bytes and are
    mapped as before, like the kernel's; all pages are accounted for and at
    most one is lost. *)
Theorem allocuvm_grows k d T U rest l oldsz newsz :
  aspace end_ k d T U rest l -> full oldsz U -> 0 <= oldsz <= newsz -> newsz < KERNBASE ->
  exists k' T' U' lost l' r, allocuvm end_ d oldsz newsz k = Ret r k' /\
    alloc_result end_ k k' d T T' U U' rest lost l l' /\
    alloc_case k' d oldsz newsz T U U' lost l l' r.
Proof.
  intros Has Hf Hsz Hkb.
  destruct (allocuvm_run end_ end_kernel k d T U rest l oldsz newsz Has Hf Hsz Hkb)
    as (k' & T' & U' & lost & l' & r & E & Hres & Hcase & Hsh).
  exists k', T', U', lost, l', r. split; [done|]. split; [done|].
  destruct Hcase as [[-> [Hsub Hhw Hz Hfull]]|[-> ->]].
  - destruct Hfull as [[-> Hfull]|[[p ->] [-> Hfull]]]; [by constructor|].
    destruct Hsh as [[_ ?]|Hsh]; [done|by econstructor].
  - destruct Hsh as [[<- ->]|Hsh]; [|by constructor].
    constructor; [done| |done|intros va q H1 H2; congruence].
    destruct (decide (oldsz = 0)) as [->|]; [exact Hf|lia].
Qed.

(** The last case does happen: with one free page, and no table for the next
    page of the process, [allocuvm] returns the new size and maps nothing. *)
Theorem allocuvm_hole k d T U rest p oldsz newsz :
  aspace end_ k d T U rest [p] -> full oldsz U -> 0 <= oldsz <= newsz -> PGROUNDUP oldsz < newsz <= PGROUNDUP oldsz + 4096 ->
  newsz < KERNBASE -> T !! PDX (PGROUNDUP oldsz) = None ->
  exists k', allocuvm end_ d oldsz newsz k = Ret newsz k' /\ hw (memory k') d (PGROUNDUP oldsz) = None /\
    exists T', aspace end_ k' d T' U (p :: rest) [].
Proof. by apply alloc_hole. Qed.

(** [freevm] gives back every page of an address space, directory, tables
    and user pages, and does not touch the pages of others. *)
Theorem freevm_returns_all k d T U rest l sz :
  aspace end_ k d T U rest l -> full sz U ->
  exists k' l', freevm end_ d k = Ret tt k' /\ pool end_ k' l' /\
    l' ≡ₚ d :: vals T ++ vals U ++ l /\
    (forall p x, p ∈ rest -> p <= x < p + 4096 -> memory k' x = memory k x).
Proof. intros Has Hf. apply freevm_run; try done. by eapply full_dense. Qed.

(** C21: [copyuvm] either makes a child that maps, at every page of the parent
    below [sz], a writable page of its own with the same bytes, and the kernel
    as [setupkvm] does; or it returns 0, which it does only when few pages
    are free, with every page that it took free again or lost.  In both cases
    the parent is as it was: its directory, tables and pages hold the same
    bytes, and every address is mapped to the same page with the same flags;
    the pages of others hold the same bytes as well. *)
Theorem copyuvm_copies k pd PT PU rest l sz :
  aspace end_ k pd PT PU rest l -> full sz PU -> 0 <= sz < KERNBASE ->
  exists r k', copyuvm end_ data_ pd sz k = Ret r k' /\
    ((exists T U l', child end_ data_ k k' pd PT PU rest l sz r T U l') \/
     r = 0 /\ (length l <= 1026 + length (vals PU))%nat /\ untouched k k' pd PT PU rest /\
       exists lost l', aspace end_ k' pd PT PU (lost ++ rest) l' /\ lost ++ l' ≡ₚ l).
Proof. by apply copyuvm_run. Qed.

(** Freeing a child made by [copyuvm] leaves the parent alone and the same
    free pages as before the copy. *)
Theorem copyuvm_freevm k pd PT PU rest l sz r k' :
  aspace end_ k pd PT PU rest l -> full sz PU -> 0 <= sz < KERNBASE ->
  copyuvm end_ data_ pd sz k = Ret r k' -> r <> 0 ->
  exists k'' l'', freevm end_ r k' = Ret tt k'' /\ aspace end_ k'' pd PT PU rest l'' /\ l'' ≡ₚ l.
Proof.
  intros Has Hf Hsz Hc Hr.
  destruct (copyuvm_run end_ data_ end_kernel data_page data_range k pd PT PU rest l sz Has Hf Hsz)
    as (r1 & k1 & Hc1 & Hcase).
  pose proof (Ret_inj _ _ _ _ (eq_trans (eq_sym Hc) Hc1)) as [<- <-]. clear Hc Hc1.
  destruct Hcase as [(T & U & l1 & [Hsp Hpar _ Hacct Hfull _ _])|[-> _]]; [|done].
  destruct (freevm_run end_ end_kernel k' r T U _ l1 Hsp (full_dense _ end_kernel _ _ _ _ _ _ _ Hsp Hfull))
    as (k2 & l2 & Hk2 & Hp2 & Hl2 & Hsame).
  exists k2, l2. assert (Hl : l2 ≡ₚ l) by (rewrite Hl2; done). split_and!; [done| |done].
  eapply (aspace_frame end_ end_kernel k' k2 pd PT PU); [exact Hpar|done| | |].
  - intros q x Hq Hx. apply (Hsame q x); [|done]. destruct Hq as [->|Hq]; [left|right].
    apply elem_of_app. left. by apply elem_of_vals.
  - by apply (proj1 (Forall_app _ _ _) (as_pages _ _ _ _ _ _ _ Has)).
  - pose proof (as_nodup _ _ _ _ _ _ _ Has) as Hnd. revert Hnd. apply NoDup_Permutation_proper. perm.
Qed.

(** [copyout] to mapped user pages returns 0 and has put byte [j] of the
    buffer at user address [va + j], through the page table, and changed no
    other byte of memory. *)
Theorem copyout_writes k d T U rest l va buf :
  aspace end_ k d T U rest l -> 0 <= va -> va + Z.of_nat (length buf) <= KERNBASE -> Forall (fun b => 0 <= b < 256) buf ->
  (forall j, 0 <= j < Z.of_nat (length buf) -> user_ok (memory k) d U (va + j)) ->
  exists k', copyout d va buf k = Ret 0 k' /\ aspace end_ k' d T U rest l /\ written U va buf (memory k) (memory k').
Proof.
  intros Has Hva Hv Hb Hok. destruct (copyout_run end_ end_kernel k d T U rest l va buf Has Hva Hv Hb Hok) as (k' & E & Has' & W & _).
  by exists k'.
Qed.
End Theorems.

(** ** The theorems at work *)

Definition data_demo : Z := 0x80108000.

Lemma data_demo_range : KERNLINK < data_demo < KERNBASE + PHYSTOP.
Proof. by vm_compute. Qed.

Lemma setupkvm_maps_witness : exists k d k',
  setupkvm data_demo k = Ret d k' /\ d <> 0 /\ kernel_mapped data_demo (memory k') d.
Proof.
  destruct pool_demo as (k & Hp).
  destruct (setupkvm_maps end_demo data_demo end_demo_kernel eq_refl data_demo_range k pages_demo Hp)
    as (d & k' & H & [[_ Hl]|(Hd & Hk & _)]).
  - exfalso. revert Hl. unfold pages_demo. rewrite length_reverse, length_fmap, length_seqZ. lia.
  - exists k, d, k'. done.
Defined.

Lemma setupkvm_leaks_witness : exists k', setupkvm data_demo kmem1 = Ret 0 k' /\ pool end_demo k' [].
Proof.
  assert (H : exists k', setupkvm data_demo kmem1 = Ret 0 k').
  { destruct (setupkvm_run end_demo data_demo end_demo_kernel eq_refl data_demo_range kmem1 _ kmem1_pool) as
      [(k1 & Hk1 & _)|(k1 & d & T & l1 & Hk1 & Hvs & Hacct & Hkm & Hsame)]; [by exists k1|exfalso].
    apply Permutation_singleton_r in Hacct. injection Hacct as Hd Hn.
    apply app_eq_nil in Hn as [Hn _]. apply fmap_nil_inv, map_to_list_empty_iff in Hn. subst T.
    pose proof (km_dev _ _ _ Hkm 0xFE000000) as H. rewrite (hw_entry _ end_demo_kernel _ _ ∅) in H by apply Hvs.
    unfold entry in H. rewrite lookup_empty in H. discriminate H. unfold DEVSPACE. lia. }
  destruct H as (k' & Hk'). exists k'. split; [exact Hk'|].
  exact (setupkvm_leaks end_demo data_demo end_demo_kernel eq_refl data_demo_range kmem1 _ k' kmem1_pool Hk').
Defined.

Lemma allocuvm_grows_witness : exists k d k' U', allocuvm end_demo d 4096 40000 k = Ret 40000 k' /\ full 40000 U'.
Proof.
  destruct space_demo as (k & d & T & U & l & Has & Hf & Hlen & Huok).
  destruct (allocuvm_grows end_demo end_demo_kernel k d T U [] l 4096 40000 Has Hf)
    as (k' & T' & U' & lost & l' & r & Hr & _ & Hcase); [lia|unfold KERNBASE; lia|].
  assert (Hns : ~ alloc_short T l (PGROUNDUP 4096) 40000).
  { unfold alloc_short. change (PGROUNDUP 40000) with 40960. change (PGROUNDUP 4096) with 4096.
    change ((40960 - 4096) / 4096) with 9. lia. }
  destruct Hcase as [_ Hfull _ _|_ Hs|p _ _ _ _ _ Hs]; [|by destruct (Hns Hs)..].
  exists k, d, k', U'. split; [exact Hr|exact Hfull].
Defined.

Lemma freevm_returns_all_witness : exists k d k' (l' : list Z),
  freevm end_demo d k = Ret tt k' /\ d ∈ l'.
Proof.
  destruct space_demo as (k & d & T & U & l & Has & Hf & Hlen & Huok).
  destruct (freevm_returns_all end_demo end_demo_kernel k d T U [] l 4096 Has Hf) as (k' & l' & H & _ & Hl & _).
  exists k, d, k', l'. split; [exact H|]. rewrite Hl. left.
Defined.

Lemma copyuvm_copies_witness : exists k pd PT PU l r k' T U l',
  copyuvm end_demo data_demo pd 4096 k = Ret r k' /\
  child end_demo data_demo k k' pd PT PU [] l 4096 r T U l'.
Proof.
  destruct space_demo as (k & d & T & U & l & Has & Hf & Hlen & Huok).
  destruct (copyuvm_copies end_demo data_demo end_demo_kernel eq_refl data_demo_range k d T U [] l 4096 Has Hf)
    as (r & k' & H & [(T' & U' & l' & Hc)|(_ & Hl & _)]); [unfold KERNBASE; lia| |lia].
  exists k, d, T, U, l, r, k', T', U', l'. split; [exact H|exact Hc].
Defined.

Lemma copyuvm_freevm_witness : exists k pd r k' k'',
  copyuvm end_demo data_demo pd 4096 k = Ret r k' /\ freevm end_demo r k' = Ret tt k''.
Proof.
  destruct space_demo as (k & d & T & U & l & Has & Hf & Hlen & Huok).
  assert (Hsz : 0 <= 4096 < KERNBASE) by (unfold KERNBASE; lia).
  destruct (copyuvm_run end_demo data_demo end_demo_kernel eq_refl data_demo_range k d T U [] l 4096 Has Hf Hsz)
    as (r & k' & H & [(T' & U' & l' & Hc)|(_ & Hl & _)]); [|lia].
  destruct (page_ok_word end_demo end_demo_kernel r) as (_ & Hr & _).
  { apply (v_dir _ _ _ _ (vs_vm _ _ _ _ _ (as_space _ _ _ _ _ _ _ (ch_space _ _ _ _ _ _ _ _ _ _ _ _ _ _ Hc)))). }
  destruct (copyuvm_freevm end_demo data_demo end_demo_kernel eq_refl data_demo_range k d T U [] l 4096 r k' Has Hf Hsz H Hr)
    as (k'' & l'' & Hk'' & _).
  exists k, d, r, k', k''. split; [exact H|exact Hk''].
Defined.

(** Four bytes to user address 0. *)
Lemma copyout_writes_witness : exists k d k', copyout d 0 [1; 2; 3; 4] k = Ret 0 k'.
Proof.
  destruct space_demo as (k & d & T & U & l & Has & Hf & Hlen & Huok).
  destruct (copyout_writes end_demo end_demo_kernel k d T U [] l 0 [1; 2; 3; 4] Has) as (k' & H & _).
  - lia.
  - simpl. unfold KERNBASE. lia.
  - repeat (apply Forall_cons_2; [lia|]). apply Forall_nil_2.
  - cbn [length]. intros j Hj. destruct Huok as (p & f & H1 & H2 & H3 & H4). exists p, f. rewrite Z.add_0_l.
    assert (E : PGROUNDDOWN j = 0) by (rewrite PGROUNDDOWN_eq, Z.mod_small by lia; lia). rewrite E.
    split_and!; [exact H1|lia|lia| |exact H4]. rewrite (hw_page _ d j 0); [exact H3|].
    rewrite Z.div_small by lia. reflexivity.
  - exists k, d, k'. exact H.
Defined.
