(* ===== verification/Store.v ===== *)
(** * The log as the file system sees it

    fs.c reads a block with [bread], changes b->data, calls [log_write] and
    gives the buffer back with [brelse].  [Store] has these operations and
    [StoreLaws] what fs.c relies on; logging is possible ([Loggable]) between
    [begin_trans] and [commit_trans].  LogStore.v shows that log.c over the
    buffer cache provides this. *)
From S2P Require Import Prelude BlockCache.

(** [S] is the state of the log, the cache and the disk, [H] the type of
    buffers. *)
Class Store (S H : Type) := {
  sread : Z -> M S H;                (* bread(ROOTDEV, sector) *)
  sdata : H -> M S (list Z);         (* b->data *)
  sset : H -> list Z -> M S unit;    (* an update of b->data *)
  slog : H -> M S unit;              (* log_write(b) *)
  srelse : H -> M S unit             (* brelse(b) *)
}.

(** [holds s V Hd L]: a reader sees the blocks [V]; the buffers [Hd] are handed out, each with a flag that says whether it
    was changed since it was last logged; [L] are the blocks in the log. *)
Class StoreLaws (S H : Type) `{Store S H} := {
  holds : S -> gmap Z (list Z) -> gmap Z (H * bool) -> gset Z -> Prop;
  loggable : Prop;

  holds_length s V Hd L b d : holds s V Hd L -> V !! b = Some d -> length d = 512%nat;
  sread_law s V Hd L b :
    holds s V Hd L -> is_Some (V !! b) -> Hd !! b = None ->
    b ∈ L \/ (size (dom Hd ∪ L) < NBUF)%nat ->
    exists h s', sread b s = Ret h s' /\ holds s' V (<[b := (h, false)]> Hd) L;
  sdata_law s V Hd L b h c d :
    holds s V Hd L -> Hd !! b = Some (h, c) -> V !! b = Some d -> sdata h s = Ret d s;
  sset_law s V Hd L b h c d :
    holds s V Hd L -> Hd !! b = Some (h, c) -> length d = 512%nat ->
    exists s', sset h d s = Ret tt s' /\ holds s' (<[b := d]> V) (<[b := (h, true)]> Hd) L;
  slog_law s V Hd L b h c :
    loggable -> holds s V Hd L -> Hd !! b = Some (h, c) -> (size (dom Hd ∪ L) < NBUF)%nat ->
    exists s', slog h s = Ret tt s' /\ holds s' V (<[b := (h, false)]> Hd) ({[b]} ∪ L);
  srelse_law s V Hd L b h :
    holds s V Hd L -> Hd !! b = Some (h, false) ->
    exists s', srelse h s = Ret tt s' /\ holds s' V (delete b Hd) L
}.

Class Loggable (S H : Type) `{StoreLaws S H} := log_now : loggable.
