(* ===== verification/LogStore.v ===== *)
(** * The log provides the file system's interface (log.c)

    [StoreLaws] holds of log.c over any buffer cache with [BlockCacheLaws]: a
    transaction in progress, with buffers handed out, is a [txnb]; reading,
    changing, logging and releasing a block keep it.  An operation of the file
    system that is run between [begin_trans] and [commit_trans] is therefore
    atomic with respect to crashes.  Outside of a transaction the laws hold as
    well, but nothing can be logged: an operation that only reads leaves the
    log at rest. *)
From S2P Require Import Prelude Bytes BlockCache Log LogTxn Store.

Section LogStore.
Context {B H : Type} `{BlockCacheLaws B H}.

#[export] Instance log_store : Store (lst B) H := {
  sread b := onb (bread b);
  sdata h := onb (bdata h);
  sset h d := onb (bset h d);
  slog := log_write;
  srelse h := onb (brelse h)
}.

(** Where the log is, the disk at the beginning and the disk writes before it;
    [bz] says whether a transaction is in progress. *)
Context (bz : bool) (st sz : Z) (D0 : Z -> option (list Z)) (W0 : list (Z * list Z)).

(** [x] is handed out and changed since it was logged. *)
Definition pending (Hd : gmap Z (H * bool)) (x : Z) : Prop := exists h, Hd !! x = Some (h, true).

Record txnb (T : Z -> option (list Z)) (secs : list Z) (ds : list (list Z))
    (Hd : gmap Z (H * bool)) (s : lst B) : Prop := {
  tb_state : exists ss b D ws,
    s = Lst st sz bz (Z.of_nat (length secs)) ss b /\ length ss = 10%nat /\
    (forall i x, secs !! i = Some x -> ss !! i = Some x) /\
    binv b /\ held b = fst <$> Hd /\ dirty b = list_to_set secs /\ writes b = W0 ++ ws /\
    (forall t, disk b t = D t) /\
    (forall t, t <= st -> D t = D0 t) /\ (forall t, is_Some (D0 t) -> is_Some (D t)) /\
    (forall t, t < st -> view b t = T t) /\ (forall t, st <= t -> view b t = D t) /\
    (forall i d, ds !! i = Some d -> D (st + Z.of_nat i + 1) = Some d) /\
    Forall (fun w => st < w.1) ws /\ (forall t, D t = disk_after D0 ws t) /\ (bz = false -> ws = []);
  tb_len : length ds = length secs;
  tb_nodup : NoDup secs;
  tb_home : Forall (fun x => 0 <= x < st /\ is_Some (D0 x)) secs;
  tb_held : forall x e, Hd !! x = Some e -> 0 <= x < st /\ is_Some (D0 x);
  tb_logged : forall i x d, secs !! i = Some x -> ds !! i = Some d -> ~ pending Hd x -> T x = Some d;
  tb_old : forall t, t ∉ secs -> ~ pending Hd t -> T t = D0 t
}.

(** Without buffers it is the transaction that [commit_trans] expects. *)
Lemma txnb_txn T secs ds s : bz = true -> txnb T secs ds ∅ s <-> txn st sz D0 W0 T secs ds s.
Proof.
  intros Hbz.
  assert (Hnp : forall x, ~ pending ∅ x) by (intros x (h & Hx); by rewrite lookup_empty in Hx).
  split.
  - intros [(ss & b & D & ws & -> & Hss & Hpre & Hi & Hh & Hd & Hw & HD & HDold & HDs & HVT & HVl & Hb & Hws & HDws & _)
      Hl Hn Hho Hhe Hlo Hol].
    split; try done; [|intros i x d Hx Hdd; by apply (Hlo i x d)|intros t Ht; by apply Hol].
    exists ss, b, D, (view b), ws. rewrite Hbz. split_and!; try done.
  - intros [(ss & b & D & V & ws & -> & Hss & Hpre & [Hi Hh Hd Hw HD HV] & HDold & HDs & HVT & HVl & Hb & Hws & HDws)
      Hl Hn Hho Hlo Hol].
    split; try done; [|intros i x d Hx Hdd _; by apply (Hlo i x d)|intros t Ht _; by apply Hol].
    exists ss, b, D, ws. rewrite Hbz. split_and!; try done.
    + intros t Ht. by rewrite HV, HVT.
    + intros t Ht. by rewrite HV, HVl.
Qed.

(** ** The operations keep it *)

Definition blocks_of (T : Z -> option (list Z)) (V : gmap Z (list Z)) : Prop :=
  forall t, V !! t = if decide (0 <= t < st) then T t else None.

Definition log_holds_store (s : lst B) (V : gmap Z (list Z)) (Hd : gmap Z (H * bool)) (L : gset Z) : Prop :=
  exists T secs ds, txnb T secs ds Hd s /\ blocks_of T V /\ L = list_to_set secs.

Lemma blocks_some T V t : blocks_of T V -> is_Some (V !! t) -> 0 <= t < st /\ is_Some (T t).
Proof. intros HV [d Hd]. rewrite HV in Hd. case_decide; [|done]. split; [done|by exists d]. Qed.

Lemma blocks_insert T V b d :
  blocks_of T V -> 0 <= b < st -> blocks_of (upd T b d) (<[b := d]> V).
Proof.
  intros HV Hb t. unfold upd. destruct (decide (t = b)) as [->|Hne].
  - by rewrite lookup_insert_eq, decide_True.
  - rewrite lookup_insert_ne by done. apply HV.
Qed.

Lemma txnb_view T secs ds Hd s x :
  txnb T secs ds Hd s -> x < st -> is_Some (T x) -> is_Some (D0 x).
Proof.
  intros [(ss & b & D & ws & -> & _ & _ & Hi & _ & _ & _ & HD & HDold & _ & HVT & _) _ _ _ _ _ _] Hx HT.
  rewrite <- HDold by lia. rewrite <- HD. apply disk_view; [done|]. by rewrite HVT.
Qed.

Lemma log_length s V Hd L b d : log_holds_store s V Hd L -> V !! b = Some d -> length d = 512%nat.
Proof.
  intros (T & secs & ds & [(ss & c & D & ws & -> & _ & _ & Hi & _ & _ & _ & _ & _ & _ & HVT & _) _ _ _ _ _ _] & HV & _) Hb.
  rewrite HV in Hb. case_decide; [|done]. apply (view_length c b); [exact Hi|]. by rewrite HVT by lia.
Qed.

Lemma pending_false Hd b h x : pending (<[b := (h, false)]> Hd) x <-> pending Hd x /\ x <> b.
Proof.
  unfold pending. destruct (decide (x = b)) as [->|Hne].
  - setoid_rewrite lookup_insert_eq. naive_solver.
  - setoid_rewrite lookup_insert_ne; [|done]. naive_solver.
Qed.

Lemma log_sread s V Hd L b :
  log_holds_store s V Hd L -> is_Some (V !! b) -> Hd !! b = None ->
  b ∈ L \/ (size (dom Hd ∪ L) < NBUF)%nat ->
  exists h s', sread b s = Ret h s' /\ log_holds_store s' V (<[b := (h, false)]> Hd) L.
Proof.
  intros (T & secs & ds & Htx & HV & ->) HVb HHb Hroom. destruct (blocks_some _ _ _ HV HVb) as [Hb HT].
  pose proof (txnb_view _ _ _ _ _ b Htx ltac:(lia) HT) as HD0.
  destruct Htx as [(ss & c & D & ws & -> & Hss & Hpre & Hi & Hh & Hdr & Hw & HD & HDold & HDs & HVT & HVl & Hbl & Hws & HDws & Hbz)
    Hl Hn Hho Hhe Hlo Hol].
  destruct (bread_law c b) as (h & c' & E & Hi' & Hh' & Hdr' & Hw' & HV' & HD'); [done|..].
  { by rewrite Hh, lookup_fmap, HHb. }
  { rewrite HD. by apply HDs. }
  { by rewrite Hh, Hdr, dom_fmap_L. }
  eexists h, _. split; [by apply onb_run|]. exists T, secs, ds. split_and!; [|done|done].
  split; try done.
  - exists ss, c', D, ws. split_and!; try done; try congruence.
    + by rewrite Hh', Hh, fmap_insert.
    + intros t Ht. rewrite HV'. by apply HVT.
    + intros t Ht. rewrite HV'. by apply HVl.
  - intros x e Hx. apply lookup_insert_Some in Hx as [[<- _]|[_ Hx]]; [done|by eapply Hhe].
  - intros i x d Hx Hdd Hp. apply (Hlo i x d); try done. intros [h' Hp']. apply Hp. apply pending_false.
    split; [by exists h'|]. congruence.
  - intros t Ht Hp. apply Hol; [done|]. intros [h' Hp']. apply Hp. apply pending_false.
    split; [by exists h'|]. congruence.
Qed.

Lemma log_sdata s V Hd L b h c d :
  log_holds_store s V Hd L -> Hd !! b = Some (h, c) -> V !! b = Some d -> sdata h s = Ret d s.
Proof.
  intros (T & secs & ds & [(ss & e & D & ws & -> & _ & _ & Hi & Hh & _ & _ & _ & _ & _ & HVT & _) _ _ _ _ _ _] & HV & _) HHb HVb.
  rewrite HV in HVb. case_decide; [|done]. apply onb_run. apply (bdata_law e b); [done| |].
  - by rewrite Hh, lookup_fmap, HHb.
  - by rewrite HVT by lia.
Qed.

Lemma log_sset s V Hd L b h c d :
  log_holds_store s V Hd L -> Hd !! b = Some (h, c) -> length d = 512%nat ->
  exists s', sset h d s = Ret tt s' /\ log_holds_store s' (<[b := d]> V) (<[b := (h, true)]> Hd) L.
Proof.
  intros (T & secs & ds & [(ss & e & D & ws & -> & Hss & Hpre & Hi & Hh & Hd' & Hw & HD & HDold & HDs & HVT & HVl & Hbl & Hws & HDws & Hbz)
    Hl Hn Hho Hhe Hlo Hol] & HV & ->) HHb Hlen. destruct (Hhe _ _ HHb) as [Hb HD0].
  destruct (bset_law e b h d) as (e' & E & Hi' & Hh' & Hd'' & Hw' & HVb & HV' & HD'); [done| |done|].
  { by rewrite Hh, lookup_fmap, HHb. }
  eexists. split; [by apply onb_run|]. exists (upd T b d), secs, ds. split_and!; [|by apply blocks_insert|done].
  assert (Hpend : forall x, ~ pending (<[b := (h, true)]> Hd) x -> x <> b /\ ~ pending Hd x).
  { intros x Hp. assert (Hxb : x <> b) by (intros ->; apply Hp; exists h; apply lookup_insert_eq).
    split; [done|]. intros [h' Hx]. apply Hp. exists h'. by rewrite lookup_insert_ne. }
  split; try done.
  - exists ss, e', D, ws. split_and!; try done; try congruence.
    + rewrite Hh', Hh, fmap_insert. symmetry. apply insert_id. by rewrite lookup_fmap, HHb.
    + intros t Ht. unfold upd. case_decide as Et; [by subst|]. rewrite HV' by done. by apply HVT.
    + intros t Ht. rewrite HV' by lia. by apply HVl.
  - intros x f Hx. apply lookup_insert_Some in Hx as [[<- _]|[_ Hx]]; [done|by eapply Hhe].
  - intros i x f Hx Hf Hp. destruct (Hpend _ Hp) as [Hxb Hp']. rewrite upd_other by done. by apply (Hlo i).
  - intros t Ht Hp. destruct (Hpend _ Hp) as [Hxb Hp']. rewrite upd_other by done. by apply Hol.
Qed.

Lemma log_srelse s V Hd L b h :
  log_holds_store s V Hd L -> Hd !! b = Some (h, false) ->
  exists s', srelse h s = Ret tt s' /\ log_holds_store s' V (delete b Hd) L.
Proof.
  intros (T & secs & ds & [(ss & e & D & ws & -> & Hss & Hpre & Hi & Hh & Hd' & Hw & HD & HDold & HDs & HVT & HVl & Hbl & Hws & HDws & Hbz)
    Hl Hn Hho Hhe Hlo Hol] & HV & ->) HHb. destruct (Hhe _ _ HHb) as [Hb HD0].
  destruct (brelse_law e b h) as (e' & E & Hi' & Hh' & Hd'' & Hw' & HV' & HD'); [done|..].
  { by rewrite Hh, lookup_fmap, HHb. }
  { rewrite Hd'. destruct (decide (b ∈ secs)) as [Hin|Hin]; [left; by apply elem_of_list_to_set|right].
    rewrite HVT, HD, HDold by lia. apply Hol; [done|]. intros [h' Hx]. congruence. }
  eexists. split; [by apply onb_run|]. exists T, secs, ds. split_and!; [|done|done].
  assert (Hpend : forall x, ~ pending (delete b Hd) x -> ~ pending Hd x).
  { intros x Hp [h' Hx]. apply Hp. exists h'. rewrite lookup_delete_ne; [done|]. congruence. }
  split; try done.
  - exists ss, e', D, ws. split_and!; try done; try congruence.
    + by rewrite Hh', Hh, fmap_delete.
    + intros t Ht. rewrite HV'. by apply HVT.
    + intros t Ht. rewrite HV'. by apply HVl.
  - intros x f Hx. apply lookup_delete_Some in Hx as [_ Hx]. by eapply Hhe.
  - intros i x f Hx Hf Hp. by apply (Hlo i x f); [..|apply Hpend].
  - intros t Ht Hp. by apply Hol; [|apply Hpend].
Qed.

Hypothesis Hgeom : geometry st sz D0.

Lemma log_slog s V Hd L b h c :
  bz = true -> log_holds_store s V Hd L -> Hd !! b = Some (h, c) -> (size (dom Hd ∪ L) < NBUF)%nat ->
  exists s', slog h s = Ret tt s' /\ log_holds_store s' V (<[b := (h, false)]> Hd) ({[b]} ∪ L).
Proof.
  intros Hbt (T & secs & ds & [(ss & e & D & ws & -> & Hss & Hpre & Hi & Hh & Hdr & Hw & HD & HDold & HDs & HVT & HVl & Hbl & Hws & HDws & Hbz)
    Hl Hn Hho Hhe Hlo Hol] & HV & ->) HHb Hroom. destruct (Hhe _ _ HHb) as [Hb HD0].
  destruct Hgeom as (Hst & Hsz & Hlog).
  assert (is_Some (view e b)) as [d Hd'] by (apply disk_view; [done|rewrite HD; auto]).
  assert (HTb : T b = Some d) by by rewrite <- HVT by lia.
  assert (Hin : b ∈ dom Hd) by (apply elem_of_dom; by eexists).
  assert (Hsl : (size (list_to_set secs : gset Z) <= size (dom Hd ∪ list_to_set secs))%nat)
    by (apply subseteq_size; set_solver).
  assert (Hsl' : b ∉ secs -> (S (size (list_to_set secs : gset Z)) <= size (dom Hd ∪ list_to_set secs))%nat).
  { intros Hbn. replace (S (size (list_to_set secs))) with (size ({[b]} ∪ list_to_set secs : gset Z)).
    - apply subseteq_size. set_solver.
    - rewrite size_union, size_singleton by set_solver. done. }
  rewrite (size_NoDup secs Hn) in Hsl, Hsl'. unfold NBUF in Hroom.
  pose proof (log_slot_cases (Z.of_nat (length secs)) ss secs b eq_refl ltac:(lia) Hpre) as Hcase.
  set (i := log_slot (Z.of_nat (length secs)) ss b) in *.
  assert (Hi10 : (i < 10)%nat).
  { destruct Hcase as [[_ Hii%lookup_lt_Some]|[Hbn Hii]]; [lia|]. specialize (Hsl' Hbn). lia. }
  assert (Hlsout : forall x e, Hd !! x = Some e -> x <> st + Z.of_nat i + 1).
  { intros x f Hx. destruct (Hhe _ _ Hx). lia. }
  destruct (log_write_run st sz (Z.of_nat (length secs)) ss e h b d i)
    as (e' & E & Hi' & Hh' & Hdr' & Hw' & HV' & HD'); try done; try lia.
  { by rewrite Hh, lookup_fmap, HHb. }
  { rewrite HD. by apply HDs, Hlog. }
  { rewrite Hh, lookup_fmap. destruct (Hd !! (st + Z.of_nat i + 1)) as [f|] eqn:Hf; [|done]. exfalso. by apply (Hlsout _ _ Hf). }
  { rewrite Hdr, elem_of_list_to_set. intros Hx. rewrite Forall_forall in Hho. destruct (Hho _ Hx). lia. }
  { rewrite Hh, Hdr, dom_fmap_L. unfold NBUF. lia. }
  pose proof (slot_update secs ds b i d Hl Hn Hcase) as
    (Hlen' & Hnd' & Hsi & Hdi & Hn' & Hsj & Hdj). cbv zeta in *.
  set (secs' := if decide (b ∈ secs) then secs else secs ++ [b]) in *.
  set (ds' := if decide (b ∈ secs) then <[i := d]> ds else ds ++ [d]) in *.
  set (ls := st + Z.of_nat i + 1) in *. rewrite Hn' in E.
  assert (Hset : {[b]} ∪ list_to_set secs = (list_to_set secs' : gset Z)).
  { unfold secs'. case_decide; set_solver. }
  eexists. split; [rewrite Hbt; exact E|]. exists T, secs', ds'. split_and!; [|done|done]. split; try done.
  - exists (<[i := b]> ss), e', (upd D ls d), (ws ++ [(ls, d)]).
    split_and!; [by rewrite Hbt|by rewrite length_insert| |done| | | | | | | | | | | |congruence].
    + intros j x Hx. destruct (decide (j = i)) as [->|Hj].
      * rewrite list_lookup_insert_eq by lia. congruence.
      * rewrite list_lookup_insert_ne by done. apply Hpre. by apply Hsj.
    + rewrite Hh', Hh, fmap_insert. symmetry. apply insert_id. by rewrite lookup_fmap, HHb.
    + by rewrite Hdr', Hdr, Hset.
    + by rewrite Hw', Hw, app_assoc.
    + intros t. rewrite HD'. unfold upd. case_decide; [done|apply HD].
    + intros t Ht. rewrite upd_other by lia. by apply HDold.
    + intros t Ht. unfold upd. case_decide; [by eexists|by apply HDs].
    + intros t Ht. rewrite HV', upd_other by lia. by apply HVT.
    + intros t Ht. rewrite HV'. unfold upd. case_decide; [done|by apply HVl].
    + intros j f Hj. destruct (decide (j = i)) as [->|Hji].
      * fold ls. rewrite upd_same. congruence.
      * rewrite upd_other by lia. by apply Hbl, Hdj.
    + apply Forall_app. split; [done|]. apply Forall_singleton. simpl. lia.
    + intros t. rewrite disk_after_app. simpl. unfold upd. case_decide; [done|by apply HDws].
  - unfold secs'. case_decide; [done|]. apply Forall_app. split; [done|]. by apply Forall_singleton.
  - intros x f Hx. apply lookup_insert_Some in Hx as [[<- _]|[_ Hx]]; [done|by eapply Hhe].
  - intros j x f Hx Hf Hp. destruct (decide (j = i)) as [->|Hji]; [congruence|].
    destruct (Hsj j x Hji Hx) as [Hx' Hne]. apply (Hlo j x f); [done|by apply Hdj|].
    intros Hp'. apply Hp. by apply pending_false.
  - intros t Ht Hp. assert (Htb : t <> b) by (intros ->; apply Ht; by eapply list_elem_of_lookup_2).
    apply Hol; [|intros Hp'; apply Hp; by apply pending_false].
    intros Hts. apply Ht. unfold secs'. case_decide; [done|]. apply elem_of_app. by left.
Qed.

#[export] Instance log_store_laws : StoreLaws (lst B) H := {
  holds := log_holds_store;
  loggable := bz = true;
  holds_length := log_length;
  sread_law := log_sread;
  sdata_law := log_sdata;
  sset_law := log_sset;
  slog_law := log_slog;
  srelse_law := log_srelse
}.

End LogStore.

#[export] Instance log_loggable {B H} `{BlockCacheLaws B H} st sz D0 W0 Hg :
  @Loggable (lst B) H _ (log_store_laws true st sz D0 W0 Hg) := eq_refl.

(** ** Transactions *)

Section Transactions.
Context {B H : Type} `{BlockCacheLaws B H}.
Context (st sz : Z).

(** The log between transactions, on a disk that shows the blocks [V] and on
    which [W] has been written. *)
Definition at_rest (V : gmap Z (list Z)) (W : list (Z * list Z)) (D : Z -> option (list Z)) (s : lst B) : Prop :=
  exists ss b hd, s = Lst st sz false 0 ss b /\ quiet b D D ∅ W /\ length ss = 10%nat /\ blocks_of st D V /\
    geometry st sz D /\ D st = Some hd /\ lists hd [].

(** [T] is a disk with the blocks [V]. *)
Definition shows (T : Z -> option (list Z)) (V : gmap Z (list Z)) : Prop := forall t, 0 <= t < st -> T t = V !! t.

(** The disk writes [ws] of a transaction: after any number of them the disk
    recovers to the old blocks [V] or the new blocks [V']. *)
Definition atomic_writes (D : Z -> option (list Z)) (V : gmap Z (list Z)) (ws : list (Z * list Z)) (V' : gmap Z (list Z)) : Prop :=
  forall k, exists T, recovers_to st (disk_after D (take k ws)) T /\ (shows T V \/ shows T V').

Context (D0 : Z -> option (list Z)) (W0 : list (Z * list Z)) (Hgeom : geometry st sz D0).
Abbreviation in_txn := (@holds _ _ _ (log_store_laws true st sz D0 W0 Hgeom)).
Abbreviation outside := (@holds _ _ _ (log_store_laws false st sz D0 W0 Hgeom)).

Lemma begin_holds s V : at_rest V W0 D0 s -> exists s', begin_trans s = Ret tt s' /\ in_txn s' V ∅ ∅.
Proof.
  intros (ss & b & hd & -> & Hq & Hss & HV & _). eexists. split; [done|]. exists D0, [], [].
  split_and!; [|done|done]. apply txnb_txn; [done|]. by apply txn_begin.
Qed.

Lemma commit_holds s0 s V V' L :
  at_rest V W0 D0 s0 -> in_txn s V' ∅ L -> (size L <= 9)%nat ->
  exists s' ws, commit_trans s = Ret tt s' /\ at_rest V' (W0 ++ ws) (disk_after D0 ws) s' /\ atomic_writes D0 V ws V'.
Proof.
  intros (_ & _ & hd0 & _ & _ & _ & HV0 & _ & Hhd & Hl0) (T & secs & ds & Htx & HV & ->) Hsz. apply txnb_txn in Htx; [|done].
  rewrite (size_NoDup secs (tx_nodup _ _ _ _ _ _ _ _ Htx)) in Hsz.
  destruct (commit_atomic st sz D0 W0 T secs ds s hd0 Htx Hgeom Hsz Hhd Hl0)
    as (ss & b & D & ws & E & Hss & Hq & HD & HT & (hd & Hhd' & Hl) & Hcr).
  assert (Hg : geometry st sz (disk_after D0 ws)).
  { destruct Hgeom as (? & ? & Hlog). split_and!; try lia. intros i Hi. by apply disk_after_is_Some, Hlog. }
  exists (Lst st sz false 0 ss b), ws. split_and!; [done| |].
  - exists ss, b, hd. split_and!; try done; try apply Hg.
    + destruct Hq as [Q1 Q2 Q3 Q4 Q5 Q6]. split; try done; intros t; rewrite <- HD; auto.
    + intros t. rewrite HV, <- HD. case_decide as Ht; [|done]. symmetry. apply HT. lia.
    + by rewrite <- HD.
  - intros k. destruct (Hcr k) as [Hr|Hr].
    + exists D0. split; [done|left]. intros t Ht. by rewrite HV0, decide_True.
    + exists T. split; [done|right]. intros t Ht. by rewrite HV, decide_True.
Qed.

(** Outside of a transaction. *)
Lemma rest_holds s V : at_rest V W0 D0 s -> outside s V ∅ ∅.
Proof.
  intros (ss & b & hd & -> & [Q1 Q2 Q3 Q4 Q5 Q6] & Hss & HV & _). exists D0, [], []. split_and!; [|done|done].
  split; try done; try apply NoDup_nil_2; try apply Forall_nil_2. exists ss, b, D0, []. rewrite app_nil_r.
  split_and!; try done.
Qed.

Lemma holds_rest s0 s V : at_rest V W0 D0 s0 -> outside s V ∅ ∅ -> at_rest V W0 D0 s.
Proof.
  intros (_ & _ & hd & _ & _ & _ & HV0 & Hg & Hhd & Hl) (T & secs & ds & [(ss & b & D & ws & -> & Hss & _ & Hi & Hh & Hd & Hw & HD & HDo & _ & HVT & HVl & _ & _ & HDw & Hws)
    Hlen _ _ _ _ Hold] & HV & HL).
  assert (secs = []) as -> by (destruct secs; [done|set_solver]). rewrite (Hws eq_refl), app_nil_r in *.
  exists ss, b, hd. split_and!; try done; try apply Hg. split; try done; intros t.
  - rewrite HD. apply HDw.
  - destruct (decide (t < st)); [|rewrite HVl by lia; apply HDw]. rewrite HVT by done. apply Hold; [set_solver|].
    intros [h Hx]. by rewrite lookup_empty in Hx.
Qed.
End Transactions.
