(* ===== verification/Fs.v ===== *)
(** * The file system (fs.c, fs.h, file.h)

    Blocks, inodes, directories and path names on top of the log.  The state
    is the inode cache with its lock and the store of blocks; an inode pointer
    is an index into the cache.  Bytes that go to or come from a caller's
    buffer are results and arguments.  The functions of the device switch and
    the current directory are arguments. *)
From S2P Require Import Prelude Mmu Spinlock Strings Bytes BlockCache Store.

Definition NINODE : nat := 50.
Definition NDEV : Z := 10.
Definition MAXARG : Z := 32.

(** Modes of open (fcntl.h). *)
Definition O_RDONLY : Z := 0.
Definition O_WRONLY : Z := 1.
Definition O_RDWR : Z := 2.
Definition O_CREATE : Z := 512.
Definition ROOTINO : Z := 1.
Definition NDIRECT : Z := 12.
Definition NINDIRECT : Z := BSIZE / 4.
Definition MAXFILE : Z := NDIRECT + NINDIRECT.
Definition IPB : Z := BSIZE / 64.
Definition BPB : Z := BSIZE * 8.
Definition DIRSIZ : nat := 14.
Definition T_DIR : Z := 1.
Definition T_FILE : Z := 2.
Definition T_DEV : Z := 3.

(** [short] *)
Definition s16 (z : Z) : Z := (z + 2 ^ 15) mod 2 ^ 16 - 2 ^ 15.

Definition IBLOCK (i : Z) : Z := i / IPB + 2.
Definition BBLOCK (b ninodes : Z) : Z := b / BPB + ninodes / IPB + 3.

Record superblock := Superblock { sb_size : Z; sb_nblocks : Z; sb_ninodes : Z; sb_nlog : Z }.

(** struct dinode *)
Record dinode := Dinode {
  d_type : Z;
  d_major : Z;
  d_minor : Z;
  d_nlink : Z;
  d_size : Z;
  d_addrs : list Z
}.

(** struct inode: the cache's own fields and the copy of the disk inode; the
    bits I_BUSY and I_VALID of flags are two fields. *)
Record inode := Inode {
  i_dev : Z;
  i_inum : Z;
  i_ref : Z;
  i_busy : bool;
  i_valid : bool;
  i_d : dinode
}.

Definition i_type (i : inode) : Z := d_type (i_d i).
Definition i_major (i : inode) : Z := d_major (i_d i).
Definition i_nlink (i : inode) : Z := d_nlink (i_d i).
Definition i_size (i : inode) : Z := d_size (i_d i).
Definition i_addrs (i : inode) : list Z := d_addrs (i_d i).

Definition set_i_ref (v : Z) (i : inode) : inode :=
  Inode (i_dev i) (i_inum i) v (i_busy i) (i_valid i) (i_d i).
Definition set_i_flags (busy valid : bool) (i : inode) : inode :=
  Inode (i_dev i) (i_inum i) (i_ref i) busy valid (i_d i).
Definition set_i_d (v : dinode) (i : inode) : inode :=
  Inode (i_dev i) (i_inum i) (i_ref i) (i_busy i) (i_valid i) v.

Definition set_d_type (v : Z) (d : dinode) : dinode :=
  Dinode v (d_major d) (d_minor d) (d_nlink d) (d_size d) (d_addrs d).
Definition set_d_nlink (v : Z) (d : dinode) : dinode :=
  Dinode (d_type d) (d_major d) (d_minor d) v (d_size d) (d_addrs d).
Definition set_d_size (v : Z) (d : dinode) : dinode :=
  Dinode (d_type d) (d_major d) (d_minor d) (d_nlink d) v (d_addrs d).
Definition set_d_addrs (v : list Z) (d : dinode) : dinode :=
  Dinode (d_type d) (d_major d) (d_minor d) (d_nlink d) (d_size d) v.

(** ** Disk inodes as bytes *)

Definition DINODE : nat := 64.

Fixpoint get_addrs (n : nat) (d : list Z) (off : nat) : option (list Z) :=
  match n with
  | O => Some []
  | S n' => a ← get32 d off; l ← get_addrs n' d (off + 4); Some (a :: l)
  end.

Definition get_dinode (d : list Z) (off : nat) : option dinode :=
  ty ← get16 d off;
  ma ← get16 d (off + 2);
  mi ← get16 d (off + 4);
  nl ← get16 d (off + 6);
  sz ← get32 d (off + 8);
  ad ← get_addrs 13 d (off + 12);
  Some (Dinode (s16 ty) (s16 ma) (s16 mi) (s16 nl) sz ad).

Definition dinode_bytes (i : dinode) : list Z :=
  le2 (d_type i) ++ le2 (d_major i) ++ le2 (d_minor i) ++ le2 (d_nlink i) ++
  le4 (d_size i) ++ concat (le4 <$> d_addrs i).

(** Store the bytes [w] at offset [off] of the block [d]. *)
Definition splice (off : nat) (w d : list Z) : list Z :=
  take off d ++ w ++ drop (off + length w) d.

Definition dinode_at (inum : Z) : nat := Z.to_nat (64 * (inum mod IPB)).

(** ** State *)

(** icache without its lock; [woken] records the calls of wakeup. *)
Record icst := Icst { inodes : list inode; woken : list nat }.

Record fs (S : Type) := Fs { flks : lstate; ic : icst; store : S }.
Arguments Fs {S}.
Arguments flks {S}.
Arguments ic {S}.
Arguments store {S}.

Definition set_flks {S} (v : lstate) (s : fs S) : fs S := Fs v (ic s) (store s).
Definition set_ic {S} (v : icst) (s : fs S) : fs S := Fs (flks s) v (store s).
Definition set_store {S} (v : S) (s : fs S) : fs S := Fs (flks s) (ic s) v.

Section Ops.
Context {S H : Type} `{Store S H}.

Abbreviation F := (M (fs S)).

Definition ons {A} (m : M S A) : F A := zoom store set_store m.

(** The critical sections of icache.lock (lock 0). *)
Definition icache_locked {A} (m : M icst A) : F A :=
  zoom flks set_flks (acquire 0);;;
  a <~ zoom ic set_ic m;;;
  zoom flks set_flks (release 0);;;
  ret a.

Definition ic_get (ip : nat) : M icst inode := gets_opt (fun c => inodes c !! ip).
Definition ic_upd (ip : nat) (f : inode -> inode) : M icst unit :=
  modify (fun c => Icst (alter f ip (inodes c)) (woken c)).
Definition ic_wakeup (ip : nat) : M icst unit :=
  modify (fun c => Icst (inodes c) (woken c ++ [ip])).

Definition get_inode (ip : nat) : F inode := zoom ic set_ic (ic_get ip).
Definition upd_inode (ip : nat) (f : inode -> inode) : F unit := zoom ic set_ic (ic_upd ip f).
Definition upd_dinode (ip : nat) (f : dinode -> dinode) : F unit :=
  upd_inode ip (fun i => set_i_d (f (i_d i)) i).

(** Blocks of another device than the disk's cannot be read (memide.c). *)
Definition dread (dev b : Z) : F H :=
  if dev =? ROOTDEV then ons (sread b) else panic "iderw: request not for disk 1".

(** ** Blocks *)

Definition readsb (dev : Z) : F superblock :=
  bp <~ dread dev 1;;;
  d <~ ons (sdata bp);;;
  sb <~ gets_opt (fun _ =>
    a ← get32 d 0; b ← get32 d 4; c ← get32 d 8; e ← get32 d 12; Some (Superblock a b c e));;;
  ons (srelse bp);;;
  ret sb.

Definition bzero (dev bno : Z) : F unit :=
  bp <~ dread dev bno;;;
  ons (sset bp (replicate 512 0));;;
  ons (slog bp);;;
  ons (srelse bp).

Definition bit_mask (bi : Z) : Z := Z.shiftl 1 (bi mod 8).

(** The loop over the bits of one bitmap block; the outer option is a read
    outside of the block. *)
Fixpoint scan_bits (n : nat) (bi b size : Z) (d : list Z) : option (option Z) :=
  match n with
  | O => Some None
  | Datatypes.S n' =>
      if negb (b + bi <? size) then Some None else
      x ← rd d (bi / 8);
      if Z.land x (bit_mask bi) =? 0 then Some (Some bi) else scan_bits n' (bi + 1) b size d
  end.

Definition set_bit (bi : Z) (d : list Z) : list Z :=
  alter (fun x => Z.lor x (bit_mask bi)) (Z.to_nat (bi / 8)) d.
Definition clear_bit (bi : Z) (d : list Z) : list Z :=
  alter (fun x => Z.ldiff x (bit_mask bi)) (Z.to_nat (bi / 8)) d.

Fixpoint balloc_loop (fuel : nat) (dev b : Z) (sb : superblock) : F Z :=
  match fuel with
  | O => hang
  | Datatypes.S fuel' =>
      if negb (b <? sb_size sb) then panic "balloc: out of blocks" else
      bp <~ dread dev (BBLOCK b (sb_ninodes sb));;;
      d <~ ons (sdata bp);;;
      r <~ gets_opt (fun _ => scan_bits (Z.to_nat BPB) 0 b (sb_size sb) d);;;
      match r with
      | Some bi =>
          ons (sset bp (set_bit bi d));;;
          ons (slog bp);;;
          ons (srelse bp);;;
          bzero dev (b + bi);;;
          ret (b + bi)
      | None =>
          ons (srelse bp);;;
          balloc_loop fuel' dev (b + BPB) sb
      end
  end.

Definition balloc (dev : Z) : F Z :=
  sb <~ readsb dev;;;
  balloc_loop (Datatypes.S (Z.to_nat (sb_size sb / BPB + 1))) dev 0 sb.

Definition bfree (dev b : Z) : F unit :=
  sb <~ readsb dev;;;
  bp <~ dread dev (BBLOCK b (sb_ninodes sb));;;
  d <~ ons (sdata bp);;;
  let bi := b mod BPB in
  x <~ gets_opt (fun _ => rd d (bi / 8));;;
  if Z.land x (bit_mask bi) =? 0 then panic "freeing free block" else
  ons (sset bp (clear_bit bi d));;;
  ons (slog bp);;;
  ons (srelse bp).

(** ** Inodes *)

(** The scan of [iget]: the entry of the inode, or else the first free one. *)
Definition is_cached (dev inum : Z) (i : inode) : bool :=
  (0 <? i_ref i) && (i_dev i =? dev) && (i_inum i =? inum).

Definition iget (dev inum : Z) : F nat :=
  icache_locked
    (l <~ gets inodes;;;
     match find_first (is_cached dev inum) l with
     | Some ip =>
         ic_upd ip (fun i => set_i_ref (i_ref i + 1) i);;; ret ip
     | None =>
         match find_first (fun i => i_ref i =? 0) l with
         | None => panic "iget: no inodes"
         | Some ip =>
             ic_upd ip (fun i => Inode dev inum 1 false false (i_d i));;; ret ip
         end
     end).

Fixpoint ialloc_loop (n : nat) (dev type inum : Z) : F nat :=
  match n with
  | O => panic "ialloc: no inodes"
  | Datatypes.S n' =>
      bp <~ dread dev (IBLOCK inum);;;
      d <~ ons (sdata bp);;;
      ty <~ gets_opt (fun _ => get16 d (dinode_at inum));;;
      if ty =? 0 then
        ons (sset bp (splice (dinode_at inum) (le2 type ++ replicate 62 0) d));;;
        ons (slog bp);;;
        ons (srelse bp);;;
        iget dev inum
      else
        ons (srelse bp);;;
        ialloc_loop n' dev type (inum + 1)
  end.

Definition ialloc (dev type : Z) : F nat :=
  sb <~ readsb dev;;;
  ialloc_loop (Z.to_nat (sb_ninodes sb - 1)) dev type 1.

Definition iupdate (ip : nat) : F unit :=
  i <~ get_inode ip;;;
  bp <~ dread (i_dev i) (IBLOCK (i_inum i));;;
  d <~ ons (sdata bp);;;
  ons (sset bp (splice (dinode_at (i_inum i)) (dinode_bytes (i_d i)) d));;;
  ons (slog bp);;;
  ons (srelse bp).

Definition idup (ip : nat) : F nat :=
  icache_locked (ic_upd ip (fun i => set_i_ref (i_ref i + 1) i));;;
  ret ip.

(** [ilock] sleeps while another process has the inode; sleep releases
    icache.lock and gives up the processor. *)
Definition ilock (ip : nat) : F unit :=
  i <~ get_inode ip;;;
  if i_ref i <? 1 then panic "ilock" else
  zoom flks set_flks (acquire 0);;;
  i <~ get_inode ip;;;
  if i_busy i then zoom flks set_flks (release 0);;; (fun s => Sched s) else
  upd_inode ip (fun i => set_i_flags true (i_valid i) i);;;
  zoom flks set_flks (release 0);;;
  i <~ get_inode ip;;;
  when (negb (i_valid i))
    (bp <~ dread (i_dev i) (IBLOCK (i_inum i));;;
     d <~ ons (sdata bp);;;
     di <~ gets_opt (fun _ => get_dinode d (dinode_at (i_inum i)));;;
     upd_dinode ip (fun _ => di);;;
     ons (srelse bp);;;
     upd_inode ip (fun i => set_i_flags (i_busy i) true i);;;
     if d_type di =? 0 then panic "ilock: no type" else ret tt).

Definition iunlock (ip : nat) : F unit :=
  i <~ get_inode ip;;;
  if negb (i_busy i) || (i_ref i <? 1) then panic "iunlock" else
  icache_locked
    (ic_upd ip (fun i => set_i_flags false (i_valid i) i);;;
     ic_wakeup ip).

(** ** Inode content *)

Definition put_addr (ip : nat) (bn addr : Z) : F unit :=
  upd_dinode ip (fun d => set_d_addrs (<[Z.to_nat bn := addr]> (d_addrs d)) d).

(** The entry [bn] of the indirect block [addr], allocated if necessary. *)
Definition indirect_entry (dev addr bn : Z) : F Z :=
  bp <~ dread dev addr;;;
  d <~ ons (sdata bp);;;
  addr <~ gets_opt (fun _ => get32 d (Z.to_nat (4 * bn)));;;
  if addr =? 0 then
    addr <~ balloc dev;;;
    d <~ ons (sdata bp);;;
    ons (sset bp (put32 (Z.to_nat (4 * bn)) addr d));;;
    ons (slog bp);;;
    ons (srelse bp);;;
    ret addr
  else
    ons (srelse bp);;;
    ret addr.

(** Entry [k] of ip->addrs, allocated if necessary. *)
Definition inode_entry (ip : nat) (k : Z) : F Z :=
  i <~ get_inode ip;;;
  addr <~ gets_opt (fun _ => rd (i_addrs i) k);;;
  if addr =? 0 then
    addr <~ balloc (i_dev i);;;
    put_addr ip k addr;;;
    ret addr
  else ret addr.

Definition bmap (ip : nat) (bn : Z) : F Z :=
  i <~ get_inode ip;;;
  if bn <? NDIRECT then inode_entry ip bn else
  let bn := bn - NDIRECT in
  if bn <? NINDIRECT then
    addr <~ inode_entry ip NDIRECT;;;
    indirect_entry (i_dev i) addr bn
  else panic "bmap: out of range".

Definition trunc_direct (ip : nat) (k : nat) : F unit :=
  i <~ get_inode ip;;;
  a <~ gets_opt (fun _ => i_addrs i !! k);;;
  when (negb (a =? 0))
    (bfree (i_dev i) a;;;
     put_addr ip (Z.of_nat k) 0).

Definition free_entry (dev : Z) (bp : H) (j : nat) : F unit :=
  d <~ ons (sdata bp);;;
  a <~ gets_opt (fun _ => get32 d (4 * j));;;
  when (negb (a =? 0)) (bfree dev a).

Definition itrunc (ip : nat) : F unit :=
  mfor (seq 0 (Z.to_nat NDIRECT)) (trunc_direct ip);;;
  i <~ get_inode ip;;;
  a <~ gets_opt (fun _ => rd (i_addrs i) NDIRECT);;;
  when (negb (a =? 0))
    (bp <~ dread (i_dev i) a;;;
     mfor (seq 0 (Z.to_nat NINDIRECT)) (free_entry (i_dev i) bp);;;
     ons (srelse bp);;;
     bfree (i_dev i) a;;;
     put_addr ip NDIRECT 0);;;
  upd_dinode ip (set_d_size 0);;;
  iupdate ip.

Definition iput (ip : nat) : F unit :=
  zoom flks set_flks (acquire 0);;;
  i <~ get_inode ip;;;
  when ((i_ref i =? 1) && i_valid i && (i_nlink i =? 0))
    (if i_busy i then panic "iput busy" else
     upd_inode ip (fun i => set_i_flags true (i_valid i) i);;;
     zoom flks set_flks (release 0);;;
     itrunc ip;;;
     upd_dinode ip (set_d_type 0);;;
     iupdate ip;;;
     zoom flks set_flks (acquire 0);;;
     upd_inode ip (set_i_flags false false);;;
     zoom ic set_ic (ic_wakeup ip));;;
  upd_inode ip (fun i => set_i_ref (i_ref i - 1) i);;;
  zoom flks set_flks (release 0).

Definition iunlockput (ip : nat) : F unit := iunlock ip;;; iput ip.

(** struct stat *)
Record stat := Stat { st_type : Z; st_dev : Z; st_ino : Z; st_nlink : Z; st_size : Z }.

Definition stati (ip : nat) : F stat :=
  i <~ get_inode ip;;;
  ret (Stat (i_type i) (i_dev i) (i_inum i) (i_nlink i) (i_size i)).

(** The device switch: for each major number the read and write functions. *)
Record devsw := Devsw {
  dev_read : option (nat -> Z -> F (option (list Z)));
  dev_write : option (nat -> list Z -> F Z)
}.

Variable devs : Z -> devsw.

Fixpoint read_loop (fuel : nat) (ip : nat) (off n : Z) : F (list Z) :=
  match fuel with
  | O => hang
  | Datatypes.S fuel' =>
      if negb (0 <? n) then ret [] else
      i <~ get_inode ip;;;
      addr <~ bmap ip (off / BSIZE);;;
      bp <~ dread (i_dev i) addr;;;
      let m := Z.min n (BSIZE - off mod BSIZE) in
      d <~ ons (sdata bp);;;
      ons (srelse bp);;;
      l <~ read_loop fuel' ip (off + m) (n - m);;;
      ret (take (Z.to_nat m) (drop (Z.to_nat (off mod BSIZE)) d) ++ l)
  end.

(** The bytes read, or [None] for the result -1. *)
Definition readi (ip : nat) (off n : Z) : F (option (list Z)) :=
  i <~ get_inode ip;;;
  if i_type i =? T_DEV then
    match (if (i_major i <? 0) || (NDEV <=? i_major i) then None else dev_read (devs (i_major i))) with
    | None => ret None
    | Some f => f ip n
    end
  else
  if (i_size i <? off) || (u32 (off + n) <? off) then ret None else
  let n := if i_size i <? u32 (off + n) then i_size i - off else n in
  l <~ read_loop (Datatypes.S (Datatypes.S (Z.to_nat (n / BSIZE + 1)))) ip off n;;;
  ret (Some l).

Fixpoint write_loop (fuel : nat) (ip : nat) (off : Z) (src : list Z) : F Z :=
  match fuel with
  | O => hang
  | Datatypes.S fuel' =>
      let n := Z.of_nat (length src) in
      if negb (0 <? n) then ret off else
      i <~ get_inode ip;;;
      addr <~ bmap ip (off / BSIZE);;;
      bp <~ dread (i_dev i) addr;;;
      let m := Z.min n (BSIZE - off mod BSIZE) in
      d <~ ons (sdata bp);;;
      ons (sset bp (splice (Z.to_nat (off mod BSIZE)) (take (Z.to_nat m) src) d));;;
      ons (slog bp);;;
      ons (srelse bp);;;
      write_loop fuel' ip (off + m) (drop (Z.to_nat m) src)
  end.

Definition writei (ip : nat) (src : list Z) (off : Z) : F Z :=
  let n := Z.of_nat (length src) in
  i <~ get_inode ip;;;
  if i_type i =? T_DEV then
    match (if (i_major i <? 0) || (NDEV <=? i_major i) then None else dev_write (devs (i_major i))) with
    | None => ret (-1)
    | Some f => f ip src
    end
  else
  if (i_size i <? off) || (u32 (off + n) <? off) then ret (-1) else
  if MAXFILE * BSIZE <? u32 (off + n) then ret (-1) else
  off' <~ write_loop (Datatypes.S (Datatypes.S (Z.to_nat (n / BSIZE + 1)))) ip off src;;;
  i <~ get_inode ip;;;
  when ((0 <? n) && (i_size i <? off'))
    (upd_dinode ip (set_d_size off');;;
     iupdate ip);;;
  ret n.

(** ** Directories *)

(** A name of at most DIRSIZ bytes as the character array of the code. *)
Definition cstr (l : list Z) : list Z := l ++ [0].

Definition namecmp (s t : list Z) : option Z := strncmp s t DIRSIZ.

Definition DIRENT : Z := 16.

(** The directory entry at [off]: its inode number and name. *)
Definition read_dirent (dp : nat) (off : Z) : F (Z * list Z) :=
  r <~ readi dp off DIRENT;;;
  match r with
  | Some l =>
      if (length l =? 16)%nat then
        inum <~ gets_opt (fun _ => get16 l 0);;; ret (inum, drop 2 l)
      else panic "dirlink read"
  | None => panic "dirlink read"
  end.

Fixpoint lookup_loop (fuel : nat) (dp : nat) (name : list Z) (off : Z) : F (option (nat * Z)) :=
  match fuel with
  | O => hang
  | Datatypes.S fuel' =>
      i <~ get_inode dp;;;
      if negb (off <? i_size i) then ret None else
      de <~ read_dirent dp off;;;
      if fst de =? 0 then lookup_loop fuel' dp name (off + DIRENT) else
      c <~ gets_opt (fun _ => namecmp (cstr name) (snd de));;;
      if c =? 0 then ip <~ iget (i_dev i) (fst de);;; ret (Some (ip, off))
      else lookup_loop fuel' dp name (off + DIRENT)
  end.

(** The inode and the offset of the entry. *)
Definition dirlookup (dp : nat) (name : list Z) : F (option (nat * Z)) :=
  i <~ get_inode dp;;;
  if negb (i_type i =? T_DIR) then panic "dirlookup not DIR" else
  lookup_loop (Datatypes.S (Z.to_nat (i_size i / DIRENT + 1))) dp name 0.

Fixpoint empty_loop (fuel : nat) (dp : nat) (off : Z) : F Z :=
  match fuel with
  | O => hang
  | Datatypes.S fuel' =>
      i <~ get_inode dp;;;
      if negb (off <? i_size i) then ret off else
      de <~ read_dirent dp off;;;
      if fst de =? 0 then ret off else empty_loop fuel' dp (off + DIRENT)
  end.

Definition dirlink (dp : nat) (name : list Z) (inum : Z) : F Z :=
  r <~ dirlookup dp name;;;
  match r with
  | Some (ip, _) => iput ip;;; ret (-1)
  | None =>
      i <~ get_inode dp;;;
      off <~ empty_loop (Datatypes.S (Z.to_nat (i_size i / DIRENT + 1))) dp 0;;;
      nm <~ gets_opt (fun _ => strncpy (cstr name) (Z.of_nat DIRSIZ));;;
      n <~ writei dp (le2 inum ++ nm) off;;;
      if negb (n =? DIRENT) then panic "dirlink" else ret 0
  end.

(** ** Path names *)

(** A path is its bytes without the terminating 0. *)
Definition SLASH : Z := 47.

Fixpoint skip_slashes (path : list Z) : list Z :=
  match path with
  | c :: path' => if c =? SLASH then skip_slashes path' else path
  | [] => []
  end.

Fixpoint first_elem (path : list Z) : list Z * list Z :=
  match path with
  | c :: path' => if c =? SLASH then ([], path) else let '(e, r) := first_elem path' in (c :: e, r)
  | [] => ([], [])
  end.

(** The element, cut to DIRSIZ bytes, and the path after it; [None] when there
    is no element. *)
Definition skipelem (path : list Z) : option (list Z * list Z) :=
  match skip_slashes path with
  | [] => None
  | path' => let '(e, r) := first_elem path' in Some (take DIRSIZ e, skip_slashes r)
  end.

Fixpoint namex_loop (fuel : nat) (ip : nat) (path : list Z) (parent : bool) (name : list Z) :
    F (option (nat * list Z)) :=
  match fuel with
  | O => hang
  | Datatypes.S fuel' =>
      match skipelem path with
      | None => if parent then iput ip;;; ret None else ret (Some (ip, name))
      | Some (name, path) =>
          ilock ip;;;
          i <~ get_inode ip;;;
          if negb (i_type i =? T_DIR) then iunlockput ip;;; ret None else
          if parent && (length path =? 0)%nat then iunlock ip;;; ret (Some (ip, name)) else
          r <~ dirlookup ip name;;;
          match r with
          | None => iunlockput ip;;; ret None
          | Some (next, _) => iunlockput ip;;; namex_loop fuel' next path parent name
          end
      end
  end.

(** [cwd] is proc->cwd; the result is the inode and the last element. *)
Definition namex (cwd : nat) (path : list Z) (parent : bool) : F (option (nat * list Z)) :=
  ip <~ (match path with
         | c :: _ => if c =? SLASH then iget ROOTDEV ROOTINO else idup cwd
         | [] => idup cwd
         end);;;
  namex_loop (Datatypes.S (length path)) ip path parent [].

Definition namei (cwd : nat) (path : list Z) : F (option nat) :=
  r <~ namex cwd path false;;;
  ret (fst <$> r).

Definition nameiparent (cwd : nat) (path : list Z) : F (option (nat * list Z)) := namex cwd path true.

End Ops.
