(* ===== verification/FsBlocks.v ===== *)
(** * Blocks: the bitmap allocator (fs.c)

    [balloc] takes the first block whose bit in the bitmap is clear, [bfree]
    clears a bit.  The lemmas run the operations of fs.c on any store that
    satisfies [StoreLaws]; [room] counts the buffers that may still be used. *)
From S2P Require Import Prelude Mmu Spinlock Strings Bytes BlockCache Store Fs.

(** ** Buffers in use *)

Section Room.
Context {H : Type}.
Implicit Types (Hd : gmap Z (H * bool)) (L : gset Z).

Definition room (Hd : gmap Z (H * bool)) (L : gset Z) (n : nat) : Prop :=
  (size (dom Hd ∪ L) + n <= NBUF)%nat.

Lemma room_le Hd L n m : room Hd L n -> (m <= n)%nat -> room Hd L m.
Proof. unfold room. lia. Qed.

Lemma room_lt Hd L n : room Hd L (S n) -> (size (dom Hd ∪ L) < NBUF)%nat.
Proof. unfold room. lia. Qed.

Lemma size_add (x : Z) (X : gset Z) : (size ({[x]} ∪ X) <= S (size X))%nat.
Proof.
  rewrite size_union_alt, size_singleton. pose proof (subseteq_size (X ∖ {[x]}) X ltac:(set_solver)). lia.
Qed.

Lemma room_hold Hd L n b e : room Hd L (S n) -> room (<[b := e]> Hd) L n.
Proof.
  unfold room. intros Hr. rewrite dom_insert_L. pose proof (size_add b (dom Hd ∪ L)).
  replace ({[b]} ∪ dom Hd ∪ L) with ({[b]} ∪ (dom Hd ∪ L)) by set_solver. lia.
Qed.

Lemma room_log Hd L n b : room Hd L (S n) -> room Hd ({[b]} ∪ L) n.
Proof.
  unfold room. intros Hr. pose proof (size_add b (dom Hd ∪ L)).
  replace (dom Hd ∪ ({[b]} ∪ L)) with ({[b]} ∪ (dom Hd ∪ L)) by set_solver. lia.
Qed.

Lemma room_logged Hd L n b : b ∈ L -> room Hd L n -> room Hd ({[b]} ∪ L) n.
Proof. intros Hb. by replace ({[b]} ∪ L) with L by set_solver. Qed.
End Room.

(** ** Running the operations *)

Section Run.
Context {S H : Type} `{StoreLaws S H} `{!Loggable S H}.
Implicit Types (V : gmap Z (list Z)) (Hd : gmap Z (H * bool)) (L : gset Z) (l : lstate) (c : icst) (s : S).

Lemma ons_run {A} (m : M S A) l c s (a : A) s' :
  m s = Ret a s' -> ons m (Fs l c s) = Ret a (Fs l c s').
Proof. intros E. unfold ons, zoom. simpl. by rewrite E. Qed.

Lemma dread_run l c s V Hd L b :
  holds s V Hd L -> is_Some (V !! b) -> Hd !! b = None -> room Hd L 1 ->
  exists h s', dread ROOTDEV b (Fs l c s) = Ret h (Fs l c s') /\ holds s' V (<[b := (h, false)]> Hd) L.
Proof.
  intros Hh HV HHb Hr. destruct (sread_law s V Hd L b Hh HV HHb) as (h & s' & E & Hh').
  { right. by apply (room_lt _ _ 0). }
  exists h, s'. split; [|done]. unfold dread. rewrite Z.eqb_refl. by apply ons_run.
Qed.

(** Read a block and give it back. *)
Lemma read_run {A} (k : list Z -> M (fs S) A) l c s V Hd L b d :
  holds s V Hd L -> V !! b = Some d -> Hd !! b = None -> room Hd L 1 ->
  exists s', holds s' V Hd L /\
    forall (post : H -> list Z -> M (fs S) A),
      (forall h l' c' s1, post h d (Fs l' c' s1) = (ons (srelse h);;; k d) (Fs l' c' s1)) ->
      (bp <~ dread ROOTDEV b;;; d <~ ons (sdata bp);;; post bp d) (Fs l c s) = k d (Fs l c s').
Proof.
  intros Hh HV HHb Hr. destruct (dread_run l c s V Hd L b Hh ltac:(by eexists) HHb Hr) as (h & s1 & E1 & Hh1).
  destruct (srelse_law s1 V _ L b h Hh1 (lookup_insert_eq _ _ _)) as (s2 & E2 & Hh2).
  rewrite delete_insert_id in Hh2 by done. exists s2. split; [done|]. intros post Hp.
  rewrite (bind_Ret _ _ _ _ _ E1).
  erewrite bind_Ret by (apply ons_run; by eapply (sdata_law s1 V _ L b h false d); [|apply lookup_insert_eq|]).
  rewrite Hp. erewrite bind_Ret by (apply ons_run; exact E2). done.
Qed.

(** Change a block through the log. *)
Lemma change_run l c s V Hd L b h f d' :
  holds s V Hd L -> Hd !! b = Some (h, f) -> length d' = 512%nat -> room Hd L 1 ->
  exists s', (ons (sset h d');;; ons (slog h);;; ons (srelse h)) (Fs l c s) = Ret tt (Fs l c s') /\
    (forall A (k : M (fs S) A),
       (ons (sset h d');;; ons (slog h);;; ons (srelse h);;; k) (Fs l c s) = k (Fs l c s')) /\
    holds s' (<[b := d']> V) (delete b Hd) ({[b]} ∪ L).
Proof.
  intros Hh HHb Hlen Hr. destruct (sset_law s V Hd L b h f d' Hh HHb Hlen) as (s1 & E1 & Hh1).
  destruct (slog_law s1 _ _ L b h true log_now Hh1 (lookup_insert_eq _ _ _)) as (s2 & E2 & Hh2).
  { rewrite dom_insert_L. apply elem_of_dom_2 in HHb as Hin.
    replace ({[b]} ∪ dom Hd) with (dom Hd) by set_solver. by apply (room_lt _ _ 0). }
  destruct (srelse_law s2 _ _ _ b h Hh2 (lookup_insert_eq _ _ _)) as (s3 & E3 & Hh3).
  exists s3. split_and!.
  - erewrite bind_Ret by (apply ons_run; exact E1). erewrite bind_Ret by (apply ons_run; exact E2).
    by apply ons_run.
  - intros A k. erewrite bind_Ret by (apply ons_run; exact E1). erewrite bind_Ret by (apply ons_run; exact E2).
    by erewrite bind_Ret by (apply ons_run; exact E3).
  - by rewrite insert_insert_eq, delete_insert_eq in Hh3.
Qed.

(** ** The superblock *)

Definition parse_sb (d : list Z) : option superblock :=
  a ← get32 d 0; b ← get32 d 4; c ← get32 d 8; e ← get32 d 12; Some (Superblock a b c e).

Definition sb_at V (sb : superblock) : Prop := exists d, V !! 1 = Some d /\ parse_sb d = Some sb.

Lemma readsb_run l c s V Hd L sb :
  holds s V Hd L -> sb_at V sb -> Hd !! 1 = None -> room Hd L 1 ->
  exists s', readsb ROOTDEV (Fs l c s) = Ret sb (Fs l c s') /\ holds s' V Hd L.
Proof.
  intros Hh (d & HV & Hp) HH1 Hr.
  destruct (read_run (fun _ => ret sb) l c s V Hd L 1 d Hh HV HH1 Hr) as (s' & Hh' & E).
  exists s'. split; [|done]. unfold readsb. rewrite (E (fun bp d => sb <~ gets_opt (fun _ => parse_sb d);;; ons (srelse bp);;; ret sb)).
  - done.
  - intros h l' c' s1. erewrite bind_gets_opt by exact Hp. done.
Qed.

Lemma bzero_run l c s V Hd L b :
  holds s V Hd L -> is_Some (V !! b) -> Hd !! b = None -> room Hd L 2 ->
  exists s', bzero ROOTDEV b (Fs l c s) = Ret tt (Fs l c s') /\
    holds s' (<[b := replicate 512 0]> V) Hd ({[b]} ∪ L).
Proof.
  intros Hh HV HHb Hr.
  destruct (dread_run l c s V Hd L b Hh HV HHb (room_le _ _ 2 1 Hr ltac:(lia))) as (h & s1 & E1 & Hh1).
  destruct (change_run l c s1 V _ L b h false (replicate 512 0) Hh1 (lookup_insert_eq _ _ _)) as (s2 & E2 & _ & Hh2).
  - by rewrite length_replicate.
  - by apply room_hold.
  - exists s2. split; [|by rewrite delete_insert_id in Hh2].
    unfold bzero. by rewrite (bind_Ret _ _ _ _ _ E1).
Qed.
End Run.

(** ** The bitmap *)

Definition bit (d : list Z) (bi : Z) : bool :=
  match rd d (bi / 8) with Some x => Z.testbit x (bi mod 8) | None => false end.

Lemma land_bit x k : 0 <= k -> (Z.land x (Z.shiftl 1 k) =? 0) = negb (Z.testbit x k).
Proof.
  intros Hk. rewrite Z.shiftl_1_l. destruct (Z.testbit x k) eqn:E.
  - apply Z.eqb_neq. intros H0. assert (Hb : Z.testbit (Z.land x (2 ^ k)) k = false) by (rewrite H0; apply Z.bits_0).
    rewrite Z.land_spec, E, Z.pow2_bits_true in Hb by done. done.
  - apply Z.eqb_eq. apply Z.bits_inj'. intros j Hj. rewrite Z.land_spec, Z.bits_0, Z.pow2_bits_eqb by done.
    destruct (Z.eqb_spec k j) as [<-|]; [by rewrite E|by rewrite andb_false_r].
Qed.

Lemma bit_pos bi : 0 <= bi mod 8 < 8.
Proof. apply Z.mod_pos_bound. lia. Qed.

Lemma rd_byte (d : list Z) bi : length d = 512%nat -> 0 <= bi < 4096 -> exists x, rd d (bi / 8) = Some x.
Proof.
  intros Hl Hb. apply rd_in_range. rewrite Hl. split; [apply Z.div_pos; lia|].
  apply Z.div_lt_upper_bound; lia.
Qed.

(** What the scan of one bitmap block finds. *)
Definition scanned (bi n b size : Z) (d : list Z) (r : option Z) : Prop :=
  match r with
  | Some j => bi <= j < bi + n /\ b + j < size /\ bit d j = false /\ (forall i, bi <= i < j -> bit d i = true)
  | None => forall i, bi <= i < bi + n -> b + i < size -> bit d i = true
  end.

Lemma scan_bits_spec n bi b size d :
  length d = 512%nat -> 0 <= bi -> bi + Z.of_nat n <= 4096 ->
  exists r, scan_bits n bi b size d = Some r /\ scanned bi (Z.of_nat n) b size d r.
Proof.
  intros Hl. revert bi. induction n as [|n IH]; intros bi Hb Hn; cbn [scan_bits].
  { exists None. split; [done|]. intros i Hi. lia. }
  destruct (Z.ltb_spec (b + bi) size) as [Hlt|Hge]; cbn [negb].
  2: { exists None. split; [done|]. intros i Hi Hs. lia. }
  destruct (rd_byte d bi Hl ltac:(lia)) as [x Hx]. rewrite Hx. simpl.
  assert (Hbit : bit d bi = Z.testbit x (bi mod 8)) by (unfold bit; by rewrite Hx).
  unfold bit_mask. rewrite land_bit by apply bit_pos. rewrite <- Hbit. destruct (bit d bi) eqn:E; cbn [negb].
  - destruct (IH (bi + 1) ltac:(lia) ltac:(lia)) as (r & Hr & Hs). exists r. split; [done|].
    destruct r as [j|]; simpl in *.
    + destruct Hs as (H1 & H2 & H3 & H4). split_and!; try done; try lia. intros i Hi.
      destruct (decide (i = bi)) as [->|]; [done|]. apply H4. lia.
    + intros i Hi Hs'. destruct (decide (i = bi)) as [->|]; [done|]. apply Hs; lia.
  - exists (Some bi). split; [done|]. split_and!; try done; try lia.
Qed.

(** Setting and clearing a bit. *)
Lemma rd_alter (f : Z -> Z) (d : list Z) i j :
  0 <= i -> rd (alter f (Z.to_nat i) d) j = if decide (j = i) then f <$> rd d i else rd d j.
Proof.
  intros Hi. unfold rd. destruct (decide (j = i)) as [->|Hne].
  - rewrite !decide_True by done. by rewrite list_lookup_alter_eq.
  - destruct (decide (0 <= j)); [|done]. apply list_lookup_alter_ne. lia.
Qed.

Lemma bit_index i j : 0 <= i -> 0 <= j -> i <> j -> i / 8 = j / 8 -> i mod 8 <> j mod 8.
Proof. intros. pose proof (Z.div_mod i 8). pose proof (Z.div_mod j 8). lia. Qed.

Lemma bit_set d i j :
  length d = 512%nat -> 0 <= i < 4096 -> 0 <= j -> bit (set_bit i d) j = bit d j || (j =? i).
Proof.
  intros Hl Hi Hj. unfold bit, set_bit. rewrite rd_alter by (apply Z.div_pos; lia).
  destruct (rd_byte d i Hl Hi) as [x Hx]. case_decide as E.
  - rewrite Hx. rewrite E, Hx. simpl. unfold bit_mask. rewrite Z.lor_spec, Z.shiftl_1_l, Z.pow2_bits_eqb by apply bit_pos.
    f_equal. destruct (Z.eqb_spec j i) as [->|Hne]; [apply Z.eqb_refl|].
    apply Z.eqb_neq. intros Em. by apply (bit_index i j); [lia|lia|congruence|congruence|].
  - destruct (Z.eqb_spec j i) as [->|]; [done|]. by rewrite orb_false_r.
Qed.

Lemma bit_clear d i j :
  length d = 512%nat -> 0 <= i < 4096 -> 0 <= j -> bit (clear_bit i d) j = bit d j && negb (j =? i).
Proof.
  intros Hl Hi Hj. unfold bit, clear_bit. rewrite rd_alter by (apply Z.div_pos; lia).
  destruct (rd_byte d i Hl Hi) as [x Hx]. case_decide as E.
  - rewrite Hx. rewrite E, Hx. simpl. unfold bit_mask. rewrite Z.ldiff_spec, Z.shiftl_1_l, Z.pow2_bits_eqb by apply bit_pos.
    f_equal. f_equal. destruct (Z.eqb_spec j i) as [->|Hne]; [apply Z.eqb_refl|].
    apply Z.eqb_neq. intros Em. by apply (bit_index i j); [lia|lia|congruence|congruence|].
  - destruct (Z.eqb_spec j i) as [->|]; [done|]. by rewrite andb_true_r.
Qed.

(** Freeing what was allocated gives back the same bitmap block. *)
Lemma clear_set_bit d i : length d = 512%nat -> 0 <= i < 4096 -> bit d i = false -> clear_bit i (set_bit i d) = d.
Proof.
  intros Hl Hi Hb. unfold clear_bit, set_bit. apply list_eq. intros k.
  destruct (decide (k = Z.to_nat (i / 8))) as [->|Hk]; [|by rewrite !list_lookup_alter_ne by done].
  rewrite !list_lookup_alter_eq. destruct (rd_byte d i Hl Hi) as [y Hy]. unfold bit in Hb. rewrite Hy in Hb.
  apply rd_Some in Hy as [_ Hy]. rewrite Hy. simpl. f_equal. unfold bit_mask.
  apply Z.bits_inj'. intros j Hj. rewrite Z.ldiff_spec, Z.lor_spec, Z.shiftl_1_l, Z.pow2_bits_eqb by apply bit_pos.
  destruct (Z.eqb_spec (i mod 8) j) as [<-|]; [by rewrite Hb|].
  by rewrite orb_false_r, andb_true_r.
Qed.

(** ** [balloc] and [bfree] *)

Section Alloc.
Context {S H : Type} `{StoreLaws S H} `{!Loggable S H}.
Implicit Types (V : gmap Z (list Z)) (Hd : gmap Z (H * bool)) (L : gset Z) (l : lstate) (c : icst) (s : S).

(** The bitmap block and bit of block [x]. *)
Definition bblock (sb : superblock) (x : Z) : Z := BBLOCK x (sb_ninodes sb).
Definition used (sb : superblock) V (x : Z) : bool :=
  match V !! bblock sb x with Some d => bit d (x mod BPB) | None => false end.

(** Neither the boot block, the superblock, an inode block nor a bitmap block. *)
Record data_block (sb : superblock) (x : Z) : Prop := {
  db_boot : x <> 0;
  db_super : x <> 1;
  db_bitmap : forall y, 0 <= y < sb_size sb -> x <> bblock sb y;
  db_inode : forall i, 0 <= i < sb_ninodes sb -> x <> IBLOCK i
}.

(** The log is at the end of the disk; the data blocks end before it. *)
Definition data_end (sb : superblock) : Z := sb_size sb - Z.max 0 (sb_nlog sb).

(** The bitmap and every free block before the log are on the disk; the blocks
    before the data blocks are in use themselves.  Nothing is said of the bits
    of the log's blocks: mkfs leaves them clear. *)
Record layout (sb : superblock) V : Prop := {
  lo_sb : sb_at V sb;
  lo_size : 0 <= sb_size sb;
  lo_ninodes : 0 <= sb_ninodes sb;
  lo_blocks : forall x, 0 <= x < data_end sb -> used sb V x = false -> is_Some (V !! x);
  lo_bitmap : forall x, 0 <= x < sb_size sb -> is_Some (V !! bblock sb x);
  lo_own : forall x, 0 <= x < data_end sb -> used sb V x = false -> data_block sb x
}.

(** None of the blocks the allocator reads is handed out. *)
Definition alloc_free (sb : superblock) Hd : Prop :=
  Hd !! 1 = None /\ forall x, 0 <= x < sb_size sb -> Hd !! bblock sb x = None.

(** The first free block, if it is before the log. *)
Definition first_free (sb : superblock) V (x : Z) : Prop :=
  0 <= x < data_end sb /\ used sb V x = false /\ (forall y, 0 <= y < x -> used sb V y = true).

Lemma data_end_size sb x : 0 <= x < data_end sb -> 0 <= x < sb_size sb.
Proof. unfold data_end. lia. Qed.

Lemma bblock_range sb b x : b mod BPB = 0 -> b <= x < b + BPB -> bblock sb x = bblock sb b /\ x mod BPB = x - b.
Proof.
  unfold bblock, BBLOCK. change BPB with 4096. intros Hb Hx. pose proof (Z.div_mod b 4096 ltac:(lia)) as Hd.
  assert (Hq : b / 4096 = x / 4096) by (apply Z.div_unique with (x - b); lia).
  split; [by rewrite Hq|]. symmetry. apply Z.mod_unique with (b / 4096); lia.
Qed.

(** The block after [balloc] gave out [x]. *)
Definition allocated (sb : superblock) V (x : Z) : gmap Z (list Z) :=
  <[x := replicate 512 0]> (<[bblock sb x := set_bit (x mod BPB) (default [] (V !! bblock sb x))]> V).

Lemma balloc_loop_found fuel l c s V Hd L sb b x :
  holds s V Hd L -> layout sb V -> alloc_free sb Hd -> Hd !! x = None -> room Hd L 3 ->
  first_free sb V x -> b mod BPB = 0 -> 0 <= b <= x -> x < b + BPB * Z.of_nat fuel ->
  exists s', balloc_loop fuel ROOTDEV b sb (Fs l c s) = Ret x (Fs l c s') /\
    holds s' (allocated sb V x) Hd ({[x]} ∪ ({[bblock sb x]} ∪ L)).
Proof.
  intros Hh Hlo Haf HHx Hr (Hx & Hu & Hfirst). pose proof (data_end_size _ _ Hx) as Hxs. revert s b Hh. induction fuel as [|fuel IH]; intros s b Hh Hb Hbx Hfu; [lia|].
  cbn [balloc_loop]. rewrite (proj2 (Z.ltb_lt b (sb_size sb))) by lia. cbn [negb].
  assert (Hbs : 0 <= b < sb_size sb) by lia. change (BBLOCK b (sb_ninodes sb)) with (bblock sb b).
  destruct (lo_bitmap _ _ Hlo b Hbs) as [d Hd'].
  pose proof (holds_length _ _ _ _ _ _ Hh Hd') as Hlen.
  destruct (dread_run l c s V Hd L (bblock sb b) Hh ltac:(by eexists) (proj2 Haf b Hbs) (room_le _ _ 3 1 Hr ltac:(lia)))
    as (h & s1 & E1 & Hh1).
  rewrite (bind_Ret _ _ _ _ _ E1).
  erewrite bind_Ret by (apply ons_run; by eapply (sdata_law s1 V _ L (bblock sb b) h false d); [|apply lookup_insert_eq|]).
  destruct (scan_bits_spec (Z.to_nat BPB) 0 b (sb_size sb) d Hlen) as (r & Hscan & Hs); [lia|change BPB with 4096; lia|].
  erewrite bind_gets_opt by exact Hscan. change (Z.of_nat (Z.to_nat BPB)) with 4096 in Hs. change BPB with 4096 in *.
  assert (Hbit : forall y, b <= y < b + 4096 -> used sb V y = bit d (y - b)).
  { intros y Hy. destruct (bblock_range sb b y Hb Hy) as [Ey Em]. unfold used. by rewrite Ey, Hd', Em. }
  destruct r as [j|]; simpl in Hs.
  - destruct Hs as (Hj & Hsz & Hbj & Hfj). assert (x = b + j) as ->.
    { destruct (Z.lt_trichotomy x (b + j)) as [Hlt|[?|Hgt]]; [|done|].
      - exfalso. rewrite Hbit in Hu by lia. rewrite Hfj in Hu by lia. done.
      - exfalso. specialize (Hfirst (b + j) ltac:(lia)). rewrite Hbit in Hfirst by lia.
        replace (b + j - b) with j in Hfirst by lia. congruence. }
    destruct (bblock_range sb b (b + j) Hb ltac:(change BPB with 4096; lia)) as [Ey Em].
    destruct (change_run l c s1 V _ L (bblock sb b) h false (set_bit j d) Hh1 (lookup_insert_eq _ _ _)) as (s2 & _ & E2 & Hh2).
    { unfold set_bit. by rewrite length_alter. }
    { apply room_hold. by eapply room_le; [exact Hr|lia]. }
    rewrite delete_insert_id in Hh2 by by apply Haf.
    destruct (bzero_run l c s2 _ Hd _ (b + j) Hh2) as (s3 & E3 & Hh3).
    { apply lookup_insert_is_Some. destruct (decide (bblock sb b = b + j)) as [|Hne]; [by left|right].
      split; [done|]. by apply Hlo. }
    { done. }
    { by apply room_log. }
    exists s3. split.
    + by rewrite E2, (bind_Ret _ _ _ _ _ E3).
    + unfold allocated. rewrite Ey, Em, Hd'. simpl. by replace (b + j - b) with j by lia.
  - destruct (srelse_law s1 V _ L (bblock sb b) h Hh1 (lookup_insert_eq _ _ _)) as (s2 & E2 & Hh2).
    rewrite delete_insert_id in Hh2 by by apply Haf.
    erewrite bind_Ret by (apply ons_run; exact E2).
    assert (b + 4096 <= x).
    { destruct (decide (b + 4096 <= x)); [done|]. exfalso. rewrite Hbit in Hu by lia. rewrite Hs in Hu by lia. done. }
    apply IH; [done| |lia|lia]. rewrite <- Z.add_mod_idemp_l, Hb by lia. done.
Qed.

Lemma balloc_run l c s V Hd L sb x :
  holds s V Hd L -> layout sb V -> alloc_free sb Hd -> Hd !! x = None -> room Hd L 3 -> first_free sb V x ->
  exists s', balloc ROOTDEV (Fs l c s) = Ret x (Fs l c s') /\
    holds s' (allocated sb V x) Hd ({[x]} ∪ ({[bblock sb x]} ∪ L)).
Proof.
  intros Hh Hlo Haf HHx Hr Hff. unfold balloc.
  destruct (readsb_run l c s V Hd L sb Hh) as (s1 & E1 & Hh1);
    [apply Hlo|apply Haf|by eapply room_le; [exact Hr|lia]|].
  rewrite (bind_Ret _ _ _ _ _ E1). destruct Hff as (Hx & Hu & Hf). pose proof (data_end_size _ _ Hx).
  apply (balloc_loop_found _ l c s1 V Hd L sb 0 x); try done; [lia|].
  change BPB with 4096. pose proof (Z.div_mod (sb_size sb) 4096). pose proof (Z.mod_pos_bound (sb_size sb) 4096).
  pose proof (Z.div_pos (sb_size sb) 4096). lia.
Qed.

Lemma balloc_loop_full fuel l c s V Hd L sb b :
  holds s V Hd L -> layout sb V -> alloc_free sb Hd -> room Hd L 1 ->
  (forall y, 0 <= y < sb_size sb -> used sb V y = true) -> b mod BPB = 0 -> 0 <= b ->
  sb_size sb <= b + BPB * (Z.of_nat fuel - 1) -> (0 < fuel)%nat ->
  balloc_loop fuel ROOTDEV b sb (Fs l c s) = Panic "balloc: out of blocks".
Proof.
  intros Hh Hlo Haf Hr Hall. revert s b Hh. change BPB with 4096.
  induction fuel as [|fuel IH]; intros s b Hh Hb H0b Hfu Hf0; [lia|].
  cbn [balloc_loop]. destruct (Z.ltb_spec b (sb_size sb)) as [Hlt|Hge]; cbn [negb]; [|done].
  assert (Hbs : 0 <= b < sb_size sb) by lia. change (BBLOCK b (sb_ninodes sb)) with (bblock sb b).
  destruct (lo_bitmap _ _ Hlo b Hbs) as [d Hd']. pose proof (holds_length _ _ _ _ _ _ Hh Hd') as Hlen.
  destruct (dread_run l c s V Hd L (bblock sb b) Hh ltac:(by eexists) (proj2 Haf b Hbs) Hr) as (h & s1 & E1 & Hh1).
  rewrite (bind_Ret _ _ _ _ _ E1).
  erewrite bind_Ret by (apply ons_run; by eapply (sdata_law s1 V _ L (bblock sb b) h false d); [|apply lookup_insert_eq|]).
  destruct (scan_bits_spec (Z.to_nat BPB) 0 b (sb_size sb) d Hlen) as (r & Hscan & Hs); [lia|change BPB with 4096; lia|].
  erewrite bind_gets_opt by exact Hscan. change (Z.of_nat (Z.to_nat BPB)) with 4096 in Hs. change BPB with 4096 in *.
  destruct r as [j|]; simpl in Hs.
  - exfalso. destruct Hs as (Hj & Hsz & Hbj & _). specialize (Hall (b + j) ltac:(lia)).
    destruct (bblock_range sb b (b + j) Hb ltac:(change BPB with 4096; lia)) as [Ey Em].
    unfold used in Hall. rewrite Ey, Em, Hd' in Hall. replace (b + j - b) with j in Hall by lia. congruence.
  - destruct (srelse_law s1 V _ L (bblock sb b) h Hh1 (lookup_insert_eq _ _ _)) as (s2 & E2 & Hh2).
    rewrite delete_insert_id in Hh2 by by apply Haf. erewrite bind_Ret by (apply ons_run; exact E2).
    apply IH; [done| |lia|lia|lia]. rewrite <- Z.add_mod_idemp_l, Hb by lia. done.
Qed.

Lemma balloc_full l c s V Hd L sb :
  holds s V Hd L -> layout sb V -> alloc_free sb Hd -> room Hd L 1 ->
  (forall y, 0 <= y < sb_size sb -> used sb V y = true) ->
  balloc ROOTDEV (Fs l c s) = Panic "balloc: out of blocks".
Proof.
  intros Hh Hlo Haf Hr Hall. unfold balloc.
  destruct (readsb_run l c s V Hd L sb Hh) as (s1 & E1 & Hh1); [apply Hlo|apply Haf|done|].
  rewrite (bind_Ret _ _ _ _ _ E1). apply (balloc_loop_full _ l c s1 V Hd L sb 0); try done; try lia.
  change BPB with 4096. pose proof (Z.div_mod (sb_size sb) 4096). pose proof (Z.mod_pos_bound (sb_size sb) 4096).
  pose proof (Z.div_pos (sb_size sb) 4096). pose proof (lo_size _ _ Hlo). lia.
Qed.

(** The blocks after [bfree] of [x]. *)
Definition freed (sb : superblock) V (x : Z) : gmap Z (list Z) :=
  <[bblock sb x := clear_bit (x mod BPB) (default [] (V !! bblock sb x))]> V.

Lemma bfree_run l c s V Hd L sb x :
  holds s V Hd L -> layout sb V -> alloc_free sb Hd -> room Hd L 2 -> 0 <= x < sb_size sb ->
  if used sb V x
  then exists s', bfree ROOTDEV x (Fs l c s) = Ret tt (Fs l c s') /\
         holds s' (freed sb V x) Hd ({[bblock sb x]} ∪ L)
  else bfree ROOTDEV x (Fs l c s) = Panic "freeing free block".
Proof.
  intros Hh Hlo Haf Hr Hx. unfold bfree.
  destruct (readsb_run l c s V Hd L sb Hh) as (s1 & E1 & Hh1);
    [apply Hlo|apply Haf|by eapply room_le; [exact Hr|lia]|].
  rewrite (bind_Ret _ _ _ _ _ E1). change (BBLOCK x (sb_ninodes sb)) with (bblock sb x).
  destruct (lo_bitmap _ _ Hlo x Hx) as [d Hd']. pose proof (holds_length _ _ _ _ _ _ Hh Hd') as Hlen.
  destruct (dread_run l c s1 V Hd L (bblock sb x) Hh1 ltac:(by eexists) (proj2 Haf x Hx) (room_le _ _ 2 1 Hr ltac:(lia)))
    as (h & s2 & E2 & Hh2).
  rewrite (bind_Ret _ _ _ _ _ E2).
  erewrite bind_Ret by (apply ons_run; by eapply (sdata_law s2 V _ L (bblock sb x) h false d); [|apply lookup_insert_eq|]).
  cbv zeta. assert (Hm : 0 <= x mod BPB < 4096) by (apply Z.mod_pos_bound; done).
  destruct (rd_byte d (x mod BPB) Hlen Hm) as [v Hv]. erewrite bind_gets_opt by exact Hv.
  unfold bit_mask. rewrite land_bit by apply bit_pos.
  assert (Hu : used sb V x = Z.testbit v ((x mod BPB) mod 8)) by (unfold used, bit; by rewrite Hd', Hv).
  rewrite <- Hu. destruct (used sb V x); cbn [negb]; [|done].
  destruct (change_run l c s2 V _ L (bblock sb x) h false (clear_bit (x mod BPB) d) Hh2 (lookup_insert_eq _ _ _))
    as (s3 & E3 & _ & Hh3).
  - unfold clear_bit. by rewrite length_alter.
  - by apply room_hold.
  - exists s3. split; [exact E3|]. rewrite delete_insert_id in Hh3 by by apply Haf.
    unfold freed. by rewrite Hd'.
Qed.

Lemma bblock_ge sb V x : layout sb V -> 0 <= x -> 3 <= bblock sb x.
Proof.
  intros Hlo Hx. unfold bblock, BBLOCK. pose proof (lo_ninodes _ _ Hlo).
  pose proof (Z.div_pos x BPB ltac:(lia) ltac:(done)). pose proof (Z.div_pos (sb_ninodes sb) IPB ltac:(lia) ltac:(done)). lia.
Qed.


Lemma bblock_inj sb x y : bblock sb x = bblock sb y -> x mod BPB = y mod BPB -> x = y.
Proof.
  unfold bblock, BBLOCK. change BPB with 4096. intros Hq Hm.
  pose proof (Z.div_mod x 4096). pose proof (Z.div_mod y 4096). lia.
Qed.

Lemma BPB_mod x : 0 <= x mod BPB < 4096.
Proof. apply Z.mod_pos_bound. done. Qed.

(** [used] after the bitmap block of [x] became [d']. *)
Lemma used_bitmap sb V x d' y (f : bool -> bool) :
  is_Some (V !! bblock sb x) ->
  (forall j, 0 <= j -> bit d' j = if decide (j = x mod BPB) then f (bit (default [] (V !! bblock sb x)) j)
                                  else bit (default [] (V !! bblock sb x)) j) ->
  used sb (<[bblock sb x := d']> V) y = if decide (y = x) then f (used sb V x) else used sb V y.
Proof.
  intros [d Hd] Hbit. unfold used. rewrite Hd in *. simpl in *. destruct (decide (bblock sb y = bblock sb x)) as [E|E].
  - rewrite E, lookup_insert_eq, Hbit by (pose proof (BPB_mod y); lia). case_decide as Em.
    + assert (y = x) as -> by by apply (bblock_inj sb). by rewrite decide_True.
    + rewrite decide_False by congruence. by rewrite Hd.
  - rewrite lookup_insert_ne by done. rewrite decide_False by congruence. done.
Qed.

Lemma used_allocated sb V x y :
  layout sb V -> first_free sb V x -> 0 <= y < sb_size sb ->
  (forall d, V !! bblock sb x = Some d -> length d = 512%nat) ->
  used sb (allocated sb V x) y = used sb V y || (y =? x).
Proof.
  intros Hlo (Hx' & Hu & _) Hy Hlen. destruct (lo_own _ _ Hlo x Hx' Hu) as [_ _ Hxb _].
  pose proof (data_end_size _ _ Hx') as Hx.
  unfold allocated. set (d' := set_bit _ _).
  assert (E : used sb (<[x := replicate 512 0]> (<[bblock sb x := d']> V)) y = used sb (<[bblock sb x := d']> V) y).
  { unfold used. by rewrite lookup_insert_ne by by apply Hxb. }
  rewrite E, (used_bitmap sb V x d' y (fun _ => true)); [|by apply (lo_bitmap _ _ Hlo)|].
  - destruct (Z.eqb_spec y x) as [->|Hne]; [by rewrite decide_True, orb_true_r|].
    by rewrite decide_False, orb_false_r.
  - intros j Hj. destruct (lo_bitmap _ _ Hlo x Hx) as [d Hd]. unfold d'. rewrite Hd in *. simpl in *.
    rewrite bit_set by (done || apply BPB_mod || by apply Hlen). destruct (Z.eqb_spec j (x mod BPB)) as [->|Hne].
    + by rewrite decide_True, orb_true_r.
    + by rewrite decide_False, orb_false_r.
Qed.

Lemma layout_allocated sb V x :
  layout sb V -> first_free sb V x -> (forall d, V !! bblock sb x = Some d -> length d = 512%nat) ->
  layout sb (allocated sb V x).
Proof.
  intros Hlo Hff Hlen. pose proof Hff as (Hx & Hu & _). destruct (lo_own _ _ Hlo x Hx Hu) as [_ Hx1 Hxb _].
  assert (Hsome : forall y, is_Some (V !! y) -> is_Some (allocated sb V x !! y)).
  { intros y Hy. unfold allocated. apply lookup_insert_is_Some. destruct (decide (x = y)); [by left|right].
    split; [done|]. apply lookup_insert_is_Some. destruct (decide (bblock sb x = y)); [by left|by right]. }
  destruct Hlo as [(d & Hd1 & Hp) Hs Hn Hb Hbm Ho] eqn:E. split; try done.
  - exists d. split; [|done]. unfold allocated. pose proof (bblock_ge sb V x Hlo ltac:(lia)).
    by rewrite !lookup_insert_ne by lia.
  - intros y Hy Hf. rewrite used_allocated in Hf by (done || by eapply data_end_size).
    apply orb_false_iff in Hf as [Hf _]. by apply Hsome, Hb.
  - intros y Hy. by apply Hsome, Hbm.
  - intros y Hy Hf. rewrite used_allocated in Hf by (done || by eapply data_end_size).
    apply orb_false_iff in Hf as [Hf _]. by apply Ho.
Qed.

Lemma used_freed sb V x y :
  layout sb V -> 0 <= x < sb_size sb -> (forall d, V !! bblock sb x = Some d -> length d = 512%nat) ->
  used sb (freed sb V x) y = used sb V y && negb (y =? x).
Proof.
  intros Hlo Hx Hlen. unfold freed. rewrite (used_bitmap sb V x _ y (fun _ => false)); [|by apply (lo_bitmap _ _ Hlo)|].
  - destruct (Z.eqb_spec y x) as [->|Hne]; [by rewrite decide_True, andb_false_r|].
    by rewrite decide_False, andb_true_r.
  - intros j Hj. destruct (lo_bitmap _ _ Hlo x Hx) as [d Hd]. rewrite Hd in *. simpl in *.
    rewrite bit_clear by (done || apply BPB_mod || by apply Hlen). destruct (Z.eqb_spec j (x mod BPB)) as [->|Hne].
    + by rewrite decide_True, andb_false_r.
    + by rewrite decide_False, andb_true_r.
Qed.

Lemma layout_freed sb V x :
  layout sb V -> 0 <= x < sb_size sb -> data_block sb x -> is_Some (V !! x) ->
  (forall d, V !! bblock sb x = Some d -> length d = 512%nat) -> layout sb (freed sb V x).
Proof.
  intros Hlo Hx Hdb Hxs Hlen.
  assert (Hsome : forall y, is_Some (V !! y) -> is_Some (freed sb V x !! y)).
  { intros y Hy. apply lookup_insert_is_Some. destruct (decide (bblock sb x = y)); [by left|by right]. }
  destruct Hlo as [(d & Hd1 & Hp) Hs Hn Hb Hbm Ho] eqn:E. split; try done.
  - exists d. split; [|done]. unfold freed. pose proof (bblock_ge sb V x Hlo ltac:(lia)).
    by rewrite lookup_insert_ne by lia.
  - intros y Hy Hf. apply Hsome. rewrite used_freed in Hf by done.
    destruct (Z.eqb_spec y x) as [->|]; [done|]. rewrite andb_true_r in Hf. by apply Hb.
  - intros y Hy. by apply Hsome, Hbm.
  - intros y Hy Hf. rewrite used_freed in Hf by done.
    destruct (Z.eqb_spec y x) as [->|]; [done|]. rewrite andb_true_r in Hf. by apply Ho.
Qed.

(** [balloc] returns the first block that the bitmap has as free, marks it
    in the bitmap and clears it; no other block is marked and no other block
    but the bitmap changes; with no free block at all it panics. *)
Theorem balloc_first_free l c s V Hd L sb :
  holds s V Hd L -> layout sb V -> alloc_free sb Hd -> room Hd L 3 ->
  (forall x, used sb V x = false -> Hd !! x = None) ->
  (exists x s' V' L', first_free sb V x /\ balloc ROOTDEV (Fs l c s) = Ret x (Fs l c s') /\
     holds s' V' Hd L' /\ layout sb V' /\ V' !! x = Some (replicate 512 0) /\
     (forall y, 0 <= y < sb_size sb -> used sb V' y = used sb V y || (y =? x)) /\
     (forall y, y <> x -> y <> bblock sb x -> V' !! y = V !! y)) \/
  (forall y, 0 <= y < data_end sb -> used sb V y = true) /\
    ((forall y, 0 <= y < sb_size sb -> used sb V y = true) -> balloc ROOTDEV (Fs l c s) = Panic "balloc: out of blocks").
Proof.
  intros Hh Hlo Haf Hr Hfree.
  destruct (find_first (fun y => negb (used sb V y)) (seqZ 0 (data_end sb))) as [i|] eqn:Hf.
  - left. apply find_first_Some in Hf as [(x & Hx & Hu) Hlt]. apply lookup_seqZ in Hx as [-> Hi].
    assert (Hff : first_free sb V (0 + Z.of_nat i)).
    { split_and!; [lia|lia|by destruct (used sb V _)|]. intros y Hy.
      specialize (Hlt (Z.to_nat y) y ltac:(lia)). rewrite lookup_seqZ in Hlt. specialize (Hlt ltac:(lia)).
      by destruct (used sb V y). }
    set (x := 0 + Z.of_nat i) in *.
    assert (Hlen : forall d, V !! bblock sb x = Some d -> length d = 512%nat)
      by (intros d; by apply (holds_length s V Hd L)).
    destruct (balloc_run l c s V Hd L sb x Hh Hlo Haf) as (s' & E & Hh'); [apply Hfree, Hff|done|done|].
    eexists x, s', _, _. split_and!; [done|done|exact Hh'|by apply layout_allocated|apply lookup_insert_eq| |].
    + intros y Hy. by apply used_allocated.
    + intros y H1' H2'. unfold allocated. by rewrite !lookup_insert_ne.
  - right. split.
    + intros y Hy. pose proof (proj1 (find_first_None _ _) Hf y) as Hn. simpl in Hn.
      rewrite elem_of_seqZ in Hn. specialize (Hn ltac:(lia)). by destruct (used sb V y).
    + intros Hall. apply (balloc_full l c s V Hd L sb); try done. by eapply room_le; [exact Hr|lia].
Qed.

(** [bfree] of a free block panics; [bfree] of the block that [balloc] has
    just given out makes the bitmap block byte for byte what it was, so that
    the only difference to the blocks before is that the block is cleared. *)
Theorem bfree_balloc l c s V Hd L sb x :
  holds s V Hd L -> layout sb V -> alloc_free sb Hd -> Hd !! x = None -> room Hd L 5 -> first_free sb V x ->
  bfree ROOTDEV x (Fs l c s) = Panic "freeing free block" /\
  exists s1 s2 V2 L2, balloc ROOTDEV (Fs l c s) = Ret x (Fs l c s1) /\
    bfree ROOTDEV x (Fs l c s1) = Ret tt (Fs l c s2) /\ holds s2 V2 Hd L2 /\
    V2 = <[x := replicate 512 0]> V.
Proof.
  intros Hh Hlo Haf HHx Hr Hff. pose proof Hff as (Hx' & Hu & _). destruct (lo_own _ _ Hlo x Hx' Hu) as [_ Hx1 Hxb _].
  pose proof (data_end_size _ _ Hx') as Hx. split.
  { pose proof (bfree_run l c s V Hd L sb x Hh Hlo Haf (room_le _ _ 5 2 Hr ltac:(lia)) Hx) as Hb. by rewrite Hu in Hb. }
  assert (Hlen : forall d, V !! bblock sb x = Some d -> length d = 512%nat) by (intros d; by apply (holds_length s V Hd L)).
  destruct (balloc_run l c s V Hd L sb x Hh Hlo Haf HHx (room_le _ _ 5 3 Hr ltac:(lia)) Hff) as (s1 & E1 & Hh1).
  pose proof (bfree_run l c s1 _ Hd _ sb x Hh1 (layout_allocated _ _ _ Hlo Hff Hlen) Haf) as Hb.
  rewrite used_allocated, Z.eqb_refl, orb_true_r in Hb by done.
  destruct Hb as (s2 & E2 & Hh2); [do 2 apply room_log; by eapply room_le; [exact Hr|lia]|done|].
  eexists s1, s2, _, _. split_and!; [done|done|exact Hh2|].
  destruct (lo_bitmap _ _ Hlo x Hx) as [d Hd']. unfold freed, allocated. rewrite Hd'.
  change (default [] (Some d)) with d.
  rewrite (lookup_insert_ne _ x) by by apply Hxb. rewrite lookup_insert_eq.
  change (default [] (Some (set_bit (x mod BPB) d))) with (set_bit (x mod BPB) d).
  assert (Hbit : bit d (x mod BPB) = false) by (unfold used in Hu; by rewrite Hd' in Hu).
  rewrite clear_set_bit; [|by apply Hlen|apply BPB_mod|done].
  rewrite (insert_insert_ne _ (bblock sb x) x) by by apply not_eq_sym, Hxb.
  rewrite insert_insert_eq. f_equal. by apply insert_id.
Qed.
End Alloc.
