(* ===== verification/FsInode.v ===== *)
(** * Disk inodes as bytes (fs.c, fs.h)

    A disk inode that is encoded into its slot of an inode block is decoded
    from it again, and the other slots of the block keep theirs. *)
From S2P Require Import Prelude Mmu Bytes BlockCache Fs.

(** The values that the fields of a disk inode can hold. *)
Definition short (z : Z) : Prop := - 2 ^ 15 <= z < 2 ^ 15.
Definition uint (z : Z) : Prop := 0 <= z < 2 ^ 32.

Record dinode_ok (i : dinode) : Prop := {
  di_type : short (d_type i);
  di_major : short (d_major i);
  di_minor : short (d_minor i);
  di_nlink : short (d_nlink i);
  di_size : uint (d_size i);
  di_len : length (d_addrs i) = 13%nat;
  di_addrs : Forall uint (d_addrs i)
}.

Lemma s16_le2 z : short z -> s16 (z mod 256 + 256 * ((z / 256) mod 256)) = z.
Proof.
  unfold short, s16. change (2 ^ 15) with 32768. change (2 ^ 16) with 65536. intros Hz.
  pose proof (Z.rem_mul_r z 256 256 ltac:(lia) ltac:(lia)) as E. rewrite <- E. change (256 * 256) with 65536.
  rewrite Z.add_mod_idemp_l by lia. rewrite Z.mod_small by lia. lia.
Qed.

Lemma u32_uint z : uint z -> u32 z = z.
Proof. intros Hz. by apply Z.mod_small. Qed.

Lemma length_dinode_bytes i : length (d_addrs i) = 13%nat -> length (dinode_bytes i) = 64%nat.
Proof.
  intros Hl. unfold dinode_bytes. rewrite !length_app. simpl.
  destruct (d_addrs i) as [|? [|? [|? [|? [|? [|? [|? [|? [|? [|? [|? [|? [|? [|? ?]]]]]]]]]]]]]]; done.
Qed.

Lemma get_dinode_bytes i : dinode_ok i -> get_dinode (dinode_bytes i) 0 = Some i.
Proof.
  destruct i as [ty ma mi nl sz ad]. intros [Hty Hma Hmi Hnl Hsz Hlen Had]. simpl in *.
  destruct ad as [|a0 [|a1 [|a2 [|a3 [|a4 [|a5 [|a6 [|a7 [|a8 [|a9 [|a10 [|a11 [|a12 [|? ?]]]]]]]]]]]]]]; try done.
  unfold get_dinode, get16, get32. simpl. unfold get32. simpl.
  rewrite !s16_le2, !of_le4_le4 by done. repeat (apply Forall_cons in Had as [? Had]).
  rewrite !u32_uint by done. done.
Qed.

(** ** The slot *)

Lemma drop_window {A} (d : list A) off k n : drop k (take n (drop off d)) = take (n - k) (drop (off + k) d).
Proof. by rewrite skipn_firstn_comm, drop_drop. Qed.

Lemma get16_window d off k : (k + 2 <= 64)%nat -> get16 d (off + k) = get16 (take 64 (drop off d)) k.
Proof.
  intros Hk. unfold get16. rewrite drop_window. destruct (64 - k)%nat as [|[|m]] eqn:E; [lia..|].
  by destruct (drop (off + k) d) as [|? [|? ?]].
Qed.

Lemma get32_window d off k : (k + 4 <= 64)%nat -> get32 d (off + k) = get32 (take 64 (drop off d)) k.
Proof.
  intros Hk. unfold get32. rewrite drop_window. destruct (64 - k)%nat as [|[|[|[|m]]]] eqn:E; [lia..|].
  by destruct (drop (off + k) d) as [|? [|? [|? [|? ?]]]].
Qed.

Lemma get_addrs_window d off n k :
  (k + 4 * n <= 64)%nat -> get_addrs n d (off + k) = get_addrs n (take 64 (drop off d)) k.
Proof.
  revert k. induction n as [|n IH]; intros k Hk; [done|]. cbn [get_addrs].
  rewrite get32_window by lia. destruct (get32 _ k); simpl; [|done].
  replace (off + k + 4)%nat with (off + (k + 4))%nat by lia. by rewrite IH by lia.
Qed.

Lemma get_dinode_window d off : get_dinode d off = get_dinode (take 64 (drop off d)) 0.
Proof.
  unfold get_dinode. replace (get16 d off) with (get16 (take 64 (drop off d)) 0)
    by (rewrite <- get16_window by lia; by rewrite Nat.add_0_r).
  by rewrite !(get16_window d off), (get32_window d off), (get_addrs_window d off) by lia.
Qed.

Lemma splice_window off w d :
  (off + length w <= length d)%nat -> take (length w) (drop off (splice off w d)) = w.
Proof.
  intros Hl. unfold splice. rewrite drop_app_length' by (rewrite length_take; lia). by rewrite take_app_length.
Qed.

Lemma splice_other off off' w d n :
  (off + length w <= length d)%nat -> (off' + n <= off \/ off + length w <= off')%nat ->
  take n (drop off' (splice off w d)) = take n (drop off' d).
Proof.
  intros Hl [Ho|Ho]; unfold splice.
  - rewrite drop_app_le by (rewrite length_take; lia). rewrite take_app_le by (rewrite length_drop, length_take; lia).
    rewrite <- (take_drop off d) at 2. rewrite drop_app_le by (rewrite length_take; lia).
    by rewrite take_app_le by (rewrite length_drop, length_take; lia).
  - rewrite drop_app_ge by (rewrite length_take; lia). rewrite length_take, Nat.min_l by lia.
    rewrite drop_app_ge by lia. rewrite drop_drop. do 2 f_equal. lia.
Qed.

Lemma dinode_at_bound inum : (dinode_at inum + 64 <= 512)%nat.
Proof. unfold dinode_at. change IPB with 8. pose proof (Z.mod_pos_bound inum 8 ltac:(lia)). lia. Qed.

Lemma dinode_at_apart i j :
  IBLOCK i = IBLOCK j -> i <> j -> (dinode_at j + 64 <= dinode_at i \/ dinode_at i + 64 <= dinode_at j)%nat.
Proof.
  unfold IBLOCK, dinode_at. change IPB with 8. intros Hb Hne.
  pose proof (Z.div_mod i 8 ltac:(lia)). pose proof (Z.div_mod j 8 ltac:(lia)).
  pose proof (Z.mod_pos_bound i 8 ltac:(lia)). pose proof (Z.mod_pos_bound j 8 ltac:(lia)). lia.
Qed.

(** A disk inode that iupdate stores into its slot of an inode block is
    the one that ilock loads from it, and every other inode of the block is
    what it was. *)
Lemma dinode_slot i inum d :
  dinode_ok i -> length d = 512%nat ->
  let d' := splice (dinode_at inum) (dinode_bytes i) d in
  length d' = 512%nat /\ get_dinode d' (dinode_at inum) = Some i /\
  forall j, IBLOCK j = IBLOCK inum -> j <> inum -> get_dinode d' (dinode_at j) = get_dinode d (dinode_at j).
Proof.
  intros Hok Hl. cbv zeta. pose proof (length_dinode_bytes i (di_len _ Hok)) as Hb.
  pose proof (dinode_at_bound inum) as Ha. split_and!.
  - unfold splice. rewrite !length_app, length_take, length_drop. lia.
  - rewrite get_dinode_window. rewrite <- Hb, splice_window by lia. by apply get_dinode_bytes.
  - intros j Hj Hne. rewrite get_dinode_window, (get_dinode_window d). f_equal. apply splice_other; [lia|].
    rewrite Hb. destruct (dinode_at_apart inum j); auto.
Qed.
