(* ===== verification/FsFile.v ===== *)
(** * Files: the content of an inode (fs.c)

    The blocks of a file are a finite map [bm] from block numbers of the file
    to blocks of the disk; [bmap] looks it up and extends it, [readi] and
    [writei] read and write the bytes behind it.  The file system has one
    bitmap block ([single]), as every image that mkfs makes. *)
From S2P Require Import Prelude Mmu Spinlock Strings Bytes BlockCache Store Fs FsBlocks FsInode.

Section File.
Context {S H : Type} `{StoreLaws S H} `{!Loggable S H}.
Implicit Types (V : gmap Z (list Z)) (Hd : gmap Z (H * bool)) (L : gset Z) (l : lstate) (c : icst) (s : S).
Context (sb : superblock) (single : sb_size sb <= BPB).

Abbreviation bb := (bblock sb 0).
Abbreviation used := (used sb).

Lemma one_bitmap x : 0 <= x < sb_size sb -> bblock sb x = bb.
Proof.
  intros Hx. unfold bblock, BBLOCK. change BPB with 4096 in *. rewrite (Z.div_small x) by lia. done.
Qed.

(** ** The cache entry of the inode *)

Lemma first_bitmap V x : first_free sb V x -> bblock sb x = bb.
Proof. intros (Hx & _). by apply one_bitmap, data_end_size. Qed.

Lemma get_inode_run l c s ip i :
  inodes c !! ip = Some i -> get_inode ip (Fs l c s) = Ret i (Fs l c s).
Proof.
  intros Hi. unfold get_inode, ic_get, zoom, gets_opt. simpl. rewrite Hi. unfold set_ic. by destruct c.
Qed.

Definition put_d (ip : nat) (i : inode) (d : dinode) (c : icst) : icst :=
  Icst (<[ip := set_i_d d i]> (inodes c)) (woken c).

Lemma upd_dinode_run l c s ip i f :
  inodes c !! ip = Some i ->
  upd_dinode ip f (Fs l c s) = Ret tt (Fs l (put_d ip i (f (i_d i)) c) s).
Proof.
  intros Hi. unfold upd_dinode, upd_inode, ic_upd, zoom, modify, set_ic, put_d. simpl.
  do 2 f_equal. f_equal. apply list_eq. intros j. destruct (decide (j = ip)) as [->|Hj].
  - rewrite list_lookup_alter_eq, Hi. simpl. symmetry. apply list_lookup_insert_eq. by eapply lookup_lt_Some.
  - by rewrite list_lookup_alter_ne, list_lookup_insert_ne by done.
Qed.

Lemma put_d_lookup ip i d c : inodes c !! ip = Some i -> inodes (put_d ip i d c) !! ip = Some (set_i_d d i).
Proof. intros Hi. apply list_lookup_insert_eq. by eapply lookup_lt_Some. Qed.

(** ** Block maps *)

(** The indirect block; 0 for none. *)
Definition ind (addrs : list Z) : Z := default 0 (rd addrs NDIRECT).

(** The block of the disk that holds block [n] of the file; 0 for none. *)
Definition fblock V (addrs : list Z) (n : Z) : Z :=
  if n <? NDIRECT then default 0 (rd addrs n)
  else
    match V !! ind addrs with
    | Some d => if ind addrs =? 0 then 0 else default 0 (get32 d (Z.to_nat (4 * (n - NDIRECT))))
    | None => 0
    end.

(** A block that is in use for data. *)
Record owned V (a : Z) : Prop := {
  ow_range : 0 <= a < sb_size sb;
  ow_used : used V a = true;
  ow_data : data_block sb a;
  ow_disk : is_Some (V !! a)
}.

Record file_ok V (addrs : list Z) (bm : gmap Z Z) : Prop := {
  fo_len : length addrs = 13%nat;
  fo_map : forall n, 0 <= n < MAXFILE -> fblock V addrs n = default 0 (bm !! n);
  fo_dom : forall n a, bm !! n = Some a -> 0 <= n < MAXFILE /\ owned V a;
  fo_inj : forall n m a, bm !! n = Some a -> bm !! m = Some a -> n = m;
  fo_ind : ind addrs <> 0 -> owned V (ind addrs) /\ forall n, bm !! n <> Some (ind addrs);
  fo_high : ind addrs = 0 -> forall n, NDIRECT <= n -> bm !! n = None
}.

Lemma owned_bb V a : owned V a -> a <> bb.
Proof. intros Ho. rewrite <- (one_bitmap a) by apply Ho. apply (ow_data _ _ Ho), Ho. Qed.

(** The blocks that a file occupies. *)
Definition blocks (addrs : list Z) (bm : gmap Z Z) (a : Z) : Prop :=
  (exists n, bm !! n = Some a) \/ a = ind addrs /\ a <> 0.

Lemma blocks_owned V addrs bm a : file_ok V addrs bm -> blocks addrs bm a -> owned V a.
Proof. intros Hf [[n Hn]|[-> Hne]]; [by apply (fo_dom _ _ _ Hf n)|by apply (fo_ind _ _ _ Hf)]. Qed.

(** The owned blocks survive changes of other blocks and of the bitmap. *)
Lemma owned_keep V V' a :
  owned V a -> (used V a = true -> used V' a = true) -> (is_Some (V !! a) -> is_Some (V' !! a)) -> owned V' a.
Proof. intros [H1' H2' H3' H4'] Hu Hs. split; auto. Qed.

Lemma file_keep V V' addrs bm :
  file_ok V addrs bm ->
  (forall a, owned V a -> used V' a = true) -> (forall a, blocks addrs bm a -> is_Some (V !! a) -> is_Some (V' !! a)) ->
  (ind addrs <> 0 -> V' !! ind addrs = V !! ind addrs) -> file_ok V' addrs bm.
Proof.
  intros [Hl Hm Hd Hi Hin Hhi] Hu Hs Hv. split; try done.
  - intros n Hn. rewrite <- Hm by done. unfold fblock. destruct (n <? NDIRECT); [done|].
    destruct (Z.eqb_spec (ind addrs) 0) as [->|Hne].
    + by destruct (V' !! 0), (V !! 0).
    + by rewrite Hv.
  - intros n a Ha. destruct (Hd n a Ha) as [Hn Ho]. split; [done|].
    eapply owned_keep; [exact Ho|by intros _; apply Hu|apply Hs; left; by exists n].
  - intros Hne. destruct (Hin Hne) as [Ho Hno]. split; [|done].
    eapply owned_keep; [exact Ho|by intros _; apply Hu|apply Hs; by right].
Qed.

(** The bytes of the file. *)
Definition fbyte V (bm : gmap Z Z) (o : Z) : option Z :=
  a ← bm !! (o / BSIZE); d ← V !! a; d !! Z.to_nat (o mod BSIZE).


(** ** Free blocks *)

Definition free_set V : gset Z := list_to_set (filter (fun y => used V y = false) (seqZ 0 (data_end sb))).

Lemma elem_of_free V y : y ∈ free_set V <-> 0 <= y < data_end sb /\ used V y = false.
Proof.
  unfold free_set. rewrite elem_of_list_to_set, list_elem_of_filter, elem_of_seqZ. naive_solver lia.
Qed.

Lemma used_same V V' y : V' !! bb = V !! bb -> 0 <= y < sb_size sb -> used V' y = used V y.
Proof. intros Hb Hy. unfold FsBlocks.used. by rewrite (one_bitmap y Hy), Hb. Qed.

Lemma free_set_same V V' : V' !! bb = V !! bb -> free_set V' = free_set V.
Proof.
  intros Hb. apply set_eq. intros y. rewrite !elem_of_free. split; intros [Hy Hu]; split; try done.
  - by rewrite <- (used_same V V') by (done || by apply data_end_size).
  - by rewrite (used_same V V') by (done || by apply data_end_size).
Qed.

Lemma first_free_exists V : (0 < size (free_set V))%nat -> exists x, first_free sb V x.
Proof.
  intros Hsz. destruct (find_first (fun y => negb (used V y)) (seqZ 0 (data_end sb))) as [i|] eqn:Hf.
  - apply find_first_Some in Hf as [(x & Hx & Hu) Hlt]. apply lookup_seqZ in Hx as [-> Hi]. exists (0 + Z.of_nat i).
    split_and!; [lia|lia|by destruct (used V _)|]. intros y Hy.
    specialize (Hlt (Z.to_nat y) y ltac:(lia)). rewrite lookup_seqZ in Hlt. specialize (Hlt ltac:(lia)).
    by destruct (used V y).
  - exfalso. apply size_pos_elem_of in Hsz as [y Hy]. apply elem_of_free in Hy as [Hy Hu].
    pose proof (proj1 (find_first_None _ _) Hf y) as Hn. rewrite elem_of_seqZ in Hn. specialize (Hn ltac:(lia)).
    simpl in Hn. by rewrite Hu in Hn.
Qed.

Definition lengths V : Prop := forall b d, V !! b = Some d -> length d = 512%nat.

(** What allocating [x] does. *)
Lemma alloc_facts V x :
  layout sb V -> first_free sb V x -> lengths V ->
  let V' := allocated sb V x in
  layout sb V' /\ lengths V' /\ owned V' x /\ V' !! x = Some (replicate 512 0) /\
  (forall y, y <> bb -> y <> x -> V' !! y = V !! y) /\
  (forall y, 0 <= y < sb_size sb -> used V' y = used V y || (y =? x)) /\
  size (free_set V) = Datatypes.S (size (free_set V')).
Proof.
  intros Hlo Hff Hlen V'. pose proof Hff as (Hxd & Hu & _). pose proof (data_end_size _ _ Hxd) as Hx.
  assert (HlenV : forall d, V !! bblock sb x = Some d -> length d = 512%nat) by (intros d; apply Hlen).
  pose proof (lo_own _ _ Hlo x Hxd Hu) as Hdb.
  assert (Hused : forall y, 0 <= y < sb_size sb -> used V' y = used V y || (y =? x))
    by (intros y Hy; by apply used_allocated).
  assert (Hz : V' !! x = Some (replicate 512 0)) by apply lookup_insert_eq.
  split_and!; [by apply layout_allocated| | |done| |done|].
  - intros y d Hy. unfold V', allocated in Hy. apply lookup_insert_Some in Hy as [[_ <-]|[_ Hy]]; [by rewrite length_replicate|].
    apply lookup_insert_Some in Hy as [[_ <-]|[_ Hy]]; [|by eapply Hlen].
    unfold set_bit. rewrite length_alter. destruct (lo_bitmap _ _ Hlo x Hx) as [e He]. rewrite He. by eapply Hlen.
  - split; [done| |done|by eexists]. by rewrite Hused, Z.eqb_refl, orb_true_r.
  - intros y Hy1 Hy2. unfold V', allocated. rewrite (one_bitmap x Hx). by rewrite !lookup_insert_ne.
  - assert (E : free_set V = {[x]} ∪ free_set V').
    { apply set_eq. intros y. rewrite elem_of_union, elem_of_singleton, !elem_of_free. split.
      - intros [Hy Hyu]. destruct (decide (y = x)) as [|Hne]; [by left|right]. split; [done|].
        rewrite Hused by by apply data_end_size. rewrite Hyu. by apply Z.eqb_neq.
      - intros [->|[Hy Hyu]]; [done|]. split; [done|]. rewrite Hused in Hyu by by apply data_end_size. by apply orb_false_iff in Hyu as [? _]. }
    rewrite E, size_union, size_singleton; [done|]. intros y Hy1 Hy2. apply elem_of_singleton in Hy1 as ->.
    apply elem_of_free in Hy2 as [_ Hyu]. rewrite Hused, Z.eqb_refl, orb_true_r in Hyu by done. done.
Qed.

(** ** Adding a block to a file *)

(** [x] is a block of its own. *)
Definition fresh_for (addrs : list Z) (bm : gmap Z Z) (x : Z) : Prop :=
  x <> ind addrs /\ forall n, bm !! n <> Some x.

Lemma alloc_file V x addrs bm :
  layout sb V -> first_free sb V x -> lengths V -> file_ok V addrs bm ->
  file_ok (allocated sb V x) addrs bm /\ fresh_for addrs bm x.
Proof.
  intros Hlo Hff Hlen Hf. destruct (alloc_facts V x Hlo Hff Hlen) as (_ & _ & Hox & _ & Hkeep & Hused & _).
  destruct Hff as (Hx & Hu & _). split.
  - apply (file_keep V); [done| | |].
    + intros a Ha. rewrite Hused by apply Ha. by rewrite (ow_used _ _ Ha).
    + intros a _ Ha. unfold allocated. apply lookup_insert_is_Some. destruct (decide (x = a)); [by left|right].
      split; [done|]. apply lookup_insert_is_Some. destruct (decide (bblock sb x = a)); [by left|by right].
    + intros Hne. destruct (fo_ind _ _ _ Hf Hne) as [Ho _]. apply Hkeep.
      * by eapply owned_bb.
      * intros E. pose proof (ow_used _ _ Ho) as Hou. rewrite E in Hou. congruence.
  - split.
    + intros E. destruct (decide (ind addrs = 0)) as [Hz|Hne].
      * apply (db_boot _ _ (lo_own _ _ Hlo x Hx Hu)). congruence.
      * destruct (fo_ind _ _ _ Hf Hne) as [Ho _]. pose proof (ow_used _ _ Ho) as Hou. rewrite <- E in Hou. congruence.
    + intros n Hn. destruct (fo_dom _ _ _ Hf n x Hn) as [_ Ho]. pose proof (ow_used _ _ Ho). congruence.
Qed.

Lemma ind_insert addrs k x : 0 <= k < 12 -> ind (<[Z.to_nat k := x]> addrs) = ind addrs.
Proof.
  intros Hk. unfold ind, rd. change NDIRECT with 12. rewrite !decide_True by lia. f_equal.
  apply list_lookup_insert_ne. lia.
Qed.

Lemma ind_set addrs x : length addrs = 13%nat -> ind (<[Z.to_nat NDIRECT := x]> addrs) = x.
Proof.
  intros Hl. unfold ind, rd. change NDIRECT with 12. rewrite decide_True by lia.
  rewrite list_lookup_insert_eq by lia. done.
Qed.

Lemma bm_insert V addrs bm n x :
  file_ok V addrs bm -> owned V x -> fresh_for addrs bm x -> 0 <= n < MAXFILE ->
  (forall m a, <[n := x]> bm !! m = Some a -> 0 <= m < MAXFILE /\ owned V a) /\
  (forall m k a, <[n := x]> bm !! m = Some a -> <[n := x]> bm !! k = Some a -> m = k) /\
  (ind addrs <> 0 -> owned V (ind addrs) /\ forall m, <[n := x]> bm !! m <> Some (ind addrs)).
Proof.
  intros [Hl Hm Hd Hi Hin Hhi] Ho [Hxi Hxb] Hn. split_and!.
  - intros m a Ha. apply lookup_insert_Some in Ha as [[<- <-]|[_ Ha]]; [done|by apply Hd].
  - intros m k a Ha Hk. apply lookup_insert_Some in Ha as [[<- <-]|[Hmn Ha]];
      apply lookup_insert_Some in Hk as [[<- E]|[Hkn Hk]]; try done.
    + by destruct (Hxb k).
    + subst a. by destruct (Hxb m).
    + by eapply Hi.
  - intros Hne. destruct (Hin Hne) as [Hoi Hno]. split; [done|]. intros m Hm'.
    apply lookup_insert_Some in Hm' as [[_ E]|[_ Hm']]; [done|by apply (Hno m)].
Qed.

Lemma link_direct V addrs bm n x :
  file_ok V addrs bm -> owned V x -> fresh_for addrs bm x -> 0 <= n < NDIRECT ->
  file_ok V (<[Z.to_nat n := x]> addrs) (<[n := x]> bm).
Proof.
  intros Hf Ho Hfr Hn. change NDIRECT with 12 in Hn.
  assert (HnM : 0 <= n < MAXFILE) by (change MAXFILE with 140; lia).
  destruct (bm_insert V addrs bm n x Hf Ho Hfr HnM) as (Hd & Hi & Hin).
  pose proof (fo_len _ _ _ Hf) as Hl. split; try done.
  - by rewrite length_insert.
  - intros m Hm. unfold fblock. rewrite ind_insert by done.
    destruct (Z.ltb_spec m NDIRECT) as [Hlt|Hge]; change NDIRECT with 12 in *.
    + unfold rd. rewrite decide_True by lia. destruct (decide (m = n)) as [->|Hne].
      * by rewrite list_lookup_insert_eq, lookup_insert_eq by lia.
      * rewrite list_lookup_insert_ne, lookup_insert_ne by lia. rewrite <- (fo_map _ _ _ Hf m Hm).
        unfold fblock. rewrite (proj2 (Z.ltb_lt m NDIRECT)) by (change NDIRECT with 12; lia).
        unfold rd. by rewrite decide_True by lia.
    + rewrite lookup_insert_ne by lia. rewrite <- (fo_map _ _ _ Hf m Hm). unfold fblock.
      rewrite (proj2 (Z.ltb_ge m NDIRECT)) by (change NDIRECT with 12; lia). done.
  - rewrite ind_insert by done. done.
  - rewrite ind_insert by done. intros Hz m Hm. rewrite lookup_insert_ne by (change NDIRECT with 12 in *; lia).
    by apply (fo_high _ _ _ Hf).
Qed.

Lemma get32_zeros k : (k + 4 <= 512)%nat -> get32 (replicate 512 0) k = Some 0.
Proof.
  intros Hk. unfold get32. rewrite drop_replicate. replace (512 - k)%nat with (4 + (508 - k))%nat by lia.
  by rewrite replicate_add.
Qed.

Lemma link_ind V addrs bm x :
  file_ok V addrs bm -> owned V x -> fresh_for addrs bm x -> ind addrs = 0 ->
  V !! x = Some (replicate 512 0) -> file_ok V (<[Z.to_nat NDIRECT := x]> addrs) bm.
Proof.
  intros Hf Ho [Hxi Hxb] Hz HVx. pose proof (fo_len _ _ _ Hf) as Hl. split; try apply Hf.
  - by rewrite length_insert.
  - intros n Hn. unfold fblock. rewrite ind_set by done.
    destruct (Z.ltb_spec n NDIRECT) as [Hlt|Hge]; change NDIRECT with 12 in *; change MAXFILE with 140 in *.
    + rewrite <- (fo_map _ _ _ Hf n Hn). unfold fblock.
      rewrite (proj2 (Z.ltb_lt n NDIRECT)) by (change NDIRECT with 12; lia). unfold rd. rewrite !decide_True by lia.
      by rewrite list_lookup_insert_ne by lia.
    + rewrite (fo_high _ _ _ Hf Hz n) by (change NDIRECT with 12; lia). rewrite HVx.
      destruct (x =? 0); [done|]. by rewrite get32_zeros by lia.
  - rewrite ind_set by done. done.
  - rewrite ind_set by done. intros ->. by destruct (db_boot _ _ (ow_data _ _ Ho)).
Qed.

(** Writing a block that is not the bitmap. *)
Lemma used_data V a d y : a <> bb -> 0 <= y < sb_size sb -> used (<[a := d]> V) y = used V y.
Proof. intros Ha Hy. apply used_same; [by apply lookup_insert_ne|done]. Qed.

Lemma layout_data V a d :
  layout sb V -> a <> 1 -> a <> bb -> layout sb (<[a := d]> V).
Proof.
  intros Hlo Ha1 Hab. assert (Hs : forall y, is_Some (V !! y) -> is_Some (<[a := d]> V !! y)).
  { intros y Hy. apply lookup_insert_is_Some. destruct (decide (a = y)); [by left|by right]. }
  destruct Hlo as [(e & He & Hp) H1' H2' H3' H4' H5']. split; try done.
  - exists e. by rewrite lookup_insert_ne by done.
  - intros x Hx. rewrite used_data by (done || by apply data_end_size). intros Hu. by apply Hs, H3'.
  - intros x Hx. by apply Hs, H4'.
  - intros x Hx. rewrite used_data by (done || by apply data_end_size). by apply H5'.
Qed.

Lemma owned_data V a d y : owned V a -> owned V y -> owned (<[a := d]> V) y.
Proof.
  intros Ha Hy. apply (owned_keep V); [done| |].
  - by rewrite used_data; [|by eapply owned_bb|apply Hy].
  - intros Hs. apply lookup_insert_is_Some. destruct (decide (a = y)); [by left|by right].
Qed.

Lemma lengths_insert V a d : lengths V -> length d = 512%nat -> lengths (<[a := d]> V).
Proof. intros Hl Hd b e Hb. apply lookup_insert_Some in Hb as [[_ <-]|[_ Hb]]; [done|by eapply Hl]. Qed.

(** Writing a data block of the file. *)
Lemma file_data V addrs bm a d :
  file_ok V addrs bm -> owned V a -> a <> ind addrs -> file_ok (<[a := d]> V) addrs bm.
Proof.
  intros Hf Ho Hne. apply (file_keep V); [done| | |].
  - intros y Hy. rewrite used_data; [apply Hy|by eapply owned_bb|apply Hy].
  - intros y _ Hs. apply lookup_insert_is_Some. destruct (decide (a = y)); [by left|by right].
  - intros _. by rewrite lookup_insert_ne.
Qed.

Lemma link_indirect V addrs bm n x d :
  file_ok V addrs bm -> owned V x -> fresh_for addrs bm x -> NDIRECT <= n < MAXFILE -> ind addrs <> 0 ->
  V !! ind addrs = Some d -> length d = 512%nat ->
  file_ok (<[ind addrs := put32 (Z.to_nat (4 * (n - NDIRECT))) x d]> V) addrs (<[n := x]> bm).
Proof.
  intros Hf Ho Hfr Hn Hne HVd Hd. change NDIRECT with 12 in *. change MAXFILE with 140 in *.
  assert (HnM : 0 <= n < MAXFILE) by (change MAXFILE with 140; lia).
  destruct (bm_insert V addrs bm n x Hf Ho Hfr HnM) as (Hdom & Hi & Hin). destruct (Hin Hne) as [Hoi Hno].
  set (k := Z.to_nat (4 * (n - 12))). assert (Hk : (k + 4 <= length d)%nat) by (rewrite Hd; unfold k; lia).
  split; try done.
  - apply Hf.
  - intros m Hm. unfold fblock. destruct (Z.ltb_spec m NDIRECT) as [Hlt|Hge];
      change NDIRECT with 12 in *; change MAXFILE with 140 in *.
    + rewrite lookup_insert_ne by lia. rewrite <- (fo_map _ _ _ Hf m Hm). unfold fblock.
      by rewrite (proj2 (Z.ltb_lt m NDIRECT)) by (change NDIRECT with 12; lia).
    + rewrite lookup_insert_eq. rewrite (proj2 (Z.eqb_neq _ 0) Hne). destruct (decide (m = n)) as [->|Hmn].
      * rewrite lookup_insert_eq. fold k. rewrite get32_put32 by done. simpl.
        pose proof (ow_range _ _ Ho). change BPB with 4096 in single. apply u32_small. lia.
      * rewrite lookup_insert_ne by done. rewrite <- (fo_map _ _ _ Hf m Hm). unfold fblock.
        rewrite (proj2 (Z.ltb_ge m NDIRECT)) by (change NDIRECT with 12; lia). rewrite HVd, (proj2 (Z.eqb_neq _ 0) Hne).
        change NDIRECT with 12. destruct (decide (m < n)).
        -- rewrite get32_put32_before; [done|done|unfold k; lia].
        -- rewrite get32_put32_after; [done|done|unfold k; lia].
  - intros m a Ha. destruct (Hdom m a Ha) as [Hm Hoa]. split; [done|]. by apply owned_data.
  - intros _. split; [by apply owned_data|done].
Qed.

(** ** [bmap] *)

(** Buffers for the indirect block that is still to be allocated. *)
Definition need (addrs : list Z) : nat := if ind addrs =? 0 then 1%nat else 0%nat.

(** The file before and after one of its blocks was looked up or added. *)
Record grows V V' (addrs addrs' : list Z) (bm bm' : gmap Z Z) : Prop := {
  gr_layout : layout sb V';
  gr_len : lengths V';
  gr_file : file_ok V' addrs' bm';
  gr_sub : bm ⊆ bm';
  gr_new : forall m b, bm' !! m = Some b -> bm !! m = None -> V' !! b = Some (replicate 512 0) /\ b ∈ free_set V;
  gr_ind : ind addrs' = ind addrs \/ ind addrs' ∈ free_set V;
  gr_keep : forall y, y <> bb -> y <> ind addrs -> ~ y ∈ free_set V -> V' !! y = V !! y;
  gr_used : forall y, 0 <= y < sb_size sb -> used V y = true -> used V' y = true
}.

Lemma grows_refl V addrs bm : layout sb V -> lengths V -> file_ok V addrs bm -> grows V V addrs addrs bm bm.
Proof. intros. split; try done; [intros m b Hm Hn; congruence|by left]. Qed.

Lemma first_free_in V x : first_free sb V x -> x ∈ free_set V.
Proof. intros (H1' & H2' & _). by apply elem_of_free. Qed.

(** A free block is given to the file. *)
Lemma grows_alloc V x addrs addrs' bm bm' :
  layout sb V -> lengths V -> first_free sb V x ->
  file_ok (allocated sb V x) addrs' bm' -> bm ⊆ bm' ->
  (forall m b, bm' !! m = Some b -> bm !! m = None -> b = x) -> ind addrs' = ind addrs \/ ind addrs' = x ->
  grows V (allocated sb V x) addrs addrs' bm bm'.
Proof.
  intros Hlo Hlen Hff Hf Hsub Hnew Hind. pose proof (first_free_in V x Hff) as Hfx.
  destruct (alloc_facts V x Hlo Hff Hlen) as (Hlo' & Hlen' & _ & Hz & Hkeep & Hused & _).
  split; try done.
  - intros m b Hm Hn. by rewrite (Hnew m b).
  - destruct Hind as [Hi | ->]; [by left|by right].
  - intros y Hy1 Hy2 Hy3. apply Hkeep; [done|]. by intros ->.
  - intros y Hy Hu. rewrite Hused by done. by rewrite Hu.
Qed.

Lemma entry_direct V addrs bm n :
  file_ok V addrs bm -> 0 <= n < NDIRECT -> rd addrs n = Some (default 0 (bm !! n)).
Proof.
  intros Hf Hn. change NDIRECT with 12 in *. assert (HnM : 0 <= n < MAXFILE) by (change MAXFILE with 140; lia).
  rewrite <- (fo_map _ _ _ Hf n HnM). unfold fblock. rewrite (proj2 (Z.ltb_lt n NDIRECT)) by (change NDIRECT with 12; lia).
  destruct (rd_in_range addrs n) as [a Ha]; [rewrite (fo_len _ _ _ Hf); lia|]. by rewrite Ha.
Qed.

Lemma entry_ind V addrs bm : file_ok V addrs bm -> rd addrs NDIRECT = Some (ind addrs).
Proof.
  intros Hf. unfold ind. destruct (rd_in_range addrs NDIRECT) as [a Ha]; [rewrite (fo_len _ _ _ Hf); by vm_compute|].
  by rewrite Ha.
Qed.

Lemma entry_indirect V addrs bm n d :
  file_ok V addrs bm -> ind addrs <> 0 -> NDIRECT <= n < MAXFILE -> V !! ind addrs = Some d -> length d = 512%nat ->
  get32 d (Z.to_nat (4 * (n - NDIRECT))) = Some (default 0 (bm !! n)).
Proof.
  intros Hf Hne Hn Hd Hdl. change NDIRECT with 12 in *. change MAXFILE with 140 in *.
  rewrite <- (fo_map _ _ _ Hf n) by (change MAXFILE with 140; lia). unfold fblock.
  rewrite (proj2 (Z.ltb_ge n NDIRECT)) by (change NDIRECT with 12; lia). rewrite Hd, (proj2 (Z.eqb_neq _ 0) Hne).
  change NDIRECT with 12. set (k := Z.to_nat (4 * (n - 12))). unfold get32.
  destruct (drop k d) as [|? [|? [|? [|? ?]]]] eqn:E; [exfalso..|done].
  all: apply (f_equal length) in E; rewrite length_drop in E; simpl in E; unfold k in E; lia.
Qed.

Lemma grows_direct V addrs bm n x :
  layout sb V -> lengths V -> first_free sb V x -> file_ok V addrs bm -> 0 <= n < NDIRECT -> bm !! n = None ->
  grows V (allocated sb V x) addrs (<[Z.to_nat n := x]> addrs) bm (<[n := x]> bm).
Proof.
  intros Hlo Hlen Hff Hf Hn Hbn. destruct (alloc_facts V x Hlo Hff Hlen) as (_ & _ & Hox & _ & _ & _ & _).
  destruct (alloc_file V x addrs bm Hlo Hff Hlen Hf) as [Hf' Hfr]. apply grows_alloc; try done.
  - by apply link_direct.
  - by apply insert_subseteq.
  - intros m b Hm Hbm. apply lookup_insert_Some in Hm as [[_ <-]|[_ Hm]]; [done|congruence].
  - left. by apply ind_insert.
Qed.

Lemma grows_new_ind V addrs bm x :
  layout sb V -> lengths V -> first_free sb V x -> file_ok V addrs bm -> ind addrs = 0 ->
  grows V (allocated sb V x) addrs (<[Z.to_nat NDIRECT := x]> addrs) bm bm.
Proof.
  intros Hlo Hlen Hff Hf Hz. destruct (alloc_facts V x Hlo Hff Hlen) as (_ & _ & Hox & Hzx & _ & _ & _).
  destruct (alloc_file V x addrs bm Hlo Hff Hlen Hf) as [Hf' Hfr]. apply grows_alloc; try done.
  - by apply link_ind.
  - intros m b Hm1 Hm2. congruence.
  - right. apply ind_set, Hf.
Qed.

Lemma grows_indirect V addrs bm n x d :
  layout sb V -> lengths V -> first_free sb V x -> file_ok V addrs bm -> ind addrs <> 0 -> NDIRECT <= n < MAXFILE ->
  V !! ind addrs = Some d -> bm !! n = None ->
  let V1 := allocated sb V x in
  V1 !! ind addrs = Some d /\ x <> ind addrs /\
  grows V (<[ind addrs := put32 (Z.to_nat (4 * (n - NDIRECT))) x d]> V1) addrs addrs bm (<[n := x]> bm).
Proof.
  intros Hlo Hlen Hff Hf Hne Hn Hd Hbn V1. destruct (fo_ind _ _ _ Hf Hne) as [Hoi Hno]. pose proof (Hlen _ _ Hd) as Hdl.
  destruct (alloc_facts V x Hlo Hff Hlen) as (Hlo' & Hlen' & Hox & Hz & Hkeep & Hused & Hsz).
  destruct (alloc_file V x addrs bm Hlo Hff Hlen Hf) as [Hf' Hfr].
  assert (HVi : V1 !! ind addrs = Some d) by (unfold V1; rewrite Hkeep; [done|by eapply owned_bb|apply not_eq_sym, Hfr]).
  split_and!; [done|apply Hfr|]. pose proof (link_indirect V1 addrs bm n x d Hf' Hox Hfr Hn Hne HVi Hdl) as Hf2. split.
  - apply layout_data; [done|apply Hoi|by eapply owned_bb].
  - apply lengths_insert; [done|]. rewrite length_put32; [done|]. rewrite Hdl. change NDIRECT with 12 in *. change MAXFILE with 140 in *. lia.
  - done.
  - by apply insert_subseteq.
  - intros m b Hm Hbm. apply lookup_insert_Some in Hm as [[_ <-]|[_ Hm]]; [|congruence].
    split; [|by apply first_free_in]. rewrite lookup_insert_ne; [done|]. apply not_eq_sym, Hfr.
  - by left.
  - intros y Hy1 Hy2 Hy3. rewrite lookup_insert_ne by done. apply Hkeep; [done|]. intros ->. by apply Hy3, first_free_in.
  - intros y Hy Hu. unfold V1. rewrite used_data by (done || by eapply owned_bb). rewrite Hused by done. by rewrite Hu.
Qed.

Lemma put_d_id ip i c : inodes c !! ip = Some i -> put_d ip i (set_d_addrs (i_addrs i) (i_d i)) c = c.
Proof.
  intros Hi. unfold put_d, set_d_addrs, i_addrs, set_i_d. destruct c as [inodes woken], i as [a1 a2 a3 a4 a5 d].
  simpl in *. f_equal. destruct d. simpl. by apply list_insert_id.
Qed.

(** The allocator from a state without buffers. *)
Lemma balloc_quiet l c s V L :
  holds s V ∅ L -> layout sb V -> room (∅ : gmap Z (H * bool)) ({[bb]} ∪ L) 3 -> (0 < size (free_set V))%nat ->
  exists x s', first_free sb V x /\ balloc ROOTDEV (Fs l c s) = Ret x (Fs l c s') /\
    holds s' (allocated sb V x) ∅ ({[x]} ∪ ({[bb]} ∪ L)).
Proof.
  intros Hh Hlo Hr Hfree. destruct (first_free_exists V Hfree) as (x & Hff).
  destruct (balloc_run l c s V ∅ L sb x Hh Hlo) as (s' & E & Hh'); try done.
  - unfold room in *. rewrite dom_empty_L, union_empty_l_L in *.
    pose proof (subseteq_size L ({[bb]} ∪ L) ltac:(set_solver)). lia.
  - exists x, s'. split_and!; [done|done|]. rewrite (first_bitmap V x Hff) in Hh'. done.
Qed.

(** The blocks that the log will hold in any case. *)
Definition base (addrs : list Z) L : gset Z :=
  if ind addrs =? 0 then {[bb]} ∪ L else {[ind addrs]} ∪ ({[bb]} ∪ L).

Abbreviation room0 := (room (∅ : gmap Z (H * bool))).

Lemma room0_sub (X Y : gset Z) n m : X ⊆ Y -> (m <= n)%nat -> room0 Y n -> room0 X m.
Proof.
  unfold room. rewrite dom_empty_L, !union_empty_l_L. intros Hs Hm Hr. pose proof (subseteq_size X Y Hs). lia.
Qed.

Lemma base_sub addrs L : {[bb]} ∪ L ⊆ base addrs L.
Proof. unfold base. destruct (_ =? _); set_solver. Qed.

Lemma inode_entry_found l c s ip i k a :
  inodes c !! ip = Some i -> rd (i_addrs i) k = Some a -> a <> 0 ->
  inode_entry ip k (Fs l c s) = Ret a (Fs l c s).
Proof.
  intros Hi Ha Hne. unfold inode_entry. rewrite (bind_Ret _ _ _ _ _ (get_inode_run l c s ip i Hi)).
  erewrite bind_gets_opt by exact Ha. by rewrite (proj2 (Z.eqb_neq a 0) Hne).
Qed.

Lemma inode_entry_new l c s ip i k V L :
  inodes c !! ip = Some i -> i_dev i = ROOTDEV -> rd (i_addrs i) k = Some 0 ->
  holds s V ∅ L -> layout sb V -> room (∅ : gmap Z (H * bool)) ({[bb]} ∪ L) 3 -> (0 < size (free_set V))%nat ->
  exists x s', first_free sb V x /\
    inode_entry ip k (Fs l c s) =
      Ret x (Fs l (put_d ip i (set_d_addrs (<[Z.to_nat k := x]> (i_addrs i)) (i_d i)) c) s') /\
    holds s' (allocated sb V x) ∅ ({[x]} ∪ ({[bb]} ∪ L)).
Proof.
  intros Hi Hdev Ha Hh Hlo Hr Hfree. destruct (balloc_quiet l c s V L Hh Hlo Hr Hfree) as (x & s' & Hff & E & Hh').
  exists x, s'. split_and!; [done| |done]. unfold inode_entry.
  rewrite (bind_Ret _ _ _ _ _ (get_inode_run l c s ip i Hi)). erewrite bind_gets_opt by exact Ha.
  rewrite Z.eqb_refl, Hdev, (bind_Ret _ _ _ _ _ E). unfold put_addr.
  by rewrite (bind_Ret _ _ _ _ _ (upd_dinode_run l c s' ip i _ Hi)).
Qed.

Lemma indirect_entry_run l c s V L addrs bm n :
  holds s V ∅ L -> layout sb V -> lengths V -> file_ok V addrs bm -> ind addrs <> 0 -> NDIRECT <= n < MAXFILE ->
  room0 (base addrs L) 3 -> (0 < size (free_set V))%nat ->
  exists a s' V' L', indirect_entry ROOTDEV (ind addrs) (n - NDIRECT) (Fs l c s) = Ret a (Fs l c s') /\
    holds s' V' ∅ L' /\ grows V V' addrs addrs bm (<[n := a]> bm) /\
    (bm !! n = Some a /\ L' = L \/ bm !! n = None /\ L' = {[ind addrs]} ∪ ({[a]} ∪ ({[bb]} ∪ L))) /\
    (size (free_set V) <= Datatypes.S (size (free_set V')))%nat.
Proof.
  intros Hh Hlo Hlen Hf Hne Hn Hr Hfree. change NDIRECT with 12 in *. change MAXFILE with 140 in *.
  destruct (fo_ind _ _ _ Hf Hne) as [Hoi Hno]. destruct (ow_disk _ _ Hoi) as [d Hd].
  pose proof (Hlen _ _ Hd) as Hdl. set (i0 := ind addrs) in *. set (k := Z.to_nat (4 * (n - 12))).
  assert (Hk : (k + 4 <= length d)%nat) by (rewrite Hdl; unfold k; lia).
  assert (Hbase : base addrs L = {[i0]} ∪ ({[bb]} ∪ L)) by (unfold base; fold i0; by rewrite (proj2 (Z.eqb_neq _ 0) Hne)).
  rewrite Hbase in Hr.
  destruct (dread_run l c s V ∅ L i0 Hh) as (h & s1 & E1 & Hh1); [by eexists|done| |].
  { eapply room0_sub; [|exact (le_n 1)|eapply room_le; [exact Hr|lia]]. set_solver. }
  unfold indirect_entry. rewrite (bind_Ret _ _ _ _ _ E1).
  erewrite bind_Ret by (apply ons_run; by eapply (sdata_law s1 V _ L i0 h false d); [|apply lookup_insert_eq|]).
  pose proof (entry_indirect V addrs bm n d Hf Hne Hn Hd Hdl) as Hget. change NDIRECT with 12 in Hget. fold k in Hget.
  erewrite bind_gets_opt by exact Hget. destruct (bm !! n) as [a|] eqn:Hbn; simpl.
  - destruct (fo_dom _ _ _ Hf n a Hbn) as [_ Hoa].
    rewrite (proj2 (Z.eqb_neq a 0)) by apply (db_boot _ _ (ow_data _ _ Hoa)).
    destruct (srelse_law s1 V _ L i0 h Hh1 (lookup_insert_eq _ _ _)) as (s2 & E2 & Hh2).
    rewrite delete_insert_id in Hh2 by done. erewrite bind_Ret by (apply ons_run; exact E2).
    exists a, s2, V, L. split_and!; [done|done| |by left|lia]. rewrite insert_id by done. by apply grows_refl.
  - destruct (first_free_exists V Hfree) as (x & Hff).
    destruct (alloc_facts V x Hlo Hff Hlen) as (_ & _ & _ & _ & _ & _ & Hsz).
    destruct (grows_indirect V addrs bm n x d Hlo Hlen Hff Hf Hne Hn Hd Hbn) as (HVi & Hxi & Hg).
    change NDIRECT with 12 in Hg. fold i0 k in HVi, Hxi, Hg.
    assert (Hroom : room (<[i0 := (h, false)]> (∅ : gmap Z (H * bool))) L 3).
    { unfold room in *. rewrite dom_empty_L, union_empty_l_L in Hr. rewrite dom_insert_L, dom_empty_L.
      pose proof (subseteq_size ({[i0]} ∪ ∅ ∪ L) ({[i0]} ∪ ({[bb]} ∪ L)) ltac:(set_solver)). lia. }
    destruct (balloc_run l c s1 V _ L sb x Hh1 Hlo) as (s2 & E2 & Hh2); try done.
    { split; [rewrite lookup_insert_ne by apply (ow_data _ _ Hoi); done|]. intros y Hy.
      rewrite one_bitmap by done. by rewrite lookup_insert_ne by by eapply owned_bb. }
    { by rewrite lookup_insert_ne by congruence. }
    rewrite (bind_Ret _ _ _ _ _ E2). rewrite (first_bitmap V x Hff) in Hh2.
    erewrite bind_Ret by (apply ons_run; by eapply (sdata_law s2 _ _ _ i0 h false d); [|apply lookup_insert_eq|]).
    destruct (change_run l c s2 _ _ _ i0 h false (put32 k x d) Hh2 (lookup_insert_eq _ _ _)) as (s3 & _ & E3 & Hh3).
    { by rewrite length_put32. }
    { unfold room in *. rewrite dom_empty_L, union_empty_l_L in Hr. rewrite dom_insert_L, dom_empty_L.
      replace ({[i0]} ∪ ∅ ∪ ({[x]} ∪ ({[bb]} ∪ L))) with ({[x]} ∪ ({[i0]} ∪ ({[bb]} ∪ L))) by set_solver.
      pose proof (size_add x ({[i0]} ∪ ({[bb]} ∪ L))). lia. }
    rewrite E3. rewrite delete_insert_id in Hh3 by done.
    exists x, s3. eexists _, _. split_and!; [done|exact Hh3|exact Hg|right; split; [done|done]|].
    rewrite (free_set_same (allocated sb V x) (<[i0 := put32 k x d]> (allocated sb V x))); [by rewrite Hsz|].
    apply lookup_insert_ne. by eapply owned_bb.
Qed.

Lemma bmap_found l c s V L ip i bm n a :
  inodes c !! ip = Some i -> i_dev i = ROOTDEV -> holds s V ∅ L -> layout sb V -> lengths V ->
  file_ok V (i_addrs i) bm -> bm !! n = Some a -> room0 L 1 ->
  exists s', bmap ip n (Fs l c s) = Ret a (Fs l c s') /\ holds s' V ∅ L.
Proof.
  intros Hi Hdev Hh Hlo Hlen Hf Hn Hr. destruct (fo_dom _ _ _ Hf n a Hn) as [HnM Hoa].
  pose proof (db_boot _ _ (ow_data _ _ Hoa)) as Ha0.
  unfold bmap. rewrite (bind_Ret _ _ _ _ _ (get_inode_run l c s ip i Hi)).
  destruct (Z.ltb_spec n NDIRECT) as [Hlt|Hge].
  - exists s. split; [|done]. pose proof (entry_direct V (i_addrs i) bm n Hf ltac:(lia)) as Hrd. rewrite Hn in Hrd.
    by rewrite (inode_entry_found l c s ip i n a).
  - cbv zeta. change NINDIRECT with 128. change MAXFILE with 140 in HnM. change NDIRECT with 12 in *.
    rewrite (proj2 (Z.ltb_lt (n - 12) 128)) by lia.
    destruct (decide (ind (i_addrs i) = 0)) as [Hz|Hne].
    { rewrite (fo_high _ _ _ Hf Hz n) in Hn by (change NDIRECT with 12; lia). done. }
    pose proof (entry_ind _ _ _ Hf) as Hre. change NDIRECT with 12 in Hre.
    rewrite (bind_Ret _ _ _ _ _ (inode_entry_found l c s ip i 12 _ Hi Hre Hne)). rewrite Hdev.
    destruct (fo_ind _ _ _ Hf Hne) as [Hoi Hno]. destruct (ow_disk _ _ Hoi) as [d Hd].
    destruct (read_run (fun _ => ret a) l c s V ∅ L _ d Hh Hd ltac:(done) Hr) as (s' & Hh' & E).
    exists s'. split; [|done]. unfold indirect_entry. rewrite E; [done|].
    intros h l' c' s1. assert (Hget : get32 d (Z.to_nat (4 * (n - 12))) = Some a).
    { pose proof (fo_map _ _ _ Hf n ltac:(change MAXFILE with 140; lia)) as Hm. rewrite Hn in Hm. unfold fblock in Hm.
      rewrite (proj2 (Z.ltb_ge n NDIRECT)) in Hm by (change NDIRECT with 12; lia).
      rewrite Hd, (proj2 (Z.eqb_neq _ 0) Hne) in Hm. change NDIRECT with 12 in Hm. simpl in Hm.
      destruct (get32 d _); simpl in Hm; congruence. }
    erewrite bind_gets_opt by exact Hget. by rewrite (proj2 (Z.eqb_neq a 0) Ha0).
Qed.

Lemma need_direct addrs k x : 0 <= k < 12 -> need (<[Z.to_nat k := x]> addrs) = need addrs.
Proof. intros Hk. unfold need. by rewrite ind_insert. Qed.

Lemma base_direct addrs k x L : 0 <= k < 12 -> base (<[Z.to_nat k := x]> addrs) L = base addrs L.
Proof. intros Hk. unfold base. by rewrite ind_insert. Qed.

Lemma room_base addrs L L' a n :
  L' ⊆ {[a]} ∪ base addrs L -> room0 (base addrs L) (Datatypes.S n) -> room0 (base addrs ({[a]} ∪ L')) n.
Proof.
  intros Hs Hr. apply (room0_sub _ ({[a]} ∪ base addrs L) n); [|lia|by apply room_log].
  unfold base in *. destruct (_ =? _); set_solver.
Qed.

Lemma bmap_direct_new l c s V L ip i bm n k :
  inodes c !! ip = Some i -> i_dev i = ROOTDEV -> holds s V ∅ L -> layout sb V -> lengths V ->
  file_ok V (i_addrs i) bm -> 0 <= n < NDIRECT -> bm !! n = None ->
  room0 (base (i_addrs i) L) (Datatypes.S k) -> (2 <= k)%nat -> (0 < size (free_set V))%nat ->
  exists a s' V' L', let addrs' := <[Z.to_nat n := a]> (i_addrs i) in
    bmap ip n (Fs l c s) = Ret a (Fs l (put_d ip i (set_d_addrs addrs' (i_d i)) c) s') /\
    holds s' V' ∅ L' /\ grows V V' (i_addrs i) addrs' bm (<[n := a]> bm) /\
    room0 (base addrs' ({[a]} ∪ L')) k /\ size (free_set V) = Datatypes.S (size (free_set V')).
Proof.
  intros Hi Hdev Hh Hlo Hlen Hf Hn Hbn Hr Hk Hfree. change NDIRECT with 12 in *.
  pose proof (entry_direct V (i_addrs i) bm n Hf Hn) as Hrd. rewrite Hbn in Hrd.
  destruct (inode_entry_new l c s ip i n V L Hi Hdev Hrd Hh Hlo) as (x & s' & Hff & E & Hh'); [|done|].
  { eapply room0_sub; [apply base_sub| |exact Hr]. lia. }
  destruct (alloc_facts V x Hlo Hff Hlen) as (_ & _ & _ & _ & _ & _ & Hsz).
  exists x, s'. eexists _, _. split_and!; [|exact Hh'| | |done].
  - unfold bmap. rewrite (bind_Ret _ _ _ _ _ (get_inode_run l c s ip i Hi)).
    rewrite (proj2 (Z.ltb_lt n NDIRECT)) by (change NDIRECT with 12; lia). exact E.
  - by apply grows_direct.
  - rewrite base_direct by done. apply (room_base _ L); [|done]. pose proof (base_sub (i_addrs i) L). set_solver.
Qed.

Lemma free_mono V V' :
  (forall y, 0 <= y < sb_size sb -> used V y = true -> used V' y = true) -> forall y, y ∈ free_set V' -> y ∈ free_set V.
Proof.
  intros Hu y [Hyr Hyu]%elem_of_free. apply elem_of_free. split; [done|].
  destruct (used V y) eqn:E; [|done]. rewrite Hu in Hyu by (done || by apply data_end_size). done.
Qed.

(** Allocate the indirect block, then the entry. *)
Lemma grows_ind V V1 V2 addrs addrs1 bm bm2 :
  ind addrs = 0 -> ind addrs1 ∈ free_set V -> grows V V1 addrs addrs1 bm bm -> grows V1 V2 addrs1 addrs1 bm bm2 ->
  grows V V2 addrs addrs1 bm bm2.
Proof.
  intros Hz Hfree [L1 N1 F1 S1 W1 I1 K1 U1] [L2 N2 F2 S2 W2 I2 K2 U2]. pose proof (free_mono V V1 U1) as Hmono.
  split; try done.
  - intros m b Hm Hn. destruct (W2 m b Hm Hn) as [? Hb]. auto.
  - intros y Hy1 Hy2 Hy3. rewrite K2, K1; try done; [by intros ->|auto].
  - intros y Hy Hu. apply U2; [done|]. by apply U1.
Qed.

Lemma bmap_run l c s V L ip i bm n k :
  inodes c !! ip = Some i -> i_dev i = ROOTDEV -> holds s V ∅ L -> layout sb V -> lengths V ->
  file_ok V (i_addrs i) bm -> 0 <= n < MAXFILE ->
  room0 (base (i_addrs i) L) (Datatypes.S (need (i_addrs i) + k)) -> (2 <= k)%nat ->
  (need (i_addrs i) < size (free_set V))%nat ->
  exists a s' V' addrs' L',
    bmap ip n (Fs l c s) = Ret a (Fs l (put_d ip i (set_d_addrs addrs' (i_d i)) c) s') /\
    holds s' V' ∅ L' /\ grows V V' (i_addrs i) addrs' bm (<[n := a]> bm) /\
    (is_Some (bm !! n) -> addrs' = i_addrs i) /\
    room0 (base addrs' ({[a]} ∪ L')) (need addrs' + k) /\
    (size (free_set V) + need addrs' <= Datatypes.S (size (free_set V') + need (i_addrs i)))%nat.
Proof.
  intros Hi Hdev Hh Hlo Hlen Hf Hn Hr Hk Hfree. destruct (bm !! n) as [a|] eqn:Hbn.
  { destruct (bmap_found l c s V L ip i bm n a Hi Hdev Hh Hlo Hlen Hf Hbn) as (s' & E & Hh').
    { eapply room0_sub; [etransitivity; [|apply base_sub]; apply union_subseteq_r| |exact Hr]. lia. }
    exists a, s', V, (i_addrs i), L. rewrite put_d_id, insert_id by done. split_and!; [done|done|by apply grows_refl|done| |lia].
    apply (room_base _ L); [|done]. pose proof (base_sub (i_addrs i) L). set_solver. }
  destruct (Z.ltb_spec n NDIRECT) as [Hlt|Hge].
  { destruct (bmap_direct_new l c s V L ip i bm n (need (i_addrs i) + k)) as (a & s' & V' & L' & E & Hh' & Hg & Hr' & Hsz);
      try done; try lia.
    exists a, s', V', (<[Z.to_nat n := a]> (i_addrs i)), L'. change NDIRECT with 12 in Hlt.
    rewrite !(need_direct (i_addrs i)) by lia. split_and!; try done; try lia; by intros []. }
  unfold bmap. rewrite (bind_Ret _ _ _ _ _ (get_inode_run l c s ip i Hi)).
  rewrite (proj2 (Z.ltb_ge n NDIRECT)) by done. cbv zeta. change NINDIRECT with 128.
  assert (HnI : NDIRECT <= n < MAXFILE) by lia.
  rewrite (proj2 (Z.ltb_lt (n - NDIRECT) 128)) by (change NDIRECT with 12; change MAXFILE with 140 in *; lia).
  pose proof (entry_ind _ _ _ Hf) as Hre. unfold need in *. rewrite Hdev.
  destruct (Z.eqb_spec (ind (i_addrs i)) 0) as [Hz|Hne].
  - rewrite Hz in Hre.
    destruct (inode_entry_new l c s ip i NDIRECT V L Hi Hdev Hre Hh Hlo) as (i0 & s1 & Hff & E1 & Hh1); [|lia|].
    { eapply room0_sub; [apply base_sub| |exact Hr]. lia. }
    rewrite (bind_Ret _ _ _ _ _ E1).
    destruct (alloc_facts V i0 Hlo Hff Hlen) as (Hlo1 & Hlen1 & Ho1 & Hz1 & _ & _ & Hsz1).
    destruct (alloc_file V i0 (i_addrs i) bm Hlo Hff Hlen Hf) as [Hf1 Hfr].
    pose proof (link_ind _ _ _ i0 Hf1 Ho1 Hfr Hz Hz1) as Hf1'. set (addrs1 := <[Z.to_nat NDIRECT := i0]> (i_addrs i)) in *.
    assert (Hi0 : ind addrs1 = i0) by (apply ind_set; apply Hf).
    pose proof (db_boot _ _ (ow_data _ _ Ho1)) as Hi0n.
    assert (Hb1 : base addrs1 ({[i0]} ∪ ({[bb]} ∪ L)) = {[i0]} ∪ ({[bb]} ∪ L)).
    { unfold base. rewrite Hi0, (proj2 (Z.eqb_neq i0 0)) by done. set_solver. }
    assert (Hb0 : base (i_addrs i) L = {[bb]} ∪ L) by (unfold base; by rewrite Hz).
    rewrite Hb0 in Hr.
    set (c1 := put_d ip i _ c).
    destruct (indirect_entry_run l c1 s1 _ _ addrs1 bm n Hh1 Hlo1 Hlen1 Hf1') as
      (a & s2 & V2 & L2 & E2 & Hh2 & Hg2 & HL2 & Hsz2); [by rewrite Hi0|done| |lia|].
    { rewrite Hb1. apply room_log. by eapply room_le; [exact Hr|lia]. }
    rewrite Hi0 in E2, HL2. exists a, s2, V2, addrs1, L2. rewrite Hi0, (proj2 (Z.eqb_neq i0 0)) by done. split_and!; try done.
    + apply (grows_ind V (allocated sb V i0) V2); [done| | |done].
      * rewrite Hi0. by apply first_free_in.
      * by apply grows_new_ind.
    + destruct HL2 as [[? _]|[_ ->]]; [congruence|].
      apply (room0_sub _ ({[a]} ∪ ({[i0]} ∪ ({[bb]} ∪ L))) k); [|done|].
      2: { do 2 apply room_log. by eapply room_le; [exact Hr|lia]. }
      unfold base. rewrite Hi0, (proj2 (Z.eqb_neq i0 0)) by done. set_solver.
    + lia.
  - rewrite (bind_Ret _ _ _ _ _ (inode_entry_found l c s ip i NDIRECT _ Hi Hre Hne)).
    destruct (indirect_entry_run l c s V L (i_addrs i) bm n Hh Hlo Hlen Hf Hne HnI) as
      (a & s2 & V2 & L2 & E2 & Hh2 & Hg2 & HL2 & Hsz2); [by eapply room_le; [exact Hr|lia]|lia|].
    exists a, s2, V2, (i_addrs i), L2. rewrite put_d_id by done. rewrite (proj2 (Z.eqb_neq _ 0)) by done.
    split_and!; try done; [|lia]. destruct HL2 as [[? _]|[_ ->]]; [congruence|].
    apply (room_base _ L); [|done]. unfold base. rewrite (proj2 (Z.eqb_neq _ 0)) by done. set_solver.
Qed.

(** ** [readi] *)

Definition fbytes V (bm : gmap Z Z) (off n : Z) : list Z := (fun o => default 0 (fbyte V bm o)) <$> seqZ off n.

Lemma fbytes_app V bm off m n : 0 <= m <= n -> fbytes V bm off n = fbytes V bm off m ++ fbytes V bm (off + m) (n - m).
Proof.
  intros Hm. unfold fbytes. rewrite <- fmap_app. f_equal.
  replace n with (m + (n - m)) at 1 by lia. by rewrite seqZ_app by lia.
Qed.

Lemma offset_block off j : 0 <= j < BSIZE - off mod BSIZE ->
  (off + j) / BSIZE = off / BSIZE /\ (off + j) mod BSIZE = off mod BSIZE + j.
Proof.
  change BSIZE with 512. intros Hj. pose proof (Z.div_mod off 512 ltac:(lia)). pose proof (Z.mod_pos_bound off 512 ltac:(lia)).
  split; symmetry.
  - apply Z.div_unique with (off mod 512 + j); lia.
  - apply Z.mod_unique with (off / 512); lia.
Qed.

Lemma fbytes_block V bm off m a d :
  bm !! (off / BSIZE) = Some a -> V !! a = Some d -> length d = 512%nat -> 0 <= off -> 0 <= m <= BSIZE - off mod BSIZE ->
  take (Z.to_nat m) (drop (Z.to_nat (off mod BSIZE)) d) = fbytes V bm off m.
Proof.
  intros Ha Hd Hl Ho Hm. change BSIZE with 512 in *. pose proof (Z.mod_pos_bound off 512 ltac:(lia)) as Hb.
  apply list_eq. intros j. unfold fbytes. rewrite list_lookup_fmap.
  destruct (decide (Z.of_nat j < m)) as [Hj|Hj].
  - rewrite lookup_take_lt, lookup_drop by lia. rewrite (proj2 (lookup_seqZ off m j _) (conj eq_refl Hj)). simpl.
    destruct (offset_block off (Z.of_nat j)) as [E1 E2]; [change BSIZE with 512; lia|].
    unfold fbyte. rewrite E1, E2. change BSIZE with 512. rewrite Ha. simpl. rewrite Hd. simpl.
    replace (Z.to_nat (off mod 512 + Z.of_nat j)) with (Z.to_nat (off mod 512) + j)%nat by lia.
    destruct (lookup_lt_is_Some_2 d (Z.to_nat (off mod 512) + j)%nat) as [x Hx]; [lia|]. by rewrite Hx.
  - rewrite lookup_take_ge by lia. rewrite lookup_seqZ_ge by lia. done.
Qed.

(** The blocks of the bytes [off, off + n) are there. *)
Definition mapped_range (bm : gmap Z Z) (off n : Z) : Prop := forall o, off <= o < off + n -> is_Some (bm !! (o / BSIZE)).

Lemma read_loop_run fuel l c s V L ip i bm off n :
  inodes c !! ip = Some i -> i_dev i = ROOTDEV -> holds s V ∅ L -> layout sb V -> lengths V ->
  file_ok V (i_addrs i) bm -> 0 <= off -> 0 <= n -> mapped_range bm off n -> room0 L 1 ->
  (0 < fuel)%nat -> (0 < n -> n <= 512 * (Z.of_nat fuel - 1) - off mod 512) ->
  exists s', read_loop fuel ip off n (Fs l c s) = Ret (fbytes V bm off n) (Fs l c s') /\ holds s' V ∅ L.
Proof.
  intros Hi Hdev Hh Hlo Hlen Hf. revert s off n Hh. induction fuel as [|fuel IH]; intros s off n Hh Ho Hn Hmap Hr Hf0 Hfu; [lia|].
  cbn [read_loop]. destruct (Z.ltb_spec 0 n) as [Hpos|Hz]; cbn [negb].
  2: { exists s. split; [|done]. unfold fbytes. by rewrite seqZ_nil by lia. }
  rewrite (bind_Ret _ _ _ _ _ (get_inode_run l c s ip i Hi)).
  destruct (Hmap off ltac:(lia)) as [a Ha]. destruct (fo_dom _ _ _ Hf _ a Ha) as [_ Hoa].
  destruct (bmap_found l c s V L ip i bm (off / BSIZE) a Hi Hdev Hh Hlo Hlen Hf Ha Hr) as (s1 & E1 & Hh1).
  rewrite (bind_Ret _ _ _ _ _ E1), Hdev. destruct (ow_disk _ _ Hoa) as [d Hd].
  set (m := Z.min n (BSIZE - off mod BSIZE)).
  pose proof (Z.mod_pos_bound off 512 ltac:(lia)) as Hb.
  assert (Hm : 0 < m <= BSIZE - off mod BSIZE /\ m <= n /\ (m < n -> m = 512 - off mod 512))
    by (unfold m; change BSIZE with 512; lia).
  set (k := fun e => l0 <~ read_loop fuel ip (off + m) (n - m);;;
                     ret (take (Z.to_nat m) (drop (Z.to_nat (off mod BSIZE)) e) ++ l0)).
  destruct (read_run k l c s1 V ∅ L a d Hh1 Hd ltac:(done) Hr) as (s2 & Hh2 & E2).
  rewrite (E2 (fun bp e => ons (srelse bp);;; k e)) by done. unfold k.
  destruct (IH s2 (off + m) (n - m) Hh2) as (s3 & E3 & Hh3); try lia; [|done| |].
  - intros o Hor. apply Hmap. lia.
  - intros Hrest. assert (Hme : m = 512 - off mod 512) by (apply Hm; lia).
    assert ((off + m) mod 512 = 0).
    { rewrite Hme. replace (off + (512 - off mod 512)) with (512 * (off / 512 + 1))
        by (pose proof (Z.div_mod off 512 ltac:(lia)); lia). rewrite Z.mul_comm. apply Z_mod_mult. }
    lia.
  - exists s3. split; [|done]. rewrite (bind_Ret _ _ _ _ _ E3). unfold ret.
    rewrite (fbytes_block V bm off m a d Ha Hd (Hlen _ _ Hd) Ho) by lia.
    by rewrite (fbytes_app V bm off m n) by lia.
Qed.

(** ** [writei] *)

Lemma put_d_put_d ip i d d' c : put_d ip (set_i_d d i) d' (put_d ip i d c) = put_d ip i d' c.
Proof. unfold put_d. simpl. by rewrite list_insert_insert_eq. Qed.

(** The file before and after the bytes [src] went to offset [off]. *)
Record wrote V V' (addrs addrs' : list Z) (bm bm' : gmap Z Z) (off : Z) (src : list Z) : Prop := {
  wr_layout : layout sb V';
  wr_len : lengths V';
  wr_file : file_ok V' addrs' bm';
  wr_sub : bm ⊆ bm';
  wr_in : forall j x, src !! j = Some x -> fbyte V' bm' (off + Z.of_nat j) = Some x;
  wr_out : forall o, ~ (off <= o < off + Z.of_nat (length src)) -> is_Some (bm !! (o / BSIZE)) ->
    fbyte V' bm' o = fbyte V bm o;
  wr_zero : forall o, ~ (off <= o < off + Z.of_nat (length src)) -> bm !! (o / BSIZE) = None ->
    is_Some (bm' !! (o / BSIZE)) -> fbyte V' bm' o = Some 0;
  wr_free : forall n b, bm' !! n = Some b -> bm !! n = None -> b ∈ free_set V;
  wr_ind : ind addrs' = ind addrs \/ ind addrs' ∈ free_set V;
  wr_keep : forall y, y <> bb -> y <> ind addrs -> (forall n, bm !! n <> Some y) -> ~ y ∈ free_set V -> V' !! y = V !! y;
  wr_used : forall y, 0 <= y < sb_size sb -> used V y = true -> used V' y = true
}.

Lemma wrote_nil V addrs bm off : layout sb V -> lengths V -> file_ok V addrs bm -> wrote V V addrs addrs bm bm off [].
Proof.
  intros. split; try done; [|by intros; congruence|by left]. intros o _ Hn Hs. rewrite Hn in Hs. by destruct Hs.
Qed.

Lemma lookup_splice off w d k :
  (off + length w <= length d)%nat ->
  splice off w d !! k = if decide (off <= k < off + length w)%nat then w !! (k - off)%nat else d !! k.
Proof.
  intros Hl. unfold splice. case_decide as Hk.
  - rewrite lookup_app_r by (rewrite length_take; lia). rewrite length_take, Nat.min_l by lia.
    by rewrite lookup_app_l by lia.
  - destruct (decide (k < off)%nat).
    + rewrite lookup_app_l by (rewrite length_take; lia). by rewrite lookup_take_lt.
    + rewrite lookup_app_r by (rewrite length_take; lia). rewrite length_take, Nat.min_l by lia.
      rewrite lookup_app_r by lia. rewrite lookup_drop. f_equal. lia.
Qed.

Lemma length_splice off w d : (off + length w <= length d)%nat -> length (splice off w d) = length d.
Proof. intros Hl. unfold splice. rewrite !length_app, length_take, length_drop. lia. Qed.

Lemma fbyte_keep V V' bm bm' o a :
  bm ⊆ bm' -> bm !! (o / BSIZE) = Some a -> V' !! a = V !! a -> fbyte V' bm' o = fbyte V bm o.
Proof. intros Hs Ha HV. unfold fbyte. rewrite Ha, (lookup_weaken _ _ _ _ Ha Hs). simpl. by rewrite HV. Qed.

(** One block: looked up or added, then written. *)
Lemma wrote_block V V1 addrs addrs1 bm off w a d :
  file_ok V addrs bm -> grows V V1 addrs addrs1 bm (<[off / BSIZE := a]> bm) -> V1 !! a = Some d -> 0 <= off ->
  Z.of_nat (length w) <= BSIZE - off mod BSIZE ->
  wrote V (<[a := splice (Z.to_nat (off mod BSIZE)) w d]> V1) addrs addrs1 bm (<[off / BSIZE := a]> bm) off w.
Proof.
  intros Hf Hg Hd Ho Hw. destruct Hg as [Hlo Hlen Hf1 Hsub Hnew Hind Hkeep Hused]. set (bm1 := <[off / BSIZE := a]> bm) in *.
  assert (Ha : bm1 !! (off / BSIZE) = Some a) by apply lookup_insert_eq.
  destruct (fo_dom _ _ _ Hf1 _ a Ha) as [_ Hoa]. pose proof (Hlen _ _ Hd) as Hdl.
  pose proof (Z.mod_pos_bound off 512 ltac:(lia)) as Hb. change BSIZE with 512 in *.
  set (k := Z.to_nat (off mod 512)). assert (Hk : (k + length w <= length d)%nat) by (unfold k; lia).
  assert (Hai : a <> ind addrs1).
  { intros ->. destruct (decide (ind addrs1 = 0)) as [Hz|Hne].
    - by apply (db_boot _ _ (ow_data _ _ Hoa)).
    - destruct (fo_ind _ _ _ Hf1 Hne) as [_ Hno]. by apply (Hno (off / 512)). }
  assert (Hold : forall n b, bm !! n = Some b -> b <> bb /\ b <> ind addrs /\ ~ b ∈ free_set V).
  { intros n b Hn. destruct (fo_dom _ _ _ Hf n b Hn) as [_ Hob]. split_and!; [by eapply owned_bb| |].
    - intros ->. destruct (decide (ind addrs = 0)) as [Hz|Hne]; [by apply (db_boot _ _ (ow_data _ _ Hob))|].
      destruct (fo_ind _ _ _ Hf Hne) as [_ Hno]. by apply (Hno n).
    - intros Hfr. apply elem_of_free in Hfr as [_ Hu]. pose proof (ow_used _ _ Hob). congruence. }
  (* a byte of block [a], and of another block *)
  assert (Hin : forall o, o / 512 = off / 512 ->
    fbyte (<[a := splice k w d]> V1) bm1 o = splice k w d !! Z.to_nat (o mod 512)).
  { intros o Eo. unfold fbyte. change BSIZE with 512. rewrite Eo, Ha. simpl. by rewrite lookup_insert_eq. }
  assert (Hother : forall o b, o / 512 <> off / 512 -> bm1 !! (o / 512) = Some b -> b <> a).
  { intros o b Eo Hob ->. apply Eo. by eapply (fo_inj _ _ _ Hf1). }
  split.
  - apply layout_data; [done|apply Hoa|by eapply owned_bb].
  - apply lengths_insert; [done|by rewrite length_splice].
  - by apply file_data.
  - done.
  - intros j x Hj. pose proof (lookup_lt_Some _ _ _ Hj) as Hjl.
    destruct (offset_block off (Z.of_nat j)) as [E1 E2]; [change BSIZE with 512; lia|]. change BSIZE with 512 in *.
    rewrite Hin, E2, lookup_splice by done. rewrite decide_True by (unfold k; lia).
    by replace (Z.to_nat (off mod 512 + Z.of_nat j) - k)%nat with j by (unfold k; lia).
  - intros o Hno [b Hob]. change BSIZE with 512 in Hob. destruct (decide (o / 512 = off / 512)) as [E|E].
    + assert (b = a) as ->. { pose proof (lookup_weaken _ _ _ _ Hob Hsub) as Hob'. rewrite E in Hob'. congruence. }
      rewrite Hin, lookup_splice by done. rewrite decide_False.
      * unfold fbyte. change BSIZE with 512. rewrite Hob. simpl. destruct (Hold _ _ Hob) as (H1' & H2' & H3').
        rewrite <- (Hkeep a), Hd by done. done.
      * pose proof (Z.div_mod o 512 ltac:(lia)). pose proof (Z.div_mod off 512 ltac:(lia)).
        pose proof (Z.mod_pos_bound o 512 ltac:(lia)). unfold k. lia.
    + apply (fbyte_keep _ _ _ _ _ b); [done|done|]. destruct (Hold _ _ Hob) as (H1' & H2' & H3').
      rewrite lookup_insert_ne; [by apply Hkeep|]. apply not_eq_sym, (Hother o); [done|]. by eapply lookup_weaken.
  - intros o Hno Hbn [b Hob]. change BSIZE with 512 in *.
    assert (E : o / 512 = off / 512).
    { destruct (decide (o / 512 = off / 512)) as [|Ne]; [done|]. unfold bm1 in Hob.
      rewrite lookup_insert_ne in Hob by done. congruence. }
    rewrite Hin, lookup_splice by done. rewrite decide_False.
    + assert (Hz : V1 !! a = Some (replicate 512 0)) by (apply (Hnew (off / 512)); [done|by rewrite <- E]).
      assert (d = replicate 512 0) as -> by congruence. apply lookup_replicate_2.
      pose proof (Z.mod_pos_bound o 512). lia.
    + pose proof (Z.div_mod o 512 ltac:(lia)). pose proof (Z.div_mod off 512 ltac:(lia)).
      pose proof (Z.mod_pos_bound o 512 ltac:(lia)). unfold k. lia.
  - intros n b Hn Hbn. by apply (Hnew n).
  - done.
  - intros y Hy1 Hy2 Hy3 Hy4. rewrite lookup_insert_ne; [by apply Hkeep|]. intros <-.
    destruct (bm !! (off / 512)) as [b|] eqn:Hbo.
    + pose proof (lookup_weaken _ _ _ _ Hbo Hsub) as Hw'. rewrite Ha in Hw'. injection Hw' as <-. by apply (Hy3 (off / 512)).
    + by apply Hy4, (Hnew (off / 512)).
  - intros y Hy Hu. rewrite used_data by (done || by eapply owned_bb). by apply Hused.
Qed.

Lemma fbyte_mapped V bm o x : fbyte V bm o = Some x -> is_Some (bm !! (o / BSIZE)).
Proof. unfold fbyte. destruct (bm !! (o / BSIZE)); [by eexists|done]. Qed.

Lemma wrote_app V V1 V2 addrs addrs1 addrs2 bm bm1 bm2 off w1 w2 :
  wrote V V1 addrs addrs1 bm bm1 off w1 ->
  wrote V1 V2 addrs1 addrs2 bm1 bm2 (off + Z.of_nat (length w1)) w2 ->
  wrote V V2 addrs addrs2 bm bm2 off (w1 ++ w2).
Proof.
  intros [_ _ _ S1 In1 Out1 Z1 F1 I1 K1 U1] [Lo2 Len2 File2 S2 In2 Out2 Z2 F2 I2 K2 U2].
  pose proof (free_mono V V1 U1) as Hmono. split; try done.
  - by etransitivity.
  - intros j x Hj. apply lookup_app_Some in Hj as [Hj|[Hge Hj]].
    + rewrite Out2; [by apply In1|apply lookup_lt_Some in Hj; lia|]. by eapply fbyte_mapped, In1.
    + rewrite <- (In2 _ _ Hj). f_equal. lia.
  - intros o Hno Hs. rewrite length_app in Hno. rewrite Out2, Out1; try done; try lia.
    destruct Hs as [b Hb]. exists b. by eapply lookup_weaken.
  - intros o Hno Hn Hs. rewrite length_app in Hno. destruct (bm1 !! (o / BSIZE)) as [b|] eqn:E.
    + rewrite Out2; [apply Z1| |]; rewrite ?E; try done; lia.
    + apply Z2; try done; lia.
  - intros n b Hn2 Hn. destruct (bm1 !! n) as [b'|] eqn:E; [|by eapply Hmono, F2].
    pose proof (lookup_weaken _ _ _ _ E S2) as E'. rewrite Hn2 in E'. injection E' as <-. by eapply F1.
  - destruct I2 as [-> | Hi2]; [done|]. right. by apply Hmono.
  - intros y Hy1 Hy2 Hy3 Hy4. rewrite K2, K1; try done.
    + destruct I1 as [-> | Hi1]; [done|]. by intros ->.
    + intros n Hn. destruct (bm !! n) as [b'|] eqn:E; [|by eapply Hy4, F1].
      pose proof (lookup_weaken _ _ _ _ E S1) as E'. rewrite Hn in E'. injection E' as <-. by apply (Hy3 n).
    + intros Hy. by apply Hy4, Hmono.
  - intros y Hy Hu. apply U2; [done|]. by apply U1.
Qed.

(** A bound on the blocks that [n] bytes at [off] touch. *)
Definition spans (off n : Z) (k : nat) : Prop := 0 < n -> n <= 512 * Z.of_nat k - off mod 512.

Lemma spans_step off n k :
  0 <= off -> 0 < n -> spans off n k ->
  exists k', k = Datatypes.S k' /\
    let m := Z.min n (BSIZE - off mod BSIZE) in 0 < m <= n /\ m <= BSIZE - off mod BSIZE /\ spans (off + m) (n - m) k'.
Proof.
  unfold spans. change BSIZE with 512. intros Ho Hn Hs. pose proof (Z.mod_pos_bound off 512 ltac:(lia)) as Hb.
  destruct k as [|k']; [specialize (Hs Hn); lia|]. exists k'. split; [done|]. cbv zeta. split_and!; [lia|lia|lia|].
  intros Hr. specialize (Hs Hn). replace (Z.min n (512 - off mod 512)) with (512 - off mod 512) in * by lia.
  replace (off + (512 - off mod 512)) with ((off / 512 + 1) * 512) by (pose proof (Z.div_mod off 512 ltac:(lia)); lia).
  rewrite Z_mod_mult. lia.
Qed.

Lemma write_loop_run k fuel l c s V L ip i bm off src :
  inodes c !! ip = Some i -> i_dev i = ROOTDEV -> holds s V ∅ L -> layout sb V -> lengths V ->
  file_ok V (i_addrs i) bm -> 0 <= off -> off + Z.of_nat (length src) <= MAXFILE * BSIZE ->
  spans off (Z.of_nat (length src)) k -> (k < fuel)%nat ->
  room0 (base (i_addrs i) L) (k + need (i_addrs i) + 2) -> (k + need (i_addrs i) <= size (free_set V))%nat ->
  exists s' V' addrs' bm' L',
    write_loop fuel ip off src (Fs l c s) =
      Ret (off + Z.of_nat (length src)) (Fs l (put_d ip i (set_d_addrs addrs' (i_d i)) c) s') /\
    holds s' V' ∅ L' /\ wrote V V' (i_addrs i) addrs' bm bm' off src /\
    (mapped_range bm off (Z.of_nat (length src)) -> addrs' = i_addrs i) /\
    mapped_range bm' off (Z.of_nat (length src)) /\ room0 L' 2 /\
    (size (free_set V) + need addrs' <= k + size (free_set V') + need (i_addrs i))%nat.
Proof.
  revert fuel c s V L i bm off src. induction k as [|k IH]; intros fuel c s V L i bm off src Hi Hdev Hh Hlo Hlen Hf Ho Hmax Hsp Hfu Hr Hfree;
    (destruct fuel as [|fuel]; [lia|]); cbn [write_loop];
    (destruct (Z.ltb_spec 0 (Z.of_nat (length src))) as [Hpos|Hz]; cbn [negb]).
  1: { specialize (Hsp Hpos). pose proof (Z.mod_pos_bound off 512 ltac:(lia)). lia. }
  1, 3: destruct src; [|simpl in Hz; lia]; exists s, V, (i_addrs i), bm, L; rewrite put_d_id by done; split_and!;
    [by rewrite Z.add_0_r|done|by apply wrote_nil|done|intros o; simpl; lia| |lia]; eapply room0_sub; [|exact (le_n 2)|eapply room_le; [exact Hr|lia]];
    pose proof (base_sub (i_addrs i) L); set_solver.
  destruct (spans_step off _ _ Ho Hpos Hsp) as (k' & [= <-] & Hm1 & Hm2 & Hsp').
  set (m := Z.min (Z.of_nat (length src)) (BSIZE - off mod BSIZE)) in *.
  rewrite (bind_Ret _ _ _ _ _ (get_inode_run l c s ip i Hi)).
  destruct (bmap_run l c s V L ip i bm (off / BSIZE) (k + 2) Hi Hdev Hh Hlo Hlen Hf) as
    (a & s1 & V1 & addrs1 & L1 & E1 & Hh1 & Hg & Hsame & Hr1 & Hsz1); [| |lia|lia|].
  { change BSIZE with 512. split; [apply Z.div_pos; lia|]. apply Z.div_lt_upper_bound; [lia|].
    change MAXFILE with 140 in *. change BSIZE with 512 in Hmax. lia. }
  { eapply room_le; [exact Hr|lia]. }
  rewrite (bind_Ret _ _ _ _ _ E1), Hdev. set (i1 := set_i_d (set_d_addrs addrs1 (i_d i)) i).
  set (c1 := put_d ip i (set_d_addrs addrs1 (i_d i)) c) in *.
  destruct (fo_dom _ _ _ (gr_file _ _ _ _ _ _ Hg) _ a (lookup_insert_eq _ _ _)) as [_ Hoa].
  destruct (ow_disk _ _ Hoa) as [d Hd].
  assert (Hr1' : room0 ({[a]} ∪ L1) (k + 2)).
  { eapply room0_sub; [etransitivity; [|apply base_sub]; apply union_subseteq_r| |exact Hr1]. lia. }
  destruct (dread_run l c1 s1 V1 ∅ L1 a Hh1) as (h & s2 & E2 & Hh2); [by eexists|done| |].
  { eapply room0_sub; [apply union_subseteq_r| |exact Hr1']. lia. }
  rewrite (bind_Ret _ _ _ _ _ E2).
  erewrite bind_Ret by (apply ons_run; by eapply (sdata_law s2 V1 _ L1 a h false d); [|apply lookup_insert_eq|]).
  set (w := take (Z.to_nat m) src). assert (Hw : Z.of_nat (length w) = m) by (unfold w; rewrite length_take; lia).
  pose proof (gr_len _ _ _ _ _ _ Hg _ _ Hd) as Hdl. pose proof (Z.mod_pos_bound off 512 ltac:(lia)) as Hb.
  pose proof (wrote_block V V1 _ addrs1 bm off w a d Hf Hg Hd Ho ltac:(lia)) as Hw1.
  destruct (change_run l c1 s2 _ _ _ a h false (splice (Z.to_nat (off mod BSIZE)) w d) Hh2 (lookup_insert_eq _ _ _))
    as (s3 & _ & E3 & Hh3).
  { rewrite length_splice; [done|]. rewrite Hdl. change BSIZE with 512 in *. lia. }
  { unfold room. rewrite dom_insert_L, dom_empty_L, union_empty_r_L. unfold room0, room in Hr1'.
    rewrite dom_empty_L, union_empty_l_L in Hr1'. lia. }
  rewrite E3. rewrite delete_insert_id in Hh3 by done. set (V3 := <[a := _]> V1) in *.
  destruct (IH fuel c1 s3 V3 ({[a]} ∪ L1) i1 (<[off / BSIZE := a]> bm) (off + m) (drop (Z.to_nat m) src))
    as (s4 & V4 & addrs4 & bm4 & L4 & E4 & Hh4 & Hw4 & Hsame4 & Hmap4 & Hr4 & Hfr4).
  all: try (done || apply Hw1 || lia).
  { unfold c1. by eapply put_d_lookup. }
  { rewrite length_drop. lia. }
  { rewrite length_drop. by replace (Z.of_nat (length src - Z.to_nat m)) with (Z.of_nat (length src) - m) by lia. }
  { change (i_addrs i1) with addrs1. eapply room_le; [exact Hr1|lia]. }
  { change (i_addrs i1) with addrs1. rewrite (free_set_same V1 V3); [lia|]. by eapply lookup_insert_ne, owned_bb. }
  change (i_addrs i1) with addrs1 in Hfr4. rewrite (free_set_same V1 V3) in Hfr4 by (by eapply lookup_insert_ne, owned_bb).
  exists s4, V4, addrs4, bm4, L4. split_and!; [|done| | | |done|lia].
  - rewrite E4, length_drop. unfold c1, i1. rewrite put_d_put_d. f_equal. lia.
  - rewrite <- (take_drop (Z.to_nat m) src). fold w. eapply wrote_app; [exact Hw1|]. by rewrite Hw.
  - intros Hmap. rewrite Hsame4; [apply Hsame, Hmap; lia|]. rewrite length_drop. intros o Hor.
    destruct (Hmap o ltac:(lia)) as [b Hb']. exists b. eapply lookup_weaken; [done|apply Hg].
  - intros o Hor. destruct (decide (o < off + m)) as [Hlt|Hge]; [|apply Hmap4; rewrite length_drop; lia].
    exists a. eapply lookup_weaken; [|apply Hw4]. destruct (offset_block off (o - off)) as [Eo _]; [lia|].
    replace (off + (o - off)) with o in Eo by lia. rewrite Eo. apply lookup_insert_eq.
Qed.

(** ** [iupdate] *)

(** The disk's copy of the inode. *)
Definition disk_inode V (inum : Z) : option dinode := d ← V !! IBLOCK inum; get_dinode d (dinode_at inum).

Lemma iblock_other inum : 0 <= inum < sb_ninodes sb -> IBLOCK inum <> 1 /\ forall z, 0 <= z -> IBLOCK inum <> bblock sb z.
Proof.
  intros Hi. unfold bblock, BBLOCK, IBLOCK. change IPB with 8. change BPB with 4096.
  pose proof (Z.div_pos inum 8 ltac:(lia) ltac:(lia)). pose proof (Z.div_le_mono inum (sb_ninodes sb) 8 ltac:(lia) ltac:(lia)).
  split; [lia|]. intros z Hz. pose proof (Z.div_pos z 4096 ltac:(lia) ltac:(lia)). lia.
Qed.

Definition put_inode V (inum : Z) (i : dinode) : gmap Z (list Z) :=
  <[IBLOCK inum := splice (dinode_at inum) (dinode_bytes i) (default [] (V !! IBLOCK inum))]> V.

Lemma iupdate_run l c s V L ip i :
  inodes c !! ip = Some i -> i_dev i = ROOTDEV -> holds s V ∅ L -> lengths V -> is_Some (V !! IBLOCK (i_inum i)) ->
  length (i_addrs i) = 13%nat -> room0 L 2 ->
  exists s', iupdate ip (Fs l c s) = Ret tt (Fs l c s') /\
    holds s' (put_inode V (i_inum i) (i_d i)) ∅ ({[IBLOCK (i_inum i)]} ∪ L).
Proof.
  intros Hi Hdev Hh Hlen [d Hd] Hal Hr. unfold iupdate. rewrite (bind_Ret _ _ _ _ _ (get_inode_run l c s ip i Hi)), Hdev.
  set (b := IBLOCK (i_inum i)) in *.
  destruct (dread_run l c s V ∅ L b Hh) as (h & s1 & E1 & Hh1); [by eexists|done|by eapply room_le; [exact Hr|lia]|].
  rewrite (bind_Ret _ _ _ _ _ E1).
  erewrite bind_Ret by (apply ons_run; by eapply (sdata_law s1 V _ L b h false d); [|apply lookup_insert_eq|]).
  set (d' := splice _ _ d).
  destruct (change_run l c s1 V _ L b h false d' Hh1 (lookup_insert_eq _ _ _)) as (s2 & E2 & _ & Hh2).
  { pose proof (dinode_at_bound (i_inum i)). pose proof (length_dinode_bytes (i_d i) Hal). pose proof (Hlen _ _ Hd).
    unfold d'. rewrite length_splice; lia. }
  { unfold room in *. rewrite dom_insert_L, dom_empty_L, union_empty_r_L. rewrite dom_empty_L, union_empty_l_L in Hr.
    pose proof (size_add b L). lia. }
  rewrite delete_insert_id in Hh2 by done. exists s2. split; [exact E2|]. unfold put_inode. fold b. by rewrite Hd.
Qed.

(** ** A file: its inode in the cache, the inode on the disk, its blocks *)

Record file_inv V (i : inode) (bm : gmap Z Z) : Prop := {
  fi_ok : file_ok V (i_addrs i) bm;
  fi_size : i_size i <= MAXFILE * BSIZE;
  fi_mapped : mapped_range bm 0 (i_size i);
  fi_dinode : dinode_ok (i_d i);
  fi_disk : disk_inode V (i_inum i) = Some (i_d i);
  fi_inum : 0 <= i_inum i < sb_ninodes sb;
  fi_dev : i_dev i = ROOTDEV;
  fi_type : i_type i <> T_DEV
}.

Lemma file_inv_flags V i i' bm :
  file_inv V i bm -> i_dev i' = i_dev i -> i_inum i' = i_inum i -> i_d i' = i_d i -> file_inv V i' bm.
Proof.
  intros [Q1 Q2 Q3 Q4 Q5 Q6 Q7 Q8] E1 E2 E3. unfold i_addrs, i_size, i_type in *.
  split; unfold i_addrs, i_size, i_type; rewrite ?E1, ?E2, ?E3; done.
Qed.

Definition contents V (i : inode) (bm : gmap Z Z) : list Z := fbytes V bm 0 (i_size i).

Lemma length_fbytes V bm off n : length (fbytes V bm off n) = Z.to_nat n.
Proof. unfold fbytes. by rewrite length_fmap, length_seqZ. Qed.

Lemma lookup_fbytes V bm off n j : (j < Z.to_nat n)%nat ->
  fbytes V bm off n !! j = Some (default 0 (fbyte V bm (off + Z.of_nat j))).
Proof. intros Hj. unfold fbytes. rewrite list_lookup_fmap, lookup_seqZ_lt by lia. done. Qed.

Lemma fbytes_window V bm off n sz :
  0 <= off -> 0 <= n -> off + n <= sz -> fbytes V bm off n = take (Z.to_nat n) (drop (Z.to_nat off) (fbytes V bm 0 sz)).
Proof.
  intros Ho Hn Hs. apply list_eq. intros j. destruct (decide (j < Z.to_nat n)%nat) as [Hj|Hj].
  - rewrite lookup_take_lt, lookup_drop, !lookup_fbytes by lia. do 3 f_equal. lia.
  - rewrite !lookup_ge_None_2; [done| |]; rewrite ?length_take, ?length_drop, !length_fbytes; lia.
Qed.

Lemma addr_uint V addrs bm : file_ok V addrs bm -> Forall uint addrs.
Proof.
  intros Hf. apply Forall_lookup_2. intros n a Ha. assert (Hn : (n < 13)%nat) by (rewrite <- (fo_len _ _ _ Hf); by eapply lookup_lt_Some).
  assert (Hrd : rd addrs (Z.of_nat n) = Some a).
  { unfold rd. rewrite decide_True by lia. by rewrite Nat2Z.id. }
  assert (Hin : a = 0 \/ 0 <= a < sb_size sb).
  { destruct (decide (n < 12)%nat) as [Hlt|Hge].
    - rewrite (entry_direct V addrs bm _ Hf) in Hrd by (change NDIRECT with 12; lia). injection Hrd as <-.
      destruct (bm !! Z.of_nat n) as [b|] eqn:E; [right|by left]. by apply (fo_dom _ _ _ Hf _ _ E).
    - assert (Z.of_nat n = NDIRECT) as En by (change NDIRECT with 12; lia). rewrite En, (entry_ind V addrs bm Hf) in Hrd.
      injection Hrd as <-. destruct (decide (ind addrs = 0)); [by left|right]. by apply (fo_ind _ _ _ Hf). }
  unfold uint. change BPB with 4096 in *. lia.
Qed.

(** *** Storing an inode *)

Lemma put_inode_ne V inum d b : b <> IBLOCK inum -> put_inode V inum d !! b = V !! b.
Proof. intros Hb. apply lookup_insert_ne. congruence. Qed.

Lemma put_inode_some V inum d b : is_Some (V !! b) -> is_Some (put_inode V inum d !! b).
Proof. intros Hs. apply lookup_insert_is_Some. destruct (decide (IBLOCK inum = b)); [by left|by right]. Qed.

Lemma disk_put V inum d :
  lengths V -> dinode_ok d -> is_Some (V !! IBLOCK inum) ->
  lengths (put_inode V inum d) /\ disk_inode (put_inode V inum d) inum = Some d /\
  forall j, j <> inum -> disk_inode (put_inode V inum d) j = disk_inode V j.
Proof.
  intros Hlen Hd [e He]. unfold put_inode. rewrite He. change (default [] (Some e)) with e.
  destruct (dinode_slot d inum e Hd (Hlen _ _ He)) as (Hl & Hs & Ho). split_and!.
  - by apply lengths_insert.
  - unfold disk_inode. by rewrite lookup_insert_eq.
  - intros j Hj. unfold disk_inode. destruct (decide (IBLOCK j = IBLOCK inum)) as [E|E].
    + rewrite E, lookup_insert_eq, He. simpl. by apply Ho.
    + by rewrite lookup_insert_ne.
Qed.

Lemma layout_put V inum d : layout sb V -> 0 <= inum < sb_ninodes sb -> layout sb (put_inode V inum d).
Proof. intros Hlo Hi. destruct (iblock_other inum Hi) as [H1' Hb]. apply layout_data; [done|done|by apply Hb]. Qed.

Lemma owned_iblock V a inum : owned V a -> 0 <= inum < sb_ninodes sb -> a <> IBLOCK inum.
Proof. intros Ho Hi. by apply (ow_data _ _ Ho). Qed.

Lemma file_put V inum d addrs bm :
  0 <= inum < sb_ninodes sb -> file_ok V addrs bm ->
  file_ok (put_inode V inum d) addrs bm /\ forall o, fbyte (put_inode V inum d) bm o = fbyte V bm o.
Proof.
  intros Hi Hf. split.
  - apply (file_keep V); [done| | |].
    + intros a Ha. unfold put_inode. rewrite used_data; [apply Ha|by apply iblock_other|apply Ha].
    + intros a _. apply put_inode_some.
    + intros Hne. apply put_inode_ne. eapply owned_iblock; [by apply (fo_ind _ _ _ Hf)|done].
  - intros o. unfold fbyte. destruct (bm !! (o / BSIZE)) as [a|] eqn:E; [|done]. simpl.
    rewrite put_inode_ne; [done|]. eapply owned_iblock; [by apply (fo_dom _ _ _ Hf _ _ E)|done].
Qed.

(** *** What a write leaves alone *)

Lemma wrote_iblock V V' addrs addrs' bm bm' off src inum :
  wrote V V' addrs addrs' bm bm' off src -> layout sb V -> file_ok V addrs bm -> 0 <= inum < sb_ninodes sb ->
  V' !! IBLOCK inum = V !! IBLOCK inum.
Proof.
  intros Hw Hlo Hf Hi. assert (Hb : forall a, blocks addrs bm a -> a <> IBLOCK inum).
  { intros a Ha. eapply owned_iblock; [by eapply blocks_owned|done]. }
  apply (wr_keep _ _ _ _ _ _ _ _ Hw).
  - by apply iblock_other.
  - intros E. apply (Hb (IBLOCK inum)); [|done]. right. split; [done|]. unfold IBLOCK. change IPB with 8.
    pose proof (Z.div_pos inum 8 ltac:(lia) ltac:(lia)). lia.
  - intros n Hn. apply (Hb (IBLOCK inum)); [by left; exists n|done].
  - intros [Hr Hu]%elem_of_free. by apply (db_inode _ _ (lo_own _ _ Hlo _ Hr Hu) inum Hi).
Qed.

Lemma wrote_other V V' addrs addrs' bm bm' off src addrs2 bm2 :
  wrote V V' addrs addrs' bm bm' off src -> file_ok V addrs bm -> file_ok V addrs2 bm2 ->
  (forall a, blocks addrs bm a -> ~ blocks addrs2 bm2 a) ->
  file_ok V' addrs2 bm2 /\ forall o, fbyte V' bm2 o = fbyte V bm2 o.
Proof.
  intros Hw Hf Hf2 Hap. assert (Hk : forall a, blocks addrs2 bm2 a -> V' !! a = V !! a).
  { intros a Ha. pose proof (blocks_owned _ _ _ _ Hf2 Ha) as Hoa. apply (wr_keep _ _ _ _ _ _ _ _ Hw).
    - by eapply owned_bb.
    - intros ->. apply (Hap (ind addrs)); [|done]. right. split; [done|]. apply (db_boot _ _ (ow_data _ _ Hoa)).
    - intros n Hn. by apply (Hap a); [left; exists n|].
    - intros [_ Hu]%elem_of_free. pose proof (ow_used _ _ Hoa). congruence. }
  split.
  - apply (file_keep V); [done| | |].
    + intros a Ha. apply (wr_used _ _ _ _ _ _ _ _ Hw); apply Ha.
    + intros a Ha. by rewrite Hk.
    + intros Hne. apply Hk. by right.
  - intros o. unfold fbyte. destruct (bm2 !! (o / BSIZE)) as [a|] eqn:E; [|done]. simpl.
    rewrite Hk; [done|]. left. by eexists.
Qed.

Section Rw.
Context (devs : Z -> @devsw S).

Lemma readi_run l c s V L ip i bm off n :
  inodes c !! ip = Some i -> file_inv V i bm -> holds s V ∅ L -> layout sb V -> lengths V -> room0 L 1 ->
  0 <= off <= i_size i -> 0 <= n -> off + n < 2 ^ 32 ->
  exists s', readi devs ip off n (Fs l c s) =
      Ret (Some (take (Z.to_nat n) (drop (Z.to_nat off) (contents V i bm)))) (Fs l c s') /\ holds s' V ∅ L.
Proof.
  intros Hi Hf Hh Hlo Hlen Hr Ho Hn Hov. unfold readi. rewrite (bind_Ret _ _ _ _ _ (get_inode_run l c s ip i Hi)).
  rewrite (proj2 (Z.eqb_neq _ _) (fi_type _ _ _ Hf)). rewrite (u32_uint (off + n)) by (unfold uint; lia).
  rewrite (proj2 (Z.ltb_ge _ off)), (proj2 (Z.ltb_ge _ off)) by lia. cbn [orb]. cbv zeta.
  set (n' := if i_size i <? off + n then i_size i - off else n).
  assert (Hn' : 0 <= n' <= n /\ off + n' <= i_size i /\ (n' < n -> off + n' = i_size i)) by (unfold n'; destruct (Z.ltb_spec (i_size i) (off + n)); lia).
  destruct (read_loop_run (Datatypes.S (Datatypes.S (Z.to_nat (n' / BSIZE + 1)))) l c s V L ip i bm off n')
    as (s' & E & Hh'); try done; try lia.
  - apply Hf.
  - apply Hf.
  - intros o Hor. apply Hf. lia.
  - intros Hpos. change BSIZE with 512. pose proof (Z.mod_pos_bound off 512 ltac:(lia)).
    pose proof (Z.div_mod n' 512 ltac:(lia)). pose proof (Z.mod_pos_bound n' 512 ltac:(lia)).
    pose proof (Z.div_pos n' 512 ltac:(lia) ltac:(lia)). lia.
  - exists s'. split; [|done]. rewrite (bind_Ret _ _ _ _ _ E). unfold ret. do 2 f_equal.
    rewrite (fbytes_window V bm off n' (i_size i)) by lia. fold (contents V i bm).
    destruct (decide (n' = n)) as [->|Hne]; [done|].
    rewrite !take_ge; [done| |]; rewrite length_drop; unfold contents; rewrite length_fbytes; lia.
Qed.

(** The inode after the write. *)
Definition after_write (i : inode) (addrs' : list Z) (off n : Z) : dinode :=
  set_d_size (Z.max (i_size i) (off + n)) (set_d_addrs addrs' (i_d i)).

Lemma after_write_same i off n : off + n <= i_size i -> after_write i (i_addrs i) off n = i_d i.
Proof.
  intros Hs. unfold after_write, i_size, i_addrs in *. rewrite Z.max_l by lia. by destruct (i_d i).
Qed.

Lemma after_write_ok V i addrs' bm' off n :
  dinode_ok (i_d i) -> file_ok V addrs' bm' -> 0 <= off -> 0 <= n -> off + n <= MAXFILE * BSIZE ->
  i_size i <= MAXFILE * BSIZE -> dinode_ok (after_write i addrs' off n).
Proof.
  intros [H1' H2' H3' H4' H5' H6' H7'] Hf Ho Hn Hm Hs. split; simpl; try done.
  - unfold uint, i_size in *. change (MAXFILE * BSIZE) with 71680 in *. lia.
  - apply Hf.
  - by eapply addr_uint.
Qed.

Lemma contents_write V V' i addrs' bm bm' off src :
  wrote V V' (i_addrs i) addrs' bm bm' off src -> mapped_range bm 0 (i_size i) -> 0 <= off <= i_size i ->
  contents V' (set_i_d (after_write i addrs' off (Z.of_nat (length src))) i) bm' =
    splice (Z.to_nat off) src (contents V i bm).
Proof.
  intros Hw Hm Ho. unfold contents. simpl. set (n := Z.of_nat (length src)).
  assert (HC : length (fbytes V bm 0 (i_size i)) = Z.to_nat (i_size i)) by apply length_fbytes.
  change (i_size (set_i_d _ i)) with (Z.max (i_size i) (off + n)). apply list_eq. intros j.
  destruct (decide (j < Z.to_nat (Z.max (i_size i) (off + n)))%nat) as [Hj|Hj].
  2: { rewrite !lookup_ge_None_2; [done| |by rewrite length_fbytes; lia]. unfold splice.
       rewrite !length_app, length_take, length_drop. lia. }
  rewrite lookup_fbytes by done. rewrite Z.add_0_l. unfold splice.
  destruct (decide (j < Z.to_nat off)%nat) as [H1'|H1'].
  { rewrite lookup_app_l by (rewrite length_take; lia). rewrite lookup_take_lt, lookup_fbytes by lia. f_equal. f_equal.
    apply (wr_out _ _ _ _ _ _ _ _ Hw); [lia|]. apply Hm. lia. }
  rewrite lookup_app_r by (rewrite length_take; lia). rewrite length_take, Nat.min_l by lia.
  destruct (decide (j - Z.to_nat off < length src)%nat) as [H2'|H2'].
  - rewrite lookup_app_l by done. destruct (lookup_lt_is_Some_2 _ _ H2') as [x Hx]. rewrite Hx.
    pose proof (wr_in _ _ _ _ _ _ _ _ Hw _ _ Hx) as E.
    replace (off + Z.of_nat (j - Z.to_nat off)) with (Z.of_nat j) in E by lia. by rewrite E.
  - rewrite lookup_app_r by lia. rewrite lookup_drop, lookup_fbytes by lia. f_equal.
    replace (0 + Z.of_nat (Z.to_nat off + length src + (j - Z.to_nat off - length src))) with (Z.of_nat j) by lia.
    f_equal. apply (wr_out _ _ _ _ _ _ _ _ Hw); [lia|]. apply Hm. lia.
Qed.

(** The disk after the write: the inode is stored when the file has grown. *)
Definition stored V1 V' (i : inode) (d' : dinode) : Prop :=
  V' = V1 /\ d' = i_d i \/ V' = put_inode V1 (i_inum i) d'.

Lemma disk_block V inum d : disk_inode V inum = Some d -> is_Some (V !! IBLOCK inum).
Proof. unfold disk_inode. destruct (V !! IBLOCK inum); [by eexists|done]. Qed.

Lemma file_after V V1 V' i addrs' bm bm' off src :
  let n := Z.of_nat (length src) in let d' := after_write i addrs' off n in
  wrote V V1 (i_addrs i) addrs' bm bm' off src -> stored V1 V' i d' -> mapped_range bm' off n ->
  layout sb V -> file_inv V i bm -> 0 <= off <= i_size i -> off + n <= MAXFILE * BSIZE ->
  layout sb V' /\ lengths V' /\ file_inv V' (set_i_d d' i) bm' /\
  contents V' (set_i_d d' i) bm' = splice (Z.to_nat off) src (contents V i bm).
Proof.
  intros n d' Hw Hst Hmap Hlo Hf Ho Hmax.
  pose proof (wrote_iblock _ _ _ _ _ _ _ _ (i_inum i) Hw Hlo (fi_ok _ _ _ Hf) (fi_inum _ _ _ Hf)) as Hib.
  destruct (disk_block _ _ _ (fi_disk _ _ _ Hf)) as [e He].
  assert (Hib' : is_Some (V1 !! IBLOCK (i_inum i))) by (rewrite Hib, He; by eexists).
  assert (Hdok : dinode_ok d') by (eapply after_write_ok; [apply Hf|apply Hw|lia|lia|done|apply Hf]).
  destruct (disk_put V1 (i_inum i) d' (wr_len _ _ _ _ _ _ _ _ Hw) Hdok Hib') as (Hlen & Hd & _).
  assert (HC := contents_write _ _ _ _ _ _ _ _ Hw (fi_mapped _ _ _ Hf) Ho). fold n d' in HC.
  assert (Hm' : mapped_range bm' 0 (i_size (set_i_d d' i))).
  { intros o Hor. change (i_size (set_i_d d' i)) with (Z.max (i_size i) (off + n)) in Hor.
    destruct (decide (o < i_size i)); [|apply Hmap; lia]. destruct (fi_mapped _ _ _ Hf o ltac:(lia)) as [a Ha].
    exists a. eapply lookup_weaken; [done|apply Hw]. }
  assert (Hsz : i_size (set_i_d d' i) <= MAXFILE * BSIZE).
  { change (i_size (set_i_d d' i)) with (Z.max (i_size i) (off + n)). pose proof (fi_size _ _ _ Hf). lia. }
  destruct Hst as [[-> Hdi] | ->].
  - split_and!; [apply Hw|apply Hw| |done]. split; try done; try apply Hf; try apply Hw.
    change (disk_inode V1 (i_inum i) = Some d'). unfold disk_inode. rewrite Hib, Hdi. apply Hf.
  - destruct (file_put V1 (i_inum i) d' _ _ (fi_inum _ _ _ Hf) (wr_file _ _ _ _ _ _ _ _ Hw)) as [Hf' Hb].
    split_and!; [apply layout_put; [apply Hw|apply Hf]|done| |].
    + split; try done; apply Hf.
    + rewrite <- HC. unfold contents, fbytes. apply list_fmap_ext. intros k x _. by rewrite Hb.
Qed.

Lemma other_after V V1 V' i d' addrs' bm bm' off src i2 bm2 :
  wrote V V1 (i_addrs i) addrs' bm bm' off src -> stored V1 V' i d' -> dinode_ok d' ->
  layout sb V -> file_inv V i bm -> file_inv V i2 bm2 -> i_inum i2 <> i_inum i ->
  (forall a, blocks (i_addrs i) bm a -> ~ blocks (i_addrs i2) bm2 a) ->
  file_inv V' i2 bm2 /\ contents V' i2 bm2 = contents V i2 bm2.
Proof.
  intros Hw Hst Hdok Hlo Hf Hf2 Hne Hap.
  destruct (wrote_other _ _ _ _ _ _ _ _ _ _ Hw (fi_ok _ _ _ Hf) (fi_ok _ _ _ Hf2) Hap) as [Hok Hb].
  pose proof (fun j => wrote_iblock _ _ _ _ _ _ _ _ j Hw Hlo (fi_ok _ _ _ Hf)) as Hib.
  assert (Hd : disk_inode V1 (i_inum i2) = Some (i_d i2)).
  { unfold disk_inode. rewrite Hib by apply Hf2. apply Hf2. }
  assert (HC : forall W, (forall o, fbyte W bm2 o = fbyte V1 bm2 o) -> contents W i2 bm2 = contents V i2 bm2).
  { intros W HW. unfold contents, fbytes. apply list_fmap_ext. intros k x _. by rewrite HW, Hb. }
  destruct Hst as [[-> _] | ->].
  - split; [|by apply HC]. split; try done; apply Hf2.
  - destruct (file_put V1 (i_inum i) d' _ _ (fi_inum _ _ _ Hf) Hok) as [Hok' Hb']. split; [|by apply HC].
    destruct (disk_put V1 (i_inum i) d' (wr_len _ _ _ _ _ _ _ _ Hw) Hdok) as (_ & _ & Ho).
    { rewrite Hib by apply Hf. by eapply disk_block, Hf. }
    split; try done; try apply Hf2. by rewrite Ho.
Qed.

(** The number of blocks that [n] bytes at [off] touch. *)
Definition touched (off n : Z) : nat := Z.to_nat ((off mod BSIZE + n + 511) / BSIZE).

Lemma touched_spans off n : 0 <= off -> 0 <= n -> spans off n (touched off n) /\ Z.of_nat (touched off n) <= n / 512 + 2.
Proof.
  intros Ho Hn. unfold spans, touched. change BSIZE with 512. pose proof (Z.mod_pos_bound off 512 ltac:(lia)) as Hb.
  set (x := off mod 512 + n + 511). pose proof (Z.div_mod x 512 ltac:(lia)). pose proof (Z.mod_pos_bound x 512 ltac:(lia)).
  pose proof (Z.div_pos x 512 ltac:(lia) ltac:(lia)).
  pose proof (Z.div_mod n 512 ltac:(lia)). pose proof (Z.mod_pos_bound n 512 ltac:(lia)). split; lia.
Qed.

Lemma writei_run l c s V L ip i bm off src :
  let n := Z.of_nat (length src) in let k := touched off n in
  inodes c !! ip = Some i -> file_inv V i bm -> holds s V ∅ L -> layout sb V -> lengths V ->
  0 <= off <= i_size i -> off + n <= MAXFILE * BSIZE ->
  room0 (base (i_addrs i) L) (k + need (i_addrs i) + 2) -> (k + need (i_addrs i) <= size (free_set V))%nat ->
  exists s' V1 V' addrs' bm' L',
    let d' := after_write i addrs' off n in
    writei devs ip src off (Fs l c s) = Ret n (Fs l (put_d ip i d' c) s') /\
    holds s' V' ∅ L' /\ wrote V V1 (i_addrs i) addrs' bm bm' off src /\ mapped_range bm' off n /\ stored V1 V' i d' /\
    (size L' <= 9)%nat /\ (size (free_set V) + need addrs' <= k + size (free_set V') + need (i_addrs i))%nat.
Proof.
  intros n k Hi Hf Hh Hlo Hlen Ho Hmax Hr Hfree. unfold writei.
  destruct (touched_spans off n) as [Hsp Hk]; [lia..|]. fold k in Hsp, Hk.
  rewrite (bind_Ret _ _ _ _ _ (get_inode_run l c s ip i Hi)), (proj2 (Z.eqb_neq _ _) (fi_type _ _ _ Hf)). fold n.
  pose proof (fi_size _ _ _ Hf) as Hsz. change (MAXFILE * BSIZE) with 71680 in *.
  rewrite (u32_uint (off + n)) by (unfold uint; lia).
  rewrite (proj2 (Z.ltb_ge _ off)), (proj2 (Z.ltb_ge _ off)), (proj2 (Z.ltb_ge 71680 _)) by lia. cbn [orb].
  destruct (write_loop_run k (Datatypes.S (Datatypes.S (Z.to_nat (n / BSIZE + 1)))) l c s V L ip i bm off src)
    as (s1 & V1 & addrs' & bm' & L1 & E1 & Hh1 & Hw & Hsame & Hmap & Hr1 & Hfr); try done; try apply Hf; try lia.
  { change BSIZE with 512. lia. }
  rewrite (bind_Ret _ _ _ _ _ E1). fold n in Hsame, Hmap |- *.
  set (i1 := set_i_d (set_d_addrs addrs' (i_d i)) i). set (c1 := put_d ip i (set_d_addrs addrs' (i_d i)) c) in *.
  assert (Hi1 : inodes c1 !! ip = Some i1) by by apply put_d_lookup.
  rewrite (bind_Ret _ _ _ _ _ (get_inode_run l c1 s1 ip i1 Hi1)). change (i_size i1) with (i_size i).
  destruct (Z.ltb_spec (i_size i) (off + n)) as [Hg|Hng].
  - rewrite (proj2 (Z.ltb_lt 0 n)) by lia. cbn [andb when].
    rewrite bind_assoc. rewrite (bind_Ret _ _ _ _ _ (upd_dinode_run l c1 s1 ip i1 _ Hi1)).
    set (c2 := put_d ip i1 _ c1). set (d' := after_write i addrs' off n).
    assert (Hc2 : c2 = put_d ip i d' c) by (unfold c2, c1, i1, d', after_write; rewrite Z.max_r by lia; apply put_d_put_d).
    assert (Hi2 : inodes c2 !! ip = Some (set_i_d d' i)) by (rewrite Hc2; by apply put_d_lookup).
    destruct (iupdate_run l c2 s1 V1 L1 ip (set_i_d d' i) Hi2 (fi_dev _ _ _ Hf) Hh1) as (s2 & E2 & Hh2); [apply Hw| |apply Hw|done|].
    { change (is_Some (V1 !! IBLOCK (i_inum i))). rewrite (wrote_iblock _ _ _ _ _ _ _ _ _ Hw Hlo (fi_ok _ _ _ Hf) (fi_inum _ _ _ Hf)).
      by eapply disk_block, Hf. }
    rewrite (bind_Ret _ _ _ _ _ E2), Hc2. exists s2, V1, (put_inode V1 (i_inum i) d'), addrs', bm'. eexists.
    split_and!; [done|exact Hh2|done|done|by right| |].
    2: { rewrite (free_set_same V1 (put_inode V1 (i_inum i) d')); [done|]. apply lookup_insert_ne.
      destruct (iblock_other _ (fi_inum _ _ _ Hf)) as [_ Hne]. apply Hne. lia. }
    unfold room in Hr1. rewrite dom_empty_L, union_empty_l_L in Hr1. change NBUF with 10%nat in Hr1.
    pose proof (size_add (IBLOCK (i_inum i)) L1) as Hs. change (i_inum (set_i_d d' i)) with (i_inum i). lia.
  - rewrite andb_false_r. cbn [when]. assert (Ha : addrs' = i_addrs i).
    { apply Hsame. intros o Hor. apply Hf. lia. }
    exists s1, V1, V1, addrs', bm', L1. cbv zeta. split_and!; [|done|done|done| | |done].
    + unfold c1. rewrite Ha, after_write_same by done. rewrite put_d_id by done.
      unfold put_d. rewrite <- (put_d_id ip i c Hi) at 1. unfold put_d. by destruct i as [? ? ? ? ? []].
    + left. by rewrite Ha, after_write_same.
    + unfold room in Hr1. rewrite dom_empty_L, union_empty_l_L in Hr1. change NBUF with 10%nat in Hr1. lia.
Qed.
End Rw.
End File.
