(* ===== verification/FsIcache.v ===== *)
(** * The inode cache (fs.c)

    [iget], [idup], [iput], [ilock] and [iunlock] on the table of cached
    inodes.  To its clients the cache is a count of references for each inode
    of the disk; the table holds at most one entry for an inode, so that all
    its users share one copy. *)
From S2P Require Import Prelude Mmu Spinlock Strings Bytes BlockCache Store Fs FsBlocks FsInode FsFile.

Section Icache.
Context {S H : Type} `{Store S H}.
Implicit Types (l : lstate) (c : icst) (s : S).

(** ** The lock *)

Definition unlocked (k : nat) (l : lstate) : Prop :=
  Spinlock.quiet (this_cpu l) /\ exists lk, locks l !! k = Some lk /\ locked lk = 0 /\ lcpu lk = None.

(** What is left of an acquire and a release. *)
Definition same_locks (l l' : lstate) : Prop := forall k, unlocked k l -> unlocked k l'.

Lemma locked_run k l : unlocked k l ->
  exists l1 l2, acquire k l = Ret tt l1 /\ release k l1 = Ret tt l2 /\ same_locks l l2.
Proof.
  intros (Hq & lk & Hl & H1 & H2). destruct (acquire_release_id l k lk Hl H1 H2 Hq) as (l1 & ena & Ha & _ & _ & _ & Hr).
  exists l1. eexists. split_and!; [done|exact Hr|]. intros j (Hqj & lkj & Hj). split; [exact Hqj|]. by exists lkj.
Qed.

Lemma icache_locked_run {A} (m : M icst A) l c s a c' :
  unlocked 0 l -> m c = Ret a c' ->
  exists l', icache_locked m (Fs l c s) = Ret a (Fs l' c' s) /\ same_locks l l'.
Proof.
  intros Hl Hm. destruct (locked_run 0 l Hl) as (l1 & l2 & E1 & E2 & Hs). exists l2. split; [|done].
  unfold icache_locked, bind, zoom. simpl. rewrite E1. simpl. rewrite Hm. simpl. by rewrite E2.
Qed.

Lemma icache_locked_panic {A} (m : M icst A) l c s msg :
  unlocked 0 l -> m c = Panic msg -> icache_locked m (Fs l c s) = Panic msg.
Proof.
  intros Hl Hm. destruct (locked_run 0 l Hl) as (l1 & l2 & E1 & E2 & Hs).
  unfold icache_locked, bind, zoom. simpl. rewrite E1. simpl. by rewrite Hm.
Qed.

(** ** The table *)

Definition same_inode (i : inode) (dev inum : Z) : Prop := i_dev i = dev /\ i_inum i = inum.

Record icache_ok (c : icst) : Prop := {
  ic_ref : forall ip i, inodes c !! ip = Some i -> 0 <= i_ref i;
  ic_once : forall ip iq i j, inodes c !! ip = Some i -> inodes c !! iq = Some j -> 0 < i_ref i -> 0 < i_ref j ->
    same_inode i (i_dev j) (i_inum j) -> ip = iq
}.

(** The references to an inode. *)
Definition weight (dev inum : Z) (i : inode) : Z :=
  if (i_dev i =? dev) && (i_inum i =? inum) then i_ref i else 0.
Definition refs (c : icst) (dev inum : Z) : Z := foldr (fun i n => weight dev inum i + n) 0 (inodes c).

Definition set_inode (ip : nat) (i : inode) (c : icst) : icst := Icst (<[ip := i]> (inodes c)) (woken c).

Lemma refs_set c ip i i' dev inum :
  inodes c !! ip = Some i ->
  refs (set_inode ip i' c) dev inum = refs c dev inum - weight dev inum i + weight dev inum i'.
Proof.
  unfold refs, set_inode. simpl. generalize (inodes c) as l. intros l. revert ip.
  induction l as [|x l IH]; intros [|ip] Hi; try done; simpl in *.
  - injection Hi as ->. lia.
  - rewrite (IH ip Hi). lia.
Qed.

Lemma is_cached_true dev inum i : is_cached dev inum i = true <-> 0 < i_ref i /\ same_inode i dev inum.
Proof. unfold is_cached, same_inode. rewrite !andb_true_iff, Z.ltb_lt, !Z.eqb_eq. tauto. Qed.

Lemma weight_same dev inum i : same_inode i dev inum -> weight dev inum i = i_ref i.
Proof. intros [<- <-]. unfold weight. by rewrite !Z.eqb_refl. Qed.

Lemma weight_other dev inum i : ~ same_inode i dev inum -> weight dev inum i = 0.
Proof.
  unfold weight, same_inode. intros Hn. destruct (Z.eqb_spec (i_dev i) dev), (Z.eqb_spec (i_inum i) inum); try done. tauto.
Qed.

Definition total (dev inum : Z) (t : list inode) : Z := foldr (fun i n => weight dev inum i + n) 0 t.

Lemma total_zero dev inum t :
  (forall ip j, t !! ip = Some j -> 0 <= i_ref j) ->
  (forall ip j, t !! ip = Some j -> 0 < i_ref j -> ~ same_inode j dev inum) -> total dev inum t = 0.
Proof.
  induction t as [|x t IH]; intros Hp Hn; [done|]. simpl.
  rewrite IH; [|intros ip; apply (Hp (Datatypes.S ip))|intros ip; apply (Hn (Datatypes.S ip))].
  pose proof (Hp O x eq_refl). destruct (decide (0 < i_ref x)) as [Hx|Hx].
  - by rewrite weight_other by (by apply (Hn O x)).
  - unfold weight. case_match; lia.
Qed.

(** The entry of a cached inode has all the references. *)
Lemma refs_entry c ip i :
  icache_ok c -> inodes c !! ip = Some i -> 0 < i_ref i -> refs c (i_dev i) (i_inum i) = i_ref i.
Proof.
  intros [Href Honce] Hi Hr. change (total (i_dev i) (i_inum i) (inodes c) = i_ref i).
  revert ip Hi Href Honce. generalize (inodes c) as t.
  induction t as [|x t IH]; intros ip Hi Href Honce; [done|]. destruct ip as [|ip]; simpl in *.
  - injection Hi as ->. rewrite total_zero, weight_same; [lia|done|intros ip; apply (Href (Datatypes.S ip))|].
    intros ip j Hj Hjr Hs. by specialize (Honce (Datatypes.S ip) O j i Hj eq_refl Hjr Hr Hs).
  - rewrite (IH ip Hi); [|intros iq; apply (Href (Datatypes.S iq))|].
    2: { intros iq ir a b Ha Hb Har Hbr Hs. by specialize (Honce (Datatypes.S iq) (Datatypes.S ir) a b Ha Hb Har Hbr Hs) as [= ->]. }
    pose proof (Href O x eq_refl). destruct (decide (0 < i_ref x)) as [Hx|Hx].
    + rewrite weight_other; [lia|]. intros Hs. by specialize (Honce O (Datatypes.S ip) x i eq_refl Hi Hx Hr Hs).
    + unfold weight. case_match; lia.
Qed.

(** Changing an entry without giving it to another inode. *)
Lemma set_ok c ip i i' :
  icache_ok c -> inodes c !! ip = Some i -> 0 <= i_ref i' ->
  (0 < i_ref i' -> forall iq j, iq <> ip -> inodes c !! iq = Some j -> 0 < i_ref j -> ~ same_inode j (i_dev i') (i_inum i')) ->
  icache_ok (set_inode ip i' c).
Proof.
  intros [Href Honce] Hi Hr Hn. assert (Hlt : (ip < length (inodes c))%nat) by by eapply lookup_lt_Some. split; simpl.
  - intros iq j Hj. apply list_lookup_insert_Some in Hj as [(<- & <- & _)|[_ Hj]]; [done|by eapply Href].
  - intros iq ir a b Ha Hb Har Hbr Hs.
    apply list_lookup_insert_Some in Ha as [(Ei & <- & _)|[Nq Ha]]; apply list_lookup_insert_Some in Hb as [(Ej & <- & _)|[Nr Hb]].
    + congruence.
    + subst. destruct (Hn Har ir b) as []; try done. destruct Hs. by split.
    + subst. by destruct (Hn Hbr iq a).
    + by apply (Honce iq ir a b).
Qed.

(** ** Running the operations on an entry *)

Lemma upd_inode_run l c s ip i f :
  inodes c !! ip = Some i -> upd_inode ip f (Fs l c s) = Ret tt (Fs l (set_inode ip (f i) c) s).
Proof.
  intros Hi. unfold upd_inode, ic_upd, zoom, modify, set_ic, set_inode. simpl. do 2 f_equal. f_equal.
  apply list_eq. intros j. destruct (decide (j = ip)) as [->|Hj].
  - rewrite list_lookup_alter_eq, Hi. simpl. symmetry. apply list_lookup_insert_eq. by eapply lookup_lt_Some.
  - by rewrite list_lookup_alter_ne, list_lookup_insert_ne by done.
Qed.

Lemma set_inode_lookup ip i i' c : inodes c !! ip = Some i -> inodes (set_inode ip i' c) !! ip = Some i'.
Proof. intros Hi. apply list_lookup_insert_eq. by eapply lookup_lt_Some. Qed.

Lemma set_inode_twice ip i i' c : set_inode ip i' (set_inode ip i c) = set_inode ip i' c.
Proof. unfold set_inode. simpl. by rewrite list_insert_insert_eq. Qed.

Lemma get_inode_set l c s ip i i' :
  inodes c !! ip = Some i -> get_inode ip (Fs l (set_inode ip i' c) s) = Ret i' (Fs l (set_inode ip i' c) s).
Proof. intros Hi. apply get_inode_run. by eapply set_inode_lookup. Qed.

Lemma acquire_fs k l c s l1 : acquire k l = Ret tt l1 -> zoom flks set_flks (acquire k) (Fs l c s) = Ret tt (Fs l1 c s).
Proof. intros E. unfold zoom. simpl. by rewrite E. Qed.

Lemma release_fs k l c s l1 : release k l = Ret tt l1 -> zoom flks set_flks (release k) (Fs l c s) = Ret tt (Fs l1 c s).
Proof. intros E. unfold zoom. simpl. by rewrite E. Qed.

(** ** [iget] *)

Definition one (b : bool) : Z := if b then 1 else 0.
Definition is_inode (dev inum d n : Z) : bool := (d =? dev) && (n =? inum).

(** [c'] has one more reference to the inode than [c]. *)
Definition one_more (dev inum : Z) (c c' : icst) : Prop :=
  forall d n, refs c' d n = refs c d n + one (is_inode dev inum d n).

Lemma one_more_set c ip i i' dev inum :
  inodes c !! ip = Some i -> same_inode i' dev inum -> i_ref i' = i_ref i + 1 -> (i_ref i = 0 \/ same_inode i dev inum) ->
  one_more dev inum c (set_inode ip i' c).
Proof.
  intros Hi [Hd Hn] Hr Hs d n. rewrite (refs_set c ip i i' d n Hi). unfold weight, is_inode, one. rewrite Hd, Hn, Hr.
  rewrite (Z.eqb_sym d dev), (Z.eqb_sym n inum). destruct Hs as [-> | [-> ->]].
  - destruct ((i_dev i =? d) && (i_inum i =? n)), ((dev =? d) && (inum =? n)); lia.
  - destruct ((dev =? d) && (inum =? n)); lia.
Qed.

Lemma ic_upd_run c ip i f : inodes c !! ip = Some i -> ic_upd ip f c = Ret tt (set_inode ip (f i) c).
Proof.
  intros Hi. unfold ic_upd, modify, set_inode. do 2 f_equal.
  apply list_eq. intros j. destruct (decide (j = ip)) as [->|Hj].
  - rewrite list_lookup_alter_eq, Hi. simpl. symmetry. apply list_lookup_insert_eq. by eapply lookup_lt_Some.
  - by rewrite list_lookup_alter_ne, list_lookup_insert_ne by done.
Qed.

Lemma iget_run l c s dev inum :
  unlocked 0 l -> icache_ok c ->
  (exists ip i i' l', iget dev inum (Fs l c s) = Ret ip (Fs l' (set_inode ip i' c) s) /\ same_locks l l' /\
     inodes c !! ip = Some i /\ icache_ok (set_inode ip i' c) /\ one_more dev inum c (set_inode ip i' c) /\
     (0 < i_ref i /\ same_inode i dev inum /\ i' = set_i_ref (i_ref i + 1) i \/
      refs c dev inum = 0 /\ i_ref i = 0 /\ i' = Inode dev inum 1 false false (i_d i))) \/
  refs c dev inum = 0 /\ (forall ip i, inodes c !! ip = Some i -> 0 < i_ref i) /\
    iget dev inum (Fs l c s) = Panic "iget: no inodes".
Proof.
  intros Hl Hok. unfold iget. set (m := bind _ _). destruct (find_first (is_cached dev inum) (inodes c)) as [ip|] eqn:E.
  { apply find_first_Some in E as E'. destruct E' as [(i & Hi & Hc) _]. apply is_cached_true in Hc as [Hr Hs].
    destruct (icache_locked_run m l c s ip (set_inode ip (set_i_ref (i_ref i + 1) i) c) Hl) as (l' & El & Hsl).
    { unfold m. rewrite bind_gets, E. by rewrite (bind_Ret _ _ _ _ _ (ic_upd_run c ip i _ Hi)). }
    left. exists ip, i, (set_i_ref (i_ref i + 1) i), l'. split_and!; try done.
    - apply (set_ok c ip i); [done|done|simpl; lia|]. intros _ iq j Hne Hj Hjr Hsj. apply Hne. by apply (ic_once _ Hok iq ip j i).
    - apply (one_more_set c ip i); [done|done|done|by right].
    - by left. }
  assert (Hz : refs c dev inum = 0).
  { apply total_zero; [apply Hok|]. intros ip j Hj Hjr Hs. pose proof (proj1 (find_first_None _ _) E j (list_elem_of_lookup_2 _ _ _ Hj)) as Hn.
    assert (is_cached dev inum j = true) by by apply is_cached_true. congruence. }
  destruct (find_first (fun i => i_ref i =? 0) (inodes c)) as [ip|] eqn:E2.
  - apply find_first_Some in E2 as E'. destruct E' as [(i & Hi & Hc) _]. apply Z.eqb_eq in Hc.
    set (i' := Inode dev inum 1 false false (i_d i)).
    destruct (icache_locked_run m l c s ip (set_inode ip i' c) Hl) as (l' & El & Hsl).
    { unfold m. rewrite bind_gets, E, E2. by rewrite (bind_Ret _ _ _ _ _ (ic_upd_run c ip i _ Hi)). }
    left. exists ip, i, i', l'. split_and!; try done.
    + apply (set_ok c ip i); [done|done|simpl; lia|]. intros _ iq j Hne Hj Hjr Hsj.
      pose proof (proj1 (find_first_None _ _) E j (list_elem_of_lookup_2 _ _ _ Hj)) as Hn.
      assert (is_cached dev inum j = true) by by apply is_cached_true. congruence.
    + apply (one_more_set c ip i); [done|done|simpl; lia|by left].
    + by right.
  - right. split; [done|]. split.
    + intros ip i Hi. pose proof (proj1 (find_first_None _ _) E2 i (list_elem_of_lookup_2 _ _ _ Hi)) as Hn.
      apply Z.eqb_neq in Hn. pose proof (ic_ref _ Hok ip i Hi). lia.
    + apply icache_locked_panic; [done|]. unfold m. by rewrite bind_gets, E, E2.
Qed.
End Icache.

(** ** [ilock] *)

Section Ilock.
Context {S H : Type} `{StoreLaws S H} `{!Loggable S H}.
Implicit Types (V : gmap Z (list Z)) (L : gset Z) (l : lstate) (c : icst) (s : S).

(** The entry of a locked inode: what was cached, or else the disk's copy. *)
Definition locked_inode V (i : inode) : option inode :=
  if i_valid i then Some (set_i_flags true true i)
  else d ← disk_inode V (i_inum i); Some (Inode (i_dev i) (i_inum i) (i_ref i) true true d).

Lemma ilock_run l c s V L ip i i' :
  unlocked 0 l -> inodes c !! ip = Some i -> 1 <= i_ref i -> i_busy i = false -> i_dev i = ROOTDEV ->
  holds s V ∅ L -> room (∅ : gmap Z (H * bool)) L 1 -> locked_inode V i = Some i' -> (i_valid i = false -> i_type i' <> 0) ->
  exists l' s', ilock ip (Fs l c s) = Ret tt (Fs l' (set_inode ip i' c) s') /\ same_locks l l' /\ holds s' V ∅ L.
Proof.
  intros Hl Hi Hr Hb Hdev Hh Hroom Hli Hty. destruct (locked_run 0 l Hl) as (l1 & l2 & E1 & E2 & Hs). unfold ilock.
  rewrite (bind_Ret _ _ _ _ _ (get_inode_run l c s ip i Hi)), (proj2 (Z.ltb_ge (i_ref i) 1)) by lia.
  rewrite (bind_Ret _ _ _ _ _ (acquire_fs 0 l c s l1 E1)), (bind_Ret _ _ _ _ _ (get_inode_run l1 c s ip i Hi)), Hb.
  rewrite (bind_Ret _ _ _ _ _ (upd_inode_run l1 c s ip i _ Hi)). set (i1 := set_i_flags true (i_valid i) i). set (c1 := set_inode ip i1 c).
  rewrite (bind_Ret _ _ _ _ _ (release_fs 0 l1 c1 s l2 E2)), (bind_Ret _ _ _ _ _ (get_inode_set l2 c s ip i i1 Hi)).
  unfold locked_inode in Hli. change (i_valid i1) with (i_valid i). destruct (i_valid i) eqn:Hv; cbn [negb when].
  { injection Hli as <-. by exists l2, s. }
  destruct (disk_inode V (i_inum i)) as [di|] eqn:Hd; [|done]. injection Hli as <-.
  unfold disk_inode in Hd. destruct (V !! IBLOCK (i_inum i)) as [e|] eqn:He; [|done]. simpl in Hd.
  destruct (dread_run l2 c1 s V ∅ L (IBLOCK (i_inum i)) Hh) as (h & s1 & E3 & Hh1); [by eexists|done|done|].
  change (i_dev i1) with (i_dev i). change (i_inum i1) with (i_inum i). rewrite Hdev, (bind_Ret _ _ _ _ _ E3).
  erewrite bind_Ret by (apply ons_run; by eapply (sdata_law s1 V _ L _ h false e); [|apply lookup_insert_eq|]).
  erewrite bind_gets_opt by exact Hd.
  assert (Hi1 : inodes c1 !! ip = Some i1) by by eapply set_inode_lookup.
  rewrite (bind_Ret _ _ _ _ _ (upd_dinode_run l2 c1 s1 ip i1 _ Hi1)).
  destruct (srelse_law s1 V _ L _ h Hh1 (lookup_insert_eq _ _ _)) as (s2 & E4 & Hh2).
  rewrite delete_insert_id in Hh2 by done. erewrite bind_Ret by (apply ons_run; exact E4).
  rewrite (bind_Ret _ _ _ _ _ (upd_inode_run l2 _ s2 ip _ _ (put_d_lookup ip i1 di c1 Hi1))).
  rewrite (proj2 (Z.eqb_neq (d_type di) 0) (Hty eq_refl)). exists l2, s2. split_and!; [|done|done].
  unfold ret, c1, put_d, set_inode. simpl. rewrite !list_insert_insert_eq. unfold set_i_flags. simpl. by rewrite Hdev.
Qed.

Lemma iunlock_run l c s ip i :
  unlocked 0 l -> inodes c !! ip = Some i -> 1 <= i_ref i -> i_busy i = true ->
  exists l', iunlock ip (Fs l c s) =
      Ret tt (Fs l' (Icst (<[ip := set_i_flags false (i_valid i) i]> (inodes c)) (woken c ++ [ip])) s) /\ same_locks l l'.
Proof.
  intros Hl Hi Hr Hb. unfold iunlock. rewrite (bind_Ret _ _ _ _ _ (get_inode_run l c s ip i Hi)).
  rewrite Hb, (proj2 (Z.ltb_ge (i_ref i) 1)) by lia. cbn [negb orb]. apply icache_locked_run; [done|].
  by rewrite (bind_Ret _ _ _ _ _ (ic_upd_run c ip i _ Hi)).
Qed.
End Ilock.
