(* ===== verification/FsTrunc.v ===== *)
(** * Truncating and freeing a file (fs.c)

    [itrunc] gives the blocks of a file back to the bitmap, and no others;
    [iput] of the last reference to an inode without links truncates it and
    frees the inode on the disk. *)
From S2P Require Import Prelude Mmu Spinlock Strings Bytes BlockCache Store Fs FsBlocks FsInode FsFile FsIcache.

Section Trunc.
Context {S H : Type} `{StoreLaws S H} `{!Loggable S H}.
Implicit Types (V : gmap Z (list Z)) (Hd : gmap Z (H * bool)) (L : gset Z) (l : lstate) (c : icst) (s : S).
Context (sb : superblock) (single : sb_size sb <= BPB).

Abbreviation bb := (bblock sb 0).
Abbreviation used := (used sb).
Abbreviation room0 := (room (∅ : gmap Z (H * bool))).

Context (V0 : gmap Z (list Z)) (addrs0 : list Z) (bm : gmap Z Z).
Context (Hlo0 : layout sb V0) (Hlen0 : lengths V0) (Hf : file_ok sb V0 addrs0 bm).

(** The first [j] blocks of the file are free again. *)
Record trunced (V : gmap Z (list Z)) (j : Z) : Prop := {
  tr_layout : layout sb V;
  tr_len : lengths V;
  tr_keep : forall y, y <> bb -> V !! y = V0 !! y;
  tr_used : forall y, 0 <= y < sb_size sb -> used V y = true <-> used V0 y = true /\ forall n, 0 <= n < j -> bm !! n <> Some y
}.

Lemma trunced_0 : trunced V0 0.
Proof. split; try done. intros y Hy. split; [intros Hu; split; [done|lia]|tauto]. Qed.

Lemma trunced_none V j : trunced V j -> bm !! j = None -> trunced V (j + 1).
Proof.
  intros [H1' H2' H3' H4'] Hn. split; try done. intros y Hy. rewrite H4' by done. split; intros [Hu Hb]; (split; [done|]); intros n Hr.
  - destruct (decide (n = j)) as [->|]; [congruence|apply Hb; lia].
  - apply Hb. lia.
Qed.

Lemma freed_len V x : lengths V -> is_Some (V !! bblock sb x) -> lengths (freed sb V x).
Proof.
  intros Hlen [d Hd]. apply lengths_insert; [done|]. unfold clear_bit. rewrite length_alter, Hd.
  change (default [] (Some d)) with d. by apply (Hlen _ _ Hd).
Qed.

(** Freeing an owned block that is still in use. *)
Lemma bfree_owned l c s V Hd L a :
  holds s V Hd L -> layout sb V -> lengths V -> alloc_free sb Hd -> room Hd L 2 ->
  0 <= a < sb_size sb -> used V a = true -> data_block sb a -> is_Some (V !! a) ->
  exists s', bfree ROOTDEV a (Fs l c s) = Ret tt (Fs l c s') /\ holds s' (freed sb V a) Hd ({[bb]} ∪ L) /\
    layout sb (freed sb V a) /\ lengths (freed sb V a) /\ (forall y, y <> bb -> freed sb V a !! y = V !! y) /\
    (forall y, used (freed sb V a) y = used V y && negb (y =? a)).
Proof.
  intros Hh Hlo Hlen Haf Hr Ha Hu Hdb Hs. pose proof (bfree_run l c s V Hd L sb a Hh Hlo Haf Hr Ha) as Hrun.
  rewrite Hu in Hrun. destruct Hrun as (s' & E & Hh'). rewrite (one_bitmap sb single a Ha) in Hh'.
  exists s'. split_and!; [done|done| | | |].
  - apply layout_freed; try done. intros d. apply Hlen.
  - apply freed_len; [done|]. by apply (lo_bitmap _ _ Hlo).
  - intros y Hy. apply lookup_insert_ne. by rewrite (one_bitmap sb single a Ha).
  - intros y. apply used_freed; try done. intros d. apply Hlen.
Qed.

Lemma bfree_step l c s V Hd L j a :
  holds s V Hd L -> trunced V j -> 0 <= j -> bm !! j = Some a -> alloc_free sb Hd -> room Hd L 2 ->
  exists s' V', bfree ROOTDEV a (Fs l c s) = Ret tt (Fs l c s') /\ holds s' V' Hd ({[bb]} ∪ L) /\ trunced V' (j + 1).
Proof.
  intros Hh [Hlo Hlen Hkeep Hused] Hj Ha Haf Hr. destruct (fo_dom _ _ _ _ Hf j a Ha) as [_ Ho].
  assert (Hu : used V a = true).
  { apply Hused; [apply Ho|]. split; [apply Ho|]. intros n Hn Hb. pose proof (fo_inj _ _ _ _ Hf n j a Hb Ha). lia. }
  destruct (bfree_owned l c s V Hd L a) as (s' & E & Hh' & Hlo' & Hlen' & Hk & Hus); try done; try apply Ho.
  { rewrite Hkeep by (by eapply owned_bb). apply Ho. }
  exists s', (freed sb V a). split_and!; [done|done|]. split; try done.
  - intros y Hy. by rewrite Hk, Hkeep.
  - intros y Hy. rewrite Hus, andb_true_iff, Hused by done. split.
    + intros [[Hy1 Hy2] Hne]. split; [done|]. intros n Hn. destruct (decide (n = j)) as [->|]; [|apply Hy2; lia].
      rewrite Ha. intros [= ->]. by rewrite Z.eqb_refl in Hne.
    + intros [Hy1 Hy2]. split; [split; [done|intros n Hn; apply Hy2; lia]|]. destruct (Z.eqb_spec y a) as [->|]; [|done].
      by destruct (Hy2 j ltac:(lia)).
Qed.

(** ** The direct blocks *)

Definition zeroed (j : nat) : list Z := replicate j 0 ++ drop j addrs0.

Lemma zeroed_lookup j a : addrs0 !! j = Some a -> zeroed j !! j = Some a /\ <[j := 0]> (zeroed j) = zeroed (Datatypes.S j).
Proof.
  intros Ha. unfold zeroed. pose proof (drop_S _ _ _ Ha) as E. split.
  - rewrite lookup_app_r by (rewrite length_replicate; lia). rewrite length_replicate, Nat.sub_diag, E. done.
  - rewrite insert_app_r_alt by (rewrite length_replicate; lia). rewrite length_replicate, Nat.sub_diag, E. simpl.
    change (0 :: replicate j 0 ++ ?t) with ((0 :: replicate j 0) ++ t). rewrite replicate_cons_app. by rewrite <- app_assoc.
Qed.

Lemma zeroed_same j : addrs0 !! j = Some 0 -> zeroed j = zeroed (Datatypes.S j).
Proof.
  intros Ha. destruct (zeroed_lookup j 0 Ha) as [Hl <-]. by rewrite list_insert_id.
Qed.

Context (ip : nat) (i : inode) (c : icst) (l : lstate) (L0 : gset Z).
Context (Hi : inodes c !! ip = Some i) (Hdev : i_dev i = ROOTDEV) (Had : i_addrs i = addrs0).
Context (Hroom : room0 ({[bb]} ∪ L0) 3).

Definition with_addrs (a : list Z) : icst := put_d ip i (set_d_addrs a (i_d i)) c.

Definition trunc_inv (j : nat) (st : fs S) : Prop :=
  exists s V L, st = Fs l (with_addrs (zeroed j)) s /\ holds s V ∅ L /\ trunced V (Z.of_nat j) /\ L ⊆ {[bb]} ∪ L0.

Lemma room_sub L n : L ⊆ {[bb]} ∪ L0 -> (n <= 3)%nat -> room0 L n.
Proof. intros Hs Hn. by eapply room0_sub. Qed.

Lemma nothing_held : alloc_free sb (∅ : gmap Z (H * bool)).
Proof. split; [done|]. by intros. Qed.

Lemma trunc_direct_run j st :
  (0 <= j < 0 + 12)%nat -> trunc_inv j st -> exists st', trunc_direct ip j st = Ret tt st' /\ trunc_inv (Datatypes.S j) st'.
Proof.
  intros Hj (s & V & L & -> & Hh & Htr & HL). unfold trunc_direct.
  rewrite (bind_Ret _ _ _ _ _ (get_inode_run l (with_addrs (zeroed j)) s ip _ (put_d_lookup ip i _ c Hi))).
  assert (Ha : addrs0 !! j = Some (default 0 (bm !! Z.of_nat j))).
  { pose proof (entry_direct sb V0 addrs0 bm (Z.of_nat j) Hf) as E. unfold rd in E.
    rewrite decide_True, Nat2Z.id in E by lia. apply E. change NDIRECT with 12. lia. }
  destruct (zeroed_lookup j _ Ha) as [Hz1 Hz2]. erewrite bind_gets_opt by exact Hz1.
  replace (Z.of_nat j + 1) with (Z.of_nat (Datatypes.S j)) in * by lia.
  destruct (bm !! Z.of_nat j) as [a|] eqn:Hb; simpl default in *.
  - destruct (fo_dom _ _ _ _ Hf _ a Hb) as [_ Ho].
    rewrite (proj2 (Z.eqb_neq a 0)) by apply (db_boot _ _ (ow_data _ _ _ Ho)). cbn [negb when].
    destruct (bfree_step l (with_addrs (zeroed j)) s V ∅ L (Z.of_nat j) a Hh Htr ltac:(lia) Hb nothing_held)
      as (s' & V' & E & Hh' & Htr'); [by apply room_sub; [|lia]|].
    change (i_dev _) with (i_dev i). rewrite Hdev, (bind_Ret _ _ _ _ _ E). unfold put_addr.
    rewrite (upd_dinode_run l (with_addrs (zeroed j)) s' ip _ _ (put_d_lookup ip i _ c Hi)).
    eexists. split; [done|]. exists s', V', ({[bb]} ∪ L). unfold with_addrs. rewrite put_d_put_d, Nat2Z.id. split_and!.
    + unfold set_d_addrs. simpl. by rewrite Hz2.
    + done.
    + by replace (Z.of_nat (Datatypes.S j)) with (Z.of_nat j + 1) by lia.
    + set_solver.
  - cbn [negb when Z.eqb]. exists (Fs l (with_addrs (zeroed j)) s). split; [done|]. exists s, V, L. split_and!; try done.
    + by rewrite (zeroed_same j Ha).
    + replace (Z.of_nat (Datatypes.S j)) with (Z.of_nat j + 1) by lia. by apply trunced_none.
Qed.

(** ** The indirect block *)

Section Indirect.
Context (i0 : Z) (d : list Z) (h : H) (Hi0 : i0 = ind addrs0) (Hne : i0 <> 0) (Hd : V0 !! i0 = Some d).

Definition ind_inv (j : nat) (st : fs S) : Prop :=
  exists s V L, st = Fs l (with_addrs (zeroed 12)) s /\ holds s V {[i0 := (h, false)]} L /\
    trunced V (12 + Z.of_nat j) /\ L ⊆ {[bb]} ∪ L0.

Lemma ind_owned : owned sb V0 i0 /\ forall n, bm !! n <> Some i0.
Proof. rewrite Hi0 in *. by apply (fo_ind _ _ _ _ Hf). Qed.

Lemma ind_held : alloc_free sb ({[i0 := (h, false)]} : gmap Z (H * bool)).
Proof.
  destruct ind_owned as [Ho _]. split.
  - apply lookup_singleton_ne. apply (ow_data _ _ _ Ho).
  - intros x Hx. apply lookup_singleton_ne. rewrite (one_bitmap sb single x Hx). by eapply owned_bb.
Qed.

Lemma free_entry_run j st :
  (0 <= j < 0 + 128)%nat -> ind_inv j st -> exists st', free_entry ROOTDEV h j st = Ret tt st' /\ ind_inv (Datatypes.S j) st'.
Proof.
  intros Hj (s & V & L & -> & Hh & Htr & HL). unfold free_entry.
  assert (HVi : V !! i0 = Some d).
  { rewrite (tr_keep _ _ Htr); [done|]. eapply owned_bb; [exact single|apply ind_owned]. }
  erewrite bind_Ret by (apply ons_run; by eapply (sdata_law s V _ L i0 h false d); [|apply lookup_singleton_eq|]).
  assert (Hget : get32 d (4 * j) = Some (default 0 (bm !! (12 + Z.of_nat j)))).
  { assert (Hdl := Hlen0 _ _ Hd).
    rewrite <- (fo_map _ _ _ _ Hf (12 + Z.of_nat j)) by (change MAXFILE with 140; lia). unfold fblock. rewrite <- Hi0.
    rewrite (proj2 (Z.ltb_ge _ NDIRECT)) by (change NDIRECT with 12; lia). rewrite Hd, (proj2 (Z.eqb_neq i0 0) Hne).
    replace (Z.to_nat (4 * (12 + Z.of_nat j - NDIRECT))) with (4 * j)%nat by (change NDIRECT with 12; lia).
    unfold get32. destruct (drop (4 * j) d) as [|? [|? [|? [|? ?]]]] eqn:E; [exfalso..|done].
    all: apply (f_equal length) in E; rewrite length_drop in E; simpl in E; lia. }
  erewrite bind_gets_opt by exact Hget. destruct (bm !! (12 + Z.of_nat j)) as [a|] eqn:Hb; simpl default.
  - destruct (fo_dom _ _ _ _ Hf _ a Hb) as [_ Ho].
    rewrite (proj2 (Z.eqb_neq a 0)) by apply (db_boot _ _ (ow_data _ _ _ Ho)). cbn [negb when].
    destruct (bfree_step l (with_addrs (zeroed 12)) s V _ L (12 + Z.of_nat j) a Hh Htr ltac:(lia) Hb ind_held)
      as (s' & V' & E & Hh' & Htr').
    { unfold room in *. rewrite dom_singleton_L. rewrite dom_empty_L, union_empty_l_L in Hroom.
      pose proof (size_add i0 ({[bb]} ∪ L0)). pose proof (subseteq_size ({[i0]} ∪ L) ({[i0]} ∪ ({[bb]} ∪ L0)) ltac:(set_solver)).
      lia. }
    eexists. split; [exact E|]. exists s', V', ({[bb]} ∪ L). split_and!; [done|done| |set_solver].
    by replace (12 + Z.of_nat (Datatypes.S j)) with (12 + Z.of_nat j + 1) by lia.
  - eexists. split; [done|]. exists s, V, L. split_and!; [done|done| |done].
    replace (12 + Z.of_nat (Datatypes.S j)) with (12 + Z.of_nat j + 1) by lia. by apply trunced_none.
Qed.
End Indirect.

(** All blocks of the file are free. *)
Record emptied (V : gmap Z (list Z)) : Prop := {
  em_layout : layout sb V;
  em_len : lengths V;
  em_keep : forall y, y <> bb -> V !! y = V0 !! y;
  em_used : forall y, 0 <= y < sb_size sb -> used V y = true <-> used V0 y = true /\ ~ blocks addrs0 bm y
}.

Lemma bm_below n a : bm !! n = Some a -> 0 <= n < 140.
Proof. intros Hn. by apply (fo_dom _ _ _ _ Hf n a). Qed.

Lemma emptied_direct V : trunced V 12 -> ind addrs0 = 0 -> emptied V.
Proof.
  intros [H1' H2' H3' H4'] Hz. split; try done. intros y Hy. rewrite H4' by done. split; intros [Hu Hn]; (split; [done|]).
  - intros [[n Hb]|[-> Hne]]; [|done]. destruct (decide (n < 12)) as [|Hge].
    + apply (Hn n); [|done]. pose proof (bm_below n y Hb). lia.
    + rewrite (fo_high _ _ _ _ Hf Hz n) in Hb by (change NDIRECT with 12; lia). done.
  - intros n Hr Hb. apply Hn. left. by exists n.
Qed.

Lemma emptied_all V V' : trunced V 140 -> ind addrs0 <> 0 -> layout sb V' -> lengths V' ->
  (forall y, y <> bb -> V' !! y = V !! y) -> (forall y, used V' y = used V y && negb (y =? ind addrs0)) -> emptied V'.
Proof.
  intros [H1' H2' H3' H4'] Hne Hlo Hlen Hk Hu. split; try done.
  - intros y Hy. by rewrite Hk, H3'.
  - intros y Hy. rewrite Hu, andb_true_iff, H4' by done. split.
    + intros [[Hu0 Hn] Hi']. split; [done|]. intros [[n Hb]|[-> _]].
      * apply (Hn n); [by eapply bm_below|done].
      * by rewrite Z.eqb_refl in Hi'.
    + intros [Hu0 Hn]. split; [split; [done|]|].
      * intros n _ Hb. apply Hn. left. by exists n.
      * destruct (Z.eqb_spec y (ind addrs0)) as [->|]; [|done]. exfalso. apply Hn. by right.
Qed.

Lemma zeroed_12 : zeroed 12 = replicate 12 0 ++ [ind addrs0] /\ rd (zeroed 12) NDIRECT = Some (ind addrs0).
Proof.
  pose proof (entry_ind sb V0 addrs0 bm Hf) as E. unfold rd in *. rewrite decide_True in E |- * by (change NDIRECT with 12; lia).
  change (Z.to_nat NDIRECT) with 12%nat in *. destruct (zeroed_lookup 12 _ E) as [Hz _]. split; [|done].
  unfold zeroed. f_equal. rewrite (drop_S _ _ _ E). rewrite drop_ge; [done|]. by rewrite (fo_len _ _ _ _ Hf).
Qed.

Lemma free_blocks_run s (m : M (fs S) unit) :
  holds s V0 ∅ L0 ->
  exists s' V' L', holds s' V' ∅ L' /\ emptied V' /\ L' ⊆ {[bb]} ∪ L0 /\
    (mfor (seq 0 (Z.to_nat NDIRECT)) (trunc_direct ip);;;
     i <~ get_inode ip;;;
     a <~ gets_opt (fun _ => rd (i_addrs i) NDIRECT);;;
     when (negb (a =? 0))
       (bp <~ dread (i_dev i) a;;;
        mfor (seq 0 (Z.to_nat NINDIRECT)) (free_entry (i_dev i) bp);;;
        ons (srelse bp);;;
        bfree (i_dev i) a;;;
        put_addr ip NDIRECT 0);;;
     m) (Fs l c s) = m (Fs l (with_addrs (replicate 13 0)) s').
Proof.
  intros Hh. destruct (mfor_seq_inv trunc_inv 0 12 (trunc_direct ip) (Fs l c s)) as (st & E1 & s1 & V1 & L1 & -> & Hh1 & Htr1 & HL1).
  { exists s, V0, L0. split_and!; [|done|apply trunced_0|set_solver]. unfold with_addrs, zeroed. rewrite <- Had. simpl. by rewrite put_d_id. }
  { intros j st. apply trunc_direct_run. }
  rewrite (bind_Ret _ _ _ _ _ E1). rewrite (bind_Ret _ _ _ _ _ (get_inode_run l (with_addrs (zeroed 12)) s1 ip _ (put_d_lookup ip i _ c Hi))).
  destruct zeroed_12 as [Hz12 Hrd]. erewrite bind_gets_opt by exact Hrd. change (i_dev _) with (i_dev i). rewrite Hdev.
  destruct (Z.eqb_spec (ind addrs0) 0) as [Hz|Hne]; cbn [negb when].
  { exists s1, V1, L1. split_and!; [done|by apply emptied_direct|done|]. by rewrite Hz12, Hz. }
  destruct (fo_ind _ _ _ _ Hf Hne) as [Ho Hno]. destruct (ow_disk _ _ _ Ho) as [d Hd].
  pose proof (owned_bb sb single _ _ Ho) as Hbb.
  assert (HV1 : V1 !! ind addrs0 = Some d) by by rewrite (tr_keep _ _ Htr1).
  destruct (dread_run l (with_addrs (zeroed 12)) s1 V1 ∅ L1 (ind addrs0) Hh1) as (h & s2 & E2 & Hh2);
    [by eexists|done|by apply room_sub; [|lia]|].
  rewrite !bind_assoc, (bind_Ret _ _ _ _ _ E2), !bind_assoc.
  destruct (mfor_seq_inv (ind_inv (ind addrs0) h) 0 128 (free_entry ROOTDEV h) (Fs l (with_addrs (zeroed 12)) s2))
    as (st & E3 & s3 & V3 & L3 & -> & Hh3 & Htr3 & HL3).
  { by exists s2, V1, L1. }
  { intros j st. by apply (free_entry_run _ d). }
  rewrite (bind_Ret _ _ _ _ _ E3), !bind_assoc. change (12 + Z.of_nat (0 + 128)) with 140 in Htr3.
  destruct (srelse_law s3 V3 _ L3 (ind addrs0) h Hh3 (lookup_singleton_eq _ _)) as (s4 & E4 & Hh4).
  rewrite delete_singleton_eq in Hh4. erewrite bind_Ret by (apply ons_run; exact E4). rewrite !bind_assoc.
  destruct (bfree_owned l (with_addrs (zeroed 12)) s4 V3 ∅ L3 (ind addrs0) Hh4 (tr_layout _ _ Htr3) (tr_len _ _ Htr3) nothing_held)
    as (s5 & E5 & Hh5 & Hlo5 & Hlen5 & Hk5 & Hu5); [by apply room_sub; [|lia]|apply Ho| |apply Ho| |].
  { apply (tr_used _ _ Htr3); [apply Ho|]. split; [apply Ho|]. intros n _. apply Hno. }
  { rewrite (tr_keep _ _ Htr3) by done. by eexists. }
  rewrite (bind_Ret _ _ _ _ _ E5). unfold put_addr.
  rewrite (bind_Ret _ _ _ _ _ (upd_dinode_run l (with_addrs (zeroed 12)) s5 ip _ _ (put_d_lookup ip i _ c Hi))).
  exists s5, (freed sb V3 (ind addrs0)), ({[bb]} ∪ L3). split_and!; [done| |set_solver|].
  - by eapply emptied_all.
  - unfold with_addrs. rewrite put_d_put_d. unfold set_d_addrs. simpl d_addrs. change (Z.to_nat NDIRECT) with 12%nat.
    by rewrite Hz12.
Qed.

Definition truncated (d : dinode) : dinode := set_d_size 0 (set_d_addrs (replicate 13 0) d).

Lemma truncated_ok d : dinode_ok d -> dinode_ok (truncated d).
Proof.
  intros [H1' H2' H3' H4' H5' H6' H7']. split; try done. by apply Forall_replicate.
Qed.

Lemma itrunc_run s :
  holds s V0 ∅ L0 -> 0 <= i_inum i < sb_ninodes sb -> is_Some (V0 !! IBLOCK (i_inum i)) ->
  exists s' V' L', itrunc ip (Fs l c s) = Ret tt (Fs l (put_d ip i (truncated (i_d i)) c) s') /\ emptied V' /\
    holds s' (put_inode V' (i_inum i) (truncated (i_d i))) ∅ L' /\ L' ⊆ {[IBLOCK (i_inum i)]} ∪ ({[bb]} ∪ L0).
Proof.
  intros Hh Hin Hib. destruct (free_blocks_run s (upd_dinode ip (set_d_size 0);;; iupdate ip) Hh)
    as (s1 & V1 & L1 & Hh1 & Hem & HL1 & E1).
  unfold itrunc. rewrite E1. clear E1.
  rewrite (bind_Ret _ _ _ _ _ (upd_dinode_run l (with_addrs (replicate 13 0)) s1 ip _ _ (put_d_lookup ip i _ c Hi))).
  unfold with_addrs. rewrite put_d_put_d. change (set_d_size 0 _) with (truncated (i_d i)).
  destruct (iupdate_run l (put_d ip i (truncated (i_d i)) c) s1 V1 L1 ip (set_i_d (truncated (i_d i)) i))
    as (s2 & E2 & Hh2); try done.
  - by apply put_d_lookup.
  - apply Hem.
  - change (i_inum (set_i_d _ i)) with (i_inum i). rewrite (em_keep _ Hem); [done|].
    by apply (iblock_other sb).
  - apply room_sub; [done|lia].
  - exists s2, V1, ({[IBLOCK (i_inum i)]} ∪ L1). split_and!; [done|done|done|set_solver].
Qed.
End Trunc.

(** ** [iput] of the last reference to an inode without links *)

Section Iput.
Context {S H : Type} `{StoreLaws S H} `{!Loggable S H}.
Implicit Types (V : gmap Z (list Z)) (L : gset Z) (l : lstate) (c : icst) (s : S).
Context (sb : superblock) (single : sb_size sb <= BPB).

Definition dead (d : dinode) : dinode := set_d_type 0 (truncated d).

Lemma dead_ok d : dinode_ok d -> dinode_ok (dead d).
Proof.
  intros Hd. destruct (truncated_ok d Hd) as [H1' H2' H3' H4' H5' H6' H7']. by split.
Qed.

(** The reference is dropped and nothing else happens. *)
Lemma iput_run l c s ip i :
  unlocked 0 l -> inodes c !! ip = Some i -> (i_ref i =? 1) && i_valid i && (i_nlink i =? 0) = false ->
  exists l', iput ip (Fs l c s) = Ret tt (Fs l' (set_inode ip (set_i_ref (i_ref i - 1) i) c) s) /\ same_locks l l'.
Proof.
  intros Hl Hi Hc. destruct (locked_run 0 l Hl) as (l1 & l2 & E1 & E2 & Hs). exists l2. split; [|done]. unfold iput.
  rewrite (bind_Ret _ _ _ _ _ (acquire_fs 0 l c s l1 E1)), (bind_Ret _ _ _ _ _ (get_inode_run l1 c s ip i Hi)), Hc.
  cbn [when]. rewrite bind_ret.
  rewrite (bind_Ret _ _ _ _ _ (upd_inode_run l1 c s ip i _ Hi)). by apply release_fs.
Qed.

(** The inode is truncated and freed. *)
Lemma iput_free_run l c s V L ip i bm :
  unlocked 0 l -> inodes c !! ip = Some i -> i_ref i = 1 -> i_valid i = true -> i_nlink i = 0 -> i_busy i = false ->
  file_inv sb V i bm -> holds s V ∅ L -> layout sb V -> lengths V ->
  room (∅ : gmap Z (H * bool)) ({[bblock sb 0]} ∪ L) 3 ->
  exists l' s' V1 L', let d := dead (i_d i) in
    iput ip (Fs l c s) = Ret tt (Fs l' (Icst (<[ip := Inode (i_dev i) (i_inum i) 0 false false d]> (inodes c)) (woken c ++ [ip])) s') /\
    same_locks l l' /\ emptied sb V (i_addrs i) bm V1 /\
    holds s' (put_inode (put_inode V1 (i_inum i) (truncated (i_d i))) (i_inum i) d) ∅ L' /\
    L' ⊆ {[IBLOCK (i_inum i)]} ∪ ({[bblock sb 0]} ∪ L).
Proof.
  intros Hl Hi Hr1 Hv Hn Hb Hf Hh Hlo Hlen Hr. destruct (locked_run 0 l Hl) as (l1 & l2 & E1 & E2 & Hs2).
  destruct (locked_run 0 l2 (Hs2 0%nat Hl)) as (l3 & l4 & E3 & E4 & Hs4). unfold iput.
  rewrite (bind_Ret _ _ _ _ _ (acquire_fs 0 l c s l1 E1)), (bind_Ret _ _ _ _ _ (get_inode_run l1 c s ip i Hi)).
  rewrite Hr1, Hv, Hn, Hb. cbn [when andb Z.eqb Pos.eqb]. rewrite bind_assoc.
  rewrite (bind_Ret _ _ _ _ _ (upd_inode_run l1 c s ip i _ Hi)), bind_assoc. rewrite Hv.
  set (i1 := set_i_flags true true i). set (c1 := set_inode ip i1 c).
  rewrite (bind_Ret _ _ _ _ _ (release_fs 0 l1 c1 s l2 E2)), bind_assoc.
  assert (Hi1 : inodes c1 !! ip = Some i1) by by eapply set_inode_lookup.
  destruct (itrunc_run sb single V (i_addrs i) bm Hlo Hlen (fi_ok _ _ _ _ Hf) ip i1 c1 l2 L Hi1 (fi_dev _ _ _ _ Hf) eq_refl Hr s Hh)
    as (s1 & V1 & L1 & E5 & Hem & Hh1 & HL1); [apply Hf|by eapply disk_block, Hf|].
  rewrite (bind_Ret _ _ _ _ _ E5), bind_assoc. change (i_d i1) with (i_d i) in *. change (i_inum i1) with (i_inum i) in *.
  set (c2 := put_d ip i1 _ c1). assert (Hi2 : inodes c2 !! ip = Some (set_i_d (truncated (i_d i)) i1)) by by apply put_d_lookup.
  rewrite (bind_Ret _ _ _ _ _ (upd_dinode_run l2 c2 s1 ip _ _ Hi2)), bind_assoc. unfold c2. rewrite put_d_put_d.
  change (set_d_type 0 _) with (dead (i_d i)). set (i3 := set_i_d (dead (i_d i)) i1).
  assert (Hi3 : inodes (put_d ip i1 (dead (i_d i)) c1) !! ip = Some i3) by by apply put_d_lookup.
  set (c3 := put_d ip i1 (dead (i_d i)) c1) in *.
  destruct (disk_put V1 (i_inum i) (truncated (i_d i)) (em_len _ _ _ _ _ Hem) (truncated_ok _ (fi_dinode _ _ _ _ Hf)))
    as (Hlen1 & _ & _).
  { rewrite (em_keep _ _ _ _ _ Hem) by (by apply (iblock_other sb _ (fi_inum _ _ _ _ Hf))). by eapply disk_block, Hf. }
  destruct (iupdate_run l2 c3 s1 _ L1 ip i3 Hi3 (fi_dev _ _ _ _ Hf) Hh1 Hlen1) as (s2 & E6 & Hh2).
  { eexists. apply lookup_insert_eq. }
  { done. }
  { eapply room0_sub; [exact HL1|exact (le_n 2)|]. by apply room_log. }
  rewrite (bind_Ret _ _ _ _ _ E6), bind_assoc, (bind_Ret _ _ _ _ _ (acquire_fs 0 l2 c3 s2 l3 E3)), bind_assoc.
  rewrite (bind_Ret _ _ _ _ _ (upd_inode_run l3 c3 s2 ip i3 _ Hi3)).
  exists l4, s2, V1, ({[IBLOCK (i_inum i3)]} ∪ L1). split_and!; [|by intros k Hk; apply Hs4, Hs2|done|done|].
  2: { change (i_inum i3) with (i_inum i). set_solver. }
  unfold bind at 1. unfold zoom at 1, ic_wakeup, modify. simpl. unfold set_ic. simpl.
  set (c4 := Icst _ _). assert (Hi4 : inodes c4 !! ip = Some (set_i_flags false false i3)) by by eapply (set_inode_lookup ip i3 _ c3).
  rewrite (bind_Ret _ _ _ _ _ (upd_inode_run l3 c4 s2 ip _ _ Hi4)). rewrite (release_fs 0 l3 _ s2 l4 E4).
  unfold c4, set_inode, c3, put_d, c1, set_inode. simpl. rewrite !list_insert_insert_eq. simpl. by rewrite Hr1.
Qed.

(** The blocks [V'] are [V] without the file of the inode [i]: exactly its
    blocks are free now, the inode on the disk has type 0, no other inode and no
    block other than the bitmap and the inode's block differs. *)
Record inode_freed (V V' : gmap Z (list Z)) (i : inode) (bm : gmap Z Z) : Prop := {
  if_layout : layout sb V';
  if_used : forall y, 0 <= y < sb_size sb -> used sb V' y = true <-> used sb V y = true /\ ~ blocks (i_addrs i) bm y;
  if_inode : exists d, disk_inode V' (i_inum i) = Some d /\ d_type d = 0;
  if_others : forall j, 0 <= j < sb_ninodes sb -> j <> i_inum i -> disk_inode V' j = disk_inode V j;
  if_blocks : forall y, y <> bblock sb 0 -> y <> IBLOCK (i_inum i) -> V' !! y = V !! y
}.

Lemma iput_freed l c s V L ip i bm :
  unlocked 0 l -> inodes c !! ip = Some i -> i_ref i = 1 -> i_valid i = true -> i_nlink i = 0 -> i_busy i = false ->
  file_inv sb V i bm -> holds s V ∅ L -> layout sb V -> lengths V ->
  room (∅ : gmap Z (H * bool)) ({[bblock sb 0]} ∪ L) 3 ->
  exists l' c' s' V' L', iput ip (Fs l c s) = Ret tt (Fs l' c' s') /\ same_locks l l' /\ holds s' V' ∅ L' /\
    inode_freed V V' i bm /\ L' ⊆ {[IBLOCK (i_inum i)]} ∪ ({[bblock sb 0]} ∪ L) /\
    exists i', inodes c' !! ip = Some i' /\ i_ref i' = 0 /\ forall iq, iq <> ip -> inodes c' !! iq = inodes c !! iq.
Proof.
  intros Hl Hi Hr1 Hv Hn Hb Hf Hh Hlo Hlen Hr.
  destruct (iput_free_run l c s V L ip i bm Hl Hi Hr1 Hv Hn Hb Hf Hh Hlo Hlen Hr) as (l' & s' & V1 & L' & E & Hsl & Hem & Hh' & HL).
  set (inum := i_inum i) in *. set (V2 := put_inode V1 inum (truncated (i_d i))) in *. set (d := dead (i_d i)) in *.
  destruct (iblock_other sb inum (fi_inum _ _ _ _ Hf)) as [_ Hbb]. specialize (Hbb 0 ltac:(lia)).
  assert (Hib : is_Some (V1 !! IBLOCK inum)) by (rewrite (em_keep _ _ _ _ _ Hem) by done; by eapply disk_block, Hf).
  destruct (disk_put V1 inum (truncated (i_d i)) (em_len _ _ _ _ _ Hem) (truncated_ok _ (fi_dinode _ _ _ _ Hf)) Hib) as (Hlen2 & _ & Ho2).
  destruct (disk_put V2 inum d Hlen2 (dead_ok _ (fi_dinode _ _ _ _ Hf))) as (Hlen3 & Hd3 & Ho3).
  { eexists. apply lookup_insert_eq. }
  eexists l', _, s', _, L'. split_and!; [exact E|done|exact Hh'| |done|].
  - split.
    + do 2 (apply layout_put; [exact single| |apply Hf]). apply Hem.
    + intros y Hy. rewrite <- (em_used _ _ _ _ _ Hem y Hy). unfold V2, put_inode. by rewrite !(used_data sb single) by done.
    + by exists d.
    + intros j Hj Hne. rewrite Ho3, Ho2 by done. unfold disk_inode. rewrite (em_keep _ _ _ _ _ Hem); [done|].
      by apply (iblock_other sb j Hj).
    + intros y Hy1 Hy2. unfold V2. rewrite !put_inode_ne by done. by apply (em_keep _ _ _ _ _ Hem).
  - eexists. split; [apply list_lookup_insert_eq; by eapply lookup_lt_Some|]. split; [done|]. intros iq Hq. by apply list_lookup_insert_ne.
Qed.
End Iput.
