(* ===== verification/FsDir.v ===== *)
(** * Directories (fs.c)

    A directory is a file of 16-byte entries.  To [dirlookup] and [dirlink] it
    is a list of pairs of an inode number and a name: [dirlookup] finds the
    first entry in use with the name, [dirlink] puts a new entry into the first
    free place or at the end. *)
From S2P Require Import Prelude Mmu Spinlock Strings Bytes BlockCache Store Fs FsBlocks FsInode FsFile FsIcache.

(** ** The entries *)

Definition dentry (C : list Z) (k : nat) : list Z := take 16 (drop (16 * k) C).
Definition ent (e : list Z) : Z * list Z := (default 0 (get16 e 0), cut (drop 2 e)).
Definition dir_entries (C : list Z) : list (Z * list Z) := (fun k => ent (dentry C k)) <$> seq 0 (length C / 16).

Definition is_entry (name : list Z) (e : Z * list Z) : bool := negb (fst e =? 0) && bool_decide (snd e = name).
Definition dir_find (C name : list Z) : option nat := find_first (is_entry name) (dir_entries C).

(** A name that fits into an entry. *)
Definition dir_name (name : list Z) : Prop := cut name = name /\ (length name <= 14)%nat.

Lemma length_dentry C k : (16 * k + 16 <= length C)%nat -> length (dentry C k) = 16%nat.
Proof. intros Hk. unfold dentry. rewrite length_take, length_drop. lia. Qed.

Lemma length_cut t : (length (cut t) <= length t)%nat.
Proof. induction t as [|x t IH]; simpl; [done|]. destruct (x =? 0); simpl; lia. Qed.

Lemma cut_cstr name : cut name = name -> cut (cstr name) = name.
Proof. intros Hn. by apply cut_app_nul. Qed.

Lemma strlen_cstr name : strlen (cstr name) <> None.
Proof.
  unfold cstr. induction name as [|x name IH]; simpl; [done|]. destruct (x =? 0); [done|].
  destruct (strlen (name ++ [0])); [done|]. by destruct IH.
Qed.

(** [namecmp] of a name and the name of an entry. *)
Lemma namecmp_run name e : dir_name name -> length e = 16%nat ->
  exists r, namecmp (cstr name) (drop 2 e) = Some r /\ (r =? 0) = bool_decide (snd (ent e) = name).
Proof.
  intros [Hc Hl] He. unfold namecmp.
  destruct (strncmp_defined (cstr name) (drop 2 e) DIRSIZ (strlen_cstr name)) as (r & Hr); [rewrite length_drop, He; done|].
  exists r. split; [done|]. pose proof (strncmp_zero _ _ _ _ Hr) as Hz. rewrite cut_cstr in Hz by done.
  pose proof (length_cut (drop 2 e)) as Hle. rewrite length_drop, He in Hle. change DIRSIZ with 14%nat in Hz.
  rewrite !take_ge in Hz by lia. simpl. destruct (Z.eqb_spec r 0) as [->|Hn].
  - symmetry. apply bool_decide_eq_true_2. symmetry. by apply Hz.
  - symmetry. apply bool_decide_eq_false_2. intros E. apply Hn, Hz. done.
Qed.

(** ** The directory as a partial map from names to inode numbers *)

Definition dir_inum (es : list (Z * list Z)) (name : list Z) : option Z := fst <$> List.find (is_entry name) es.

Lemma find_find_first {A} (P : A -> bool) (t : list A) :
  List.find P t = match find_first P t with Some j => t !! j | None => None end.
Proof.
  induction t as [|x t IH]; [done|]. simpl. destruct (P x); [done|]. rewrite IH. by destruct (find_first P t).
Qed.

Lemma find_app {A} (P : A -> bool) (t u : list A) :
  List.find P (t ++ u) = match List.find P t with Some x => Some x | None => List.find P u end.
Proof. induction t as [|x t IH]; [done|]. simpl. by destruct (P x). Qed.

(** The entries with a new one in the free place [k], or at the end. *)
Definition add_entry (k : nat) (e : Z * list Z) (es : list (Z * list Z)) : list (Z * list Z) :=
  take k es ++ e :: drop (S k) es.

Lemma dir_inum_add k inum name es nm :
  (forall e, es !! k = Some e -> fst e = 0) -> inum <> 0 -> dir_inum es name = None ->
  dir_inum (add_entry k (inum, name) es) nm = if decide (nm = name) then Some inum else dir_inum es nm.
Proof.
  intros Hk Hn Hnone. unfold dir_inum, add_entry in *.
  assert (Hes : forall nm, List.find (is_entry nm) es =
    match List.find (is_entry nm) (take k es) with Some x => Some x | None => List.find (is_entry nm) (drop (S k) es) end).
  { intros nm'. destruct (es !! k) as [e|] eqn:E.
    - rewrite <- (take_drop_middle es k e E) at 1. rewrite find_app. cbn [List.find].
      assert (is_entry nm' e = false) as -> by (unfold is_entry; by rewrite (Hk e eq_refl)). done.
    - apply lookup_ge_None in E. rewrite take_ge, drop_ge by lia. simpl. by destruct (List.find (is_entry nm') es). }
  rewrite find_app, Hes. cbn [List.find]. rewrite Hes in Hnone.
  assert (is_entry nm (inum, name) = bool_decide (name = nm)) as ->
    by (unfold is_entry; simpl; by rewrite (proj2 (Z.eqb_neq inum 0) Hn)). case_decide as Hd.
  - subst nm. rewrite bool_decide_true by done. by destruct (List.find _ (take k es)).
  - rewrite bool_decide_false by congruence. done.
Qed.

(** ** Entries as bytes *)

Lemma dentry_splice C k w j :
  length w = 16%nat -> (16 * k + 16 <= length C)%nat ->
  dentry (splice (16 * k) w C) j = if decide (j = k) then w else dentry C j.
Proof.
  intros Hw Hk. unfold dentry. case_decide as Hj.
  - subst j. rewrite <- Hw. apply splice_window. lia.
  - apply splice_other; [lia|]. rewrite Hw. lia.
Qed.

Lemma entries_insert C k w :
  length w = 16%nat -> (16 * k + 16 <= length C)%nat -> dir_entries (splice (16 * k) w C) = add_entry k (ent w) (dir_entries C).
Proof.
  intros Hw Hk. unfold add_entry.
  assert (Hlk : dir_entries C !! k = Some (ent (dentry C k))).
  { unfold dir_entries. rewrite list_lookup_fmap, lookup_seq_lt; [done|]. apply Nat.div_le_lower_bound; lia. }
  rewrite <- insert_take_drop by (by eapply lookup_lt_Some). apply list_eq. intros j. unfold dir_entries.
  rewrite length_splice by lia. destruct (decide (j < length C / 16)%nat) as [Hj|Hj].
  - rewrite list_lookup_fmap, lookup_seq_lt, Nat.add_0_l by done.
    unfold fmap at 1, option_fmap, option_map. rewrite dentry_splice by done. case_decide as E.
    + subst j. rewrite list_lookup_insert_eq; [done|]. by rewrite length_fmap, length_seq.
    + rewrite list_lookup_insert_ne by done. by rewrite list_lookup_fmap, lookup_seq_lt.
  - rewrite !lookup_ge_None_2; [done|rewrite length_insert|]; rewrite length_fmap, length_seq; lia.
Qed.

Lemma entries_append C m w :
  length w = 16%nat -> length C = (16 * m)%nat -> dir_entries (splice (16 * m) w C) = add_entry m (ent w) (dir_entries C).
Proof.
  intros Hw Hl. unfold splice, add_entry. rewrite <- Hl, firstn_all, drop_ge, app_nil_r by lia.
  unfold dir_entries. rewrite length_app, Hw, Hl.
  replace ((16 * m + 16) / 16)%nat with (m + 1)%nat by (rewrite <- (Nat.div_mul (m + 1) 16) by lia; f_equal; lia).
  rewrite (Nat.mul_comm 16 m), Nat.div_mul, seq_app, fmap_app by lia.
  rewrite take_ge, drop_ge by (rewrite length_fmap, length_seq; lia). f_equal.
  - apply list_fmap_ext. intros j x Hx. apply lookup_seq in Hx as [-> Hj]. simpl. f_equal. unfold dentry.
    rewrite drop_app_le by lia. rewrite take_app_le by (rewrite length_drop; lia). done.
  - assert (Hd : dentry (C ++ w) m = w) by (unfold dentry; rewrite drop_app_length' by lia; by rewrite take_ge by lia).
    cbn [seq]. rewrite Nat.add_0_l, list_fmap_singleton. by rewrite Hd.
Qed.

Lemma ent_bytes inum name nm :
  dir_name name -> 0 <= inum < 2 ^ 16 -> strncpy (cstr name) (Z.of_nat DIRSIZ) = Some nm ->
  length (le2 inum ++ nm) = 16%nat /\ ent (le2 inum ++ nm) = (inum, name).
Proof.
  intros [Hc Hl] Hi Hnm. destruct (cut_strncpy _ _ _ (Zle_0_nat DIRSIZ) Hnm) as [Hcut Hlen]. rewrite Nat2Z.id in *.
  rewrite cut_cstr, take_ge in Hcut by done. split; [simpl; rewrite Hlen; done|].
  unfold ent. simpl. rewrite drop_0, Hcut. f_equal. change (2 ^ 16) with 65536 in Hi.
  pose proof (Z.div_mod inum 256 ltac:(lia)). rewrite (Z.mod_small (inum / 256)) by (split; [apply Z.div_pos; lia|apply Z.div_lt_upper_bound; lia]).
  lia.
Qed.

(** The place for a new entry. *)
Definition dir_slot (es : list (Z * list Z)) : nat := default (length es) (find_first (fun e => fst e =? 0) es).

Lemma dir_slot_free es e : es !! dir_slot es = Some e -> fst e = 0.
Proof.
  unfold dir_slot. destruct (find_first _ es) as [j|] eqn:E; simpl.
  - apply find_first_Some in E as [(x & Hx & Hz) _]. intros Hj. apply Z.eqb_eq in Hz. congruence.
  - by rewrite lookup_ge_None_2 by done.
Qed.

Lemma dir_slot_le es : (dir_slot es <= length es)%nat.
Proof.
  unfold dir_slot. destruct (find_first _ es) as [j|] eqn:E; simpl; [|done]. apply find_first_lt in E. lia.
Qed.

Lemma touched_dirent k : touched (16 * Z.of_nat k) 16 = 1%nat.
Proof.
  unfold touched. change BSIZE with 512. pose proof (Z.mod_pos_bound (16 * Z.of_nat k) 512 ltac:(lia)).
  assert (Hd : (16 * Z.of_nat k) mod 512 mod 16 = 0).
  { change 512 with (16 * 32). rewrite Z.mul_mod_distr_l by lia. rewrite Z.mul_comm. apply Z_mod_mult. }
  pose proof (Z.div_mod ((16 * Z.of_nat k) mod 512) 16 ltac:(lia)).
  replace (((16 * Z.of_nat k) mod 512 + 16 + 511) / 512) with 1; [done|]. apply Z.div_unique with ((16 * Z.of_nat k) mod 512 + 15); lia.
Qed.

Section Dir.
Context {S H : Type} `{StoreLaws S H} `{!Loggable S H}.
Implicit Types (V : gmap Z (list Z)) (L : gset Z) (l : lstate) (c : icst) (s : S).
Context (sb : superblock) (devs : Z -> @devsw S).
Context (V : gmap Z (list Z)) (L : gset Z) (dp : nat) (i : inode) (bm : gmap Z Z) (c : icst) (l : lstate) (m : nat).
Context (Hi : inodes c !! dp = Some i) (Hf : file_inv sb V i bm) (Hlo : layout sb V) (Hlen : lengths V).
Context (Hroom : room (∅ : gmap Z (H * bool)) L 1) (Hsize : i_size i = 16 * Z.of_nat m).

Abbreviation C := (contents V i bm).

Lemma length_C : length C = (16 * m)%nat.
Proof. unfold contents. rewrite length_fbytes. lia. Qed.

Lemma length_entries : length (dir_entries C) = m.
Proof. unfold dir_entries. rewrite length_fmap, length_seq, length_C, Nat.mul_comm, Nat.div_mul by done. done. Qed.

Lemma lookup_entries k : (k < m)%nat -> dir_entries C !! k = Some (ent (dentry C k)).
Proof.
  intros Hk. unfold dir_entries. rewrite list_lookup_fmap, lookup_seq_lt; [done|].
  rewrite length_C, Nat.mul_comm, Nat.div_mul by done. done.
Qed.

Lemma small_m : 16 * Z.of_nat m <= 71680.
Proof. pose proof (fi_size _ _ _ _ Hf) as Hs. rewrite Hsize in Hs. exact Hs. Qed.

Lemma read_dirent_run s k :
  holds s V ∅ L -> (k < m)%nat ->
  exists s', read_dirent devs dp (16 * Z.of_nat k) (Fs l c s) =
      Ret (fst (ent (dentry C k)), drop 2 (dentry C k)) (Fs l c s') /\ holds s' V ∅ L.
Proof.
  intros Hh Hk. pose proof small_m as Hm.
  destruct (readi_run sb devs l c s V L dp i bm (16 * Z.of_nat k) DIRENT Hi Hf Hh Hlo Hlen Hroom) as (s' & E & Hh');
    [lia|done|change DIRENT with 16; lia|].
  exists s'. split; [|done]. unfold read_dirent. rewrite (bind_Ret _ _ _ _ _ E).
  replace (Z.to_nat (16 * Z.of_nat k)) with (16 * k)%nat by lia. change (Z.to_nat DIRENT) with 16%nat. fold (dentry C k).
  pose proof (length_dentry C k) as Hd. rewrite length_C in Hd. specialize (Hd ltac:(lia)). rewrite Hd. simpl (16 =? 16)%nat.
  assert (Hg : exists v, get16 (dentry C k) 0 = Some v).
  { unfold get16. rewrite drop_0. destruct (dentry C k) as [|? [|? ?]]; [done|done|by eexists]. }
  destruct Hg as [v Hv]. erewrite bind_gets_opt by exact Hv. unfold ent. by rewrite Hv.
Qed.

(** ** [dirlookup] *)

Lemma lookup_loop_run name s k fuel :
  dir_name name -> holds s V ∅ L -> (k <= m)%nat -> (m - k < fuel)%nat ->
  exists s', holds s' V ∅ L /\
    lookup_loop devs fuel dp name (16 * Z.of_nat k) (Fs l c s) =
      match find_first (is_entry name) (drop k (dir_entries C)) with
      | Some j => (ip <~ iget (i_dev i) (fst (ent (dentry C (k + j))));;; ret (Some (ip, 16 * Z.of_nat (k + j)))) (Fs l c s')
      | None => Ret None (Fs l c s')
      end.
Proof.
  intros Hn. revert s k. induction fuel as [|fuel IH]; intros s k Hh Hk Hfu; [lia|]. cbn [lookup_loop].
  rewrite (bind_Ret _ _ _ _ _ (get_inode_run l c s dp i Hi)), Hsize.
  destruct (Z.ltb_spec (16 * Z.of_nat k) (16 * Z.of_nat m)) as [Hlt|Hge]; cbn [negb].
  2: { exists s. split; [done|]. rewrite drop_ge; [done|]. rewrite length_entries. lia. }
  destruct (read_dirent_run s k Hh ltac:(lia)) as (s1 & E1 & Hh1). rewrite (bind_Ret _ _ _ _ _ E1). cbn [fst snd].
  rewrite (drop_S _ _ _ (lookup_entries k ltac:(lia))). cbn [find_first]. unfold is_entry at 1.
  destruct (IH s1 (k + 1)%nat Hh1 ltac:(lia) ltac:(lia)) as (s2 & Hh2 & E2).
  replace (16 * Z.of_nat (k + 1)) with (16 * Z.of_nat k + DIRENT) in E2 by (change DIRENT with 16; lia).
  replace (k + 1)%nat with (Datatypes.S k) in E2 by lia.
  assert (Hnext : exists s', holds s' V ∅ L /\
    lookup_loop devs fuel dp name (16 * Z.of_nat k + DIRENT) (Fs l c s1) =
      match Datatypes.S <$> find_first (is_entry name) (drop (Datatypes.S k) (dir_entries C)) with
      | Some j => (ip <~ iget (i_dev i) (fst (ent (dentry C (k + j))));;; ret (Some (ip, 16 * Z.of_nat (k + j)))) (Fs l c s')
      | None => Ret None (Fs l c s')
      end).
  { exists s2. split; [done|]. rewrite E2. destruct (find_first _ _) as [j|]; [|done]. simpl.
    by replace (k + Datatypes.S j)%nat with (Datatypes.S (k + j)) by lia. }
  destruct (Z.eqb_spec (fst (ent (dentry C k))) 0) as [Hz|Hnz]; cbn [negb andb]; [exact Hnext|].
  destruct (namecmp_run name (dentry C k) Hn) as (r & Hr & Hr0).
  { apply length_dentry. rewrite length_C. lia. }
  erewrite bind_gets_opt by exact Hr. rewrite Hr0. destruct (bool_decide _); [|exact Hnext].
  exists s1. split; [done|]. by rewrite Nat.add_0_r.
Qed.

Lemma dirlookup_run name s :
  dir_name name -> holds s V ∅ L -> i_type i = T_DIR ->
  exists s', holds s' V ∅ L /\
    dirlookup devs dp name (Fs l c s) =
      match dir_find C name with
      | Some j => (ip <~ iget (i_dev i) (fst (ent (dentry C j)));;; ret (Some (ip, 16 * Z.of_nat j))) (Fs l c s')
      | None => Ret None (Fs l c s')
      end.
Proof.
  intros Hn Hh Hty. unfold dirlookup. rewrite (bind_Ret _ _ _ _ _ (get_inode_run l c s dp i Hi)), Hty. cbn [negb Z.eqb Pos.eqb].
  rewrite Hsize. change DIRENT with 16. rewrite Z.mul_comm, Z.div_mul by lia.
  destruct (lookup_loop_run name s 0 (Datatypes.S (Z.to_nat (Z.of_nat m + 1))) Hn Hh) as (s' & Hh' & E); [lia|lia|].
  exists s'. split; [done|]. rewrite drop_0 in E. exact E.
Qed.

(** ** [dirlink] *)

Lemma empty_loop_run s k fuel :
  holds s V ∅ L -> (k <= m)%nat -> (m - k < fuel)%nat ->
  exists s', holds s' V ∅ L /\
    empty_loop devs fuel dp (16 * Z.of_nat k) (Fs l c s) = Ret (16 * Z.of_nat (k + dir_slot (drop k (dir_entries C)))) (Fs l c s').
Proof.
  revert s k. induction fuel as [|fuel IH]; intros s k Hh Hk Hfu; [lia|]. cbn [empty_loop].
  rewrite (bind_Ret _ _ _ _ _ (get_inode_run l c s dp i Hi)), Hsize.
  destruct (Z.ltb_spec (16 * Z.of_nat k) (16 * Z.of_nat m)) as [Hlt|Hge]; cbn [negb].
  2: { exists s. split; [done|]. rewrite drop_ge by (rewrite length_entries; lia). unfold ret, dir_slot. simpl. do 2 f_equal. lia. }
  destruct (read_dirent_run s k Hh ltac:(lia)) as (s1 & E1 & Hh1). rewrite (bind_Ret _ _ _ _ _ E1). cbn [fst snd].
  rewrite (drop_S _ _ _ (lookup_entries k ltac:(lia))). unfold dir_slot. cbn [find_first].
  destruct (fst (ent (dentry C k)) =? 0).
  - exists s1. split; [done|]. unfold ret. do 2 f_equal. simpl. lia.
  - destruct (IH s1 (k + 1)%nat Hh1 ltac:(lia) ltac:(lia)) as (s2 & Hh2 & E2).
    replace (16 * Z.of_nat (k + 1)) with (16 * Z.of_nat k + DIRENT) in E2 by (change DIRENT with 16; lia).
    exists s2. split; [done|]. rewrite E2. replace (k + 1)%nat with (Datatypes.S k) by lia. do 2 f_equal. unfold dir_slot.
    destruct (find_first _ (drop (Datatypes.S k) (dir_entries C))); simpl; lia.
Qed.

Lemma dirlink_run name inum s :
  sb_size sb <= BPB -> dir_name name -> 0 <= inum < 2 ^ 16 -> holds s V ∅ L -> i_type i = T_DIR -> dir_find C name = None ->
  16 * Z.of_nat m + 16 <= MAXFILE * BSIZE ->
  room (∅ : gmap Z (H * bool)) (base sb (i_addrs i) L) (need (i_addrs i) + 3) -> (need (i_addrs i) < size (free_set sb V))%nat ->
  exists s' V1 V' addrs' bm' L' nm, let off := 16 * Z.of_nat (dir_slot (dir_entries C)) in
    let w := le2 inum ++ nm in let d' := after_write i addrs' off 16 in
    strncpy (cstr name) (Z.of_nat DIRSIZ) = Some nm /\
    dirlink devs dp name inum (Fs l c s) = Ret 0 (Fs l (put_d dp i d' c) s') /\
    holds s' V' ∅ L' /\ wrote sb V V1 (i_addrs i) addrs' bm bm' off w /\ mapped_range bm' off 16 /\ stored V1 V' i d' /\ (size L' <= 9)%nat.
Proof.
  intros single Hn Hin Hh Hty Hnone Hmax Hr Hfree. unfold dirlink. destruct (dirlookup_run name s Hn Hh Hty) as (s1 & Hh1 & E1).
  rewrite Hnone in E1. rewrite (bind_Ret _ _ _ _ _ E1), (bind_Ret _ _ _ _ _ (get_inode_run l c s1 dp i Hi)).
  rewrite Hsize. change DIRENT with 16 at 1. rewrite (Z.mul_comm 16 (Z.of_nat m)), Z.div_mul by lia.
  destruct (empty_loop_run s1 0 (Datatypes.S (Z.to_nat (Z.of_nat m + 1))) Hh1 ltac:(lia) ltac:(lia)) as (s2 & Hh2 & E2).
  rewrite drop_0, Nat.add_0_l in E2. change (16 * Z.of_nat 0) with 0 in E2. rewrite (bind_Ret _ _ _ _ _ E2). set (k := dir_slot _) in *.
  destruct (copy_until_defined (cstr name) 14 (strlen_cstr name)) as (w0 & k0 & Hcu).
  assert (Hnm : exists nm, strncpy (cstr name) (Z.of_nat DIRSIZ) = Some nm) by (unfold strncpy; change (Z.to_nat _) with 14%nat; rewrite Hcu; by eexists).
  destruct Hnm as [nm Hnm]. erewrite bind_gets_opt by exact Hnm. destruct (ent_bytes inum name nm Hn Hin Hnm) as [Hlw _].
  pose proof (dir_slot_le (dir_entries C)) as Hkm. rewrite length_entries in Hkm. fold k in Hkm. pose proof (touched_dirent k) as Ht.
  destruct (writei_run sb single devs l c s2 V L dp i bm (16 * Z.of_nat k) (le2 inum ++ nm) Hi Hf Hh2 Hlo Hlen)
    as (s3 & V1 & V' & addrs' & bm' & L' & E3 & Hh3 & Hw & Hmap & Hst & Hsz & _); rewrite ?Hlw; change (Z.of_nat 16) with 16 in *; try lia.
  { rewrite Ht. eapply room_le; [exact Hr|lia]. }
  rewrite Hlw in *. change (Z.of_nat 16) with 16 in *. rewrite (bind_Ret _ _ _ _ _ E3). change (16 =? DIRENT) with true. cbn [negb].
  exists s3, V1, V', addrs', bm', L', nm. by split_and!.
Qed.
End Dir.
