(* ===== verification/FsPath.v ===== *)
(** * Path names (fs.c)

    [namei] and [nameiparent] walk a path through the directories.  Against the
    tree of directories on the disk they are a function of the path; in the
    inode cache they leave one reference to the inode they return and no other
    trace. *)
From S2P Require Import Prelude Mmu Spinlock Strings Bytes BlockCache Store Fs FsBlocks FsInode FsFile FsIcache FsTrunc FsDir.

(** ** The elements of a path *)

Fixpoint elems_from (fuel : nat) (path : list Z) : list (list Z) :=
  match fuel with
  | O => []
  | S fuel => match skipelem path with None => [] | Some (e, rest) => e :: elems_from fuel rest end
  end.
Definition elems (path : list Z) : list (list Z) := elems_from (S (length path)) path.

Lemma skip_slashes_le p : (length (skip_slashes p) <= length p)%nat.
Proof. induction p as [|c p IH]; simpl; [done|]. destruct (c =? SLASH); simpl; lia. Qed.

Lemma skip_slashes_head p c r : skip_slashes p = c :: r -> c <> SLASH.
Proof.
  induction p as [|x p IH]; simpl; [done|]. destruct (Z.eqb_spec x SLASH) as [|Hx]; [done|]. by intros [= -> _].
Qed.

Lemma first_elem_app p : p = fst (first_elem p) ++ snd (first_elem p).
Proof.
  induction p as [|c p IH]; simpl; [done|]. destruct (c =? SLASH); [done|]. destruct (first_elem p) as [e r]. simpl in *. by f_equal.
Qed.

Lemma skip_slashes_idem p : skip_slashes p = skip_slashes (skip_slashes p).
Proof. induction p as [|x p IH]; simpl; [done|]. destruct (x =? SLASH) eqn:Ex; [done|]. simpl. by rewrite Ex. Qed.

Lemma skip_slashes_sub p x : x ∈ skip_slashes p -> x ∈ p.
Proof. induction p as [|y p IH]; simpl; [done|]. destruct (y =? SLASH); [right; auto|done]. Qed.

(** No byte 0. *)
Lemma cut_nonzero p : cut p = p <-> 0 ∉ p.
Proof.
  induction p as [|x p IH]; simpl; [split; [intros _; apply not_elem_of_nil|done]|].
  rewrite not_elem_of_cons, <- IH. destruct (Z.eqb_spec x 0) as [->|Hx]; split; try done; [by intros []|intros [=]; split; congruence|by intros [_ ->]].
Qed.

Lemma skipelem_some p e r :
  skipelem p = Some (e, r) -> (length r < length p)%nat /\ r = skip_slashes r /\ (cut p = p -> dir_name e /\ cut r = r).
Proof.
  unfold skipelem. destruct (skip_slashes p) as [|c q] eqn:E; [done|]. destruct (first_elem (c :: q)) as [e0 r0] eqn:Ef.
  intros [= <- <-]. pose proof (skip_slashes_le p) as Hl. rewrite E in Hl. simpl in Hl.
  pose proof (first_elem_app (c :: q)) as Ha. rewrite Ef in Ha. simpl fst in Ha. simpl snd in Ha.
  pose proof (skip_slashes_le r0) as Hl0. assert (He : e0 <> []).
  { simpl in Ef. rewrite (proj2 (Z.eqb_neq c SLASH) (skip_slashes_head _ _ _ E)) in Ef. destruct (first_elem q). congruence. }
  split_and!; [|apply skip_slashes_idem|].
  - apply (f_equal length) in Ha. rewrite length_app in Ha. simpl in Ha. destruct e0; [done|]. simpl in Ha. lia.
  - rewrite !cut_nonzero. intros Hc. assert (Hcq : 0 ∉ c :: q) by (intros Hin; apply Hc, skip_slashes_sub; by rewrite E).
    rewrite Ha in Hcq. rewrite not_elem_of_app in Hcq. destruct Hcq as [H1 H2]. split; [split|].
    + rewrite cut_nonzero. intros Hin. apply H1. rewrite <- (take_drop DIRSIZ e0). apply elem_of_app. by left.
    + rewrite length_take. change DIRSIZ with 14%nat. lia.
    + intros Hin. by apply H2, skip_slashes_sub.
Qed.

(** ** The cache during a walk *)

Section Walk.
Context {S H : Type} `{StoreLaws S H} `{!Loggable S H}.
Implicit Types (l : lstate) (c : icst) (s : S).
Context (V : gmap Z (list Z)) (L : gset Z).

(** The cache agrees with the disk, and [b] is the only locked entry. *)
Record cache_ok (b : option nat) (c : icst) : Prop := {
  co_ok : icache_ok c;
  co_entry : forall ip i, inodes c !! ip = Some i -> 0 < i_ref i ->
    i_dev i = ROOTDEV /\ (i_busy i = true <-> b = Some ip) /\ (i_valid i = true -> disk_inode V (i_inum i) = Some (i_d i))
}.

(** A reference to the inode [inum]. *)
Definition has c (ip : nat) (inum : Z) : Prop :=
  exists i, inodes c !! ip = Some i /\ 0 < i_ref i /\ same_inode i ROOTDEV inum.

Definition unused (i : inode) : Z := if i_ref i =? 0 then 1 else 0.
Definition free_entries c : Z := foldr (fun i n => unused i + n) 0 (inodes c).

Lemma free_entries_set c ip i i' :
  inodes c !! ip = Some i -> free_entries (set_inode ip i' c) = free_entries c - unused i + unused i'.
Proof.
  unfold free_entries, set_inode. simpl. generalize (inodes c) as t. intros t. revert ip.
  induction t as [|x t IH]; intros [|ip] Hi; try done; simpl in *.
  - injection Hi as ->. lia.
  - rewrite (IH ip Hi). lia.
Qed.

Lemma free_some c : 0 < free_entries c -> exists ip i, inodes c !! ip = Some i /\ i_ref i = 0.
Proof.
  unfold free_entries. generalize (inodes c) as t. induction t as [|x t IH]; simpl; [lia|]. intros Hp.
  destruct (Z.eqb_spec (i_ref x) 0) as [E|E].
  - exists O, x. done.
  - unfold unused in Hp at 1. rewrite (proj2 (Z.eqb_neq _ _) E) in Hp. destruct (IH ltac:(lia)) as (ip & i & Hi). by exists (Datatypes.S ip), i.
Qed.

(** Replacing an entry by one for the same inode with as many references. *)
Lemma cache_reflag b b' c ip i i' :
  cache_ok b c -> inodes c !! ip = Some i -> 0 < i_ref i -> i_ref i' = i_ref i -> same_inode i' (i_dev i) (i_inum i) ->
  (forall iq, iq <> ip -> b = Some iq <-> b' = Some iq) -> (i_busy i' = true <-> b' = Some ip) ->
  (i_valid i' = true -> disk_inode V (i_inum i) = Some (i_d i')) ->
  cache_ok b' (set_inode ip i' c) /\ (forall d n, refs (set_inode ip i' c) d n = refs c d n) /\
  free_entries (set_inode ip i' c) = free_entries c.
Proof.
  intros [Hok He] Hi Hr Hr' [Hd Hn] Hb Hbusy Hv. split_and!.
  - split.
    + apply (set_ok c ip i); [done|done|lia|]. intros _ iq j Hne Hj Hjr Hs. apply Hne. apply (ic_once _ Hok iq ip j i); try done.
      destruct Hs. split; congruence.
    + intros iq j Hj Hjr. apply list_lookup_insert_Some in Hj as [(<- & <- & _)|[Hne Hj]].
      * destruct (He ip i Hi Hr) as (E1 & _ & _). split_and!; [congruence|done|]. by rewrite Hn.
      * destruct (He iq j Hj Hjr) as (E1 & E2 & E3). split_and!; [done| |done]. rewrite E2. by apply Hb.
  - intros d n. rewrite (refs_set c ip i i' d n Hi). unfold weight. rewrite Hd, Hn, Hr'. lia.
  - rewrite (free_entries_set c ip i i' Hi). unfold unused. rewrite Hr'. lia.
Qed.

Abbreviation room0 := (room (∅ : gmap Z (H * bool))).

Lemma walk_ilock l c s ip i d :
  unlocked 0 l -> cache_ok None c -> inodes c !! ip = Some i -> 0 < i_ref i -> disk_inode V (i_inum i) = Some d -> d_type d <> 0 ->
  holds s V ∅ L -> room0 L 1 ->
  let i' := Inode (i_dev i) (i_inum i) (i_ref i) true true d in
  exists l' s', ilock ip (Fs l c s) = Ret tt (Fs l' (set_inode ip i' c) s') /\ same_locks l l' /\ holds s' V ∅ L /\
    cache_ok (Some ip) (set_inode ip i' c) /\ (forall d n, refs (set_inode ip i' c) d n = refs c d n) /\
    free_entries (set_inode ip i' c) = free_entries c.
Proof.
  intros Hl Hc Hi Hr Hd Hty Hh Hroom i'. destruct (co_entry _ _ Hc ip i Hi Hr) as (Hdev & Hb & Hv).
  assert (Hb' : i_busy i = false) by (destruct (i_busy i); [by pose proof (proj1 Hb eq_refl)|done]).
  destruct (ilock_run l c s V L ip i i' Hl Hi ltac:(lia) Hb' Hdev Hh Hroom) as (l' & s' & E & Hs & Hh').
  - unfold locked_inode. destruct (i_valid i) eqn:Ev; [|by rewrite Hd]. specialize (Hv eq_refl). rewrite Hd in Hv. injection Hv as Ed.
    unfold i'. by rewrite Ed.
  - done.
  - exists l', s'. split_and!; try done; apply (cache_reflag None (Some ip) c ip i i'); try done; by intros iq Hne; split; [|intros [=]].
Qed.

Lemma walk_iget b l c s n :
  unlocked 0 l -> cache_ok b c -> 0 < free_entries c ->
  (forall iq, b = Some iq -> exists i, inodes c !! iq = Some i /\ 0 < i_ref i) ->
  exists ip i i' l', iget ROOTDEV n (Fs l c s) = Ret ip (Fs l' (set_inode ip i' c) s) /\ same_locks l l' /\
    inodes c !! ip = Some i /\ cache_ok b (set_inode ip i' c) /\ one_more ROOTDEV n c (set_inode ip i' c) /\
    same_inode i' ROOTDEV n /\ i_ref i' = i_ref i + 1 /\ 0 <= i_ref i /\ (0 < i_ref i -> i' = set_i_ref (i_ref i + 1) i).
Proof.
  intros Hl [Hok He] Hfree Hbs. destruct (iget_run l c s ROOTDEV n Hl Hok) as [(ip & i & i' & l' & E & Hs & Hi & Hok' & Hone & Hcase)|(_ & Hall & _)].
  2: { destruct (free_some c Hfree) as (ip & i & Hi & Hz). specialize (Hall ip i Hi). lia. }
  exists ip, i, i', l'. split_and!; try done.
  - split; [done|]. intros iq j Hj Hjr. apply list_lookup_insert_Some in Hj as [(<- & <- & _)|[Hne Hj]]; [|by apply He].
    destruct Hcase as [(Hr & _ & ->)|(_ & Hz & ->)]; [exact (He ip i Hi Hr)|]. split_and!; [done| |done]. split; [done|].
    intros Hb. destruct (Hbs ip Hb) as (j & Hj & Hjr'). assert (j = i) as -> by congruence. lia.
  - destruct Hcase as [(_ & Hsi & ->)|(_ & _ & ->)]; done.
  - destruct Hcase as [(_ & _ & ->)|(_ & Hz & ->)]; simpl; lia.
  - destruct Hcase as [(? & _ & _)|(_ & Hz & _)]; lia.
  - destruct Hcase as [(_ & _ & ->)|(_ & Hz & _)]; [done|lia].
Qed.

Lemma walk_iunlockput l c s ip i :
  unlocked 0 l -> cache_ok (Some ip) c -> inodes c !! ip = Some i -> 0 < i_ref i -> i_nlink i <> 0 ->
  let i' := set_i_ref (i_ref i - 1) (set_i_flags false (i_valid i) i) in
  exists l' c', iunlockput ip (Fs l c s) = Ret tt (Fs l' c' s) /\ same_locks l l' /\ inodes c' = <[ip := i']> (inodes c) /\
    cache_ok None c' /\ one_more ROOTDEV (i_inum i) c' c /\ free_entries c' = free_entries c + (if i_ref i =? 1 then 1 else 0).
Proof.
  intros Hl Hc Hi Hr Hn i'. destruct (co_entry _ _ Hc ip i Hi Hr) as (Hdev & Hb & Hv).
  destruct (iunlock_run l c s ip i Hl Hi ltac:(lia) (proj2 Hb eq_refl)) as (l1 & E1 & Hs1).
  set (i1 := set_i_flags false (i_valid i) i) in *. set (c1 := Icst (<[ip := i1]> (inodes c)) (woken c ++ [ip])) in *.
  assert (Hi1 : inodes c1 !! ip = Some i1) by (apply list_lookup_insert_eq; by eapply lookup_lt_Some).
  destruct (iput_run l1 c1 s ip i1 (Hs1 _ Hl) Hi1) as (l2 & E2 & Hs2).
  { change (i_nlink i1) with (i_nlink i). by rewrite (proj2 (Z.eqb_neq _ _) Hn), andb_false_r. }
  exists l2, (set_inode ip i' c1). split_and!.
  - unfold iunlockput. by rewrite (bind_Ret _ _ _ _ _ E1).
  - intros k Hk. by apply Hs2, Hs1.
  - unfold set_inode, c1. simpl. by rewrite list_insert_insert_eq.
  - destruct Hc as [Hok He]. split.
    + assert (Hok' : icache_ok (set_inode ip i' c)).
      { apply (set_ok c ip i); [done|done|simpl; lia|]. intros _ iq j Hne Hj Hjr Hs. apply Hne. by apply (ic_once _ Hok iq ip j i). }
      destruct Hok' as [Q1 Q2]. unfold set_inode, c1 in *. split; simpl in *; by rewrite list_insert_insert_eq.
    + unfold set_inode, c1. simpl. rewrite list_insert_insert_eq. intros iq j Hj Hjr.
      apply list_lookup_insert_Some in Hj as [(<- & <- & _)|[Hne Hj]]; [by split_and!|].
      destruct (He iq j Hj Hjr) as (E1' & E2' & E3'). split_and!; [done| |done]. rewrite E2'. split; [|done]. intros [= ->]. done.
  - intros d n. assert (Er : refs (set_inode ip i' c1) d n = refs (set_inode ip i' c) d n).
    { unfold refs, set_inode, c1. simpl. by rewrite list_insert_insert_eq. }
    rewrite Er, (refs_set c ip i i' d n Hi). unfold weight, is_inode, one. simpl. rewrite Hdev, (Z.eqb_sym d), (Z.eqb_sym n).
    destruct ((ROOTDEV =? d) && (i_inum i =? n)); lia.
  - assert (Er : free_entries (set_inode ip i' c1) = free_entries (set_inode ip i' c)).
    { unfold free_entries, set_inode, c1. simpl. by rewrite list_insert_insert_eq. }
    rewrite Er, (free_entries_set c ip i i' Hi). unfold unused. simpl.
    destruct (Z.eqb_spec (i_ref i) 0), (Z.eqb_spec (i_ref i - 1) 0), (Z.eqb_spec (i_ref i) 1); lia.
Qed.

Lemma walk_iput l c s ip i :
  unlocked 0 l -> cache_ok None c -> inodes c !! ip = Some i -> 0 < i_ref i -> (i_valid i = true -> i_nlink i <> 0) ->
  exists l' c', iput ip (Fs l c s) = Ret tt (Fs l' c' s) /\ same_locks l l' /\
    cache_ok None c' /\ one_more ROOTDEV (i_inum i) c' c.
Proof.
  intros Hl [Hok He] Hi Hr Hn. destruct (He ip i Hi Hr) as (Hdev & Hb & Hv).
  destruct (iput_run l c s ip i Hl Hi) as (l' & E & Hs).
  { destruct (i_valid i); [|by rewrite andb_false_r]. by rewrite (proj2 (Z.eqb_neq _ _) (Hn eq_refl)), andb_false_r. }
  exists l', (set_inode ip (set_i_ref (i_ref i - 1) i) c). split_and!; [done|done| |].
  - split.
    + apply (set_ok c ip i); [done|done|simpl; lia|]. intros _ iq j Hne Hj Hjr Hs'. apply Hne. by apply (ic_once _ Hok iq ip j i).
    + intros iq j Hj Hjr. apply list_lookup_insert_Some in Hj as [(<- & <- & _)|[Hne Hj]]; [exact (He ip i Hi Hr)|by apply He].
  - intros d n. rewrite (refs_set c ip i _ d n Hi). unfold weight, is_inode, one. simpl. rewrite Hdev, (Z.eqb_sym d), (Z.eqb_sym n).
    destruct ((ROOTDEV =? d) && (i_inum i =? n)); lia.
Qed.

(** ** The tree *)

Context (sb : superblock) (devs : Z -> @devsw S) (Hlo : layout sb V) (Hlen : lengths V).
Context (N : gmap Z (dinode * gmap Z Z)).

(** [N] are inodes of the disk that are in use and linked; the entries of a
    directory among them lead to others of them. *)
Definition entries_of (d : dinode) (bm : gmap Z Z) : list (Z * list Z) := dir_entries (fbytes V bm 0 (d_size d)).

Record tree_ok : Prop := {
  tr_disk : forall inum d bm, N !! inum = Some (d, bm) -> disk_inode V inum = Some d /\ d_type d <> 0 /\ d_nlink d <> 0;
  tr_dir : forall inum d bm, N !! inum = Some (d, bm) -> d_type d = T_DIR ->
    file_inv sb V (Inode ROOTDEV inum 1 false true d) bm /\ exists m : nat, d_size d = 16 * Z.of_nat m;
  tr_closed : forall inum d bm e, N !! inum = Some (d, bm) -> d_type d = T_DIR -> e ∈ entries_of d bm -> fst e <> 0 -> is_Some (N !! fst e)
}.

(** The entry [name] of the directory [inum]; [None] also when it is none. *)
Definition dir_of (inum : Z) : option (list (Z * list Z)) :=
  match N !! inum with Some (d, bm) => if d_type d =? T_DIR then Some (entries_of d bm) else None | None => None end.

(** What [namex] computes: the inode and the last element. *)
Fixpoint walk (parent : bool) (els : list (list Z)) (inum : Z) (name : list Z) : option (Z * list Z) :=
  match els with
  | [] => if parent then None else Some (inum, name)
  | e :: els' =>
      es ← dir_of inum;
      if parent && (length els' =? 0)%nat then Some (inum, e)
      else n ← dir_inum es e; walk parent els' n e
  end.

Lemma elems_nil fuel r : r = skip_slashes r -> (length r < fuel)%nat -> (length (elems_from fuel r) =? 0)%nat = (length r =? 0)%nat.
Proof.
  intros Hr Hf. destruct fuel as [|fuel]; [lia|]. cbn [elems_from]. unfold skipelem. rewrite <- Hr.
  destruct r as [|c q]; [done|]. by destruct (first_elem (c :: q)).
Qed.

Context (Htree : tree_ok) (Hroom : room0 L 1).

(** The outcome of a walk from a reference to [inum], which is given up. *)
Definition walked (o : option (Z * list Z)) (inum : Z) (c : icst) (r : outcome (fs S) (option (nat * list Z))) : Prop :=
  exists l' c' s', unlocked 0 l' /\ holds s' V ∅ L /\ cache_ok None c' /\
    match o with
    | Some (n, nm) => exists ip, r = Ret (Some (ip, nm)) (Fs l' c' s') /\ has c' ip n /\
        (forall d k, refs c' d k + one (is_inode ROOTDEV inum d k) = refs c d k + one (is_inode ROOTDEV n d k))
    | None => r = Ret None (Fs l' c' s') /\ forall d k, refs c' d k + one (is_inode ROOTDEV inum d k) = refs c d k
    end.

(** Unlocking and giving up the directory ends a walk without success. *)
Lemma walk_fail l c c1 s ip i :
  unlocked 0 l -> holds s V ∅ L -> cache_ok (Some ip) c1 -> inodes c1 !! ip = Some i -> 0 < i_ref i -> i_nlink i <> 0 ->
  (forall d k, refs c1 d k = refs c d k) -> walked None (i_inum i) c ((iunlockput ip;;; ret None) (Fs l c1 s)).
Proof.
  intros Hl Hh Hc Hi Hr Hn Href. destruct (walk_iunlockput l c1 s ip i Hl Hc Hi Hr Hn) as (l' & c' & E & Hs & _ & Hc' & Hone & _).
  exists l', c', s. rewrite (bind_Ret _ _ _ _ _ E). split_and!; try done; [by apply Hs|]. intros d k. rewrite <- Href. symmetry. apply Hone.
Qed.

Definition slack (i : inode) c : Z := free_entries c + (if i_ref i =? 1 then 1 else 0).

(** From the locked directory to the next inode. *)
Lemma walk_next l c s ip i n :
  unlocked 0 l -> cache_ok (Some ip) c -> inodes c !! ip = Some i -> 0 < i_ref i -> i_nlink i <> 0 -> i_dev i = ROOTDEV ->
  2 <= slack i c ->
  exists ip2 j l2 c2, (ip2 <~ iget ROOTDEV n;;; iunlockput ip;;; ret ip2) (Fs l c s) = Ret ip2 (Fs l2 c2 s) /\ same_locks l l2 /\
    cache_ok None c2 /\ inodes c2 !! ip2 = Some j /\ 0 < i_ref j /\ same_inode j ROOTDEV n /\ slack j c2 = slack i c /\
    forall d k, refs c2 d k + one (is_inode ROOTDEV (i_inum i) d k) = refs c d k + one (is_inode ROOTDEV n d k).
Proof.
  intros Hl Hc Hi Hr Hn Hdev Hsl. unfold slack in *.
  destruct (walk_iget (Some ip) l c s n Hl Hc) as (ip2 & j & j' & l1 & E1 & Hs1 & Hj & Hc1 & Hone1 & Hsj & Hrj & Hj0 & Hjeq).
  { destruct (i_ref i =? 1); lia. }
  { intros iq [= <-]. by exists i. }
  set (c1 := set_inode ip2 j' c) in *. assert (Hj1 : inodes c1 !! ip2 = Some j') by by eapply set_inode_lookup.
  assert (Hi1 : exists i1, inodes c1 !! ip = Some i1 /\ i_d i1 = i_d i /\ i_inum i1 = i_inum i /\ i_dev i1 = i_dev i /\
    i_ref i1 = i_ref i + (if decide (ip = ip2) then 1 else 0)).
  { destruct (decide (ip = ip2)) as [->|Hne].
    - exists j'. assert (j = i) as -> by congruence. rewrite (Hjeq Hr) in *. by split_and!.
    - exists i. split_and!; try done; [|lia]. unfold c1, set_inode. simpl. by rewrite list_lookup_insert_ne. }
  destruct Hi1 as (i1 & Hi1 & Ed & En & Edv & Er).
  destruct (walk_iunlockput l1 c1 s ip i1 (Hs1 _ Hl) Hc1 Hi1) as (l2 & c2 & E2 & Hs2 & Hin2 & Hc2 & Hone2 & Hfree2).
  { destruct (decide (ip = ip2)); lia. }
  { unfold i_nlink in *. by rewrite Ed. }
  rewrite (bind_Ret _ _ _ _ _ E1), (bind_Ret _ _ _ _ _ E2).
  assert (Hfree1 : free_entries c1 = free_entries c - unused j + unused j') by by apply free_entries_set.
  assert (Href : forall d k, refs c2 d k + one (is_inode ROOTDEV (i_inum i) d k) = refs c d k + one (is_inode ROOTDEV n d k)).
  { intros d k. rewrite <- (Hone1 d k), (Hone2 d k), En. lia. }
  unfold unused in Hfree1. destruct (decide (ip = ip2)) as [->|Hne].
  - assert (j = i) as -> by congruence. assert (i1 = j') as -> by congruence.
    exists ip2. eexists _, l2, c2. split_and!; [done|intros k Hk; by apply Hs2, Hs1|done|rewrite Hin2; apply list_lookup_insert_eq; by eapply lookup_lt_Some
      |simpl; lia|done| |done].
    simpl. rewrite Hfree2, Hfree1, Er. destruct (Z.eqb_spec (i_ref i) 0), (Z.eqb_spec (i_ref i + 1) 0), (Z.eqb_spec (i_ref i + 1) 1), (Z.eqb_spec (i_ref i + 1 - 1) 1), (Z.eqb_spec (i_ref i) 1); lia.
  - exists ip2, j', l2, c2. split_and!; [done|intros k Hk; by apply Hs2, Hs1|done|rewrite Hin2; by rewrite list_lookup_insert_ne|lia|done| |done].
    rewrite Hfree2, Hfree1, Er. rewrite Z.add_0_r. destruct (Z.eqb_spec (i_ref j) 0), (Z.eqb_spec (i_ref j') 0), (Z.eqb_spec (i_ref i) 1), (Z.eqb_spec (i_ref j') 1); lia.
Qed.

(** Unlocking the directory that [nameiparent] returns. *)
Lemma walk_parent l c c1 s ip i nm :
  unlocked 0 l -> holds s V ∅ L -> cache_ok (Some ip) c1 -> inodes c1 !! ip = Some i -> 0 < i_ref i -> i_valid i = true ->
  i_dev i = ROOTDEV -> (forall d k, refs c1 d k = refs c d k) ->
  walked (Some (i_inum i, nm)) (i_inum i) c ((iunlock ip;;; ret (Some (ip, nm))) (Fs l c1 s)).
Proof.
  intros Hl Hh Hc Hi Hr Hv Hdev Href. destruct (co_entry _ _ Hc ip i Hi Hr) as (_ & Hb & Hd).
  destruct (iunlock_run l c1 s ip i Hl Hi ltac:(lia) (proj2 Hb eq_refl)) as (l' & E & Hs).
  set (i' := set_i_flags false (i_valid i) i) in *. set (c' := Icst _ _) in E.
  destruct (cache_reflag (Some ip) None c1 ip i i') as (Hc' & Hr' & _); try done; [by intros iq Hne; split; [intros [=]|]|].
  exists l', c', s. split_and!; [by apply Hs|done|by destruct Hc' as [[Q1 Q2] Q3]; split|].
  exists ip. rewrite (bind_Ret _ _ _ _ _ E). split; [done|]. split.
  - exists i'. split_and!; [apply list_lookup_insert_eq; by eapply lookup_lt_Some|done|done].
  - intros d k. rewrite <- Href, <- (Hr' d k). done.
Qed.

Lemma dir_of_some inum d bm : N !! inum = Some (d, bm) -> d_type d = T_DIR -> dir_of inum = Some (entries_of d bm).
Proof. intros Hn Ht. unfold dir_of. rewrite Hn, Ht. done. Qed.

(** [dirlookup] in a locked directory of the tree. *)
Lemma walk_dirlookup l c s ip i d bm e {A} (k : option (nat * Z) -> M (fs S) A) :
  inodes c !! ip = Some i -> N !! i_inum i = Some (d, bm) -> i_d i = d -> i_dev i = ROOTDEV -> d_type d = T_DIR -> dir_name e ->
  holds s V ∅ L ->
  exists s' off, holds s' V ∅ L /\
    (r <~ dirlookup devs ip e;;; k r) (Fs l c s) =
      match dir_inum (entries_of d bm) e with
      | Some n => (ip2 <~ iget ROOTDEV n;;; k (Some (ip2, off))) (Fs l c s')
      | None => k None (Fs l c s')
      end /\ (forall n, dir_inum (entries_of d bm) e = Some n -> is_Some (N !! n)).
Proof.
  intros Hi Hn Hd Hdev Ht He Hh. destruct (tr_dir Htree _ _ _ Hn Ht) as [Hf (m & Hm)].
  assert (Hf' : file_inv sb V i bm) by (by eapply file_inv_flags). assert (Hsz : i_size i = 16 * Z.of_nat m) by (unfold i_size; by rewrite Hd).
  assert (Hes : entries_of d bm = dir_entries (contents V i bm)) by (unfold entries_of, contents, i_size; by rewrite Hd).
  destruct (dirlookup_run sb devs V L ip i bm c l m Hi Hf' Hlo Hlen Hroom Hsz e s He Hh) as (s' & Hh' & E); [unfold i_type; by rewrite Hd|].
  unfold bind at 1. rewrite E. unfold dir_inum. rewrite find_find_first, Hes. unfold dir_find in *.
  destruct (find_first (is_entry e) (dir_entries (contents V i bm))) as [j|] eqn:Ef.
  - apply find_first_Some in Ef as [(x & Hx & Hie) _]. pose proof (lookup_lt_Some _ _ _ Hx) as Hjl. rewrite length_entries with (m := m) in Hjl by done.
    rewrite (lookup_entries V i bm m Hsz j Hjl) in Hx |- *. injection Hx as <-. exists s', (16 * Z.of_nat j). split_and!; [done| |].
    + rewrite Hdev. simpl. unfold bind. by destruct (iget ROOTDEV _ _).
    + simpl. intros n [= <-]. apply (tr_closed Htree _ _ _ (ent (dentry (contents V i bm) j)) Hn Ht).
      * rewrite Hes. eapply list_elem_of_lookup_2, (lookup_entries V i bm m Hsz j Hjl).
      * unfold is_entry in Hie. apply andb_true_iff in Hie as [Hz _]. destruct (Z.eqb_spec (fst (ent (dentry (contents V i bm) j))) 0); done.
  - by exists s', 0.
Qed.

Lemma namex_loop_run fuel path parent nm l c s ip i :
  cut path = path -> (length path < fuel)%nat -> unlocked 0 l -> cache_ok None c -> inodes c !! ip = Some i -> 0 < i_ref i ->
  i_dev i = ROOTDEV -> is_Some (N !! i_inum i) -> holds s V ∅ L -> 2 <= slack i c ->
  walked (walk parent (elems_from fuel path) (i_inum i) nm) (i_inum i) c (namex_loop devs fuel ip path parent nm (Fs l c s)).
Proof.
  revert path nm l c s ip i. induction fuel as [|fuel IH]; intros path nm l c s ip i Hp Hfu Hl Hc Hi Hr Hdev [[d bm] Hn] Hh Hsl; [lia|].
  cbn [namex_loop elems_from]. destruct (tr_disk Htree _ _ _ Hn) as (Hd & Hty & Hnl). destruct (co_entry _ _ Hc ip i Hi Hr) as (_ & _ & Hval).
  destruct (skipelem path) as [[e rest]|] eqn:Hsk.
  2: { destruct parent; cbn [walk].
    - destruct (walk_iput l c s ip i Hl Hc Hi Hr) as (l' & c' & E & Hs & Hc' & Hone).
      { intros Hv. specialize (Hval Hv). rewrite Hd in Hval. injection Hval as E. unfold i_nlink. by rewrite <- E. }
      exists l', c', s. rewrite (bind_Ret _ _ _ _ _ E). split_and!; try done. by apply Hs.
    - exists l, c, s. split_and!; try done. exists ip. split_and!; try done. by exists i. }
  destruct (skipelem_some _ _ _ Hsk) as (Hlt & Hrest & Hne). destruct (Hne Hp) as [Hen Hcr].
  destruct (walk_ilock l c s ip i d Hl Hc Hi Hr Hd Hty Hh Hroom) as (l1 & s1 & E1 & Hs1 & Hh1 & Hc1 & Href1 & Hfree1).
  rewrite (bind_Ret _ _ _ _ _ E1). set (i1 := Inode _ _ _ _ _ _) in *. set (c1 := set_inode ip i1 c) in *.
  assert (Hi1 : inodes c1 !! ip = Some i1) by by eapply set_inode_lookup.
  rewrite (bind_Ret _ _ _ _ _ (get_inode_run l1 c1 s1 ip i1 Hi1)). change (i_type i1) with (d_type d). cbn [walk].
  destruct (Z.eqb_spec (d_type d) T_DIR) as [Ht|Ht]; cbn [negb].
  2: { unfold dir_of. rewrite Hn, (proj2 (Z.eqb_neq _ _) Ht). simpl. apply (walk_fail l1 c c1 s1 ip i1); try done. by apply Hs1. }
  rewrite (dir_of_some _ d bm Hn Ht). cbn [mbind option_bind]. rewrite (elems_nil fuel rest Hrest) by lia.
  destruct (parent && (length rest =? 0)%nat).
  { apply (walk_parent l1 c c1 s1 ip i1); try done. by apply Hs1. }
  destruct (walk_dirlookup l1 c1 s1 ip i1 d bm e (fun r => match r with
      | None => iunlockput ip;;; ret None
      | Some (next, _) => iunlockput ip;;; namex_loop devs fuel next rest parent e end)) as (s2 & off & Hh2 & E2 & Hin); try done.
  rewrite E2. destruct (dir_inum (entries_of d bm) e) as [n|] eqn:Edi; simpl.
  2: { apply (walk_fail l1 c c1 s2 ip i1); try done. by apply Hs1. }
  destruct (walk_next l1 c1 s2 ip i1 n) as (ip2 & j & l2 & c2 & E3 & Hs2 & Hc2 & Hj & Hjr & [Hjd Hjn] & Hslj & Href2); try done.
  { by apply Hs1. }
  { unfold slack in *. rewrite Hfree1. done. }
  specialize (IH rest e l2 c2 s2 ip2 j Hcr ltac:(lia)). rewrite Hjn in IH.
  assert (Hstep : (ip3 <~ iget ROOTDEV n;;; iunlockput ip;;; namex_loop devs fuel ip3 rest parent e) (Fs l1 c1 s2) =
    namex_loop devs fuel ip2 rest parent e (Fs l2 c2 s2)).
  { rewrite <- (bind_Ret _ (fun ip3 => namex_loop devs fuel ip3 rest parent e) _ _ _ E3), !bind_assoc. unfold bind at 1 3.
    destruct (iget ROOTDEV n _); try done. by rewrite !bind_assoc. }
  assert (Hsl2 : 2 <= slack j c2) by (rewrite Hslj; unfold slack in *; by rewrite Hfree1).
  rewrite Hstep. destruct (IH (Hs2 _ (Hs1 _ Hl)) Hc2 Hj Hjr Hjd (Hin n eq_refl) Hh2 Hsl2) as (l3 & c3 & s3 & Hl3 & Hh3 & Hc3 & Hres).
  exists l3, c3, s3. split_and!; try done. destruct (walk parent (elems_from fuel rest) n e) as [[n' nm']|].
  - destruct Hres as (ip' & Er & Hhas & Hrf). exists ip'. split_and!; try done. intros dv k.
    specialize (Hrf dv k). specialize (Href2 dv k). specialize (Href1 dv k). simpl in Href2. lia.
  - destruct Hres as [Er Hrf]. split; [done|]. intros dv k. specialize (Hrf dv k). specialize (Href2 dv k). specialize (Href1 dv k).
    simpl in Href2. lia.
Qed.

(** ** [namex] *)

Definition absolute (path : list Z) : bool := match path with c :: _ => c =? SLASH | [] => false end.

Lemma walk_start l c s cwd wi path :
  unlocked 0 l -> cache_ok None c -> inodes c !! cwd = Some wi -> 0 < i_ref wi -> i_dev wi = ROOTDEV -> 2 <= free_entries c ->
  let n := if absolute path then ROOTINO else i_inum wi in
  exists ip i l' c', (match path with
         | c :: _ => if c =? SLASH then iget ROOTDEV ROOTINO else idup cwd
         | [] => idup cwd
         end) (Fs l c s) = Ret ip (Fs l' c' s) /\ same_locks l l' /\ cache_ok None c' /\ inodes c' !! ip = Some i /\ 0 < i_ref i /\
    same_inode i ROOTDEV n /\ 2 <= slack i c' /\ one_more ROOTDEV n c c'.
Proof.
  intros Hl Hc Hw Hr Hdev Hfree n.
  assert (Hdup : absolute path = false -> exists ip i l' c', idup cwd (Fs l c s) = Ret ip (Fs l' c' s) /\ same_locks l l' /\ cache_ok None c' /\
    inodes c' !! ip = Some i /\ 0 < i_ref i /\ same_inode i ROOTDEV n /\ 2 <= slack i c' /\ one_more ROOTDEV n c c').
  { intros Ha. unfold n. rewrite Ha. set (w' := set_i_ref (i_ref wi + 1) wi).
    destruct (icache_locked_run (ic_upd cwd (fun i => set_i_ref (i_ref i + 1) i)) l c s tt (set_inode cwd w' c) Hl) as (l' & E & Hs).
    { by rewrite (ic_upd_run c cwd wi _ Hw). }
    destruct Hc as [Hok He]. exists cwd, w', l', (set_inode cwd w' c). unfold idup. rewrite (bind_Ret _ _ _ _ _ E). split_and!; try done.
    - split.
      + apply (set_ok c cwd wi); [done|done|simpl; lia|]. intros _ iq j Hne Hj Hjr Hs'. apply Hne. by apply (ic_once _ Hok iq cwd j wi).
      + intros iq j Hj Hjr. apply list_lookup_insert_Some in Hj as [(<- & <- & _)|[Hne Hj]]; [exact (He cwd wi Hw Hr)|by apply He].
    - by eapply set_inode_lookup.
    - simpl. lia.
    - unfold slack. rewrite (free_entries_set c cwd wi w' Hw). unfold unused. simpl.
      destruct (Z.eqb_spec (i_ref wi) 0), (Z.eqb_spec (i_ref wi + 1) 0), (Z.eqb_spec (i_ref wi + 1) 1); lia.
    - apply (one_more_set c cwd wi); try done. by right. }
  destruct path as [|x path]; [by apply Hdup|]. simpl in Hdup. destruct (x =? SLASH) eqn:Ex; [|by apply Hdup].
  unfold n. simpl. rewrite Ex.
  destruct (walk_iget None l c s ROOTINO Hl Hc ltac:(lia)) as (ip & i & i' & l' & E & Hs & Hi & Hc' & Hone & Hsi & Hri & Hi0 & _); [done|].
  exists ip, i', l', (set_inode ip i' c). split_and!; try done.
  - by eapply set_inode_lookup.
  - lia.
  - unfold slack. rewrite (free_entries_set c ip i i' Hi). unfold unused.
    destruct (Z.eqb_spec (i_ref i) 0), (Z.eqb_spec (i_ref i') 0), (Z.eqb_spec (i_ref i') 1); lia.
Qed.

Lemma namex_run l c s cwd wi path parent :
  cut path = path -> unlocked 0 l -> cache_ok None c -> inodes c !! cwd = Some wi -> 0 < i_ref wi -> i_dev wi = ROOTDEV ->
  is_Some (N !! i_inum wi) -> is_Some (N !! ROOTINO) -> holds s V ∅ L -> 2 <= free_entries c ->
  exists l' c' s', unlocked 0 l' /\ holds s' V ∅ L /\ cache_ok None c' /\
    match walk parent (elems path) (if absolute path then ROOTINO else i_inum wi) [] with
    | Some (n, nm) => exists ip, namex devs cwd path parent (Fs l c s) = Ret (Some (ip, nm)) (Fs l' c' s') /\
        has c' ip n /\ one_more ROOTDEV n c c'
    | None => namex devs cwd path parent (Fs l c s) = Ret None (Fs l' c' s') /\ forall d k, refs c' d k = refs c d k
    end.
Proof.
  intros Hp Hl Hc Hw Hr Hdev HNw HNr Hh Hfree.
  destruct (walk_start l c s cwd wi path Hl Hc Hw Hr Hdev Hfree) as (ip & i & l1 & c1 & E1 & Hs1 & Hc1 & Hi & Hir & [Hid Hin] & Hsl & Hone).
  set (n0 := if absolute path then ROOTINO else i_inum wi) in *. unfold namex. rewrite (bind_Ret _ _ _ _ _ E1).
  destruct (namex_loop_run (Datatypes.S (length path)) path parent [] l1 c1 s ip i Hp ltac:(lia) (Hs1 _ Hl) Hc1 Hi Hir Hid)
    as (l2 & c2 & s2 & Hl2 & Hh2 & Hc2 & Hres); [|done|done|].
  { rewrite Hin. unfold n0. by destruct (absolute path). }
  exists l2, c2, s2. split_and!; try done. rewrite Hin in Hres. unfold elems.
  destruct (walk parent (elems_from (Datatypes.S (length path)) path) n0 []) as [[n nm]|].
  - destruct Hres as (ip' & Er & Hhas & Hrf). exists ip'. split_and!; try done. intros d k. specialize (Hrf d k). specialize (Hone d k). lia.
  - destruct Hres as [Er Hrf]. split; [done|]. intros d k. specialize (Hrf d k). specialize (Hone d k). lia.
Qed.

(** C8: [namex], and with it [namei] and [nameiparent], follows the directories
    of the disk from the root or the current directory: it returns a reference
    to the inode (for [nameiparent]: of the directory) that the walk through
    the tree gives, and the last element; it fails when an element is missing
    or something on the way is no directory.  On success it leaves exactly one
    more reference to that inode in the cache, on failure none. *)
Theorem namex_resolves l c s cwd wi path parent :
  cut path = path -> unlocked 0 l -> cache_ok None c -> inodes c !! cwd = Some wi -> 0 < i_ref wi -> i_dev wi = ROOTDEV ->
  is_Some (N !! i_inum wi) -> is_Some (N !! ROOTINO) -> holds s V ∅ L -> 2 <= free_entries c ->
  exists l' c' s', unlocked 0 l' /\ holds s' V ∅ L /\ cache_ok None c' /\
    match walk parent (elems path) (if absolute path then ROOTINO else i_inum wi) [] with
    | Some (n, nm) => exists ip, namex devs cwd path parent (Fs l c s) = Ret (Some (ip, nm)) (Fs l' c' s') /\
        has c' ip n /\ one_more ROOTDEV n c c'
    | None => namex devs cwd path parent (Fs l c s) = Ret None (Fs l' c' s') /\ forall d k, refs c' d k = refs c d k
    end.
Proof. by apply namex_run. Qed.
End Walk.
