(* ===== verification/File.v ===== *)
(** * Open files (file.c, and pipealloc of pipe.c)

    The table of open files with its lock, reference counts and offsets, over
    the file system with its log and over the pipes.  A pipe is a page from the
    page allocator; the free pages are a list, as Kalloc.v shows.  Bytes that
    go to or come from a caller's buffer are results and arguments. *)
From S2P Require Import Prelude Mmu Spinlock Strings Bytes BlockCache Log Store LogStore Fs Pipe.

Definition NFILE : nat := 100.
Definition LOGSIZE : Z := 10.

Inductive ftype := FD_NONE | FD_PIPE | FD_INODE.
#[export] Instance ftype_eq : EqDecision ftype.
Proof. solve_decision. Defined.

Record file := File {
  f_type : ftype;
  f_ref : Z;
  f_readable : bool;
  f_writable : bool;
  f_pipe : nat;
  f_ip : nat;
  f_off : Z
}.

Definition set_f_type (v : ftype) (f : file) : file :=
  File v (f_ref f) (f_readable f) (f_writable f) (f_pipe f) (f_ip f) (f_off f).
Definition set_f_ref (v : Z) (f : file) : file :=
  File (f_type f) v (f_readable f) (f_writable f) (f_pipe f) (f_ip f) (f_off f).
Definition set_f_off (v : Z) (f : file) : file :=
  File (f_type f) (f_ref f) (f_readable f) (f_writable f) (f_pipe f) (f_ip f) v.

(** [pwoken] are the calls of wakeup on pipes. *)
Record fstate (B : Type) := FState {
  fsys : fs (lst B);
  ftable : list file;
  pipes : gmap nat pipe;
  pages : list nat;
  pwoken : list (nat * pchan)
}.
Arguments FState {B}.
Arguments fsys {B}.
Arguments ftable {B}.
Arguments pipes {B}.
Arguments pages {B}.
Arguments pwoken {B}.

Section Files.
Context {B H : Type} `{BlockCache B H}.
Abbreviation K := (M (fstate B)).

Definition set_fsys (v : fs (lst B)) (s : fstate B) : fstate B := FState v (ftable s) (pipes s) (pages s) (pwoken s).
Definition set_ftable (v : list file) (s : fstate B) : fstate B := FState (fsys s) v (pipes s) (pages s) (pwoken s).
Definition set_pipes (v : gmap nat pipe) (s : fstate B) : fstate B := FState (fsys s) (ftable s) v (pages s) (pwoken s).
Definition set_pages (v : list nat) (s : fstate B) : fstate B := FState (fsys s) (ftable s) (pipes s) v (pwoken s).
Definition add_pwoken (p : nat) (v : list pchan) (s : fstate B) : fstate B :=
  FState (fsys s) (ftable s) (pipes s) (pages s) (pwoken s ++ ((p,.) <$> v)).

Definition onfs {A} (m : M (fs (lst B)) A) : K A := zoom fsys set_fsys m.
Definition begin_op : K unit := onfs (ons begin_trans).
Definition end_op : K unit := onfs (ons commit_trans).

(** The lock of the file table (lock 1). *)
Definition lock_ftable : K unit := onfs (zoom flks set_flks (acquire 1)).
Definition unlock_ftable : K unit := onfs (zoom flks set_flks (release 1)).

Definition get_file (f : nat) : K file := gets_opt (fun s => ftable s !! f).
Definition upd_file (f : nat) (g : file -> file) : K unit := modify (fun s => set_ftable (alter g f (ftable s)) s).

Definition filealloc : K (option nat) :=
  lock_ftable;;;
  t <~ gets ftable;;;
  match find_first (fun f => f_ref f =? 0) t with
  | Some f => upd_file f (set_f_ref 1);;; unlock_ftable;;; ret (Some f)
  | None => unlock_ftable;;; ret None
  end.

Definition filedup (f : nat) : K nat :=
  lock_ftable;;;
  x <~ get_file f;;;
  if f_ref x <? 1 then panic "filedup" else
  upd_file f (set_f_ref (f_ref x + 1));;;
  unlock_ftable;;;
  ret f.

(** ** The pipe behind a file *)

Definition get_pipe (p : nat) : K pipe := gets_opt (fun s => pipes s !! p).

(** pipeclose; the page goes back when both ends are closed. *)
Definition close_pipe (p : nat) (writable : bool) : K unit :=
  q <~ get_pipe p;;;
  let '(q', ws, free) := pipeclose writable q in
  modify (add_pwoken p ws);;;
  if free then modify (fun s => set_pages (p :: pages s) (set_pipes (delete p (pipes s)) s))
  else modify (fun s => set_pipes (<[p := q']> (pipes s)) s).

Definition read_pipe (killed : bool) (p : nat) (n : Z) : K (option (list Z)) :=
  q <~ get_pipe p;;;
  let '(q', ws, r) := piperead killed (Z.to_nat n) q in
  modify (fun s => add_pwoken p ws (set_pipes (<[p := q']> (pipes s)) s));;;
  match r with
  | RDone l => ret (Some l)
  | RFail => ret None
  | RSleep => fun s => Sched s
  end.

Definition write_pipe (killed : bool) (p : nat) (src : list Z) (n : Z) : K Z :=
  q <~ get_pipe p;;;
  let '(q', ws, r) := pipewrite killed src q in
  modify (fun s => add_pwoken p ws (set_pipes (<[p := q']> (pipes s)) s));;;
  match r with
  | WDone => ret n
  | WFail => ret (-1)
  | WSleep _ => fun s => Sched s
  end.

Definition fileclose (f : nat) : K unit :=
  lock_ftable;;;
  x <~ get_file f;;;
  if f_ref x <? 1 then panic "fileclose" else
  upd_file f (set_f_ref (f_ref x - 1));;;
  if 0 <? f_ref x - 1 then unlock_ftable else
  upd_file f (fun g => set_f_type FD_NONE (set_f_ref 0 g));;;
  unlock_ftable;;;
  match f_type x with
  | FD_PIPE => close_pipe (f_pipe x) (f_writable x)
  | FD_INODE => begin_op;;; onfs (iput (f_ip x));;; end_op
  | FD_NONE => ret tt
  end.

Definition filestat (f : nat) : K (option stat) :=
  x <~ get_file f;;;
  match f_type x with
  | FD_INODE =>
      onfs (ilock (f_ip x));;;
      st <~ onfs (stati (f_ip x));;;
      onfs (iunlock (f_ip x));;;
      ret (Some st)
  | _ => ret None
  end.

(** The device switch and proc->killed. *)
Variable devs : Z -> @devsw (lst B).
Variable killed : bool.

(** The bytes read; [None] for the result -1. *)
Definition fileread (f : nat) (n : Z) : K (option (list Z)) :=
  x <~ get_file f;;;
  if negb (f_readable x) then ret None else
  match f_type x with
  | FD_PIPE => read_pipe killed (f_pipe x) n
  | FD_INODE =>
      onfs (ilock (f_ip x));;;
      y <~ get_file f;;;
      r <~ onfs (readi devs (f_ip x) (f_off y) (u32 n));;;
      (match r with
       | Some l => when (0 <? length l)%nat (upd_file f (fun g => set_f_off (u32 (f_off g + Z.of_nat (length l))) g))
       | None => ret tt
       end);;;
      onfs (iunlock (f_ip x));;;
      ret r
  | FD_NONE => panic "fileread"
  end.

Definition maxwrite : Z := ((LOGSIZE - 1 - 1 - 2) / 2) * 512.

(** One round of the loop of [filewrite]: the bytes of one transaction. *)
Definition write_chunk (f : nat) (src : list Z) : K Z :=
  x <~ get_file f;;;
  begin_op;;;
  onfs (ilock (f_ip x));;;
  y <~ get_file f;;;
  r <~ onfs (writei devs (f_ip x) src (f_off y));;;
  when (0 <? r) (upd_file f (fun g => set_f_off (u32 (f_off g + r)) g));;;
  onfs (iunlock (f_ip x));;;
  end_op;;;
  ret r.

(** The value of [i] after the loop. *)
Fixpoint filewrite_loop (fuel : nat) (f : nat) (src : list Z) (i n : Z) : K Z :=
  match fuel with
  | O => hang
  | S fuel' =>
      if negb (i <? n) then ret i else
      let n1 := Z.min (n - i) maxwrite in
      r <~ write_chunk f (take (Z.to_nat n1) src);;;
      if r <? 0 then ret i else
      if negb (r =? n1) then panic "short filewrite" else
      filewrite_loop fuel' f (drop (Z.to_nat n1) src) (i + r) n
  end.

(** [src] are the [n] bytes at the caller's address, none for a negative [n]. *)
Definition filewrite (f : nat) (src : list Z) (n : Z) : K Z :=
  x <~ get_file f;;;
  if negb (f_writable x) then ret (-1) else
  match f_type x with
  | FD_PIPE => write_pipe killed (f_pipe x) src n
  | FD_INODE =>
      i <~ filewrite_loop (S (Z.to_nat n)) f src 0 n;;;
      ret (if i =? n then n else -1)
  | FD_NONE => panic "filewrite"
  end.

(** ** pipealloc *)

Definition close_opt (f : option nat) : K unit :=
  match f with Some f => fileclose f | None => ret tt end.

(** The read and the write end.  [junk] is what the page held. *)
Definition pipealloc (junk : list Z) : K (option (nat * nat)) :=
  f0 <~ filealloc;;;
  match f0 with
  | None => ret None
  | Some f0 =>
      f1 <~ filealloc;;;
      match f1 with
      | None => close_opt (Some f0);;; ret None
      | Some f1 =>
          l <~ gets pages;;;
          match l with
          | [] => close_opt (Some f0);;; close_opt (Some f1);;; ret None
          | p :: l' =>
              modify (fun s => set_pages l' (set_pipes (<[p := pipe_init junk]> (pipes s)) s));;;
              upd_file f0 (fun f => File FD_PIPE (f_ref f) true false p (f_ip f) (f_off f));;;
              upd_file f1 (fun f => File FD_PIPE (f_ref f) false true p (f_ip f) (f_off f));;;
              ret (Some (f0, f1))
          end
      end
  end.
End Files.
