(* ===== verification/FsImage.v ===== *)
(** * A small disk image

    Twenty-seven blocks, laid out as mkfs does: the boot block, the super block,
    the inode blocks 2 and 3, the bitmap in block 4, data in blocks 5 to 15 and
    the log from block 16 on.  The root directory (inode
    1) is in block 5, the file /a (inode 2, "xyz") in block 6; inode 3 has no
    name any more, its content is in block 7; the program /p is inode 7, in
    block 15.  The examples of the other files run on it, on the log over the
    buffer cache. *)
From S2P Require Import Prelude Mmu Spinlock Strings Bytes BlockCache Bio Log LogTxn Store LogStore Fs FsBlocks FsInode FsFile.

Definition pad (n : nat) (l : list Z) : list Z := l ++ replicate (n - length l) 0.
Definition dirent_demo (inum : Z) (name : list Z) : list Z := le2 inum ++ pad 14 name.

Definition sb_demo : superblock := Superblock 27 11 8 11.
Definition root_demo : dinode := Dinode T_DIR 0 0 1 64 (5 :: replicate 12 0).
Definition file_demo : dinode := Dinode T_FILE 0 0 1 3 (6 :: replicate 12 0).

Definition orphan_demo : dinode := Dinode T_FILE 0 0 0 1 (7 :: replicate 12 0).

(** A program of one segment: 16 bytes at address 0 of a size of 5000. *)
Definition elf_demo : list Z :=
  le4 0x464C457F ++ replicate 20 0 ++ le4 0 ++ le4 52 ++ replicate 12 0 ++ le2 1 ++ replicate 6 0 ++
  le4 1 ++ le4 84 ++ le4 0 ++ le4 0 ++ le4 16 ++ le4 5000 ++ le4 7 ++ le4 4096 ++ replicate 16 144.
Definition prog_demo : dinode := Dinode T_FILE 0 0 1 100 (15 :: replicate 12 0).

Definition fs_image : list (list Z) :=
  [ pad 512 [];
    pad 512 (le4 27 ++ le4 11 ++ le4 8 ++ le4 11);
    pad 512 (replicate 64 0 ++ dinode_bytes root_demo ++ dinode_bytes file_demo ++ dinode_bytes orphan_demo ++ replicate 192 0 ++ dinode_bytes prog_demo);
    pad 512 [];
    pad 512 [255; 128];
    pad 512 (dirent_demo 1 [46] ++ dirent_demo 1 [46; 46] ++ dirent_demo 2 [97] ++ dirent_demo 7 [112]);
    pad 512 [120; 121; 122];
    pad 512 [111] ] ++ replicate 7 (pad 512 []) ++ [pad 512 elf_demo] ++ replicate 11 (pad 512 []).

Definition log_idle : lst bst := Lst 16 11 false 0 (replicate 10 0) (binit fs_image).
Definition log_fs : lst bst := Lst 16 11 true 0 (replicate 10 0) (binit fs_image).
Definition V_demo : gmap Z (list Z) := list_to_map (zip (seqZ 0 16) fs_image).

(** A fact about each block number follows from a check of all of them. *)
Lemma all_below (P : Z -> bool) n x : forallb P (seqZ 0 n) = true -> 0 <= x < n -> P x = true.
Proof. intros Hall Hx. rewrite forallb_forall in Hall. apply Hall, list_elem_of_In. by apply elem_of_seqZ. Qed.

Lemma some_below {A} (f : Z -> option A) n x :
  forallb (fun t => if f t then true else false) (seqZ 0 n) = true -> 0 <= x < n -> is_Some (f x).
Proof.
  intros Hall Hx. pose proof (all_below (fun t => if f t then true else false) n x Hall Hx) as Hf. simpl in Hf.
  destruct (f x); [by eexists|done].
Qed.

Lemma eq_below {A} `{EqDecision A} (f g : Z -> A) n x :
  forallb (fun t => bool_decide (f t = g t)) (seqZ 0 n) = true -> 0 <= x < n -> f x = g x.
Proof.
  intros Hall Hx. pose proof (all_below (fun t => bool_decide (f t = g t)) n x Hall Hx) as Hf. simpl in Hf.
  by apply bool_decide_eq_true in Hf.
Qed.

Lemma fs_image_blocks : Forall (fun d => length d = 512%nat) fs_image.
Proof. vm_compute. repeat constructor. Qed.

Lemma fs_geometry : geometry 16 11 (rd fs_image).
Proof.
  split_and!; [lia|lia|lia|]. intros i Hi. apply (some_below (rd fs_image) 27); [by vm_compute|lia].
Qed.

#[export] Instance fs_laws : StoreLaws (lst bst) nat := log_store_laws true 16 11 (rd fs_image) [] fs_geometry.
#[export] Instance fs_loggable : Loggable (lst bst) nat := eq_refl.

Lemma V_demo_blocks : blocks_of 16 (rd fs_image) V_demo.
Proof.
  intros t. unfold V_demo. case_decide as Ht.
  - by apply (eq_below (fun t => V_demo !! t) (rd fs_image) 16); [vm_compute|].
  - apply not_elem_of_list_to_map. intros Hin. apply list_elem_of_fmap in Hin as ([x d] & -> & Hin).
    apply elem_of_zip_l, elem_of_seqZ in Hin. simpl in Ht. lia.
Qed.

Lemma fs_at_rest : at_rest 16 11 V_demo [] (rd fs_image) log_idle.
Proof.
  exists (replicate 10 0), (binit fs_image), (pad 512 []). split; [done|]. split; [apply binit_quiet, fs_image_blocks|].
  split; [done|]. split; [apply V_demo_blocks|]. split; [apply fs_geometry|]. split; [done|]. by split_and!.
Qed.

Lemma fs_holds : holds log_fs V_demo ∅ ∅.
Proof. destruct (begin_holds 16 11 _ _ fs_geometry _ _ fs_at_rest) as (s & E & Hh). by injection E as <-. Qed.

Lemma fs_lengths : lengths V_demo.
Proof. intros b d. by apply (holds_length log_fs V_demo ∅ ∅), fs_holds. Qed.

Lemma V_demo_some x : 0 <= x < 16 -> is_Some (V_demo !! x).
Proof. by apply (some_below (fun x => V_demo !! x)); vm_compute. Qed.

Lemma demo_free x : 0 <= x < data_end sb_demo -> used sb_demo V_demo x = false -> 8 <= x < 16.
Proof.
  intros Hx Hu. assert (Hall : used sb_demo V_demo x || ((8 <=? x) && (x <? 16)) = true).
  { by apply (all_below (fun x => used sb_demo V_demo x || ((8 <=? x) && (x <? 16))) 16). }
  rewrite Hu in Hall. simpl in Hall. apply andb_true_iff in Hall. lia.
Qed.

Lemma fs_layout : layout sb_demo V_demo.
Proof.
  split; try done.
  - eexists. split; [reflexivity|reflexivity].
  - intros x Hx Hu. apply V_demo_some. pose proof (demo_free x Hx Hu). lia.
  - intros x Hx. apply V_demo_some. unfold bblock, BBLOCK. simpl in *. change BPB with 4096. rewrite Z.div_small by lia. done.
  - intros x Hx Hu. pose proof (demo_free x Hx Hu). split; [lia|lia| |].
    + intros y Hy. unfold bblock, BBLOCK. simpl in *. change BPB with 4096. rewrite (Z.div_small y) by lia. change (8 / IPB) with 1. lia.
    + intros i Hi. unfold IBLOCK. simpl in *. change IPB with 8. rewrite (Z.div_small i) by lia. lia.
Qed.

(** ** The files of the image *)

Lemma demo_owned a : 5 <= a <= 7 \/ a = 15 -> owned sb_demo V_demo a.
Proof.
  intros Ha. split.
  - simpl. lia.
  - destruct Ha as [Ha| ->]; [by apply (all_below (fun a => used sb_demo V_demo a) 8); [vm_compute|lia]|by vm_compute].
  - split; [lia|lia| |].
    + intros y Hy. unfold bblock, BBLOCK. simpl in *. change BPB with 4096. rewrite (Z.div_small y) by lia.
      change (8 / IPB) with 1. lia.
    + intros i Hi. unfold IBLOCK. simpl in *. change IPB with 8. rewrite (Z.div_small i) by lia. lia.
  - apply V_demo_some. lia.
Qed.

Lemma demo_file_ok a : 5 <= a <= 7 \/ a = 15 -> file_ok sb_demo V_demo (a :: replicate 12 0) {[0 := a]}.
Proof.
  intros Ha. split.
  - done.
  - intros n Hn. apply (eq_below (fun n => fblock V_demo (a :: replicate 12 0) n) (fun n => default 0 (({[0 := a]} : gmap Z Z) !! n)) 140);
      [|done]. assert (a = 5 \/ a = 6 \/ a = 7 \/ a = 15) as [-> | [-> | [-> | ->]]] by lia; by vm_compute.
  - intros n b Hb. apply lookup_singleton_Some in Hb as [<- <-]. split; [by vm_compute|by apply demo_owned].
  - intros n m b Hn Hm. apply lookup_singleton_Some in Hn as [<- _]. by apply lookup_singleton_Some in Hm as [<- _].
  - done.
  - intros _ n Hn. change NDIRECT with 12 in Hn. apply lookup_singleton_ne. lia.
Qed.

Definition i_demo : inode := Inode 1 2 1 true true file_demo.
Definition i_orphan : inode := Inode 1 3 1 false true orphan_demo.
Definition i_root : inode := Inode 1 1 1 true true root_demo.
Definition no_inode : inode := Inode 0 0 0 false false (Dinode 0 0 0 0 0 (replicate 13 0)).
Definition c_demo : icst := Icst (i_demo :: i_root :: replicate 48 no_inode) [].
Definition l_demo : lstate := LState (Cpu 0 0 false true) [Spinlock 0 "icache" None; Spinlock 0 "ftable" None].

Lemma demo_dinode d : d = file_demo \/ d = root_demo \/ d = orphan_demo \/ d = prog_demo -> dinode_ok d.
Proof.
  intros [-> | [-> | [-> | ->]]]; (split; [vm_compute; split; congruence..|reflexivity|]); repeat (apply Forall_cons_2; [vm_compute; split; congruence|]); apply Forall_nil_2.
Qed.

Lemma demo_mapped a n : 0 <= n <= 512 -> mapped_range {[0 := a]} 0 n.
Proof. intros Hn o Ho. change BSIZE with 512. rewrite Z.div_small by lia. eexists. apply lookup_singleton_eq. Qed.

Lemma fs_file : file_inv sb_demo V_demo i_demo {[0 := 6]}.
Proof.
  split; [apply demo_file_ok; lia|by vm_compute|apply demo_mapped; by vm_compute|apply demo_dinode; by left|by vm_compute|simpl; lia|done|done].
Qed.

Lemma fs_root : file_inv sb_demo V_demo i_root {[0 := 5]}.
Proof.
  split; [apply demo_file_ok; lia|by vm_compute|apply demo_mapped; by vm_compute|apply demo_dinode; by right; left|by vm_compute|simpl; lia|done|done].
Qed.

Lemma fs_orphan : file_inv sb_demo V_demo i_orphan {[0 := 7]}.
Proof.
  split; [apply demo_file_ok; lia|by vm_compute|apply demo_mapped; by vm_compute|apply demo_dinode; by right; right; left|by vm_compute|simpl; lia|done|done].
Qed.

Definition i_prog : inode := Inode 1 7 1 false true prog_demo.

Lemma fs_prog : file_inv sb_demo V_demo i_prog {[0 := 15]}.
Proof.
  split; [apply demo_file_ok; lia|by vm_compute|apply demo_mapped; by vm_compute|apply demo_dinode; by right; right; right|by vm_compute|simpl; lia|done|done].
Qed.
