(* ===== verification/Utils.v ===== *)
(** * Small user programs (cat.c, wc.c, echo.c, ls.c, kill.c, ln.c, mkdir.c, rm.c)

    The loops of the programs over the results of their system calls.  What
    read returns for a descriptor is a list: bytes, or [None] for -1; after it
    comes the end of the file.  [open] gives the list for a name, or [None].
    What a program prints is a list of [out]. *)
From S2P Require Import Prelude Strings Fs.

Inductive out :=
| Bytes (l : list Z)
| Print (fd : Z) (fmt : string) (nums : list Z) (args : list (list Z)).

Abbreviation reads := (list (option (list Z))).

(** ** cat.c *)

(** [cat]: what it writes, and whether it went on (it exits after an error). *)
Fixpoint cat (rs : reads) : list out * bool :=
  match rs with
  | [] | Some [] :: _ => ([], true)
  | Some buf :: rs' => let '(o, ok) := cat rs' in (Bytes buf :: o, ok)
  | None :: _ => ([Print 1 "cat: read error" [] []], false)
  end.

Section Files.
Context (open : list Z -> option reads).

Fixpoint cat_files (args : list (list Z)) : list out :=
  match args with
  | [] => []
  | a :: args' =>
      match open a with
      | None => [Print 1 "cat: cannot open %s" [] [a]]
      | Some rs => let '(o, ok) := cat rs in o ++ (if ok then cat_files args' else [])
      end
  end.

(** main of cat.c; [args] is argv without its first entry. *)
Definition cat_main (stdin : reads) (args : list (list Z)) : list out :=
  match args with [] => (cat stdin).1 | _ => cat_files args end.

(** ** wc.c *)

Record counts := Counts { c_l : Z; c_w : Z; c_c : Z; inword : bool }.

(** strchr of the five characters, which does not find a zero byte. *)
Definition wc_space (b : Z) : bool :=
  match strchr [32; 13; 9; 10; 11; 0] b with Some (Some _) => true | _ => false end.

Definition wc_byte (n : counts) (b : Z) : counts :=
  let c := s32 (c_c n + 1) in
  let l := if b =? 10 then s32 (c_l n + 1) else c_l n in
  if wc_space b then Counts l (c_w n) c false
  else if negb (inword n) then Counts l (s32 (c_w n + 1)) c true
  else Counts l (c_w n) c true.

Fixpoint wc_loop (n : counts) (rs : reads) : option counts :=
  match rs with
  | [] | Some [] :: _ => Some n
  | Some buf :: rs' => wc_loop (foldl wc_byte n buf) rs'
  | None :: _ => None
  end.

Definition wc (rs : reads) (name : list Z) : list out * bool :=
  match wc_loop (Counts 0 0 0 false) rs with
  | Some n => ([Print 1 "%d %d %d %s" [c_l n; c_w n; c_c n] [name]], true)
  | None => ([Print 1 "wc: read error" [] []], false)
  end.

Fixpoint wc_files (args : list (list Z)) : list out :=
  match args with
  | [] => []
  | a :: args' =>
      match open a with
      | None => [Print 1 "cat: cannot open %s" [] [a]]
      | Some rs => let '(o, ok) := wc rs a in o ++ (if ok then wc_files args' else [])
      end
  end.

Definition wc_main (stdin : reads) (args : list (list Z)) : list out :=
  match args with [] => (wc stdin []).1 | _ => wc_files args end.
End Files.

(** ** echo.c *)

Fixpoint echo_main (args : list (list Z)) : list Z :=
  match args with
  | [] => []
  | [a] => a ++ [10]
  | a :: args' => a ++ [32] ++ echo_main args'
  end.

(** ** ls.c: [fmtname] *)

(** The scan back to the last slash: where the last component starts, among the
    first [n] characters. *)
Fixpoint last_component (path : list Z) (n : nat) : option nat :=
  match n with
  | O => Some 0%nat
  | S n' => c ← path !! n'; if c =? 47 then Some n else last_component path n'
  end.

(** The loop starts at the terminator, which is no slash.  [buf] is the static
    buffer of DIRSIZ + 1 zero bytes; the result is a string. *)
Definition fmtname (path : list Z) : option (list Z) :=
  len ← strlen path;
  k ← last_component path len;
  let p := take (len - k) (drop k path) in
  Some (if (DIRSIZ <=? length p)%nat then p else p ++ replicate (DIRSIZ - length p) 32).

(** [ls]: [fstat] and [stat] give type, inode number and size; [dirents] are the
    entries that read returns, inode number and name. *)
Section Ls.
Context (opens : list Z -> bool) (fstat stat : list Z -> option (Z * Z * Z)).
Context (dirents : list Z -> list (Z * list Z)).

Definition ls_line (path : list Z) (st : Z * Z * Z) : option out :=
  let '(type, ino, size) := st in
  name ← fmtname (path ++ [0]);
  Some (Print 1 "%s %d %d %d" [type; ino; size] [name]).

(** The loop over the directory; [buf] holds the path and a slash. *)
Fixpoint ls_entries (buf : list Z) (des : list (Z * list Z)) : option (list out) :=
  match des with
  | [] => Some []
  | (inum, name) :: des' =>
      if inum =? 0 then ls_entries buf des' else
      let file := buf ++ cut (name ++ [0]) in
      line ← match stat file with
             | None => Some (Print 1 "ls: cannot stat %s" [] [file])
             | Some st => ls_line file st
             end;
      rest ← ls_entries buf des';
      Some (line :: rest)
  end.

Definition ls (path : list Z) : option (list out) :=
  if negb (opens path) then Some [Print 2 "ls: cannot open %s" [] [path]] else
  match fstat path with
  | None => Some [Print 2 "ls: cannot stat %s" [] [path]]
  | Some (type, ino, size) =>
      if type =? T_FILE then l ← ls_line path (type, ino, size); Some [l]
      else if type =? T_DIR then
        if (512 <? length path + 1 + DIRSIZ + 1)%nat then Some [Print 1 "ls: path too long" [] []]
        else ls_entries (path ++ [47]) (dirents path)
      else Some []
  end.

Fixpoint ls_all (args : list (list Z)) : option (list out) :=
  match args with
  | [] => Some []
  | a :: args' => o ← ls a; r ← ls_all args'; Some (o ++ r)
  end.
Definition ls_main (args : list (list Z)) : option (list out) :=
  match args with [] => ls [46] | _ => ls_all args end.
End Ls.

(** ** kill.c, ln.c, mkdir.c, rm.c *)

(** The arguments of the calls of kill. *)
Definition kill_main (args : list (list Z)) : option (list Z) := mapM atoi args.

Definition ln_main (link : list Z -> list Z -> Z) (args : list (list Z)) : list out :=
  match args with
  | [o; n] => if link o n <? 0 then [Print 2 "link %s %s: failed" [] [o; n]] else []
  | _ => [Print 2 "Usage: ln old new" [] []]
  end.

Section Each.
(** mkdir or unlink on a state of its own. *)
Context {S : Type} (call : list Z -> S -> Z * S) (usage failed : string).

Fixpoint each (args : list (list Z)) (s : S) : list out * S :=
  match args with
  | [] => ([], s)
  | a :: args' =>
      let '(r, s1) := call a s in
      if r <? 0 then ([Print 2 failed [] [a]], s1) else each args' s1
  end.

Definition each_main (args : list (list Z)) (s : S) : list out * S :=
  match args with [] => ([Print 2 usage [] []], s) | _ => each args s end.
End Each.

Definition mkdir_main {S} (mkdir : list Z -> S -> Z * S) : list (list Z) -> S -> list out * S :=
  each_main mkdir "Usage: mkdir files..." "mkdir: %s failed to create".
Definition rm_main {S} (unlink : list Z -> S -> Z * S) : list (list Z) -> S -> list out * S :=
  each_main unlink "Usage: rm files..." "rm: %s failed to delete".

(** ** What cat and wc do with the bytes *)

(** The bytes read before the end of the file or an error. *)
Fixpoint content (rs : reads) : list Z :=
  match rs with Some (b :: buf) :: rs' => (b :: buf) ++ content rs' | _ => [] end.
(** No read fails before the end of the file. *)
Fixpoint readable (rs : reads) : bool :=
  match rs with [] | Some [] :: _ => true | Some _ :: rs' => readable rs' | None :: _ => false end.

(** What goes to the standard output as it is. *)
Definition copied (o : list out) : list Z :=
  o ≫= fun x => match x with Bytes l => l | Print _ _ _ _ => [] end.

Lemma cat_copies rs : copied (cat rs).1 = content rs /\ (cat rs).2 = readable rs.
Proof.
  induction rs as [|[[|b buf]|] rs IH]; try done. cbn. destruct (cat rs) as [o ok]. cbn in *.
  destruct IH as [-> ->]. done.
Qed.

(** The number of words: places where a word starts. *)
Fixpoint words_from (inside : bool) (l : list Z) : Z :=
  match l with
  | [] => 0
  | b :: l => (if negb (wc_space b) && negb inside then 1 else 0) + words_from (negb (wc_space b)) l
  end.
Definition lines (l : list Z) : Z := Z.of_nat (length (filter (fun b => b = 10) l)).

Lemma s32_add z k : s32 (s32 z + k) = s32 (z + k).
Proof.
  unfold s32. f_equal. replace ((z + 2 ^ 31) mod 2 ^ 32 - 2 ^ 31 + k + 2 ^ 31) with ((z + 2 ^ 31) mod 2 ^ 32 + k) by lia.
  rewrite Zplus_mod_idemp_l. f_equal. lia.
Qed.

Lemma wc_byte_step x a b c i :
  wc_byte (Counts (s32 a) (s32 b) (s32 c) i) x =
  Counts (s32 (a + if x =? 10 then 1 else 0)) (s32 (b + if negb (wc_space x) && negb i then 1 else 0))
    (s32 (c + 1)) (negb (wc_space x)).
Proof.
  unfold wc_byte. cbn. rewrite !s32_add.
  destruct (x =? 10), (wc_space x), i; cbn; by rewrite ?Z.add_0_r.
Qed.

Lemma wc_bytes l a b c i :
  foldl wc_byte (Counts (s32 a) (s32 b) (s32 c) i) l =
  Counts (s32 (a + lines l)) (s32 (b + words_from i l)) (s32 (c + Z.of_nat (length l)))
    (match last l with Some x => negb (wc_space x) | None => i end).
Proof.
  revert a b c i. induction l as [|x l IH]; intros a b c i.
  { cbn. by rewrite !Z.add_0_r. }
  rewrite last_cons. cbn [foldl]. rewrite wc_byte_step, IH. f_equal; [f_equal..|by destruct (last l)].
  - unfold lines. rewrite filter_cons.
    destruct (Z.eqb_spec x 10); [rewrite decide_True by done|rewrite decide_False by done]; cbn [length]; lia.
  - cbn [words_from]. lia.
  - cbn [length]. lia.
Qed.

(** [wc] counts the lines, words and characters of what it reads, however the
    reads cut it up; the counts are taken modulo 2^32. *)
Theorem wc_counts rs name :
  readable rs = true ->
  wc rs name = ([Print 1 "%d %d %d %s" [s32 (lines (content rs)); s32 (words_from false (content rs));
                   s32 (Z.of_nat (length (content rs)))] [name]], true).
Proof.
  intros Hr. unfold wc.
  assert (G : forall a b c i, wc_loop (Counts (s32 a) (s32 b) (s32 c) i) rs =
    Some (foldl wc_byte (Counts (s32 a) (s32 b) (s32 c) i) (content rs))).
  { induction rs as [|[[|x buf]|] rs IH]; intros a b c i; try done.
    cbn [wc_loop content]. rewrite foldl_app, wc_bytes. by apply IH. }
  specialize (G 0 0 0 false). change (s32 0) with 0 in G. rewrite G.
  pose proof (wc_bytes (content rs) 0 0 0 false) as E. change (s32 0) with 0 in E. by rewrite E.
Qed.

(** ** The names that ls prints *)

Definition pad (name : list Z) : list Z :=
  if (DIRSIZ <=? length name)%nat then name else name ++ replicate (DIRSIZ - length name) 32.

Lemma last_component_find pre name rest :
  47 ∉ name ->
  last_component (pre ++ [47] ++ name ++ rest) (length pre + 1 + length name) = Some (length pre + 1)%nat.
Proof.
  intros Hn. revert rest. induction name as [|x name IH] using rev_ind; intros rest.
  - cbn [length]. rewrite Nat.add_0_r, Nat.add_1_r. cbn [last_component].
    change ([47] ++ [] ++ rest) with (47 :: rest). rewrite list_lookup_middle by done. done.
  - rewrite length_app. cbn [length]. replace (length pre + 1 + (length name + 1))%nat with
      (S (length pre + 1 + length name)) by lia. cbn [last_component].
    assert (E : (pre ++ [47] ++ (name ++ [x]) ++ rest) !! (length pre + 1 + length name)%nat = Some x).
    { rewrite lookup_app_r by lia. replace (length pre + 1 + length name - length pre)%nat with (S (length name)) by lia.
      change (([47] ++ (name ++ [x]) ++ rest) !! S (length name)) with (((name ++ [x]) ++ rest) !! length name).
      rewrite <- app_assoc. by apply list_lookup_middle. }
    rewrite E. cbn. rewrite not_elem_of_app, list_elem_of_singleton in Hn. destruct Hn as [Hn Hx].
    destruct (Z.eqb_spec x 47); [congruence|]. rewrite <- app_assoc. by apply IH.
Qed.

Lemma strlen_clean l rest : 0 ∉ l -> strlen (l ++ 0 :: rest) = Some (length l).
Proof.
  induction l as [|x l IH]; intros Hn; [done|]. apply not_elem_of_cons in Hn as [Hx Hn]. cbn.
  rewrite (proj2 (Z.eqb_neq x 0)) by done. by rewrite IH.
Qed.

(** [fmtname] gives the part after the last slash, padded to the width of a
    directory entry. *)
Lemma fmtname_component pre name :
  0 ∉ pre -> 0 ∉ name -> 47 ∉ name -> fmtname (pre ++ [47] ++ name ++ [0]) = Some (pad name).
Proof.
  intros Hp Hn Hs. unfold fmtname.
  assert (E : strlen (pre ++ [47] ++ name ++ [0]) = Some (length pre + 1 + length name)%nat).
  { rewrite !app_assoc, strlen_clean; [f_equal; rewrite !length_app; done|].
    rewrite !not_elem_of_app, list_elem_of_singleton. done. }
  rewrite E. cbn [mbind option_bind]. rewrite last_component_find by done. cbn [mbind option_bind].
  rewrite app_assoc, drop_app_length' by (rewrite length_app; done).
  replace (length pre + 1 + length name - (length pre + 1))%nat with (length name) by lia.
  by rewrite take_app_length.
Qed.

Lemma cut_no_zero l : 0 ∉ cut l.
Proof.
  induction l as [|x l IH]; [apply not_elem_of_nil|]. cbn. destruct (Z.eqb_spec x 0); [apply not_elem_of_nil|].
  by apply not_elem_of_cons.
Qed.

(** [ls] of a directory prints a line for every entry in use, in order, with
    the entry's name. *)
Theorem ls_lists opens fstat stat dirents path ino size :
  opens path = true -> fstat path = Some (T_DIR, ino, size) -> (length path + 16 <= 512)%nat -> 0 ∉ path ->
  Forall (fun de => 47 ∉ cut (de.2 ++ [0])) (dirents path) ->
  (forall de, de ∈ dirents path -> de.1 <> 0 -> is_Some (stat (path ++ [47] ++ cut (de.2 ++ [0])))) ->
  ls opens fstat stat dirents path = Some (omap (fun de =>
    if de.1 =? 0 then None else
    '(t, i, s) ← stat (path ++ [47] ++ cut (de.2 ++ [0]));
    Some (Print 1 "%s %d %d %d" [t; i; s] [pad (cut (de.2 ++ [0]))])) (dirents path)).
Proof.
  intros Ho Hf Hl Hp Hc Hs. unfold ls. rewrite Ho, Hf. cbn [negb]. change (T_DIR =? T_FILE) with false.
  change (T_DIR =? T_DIR) with true. cbv iota. unfold DIRSIZ. destruct (Nat.ltb_spec 512 (length path + 1 + 14 + 1)); [lia|].
  induction (dirents path) as [|[inum name] des IH]; [done|]. cbn [ls_entries omap list_omap fst snd].
  apply Forall_cons in Hc as [Hc0 Hc]. cbn in Hc0.
  rewrite IH by (try done; intros de Hde; apply Hs; by right).
  destruct (Z.eqb_spec inum 0) as [E|E]; [done|].
  destruct (Hs (inum, name) ltac:(left) E) as [[[t i] sz] Est]. cbn [fst snd] in Est.
  assert (Est' : stat ((path ++ [47]) ++ cut (name ++ [0])) = Some (t, i, sz)) by (by rewrite <- app_assoc).
  rewrite Est', Est. cbn [mbind option_bind ls_line].
  assert (0 ∉ cut (name ++ [0])) as Hz by (apply cut_no_zero).
  rewrite <- !app_assoc, fmtname_component by done. done.
Qed.
