(* ===== verification/FileSpec.v ===== *)
(** * Writing through the file table (file.c)

    An open file as its users see it ([opened]), the rounds of [filewrite], and
    that a round of at most [maxwrite] bytes is one transaction that fits into
    the log and is atomic with respect to crashes. *)
From S2P Require Import Prelude Mmu Spinlock Strings Bytes BlockCache Bio Log LogTxn Store LogStore Fs FsBlocks FsInode FsFile FsIcache FsTrunc FsImage Pipe File.

(** ** The log is large enough *)

(** The blocks of one round of [filewrite]: at most four blocks of the file,
    the bitmap block, the indirect block and the inode's block. *)
Lemma chunk_room {H} sb addrs off n :
  0 <= off -> 0 <= n <= maxwrite -> room (∅ : gmap Z (H * bool)) (base sb addrs ∅) (touched off n + need addrs + 2).
Proof.
  change maxwrite with 1536. intros Ho Hn. unfold room, base, need. rewrite dom_empty_L, union_empty_l_L.
  assert (Ht : (touched off n <= 4)%nat).
  { unfold touched. change BSIZE with 512. pose proof (Z.mod_pos_bound off 512 ltac:(lia)).
    assert ((off mod 512 + n + 511) / 512 <= 4) by (apply Z.lt_succ_r, Z.div_lt_upper_bound; lia). lia. }
  change NBUF with 10%nat. destruct (ind addrs =? 0).
  - rewrite union_empty_r_L, size_singleton. lia.
  - pose proof (size_add (ind addrs) ({[bblock sb 0]} ∪ ∅)) as Hs. rewrite union_empty_r_L, size_singleton in Hs. rewrite union_empty_r_L. lia.
Qed.

(** ** Running the operations *)

Section Run.
Context {B H : Type} `{BlockCacheLaws B H}.
Implicit Types (k : fstate B).

Lemma onfs_run {A} (m : M (fs (lst B)) A) k a y : m (fsys k) = Ret a y -> onfs m k = Ret a (set_fsys y k).
Proof. intros E. unfold onfs, zoom. by rewrite E. Qed.

Lemma get_file_run k f x : ftable k !! f = Some x -> get_file f k = Ret x k.
Proof. intros E. unfold get_file, gets_opt. by rewrite E. Qed.

Lemma upd_file_run k f x g : ftable k !! f = Some x -> upd_file f g k = Ret tt (set_ftable (<[f := g x]> (ftable k)) k).
Proof. intros E. unfold upd_file, modify. by rewrite (alter_insert g _ f x E). Qed.
End Run.

(** ** A write is a sequence of transactions *)

Section Write.
Context {B H : Type} `{BlockCacheLaws B H}.
Context (st sz : Z) (sb : superblock) (single : sb_size sb <= BPB) (devs : Z -> @devsw (lst B)).

(** Between transactions: entry [f] of the file table is [x], an open inode
    with number [inum] and content [C] on a disk with the blocks [V]; [m] free
    blocks are not needed for an indirect block. *)
Definition opened (k : fstate B) (V : gmap Z (list Z)) (W : list (Z * list Z)) (D : Z -> option (list Z))
    (f : nat) (x : file) (inum : Z) (C : list Z) (m : nat) : Prop :=
  exists l c y i i1 bm, fsys k = Fs l c y /\ ftable k !! f = Some x /\ 0 <= f_off x <= i_size i1 /\
    unlocked 0 l /\ inodes c !! f_ip x = Some i /\ 1 <= i_ref i /\ i_busy i = false /\ i_dev i = ROOTDEV /\
    locked_inode V i = Some i1 /\ i_type i1 <> 0 /\ file_inv sb V i1 bm /\ layout sb V /\ lengths V /\
    at_rest st sz V W D y /\ i_inum i1 = inum /\ contents V i1 bm = C /\ (m + need (i_addrs i1) <= size (free_set sb V))%nat.

(** What a write through [f] leaves alone: the other files and the pipes. *)
Definition others_kept (f : nat) (k k' : fstate B) : Prop :=
  (forall g, g <> f -> ftable k' !! g = ftable k !! g) /\ pipes k' = pipes k /\ pages k' = pages k /\ pwoken k' = pwoken k.

Lemma locked_facts V i i1 : locked_inode V i = Some i1 ->
  i_valid i1 = true /\ i_busy i1 = true /\ i_ref i1 = i_ref i /\ i_dev i1 = i_dev i.
Proof.
  unfold locked_inode. intros E. destruct (i_valid i); [by injection E as <-|].
  destruct (disk_inode V (i_inum i)); [|done]. by injection E as <-.
Qed.

Lemma chunk_touched off n : 0 < n <= maxwrite -> (touched off n <= 4)%nat.
Proof.
  change maxwrite with 1536. intros Hn. unfold touched. change BSIZE with 512. pose proof (Z.mod_pos_bound off 512 ltac:(lia)).
  assert ((off mod 512 + n + 511) / 512 <= 4) by (apply Z.lt_succ_r, Z.div_lt_upper_bound; lia). lia.
Qed.

Lemma write_chunk_run k V W D f x inum C m src :
  let n := Z.of_nat (length src) in
  opened k V W D f x inum C m -> 0 < n <= maxwrite -> f_off x + n <= MAXFILE * BSIZE -> (4 <= m)%nat ->
  exists k' V' ws, write_chunk devs f src k = Ret n k' /\
    opened k' V' (W ++ ws) (disk_after D ws) f (set_f_off (f_off x + n) x) inum (splice (Z.to_nat (f_off x)) src C) (m - 4) /\
    atomic_writes st D V ws V' /\ others_kept f k k'.
Proof.
  intros n (l & c & y & i & i1 & bm & Hk & Hx & Hoff & Hl & Hi & Hr & Hb & Hdev & Hli & Hty & Hf & Hlo & Hlen & Hrest & Hin & HC & Hfree) Hn Hmax Hm.
  pose proof (chunk_touched (f_off x) n Hn) as Ht4. assert (Hg : geometry st sz D) by (destruct Hrest as (? & ? & ? & ?); tauto).
  pose (laws := log_store_laws true st sz D W Hg). pose (lg := log_loggable st sz D W Hg : @Loggable _ _ _ laws). unfold write_chunk.
  rewrite (bind_Ret _ _ _ _ _ (get_file_run k f x Hx)). destruct (begin_holds st sz D W Hg y V Hrest) as (y1 & E1 & Hh1).
  unfold begin_op. erewrite bind_Ret by (apply onfs_run; rewrite Hk; apply ons_run; exact E1).
  set (k1 := set_fsys _ k). destruct (locked_facts V i i1 Hli) as (Hv1 & Hb1 & Hr1 & Hd1).
  destruct (ilock_run l c y1 V ∅ (f_ip x) i i1 Hl Hi Hr Hb Hdev Hh1) as (l2 & y2 & E2 & Hs2 & Hh2); [unfold room; vm_compute; lia|done|done|].
  erewrite bind_Ret by (apply onfs_run; exact E2). set (c2 := set_inode (f_ip x) i1 c) in *. set (k2 := set_fsys _ k1).
  rewrite (bind_Ret _ _ _ _ _ (get_file_run k2 f x Hx)).
  assert (Hi2 : inodes c2 !! f_ip x = Some i1) by by eapply set_inode_lookup.
  destruct (writei_run sb single devs l2 c2 y2 V ∅ (f_ip x) i1 bm (f_off x) src Hi2 Hf Hh2 Hlo Hlen)
    as (y3 & V1 & V' & addrs' & bm' & L' & E3 & Hh3 & Hw & Hmap & Hst & Hsz' & Hfr); [lia|done|by apply chunk_room; lia|fold n; lia|].
  fold n in E3, Hmap, Hst, Hfr. set (d' := FsFile.after_write i1 addrs' (f_off x) n) in *.
  erewrite bind_Ret by (apply onfs_run; exact E3). set (c3 := put_d (f_ip x) i1 d' c2) in *. set (k3 := set_fsys _ k2).
  rewrite (proj2 (Z.ltb_lt 0 n)) by lia. cbn [when].
  rewrite (bind_Ret _ _ _ _ _ (upd_file_run k3 f x _ Hx)). rewrite (u32_uint (f_off x + n)) by (unfold uint; change (MAXFILE * BSIZE) with 71680 in *; lia).
  set (k4 := set_ftable _ k3). assert (Hi3 : inodes c3 !! f_ip x = Some (set_i_d d' i1)) by by apply put_d_lookup.
  destruct (iunlock_run l2 c3 y3 (f_ip x) (set_i_d d' i1) (Hs2 _ Hl) Hi3) as (l4 & E4 & Hs4); [simpl; lia|done|].
  erewrite bind_Ret by (apply onfs_run; exact E4). set (c4 := Icst _ _). set (k5 := set_fsys _ k4).
  destruct (commit_holds st sz D W Hg y y3 V V' L' Hrest Hh3 Hsz') as (y5 & ws & E5 & Hrest' & Hat).
  unfold end_op. erewrite bind_Ret by (apply onfs_run; apply ons_run; exact E5).
  destruct (file_after sb single V V1 V' i1 addrs' bm bm' (f_off x) src Hw Hst Hmap Hlo Hf ltac:(lia) Hmax) as (Hlo' & Hlen' & Hf' & HC').
  fold n d' in Hf', HC'. eexists _, V', ws. split; [reflexivity|]. split_and!; [|done|].
  - set (i' := set_i_flags false true (set_i_d d' i1)). exists l4, c4, y5, i', (set_i_flags true true i'), bm'.
    assert (Hi4 : inodes c4 !! f_ip x = Some i').
    { unfold c4. simpl. rewrite Hv1. apply list_lookup_insert_eq. by eapply lookup_lt_Some. }
    assert (Hf4 : file_inv sb V' (set_i_flags true true i') bm') by by eapply file_inv_flags.
    split_and!; try done.
    + simpl. apply list_lookup_insert_eq. by eapply lookup_lt_Some.
    + simpl. lia.
    + change (f_off x + n <= Z.max (i_size i1) (f_off x + n)). lia.
    + by apply Hs4, Hs2.
    + change (1 <= i_ref i1). lia.
    + change (i_dev i1 = ROOTDEV). congruence.
    + change (contents V' (set_i_d d' i1) bm' = splice (Z.to_nat (f_off x)) src C). congruence.
    + change (m - 4 + need addrs' <= size (free_set sb V'))%nat. lia.
  - split_and!; try done. intros g Hgf. simpl. by apply list_lookup_insert_ne.
Qed.

(** *** The rounds of the loop *)

(** The blocks [V] hold a file with inode number [inum] and content [C]. *)
Definition file_has (V : gmap Z (list Z)) (inum : Z) (C : list Z) : Prop :=
  exists i bm, file_inv sb V i bm /\ i_inum i = inum /\ contents V i bm = C.

(** After any number of the disk writes [ws] the disk recovers to one on which
    the file has the content [C] with the first [j] bytes of [src] written at
    [off], for some number [j] of bytes that is a sequence of whole rounds. *)
Definition rounds_written (D : Z -> option (list Z)) (ws : list (Z * list Z)) (inum : Z) (off : nat) (src C : list Z) : Prop :=
  forall k, exists T V j, recovers_to st (disk_after D (take k ws)) T /\ shows st T V /\
    file_has V inum (splice off (take j src) C) /\ (j <= length src)%nat /\
    (Z.of_nat j mod maxwrite = 0 \/ j = length src).

Definition rounds (n : Z) : nat := Z.to_nat ((n + maxwrite - 1) / maxwrite).

Lemma rounds_step n : 0 < n -> rounds n = S (rounds (n - Z.min n maxwrite)).
Proof.
  unfold rounds. change maxwrite with 1536. intros Hn. destruct (Z.le_gt_cases n 1536).
  - rewrite Z.min_l, Z.sub_diag by lia. replace ((n + 1536 - 1) / 1536) with 1; [done|].
    apply Z.div_unique with (n - 1); lia.
  - rewrite Z.min_r by lia. replace (n + 1536 - 1) with (n - 1536 + 1536 - 1 + 1 * 1536) by lia.
    rewrite Z.div_add by lia. assert (0 <= (n - 1536 + 1536 - 1) / 1536) by (apply Z.div_pos; lia). lia.
Qed.

Lemma opened_file k V W D f x inum C m : opened k V W D f x inum C m -> file_has V inum C /\ (Z.to_nat (f_off x) <= length C)%nat.
Proof.
  intros (l & c & y & i & i1 & bm & _ & _ & Ho & _ & _ & _ & _ & _ & _ & _ & Hf & _ & _ & _ & Hin & HC & _).
  split; [by exists i1, bm|]. rewrite <- HC. unfold contents. rewrite length_fbytes. lia.
Qed.

Lemma rounds_now D V inum off src C hd :
  D st = Some hd -> lists hd [] -> shows st D V -> file_has V inum C -> (off <= length C)%nat -> rounds_written D [] inum off src C.
Proof.
  intros Hhd Hl Hs Hf Hoff k. exists D, V, O. rewrite take_nil, take_0. unfold splice. rewrite Nat.add_0_r, app_nil_l, take_drop.
  split_and!; try done; [by eapply recovers_empty|lia|by left].
Qed.

Lemma splice_app (off : nat) (w1 w2 d : list Z) :
  (off <= length d)%nat -> splice (off + length w1) w2 (splice off w1 d) = splice off (w1 ++ w2) d.
Proof.
  intros Hl. unfold splice. assert (Ht : length (take off d) = off) by (rewrite length_take; lia).
  rewrite length_app, (app_assoc (take off d)), take_app_length' by (rewrite length_app, Ht; lia).
  rewrite drop_app_ge by (rewrite length_app, Ht; lia). rewrite length_app, Ht, drop_drop, <- !app_assoc. do 4 f_equal. lia.
Qed.

Lemma rounds_app D V V1 ws1 ws2 inum off src C (n1 : nat) :
  (off <= length C)%nat -> (n1 <= length src)%nat -> Z.of_nat n1 = maxwrite \/ n1 = length src ->
  file_has V inum C -> file_has V1 inum (splice off (take n1 src) C) -> atomic_writes st D V ws1 V1 ->
  rounds_written (disk_after D ws1) ws2 inum (off + n1) (drop n1 src) (splice off (take n1 src) C) ->
  rounds_written D (ws1 ++ ws2) inum off src C.
Proof.
  intros Hoff Hn1 Hc HV HV1 Hat Hrw k. destruct (Nat.le_gt_cases k (length ws1)) as [Hk|Hk].
  - rewrite take_app_le by done. destruct (Hat k) as (T & HT & [Hs|Hs]).
    + exists T, V, O. rewrite take_0. unfold splice at 1. rewrite Nat.add_0_r, app_nil_l, take_drop. split_and!; try done; [lia|by left].
    + exists T, V1, n1. split_and!; try done. destruct Hc as [Hc|Hc]; [left|by right]. rewrite Hc. apply Z.mod_same. done.
  - rewrite take_app_ge by lia. rewrite disk_after_app. destruct (Hrw (k - length ws1)%nat) as (T & V' & j & HT & Hs & Hf & Hj & Hmod).
    rewrite length_drop in Hj, Hmod. exists T, V', (n1 + j)%nat. split_and!; try done; [|lia|].
    + rewrite <- (length_take_le src n1) in Hf at 1 by done. rewrite splice_app in Hf by done. rewrite <- (take_drop n1 src) at 1.
      rewrite take_app_ge by (rewrite length_take; lia). rewrite length_take, Nat.min_l by done.
      by replace (n1 + j - n1)%nat with j by lia.
    + destruct Hc as [Hc|Hc]; [|right; lia]. destruct Hmod as [Hm|Hm]; [left|right; lia].
      rewrite Nat2Z.inj_add, Hc, <- Z.add_mod_idemp_l, Z.mod_same, Z.add_0_l by done. done.
Qed.

Lemma others_kept_trans f k1 k2 k3 : others_kept f k1 k2 -> others_kept f k2 k3 -> others_kept f k1 k3.
Proof. intros (A1 & A2 & A3 & A4) (B1 & B2 & B3 & B4). split_and!; try congruence. intros g Hg. rewrite B1, A1; done. Qed.

Lemma filewrite_loop_run fuel k V W D f x inum C m src i n :
  opened k V W D f x inum C m -> Z.of_nat (length src) = n - i -> 0 <= i <= n -> f_off x + (n - i) <= MAXFILE * BSIZE ->
  (4 * rounds (n - i) <= m)%nat -> (Z.to_nat (n - i) < fuel)%nat ->
  exists k' V' ws, filewrite_loop devs fuel f src i n k = Ret n k' /\
    opened k' V' (W ++ ws) (disk_after D ws) f (set_f_off (f_off x + (n - i)) x) inum (splice (Z.to_nat (f_off x)) src C) (m - 4 * rounds (n - i)) /\
    rounds_written D ws inum (Z.to_nat (f_off x)) src C /\ others_kept f k k'.
Proof.
  revert k V W D x C m src i. induction fuel as [|fuel IH]; intros k V W D x C m src i Hop Hlen Hi Hmax Hm Hfu; [lia|].
  destruct (opened_file _ _ _ _ _ _ _ _ _ Hop) as [HV HoC]. cbn [filewrite_loop].
  destruct (Z.ltb_spec i n) as [Hin|Hin]; cbn [negb].
  - set (n1 := Z.min (n - i) maxwrite) in *. assert (Hn1 : 0 < n1 <= maxwrite) by (change maxwrite with 1536 in *; lia).
    set (w := take (Z.to_nat n1) src). assert (Hw : Z.of_nat (length w) = n1) by (unfold w; rewrite length_take; lia).
    rewrite rounds_step in Hm |- * by lia. fold n1 in Hm |- *.
    destruct (write_chunk_run k V W D f x inum C m w Hop) as (k1 & V1 & ws1 & E1 & Hop1 & Hat & Hk1); [lia|lia|lia|].
    rewrite (bind_Ret _ _ _ _ _ E1), Hw, (proj2 (Z.ltb_ge n1 0)), Z.eqb_refl by lia. cbn [negb]. rewrite Hw in Hop1.
    destruct (IH k1 V1 _ _ _ _ _ (drop (Z.to_nat n1) src) (i + n1) Hop1) as (k2 & V2 & ws2 & E2 & Hop2 & Hrw & Hk2).
    { rewrite length_drop. lia. }
    { lia. }
    { simpl. lia. }
    { replace (n - (i + n1)) with (n - i - n1) by lia. lia. }
    { lia. }
    exists k2, V2, (ws1 ++ ws2). simpl f_off in *. replace (n - (i + n1)) with (n - i - n1) in Hop2 by lia.
    rewrite Z2Nat.inj_add in Hop2, Hrw by (destruct Hop as (? & ? & ? & ? & ? & ? & ? & ? & ? & ?); lia).
    split_and!; [done| | |by eapply others_kept_trans].
    + rewrite app_assoc, disk_after_app. assert (Hws : Z.to_nat n1 = length w) by lia.
      rewrite Hws in Hop2 at 1. rewrite splice_app in Hop2 by done. unfold w in Hop2. rewrite take_drop in Hop2.
      replace (f_off x + n1 + (n - i - n1)) with (f_off x + (n - i)) in Hop2 by lia.
      replace (m - 4 * S (rounds (n - i - n1)))%nat with (m - 4 - 4 * rounds (n - i - n1))%nat by lia. done.
    + apply (rounds_app D V V1 ws1 ws2 inum _ src C (Z.to_nat n1)); try done; [lia|lia|].
      by destruct (opened_file _ _ _ _ _ _ _ _ _ Hop1).
  - assert (i = n) as -> by lia. destruct src; [|simpl in Hlen; lia]. exists k, V, []. rewrite Z.sub_diag, Z.add_0_r, app_nil_r.
    unfold splice. rewrite Nat.add_0_r, app_nil_l, take_drop. replace (m - 4 * rounds 0)%nat with m by (unfold rounds; vm_compute (_ / _); lia).
    replace (set_f_off (f_off x) x) with x by by destruct x. split_and!; try done.
    destruct Hop as (l & c & y & j & i1 & bm & _ & _ & _ & _ & _ & _ & _ & _ & _ & _ & _ & _ & _ & (ss & b & hd & _ & _ & _ & HVD & _ & Hhd & Hl) & _ & _ & _).
    apply (rounds_now D V inum _ [] C hd); try done. intros t Ht. by rewrite HVD, decide_True.
Qed.
End Write.
