(* ===== verification/FsTheorems.v ===== *)
(** * Reading and writing files: the theorems

    What [readi] and [writei] of fs.c do to the bytes of a file, to the other
    files, to the bitmap and to the inode on the disk, against any store with
    [StoreLaws], and examples with the log of log.c as the store. *)
From S2P Require Import Prelude Mmu Spinlock Strings Bytes BlockCache Bio Log LogTxn Store LogStore Fs FsBlocks FsInode FsFile FsImage.

Section Store.
Context {S H : Type} `{StoreLaws S H} `{!Loggable S H}.

(** [readi] returns the bytes of the file from [off] on, at most [n] of
    them and none behind the end of the file, and changes no block; when the
    offset is behind the end or off + n overflows 32 bits the result is -1. *)
Theorem readi_contents sb devs l c s V L ip i bm off n :
  inodes c !! ip = Some i -> file_inv sb V i bm -> holds s V ∅ L -> layout sb V -> lengths V ->
  room (∅ : gmap Z (H * bool)) L 1 -> uint off -> uint n ->
  exists s',
    readi devs ip off n (Fs l c s) =
      Ret (if (off <=? i_size i) && (off + n <? 2 ^ 32)
           then Some (take (Z.to_nat n) (drop (Z.to_nat off) (contents V i bm))) else None) (Fs l c s') /\
    holds s' V ∅ L.
Proof.
  intros Hi Hf Hh Hlo Hlen Hr Ho Hn.
  destruct (Z.leb_spec off (i_size i)) as [Hs|Hs]; [destruct (Z.ltb_spec (off + n) (2 ^ 32)) as [Hov|Hov]|]; cbn [andb].
  - apply readi_run with sb; unfold uint in *; try done; lia.
  - exists s. split; [|done]. unfold readi. rewrite (bind_Ret _ _ _ _ _ (get_inode_run l c s ip i Hi)).
    rewrite (proj2 (Z.eqb_neq _ _) (fi_type _ _ _ _ Hf)).
    assert (u32 (off + n) < off).
    { unfold u32, uint in *. rewrite <- (Z.mod_add (off + n) (-1)) by lia. rewrite Z.mod_small; lia. }
    rewrite (proj2 (Z.ltb_lt (u32 (off + n)) off)) by done. by rewrite orb_true_r.
  - exists s. split; [|done]. unfold readi. rewrite (bind_Ret _ _ _ _ _ (get_inode_run l c s ip i Hi)).
    rewrite (proj2 (Z.eqb_neq _ _) (fi_type _ _ _ _ Hf)). by rewrite (proj2 (Z.ltb_lt (i_size i) off)).
Qed.

(** C7: [writei] at an offset within the file stores the bytes at that offset,
    extends the file when they reach behind its end, and leaves every other
    byte of the file; it allocates what is missing, keeps the file system's
    layout and leaves the inode on the disk equal to the one in the cache. *)
Theorem writei_contents sb devs l c s V L ip i bm off src :
  let n := Z.of_nat (length src) in let k := (touched off n + need (i_addrs i))%nat in
  sb_size sb <= BPB ->
  inodes c !! ip = Some i -> file_inv sb V i bm -> holds s V ∅ L -> layout sb V -> lengths V ->
  0 <= off <= i_size i -> off + n <= MAXFILE * BSIZE ->
  room (∅ : gmap Z (H * bool)) (base sb (i_addrs i) L) (k + 2) -> (k <= size (free_set sb V))%nat ->
  exists s' V' d' bm' L', let i' := set_i_d d' i in
    writei devs ip src off (Fs l c s) = Ret n (Fs l (Icst (<[ip := i']> (inodes c)) (woken c)) s') /\
    holds s' V' ∅ L' /\ layout sb V' /\ file_inv sb V' i' bm' /\
    contents V' i' bm' = splice (Z.to_nat off) src (contents V i bm) /\
    d_type d' = i_type i /\ d_nlink d' = i_nlink i /\ d_size d' = Z.max (i_size i) (off + n).
Proof.
  intros n k single Hi Hf Hh Hlo Hlen Ho Hm Hr Hfree.
  destruct (writei_run sb single devs l c s V L ip i bm off src Hi Hf Hh Hlo Hlen Ho Hm)
    as (s' & V1 & V' & addrs' & bm' & L' & E & Hh' & Hw & Hmap & Hst & _); [done|done|].
  destruct (file_after sb single V V1 V' i addrs' bm bm' off src Hw Hst Hmap Hlo Hf Ho Hm) as (Hlo' & _ & Hf' & HC).
  eexists s', V', _, bm', L'. cbv zeta. split; [exact E|]. by split_and!.
Qed.

(** [writei] of one file leaves every other file alone: its inode on the
    disk, its block map and its bytes. *)
Theorem writei_other_files sb devs l c s V L ip i bm off src i2 bm2 :
  let n := Z.of_nat (length src) in let k := (touched off n + need (i_addrs i))%nat in
  sb_size sb <= BPB ->
  inodes c !! ip = Some i -> file_inv sb V i bm -> holds s V ∅ L -> layout sb V -> lengths V ->
  0 <= off <= i_size i -> off + n <= MAXFILE * BSIZE ->
  room (∅ : gmap Z (H * bool)) (base sb (i_addrs i) L) (k + 2) -> (k <= size (free_set sb V))%nat ->
  file_inv sb V i2 bm2 -> i_inum i2 <> i_inum i ->
  (forall a, blocks (i_addrs i) bm a -> ~ blocks (i_addrs i2) bm2 a) ->
  exists c' s' V' L', writei devs ip src off (Fs l c s) = Ret n (Fs l c' s') /\ holds s' V' ∅ L' /\
    file_inv sb V' i2 bm2 /\ contents V' i2 bm2 = contents V i2 bm2.
Proof.
  intros n k single Hi Hf Hh Hlo Hlen Ho Hm Hr Hfree Hf2 Hne Hap.
  destruct (writei_run sb single devs l c s V L ip i bm off src Hi Hf Hh Hlo Hlen Ho Hm)
    as (s' & V1 & V' & addrs' & bm' & L' & E & Hh' & Hw & Hmap & Hst & _); [done|done|].
  pose proof (other_after sb single V V1 V' i _ addrs' bm bm' off src i2 bm2 Hw Hst) as Hoth.
  eexists _, s', V', L'. split; [exact E|]. split; [done|]. apply Hoth; try done.
  eapply after_write_ok; [exact single|apply Hf|apply Hw|lia|lia|done|apply Hf].
Qed.
End Store.

(** [writei] returns -1 and changes nothing at all when the offset is
    behind the end of the file, when off + n overflows, or when the file would
    become larger than MAXFILE blocks. *)
Theorem writei_refused {S H} `{Store S H} devs (s : fs S) ip i off src :
  let n := Z.of_nat (length src) in
  inodes (ic s) !! ip = Some i -> i_type i <> T_DEV -> uint off -> n < 2 ^ 31 ->
  i_size i < off \/ 2 ^ 32 <= off + n \/ MAXFILE * BSIZE < off + n ->
  writei devs ip src off s = Ret (-1) s.
Proof.
  intros n Hi Hty Ho Hn Hc. destruct s as [l c s]. unfold writei. rewrite (bind_Ret _ _ _ _ _ (get_inode_run l c s ip i Hi)).
  rewrite (proj2 (Z.eqb_neq _ _) Hty). fold n. unfold uint in Ho.
  destruct (Z.ltb_spec (i_size i) off) as [|Hs]; [done|]. destruct (decide (2 ^ 32 <= off + n)) as [Hov|Hov].
  - rewrite (proj2 (Z.ltb_lt (u32 (off + n)) off)); [done|]. unfold u32.
    rewrite <- (Z.mod_add (off + n) (-1)) by lia. rewrite Z.mod_small; lia.
  - rewrite (u32_uint (off + n)) by (unfold uint; lia). rewrite (proj2 (Z.ltb_ge (off + n) off)) by lia. cbn [orb].
    rewrite (proj2 (Z.ltb_lt (MAXFILE * BSIZE) (off + n))); [done|]. lia.
Qed.

(** ** Examples on the image *)

Definition no_devs : Z -> @devsw (lst bst) := fun _ => Devsw None None.

Lemma demo_contents : contents V_demo i_demo {[0 := 6]} = [120; 121; 122].
Proof. by vm_compute. Qed.

Lemma readi_contents_witness : exists s',
  readi no_devs 0 1 10 (Fs l_demo c_demo log_fs) = Ret (Some [121; 122]) (Fs l_demo c_demo s').
Proof.
  destruct (readi_contents sb_demo no_devs l_demo c_demo log_fs V_demo ∅ 0 i_demo {[0 := 6]} 1 10) as (s' & E & _).
  - reflexivity.
  - apply fs_file.
  - apply fs_holds.
  - apply fs_layout.
  - apply fs_lengths.
  - vm_compute. lia.
  - split; lia.
  - split; lia.
  - exists s'. rewrite E, demo_contents. reflexivity.
Defined.

Lemma writei_contents_witness : exists c' s' V' i' bm',
  writei no_devs 0 [1; 2; 3] 2 (Fs l_demo c_demo log_fs) = Ret 3 (Fs l_demo c' s') /\
  file_inv sb_demo V' i' bm' /\ contents V' i' bm' = [120; 121; 1; 2; 3].
Proof.
  destruct (writei_contents sb_demo no_devs l_demo c_demo log_fs V_demo ∅ 0 i_demo {[0 := 6]} 2 [1; 2; 3])
    as (s' & V' & d' & bm' & L' & E & _ & _ & Hf & HC & _).
  - vm_compute. congruence.
  - reflexivity.
  - apply fs_file.
  - apply fs_holds.
  - apply fs_layout.
  - apply fs_lengths.
  - vm_compute. split; congruence.
  - vm_compute. congruence.
  - vm_compute. lia.
  - vm_compute. lia.
  - eexists _, s', V', _, bm'. split; [exact E|]. split; [exact Hf|]. rewrite HC, demo_contents. reflexivity.
Defined.

Lemma writei_other_files_witness : exists c' s' V',
  writei no_devs 0 [1; 2; 3] 2 (Fs l_demo c_demo log_fs) = Ret 3 (Fs l_demo c' s') /\
  file_inv sb_demo V' i_root {[0 := 5]} /\ contents V' i_root {[0 := 5]} = contents V_demo i_root {[0 := 5]}.
Proof.
  destruct (writei_other_files sb_demo no_devs l_demo c_demo log_fs V_demo ∅ 0 i_demo {[0 := 6]} 2 [1; 2; 3] i_root {[0 := 5]})
    as (c' & s' & V' & L' & E & _ & Hf & HC).
  - vm_compute. congruence.
  - reflexivity.
  - apply fs_file.
  - apply fs_holds.
  - apply fs_layout.
  - apply fs_lengths.
  - vm_compute. split; congruence.
  - vm_compute. congruence.
  - vm_compute. lia.
  - vm_compute. lia.
  - apply fs_root.
  - vm_compute. congruence.
  - intros a [[n Hn]|[En Hn]] [[m Hm]|[Em Hm]]; [|vm_compute in Em; congruence|vm_compute in En; congruence..].
    apply lookup_singleton_Some in Hn as [_ <-]. apply lookup_singleton_Some in Hm as [_ Hm]. discriminate.
  - exists c', s', V'. split; [exact E|]. split; [exact Hf|exact HC].
Defined.

Lemma writei_refused_witness :
  writei no_devs 0 [1] 4 (Fs l_demo c_demo log_fs) = Ret (-1) (Fs l_demo c_demo log_fs).
Proof.
  apply (writei_refused no_devs (Fs l_demo c_demo log_fs) 0 i_demo 4 [1]).
  - reflexivity.
  - vm_compute. congruence.
  - split; lia.
  - vm_compute. reflexivity.
  - left. vm_compute. reflexivity.
Defined.

Lemma demo_first_free : first_free sb_demo V_demo 8.
Proof.
  split_and!; [lia|by vm_compute|by vm_compute|]. intros y Hy. apply (all_below (used sb_demo V_demo) 8); [by vm_compute|lia].
Qed.

Lemma balloc_first_free_witness : exists x, first_free sb_demo V_demo x /\
  exists s', balloc ROOTDEV (Fs l_demo c_demo log_fs) = Ret x (Fs l_demo c_demo s').
Proof.
  destruct (balloc_first_free l_demo c_demo log_fs V_demo ∅ ∅ sb_demo) as [(x & s' & V' & L' & Hx & E & _)|[Hall _]].
  - apply fs_holds.
  - apply fs_layout.
  - split; [reflexivity|]. intros x _. reflexivity.
  - vm_compute. lia.
  - intros x _. reflexivity.
  - exists x. split; [exact Hx|]. exists s'. exact E.
  - specialize (Hall 8 ltac:(vm_compute; split; congruence)). vm_compute in Hall. discriminate.
Defined.

Lemma bfree_balloc_witness :
  bfree ROOTDEV 8 (Fs l_demo c_demo log_fs) = Panic "freeing free block".
Proof.
  apply (bfree_balloc l_demo c_demo log_fs V_demo ∅ ∅ sb_demo 8).
  - apply fs_holds.
  - apply fs_layout.
  - split; [reflexivity|]. intros x _. reflexivity.
  - reflexivity.
  - vm_compute. lia.
  - apply demo_first_free.
Defined.
