(* ===== verification/FsAlloc.v ===== *)
(** * Inodes: allocation, sharing and freeing

    [ialloc] takes the first free inode of the disk; [iget] shares one cache
    entry among the users of an inode and counts them; [ilock] loads what
    [iupdate] stored; [iput] frees an inode that nobody uses. *)
From S2P Require Import Prelude Mmu Spinlock Strings Bytes BlockCache Bio Log LogTxn Store LogStore Fs FsBlocks FsInode FsFile FsIcache FsTrunc FsImage.

Section Alloc.
Context {S H : Type} `{StoreLaws S H} `{!Loggable S H}.
Implicit Types (V : gmap Z (list Z)) (L : gset Z) (l : lstate) (c : icst) (s : S).

(** ** [ialloc] *)

Definition fresh_dinode (type : Z) : dinode := Dinode type 0 0 0 0 (replicate 13 0).

Lemma fresh_bytes type : dinode_bytes (fresh_dinode type) = le2 type ++ replicate 62 0.
Proof. done. Qed.

(** The type of the inode on the disk, as the unsigned field. *)
Definition type_word V (inum : Z) : option Z := d ← V !! IBLOCK inum; get16 d (dinode_at inum).

Definition first_inode (sb : superblock) V (inum : Z) : Prop :=
  1 <= inum < sb_ninodes sb /\ type_word V inum = Some 0 /\
  forall k, 1 <= k < inum -> exists ty, type_word V k = Some ty /\ ty <> 0.

Lemma type_word_some V inum d : V !! IBLOCK inum = Some d -> length d = 512%nat -> exists ty, type_word V inum = Some ty /\ get16 d (dinode_at inum) = Some ty.
Proof.
  intros Hd Hl. unfold type_word. rewrite Hd. simpl. pose proof (dinode_at_bound inum) as Hb. unfold get16.
  destruct (drop (dinode_at inum) d) as [|? [|? ?]] eqn:E; [exfalso..|by eexists].
  all: apply (f_equal length) in E; rewrite length_drop in E; simpl in E; lia.
Qed.

Lemma ialloc_loop_run n l c s V L type inum target :
  holds s V ∅ L -> lengths V -> room (∅ : gmap Z (H * bool)) L 2 ->
  (forall k, inum <= k <= target -> is_Some (V !! IBLOCK k)) -> inum <= target < inum + Z.of_nat n ->
  type_word V target = Some 0 -> (forall k, inum <= k < target -> exists ty, type_word V k = Some ty /\ ty <> 0) ->
  exists s', ialloc_loop n ROOTDEV type inum (Fs l c s) = iget ROOTDEV target (Fs l c s') /\
    holds s' (put_inode V target (fresh_dinode type)) ∅ ({[IBLOCK target]} ∪ L).
Proof.
  intros Hh Hlen Hr. revert s inum Hh. induction n as [|n IH]; intros s inum Hh Hib Ht H0' Hk; [lia|]. cbn [ialloc_loop].
  destruct (Hib inum ltac:(lia)) as [d Hd]. pose proof (Hlen _ _ Hd) as Hdl.
  destruct (dread_run l c s V ∅ L (IBLOCK inum) Hh) as (h & s1 & E1 & Hh1); [by eexists|done|by eapply room_le; [exact Hr|lia]|].
  rewrite (bind_Ret _ _ _ _ _ E1).
  erewrite bind_Ret by (apply ons_run; by eapply (sdata_law s1 V _ L _ h false d); [|apply lookup_insert_eq|]).
  destruct (type_word_some V inum d Hd Hdl) as (ty & Hty & Hg). erewrite bind_gets_opt by exact Hg.
  destruct (decide (inum = target)) as [->|Hne].
  - rewrite H0' in Hty. injection Hty as <-. rewrite Z.eqb_refl.
    destruct (change_run l c s1 V _ L (IBLOCK target) h false (splice (dinode_at target) (le2 type ++ replicate 62 0) d) Hh1 (lookup_insert_eq _ _ _))
      as (s2 & _ & E2 & Hh2).
    { pose proof (dinode_at_bound target). rewrite length_splice; [done|]. rewrite Hdl. exact (dinode_at_bound target). }
    { by apply room_hold. }
    rewrite E2. rewrite delete_insert_id in Hh2 by done. exists s2. split; [done|]. unfold put_inode. by rewrite Hd.
  - destruct (Hk inum ltac:(lia)) as (ty' & Hty' & Hn0). rewrite Hty in Hty'. injection Hty' as ->.
    rewrite (proj2 (Z.eqb_neq ty' 0) Hn0).
    destruct (srelse_law s1 V _ L _ h Hh1 (lookup_insert_eq _ _ _)) as (s2 & E2 & Hh2).
    rewrite delete_insert_id in Hh2 by done. erewrite bind_Ret by (apply ons_run; exact E2).
    apply IH; try done; [intros k Hkr; apply Hib; lia|lia|intros k Hkr; apply Hk; lia].
Qed.

Lemma ialloc_run l c s V L sb type inum :
  holds s V ∅ L -> layout sb V -> lengths V -> room (∅ : gmap Z (H * bool)) L 2 ->
  (forall k, 1 <= k < sb_ninodes sb -> is_Some (V !! IBLOCK k)) -> first_inode sb V inum ->
  exists s', ialloc ROOTDEV type (Fs l c s) = iget ROOTDEV inum (Fs l c s') /\
    holds s' (put_inode V inum (fresh_dinode type)) ∅ ({[IBLOCK inum]} ∪ L).
Proof.
  intros Hh Hlo Hlen Hr Hib (Hin & H0' & Hk). unfold ialloc.
  destruct (readsb_run l c s V ∅ L sb Hh) as (s1 & E1 & Hh1); [apply Hlo|done|by eapply room_le; [exact Hr|lia]|].
  rewrite (bind_Ret _ _ _ _ _ E1). apply ialloc_loop_run; try done; [intros k Hkr; apply Hib; lia|lia].
Qed.

(** ** The theorems *)

(** [iget] gives every user of an inode the same cache entry.  It returns
    the entry of the inode if there is one, with the copy of the inode and its
    flags as they were, or else a free entry; the count of references to the
    inode goes up by one and no other count and no other entry changes; the
    table still has at most one entry for each inode.  It panics only when the
    inode is not cached and every entry is in use. *)
Theorem iget_shares l c s dev inum :
  unlocked 0 l -> icache_ok c ->
  (exists ip i' c' l', iget dev inum (Fs l c s) = Ret ip (Fs l' c' s) /\ same_locks l l' /\
     inodes c' !! ip = Some i' /\ same_inode i' dev inum /\ i_ref i' = refs c dev inum + 1 /\
     icache_ok c' /\ one_more dev inum c c' /\ (forall iq, iq <> ip -> inodes c' !! iq = inodes c !! iq) /\
     (forall iq i, inodes c !! iq = Some i -> 0 < i_ref i -> same_inode i dev inum ->
        iq = ip /\ i' = set_i_ref (i_ref i + 1) i)) \/
  refs c dev inum = 0 /\ (forall ip i, inodes c !! ip = Some i -> 0 < i_ref i) /\
    iget dev inum (Fs l c s) = Panic "iget: no inodes".
Proof.
  intros Hl Hok. destruct (iget_run l c s dev inum Hl Hok) as [(ip & i & i' & l' & E & Hsl & Hi & Hok' & Hone & Hcase)|Hp]; [left|by right].
  exists ip, i', (set_inode ip i' c), l'. split_and!; try done.
  - by eapply set_inode_lookup.
  - destruct Hcase as [(_ & Hs & ->)|(_ & _ & ->)]; done.
  - destruct Hcase as [(Hr & [<- <-] & ->)|(Hz & _ & ->)]; simpl; [by rewrite (refs_entry c ip i)|lia].
  - intros iq Hq. by apply list_lookup_insert_ne.
  - intros iq j Hj Hjr Hs. destruct Hcase as [(Hr & Hs' & ->)|(Hz & _ & _)].
    + assert (iq = ip) as ->. { apply (ic_once _ Hok iq ip j i); try done. destruct Hs', Hs. by split; congruence. }
      split; [done|]. congruence.
    + destruct Hs as [<- <-]. rewrite (refs_entry c iq j) in Hz by done. lia.
Qed.

(** What [iupdate] stores is what [ilock] loads: after [iupdate], locking a
    cache entry of the same inode that has no valid copy yet gives that entry
    the fields that were stored. *)
Theorem iupdate_ilock l c s V L sb ip i :
  inodes c !! ip = Some i -> i_dev i = ROOTDEV -> 0 <= i_inum i < sb_ninodes sb -> dinode_ok (i_d i) -> i_type i <> 0 ->
  holds s V ∅ L -> lengths V -> is_Some (V !! IBLOCK (i_inum i)) -> room (∅ : gmap Z (H * bool)) L 2 ->
  exists s1, iupdate ip (Fs l c s) = Ret tt (Fs l c s1) /\
    forall l2 c2 iq j, unlocked 0 l2 -> inodes c2 !! iq = Some j -> 1 <= i_ref j -> i_busy j = false ->
      i_valid j = false -> same_inode j (i_dev i) (i_inum i) ->
      exists l3 c3 s3 j', ilock iq (Fs l2 c2 s1) = Ret tt (Fs l3 c3 s3) /\
        inodes c3 !! iq = Some j' /\ i_d j' = i_d i /\ i_busy j' = true /\ i_valid j' = true.
Proof.
  intros Hi Hdev Hin Hok Hty Hh Hlen Hib Hr.
  destruct (iupdate_run l c s V L ip i Hi Hdev Hh Hlen Hib (di_len _ Hok) Hr) as (s1 & E1 & Hh1).
  exists s1. split; [done|]. intros l2 c2 iq j Hl2 Hj Hjr Hjb Hjv [Hjd Hjn].
  destruct (disk_put V (i_inum i) (i_d i) Hlen Hok Hib) as (_ & Hd & _).
  destruct (ilock_run l2 c2 s1 (put_inode V (i_inum i) (i_d i)) ({[IBLOCK (i_inum i)]} ∪ L) iq j (Inode (i_dev j) (i_inum j) (i_ref j) true true (i_d i)) Hl2 Hj Hjr Hjb) as (l3 & s3 & E3 & _ & _); try done.
  - congruence.
  - by apply room_log.
  - unfold locked_inode. by rewrite Hjv, Hjn, Hd.
  - eexists l3, _, s3, _. split; [exact E3|]. split; [by eapply set_inode_lookup|done].
Qed.

(** [iput] of the last reference to an inode that no directory names any
    more frees it: exactly the blocks of the file become free in the bitmap,
    the inode on the disk gets type 0, no other inode of the disk and no block
    other than the bitmap and the inode's changes, and the cache entry can be
    used again. *)
Theorem iput_frees l c s V L sb ip i bm :
  sb_size sb <= BPB ->
  unlocked 0 l -> inodes c !! ip = Some i -> i_ref i = 1 -> i_valid i = true -> i_nlink i = 0 -> i_busy i = false ->
  file_inv sb V i bm -> holds s V ∅ L -> layout sb V -> lengths V ->
  room (∅ : gmap Z (H * bool)) ({[bblock sb 0]} ∪ L) 3 ->
  exists l' c' s' V' L', iput ip (Fs l c s) = Ret tt (Fs l' c' s') /\ same_locks l l' /\ holds s' V' ∅ L' /\
    inode_freed sb V V' i bm /\
    exists i', inodes c' !! ip = Some i' /\ i_ref i' = 0 /\ forall iq, iq <> ip -> inodes c' !! iq = inodes c !! iq.
Proof.
  intros single Hl Hi Hr1 Hv Hn Hb Hf Hh Hlo Hlen Hr.
  destruct (iput_freed sb single l c s V L ip i bm Hl Hi Hr1 Hv Hn Hb Hf Hh Hlo Hlen Hr)
    as (l' & c' & s' & V' & L' & E & Hsl & Hh' & Hfr & _ & Hic).
  by exists l', c', s', V', L'.
Qed.

(** [ialloc] takes the first inode of the disk whose type is 0, stores the
    type with all other fields zero, changes no other inode, and returns a
    cache entry for it that is not valid, so that [ilock] loads the new inode. *)
Theorem ialloc_first l c s V L sb type inum :
  unlocked 0 l -> icache_ok c -> refs c ROOTDEV inum = 0 -> (exists ip i, inodes c !! ip = Some i /\ i_ref i = 0) ->
  holds s V ∅ L -> layout sb V -> lengths V -> room (∅ : gmap Z (H * bool)) L 2 -> short type ->
  (forall k, 1 <= k < sb_ninodes sb -> is_Some (V !! IBLOCK k)) -> first_inode sb V inum ->
  exists ip i' c' l' s' V' L', ialloc ROOTDEV type (Fs l c s) = Ret ip (Fs l' c' s') /\ holds s' V' ∅ L' /\
    inodes c' !! ip = Some i' /\ same_inode i' ROOTDEV inum /\ i_ref i' = 1 /\ i_valid i' = false /\
    disk_inode V' inum = Some (fresh_dinode type) /\ (forall j, j <> inum -> disk_inode V' j = disk_inode V j).
Proof.
  intros Hl Hok Href (ip0 & i0 & Hi0 & Hz0) Hh Hlo Hlen Hr Hty Hib Hfi.
  destruct (ialloc_run l c s V L sb type inum Hh Hlo Hlen Hr Hib Hfi) as (s' & E & Hh'). rewrite E.
  assert (Hfr : dinode_ok (fresh_dinode type)) by (split; try done; by apply Forall_replicate).
  destruct (disk_put V inum (fresh_dinode type) Hlen Hfr (Hib inum (proj1 Hfi))) as (_ & Hd & Ho).
  destruct (iget_run l c s' ROOTDEV inum Hl Hok) as [(ip & i & i' & l' & Eg & _ & Hi & _ & _ & Hcase)|(_ & Hall & _)].
  2: { specialize (Hall ip0 i0 Hi0). lia. }
  exists ip, i', (set_inode ip i' c), l', s'. eexists _, _. split_and!; [exact Eg|exact Hh'|by eapply set_inode_lookup| | | |done|done].
  all: destruct Hcase as [(Hr' & [Hdv Hn] & _)|(_ & _ & ->)]; [|done].
  all: pose proof (refs_entry c ip i Hok Hi Hr') as Hre; rewrite Hdv, Hn, Href in Hre; lia.
Qed.
End Alloc.

(** ** Examples on the image *)

Lemma l_demo_unlocked k : (k < 2)%nat -> unlocked k l_demo.
Proof.
  intros Hk. split; [split; simpl; lia|]. destruct k as [|[|k]]; [by eexists|by eexists|lia].
Qed.

(** The cache with nothing in it. *)
Definition c_empty : icst := Icst (replicate 50 no_inode) [].

Lemma c_empty_ok : icache_ok c_empty.
Proof.
  split.
  - intros ip i Hi. apply lookup_replicate_1 in Hi as [-> _]. done.
  - intros ip iq i j Hi _ Hr. apply lookup_replicate_1 in Hi as [-> _]. done.
Qed.

Lemma iget_shares_witness : exists ip c' l', iget ROOTDEV 2 (Fs l_demo c_empty log_fs) = Ret ip (Fs l' c' log_fs) /\
  refs c' ROOTDEV 2 = 1.
Proof.
  destruct (iget_shares l_demo c_empty log_fs ROOTDEV 2) as [(ip & i' & c' & l' & E & _ & _ & _ & _ & _ & Hone & _)|(_ & Hall & _)].
  - apply l_demo_unlocked. lia.
  - apply c_empty_ok.
  - exists ip, c', l'. split; [exact E|]. rewrite Hone. reflexivity.
  - specialize (Hall 0%nat no_inode eq_refl). simpl in Hall. lia.
Defined.

Definition i_new : inode := Inode 1 2 1 false false (Dinode 0 0 0 0 0 (replicate 13 0)).

Lemma iupdate_ilock_witness : exists s1, iupdate 0 (Fs l_demo c_demo log_fs) = Ret tt (Fs l_demo c_demo s1) /\
  exists l3 c3 s3 j', ilock 0 (Fs l_demo (Icst [i_new] []) s1) = Ret tt (Fs l3 c3 s3) /\
    inodes c3 !! 0%nat = Some j' /\ i_d j' = file_demo.
Proof.
  destruct (iupdate_ilock l_demo c_demo log_fs V_demo ∅ sb_demo 0 i_demo) as (s1 & E & Hk).
  - reflexivity.
  - reflexivity.
  - vm_compute. split; congruence.
  - apply demo_dinode. by left.
  - vm_compute. congruence.
  - apply fs_holds.
  - apply fs_lengths.
  - apply V_demo_some. vm_compute. split; congruence.
  - vm_compute. lia.
  - exists s1. split; [exact E|].
    destruct (Hk l_demo (Icst [i_new] []) 0%nat i_new) as (l3 & c3 & s3 & j' & E3 & Hj & Hd & _).
    + apply l_demo_unlocked. lia.
    + reflexivity.
    + vm_compute. congruence.
    + reflexivity.
    + reflexivity.
    + split; reflexivity.
    + exists l3, c3, s3, j'. split; [exact E3|]. split; [exact Hj|exact Hd].
Defined.

Lemma ialloc_first_witness : exists ip c' l' s', ialloc ROOTDEV T_FILE (Fs l_demo c_empty log_fs) = Ret ip (Fs l' c' s').
Proof.
  destruct (ialloc_first l_demo c_empty log_fs V_demo ∅ sb_demo T_FILE 4) as (ip & i' & c' & l' & s' & V' & L' & E & _).
  - apply l_demo_unlocked. lia.
  - apply c_empty_ok.
  - apply total_zero; [apply c_empty_ok|]. intros ip j Hj Hr. apply lookup_replicate_1 in Hj as [-> _]. discriminate.
  - exists 0%nat, no_inode. split; reflexivity.
  - apply fs_holds.
  - apply fs_layout.
  - apply fs_lengths.
  - vm_compute. lia.
  - vm_compute. split; congruence.
  - intros k Hk. apply V_demo_some. unfold IBLOCK. simpl in Hk. change IPB with 8. rewrite Z.div_small by lia. lia.
  - split; [vm_compute; split; congruence|]. split; [by vm_compute|]. intros k Hk.
    assert (k = 1 \/ k = 2 \/ k = 3) as [-> | [-> | ->]] by lia; [exists 1|exists 2|exists 2]; (split; [by vm_compute|lia]).
  - exists ip, c', l', s'. exact E.
Defined.

Lemma iput_frees_witness : exists l' c' s', iput 0 (Fs l_demo (Icst [i_orphan] []) log_fs) = Ret tt (Fs l' c' s').
Proof.
  destruct (iput_frees l_demo (Icst [i_orphan] []) log_fs V_demo ∅ sb_demo 0 i_orphan {[0 := 7]})
    as (l' & c' & s' & V' & L' & E & _).
  - vm_compute. congruence.
  - apply l_demo_unlocked. lia.
  - reflexivity.
  - reflexivity.
  - reflexivity.
  - reflexivity.
  - reflexivity.
  - apply fs_orphan.
  - apply fs_holds.
  - apply fs_layout.
  - apply fs_lengths.
  - vm_compute. lia.
  - exists l', c', s'. exact E.
Defined.
