(* ===== verification/FsNames.v ===== *)
(** * Directories and path names: the theorems

    A directory as a partial map from names to inode numbers: [dirlookup] reads
    it, [dirlink] adds to it. *)
From S2P Require Import Prelude Mmu Spinlock Strings Bytes BlockCache Bio Log LogTxn Store LogStore Fs FsBlocks FsInode FsFile FsIcache FsTrunc FsDir FsPath FsImage FsTheorems FsAlloc.

Section Names.
Context {S H : Type} `{StoreLaws S H} `{!Loggable S H}.
Implicit Types (V : gmap Z (list Z)) (L : gset Z) (l : lstate) (c : icst) (s : S).

(** [dirlink] of a name that the directory does not have returns 0 and adds
    the pair to the directory, into the first free entry or at the end: the new
    name leads to the inode number, every other name to what it led to. *)
Theorem dirlink_adds sb devs l c s V L dp i bm (m : nat) name inum :
  sb_size sb <= BPB -> inodes c !! dp = Some i -> file_inv sb V i bm -> layout sb V -> lengths V ->
  i_size i = 16 * Z.of_nat m -> i_type i = T_DIR -> holds s V ∅ L ->
  dir_name name -> 0 < inum < 2 ^ 16 -> dir_inum (dir_entries (contents V i bm)) name = None ->
  16 * Z.of_nat m + 16 <= MAXFILE * BSIZE ->
  room (∅ : gmap Z (H * bool)) (base sb (i_addrs i) L) (need (i_addrs i) + 3) -> (need (i_addrs i) < size (free_set sb V))%nat ->
  exists s' V' d' bm' L', let i' := set_i_d d' i in
    dirlink devs dp name inum (Fs l c s) = Ret 0 (Fs l (Icst (<[dp := i']> (inodes c)) (woken c)) s') /\
    holds s' V' ∅ L' /\ layout sb V' /\ file_inv sb V' i' bm' /\
    forall nm, dir_inum (dir_entries (contents V' i' bm')) nm =
      if decide (nm = name) then Some inum else dir_inum (dir_entries (contents V i bm)) nm.
Proof.
  intros single Hi Hf Hlo Hlen Hm Hty Hh Hn Hin Hnone Hmax Hr Hfree.
  assert (Hr1 : room (∅ : gmap Z (H * bool)) L 1).
  { apply (room0_sub _ (base sb (i_addrs i) L) (need (i_addrs i) + 3)); [|lia|done].
    pose proof (base_sub sb single (i_addrs i) L). set_solver. }
  assert (Hfnone : dir_find (contents V i bm) name = None).
  { unfold dir_inum in Hnone. rewrite find_find_first in Hnone. unfold dir_find.
    destruct (find_first _ _) as [j|] eqn:E; [|done]. apply find_first_Some in E as [(x & Hx & _) _].
    by rewrite Hx in Hnone. }
  destruct (dirlink_run sb devs V L dp i bm c l m Hi Hf Hlo Hlen Hr1 Hm name inum s single Hn ltac:(lia) Hh Hty Hfnone Hmax Hr Hfree)
    as (s' & V1 & V' & addrs' & bm' & L' & nm & Hnm & E & Hh' & Hw & Hmap & Hst & _).
  set (k := dir_slot _) in *. destruct (ent_bytes inum name nm Hn ltac:(lia) Hnm) as [Hlw Hent].
  pose proof (dir_slot_le (dir_entries (contents V i bm))) as Hkm. fold k in Hkm. rewrite (length_entries V i bm m Hm) in Hkm.
  assert (HlC : length (contents V i bm) = (16 * m)%nat) by by apply length_C.
  destruct (file_after sb single V V1 V' i addrs' bm bm' (16 * Z.of_nat k) (le2 inum ++ nm) Hw) as (Hlo' & _ & Hf' & HC);
    rewrite ?Hlw; try done; try lia.
  rewrite Hlw in *. change (Z.of_nat 16) with 16 in *.
  eexists s', V', _, bm', L'. cbv zeta. split_and!; [exact E|done|done|exact Hf'|]. intros x. rewrite HC.
  replace (Z.to_nat (16 * Z.of_nat k)) with (16 * k)%nat by lia.
  assert (Hes : dir_entries (splice (16 * k) (le2 inum ++ nm) (contents V i bm)) = add_entry k (inum, name) (dir_entries (contents V i bm))).
  { rewrite <- Hent. destruct (decide (k = m)) as [->|Hne]; [by apply entries_append|apply entries_insert; [done|lia]]. }
  rewrite Hes. apply dir_inum_add; [intros e; apply dir_slot_free|lia|done].
Qed.

(** [dirlookup] returns a reference to the inode that the directory has
    under the name, with the offset of an entry that holds it, and fails when
    the directory has no such name. *)
Theorem dirlookup_finds sb devs l c s V L dp i bm (m : nat) name :
  inodes c !! dp = Some i -> file_inv sb V i bm -> layout sb V -> lengths V -> room (∅ : gmap Z (H * bool)) L 1 ->
  i_size i = 16 * Z.of_nat m -> i_type i = T_DIR -> holds s V ∅ L -> dir_name name ->
  unlocked 0 l -> icache_ok c -> 0 < free_entries c ->
  exists l' c' s', holds s' V ∅ L /\ unlocked 0 l' /\ icache_ok c' /\
    match dir_inum (dir_entries (contents V i bm)) name with
    | Some n => exists ip k j, dirlookup devs dp name (Fs l c s) = Ret (Some (ip, 16 * Z.of_nat k)) (Fs l' c' s') /\
        dir_entries (contents V i bm) !! k = Some (n, name) /\
        inodes c' !! ip = Some j /\ same_inode j ROOTDEV n /\ one_more ROOTDEV n c c'
    | None => dirlookup devs dp name (Fs l c s) = Ret None (Fs l' c' s') /\ c' = c
    end.
Proof.
  intros Hi Hf Hlo Hlen Hr Hm Hty Hh Hn Hl Hok Hfree.
  destruct (dirlookup_run sb devs V L dp i bm c l m Hi Hf Hlo Hlen Hr Hm name s Hn Hh Hty) as (s' & Hh' & E). rewrite E.
  unfold dir_inum. rewrite find_find_first. unfold dir_find.
  destruct (find_first (is_entry name) (dir_entries (contents V i bm))) as [k|] eqn:Ef.
  2: { exists l, c, s'. split_and!; done. }
  apply find_first_Some in Ef as [([n nm] & Hx & Hie) _]. rewrite Hx. simpl.
  pose proof (lookup_lt_Some _ _ _ Hx) as Hk. rewrite (length_entries V i bm m Hm) in Hk.
  pose proof (lookup_entries V i bm m Hm k Hk) as Hx'. rewrite Hx in Hx'. injection Hx' as Hx'. rewrite <- Hx'. simpl.
  apply andb_true_iff in Hie as [_ Hnm]. apply bool_decide_eq_true in Hnm. simpl in Hnm. subst nm. rewrite (fi_dev _ _ _ _ Hf).
  destruct (iget_run l c s' ROOTDEV n Hl Hok) as [(ip & j & j' & l' & Eg & Hs & Hj & Hok' & Hone & Hcase)|(_ & Hall & _)].
  2: { destruct (free_some c Hfree) as (ip & j & Hj & Hz). specialize (Hall ip j Hj). lia. }
  exists l', (set_inode ip j' c), s'. split_and!; [done|by apply Hs|done|]. exists ip, k, j'. rewrite (bind_Ret _ _ _ _ _ Eg).
  split_and!; [done|done|by eapply set_inode_lookup| |done].
  by destruct Hcase as [(_ & [? ?] & ->)|(_ & _ & ->)].
Qed.
End Names.

(** ** Examples on the image *)

Definition cwd_demo : inode := Inode 1 1 1 false true root_demo.
Definition c_walk : icst := Icst (cwd_demo :: replicate 49 no_inode) [].
Definition N_demo : gmap Z (dinode * gmap Z Z) := {[ 1 := (root_demo, {[0 := 5]}); 2 := (file_demo, {[0 := 6]}); 7 := (prog_demo, {[0 := 15]}) ]}.

Lemma N_demo_some inum d bm : N_demo !! inum = Some (d, bm) ->
  inum = 1 /\ d = root_demo /\ bm = {[0 := 5]} \/ inum = 2 /\ d = file_demo /\ bm = {[0 := 6]} \/
  inum = 7 /\ d = prog_demo /\ bm = {[0 := 15]}.
Proof.
  unfold N_demo. intros Hn. apply lookup_insert_Some in Hn as [[<- [= <- <-]]|[_ Hn]]; [by left|].
  apply lookup_insert_Some in Hn as [[<- [= <- <-]]|[_ Hn]]; [by right; left|].
  apply lookup_singleton_Some in Hn as [<- [= <- <-]]. by right; right.
Qed.

Lemma demo_tree : tree_ok V_demo sb_demo N_demo.
Proof.
  split.
  - intros inum d bm Hn. apply N_demo_some in Hn as [(-> & -> & ->)|[(-> & -> & ->)|(-> & -> & ->)]]; (split_and!; [by vm_compute|done|done]).
  - intros inum d bm Hn Ht. apply N_demo_some in Hn as [(-> & -> & ->)|[(-> & -> & ->)|(-> & -> & ->)]]; [|done|done]. split; [|by exists 4%nat].
    apply (file_inv_flags sb_demo V_demo i_root); try done. apply fs_root.
  - intros inum d bm e Hn Ht He Hne. apply N_demo_some in Hn as [(-> & -> & ->)|[(-> & -> & ->)|(-> & -> & ->)]]; [|done|done].
    assert (Hes : entries_of V_demo root_demo {[0 := 5]} = [(1, [46]); (1, [46; 46]); (2, [97]); (7, [112])]) by by vm_compute.
    rewrite Hes in He. rewrite !elem_of_cons in He. destruct He as [-> | [-> | [-> | [-> | He]]]]; [by eexists..|].
    by apply not_elem_of_nil in He.
Qed.

Lemma c_walk_ok : cache_ok V_demo None c_walk.
Proof.
  assert (Hl : forall ip i, inodes c_walk !! ip = Some i -> 0 < i_ref i -> ip = 0%nat /\ i = cwd_demo).
  { intros [|ip] i Hi Hr; [split; [done|]; simpl in Hi; congruence|]. change (replicate 49 no_inode !! ip = Some i) in Hi.
    apply lookup_replicate_1 in Hi as [-> _]. done. }
  split; [split|].
  - intros [|ip] i Hi; [simpl in Hi; by injection Hi as <-|]. change (replicate 49 no_inode !! ip = Some i) in Hi.
    apply lookup_replicate_1 in Hi as [-> _]. done.
  - intros ip iq i j Hi Hj Hr1 Hr2 _. destruct (Hl ip i Hi Hr1) as [-> _]. by destruct (Hl iq j Hj Hr2) as [-> _].
  - intros ip i Hi Hr. destruct (Hl ip i Hi Hr) as [-> ->]. split_and!; [done|done|]. intros _. by vm_compute.
Qed.

(** namei("/a") *)
Lemma namex_resolves_witness : exists l' c' s' ip,
  namex no_devs 0 [47; 97] false (Fs l_demo c_walk log_fs) = Ret (Some (ip, [97])) (Fs l' c' s') /\ has c' ip 2.
Proof.
  destruct (namex_resolves V_demo ∅ sb_demo no_devs fs_layout fs_lengths N_demo demo_tree) with
    (l := l_demo) (c := c_walk) (s := log_fs) (cwd := 0%nat) (wi := cwd_demo) (path := [47; 97]) (parent := false)
    as (l' & c' & s' & _ & _ & _ & Hres).
  - vm_compute. lia.
  - reflexivity.
  - apply l_demo_unlocked. lia.
  - apply c_walk_ok.
  - reflexivity.
  - reflexivity.
  - reflexivity.
  - vm_compute. eexists. reflexivity.
  - vm_compute. eexists. reflexivity.
  - apply fs_holds.
  - vm_compute. congruence.
  - assert (Hw : walk V_demo N_demo false (elems [47; 97]) (if absolute [47; 97] then ROOTINO else i_inum cwd_demo) [] = Some (2, [97]))
      by (vm_compute; reflexivity).
    rewrite Hw in Hres. destruct Hres as (ip & E & Hhas & _). exists l', c', s', ip. split; [exact E|exact Hhas].
Defined.

Lemma demo_entries : dir_entries (contents V_demo i_root {[0 := 5]}) = [(1, [46]); (1, [46; 46]); (2, [97]); (7, [112])].
Proof. by vm_compute. Qed.

Lemma dirlink_adds_witness : exists c' s' V' i' bm',
  dirlink no_devs 1 [98] 3 (Fs l_demo c_demo log_fs) = Ret 0 (Fs l_demo c' s') /\
  dir_inum (dir_entries (contents V' i' bm')) [98] = Some 3 /\ dir_inum (dir_entries (contents V' i' bm')) [97] = Some 2.
Proof.
  destruct (dirlink_adds sb_demo no_devs l_demo c_demo log_fs V_demo ∅ 1 i_root {[0 := 5]} 4 [98] 3)
    as (s' & V' & d' & bm' & L' & E & _ & _ & _ & Hd).
  - vm_compute. congruence.
  - reflexivity.
  - apply fs_root.
  - apply fs_layout.
  - apply fs_lengths.
  - reflexivity.
  - reflexivity.
  - apply fs_holds.
  - split; [reflexivity|simpl; lia].
  - lia.
  - rewrite demo_entries. reflexivity.
  - vm_compute. congruence.
  - vm_compute. lia.
  - vm_compute. lia.
  - eexists _, s', V', _, bm'. split; [exact E|]. rewrite !Hd, demo_entries. split; reflexivity.
Defined.

Lemma dirlookup_finds_witness : exists l' c' s' ip,
  dirlookup no_devs 0 [97] (Fs l_demo c_walk log_fs) = Ret (Some (ip, 32)) (Fs l' c' s').
Proof.
  destruct (dirlookup_finds sb_demo no_devs l_demo c_walk log_fs V_demo ∅ 0 cwd_demo {[0 := 5]} 4 [97])
    as (l' & c' & s' & _ & _ & _ & Hres).
  - reflexivity.
  - apply (file_inv_flags sb_demo V_demo i_root); [apply fs_root|reflexivity..].
  - apply fs_layout.
  - apply fs_lengths.
  - vm_compute. lia.
  - reflexivity.
  - reflexivity.
  - apply fs_holds.
  - split; [reflexivity|simpl; lia].
  - apply l_demo_unlocked. lia.
  - apply c_walk_ok.
  - vm_compute. reflexivity.
  - change (contents V_demo cwd_demo {[0 := 5]}) with (contents V_demo i_root {[0 := 5]}) in Hres. rewrite demo_entries in Hres.
    destruct Hres as (ip & k & j & E & Hk & _). exists l', c', s', ip. rewrite E.
    assert (k = 2%nat) as -> by (destruct k as [|[|[|[|k]]]]; vm_compute in Hk; congruence). reflexivity.
Defined.
