(* ===== verification/FileTheorems.v ===== *)
(** * Open files: the theorems

    What [filewrite], [fileread], [filedup], [fileclose] and [pipealloc] do to
    the table of open files, the inodes behind it and the disk. *)
From S2P Require Import Prelude Mmu Spinlock Strings Bytes BlockCache Bio Log LogTxn Store LogStore Fs FsBlocks FsInode FsFile FsIcache FsTrunc FsImage Pipe File FileSpec FsTheorems FsAlloc.

Section Files.
Context {B H : Type} `{BlockCacheLaws B H}.
Implicit Types (k : fstate B).

(** [filewrite] to an open inode writes all bytes at the file's offset and
    moves the offset, and leaves the log at rest.  It is a sequence of
    transactions of at most [maxwrite] bytes: after a crash at any point, with
    any prefix of its disk writes done, recovery leads to a disk on which the
    file has the old content with the bytes of some whole rounds written. *)
Theorem filewrite_writes st sz sb devs killed k V W D f x inum C m src :
  let n := Z.of_nat (length src) in let off := Z.to_nat (f_off x) in
  sb_size sb <= BPB -> opened st sz sb k V W D f x inum C m -> f_writable x = true -> f_type x = FD_INODE ->
  f_off x + n <= MAXFILE * BSIZE -> (4 * rounds n <= m)%nat ->
  exists k' V' ws, filewrite devs killed f src n k = Ret n k' /\
    opened st sz sb k' V' (W ++ ws) (disk_after D ws) f (set_f_off (f_off x + n) x) inum (splice off src C) (m - 4 * rounds n) /\
    rounds_written st sb D ws inum off src C /\ others_kept f k k'.
Proof.
  intros n off single Hop Hw Hty Hmax Hm. unfold filewrite.
  assert (Hx : ftable k !! f = Some x) by (destruct Hop as (? & ? & ? & ? & ? & ? & ? & ? & ?); done).
  rewrite (bind_Ret _ _ _ _ _ (get_file_run k f x Hx)), Hw, Hty. cbn [negb].
  destruct (filewrite_loop_run st sz sb single devs (Datatypes.S (Z.to_nat n)) k V W D f x inum C m src 0 n Hop)
    as (k' & V' & ws & E & Hop' & Hrw & Hk); rewrite ?Z.sub_0_r in *; try done; try lia.
  rewrite (bind_Ret _ _ _ _ _ E), Z.eqb_refl. by exists k', V', ws.
Qed.

(** [fileread] of an open inode returns the bytes at the file's offset, at most
    [n] and no more than the file has, moves the offset over them and changes
    nothing else. *)
Theorem fileread_reads st sz sb devs killed k V W D f x inum C m n :
  let l := take (Z.to_nat n) (drop (Z.to_nat (f_off x)) C) in
  opened st sz sb k V W D f x inum C m -> f_readable x = true -> f_type x = FD_INODE -> 0 <= n -> f_off x + n < 2 ^ 32 ->
  exists k', fileread devs killed f n k = Ret (Some l) k' /\
    opened st sz sb k' V W D f (set_f_off (f_off x + Z.of_nat (length l)) x) inum C m /\ others_kept f k k'.
Proof.
  intros l (lk & c & y & i & i1 & bm & Hk & Hx & Hoff & Hl & Hi & Hr & Hb & Hdev & Hli & Hty & Hf & Hlo & Hlen & Hrest & Hin & HC & Hfree) Hrd Hft Hn Hov.
  assert (Hg : geometry st sz D) by (destruct Hrest as (? & ? & ? & ?); tauto). pose (laws := log_store_laws false st sz D W Hg).
  pose proof (rest_holds st sz D W Hg y V Hrest : holds y V ∅ ∅) as Hh. destruct (locked_facts V i i1 Hli) as (Hv1 & Hb1 & Hr1 & Hd1).
  unfold fileread. rewrite (bind_Ret _ _ _ _ _ (get_file_run k f x Hx)), Hrd, Hft. cbn [negb].
  destruct (ilock_run lk c y V ∅ (f_ip x) i i1 Hl Hi Hr Hb Hdev Hh) as (l2 & y2 & E2 & Hs2 & Hh2); [unfold room; vm_compute; lia|done|done|].
  erewrite bind_Ret by (apply onfs_run; rewrite Hk; exact E2). set (c2 := set_inode (f_ip x) i1 c) in *. set (k2 := set_fsys _ k).
  rewrite (bind_Ret _ _ _ _ _ (get_file_run k2 f x Hx)).
  assert (Hi2 : inodes c2 !! f_ip x = Some i1) by by eapply set_inode_lookup.
  destruct (readi_run sb devs l2 c2 y2 V ∅ (f_ip x) i1 bm (f_off x) n Hi2 Hf Hh2 Hlo Hlen) as (y3 & E3 & Hh3); [unfold room; vm_compute; lia|done|done|done|].
  rewrite HC in E3. fold l in E3. rewrite (u32_uint n) by (unfold uint; lia).
  erewrite bind_Ret by (apply onfs_run; exact E3). set (k3 := set_fsys _ k2). set (x' := set_f_off (f_off x + Z.of_nat (length l)) x).
  assert (Hll : f_off x + Z.of_nat (length l) <= i_size i1).
  { unfold l. rewrite length_take, length_drop, <- HC. unfold contents. rewrite length_fbytes. lia. }
  assert (Hlt : (f < length (ftable k))%nat) by by eapply lookup_lt_Some.
  assert (E4 : when (0 <? length l)%nat (upd_file f (fun g => set_f_off (u32 (f_off g + Z.of_nat (length l))) g)) k3 = Ret tt (set_ftable (<[f := x']> (ftable k)) k3)).
  { unfold x'. destruct (Nat.ltb_spec 0 (length l)) as [Hp|Hz]; cbn [when].
    - rewrite (upd_file_run k3 f x _ Hx). rewrite (u32_uint (f_off x + _)); [done|]. pose proof (fi_size _ _ _ _ Hf) as Hs.
      change (MAXFILE * BSIZE) with 71680 in Hs. unfold uint. lia.
    - unfold ret, set_ftable. replace (f_off x + Z.of_nat (length l)) with (f_off x) by lia.
      replace (set_f_off (f_off x) x) with x by by destruct x. rewrite list_insert_id by done. by destruct k. }
  rewrite (bind_Ret _ _ _ _ _ E4). set (k4 := set_ftable _ k3).
  destruct (iunlock_run l2 c2 y3 (f_ip x) i1 (Hs2 _ Hl) Hi2) as (l5 & E5 & Hs5); [lia|done|].
  erewrite bind_Ret by (apply onfs_run; exact E5). set (c5 := Icst _ _). eexists. split; [reflexivity|]. split.
  - exists l5, c5, y3, (set_i_flags false true i1), i1, bm. assert (Hy : at_rest st sz V W D y3) by by eapply holds_rest.
    split_and!; try done; try (simpl; lia).
    + by apply list_lookup_insert_eq.
    + by apply Hs5, Hs2.
    + unfold c5. simpl. rewrite Hv1. apply list_lookup_insert_eq. unfold c2. simpl. rewrite length_insert. by eapply lookup_lt_Some.
    + unfold locked_inode. simpl. f_equal. destruct i1. simpl in *. by subst.
  - split_and!; try done. intros g Hgf. by apply list_lookup_insert_ne.
Qed.

(** ** Reference counts *)

Lemma ftable_locked k l c y :
  fsys k = Fs l c y -> unlocked 1 l ->
  exists l1 l2, lock_ftable k = Ret tt (set_fsys (Fs l1 c y) k) /\ same_locks l l2 /\
    forall k', fsys k' = Fs l1 c y -> unlock_ftable k' = Ret tt (set_fsys (Fs l2 c y) k').
Proof.
  intros Hk Hl. destruct (locked_run 1 l Hl) as (l1 & l2 & E1 & E2 & Hs). exists l1, l2. split; [|split; [done|]].
  - apply onfs_run. rewrite Hk. by apply acquire_fs.
  - intros k' Hk'. apply onfs_run. rewrite Hk'. by apply release_fs.
Qed.

(** Only the lock has been used. *)
Definition same_but_locks (k k' : fstate B) : Prop :=
  ic (fsys k') = ic (fsys k) /\ store (fsys k') = store (fsys k) /\ same_locks (flks (fsys k)) (flks (fsys k')) /\
  ftable k' = ftable k /\ pipes k' = pipes k /\ pages k' = pages k /\ pwoken k' = pwoken k.

(** [filedup] counts one more reference, with which [fileclose] does nothing
    but take it back: the file stays open and the table is as before. *)
Theorem filedup_fileclose k f x :
  unlocked 1 (flks (fsys k)) -> ftable k !! f = Some x -> 1 <= f_ref x ->
  exists k1 k2, filedup f k = Ret f k1 /\ ftable k1 = <[f := set_f_ref (f_ref x + 1) x]> (ftable k) /\
    fileclose f k1 = Ret tt k2 /\ same_but_locks k k2.
Proof.
  intros Hl Hx Hr. destruct (fsys k) as [l c y] eqn:Hk. simpl in Hl.
  destruct (ftable_locked k l c y Hk Hl) as (l1 & l2 & E1 & Hs & E2). unfold filedup. rewrite (bind_Ret _ _ _ _ _ E1).
  set (k1 := set_fsys _ k). rewrite (bind_Ret _ _ _ _ _ (get_file_run k1 f x Hx)), (proj2 (Z.ltb_ge (f_ref x) 1)) by lia.
  rewrite (bind_Ret _ _ _ _ _ (upd_file_run k1 f x _ Hx)). set (k2 := set_ftable _ k1). rewrite (bind_Ret _ _ _ _ _ (E2 k2 eq_refl)).
  set (k3 := set_fsys _ k2). set (x' := set_f_ref (f_ref x + 1) x).
  assert (Hx' : ftable k3 !! f = Some x') by (apply list_lookup_insert_eq; by eapply lookup_lt_Some).
  destruct (ftable_locked k3 l2 c y eq_refl (Hs _ Hl)) as (l3 & l4 & E3 & Hs4 & E4). eexists k3, _. split; [done|]. split; [done|].
  unfold fileclose. rewrite (bind_Ret _ _ _ _ _ E3). set (k4 := set_fsys _ k3). rewrite (bind_Ret _ _ _ _ _ (get_file_run k4 f x' Hx')).
  change (f_ref x') with (f_ref x + 1). rewrite (proj2 (Z.ltb_ge (f_ref x + 1) 1)) by lia.
  rewrite (bind_Ret _ _ _ _ _ (upd_file_run k4 f x' _ Hx')). rewrite (proj2 (Z.ltb_lt 0 (f_ref x + 1 - 1))) by lia.
  split; [by apply E4|]. unfold same_but_locks. rewrite Hk. split_and!; try done.
  - intros j Hj. by apply Hs4, Hs.
  - simpl. rewrite list_insert_insert_eq. replace (set_f_ref (f_ref x + 1 - 1) x') with x by (destruct x; unfold x', set_f_ref; simpl; f_equal; lia).
    by apply list_insert_id.
Qed.

(** Closing or duplicating a file that has no reference left panics: a
    descriptor that was copied without [filedup] cannot be closed twice. *)
Theorem fileclose_unreferenced k f x :
  unlocked 1 (flks (fsys k)) -> ftable k !! f = Some x -> f_ref x < 1 ->
  fileclose f k = Panic "fileclose" /\ filedup f k = Panic "filedup".
Proof.
  intros Hl Hx Hr. destruct (fsys k) as [l c y] eqn:Hk. simpl in Hl.
  destruct (ftable_locked k l c y Hk Hl) as (l1 & l2 & E1 & Hs & E2). unfold fileclose, filedup.
  rewrite !(bind_Ret _ _ _ _ _ E1). set (k1 := set_fsys _ k).
  by rewrite !(bind_Ret _ _ _ _ _ (get_file_run k1 f x Hx)), (proj2 (Z.ltb_lt (f_ref x) 1)).
Qed.

(** The table after the last reference to the file [x] is gone. *)
Definition freed_file (x : file) : file := set_f_type FD_NONE (set_f_ref 0 x).

Lemma close_last k l c y f x :
  fsys k = Fs l c y -> unlocked 1 l -> ftable k !! f = Some x -> f_ref x = 1 ->
  exists l', same_locks l l' /\
    fileclose f k = (match f_type x with
                     | FD_PIPE => close_pipe (f_pipe x) (f_writable x)
                     | FD_INODE => begin_op;;; onfs (iput (f_ip x));;; end_op
                     | FD_NONE => ret tt
                     end) (set_ftable (<[f := freed_file x]> (ftable k)) (set_fsys (Fs l' c y) k)).
Proof.
  intros Hk Hl Hx Hr. destruct (ftable_locked k l c y Hk Hl) as (l1 & l2 & E1 & Hs & E2). exists l2. split; [done|].
  unfold fileclose. rewrite (bind_Ret _ _ _ _ _ E1). set (k1 := set_fsys _ k).
  rewrite (bind_Ret _ _ _ _ _ (get_file_run k1 f x Hx)), Hr.
  change (1 - 1) with 0. change (1 <? 1) with false. change (0 <? 0) with false. cbv iota.
  rewrite (bind_Ret _ _ _ _ _ (upd_file_run k1 f x _ Hx)). set (k2 := set_ftable _ k1).
  assert (Hx2 : ftable k2 !! f = Some (set_f_ref 0 x)) by (apply list_lookup_insert_eq; by eapply lookup_lt_Some).
  rewrite (bind_Ret _ _ _ _ _ (upd_file_run k2 f _ _ Hx2)). set (k3 := set_ftable _ k2). rewrite (bind_Ret _ _ _ _ _ (E2 k3 eq_refl)).
  replace (set_fsys (Fs l2 c y) k3) with (set_ftable (<[f := freed_file x]> (ftable k)) (set_fsys (Fs l2 c y) k)); [done|].
  unfold k3, k2, k1, set_ftable, set_fsys. simpl. by rewrite list_insert_insert_eq.
Qed.

(** C6: an open file that no directory names any more goes away with its last
    reference: the last [fileclose] frees the inode and exactly the blocks of
    the file, in one transaction that is atomic with respect to crashes. *)
Theorem fileclose_unlinked st sz sb k l c y f x i bm V W D :
  sb_size sb <= BPB -> fsys k = Fs l c y -> unlocked 0 l -> unlocked 1 l ->
  ftable k !! f = Some x -> f_ref x = 1 -> f_type x = FD_INODE ->
  inodes c !! f_ip x = Some i -> i_ref i = 1 -> i_valid i = true -> i_nlink i = 0 -> i_busy i = false ->
  file_inv sb V i bm -> layout sb V -> lengths V -> at_rest st sz V W D y ->
  exists k' V' ws, fileclose f k = Ret tt k' /\ ftable k' = <[f := freed_file x]> (ftable k) /\
    at_rest st sz V' (W ++ ws) (disk_after D ws) (store (fsys k')) /\ inode_freed sb V V' i bm /\ atomic_writes st D V ws V' /\
    exists i', inodes (ic (fsys k')) !! f_ip x = Some i' /\ i_ref i' = 0.
Proof.
  intros single Hk Hl0 Hl1 Hx Hr Hty Hi Hir Hv Hn Hb Hf Hlo Hlen Hrest.
  destruct (close_last k l c y f x Hk Hl1 Hx Hr) as (l1 & Hs1 & E). rewrite Hty in E. rewrite E. clear E. set (k1 := set_ftable _ _).
  assert (Hg : geometry st sz D) by (destruct Hrest as (? & ? & ? & ?); tauto).
  pose (laws := log_store_laws true st sz D W Hg). pose (lg := log_loggable st sz D W Hg : @Loggable _ _ _ laws).
  destruct (begin_holds st sz D W Hg y V Hrest) as (y1 & E1 & Hh1).
  unfold begin_op. erewrite bind_Ret by (apply onfs_run; apply (ons_run (S := lst B)); exact E1). set (k2 := set_fsys _ k1).
  destruct (iput_freed sb single l1 c y1 V ∅ (f_ip x) i bm (Hs1 _ Hl0) Hi Hir Hv Hn Hb Hf Hh1 Hlo Hlen)
    as (l2 & c2 & y2 & V' & L' & E2 & Hs2 & Hh2 & Hfr & HL & i' & Hi' & Hr' & _).
  { unfold room. rewrite dom_empty_L, !union_empty_l_L, union_empty_r_L, size_singleton. unfold NBUF. lia. }
  erewrite bind_Ret by (apply onfs_run; exact E2). set (k3 := set_fsys _ k2).
  destruct (commit_holds st sz D W Hg y y2 V V' L' Hrest Hh2) as (y3 & ws & E3 & Hrest' & Hat).
  { etrans; [apply subseteq_size, HL|]. rewrite union_empty_r_L. etrans; [apply size_add|]. rewrite size_singleton. lia. }
  eexists _, V', ws. split; [unfold end_op; apply onfs_run; apply (ons_run (S := lst B)); exact E3|]. split_and!; try done. by exists i'.
Qed.

(** The last [fileclose] of a file that is still named, or that others have in
    use, gives up one reference to its inode and changes no block of the disk. *)
Theorem fileclose_last st sz k l c y f x i V W D :
  fsys k = Fs l c y -> unlocked 0 l -> unlocked 1 l ->
  ftable k !! f = Some x -> f_ref x = 1 -> f_type x = FD_INODE ->
  inodes c !! f_ip x = Some i -> (i_ref i =? 1) && i_valid i && (i_nlink i =? 0) = false -> at_rest st sz V W D y ->
  exists k' ws, fileclose f k = Ret tt k' /\ ftable k' = <[f := freed_file x]> (ftable k) /\
    ic (fsys k') = Icst (<[f_ip x := set_i_ref (i_ref i - 1) i]> (inodes c)) (woken c) /\
    at_rest st sz V (W ++ ws) (disk_after D ws) (store (fsys k')) /\ atomic_writes st D V ws V.
Proof.
  intros Hk Hl0 Hl1 Hx Hr Hty Hi Hc Hrest.
  destruct (close_last k l c y f x Hk Hl1 Hx Hr) as (l1 & Hs1 & E). rewrite Hty in E. rewrite E. clear E. set (k1 := set_ftable _ _).
  assert (Hg : geometry st sz D) by (destruct Hrest as (? & ? & ? & ?); tauto).
  destruct (begin_holds st sz D W Hg y V Hrest) as (y1 & E1 & Hh1).
  unfold begin_op. erewrite bind_Ret by (apply onfs_run; apply (ons_run (S := lst B)); exact E1). set (k2 := set_fsys _ k1).
  destruct (iput_run l1 c y1 (f_ip x) i (Hs1 _ Hl0) Hi Hc) as (l2 & E2 & _).
  erewrite bind_Ret by (apply onfs_run; exact E2). set (k3 := set_fsys _ k2).
  destruct (commit_holds st sz D W Hg y y1 V V ∅ Hrest Hh1) as (y3 & ws & E3 & Hrest' & Hat); [rewrite size_empty; lia|].
  eexists _, ws. split; [unfold end_op; apply onfs_run; apply (ons_run (S := lst B)); exact E3|]. by split_and!.
Qed.

(** ** Pipes *)

Lemma filealloc_run k l c y :
  fsys k = Fs l c y -> unlocked 1 l ->
  exists l', same_locks l l' /\
    ((exists f x, ftable k !! f = Some x /\ f_ref x = 0 /\
        filealloc k = Ret (Some f) (set_ftable (<[f := set_f_ref 1 x]> (ftable k)) (set_fsys (Fs l' c y) k))) \/
     (forall f x, ftable k !! f = Some x -> f_ref x <> 0) /\ filealloc k = Ret None (set_fsys (Fs l' c y) k)).
Proof.
  intros Hk Hl. destruct (ftable_locked k l c y Hk Hl) as (l1 & l2 & E1 & Hs & E2). exists l2. split; [done|].
  unfold filealloc. rewrite (bind_Ret _ _ _ _ _ E1), bind_gets. set (k1 := set_fsys _ k). change (ftable k1) with (ftable k).
  destruct (find_first _ (ftable k)) as [f|] eqn:Hf.
  - left. apply find_first_Some in Hf as [(x & Hx & Hr) _]. exists f, x. split_and!; [done|lia|].
    rewrite (bind_Ret _ _ _ _ _ (upd_file_run k1 f x _ Hx)). set (k2 := set_ftable _ k1).
    by rewrite (bind_Ret _ _ _ _ _ (E2 k2 eq_refl)).
  - right. split; [|by rewrite (bind_Ret _ _ _ _ _ (E2 k1 eq_refl))]. intros f x Hx Hr.
    pose proof (proj1 (find_first_None _ _) Hf x (list_elem_of_lookup_2 _ _ _ Hx)) as Hn. simpl in Hn. lia.
Qed.

(** The entries of the table without references are of no type. *)
Definition table_ok (t : list file) : Prop := forall f x, t !! f = Some x -> f_ref x = 0 -> f_type x = FD_NONE.

(** Giving back the entry that [filealloc] took. *)
Lemma close_fresh k l c y f x :
  fsys k = Fs l c y -> unlocked 1 l -> ftable k !! f = Some (set_f_ref 1 x) -> f_ref x = 0 -> f_type x = FD_NONE ->
  exists l', same_locks l l' /\ fileclose f k = Ret tt (set_ftable (<[f := x]> (ftable k)) (set_fsys (Fs l' c y) k)).
Proof.
  intros Hk Hl Hx Hr Hty. destruct (close_last k l c y f _ Hk Hl Hx eq_refl) as (l' & Hs & E). exists l'. split; [done|].
  change (f_type (set_f_ref 1 x)) with (f_type x) in E. rewrite Hty in E. rewrite E.
  replace (freed_file (set_f_ref 1 x)) with x by (destruct x; simpl in *; by subst). done.
Qed.

(** [pipealloc] makes a new, empty pipe out of a free page, with the first two
    free entries of the file table as its read and write end; when there are no
    two free entries or no page it fails, having given back what it took. *)
Theorem pipealloc_spec k junk :
  unlocked 1 (flks (fsys k)) -> table_ok (ftable k) ->
  (exists k', pipealloc junk k = Ret None k' /\ same_but_locks k k' /\
    (pages k = [] \/ forall f g x z, ftable k !! f = Some x -> ftable k !! g = Some z -> f_ref x = 0 -> f_ref z = 0 -> f = g)) \/
  exists f g x z p ps k', pipealloc junk k = Ret (Some (f, g)) k' /\ f <> g /\
    ftable k !! f = Some x /\ ftable k !! g = Some z /\ f_ref x = 0 /\ f_ref z = 0 /\ pages k = p :: ps /\
    pages k' = ps /\ pipes k' = <[p := pipe_init junk]> (pipes k) /\
    ftable k' = <[g := File FD_PIPE 1 false true p (f_ip z) (f_off z)]> (<[f := File FD_PIPE 1 true false p (f_ip x) (f_off x)]> (ftable k)).
Proof.
  intros Hl Hok. destruct (fsys k) as [l c y] eqn:Hk. simpl in Hl. unfold pipealloc.
  assert (Hsame : forall l', same_locks l l' -> same_but_locks k (set_fsys (Fs l' c y) k)) by (intros; unfold same_but_locks; by rewrite Hk).
  destruct (filealloc_run k l c y Hk Hl) as (l1 & Hs1 & [(f & x & Hx & Hrx & E1)|[Hno E1]]); rewrite (bind_Ret _ _ _ _ _ E1).
  2: { left. eexists. split; [done|]. split; [by apply Hsame|]. right. intros f g x z Hx Hz Hrx. by destruct (Hno f x). }
  set (k1 := set_ftable _ _). pose proof (Hok f x Hx Hrx) as Htx. pose proof (lookup_lt_Some _ _ _ Hx) as Hlt.
  assert (Hx1 : ftable k1 !! f = Some (set_f_ref 1 x)) by by apply list_lookup_insert_eq.
  destruct (filealloc_run k1 l1 c y eq_refl (Hs1 _ Hl)) as (l2 & Hs2 & [(g & z & Hz & Hrz & E2)|[Hno E2]]); rewrite (bind_Ret _ _ _ _ _ E2).
  - assert (Hne : f <> g) by (intros <-; rewrite Hx1 in Hz; injection Hz as <-; done).
    assert (Hz0 : ftable k !! g = Some z) by (simpl in Hz; by rewrite list_lookup_insert_ne in Hz).
    set (k2 := set_ftable _ _). assert (Hx2 : ftable k2 !! f = Some (set_f_ref 1 x)) by (simpl; by rewrite list_lookup_insert_ne).
    assert (Hz2 : ftable k2 !! g = Some (set_f_ref 1 z)) by (apply list_lookup_insert_eq; by eapply lookup_lt_Some).
    rewrite bind_gets. change (pages k2) with (pages k). destruct (pages k) as [|p ps] eqn:Hp.
    + left. cbn [close_opt].
      destruct (close_fresh k2 l2 c y f x eq_refl (Hs2 _ (Hs1 _ Hl)) Hx2 Hrx Htx) as (l3 & Hs3 & E3). rewrite (bind_Ret _ _ _ _ _ E3).
      set (k3 := set_ftable _ _). assert (Hz3 : ftable k3 !! g = Some (set_f_ref 1 z)) by (simpl; by rewrite list_lookup_insert_ne).
      destruct (close_fresh k3 l3 c y g z eq_refl (Hs3 _ (Hs2 _ (Hs1 _ Hl))) Hz3 Hrz (Hok g z Hz0 Hrz)) as (l4 & Hs4 & E4).
      rewrite (bind_Ret _ _ _ _ _ E4). eexists. split; [reflexivity|]. split; [|by left].
      assert (Hback : <[g := z]> (ftable k3) = ftable k).
      { simpl. rewrite (list_insert_insert_ne _ f g), list_insert_insert_eq, list_insert_insert_eq by done.
        rewrite (list_insert_insert_ne _ g f) by done. by rewrite (list_insert_id _ g z), (list_insert_id _ f x). }
      rewrite Hback. apply (Hsame l4). intros j Hj. by apply Hs4, Hs3, Hs2, Hs1.
    + right. erewrite bind_Ret by reflexivity. set (k3 := set_pages _ _). rewrite (bind_Ret _ _ _ _ _ (upd_file_run k3 f _ _ Hx2)).
      set (k4 := set_ftable _ k3). assert (Hz4 : ftable k4 !! g = Some (set_f_ref 1 z)) by (simpl; by rewrite list_lookup_insert_ne).
      rewrite (bind_Ret _ _ _ _ _ (upd_file_run k4 g _ _ Hz4)). exists f, g, x, z, p, ps. eexists. split; [reflexivity|].
      split_and!; try done. simpl. rewrite (list_insert_insert_ne _ f g), list_insert_insert_eq, list_insert_insert_eq by done. done.
  - left. set (k2 := set_fsys _ k1). cbn [close_opt].
    destruct (close_fresh k2 l2 c y f x eq_refl (Hs2 _ (Hs1 _ Hl)) Hx1 Hrx Htx) as (l3 & Hs3 & E3).
    rewrite (bind_Ret _ _ _ _ _ E3). eexists. split; [reflexivity|]. split.
    + change (ftable k2) with (<[f := set_f_ref 1 x]> (ftable k)). rewrite list_insert_insert_eq, (list_insert_id _ f x) by done.
      apply (Hsame l3). intros j Hj. by apply Hs3, Hs2, Hs1.
    + right. assert (Hall : forall j z, ftable k !! j = Some z -> f_ref z = 0 -> j = f).
      { intros j z Hz Hr. destruct (decide (j = f)) as [->|Hne]; [done|]. destruct (Hno j z); [|done]. simpl. by rewrite list_lookup_insert_ne. }
      intros j j' z z' Hz Hz' Hr Hr'. by rewrite (Hall j z), (Hall j' z').
Qed.
End Files.

(** ** Examples *)

(** Entry 0 is the file /a, open at offset 1, entry 1 the file without a name;
    page 7 is free. *)
Definition fa_demo : file := File FD_INODE 1 true true 0 0 1.
Definition fo_demo : file := File FD_INODE 1 true true 0 1 0.
Definition no_file : file := File FD_NONE 0 false false 0 0 0.
Definition ci_demo : icst := Icst [set_i_flags false true i_demo; i_orphan] [].
Definition k_demo : fstate bst := FState (Fs l_demo ci_demo log_idle) [fa_demo; fo_demo; no_file; no_file] ∅ [7%nat] [].

Lemma demo_opened : opened 16 11 sb_demo k_demo V_demo [] (rd fs_image) 0 fa_demo 2 [120; 121; 122] 4.
Proof.
  exists l_demo, ci_demo, log_idle, (set_i_flags false true i_demo), i_demo, {[0 := 6]}.
  split; [done|]. split; [done|]. split; [vm_compute; split; congruence|]. split; [apply l_demo_unlocked; lia|].
  split; [done|]. split; [vm_compute; congruence|]. split; [done|]. split; [done|]. split; [done|]. split; [done|].
  split; [apply fs_file|]. split; [apply fs_layout|]. split; [apply fs_lengths|]. split; [apply fs_at_rest|]. split; [done|].
  split; [apply demo_contents|]. vm_compute. lia.
Qed.

Lemma filewrite_writes_witness : exists k' V' ws, filewrite no_devs false 0 [7; 8; 9] 3 k_demo = Ret 3 k' /\
  opened 16 11 sb_demo k' V' ws (disk_after (rd fs_image) ws) 0 (set_f_off 4 fa_demo) 2 [120; 7; 8; 9] 0 /\
  rounds_written 16 sb_demo (rd fs_image) ws 2 1 [7; 8; 9] [120; 121; 122].
Proof.
  destruct (filewrite_writes 16 11 sb_demo no_devs false k_demo V_demo [] (rd fs_image) 0 fa_demo 2 [120; 121; 122] 4 [7; 8; 9])
    as (k' & V' & ws & E & Hop & Hrw & _).
  - vm_compute. congruence.
  - apply demo_opened.
  - reflexivity.
  - reflexivity.
  - vm_compute. congruence.
  - vm_compute. lia.
  - exists k', V', ws. split; [exact E|]. split; [exact Hop|exact Hrw].
Defined.

Lemma fileread_reads_witness : exists k', fileread no_devs false 0 5 k_demo = Ret (Some [121; 122]) k' /\
  opened 16 11 sb_demo k' V_demo [] (rd fs_image) 0 (set_f_off 3 fa_demo) 2 [120; 121; 122] 4.
Proof.
  destruct (fileread_reads 16 11 sb_demo no_devs false k_demo V_demo [] (rd fs_image) 0 fa_demo 2 [120; 121; 122] 4 5)
    as (k' & E & Hop & _).
  - apply demo_opened.
  - reflexivity.
  - reflexivity.
  - lia.
  - vm_compute. reflexivity.
  - exists k'. split; [exact E|exact Hop].
Defined.

Lemma filedup_fileclose_witness : exists k1 k2, filedup 0 k_demo = Ret 0%nat k1 /\ fileclose 0 k1 = Ret tt k2 /\ ftable k2 = ftable k_demo.
Proof.
  destruct (filedup_fileclose k_demo 0 fa_demo) as (k1 & k2 & E1 & _ & E2 & _ & _ & _ & Ht & _).
  - apply l_demo_unlocked. lia.
  - reflexivity.
  - vm_compute. congruence.
  - exists k1, k2. split; [exact E1|]. split; [exact E2|exact Ht].
Defined.

Lemma fileclose_unreferenced_witness : fileclose 2 k_demo = Panic "fileclose" /\ filedup 2 k_demo = Panic "filedup".
Proof.
  apply (fileclose_unreferenced k_demo 2 no_file).
  - apply l_demo_unlocked. lia.
  - reflexivity.
  - vm_compute. reflexivity.
Defined.

Lemma fileclose_unlinked_witness : exists k' V' ws, fileclose 1 k_demo = Ret tt k' /\
  at_rest 16 11 V' ws (disk_after (rd fs_image) ws) (store (fsys k')) /\ inode_freed sb_demo V_demo V' i_orphan {[0 := 7]}.
Proof.
  destruct (fileclose_unlinked 16 11 sb_demo k_demo l_demo ci_demo log_idle 1 fo_demo i_orphan {[0 := 7]} V_demo [] (rd fs_image))
    as (k' & V' & ws & E & _ & Hr & Hfr & _).
  - vm_compute. congruence.
  - reflexivity.
  - apply l_demo_unlocked. lia.
  - apply l_demo_unlocked. lia.
  - reflexivity.
  - reflexivity.
  - reflexivity.
  - reflexivity.
  - reflexivity.
  - reflexivity.
  - reflexivity.
  - reflexivity.
  - apply fs_orphan.
  - apply fs_layout.
  - apply fs_lengths.
  - apply fs_at_rest.
  - exists k', V', ws. split; [exact E|]. split; [exact Hr|exact Hfr].
Defined.

Lemma fileclose_last_witness : exists k' ws, fileclose 0 k_demo = Ret tt k' /\
  at_rest 16 11 V_demo ws (disk_after (rd fs_image) ws) (store (fsys k')).
Proof.
  destruct (fileclose_last 16 11 k_demo l_demo ci_demo log_idle 0 fa_demo (set_i_flags false true i_demo) V_demo [] (rd fs_image))
    as (k' & ws & E & _ & _ & Hr & _).
  - reflexivity.
  - apply l_demo_unlocked. lia.
  - apply l_demo_unlocked. lia.
  - reflexivity.
  - reflexivity.
  - reflexivity.
  - reflexivity.
  - reflexivity.
  - apply fs_at_rest.
  - exists k', ws. split; [exact E|exact Hr].
Defined.

Lemma k_demo_table : table_ok (ftable k_demo).
Proof. intros [|[|[|[|f]]]] x Hx Hr; simpl in Hx; by simplify_eq. Qed.

Lemma pipealloc_spec_witness : exists f g k', pipealloc (replicate 512 0) k_demo = Ret (Some (f, g)) k' /\ pages k' = [].
Proof.
  destruct (pipealloc_spec k_demo (replicate 512 0)) as [(k' & _ & _ & [Hp|Hone])|(f & g & x & z & p & ps & k' & E & _ & _ & _ & _ & _ & Hp & Hps & _)].
  - apply l_demo_unlocked. lia.
  - apply k_demo_table.
  - discriminate Hp.
  - discriminate (Hone 2%nat 3%nat no_file no_file eq_refl eq_refl eq_refl eq_refl).
  - exists f, g, k'. split; [exact E|]. injection Hp as _ <-. exact Hps.
Defined.
