(* ===== verification/Mkfs.v ===== *)
(** * The tool that makes the disk image (mkfs.c)

    The image is a map from block numbers to blocks of 512 bytes.  A failed
    assertion and a failed read of the image end the program: they are panics.
    The host is little-endian, as the x86.  The sizes that mkfs.c has in
    global variables are arguments.  A file of the command line is its name and
    what successive calls of read return for it, or nothing when it cannot be
    opened. *)
From S2P Require Import Prelude Mmu Spinlock Strings Bytes BlockCache Store Fs.

(** convert to intel byte order *)
Definition xshort (x : Z) : Z := x mod 256 + 256 * (Z.shiftr x 8 mod 256).
Definition xint (x : Z) : Z :=
  of_le4 (x mod 256) (Z.shiftr x 8 mod 256) (Z.shiftr x 16 mod 256) (Z.shiftr x 24 mod 256).

(** The file of the image and the global counters. *)
Record mkst := Mkst {
  img : gmap Z (list Z);
  freeblock : Z;
  usedblocks : Z;
  freeinode : Z
}.

Definition set_img (v : gmap Z (list Z)) (s : mkst) : mkst := Mkst v (freeblock s) (usedblocks s) (freeinode s).
Definition set_freeblock (v : Z) (s : mkst) : mkst := Mkst (img s) v (usedblocks s) (freeinode s).
Definition set_usedblocks (v : Z) (s : mkst) : mkst := Mkst (img s) (freeblock s) v (freeinode s).
Definition set_freeinode (v : Z) (s : mkst) : mkst := Mkst (img s) (freeblock s) (usedblocks s) v.

Abbreviation MK := (M mkst).

Definition assert (b : bool) : MK unit := if b then ret tt else panic "assert".

Definition wsect (sec : Z) (buf : list Z) : MK unit := modify (fun s => set_img (<[sec := buf]> (img s)) s).

Definition rsect (sec : Z) : MK (list Z) :=
  b <~ gets (fun s => img s !! sec);;;
  match b with Some buf => ret buf | None => panic "read" end.

Definition i2b (inum : Z) : Z := inum / IPB + 2.

Definition winode (inum : Z) (ip : dinode) : MK unit :=
  let bn := i2b inum in
  buf <~ rsect bn;;;
  wsect bn (splice (Z.to_nat (64 * (inum mod IPB))) (dinode_bytes ip) buf).

Definition rinode (inum : Z) : MK dinode :=
  let bn := i2b inum in
  buf <~ rsect bn;;;
  gets_opt (fun _ => get_dinode buf (Z.to_nat (64 * (inum mod IPB)))).

Definition ialloc (type : Z) : MK Z :=
  inum <~ gets freeinode;;;
  modify (set_freeinode (u32 (inum + 1)));;;
  winode inum (Dinode (xshort type) 0 0 (xshort 1) (xint 0) (replicate 13 0));;;
  ret inum.

(** The bitmap whose first [used] bits are set. *)
Definition bitmap (used : Z) : list Z := foldl (fun d i => set_bit i d) (replicate 512 0) (seqZ 0 used).

Definition balloc (ninodes used : Z) : MK unit :=
  assert (used <? 512 * 8);;;
  wsect (ninodes / IPB + 3) (bitmap used).

(** [xint(freeblock++)] with [usedblocks++] *)
Definition grab : MK Z :=
  x <~ gets freeblock;;;
  modify (set_freeblock (u32 (x + 1)));;;
  modify (fun s => set_usedblocks (u32 (usedblocks s + 1)) s);;;
  ret (xint x).

(** Entry [k] of [addrs], filled when it is empty. *)
Definition addr_entry (din : dinode) (k : Z) : MK (dinode * Z) :=
  a <~ gets_opt (fun _ => rd (d_addrs din) k);;;
  if xint a =? 0 then
    x <~ grab;;;
    ret (set_d_addrs (<[Z.to_nat k := x]> (d_addrs din)) din, xint x)
  else ret (din, xint a).

(** Entry [k] of the indirect block [ib], filled when it is empty. *)
Definition indirect_slot (ib k : Z) : MK Z :=
  indirect <~ rsect ib;;;
  a <~ gets_opt (fun _ => get32 indirect (Z.to_nat (4 * k)));;;
  if a =? 0 then
    x <~ grab;;;
    wsect ib (put32 (Z.to_nat (4 * k)) x indirect);;;
    ret (xint x)
  else ret (xint a).

(** The block of the image for block [fbn] of the file. *)
Definition file_block (din : dinode) (fbn : Z) : MK (dinode * Z) :=
  if fbn <? NDIRECT then addr_entry din fbn
  else
    p <~ addr_entry din NDIRECT;;;
    let '(din, ib) := p in
    x <~ indirect_slot ib (fbn - NDIRECT);;;
    ret (din, x).

Fixpoint append_loop (fuel : nat) (din : dinode) (off : Z) (p : list Z) : MK (dinode * Z) :=
  match fuel with
  | O => hang
  | S fuel' =>
      if Z.of_nat (length p) =? 0 then ret (din, off)
      else
        let fbn := off / 512 in
        assert (fbn <? MAXFILE);;;
        q <~ file_block din fbn;;;
        let '(din, x) := q in
        let n1 := Z.to_nat (Z.min (Z.of_nat (length p)) ((fbn + 1) * 512 - off)) in
        buf <~ rsect x;;;
        wsect x (splice (Z.to_nat (off - fbn * 512)) (take n1 p) buf);;;
        append_loop fuel' din (u32 (off + Z.of_nat n1)) (drop n1 p)
  end.

Definition iappend (inum : Z) (p : list Z) : MK unit :=
  din <~ rinode inum;;;
  r <~ append_loop (S (length p)) din (xint (d_size din)) p;;;
  let '(din, off) := r in
  winode inum (set_d_size (xint off) din).

(** struct dirent with a name copied into it. *)
Definition mk_dirent (inum : Z) (name : list Z) : list Z := le2 (xshort inum) ++ name.

(** A file of the command line: its name and what read gives until its end,
    where it gives nothing; no file when it cannot be opened. *)
Record mkfile := Mkfile { mf_name : list Z; mf_reads : option (list (list Z)) }.

Definition UNDERSCORE : Z := 95.
Definition skip_underscore (name : list Z) : list Z :=
  match name with c :: name' => if c =? UNDERSCORE then name' else name | [] => [] end.

Fixpoint append_reads (inum : Z) (chunks : list (list Z)) : MK unit :=
  match chunks with
  | [] => ret tt
  | c :: chunks' => iappend inum c;;; append_reads inum chunks'
  end.

Definition add_file (rootino : Z) (f : mkfile) : MK unit :=
  assert (negb (bool_decide (SLASH ∈ mf_name f)));;;
  match mf_reads f with
  | None => panic "open"
  | Some chunks =>
      inum <~ ialloc T_FILE;;;
      name <~ gets_opt (fun _ => strncpy (cstr (skip_underscore (mf_name f))) (Z.of_nat DIRSIZ));;;
      iappend rootino (mk_dirent inum name);;;
      append_reads inum chunks
  end.

Fixpoint add_files (rootino : Z) (files : list mkfile) : MK unit :=
  match files with
  | [] => ret tt
  | f :: files' => add_file rootino f;;; add_files rootino files'
  end.

Definition dot_name (dots : nat) : list Z := replicate dots 46 ++ replicate (DIRSIZ - dots) 0.

(** fix size of root inode dir *)
Definition fix_root (rootino : Z) : MK unit :=
  din <~ rinode rootino;;;
  let off := xint (d_size din) in
  let off := u32 ((off / BSIZE + 1) * BSIZE) in
  winode rootino (set_d_size (xint off) din).

Definition zeroes : list Z := replicate 512 0.

Definition super (nblocks nlog ninodes size : Z) : list Z :=
  le4 (xint size) ++ le4 (xint nblocks) ++ le4 (xint ninodes) ++ le4 (xint nlog).

(** The empty image: zeroed, with the superblock. *)
Definition format (nblocks nlog ninodes size : Z) : MK unit :=
  let bitblocks := size / (512 * 8) + 1 in
  let used := ninodes / IPB + 3 + bitblocks in
  modify (set_usedblocks used);;;
  modify (set_freeblock used);;;
  assert (u32 (nblocks + used + nlog) =? u32 size);;;
  mfor (seqZ 0 (u32 (nblocks + used + nlog))) (fun i => wsect i zeroes);;;
  wsect 1 (splice 0 (super nblocks nlog ninodes size) zeroes).

Definition main (nblocks nlog ninodes size : Z) (files : list mkfile) : MK unit :=
  format nblocks nlog ninodes size;;;
  rootino <~ ialloc T_DIR;;;
  assert (rootino =? ROOTINO);;;
  iappend rootino (mk_dirent rootino (dot_name 1));;;
  iappend rootino (mk_dirent rootino (dot_name 2));;;
  add_files rootino files;;;
  fix_root rootino;;;
  used <~ gets usedblocks;;;
  balloc ninodes used.

(** [uint freeinode = 1], the other variables are zero. *)
Definition mkfs_start : mkst := Mkst ∅ 0 0 1.
