(* ===== verification/MkfsSpec.v ===== *)
(** * Making an image: the files under construction (mkfs.c)

    While mkfs runs, the blocks below [freeblock] are taken and the bitmap is
    not written yet.  [full] is the image with the bitmap that the program will
    write at the end; in its terms the image under construction is a disk as
    the kernel sees it, and taking the next block is the step of the kernel's
    allocator.  So the lemmas of [FsFile] about files on such a disk apply to
    what [iappend] does. *)
From S2P Require Import Prelude Mmu Spinlock Strings Bytes BlockCache Store Fs FsBlocks FsInode FsFile Mkfs.

(** ** Byte order and the bitmap *)

Lemma xint_u32 x : xint x = u32 x.
Proof. unfold xint. rewrite !Z.shiftr_div_pow2 by lia. apply of_le4_le4. Qed.

Lemma xint_id x : uint x -> xint x = x.
Proof. intros Hx. rewrite xint_u32. by apply u32_small. Qed.

Lemma xshort_id x : 0 <= x < 65536 -> xshort x = x.
Proof.
  intros Hx. unfold xshort. rewrite Z.shiftr_div_pow2 by lia. change (2 ^ 8) with 256.
  rewrite (Z.mod_small (x / 256)); [pose proof (Z.div_mod x 256 ltac:(lia)); lia|].
  pose proof (Z.div_pos x 256 ltac:(lia) ltac:(lia)). split; [done|]. apply Z.div_lt_upper_bound; lia.
Qed.

Lemma bitmap_succ n : 0 <= n -> bitmap (n + 1) = set_bit n (bitmap n).
Proof.
  intros Hn. unfold bitmap. rewrite seqZ_app by lia. rewrite foldl_app. done.
Qed.

Lemma bitmap_spec n : 0 <= n <= 4096 ->
  length (bitmap n) = 512%nat /\ forall j, 0 <= j -> bit (bitmap n) j = (j <? n).
Proof.
  intros [H0 Hn]. revert Hn. pattern n. apply natlike_ind; [| |done].
  - intros _. split; [done|]. intros j Hj. rewrite (proj2 (Z.ltb_ge j 0)) by lia. unfold bit, rd.
    case_decide; [|done]. change (bitmap 0) with (replicate 512 0).
    destruct (replicate 512 0 !! Z.to_nat (j / 8)) eqn:E; [|done]. apply lookup_replicate in E as [-> _]. apply Z.bits_0.
  - intros m Hm IH Hs. unfold Z.succ in *. destruct (IH ltac:(lia)) as [Hl Hb]. rewrite bitmap_succ by done. split.
    + unfold set_bit. by rewrite length_alter.
    + intros j Hj. rewrite bit_set by (done || lia). rewrite Hb by done. lia.
Qed.

Section Build.
Context (nblocks nlog ninodes size : Z).

(** The sizes fit together; one block holds the bitmap. *)
Record sizes_ok : Prop := {
  so_nblocks : 0 <= nblocks;
  so_nlog : 0 <= nlog;
  so_ninodes : 0 <= ninodes;
  so_size : size < 4096;
  so_sum : nblocks + (ninodes / IPB + 4) + nlog = size
}.
Context (sizes : sizes_ok).

Definition msb : superblock := Superblock size nblocks ninodes nlog.
Abbreviation bb := (bblock msb 0).

(** The first data block. *)
Definition first_data : Z := ninodes / IPB + 4.

Lemma single : sb_size msb <= BPB.
Proof. simpl. pose proof (so_size sizes). change BPB with 4096. lia. Qed.

Lemma bb_eq : bb = ninodes / IPB + 3.
Proof. unfold bblock, BBLOCK. simpl. by rewrite Z.div_0_l. Qed.

Lemma inode_blocks : 0 <= ninodes / IPB.
Proof. apply Z.div_pos; [apply sizes|done]. Qed.

Lemma data_end_eq : data_end msb = first_data + nblocks.
Proof.
  unfold data_end, first_data. simpl. pose proof (so_sum sizes). pose proof (so_nlog sizes). rewrite Z.max_r by lia. lia.
Qed.

Lemma data_block_from x : first_data <= x < size -> data_block msb x.
Proof.
  pose proof inode_blocks as Hb. pose proof (so_size sizes). unfold first_data. intros Hx. split; [lia|lia| |].
  - intros y Hy. rewrite (one_bitmap msb single) by done. rewrite bb_eq. lia.
  - intros i Hi. simpl in Hi. unfold IBLOCK. pose proof (Z.div_le_mono i ninodes IPB ltac:(done) ltac:(lia)). lia.
Qed.

Lemma iblock_low inum : 0 <= inum < ninodes -> 2 <= IBLOCK inum < bb.
Proof.
  intros Hi. rewrite bb_eq. unfold IBLOCK. pose proof (Z.div_pos inum IPB ltac:(lia) ltac:(done)).
  pose proof (Z.div_le_mono inum ninodes IPB ltac:(done) ltac:(lia)). lia.
Qed.

(** ** The image with its bitmap *)

Definition full (s : mkst) : gmap Z (list Z) := <[bb := bitmap (freeblock s)]> (img s).

Record mk_inv (s : mkst) : Prop := {
  mi_free : first_data <= freeblock s <= data_end msb;
  mi_used : usedblocks s = freeblock s;
  mi_disk : forall y, 0 <= y < size -> is_Some (img s !! y);
  mi_len : lengths (img s);
  mi_zero : forall y, freeblock s <= y < data_end msb -> img s !! y = Some (replicate 512 0);
  mi_sb : sb_at (img s) msb
}.

Lemma full_ne s y : y <> bb -> full s !! y = img s !! y.
Proof. intros Hy. apply lookup_insert_ne. congruence. Qed.

Lemma free_bound s : mk_inv s -> 0 <= freeblock s <= size /\ bb < first_data <= freeblock s /\ 3 <= bb.
Proof.
  intros Hi. pose proof (mi_free s Hi) as Hf. pose proof inode_blocks. pose proof (so_nlog sizes). pose proof (so_sum sizes).
  rewrite data_end_eq in Hf. rewrite bb_eq. unfold first_data in *. lia.
Qed.

Lemma full_used s y : mk_inv s -> 0 <= y < size -> used msb (full s) y = (y <? freeblock s).
Proof.
  intros Hi Hy. unfold used. rewrite (one_bitmap msb single) by done. unfold full. rewrite lookup_insert_eq.
  pose proof (so_size sizes). pose proof (free_bound s Hi). change BPB with 4096. rewrite Z.mod_small by lia.
  apply bitmap_spec; lia.
Qed.

Lemma full_len s : mk_inv s -> lengths (full s).
Proof.
  intros Hi. apply lengths_insert; [apply Hi|]. apply bitmap_spec. pose proof (free_bound s Hi). pose proof (so_size sizes). lia.
Qed.

Lemma full_some s y : mk_inv s -> 0 <= y < size -> is_Some (full s !! y).
Proof. intros Hi Hy. apply lookup_insert_is_Some. destruct (decide (bb = y)); [by left|right]. split; [done|]. by apply Hi. Qed.

Lemma full_layout s : mk_inv s -> layout msb (full s).
Proof.
  intros Hi. pose proof (free_bound s Hi) as (Hf1 & Hf2 & Hf3). pose proof (so_size sizes). split.
  - destruct (mi_sb s Hi) as (d & Hd & Hp). exists d. split; [|done]. by rewrite full_ne by lia.
  - simpl. lia.
  - apply sizes.
  - intros x Hx _. apply full_some; [done|]. by apply (data_end_size msb).
  - intros x Hx. rewrite (one_bitmap msb single) by done. unfold full. rewrite lookup_insert_eq. by eexists.
  - intros x Hx Hu. apply (data_end_size msb) in Hx as Hx'. rewrite full_used in Hu by done.
    apply data_block_from. simpl in Hx'. lia.
Qed.

Lemma full_first s : mk_inv s -> freeblock s < data_end msb -> first_free msb (full s) (freeblock s).
Proof.
  intros Hi Hlt. pose proof (free_bound s Hi) as (Hf1 & Hf2 & Hf3). assert (Hd : 0 <= freeblock s < data_end msb) by lia.
  pose proof (data_end_size msb _ Hd) as Hsz. simpl in Hsz. split_and!; [lia|lia| |].
  - rewrite full_used by done. lia.
  - intros y Hy. rewrite full_used by (done || lia). lia.
Qed.

(** [grab] is the kernel's allocation. *)
Definition grabbed (s : mkst) : mkst := Mkst (img s) (freeblock s + 1) (freeblock s + 1) (freeinode s).

Lemma grab_run s : mk_inv s -> freeblock s < data_end msb ->
  grab s = Ret (freeblock s) (grabbed s) /\ mk_inv (grabbed s) /\ full (grabbed s) = allocated msb (full s) (freeblock s).
Proof.
  intros Hi Hlt. pose proof (free_bound s Hi) as (Hf1 & Hf2 & Hf3). pose proof (so_size sizes).
  assert (Hd : 0 <= freeblock s < data_end msb) by lia. split_and!.
  - unfold grab. rewrite bind_gets, !bind_modify. unfold ret, set_freeblock, set_usedblocks, grabbed. simpl.
    rewrite (mi_used s Hi), xint_id, u32_small by (unfold uint; lia). done.
  - split; try apply Hi; simpl; [lia|done|]. intros y Hy. apply Hi. lia.
  - unfold allocated, full, grabbed. simpl. rewrite (one_bitmap msb single (freeblock s)) by by apply (data_end_size msb).
    rewrite lookup_insert_eq, insert_insert_eq. simpl. change BPB with 4096. rewrite Z.mod_small by lia.
    rewrite bitmap_succ by lia. rewrite insert_insert_ne by lia. f_equal. symmetry. apply insert_id, Hi. lia.
Qed.

(** Reading and writing blocks. *)
Lemma rsect_run s a d : full s !! a = Some d -> a <> bb -> rsect a s = Ret d s.
Proof. intros Hd Ha. rewrite full_ne in Hd by done. unfold rsect. rewrite bind_gets. by rewrite Hd. Qed.

Definition written (a : Z) (d : list Z) (s : mkst) : mkst := set_img (<[a := d]> (img s)) s.

Lemma written_run s a d : mk_inv s -> a <> bb -> a <> 1 -> a < freeblock s -> length d = 512%nat ->
  wsect a d s = Ret tt (written a d s) /\ mk_inv (written a d s) /\ full (written a d s) = <[a := d]> (full s).
Proof.
  intros Hi Ha Ha1 Hlt Hl. split_and!; [done| |].
  - destruct Hi as [H1 H2 H3 H4 H5 (e & He & Hp)]. split; try done; simpl.
    + intros y Hy. apply lookup_insert_is_Some. destruct (decide (a = y)); [by left|right; auto].
    + by apply lengths_insert.
    + intros y Hy. rewrite lookup_insert_ne by lia. by apply H5.
    + exists e. by rewrite lookup_insert_ne.
  - unfold full, written. simpl. apply insert_insert_ne. congruence.
Qed.

Lemma owned_below s a : mk_inv s -> owned msb (full s) a -> a <> bb /\ a <> 1 /\ a < freeblock s /\ uint a /\ a <> 0.
Proof.
  intros Hi Ho. pose proof (ow_range _ _ _ Ho) as Hr. simpl in Hr. pose proof (ow_used _ _ _ Ho) as Hu.
  rewrite full_used in Hu by done. pose proof (so_size sizes).
  split_and!; [by eapply (owned_bb msb single)|apply Ho|lia|unfold uint; lia|apply Ho].
Qed.

(** ** The block of a file *)

Lemma addr_found s din k a : rd (d_addrs din) k = Some a -> uint a -> a <> 0 -> addr_entry din k s = Ret (din, a) s.
Proof.
  intros Ha Hu Hne. unfold addr_entry. erewrite bind_gets_opt by exact Ha. rewrite xint_id by done.
  by rewrite (proj2 (Z.eqb_neq a 0) Hne).
Qed.

Lemma addr_new s din k : rd (d_addrs din) k = Some 0 -> mk_inv s -> freeblock s < data_end msb ->
  addr_entry din k s = Ret (set_d_addrs (<[Z.to_nat k := freeblock s]> (d_addrs din)) din, freeblock s) (grabbed s).
Proof.
  intros Ha Hi Hlt. unfold addr_entry. erewrite bind_gets_opt by exact Ha. change (xint 0 =? 0) with true. cbv iota.
  destruct (grab_run s Hi Hlt) as [E _]. rewrite (bind_Ret _ _ _ _ _ E). pose proof (free_bound s Hi). pose proof (so_size sizes).
  rewrite xint_id by (unfold uint; lia). done.
Qed.

(** The new blocks that block [n] of the file takes. *)
Definition block_cost (addrs : list Z) (bm : gmap Z Z) (n : Z) : Z :=
  match bm !! n with
  | Some _ => 0
  | None => if (NDIRECT <=? n) && (ind addrs =? 0) then 2 else 1
  end.

Lemma set_addrs_same din : set_d_addrs (d_addrs din) din = din.
Proof. by destruct din. Qed.

Lemma indirect_slot_run s addrs bm n :
  mk_inv s -> file_ok msb (full s) addrs bm -> ind addrs <> 0 -> NDIRECT <= n < MAXFILE ->
  freeblock s + (if bm !! n then 0 else 1) <= data_end msb ->
  exists a s', indirect_slot (ind addrs) (n - NDIRECT) s = Ret a s' /\ mk_inv s' /\
    grows msb (full s) (full s') addrs addrs bm (<[n := a]> bm) /\
    freeblock s' = freeblock s + (if bm !! n then 0 else 1) /\ freeinode s' = freeinode s.
Proof.
  intros Hi Hf Hne Hn Hfree. destruct (fo_ind _ _ _ _ Hf Hne) as [Hoi Hno]. destruct (ow_disk _ _ _ Hoi) as [d Hd].
  destruct (owned_below s _ Hi Hoi) as (Hib & Hi1 & Hilt & _). pose proof (full_len s Hi _ _ Hd) as Hdl.
  pose proof (entry_indirect msb _ _ _ n d Hf Hne Hn Hd Hdl) as Hget.
  unfold indirect_slot. rewrite (bind_Ret _ _ _ _ _ (rsect_run s _ d Hd Hib)). erewrite bind_gets_opt by exact Hget.
  destruct (bm !! n) as [a|] eqn:Hbn; simpl.
  - destruct (fo_dom _ _ _ _ Hf n a Hbn) as [_ Hoa]. destruct (owned_below s _ Hi Hoa) as (_ & _ & _ & Hu & Hne').
    rewrite (proj2 (Z.eqb_neq a 0) Hne'), xint_id by done. exists a, s. split_and!; [done|done| |lia|done].
    rewrite insert_id by done. apply grows_refl; [by apply full_layout|by apply full_len|done].
  - destruct (grab_run s Hi ltac:(lia)) as (E & Hi' & Efull). rewrite (bind_Ret _ _ _ _ _ E).
    destruct (grows_indirect msb single (full s) addrs bm n (freeblock s) d (full_layout s Hi) (full_len s Hi)
      (full_first s Hi ltac:(lia)) Hf Hne Hn Hd Hbn) as (_ & _ & Hg).
    destruct (written_run (grabbed s) (ind addrs) (put32 (Z.to_nat (4 * (n - NDIRECT))) (freeblock s) d) Hi' Hib Hi1)
      as (E2 & Hi2 & Efull2).
    { simpl. lia. }
    { rewrite length_put32; [done|]. change NDIRECT with 12 in *. change MAXFILE with 140 in *. lia. }
    rewrite (bind_Ret _ _ _ _ _ E2). pose proof (free_bound s Hi). pose proof (so_size sizes).
    rewrite xint_id by (unfold uint; lia). do 2 eexists. split; [done|]. split; [done|]. rewrite Efull2, Efull. done.
Qed.

Lemma file_block_run s din bm n :
  mk_inv s -> file_ok msb (full s) (d_addrs din) bm -> 0 <= n < MAXFILE ->
  freeblock s + block_cost (d_addrs din) bm n <= data_end msb ->
  exists a s' addrs', file_block din n s = Ret (set_d_addrs addrs' din, a) s' /\ mk_inv s' /\
    grows msb (full s) (full s') (d_addrs din) addrs' bm (<[n := a]> bm) /\
    freeblock s' = freeblock s + block_cost (d_addrs din) bm n /\ freeinode s' = freeinode s /\
    (ind addrs' <> 0 <-> ind (d_addrs din) <> 0 \/ NDIRECT <= n).
Proof.
  intros Hi Hf Hn Hfree. pose proof (full_layout s Hi) as Hlo. pose proof (full_len s Hi) as Hlen. unfold file_block, block_cost in *.
  destruct (Z.ltb_spec n NDIRECT) as [Hlt|Hge].
  - rewrite (proj2 (Z.leb_gt NDIRECT n) Hlt) in *. simpl in Hfree.
    pose proof (entry_direct msb _ _ _ n Hf ltac:(lia)) as Hrd. destruct (bm !! n) as [a|] eqn:Hbn.
    + destruct (fo_dom _ _ _ _ Hf n a Hbn) as [_ Hoa]. destruct (owned_below s _ Hi Hoa) as (_ & _ & _ & Hu & Hne').
      exists a, s, (d_addrs din). rewrite (addr_found s din n a), set_addrs_same by done. split_and!; [done|done| |lia|done|].
      * rewrite insert_id by done. by apply grows_refl.
      * split; [by left|]. intros [?|?]; [done|lia].
    + destruct (grab_run s Hi ltac:(lia)) as (_ & Hi' & Efull). pose proof (full_first s Hi ltac:(lia)) as Hff.
      exists (freeblock s), (grabbed s), (<[Z.to_nat n := freeblock s]> (d_addrs din)). rewrite addr_new by first [done|lia].
      rewrite Efull. split_and!; [done|done|apply (grows_direct msb single); (done || lia)|done|done|].
      rewrite (ind_insert _ n) by (change NDIRECT with 12 in *; lia). split; [by left|]. intros [?|?]; [done|lia].
  - rewrite (proj2 (Z.leb_le NDIRECT n) Hge) in *. simpl in Hfree. pose proof (entry_ind msb _ _ _ Hf) as Hrd.
    destruct (Z.eqb_spec (ind (d_addrs din)) 0) as [Hz|Hne].
    + rewrite Hz in Hrd. assert (Hbn : bm !! n = None) by by apply (fo_high _ _ _ _ Hf). rewrite Hbn in *. simpl in *.
      pose proof (full_first s Hi ltac:(lia)) as Hff. destruct (grab_run s Hi ltac:(lia)) as (_ & Hi' & Efull).
      pose proof (grows_new_ind msb single (full s) (d_addrs din) bm _ Hlo Hlen Hff Hf Hz) as Hg1. rewrite <- Efull in Hg1.
      rewrite (bind_Ret _ _ _ _ _ (addr_new s din NDIRECT Hrd Hi ltac:(lia))). cbv iota beta.
      set (addrs1 := <[Z.to_nat NDIRECT := freeblock s]> (d_addrs din)) in *.
      assert (Hi0 : ind addrs1 = freeblock s) by (apply ind_set, Hf). pose proof (free_bound s Hi).
      destruct (indirect_slot_run (grabbed s) addrs1 bm n Hi' (gr_file _ _ _ _ _ _ _ Hg1)) as (a & s' & E & Hi2 & Hg2 & Hfb & Hfi);
        [lia|lia|rewrite Hbn; simpl; lia|].
      rewrite Hi0 in E. rewrite (bind_Ret _ _ _ _ _ E). rewrite Hbn in Hfb. simpl in Hfb.
      exists a, s', addrs1. split_and!; [done|done| |lia|done|lia].
      apply (grows_ind msb _ (full (grabbed s)) _ _ addrs1 bm); try done. rewrite Hi0. by apply first_free_in.
    + destruct (fo_ind _ _ _ _ Hf Hne) as [Hoi _]. destruct (owned_below s _ Hi Hoi) as (_ & _ & _ & Hu & _).
      rewrite (bind_Ret _ _ _ _ _ (addr_found s din NDIRECT _ Hrd Hu Hne)). cbv iota beta.
      destruct (indirect_slot_run s (d_addrs din) bm n Hi Hf Hne ltac:(lia)) as (a & s' & E & Hi2 & Hg2 & Hfb & Hfi); [done|].
      rewrite (bind_Ret _ _ _ _ _ E). exists a, s', (d_addrs din). rewrite set_addrs_same. split_and!; try done. split; [by left|done].
Qed.

(** ** Appending *)

(** The blocks of the content and of the whole file of [sz] bytes. *)
Definition nblk (sz : Z) : Z := (sz + 511) / 512.
Definition fcost (sz : Z) : Z := nblk sz + (if NDIRECT <? nblk sz then 1 else 0).

Lemma nblk_eq off : 0 <= off -> nblk off = if off mod 512 =? 0 then off / 512 else off / 512 + 1.
Proof.
  intros Ho. unfold nblk. pose proof (Z.div_mod off 512 ltac:(lia)). pose proof (Z.mod_pos_bound off 512 ltac:(lia)).
  symmetry. destruct (Z.eqb_spec (off mod 512) 0).
  - apply Z.div_unique with 511; lia.
  - apply Z.div_unique with (off mod 512 - 1); lia.
Qed.

Lemma nblk_step off m : 0 <= off -> 0 < m <= 512 - off mod 512 -> nblk (off + m) = off / 512 + 1.
Proof.
  intros Ho Hm. unfold nblk. pose proof (Z.div_mod off 512 ltac:(lia)). pose proof (Z.mod_pos_bound off 512 ltac:(lia)).
  symmetry. apply Z.div_unique with (off mod 512 + m - 1); lia.
Qed.

Lemma fcost_mono a b : a <= b -> fcost a <= fcost b.
Proof.
  intros Hab. unfold fcost, nblk. pose proof (Z.div_le_mono (a + 511) (b + 511) 512 ltac:(lia) ltac:(lia)).
  destruct (Z.ltb_spec NDIRECT ((a + 511) / 512)), (Z.ltb_spec NDIRECT ((b + 511) / 512)); lia.
Qed.

(** The file has exactly the blocks that [off] bytes need, zero after them. *)
Record exact (V : gmap Z (list Z)) (addrs : list Z) (bm : gmap Z Z) (off : Z) : Prop := {
  ex_dom : forall n, is_Some (bm !! n) <-> 0 <= n < nblk off;
  ex_ind : ind addrs <> 0 <-> NDIRECT < nblk off;
  ex_zero : forall o, off <= o -> is_Some (bm !! (o / BSIZE)) -> fbyte V bm o = Some 0
}.

Lemma block_cost_exact V addrs bm off m :
  exact V addrs bm off -> 0 <= off -> 0 < m <= 512 - off mod 512 ->
  block_cost addrs bm (off / 512) = fcost (off + m) - fcost off.
Proof.
  intros [Hd Hi _] Ho Hm. unfold block_cost, fcost. rewrite nblk_step by done. pose proof (nblk_eq off Ho) as En.
  pose proof (Z.div_pos off 512 ltac:(lia) ltac:(lia)). specialize (Hd (off / 512)). rewrite En in *.
  change NDIRECT with 12 in *. destruct (Z.eqb_spec (off mod 512) 0) as [Hz|Hz].
  - destruct (bm !! (off / 512)) as [a|]; [pose proof (proj1 Hd ltac:(by eexists)); lia|].
    destruct (Z.leb_spec 12 (off / 512)), (Z.eqb_spec (ind addrs) 0), (Z.ltb_spec 12 (off / 512)),
      (Z.ltb_spec 12 (off / 512 + 1)); simpl; lia.
  - destruct (bm !! (off / 512)) as [a|]; [lia|]. by destruct (proj2 Hd ltac:(lia)).
Qed.

Lemma exact_step V V' addrs addrs' bm off w a :
  wrote msb V V' addrs addrs' bm (<[off / 512 := a]> bm) off w -> exact V addrs bm off ->
  (ind addrs' <> 0 <-> ind addrs <> 0 \/ NDIRECT <= off / 512) -> 0 <= off ->
  0 < Z.of_nat (length w) <= 512 - off mod 512 ->
  exact V' addrs' (<[off / 512 := a]> bm) (off + Z.of_nat (length w)).
Proof.
  intros Hw [Hd Hi Hz] Hind Ho Hl. pose proof (Z.div_pos off 512 ltac:(lia) ltac:(lia)). pose proof (nblk_eq off Ho) as En.
  split.
  - intros n. rewrite nblk_step by done. rewrite lookup_insert_is_Some, Hd, En. destruct (Z.eqb_spec (off mod 512) 0); lia.
  - rewrite nblk_step by done. rewrite Hind, Hi, En. destruct (Z.eqb_spec (off mod 512) 0); lia.
  - intros o Hoo Hs. destruct (bm !! (o / BSIZE)) as [b|] eqn:E.
    + rewrite (wr_out _ _ _ _ _ _ _ _ _ Hw) by (rewrite ?E; (lia || by eexists)). apply Hz; [lia|]. by rewrite E.
    + apply (wr_zero _ _ _ _ _ _ _ _ _ Hw); [lia|done|done].
Qed.

Lemma append_step s din bm off w :
  mk_inv s -> file_ok msb (full s) (d_addrs din) bm -> exact (full s) (d_addrs din) bm off -> 0 <= off ->
  off / 512 < MAXFILE -> 0 < Z.of_nat (length w) <= 512 - off mod 512 ->
  freeblock s + fcost (off + Z.of_nat (length w)) - fcost off <= data_end msb ->
  exists x d s1 s2 addrs' bm',
    file_block din (off / 512) s = Ret (set_d_addrs addrs' din, x) s1 /\ rsect x s1 = Ret d s1 /\
    wsect x (splice (Z.to_nat (off mod 512)) w d) s1 = Ret tt s2 /\ mk_inv s2 /\
    wrote msb (full s) (full s2) (d_addrs din) addrs' bm bm' off w /\
    exact (full s2) addrs' bm' (off + Z.of_nat (length w)) /\
    freeblock s2 = freeblock s + fcost (off + Z.of_nat (length w)) - fcost off /\ freeinode s2 = freeinode s.
Proof.
  intros Hi Hf Hex Ho Hmax Hl Hfree. rewrite <- Z.add_sub_assoc in *.
  pose proof (block_cost_exact _ _ _ _ _ Hex Ho Hl) as Hc. rewrite <- Hc in *.
  pose proof (Z.div_pos off 512 ltac:(lia) ltac:(lia)). pose proof (Z.mod_pos_bound off 512 ltac:(lia)).
  destruct (file_block_run s din bm (off / 512) Hi Hf ltac:(lia) Hfree) as (x & s1 & addrs' & E & Hi1 & Hg & Hfb & Hfi & Hind).
  destruct (fo_dom _ _ _ _ (gr_file _ _ _ _ _ _ _ Hg) _ x (lookup_insert_eq _ _ _)) as [_ Hox].
  destruct (ow_disk _ _ _ Hox) as [d Hd]. destruct (owned_below s1 x Hi1 Hox) as (Hxb & Hx1 & Hxl & _).
  pose proof (full_len s1 Hi1 _ _ Hd) as Hdl.
  destruct (written_run s1 x (splice (Z.to_nat (off mod 512)) w d) Hi1 Hxb Hx1 Hxl) as (E2 & Hi2 & Ef).
  { rewrite length_splice; lia. }
  pose proof (wrote_block msb single (full s) (full s1) (d_addrs din) addrs' bm off w x d Hf Hg Hd Ho ltac:(change BSIZE with 512; lia)) as Hw.
  change BSIZE with 512 in Hw. rewrite <- Ef in Hw.
  exists x, d, s1, (written x (splice (Z.to_nat (off mod 512)) w d) s1), addrs', (<[off / 512 := x]> bm).
  split_and!; try done; [by apply rsect_run|by eapply exact_step].
Qed.

Lemma append_loop_run fuel s din bm off p :
  mk_inv s -> file_ok msb (full s) (d_addrs din) bm -> exact (full s) (d_addrs din) bm off -> 0 <= off ->
  off + Z.of_nat (length p) <= MAXFILE * 512 -> (length p < fuel)%nat ->
  freeblock s + fcost (off + Z.of_nat (length p)) - fcost off <= data_end msb ->
  exists s' addrs' bm',
    append_loop fuel din off p s = Ret (set_d_addrs addrs' din, off + Z.of_nat (length p)) s' /\ mk_inv s' /\
    wrote msb (full s) (full s') (d_addrs din) addrs' bm bm' off p /\
    exact (full s') addrs' bm' (off + Z.of_nat (length p)) /\
    freeblock s' = freeblock s + fcost (off + Z.of_nat (length p)) - fcost off /\ freeinode s' = freeinode s.
Proof.
  revert s din bm off p. induction fuel as [|fuel IH]; intros s din bm off p Hi Hf Hex Ho Hmax Hfu Hfree; [lia|].
  cbn [append_loop]. destruct (Z.eqb_spec (Z.of_nat (length p)) 0) as [Hz|Hnz].
  { apply Nat2Z.inj with (m := 0%nat), length_zero_iff_nil in Hz as ->. simpl. rewrite Z.add_0_r in *.
    exists s, (d_addrs din), bm. rewrite set_addrs_same. split_and!; try done; [|lia].
    apply wrote_nil; [by apply full_layout|by apply full_len|done]. }
  pose proof (Z.div_mod off 512 ltac:(lia)). pose proof (Z.mod_pos_bound off 512 ltac:(lia)). change MAXFILE with 140 in *.
  rewrite (proj2 (Z.ltb_lt (off / 512) 140)) by lia. cbv zeta.
  replace ((off / 512 + 1) * 512 - off) with (512 - off mod 512) by lia. replace (off - off / 512 * 512) with (off mod 512) by lia.
  set (n1 := Z.to_nat (Z.min _ _)). set (w := take n1 p). assert (Hlw : length w = n1) by (unfold w; rewrite length_take; lia).
  assert (Hpl : Z.of_nat (length p) = Z.of_nat n1 + Z.of_nat (length (drop n1 p))) by (rewrite length_drop; lia).
  pose proof (fcost_mono (off + Z.of_nat n1) (off + Z.of_nat (length p)) ltac:(lia)) as Hmono.
  destruct (append_step s din bm off w Hi Hf Hex Ho) as (x & d & s1 & s2 & addrs1 & bm1 & E1 & E2 & E3 & Hi2 & Hw1 & Hex1 & Hfb1 & Hfi1);
    [change MAXFILE with 140; lia|lia|rewrite Hlw; lia|].
  change (assert true) with (ret (S := mkst) tt). rewrite bind_ret, (bind_Ret _ _ _ _ _ E1). cbv iota beta.
  rewrite (bind_Ret _ _ _ _ _ E2), (bind_Ret _ _ _ _ _ E3). rewrite u32_small by lia. rewrite Hlw in *.
  destruct (IH s2 (set_d_addrs addrs1 din) bm1 (off + Z.of_nat n1) (drop n1 p) Hi2 (wr_file _ _ _ _ _ _ _ _ _ Hw1) Hex1)
    as (s3 & addrs2 & bm2 & E4 & Hi3 & Hw2 & Hex2 & Hfb2 & Hfi2); [lia|lia|rewrite length_drop; lia|rewrite <- Z.add_assoc, <- Hpl; lia|].
  rewrite <- Z.add_assoc, <- Hpl in *. exists s3, addrs2, bm2. rewrite E4. split_and!; try done; [|lia|congruence].
  rewrite <- (take_drop n1 p). fold w. eapply (wrote_app msb); [exact Hw1|]. by rewrite Hlw.
Qed.

(** ** The files *)

Definition node (inum : Z) (d : dinode) : inode := Inode ROOTDEV inum 1 false true d.

Implicit Types N : gmap Z (dinode * gmap Z Z).

Record files_ok (s : mkst) N : Prop := {
  fk_inv : forall inum d bm, N !! inum = Some (d, bm) ->
    file_inv msb (full s) (node inum d) bm /\ exact (full s) (d_addrs d) bm (d_size d);
  fk_apart : forall i j d e bm bm', i <> j -> N !! i = Some (d, bm) -> N !! j = Some (e, bm') ->
    forall a, blocks (d_addrs d) bm a -> ~ blocks (d_addrs e) bm' a;
  fk_num : forall inum, is_Some (N !! inum) -> 0 < inum < freeinode s
}.

(** The bytes of a file. *)
Definition bytes_of (s : mkst) (f : dinode * gmap Z Z) : list Z := fbytes (full s) (snd f) 0 (d_size (fst f)).

Lemma rinode_run s inum d : mk_inv s -> disk_inode (full s) inum = Some d -> 0 <= inum < ninodes -> rinode inum s = Ret d s.
Proof.
  intros Hi Hd Hn. pose proof (iblock_low inum Hn). unfold disk_inode in Hd. unfold rinode. cbv zeta.
  destruct (full s !! IBLOCK inum) as [e|] eqn:E; [|done]. simpl in Hd. change (i2b inum) with (IBLOCK inum).
  erewrite bind_Ret by (apply rsect_run; [exact E|lia]). unfold gets_opt. change (Z.to_nat _) with (dinode_at inum). by rewrite Hd.
Qed.

Lemma winode_run s inum d : mk_inv s -> dinode_ok d -> 0 <= inum < ninodes ->
  exists s', winode inum d s = Ret tt s' /\ mk_inv s' /\ full s' = put_inode (full s) inum d /\
    freeblock s' = freeblock s /\ freeinode s' = freeinode s.
Proof.
  intros Hi Hd Hn. pose proof (iblock_low inum Hn). pose proof (free_bound s Hi) as (Hf1 & Hf2 & _).
  destruct (full_some s (IBLOCK inum) Hi ltac:(lia)) as [e He]. pose proof (full_len s Hi _ _ He) as Hel.
  destruct (dinode_slot d inum e Hd Hel) as (Hl & _).
  destruct (written_run s (IBLOCK inum) (splice (dinode_at inum) (dinode_bytes d) e) Hi ltac:(lia) ltac:(lia) ltac:(lia) Hl)
    as (E & Hi' & Ef). eexists. split_and!; [|exact Hi'| |done|done].
  - unfold winode. cbv zeta. change (i2b inum) with (IBLOCK inum).
    by erewrite bind_Ret by (apply rsect_run; [exact He|lia]).
  - rewrite Ef. unfold put_inode. by rewrite He.
Qed.

(** The blocks that a file gains were free. *)
Lemma wrote_blocks V V' addrs addrs' bm bm' off w a :
  wrote msb V V' addrs addrs' bm bm' off w -> blocks addrs' bm' a -> blocks addrs bm a \/ a ∈ free_set msb V.
Proof.
  intros Hw [[n Hn]|[-> Hne]].
  - destruct (bm !! n) as [b|] eqn:E.
    + left. left. exists n. pose proof (lookup_weaken _ _ _ _ E (wr_sub _ _ _ _ _ _ _ _ _ Hw)). congruence.
    + right. by eapply (wr_free _ _ _ _ _ _ _ _ _ Hw).
  - destruct (wr_ind _ _ _ _ _ _ _ _ _ Hw) as [E|Hin]; [|by right]. left. right. split; [by rewrite E|done].
Qed.

Lemma exact_bytes V V' addrs bm off : (forall o, fbyte V' bm o = fbyte V bm o) -> exact V addrs bm off -> exact V' addrs bm off.
Proof. intros Hb [H1 H2 H3]. split; [done|done|]. intros o Ho Hs. rewrite Hb. by apply H3. Qed.

Lemma bytes_same s s' d bm : (forall o, fbyte (full s') bm o = fbyte (full s) bm o) -> bytes_of s' (d, bm) = bytes_of s (d, bm).
Proof. intros Hb. unfold bytes_of, fbytes. apply list_fmap_ext. intros k x _. by rewrite Hb. Qed.

(** The other files after one of them was written. *)
Lemma others_after s s' N V1 inum d d' bm bm' addrs' off w j e b :
  files_ok s N -> N !! inum = Some (d, bm) -> N !! j = Some (e, b) -> j <> inum -> mk_inv s ->
  wrote msb (full s) V1 (d_addrs d) addrs' bm bm' off w -> full s' = put_inode V1 inum d' -> dinode_ok d' -> d_addrs d' = addrs' ->
  file_inv msb (full s') (node j e) b /\ exact (full s') (d_addrs e) b (d_size e) /\ bytes_of s' (e, b) = bytes_of s (e, b) /\
  forall a, blocks (d_addrs e) b a -> ~ blocks (d_addrs d') bm' a.
Proof.
  intros [Hinv Hap Hnum] HN HNj Hne Hi Hw Ef Hd' Ea. destruct (Hinv _ _ _ HN) as [Hf Hex]. destruct (Hinv _ _ _ HNj) as [Hfj Hexj].
  assert (Hst : stored V1 (full s') (node inum d) d') by (right; done).
  destruct (other_after msb single _ _ _ (node inum d) d' addrs' bm bm' off w (node j e) b Hw Hst Hd' (full_layout s Hi) Hf Hfj Hne) as [Hfj' _].
  { intros a. by apply (Hap inum j d e bm b). }
  destruct (wrote_other msb single _ _ _ _ _ _ _ _ _ _ Hw (fi_ok _ _ _ _ Hf) (fi_ok _ _ _ _ Hfj)) as [Hokj Hb].
  { intros a. by apply (Hap inum j d e bm b). }
  destruct (file_put msb single V1 inum d' _ _ (fi_inum _ _ _ _ Hf) Hokj) as [_ Hb'].
  assert (Hbb : forall o, fbyte (full s') b o = fbyte (full s) b o) by (intros o; by rewrite Ef, Hb', Hb).
  split_and!; [done|by eapply exact_bytes|by apply bytes_same|]. intros a Ha Ha'. rewrite Ea in Ha'.
  destruct (wrote_blocks _ _ _ _ _ _ _ _ _ Hw Ha') as [Hold|[_ Hfree]%elem_of_free]; [by eapply (Hap inum j d e bm b)|].
  pose proof (ow_used _ _ _ (blocks_owned msb _ _ _ _ (fi_ok _ _ _ _ Hfj) Ha)). congruence.
Qed.

(** The file [inum] before and after the bytes [p] were appended to it. *)
Record appended (s s' : mkst) N (inum : Z) (f : dinode * gmap Z Z) (p : list Z) (f' : dinode * gmap Z Z) : Prop := {
  ap_inv : mk_inv s';
  ap_files : files_ok s' (<[inum := f']> N);
  ap_bytes : bytes_of s' f' = bytes_of s f ++ p;
  ap_size : d_size (fst f') = d_size (fst f) + Z.of_nat (length p);
  ap_type : d_type (fst f') = d_type (fst f);
  ap_nlink : d_nlink (fst f') = d_nlink (fst f);
  ap_block : freeblock s' = freeblock s + fcost (d_size (fst f) + Z.of_nat (length p)) - fcost (d_size (fst f));
  ap_inode : freeinode s' = freeinode s;
  ap_others : forall j g, j <> inum -> N !! j = Some g -> bytes_of s' g = bytes_of s g
}.

Lemma iappend_run s N inum f p :
  mk_inv s -> files_ok s N -> N !! inum = Some f -> d_size (fst f) + Z.of_nat (length p) <= MAXFILE * 512 ->
  freeblock s + fcost (d_size (fst f) + Z.of_nat (length p)) - fcost (d_size (fst f)) <= data_end msb ->
  exists s' f', iappend inum p s = Ret tt s' /\ appended s s' N inum f p f'.
Proof.
  destruct f as [d bm]. simpl. intros Hi HN HNi Hmax Hfree. destruct (fk_inv _ _ HN _ _ _ HNi) as [Hf Hex]. pose proof (fi_inum _ _ _ _ Hf) as Hin. simpl in Hin.
  pose proof (di_size _ (fi_dinode _ _ _ _ Hf)) as Hsz. simpl in Hsz. unfold uint in Hsz. change MAXFILE with 140 in Hmax.
  unfold iappend. rewrite (bind_Ret _ _ _ _ _ (rinode_run s inum d Hi (fi_disk _ _ _ _ Hf) Hin)). rewrite xint_id by done.
  destruct (append_loop_run (S (length p)) s d bm (d_size d) p Hi (fi_ok _ _ _ _ Hf) Hex) as
    (s1 & addrs' & bm' & E1 & Hi1 & Hw & Hex1 & Hfb1 & Hfi1); [lia|change MAXFILE with 140; lia|lia|done|].
  rewrite (bind_Ret _ _ _ _ _ E1). cbv iota beta. rewrite xint_id by (unfold uint; lia). set (off := d_size d + Z.of_nat (length p)) in *.
  set (d' := set_d_size off (set_d_addrs addrs' d)).
  assert (Ed : after_write (node inum d) addrs' (d_size d) (Z.of_nat (length p)) = d').
  { unfold after_write, d', off. simpl. change (i_size (node inum d)) with (d_size d). by rewrite Z.max_r by lia. }
  assert (Hok' : dinode_ok d').
  { rewrite <- Ed. eapply (after_write_ok msb single); [apply Hf|apply Hw|lia|lia| |apply Hf]. change (MAXFILE * BSIZE) with 71680. lia. }
  destruct (winode_run s1 inum d' Hi1 Hok' Hin) as (s2 & E2 & Hi2 & Ef & Hfb2 & Hfi2).
  destruct (file_after msb single (full s) (full s1) (full s2) (node inum d) addrs' bm bm' (d_size d) p Hw) as (_ & _ & Hf2 & HC).
  { right. by rewrite Ed. }
  { intros o Ho. apply Hex1. change BSIZE with 512. pose proof (Z.div_mod o 512 ltac:(lia)). pose proof (Z.mod_pos_bound o 512 ltac:(lia)).
    split; [apply Z.div_pos; lia|]. unfold nblk. apply Z.div_lt_upper_bound; [lia|].
    pose proof (Z.div_mod (off + 511) 512 ltac:(lia)). pose proof (Z.mod_pos_bound (off + 511) 512 ltac:(lia)). lia. }
  { by apply full_layout. }
  { done. }
  { change (i_size (node inum d)) with (d_size d). lia. }
  { change (MAXFILE * BSIZE) with 71680. lia. }
  rewrite Ed in Hf2, HC. change (set_i_d d' (node inum d)) with (node inum d') in *.
  assert (Hoth := fun j e b Hne HNj => others_after s s2 N (full s1) inum d d' bm bm' addrs' _ p j e b HN HNi HNj Hne Hi Hw Ef Hok' eq_refl).
  destruct (file_put msb single (full s1) inum d' addrs' bm' Hin (wr_file _ _ _ _ _ _ _ _ _ Hw)) as [_ Hb].
  exists s2, (d', bm'). split; [done|]. split; try done; [| |cbn [fst]; fold off; lia|congruence|].
  - split.
    + intros j e b [[<- [= <- <-]]|[Hne HNj]]%lookup_insert_Some.
      * split; [done|]. apply (exact_bytes (full s1)); [|done]. intros o. by rewrite Ef, Hb.
      * destruct (Hoth j e b (not_eq_sym Hne) HNj) as (? & ? & _). done.
    + intros i j d1 e1 b1 b2 Hij [[<- [= <- <-]]|[Hne1 HN1]]%lookup_insert_Some [[<- [= <- <-]]|[Hne2 HN2]]%lookup_insert_Some a Ha; try done.
      * intros Ha2. destruct (Hoth j e1 b2 (not_eq_sym Hne2) HN2) as (_ & _ & _ & Hap). by apply (Hap a).
      * destruct (Hoth i d1 b1 (not_eq_sym Hne1) HN1) as (_ & _ & _ & Hap). by apply Hap.
      * by apply (fk_apart _ _ HN i j d1 e1 b1 b2 Hij HN1 HN2).
    + intros j Hj. rewrite Hfi2, Hfi1. apply lookup_insert_is_Some in Hj as [<- | [_ Hj]]; apply HN; [by eexists|done].
  - change (bytes_of s2 (d', bm')) with (contents (full s2) (node inum d') bm'). rewrite HC. unfold splice.
    change (bytes_of s (d, bm)) with (contents (full s) (node inum d) bm).
    assert (Hcl : length (contents (full s) (node inum d) bm) = Z.to_nat (d_size d)) by apply length_fbytes.
    rewrite take_ge, drop_ge, app_nil_r by lia. done.
  - intros j [e b] Hne HNj. by destruct (Hoth j e b Hne HNj) as (_ & _ & ? & _).
Qed.
End Build.
