(* ===== verification/MkfsFiles.v ===== *)
(** * Making an image: inodes, directory and files (mkfs.c)

    The steps of [main]: the formatted image, [ialloc], [add_file] and the
    size of the root directory.  [built] is the state between two files of the
    command line. *)
From S2P Require Import Prelude Mmu Spinlock Strings Bytes BlockCache Store Fs FsBlocks FsInode FsFile FsDir Mkfs MkfsSpec.

Section Files.
Context (nblocks nlog ninodes size : Z) (sizes : sizes_ok nblocks nlog ninodes size).
Abbreviation sb := (msb nblocks nlog ninodes size).
Abbreviation full := (full nblocks nlog ninodes size).
Abbreviation mk_inv := (mk_inv nblocks nlog ninodes size).
Abbreviation files_ok := (files_ok nblocks nlog ninodes size).
Abbreviation bytes_of := (bytes_of nblocks nlog ninodes size).
Abbreviation first_data := (first_data ninodes).
Implicit Types N : gmap Z (dinode * gmap Z Z).

Lemma one_block : sb_size sb <= BPB.
Proof. by apply single. Qed.

(** ** The formatted image *)

Lemma fill_run (l : list Z) z s : exists m, mfor l (fun i => wsect i z) s = Ret tt (set_img m s) /\
  forall y, m !! y = if decide (y ∈ l) then Some z else img s !! y.
Proof.
  revert s. induction l as [|i l IH]; intros s; cbn [mfor].
  - exists (img s). split; [by destruct s|]. intros y. by rewrite decide_False by apply not_elem_of_nil.
  - destruct (IH (set_img (<[i := z]> (img s)) s)) as (m & E & Hm). exists m. split.
    + rewrite (bind_Ret _ _ _ tt (set_img (<[i := z]> (img s)) s)) by done. exact E.
    + intros y. rewrite Hm. simpl. destruct (decide (y ∈ l)), (decide (y ∈ i :: l)) as [Hin|Hin]; try done; try set_solver.
      * apply elem_of_cons in Hin as [->|?]; [by rewrite lookup_insert_eq|done].
      * rewrite lookup_insert_ne; [done|]. set_solver.
Qed.

Lemma super_parse : parse_sb (splice 0 (super nblocks nlog ninodes size) zeroes) = Some sb.
Proof.
  pose proof (so_nblocks _ _ _ _ sizes). pose proof (so_nlog _ _ _ _ sizes). pose proof (so_ninodes _ _ _ _ sizes).
  pose proof (so_size _ _ _ _ sizes). pose proof (so_sum _ _ _ _ sizes) as Hs. change IPB with 8 in Hs.
  pose proof (Z.div_mod ninodes 8 ltac:(lia)). pose proof (Z.mod_pos_bound ninodes 8 ltac:(lia)).
  unfold parse_sb, splice, super. rewrite take_0. simpl app. unfold get32. cbn [drop]. cbn [mbind option_bind option_map].
  rewrite !of_le4_le4, !xint_u32. unfold msb. rewrite !u32_small by (rewrite ?u32_small; lia). done.
Qed.

Lemma format_run : exists s, format nblocks nlog ninodes size mkfs_start = Ret tt s /\ mk_inv s /\ files_ok s ∅ /\
  freeblock s = first_data /\ freeinode s = 1.
Proof.
  pose proof (so_nblocks _ _ _ _ sizes). pose proof (so_nlog _ _ _ _ sizes). pose proof (so_ninodes _ _ _ _ sizes).
  pose proof (so_size _ _ _ _ sizes). pose proof (so_sum _ _ _ _ sizes) as Hs.
  pose proof (inode_blocks _ _ _ _ sizes). unfold format. cbv zeta. change (512 * 8) with 4096. rewrite (Z.div_small size) by lia.
  rewrite !bind_modify. replace (ninodes / IPB + 3 + (0 + 1)) with (ninodes / IPB + 4) by lia. rewrite Hs, Z.eqb_refl, u32_small by lia.
  change (assert true) with (ret (S := mkst) tt). rewrite bind_ret. set (s0 := set_freeblock _ _).
  destruct (fill_run (seqZ 0 size) zeroes s0) as (m & E & Hm). rewrite (bind_Ret _ _ _ _ _ E). eexists. split_and!; [reflexivity| | |done|done].
  - assert (Hz : forall y, 0 <= y < size -> m !! y = Some zeroes).
    { intros y Hy. rewrite Hm, decide_True; [done|]. apply elem_of_seqZ. lia. }
    split; simpl.
    + rewrite data_end_eq by done. unfold MkfsSpec.first_data. lia.
    + done.
    + intros y Hy. apply lookup_insert_is_Some. destruct (decide (1 = y)); [by left|right]. split; [done|]. rewrite Hz by done. by eexists.
    + apply lengths_insert.
      * intros b d Hb. rewrite Hm in Hb. case_decide; [by injection Hb as <-|done].
      * unfold zeroes. rewrite length_splice; rewrite length_replicate; [done|]. change (length (super nblocks nlog ninodes size)) with 16%nat. lia.
    + intros y Hy. rewrite data_end_eq in Hy by done. unfold MkfsSpec.first_data in Hy.
      rewrite lookup_insert_ne by lia. apply Hz. lia.
    + eexists. rewrite lookup_insert_eq. split; [done|]. apply super_parse.
  - split; [by intros ? ? ? ?|by intros ? ? ? ? ? ? _ ?|by intros ? []].
Qed.

(** ** A new inode *)

Definition new_dinode (type : Z) : dinode := Dinode type 0 0 1 0 (replicate 13 0).

Lemma empty_file V : file_ok sb V (replicate 13 0) ∅.
Proof.
  split; try done.
  - intros n Hn. rewrite lookup_empty. unfold fblock. change (ind (replicate 13 0)) with 0. destruct (Z.ltb_spec n NDIRECT) as [Hlt|].
    + unfold rd. rewrite decide_True by lia. destruct (replicate 13 0 !! Z.to_nat n) eqn:E; [|done]. by apply lookup_replicate in E as [-> _].
    + by destruct (V !! 0).
Qed.

Lemma empty_blocks a : ~ blocks (replicate 13 0) ∅ a.
Proof. intros [[n Hn]|[-> Hne]]; [by rewrite lookup_empty in Hn|]. by apply Hne. Qed.

(** Another inode of the block is stored. *)
Lemma put_other s inum d j e b :
  mk_inv s -> 0 <= inum < ninodes -> dinode_ok d -> j <> inum -> file_inv sb (full s) (node j e) b ->
  file_inv sb (put_inode (full s) inum d) (node j e) b.
Proof.
  intros Hi Hn Hd Hne Hf. pose proof (iblock_low nblocks nlog ninodes size inum Hn). pose proof (free_bound _ _ _ _ sizes s Hi).
  destruct (file_put sb one_block (full s) inum d _ _ Hn (fi_ok _ _ _ _ Hf)) as [Hok _].
  destruct (disk_put (full s) inum d (full_len _ _ _ _ sizes s Hi) Hd) as (_ & _ & Ho).
  { apply (full_some _ _ _ _ s); [done|lia]. }
  split; try done; try apply Hf. rewrite Ho by done. apply Hf.
Qed.

Lemma new_dinode_ok type : type = T_DIR \/ type = T_FILE -> dinode_ok (new_dinode type).
Proof.
  intros Ht. unfold new_dinode. split; cbn [d_type d_major d_minor d_nlink d_size d_addrs]; [destruct Ht as [-> | ->]|..|done|apply Forall_replicate];
    unfold short, uint, T_DIR, T_FILE; lia.
Qed.

Lemma new_file_inv s inum type :
  mk_inv s -> 0 <= inum < ninodes -> type = T_DIR \/ type = T_FILE ->
  file_inv sb (put_inode (full s) inum (new_dinode type)) (node inum (new_dinode type)) ∅.
Proof.
  intros Hi Hn Ht. pose proof (iblock_low nblocks nlog ninodes size inum Hn). pose proof (free_bound _ _ _ _ sizes s Hi).
  destruct (disk_put (full s) inum (new_dinode type) (full_len _ _ _ _ sizes s Hi) (new_dinode_ok type Ht)) as (_ & Hd & _).
  { apply (full_some _ _ _ _ s); [done|lia]. }
  split; try done.
  - apply empty_file.
  - intros o Ho. change (i_size (node inum (new_dinode type))) with 0 in Ho. lia.
  - by apply new_dinode_ok.
  - by destruct Ht as [-> | ->].
Qed.

Lemma mk_ialloc_run s N inum type :
  mk_inv s -> files_ok s N -> freeinode s = inum -> 0 < inum < ninodes -> type = T_DIR \/ type = T_FILE ->
  exists s', ialloc type s = Ret inum s' /\ mk_inv s' /\ files_ok s' (<[inum := (new_dinode type, ∅)]> N) /\
    freeblock s' = freeblock s /\ freeinode s' = inum + 1 /\ N !! inum = None /\
    forall j f, N !! j = Some f -> bytes_of s' f = bytes_of s f.
Proof.
  intros Hi HN Hfi Hn Ht. assert (HNi : N !! inum = None).
  { destruct (N !! inum) as [f|] eqn:E; [|done]. pose proof (fk_num _ _ _ _ _ _ HN inum ltac:(rewrite E; by eexists)). lia. }
  assert (Hsm : ninodes < 2 ^ 20).
  { pose proof (so_size _ _ _ _ sizes). pose proof (so_sum _ _ _ _ sizes) as Hs. pose proof (so_nblocks _ _ _ _ sizes).
    pose proof (so_nlog _ _ _ _ sizes). change IPB with 8 in Hs. pose proof (Z.div_mod ninodes 8 ltac:(lia)).
    pose proof (Z.mod_pos_bound ninodes 8 ltac:(lia)). lia. }
  unfold ialloc. rewrite bind_gets, bind_modify, Hfi. set (s1 := set_freeinode _ s).
  assert (Hi1 : mk_inv s1) by (destruct Hi; by split). change (full s) with (full s1) in *.
  replace (Dinode (xshort type) 0 0 (xshort 1) (xint 0) (replicate 13 0)) with (new_dinode type).
  2: { unfold new_dinode. by destruct Ht as [-> | ->]. }
  destruct (winode_run _ _ _ _ sizes s1 inum (new_dinode type) Hi1 (new_dinode_ok type Ht) ltac:(lia)) as (s2 & E2 & Hi2 & Ef & Hfb2 & Hfi2).
  rewrite (bind_Ret _ _ _ _ _ E2). exists s2.
  assert (Hb : forall j e b, N !! j = Some (e, b) -> forall o, fbyte (full s2) b o = fbyte (full s) b o).
  { intros j e b Hj o. rewrite Ef. destruct (fk_inv _ _ _ _ _ _ HN j e b Hj) as [Hf _].
    change (full s1) with (full s). destruct (file_put sb one_block (full s) inum (new_dinode type) _ _ ltac:(simpl; lia) (fi_ok _ _ _ _ Hf)) as [_ Hb].
    apply Hb. }
  assert (Hfi2' : freeinode s2 = inum + 1) by (rewrite Hfi2; unfold s1; simpl; apply u32_small; lia).
  split_and!; try done.
  - split.
    + intros j e b [[<- [= <- <-]]|[Hne Hj]]%lookup_insert_Some.
      * rewrite Ef. split; [apply new_file_inv; (done || lia)|]. split; [|done|].
        -- intros n. rewrite lookup_empty. change (nblk _) with 0. split; [by intros []|lia].
        -- intros o _ []. by rewrite lookup_empty in *.
      * destruct (fk_inv _ _ _ _ _ _ HN j e b Hj) as [Hf Hex]. rewrite Ef. split; [apply (put_other s1); [done|lia|by apply new_dinode_ok|congruence|exact Hf]|].
        eapply exact_bytes; [|exact Hex]. intros o. rewrite <- Ef. by eapply Hb.
    + intros i j d1 e1 b1 b2 Hij [[<- [= <- <-]]|[Hne1 HN1]]%lookup_insert_Some [[<- [= <- <-]]|[Hne2 HN2]]%lookup_insert_Some a Ha; try done.
      * by apply empty_blocks in Ha.
      * apply empty_blocks.
      * by apply (fk_apart _ _ _ _ _ _ HN i j d1 e1 b1 b2 Hij HN1 HN2).
    + intros j [<- | [_ Hj]]%lookup_insert_is_Some; [lia|]. pose proof (fk_num _ _ _ _ _ _ HN j Hj). lia.
  - intros j [e b] Hj. apply bytes_same. by eapply Hb.
Qed.

(** ** The content of a file *)

Abbreviation appended := (appended nblocks nlog ninodes size).

Lemma fits_fcost s d (p q : list Z) :
  freeblock s + fcost (d + Z.of_nat (length (p ++ q))) - fcost d <= data_end sb ->
  freeblock s + fcost (d + Z.of_nat (length p)) - fcost d <= data_end sb.
Proof. rewrite length_app. pose proof (fcost_mono (d + Z.of_nat (length p)) (d + Z.of_nat (length p + length q)) ltac:(lia)). lia. Qed.

Lemma appended_app s s1 s2 N inum f f1 f2 p q :
  N !! inum = Some f -> appended s s1 N inum f p f1 -> appended s1 s2 (<[inum := f1]> N) inum f1 q f2 ->
  appended s s2 N inum f (p ++ q) f2.
Proof.
  intros HN [C1 C2 C3 C4 C5 C6 C7 C8 C9] [B1 B2 B3 B4 B5 B6 B7 B8 B9]. rewrite insert_insert_eq in B2. split; try done.
  - by rewrite B3, C3, <- app_assoc.
  - rewrite length_app. lia.
  - congruence.
  - congruence.
  - rewrite B7, C7, C4, length_app. rewrite <- Z.add_assoc, <- Nat2Z.inj_add. lia.
  - congruence.
  - intros j g Hne Hj. rewrite (B9 j g); [by apply (C9 j g)|done|by rewrite lookup_insert_ne by done].
Qed.

Lemma append_reads_run chunks s N inum f :
  mk_inv s -> files_ok s N -> N !! inum = Some f -> d_size (fst f) + Z.of_nat (length (concat chunks)) <= MAXFILE * 512 ->
  freeblock s + fcost (d_size (fst f) + Z.of_nat (length (concat chunks))) - fcost (d_size (fst f)) <= data_end sb ->
  exists s' f', append_reads inum chunks s = Ret tt s' /\ appended s s' N inum f (concat chunks) f'.
Proof.
  revert s N f. induction chunks as [|c chunks IH]; intros s N f Hi HN HNi Hmax Hfree; cbn [append_reads concat] in *.
  - exists s, f. split; [done|]. rewrite Z.add_0_r in *. split; try done; [by rewrite insert_id|by rewrite app_nil_r|simpl; lia|simpl; rewrite Z.add_0_r; lia].
  - destruct (iappend_run _ _ _ _ sizes s N inum f c Hi HN HNi) as (s1 & f1 & E1 & A1).
    { rewrite length_app in Hmax. lia. }
    { by eapply fits_fcost. }
    rewrite (bind_Ret _ _ _ _ _ E1). pose proof (ap_size _ _ _ _ _ _ _ _ _ _ _ A1) as Hsz.
    pose proof (ap_block _ _ _ _ _ _ _ _ _ _ _ A1) as Hbl. rewrite length_app, Nat2Z.inj_add in *.
    destruct (IH s1 (<[inum := f1]> N) f1 (ap_inv _ _ _ _ _ _ _ _ _ _ _ A1) (ap_files _ _ _ _ _ _ _ _ _ _ _ A1)) as (s2 & f2 & E2 & A2).
    { apply lookup_insert_eq. }
    { rewrite Hsz. lia. }
    { rewrite Hsz, Hbl, <- Z.add_assoc. lia. }
    exists s2, f2. split; [done|]. by eapply appended_app.
Qed.

(** ** The files of the command line *)

Definition data (f : mkfile) : list Z := concat (default [] (mf_reads f)).

(** The name in the root directory and its field there. *)
Definition ename (f : mkfile) : list Z := take DIRSIZ (skip_underscore (mf_name f)).
Definition name_field (f : mkfile) : list Z := default [] (strncpy (cstr (skip_underscore (mf_name f))) (Z.of_nat DIRSIZ)).

Record file_fits (f : mkfile) : Prop := {
  ff_string : cut (mf_name f) = mf_name f;
  ff_slash : SLASH ∉ mf_name f;
  ff_open : is_Some (mf_reads f);
  ff_max : Z.of_nat (length (data f)) <= MAXFILE * 512
}.

Lemma cut_skip name : cut name = name -> cut (skip_underscore name) = skip_underscore name.
Proof.
  destruct name as [|c name]; [done|]. cbn [cut skip_underscore]. destruct (Z.eqb_spec c 0) as [|Hc]; [done|]. intros [= E].
  destruct (c =? UNDERSCORE); [done|]. cbn [cut]. rewrite (proj2 (Z.eqb_neq c 0) Hc). by rewrite E.
Qed.

Lemma name_field_run f : cut (mf_name f) = mf_name f ->
  strncpy (cstr (skip_underscore (mf_name f))) (Z.of_nat DIRSIZ) = Some (name_field f) /\
  cut (name_field f) = ename f /\ length (name_field f) = 14%nat.
Proof.
  intros Hc. unfold name_field. set (t := cstr _).
  destruct (strncpy t (Z.of_nat DIRSIZ)) as [w|] eqn:E; simpl.
  - destruct (cut_strncpy _ _ _ (Zle_0_nat DIRSIZ) E) as [Hcut Hl]. split_and!; [done| |done]. rewrite Hcut. unfold t. by rewrite cut_cstr by by apply cut_skip.
  - unfold strncpy in E. destruct (copy_until_defined t 14 (strlen_cstr _)) as (w & k & Hcu). change (Z.to_nat (Z.of_nat DIRSIZ)) with 14%nat in E.
    by rewrite Hcu in E.
Qed.

Fixpoint file_dirents (k : Z) (fs : list mkfile) : list Z :=
  match fs with [] => [] | f :: fs' => mk_dirent k (name_field f) ++ file_dirents (k + 1) fs' end.

Definition root_bytes (fs : list mkfile) : list Z :=
  mk_dirent ROOTINO (dot_name 1) ++ mk_dirent ROOTINO (dot_name 2) ++ file_dirents 2 fs.

Lemma file_dirents_app k fs f : file_dirents k (fs ++ [f]) = file_dirents k fs ++ mk_dirent (k + Z.of_nat (length fs)) (name_field f).
Proof.
  revert k. induction fs as [|g fs IH]; intros k; simpl.
  - by rewrite Z.add_0_r, app_nil_r.
  - rewrite IH, <- app_assoc. replace (k + 1 + Z.of_nat (length fs)) with (k + Z.pos (Pos.of_succ_nat (length fs))) by lia. done.
Qed.

Lemma root_bytes_app fs f : root_bytes (fs ++ [f]) = root_bytes fs ++ mk_dirent (2 + Z.of_nat (length fs)) (name_field f).
Proof. unfold root_bytes. by rewrite file_dirents_app, !app_assoc. Qed.

(** The blocks of the files. *)
Fixpoint costs (fs : list mkfile) : Z :=
  match fs with [] => 0 | f :: fs' => fcost (Z.of_nat (length (data f))) + costs fs' end.

Lemma costs_app fs gs : costs (fs ++ gs) = costs fs + costs gs.
Proof. induction fs as [|f fs IH]; simpl; lia. Qed.

Definition root_size (fs : list mkfile) : Z := 16 * (2 + Z.of_nat (length fs)).

(** The state after the files [fs]. *)
Record built (s : mkst) N (fs : list mkfile) : Prop := {
  bu_inv : mk_inv s;
  bu_files : files_ok s N;
  bu_inode : freeinode s = 2 + Z.of_nat (length fs);
  bu_root : exists r, N !! ROOTINO = Some r /\ d_type (fst r) = T_DIR /\ d_nlink (fst r) = 1 /\
    d_size (fst r) = root_size fs /\ bytes_of s r = root_bytes fs;
  bu_file : forall k f, fs !! k = Some f -> exists g, N !! (2 + Z.of_nat k) = Some g /\ d_type (fst g) = T_FILE /\
    d_nlink (fst g) = 1 /\ bytes_of s g = data f;
  bu_only : forall j g, N !! j = Some g -> j <> ROOTINO -> d_type (fst g) = T_FILE /\ d_nlink (fst g) = 1;
  bu_block : freeblock s = first_data + fcost (root_size fs) + costs fs
}.

Lemma length_dirent inum name : length name = 14%nat -> length (mk_dirent inum name) = 16%nat.
Proof. intros Hn. unfold mk_dirent. rewrite length_app, Hn. done. Qed.

(** The root directory is smaller than the largest file. *)
Lemma ninodes_small : ninodes < 32768.
Proof.
  pose proof (so_size _ _ _ _ sizes). pose proof (so_sum _ _ _ _ sizes) as Hs. pose proof (so_nblocks _ _ _ _ sizes).
  pose proof (so_nlog _ _ _ _ sizes). change IPB with 8 in Hs. pose proof (Z.div_mod ninodes 8 ltac:(lia)).
  pose proof (Z.mod_pos_bound ninodes 8 ltac:(lia)). lia.
Qed.

Lemma fcost_nonneg n : 0 <= n -> 0 <= fcost n.
Proof. intros Hn. pose proof (fcost_mono 0 n Hn) as H0. change (fcost 0) with 0 in H0. done. Qed.

Lemma add_file_run s N fs f :
  built s N fs -> file_fits f -> 2 + Z.of_nat (length fs) < ninodes -> root_size (fs ++ [f]) <= MAXFILE * 512 ->
  first_data + fcost (root_size (fs ++ [f])) + costs (fs ++ [f]) <= data_end sb ->
  exists s' N', add_file ROOTINO f s = Ret tt s' /\ built s' N' (fs ++ [f]).
Proof.
  intros [Hi HN Hino (r & HNr & Hrt & Hrn & Hrs & Hrb) Hfile Honly Hblk] [Hc Hsl [chunks Hop] Hmx] Hn Hrm Hfree.
  destruct (name_field_run f Hc) as (Hnf & _ & Hnl).
  assert (Hrs' : root_size (fs ++ [f]) = root_size fs + 16) by (unfold root_size; rewrite length_app; simpl; lia).
  rewrite Hrs' in Hrm, Hfree. rewrite costs_app in *. simpl costs in *. rewrite Z.add_0_r in *. unfold data in Hmx, Hfree. rewrite Hop in Hmx, Hfree. simpl default in Hmx, Hfree.
  set (inum := 2 + Z.of_nat (length fs)) in *. pose proof (fcost_mono 0 (Z.of_nat (length (concat chunks))) ltac:(lia)) as Hd0. change (fcost 0) with 0 in Hd0.
  unfold add_file. rewrite bool_decide_eq_false_2 by done. change (assert (negb false)) with (ret (S := mkst) tt). rewrite bind_ret, Hop.
  destruct (mk_ialloc_run s N inum T_FILE Hi HN Hino ltac:(lia) ltac:(by right)) as (s1 & E1 & Hi1 & HN1 & Hfb1 & Hfi1 & HNi & Hb1).
  rewrite (bind_Ret _ _ _ _ _ E1). erewrite bind_gets_opt by exact Hnf.
  assert (Hri : ROOTINO <> inum) by (unfold ROOTINO; lia).
  destruct (iappend_run _ _ _ _ sizes s1 _ ROOTINO r (mk_dirent inum (name_field f)) Hi1 HN1) as (s2 & r2 & E2 & A2).
  { by rewrite lookup_insert_ne by done. }
  { rewrite length_dirent, Hrs by done. lia. }
  { rewrite length_dirent, Hrs, Hfb1, Hblk by done. change (Z.of_nat 16) with 16. lia. }
  rewrite (bind_Ret _ _ _ _ _ E2). destruct A2 as [Hi2 HN2 Hb2 Hs2 Ht2 Hl2 Hfb2 Hfi2 Ho2]. rewrite length_dirent in * by done.
  change (Z.of_nat 16) with 16 in *.
  destruct (append_reads_run chunks s2 _ inum (new_dinode T_FILE, ∅) Hi2 HN2) as (s3 & g & E3 & [Hi3 HN3 Hb3 Hs3 Ht3 Hl3 Hfb3 Hfi3 Ho3]).
  { rewrite lookup_insert_ne by done. apply lookup_insert_eq. }
  { simpl d_size. lia. }
  { simpl d_size. change (fcost 0) with 0. rewrite Hfb2, Hfb1, Hblk, Hrs, Z.add_0_l. lia. }
  exists s3, (<[inum := g]> (<[ROOTINO := r2]> (<[inum := (new_dinode T_FILE, ∅)]> N))). split; [exact E3|]. simpl d_size in *. change (fcost 0) with 0 in *.
  assert (Hkeep : forall j h, j <> inum -> j <> ROOTINO -> N !! j = Some h -> bytes_of s3 h = bytes_of s h).
  { intros j h Hj1 Hj2 Hj. rewrite (Ho3 j h), (Ho2 j h), (Hb1 j h); try done; by rewrite ?lookup_insert_ne by done. }
  split; try done.
  - rewrite Hfi3, Hfi2, Hfi1, length_app. simpl. unfold inum. lia.
  - exists r2. rewrite lookup_insert_ne, lookup_insert_eq by done. split_and!; [done|congruence|congruence|lia|].
    rewrite (Ho3 ROOTINO r2), Hb2, (Hb1 ROOTINO r), Hrb, root_bytes_app; try done. apply lookup_insert_eq.
  - intros k h [Hk|[Hge Hk]]%lookup_app_Some.
    + pose proof (lookup_lt_Some _ _ _ Hk). destruct (Hfile k h Hk) as (g' & Hg & Hgt & Hgl & Hgb). exists g'.
      rewrite !lookup_insert_ne by (unfold ROOTINO in *; lia). split_and!; try done. rewrite <- Hgb. apply (Hkeep (2 + Z.of_nat k)); unfold ROOTINO in *; (done || lia).
    + apply list_lookup_singleton_Some in Hk as [Hk <-]. exists g. replace (2 + Z.of_nat k) with inum by lia. rewrite lookup_insert_eq.
      split_and!; [done|by rewrite Ht3|by rewrite Hl3|]. rewrite Hb3. unfold data. rewrite Hop. done.
  - intros j h [[<- <-]|[Hj1 [[<- <-]|[Hj2 [[? _]|[_ Hj]]%lookup_insert_Some]]%lookup_insert_Some]]%lookup_insert_Some Hne; try done. by eapply Honly.
  - rewrite Hfb3, Hfb2, Hfb1, Hblk, Hrs, Hrs', costs_app. simpl costs.
    replace (data f) with (concat chunks) by (unfold data; by rewrite Hop). rewrite Z.add_0_l. lia.
Qed.

Lemma costs_nonneg fs : 0 <= costs fs.
Proof. induction fs as [|f fs IH]; simpl; [lia|]. pose proof (fcost_nonneg (Z.of_nat (length (data f))) ltac:(lia)). lia. Qed.

(** The files [fs] fit onto the disk. *)
Record all_fit (fs : list mkfile) : Prop := {
  af_inodes : 1 + Z.of_nat (length fs) < ninodes;
  af_root : root_size fs <= MAXFILE * 512;
  af_blocks : fcost (root_size fs) + costs fs <= nblocks
}.

Lemma all_fit_prefix fs gs : all_fit (fs ++ gs) -> all_fit fs.
Proof.
  intros [H1 H2 H3]. rewrite costs_app in H3. pose proof (costs_nonneg gs).
  assert (Hm : root_size fs <= root_size (fs ++ gs)) by (unfold root_size; rewrite length_app; lia).
  pose proof (fcost_mono _ _ Hm). rewrite length_app in H1. split; lia.
Qed.

Lemma add_files_run gs s N fs :
  built s N fs -> Forall file_fits gs -> all_fit (fs ++ gs) ->
  exists s' N', add_files ROOTINO gs s = Ret tt s' /\ built s' N' (fs ++ gs).
Proof.
  revert s N fs. induction gs as [|g gs IH]; intros s N fs Hb Hg Hfit; cbn [add_files].
  - exists s, N. rewrite app_nil_r. done.
  - apply Forall_cons in Hg as [Hg1 Hg]. replace (fs ++ g :: gs) with ((fs ++ [g]) ++ gs) in * by by rewrite <- app_assoc.
    destruct (all_fit_prefix _ _ Hfit) as [H1 H2 H3].
    destruct (add_file_run s N fs g Hb Hg1) as (s1 & N1 & E1 & Hb1); [rewrite length_app in H1; simpl in H1; lia|done| |].
    { rewrite data_end_eq by done. lia. }
    rewrite (bind_Ret _ _ _ _ _ E1). by apply (IH s1 N1).
Qed.

(** The root directory with its first two entries. *)
Lemma start_run : 1 < ninodes -> 1 <= nblocks -> exists s N, built s N [] /\
  forall k : Z -> M mkst unit,
  (format nblocks nlog ninodes size;;;
   rootino <~ ialloc T_DIR;;;
   assert (rootino =? ROOTINO);;;
   iappend rootino (mk_dirent rootino (dot_name 1));;;
   iappend rootino (mk_dirent rootino (dot_name 2));;;
   k rootino) mkfs_start = k ROOTINO s.
Proof.
  intros Hn Hnb. destruct format_run as (s0 & E0 & Hi0 & HN0 & Hfb0 & Hfi0).
  destruct (mk_ialloc_run s0 ∅ 1 T_DIR Hi0 HN0 Hfi0 ltac:(lia) ltac:(by left)) as (s1 & E1 & Hi1 & HN1 & Hfb1 & Hfi1 & _ & _).
  assert (Hc1 : fcost (0 + Z.of_nat 16) = 1) by done. assert (Hc2 : fcost (16 + Z.of_nat 16) = 1) by done.
  destruct (iappend_run _ _ _ _ sizes s1 _ 1 (new_dinode T_DIR, ∅) (mk_dirent 1 (dot_name 1)) Hi1 HN1) as (s2 & r2 & E2 & A2).
  { apply lookup_insert_eq. }
  { by vm_compute. }
  { rewrite data_end_eq by done. rewrite length_dirent by done. simpl d_size. rewrite Hc1. change (fcost 0) with 0. lia. }
  destruct A2 as [Hi2 HN2 Hb2 Hs2 Ht2 Hl2 Hfb2 Hfi2 Ho2]. rewrite length_dirent in * by done.
  simpl d_size in *. rewrite Hc1 in Hfb2. change (fcost 0) with 0 in *. change (0 + Z.of_nat 16) with 16 in *.
  destruct (iappend_run _ _ _ _ sizes s2 _ 1 r2 (mk_dirent 1 (dot_name 2)) Hi2 HN2) as (s3 & r3 & E3 & [Hi3 HN3 Hb3 Hs3 Ht3 Hl3 Hfb3 Hfi3 Ho3]).
  { apply lookup_insert_eq. }
  { rewrite Hs2. by vm_compute. }
  { rewrite data_end_eq by done. rewrite length_dirent, Hs2, Hc2 by done. change (fcost 16) with 1. lia. }
  rewrite length_dirent, Hs2 in * by done. rewrite Hc2 in Hfb3. change (fcost 16) with 1 in Hfb3.
  exists s3, (<[1 := r3]> (<[1 := r2]> {[1 := (new_dinode T_DIR, ∅)]})). split.
  2: { intros k. rewrite (bind_Ret _ _ _ _ _ E0), (bind_Ret _ _ _ _ _ E1). change (assert (1 =? ROOTINO)) with (ret (S := mkst) tt).
       by rewrite bind_ret, (bind_Ret _ _ _ _ _ E2), (bind_Ret _ _ _ _ _ E3). }
  split; try done.
  - simpl. lia.
  - exists r3. rewrite lookup_insert_eq. split_and!; try done; [by rewrite Ht3, Ht2|by rewrite Hl3, Hl2|]. by rewrite Hb3, Hb2.
  - intros j g [[<- _]|[_ [[<- _]|[_ [<- _]%lookup_singleton_Some]]%lookup_insert_Some]]%lookup_insert_Some; done.
  - change (fcost (root_size [])) with 1. simpl costs. lia.
Qed.
End Files.
