(* ===== verification/MkfsTheorems.v ===== *)
(** * The image that mkfs makes (mkfs.c)

    [mkfs_image]: the image is a file system as the kernel's theorems assume
    it, with the files of the command line in the root directory.  Two defects
    follow as theorems: a root directory of whole blocks gets a block that it
    does not have, and the bitmap leaves the blocks of the log free. *)
From S2P Require Import Prelude Mmu Spinlock Strings Bytes BlockCache Bio Log LogTxn Store LogStore Fs FsBlocks FsInode FsFile FsIcache FsTrunc FsDir FsPath FsImage FsTheorems Mkfs MkfsSpec MkfsFiles.

(** ** The entries of a directory *)

Lemma dir_entries_app C D (m : nat) : length C = (16 * m)%nat -> dir_entries (C ++ D) = dir_entries C ++ dir_entries D.
Proof.
  intros HC. unfold dir_entries. rewrite length_app, HC.
  replace ((16 * m + length D) / 16)%nat with (m + length D / 16)%nat by (apply Nat.div_unique with (length D mod 16)%nat; pose proof (Nat.div_mod_eq (length D) 16); pose proof (Nat.mod_upper_bound (length D) 16); lia).
  replace (16 * m / 16)%nat with m by (apply Nat.div_unique with 0%nat; lia). rewrite seq_app, fmap_app. f_equal.
  - apply list_fmap_ext. intros i k [-> Hk]%lookup_seq. f_equal. unfold dentry. rewrite drop_app_le by lia.
    rewrite take_app_le; [done|]. rewrite length_drop. lia.
  - replace (seq (0 + m) (length D / 16)) with (Nat.add m <$> seq 0 (length D / 16)) by (rewrite fmap_add_seq; f_equal; lia).
    rewrite <- list_fmap_compose. apply list_fmap_ext. intros i k _. unfold compose, dentry. do 2 f_equal.
    rewrite drop_app_ge by lia. f_equal. lia.
Qed.

Lemma dir_entries_one e : length e = 16%nat -> dir_entries e = [ent e].
Proof. intros He. unfold dir_entries. rewrite He. simpl. unfold dentry. by rewrite drop_0, take_ge by lia. Qed.

Lemma dirent_entries inum name : 0 <= inum < 65536 -> length name = 14%nat ->
  dir_entries (mk_dirent inum name) = [(inum, cut name)].
Proof.
  intros Hi Hn. rewrite dir_entries_one by by apply length_dirent. unfold mk_dirent. rewrite xshort_id by done.
  unfold ent. simpl. f_equal. f_equal. rewrite (Z.mod_small (inum / 256)).
  - pose proof (Z.div_mod inum 256 ltac:(lia)). lia.
  - split; [apply Z.div_pos; lia|apply Z.div_lt_upper_bound; lia].
Qed.

Lemma zero_entries (m : nat) : dir_entries (replicate (16 * m) 0) = replicate m (0, []).
Proof.
  induction m as [|m IH]; [done|]. replace (16 * S m)%nat with (16 + 16 * m)%nat by lia. rewrite replicate_add.
  rewrite (dir_entries_app _ _ 1) by done. rewrite IH. done.
Qed.

Fixpoint file_entries (k : Z) (fs : list mkfile) : list (Z * list Z) :=
  match fs with [] => [] | f :: fs' => (k, ename f) :: file_entries (k + 1) fs' end.

Definition root_entries (fs : list mkfile) : list (Z * list Z) := (ROOTINO, [46]) :: (ROOTINO, [46; 46]) :: file_entries 2 fs.

Lemma length_file_dirents k fs : Forall file_fits fs -> length (file_dirents k fs) = (16 * length fs)%nat.
Proof.
  intros Hf. revert k. induction Hf as [|f fs [Hc _ _ _] _ IH]; intros k; [done|]. destruct (name_field_run f Hc) as (_ & _ & Hl).
  cbn [file_dirents length]. rewrite length_app, IH, length_dirent by done. lia.
Qed.

Lemma file_dirents_entries k fs : Forall file_fits fs -> 0 <= k -> k + Z.of_nat (length fs) <= 65536 ->
  dir_entries (file_dirents k fs) = file_entries k fs.
Proof.
  intros Hf. revert k. induction Hf as [|f fs [Hc _ _ _] _ IH]; intros k Hk Hb; [done|]. cbn [length] in Hb.
  destruct (name_field_run f Hc) as (_ & Hn & Hl). cbn [file_dirents file_entries].
  rewrite (dir_entries_app _ _ 1) by (rewrite length_dirent; [lia|done]). rewrite dirent_entries by (done || lia). rewrite IH, Hn by lia. done.
Qed.

Lemma root_bytes_entries fs m : Forall file_fits fs -> Z.of_nat (length fs) < 60000 ->
  dir_entries (root_bytes fs ++ replicate (16 * m) 0) = root_entries fs ++ replicate m (0, []).
Proof.
  intros Hf Hn. unfold root_bytes. rewrite <- !app_assoc. rewrite !(dir_entries_app _ _ 1) by done. rewrite !dirent_entries by done.
  rewrite (dir_entries_app _ _ (length fs)) by by apply length_file_dirents. rewrite file_dirents_entries by (done || lia).
  by rewrite zero_entries.
Qed.

Lemma file_entries_lookup k fs j : file_entries k fs !! j = (fun f => (k + Z.of_nat j, ename f)) <$> fs !! j.
Proof.
  revert k j. induction fs as [|f fs IH]; intros k j; [done|]. destruct j as [|j]; simpl.
  - by rewrite Z.add_0_r.
  - rewrite IH. destruct (fs !! j); simpl; [|done]. do 2 f_equal. lia.
Qed.

Section Image.
Context (nblocks nlog ninodes size : Z) (sizes : sizes_ok nblocks nlog ninodes size).
Abbreviation sb := (msb nblocks nlog ninodes size).
Abbreviation full := (full nblocks nlog ninodes size).
Abbreviation built := (built nblocks nlog ninodes size).
Implicit Types N : gmap Z (dinode * gmap Z Z).

(** ** The size of the root directory *)

(** The bytes of whole blocks. *)
Lemma tail_zeros V addrs bm sz (m : nat) :
  exact V addrs bm sz -> 0 <= sz -> sz + Z.of_nat m <= 512 * nblk sz -> fbytes V bm 0 (sz + Z.of_nat m) = fbytes V bm 0 sz ++ replicate m 0.
Proof.
  intros Hex Hsz Hm. rewrite (fbytes_app V bm 0 sz (sz + Z.of_nat m)) by lia. f_equal. rewrite Z.add_0_l.
  replace (sz + Z.of_nat m - sz) with (Z.of_nat m) by lia. apply list_eq. intros j.
  destruct (decide (j < m)%nat) as [Hj|Hj].
  - rewrite lookup_fbytes, lookup_replicate_2 by lia. rewrite (ex_zero _ _ _ _ Hex); [done|lia|]. apply (ex_dom _ _ _ _ Hex).
    change BSIZE with 512. split; [apply Z.div_pos; lia|apply Z.div_lt_upper_bound; lia].
  - rewrite !lookup_ge_None_2; [done|rewrite length_replicate; lia|rewrite length_fbytes; lia].
Qed.

(** No name is empty, taken twice (after it was cut to 14 bytes) or a dot name. *)
Record names_ok (fs : list mkfile) : Prop := {
  no_dup : NoDup (ename <$> fs);
  no_dots : forall f, f ∈ fs -> ename f <> [] /\ ename f <> [46] /\ ename f <> [46; 46]
}.

(** What the kernel finds on the image [V] with the files [fs]; [im_walk] is
    what [namei] does on it by [namex_resolves] of [FsPath]. *)
Record image_of (fs : list mkfile) V N : Prop := {
  im_layout : layout sb V;
  im_len : lengths V;
  im_tree : tree_ok V sb N;
  im_root : exists m, dir_of V N ROOTINO = Some (root_entries fs ++ replicate m (0, []));
  im_file : forall k f, fs !! k = Some f -> exists d bm, N !! (2 + Z.of_nat k) = Some (d, bm) /\ d_type d = T_FILE /\
    file_inv sb V (node (2 + Z.of_nat k) d) bm /\ contents V (node (2 + Z.of_nat k) d) bm = data f;
  im_walk : names_ok fs -> forall k f, fs !! k = Some f ->
    walk V N false (elems (SLASH :: ename f)) ROOTINO [] = Some (2 + Z.of_nat k, ename f)
}.

Lemma first_elem_all e : SLASH ∉ e -> first_elem e = (e, []).
Proof.
  induction e as [|c e IH]; [done|]. intros [Hc He]%not_elem_of_cons. cbn [first_elem].
  rewrite (proj2 (Z.eqb_neq c SLASH)) by congruence. by rewrite IH.
Qed.

Lemma elems_root e : SLASH ∉ e -> e <> [] -> (length e <= 14)%nat -> elems (SLASH :: e) = [e].
Proof.
  intros Hs Hne Hl. unfold elems. cbn [length elems_from]. unfold skipelem at 1. cbn [skip_slashes]. rewrite Z.eqb_refl.
  assert (Hk : skip_slashes e = e).
  { destruct e as [|c e]; [done|]. cbn [skip_slashes]. apply not_elem_of_cons in Hs as [Hc _].
    by rewrite (proj2 (Z.eqb_neq c SLASH)) by congruence. }
  rewrite Hk. destruct e as [|c e']; [done|]. rewrite first_elem_all by done.
  rewrite take_ge by (change DIRSIZ with 14%nat; lia). done.
Qed.

Lemma ename_plain f : file_fits f -> SLASH ∉ ename f /\ (length (ename f) <= 14)%nat.
Proof.
  intros [_ Hs _ _]. split; [|unfold ename; rewrite length_take; change DIRSIZ with 14%nat; lia].
  intros Hin. apply Hs. assert (Hi : SLASH ∈ skip_underscore (mf_name f)).
  { rewrite <- (take_drop DIRSIZ (skip_underscore (mf_name f))). apply elem_of_app. by left. }
  destruct (mf_name f) as [|c name]; [done|]. cbn [skip_underscore] in Hi. destruct (c =? UNDERSCORE); [by right|done].
Qed.

Lemma root_inum fs m k f : names_ok fs -> fs !! k = Some f ->
  dir_inum (root_entries fs ++ replicate m (0, [])) (ename f) = Some (2 + Z.of_nat k).
Proof.
  intros [Hnd Hdots] Hk. destruct (Hdots f ltac:(by eapply list_elem_of_lookup_2)) as (_ & Hd1 & Hd2).
  assert (Hlk : (root_entries fs ++ replicate m (0, [])) !! (2 + k)%nat = Some (2 + Z.of_nat k, ename f)).
  { apply lookup_app_l_Some. cbn. rewrite file_entries_lookup, Hk. done. }
  unfold dir_inum. rewrite find_find_first.
  assert (Hff : find_first (is_entry (ename f)) (root_entries fs ++ replicate m (0, [])) = Some (2 + k)%nat).
  { apply find_first_Some. split.
    - eexists. split; [exact Hlk|]. unfold is_entry. cbn [fst snd]. rewrite bool_decide_eq_true_2 by done.
      by rewrite (proj2 (Z.eqb_neq _ 0)) by lia.
    - intros j y Hj Hy. unfold is_entry. apply andb_false_intro2, bool_decide_eq_false_2. intros E.
      rewrite lookup_app_l in Hy by (apply lookup_lt_Some in Hk; unfold root_entries; cbn [length];
        assert (length (file_entries 2 fs) = length fs) as -> by (clear; generalize 2; induction fs as [|? ? IH]; intros; cbn; [done|by rewrite IH]); lia).
      destruct j as [|[|j]]; cbn in Hy; [injection Hy as <-; cbn [snd] in E; congruence..|].
      rewrite file_entries_lookup in Hy. destruct (fs !! j) as [g|] eqn:Eg; [|done]. injection Hy as <-. cbn [snd] in E.
      assert (j = k); [|lia]. eapply NoDup_lookup; [exact Hnd| |]; rewrite list_lookup_fmap, ?Eg, ?Hk; simpl; [done|by rewrite E]. }
  by rewrite Hff, Hlk.
Qed.

Lemma root_walk V N fs m k f : dir_of V N ROOTINO = Some (root_entries fs ++ replicate m (0, [])) -> Forall file_fits fs ->
  names_ok fs -> fs !! k = Some f -> walk V N false (elems (SLASH :: ename f)) ROOTINO [] = Some (2 + Z.of_nat k, ename f).
Proof.
  intros Hd Hff Hn Hk. rewrite Forall_lookup in Hff. destruct (ename_plain f (Hff k f Hk)) as [Hs Hl].
  destruct (no_dots _ Hn f ltac:(by eapply list_elem_of_lookup_2)) as (Hne & _). rewrite elems_root by done.
  cbn [walk]. rewrite Hd. cbn [mbind option_bind andb]. by rewrite (root_inum fs m k f).
Qed.

(** The inode of the root directory with the size of its blocks. *)
Lemma root_resized s N fs d bm :
  built s N fs -> N !! ROOTINO = Some (d, bm) -> d_size d = root_size fs -> root_size fs mod 512 <> 0 -> root_size fs <= MAXFILE * 512 ->
  let d' := set_d_size (512 * nblk (root_size fs)) d in
  dinode_ok d' /\ file_inv sb (put_inode (full s) ROOTINO d') (node ROOTINO d') bm /\
  forall o, fbyte (put_inode (full s) ROOTINO d') bm o = fbyte (full s) bm o.
Proof.
  intros Hb HN Hsz Hmod Hmax d'. destruct (fk_inv _ _ _ _ _ _ (bu_files _ _ _ _ _ _ _ Hb) _ _ _ HN) as [Hf Hex].
  pose proof (bu_inv _ _ _ _ _ _ _ Hb) as Hi. rewrite Hsz in Hex. pose proof (fi_inum _ _ _ _ Hf) as Hin. simpl in Hin.
  assert (H0 : 0 <= root_size fs) by (unfold root_size; lia). change MAXFILE with 140 in Hmax.
  pose proof (nblk_eq (root_size fs) H0) as En. rewrite (proj2 (Z.eqb_neq _ 0) Hmod) in En.
  pose proof (Z.div_mod (root_size fs) 512 ltac:(lia)). pose proof (Z.mod_pos_bound (root_size fs) 512 ltac:(lia)).
  assert (Hok : dinode_ok d').
  { destruct (fi_dinode _ _ _ _ Hf) as [D1 D2 D3 D4 D5 D6 D7]. split; try done. unfold d'. cbn [d_size set_d_size]. unfold uint. lia. }
  pose proof (iblock_low nblocks nlog ninodes size ROOTINO Hin) as Hib. pose proof (free_bound _ _ _ _ sizes s Hi) as Hfr.
  destruct (file_put sb (one_block _ _ _ _ sizes) (full s) ROOTINO d' (d_addrs d) bm Hin (fi_ok _ _ _ _ Hf)) as [Hfok Hbyte].
  destruct (disk_put (full s) ROOTINO d' (full_len _ _ _ _ sizes s Hi) Hok) as (_ & Hdisk & _).
  { apply (full_some _ _ _ _ s); [done|lia]. }
  split_and!; [done| |done]. split; try done; try apply Hf.
  - change (i_size (node ROOTINO d')) with (512 * nblk (root_size fs)). change (MAXFILE * BSIZE) with 71680. lia.
  - intros o Ho. change (i_size (node ROOTINO d')) with (512 * nblk (root_size fs)) in Ho. apply (ex_dom _ _ _ _ Hex). change BSIZE with 512.
    split; [apply Z.div_pos; lia|apply Z.div_lt_upper_bound; lia].
Qed.

Lemma entries_in fs m e : e ∈ root_entries fs ++ replicate m (0, []) -> fst e <> 0 ->
  fst e = ROOTINO \/ exists k f, fs !! k = Some f /\ fst e = 2 + Z.of_nat k.
Proof.
  intros He Hne. apply elem_of_app in He as [He|He].
  - unfold root_entries in He. rewrite !elem_of_cons in He. destruct He as [-> | [-> | He]]; [by left|by left|right].
    apply list_elem_of_lookup in He as [k Hk]. rewrite file_entries_lookup in Hk. destruct (fs !! k) as [f|] eqn:Ef; [|done].
    injection Hk as <-. by exists k, f.
  - apply elem_of_replicate in He as [-> _]. done.
Qed.

Lemma fix_root_run s N fs :
  built s N fs -> Forall file_fits fs -> all_fit nblocks ninodes fs -> root_size fs mod 512 <> 0 ->
  exists s' N', fix_root ROOTINO s = Ret tt s' /\ mk_inv nblocks nlog ninodes size s' /\ image_of fs (full s') N'.
Proof.
  intros Hb Hff Hfit Hmod. pose proof (bu_inv _ _ _ _ _ _ _ Hb) as Hi. destruct Hfit as [Hfi Hroot _].
  destruct (bu_root _ _ _ _ _ _ _ Hb) as ([d bm] & HN & Hrt & Hrn & Hrs & Hrb). cbn [fst] in *.
  destruct (fk_inv _ _ _ _ _ _ (bu_files _ _ _ _ _ _ _ Hb) _ _ _ HN) as [Hf Hex]. pose proof (fi_inum _ _ _ _ Hf) as Hin. simpl in Hin.
  destruct (root_resized s N fs d bm Hb HN Hrs Hmod Hroot) as (Hok & Hfr & Hbyte). set (d' := set_d_size _ d) in *.
  assert (H0 : 0 <= root_size fs) by (unfold root_size; lia). change MAXFILE with 140 in Hroot.
  pose proof (nblk_eq (root_size fs) H0) as En. rewrite (proj2 (Z.eqb_neq _ 0) Hmod) in En.
  pose proof (Z.div_mod (root_size fs) 512 ltac:(lia)). pose proof (Z.mod_pos_bound (root_size fs) 512 ltac:(lia)).
  destruct (winode_run _ _ _ _ sizes s ROOTINO d' Hi Hok Hin) as (s' & E & Hi' & Ef & _ & _).
  exists s', (<[ROOTINO := (d', bm)]> N). split_and!; [|done|].
  { unfold fix_root. rewrite (bind_Ret _ _ _ _ _ (rinode_run _ _ _ _ s ROOTINO d Hi (fi_disk _ _ _ _ Hf) Hin)). cbv zeta.
    rewrite Hrs, (xint_id (root_size fs)) by (unfold uint; lia). change BSIZE with 512.
    replace ((root_size fs / 512 + 1) * 512) with (512 * nblk (root_size fs)) by lia.
    rewrite u32_small by lia. rewrite xint_id by (unfold uint; lia). exact E. }
  assert (Hoth : forall j e b, j <> ROOTINO -> N !! j = Some (e, b) -> file_inv sb (full s') (node j e) b /\
    (forall o, fbyte (full s') b o = fbyte (full s) b o) /\ d_type e = T_FILE /\ d_nlink e = 1).
  { intros j e b Hne Hj. destruct (fk_inv _ _ _ _ _ _ (bu_files _ _ _ _ _ _ _ Hb) _ _ _ Hj) as [Hfj _]. rewrite Ef.
    split; [by apply (put_other _ _ _ _ sizes s)|]. split; [apply (file_put sb (one_block _ _ _ _ sizes) (full s) _ d' (d_addrs e) b Hin (fi_ok _ _ _ _ Hfj))|].
    by apply (bu_only _ _ _ _ _ _ _ Hb j (e, b)). }
  set (m := Z.to_nat (32 * nblk (root_size fs) - (2 + Z.of_nat (length fs)))).
  assert (Hm : 512 * nblk (root_size fs) = root_size fs + Z.of_nat (16 * m)) 
    by (assert (Hrz : root_size fs = 16 * (2 + Z.of_nat (length fs))) by done; unfold m; lia).
  assert (Hent : entries_of (full s') d' bm = root_entries fs ++ replicate m (0, [])).
  { unfold entries_of. unfold d'. cbn [d_size set_d_size]. rewrite Hm.
    replace (fbytes (full s') bm 0 _) with (fbytes (full s) bm 0 (root_size fs + Z.of_nat (16 * m)))
      by (unfold fbytes; apply list_fmap_ext; intros k x _; by rewrite Ef, Hbyte).
    rewrite Hrs in Hex. rewrite (tail_zeros _ _ _ _ _ Hex) by lia. unfold bytes_of in Hrb. cbn [fst snd] in Hrb. rewrite Hrs in Hrb. rewrite Hrb.
    apply root_bytes_entries; [done|]. pose proof (ninodes_small _ _ _ _ sizes). lia. }
  set (N' := <[ROOTINO := (d', bm)]> N).
  assert (Hdir : dir_of (full s') N' ROOTINO = Some (root_entries fs ++ replicate m (0, []))).
  { unfold dir_of, N'. rewrite lookup_insert_eq. change (d_type d') with (d_type d). by rewrite Hrt, Hent. }
  split; try (by exists m).
  - by apply full_layout.
  - by apply full_len.
  - split.
    + intros j e b [[<- [= <- <-]]|[Hne Hj]]%lookup_insert_Some.
      * rewrite Ef. split; [apply Hfr|]. unfold d'. cbn [d_type d_nlink set_d_size]. rewrite Hrt, Hrn. done.
      * destruct (Hoth j e b (not_eq_sym Hne) Hj) as (Hfj & _ & Ht & Hl). split; [apply Hfj|]. rewrite Ht, Hl. done.
    + intros j e b [[<- [= <- <-]]|[Hne Hj]]%lookup_insert_Some Ht.
      * rewrite Ef. split; [done|]. exists (2 + length fs + m)%nat. unfold d'. cbn [d_size set_d_size]. rewrite Hm. unfold root_size. lia.
      * destruct (Hoth j e b (not_eq_sym Hne) Hj) as (_ & _ & Ht' & _). by rewrite Ht' in Ht.
    + intros j e b x [[<- [= <- <-]]|[Hne Hj]]%lookup_insert_Some Ht Hx Hx0.
      * rewrite Hent in Hx. apply lookup_insert_is_Some. destruct (entries_in fs m x Hx Hx0) as [->|(k & f & Hk & ->)]; [by left|right].
        destruct (bu_file _ _ _ _ _ _ _ Hb k f Hk) as (g & Hg & _). rewrite Hg. split; [unfold ROOTINO; lia|by eexists].
      * destruct (Hoth j e b (not_eq_sym Hne) Hj) as (_ & _ & Ht' & _). by rewrite Ht' in Ht.
  - intros k f Hk. destruct (bu_file _ _ _ _ _ _ _ Hb k f Hk) as ([e b] & Hg & Ht & _ & Hgb). exists e, b.
    unfold N'. rewrite lookup_insert_ne by (unfold ROOTINO; lia). destruct (Hoth (2 + Z.of_nat k) e b ltac:(unfold ROOTINO; lia) Hg) as (Hfj & Hbj & _).
    split_and!; try done. rewrite <- Hgb. unfold contents, bytes_of, fbytes. apply list_fmap_ext. intros i x _. by rewrite Hbj.
  - intros Hn k f Hk. by eapply root_walk.
Qed.

(** C14: mkfs ends and leaves an image that the kernel can use: the layout of
    the blocks and the bitmap are as fs.c expects them, the root directory has
    the entries ., .. and one entry for each file of the command line, and each
    file has exactly the bytes that were read for it.  The files must fit, and
    the entries must not fill the blocks of the root directory exactly. *)
Theorem mkfs_image fs :
  Forall file_fits fs -> all_fit nblocks ninodes fs -> root_size fs mod 512 <> 0 ->
  exists s N, main nblocks nlog ninodes size fs mkfs_start = Ret tt s /\ image_of fs (img s) N.
Proof.
  intros Hff Hfit Hmod. pose proof (all_fit_prefix nblocks ninodes [] fs Hfit) as [Hn1 _ Hb1].
  destruct (start_run _ _ _ _ sizes) as (s0 & N0 & Hb0 & E0); [simpl in Hn1; lia|by vm_compute in Hb1|].
  destruct (add_files_run _ _ _ _ sizes fs s0 N0 [] Hb0 Hff Hfit) as (s1 & N1 & E1 & Hbu). cbn [app] in Hbu.
  destruct (fix_root_run s1 N1 fs Hbu Hff Hfit Hmod) as (s2 & N2 & E2 & Hi2 & Him).
  assert (Hbal : balloc ninodes (usedblocks s2) s2 = Ret tt (set_img (full s2) s2)).
  { unfold balloc. pose proof (free_bound _ _ _ _ sizes s2 Hi2). pose proof (so_size _ _ _ _ sizes). rewrite (mi_used _ _ _ _ _ Hi2).
    rewrite (proj2 (Z.ltb_lt _ (512 * 8))) by lia. unfold MkfsSpec.full. rewrite bb_eq. done. }
  exists (set_img (full s2) s2), N2. split; [|done]. unfold main.
  rewrite (E0 (fun r => add_files r fs;;; fix_root r;;; used <~ gets usedblocks;;; balloc ninodes used)).
  by rewrite (bind_Ret _ _ _ _ _ E1), (bind_Ret _ _ _ _ _ E2), bind_gets.
Qed.
End Image.

(** ** Examples *)

Definition a_file : mkfile := Mkfile [95; 97] (Some [[120; 121; 122]]).

Lemma a_fits : Forall file_fits [a_file].
Proof. apply Forall_singleton. split; [done|by apply (bool_decide_unpack _)|by eexists|by vm_compute]. Qed.

Lemma small_sizes : sizes_ok 4 11 8 20.
Proof. by split. Qed.

Lemma mkfs_image_witness : exists s N, main 4 11 8 20 [a_file] mkfs_start = Ret tt s /\ image_of 4 11 8 20 [a_file] (img s) N.
Proof.
  apply (mkfs_image 4 11 8 20 small_sizes [a_file] a_fits); [|by vm_compute]. split; by vm_compute.
Defined.

(** *** The kernel on an image *)

Definition image_blocks (s : mkst) : list (list Z) := (fun b => default [] (img s !! b)) <$> seqZ 0 (Z.of_nat (base.size (img s))).

(** The log after the boot: block 1 gives its place, and it is recovered. *)
Definition booted (s : mkst) : outcome (lst bst) unit := initlog (Lst 0 0 false 0 (replicate 10 0) (binit (image_blocks s))).
Definition c_boot : icst := Icst (replicate 50 no_inode) [].

(** The kernel's [balloc] in a transaction. *)
Definition kernel_balloc : M (fs (lst bst)) Z := ons begin_trans;;; Fs.balloc ROOTDEV.

(** Make an image, boot, run the kernel. *)
Definition on_image {A} (r : outcome mkst unit) (m : M (fs (lst bst)) A) : outcome (fs (lst bst)) A :=
  match r with
  | Ret _ s => match booted s with Ret _ ls => m (Fs l_demo c_boot ls) | _ => Hang end
  | _ => Hang
  end.

(** 30 files with the names a, b, c, ... *)
Definition thirty : list mkfile := (fun k => Mkfile [97 + k] (Some [])) <$> seqZ 0 30.

(** mkfs adds a block to the size of the root directory even when its entries
    fill its blocks exactly.  With 30 files the directory has 1024 bytes and
    one block: /a is found, but when the kernel looks up a name that is not
    there, outside of a transaction as open and exec do, it allocates the
    missing block and panics. *)
Theorem mkfs_root_overrun :
  (exists s, on_image (main 5 11 40 25 thirty mkfs_start) (namei no_devs 0 [47; 97]) = Ret (Some 1%nat) s) /\
  on_image (main 5 11 40 25 thirty mkfs_start) (namei no_devs 0 [47; 64]) = Panic "write outside of trans".
Proof. split; [eexists|]; vm_compute; reflexivity. Qed.

(** The bitmap of mkfs has no bits for the log, and the kernel's balloc searches
    to the end of the disk: when the data blocks are full it returns the
    header of the log, block 17 - 11, and clears it. *)
Theorem mkfs_log_unmarked :
  exists s, on_image (main 1 11 8 17 [] mkfs_start) kernel_balloc = Ret (17 - 11) s.
Proof. eexists. vm_compute. reflexivity. Qed.
