(* ===== verification/Exec.v ===== *)
(** * Running a program (exec.c, elf.h)

    [exec] replaces the memory of the current process by a program from a file.
    Its state is the kernel's memory with the page allocator, the file system,
    the registers of the CPU and the part of the process that it changes.  The
    arguments are the strings themselves.  [junk] is what the uninitialised
    variable [elf] holds; [kstack] and [ts_addr] are the addresses that
    [switchuvm] stores. *)
From S2P Require Import Prelude Mmu Spinlock Strings Bytes BlockCache Kalloc Vm Store Fs.

(** ** ELF *)

Definition ELF_MAGIC : Z := 0x464C457F.
Definition ELF_PROG_LOAD : Z := 1.

(** The fields of struct elfhdr and struct proghdr that are used. *)
Definition sizeof_elfhdr : Z := 52.
Definition elf_magic (e : list Z) : option Z := get32 e 0.
Definition elf_entry (e : list Z) : option Z := get32 e 24.
Definition elf_phoff (e : list Z) : option Z := get32 e 28.
Definition elf_phnum (e : list Z) : option Z := get16 e 44.

Definition sizeof_proghdr : Z := 32.
Definition ph_type (p : list Z) : option Z := get32 p 0.
Definition ph_off (p : list Z) : option Z := get32 p 4.
Definition ph_vaddr (p : list Z) : option Z := get32 p 8.
Definition ph_filesz (p : list Z) : option Z := get32 p 16.
Definition ph_memsz (p : list Z) : option Z := get32 p 20.

(** ** State *)

(** The fields of struct proc that exec sets. *)
Record uproc := Uproc { p_name : list Z; p_pgdir : Z; p_sz : Z; p_eip : Z; p_esp : Z }.

Record xst (S : Type) := Xst { xmem : kmem; xfs : fs S; xcpu : lstate * cpuregs; xproc : uproc }.
Arguments Xst {S}.
Arguments xmem {S}.
Arguments xfs {S}.
Arguments xcpu {S}.
Arguments xproc {S}.

Definition set_xmem {S} (v : kmem) (s : xst S) : xst S := Xst v (xfs s) (xcpu s) (xproc s).
Definition set_xfs {S} (v : fs S) (s : xst S) : xst S := Xst (xmem s) v (xcpu s) (xproc s).
Definition set_xcpu {S} (v : lstate * cpuregs) (s : xst S) : xst S := Xst (xmem s) (xfs s) v (xproc s).
Definition set_xproc {S} (v : uproc) (s : xst S) : xst S := Xst (xmem s) (xfs s) (xcpu s) v.

Section Exec.
Context {S H : Type} `{Store S H}.
Context (devs : Z -> @devsw S) (end_ data_ : Z) (cwd : nat) (kstack ts_addr : Z) (junk : list Z).

Abbreviation X := (M (xst S)).

Definition onm {A} (m : M kmem A) : X A := zoom xmem set_xmem m.
Definition onf {A} (m : M (fs S) A) : X A := zoom xfs set_xfs m.
Definition onc {A} (m : M (lstate * cpuregs) A) : X A := zoom xcpu set_xcpu m.

(** A field of a buffer of the right size. *)
Definition field (o : option Z) : X Z := gets_opt (fun _ => o).

Definition load_segment (ip : nat) (pgdir vaddr off filesz : Z) : X Z :=
  loaduvm (fun _ m => onm m) (fun o n => onf (readi devs ip o n)) pgdir vaddr off filesz.

(** Load program into memory: [n] headers from [off] on.  The result is the
    size of the process, or nothing for the jump to [bad]. *)
Fixpoint load_segs (n : nat) (ip : nat) (pgdir off sz : Z) : X (option Z) :=
  match n with
  | O => ret (Some sz)
  | Datatypes.S n' =>
      r <~ onf (readi devs ip off sizeof_proghdr);;;
      match r with
      | None => ret None
      | Some ph =>
          if negb (Z.of_nat (length ph) =? sizeof_proghdr) then ret None else
          type <~ field (ph_type ph);;;
          if negb (type =? ELF_PROG_LOAD) then load_segs n' ip pgdir (u32 (off + sizeof_proghdr)) sz else
          memsz <~ field (ph_memsz ph);;;
          filesz <~ field (ph_filesz ph);;;
          vaddr <~ field (ph_vaddr ph);;;
          poff <~ field (ph_off ph);;;
          if memsz <? filesz then ret None else
          sz <~ onm (allocuvm end_ pgdir sz (u32 (vaddr + memsz)));;;
          if sz =? 0 then ret None else
          r <~ load_segment ip pgdir vaddr poff filesz;;;
          if r <? 0 then ret None else
          load_segs n' ip pgdir (u32 (off + sizeof_proghdr)) sz
      end
  end.

(** Push argument strings; the result is the stack pointer and the addresses
    of the strings. *)
Fixpoint push_args (argv : list (list Z)) (argc pgdir sp : Z) (ptrs : list Z) : X (option (Z * list Z)) :=
  match argv with
  | [] => ret (Some (sp, ptrs))
  | a :: argv' =>
      if MAXARG <=? argc then ret None else
      let sp := Z.land (u32 (sp - (Z.of_nat (length a) + 1))) 0xfffffffc in
      r <~ onm (copyout pgdir sp (cstr a));;;
      if r <? 0 then ret None else
      push_args argv' (argc + 1) pgdir sp (ptrs ++ [sp])
  end.

(** The words of [ustack]. *)
Definition ustack (sp : Z) (ptrs : list Z) : list Z :=
  let argc := Z.of_nat (length ptrs) in
  [0xffffffff; argc; u32 (sp - (argc + 1) * 4)] ++ ptrs ++ [0].

(** The part of the path after the last slash. *)
Fixpoint last_elem (last s : list Z) : list Z :=
  match s with
  | [] => last
  | c :: s' => last_elem (if c =? SLASH then s' else last) s'
  end.

(** [bad]: *)
Definition exec_bad (pgdir : Z) (ip : option nat) : X Z :=
  when (negb (pgdir =? 0)) (onm (freevm end_ pgdir));;;
  match ip with Some ip => onf (iunlockput ip) | None => ret tt end;;;
  ret (-1).

(** Commit to the user image. *)
Definition exec_commit (path : list Z) (pgdir sz entry sp : Z) : X Z :=
  p <~ gets xproc;;;
  name <~ gets_opt (fun _ => safestrcpy (p_name p) (cstr (last_elem path path)) 16);;;
  modify (set_xproc (Uproc name pgdir sz entry sp));;;
  onc (switchuvm ts_addr kstack pgdir);;;
  onm (freevm end_ (p_pgdir p));;;
  ret 0.

(** Two pages at the next page boundary, the arguments on the second. *)
Definition exec_stack (path : list Z) (argv : list (list Z)) (pgdir entry sz : Z) : X Z :=
  let sz := PGROUNDUP sz in
  sz <~ onm (allocuvm end_ pgdir sz (u32 (sz + 2 * PGSIZE)));;;
  if sz =? 0 then exec_bad pgdir None else
  onm (clearpteu pgdir (u32 (sz - 2 * PGSIZE)));;;
  r <~ push_args argv 0 pgdir sz [];;;
  match r with
  | None => exec_bad pgdir None
  | Some (sp, ptrs) =>
      let ws := ustack sp ptrs in
      let sp := u32 (sp - (3 + Z.of_nat (length ptrs) + 1) * 4) in
      r <~ onm (copyout pgdir sp (concat (le4 <$> ws)));;;
      if r <? 0 then exec_bad pgdir None else
      exec_commit path pgdir sz entry sp
  end.

(** [readi(...) < sizeof(elf)] compares unsigned numbers: -1 is not less. *)
Definition short_header (r : option (list Z)) : bool :=
  (match r with Some e => Z.of_nat (length e) | None => 2 ^ 32 - 1 end) <? sizeof_elfhdr.

Definition exec (path : list Z) (argv : list (list Z)) : X Z :=
  r <~ onf (namei devs cwd path);;;
  match r with
  | None => ret (-1)
  | Some ip =>
      onf (ilock ip);;;
      r <~ onf (readi devs ip 0 sizeof_elfhdr);;;
      if short_header r then exec_bad 0 (Some ip) else
      let elf := default junk r in
      magic <~ field (elf_magic elf);;;
      if negb (magic =? ELF_MAGIC) then exec_bad 0 (Some ip) else
      pgdir <~ onm (setupkvm data_);;;
      if pgdir =? 0 then exec_bad 0 (Some ip) else
      phoff <~ field (elf_phoff elf);;;
      phnum <~ field (elf_phnum elf);;;
      r <~ load_segs (Z.to_nat phnum) ip pgdir phoff 0;;;
      match r with
      | None => exec_bad pgdir (Some ip)
      | Some sz =>
          onf (iunlockput ip);;;
          entry <~ field (elf_entry elf);;;
          exec_stack path argv pgdir entry sz
      end
  end.
End Exec.
