(* ===== verification/ExecMem.v ===== *)
(** * Running a program: the address space (exec.c, vm.c)

    The address space that exec builds, followed through its growth and the
    writes into it.  [img] is its content as a function of the user address;
    every write is [poke] on it. *)
From S2P Require Import Prelude Mmu Spinlock Strings Bytes Kalloc Vm VmSpec VmUser VmGrow VmCopy.

Abbreviation byte_list := (Forall (fun b => 0 <= b < 256)).

Section Space.
Context (end_ : Z) (end_kernel : KERNLINK <= end_).
(** The pages of others with their memory, the free pages before, and the
    memory whose kernel mappings the new directory has. *)
Context (own l0 : list Z) (m0 m1 : mem) (d : Z).

Abbreviation aspace := (aspace end_).

(** Pages below [sz] with the content [img]; user code may use all of them but
    the one at [g]. *)
Record space (k : kmem) (T U : gmap Z Z) (l : list Z) (sz g : Z) (img : mem) : Prop := {
  sp_as : aspace k d T U own l;
  sp_full : full sz U;
  sp_flags : forall va q, U !! va = Some q -> hw (memory k) d va = Some (v2p q + (if decide (va = g) then 3 else 7));
  sp_img : forall va x, tr U va = Some x -> memory k x = img va;
  sp_own : forall q x, q ∈ own -> q <= x < q + 4096 -> memory k x = m0 x;
  sp_acct : d :: vals T ++ vals U ++ l ≡ₚ l0;
  sp_kernel : forall va, KERNBASE <= va < 2 ^ 32 -> hw (memory k) d va = hw m1 d va;
  sp_size : 0 <= sz < KERNBASE;
  sp_zero : forall va, PGROUNDUP sz <= va -> img va = 0
}.

Lemma own_apart k T U rest l p q x :
  aspace k d T U rest l -> U !! p = Some x -> q ∈ rest -> forall y, q <= y < q + 4096 -> ~ (x <= y < x + 4096).
Proof.
  intros Has Hp Hq y Hy Hx.
  destruct (as_rest_apart _ end_kernel _ _ _ _ _ _ _ Has Hq) as (Hqok & _ & _ & Hn).
  pose proof (as_user_page _ _ _ _ _ _ _ _ _ Has Hp) as Hxok.
  destruct (decide (q = x)) as [->|Hne]; [|destruct (pages_apart end_ q x Hqok Hxok Hne); lia].
  apply Hn, elem_of_vals. by exists p.
Qed.

(** The bytes that were written, in terms of user addresses. *)
Lemma written_img k T U rest l va buf m' (img : mem) :
  aspace k d T U rest l -> written U va buf (memory k) m' -> (forall vb x, tr U vb = Some x -> memory k x = img vb) ->
  forall vb x, tr U vb = Some x -> m' x = poke va buf img vb.
Proof.
  intros Has [W F] Himg vb x Hx. rewrite poke_at. case_decide as Hr.
  - destruct (lookup_lt_is_Some_2 buf (Z.to_nat (vb - va)) ltac:(lia)) as [b Hb]. rewrite Hb. simpl.
    apply (W _ _ _ Hb). rewrite <- Hx. f_equal. lia.
  - rewrite F; [by apply Himg|]. intros j Hj Hx'. pose proof (tr_inj _ _ _ _ _ _ _ _ _ _ Has Hx Hx'). lia.
Qed.

Lemma full_size k T U rest l sz :
  aspace k d T U rest l -> full sz U -> 0 <= sz -> Z.of_nat (length (vals U)) <= (sz + 4095) / 4096.
Proof.
  intros Has Hf Hsz. pose proof (Z.div_pos (sz + 4095) 4096 ltac:(lia) ltac:(lia)) as H0.
  assert (Hsub : (length (vals U) <= length ((fun i : Z => (4096 * i)%Z) <$> seqZ 0 ((sz + 4095) / 4096)))%nat).
  { unfold vals. rewrite length_fmap, <- (length_fmap fst). apply submseteq_length, NoDup_submseteq; [apply NoDup_fst_map_to_list|].
    intros va Hva. apply list_elem_of_fmap in Hva as ([vb q] & -> & Hq). apply elem_of_map_to_list in Hq.
    destruct (as_dom _ _ _ _ _ _ _ Has _ _ Hq) as [Hal Har]. assert (vb < sz) by (apply (Hf vb Hal); [lia|by exists q]).
    apply list_elem_of_fmap. exists (vb / 4096). pose proof (Z.div_mod vb 4096 ltac:(lia)). split; [simpl; lia|]. apply elem_of_seqZ.
    split; [apply Z.div_pos; simpl; lia|]. rewrite Z.add_0_l. simpl. apply Z.div_lt_upper_bound; [lia|].
    pose proof (Z.div_mod (sz + 4095) 4096 ltac:(lia)). pose proof (Z.mod_pos_bound (sz + 4095) 4096 ltac:(lia)). lia. }
  rewrite length_fmap, length_seqZ in Hsub. lia.
Qed.

(** Enough free pages at the start are enough for every size. *)
Lemma space_fits k T U l sz g img newsz :
  space k T U l sz g img -> sz <= newsz < KERNBASE -> 1026 + (newsz + 4095) / 4096 <= Z.of_nat (length l0) ->
  ~ alloc_short T l (PGROUNDUP sz) newsz.
Proof.
  intros [Has Hf _ _ _ Hac _ Hsz _] Hn Hl Hsh. unfold alloc_short in Hsh. pose proof (full_size _ _ _ _ _ _ Has Hf ltac:(lia)) as HU.
  apply Permutation_length in Hac. cbn [length] in Hac. rewrite !length_app in Hac.
  destruct (PGROUNDUP_page sz) as [Ha1 Hb1]; [lia..|]. destruct (PGROUNDUP_page newsz) as [Ha2 Hb2]; [lia..|].
  pose proof (Z.div_mod (sz + 4095) 4096 ltac:(lia)). pose proof (Z.mod_pos_bound (sz + 4095) 4096 ltac:(lia)).
  pose proof (Z.div_mod (newsz + 4095) 4096 ltac:(lia)). pose proof (Z.mod_pos_bound (newsz + 4095) 4096 ltac:(lia)).
  pose proof (Z.div_mod (PGROUNDUP sz) 4096 ltac:(lia)). pose proof (Z.div_mod (PGROUNDUP newsz) 4096 ltac:(lia)).
  assert (E : (PGROUNDUP newsz - PGROUNDUP sz) / 4096 = PGROUNDUP newsz / 4096 - PGROUNDUP sz / 4096).
  { symmetry. apply Z.div_unique with 0; lia. }
  lia.
Qed.

(** [allocuvm] up to [newsz]. *)
Lemma space_grow k T U l sz g img newsz :
  space k T U l sz g img -> g < 0 -> sz <= newsz < KERNBASE -> 0 < newsz -> 1026 + (newsz + 4095) / 4096 <= Z.of_nat (length l0) ->
  exists k' T' U' l', allocuvm end_ d sz newsz k = Ret newsz k' /\ space k' T' U' l' newsz g img /\ U ⊆ U'.
Proof.
  intros Hs Hg Hn Hn0 Hl. pose proof (space_fits _ _ _ _ _ _ _ _ Hs Hn Hl) as Hns. destruct Hs as [Has Hf Hfl Himg Hown Hac Hk Hsz Hz].
  destruct (allocuvm_run end_ end_kernel k d T U own l sz newsz Has Hf) as (k' & T' & U' & lost & l' & r & E & [Has' _ Hac' Hkept _] & Hcase & Hsh);
    [lia|lia|]. destruct Hsh as [[-> ->]|]; [|done].
  destruct Hcase as [[_ [Hsub Hhw Hzero Hfull]]|[Hr _]]; [|lia]. destruct Hfull as [[_ Hfull]|[[p Hp] _]]; [|done].
  destruct (PGROUNDUP_page sz) as [Ha1 Hb1]; [lia..|]. destruct (PGROUNDUP_page newsz) as [Ha2 Hb2]; [lia..|].
  exists k', T', U', l'. split; [done|]. split; [|done]. cbn [app] in *. split; try done.
  - intros va q Hq. destruct (U !! va) as [q'|] eqn:Eu.
    2: { destruct (as_dom _ _ _ _ _ _ _ Has' _ _ Hq). rewrite decide_False by lia. by apply Hzero. }
    assert (q' = q) as -> by (pose proof (lookup_weaken _ _ _ _ Eu Hsub); congruence). rewrite Hhw by (left; by rewrite Eu). by apply Hfl.
  - intros va x Hx. destruct (tr_page _ _ _ _ _ _ _ _ _ Has' Hx) as (q & Hq & _ & Hqx). unfold tr in Hx. rewrite Hq in Hx. injection Hx as <-.
    destruct (U !! PGROUNDDOWN va) as [q'|] eqn:Eu.
    + assert (q' = q) as -> by (pose proof (lookup_weaken _ _ _ _ Eu Hsub); congruence).
      rewrite (Hkept q) by (done || right; by eexists). apply Himg. unfold tr. by rewrite Eu.
    + destruct (Hzero _ _ Hq Eu) as [_ Hz0]. rewrite Hz0 by done. symmetry. apply Hz.
      destruct (as_dom _ _ _ _ _ _ _ Has' _ _ Hq) as [Hal Har]. destruct (decide (PGROUNDDOWN va < sz)) as [Hlt|Hge].
      { apply (Hf _ Hal) in Hlt; [|lia]. rewrite Eu in Hlt. by destruct Hlt. }
      rewrite PGROUNDDOWN_eq in *. pose proof (Z.mod_pos_bound va 4096 ltac:(lia)).
      pose proof (Z.div_mod (PGROUNDUP sz) 4096 ltac:(lia)). pose proof (Z.div_mod va 4096 ltac:(lia)). lia.
  - intros q x Hq Hx. rewrite (Hkept q x Hx) by by left. by apply (Hown q).
  - perm.
  - intros va Hva. rewrite Hhw by by right. by apply Hk.
  - lia.
  - intros va Hva. apply Hz. pose proof (Z.div_mod (PGROUNDUP sz) 4096 ltac:(lia)). pose proof (Z.div_mod (PGROUNDUP newsz) 4096 ltac:(lia)). lia.
Qed.

(** A write into one page. *)
Lemma space_poke k T U l sz g img va p buf :
  space k T U l sz g img -> U !! PGROUNDDOWN va = Some p -> 0 <= va -> Z.of_nat (length buf) <= 4096 - va mod 4096 -> byte_list buf ->
  let k' := set_memory (poke (p + va mod 4096) buf (memory k)) k in space k' T U l sz g (poke va buf img).
Proof.
  intros [Has Hf Hfl Himg Hown Hac Hk Hsz Hz] Hp Hva Hn Hb k'.
  destruct (poke_user end_ end_kernel k d T U own l va p buf Has Hp Hn Hb) as (Has' & W & Hhw & Hoff).
  split; try done.
  - intros vb q Hq. rewrite Hhw. by apply Hfl.
  - by apply (written_img k T U own l).
  - intros q x Hq Hx. rewrite Hoff; [by apply (Hown q)|]. by eapply own_apart.
  - intros vb Hvb. rewrite Hhw. by apply Hk.
  - intros vb Hvb. rewrite poke_at, decide_False; [by apply Hz|]. destruct (as_dom _ _ _ _ _ _ _ Has _ _ Hp) as [Hal Har].
    assert (Hlt : PGROUNDDOWN va < sz) by (apply (Hf _ Hal); [lia|by exists p]). destruct (PGROUNDUP_page sz) as [Ha1 Hb1]; [lia..|].
    rewrite PGROUNDDOWN_eq in *. pose proof (Z.mod_pos_bound va 4096 ltac:(lia)).
    pose proof (Z.div_mod (PGROUNDUP sz) 4096 ltac:(lia)). pose proof (Z.div_mod va 4096 ltac:(lia)). lia.
Qed.

(** The page table entry of a page of the process. *)
Lemma space_entry k T U l sz g img va p :
  space k T U l sz g img -> U !! va = Some p ->
  exists t, walkpgdir d va false k = Ret (t + 4 * PTX va) k /\ t + 4 * PTX va <> 0 /\
    p2v (PTE_ADDR (ld4 (t + 4 * PTX va) (memory k))) = p.
Proof.
  intros [Has Hf _ _ _ _ _ _ _] Hp.
  destruct (parent_page end_ end_kernel k k d T U own l va p Has (full_dense _ end_kernel _ _ _ _ _ _ _ Has Hf) Hp) as (t & E & Hne & _ & Hpa); [done|].
  by exists t.
Qed.

Lemma space_page k T U l sz g img va : space k T U l sz g img -> 0 <= va < sz -> exists p, U !! PGROUNDDOWN va = Some p.
Proof.
  intros Hs Hva. destruct Hs as [Has Hf _ _ _ _ _ Hsz _]. pose proof (Z.mod_pos_bound va 4096 ltac:(lia)).
  pose proof (Z.div_mod va 4096 ltac:(lia)). pose proof (Z.div_pos va 4096 ltac:(lia) ltac:(lia)).
  destruct (proj2 (Hf (PGROUNDDOWN va) ltac:(rewrite PGROUNDDOWN_eq; apply page_mod) ltac:(rewrite PGROUNDDOWN_eq; lia))) as [p Hp];
    [rewrite PGROUNDDOWN_eq; lia|]. by exists p.
Qed.

(** [clearpteu] closes the page at [va] to user code. *)
Lemma ldiff_user a : a mod 4096 = 0 -> Z.ldiff (a + 7) PTE_U = a + 3.
Proof.
  intros Ha. unfold PTE_U. rewrite <- Z.sub_nocarry_ldiff; [lia|]. apply Z.bits_inj'. intros n Hn. rewrite Z.ldiff_spec, Z.bits_0.
  change 4 with (2 ^ 2). destruct (decide (n = 2)) as [->|Hne]; [|by rewrite Z.pow2_bits_false by lia].
  rewrite Z.pow2_bits_true by lia. rewrite Z.testbit_odd, Z.shiftr_div_pow2 by lia. change (2 ^ 2) with 4.
  replace ((a + 7) / 4) with (2 * (512 * (a / 4096)) + 1); [|pose proof (Z.div_mod a 4096 ltac:(lia)); apply Z.div_unique with 3; lia].
  by rewrite Z.odd_add, Z.odd_mul.
Qed.

Lemma space_guard k T U l sz img va p :
  space k T U l sz (-1) img -> U !! va = Some p -> exists k', clearpteu d va k = Ret tt k' /\ space k' T U l sz va img.
Proof.
  intros Hs Hp. destruct Hs as [Has Hf Hfl Himg Hown Hac Hk Hsz Hz] eqn:Es. clear Es.
  destruct (as_dom _ _ _ _ _ _ _ Has _ _ Hp) as [Hal Har]. unfold KERNBASE in Har. pose proof (vs_vm _ _ _ _ _ (as_space _ _ _ _ _ _ _ Has)) as Hvm.
  destruct (full_dense _ end_kernel _ _ _ _ _ _ _ Has Hf va p va Hp ltac:(lia)) as [t HT].
  pose proof (Hfl va p Hp) as Hhw. rewrite decide_False in Hhw by lia.
  pose proof Hhw as He. rewrite (hw_entry _ end_kernel _ _ _ _ Hvm) in He. unfold entry in He. rewrite HT in He.
  destruct (Z.odd _) eqn:Ho in He; [|done]. injection He as He.
  pose proof (as_user_page _ _ _ _ _ _ _ _ _ Has Hp) as Hpok. destruct (page_pa _ end_kernel p Hpok) as (Hv1 & Hv2 & _ & Hv3). unfold PHYSTOP in Hv3.
  destruct (store_entry _ end_kernel (memory k) d T va t (v2p p + 3) Hvm HT) as (Hvm' & Hent & Hoth & Hoff); [lia|lia|].
  set (m' := st4 (t + 4 * PTX va) (v2p p + 3) (memory k)) in *. exists (set_memory m' k).
  destruct (v_tab _ _ _ _ Hvm _ _ HT) as (_ & Htok & _). destruct (page_ok_word end_ end_kernel t Htok) as (_ & Ht0 & Ht1 & _).
  pose proof (PTX_range va) as Hx. split.
  - unfold clearpteu. rewrite (bind_Ret _ _ _ _ _ (walk_found _ end_kernel k d T va t false Hvm HT)), (proj2 (Z.eqb_neq _ 0)) by lia.
    unfold load. rewrite bind_gets, He, ldiff_user by done. done.
  - assert (Hhwo : forall vb, 0 <= vb < 2 ^ 32 -> vb / 4096 <> va / 4096 -> hw m' d vb = hw (memory k) d vb).
    { intros vb Hvb Hne. by rewrite (hw_entry _ end_kernel _ _ _ _ Hvm'), (hw_entry _ end_kernel _ _ _ _ Hvm), Hoth. }
    assert (Hhwn : hw m' d va = Some (v2p p + 3)).
    { rewrite (hw_entry _ end_kernel _ _ _ _ Hvm'), Hent. by rewrite odd_flags. }
    assert (Hdiv : forall vb, vb mod 4096 = 0 -> vb <> va -> vb / 4096 <> va / 4096).
    { intros vb Hb Hne. pose proof (Z.div_mod vb 4096 ltac:(lia)). pose proof (Z.div_mod va 4096 ltac:(lia)). lia. }
    assert (Htp : table_page d T t) by (right; by exists (PDX va)).
    assert (Hpages : forall q x, q ∈ vals U ++ own -> q <= x < q + 4096 -> m' x = memory k x).
    { intros q x Hq Hxq. apply Hoff. destruct (owned_apart _ end_kernel _ _ _ _ _ _ _ Has Hq) as (Hqok & Hqt & _).
      destruct (pages_apart end_ q t Hqok Htok); [by intros ->|lia..]. }
    assert (Has' : aspace (set_memory m' k) d T U own l).
    { destruct Has as [[Hvm0 Hpool Hap] Hu Hdom Hpg Hnd]. split; try done.
      - split; [done| |done]. apply (pool_frame _ end_kernel); [done|by apply st4_bytes_ok, Hpool|]. intros q x Hq Hxq. apply Hoff.
        assert (Hqok : page_ok end_ q) by by eapply page_in_pool. destruct (pages_apart end_ q t Hqok Htok); [intros ->; by apply (Hap t)|lia..].
      - intros vb Hvb Hvr. simpl. unfold KERNBASE in Hvr. destruct (decide (vb = va)) as [->|Hne].
        + rewrite Hp. exists 3. split; [lia|done].
        + rewrite Hhwo by (lia || by apply Hdiv). by apply Hu. }
    split; try done; simpl.
    + intros vb q Hq. case_decide as E; [subst vb; congruence|]. destruct (as_dom _ _ _ _ _ _ _ Has _ _ Hq) as [Hb1 Hb2]. unfold KERNBASE in Hb2.
      rewrite Hhwo by (lia || by apply Hdiv). rewrite (Hfl vb q Hq). by rewrite decide_False by lia.
    + intros vb x Hxx. destruct (tr_page _ _ _ _ _ _ _ _ _ Has Hxx) as (q & Hq & _ & Hqx). rewrite (Hpages q) by (done || apply elem_of_app; left; apply elem_of_vals; by eexists).
      by apply Himg.
    + intros q x Hq Hxq. rewrite (Hpages q) by (done || apply elem_of_app; by right). by apply (Hown q).
    + intros vb Hvb. rewrite Hhwo; [by apply Hk|unfold KERNBASE in Hvb; lia|]. unfold KERNBASE in Hvb.
      pose proof (Z.div_mod vb 4096 ltac:(lia)). pose proof (Z.div_mod va 4096 ltac:(lia)). pose proof (Z.mod_pos_bound vb 4096 ltac:(lia)). lia.
Qed.

Lemma space_user_ok k T U l sz g img va :
  space k T U l sz g img -> 0 <= va < sz -> PGROUNDDOWN va <> g -> user_ok (memory k) d U va.
Proof.
  intros Hs Hva Hg. destruct (space_page _ _ _ _ _ _ _ _ Hs Hva) as [p Hp]. exists p, 7. split_and!; [done|lia|lia| |done].
  pose proof (sp_flags _ _ _ _ _ _ _ Hs _ _ Hp) as Hhw. rewrite decide_False in Hhw by done. rewrite <- Hhw. apply hw_page.
  rewrite PGROUNDDOWN_eq. pose proof (Z.div_mod va 4096 ltac:(lia)) as E.
  replace (va - va mod 4096) with (va / 4096 * 4096) by lia. by rewrite Z.div_mul.
Qed.

Lemma space_copyout k T U l sz g img va buf :
  space k T U l sz g img -> 0 <= va -> va + Z.of_nat (length buf) <= sz -> byte_list buf ->
  (forall j, 0 <= j < Z.of_nat (length buf) -> PGROUNDDOWN (va + j) <> g) ->
  exists k', copyout d va buf k = Ret 0 k' /\ space k' T U l sz g (poke va buf img).
Proof.
  intros Hs Hva Hv Hb Hg. pose proof (sp_size _ _ _ _ _ _ _ Hs) as Hsz. pose proof (sp_as _ _ _ _ _ _ _ Hs) as Has.
  destruct (copyout_run end_ end_kernel k d T U own l va buf Has Hva ltac:(lia) Hb) as (k' & E & Has' & W & Hhw).
  { intros j Hj. eapply space_user_ok; [exact Hs|lia|by apply Hg]. }
  exists k'. split; [done|]. destruct Hs as [_ Hf Hfl Himg Hown Hac Hk _ Hz]. split; try done.
  - intros vb q Hq. rewrite Hhw. by apply Hfl.
  - by apply (written_img k T U own l).
  - intros q x Hq Hx. destruct W as [_ F]. rewrite F; [by apply (Hown q)|]. intros j Hj Hx'.
    destruct (tr_page _ _ _ _ _ _ _ _ _ Has Hx') as (p & Hp & _ & Hpx). by eapply (own_apart k T U own l (PGROUNDDOWN (va + Z.of_nat j)) q p).
  - intros vb Hvb. rewrite Hhw. by apply Hk.
  - intros vb Hvb. rewrite poke_at, decide_False; [by apply Hz|]. destruct (PGROUNDUP_page sz) as [Ha1 Hb1]; [lia..|]. lia.
Qed.
End Space.

(** ** Writes one after the other *)

Lemma poke_nil a m x : poke a [] m x = m x.
Proof. unfold poke. by destruct (decide (a <= x)). Qed.

Lemma poke_app a b1 b2 m x : poke (a + Z.of_nat (length b1)) b2 (poke a b1 m) x = poke a (b1 ++ b2) m x.
Proof.
  rewrite !poke_at, length_app. destruct (decide (a + Z.of_nat (length b1) <= x < a + Z.of_nat (length b1) + Z.of_nat (length b2))) as [H2|H2].
  - rewrite decide_True by lia. rewrite lookup_app_r by lia. do 2 f_equal. lia.
  - destruct (decide (a <= x < a + Z.of_nat (length b1))) as [H1|H1].
    + rewrite decide_True by lia. by rewrite lookup_app_l by lia.
    + by rewrite decide_False by lia.
Qed.

Lemma poke_ext a b m m' x : m x = m' x -> poke a b m x = poke a b m' x.
Proof. intros E. by rewrite !poke_at, E. Qed.

Lemma space_ext end_ own l0 m0 m1 d k T U l sz g (img img' : mem) :
  space end_ own l0 m0 m1 d k T U l sz g img -> (forall x, img' x = img x) -> space end_ own l0 m0 m1 d k T U l sz g img'.
Proof.
  intros [H1 H2 H3 H4 H5 H6 H7 H8 H9] E. split; try done.
  - intros va x Hx. rewrite E. by apply H4.
  - intros va Hva. rewrite E. by apply H9.
Qed.
