(* ===== verification/ExecSpec.v ===== *)
(** * Running a program: reading the file and loading it (exec.c)

    [reading] is the file system between ilock and iunlockput of exec: every
    [readi] gives bytes of the file.  On top of it the steps of exec build the
    address space of [ExecMem]. *)
From S2P Require Import Prelude Mmu Spinlock Strings Bytes BlockCache Kalloc Vm VmSpec VmUser VmGrow VmCopy Store Fs FsBlocks FsInode FsFile FsIcache FsTrunc FsDir FsPath Exec ExecMem.

Section File.
Context {S H : Type} `{StoreLaws S H} `{!Loggable S H}.
Context (V : gmap Z (list Z)) (L : gset Z) (sb : superblock) (single : sb_size sb <= BPB) (devs : Z -> @devsw S)
  (Hlo : layout sb V) (Hlen : lengths V) (N : gmap Z (dinode * gmap Z Z)) (Htree : tree_ok V sb N)
  (Hroom : room (∅ : gmap Z (H * bool)) L 1).

(** ** The program file *)

(** No inode is locked; every inode has [refs0] references. *)
Record idle (refs0 : Z -> Z -> Z) (f : fs S) : Prop := {
  id_lock : unlocked 0 (flks f);
  id_cache : cache_ok V None (ic f);
  id_store : holds (store f) V ∅ L;
  id_refs : forall dv k, refs (ic f) dv k = refs0 dv k
}.

(** [inum], with the disk inode [d], is locked as entry [ip]. *)
Record reading (refs0 : Z -> Z -> Z) (ip : nat) (inum : Z) (d : dinode) (f : fs S) : Prop := {
  rd_lock : unlocked 0 (flks f);
  rd_cache : cache_ok V (Some ip) (ic f);
  rd_entry : exists r, 0 < r /\ inodes (ic f) !! ip = Some (Inode ROOTDEV inum r true true d);
  rd_store : holds (store f) V ∅ L;
  rd_refs : forall dv k, refs (ic f) dv k = refs0 dv k + one (is_inode ROOTDEV inum dv k)
}.

Lemma open_run f cwd wi path inum nm d bm :
  cut path = path -> idle (refs (ic f)) f -> inodes (ic f) !! cwd = Some wi -> 0 < i_ref wi -> i_dev wi = ROOTDEV ->
  is_Some (N !! i_inum wi) -> is_Some (N !! ROOTINO) -> 2 <= free_entries (ic f) ->
  walk V N false (elems path) (if absolute path then ROOTINO else i_inum wi) [] = Some (inum, nm) -> N !! inum = Some (d, bm) ->
  exists ip f1 f2, namei devs cwd path f = Ret (Some ip) f1 /\ ilock ip f1 = Ret tt f2 /\ reading (refs (ic f)) ip inum d f2.
Proof.
  intros Hp [Hl Hc Hs _] Hw Hr Hdev HNw HNr Hfree Hwalk HN. destruct f as [l c s]. cbn [flks ic store] in *.
  destruct (namex_run V L sb devs Hlo Hlen N Htree Hroom l c s cwd wi path false Hp Hl Hc Hw Hr Hdev HNw HNr Hs Hfree) as (l1 & c1 & s1 & Hl1 & Hh1 & Hc1 & Hres).
  rewrite Hwalk in Hres. destruct Hres as (ip & E1 & (i & Hi & Hir & [Hid Hin]) & Hone). destruct (tr_disk _ _ _ Htree _ _ _ HN) as (Hdk & Hty & _).
  rewrite <- Hin in Hdk. destruct (walk_ilock V L l1 c1 s1 ip i d Hl1 Hc1 Hi Hir Hdk Hty Hh1 Hroom) as (l2 & s2 & E2 & Hs2 & Hh2 & Hc2 & Href2 & _).
  exists ip, (Fs l1 c1 s1). eexists. split_and!.
  - unfold namei. by rewrite (bind_Ret _ _ _ _ _ E1).
  - exact E2.
  - split; cbn [flks ic store]; [by apply Hs2|done| |done|].
    + exists (i_ref i). split; [done|]. rewrite Hid, Hin. by eapply set_inode_lookup.
    + intros dv k. rewrite Href2. apply Hone.
Qed.

Lemma inode_read_run refs0 ip inum d bm f off n :
  reading refs0 ip inum d f -> file_inv sb V (Inode ROOTDEV inum 1 false true d) bm ->
  0 <= off <= d_size d -> 0 <= n -> off + n < 2 ^ 32 ->
  exists f', readi devs ip off n f = Ret (Some (take (Z.to_nat n) (drop (Z.to_nat off) (fbytes V bm 0 (d_size d))))) f' /\
    reading refs0 ip inum d f'.
Proof.
  intros [Hl Hc (r & Hr & Hi) Hs Href] Hf Ho Hn Hov. destruct f as [l c s]. cbn [flks ic store] in *.
  set (i := Inode ROOTDEV inum r true true d) in *. assert (Hf' : file_inv sb V i bm) by by eapply file_inv_flags.
  destruct (readi_run sb devs l c s V L ip i bm off n Hi Hf' Hs Hlo Hlen Hroom Ho Hn Hov) as (s' & E & Hs').
  exists (Fs l c s'). split; [exact E|]. split; try done. by exists r.
Qed.

Lemma close_run refs0 ip inum d bm f :
  reading refs0 ip inum d f -> N !! inum = Some (d, bm) -> exists f', iunlockput ip f = Ret tt f' /\ idle refs0 f'.
Proof.
  intros [Hl Hc (r & Hr & Hi) Hs Href] HN. destruct f as [l c s]. cbn [flks ic store] in *.
  set (i := Inode ROOTDEV inum r true true d) in *. destruct (tr_disk _ _ _ Htree _ _ _ HN) as (_ & _ & Hnl).
  destruct (walk_iunlockput V l c s ip i Hl Hc Hi Hr Hnl) as (l' & c' & E & Hs' & _ & Hc' & Hone & _).
  exists (Fs l' c' s). split; [exact E|]. split; cbn [flks ic store]; [by apply Hs'|done|done|].
  intros dv k. specialize (Hone dv k). specialize (Href dv k). simpl in Hone. lia.
Qed.
End File.

(** ** The program *)

(** A segment to load, and those of [n] program headers from [off] on in the
    file [C]. *)
Record seg := Seg { s_off : Z; s_vaddr : Z; s_filesz : Z; s_memsz : Z }.

Definition seg_of (ph : list Z) : option seg :=
  o ← ph_off ph; v ← ph_vaddr ph; f ← ph_filesz ph; m ← ph_memsz ph; Some (Seg o v f m).

Fixpoint segs_of (n : nat) (off : Z) (C : list Z) : option (list seg) :=
  match n with
  | O => Some []
  | S n' =>
      let ph := take 32 (drop (Z.to_nat off) C) in
      if negb (length ph =? 32)%nat then None else
      type ← ph_type ph;
      if negb (type =? ELF_PROG_LOAD) then segs_of n' (off + 32) C
      else g ← seg_of ph; gs ← segs_of n' (off + 32) C; Some (g :: gs)
  end.

(** A segment that can be loaded from [C]. *)
Record seg_ok (C : list Z) (g : seg) : Prop := {
  so_sizes : 0 <= s_filesz g <= s_memsz g;
  so_aligned : s_vaddr g mod 4096 = 0;
  so_place : 0 <= s_vaddr g;
  so_top : 0 < s_vaddr g + s_memsz g < KERNBASE;
  so_file : 0 <= s_off g /\ s_off g + s_filesz g <= Z.of_nat (length C)
}.

(** The bytes of the segments and the size of the process with them. *)
Definition seg_bytes (C : list Z) (g : seg) : list Z := take (Z.to_nat (s_filesz g)) (drop (Z.to_nat (s_off g)) C).
Fixpoint load_image (C : list Z) (gs : list seg) (img : mem) : mem :=
  match gs with [] => img | g :: gs' => load_image C gs' (poke (s_vaddr g) (seg_bytes C g) img) end.
Fixpoint load_size (gs : list seg) (sz : Z) : Z :=
  match gs with [] => sz | g :: gs' => load_size gs' (Z.max sz (s_vaddr g + s_memsz g)) end.

Lemma load_size_le gs sz : sz <= load_size gs sz.
Proof. revert sz. induction gs as [|g gs IH]; intros sz; simpl; [lia|]. specialize (IH (Z.max sz (s_vaddr g + s_memsz g))). lia. Qed.

Lemma load_image_ext C gs (img img' : mem) : (forall x, img x = img' x) -> forall x, load_image C gs img x = load_image C gs img' x.
Proof.
  revert img img'. induction gs as [|g gs IH]; intros img img' E x; simpl; [done|]. apply IH. intros y. by apply poke_ext.
Qed.

Section Load.
Context {S H : Type} `{StoreLaws S H} `{!Loggable S H}.
Context (V : gmap Z (list Z)) (L : gset Z) (sb : superblock) (devs : Z -> @devsw S)
  (Hlo : layout sb V) (Hlen : lengths V) (Hroom : room (∅ : gmap Z (H * bool)) L 1).
Context (end_ : Z) (end_kernel : KERNLINK <= end_) (own l0 : list Z) (m0 m1 : mem) (pgdir : Z).
Context (refs0 : Z -> Z -> Z) (ip : nat) (inum : Z) (dn : dinode) (bm : gmap Z Z)
  (Hfile : file_inv sb V (Inode ROOTDEV inum 1 false true dn) bm).

Abbreviation C := (fbytes V bm 0 (d_size dn)).
Context (Hbytes : byte_list C).
Abbreviation reading := (reading V L refs0 ip inum dn).
Abbreviation space := (space end_ own l0 m0 m1 pgdir).

Lemma onm_run {A} (m : M kmem A) (s : xst S) a k : m (xmem s) = Ret a k -> onm m s = Ret a (set_xmem k s).
Proof. intros E. unfold onm, zoom. by rewrite E. Qed.

Lemma onf_run {A} (m : M (fs S) A) (s : xst S) a f : m (xfs s) = Ret a f -> onf m s = Ret a (set_xfs f s).
Proof. intros E. unfold onf, zoom. by rewrite E. Qed.

Lemma size_C : Z.of_nat (length C) = d_size dn /\ d_size dn <= 71680 /\ 0 <= d_size dn.
Proof.
  pose proof (fi_size _ _ _ _ Hfile) as Hs. pose proof (di_size _ (fi_dinode _ _ _ _ Hfile)) as Hu. change (MAXFILE * BSIZE) with 71680 in Hs.
  unfold i_size in Hs. simpl in Hs, Hu. unfold uint in Hu. rewrite length_fbytes. lia.
Qed.

Lemma xread_run (s : xst S) off n :
  reading (xfs s) -> 0 <= off <= d_size dn -> 0 <= n < 2 ^ 31 ->
  exists f', onf (readi devs ip off n) s = Ret (Some (take (Z.to_nat n) (drop (Z.to_nat off) C))) (set_xfs f' s) /\ reading f'.
Proof.
  intros Hr Ho Hn. pose proof size_C. destruct (inode_read_run V L sb devs Hlo Hlen Hroom refs0 ip inum dn bm (xfs s) off n Hr Hfile Ho) as (f' & E & Hr'); [lia|lia|].
  exists f'. split; [|done]. by apply onf_run.
Qed.

Abbreviation seg_pages := (load_pages (fun _ m => onm m) (fun o n => onf (readi devs ip o n))).

Lemma load_pages_run fuel (s : xst S) T U l sz img vaddr off fsz i :
  reading (xfs s) -> space (xmem s) T U l sz (-1) img -> vaddr mod 4096 = 0 -> 0 <= vaddr -> i mod 4096 = 0 -> 0 <= i ->
  0 <= off -> 0 <= fsz -> vaddr + fsz <= sz -> off + fsz <= d_size dn -> fsz <= i + 4096 * (Z.of_nat fuel - 1) -> (0 < fuel)%nat ->
  exists k' f', seg_pages fuel pgdir vaddr off fsz i s = Ret 0 (set_xfs f' (set_xmem k' s)) /\ reading f' /\
    space k' T U l sz (-1) (poke (vaddr + i) (take (Z.to_nat (fsz - i)) (drop (Z.to_nat (off + i)) C)) img).
Proof.
  pose proof size_C as (HC1 & HC2 & HC3).
  revert s img i. induction fuel as [|fuel IH]; intros s img i Hr Hs Hva Hva0 Hi Hi0 Ho Hf0 Hsz Hoff Hfu Hfu0; [lia|].
  cbn [load_pages]. destruct (Z.ltb_spec i fsz) as [Hlt|Hge]; cbn [negb].
  2: { exists (xmem s), (xfs s). split; [by destruct s|]. split; [done|]. eapply space_ext; [exact Hs|]. intros x.
       replace (Z.to_nat (fsz - i)) with 0%nat by lia. apply poke_nil. }
  pose proof (sp_size _ _ _ _ _ _ _ _ _ _ _ _ _ Hs) as Hsz'. unfold KERNBASE in Hsz'. rewrite (u32_small (vaddr + i)), (u32_small (off + i)) by lia.
  assert (Hal : (vaddr + i) mod 4096 = 0) by (rewrite Z.add_mod, Hva, Hi by lia; done).
  assert (Hpd : PGROUNDDOWN (vaddr + i) = vaddr + i) by (rewrite PGROUNDDOWN_eq; lia).
  destruct (space_page _ _ _ _ _ _ _ _ _ _ _ _ _ (vaddr + i) Hs) as [p Hp]; [lia|]. pose proof Hp as Hp'. rewrite Hpd in Hp'.
  destruct (space_entry _ end_kernel _ _ _ _ _ _ _ _ _ _ _ _ _ _ Hs Hp') as (t & Ew & Hne & Hpa).
  rewrite (bind_Ret _ _ _ _ _ (onm_run _ s _ _ Ew)), (proj2 (Z.eqb_neq _ 0) Hne).
  set (s1 := set_xmem (xmem s) s). assert (Es1 : s1 = s) by by destruct s. rewrite Es1. clear s1 Es1.
  rewrite (bind_Ret _ _ _ _ _ (onm_run (load _) s _ (xmem s) eq_refl)). set (s1 := set_xmem (xmem s) s). assert (Es1 : s1 = s) by by destruct s. rewrite Es1. clear s1 Es1.
  cbv zeta. rewrite Hpa. unfold PGSIZE. set (n := if fsz - i <? 4096 then fsz - i else 4096).
  assert (Hn : 0 < n <= 4096 /\ n <= fsz - i /\ (n < 4096 -> n = fsz - i)) by (unfold n; destruct (Z.ltb_spec (fsz - i) 4096); lia).
  destruct (xread_run s (off + i) n Hr) as (f1 & E1 & Hr1); [lia|lia|]. rewrite (bind_Ret _ _ _ _ _ E1). cbv iota beta.
  set (buf := take (Z.to_nat n) (drop (Z.to_nat (off + i)) C)) in *.
  assert (Hbl : Z.of_nat (length buf) = n) by (unfold buf; rewrite length_take, length_drop; lia).
  pose proof (space_poke _ end_kernel _ _ _ _ _ (xmem s) T U l sz (-1) img (vaddr + i) p buf Hs Hp ltac:(lia) ltac:(lia)) as Hs1.
  cbv zeta in Hs1. rewrite Hal, Z.add_0_r in Hs1. specialize (Hs1 ltac:(by apply Forall_take, Forall_drop)).
  erewrite bind_Ret by (apply onm_run; reflexivity). rewrite Hbl, Z.eqb_refl. cbn [negb]. cbn [xmem set_xfs].
  rewrite (u32_small (i + 4096)) by lia.
  destruct (IH (set_xmem (set_memory (poke p buf (memory (xmem s))) (xmem s)) (set_xfs f1 s)) (poke (vaddr + i) buf img) (i + 4096)) as (k2 & f2 & E2 & Hr2 & Hs2);
    try done; try lia; [by apply (proj2 (page_index i 1 Hi))|].
  exists k2, f2. split; [exact E2|]. split; [done|]. eapply space_ext; [exact Hs2|]. intros x.
  destruct (decide (n < 4096)) as [Hlast|Hmid].
  - replace (Z.to_nat (fsz - (i + 4096))) with 0%nat by lia. cbn [take]. rewrite poke_nil. unfold buf. by replace (Z.to_nat (fsz - i)) with (Z.to_nat n) by lia.
  - replace (vaddr + (i + 4096)) with (vaddr + i + Z.of_nat (length buf)) by lia. rewrite poke_app. f_equal. unfold buf.
    replace (Z.to_nat n) with 4096%nat by lia. replace (Z.to_nat (off + (i + 4096))) with (Z.to_nat (off + i) + 4096)%nat by lia.
    rewrite <- drop_drop, take_take_drop. f_equal. lia.
Qed.

Lemma load_segment_run (s : xst S) T U l sz img g :
  reading (xfs s) -> space (xmem s) T U l sz (-1) img -> seg_ok C g -> s_vaddr g + s_memsz g <= sz ->
  exists k' f', load_segment devs ip pgdir (s_vaddr g) (s_off g) (s_filesz g) s = Ret 0 (set_xfs f' (set_xmem k' s)) /\ reading f' /\
    space k' T U l sz (-1) (poke (s_vaddr g) (seg_bytes C g) img).
Proof.
  intros Hr Hs [K1 K2 K3 K4 K5] Hsz. pose proof size_C as (HC1 & HC2 & HC3). unfold load_segment, loaduvm.
  change PGSIZE with 4096. rewrite K2, Z.eqb_refl. cbn [negb].
  destruct (load_pages_run (Datatypes.S (Z.to_nat (s_filesz g / 4096 + 1))) s T U l sz img (s_vaddr g) (s_off g) (s_filesz g) 0) as (k' & f' & E & Hr' & Hs');
    try done; try lia. { pose proof (Z.div_mod (s_filesz g) 4096). pose proof (Z.mod_pos_bound (s_filesz g) 4096). lia. }
  exists k', f'. split; [exact E|]. split; [done|]. by rewrite !Z.add_0_r, Z.sub_0_r in Hs'.
Qed.

Lemma grow_run (s : xst S) T U l sz img g :
  space (xmem s) T U l sz (-1) img -> 0 < s_vaddr g + s_memsz g < KERNBASE -> 1026 + (s_vaddr g + s_memsz g + 4095) / 4096 <= Z.of_nat (length l0) ->
  exists k' T' U' l', onm (allocuvm end_ pgdir sz (s_vaddr g + s_memsz g)) s = Ret (Z.max sz (s_vaddr g + s_memsz g)) (set_xmem k' s) /\
    space k' T' U' l' (Z.max sz (s_vaddr g + s_memsz g)) (-1) img.
Proof.
  intros Hs K4 Hfit. destruct (Z.lt_ge_cases (s_vaddr g + s_memsz g) sz) as [Hlt|Hge].
  - exists (xmem s), T, U, l. rewrite Z.max_l by lia. split; [|done]. apply onm_run. unfold allocuvm.
    destruct (Z.leb_spec KERNBASE (s_vaddr g + s_memsz g)); [lia|]. by destruct (Z.ltb_spec (s_vaddr g + s_memsz g) sz); [|lia].
  - rewrite Z.max_r by lia. destruct (space_grow _ end_kernel _ _ _ _ _ _ _ _ _ _ _ _ _ Hs ltac:(lia) (conj Hge (proj2 K4)) (proj1 K4) Hfit) as (k' & T' & U' & l' & E & Hs' & _).
    exists k', T', U', l'. split; [by apply onm_run|done].
Qed.

Lemma load_size_fits gs sz n : 1026 + (load_size gs sz + 4095) / 4096 <= n -> 1026 + (sz + 4095) / 4096 <= n.
Proof. intros E. pose proof (load_size_le gs sz). pose proof (Z.div_le_mono (sz + 4095) (load_size gs sz + 4095) 4096). lia. Qed.

(** One program header: skipped, or a segment to load. *)
Lemma load_segs_head n off gs sz (s : xst S) :
  segs_of (Datatypes.S n) off C = Some gs -> 0 <= off -> reading (xfs s) ->
  exists f1, reading f1 /\
    (segs_of n (off + 32) C = Some gs /\ load_segs devs end_ (Datatypes.S n) ip pgdir off sz s = load_segs devs end_ n ip pgdir (off + 32) sz (set_xfs f1 s) \/
     exists g gs', gs = g :: gs' /\ segs_of n (off + 32) C = Some gs' /\
       load_segs devs end_ (Datatypes.S n) ip pgdir off sz s =
         (if s_memsz g <? s_filesz g then ret None else
          sz <~ onm (allocuvm end_ pgdir sz (u32 (s_vaddr g + s_memsz g)));;;
          if sz =? 0 then ret None else
          r <~ load_segment devs ip pgdir (s_vaddr g) (s_off g) (s_filesz g);;;
          if r <? 0 then ret None else load_segs devs end_ n ip pgdir (off + 32) sz) (set_xfs f1 s)).
Proof.
  intros Hg Ho Hr. pose proof size_C as (HC1 & HC2 & HC3). cbn [segs_of] in Hg. cbn [load_segs]. unfold sizeof_proghdr.
  destruct (Nat.eqb_spec (length (take 32 (drop (Z.to_nat off) C))) 32) as [H32|]; [cbn [negb] in Hg|done].
  assert (Hlen32 : off + 32 <= d_size dn) by (rewrite length_take, length_drop in H32; lia).
  destruct (xread_run s off 32 Hr) as (f1 & E1 & Hr1); [lia|lia|]. rewrite (bind_Ret _ _ _ _ _ E1). change (Z.to_nat 32) with 32%nat.
  set (ph := take 32 (drop (Z.to_nat off) C)) in *. rewrite H32, (u32_small (off + 32)) by lia. change (negb (Z.of_nat 32 =? 32)) with false. cbv iota.
  destruct (ph_type ph) as [ty|] eqn:Ety; [|done]. unfold field. erewrite bind_gets_opt by exact eq_refl. cbn [mbind option_bind] in Hg.
  exists f1. split; [done|]. destruct (Z.eqb_spec ty ELF_PROG_LOAD) as [->|Hty]; cbn [negb] in Hg |- *; [right|by left].
  destruct (seg_of ph) as [g|] eqn:Eg; [|done]. destruct (segs_of n (off + 32) C) as [gs'|] eqn:Egs; [|done]. injection Hg as <-.
  unfold seg_of in Eg. destruct (ph_off ph) as [po|] eqn:?; [|done]. destruct (ph_vaddr ph) as [pv|] eqn:?; [|done].
  destruct (ph_filesz ph) as [pf|] eqn:?; [|done]. destruct (ph_memsz ph) as [pm|] eqn:?; [|done]. injection Eg as <-.
  exists (Seg po pv pf pm), gs'. split; [done|]. split; [done|]. do 4 (erewrite bind_gets_opt by exact eq_refl). done.
Qed.

Lemma load_segs_run n off gs (s : xst S) T U l sz img :
  segs_of n off C = Some gs -> Forall (seg_ok C) gs -> 0 <= off -> reading (xfs s) -> space (xmem s) T U l sz (-1) img ->
  1026 + (load_size gs sz + 4095) / 4096 <= Z.of_nat (length l0) ->
  exists k' f' T' U' l', load_segs devs end_ n ip pgdir off sz s = Ret (Some (load_size gs sz)) (set_xfs f' (set_xmem k' s)) /\ reading f' /\
    space k' T' U' l' (load_size gs sz) (-1) (load_image C gs img).
Proof.
  revert off gs s T U l sz img. induction n as [|n IH]; intros off gs s T U l sz img Hg Hok Ho Hr Hs Hfit.
  { injection Hg as <-. exists (xmem s), (xfs s), T, U, l. split; [by destruct s|done]. }
  destruct (load_segs_head n off gs sz s Hg Ho Hr) as (f1 & Hr1 & [[Hg' ->]|(g & gs' & -> & Hg' & ->)]).
  { destruct (IH (off + 32) gs (set_xfs f1 s) T U l sz img) as (k2 & f2 & T2 & U2 & l2 & E2 & ?); try done; [lia|]. by exists k2, f2, T2, U2, l2. }
  apply Forall_cons in Hok as [Hok Hoks]. pose proof Hok as [K1 K2 K3 K4 K5]. cbn [load_size load_image] in *.
  destruct (Z.ltb_spec (s_memsz g) (s_filesz g)); [lia|]. set (top := s_vaddr g + s_memsz g) in *. rewrite (u32_small top) by (unfold KERNBASE in K4; lia).
  destruct (grow_run (set_xfs f1 s) T U l sz img g Hs K4) as (k2 & T2 & U2 & l2 & E2 & Hs2).
  { pose proof (load_size_fits _ _ _ Hfit). pose proof (Z.div_le_mono (top + 4095) (Z.max sz top + 4095) 4096). fold top. lia. }
  fold top in E2, Hs2. rewrite (bind_Ret _ _ _ _ _ E2). destruct (Z.eqb_spec (Z.max sz top) 0); [lia|].
  destruct (load_segment_run (set_xmem k2 (set_xfs f1 s)) T2 U2 l2 (Z.max sz top) img g Hr1 Hs2 Hok) as (k3 & f3 & E3 & Hr3 & Hs3); [fold top; lia|].
  rewrite (bind_Ret _ _ _ _ _ E3). change (0 <? 0) with false. cbv iota.
  destruct (IH (off + 32) gs' (set_xfs f3 (set_xmem k3 (set_xmem k2 (set_xfs f1 s)))) T2 U2 l2 _ _ Hg' Hoks ltac:(lia) Hr3 Hs3 Hfit) as (k4 & f4 & T4 & U4 & l4 & E4 & ?).
  by exists k4, f4, T4, U4, l4.
Qed.
End Load.
