(* ===== verification/ExecStack.v ===== *)
(** * Running a program: the stack and the switch (exec.c)

    The argument strings and the words that exec pushes on the stack of the
    new program, and the step from the old address space to the new one. *)
From S2P Require Import Prelude Mmu Spinlock Strings Bytes BlockCache Kalloc Vm VmSpec VmUser VmGrow VmCopy Store Fs Exec ExecMem ExecSpec.

(** ** The layout of the stack *)

(** Where a string goes below [sp], and the stack pointer, the addresses and
    the memory once all strings are pushed. *)
Definition slot (sp : Z) (a : list Z) : Z := (sp - (Z.of_nat (length a) + 1)) / 4 * 4.

Fixpoint args_sp (argv : list (list Z)) (sp : Z) : Z :=
  match argv with [] => sp | a :: argv' => args_sp argv' (slot sp a) end.

Fixpoint args_ptrs (argv : list (list Z)) (sp : Z) : list Z :=
  match argv with [] => [] | a :: argv' => slot sp a :: args_ptrs argv' (slot sp a) end.

Fixpoint args_image (argv : list (list Z)) (sp : Z) (img : mem) : mem :=
  match argv with [] => img | a :: argv' => args_image argv' (slot sp a) (poke (slot sp a) (cstr a) img) end.

Lemma slot_bounds sp a : slot sp a + Z.of_nat (length (cstr a)) <= sp /\ sp - (Z.of_nat (length a) + 1) - 3 <= slot sp a /\ slot sp a mod 4 = 0.
Proof.
  unfold slot, cstr. rewrite length_app. cbn [length]. pose proof (Z.div_mod (sp - (Z.of_nat (length a) + 1)) 4).
  pose proof (Z.mod_pos_bound (sp - (Z.of_nat (length a) + 1)) 4). rewrite Z.mod_mul by lia. lia.
Qed.

Lemma args_sp_le argv sp : args_sp argv sp <= sp.
Proof.
  revert sp. induction argv as [|a argv IH]; intros sp; simpl; [lia|]. specialize (IH (slot sp a)). pose proof (slot_bounds sp a). lia.
Qed.

Lemma args_ptrs_length argv sp : length (args_ptrs argv sp) = length argv.
Proof. revert sp. induction argv as [|a argv IH]; intros sp; simpl; [done|]. by rewrite IH. Qed.

(** Nothing at or above [sp] changes. *)
Lemma args_image_above argv sp img x : sp <= x -> args_image argv sp img x = img x.
Proof.
  revert sp img. induction argv as [|a argv IH]; intros sp img Hx; simpl; [done|]. pose proof (slot_bounds sp a). rewrite IH by lia.
  rewrite poke_at, decide_False by lia. done.
Qed.

(** Nothing below the last string changes. *)
Lemma args_image_below argv sp img x : x < args_sp argv sp -> args_image argv sp img x = img x.
Proof.
  revert sp img. induction argv as [|a argv IH]; intros sp img Hx; simpl in *; [done|]. rewrite IH by done.
  pose proof (args_sp_le argv (slot sp a)). rewrite poke_at, decide_False by lia. done.
Qed.

(** Every string stands at its address. *)
Lemma args_image_string argv sp img i a p j c :
  argv !! i = Some a -> args_ptrs argv sp !! i = Some p -> cstr a !! j = Some c -> args_image argv sp img (p + Z.of_nat j) = c.
Proof.
  revert sp img i. induction argv as [|b argv IH]; intros sp img [|i] Ha Hp Hc; simpl in *; try done.
  - injection Ha as ->. injection Hp as <-. rewrite args_image_above by lia. pose proof (lookup_lt_Some _ _ _ Hc).
    rewrite poke_at, decide_True by lia. replace (Z.to_nat (slot sp a + Z.of_nat j - slot sp a)) with j by lia. by rewrite Hc.
  - by apply (IH _ _ i).
Qed.

Lemma args_ptrs_range argv sp i p : args_ptrs argv sp !! i = Some p -> args_sp argv sp <= p < sp.
Proof.
  revert sp i. induction argv as [|b argv IH]; intros sp [|i] Hp; simpl in *; try done.
  - injection Hp as <-. pose proof (args_sp_le argv (slot sp b)). pose proof (slot_bounds sp b) as Hs. unfold cstr in Hs. rewrite length_app in Hs. simpl in Hs. lia.
  - apply IH in Hp. pose proof (slot_bounds sp b). lia.
Qed.

Lemma land_fffc x : 0 <= x < 2 ^ 32 -> Z.land x 0xfffffffc = x / 4 * 4.
Proof.
  intros Hx. change 0xfffffffc with (Z.ldiff (Z.ones 32) (Z.ones 2)). rewrite Z.ldiff_land, Z.land_assoc, Z.land_ones by lia.
  rewrite Z.mod_small by lia. rewrite <- Z.ldiff_land, Z.ldiff_ones_r, Z.shiftr_div_pow2, Z.shiftl_mul_pow2 by lia. done.
Qed.

(** The words below the strings: a fake return address, argc, argv, the
    pointers. *)
Definition stack_sp (argv : list (list Z)) (sz : Z) : Z := args_sp argv sz - (3 + Z.of_nat (length argv) + 1) * 4.
Definition stack_words (argv : list (list Z)) (sz : Z) : list Z := ustack (args_sp argv sz) (args_ptrs argv sz).
Definition stack_image (argv : list (list Z)) (sz : Z) (img : mem) : mem :=
  poke (stack_sp argv sz) (concat (le4 <$> stack_words argv sz)) (args_image argv sz img).

Lemma le4_byte x : byte_list (le4 x).
Proof. unfold le4. repeat (apply Forall_cons_2; [apply Z.mod_pos_bound; lia|]). apply Forall_nil_2. Qed.

Lemma words_length ws : length (concat (le4 <$> ws)) = (4 * length ws)%nat.
Proof. induction ws as [|w ws IH]; [done|]. cbn [fmap list_fmap concat]. rewrite length_app, IH. simpl. lia. Qed.

Lemma words_bytes ws : byte_list (concat (le4 <$> ws)).
Proof. induction ws as [|w ws IH]; [constructor|]. cbn [fmap list_fmap concat]. apply Forall_app. split; [apply le4_byte|done]. Qed.

Lemma stack_words_length argv sz : length (stack_words argv sz) = (3 + length argv + 1)%nat.
Proof. unfold stack_words, ustack. rewrite !length_app, args_ptrs_length. simpl. lia. Qed.

Lemma words_lookup ws i w b c : ws !! i = Some w -> le4 w !! b = Some c -> concat (le4 <$> ws) !! (4 * i + b)%nat = Some c.
Proof.
  revert i. induction ws as [|v ws IH]; intros [|i] Hw Hb; try done; cbn [fmap list_fmap concat].
  - injection Hw as ->. rewrite lookup_app_l; [exact Hb|]. apply lookup_lt_Some in Hb. simpl in *. lia.
  - rewrite lookup_app_r by (simpl; lia). replace (4 * Datatypes.S i + b - length (le4 v))%nat with (4 * i + b)%nat by (simpl; lia). by apply IH.
Qed.

(** Word [i] stands at [4 * i] above the stack pointer. *)
Lemma stack_image_word argv sz img i w b c :
  stack_words argv sz !! i = Some w -> le4 w !! b = Some c -> stack_image argv sz img (stack_sp argv sz + 4 * Z.of_nat i + Z.of_nat b) = c.
Proof.
  intros Hw Hb. pose proof (words_lookup _ _ _ _ _ Hw Hb) as Hl. pose proof (lookup_lt_Some _ _ _ Hl). unfold stack_image.
  rewrite poke_at, decide_True by lia.
  replace (Z.to_nat _) with (4 * i + b)%nat by lia. by rewrite Hl.
Qed.

(** The strings are above the words. *)
Lemma stack_image_string argv sz img i a p j c :
  argv !! i = Some a -> args_ptrs argv sz !! i = Some p -> cstr a !! j = Some c -> stack_image argv sz img (p + Z.of_nat j) = c.
Proof.
  intros Ha Hp Hc. pose proof (args_ptrs_range _ _ _ _ Hp). unfold stack_image, stack_sp.
  rewrite poke_at, decide_False; [by eapply args_image_string|]. rewrite words_length, stack_words_length. lia.
Qed.

(** Below the stack nothing changes. *)
Lemma stack_image_below argv sz img x : x < stack_sp argv sz -> stack_image argv sz img x = img x.
Proof.
  intros Hx. unfold stack_image. rewrite poke_at, decide_False by lia. apply args_image_below. unfold stack_sp in Hx. lia.
Qed.

Section Stack.
Context {S H : Type} `{Store S H}.
Context (end_ : Z) (end_kernel : KERNLINK <= end_) (own l0 : list Z) (m0 m1 : mem) (pgdir : Z).
Abbreviation space := (space end_ own l0 m0 m1 pgdir).

Lemma in_stack sz va : sz mod 4096 = 0 -> sz - 4096 <= va -> PGROUNDDOWN va <> sz - 8192.
Proof.
  intros Hm Hva. rewrite PGROUNDDOWN_eq. pose proof (Z.mod_pos_bound va 4096). pose proof (Z.div_mod va 4096). pose proof (Z.div_mod sz 4096). lia.
Qed.

Lemma push_args_run argv argc (s : xst S) T U l sz img sp ptrs :
  space (xmem s) T U l sz (sz - 8192) img -> Forall (Forall (fun b => 0 <= b < 256)) argv -> sz mod 4096 = 0 -> 8192 <= sz ->
  sz - 4096 <= args_sp argv sp -> sp <= sz -> argc + Z.of_nat (length argv) <= MAXARG ->
  exists k', push_args argv argc pgdir sp ptrs s = Ret (Some (args_sp argv sp, ptrs ++ args_ptrs argv sp)) (set_xmem k' s) /\
    space k' T U l sz (sz - 8192) (args_image argv sp img).
Proof.
  revert argc s img sp ptrs. induction argv as [|a argv IH]; intros argc s img sp ptrs Hs Hb Hm Hz Hsp Hsz Hn; simpl in *.
  { exists (xmem s). rewrite app_nil_r. split; [by destruct s|done]. }
  apply Forall_cons in Hb as [Hb Hbs]. pose proof (slot_bounds sp a) as (Hs1 & Hs2 & Hs3). pose proof (args_sp_le argv (slot sp a)).
  pose proof (sp_size _ _ _ _ _ _ _ _ _ _ _ _ _ Hs) as Hk. unfold KERNBASE in Hk. unfold cstr in Hs1. rewrite length_app in Hs1. cbn [length] in Hs1.
  destruct (Z.leb_spec MAXARG argc); [lia|]. rewrite (u32_small (sp - _)) by lia. rewrite land_fffc by lia. fold (slot sp a).
  destruct (space_copyout _ end_kernel _ _ _ _ _ _ _ _ _ _ _ _ (slot sp a) (cstr a) Hs) as (k1 & E1 & Hs1').
  - lia.
  - unfold cstr. rewrite length_app. simpl. lia.
  - apply Forall_app. split; [done|]. constructor; [lia|constructor].
  - intros j Hj. apply in_stack; [done|lia].
  - rewrite (bind_Ret _ _ _ _ _ (onm_run _ s _ _ E1)). change (0 <? 0) with false. cbv iota.
    destruct (IH (argc + 1) (set_xmem k1 s) _ (slot sp a) (ptrs ++ [slot sp a]) Hs1' Hbs Hm Hz Hsp) as (k2 & E2 & Hs2'); [lia|lia|].
    exists k2. rewrite E2, <- app_assoc. done.
Qed.

(** The stack of a program that ends at [sz]. *)
Lemma stack_run (s : xst S) T U l sz img argv :
  space (xmem s) T U l sz (sz - 8192) img -> Forall (Forall (fun b => 0 <= b < 256)) argv -> sz mod 4096 = 0 -> 8192 <= sz ->
  sz - 4096 <= stack_sp argv sz -> Z.of_nat (length argv) <= MAXARG ->
  exists k1 k2, push_args argv 0 pgdir sz [] s = Ret (Some (args_sp argv sz, args_ptrs argv sz)) (set_xmem k1 s) /\
    copyout pgdir (stack_sp argv sz) (concat (le4 <$> stack_words argv sz)) k1 = Ret 0 k2 /\
    space k2 T U l sz (sz - 8192) (stack_image argv sz img).
Proof.
  intros Hs Hb Hm Hz Hsp Hn. pose proof (args_sp_le argv sz). unfold stack_sp in Hsp.
  destruct (push_args_run argv 0 s T U l sz img sz [] Hs Hb Hm Hz) as (k1 & E1 & Hs1); [lia|lia|lia|].
  destruct (space_copyout _ end_kernel _ _ _ _ _ k1 T U l sz _ _ (stack_sp argv sz) (concat (le4 <$> stack_words argv sz)) Hs1) as (k2 & E2 & Hs2);
    rewrite ?words_length, ?stack_words_length; unfold stack_sp; try lia.
  - apply words_bytes.
  - intros j Hj. apply in_stack; [done|lia].
  - exists k1, k2. by rewrite E1.
Qed.
End Stack.
