(* ===== verification/ExecSwitch.v ===== *)
(** * Running a program: from the old address space to the new (exec.c)

    [switchuvm] makes the new page directory the current one; [freevm] gives
    back the pages of the old one, which the new one does not notice. *)
From S2P Require Import Prelude Mmu Spinlock Strings Bytes BlockCache Kalloc Vm VmSpec VmUser VmGrow VmCopy Store Fs Exec ExecMem ExecSpec ExecStack.

Lemma switchuvm_run ts_addr kstack pg (c : lstate * cpuregs) :
  pg <> 0 -> quiet (this_cpu (fst c)) ->
  exists c', switchuvm ts_addr kstack pg c = Ret tt c' /\ cr3 (snd c') = v2p pg /\ ts_esp0 (snd c') = u32 (kstack + 4096) /\
    ncli (this_cpu (fst c')) = ncli (this_cpu (fst c)) /\ eflags_if (this_cpu (fst c')) = eflags_if (this_cpu (fst c)).
Proof.
  intros Hpg [Hq0 Hq1]. destruct c as [ls regs]. simpl in Hq0, Hq1. unfold switchuvm, zoom. unfold bind at 1. simpl. rewrite pushcli_run. simpl.
  rewrite bind_modify, (proj2 (Z.eqb_neq pg 0) Hpg), bind_modify. rewrite popcli_run by (simpl; lia || done). simpl.
  eexists. split; [done|]. simpl. split_and!; try done; [lia|]. destruct (Z.eqb_spec (ncli (this_cpu ls)) 0) as [E|E].
  - rewrite E. done.
  - rewrite (proj2 (Z.eqb_neq _ 0)) by lia. simpl. symmetry. apply Hq1. lia.
Qed.

Section Old.
Context (end_ : Z) (end_kernel : KERNLINK <= end_) (k0 : kmem) (pd : Z) (PT PU : gmap Z Z) (rest l0 : list Z) (oldsz : Z).
Context (Hold : aspace end_ k0 pd PT PU rest l0) (Hfull : full oldsz PU).

Definition old_pages : list Z := pd :: vals PT ++ vals PU ++ rest.

(** The old address space beside the one that was built. *)
Lemma old_beside m1 d k T U l sz g img :
  space end_ old_pages l0 (memory k0) m1 d k T U l sz g img -> aspace end_ k pd PT PU (d :: vals T ++ vals U ++ rest) l.
Proof.
  intros Hs. pose proof (sp_as _ _ _ _ _ _ _ _ _ _ _ _ _ Hs) as Has. pose proof (vs_vm _ _ _ _ _ (as_space _ _ _ _ _ _ _ Has)) as Hvm.
  apply (aspace_frame end_ end_kernel k0 k pd PT PU rest _ l0 l Hold); [apply Has| | |].
  - intros q x Hq Hx. apply (sp_own _ _ _ _ _ _ _ _ _ _ _ _ _ Hs q); [|done]. unfold old_pages.
    destruct Hq as [->|Hq]; [left|right]. apply elem_of_app. left. by apply elem_of_vals.
  - constructor; [apply Hvm|]. apply Forall_app. split.
    + apply Forall_forall. intros t Ht. apply elem_of_vals in Ht as (i & Hi). by destruct (v_tab _ _ _ _ Hvm _ _ Hi) as (_ & ? & _).
    + apply Forall_app. split; [by apply (proj1 (Forall_app _ _ _) (as_pages _ _ _ _ _ _ _ Has))|by apply (proj1 (Forall_app _ _ _) (as_pages _ _ _ _ _ _ _ Hold))].
  - pose proof (as_nodup _ _ _ _ _ _ _ Has) as Hnd. revert Hnd. apply NoDup_Permutation_proper. unfold old_pages. perm.
Qed.

(** Freeing the old one. *)
Lemma free_old m1 d k T U l sz g img :
  space end_ old_pages l0 (memory k0) m1 d k T U l sz g img ->
  exists k' l', freevm end_ pd k = Ret tt k' /\
    space end_ rest (l0 ++ pd :: vals PT ++ vals PU) (memory k0) m1 d k' T U l' sz g img.
Proof.
  intros Hs. pose proof (old_beside _ _ _ _ _ _ _ _ _ Hs) as Ho. pose proof Hs as [Has Hf Hfl Him Hown Hacct Hker Hsz Hz].
  destruct (freevm_run end_ end_kernel k pd PT PU _ l Ho (full_dense _ end_kernel _ _ _ _ _ _ _ Ho Hfull)) as (k' & l' & E & Hp & Hl & Hsame).
  pose proof (vs_vm _ _ _ _ _ (as_space _ _ _ _ _ _ _ Has)) as Hvm.
  assert (Htab : forall q x, table_page d T q -> q <= x < q + 4096 -> memory k' x = memory k x).
  { intros q x Hq. apply Hsame. destruct Hq as [->|Hq]; [left|right]. apply elem_of_app. left. by apply elem_of_vals. }
  exists k', l'. split; [done|]. split; try done.
  - apply (aspace_frame end_ end_kernel k k' d T U _ _ l l' Has Hp Htab).
    + by apply (proj1 (Forall_app _ _ _) (as_pages _ _ _ _ _ _ _ Hold)).
    + pose proof (as_nodup _ _ _ _ _ _ _ Has) as Hnd. revert Hnd. apply NoDup_Permutation_proper. unfold old_pages. perm.
  - intros va q Hq. rewrite (hw_frame _ end_kernel _ _ _ _ va Hvm Htab). by apply Hfl.
  - intros va x Hx. rewrite <- (Him va x Hx). destruct (tr_page _ _ _ _ _ _ _ _ _ Has Hx) as (p & Hp1 & _ & Hp2). apply (Hsame p); [|done].
    right. apply elem_of_app. right. apply elem_of_app. left. apply elem_of_vals. by eexists.
  - intros q x Hq Hx. rewrite <- (Hown q x) by (done || (unfold old_pages; set_solver)). apply (Hsame q); [set_solver|done].
  - perm.
  - intros va Hva. rewrite (hw_frame _ end_kernel _ _ _ _ va Hvm Htab). by apply Hker.
Qed.

(** The empty address space beside the old one. *)
Lemma start_space data_ k1 d T l1 :
  vspace end_ k1 d T l1 -> d :: vals T ++ l1 ≡ₚ l0 -> kernel_mapped data_ (memory k1) d ->
  (forall x, (forall p, table_page d T p -> ~ (p <= x < p + 4096)) -> memory k1 x = memory k0 x) ->
  space end_ old_pages l0 (memory k0) (memory k1) d k1 T ∅ l1 0 (-1) (fun _ => 0).
Proof.
  intros Hvs Hacct Hkm Hsame. pose proof (child_start end_ data_ _ _ _ _ _ _ _ _ _ _ Hold Hvs Hacct Hkm) as Has. split; try done.
  - intros va _ Hva. rewrite lookup_empty. split; [by intros [? ?]|lia].
  - by apply (start_keeps end_ end_kernel _ _ _ _ _ _ _ Has Hsame).
Qed.
End Old.

(** The size can be rounded up to whole pages. *)
Lemma space_round end_ own l0 m0 m1 d k T U l sz g img :
  space end_ own l0 m0 m1 d k T U l sz g img -> PGROUNDUP sz < KERNBASE -> space end_ own l0 m0 m1 d k T U l (PGROUNDUP sz) g img.
Proof.
  intros [H1 H2 H3 H4 H5 H6 H7 H8 H9] Hup. destruct (PGROUNDUP_page sz ltac:(lia) ltac:(lia)) as (Ha & Hb & Hc).
  split; try done; [apply (proj1 (full_up sz U ltac:(lia))); done|lia|].
  intros va Hva. apply H9. revert Hva. destruct (PGROUNDUP_page (PGROUNDUP sz) ltac:(lia) ltac:(lia)) as (Ha' & Hb' & Hc'). lia.
Qed.
