(* ===== verification/ExecTheorems.v ===== *)
(** * What exec guarantees

    A program file that fits is loaded and entered with its arguments on the
    stack, in place of the old memory of the process; an exec
    that fails leaves the process as it was. *)
From S2P Require Import Prelude Mmu Strings Bytes BlockCache Bio Log LogTxn Spinlock Kalloc Vm VmSpec VmUser VmGrow VmCopy AddrSpace Store LogStore Fs FsBlocks FsInode FsFile FsIcache FsTrunc FsDir FsPath FsImage FsTheorems FsAlloc FsNames Exec ExecMem ExecSpec ExecStack ExecSwitch.

(** ** An exec that fails *)

Section Fails.
Context {S H : Type} `{Store S H}.
Context (devs : Z -> @devsw S) (end_ data_ : Z) (cwd : nat) (kstack ts_addr : Z) (junk : list Z) (s0 : xst S).

(** The process and the CPU as they were. *)
Definition untouched (s : xst S) : Prop := xproc s = xproc s0 /\ xcpu s = xcpu s0.

Lemma keeps_onm {A} (m : M kmem A) : keeps untouched (onm m).
Proof. intros s Hs. unfold onm, zoom. by destruct (m (xmem s)). Qed.

Lemma keeps_onf {A} (m : M (fs S) A) : keeps untouched (onf m).
Proof. intros s Hs. unfold onf, zoom. by destruct (m (xfs s)). Qed.

Hint Resolve keeps_onm keeps_onf : xv6.

Lemma keeps_load_segment ip pgdir vaddr off filesz : keeps untouched (load_segment devs ip pgdir vaddr off filesz).
Proof.
  unfold load_segment, loaduvm. destruct (negb _); [auto with xv6|]. generalize (Datatypes.S (Z.to_nat (filesz / PGSIZE + 1))) 0.
  induction n as [|n IH]; intros i; [done|]. cbn [load_pages]. destruct (negb _); [auto with xv6|].
  apply keeps_bind; [auto with xv6|]. intros pte. destruct (pte =? 0); [auto with xv6|]. apply keeps_bind; [auto with xv6|]. intros e.
  apply keeps_bind; [auto with xv6|]. intros [buf|]; [|auto with xv6]. apply keeps_bind; [auto with xv6|]. intros _. destruct (negb _); [auto with xv6|apply IH].
Qed.

Lemma keeps_load_segs n ip pgdir off sz : keeps untouched (load_segs devs end_ n ip pgdir off sz).
Proof.
  revert off sz. induction n as [|n IH]; intros off sz; cbn [load_segs]; [auto with xv6|]. unfold field.
  apply keeps_bind; [auto with xv6|]. intros [ph|]; [|auto with xv6]. destruct (negb _); [auto with xv6|].
  apply keeps_bind; [auto with xv6|]. intros ty. destruct (negb _); [apply IH|].
  do 4 (apply keeps_bind; [auto with xv6|intros ?]). destruct (_ <? _); [auto with xv6|].
  apply keeps_bind; [auto with xv6|]. intros sz'. destruct (sz' =? 0); [auto with xv6|].
  apply keeps_bind; [apply keeps_load_segment|]. intros r. destruct (r <? 0); [auto with xv6|apply IH].
Qed.

Lemma keeps_push_args argv argc pgdir sp ptrs : keeps untouched (push_args argv argc pgdir sp ptrs).
Proof.
  revert argc sp ptrs. induction argv as [|a argv IH]; intros argc sp ptrs; cbn [push_args]; [auto with xv6|].
  destruct (MAXARG <=? argc); [auto with xv6|]. apply keeps_bind; [auto with xv6|]. intros r. destruct (r <? 0); [auto with xv6|apply IH].
Qed.

Definition outcome_of (r : Z) (s : xst S) : Prop := r = 0 \/ r = -1 /\ untouched s.

Lemma post_keeps {A} (m : M (xst S) A) s (Q : A -> xst S -> Prop) :
  keeps untouched m -> untouched s -> (forall a t, untouched t -> Q a t) -> post m s Q.
Proof. intros Hk Hs HQ. specialize (Hk s Hs). unfold post. destruct (m s); try done. by apply HQ. Qed.

(** One step that keeps the process, and then the rest. *)
Lemma step_fails {A} (m : M (xst S) A) (f : A -> M (xst S) Z) s :
  keeps untouched m -> untouched s -> (forall a t, untouched t -> post (f a) t outcome_of) -> post (bind m f) s outcome_of.
Proof. intros Hk Hs Hf. apply post_bind. by apply post_keeps. Qed.

Lemma bad_fails pgdir ip s : untouched s -> post (exec_bad end_ pgdir ip) s outcome_of.
Proof.
  intros Hs. unfold exec_bad, when. apply step_fails; [|done|].
  - destruct (negb _); auto with xv6.
  - intros _ t Ht. apply step_fails; [destruct ip; auto with xv6|done|]. intros _ t' Ht'. apply post_ret. by right.
Qed.

Lemma commit_fails path pgdir sz entry sp s : post (exec_commit end_ kstack ts_addr path pgdir sz entry sp) s outcome_of.
Proof.
  unfold exec_commit. apply post_bind, post_gets, post_bind, post_gets_opt. intros name _. apply post_bind, post_modify, post_bind.
  unfold post at 1, onc, zoom. destruct (switchuvm _ _ _ _); try done. apply post_bind. unfold post at 1, onm, zoom. destruct (freevm _ _ _); try done. by left.
Qed.

Lemma stack_fails path argv pgdir entry sz s : untouched s -> post (exec_stack end_ kstack ts_addr path argv pgdir entry sz) s outcome_of.
Proof.
  intros Hs. unfold exec_stack. apply step_fails; [auto with xv6|done|]. intros sz' t Ht. destruct (sz' =? 0); [by apply bad_fails|].
  apply step_fails; [auto with xv6|done|]. intros _ t1 Ht1. apply step_fails; [apply keeps_push_args|done|]. intros [[sp ptrs]|] t2 Ht2; [|by apply bad_fails].
  apply step_fails; [auto with xv6|done|]. intros r t3 Ht3. destruct (r <? 0); [by apply bad_fails|apply commit_fails].
Qed.

Lemma exec_outcomes path argv : post (exec devs end_ data_ cwd kstack ts_addr junk path argv) s0 outcome_of.
Proof.
  unfold exec, field. apply step_fails; [auto with xv6|done|]. intros [ip|] t Ht; [|apply post_ret; by right].
  apply step_fails; [auto with xv6|done|]. intros _ t1 Ht1. apply step_fails; [auto with xv6|done|]. intros r t2 Ht2.
  destruct (short_header r); [by apply bad_fails|]. apply step_fails; [auto with xv6|done|]. intros magic t3 Ht3. destruct (negb _); [by apply bad_fails|].
  apply step_fails; [auto with xv6|done|]. intros pgdir t4 Ht4. destruct (pgdir =? 0); [by apply bad_fails|].
  do 2 (apply step_fails; [auto with xv6|done|]; intros ? ? ?). apply step_fails; [apply keeps_load_segs|done|]. intros [sz|] u Hu; [|by apply bad_fails].
  do 2 (apply step_fails; [auto with xv6|done|]; intros ? ? ?). by apply stack_fails.
Qed.
End Fails.

(** An exec that returns has replaced the program (0) or has left
    the process and the CPU as they were (-1): nothing in between. *)
Theorem exec_all_or_nothing {S H : Type} `{Store S H} devs end_ data_ cwd kstack ts_addr junk path argv (s s' : xst S) r :
  exec devs end_ data_ cwd kstack ts_addr junk path argv s = Ret r s' -> r = 0 \/ r = -1 /\ xproc s' = xproc s /\ xcpu s' = xcpu s.
Proof. exact (post_elim _ _ _ _ _ (exec_outcomes devs end_ data_ cwd kstack ts_addr junk s path argv)). Qed.

(** ** Addresses taken from the file *)

Section Trust.
Context {S H : Type} `{StoreLaws S H} `{!Loggable S H}.
Context (V : gmap Z (list Z)) (L : gset Z) (sb : superblock) (devs : Z -> @devsw S)
  (Hlo : layout sb V) (Hlen : lengths V) (Hroom : room (∅ : gmap Z (H * bool)) L 1).
Context (end_ data_ : Z) (end_kernel : KERNLINK <= end_) (own l0 : list Z) (m0 m1 : mem) (pgdir : Z) (Hkm : kernel_mapped data_ m1 pgdir).
Context (refs0 : Z -> Z -> Z) (ip : nat) (inum : Z) (dn : dinode) (bm : gmap Z Z)
  (Hfile : file_inv sb V (Inode ROOTDEV inum 1 false true dn) bm).
Abbreviation C := (fbytes V bm 0 (d_size dn)).
Abbreviation reading := (reading V L refs0 ip inum dn).
Abbreviation space := (space end_ own l0 m0 m1 pgdir).

(** A segment whose address is not the start of a page stops the kernel. *)
Theorem load_unaligned_panics n off g gs (s : xst S) T U l sz img :
  segs_of n off C = Some (g :: gs) -> 0 <= off -> reading (xfs s) -> space (xmem s) T U l sz (-1) img ->
  s_filesz g <= s_memsz g -> 0 < s_vaddr g + s_memsz g < KERNBASE -> s_vaddr g mod 4096 <> 0 ->
  1026 + (s_vaddr g + s_memsz g + 4095) / 4096 <= Z.of_nat (length l0) ->
  load_segs devs end_ n ip pgdir off sz s = Panic "loaduvm: addr must be page aligned".
Proof.
  intros Hg Ho Hr Hs Hsz Htop Hal Hfit. revert off s Hg Ho Hr Hs. induction n as [|n IH]; intros off s Hg Ho Hr Hs; [done|].
  destruct (load_segs_head V L sb devs Hlo Hlen Hroom end_ pgdir refs0 ip inum dn bm Hfile n off (g :: gs) sz s Hg Ho Hr) as (f1 & Hr1 & [[Hg' ->]|(g' & gs' & [= <- <-] & Hg' & ->)]).
  { apply IH; try done. lia. }
  destruct (Z.ltb_spec (s_memsz g) (s_filesz g)); [lia|]. rewrite u32_small by (unfold KERNBASE in Htop; lia).
  destruct (grow_run end_ end_kernel own l0 m0 m1 pgdir (set_xfs f1 s) T U l sz img g Hs Htop Hfit) as (k2 & T2 & U2 & l2 & E2 & Hs2).
  rewrite (bind_Ret _ _ _ _ _ E2). destruct (Z.eqb_spec (Z.max sz (s_vaddr g + s_memsz g)) 0); [lia|].
  unfold load_segment, loaduvm. change PGSIZE with 4096. by rewrite (proj2 (Z.eqb_neq _ 0) Hal).
Qed.

(** The entry of a kernel page. *)
Lemma kernel_entry k T U l sz g img va :
  space k T U l sz g img -> KERNBASE <= va < KERNBASE + PHYSTOP -> va mod 4096 = 0 ->
  exists t, walkpgdir pgdir va false k = Ret (t + 4 * PTX va) k /\ t + 4 * PTX va <> 0 /\ p2v (PTE_ADDR (ld4 (t + 4 * PTX va) (memory k))) = va.
Proof.
  intros Hs Hva Hal. pose proof (vs_vm _ _ _ _ _ (as_space _ _ _ _ _ _ _ (sp_as _ _ _ _ _ _ _ _ _ _ _ _ _ Hs))) as Hvm.
  assert (Hpd : PGROUNDDOWN va = va) by (rewrite PGROUNDDOWN_eq; lia).
  destruct (km_ram _ _ _ Hkm va Hva) as (f & Hh & Hpa & _). rewrite Hpd in *.
  rewrite <- (sp_kernel _ _ _ _ _ _ _ _ _ _ _ _ _ Hs) in Hh by (unfold KERNBASE, PHYSTOP in *; lia).
  rewrite (hw_entry _ end_kernel _ _ T) in Hh by done. unfold entry in Hh. destruct (T !! PDX va) as [t|] eqn:HT; [|done].
  destruct (Z.odd _); [|done]. injection Hh as Hh. destruct (v_tab _ _ _ _ Hvm _ _ HT) as (_ & Ht & _ & _).
  exists t. split; [by apply (walk_found end_ end_kernel _ _ T)|]. split; [destruct Ht as [_ Htr]; pose proof (PTX_range va); unfold KERNLINK, KERNBASE, EXTMEM in *; lia|].
  rewrite Hh, Hpa. unfold v2p, p2v. unfold KERNBASE, PHYSTOP in *. rewrite (u32_small (va - _)) by lia. rewrite u32_small by lia. lia.
Qed.

(** The sum [ph.vaddr + ph.memsz] wraps around: a segment at a kernel address
    with a large enough size is accepted, and its bytes from the file replace
    the kernel's memory there. *)
Theorem load_overwrites_kernel off g (s : xst S) T U l img :
  segs_of 1 off C = Some [g] -> 0 <= off -> reading (xfs s) -> space (xmem s) T U l 0 (-1) img ->
  0 < s_filesz g <= 4096 -> s_filesz g <= s_memsz g -> s_vaddr g mod 4096 = 0 -> KERNBASE <= s_vaddr g < KERNBASE + PHYSTOP ->
  0 < s_vaddr g + s_memsz g - 2 ^ 32 < KERNBASE -> 0 <= s_off g -> s_off g + s_filesz g <= d_size dn ->
  1026 + (s_vaddr g + s_memsz g - 2 ^ 32 + 4095) / 4096 <= Z.of_nat (length l0) ->
  exists sz s', load_segs devs end_ 1 ip pgdir off 0 s = Ret (Some sz) s' /\
    (forall j c, seg_bytes C g !! j = Some c -> memory (xmem s') (s_vaddr g + Z.of_nat j) = c).
Proof.
  intros Hg Ho Hr Hs Hfs Hms Hal Hva Hov Hoff Hsize Hfit. pose proof (size_C V sb inum dn bm Hfile) as (HC1 & HC2 & HC3).
  destruct (load_segs_head V L sb devs Hlo Hlen Hroom end_ pgdir refs0 ip inum dn bm Hfile 0 off [g] 0 s Hg Ho Hr) as (f1 & Hr1 & [[Hg' _]|(g' & gs' & [= <- <-] & Hg' & ->)]); [done|].
  destruct (Z.ltb_spec (s_memsz g) (s_filesz g)); [lia|]. set (top := s_vaddr g + s_memsz g - 2 ^ 32) in *.
  assert (Eu : u32 (s_vaddr g + s_memsz g) = top).
  { unfold u32. replace (s_vaddr g + s_memsz g) with (top + 1 * 2 ^ 32) by (unfold top; lia). rewrite Z.mod_add by lia. apply Z.mod_small. unfold KERNBASE in Hov. lia. }
  rewrite Eu. destruct (space_grow _ end_kernel _ _ _ _ _ _ _ _ _ _ _ _ top Hs) as (k2 & T2 & U2 & l2 & E2 & Hs2 & _); [lia|lia|lia|done|].
  rewrite (bind_Ret _ _ _ _ _ (onm_run _ (set_xfs f1 s) _ _ E2)). destruct (Z.eqb_spec top 0); [lia|].
  destruct (kernel_entry k2 _ _ _ _ _ _ (s_vaddr g) Hs2 Hva Hal) as (t & Ew & Hne & Hpa).
  set (s2 := set_xmem k2 (set_xfs f1 s)). destruct (xread_run V L sb devs Hlo Hlen Hroom refs0 ip inum dn bm Hfile s2 (s_off g) (s_filesz g) Hr1) as (f3 & E3 & Hr3); [lia|lia|].
  fold (seg_bytes C g) in E3. assert (Hbl : Z.of_nat (length (seg_bytes C g)) = s_filesz g) by (unfold seg_bytes; rewrite length_take, length_drop; lia).
  assert (E4 : load_segment devs ip pgdir (s_vaddr g) (s_off g) (s_filesz g) s2 =
    Ret 0 (set_xmem (set_memory (poke (s_vaddr g) (seg_bytes C g) (memory k2)) k2) (set_xfs f3 s2))).
  { unfold load_segment, loaduvm. change PGSIZE with 4096. rewrite Hal, Z.eqb_refl. cbn [negb load_pages]. rewrite (proj2 (Z.ltb_lt 0 _)) by lia. cbn [negb].
    unfold KERNBASE, PHYSTOP in Hva. rewrite !Z.add_0_r, (u32_small (s_vaddr g)), (u32_small (s_off g)), Z.sub_0_r by lia.
    rewrite (bind_Ret _ _ _ _ _ (onm_run _ s2 _ _ Ew)), (proj2 (Z.eqb_neq _ 0) Hne). change (set_xmem k2 s2) with s2.
    rewrite (bind_Ret _ _ _ _ _ (onm_run (load _) s2 _ k2 eq_refl)). change (set_xmem k2 s2) with s2. cbv zeta. change (xmem s2) with k2. rewrite Hpa. unfold PGSIZE.
    replace (if s_filesz g <? 4096 then s_filesz g else 4096) with (s_filesz g) by (destruct (Z.ltb_spec (s_filesz g) 4096); lia).
    rewrite (bind_Ret _ _ _ _ _ E3). cbv iota beta. erewrite bind_Ret by (apply onm_run; reflexivity). rewrite Hbl, Z.eqb_refl. cbn [negb].
    assert (Hfuel : exists n, Z.to_nat (s_filesz g / 4096 + 1) = Datatypes.S n) by (exists (Z.to_nat (s_filesz g / 4096)); pose proof (Z.div_pos (s_filesz g) 4096); lia).
    destruct Hfuel as [fu ->]. cbn [load_pages]. rewrite (u32_small (0 + 4096)) by lia. by rewrite (proj2 (Z.ltb_ge (0 + 4096) _)) by lia. }
  rewrite (bind_Ret _ _ _ _ _ E4). change (0 <? 0) with false. cbv iota. cbn [load_segs]. eexists top, _. split; [done|].
  intros j c Hj. cbn [xmem set_xmem]. change (memory (set_memory ?m ?k)) with m. pose proof (lookup_lt_Some _ _ _ Hj). rewrite poke_at, decide_True by lia.
  replace (Z.to_nat (s_vaddr g + Z.of_nat j - s_vaddr g)) with j by lia. by rewrite Hj.
Qed.
End Trust.

(** ** What exec guarantees

    A program file that fits is loaded and entered with its arguments on the
    stack, in place of the old memory of the process; a file that is no
    program leaves the process as it was. *)

Lemma get32_range d o v : byte_list d -> get32 d o = Some v -> 0 <= v < 2 ^ 32.
Proof.
  intros Hd. unfold get32. pose proof (Forall_drop _ o _ Hd) as Hdr. destruct (drop o d) as [|a [|b [|c [|e r]]]]; try done. intros [= <-].
  apply Forall_cons in Hdr as [? Hdr]. apply Forall_cons in Hdr as [? Hdr]. apply Forall_cons in Hdr as [? Hdr]. apply Forall_cons in Hdr as [? Hdr].
  unfold of_le4. lia.
Qed.

(** The byte that the hardware finds at a user address. *)
Definition user_byte (m : mem) (d va : Z) : option Z :=
  e ← hw m d va; Some (m (p2v (PTE_ADDR e) + va mod 4096)).

(** Whether user code may use the page. *)
Definition user_access (m : mem) (d va : Z) : Prop := exists e, hw m d va = Some e /\ Z.testbit e 2 = true.

(** A program: its entry point and its segments. *)
Definition program (C : list Z) : option (Z * list seg) :=
  let e := take 52 C in
  if negb (length e =? 52)%nat then None else
  magic ← elf_magic e;
  if negb (magic =? ELF_MAGIC) then None else
  entry ← elf_entry e; phoff ← elf_phoff e; phnum ← elf_phnum e;
  gs ← segs_of (Z.to_nat phnum) phoff C;
  Some (entry, gs).

(** The size of the process: the program, the guard page and the stack. *)
Definition top_of (gs : list seg) : Z := PGROUNDUP (load_size gs 0) + 8192.

(** The memory that the program starts with. *)
Definition start_image (C : list Z) (gs : list seg) (argv : list (list Z)) : mem :=
  stack_image argv (top_of gs) (load_image C gs (fun _ => 0)).

(** What main finds at its stack pointer: a return address, argc, argv, and the
    pointers to the strings, ended by 0. *)
Definition args_on_stack (m : mem) (sp : Z) (argv : list (list Z)) : Prop :=
  exists ptrs, length ptrs = length argv /\
    (forall i w b c, ([0xffffffff; Z.of_nat (length argv); sp + 12] ++ ptrs ++ [0]) !! i = Some w -> le4 w !! b = Some c ->
       m (sp + 4 * Z.of_nat i + Z.of_nat b) = c) /\
    (forall i a p j c, argv !! i = Some a -> ptrs !! i = Some p -> cstr a !! j = Some c -> m (p + Z.of_nat j) = c).

Lemma stack_image_args argv sz img : 0 <= stack_sp argv sz -> sz < 2 ^ 32 -> args_on_stack (stack_image argv sz img) (stack_sp argv sz) argv.
Proof.
  intros Hsp Hsz. exists (args_ptrs argv sz). split; [apply args_ptrs_length|]. split.
  - intros i w b c Hw Hc. eapply stack_image_word; [|exact Hc]. unfold stack_words, ustack. rewrite args_ptrs_length.
    pose proof (args_sp_le argv sz). unfold stack_sp in *. rewrite u32_small by lia.
    by replace (args_sp argv sz - (Z.of_nat (length argv) + 1) * 4) with (args_sp argv sz - (3 + Z.of_nat (length argv) + 1) * 4 + 12) by lia.
  - intros i a p j c. apply stack_image_string.
Qed.

Section Views.
Context (end_ : Z) (end_kernel : KERNLINK <= end_) (own l0 : list Z) (m0 m1 : mem) (d : Z).
Abbreviation space := (space end_ own l0 m0 m1 d).

Lemma space_hw k T U l sz g img va :
  space k T U l sz g img -> 0 <= va < sz ->
  exists p, hw (memory k) d va = Some (v2p p + (if decide (PGROUNDDOWN va = g) then 3 else 7)) /\ v2p p mod 4096 = 0 /\ p2v (v2p p) = p /\
    tr U va = Some (p + va mod 4096).
Proof.
  intros Hs Hva. destruct (space_page _ _ _ _ _ _ _ _ _ _ _ _ _ va Hs Hva) as [p Hp]. pose proof Hs as [Has _ Hfl _ _ _ _ _ _].
  destruct (page_pa _ end_kernel p) as (_ & Hm & E & _); [by eapply as_user_page|]. exists p. unfold tr. rewrite Hp. split_and!; try done.
  rewrite (hw_page _ d va (PGROUNDDOWN va)); [by apply Hfl|]. rewrite PGROUNDDOWN_eq. pose proof (Z.div_mod va 4096).
  replace (va - va mod 4096) with (va / 4096 * 4096) by lia. by rewrite Z.div_mul by lia.
Qed.

Lemma space_user k T U l sz g img va :
  space k T U l sz g img -> 0 <= va < sz -> user_byte (memory k) d va = Some (img va).
Proof.
  intros Hs Hva. destruct (space_hw _ _ _ _ _ _ _ _ Hs Hva) as (p & Hh & Hm & E & Ht). unfold user_byte. rewrite Hh. simpl.
  rewrite PTE_ADDR_flags by (done || case_decide; lia). rewrite E. f_equal. by apply (sp_img _ _ _ _ _ _ _ _ _ _ _ _ _ Hs).
Qed.

Lemma space_access k T U l sz g img va :
  space k T U l sz g img -> 0 <= va < sz -> user_access (memory k) d va <-> PGROUNDDOWN va <> g.
Proof.
  intros Hs Hva. destruct (space_hw _ _ _ _ _ _ _ _ Hs Hva) as (p & Hh & Hm & _). unfold user_access. rewrite Hh.
  assert (Hbit : forall f, 0 <= f < 8 -> Z.testbit (v2p p + f) 2 = Z.testbit f 2).
  { intros f Hf. rewrite <- (Z.mod_pow2_bits_low (v2p p + f) 12 2), <- (Z.mod_pow2_bits_low f 12 2) by lia. f_equal. change (2 ^ 12) with 4096. by rewrite Z.add_mod, Hm, Z.add_0_l, Z.mod_mod by lia. }
  case_decide as Hg.
  - split; [|done]. intros (e & [= <-] & He). rewrite Hbit in He by lia. done.
  - split; [done|]. intros _. eexists. split; [done|]. by rewrite Hbit by lia.
Qed.
End Views.

(** ** A program that fits *)

Section Exec.
Context {S H : Type} `{StoreLaws S H} `{!Loggable S H}.
Context (V : gmap Z (list Z)) (L : gset Z) (sb : superblock) (devs : Z -> @devsw S)
  (Hlo : layout sb V) (Hlen : lengths V) (N : gmap Z (dinode * gmap Z Z)) (Htree : tree_ok V sb N)
  (Hroom : room (∅ : gmap Z (H * bool)) L 1).
Context (end_ data_ : Z) (end_kernel : KERNLINK <= end_)
  (data_page : data_ mod 4096 = 0) (data_range : KERNLINK < data_ < KERNBASE + PHYSTOP).
Context (cwd : nat) (kstack ts_addr : Z) (junk : list Z).

Abbreviation idle := (idle V L).
Abbreviation exec := (exec devs end_ data_ cwd kstack ts_addr junk).

(** The process as exec leaves it. *)
Record entered (path : list Z) (d top entry sp : Z) (s s' : xst S) : Prop := {
  en_name : cut (p_name (xproc s')) = take 15 (last_elem path path);
  en_proc : p_pgdir (xproc s') = d /\ p_sz (xproc s') = top /\ p_eip (xproc s') = entry /\ p_esp (xproc s') = sp;
  en_cpu : cr3 (snd (xcpu s')) = v2p d /\ ts_esp0 (snd (xcpu s')) = u32 (kstack + 4096) /\
    ncli (this_cpu (fst (xcpu s'))) = ncli (this_cpu (fst (xcpu s))) /\ eflags_if (this_cpu (fst (xcpu s'))) = eflags_if (this_cpu (fst (xcpu s)))
}.

Lemma last_elem_cut last s : cut last = last -> cut s = s -> cut (last_elem last s) = last_elem last s.
Proof.
  revert last. induction s as [|c s IH]; intros last Hl Hs; simpl; [done|]. simpl in Hs. destruct (c =? 0) eqn:E; [done|]. injection Hs as Hs.
  apply IH; [|done]. by destruct (c =? SLASH).
Qed.

Section Old.
Context (k0 : kmem) (pd : Z) (PT PU : gmap Z Z) (rest l0 : list Z) (oldsz : Z)
  (Hold : aspace end_ k0 pd PT PU rest l0) (Hfull : full oldsz PU).

Lemma exec_commit_run (s : xst S) path m1 d T U l sz g img entry sp :
  cut path = path -> p_pgdir (xproc s) = pd -> (16 <= length (p_name (xproc s)))%nat -> quiet (this_cpu (fst (xcpu s))) ->
  space end_ (old_pages pd PT PU rest) l0 (memory k0) m1 d (xmem s) T U l sz g img ->
  exists s' l', exec_commit end_ kstack ts_addr path d sz entry sp s = Ret 0 s' /\ xfs s' = xfs s /\ entered path d sz entry sp s s' /\
    space end_ rest (l0 ++ pd :: vals PT ++ vals PU) (memory k0) m1 d (xmem s') T U l' sz g img.
Proof.
  intros Hpath Hpd Hname Hq Hs. unfold exec_commit. rewrite bind_gets.
  destruct (safestrcpy_spec (p_name (xproc s)) (cstr (last_elem path path)) 16) as (nm & Enm & Hcut & _); [lia| |].
  { unfold cstr. rewrite strlen_app_nul; [done|]. by apply last_elem_cut. }
  erewrite bind_gets_opt by exact Enm. rewrite bind_modify.
  destruct (page_ok_word end_ end_kernel d) as (_ & Hd0 & _); [apply (v_dir _ _ _ _ (vs_vm _ _ _ _ _ (as_space _ _ _ _ _ _ _ (sp_as _ _ _ _ _ _ _ _ _ _ _ _ _ Hs))))|].
  destruct (switchuvm_run ts_addr kstack d (xcpu s) Hd0 Hq) as (c' & Ec & Hc1 & Hc2 & Hc3).
  destruct (free_old end_ end_kernel k0 pd PT PU rest l0 oldsz Hold Hfull m1 d (xmem s) T U l sz g img Hs) as (k' & l' & Ek & Hs').
  exists (Xst k' (xfs s) c' (Uproc nm d sz entry sp)), l'. split_and!; [|done| |done].
  - unfold onc, onm, zoom. unfold bind at 1. cbn [xcpu set_xproc]. rewrite Ec. cbv beta iota. unfold bind at 1. cbn [xmem set_xcpu set_xproc]. rewrite Hpd, Ek. done.
  - split; cbn [xproc p_name p_pgdir p_sz p_eip p_esp xcpu]; [|done|done]. rewrite Hcut. change (Z.to_nat (16 - 1)) with 15%nat.
    unfold cstr. by rewrite cut_app_nul by (apply last_elem_cut; done).
Qed.

Lemma exec_stack_run (s : xst S) path argv m1 d T U l sz img entry :
  cut path = path -> p_pgdir (xproc s) = pd -> (16 <= length (p_name (xproc s)))%nat -> quiet (this_cpu (fst (xcpu s))) ->
  space end_ (old_pages pd PT PU rest) l0 (memory k0) m1 d (xmem s) T U l sz (-1) img ->
  let top := PGROUNDUP sz + 8192 in top < KERNBASE -> 1026 + top / 4096 <= Z.of_nat (length l0) ->
  Forall (Forall (fun b => 0 <= b < 256)) argv -> Z.of_nat (length argv) <= MAXARG -> top - 4096 <= stack_sp argv top ->
  exists s' T' U' l', exec_stack end_ kstack ts_addr path argv d entry sz s = Ret 0 s' /\ xfs s' = xfs s /\
    entered path d top entry (stack_sp argv top) s s' /\
    space end_ rest (l0 ++ pd :: vals PT ++ vals PU) (memory k0) m1 d (xmem s') T' U' l' top (top - 8192) (stack_image argv top img).
Proof.
  intros Hpath Hpd Hname Hq Hs top Htop Hfit Hb Hn Hsp. pose proof (sp_size _ _ _ _ _ _ _ _ _ _ _ _ _ Hs) as Hsz. unfold top, KERNBASE in *.
  destruct (PGROUNDUP_page sz) as (Hm & Hup); [lia|unfold KERNBASE; lia|]. assert (Hmt : (PGROUNDUP sz + 8192) mod 4096 = 0) by (rewrite Z.add_mod, Hm by lia; done).
  pose proof (space_round _ _ _ _ _ _ _ _ _ _ _ _ _ Hs ltac:(unfold KERNBASE; lia)) as Hs0.
  unfold exec_stack. change (2 * PGSIZE) with 8192. rewrite (u32_small (PGROUNDUP sz + 8192)) by lia.
  destruct (space_grow _ end_kernel _ _ _ _ _ _ _ _ _ _ _ _ (PGROUNDUP sz + 8192) Hs0) as (k1 & T1 & U1 & l1 & E1 & Hs1 & _);
    [lia|unfold KERNBASE; lia|lia| |].
  { assert (E : (PGROUNDUP sz + 8192 + 4095) / 4096 = (PGROUNDUP sz + 8192) / 4096); [|lia].
    pose proof (Z.div_mod (PGROUNDUP sz + 8192) 4096). symmetry. apply (Z.div_unique _ 4096 _ 4095); lia. }
  rewrite (bind_Ret _ _ _ _ _ (onm_run _ s _ _ E1)). destruct (Z.eqb_spec (PGROUNDUP sz + 8192) 0); [lia|].
  rewrite (u32_small (PGROUNDUP sz + 8192 - 8192)) by lia. set (top' := PGROUNDUP sz + 8192) in *.
  destruct (space_page _ _ _ _ _ _ _ _ _ _ _ _ _ (top' - 8192) Hs1) as [p Hp]; [lia|].
  assert (Hpd' : PGROUNDDOWN (top' - 8192) = top' - 8192) by (rewrite PGROUNDDOWN_eq; unfold top'; rewrite Z.add_simpl_r; lia). rewrite Hpd' in Hp.
  destruct (space_guard _ end_kernel _ _ _ _ _ _ _ _ _ _ _ _ _ Hs1 Hp) as (k2 & E2 & Hs2).
  rewrite (bind_Ret _ _ _ _ _ (onm_run _ (set_xmem k1 s) _ _ E2)).
  destruct (stack_run end_ end_kernel _ _ _ _ _ (set_xmem k2 (set_xmem k1 s)) T1 U1 l1 top' img argv Hs2 Hb Hmt) as (k3 & k4 & E3 & E4 & Hs4); [unfold top'; lia|done|done|].
  rewrite (bind_Ret _ _ _ _ _ E3). cbv iota beta. rewrite args_ptrs_length.
  assert (Hsp' : u32 (args_sp argv top' - (3 + Z.of_nat (length argv) + 1) * 4) = stack_sp argv top').
  { unfold stack_sp in *. pose proof (args_sp_le argv top'). apply u32_small. unfold top' in *. lia. }
  rewrite Hsp'. rewrite (bind_Ret _ _ _ _ _ (onm_run _ (set_xmem k3 (set_xmem k2 (set_xmem k1 s))) _ _ E4)). change (0 <? 0) with false. cbv iota.
  destruct (exec_commit_run (set_xmem k4 (set_xmem k3 (set_xmem k2 (set_xmem k1 s)))) path m1 d T1 U1 l1 top' (top' - 8192) _ entry (stack_sp argv top') Hpath Hpd Hname Hq Hs4) as (s' & l' & E5 & Hf & He & Hs5).
  exists s', T1, U1, l'. split_and!; [exact E5|exact Hf| |exact Hs5]. destruct He as [He1 He2 He3]. by split.
Qed.
End Old.

(** What exec finds: the file [path] names, a program that fits, and room. *)
Record runnable (s : xst S) (path : list Z) (argv : list (list Z)) (wi : inode) (inum : Z) (dn : dinode) (bm : gmap Z Z) (entry : Z) (gs : list seg)
    (PT PU : gmap Z Z) (rest l : list Z) (oldsz : Z) : Prop := {
  ru_old : aspace end_ (xmem s) (p_pgdir (xproc s)) PT PU rest l;
  ru_full : full oldsz PU;
  ru_name : (16 <= length (p_name (xproc s)))%nat;
  ru_quiet : quiet (this_cpu (fst (xcpu s)));
  ru_path : cut path = path;
  ru_idle : idle (refs (ic (xfs s))) (xfs s);
  ru_cwd : inodes (ic (xfs s)) !! cwd = Some wi /\ 0 < i_ref wi /\ i_dev wi = ROOTDEV /\ is_Some (N !! i_inum wi) /\ is_Some (N !! ROOTINO);
  ru_entries : 2 <= free_entries (ic (xfs s));
  ru_walk : exists nm, walk V N false (elems path) (if absolute path then ROOTINO else i_inum wi) [] = Some (inum, nm);
  ru_inode : N !! inum = Some (dn, bm);
  ru_file : file_inv sb V (Inode ROOTDEV inum 1 false true dn) bm;
  ru_bytes : byte_list (fbytes V bm 0 (d_size dn));
  ru_program : program (fbytes V bm 0 (d_size dn)) = Some (entry, gs);
  ru_segs : Forall (seg_ok (fbytes V bm 0 (d_size dn))) gs;
  ru_top : top_of gs < KERNBASE;
  ru_pages : 1026 + top_of gs / 4096 <= Z.of_nat (length l);
  ru_args : Forall (Forall (fun b => 0 <= b < 256)) argv /\ Z.of_nat (length argv) <= MAXARG;
  ru_stack : top_of gs - 4096 <= stack_sp argv (top_of gs)
}.

(** The steps up to the header of the file. *)
Lemma header_run (s : xst S) path wi inum nm dn bm :
  cut path = path -> idle (refs (ic (xfs s))) (xfs s) -> inodes (ic (xfs s)) !! cwd = Some wi -> 0 < i_ref wi -> i_dev wi = ROOTDEV ->
  is_Some (N !! i_inum wi) -> is_Some (N !! ROOTINO) -> 2 <= free_entries (ic (xfs s)) ->
  walk V N false (elems path) (if absolute path then ROOTINO else i_inum wi) [] = Some (inum, nm) -> N !! inum = Some (dn, bm) ->
  file_inv sb V (Inode ROOTDEV inum 1 false true dn) bm ->
  exists ip f1 f2 f3, onf (namei devs cwd path) s = Ret (Some ip) (set_xfs f1 s) /\ onf (ilock ip) (set_xfs f1 s) = Ret tt (set_xfs f2 s) /\
    onf (readi devs ip 0 sizeof_elfhdr) (set_xfs f2 s) = Ret (Some (take 52 (fbytes V bm 0 (d_size dn)))) (set_xfs f3 s) /\
    reading V L (refs (ic (xfs s))) ip inum dn f3.
Proof.
  intros Hp Hid Hw Hr Hdev HNw HNr Hfree Hwalk HN Hf.
  destruct (open_run V L sb devs Hlo Hlen N Htree Hroom (xfs s) cwd wi path inum nm dn bm Hp Hid Hw Hr Hdev HNw HNr Hfree Hwalk HN) as (ip & f1 & f2 & E1 & E2 & Hrd).
  pose proof (size_C V sb inum dn bm Hf) as (_ & _ & Hd).
  destruct (xread_run V L sb devs Hlo Hlen Hroom _ ip inum dn bm Hf (set_xfs f2 s) 0 sizeof_elfhdr Hrd) as (f3 & E3 & Hrd3); [lia|unfold sizeof_elfhdr; lia|].
  exists ip, f1, f2, f3. split_and!; [by apply onf_run|by apply (onf_run _ (set_xfs f1 s))|exact E3|exact Hrd3].
Qed.

Lemma load_size_lt C gs sz : Forall (seg_ok C) gs -> sz < KERNBASE -> load_size gs sz < KERNBASE.
Proof.
  intros Hok. revert sz. induction Hok as [|g gs [_ _ _ Ht _] _ IH]; intros sz Hsz; simpl; [done|]. apply IH. lia.
Qed.

Lemma top_of_ge C gs : Forall (seg_ok C) gs -> 8192 <= top_of gs.
Proof.
  intros Hok. pose proof (load_size_le gs 0). pose proof (load_size_lt _ gs 0 Hok ltac:(done)). unfold top_of.
  destruct (PGROUNDUP_page (load_size gs 0)); lia.
Qed.

(** A file with a header but without the magic number, or shorter than a header,
    is refused; memory and process stay as they were and the file is put. *)
Theorem exec_rejects (s : xst S) path argv wi inum nm dn bm :
  cut path = path -> idle (refs (ic (xfs s))) (xfs s) -> inodes (ic (xfs s)) !! cwd = Some wi -> 0 < i_ref wi -> i_dev wi = ROOTDEV ->
  is_Some (N !! i_inum wi) -> is_Some (N !! ROOTINO) -> 2 <= free_entries (ic (xfs s)) ->
  walk V N false (elems path) (if absolute path then ROOTINO else i_inum wi) [] = Some (inum, nm) -> N !! inum = Some (dn, bm) ->
  file_inv sb V (Inode ROOTDEV inum 1 false true dn) bm ->
  d_size dn < 52 \/ elf_magic (fbytes V bm 0 (d_size dn)) <> Some ELF_MAGIC ->
  exists f', exec path argv s = Ret (-1) (set_xfs f' s) /\ idle (refs (ic (xfs s))) f'.
Proof.
  intros Hp Hid Hw Hr Hdev HNw HNr Hfree Hwalk HN Hf Hbad.
  destruct (header_run s path wi inum nm dn bm Hp Hid Hw Hr Hdev HNw HNr Hfree Hwalk HN Hf) as (ip & f1 & f2 & f3 & E1 & E2 & E3 & Hrd).
  destruct (close_run V L sb N Htree _ ip inum dn bm f3 Hrd HN) as (f4 & E4 & Hid4). exists f4. split; [|done].
  pose proof (size_C V sb inum dn bm Hf) as (HC & _ & Hd). set (C := fbytes V bm 0 (d_size dn)) in *.
  assert (Hbye : exec_bad end_ 0 (Some ip) (set_xfs f3 s) = Ret (-1) (set_xfs f4 s)).
  { unfold exec_bad. rewrite Z.eqb_refl. cbn [negb when]. rewrite bind_ret. by rewrite (bind_Ret _ _ _ _ _ (onf_run _ (set_xfs f3 s) _ _ E4)). }
  unfold exec. rewrite (bind_Ret _ _ _ _ _ E1). cbv iota beta. rewrite (bind_Ret _ _ _ _ _ E2), (bind_Ret _ _ _ _ _ E3).
  destruct (Z.lt_ge_cases (d_size dn) 52) as [Hlt|Hge].
  - unfold short_header. rewrite length_take. rewrite (proj2 (Z.ltb_lt _ _)) by (unfold sizeof_elfhdr; lia). exact Hbye.
  - unfold short_header. rewrite length_take. rewrite (proj2 (Z.ltb_ge _ _)) by (unfold sizeof_elfhdr; lia). cbv iota. cbn [default].
    destruct Hbad as [|Hbad]; [lia|]. unfold field, elf_magic in *.
    assert (Hl4 : exists a b c e r, C = a :: b :: c :: e :: r).
    { destruct C as [|a [|b [|c [|e r]]]]; simpl in HC; try lia. by exists a, b, c, e, r. }
    destruct Hl4 as (a & b & c & e & r & EC). rewrite EC in *. simpl in Hbad. erewrite bind_gets_opt by reflexivity.
    rewrite (proj2 (Z.eqb_neq _ _)); [exact Hbye|]. intros E. apply Hbad. by rewrite <- E.
Qed.

(** Loading the program into a new directory beside the old one. *)
Lemma load_run (s : xst S) path argv wi inum dn bm entry gs PT PU rest l oldsz ip n phoff f :
  runnable s path argv wi inum dn bm entry gs PT PU rest l oldsz -> reading V L (refs (ic (xfs s))) ip inum dn f ->
  segs_of n phoff (fbytes V bm 0 (d_size dn)) = Some gs -> 0 <= phoff ->
  exists d k1 k2 f2 T U l2, onm (setupkvm data_) (set_xfs f s) = Ret d (set_xmem k1 (set_xfs f s)) /\ d <> 0 /\ kernel_mapped data_ (memory k1) d /\
    load_segs devs end_ n ip d phoff 0 (set_xmem k1 (set_xfs f s)) = Ret (Some (load_size gs 0)) (set_xfs f2 (set_xmem k2 s)) /\
    reading V L (refs (ic (xfs s))) ip inum dn f2 /\
    space end_ (old_pages (p_pgdir (xproc s)) PT PU rest) l (memory (xmem s)) (memory k1) d k2 T U l2 (load_size gs 0) (-1)
      (load_image (fbytes V bm 0 (d_size dn)) gs (fun _ => 0)).
Proof.
  intros R Hrd Hsegs Hoff. destruct R as [Hold Hfull Hname Hq Hpath Hid Hcwd Hent Hwalk Hino Hfile Hbytes Hprog Hsegok Htop Hpages Hargs Hstack].
  pose proof (load_size_le gs 0) as H0'. pose proof (load_size_lt _ gs 0 Hsegok ltac:(done)) as Hlt. unfold top_of in *.
  destruct (PGROUNDUP_page (load_size gs 0)) as (Hm & Hup); [lia|lia|].
  assert (Hdiv : (load_size gs 0 + 4095) / 4096 <= (PGROUNDUP (load_size gs 0) + 8192) / 4096) by (apply Z.div_le_mono; lia).
  destruct (setupkvm_run end_ data_ end_kernel data_page data_range (xmem s) l) as [(k1 & _ & _ & Hl & _)|(k1 & d & T & l1 & E1 & Hvs & Hacct & Hkm & Hsame)]; [apply Hold| |].
  { exfalso. pose proof (Z.div_pos (load_size gs 0 + 4095) 4096 ltac:(lia) ltac:(lia)). apply Nat2Z.inj_le in Hl. lia. }
  destruct (page_ok_word end_ end_kernel d (v_dir _ _ _ _ (vs_vm _ _ _ _ _ Hvs))) as (_ & Hd0 & _).
  pose proof (start_space end_ end_kernel (xmem s) _ PT PU rest l Hold data_ k1 d T l1 Hvs Hacct Hkm Hsame) as Hs1.
  destruct (load_segs_run V L sb devs Hlo Hlen Hroom end_ end_kernel _ _ _ _ d _ ip inum dn bm Hfile Hbytes n phoff gs (set_xmem k1 (set_xfs f s)) T ∅ l1 0 (fun _ => 0)
    Hsegs Hsegok Hoff Hrd Hs1) as (k2 & f2 & T2 & U2 & l2 & E2 & Hrd2 & Hs2); [lia|].
  exists d, k1, k2, f2, T2, U2, l2. split_and!; [by apply (onm_run _ (set_xfs f s))|done|done|exact E2|done|exact Hs2].
Qed.

(** C9: exec of a program that fits returns 0.  The process then has the memory
    [start_image]: every segment's bytes from the file at its addresses, zeros
    elsewhere, the argument strings and the words that point to them on the
    stack page; user code may use every page but the guard below the stack.
    The kernel is mapped as [setupkvm] maps it, the CPU uses the new
    directory, the old memory is free again, and every inode has the
    references it had. *)
Theorem exec_runs (s : xst S) path argv wi inum dn bm entry gs PT PU rest l oldsz :
  runnable s path argv wi inum dn bm entry gs PT PU rest l oldsz ->
  let C := fbytes V bm 0 (d_size dn) in let top := top_of gs in
  exists s' d, exec path argv s = Ret 0 s' /\ entered path d top entry (stack_sp argv top) s s' /\
    (forall va, 0 <= va < top -> user_byte (memory (xmem s')) d va = Some (start_image C gs argv va) /\
       (user_access (memory (xmem s')) d va <-> PGROUNDDOWN va <> top - 8192)) /\
    args_on_stack (start_image C gs argv) (stack_sp argv top) argv /\
    (forall va, va < top - 4096 -> start_image C gs argv va = load_image C gs (fun _ => 0) va) /\
    (exists m, kernel_mapped data_ m d /\ forall va, KERNBASE <= va < 2 ^ 32 -> hw (memory (xmem s')) d va = hw m d va) /\
    (exists T U l', aspace end_ (xmem s') d T U rest l' /\ full top U /\
       d :: vals T ++ vals U ++ l' ≡ₚ l ++ p_pgdir (xproc s) :: vals PT ++ vals PU) /\
    idle (refs (ic (xfs s))) (xfs s').
Proof.
  intros R C top. pose proof R as [Hold Hfull Hname Hq Hpath Hid (Hcwd & Hcr & Hcd & HNw & HNr) Hent [nm Hwalk] Hino Hfile Hbytes Hprog Hsegok Htop Hpages [Hargs Hargc] Hstack].
  destruct (header_run s path wi inum nm dn bm Hpath Hid Hcwd Hcr Hcd HNw HNr Hent Hwalk Hino Hfile) as (ip & f1 & f2 & f3 & E1 & E2 & E3 & Hrd).
  unfold program in Hprog. cbv zeta in Hprog. fold C in Hprog. set (e := take 52 C) in *.
  destruct (Nat.eqb_spec (length e) 52) as [Hl52|]; [cbn [negb] in Hprog|done].
  destruct (elf_magic e) as [magic|] eqn:Hmg; [|done]. cbn [mbind option_bind] in Hprog. destruct (Z.eqb_spec magic ELF_MAGIC) as [->|]; [cbn [negb] in Hprog|done].
  destruct (elf_entry e) as [en|] eqn:Hen; [|done]. destruct (elf_phoff e) as [phoff|] eqn:Hpo; [|done]. destruct (elf_phnum e) as [phnum|] eqn:Hpn; [|done].
  cbn [mbind option_bind] in Hprog. destruct (segs_of (Z.to_nat phnum) phoff C) as [gs'|] eqn:Hsegs; [|done]. injection Hprog as -> ->.
  assert (Hphoff : 0 <= phoff) by (eapply get32_range; [|exact Hpo]; by apply Forall_take).
  destruct (load_run s path argv wi inum dn bm entry gs PT PU rest l oldsz ip _ phoff f3 R Hrd Hsegs Hphoff) as (d & k1 & k2 & f4 & T & U & l2 & E4 & Hd0 & Hkm & E5 & Hrd4 & Hs).
  destruct (close_run V L sb N Htree _ ip inum dn bm f4 Hrd4 Hino) as (f5 & E6 & Hid5).
  destruct (exec_stack_run (xmem s) (p_pgdir (xproc s)) PT PU rest l oldsz Hold Hfull (set_xfs f5 (set_xmem k2 s)) path argv (memory k1) d T U l2 _ _ entry
    Hpath eq_refl Hname Hq Hs Htop Hpages Hargs Hargc Hstack) as (s' & T' & U' & l' & E7 & Hf' & Hen' & Hs').
  exists s', d. split_and!.
  - unfold exec. rewrite (bind_Ret _ _ _ _ _ E1). cbv iota beta. rewrite (bind_Ret _ _ _ _ _ E2), (bind_Ret _ _ _ _ _ E3).
    fold C e. unfold short_header. rewrite Hl52. change (Z.of_nat 52 <? sizeof_elfhdr) with false. cbv iota. cbn [default]. unfold field.
    erewrite bind_gets_opt by exact Hmg. rewrite Z.eqb_refl. cbn [negb]. rewrite (bind_Ret _ _ _ _ _ E4), (proj2 (Z.eqb_neq d 0) Hd0).
    erewrite bind_gets_opt by exact Hpo. erewrite bind_gets_opt by exact Hpn. rewrite (bind_Ret _ _ _ _ _ E5). cbv iota beta.
    rewrite (bind_Ret _ _ _ _ _ (onf_run _ (set_xfs f4 (set_xmem k2 s)) _ _ E6)). erewrite bind_gets_opt by exact Hen. exact E7.
  - destruct Hen' as [He1 He2 He3]. by split.
  - intros va Hva. split; [by apply (space_user _ end_kernel _ _ _ _ _ _ _ _ _ _ _ _ _ Hs')|by apply (space_access _ end_kernel _ _ _ _ _ _ _ _ _ _ _ _ _ Hs')].
  - pose proof (top_of_ge _ _ Hsegok). apply stack_image_args; unfold top, KERNBASE in *; lia.
  - intros va Hva. apply stack_image_below. unfold top in Hva. lia.
  - exists (memory k1). split; [done|]. apply Hs'.
  - exists T', U', l'. split_and!; apply Hs'.
  - by rewrite Hf'.
Qed.
End Exec.

(** ** The theorems at work: exec("/p", ["p"]) *)

Definition regs_demo : cpuregs := Cpuregs [] 0 0 0 0 0.
Definition x_demo (k : kmem) (d : Z) : xst (lst bst) :=
  Xst k (Fs l_demo c_walk log_fs) (l_demo, regs_demo) (Uproc (replicate 16 0) d 4096 0 0).
Definition gs_demo : list seg := [Seg 84 0 16 5000].

Lemma elf_demo_contents : fbytes V_demo {[0 := 15]} 0 100 = elf_demo.
Proof. by vm_compute. Qed.

Lemma elf_demo_bytes : byte_list elf_demo.
Proof.
  apply Forall_forall. intros b Hb. assert (Hall : forallb (fun b => (0 <=? b) && (b <? 256)) elf_demo = true) by by vm_compute.
  rewrite forallb_forall in Hall. specialize (Hall b ltac:(by apply list_elem_of_In)). apply andb_true_iff in Hall. lia.
Qed.

Lemma prog_room : room (∅ : gmap Z (nat * bool)) (∅ : gset Z) 1.
Proof. vm_compute. lia. Qed.

Lemma prog_idle k d : idle V_demo ∅ (refs (ic (xfs (x_demo k d)))) (xfs (x_demo k d)).
Proof. split; [apply l_demo_unlocked; lia|apply c_walk_ok|apply fs_holds|done]. Qed.

Lemma prog_runnable k d T U l :
  aspace end_demo k d T U [] l -> full 4096 U -> (2000 < length l)%nat ->
  runnable V_demo ∅ sb_demo N_demo end_demo 0 (x_demo k d) [47; 112] [[112]] cwd_demo 7 prog_demo {[0 := 15]} 0 gs_demo T U [] l 4096.
Proof.
  intros Has Hf Hl. split; try done.
  - apply prog_idle.
  - exists [112]. by vm_compute.
  - apply fs_prog.
  - change (d_size prog_demo) with 100. rewrite elf_demo_contents. apply elf_demo_bytes.
  - change (d_size prog_demo) with 100. rewrite elf_demo_contents. constructor; [|constructor]. split; cbn [s_off s_vaddr s_filesz s_memsz]; try done.
  - change (1026 + top_of gs_demo / 4096) with 1030. lia.
  - split; [|done]. constructor; [|constructor]. constructor; [lia|constructor].
Qed.

Lemma exec_runs_witness : exists k d s',
  exec no_devs end_demo data_demo 0 0x8DFFF000 0x80200000 [] [47; 112] [[112]] (x_demo k d) = Ret 0 s' /\ p_sz (xproc s') = 16384.
Proof.
  destruct space_demo as (k & d & T & U & l & Has & Hf & Hlen & _). exists k, d.
  destruct (exec_runs V_demo ∅ sb_demo no_devs fs_layout fs_lengths N_demo demo_tree prog_room end_demo data_demo end_demo_kernel eq_refl data_demo_range
    0 0x8DFFF000 0x80200000 [] (x_demo k d) [47; 112] [[112]] cwd_demo 7 prog_demo {[0 := 15]} 0 gs_demo T U [] l 4096) as (s' & d' & E & Hen & _).
  - apply prog_runnable; [exact Has|exact Hf|lia].
  - exists s'. split; [exact E|]. destruct Hen as [_ (_ & Hsz & _) _]. exact Hsz.
Defined.
