(* ===== verification/Bootmain.v ===== *)
(** * The boot loader (bootmain.c)

    Reads the ELF image of the kernel from drive 0, sector 1 on, into memory.
    The state is the machine and the memory [ram]; the segment headers are
    read from memory, where the first page of the image was put, while the
    segments are loaded.  Pointers are 32 bits wide and wrap around.  [fuel]
    bounds the readings of the drive's status. *)
From S2P Require Import Prelude Hw Bytes Ide Strings Vm VmCopy Exec ExecMem.

Record bootst (D : Type) := Bootst { bmach : mach D; ram : mem }.
Arguments Bootst {D}.
Arguments bmach {D}.
Arguments ram {D}.

Section Bootmain.
Context {D : Type} `{Bus D} (fuel : nat).
Abbreviation B := (M (bootst D)).

Definition onb {A} (m : M (mach D) A) : B A := zoom bmach (fun m s => Bootst m (ram s)) m.
Definition set_ram (f : mem -> mem) : B unit := modify (fun s => Bootst (bmach s) (f (ram s))).

Definition SECTSIZE : Z := 512.

Fixpoint waitdisk_loop (n : nat) : M (mach D) unit :=
  match n with
  | O => hang
  | S n' => r <~ inb 0x1F7;;; if negb (Z.land r 0xC0 =? 0x40) then waitdisk_loop n' else ret tt
  end.
Definition waitdisk : M (mach D) unit := waitdisk_loop fuel.

(** The bytes that [readsect] puts at its [dst]. *)
Definition read_sector (offset : Z) : M (mach D) (list Z) :=
  waitdisk;;;
  outb 0x1F2 1;;;
  outb 0x1F3 offset;;;
  outb 0x1F4 (Z.shiftr offset 8);;;
  outb 0x1F5 (Z.shiftr offset 16);;;
  outb 0x1F6 (Z.lor (Z.shiftr offset 24) 0xE0);;;
  outb 0x1F7 0x20;;;
  waitdisk;;;
  insl 0x1F0 (512 / 4).

(** The bytes of [rep insl], one after the other from [dst] on. *)
Fixpoint store_bytes (l : list Z) (dst : Z) (r : mem) : mem :=
  match l with [] => r | b :: l => store_bytes l (u32 (dst + 1)) (fun x => if x =? dst then b else r x) end.

Definition readsect (dst offset : Z) : B unit :=
  l <~ onb (read_sector offset);;; set_ram (store_bytes l dst).

(** The loop of [readseg].  [n] is more than the rounds of a loop that ends:
    the loop that has gone on for longer has passed the end of memory, comes
    back to the addresses it has had and goes on ([readseg_loop_forever]). *)
Fixpoint readseg_loop (n : nat) (pa epa offset : Z) : B unit :=
  if pa <? epa then
    match n with
    | O => hang
    | S n' => readsect pa offset;;; readseg_loop n' (u32 (pa + SECTSIZE)) epa (u32 (offset + 1))
    end
  else ret tt.

Definition readseg (pa count offset : Z) : B unit :=
  let epa := u32 (pa + count) in
  let pa := u32 (pa - offset mod SECTSIZE) in
  readseg_loop (Z.to_nat (count / SECTSIZE + 2)) pa epa (offset / SECTSIZE + 1).

(** A word of memory, and a short. *)
Definition word (a : Z) : B Z := gets (fun s => ld4 (u32 a) (ram s)).
Definition short (a : Z) : B Z := gets (fun s => ram s (u32 a) + 2 ^ 8 * ram s (u32 (a + 1))).

(** The loop over the program headers from [ph] to [eph], [n] of them. *)
Fixpoint load_headers (n : nat) (ph eph : Z) : B unit :=
  if negb (ph <? eph) then ret tt else
  match n with
  | O => hang
  | S n' =>
      pa <~ word (ph + 12);;;
      filesz <~ word (ph + 16);;;
      off <~ word (ph + 4);;;
      readseg pa filesz off;;;
      filesz <~ word (ph + 16);;;
      memsz <~ word (ph + 20);;;
      when (filesz <? memsz) (set_ram (stosb (Z.to_nat (memsz - filesz)) (u32 (pa + filesz)) 0));;;
      load_headers n' (u32 (ph + sizeof_proghdr)) eph
  end.

(** [None] when the image is not an ELF file and [bootmain] returns, the
    address it jumps to otherwise. *)
Definition bootmain : B (option Z) :=
  let elf := 0x10000 in
  readseg elf 4096 0;;;
  magic <~ word elf;;;
  if negb (magic =? ELF_MAGIC) then ret None else
  phoff <~ word (elf + 28);;;
  phnum <~ short (elf + 44);;;
  let ph := u32 (elf + phoff) in
  let eph := u32 (ph + phnum * sizeof_proghdr) in
  load_headers (Z.to_nat phnum) ph eph;;;
  entry <~ word (elf + 24);;;
  ret (Some entry).

(** A loop that starts a whole number of sectors below the top of memory,
    with the end in the last of them, never ends. *)
Lemma readseg_loop_forever n pa epa offset k s a s' :
  0 <= pa < 2 ^ 32 -> pa mod SECTSIZE = k -> 2 ^ 32 - SECTSIZE + k < epa < 2 ^ 32 ->
  readseg_loop n pa epa offset s <> Ret a s'.
Proof.
  intros Hpa Hk He. revert pa offset s Hpa Hk. unfold SECTSIZE in *.
  induction n as [|n IH]; intros pa offset s Hpa Hk; cbn [readseg_loop].
  all: pose proof (Z.div_mod pa 512 ltac:(lia)) as D0; pose proof (Z.mod_pos_bound pa 512 ltac:(lia)).
  all: destruct (Z.ltb_spec pa epa); [|exfalso; lia].
  { done. }
  unfold bind. destruct (readsect pa offset s) as [[] s1| | | |]; try done.
  apply IH.
  - apply Z.mod_pos_bound. lia.
  - unfold u32, SECTSIZE. rewrite <- Hk. rewrite Z.mod_mod_divide by (exists (2 ^ 23); lia).
    rewrite <- (Z.mul_1_l 512) at 1. by rewrite Z.mod_add.
Qed.
End Bootmain.

(** ** The boot loader loads the kernel

    [K] is the image of the kernel on drive 0, from sector 1 on. *)

Section Load.
Context {D : Type} `{Bus D} `{!AtaBus D} (fuel : nat).
Context (Hfuel : forall d : D, (busy d < fuel)%nat).
Implicit Types (m : mach D) (s : bootst D).

Lemma waitdisk_run m :
  a_present (ata (bus m)) = true ->
  exists d, waitdisk fuel m = Ret tt (set_bus d m) /\ ata d = ata (bus m) /\ busy d = 0%nat.
Proof.
  intros Hp. unfold waitdisk. pose proof (Hfuel (bus m)) as Hb. revert m Hp Hb. clear Hfuel.
  induction fuel as [|n IH]; intros m Hp Hb; [lia|]. cbn [waitdisk_loop]. unfold bind, inb.
  pose proof (ata_status (bus m)) as L. change 0x1F7 with 0x1f7. destruct (bus_inb _ _) as [r d].
  rewrite Hp in L. destruct L as (Ha & _ & Hbusy & Hr & _).
  destruct (Z.eqb_spec (Z.land r 0xC0) 0x40) as [E|E]; cbn [negb].
  - apply Hr in E. exists d. split; [done|]. split; [done|]. by rewrite Hbusy, E.
  - assert (busy (bus m) <> 0%nat) by naive_solver.
    destruct (IH (set_bus d m)) as (d' & Er & Ha' & Hb'); cbn [bus set_bus] in *; [by rewrite Ha|lia|].
    exists d'. rewrite Er, Ha', Ha. done.
Qed.

Lemma low_bits z k : 0 <= z -> 0 <= k -> u8 (Z.shiftr z k) = z / 2 ^ k mod 2 ^ 8.
Proof. intros. by rewrite Z.shiftr_div_pow2. Qed.

(** The registers address sector [off] of drive 0. *)
Lemma sector_registers off a :
  0 <= off < 2 ^ 28 ->
  a_addr (ata_outb 0x1f6 (u8 (Z.lor (Z.shiftr off 24) 0xE0)) (ata_outb 0x1f5 (u8 (Z.shiftr off 16))
    (ata_outb 0x1f4 (u8 (Z.shiftr off 8)) (ata_outb 0x1f3 (u8 off) (ata_outb 0x1f2 (u8 1) a))))) = (0, off).
Proof.
  intros Ho. assert (Hh : 0 <= off / 2 ^ 24 < 2 ^ 4).
  { split; [apply Z.div_pos; lia|]. apply Z.div_lt_upper_bound; lia. }
  destruct (dev_reg 0 off ltac:(lia)) as (Hv & Hv4 & Hv15).
  assert (Ev : Z.lor (Z.lor 0xe0 (Z.shiftl (Z.land 0 1) 4)) (Z.land (Z.shiftr off 24) 0x0f)
    = Z.lor (Z.shiftr off 24) 0xE0).
  { rewrite Z.lor_comm. f_equal. change 0x0f with (Z.ones 4). rewrite Z.land_ones by lia.
    apply Z.mod_small. rewrite Z.shiftr_div_pow2 by lia. done. }
  rewrite Ev in Hv, Hv4, Hv15. rewrite Hv, !low_bits by lia. set (v := Z.lor _ _) in *.
  unfold a_addr, a_drive, a_get. cbn -[Z.pow Z.div Z.modulo].
  repeat first [rewrite lookup_insert_eq | rewrite lookup_insert_ne by done].
  unfold default, id. rewrite Hv4, Hv15. change (0 mod 2) with 0. f_equal.
  unfold u8. pose proof (split28 off ltac:(lia)) as Es.
  change 256 with (2 ^ 8). rewrite (Z.mod_small off (2 ^ 28)) in Es by lia. exact Es.
Qed.

Lemma read_sector_run off m x :
  0 <= off < 2 ^ 28 -> a_present (ata (bus m)) = true -> a_media (ata (bus m)) !! (0, off) = Some x ->
  exists d, read_sector fuel off m = Ret x (set_bus d m) /\
    a_media (ata d) = a_media (ata (bus m)) /\ a_present (ata d) = true.
Proof.
  intros Ho Hp Hx. unfold read_sector. destruct (waitdisk_run m Hp) as (d & E & Ha & _).
  rewrite (bind_Ret _ _ _ _ _ E). unfold outb. rewrite !bind_modify. cbn [bus set_bus].
  set (m1 := set_bus _ _). set (a := ata_outb 0x1f6 (u8 (Z.lor (Z.shiftr off 24) 0xE0)) (ata_outb 0x1f5
    (u8 (Z.shiftr off 16)) (ata_outb 0x1f4 (u8 (Z.shiftr off 8)) (ata_outb 0x1f3 (u8 off)
    (ata_outb 0x1f2 (u8 1) (ata (bus m))))))).
  assert (Had : a_addr a = (0, off)) by (by apply sector_registers).
  assert (A1 : ata (bus m1) = Ata (a_media (ata (bus m))) (a_two (ata (bus m))) (a_regs a) (ARead (0, off)) false).
  { unfold m1. cbn [bus set_bus]. rewrite !ata_out, Ha. change (ata_outb 0x1F7 (u8 0x20)) with (ata_command 0x20).
    fold a. rewrite (command_ok 0x20 a x (ARead (0, off))); try done.
    - by rewrite Had.
    - unfold a_get, a. cbn -[u8 Z.shiftr]. by rewrite !lookup_insert_ne, lookup_insert_eq by done.
    - by left.
    - by rewrite Had. }
  assert (P1 : a_present (ata (bus m1)) = true).
  { rewrite A1. unfold a_present. cbn [a_two]. injection Had as Hd _. unfold a_drive, a_get in *. cbn [a_regs].
    rewrite Hd. apply orb_true_r. }
  destruct (waitdisk_run m1 P1) as (d2 & E2 & Ha2 & Hb2). rewrite (bind_Ret _ _ _ _ _ E2).
  destruct (ata_ins d2 x (Ata (a_media (ata (bus m))) (a_two (ata (bus m))) (a_regs a) AIdle false) Hb2)
    as (d3 & E3 & A3).
  { rewrite Ha2, A1. unfold ata_insl. cbn. by rewrite Hx. }
  exists d3. unfold insl. cbn [bus set_bus]. change (512 / 4)%nat with 128%nat. rewrite E3, A3.
  split; [done|]. split; [done|]. rewrite A1 in P1. exact P1.
Qed.

(** ** Segments *)

Context (K : list Z) (nsec : nat).

Definition sect (i : nat) : list Z := take 512 (drop (512 * i) K).

(** The image is on drive 0 from sector 1 on, and the drive is there. *)
Record bootable (m : mach D) : Prop := {
  bo_len : length K = (512 * nsec)%nat;
  bo_size : Z.of_nat nsec + 1 < 2 ^ 28;
  bo_media : forall i, (i < nsec)%nat -> a_media (ata (bus m)) !! (0, 1 + Z.of_nat i) = Some (sect i);
  bo_drive : a_present (ata (bus m)) = true
}.

Lemma sect_length m i : bootable m -> (i < nsec)%nat -> length (sect i) = 512%nat.
Proof. intros Bo Hi. unfold sect. rewrite length_take, length_drop, (bo_len _ Bo). lia. Qed.

Lemma store_bytes_poke l dst r x :
  0 <= dst -> dst + Z.of_nat (length l) < 2 ^ 32 -> store_bytes l dst r x = poke dst l r x.
Proof.
  revert dst r. induction l as [|b l IH]; intros dst r H0 H1; cbn [store_bytes length] in *.
  { by rewrite poke_nil. }
  rewrite u32_small by lia. rewrite IH, !poke_at by lia. cbn [length].
  destruct (Z.eqb_spec x dst) as [->|Hx].
  - rewrite decide_False, decide_True by lia. by rewrite Z.sub_diag.
  - case_decide; [|by rewrite decide_False by lia]. rewrite decide_True by lia.
    replace (Z.to_nat (x - dst)) with (S (Z.to_nat (x - (dst + 1)))) by lia.
    done.
Qed.

Lemma readsect_run dst i s :
  bootable (bmach s) -> (i < nsec)%nat ->
  exists m', readsect fuel dst (1 + Z.of_nat i) s = Ret tt (Bootst m' (store_bytes (sect i) dst (ram s))) /\
    bootable m'.
Proof.
  intros Bo Hi. pose proof (bo_size _ Bo).
  destruct (read_sector_run (1 + Z.of_nat i) (bmach s) (sect i)) as (d & E & Hm & Hp);
    [lia|apply Bo|by apply Bo|].
  exists (set_bus d (bmach s)). split.
  - unfold readsect. erewrite bind_Ret; [|unfold onb, zoom; by rewrite E]. done.
  - destruct Bo. constructor; cbn; try done. by rewrite Hm.
Qed.

(** The loop copies [k] whole sectors, from sector [i] of the image on. *)
Lemma readseg_loop_run n pa epa i k s :
  bootable (bmach s) -> (i + k <= nsec)%nat -> (k <= n)%nat -> 0 <= pa -> pa + 512 * Z.of_nat k < 2 ^ 32 ->
  512 * Z.of_nat k - 512 < epa - pa <= 512 * Z.of_nat k ->
  exists m' r, readseg_loop fuel n pa epa (1 + Z.of_nat i) s = Ret tt (Bootst m' r) /\ bootable m' /\
    forall x, r x = poke pa (take (512 * k) (drop (512 * i) K)) (ram s) x.
Proof.
  revert pa i k s. induction n as [|n IH]; intros pa i k s Bo Hik Hkn H0 H1 He; cbn [readseg_loop].
  { destruct k; [|lia]. destruct (Z.ltb_spec pa epa); [lia|]. exists (bmach s), (ram s).
    split; [by destruct s|]. split; [done|]. intros x. by rewrite poke_nil. }
  destruct k as [|k].
  { destruct (Z.ltb_spec pa epa); [lia|]. exists (bmach s), (ram s).
    split; [by destruct s|]. split; [done|]. intros x. by rewrite poke_nil. }
  destruct (Z.ltb_spec pa epa); [|lia].
  destruct (readsect_run pa i s Bo ltac:(lia)) as (m1 & E1 & Bo1). rewrite (bind_Ret _ _ _ _ _ E1).
  pose proof (bo_size _ Bo). unfold SECTSIZE.
  rewrite !u32_small by lia. replace (1 + Z.of_nat i + 1) with (1 + Z.of_nat (S i)) by lia.
  destruct (IH (pa + 512) (S i) k (Bootst m1 (store_bytes (sect i) pa (ram s))) Bo1) as (m' & r & E & Bo' & Hr);
    [lia..|].
  exists m', r. split; [done|]. split; [done|]. intros x. rewrite Hr. cbn [ram].
  pose proof (sect_length _ i Bo ltac:(lia)) as Hls.
  rewrite (poke_ext _ _ _ (poke pa (sect i) (ram s))) by (apply store_bytes_poke; lia).
  replace (pa + 512) with (pa + Z.of_nat (length (sect i))) by lia. rewrite poke_app. f_equal. unfold sect.
  replace (512 * S k)%nat with (512 + 512 * k)%nat by lia. rewrite <- take_take_drop, drop_drop.
  do 3 f_equal. lia.
Qed.

(** The sectors that a read of [count] bytes at [offset] takes. *)
Definition nsects (count offset : Z) : Z := (offset mod 512 + count + 511) / 512.

Lemma readseg_run pa count offset s :
  bootable (bmach s) -> 0 <= count -> 0 <= offset -> offset + count <= Z.of_nat (length K) ->
  0 <= pa - offset mod 512 -> pa - offset mod 512 + 512 * nsects count offset < 2 ^ 32 ->
  exists m' r, readseg fuel pa count offset s = Ret tt (Bootst m' r) /\ bootable m' /\
    forall x, r x = poke (pa - offset mod 512)
      (take (512 * Z.to_nat (nsects count offset)) (drop (512 * Z.to_nat (offset / 512)) K)) (ram s) x.
Proof.
  intros Bo Hc Ho Hk. unfold readseg, SECTSIZE, nsects. intros H0 H1.
  pose proof (Z.div_mod offset 512 ltac:(lia)) as Dm. pose proof (Z.mod_pos_bound offset 512 ltac:(lia)) as Hm.
  set (o := offset mod 512) in *. set (q := offset / 512) in *.
  pose proof (Z.div_mod (o + count + 511) 512 ltac:(lia)) as Dn.
  pose proof (Z.mod_pos_bound (o + count + 511) 512 ltac:(lia)) as Hn.
  pose proof (Z.div_mod count 512 ltac:(lia)) as Dc. pose proof (Z.mod_pos_bound count 512 ltac:(lia)) as Hcm.
  set (k := (o + count + 511) / 512) in *. set (c := count / 512) in *.
  pose proof (bo_len _ Bo) as Hlen. rewrite !u32_small by lia.
  destruct (readseg_loop_run (Z.to_nat (c + 2)) (pa - o) (pa + count) (Z.to_nat q) (Z.to_nat k) s Bo)
    as (m' & r & E & Bo' & Hr); [lia..|].
  exists m', r. replace (q + 1) with (1 + Z.of_nat (Z.to_nat q)) by lia. done.
Qed.

(** ** The program headers *)

Record kseg := KSeg { k_pa : Z; k_off : Z; k_filesz : Z; k_memsz : Z }.

(** The headers as they are in the image. *)
Definition kseg_at (h : nat) : option kseg :=
  pa ← get32 K (h + 12); off ← get32 K (h + 4); fsz ← get32 K (h + 16); msz ← get32 K (h + 20);
  Some (KSeg pa off fsz msz).
Fixpoint ksegs (n h : nat) : option (list kseg) :=
  match n with
  | O => Some []
  | S n => g ← kseg_at h; gs ← ksegs n (h + 32); Some (g :: gs)
  end.

(** Where a segment and the sector it starts in begin, and where it ends. *)
Definition k_start (g : kseg) : Z := k_pa g - k_off g mod 512.
Definition k_end (g : kseg) : Z := k_pa g + Z.max (k_filesz g) (k_memsz g).

Record kseg_ok (g : kseg) : Prop := {
  ko_nonneg : 0 <= k_off g /\ 0 <= k_filesz g /\ 0 <= k_memsz g;
  ko_file : k_off g + k_filesz g <= Z.of_nat (length K);
  ko_mem : k_end g < 2 ^ 32;
  ko_top : k_start g + 512 * nsects (k_filesz g) (k_off g) < 2 ^ 32
}.

(** The segments follow each other in memory, from [lo] on. *)
Fixpoint ordered (lo : Z) (gs : list kseg) : Prop :=
  match gs with [] => True | g :: gs => lo <= k_start g /\ ordered (k_end g) gs end.

Definition loaded (r : mem) (g : kseg) : Prop :=
  (forall j, 0 <= j < k_filesz g -> K !! Z.to_nat (k_off g + j) = Some (r (k_pa g + j))) /\
  (forall j, k_filesz g <= j < k_memsz g -> r (k_pa g + j) = 0).

(** The first page of the image is in memory. *)
Definition scratch (r : mem) : Prop :=
  forall j, (j < 4096)%nat -> K !! j = Some (r (0x10000 + Z.of_nat j)).

Lemma word_scratch s j v :
  scratch (ram s) -> (j + 4 <= 4096)%nat -> get32 K j = Some v -> word (0x10000 + Z.of_nat j) s = Ret v s.
Proof.
  intros Sc Hj Hv. unfold word, gets. f_equal. unfold get32 in Hv.
  assert (L : forall k, (k < 4)%nat -> drop j K !! k = Some (ram s (0x10000 + Z.of_nat j + Z.of_nat k))).
  { intros k Hk. rewrite lookup_drop, Sc by lia. do 2 f_equal. lia. }
  destruct (drop j K) as [|b0 [|b1 [|b2 [|b3 rest]]]]; try done. injection Hv as <-.
  pose proof (L 0%nat ltac:(lia)) as L0. pose proof (L 1%nat ltac:(lia)) as L1.
  pose proof (L 2%nat ltac:(lia)) as L2. pose proof (L 3%nat ltac:(lia)) as L3.
  cbn in L0, L1, L2, L3. injection L0 as ->. injection L1 as ->. injection L2 as ->. injection L3 as ->.
  rewrite (u32_small (0x10000 + Z.of_nat j)) by lia. unfold ld4, of_le4. rewrite !u32_small by lia.
  rewrite Z.add_0_r. done.
Qed.

(** The memory after a segment: the file's bytes, then zeros, and nothing
    below the sector that it starts in changes. *)
Lemma segment_loaded g (r0 r1 r2 : mem) :
  kseg_ok g -> 0 <= k_start g ->
  (forall x, r1 x = poke (k_start g) (take (512 * Z.to_nat (nsects (k_filesz g) (k_off g)))
     (drop (512 * Z.to_nat (k_off g / 512)) K)) r0 x) ->
  r2 = (if k_filesz g <? k_memsz g
        then stosb (Z.to_nat (k_memsz g - k_filesz g)) (u32 (k_pa g + k_filesz g)) 0 r1 else r1) ->
  loaded r2 g /\ forall x, x < k_start g -> r2 x = r0 x.
Proof.
  intros [(Ho & Hf & Hm) Hfile Hmem _] Hs H1 H2. unfold k_end in Hmem.
  pose proof (Z.div_mod (k_off g) 512 ltac:(lia)) as Dm. pose proof (Z.mod_pos_bound (k_off g) 512 ltac:(lia)) as Hmod.
  unfold k_start in *.
  assert (B : forall x, r2 x = if decide (k_pa g + k_filesz g <= x < k_pa g + k_memsz g) then 0 else r1 x).
  { intros x. rewrite H2. destruct (Z.ltb_spec (k_filesz g) (k_memsz g)); [|by rewrite decide_False by lia].
    rewrite u32_small, stosb_spec by lia. replace (Z.of_nat (Z.to_nat (k_memsz g - k_filesz g))) with
      (k_memsz g - k_filesz g) by lia.
    replace (k_pa g + k_filesz g + (k_memsz g - k_filesz g)) with (k_pa g + k_memsz g) by lia. done. }
  split; [split|].
  - intros j Hj. rewrite B, decide_False, H1, poke_at by lia.
    pose proof (Z.div_mod (k_off g mod 512 + k_filesz g + 511) 512 ltac:(lia)) as Dn.
    pose proof (Z.mod_pos_bound (k_off g mod 512 + k_filesz g + 511) 512 ltac:(lia)) as Hn.
    fold (nsects (k_filesz g) (k_off g)) in Dn. set (k := nsects _ _) in *. set (q := k_off g / 512) in *.
    destruct (lookup_lt_is_Some_2 K (Z.to_nat (k_off g + j)) ltac:(lia)) as [b Hb].
    assert (El : take (512 * Z.to_nat k) (drop (512 * Z.to_nat q) K) !! Z.to_nat (k_off g mod 512 + j) = Some b).
    { rewrite lookup_take_lt by lia. rewrite lookup_drop, <- Hb. f_equal. lia. }
    pose proof (lookup_lt_Some _ _ _ El) as Hlt. rewrite decide_True by lia.
    replace (k_pa g + j - (k_pa g - k_off g mod 512)) with (k_off g mod 512 + j) by lia. by rewrite El, Hb.
  - intros j Hj. rewrite B, decide_True by lia. done.
  - intros x Hx. rewrite B, decide_False, H1, poke_at, decide_False by lia. done.
Qed.

Lemma load_headers_run n h lo gs s :
  bootable (bmach s) -> scratch (ram s) -> (h + 32 * n <= 4096)%nat -> 0x11000 <= lo ->
  ksegs n h = Some gs -> Forall kseg_ok gs -> ordered lo gs ->
  exists m' r, load_headers fuel n (0x10000 + Z.of_nat h) (0x10000 + Z.of_nat (h + 32 * n)) s = Ret tt (Bootst m' r) /\
    Forall (loaded r) gs /\ forall x, x < lo -> r x = ram s x.
Proof.
  revert h lo gs s. induction n as [|n IH]; intros h lo gs s Bo Sc Hh Hlo Hg Hok Hord.
  { injection Hg as <-. exists (bmach s), (ram s). cbn [load_headers].
    destruct (Z.ltb_spec (0x10000 + Z.of_nat h) (0x10000 + Z.of_nat (h + 32 * 0))); [lia|]. by destruct s. }
  cbn [ksegs] in Hg. destruct (kseg_at h) as [g|] eqn:Eg; [|done].
  destruct (ksegs n (h + 32)) as [gs'|] eqn:Egs; [|done]. injection Hg as <-.
  apply Forall_cons in Hok as [Hok Hoks]. destruct Hord as [Hst Hord].
  unfold kseg_at in Eg. destruct (get32 K (h + 12)) as [pa|] eqn:E12; [|done].
  destruct (get32 K (h + 4)) as [off|] eqn:E4; [|done]. destruct (get32 K (h + 16)) as [fsz|] eqn:E16; [|done].
  destruct (get32 K (h + 20)) as [msz|] eqn:E20; [|done]. injection Eg as <-.
  pose proof Hok as [(Ho & Hf & Hm) Hfile Hmem Htop]. unfold k_start, k_end in Hst, Hmem, Htop.
  cbn in Ho, Hf, Hm, Hfile, Hst, Hmem. cbn [k_filesz k_off k_pa] in Htop. cbn [load_headers].
  destruct (Z.ltb_spec (0x10000 + Z.of_nat h) (0x10000 + Z.of_nat (h + 32 * S n))); [|lia]. cbn [negb].
  assert (W : forall s' j v, scratch (ram s') -> 0 <= j <= 28 -> get32 K (h + Z.to_nat j) = Some v ->
    word (0x10000 + Z.of_nat h + j) s' = Ret v s').
  { intros s' j v Sc' Hj Hv. replace (0x10000 + Z.of_nat h + j) with (0x10000 + Z.of_nat (h + Z.to_nat j)) by lia.
    apply word_scratch; [done|lia|done]. }
  rewrite (bind_Ret _ _ _ _ _ (W s 12 pa Sc ltac:(lia) E12)).
  rewrite (bind_Ret _ _ _ _ _ (W s 16 fsz Sc ltac:(lia) E16)).
  rewrite (bind_Ret _ _ _ _ _ (W s 4 off Sc ltac:(lia) E4)).
  destruct (readseg_run pa fsz off s Bo Hf Ho Hfile ltac:(lia) Htop) as (m1 & r1 & E1 & Bo1 & R1).
  rewrite (bind_Ret _ _ _ _ _ E1).
  destruct (segment_loaded (KSeg pa off fsz msz) (ram s) r1 _ Hok ltac:(unfold k_start; cbn; lia) R1 eq_refl)
    as [Hld Hlow]. set (r2 := if _ <? _ then _ else _) in *. cbn in Hld, Hlow.
  assert (Sc1 : scratch r1).
  { intros j Hj. rewrite R1, poke_at, decide_False by lia. by apply Sc. }
  rewrite (bind_Ret _ _ _ _ _ (W (Bootst m1 r1) 16 fsz Sc1 ltac:(lia) E16)).
  rewrite (bind_Ret _ _ _ _ _ (W (Bootst m1 r1) 20 msz Sc1 ltac:(lia) E20)).
  assert (Ez : when (fsz <? msz) (set_ram (stosb (Z.to_nat (msz - fsz)) (u32 (pa + fsz)) 0)) (Bootst m1 r1)
    = Ret tt (Bootst m1 r2)) by (unfold r2; cbn; by destruct (fsz <? msz)).
  rewrite (bind_Ret _ _ _ _ _ Ez). unfold k_start in Hlow. cbn in Hlow.
  change sizeof_proghdr with (Z.of_nat 32). rewrite <- Z.add_assoc, <- Nat2Z.inj_add, u32_small by lia.
  replace (h + 32 * S n)%nat with (h + 32 + 32 * n)%nat by lia.
  destruct (IH (h + 32)%nat (k_end (KSeg pa off fsz msz)) gs' (Bootst m1 r2)) as (m' & r & E & Fl & Hx); try done.
  - intros j Hj. cbn. rewrite Hlow by lia. by apply Sc.
  - lia.
  - unfold k_end. cbn. pose proof (Z.mod_pos_bound off 512 ltac:(lia)). lia.
  - exists m', r. split; [done|]. unfold k_end in Hx. cbn in Hx. split; [constructor; [|done]|].
    + destruct Hld as [L1 L2]. cbn in L1, L2. split; cbn; intros j Hj.
      * rewrite Hx by lia. by apply L1.
      * rewrite Hx by lia. by apply L2.
    + intros x Hlx. pose proof (Z.mod_pos_bound off 512 ltac:(lia)). rewrite Hx by lia. apply Hlow. lia.
Qed.

(** The first page of the image is read first. *)
Lemma read_first_page s :
  bootable (bmach s) -> (8 <= nsec)%nat ->
  exists m r, readseg fuel 0x10000 4096 0 s = Ret tt (Bootst m r) /\ bootable m /\ scratch r.
Proof.
  intros Bo Hn. pose proof (bo_len _ Bo) as Hlen.
  destruct (readseg_run 0x10000 4096 0 s Bo ltac:(lia) ltac:(lia) ltac:(lia) ltac:(by vm_compute) ltac:(by vm_compute))
    as (m1 & r1 & E1 & Bo1 & R1).
  exists m1, r1. split; [done|]. split; [done|].
  intros j Hj. rewrite R1, poke_at. change (nsects 4096 0) with 8. change (0x10000 - 0 mod 512) with 0x10000.
  change (512 * Z.to_nat 8)%nat with 4096%nat. change (512 * Z.to_nat (0 / 512))%nat with 0%nat.
  rewrite drop_0, length_take, decide_True by lia. rewrite lookup_take_lt by lia.
  replace (Z.to_nat (0x10000 + Z.of_nat j - 0x10000)) with j by lia.
  destruct (lookup_lt_is_Some_2 K j ltac:(lia)) as [b ->]. done.
Qed.

(** What a kernel image has, besides its magic number: its headers are in its
    first page, and its segments are in the image and follow each other in
    memory. *)
Record kernel_image (entry : Z) (gs : list kseg) : Prop := {
  ki_entry : get32 K 24 = Some entry;
  ki_headers : exists phoff phnum, get32 K 28 = Some phoff /\ get16 K 44 = Some phnum /\ 0 <= phoff /\ 0 <= phnum /\
    phoff + 32 * phnum <= 4096 /\ ksegs (Z.to_nat phnum) (Z.to_nat phoff) = Some gs;
  ki_segs : Forall kseg_ok gs;
  ki_ordered : ordered 0x11000 gs
}.

(** C13: the boot loader ends.  It returns when the first word of the image
    on the disk is not the magic number of an ELF file, whatever else is on
    the disk.  When it is, with the headers in the first page of the image and
    the segments one after the other in memory, the boot loader jumps to the
    entry point with every segment in memory: the bytes of the file and then
    zeros. *)
Theorem bootmain_loads s magic :
  bootable (bmach s) -> (8 <= nsec)%nat -> get32 K 0 = Some magic ->
  (magic <> ELF_MAGIC -> exists s', bootmain fuel s = Ret None s') /\
  (magic = ELF_MAGIC -> forall entry gs, kernel_image entry gs ->
    exists s', bootmain fuel s = Ret (Some entry) s' /\ Forall (loaded (ram s')) gs).
Proof.
  intros Bo Hn Hmag. unfold bootmain. destruct (read_first_page s Bo Hn) as (m1 & r1 & E1 & Bo1 & Sc).
  rewrite (bind_Ret _ _ _ _ _ E1). pose proof (fun j v => word_scratch (Bootst m1 r1) j v Sc) as W.
  rewrite (bind_Ret _ _ _ _ _ (W 0%nat magic ltac:(lia) Hmag)).
  split; intros Em; destruct (Z.eqb_spec magic ELF_MAGIC) as [?|?]; cbn [negb]; try done; [by eexists|].
  intros entry gs [Hent (phoff & phnum & Hoff & Hnum & H0 & H1 & H2 & Hg) Hok Hord].
  rewrite (bind_Ret _ _ _ _ _ (W 28%nat phoff ltac:(lia) Hoff)).
  assert (Es : short (0x10000 + 44) (Bootst m1 r1) = Ret phnum (Bootst m1 r1)).
  { unfold short, gets. f_equal. unfold get16 in Hnum.
    pose proof (Sc 44%nat ltac:(lia)) as L0. pose proof (Sc 45%nat ltac:(lia)) as L1.
    rewrite <- (Nat.add_0_r 44), <- lookup_drop in L0. change 45%nat with (44 + 1)%nat in L1 at 1.
    rewrite <- lookup_drop in L1. destruct (drop 44 K) as [|b0 [|b1 rest]]; try done.
    injection Hnum as <-. cbn in L0, L1. injection L0 as ->. injection L1 as ->. done. }
  rewrite (bind_Ret _ _ _ _ _ Es). cbv zeta. change sizeof_proghdr with 32. rewrite !u32_small by lia.
  destruct (load_headers_run (Z.to_nat phnum) (Z.to_nat phoff) 0x11000 gs (Bootst m1 r1))
    as (m2 & r2 & E2 & Fl & Hx); try done; [lia|].
  replace (0x10000 + Z.of_nat (Z.to_nat phoff + 32 * Z.to_nat phnum)) with (0x10000 + phoff + phnum * 32) in E2 by lia.
  rewrite Z2Nat.id in E2 by done. rewrite (bind_Ret _ _ _ _ _ E2).
  assert (Sc2 : scratch r2). { intros j Hj. rewrite Hx by lia. by apply Sc. }
  rewrite (bind_Ret _ _ _ _ _ (word_scratch (Bootst m2 r2) 24 entry Sc2 ltac:(lia) Hent)).
  by eexists.
Qed.
End Load.

(** ** An example: an image of ten sectors with two segments *)

Definition kernel_demo : list Z :=
  put32 52 1 (put32 56 4096 (put32 64 0x20000 (put32 68 600 (put32 72 700
  (put32 84 1 (put32 88 4700 (put32 96 0x30000 (put32 100 100 (put32 104 100
  (put32 0 ELF_MAGIC (put32 24 0x2000c (put32 28 52 (put16 44 2
    (map (fun i => Z.of_nat i mod 251) (seq 0 (Z.to_nat 5120)))))))))))))))).

Definition boot_machine : mach pc :=
  Mach (Pc (Chip 0 0 Operate, Chip 0 0 Operate) (IoRegs 0 ∅)
    (Ata (list_to_map (map (fun i => ((0, 1 + Z.of_nat i), sect kernel_demo i)) (seq 0 10))) false ∅ AIdle false)
    3 (Serial [] [] 0 false) (Lapic ∅ [] 0)) 0 false 0 false 0 0 [] 0 (0, 0).

Definition segs_demo : list kseg := [KSeg 0x20000 4096 600 700; KSeg 0x30000 4700 100 100].

Lemma demo_bootable : bootable kernel_demo 10 boot_machine.
Proof.
  split; [by vm_compute|done| |done].
  intros i Hi. do 10 (destruct i as [|i]; [by vm_compute|]). lia.
Qed.

Lemma demo_segs_ok : Forall (kseg_ok kernel_demo) segs_demo.
Proof. repeat constructor; vm_compute; done. Qed.

Lemma demo_fields :
  get32 kernel_demo 0 = Some ELF_MAGIC /\ get32 kernel_demo 24 = Some 0x2000c /\
  get32 kernel_demo 28 = Some 52 /\ get16 kernel_demo 44 = Some 2 /\
  ksegs kernel_demo (Z.to_nat 2) (Z.to_nat 52) = Some segs_demo.
Proof. by vm_compute. Qed.

Lemma demo_ordered : ordered 0x11000 segs_demo.
Proof. by vm_compute. Qed.

Lemma demo_kernel_image : kernel_image kernel_demo 0x2000c segs_demo.
Proof.
  destruct demo_fields as (_ & F2 & F3 & F4 & F5).
  split; [done| |apply demo_segs_ok|apply demo_ordered]. exists 52, 2. repeat split; try done; lia.
Qed.

Lemma bootmain_loads_witness :
  exists s', bootmain 8 (Bootst boot_machine (fun _ => 0)) = Ret (Some 0x2000c) s' /\
    ram s' (0x20000 + 650) = 0.
Proof.
  destruct (bootmain_loads 8 pc_busy kernel_demo 10 (Bootst boot_machine (fun _ => 0)) ELF_MAGIC
    demo_bootable ltac:(lia) (proj1 demo_fields)) as [_ L].
  destruct (L eq_refl 0x2000c segs_demo demo_kernel_image) as (s' & E & Ls).
  exists s'. split; [exact E|]. apply Forall_cons in Ls as [[_ L2] _].
  apply (L2 650). cbn. lia.
Defined.
