(* ===== verification/Syscall.v ===== *)
(** * System calls: arguments and dispatch (syscall.c, syscall.h)

    The arguments of a system call are on the user's stack; the kernel reads
    them from the memory of the process after checking addresses against
    proc->sz.  [user] is what it uses of the process; its memory are the bytes
    from address 0 on.  The results are [None] for a read outside of that
    memory, which is a page fault in the kernel, and [Some None] for -1. *)
From S2P Require Import Prelude Bytes.

Record user := User { u_sz : Z; u_esp : Z; u_mem : list Z }.

Definition fetchint (u : user) (addr : Z) : option (option Z) :=
  if (u_sz u <=? addr) || (u_sz u <? u32 (addr + 4)) then Some None else
  v ← get32 (u_mem u) (Z.to_nat addr);
  Some (Some (s32 v)).

(** The string in at most [n] bytes of [l]. *)
Fixpoint fetchstr_loop (n : nat) (l : list Z) : option (option (list Z)) :=
  match n with
  | O => Some None
  | S n' =>
      match l with
      | [] => None
      | c :: l' => if c =? 0 then Some (Some []) else r ← fetchstr_loop n' l'; Some (option_map (cons c) r)
      end
  end.

(** The bytes of the string, without the terminating 0. *)
Definition fetchstr (u : user) (addr : Z) : option (option (list Z)) :=
  if u_sz u <=? addr then Some None else
  fetchstr_loop (Z.to_nat (u_sz u - addr)) (drop (Z.to_nat addr) (u_mem u)).

Definition argint (u : user) (n : Z) : option (option Z) := fetchint u (u32 (u_esp u + 4 + 4 * n)).

(** The address. *)
Definition argptr (u : user) (n size : Z) : option (option Z) :=
  r ← argint u n;
  match r with
  | None => Some None
  | Some i =>
      if (u_sz u <=? u32 i) || (u_sz u <? u32 (u32 i + size)) then Some None else Some (Some (u32 i))
  end.

Definition argstr (u : user) (n : Z) : option (option (list Z)) :=
  r ← argint u n;
  match r with
  | None => Some None
  | Some addr => fetchstr u (u32 addr)
  end.

(** ** Dispatch *)

Inductive sysno :=
  SYS_fork | SYS_exit | SYS_wait | SYS_pipe | SYS_read | SYS_kill | SYS_exec | SYS_fstat | SYS_chdir | SYS_dup |
  SYS_getpid | SYS_sbrk | SYS_sleep | SYS_uptime | SYS_open | SYS_write | SYS_mknod | SYS_unlink | SYS_link |
  SYS_mkdir | SYS_close | SYS_kthread_create | SYS_kthread_id | SYS_kthread_exit | SYS_kthread_join |
  SYS_kthread_mutex_alloc | SYS_kthread_mutex_dealloc | SYS_kthread_mutex_lock | SYS_kthread_mutex_unlock |
  SYS_kthread_cond_alloc | SYS_kthread_cond_dealloc | SYS_kthread_cond_wait | SYS_kthread_cond_signal.

(** The table of functions; entry 0 is a null pointer. *)
Definition syscalls : list (option sysno) :=
  None :: (Some <$> [SYS_fork; SYS_exit; SYS_wait; SYS_pipe; SYS_read; SYS_kill; SYS_exec; SYS_fstat; SYS_chdir; SYS_dup;
    SYS_getpid; SYS_sbrk; SYS_sleep; SYS_uptime; SYS_open; SYS_write; SYS_mknod; SYS_unlink; SYS_link;
    SYS_mkdir; SYS_close; SYS_kthread_create; SYS_kthread_id; SYS_kthread_exit; SYS_kthread_join;
    SYS_kthread_mutex_alloc; SYS_kthread_mutex_dealloc; SYS_kthread_mutex_lock; SYS_kthread_mutex_unlock;
    SYS_kthread_cond_alloc; SYS_kthread_cond_dealloc; SYS_kthread_cond_wait; SYS_kthread_cond_signal]).

Definition NUM_open : Z := 15.
Definition NELEM_syscalls : Z := Z.of_nat (length syscalls).

Section Dispatch.
(** The functions behind the table, and the saved %eax of the process. *)
Context {S : Type} (call : sysno -> M S Z) (eax : S -> Z) (set_eax : Z -> S -> S).

Definition entry (num : Z) : option sysno := mjoin (rd syscalls num).

Definition syscall : M S unit :=
  num <~ gets (fun s => s32 (eax s));;;
  let known := if (0 <=? num) && (num <? NUM_open) then entry num
               else if (NUM_open <=? num) && (num <? NELEM_syscalls) then entry num else None in
  match known with
  | Some c => r <~ call c;;; modify (set_eax (u32 r))
  | None => modify (set_eax (u32 (-1)))
  end.
End Dispatch.

(** ** Arguments *)

(** The memory of the process is there up to proc->sz, which is below the
    kernel. *)
Record user_ok (u : user) : Prop := {
  uo_sz : 0 <= u_sz u <= 2 ^ 31;
  uo_mem : u_sz u <= Z.of_nat (length (u_mem u))
}.

Lemma get32_some d off : (off + 4 <= length d)%nat -> is_Some (get32 d off).
Proof.
  intros Hl. unfold get32. destruct (drop off d) as [|? [|? [|? [|? ?]]]] eqn:E; try by eexists.
  all: exfalso; apply (f_equal length) in E; rewrite length_drop in E; simpl in E; lia.
Qed.

Lemma fetchint_cases u addr :
  user_ok u -> 0 <= addr < 2 ^ 32 ->
  if decide (addr + 4 <= u_sz u) then exists v, get32 (u_mem u) (Z.to_nat addr) = Some v /\ fetchint u addr = Some (Some (s32 v))
  else fetchint u addr = Some None.
Proof.
  intros [Hsz Hm] Ha. unfold fetchint. case_decide as Hd.
  - destruct (get32_some (u_mem u) (Z.to_nat addr)) as [v Hv]; [lia|]. exists v. split; [done|].
    rewrite (proj2 (Z.leb_gt _ _)) by lia. unfold u32. rewrite Z.mod_small by lia.
    rewrite (proj2 (Z.ltb_ge _ _)) by lia. simpl. by rewrite Hv.
  - destruct (Z.leb_spec (u_sz u) addr); [done|]. unfold u32. rewrite Z.mod_small by lia.
    by rewrite (proj2 (Z.ltb_lt _ _)) by lia.
Qed.

Lemma fetchstr_loop_some n l :
  (n <= length l)%nat -> exists r, fetchstr_loop n l = Some r /\
    match r with
    | Some w => (length w < n)%nat /\ take (S (length w)) l = w ++ [0] /\ Forall (fun c => c <> 0) w
    | None => Forall (fun c => c <> 0) (take n l)
    end.
Proof.
  revert l. induction n as [|n IH]; intros l Hl; [by exists None; rewrite take_0|]. destruct l as [|c l]; [simpl in Hl; lia|].
  simpl in *. destruct (Z.eqb_spec c 0) as [->|Hc].
  - exists (Some []). split; [done|]. rewrite take_0. split_and!; [simpl; lia|done|done].
  - destruct (IH l ltac:(lia)) as (r & -> & Hr). simpl. eexists. split; [done|]. destruct r as [w|]; simpl.
    + destruct Hr as (H1 & H2 & H3). split_and!; [lia| |by constructor]. by rewrite H2.
    + by constructor.
Qed.

(** C15: whatever the user's registers and arguments are, fetching them never faults
    in the kernel. *)
Theorem arguments_never_fault u n size addr :
  user_ok u -> 0 <= addr < 2 ^ 32 ->
  is_Some (fetchint u addr) /\ is_Some (fetchstr u addr) /\ is_Some (argint u n) /\
  is_Some (argptr u n size) /\ is_Some (argstr u n).
Proof.
  intros Hu Ha. assert (Hi : forall a, 0 <= a < 2 ^ 32 -> is_Some (fetchint u a)).
  { intros a Hr. pose proof (fetchint_cases u a Hu Hr) as Hc. case_decide; [destruct Hc as (v & _ & ->)|rewrite Hc]; by eexists. }
  assert (Hs : forall a, 0 <= a < 2 ^ 32 -> is_Some (fetchstr u a)).
  { intros a Hr. unfold fetchstr. destruct (Z.leb_spec (u_sz u) a); [by eexists|]. destruct Hu as [Hsz Hm].
    destruct (fetchstr_loop_some (Z.to_nat (u_sz u - a)) (drop (Z.to_nat a) (u_mem u))) as (r & -> & _); [|by eexists].
    rewrite length_drop. lia. }
  assert (Hn : is_Some (argint u n)) by apply Hi, u32_range.
  split_and!; [by apply Hi|by apply Hs|done| |].
  - unfold argptr. destruct Hn as [[i|] ->]; simpl; [|by eexists]. destruct (_ || _); by eexists.
  - unfold argstr. destruct Hn as [[i|] ->]; simpl; [|by eexists]. apply Hs, u32_range.
Qed.

(** The string of [argstr] is the bytes at the address in the argument, up to
    the first 0, all of them below proc->sz; -1 means that the argument or the
    address is out of range or that no 0 comes before proc->sz. *)
Theorem argstr_spec u n :
  user_ok u ->
  match argstr u n with
  | Some (Some w) => exists i, argint u n = Some (Some i) /\ u32 i + Z.of_nat (length w) < u_sz u /\
      take (S (length w)) (drop (Z.to_nat (u32 i)) (u_mem u)) = w ++ [0] /\ Forall (fun c => c <> 0) w
  | Some None => argint u n = Some None \/ exists i, argint u n = Some (Some i) /\
      (u_sz u <= u32 i \/ Forall (fun c => c <> 0) (take (Z.to_nat (u_sz u - u32 i)) (drop (Z.to_nat (u32 i)) (u_mem u))))
  | None => False
  end.
Proof.
  intros Hu. unfold argstr. pose proof (u32_range (u_esp u + 4 + 4 * n)) as Hr.
  pose proof (fetchint_cases u _ Hu Hr) as Hc. fold (argint u n) in Hc. case_decide.
  2: { rewrite Hc. simpl. by left. }
  destruct Hc as (v & _ & ->). simpl. set (i := s32 v). pose proof (u32_range i). unfold fetchstr.
  destruct (Z.leb_spec (u_sz u) (u32 i)); [right; exists i; split; [done|by left]|]. destruct Hu as [Hsz Hm].
  destruct (fetchstr_loop_some (Z.to_nat (u_sz u - u32 i)) (drop (Z.to_nat (u32 i)) (u_mem u))) as (r & -> & Hw); [rewrite length_drop; lia|].
  destruct r as [w|]; [|right; exists i; split; [done|by right]]. destruct Hw as (Hw1 & Hw2 & Hw3). exists i. split_and!; [done|lia|done|done].
Qed.

(** For a size that is not negative [argptr] accepts a pointer exactly when all
    of its bytes are in the memory of the process, and at least its address. *)
Theorem argptr_range u n size i :
  user_ok u -> 0 <= size < 2 ^ 31 -> argint u n = Some (Some i) ->
  argptr u n size = Some (if decide (u32 i < u_sz u /\ u32 i + size <= u_sz u) then Some (u32 i) else None).
Proof.
  intros [Hsz Hm] Hs Hi. unfold argptr. rewrite Hi. simpl. pose proof (u32_range i) as Hr.
  destruct (Z.leb_spec (u_sz u) (u32 i)); [by rewrite decide_False by lia|].
  unfold u32 at 1. rewrite Z.mod_small by lia. cbn [orb].
  destruct (Z.ltb_spec (u_sz u) (u32 i + size)); [by rewrite decide_False by lia|by rewrite decide_True by lia].
Qed.

(** With a negative size only the address is checked: the pointer is accepted
    although the size, taken as the unsigned number that the file system uses,
    goes beyond the memory of the process. *)
Theorem argptr_negative u n size i :
  user_ok u -> - u32 i <= size < 0 -> argint u n = Some (Some i) -> u32 i < u_sz u ->
  argptr u n size = Some (Some (u32 i)) /\ u_sz u < u32 i + u32 size.
Proof.
  intros [Hsz Hm] Hs Hi Hlt. pose proof (u32_range i) as Hr. split.
  - unfold argptr. rewrite Hi. simpl. rewrite (proj2 (Z.leb_gt _ _)) by lia. unfold u32 at 1. rewrite Z.mod_small by lia.
    by rewrite (proj2 (Z.ltb_ge _ _)) by lia.
  - unfold u32 at 2. rewrite <- (Z.mod_add size 1) by lia. rewrite Z.mod_small by lia. lia.
Qed.

(** The dispatcher calls a function exactly for the numbers 1 to 33 and puts
    its result into %eax; for every other number, negative ones included, it
    sets %eax to -1 and does nothing else. *)
Theorem syscall_dispatch {S} (call : sysno -> M S Z) eax set_eax (s : S) :
  let num := s32 (eax s) in
  (1 <= num <= 33 -> exists c, entry num = Some c /\ syscall call eax set_eax s = (r <~ call c;;; modify (set_eax (u32 r))) s) /\
  (~ 1 <= num <= 33 -> syscall call eax set_eax s = Ret tt (set_eax (u32 (-1)) s)).
Proof.
  intros num. unfold syscall. rewrite bind_gets. fold num. change NUM_open with 15. change NELEM_syscalls with 34.
  assert (Hin : forall k, 1 <= k <= 33 -> exists c, entry k = Some c).
  { intros k Hk. unfold entry. destruct (rd_in_range syscalls k) as [r Hr]; [change (length syscalls) with 34%nat; lia|]. rewrite Hr.
    destruct r as [c|]; [by exists c|]. unfold rd in Hr. rewrite decide_True in Hr by lia. destruct (Z.to_nat k) as [|m] eqn:Em; [lia|].
    unfold syscalls in Hr. rewrite lookup_cons_ne_0 in Hr by done. by apply list_lookup_fmap_Some in Hr as (y & ? & _). }
  split.
  - intros Hn. destruct (Hin num Hn) as [c Hc]. exists c. split; [done|].
    destruct (Z.leb_spec 0 num); [|lia]. destruct (Z.ltb_spec num 15); cbn [andb]; [by rewrite Hc|].
    rewrite (proj2 (Z.leb_le 15 num)), (proj2 (Z.ltb_lt num 34)) by lia. cbn [andb]. by rewrite Hc.
  - intros Hn. destruct (Z.leb_spec 0 num); cbn [andb].
    + destruct (Z.ltb_spec num 15); cbn [andb]; [assert (num = 0) as -> by lia; done|].
      rewrite (proj2 (Z.ltb_ge num 34)) by lia. by rewrite andb_false_r.
    + by rewrite (proj2 (Z.leb_gt 15 num)) by lia.
Qed.

(** ** Examples *)

(** Sixteen bytes: the stack is at 0, with a pointer to the string "/a" at 8 as
    the first and -1 as the second argument. *)
Definition u_demo : user := User 16 0 (replicate 4 0 ++ le4 12 ++ le4 (-1) ++ [47; 97; 0; 7]).

Lemma u_demo_ok : user_ok u_demo.
Proof. split; vm_compute; [split; congruence|congruence]. Qed.

Lemma arguments_never_fault_witness : is_Some (argstr (User 16 (2 ^ 32 - 3) (u_mem u_demo)) 0).
Proof.
  apply (arguments_never_fault (User 16 (2 ^ 32 - 3) (u_mem u_demo)) 0 0 0); [|lia].
  split; vm_compute; [split; congruence|congruence].
Defined.

Lemma argstr_spec_witness : argstr u_demo 0 = Some (Some [47; 97]) /\ u32 12 + 2 < 16.
Proof.
  pose proof (argstr_spec u_demo 0 u_demo_ok) as Hs. change (argstr u_demo 0) with (Some (Some [47; 97])) in Hs |- *.
  destruct Hs as (i & Hi & Hlt & _). split; [reflexivity|]. injection Hi as <-. exact Hlt.
Defined.

Lemma argptr_range_witness : argptr u_demo 0 4 = Some (Some 12) /\ argptr u_demo 0 5 = Some None.
Proof.
  split.
  - rewrite (argptr_range u_demo 0 4 12 u_demo_ok ltac:(lia) eq_refl). reflexivity.
  - rewrite (argptr_range u_demo 0 5 12 u_demo_ok ltac:(lia) eq_refl). reflexivity.
Defined.

Lemma argptr_negative_witness : argptr u_demo 0 (-1) = Some (Some 12) /\ 16 < 12 + u32 (-1).
Proof.
  apply (argptr_negative u_demo 0 (-1) 12 u_demo_ok); [vm_compute; split; congruence|reflexivity|vm_compute; reflexivity].
Defined.

Lemma syscall_dispatch_witness :
  syscall (fun c => match c with SYS_uptime => ret 42 | _ => panic "unused" end) id (fun v _ => v) 14 = Ret tt 42 /\
  syscall (fun c => panic "unused") id (fun v _ => v) 34 = Ret tt (u32 (-1)).
Proof.
  split.
  - destruct (syscall_dispatch (fun c => match c with SYS_uptime => ret 42 | _ => panic "unused" end) id (fun v _ => v) 14) as [Hin _].
    destruct Hin as (c & Hc & ->); [vm_compute; split; congruence|]. injection Hc as <-. reflexivity.
  - apply (syscall_dispatch (fun c => panic "unused") id (fun v _ => v) 34). vm_compute. intros [_ Hx]. apply Hx. reflexivity.
Defined.
