(* ===== verification/Sysfile.v ===== *)
(** * File system calls (sysfile.c)

    Each system call is a function of the kernel's files and of the calling
    process: its descriptors, its current directory, its memory and its flag
    killed.  A store to the memory of the process outside of it is a fault. *)
From S2P Require Import Prelude Mmu Spinlock Strings Bytes BlockCache Log Store LogStore Fs Pipe File Syscall.

Definition NOFILE : Z := 16.

(** proc->ofile holds indices of the file table. *)
Record sys (B : Type) := Sys {
  kern : fstate B;
  ofile : list (option nat);
  cwd : nat;
  usr : user;
  killed : bool
}.
Arguments Sys {B}.
Arguments kern {B}.
Arguments ofile {B}.
Arguments cwd {B}.
Arguments usr {B}.
Arguments killed {B}.

Section Calls.
Context {B H : Type} `{BlockCache B H}.
Abbreviation P := (M (sys B)).

Definition set_kern (v : fstate B) (s : sys B) : sys B := Sys v (ofile s) (cwd s) (usr s) (killed s).
Definition set_ofile (v : list (option nat)) (s : sys B) : sys B := Sys (kern s) v (cwd s) (usr s) (killed s).
Definition set_cwd (v : nat) (s : sys B) : sys B := Sys (kern s) (ofile s) v (usr s) (killed s).
Definition set_usr (v : user) (s : sys B) : sys B := Sys (kern s) (ofile s) (cwd s) v (killed s).

Definition onk {A} (m : M (fstate B) A) : P A := zoom kern set_kern m.
Definition onf {A} (m : M (fs (lst B)) A) : P A := onk (onfs m).

(** Arguments; [None] for -1. *)
Definition arg_int (n : Z) : P (option Z) := gets_opt (fun s => argint (usr s) n).
Definition arg_ptr (n size : Z) : P (option Z) := gets_opt (fun s => argptr (usr s) n size).
Definition arg_str (n : Z) : P (option (list Z)) := gets_opt (fun s => argstr (usr s) n).

(** The bytes [addr .. addr + n) of the process, and a store of bytes there. *)
Definition get_user (addr n : Z) : P (list Z) :=
  gets_opt (fun s => if decide (0 <= addr /\ addr + Z.max 0 n <= Z.of_nat (length (u_mem (usr s))))
                     then Some (take (Z.to_nat n) (drop (Z.to_nat addr) (u_mem (usr s)))) else None).
Definition put_user (addr : Z) (w : list Z) : P unit :=
  modify_opt (fun s => let u := usr s in
    if decide (0 <= addr /\ addr + Z.of_nat (length w) <= Z.of_nat (length (u_mem u)))
    then Some (set_usr (User (u_sz u) (u_esp u) (splice (Z.to_nat addr) w (u_mem u))) s) else None).

(** The descriptor and its file. *)
Definition argfd (n : Z) : P (option (Z * nat)) :=
  r <~ arg_int n;;;
  match r with
  | None => ret None
  | Some fd =>
      if (fd <? 0) || (NOFILE <=? fd) then ret None else
      f <~ gets_opt (fun s => rd (ofile s) fd);;;
      ret (match f with Some f => Some (fd, f) | None => None end)
  end.

(** The first free descriptor; [None] for -1. *)
Definition fdalloc (f : nat) : P (option nat) :=
  t <~ gets ofile;;;
  match find_first (fun o => negb (bool_decide (is_Some o))) t with
  | Some fd => modify (set_ofile (<[fd := Some f]> t));;; ret (Some fd)
  | None => ret None
  end.

Definition sys_dup : P Z :=
  r <~ argfd 0;;;
  match r with
  | None => ret (-1)
  | Some (_, f) =>
      fd <~ fdalloc f;;;
      match fd with
      | None => ret (-1)
      | Some fd => onk (filedup f);;; ret (Z.of_nat fd)
      end
  end.

(** The device switch. *)
Variable devs : Z -> @devsw (lst B).

Definition sys_read : P Z :=
  r <~ argfd 0;;;
  match r with
  | None => ret (-1)
  | Some (_, f) =>
      n <~ arg_int 2;;;
      match n with
      | None => ret (-1)
      | Some n =>
          p <~ arg_ptr 1 n;;;
          match p with
          | None => ret (-1)
          | Some p =>
              kd <~ gets killed;;;
              l <~ onk (fileread devs kd f n);;;
              match l with
              | None => ret (-1)
              | Some l => put_user p l;;; ret (Z.of_nat (length l))
              end
          end
      end
  end.

Definition sys_write : P Z :=
  r <~ argfd 0;;;
  match r with
  | None => ret (-1)
  | Some (_, f) =>
      n <~ arg_int 2;;;
      match n with
      | None => ret (-1)
      | Some n =>
          p <~ arg_ptr 1 n;;;
          match p with
          | None => ret (-1)
          | Some p =>
              kd <~ gets killed;;;
              src <~ get_user p n;;;
              onk (filewrite devs kd f src n)
          end
      end
  end.

Definition sys_close : P Z :=
  r <~ argfd 0;;;
  match r with
  | None => ret (-1)
  | Some (fd, f) =>
      modify (fun s => set_ofile (<[Z.to_nat fd := None]> (ofile s)) s);;;
      onk (fileclose f);;;
      ret 0
  end.

(** struct stat as bytes, with the padding after the short fields. *)
Definition STAT : Z := 20.
Definition put_stat (p : Z) (st : stat) : P unit :=
  put_user p (le2 (st_type st));;;
  put_user (p + 4) (le4 (st_dev st));;;
  put_user (p + 8) (le4 (st_ino st));;;
  put_user (p + 12) (le2 (st_nlink st));;;
  put_user (p + 16) (le4 (st_size st)).

Definition sys_fstat : P Z :=
  r <~ argfd 0;;;
  match r with
  | None => ret (-1)
  | Some (_, f) =>
      p <~ arg_ptr 1 STAT;;;
      match p with
      | None => ret (-1)
      | Some p =>
          st <~ onk (filestat f);;;
          match st with
          | None => ret (-1)
          | Some st => put_stat p st;;; ret 0
          end
      end
  end.

(** ** Directories *)

Definition upd_nlink (ip : nat) (dn : Z) : P unit :=
  onf (upd_dinode ip (fun d => set_d_nlink (s16 (d_nlink d + dn)) d)).

(** The label bad of [sys_link]. *)
Definition link_bad (ip : nat) : P Z :=
  onf (ilock ip);;;
  upd_nlink ip (-1);;;
  onf (iupdate ip);;;
  onf (iunlockput ip);;;
  onk end_op;;;
  ret (-1).

Definition sys_link : P Z :=
  old <~ arg_str 0;;;
  match old with
  | None => ret (-1)
  | Some old =>
  new <~ arg_str 1;;;
  match new with
  | None => ret (-1)
  | Some new =>
  c <~ gets cwd;;;
  ip <~ onf (namei devs c old);;;
  match ip with
  | None => ret (-1)
  | Some ip =>
  onk begin_op;;;
  onf (ilock ip);;;
  i <~ onf (get_inode ip);;;
  if i_type i =? T_DIR then
    onf (iunlockput ip);;; onk end_op;;; ret (-1)
  else
  upd_nlink ip 1;;;
  onf (iupdate ip);;;
  onf (iunlock ip);;;
  dp <~ onf (nameiparent devs c new);;;
  match dp with
  | None => link_bad ip
  | Some (dp, name) =>
      onf (ilock dp);;;
      d <~ onf (get_inode dp);;;
      i <~ onf (get_inode ip);;;
      r <~ (if negb (i_dev d =? i_dev i) then ret (-1) else onf (dirlink devs dp name (i_inum i)));;;
      if r <? 0 then
        onf (iunlockput dp);;; link_bad ip
      else
        onf (iunlockput dp);;;
        onf (iput ip);;;
        onk end_op;;;
        ret 0
  end
  end
  end
  end.

Fixpoint isdirempty_loop (fuel : nat) (dp : nat) (off : Z) : M (fs (lst B)) bool :=
  match fuel with
  | O => hang
  | Datatypes.S fuel' =>
      i <~ get_inode dp;;;
      if negb (off <? i_size i) then ret true else
      r <~ readi devs dp off DIRENT;;;
      match r with
      | Some l =>
          if negb (length l =? 16)%nat then panic "isdirempty: readi" else
          inum <~ gets_opt (fun _ => get16 l 0);;;
          if negb (inum =? 0) then ret false else isdirempty_loop fuel' dp (off + DIRENT)
      | None => panic "isdirempty: readi"
      end
  end.

Definition isdirempty (dp : nat) : M (fs (lst B)) bool :=
  i <~ get_inode dp;;;
  isdirempty_loop (Datatypes.S (Z.to_nat (i_size i / DIRENT + 1))) dp (2 * DIRENT).

(** The label bad of [sys_unlink]. *)
Definition unlink_bad (dp : nat) : P Z :=
  onf (iunlockput dp);;;
  onk end_op;;;
  ret (-1).

(** "." and ".." *)
Definition DOT : list Z := [46].
Definition DOTDOT : list Z := [46; 46].

Definition sys_unlink : P Z :=
  path <~ arg_str 0;;;
  match path with
  | None => ret (-1)
  | Some path =>
  c <~ gets cwd;;;
  dp <~ onf (nameiparent devs c path);;;
  match dp with
  | None => ret (-1)
  | Some (dp, name) =>
  onk begin_op;;;
  onf (ilock dp);;;
  c1 <~ gets_opt (fun _ => namecmp (cstr name) (cstr DOT));;;
  c2 <~ gets_opt (fun _ => namecmp (cstr name) (cstr DOTDOT));;;
  if (c1 =? 0) || (c2 =? 0) then unlink_bad dp else
  r <~ onf (dirlookup devs dp name);;;
  match r with
  | None => unlink_bad dp
  | Some (ip, off) =>
  onf (ilock ip);;;
  i <~ onf (get_inode ip);;;
  if i_nlink i <? 1 then panic "unlink: nlink < 1" else
  e <~ (if i_type i =? T_DIR then onf (isdirempty ip) else ret true);;;
  if negb e then onf (iunlockput ip);;; unlink_bad dp else
  n <~ onf (writei devs dp (replicate 16 0) off);;;
  if negb (n =? DIRENT) then panic "unlink: writei" else
  when (i_type i =? T_DIR) (upd_nlink dp (-1);;; onf (iupdate dp));;;
  onf (iunlockput dp);;;
  upd_nlink ip (-1);;;
  onf (iupdate ip);;;
  onf (iunlockput ip);;;
  onk end_op;;;
  ret 0
  end
  end
  end.

(** The inode is returned locked. *)
Definition create (c : nat) (path : list Z) (type major minor : Z) : P (option nat) :=
  dp <~ onf (nameiparent devs c path);;;
  match dp with
  | None => ret None
  | Some (dp, name) =>
  onf (ilock dp);;;
  r <~ onf (dirlookup devs dp name);;;
  match r with
  | Some (ip, _) =>
      onf (iunlockput dp);;;
      onf (ilock ip);;;
      i <~ onf (get_inode ip);;;
      if (type =? T_FILE) && (i_type i =? T_FILE) then ret (Some ip) else
      onf (iunlockput ip);;;
      ret None
  | None =>
      d <~ onf (get_inode dp);;;
      ip <~ onf (ialloc (i_dev d) type);;;
      onf (ilock ip);;;
      onf (upd_dinode ip (fun x => Dinode (d_type x) (s16 major) (s16 minor) 1 (d_size x) (d_addrs x)));;;
      onf (iupdate ip);;;
      when (type =? T_DIR)
        (upd_nlink dp 1;;;
         onf (iupdate dp);;;
         i <~ onf (get_inode ip);;;
         d <~ onf (get_inode dp);;;
         r1 <~ onf (dirlink devs ip DOT (i_inum i));;;
         r2 <~ (if r1 <? 0 then ret (-1) else onf (dirlink devs ip DOTDOT (i_inum d)));;;
         if r2 <? 0 then panic "create dots" else ret tt);;;
      i <~ onf (get_inode ip);;;
      r3 <~ onf (dirlink devs dp name (i_inum i));;;
      if r3 <? 0 then panic "create: dirlink" else
      onf (iunlockput dp);;;
      ret (Some ip)
  end
  end.

(** ** Opening *)

(** The inode that is opened, locked; [None] for the result -1. *)
Definition open_inode (c : nat) (path : list Z) (omode : Z) : P (option nat) :=
  if negb (Z.land omode O_CREATE =? 0) then
    onk begin_op;;;
    ip <~ create c path T_FILE 0 0;;;
    onk end_op;;;
    ret ip
  else
    ip <~ onf (namei devs c path);;;
    match ip with
    | None => ret None
    | Some ip =>
        onf (ilock ip);;;
        i <~ onf (get_inode ip);;;
        if (i_type i =? T_DIR) && negb (omode =? O_RDONLY) then
          onf (iunlockput ip);;; ret None
        else ret (Some ip)
    end.

Definition sys_open : P Z :=
  path <~ arg_str 0;;;
  match path with
  | None => ret (-1)
  | Some path =>
  omode <~ arg_int 1;;;
  match omode with
  | None => ret (-1)
  | Some omode =>
  c <~ gets cwd;;;
  ip <~ open_inode c path omode;;;
  match ip with
  | None => ret (-1)
  | Some ip =>
      f <~ onk filealloc;;;
      fd <~ (match f with Some f => fdalloc f | None => ret None end);;;
      match f, fd with
      | Some f, Some fd =>
          onf (iunlock ip);;;
          onk (upd_file f (fun x => File FD_INODE (f_ref x) (Z.land omode O_WRONLY =? 0)
            (negb (Z.land omode O_WRONLY =? 0) || negb (Z.land omode O_RDWR =? 0)) (f_pipe x) ip 0));;;
          ret (Z.of_nat fd)
      | _, _ =>
          onk (close_opt f);;;
          onf (iunlockput ip);;;
          ret (-1)
      end
  end
  end
  end.

Definition sys_mkdir : P Z :=
  onk begin_op;;;
  path <~ arg_str 0;;;
  c <~ gets cwd;;;
  ip <~ (match path with Some path => create c path T_DIR 0 0 | None => ret None end);;;
  match ip with
  | None => onk end_op;;; ret (-1)
  | Some ip =>
      onf (iunlockput ip);;;
      onk end_op;;;
      ret 0
  end.

Definition sys_mknod : P Z :=
  onk begin_op;;;
  path <~ arg_str 0;;;
  c <~ gets cwd;;;
  ip <~ (match path with
         | None => ret None
         | Some path =>
             major <~ arg_int 1;;;
             match major with
             | None => ret None
             | Some major =>
                 minor <~ arg_int 2;;;
                 match minor with
                 | None => ret None
                 | Some minor => create c path T_DEV major minor
                 end
             end
         end);;;
  match ip with
  | None => onk end_op;;; ret (-1)
  | Some ip =>
      onf (iunlockput ip);;;
      onk end_op;;;
      ret 0
  end.

Definition sys_chdir : P Z :=
  path <~ arg_str 0;;;
  match path with
  | None => ret (-1)
  | Some path =>
  c <~ gets cwd;;;
  ip <~ onf (namei devs c path);;;
  match ip with
  | None => ret (-1)
  | Some ip =>
      onf (ilock ip);;;
      i <~ onf (get_inode ip);;;
      if negb (i_type i =? T_DIR) then
        onf (iunlockput ip);;; ret (-1)
      else
      onf (iunlock ip);;;
      onf (iput c);;;
      modify (set_cwd ip);;;
      ret 0
  end
  end.

(** [junk] is what the page of the pipe held. *)
Definition sys_pipe (junk : list Z) : P Z :=
  p <~ arg_ptr 0 8;;;
  match p with
  | None => ret (-1)
  | Some p =>
  r <~ onk (pipealloc junk);;;
  match r with
  | None => ret (-1)
  | Some (rf, wf) =>
  fd0 <~ fdalloc rf;;;
  fd1 <~ (match fd0 with Some _ => fdalloc wf | None => ret None end);;;
  match fd0, fd1 with
  | Some fd0, Some fd1 =>
      put_user p (le4 (Z.of_nat fd0));;;
      put_user (p + 4) (le4 (Z.of_nat fd1));;;
      ret 0
  | _, _ =>
      (match fd0 with
       | Some fd0 => modify (fun s => set_ofile (<[fd0 := None]> (ofile s)) s)
       | None => ret tt
       end);;;
      onk (fileclose rf);;;
      onk (fileclose wf);;;
      ret (-1)
  end
  end
  end.

(** The loop of [sys_exec]: the argument strings, [None] for -1.  [exec] itself
    is an argument of [sys_exec]. *)
Fixpoint exec_args (n : nat) (uargv : Z) (i : Z) : P (option (list (list Z))) :=
  match n with
  | O => ret None
  | Datatypes.S n' =>
      uarg <~ gets_opt (fun s => fetchint (usr s) (u32 (uargv + 4 * i)));;;
      match uarg with
      | None => ret None
      | Some uarg =>
          if u32 uarg =? 0 then ret (Some []) else
          a <~ gets_opt (fun s => fetchstr (usr s) (u32 uarg));;;
          match a with
          | None => ret None
          | Some a =>
              l <~ exec_args n' uargv (i + 1);;;
              ret (match l with Some l => Some (a :: l) | None => None end)
          end
      end
  end.

Definition sys_exec (exec : list Z -> list (list Z) -> P Z) : P Z :=
  path <~ arg_str 0;;;
  match path with
  | None => ret (-1)
  | Some path =>
  uargv <~ arg_int 1;;;
  match uargv with
  | None => ret (-1)
  | Some uargv =>
      argv <~ exec_args (Z.to_nat MAXARG) (u32 uargv) 0;;;
      match argv with
      | None => ret (-1)
      | Some argv => exec path argv
      end
  end
  end.
End Calls.
