(* ===== verification/SysfileSpec.v ===== *)
(** * Descriptors and reference counts (sysfile.c, file.c)

    Every system call of sysfile.c keeps the reference counts of open files at
    least as large as the number of descriptors that refer to them, so that no
    descriptor ever refers to an entry of the file table that is free.  A call
    in progress may own further references; they are part of the invariant. *)
From S2P Require Import Prelude Mmu Spinlock Strings Bytes BlockCache Bio Log LogTxn Store LogStore Fs Pipe File FileSpec Syscall Sysfile.

(** ** Ownership of references *)

Section Own.
Context {B H : Type} `{BlockCache B H}.
Implicit Types (s : sys B) (E : list nat).

(** How many of [l] refer to the file [f]. *)
Definition cnt (f : nat) (l : list (option nat)) : Z := Z.of_nat (length (filter (fun o => o = Some f) l)).

(** The descriptors and the references [E] that the kernel code holds are
    covered by the reference counts. *)
Definition own E s : Prop :=
  forall f, 0 < cnt f (ofile s ++ (Some <$> E)) ->
    exists x, ftable (kern s) !! f = Some x /\ cnt f (ofile s ++ (Some <$> E)) <= f_ref x.

(** [m] started with [E] ends with the references [Q] of its result; when it
    sleeps, the descriptors are covered. *)
Definition owns {A} E (m : M (sys B) A) (Q : A -> list nat) : Prop :=
  forall s, own E s ->
    match m s with
    | Ret a s' => own (Q a) s'
    | Sched s' => own [] s'
    | _ => True
    end.

Lemma cnt_app f l1 l2 : cnt f (l1 ++ l2) = cnt f l1 + cnt f l2.
Proof. unfold cnt. rewrite filter_app, length_app. lia. Qed.

Lemma cnt_cons f o l : cnt f (o :: l) = (if decide (o = Some f) then 1 else 0) + cnt f l.
Proof. unfold cnt. rewrite filter_cons. case_decide; simpl; lia. Qed.

Lemma cnt_nonneg f l : 0 <= cnt f l.
Proof. unfold cnt. lia. Qed.

Lemma cnt_insert f l i o o' : l !! i = Some o ->
  cnt f (<[i := o']> l) = cnt f l - (if decide (o = Some f) then 1 else 0) + (if decide (o' = Some f) then 1 else 0).
Proof.
  revert i. induction l as [|x l IH]; intros [|i] Hi; try done; simpl in *.
  - injection Hi as ->. rewrite !cnt_cons. lia.
  - rewrite !cnt_cons, (IH i Hi). lia.
Qed.

Lemma cnt_in f l i : l !! i = Some (Some f) -> 0 < cnt f l.
Proof.
  intros Hi. rewrite <- (take_drop_middle _ _ _ Hi), cnt_app, cnt_cons, decide_True by done.
  pose proof (cnt_nonneg f (take i l)). pose proof (cnt_nonneg f (drop (S i) l)). lia.
Qed.

(** Fewer references, larger counts. *)
Lemma own_weaken E E' s s' :
  own E s -> (forall f, cnt f (ofile s' ++ (Some <$> E')) <= cnt f (ofile s ++ (Some <$> E))) ->
  (forall f x, ftable (kern s) !! f = Some x -> exists x', ftable (kern s') !! f = Some x' /\ f_ref x <= f_ref x') -> own E' s'.
Proof.
  intros Ho Hc Ht f Hf. destruct (Ho f) as (x & Hx & Hr); [specialize (Hc f); lia|].
  destruct (Ht f x Hx) as (x' & Hx' & Hr'). exists x'. split; [done|]. specialize (Hc f). lia.
Qed.

Lemma refs_same (t : list file) : forall f x, t !! f = Some x -> exists x', t !! f = Some x' /\ f_ref x <= f_ref x'.
Proof. intros f x Hx. exists x. split; [done|lia]. Qed.

Lemma own_drop E s : own E s -> own [] s.
Proof.
  intros Ho. apply (own_weaken E _ s); [done| |apply refs_same]. intros f. rewrite !cnt_app. pose proof (cnt_nonneg f (Some <$> E)).
  simpl. unfold cnt at 2. simpl. lia.
Qed.

(** ** Rules *)

Lemma owns_ret {A} (a : A) E (Q : A -> list nat) : Q a = E -> owns E (ret a) Q.
Proof. intros HQ s Hs. simpl. by rewrite HQ. Qed.

Lemma owns_bind {A C} E (m : M (sys B) A) (k : A -> M (sys B) C) P Q :
  owns E m P -> (forall a, owns (P a) (k a) Q) -> owns E (bind m k) Q.
Proof. intros Hm Hk s Hs. unfold bind. specialize (Hm s Hs). destruct (m s); try done. by apply Hk. Qed.

Lemma owns_fault {A} E (Q : A -> list nat) : owns E fault Q.
Proof. done. Qed.

Lemma owns_panic {A} msg E (Q : A -> list nat) : owns E (panic msg) Q.
Proof. done. Qed.

(** Operations that neither touch descriptors nor reference counts. *)
Definition quietly {A} (m : M (sys B) A) : Prop := forall E, owns E m (fun _ => E).

Lemma quietly_intro {A} (m : M (sys B) A) :
  (forall s, match m s with
             | Ret _ s' | Sched s' => ofile s' = ofile s /\
                 forall f x, ftable (kern s) !! f = Some x -> exists x', ftable (kern s') !! f = Some x' /\ f_ref x <= f_ref x'
             | _ => True
             end) -> quietly m.
Proof.
  intros Hm E s Hs. specialize (Hm s). destruct (m s); try done; destruct Hm as [Ho Ht].
  - apply (own_weaken E E s); [done|by intros; rewrite Ho|done].
  - apply own_drop with E. apply (own_weaken E E s); [done|by intros; rewrite Ho|done].
Qed.

Lemma quietly_ret {A} (a : A) : quietly (ret a).
Proof. intros E. by apply owns_ret. Qed.

Lemma quietly_bind {A C} (m : M (sys B) A) (k : A -> M (sys B) C) : quietly m -> (forall a, quietly (k a)) -> quietly (bind m k).
Proof. intros Hm Hk E. eapply owns_bind; [apply Hm|]. intros a. apply Hk. Qed.

Lemma quietly_gets {A} (g : sys B -> A) : quietly (gets g).
Proof. apply quietly_intro. intros s. split; [done|apply refs_same]. Qed.

Lemma quietly_gets_opt {A} (g : sys B -> option A) : quietly (gets_opt g).
Proof. apply quietly_intro. intros s. unfold gets_opt. destruct (g s); [|done]. split; [done|apply refs_same]. Qed.

Lemma quietly_panic {A} msg : quietly (@panic (sys B) A msg).
Proof. by intros E. Qed.

Lemma quietly_when b m : quietly m -> quietly (when b m).
Proof. intros Hm. destruct b; [done|apply quietly_ret]. Qed.

(** Everything that only concerns inodes and blocks. *)
Lemma quietly_onf {A} (m : M (fs (lst B)) A) : quietly (onf m).
Proof. apply quietly_intro. intros s. unfold onf, onk, onfs, zoom. destruct (m (fsys (kern s))); try done; (split; [done|apply refs_same]). Qed.

Lemma quietly_put_user p w : quietly (put_user p w).
Proof. apply quietly_intro. intros s. unfold put_user, modify_opt. case_decide; [|done]. split; [done|apply refs_same]. Qed.

Lemma quietly_begin : quietly (onk begin_op).
Proof. apply quietly_onf. Qed.

Lemma quietly_end : quietly (onk end_op).
Proof. apply quietly_onf. Qed.

Lemma quietly_cwd ip : quietly (modify (set_cwd ip)).
Proof. apply quietly_intro. intros s. split; [done|apply refs_same]. Qed.
End Own.

Create HintDb owns.
#[export] Hint Resolve quietly_ret quietly_gets quietly_gets_opt quietly_panic quietly_onf quietly_put_user quietly_begin
  quietly_end quietly_cwd quietly_when : owns.

(** Splits a system call into its steps and cases. *)
Ltac quiet_steps :=
  repeat match goal with
  | |- quietly (bind _ _) => apply quietly_bind; [|intros ?]
  | |- quietly (if ?b then _ else _) => destruct b
  | |- quietly (match ?x with _ => _ end) => destruct x
  | |- quietly (let '(_, _) := ?x in _) => destruct x
  | |- quietly (when _ _) => apply quietly_when
  | |- quietly _ => solve [eauto with owns]
  end.

(** ** The table of open files *)

Section Table.
Context {B H : Type} `{BlockCache B H}.
Implicit Types (k : fstate B).

(** [m] keeps the table as it is. *)
Definition same_table {A} (m : M (fstate B) A) : Prop := forall t, keeps (fun k => ftable k = t) m.

(** [m] keeps or increases every reference count. *)
Definition keeps_refs {A} (m : M (fstate B) A) : Prop :=
  forall t : list file, keeps (fun k => forall f x, t !! f = Some x -> exists x', ftable k !! f = Some x' /\ f_ref x <= f_ref x') m.

Lemma same_table_onfs {A} (m : M (fs (lst B)) A) : same_table (onfs m).
Proof. intros t k <-. unfold onfs, zoom. by destruct (m (fsys k)). Qed.

Lemma same_table_refs {A} (m : M (fstate B) A) : same_table m -> keeps_refs m.
Proof. intros Hm t k Hk. specialize (Hm (ftable k) k eq_refl). destruct (m k); try done; by rewrite Hm. Qed.

Lemma refs_onfs {A} (m : M (fs (lst B)) A) : keeps_refs (onfs m).
Proof. apply same_table_refs, same_table_onfs. Qed.

Lemma refs_ret {A} (a : A) : keeps_refs (ret a).
Proof. intros t. apply keeps_ret. Qed.

Lemma refs_bind {A C} (m : M (fstate B) A) (k : A -> M (fstate B) C) : keeps_refs m -> (forall a, keeps_refs (k a)) -> keeps_refs (bind m k).
Proof. intros Hm Hk t. apply keeps_bind; [apply Hm|]. intros a. apply Hk. Qed.

Lemma refs_get_file f : keeps_refs (get_file f).
Proof. intros t. apply keeps_gets_opt. Qed.

Lemma refs_get_pipe p : keeps_refs (get_pipe p).
Proof. intros t. apply keeps_gets_opt. Qed.

Lemma refs_panic {A} msg : keeps_refs (@panic (fstate B) A msg).
Proof. intros t. apply keeps_panic. Qed.

Lemma refs_hang {A} : keeps_refs (@hang (fstate B) A).
Proof. by intros t k Hk. Qed.

Lemma refs_when b m : keeps_refs m -> keeps_refs (when b m).
Proof. intros Hm. destruct b; [done|apply refs_ret]. Qed.

Lemma refs_sched {A} : keeps_refs (fun k => @Sched _ A k).
Proof. by intros t k Hk. Qed.

Lemma refs_modify (g : fstate B -> fstate B) : (forall k, ftable (g k) = ftable k) -> keeps_refs (modify g).
Proof. intros Hg t. apply keeps_modify. intros k Hk. by rewrite Hg. Qed.

Lemma refs_upd_file f g : (forall x, f_ref (g x) = f_ref x) -> keeps_refs (upd_file f g).
Proof.
  intros Hg t. apply keeps_modify. intros k Hk j x Hx. destruct (Hk j x Hx) as (x' & Hx' & Hr). simpl.
  destruct (decide (j = f)) as [->|Hne].
  - exists (g x'). rewrite list_lookup_alter_eq, Hx', Hg. done.
  - exists x'. by rewrite list_lookup_alter_ne.
Qed.
End Table.

#[export] Hint Resolve refs_onfs refs_ret refs_get_file refs_get_pipe refs_panic refs_hang refs_when refs_sched : owns.
#[export] Hint Extern 1 (keeps_refs (modify _)) => apply refs_modify; by intros : owns.
#[export] Hint Extern 1 (keeps_refs (upd_file _ _)) => apply refs_upd_file; by intros : owns.

Ltac refs_steps :=
  repeat match goal with
  | |- keeps_refs (bind _ _) => apply refs_bind; [|intros ?]
  | |- keeps_refs (if ?b then _ else _) => destruct b
  | |- keeps_refs (match ?x with _ => _ end) => destruct x
  | |- keeps_refs (let '(_, _) := ?x in _) => destruct x
  | |- keeps_refs (when _ _) => apply refs_when
  | |- keeps_refs _ => solve [eauto with owns]
  end.

Section Calls.
Context {B H : Type} `{BlockCache B H}.
Implicit Types (s : sys B) (k : fstate B).
Context (devs : Z -> @devsw (lst B)).

Lemma refs_filestat f : keeps_refs (@filestat B H _ f).
Proof. unfold filestat. refs_steps. Qed.

Lemma refs_fileread kd f n : keeps_refs (fileread devs kd f n).
Proof. unfold fileread, read_pipe. refs_steps. Qed.

Lemma refs_filewrite_loop fuel f src i n : keeps_refs (filewrite_loop devs fuel f src i n).
Proof.
  revert src i. induction fuel as [|fuel IH]; intros src i; cbn [filewrite_loop]; [apply refs_hang|].
  unfold write_chunk. refs_steps.
Qed.

Lemma refs_filewrite kd f src n : keeps_refs (filewrite devs kd f src n).
Proof. unfold filewrite, write_pipe. refs_steps. apply refs_filewrite_loop. Qed.

Lemma quietly_onk {A} (m : M (fstate B) A) : keeps_refs m -> quietly (onk m).
Proof.
  intros Hm. apply quietly_intro. intros s. unfold onk, zoom. specialize (Hm (ftable (kern s)) (kern s) (refs_same _)).
  by destruct (m (kern s)).
Qed.

(** ** References that move *)

Lemma cnt_fmap_cons g f E (l : list (option nat)) :
  cnt g (l ++ (Some <$> (f :: E))) = (if decide (f = g) then 1 else 0) + cnt g (l ++ (Some <$> E)).
Proof.
  rewrite fmap_cons, !cnt_app, cnt_cons. destruct (decide (f = g)) as [->|Hne]; [rewrite decide_True by done; lia|].
  rewrite decide_False by congruence. lia.
Qed.

(** A reference becomes a descriptor. *)
Lemma owns_fdalloc f E : owns (f :: E) (@fdalloc B f) (fun r => match r with Some _ => E | None => f :: E end).
Proof.
  intros s Hs. unfold fdalloc. rewrite bind_gets. destruct (find_first _ (ofile s)) as [fd|] eqn:Hf; [|done].
  apply find_first_Some in Hf as [(o & Ho & Hn) _].
  assert (o = None) as -> by (destruct o as [g|]; [|done]; rewrite bool_decide_eq_true_2 in Hn by (by eexists); done).
  apply (own_weaken (f :: E) E s); [done| |apply refs_same]. intros g. simpl ofile. rewrite cnt_fmap_cons, !cnt_app, (cnt_insert _ _ _ _ _ Ho).
  rewrite (decide_False (P := None = Some g)) by done. destruct (decide (f = g)) as [->|Hne]; [rewrite decide_True by done; lia|].
  rewrite decide_False by congruence. lia.
Qed.

(** What the operations on the table do to one entry. *)
Definition entry_changed (f : nat) (P : file -> file -> Prop) k k' : Prop :=
  exists x x', ftable k !! f = Some x /\ ftable k' = <[f := x']> (ftable k) /\ P x x'.

(** Locks do not sleep. *)
Lemma lock_table m k : m = @lock_ftable B \/ m = @unlock_ftable B ->
  match m k with Ret _ k' => ftable k' = ftable k | Sched _ => False | _ => True end.
Proof.
  intros Hm. assert (Hns : forall l, match acquire 1 l with Sched _ => False | _ => True end /\ match release 1 l with Sched _ => False | _ => True end).
  { intros [c ls]. unfold acquire, release, pushcli, popcli, holding, xchg, set_lcpu, bind, gets, gets_opt, modify, ret, when, readeflags, panic, hang. simpl.
    split; repeat (case_match; simplify_eq/=; try done). }
  destruct Hm as [-> | ->]; unfold lock_ftable, unlock_ftable, onfs, zoom; destruct (Hns (flks (fsys k))) as [Ha Hr].
  - by destruct (acquire 1 (flks (fsys k))).
  - by destruct (release 1 (flks (fsys k))).
Qed.

Ltac lock_step k :=
  match goal with
  | |- context [bind lock_ftable _ ?x] => pose proof (lock_table lock_ftable x (or_introl eq_refl)); unfold bind at 1; destruct (lock_ftable x) as [[] k| | | |]; try done
  | |- context [bind unlock_ftable _ ?x] => pose proof (lock_table unlock_ftable x (or_intror eq_refl)); unfold bind at 1; destruct (unlock_ftable x) as [[] k| | | |]; try done
  end.

Lemma filealloc_table k : match @filealloc B k with
  | Ret (Some f) k' => entry_changed f (fun x x' => f_ref x = 0 /\ x' = set_f_ref 1 x) k k'
  | Ret None k' => ftable k' = ftable k
  | Sched _ => False
  | _ => True
  end.
Proof.
  unfold filealloc. lock_step k1. rewrite bind_gets. destruct (find_first _ (ftable k1)) as [f|] eqn:Hf.
  - apply find_first_Some in Hf as [(x & Hx & Hr) _]. rewrite (bind_Ret _ _ _ _ _ (upd_file_run k1 f x _ Hx)). lock_step k3.
    exists x, (set_f_ref 1 x). rewrite H2. simpl. rewrite <- H1. split_and!; [done|done|lia|done].
  - lock_step k3. simpl. congruence.
Qed.

Lemma owns_filealloc E : owns E (onk (@filealloc B)) (fun r => match r with Some f => f :: E | None => E end).
Proof.
  intros s Hs. unfold onk, zoom. pose proof (filealloc_table (kern s)) as Ht. destruct (filealloc (kern s)) as [[f|] k'| | | |]; try done.
  - destruct Ht as (x & x' & Hx & Ht & Hr & ->). pose proof (lookup_lt_Some _ _ _ Hx) as Hlt.
    assert (Hz : cnt f (ofile s ++ (Some <$> E)) = 0).
    { destruct (Z.lt_trichotomy 0 (cnt f (ofile s ++ (Some <$> E)))) as [Hp|[|]]; [|done|pose proof (cnt_nonneg f (ofile s ++ (Some <$> E))); lia].
      destruct (Hs f Hp) as (z & Hz & Hc). assert (z = x) as -> by congruence. lia. }
    intros g Hg. simpl ofile in *. rewrite cnt_fmap_cons in Hg |- *. simpl. rewrite Ht. destruct (decide (f = g)) as [<-|Hne].
    + exists (set_f_ref 1 x). rewrite list_lookup_insert_eq by done. split; [done|]. simpl. lia.
    + rewrite list_lookup_insert_ne by done. rewrite Z.add_0_l in *. by apply Hs.
  - apply (own_weaken E E s); [done|done|]. simpl. rewrite Ht. apply refs_same.
Qed.

Lemma fileclose_table f k : match @fileclose B H _ f k with
  | Ret _ k' | Sched k' => entry_changed f (fun x x' => 1 <= f_ref x /\ f_ref x' = f_ref x - 1) k k'
  | _ => True
  end.
Proof.
  unfold fileclose. lock_step k1. unfold bind at 1, get_file, gets_opt at 1. destruct (ftable k1 !! f) as [x|] eqn:Hx; [|done].
  destruct (Z.ltb_spec (f_ref x) 1) as [Hr|Hr]; [done|]. rewrite (bind_Ret _ _ _ _ _ (upd_file_run k1 f x _ Hx)). set (k2 := set_ftable _ k1).
  assert (Hec : forall k', ftable k' = <[f := set_f_ref (f_ref x - 1) x]> (ftable k1) -> entry_changed f (fun x x' => 1 <= f_ref x /\ f_ref x' = f_ref x - 1) k k').
  { intros k' Hk'. exists x, (set_f_ref (f_ref x - 1) x). rewrite <- H1. by split_and!. }
  destruct (Z.ltb_spec 0 (f_ref x - 1)) as [Hp|Hz].
  - pose proof (lock_table unlock_ftable k2 (or_intror eq_refl)) as Hu. destruct (unlock_ftable k2) as [[] k3| | | |]; try done. by apply Hec.
  - pose proof (lookup_lt_Some _ _ _ Hx) as Hlt.
    assert (Hx2 : ftable k2 !! f = Some (set_f_ref (f_ref x - 1) x)) by by apply list_lookup_insert_eq.
    rewrite (bind_Ret _ _ _ _ _ (upd_file_run k2 f _ _ Hx2)). set (k3 := set_ftable _ k2). lock_step k4.
    assert (Hec' : forall k', ftable k' = ftable k3 -> entry_changed f (fun x x' => 1 <= f_ref x /\ f_ref x' = f_ref x - 1) k k').
    { intros k' Hk'. exists x. eexists. rewrite Hk', <- H1. split; [done|]. split; [simpl; apply list_insert_insert_eq|]. simpl. lia. }
    destruct (f_type x).
    + by apply Hec'.
    + unfold close_pipe, get_pipe, gets_opt, bind at 1. destruct (pipes k4 !! f_pipe x) as [q|]; [|done].
      destruct (pipeclose (f_writable x) q) as [[q' ws] free]. rewrite bind_modify. destruct free; simpl; by apply Hec'.
    + assert (Hst : same_table (begin_op;;; onfs (iput (f_ip x));;; end_op : M (fstate B) unit)).
      { intros t. repeat (apply keeps_bind; [apply same_table_onfs|intros _]). apply same_table_onfs. }
      specialize (Hst _ k4 eq_refl). set (m := begin_op;;; _) in *. destruct (m k4); try done; apply Hec'; congruence.
Qed.

Lemma owns_fileclose f E : owns (f :: E) (onk (@fileclose B H _ f)) (fun _ => E).
Proof.
  intros s Hs. unfold onk, zoom. pose proof (fileclose_table f (kern s)) as Ht.
  assert (Hgo : forall k', entry_changed f (fun x x' => 1 <= f_ref x /\ f_ref x' = f_ref x - 1) (kern s) k' -> own E (set_kern k' s)).
  { intros k' (x & x' & Hx & Hk' & Hr & Hr'). pose proof (lookup_lt_Some _ _ _ Hx) as Hlt. intros g Hg. simpl ofile in *.
    destruct (Hs g) as (z & Hz & Hc); [rewrite cnt_fmap_cons; destruct (decide (f = g)); lia|]. rewrite cnt_fmap_cons in Hc. simpl. rewrite Hk'.
    destruct (decide (f = g)) as [<-|Hne].
    - exists x'. rewrite list_lookup_insert_eq by done. split; [done|]. assert (z = x) as -> by congruence. lia.
    - exists z. rewrite list_lookup_insert_ne by done. split; [done|lia]. }
  destruct (fileclose f (kern s)); try done; [by apply Hgo|]. eapply own_drop. by apply Hgo.
Qed.

Lemma owns_swap {A} f g E (m : M (sys B) A) Q : owns (f :: g :: E) m Q -> owns (g :: f :: E) m Q.
Proof.
  intros Hm s Hs. apply Hm. apply (own_weaken (g :: f :: E) _ s); [done| |apply refs_same].
  intros h. rewrite !cnt_fmap_cons. lia.
Qed.

Lemma owns_ext {A} E (m m' : M (sys B) A) Q : (forall s, m s = m' s) -> owns E m' Q -> owns E m Q.
Proof. intros He Hm s Hs. rewrite He. by apply Hm. Qed.

Lemma onk_bind {A C} (m : M (fstate B) A) (k : A -> M (fstate B) C) s :
  onk (bind m k) s = bind (onk m) (fun a => onk (k a)) s.
Proof. unfold onk, zoom, bind. by destruct (m (kern s)). Qed.

Lemma owns_onk_bind {A C} E (m : M (fstate B) A) (k : A -> M (fstate B) C) P Q :
  owns E (onk m) P -> (forall a, owns (P a) (onk (k a)) Q) -> owns E (onk (bind m k)) Q.
Proof. intros Hm Hk. eapply owns_ext; [apply onk_bind|]. by eapply owns_bind. Qed.

Lemma owns_quietly {A} E (m : M (sys B) A) : quietly m -> owns E m (fun _ => E).
Proof. intros Hm. apply Hm. Qed.

Lemma owns_onk_ret {A} (a : A) E (Q : A -> list nat) : Q a = E -> owns E (@onk B A (ret a)) Q.
Proof. intros HQ s Hs. simpl. by rewrite HQ. Qed.

Lemma owns_pipealloc junk E :
  owns E (onk (@pipealloc B H _ junk)) (fun r => match r with Some (f, g) => f :: g :: E | None => E end).
Proof.
  unfold pipealloc. eapply owns_onk_bind; [apply owns_filealloc|]. intros [f|]; [|by apply owns_onk_ret].
  eapply owns_onk_bind; [apply owns_filealloc|]. intros [g|].
  2: { eapply owns_onk_bind; [apply owns_fileclose|]. intros ?. by apply owns_onk_ret. }
  eapply owns_onk_bind; [apply owns_quietly, quietly_onk; intros t; apply keeps_gets|]. intros [|p ps].
  - apply owns_swap. eapply owns_onk_bind; [apply owns_fileclose|]. intros ?.
    eapply owns_onk_bind; [apply owns_fileclose|]. intros ?. by apply owns_onk_ret.
  - apply owns_swap. eapply owns_onk_bind; [apply owns_quietly, quietly_onk; refs_steps|]. intros ?.
    eapply owns_onk_bind; [apply owns_quietly, quietly_onk; refs_steps|]. intros ?.
    eapply owns_onk_bind; [apply owns_quietly, quietly_onk; refs_steps|]. intros ?. by apply owns_onk_ret.
Qed.

(** ** The system calls *)

(** The descriptors are covered by the reference counts. *)
Definition refs_ok s : Prop := own [] s.

Definition keeps_descriptors {A} (m : M (sys B) A) : Prop := keeps refs_ok m.

Lemma quietly_keeps {A} (m : M (sys B) A) : quietly m -> keeps_descriptors m.
Proof. intros Hm. apply Hm. Qed.

Lemma quietly_argfd n : quietly (@argfd B n).
Proof. unfold argfd, arg_int. quiet_steps. Qed.

Lemma argfd_found n s fd f s' : @argfd B n s = Ret (Some (fd, f)) s' -> s' = s /\ rd (ofile s) fd = Some (Some f).
Proof.
  unfold argfd, arg_int, bind, gets_opt. destruct (argint (usr s) n) as [[i|]|]; [|done|done].
  destruct ((i <? 0) || (NOFILE <=? i)); [done|]. destruct (rd (ofile s) i) as [[g|]|] eqn:E; [|done|done].
  intros [= <- <- <-]. done.
Qed.

Lemma quietly_create c path ty ma mi : quietly (create devs c path ty ma mi).
Proof. unfold create, upd_nlink. quiet_steps. Qed.

Lemma argfd_ret {A} n (k : option (Z * nat) -> M (sys B) A) s :
  match argfd n s with
  | Ret r s' => s' = s /\ bind (argfd n) k s = k r s
  | Sched _ => False
  | _ => True
  end.
Proof.
  unfold argfd, arg_int, bind, gets_opt. destruct (argint (usr s) n) as [[i|]|]; [|done|done].
  destruct ((i <? 0) || (NOFILE <=? i)); [done|]. by destruct (rd (ofile s) i) as [[g|]|].
Qed.

(** A descriptor becomes a reference again. *)
Lemma own_clear fd f E s : ofile s !! fd = Some (Some f) -> own E s -> own (f :: E) (set_ofile (<[fd := None]> (ofile s)) s).
Proof.
  intros Hfd Hs. apply (own_weaken E _ s); [done| |apply refs_same]. intros g. simpl ofile. rewrite cnt_fmap_cons, !cnt_app, (cnt_insert _ _ _ _ _ Hfd).
  rewrite (decide_False (P := None = Some g)) by done. destruct (decide (f = g)) as [->|Hne]; [rewrite decide_True by done; lia|].
  rewrite decide_False by congruence. lia.
Qed.

Lemma close_keeps : keeps_descriptors (@sys_close B H _).
Proof.
  intros s Hs. unfold sys_close. match goal with |- context [bind (argfd 0) ?k s] => pose proof (argfd_ret 0 k s) as Hr; unfold bind at 1 end.
  destruct (argfd 0 s) as [[[fd f]|] s1| | | |] eqn:E; try done.
  2: { destruct Hr as [-> _]. done. }
  destruct (argfd_found _ _ _ _ _ E) as [-> Hfd]. rewrite bind_modify. set (s1 := set_ofile _ s).
  assert (Hs1 : own [f] s1) by (unfold rd in Hfd; destruct (decide (0 <= fd)); [|done]; by apply own_clear).
  assert (Hc : owns [f] (onk (@fileclose B H _ f);;; ret 0) (fun _ => [])).
  { eapply owns_bind; [apply owns_fileclose|]. intros ?. by apply owns_ret. }
  exact (Hc s1 Hs1).
Qed.

Lemma filedup_table f k : match @filedup B f k with
  | Ret _ k' => entry_changed f (fun x x' => f_ref x' = f_ref x + 1) k k'
  | Sched k' => False
  | _ => True
  end.
Proof.
  unfold filedup. lock_step k1. unfold bind at 1, get_file, gets_opt at 1. destruct (ftable k1 !! f) as [x|] eqn:Hx; [|done].
  destruct (f_ref x <? 1); [done|]. rewrite (bind_Ret _ _ _ _ _ (upd_file_run k1 f x _ Hx)). lock_step k3.
  exists x, (set_f_ref (f_ref x + 1) x). rewrite <- H1. split_and!; [done| |done]. rewrite H2. simpl. by rewrite H1.
Qed.

Lemma dup_keeps : keeps_descriptors (@sys_dup B).
Proof.
  intros s Hs. unfold sys_dup. match goal with |- context [bind (argfd 0) ?k s] => pose proof (argfd_ret 0 k s) as Hr; unfold bind at 1 end.
  destruct (argfd 0 s) as [[[fd f]|] s1| | | |] eqn:E; try done.
  2: { destruct Hr as [-> _]. done. }
  destruct (argfd_found _ _ _ _ _ E) as [-> Hfd]. unfold fdalloc. rewrite bind_assoc, bind_gets.
  destruct (find_first _ (ofile s)) as [fd1|] eqn:Hf; [|done]. rewrite bind_assoc, bind_modify, bind_ret.
  apply find_first_Some in Hf as [(o & Ho & Hn) _].
  assert (o = None) as -> by (destruct o as [g|]; [|done]; rewrite bool_decide_eq_true_2 in Hn by (by eexists); done).
  set (s1 := set_ofile _ s). unfold bind, onk, zoom. pose proof (filedup_table f (kern s1)) as Ht.
  destruct (filedup f (kern s1)) as [r k'| | | |]; try done. destruct Ht as (x & x' & Hx & Hk' & Hr').
  intros g Hg. simpl in *. rewrite app_nil_r in *. rewrite (cnt_insert _ _ _ _ _ Ho), (decide_False (P := None = Some g)) in * by done.
  rewrite Hk'. pose proof (lookup_lt_Some _ _ _ Hx) as Hlt. unfold refs_ok, own in Hs. specialize (Hs g). simpl in Hs. rewrite app_nil_r in Hs.
  destruct (decide (f = g)) as [->|Hne].
  - rewrite decide_True by done. exists x'. rewrite list_lookup_insert_eq by done. split; [done|].
    unfold rd in Hfd. destruct (decide (0 <= fd)); [|done].
    destruct (Hs (cnt_in _ _ _ Hfd)) as (z & Hz & Hc). assert (z = x) as -> by congruence. lia.
  - rewrite decide_False by congruence. rewrite list_lookup_insert_ne by done. rewrite decide_False in Hg by congruence.
    destruct Hs as (z & Hz & Hc); [lia|]. exists z. split; [done|lia].
Qed.

Lemma open_keeps : keeps_descriptors (sys_open devs).
Proof.
  change (owns [] (sys_open devs) (fun _ => [])). unfold sys_open, arg_str, arg_int.
  eapply owns_bind; [apply owns_quietly; quiet_steps|]. intros [path|]; [|by apply owns_ret].
  eapply owns_bind; [apply owns_quietly; quiet_steps|]. intros [omode|]; [|by apply owns_ret].
  eapply owns_bind; [apply owns_quietly; quiet_steps|]. intros c.
  eapply owns_bind; [apply owns_quietly; unfold open_inode; quiet_steps; apply quietly_create|]. intros [ip|]; [|by apply owns_ret].
  eapply owns_bind; [apply owns_filealloc|]. intros [f|].
  - eapply owns_bind; [apply owns_fdalloc|]. intros [fd|].
    + apply owns_quietly. quiet_steps. apply quietly_onk. refs_steps.
    + eapply owns_bind; [apply owns_fileclose|]. intros ?. apply owns_quietly. quiet_steps.
  - eapply owns_bind; [by apply (owns_ret None _ (fun _ => []))|]. intros r.
    eapply owns_bind; [by apply (owns_onk_ret tt _ (fun _ => []))|]. intros ?. apply owns_quietly. quiet_steps.
Qed.

Lemma fdalloc_slot f s : match @fdalloc B f s with
  | Ret (Some fd) s' => ofile s' !! fd = Some (Some f)
  | Ret None s' => s' = s
  | _ => False
  end.
Proof.
  unfold fdalloc. rewrite bind_gets. destruct (find_first _ (ofile s)) as [fd|] eqn:Hf; [|done].
  apply list_lookup_insert_eq. by apply find_first_lt in Hf.
Qed.

(** What [sys_pipe] does with the two ends of the pipe. *)
Lemma owns_pipe_ends rf wf p :
  owns [rf; wf]
    (fd0 <~ @fdalloc B rf;;;
     fd1 <~ (match fd0 with Some _ => fdalloc wf | None => ret None end);;;
     match fd0, fd1 with
     | Some fd0, Some fd1 => put_user p (le4 (Z.of_nat fd0));;; put_user (p + 4) (le4 (Z.of_nat fd1));;; ret 0
     | _, _ =>
         (match fd0 with Some fd0 => modify (fun s => set_ofile (<[fd0 := None]> (ofile s)) s) | None => ret tt end);;;
         onk (@fileclose B H _ rf);;; onk (fileclose wf);;; ret (-1)
     end) (fun _ => []).
Proof.
  assert (Hcl : owns [rf; wf] (onk (@fileclose B H _ rf);;; onk (fileclose wf);;; ret (-1)) (fun _ => [])).
  { eapply owns_bind; [apply owns_fileclose|]. intros ?. eapply owns_bind; [apply owns_fileclose|]. intros ?. by apply owns_ret. }
  intros s Hs. unfold bind at 1. pose proof (owns_fdalloc rf [wf] s Hs) as Ho. pose proof (fdalloc_slot rf s) as Hf.
  destruct (fdalloc rf s) as [[fd0|] s1| | | |]; try done; [|exact (Hcl s1 Ho)].
  unfold bind at 1. pose proof (owns_fdalloc wf [] s1 Ho) as Ho1. pose proof (fdalloc_slot wf s1) as Hf1.
  destruct (fdalloc wf s1) as [[fd1|] s2| | | |]; try done.
  - assert (Hq : owns [] (put_user p (le4 (Z.of_nat fd0));;; put_user (p + 4) (le4 (Z.of_nat fd1));;; @ret (sys B) Z 0) (fun _ => [])).
    { apply owns_quietly. quiet_steps. }
    exact (Hq s2 Ho1).
  - subst s2. rewrite bind_modify. apply Hcl. by apply own_clear.
Qed.

Lemma pipe_keeps junk : keeps_descriptors (@sys_pipe B H _ junk).
Proof.
  change (owns [] (@sys_pipe B H _ junk) (fun _ => [])). unfold sys_pipe, arg_ptr.
  eapply owns_bind; [apply owns_quietly; quiet_steps|]. intros [p|]; [|by apply owns_ret].
  eapply owns_bind; [apply owns_pipealloc|]. intros [[rf wf]|]; [|by apply owns_ret]. apply owns_pipe_ends.
Qed.

(** ** All calls *)

(** A call by a process; [exec] is left out, it changes neither. *)
Inductive file_call : M (sys B) Z -> Prop :=
| call_dup : file_call sys_dup
| call_read : file_call (sys_read devs)
| call_write : file_call (sys_write devs)
| call_close : file_call sys_close
| call_fstat : file_call sys_fstat
| call_link : file_call (sys_link devs)
| call_unlink : file_call (sys_unlink devs)
| call_open : file_call (sys_open devs)
| call_mkdir : file_call (sys_mkdir devs)
| call_mknod : file_call (sys_mknod devs)
| call_chdir : file_call (sys_chdir devs)
| call_pipe junk : file_call (sys_pipe junk).

(** C5: every file system call, also one that sleeps in the middle, keeps the
    invariant that each descriptor is covered by a reference: the reference
    count of an open file is at least the number of descriptors that refer to
    it, and no descriptor refers to a free entry of the file table. *)
Theorem calls_keep_references (m : M (sys B) Z) s :
  file_call m -> refs_ok s ->
  match m s with Ret _ s' | Sched s' => refs_ok s' | _ => True end.
Proof.
  intros Hm. revert s. change (keeps_descriptors m).
  destruct Hm; [apply dup_keeps| | |apply close_keeps| | | |apply open_keeps| | | |apply pipe_keeps]; apply quietly_keeps;
    unfold sys_read, sys_write, sys_fstat, sys_link, sys_unlink, sys_mkdir, sys_mknod, sys_chdir, link_bad, unlink_bad, put_stat,
      upd_nlink, arg_str, arg_int, arg_ptr, get_user;
    quiet_steps; (apply quietly_argfd || apply quietly_create || (apply quietly_onk; apply refs_fileread || apply refs_filewrite || apply refs_filestat)).
Qed.
End Calls.
