(* ===== verification/SysfileTheorems.v ===== *)
(** * File system calls: reading and writing

    The system calls read and write from the arguments on the user's stack down
    to the disk, and system calls that bring the kernel down. *)
From S2P Require Import Prelude Mmu Spinlock Strings Bytes BlockCache Bio Log LogTxn Store LogStore Fs FsBlocks FsInode FsFile FsIcache FsTrunc FsImage Pipe File FileSpec FsTheorems FsAlloc FileTheorems Syscall Sysfile SysfileSpec.

Section Calls.
Context {B H : Type} `{BlockCacheLaws B H}.
Implicit Types (s : sys B).

(** The arguments of read and write: an open descriptor [fd], a buffer at [p]
    and a count [n] that is not negative. *)
Record io_args s (fd : Z) (f : nat) (p n : Z) : Prop := {
  io_user : user_ok (usr s);
  io_fd : argint (usr s) 0 = Some (Some fd) /\ 0 <= fd < NOFILE /\ rd (ofile s) fd = Some (Some f);
  io_n : argint (usr s) 2 = Some (Some n) /\ 0 <= n < 2 ^ 31;
  io_p : argptr (usr s) 1 n = Some (Some p)
}.

Lemma io_argfd s fd f p n : io_args s fd f p n -> argfd 0 s = Ret (Some (fd, f)) s.
Proof.
  intros [_ (E1 & Hr & E2) _ _]. unfold argfd, arg_int, bind, gets_opt. rewrite E1.
  rewrite (proj2 (Z.ltb_ge fd 0)), (proj2 (Z.leb_gt NOFILE fd)) by lia. simpl. by rewrite E2.
Qed.

Lemma io_range s fd f p n : io_args s fd f p n -> 0 <= p /\ p + n <= Z.of_nat (length (u_mem (usr s))).
Proof.
  intros [Hu _ [_ Hn] Ep]. unfold argptr in Ep. destruct (argint (usr s) 1) as [[i|]|]; [|done|done]. simpl in Ep.
  pose proof (u32_range i) as Hr. destruct Hu as [Hs Hm]. destruct (Z.leb_spec (u_sz (usr s)) (u32 i)); [done|].
  destruct (Z.ltb_spec (u_sz (usr s)) (u32 (u32 i + n))) as [|Hle]; [done|]. injection Ep as <-.
  unfold u32 at 1 in Hle. rewrite Z.mod_small in Hle by lia. lia.
Qed.

(** C2: read(fd, p, n) of an open file puts the bytes at the file's offset, at most
    [n] and no more than the file has, at [p] in the memory of the process,
    returns their number and moves the offset. *)
Theorem sys_read_reads st sz sb devs s V W D fd f x inum C m p n :
  let l := take (Z.to_nat n) (drop (Z.to_nat (f_off x)) C) in
  io_args s fd f p n -> opened st sz sb (kern s) V W D f x inum C m ->
  f_readable x = true -> f_type x = FD_INODE -> f_off x + n < 2 ^ 32 ->
  exists k', sys_read devs s =
      Ret (Z.of_nat (length l)) (Sys k' (ofile s) (cwd s) (User (u_sz (usr s)) (u_esp (usr s)) (splice (Z.to_nat p) l (u_mem (usr s)))) (killed s)) /\
    opened st sz sb k' V W D f (set_f_off (f_off x + Z.of_nat (length l)) x) inum C m /\ others_kept f (kern s) k'.
Proof.
  intros l Hio Hop Hrd Hty Hov. destruct (io_range _ _ _ _ _ Hio) as [Hp0 Hp]. pose proof Hio as [Hu _ [En Hn] Ep].
  unfold sys_read. rewrite (bind_Ret _ _ _ _ _ (io_argfd _ _ _ _ _ Hio)). unfold arg_int, arg_ptr.
  erewrite bind_gets_opt by exact En. cbv iota. erewrite bind_gets_opt by exact Ep. cbv iota. rewrite bind_gets.
  destruct (fileread_reads st sz sb devs (killed s) (kern s) V W D f x inum C m n Hop Hrd Hty) as (k' & E & Hop' & Hk); [lia|lia|].
  fold l in E, Hop'. exists k'. split; [|done]. unfold bind at 1, onk, zoom. rewrite E.
  assert (Hl : Z.of_nat (length l) <= n) by (unfold l; rewrite length_take; lia).
  unfold bind, put_user, modify_opt. simpl. by rewrite decide_True by lia.
Qed.

(** C1: write(fd, p, n) to an open file writes the [n] bytes at [p] at the file's
    offset, returns [n], moves the offset and changes nothing of the process; a
    crash at any point leaves a disk that recovers to the file with the bytes of
    some whole rounds written. *)
Theorem sys_write_writes st sz sb devs s V W D fd f x inum C m p n :
  let src := take (Z.to_nat n) (drop (Z.to_nat p) (u_mem (usr s))) in let off := Z.to_nat (f_off x) in
  io_args s fd f p n -> sb_size sb <= BPB -> opened st sz sb (kern s) V W D f x inum C m ->
  f_writable x = true -> f_type x = FD_INODE -> f_off x + n <= MAXFILE * BSIZE -> (4 * rounds n <= m)%nat ->
  exists k' V' ws, sys_write devs s = Ret n (set_kern k' s) /\
    opened st sz sb k' V' (W ++ ws) (disk_after D ws) f (set_f_off (f_off x + n) x) inum (splice off src C) (m - 4 * rounds n) /\
    rounds_written st sb D ws inum off src C /\ others_kept f (kern s) k'.
Proof.
  intros src off Hio single Hop Hwr Hty Hmax Hm. destruct (io_range _ _ _ _ _ Hio) as [Hp0 Hp]. pose proof Hio as [Hu _ [En Hn] Ep].
  assert (Hlen : Z.of_nat (length src) = n) by (unfold src; rewrite length_take, length_drop; lia).
  unfold sys_write. rewrite (bind_Ret _ _ _ _ _ (io_argfd _ _ _ _ _ Hio)). unfold arg_int, arg_ptr.
  erewrite bind_gets_opt by exact En. cbv iota. erewrite bind_gets_opt by exact Ep. cbv iota. rewrite bind_gets.
  unfold get_user. erewrite bind_gets_opt by (rewrite decide_True by lia; reflexivity). fold src.
  destruct (filewrite_writes st sz sb devs (killed s) (kern s) V W D f x inum C m src single Hop Hwr Hty) as (k' & V' & ws & E & Hop' & Hrw & Hk);
    rewrite ?Hlen in *; try done.
  exists k', V', ws. split; [|done]. unfold onk, zoom. by rewrite E.
Qed.
End Calls.

(** ** Examples *)

(** The stack of a process at address 0 with the arguments [a], [b], [c], and
    bytes at 16. *)
Definition user_demo (a b c : Z) (w : list Z) : user :=
  User (16 + Z.of_nat (length w)) 0 (replicate 4 0 ++ le4 a ++ le4 b ++ le4 c ++ w).

Definition s_demo (u : user) : sys bst := Sys k_demo (Some 0%nat :: Some 1%nat :: replicate 14 None) 0 u false.

Lemma demo_refs u : refs_ok (s_demo u).
Proof.
  intros [|[|f]] Hf.
  - exists fa_demo. split; [reflexivity|]. vm_compute. congruence.
  - exists fo_demo. split; [reflexivity|]. vm_compute. congruence.
  - exfalso. revert Hf. vm_compute. destruct f; discriminate.
Qed.

Lemma calls_keep_references_witness : exists s', sys_dup (s_demo (user_demo 1 0 0 [])) = Ret 2 s' /\ refs_ok s'.
Proof.
  pose proof (calls_keep_references no_devs sys_dup (s_demo (user_demo 1 0 0 [])) (call_dup _) (demo_refs _)) as Hk.
  destruct (sys_dup (s_demo (user_demo 1 0 0 []))) as [r s'| | | |] eqn:E.
  - exists s'. split; [|exact Hk]. vm_compute in E. injection E as <- <-. reflexivity.
  - vm_compute in E. discriminate E.
  - vm_compute in E. discriminate E.
  - vm_compute in E. discriminate E.
  - vm_compute in E. discriminate E.
Defined.

Lemma demo_user_ok a b c w : Z.of_nat (length w) < 100 -> user_ok (user_demo a b c w).
Proof. intros Hw. split; [simpl; lia|]. unfold user_demo. simpl. lia. Qed.

Lemma sys_read_reads_witness : exists k', sys_read no_devs (s_demo (user_demo 0 18 5 (replicate 8 9))) =
  Ret 2 (Sys k' (Some 0%nat :: Some 1%nat :: replicate 14 None) 0 (user_demo 0 18 5 [9; 9; 121; 122; 9; 9; 9; 9]) false).
Proof.
  destruct (sys_read_reads 16 11 sb_demo no_devs (s_demo (user_demo 0 18 5 (replicate 8 9))) V_demo [] (rd fs_image) 0 0 fa_demo 2 [120; 121; 122] 4 18 5)
    as (k' & E & _).
  - split; [apply demo_user_ok; simpl; lia| | |reflexivity].
    + split; [reflexivity|]. split; [vm_compute; split; congruence|reflexivity].
    + split; [reflexivity|lia].
  - apply demo_opened.
  - reflexivity.
  - reflexivity.
  - vm_compute. reflexivity.
  - exists k'. exact E.
Defined.

Lemma sys_write_writes_witness : exists k' V' ws, sys_write no_devs (s_demo (user_demo 0 16 3 [7; 8; 9])) = Ret 3 (set_kern k' (s_demo (user_demo 0 16 3 [7; 8; 9]))) /\
  opened 16 11 sb_demo k' V' ws (disk_after (rd fs_image) ws) 0 (set_f_off 4 fa_demo) 2 [120; 7; 8; 9] 0.
Proof.
  destruct (sys_write_writes 16 11 sb_demo no_devs (s_demo (user_demo 0 16 3 [7; 8; 9])) V_demo [] (rd fs_image) 0 0 fa_demo 2 [120; 121; 122] 4 16 3)
    as (k' & V' & ws & E & Hop & _).
  - split; [apply demo_user_ok; simpl; lia| | |reflexivity].
    + split; [reflexivity|]. split; [vm_compute; split; congruence|reflexivity].
    + split; [reflexivity|lia].
  - vm_compute. congruence.
  - apply demo_opened.
  - reflexivity.
  - reflexivity.
  - vm_compute. congruence.
  - vm_compute. lia.
  - exists k', V', ws. split; [exact E|exact Hop].
Defined.

(** ** Calls that bring the kernel down *)

Definition s_neg : sys bst :=
  Sys (set_ftable [set_f_off 0 fa_demo] k_demo) (Some 0%nat :: replicate 15 None) 0 (user_demo 0 16 (-1) [9]) false.

(** read(fd, p, -1) passes the check of its buffer, and copies the whole file
    to [p]: with the last byte of the memory of the process as buffer and a
    file of three bytes the kernel writes outside of the process. *)
Theorem sys_read_negative_faults : user_ok (usr s_neg) /\ refs_ok s_neg /\ sys_read no_devs s_neg = Fault.
Proof.
  split; [split; vm_compute; [split; congruence|congruence]|]. split; [|by vm_compute].
  intros [|f] Hf; [exists (set_f_off 0 fa_demo); split; [done|]; vm_compute; congruence|]. exfalso. revert Hf. vm_compute. by destruct f.
Qed.

(** A process in the root directory, with an empty file table. *)
Definition string_user (w : list Z) : user := user_demo 16 0 0 (w ++ [0]).
Definition s_root : sys bst :=
  Sys (FState (Fs l_demo (Icst (set_i_flags false true i_root :: replicate 9 no_inode) []) log_idle) [no_file; no_file] ∅ [] [])
    (replicate 16 None) 0 (string_user []) false.
Definition with_arg {A} (w : list Z) (m : M (sys bst) A) : M (sys bst) A := modify (set_usr (string_user w));;; m.

(** "/d" *)
Definition path_d : list Z := [47; 100].

(** A directory is removed while it is the current directory of a process; the
    next chdir of the process drops the last reference to it outside of a
    transaction, and the kernel panics. *)
Theorem chdir_from_removed_panics :
  exists s', (with_arg path_d (sys_mkdir no_devs);;; with_arg path_d (sys_chdir no_devs);;; with_arg path_d (sys_unlink no_devs)) s_root = Ret 0 s' /\
    with_arg [47] (sys_chdir no_devs) s' = Panic "write outside of trans".
Proof.
  destruct ((with_arg path_d (sys_mkdir no_devs);;; with_arg path_d (sys_chdir no_devs);;; with_arg path_d (sys_unlink no_devs)) s_root)
    as [r s'| | | |] eqn:E; vm_compute in E; try discriminate E.
  injection E as <- <-. eexists. split; [reflexivity|]. by vm_compute.
Qed.
