(* ===== verification/Sysproc.v ===== *)
(** * Process system calls and traps (sysproc.c, trap.c, traps.h)

    The system calls on processes, threads, mutexes and condition variables,
    the clock, the interrupt table and [trap].  A call that sleeps ends in
    outcome [Sched]; the calls that continue after it are the [_resume]
    operations.  The memory of a process is read through [umem], and the
    calls of sysfile.c (Sysfile) are the argument [file_call]. *)
From S2P Require Import Prelude Mmu Spinlock Proc KSync Syscall.

(** What [trap] calls in lapic.c, ide.c, kbd.c, uart.c and console.c. *)
Inductive devcall := LAPICEOI | IDEINTR | KBDINTR | UARTINTR | CPRINTF.

#[export] Instance devcall_eq_dec : EqDecision devcall.
Proof. solve_decision. Defined.

(** The kernel with its clock; [dlog] records the calls to device drivers. *)
Record tst (W : Type) := Tst {
  ks : kst W;
  ticks : Z;
  dlog : list devcall
}.
Arguments Tst {W}.
Arguments ks {W}.
Arguments ticks {W}.
Arguments dlog {W}.

Definition set_ks {W} (v : kst W) (s : tst W) : tst W := Tst v (ticks s) (dlog s).
Definition set_ticks {W} (v : Z) (s : tst W) : tst W := Tst (ks s) v (dlog s).
Definition set_dlog {W} (v : list devcall) (s : tst W) : tst W := Tst (ks s) (ticks s) v.

(** ** The interrupt table *)

(** [vectors] are the entry points of vectors.S. *)
Definition tvinit (vectors : nat -> Z) : list gatedesc :=
  <[Z.to_nat T_SYSCALL := SETGATE true (Z.shiftl SEG_KCODE 3) (vectors (Z.to_nat T_SYSCALL)) DPL_USER]>
    ((fun i => SETGATE false (Z.shiftl SEG_KCODE 3) (vectors i) 0) <$> seq 0 256).

Section Calls.
Context {W : Type} `{Services W}.
Abbreviation T := (M (tst W)).

(** The bytes of the address space [pgdir], from address 0 on. *)
Variable umem : W -> Z -> list Z.

Definition onks {A} (m : M (kst W) A) : T A := zoom ks set_ks m.
Definition dev (d : devcall) : T unit := modify (fun s => set_dlog (dlog s ++ [d]) s).

Definition user_of (s : kst W) (p : proc) : user := User (sz p) (esp (tfv p)) (umem (world s) (pgdir p)).

Definition proc_argint (n : Z) : T (option Z) :=
  p <~ onks cur;;;
  gets_opt (fun s => argint (user_of (ks s) p) n).

(** A local variable that holds [junk], after argint(n, &x), whose result the
    caller ignores. *)
Definition local_argint (n junk : Z) : T Z :=
  r <~ proc_argint n;;;
  ret (default junk r).

(** ** sysproc.c *)

Definition sys_fork : T Z := onks fork.
Definition sys_exit : T Z := onks exit;;; ret 0.
Definition sys_wait : T Z := onks wait.

Definition sys_kill : T Z :=
  r <~ proc_argint 0;;;
  match r with
  | None => ret (-1)
  | Some pid => onks (kill pid)
  end.

Definition sys_getpid : T Z := p <~ onks cur;;; ret (pid p).

Definition sys_sbrk : T Z :=
  r <~ proc_argint 0;;;
  match r with
  | None => ret (-1)
  | Some n =>
      p <~ onks cur;;;
      g <~ onks (growproc n);;;
      if g <? 0 then ret (-1) else ret (s32 (sz p))
  end.

(** The loop of [sys_sleep], with tickslock held; the comparison is unsigned. *)
Definition sleep_loop (ticks0 n : Z) : T Z :=
  t <~ gets ticks;;;
  if u32 (t - ticks0) <? u32 n then
    p <~ onks cur;;;
    if killed p then onks (release_l TICKSLOCK);;; ret (-1)
    else onks (sleep ChTicks TICKSLOCK);;; ret 0
  else onks (release_l TICKSLOCK);;; ret 0.

Definition sys_sleep : T Z :=
  r <~ proc_argint 0;;;
  match r with
  | None => ret (-1)
  | Some n =>
      onks (acquire_l TICKSLOCK);;;
      ticks0 <~ gets ticks;;;
      sleep_loop ticks0 n
  end.

Definition sys_sleep_resume (ena : bool) (ticks0 n : Z) : T Z :=
  onks (sleep_resume ena TICKSLOCK);;;
  sleep_loop ticks0 n.

Definition sys_uptime : T Z :=
  onks (acquire_l TICKSLOCK);;;
  xticks <~ gets ticks;;;
  onks (release_l TICKSLOCK);;;
  ret (s32 xticks).

Section Threads.
(** What the uninitialised locals of the functions hold. *)
Variable junk : Z.

Definition sys_kthread_create : T Z :=
  start_func <~ local_argint 0 junk;;;
  stack <~ local_argint 1 junk;;;
  stack_size <~ local_argint 2 junk;;;
  onks (kthread_create (u32 start_func) (u32 stack) (u32 stack_size)).

Definition sys_kthread_id : T Z := onks kthread_id.
Definition sys_kthread_exit : T Z := onks kthread_exit;;; ret 1.
Definition sys_kthread_join : T Z := tid <~ local_argint 0 junk;;; onks (kthread_join tid).
Definition sys_kthread_mutex_alloc : T Z := onks kthread_mutex_alloc.
Definition sys_kthread_mutex_dealloc : T Z := m <~ local_argint 0 junk;;; onks (kthread_mutex_dealloc m).
Definition sys_kthread_mutex_lock : T Z := m <~ local_argint 0 junk;;; onks (kthread_mutex_lock m).
Definition sys_kthread_mutex_unlock : T Z := m <~ local_argint 0 junk;;; onks (kthread_mutex_unlock m).
Definition sys_kthread_cond_alloc : T Z := onks kthread_cond_alloc.
Definition sys_kthread_cond_dealloc : T Z := c <~ local_argint 0 junk;;; onks (kthread_cond_dealloc c).
Definition sys_kthread_cond_wait : T Z :=
  c <~ local_argint 0 junk;;;
  m <~ local_argint 1 junk;;;
  onks (kthread_cond_wait c m).
Definition sys_kthread_cond_signal : T Z := c <~ local_argint 0 junk;;; onks (kthread_cond_signal c).

(** The functions behind the table of syscall.c. *)
Variable file_call : sysno -> T Z.

Definition proc_call (c : sysno) : T Z :=
  match c with
  | SYS_fork => sys_fork
  | SYS_exit => sys_exit
  | SYS_wait => sys_wait
  | SYS_kill => sys_kill
  | SYS_getpid => sys_getpid
  | SYS_sbrk => sys_sbrk
  | SYS_sleep => sys_sleep
  | SYS_uptime => sys_uptime
  | SYS_kthread_create => sys_kthread_create
  | SYS_kthread_id => sys_kthread_id
  | SYS_kthread_exit => sys_kthread_exit
  | SYS_kthread_join => sys_kthread_join
  | SYS_kthread_mutex_alloc => sys_kthread_mutex_alloc
  | SYS_kthread_mutex_dealloc => sys_kthread_mutex_dealloc
  | SYS_kthread_mutex_lock => sys_kthread_mutex_lock
  | SYS_kthread_mutex_unlock => sys_kthread_mutex_unlock
  | SYS_kthread_cond_alloc => sys_kthread_cond_alloc
  | SYS_kthread_cond_dealloc => sys_kthread_cond_dealloc
  | SYS_kthread_cond_wait => sys_kthread_cond_wait
  | SYS_kthread_cond_signal => sys_kthread_cond_signal
  | c => file_call c
  end.

(** proc->tf->eax *)
Definition cur_eax (s : tst W) : Z :=
  match curproc (ks s) with
  | Some i => match ptable (ks s) !! i with Some p => eax (tfv p) | None => 0 end
  | None => 0
  end.
Definition set_cur_eax (v : Z) (s : tst W) : tst W :=
  match curproc (ks s) with
  | Some i => set_ks (set_ptable (alter (on_tf (set_eax v)) i (ptable (ks s))) (ks s)) s
  | None => s
  end.

(** ** trap.c *)

Definition is_user (f : trapframe) : bool := Z.land (cs f) 3 =? DPL_USER.

(** if(proc && proc->killed && (tf->cs&3) == DPL_USER) exit(); *)
Definition exit_if_killed (f : trapframe) : T unit :=
  c <~ gets (fun s => curproc (ks s));;;
  match c with
  | None => ret tt
  | Some _ => p <~ onks cur;;; when (killed p && is_user f) (onks exit)
  end.

Definition clock_tick : T unit :=
  onks (acquire_l TICKSLOCK);;;
  modify (fun s => set_ticks (u32 (ticks s + 1)) s);;;
  onks (wakeup (Some ChTicks));;;
  onks (release_l TICKSLOCK).

(** The switch on the trap number. *)
Definition trap_switch (f : trapframe) : T unit :=
  let n := trapno f in
  if n =? T_IRQ0 + IRQ_TIMER then
    c <~ gets (fun s => id (this_cpu (lks (ks s))));;;
    when (c =? 0)%nat clock_tick;;;
    dev LAPICEOI
  else if n =? T_IRQ0 + IRQ_IDE then dev IDEINTR;;; dev LAPICEOI
  else if n =? T_IRQ0 + IRQ_IDE + 1 then ret tt
  else if n =? T_IRQ0 + IRQ_KBD then dev KBDINTR;;; dev LAPICEOI
  else if n =? T_IRQ0 + IRQ_COM1 then dev UARTINTR;;; dev LAPICEOI
  else if (n =? T_IRQ0 + 7) || (n =? T_IRQ0 + IRQ_SPURIOUS) then dev CPRINTF;;; dev LAPICEOI
  else
    c <~ gets (fun s => curproc (ks s));;;
    match c with
    | None => dev CPRINTF;;; panic "trap"
    | Some _ =>
        if Z.land (cs f) 3 =? 0 then dev CPRINTF;;; panic "trap" else
        dev CPRINTF;;;
        onks (upd_cur (set_killed true))
    end.

(** [tf] is the address of the frame [f] on the kernel stack. *)
Definition trap (tf : Z) (f : trapframe) : T unit :=
  if trapno f =? T_SYSCALL then
    p <~ onks cur;;;
    when (killed p) (onks exit);;;
    onks (upd_cur (set_tf tf));;;
    onks (upd_cur (set_tfv f));;;
    syscall proc_call cur_eax set_cur_eax;;;
    p <~ onks cur;;;
    when (killed p) (onks exit)
  else
    trap_switch f;;;
    exit_if_killed f;;;
    c <~ gets (fun s => curproc (ks s));;;
    (match c with
     | None => ret tt
     | Some _ =>
         p <~ onks cur;;;
         when (is_state RUNNING p && (trapno f =? T_IRQ0 + IRQ_TIMER)) (onks yield)
     end);;;
    exit_if_killed f.

(** The rest of [trap] after its [yield]. *)
Definition trap_resume (ena : bool) (f : trapframe) : T unit :=
  onks (yield_resume ena);;;
  exit_if_killed f.
End Threads.
End Calls.
