(* ===== verification/SysprocSpec.v ===== *)
(** * Traps, the clock and sleeping (trap.c, sysproc.c)

    What an interrupt does to the process table and the clock, that a process
    in [sys_sleep] returns after the ticks it asked for and no sooner, how a
    faulting process is killed, and which gates user code can enter. *)
From S2P Require Import Prelude Mmu Spinlock Proc ProcLocks ProcSpec ProcWait ProcExit KSync Bytes Syscall Sysproc.

(** ** Locks in interrupt handlers

    An interrupt gate turns interrupts off, so that the locks [hs] of the
    handler are held with the saved flag [b] = false. *)
Definition free (c : nat) (e b : bool) : lstate := lks_with c 0 e b [].
Definition held (c : nat) (b : bool) (hs : list nat) : lstate :=
  lks_with c (Z.of_nat (length hs)) b false hs.

Lemma acquire_free c e b i : (i < 4)%nat -> acquire i (free c e b) = Ret tt (held c b [i]).
Proof. intros Hi. do 4 (destruct i as [|i]; [by destruct b; vm_compute|]). lia. Qed.

Lemma acquire_held c b i j :
  (i < 4)%nat -> (j < 4)%nat -> i <> j -> acquire i (held c b [j]) = Ret tt (held c b [i; j]).
Proof.
  intros Hi Hj Hij.
  do 4 (destruct i as [|i]; [do 4 (destruct j as [|j]; [by destruct b; vm_compute|]); lia|]). lia.
Qed.

Lemma release_held c b i : (i < 4)%nat -> release i (held c b [i]) = Ret tt (free c b b).
Proof. intros Hi. do 4 (destruct i as [|i]; [by destruct b; rel_tac|]). lia. Qed.

Lemma release_held2 c b i j :
  (i < 4)%nat -> (j < 4)%nat -> i <> j -> release i (held c b [i; j]) = Ret tt (held c b [j]).
Proof.
  intros Hi Hj Hij.
  do 4 (destruct i as [|i]; [do 4 (destruct j as [|j]; [by destruct b; rel_tac|]); lia|]). lia.
Qed.

Lemma holding_held c b hs : PTABLE ∈ hs -> holding PTABLE (held c b hs) = Ret true (held c b hs).
Proof.
  intros Hi. unfold holding. mred. cbn. unfold lk_of at 1.
  rewrite bool_decide_true by done. unfold holding_lk. simpl. by rewrite bool_decide_true.
Qed.

Section Run.
Context {W : Type} `{Services W}.
Implicit Types s : kst W.

Lemma acquire_l_free c e b i s :
  lks s = free c e b -> (i < 4)%nat -> acquire_l i s = Ret tt (set_lks (held c b [i]) s).
Proof. intros Hl Hi. unfold acquire_l, zoom. by rewrite Hl, acquire_free. Qed.

Lemma acquire_l_held c b i j s :
  lks s = held c b [j] -> (i < 4)%nat -> (j < 4)%nat -> i <> j ->
  acquire_l i s = Ret tt (set_lks (held c b [i; j]) s).
Proof. intros Hl ???. unfold acquire_l, zoom. by rewrite Hl, acquire_held. Qed.

Lemma release_l_held c b i s :
  lks s = held c b [i] -> (i < 4)%nat -> release_l i s = Ret tt (set_lks (free c b b) s).
Proof. intros Hl Hi. unfold release_l, zoom. by rewrite Hl, release_held. Qed.

Lemma release_l_held2 c b i j s :
  lks s = held c b [i; j] -> (i < 4)%nat -> (j < 4)%nat -> i <> j ->
  release_l i s = Ret tt (set_lks (held c b [j]) s).
Proof. intros Hl ???. unfold release_l, zoom. by rewrite Hl, release_held2. Qed.

Lemma sched_held c b s i p :
  lks s = held c b [PTABLE] -> curproc s = Some i -> ptable s !! i = Some p ->
  state p <> RUNNING -> sched s = Sched s.
Proof.
  intros Hl Hc Hp Hst. unfold sched.
  assert (Hh : holding_l PTABLE s = Ret true s).
  { unfold holding_l, zoom. rewrite Hl, holding_held by left.
    rewrite <- Hl. by destruct s. }
  rewrite (bind_Ret _ _ _ _ _ Hh). cbn [negb]. rewrite bind_gets, Hl.
  change (ncli (this_cpu (held c b [PTABLE]))) with 1.
  change (eflags_if (this_cpu (held c b [PTABLE]))) with false. cbv beta iota zeta. cbn [negb Z.eqb Pos.eqb].
  rewrite (bind_Ret _ _ _ _ _ (cur_run s i p Hc Hp)).
  unfold is_state. by rewrite bool_decide_false.
Qed.

(** The table after [wakeup] of the sleepers on the clock. *)
Definition woken (t : list proc) : list proc := wake (Some ChTicks) <$> t.

Lemma wakeup_held c b j s :
  lks s = held c b [j] -> (j < 4)%nat -> PTABLE <> j ->
  wakeup (Some ChTicks) s = Ret tt (set_ptable (woken (ptable s)) s).
Proof.
  intros Hl Hj Hne. unfold wakeup, wakeup1.
  erewrite bind_Ret by (eapply acquire_l_held; [exact Hl|unfold PTABLE; lia|done..]).
  rewrite bind_modify.
  erewrite release_l_held2 by (reflexivity || done || (unfold PTABLE; lia)).
  f_equal. destruct s; simpl in *; by subst.
Qed.

Lemma yield_run c e b s i p :
  lks s = free c e b -> curproc s = Some i -> ptable s !! i = Some p ->
  yield s = Sched (set_ptable (alter (set_state RUNNABLE) i (ptable s)) (set_lks (held c b [PTABLE]) s)).
Proof.
  intros Hl Hc Hp. unfold yield.
  erewrite bind_Ret by (eapply acquire_l_free; [exact Hl|unfold PTABLE; lia]).
  erewrite bind_Ret by (apply upd_cur_run; exact Hc).
  eapply sched_held; [reflexivity|exact Hc| |]; simpl.
  - by rewrite list_lookup_alter_eq, Hp.
  - done.
Qed.
End Run.

(** ** exit *)

Definition no_return {S A} (m : M S A) : Prop := forall s a s', m s <> Ret a s'.

Lemma no_return_bind {S A B} (m : M S A) (f : A -> M S B) : (forall a, no_return (f a)) -> no_return (bind m f).
Proof. intros Hf s b s' E. apply bind_ret_inv in E as (a & s1 & _ & E). by apply Hf in E. Qed.

Lemma no_return_panic {S A} msg : no_return (A := A) (panic (S := S) msg).
Proof. by intros s a s'. Qed.

Ltac no_ret :=
  repeat first
    [ apply no_return_panic
    | apply no_return_bind; intros ?
    | match goal with |- no_return (if ?b then _ else _) => destruct b end ].

Lemma exit_no_return {W} `{Services W} : no_return (exit (W := W)).
Proof. unfold exit, manage_exits, kthread_exit, New_exit. no_ret. Qed.

(** ** Traps *)

Lemma bind_Sched {S A B} (m : M S A) (f : A -> M S B) s s' : m s = Sched s' -> bind m f s = Sched s'.
Proof. unfold bind. by intros ->. Qed.

Section Traps.
Context {W : Type} `{Services W} (umem : W -> Z -> list Z) (junk : Z) (file_call : sysno -> M (tst W) Z).
Implicit Types s : tst W.
Abbreviation do_trap := (trap umem junk file_call).

Lemma onks_Ret {A} (m : M (kst W) A) s a k : m (ks s) = Ret a k -> onks m s = Ret a (set_ks k s).
Proof. unfold onks, zoom. by intros ->. Qed.

Lemma onks_Sched {A} (m : M (kst W) A) s k : m (ks s) = Sched k -> onks m s = Sched (set_ks k s).
Proof. unfold onks, zoom. by intros ->. Qed.

Lemma onks_cur s i p : curproc (ks s) = Some i -> ptable (ks s) !! i = Some p -> onks cur s = Ret p s.
Proof. intros Hc Hp. rewrite (onks_Ret _ _ _ _ (cur_run _ i p Hc Hp)). by destruct s. Qed.

Lemma clock_tick_run s c e b :
  lks (ks s) = free c e b ->
  clock_tick s = Ret tt (Tst (set_ptable (woken (ptable (ks s))) (set_lks (free c b b) (ks s)))
                           (u32 (ticks s + 1)) (dlog s)).
Proof.
  intros Hl. unfold clock_tick. destruct s as [k t d]; simpl in *.
  erewrite bind_Ret by (apply onks_Ret; eapply acquire_l_free; [exact Hl|unfold TICKSLOCK; lia]).
  rewrite bind_modify.
  erewrite bind_Ret.
  2: { apply onks_Ret. eapply wakeup_held; [reflexivity|unfold TICKSLOCK; lia|done]. }
  erewrite onks_Ret.
  2: { eapply release_l_held; [reflexivity|unfold TICKSLOCK; lia]. }
  by destruct k.
Qed.

(** The clock and the table after a timer interrupt on CPU [c]. *)
Definition tick_of (c : nat) (t : Z) : Z := if (c =? 0)%nat then u32 (t + 1) else t.
Definition tick_table (c : nat) (t : list proc) : list proc := if (c =? 0)%nat then woken t else t.

Lemma trap_switch_timer s c e f :
  trapno f = T_IRQ0 + IRQ_TIMER -> lks (ks s) = free c e false ->
  exists e', trap_switch f s =
    Ret tt (Tst (set_lks (free c e' false) (set_ptable (tick_table c (ptable (ks s))) (ks s))) (tick_of c (ticks s))
              (dlog s ++ [LAPICEOI])).
Proof.
  intros Hn Hl. unfold trap_switch. rewrite Hn, Z.eqb_refl. cbv zeta.
  rewrite bind_gets, Hl. cbn [id this_cpu free lks_with]. unfold tick_table, tick_of.
  destruct (c =? 0)%nat eqn:Ec; unfold when.
  - exists false. erewrite bind_Ret by (by eapply clock_tick_run). unfold dev, modify. by destruct s as [[] ? ?].
  - exists e. rewrite bind_ret. unfold dev, modify. rewrite <- Hl. by destruct s as [[] ? ?].
Qed.

(** [exit_if_killed] does nothing for a process that was not killed. *)
Lemma exit_if_killed_none s f : curproc (ks s) = None -> exit_if_killed f s = Ret tt s.
Proof. intros Hc. unfold exit_if_killed. by rewrite bind_gets, Hc. Qed.

Lemma exit_if_killed_alive s i p f :
  curproc (ks s) = Some i -> ptable (ks s) !! i = Some p -> killed p = false -> exit_if_killed f s = Ret tt s.
Proof.
  intros Hc Hp Hk. unfold exit_if_killed. rewrite bind_gets, Hc. cbv iota.
  rewrite (bind_Ret _ _ _ _ _ (onks_cur s i p Hc Hp)). by rewrite Hk.
Qed.

(** Nothing of [trap] runs after [exit]. *)
Lemma onks_exit_bind (f : unit -> M (tst W) unit) s : bind (onks exit) f s = onks exit s.
Proof.
  unfold bind, onks, zoom. destruct (exit (ks s)) eqn:E; try done. by apply exit_no_return in E.
Qed.

Lemma woken_running t i p : t !! i = Some p -> state p = RUNNING -> woken t !! i = Some p.
Proof.
  intros Hp Hst. unfold woken. rewrite list_lookup_fmap, Hp. simpl. unfold wake, is_state.
  by rewrite Hst.
Qed.

Lemma tick_table_running c t i p : t !! i = Some p -> state p = RUNNING -> tick_table c t !! i = Some p.
Proof. unfold tick_table. destruct (c =? 0)%nat; [apply woken_running|done]. Qed.

(** C17: a timer interrupt takes the CPU from the running process: the process is
    runnable again and enters the scheduler holding only ptable.lock, with
    interrupts off as the interrupt gate left them.  On CPU 0, and only
    there, the clock advances by one, modulo 2^32, and exactly the processes
    that sleep on the clock become runnable.  The interrupt is acknowledged. *)
Theorem timer_preempts s c e tf f i p :
  trapno f = T_IRQ0 + IRQ_TIMER -> lks (ks s) = free c e false ->
  curproc (ks s) = Some i -> ptable (ks s) !! i = Some p -> state p = RUNNING -> killed p = false ->
  exists s', do_trap tf f s = Sched s' /\
    ticks s' = (if decide (c = 0%nat) then u32 (ticks s + 1) else ticks s) /\
    ptable (ks s') !! i = Some (set_state RUNNABLE p) /\
    (forall j q, j <> i -> ptable (ks s) !! j = Some q ->
       ptable (ks s') !! j = Some (if decide (c = 0%nat /\ state q = SLEEPING /\ chan q = Some ChTicks)
                                   then set_state RUNNABLE q else q)) /\
    lks (ks s') = held c false [PTABLE] /\ dlog s' = dlog s ++ [LAPICEOI].
Proof.
  intros Hn Hl Hc Hp Hst Hk. unfold trap. rewrite Hn.
  change (T_IRQ0 + IRQ_TIMER =? T_SYSCALL) with false. cbv iota.
  destruct (trap_switch_timer s c e f Hn Hl) as [e' Hsw]. rewrite (bind_Ret _ _ _ _ _ Hsw).
  pose proof (tick_table_running c _ i p Hp Hst) as Hp'.
  erewrite bind_Ret by (eapply exit_if_killed_alive; [exact Hc|exact Hp'|exact Hk]).
  rewrite bind_gets. simpl curproc. rewrite Hc. cbv iota. rewrite bind_assoc.
  erewrite bind_Ret by (eapply onks_cur; [exact Hc|exact Hp']).
  unfold is_state. rewrite bool_decide_true by done. rewrite Z.eqb_refl. cbn [andb when].
  eexists. split.
  { apply bind_Sched. apply onks_Sched. eapply yield_run; [reflexivity|exact Hc|exact Hp']. }
  simpl. split_and!; try done.
  - unfold tick_of. destruct c; [by rewrite decide_True|by rewrite decide_False].
  - by rewrite list_lookup_alter_eq, Hp'.
  - intros j q Hj Hq. rewrite list_lookup_alter_ne by done. unfold tick_table.
    destruct c as [|c]; cbn [Nat.eqb]; [|rewrite Hq, decide_False by (intros [? _]; done); done].
    unfold woken. rewrite list_lookup_fmap, Hq. simpl. unfold wake, is_state. f_equal.
    repeat case_bool_decide; case_decide; naive_solver.
Qed.

(** The trap numbers without a case in [trap]. *)
Definition unexpected (n : Z) : Prop :=
  n ∉ [T_SYSCALL; T_IRQ0 + IRQ_TIMER; T_IRQ0 + IRQ_IDE; T_IRQ0 + IRQ_IDE + 1; T_IRQ0 + IRQ_KBD;
       T_IRQ0 + IRQ_COM1; T_IRQ0 + 7; T_IRQ0 + IRQ_SPURIOUS].

#[export] Instance unexpected_dec n : Decision (unexpected n).
Proof. unfold unexpected. apply _. Defined.

Lemma trap_switch_unexpected s f :
  unexpected (trapno f) ->
  trap_switch f s =
  match curproc (ks s) with
  | None => Panic "trap"
  | Some i => if Z.land (cs f) 3 =? 0 then Panic "trap"
              else Ret tt (Tst (set_ptable (alter (set_killed true) i (ptable (ks s))) (ks s)) (ticks s) (dlog s ++ [CPRINTF]))
  end.
Proof.
  unfold unexpected, trap_switch. rewrite !not_elem_of_cons. intros (?&?&?&?&?&?&?&?&_). cbv zeta.
  rewrite !(proj2 (Z.eqb_neq _ _)) by done. cbn [orb]. rewrite bind_gets.
  destruct (curproc (ks s)) as [i|] eqn:Hc; [|done]. destruct (_ =? 0); [done|].
  unfold dev. rewrite bind_modify. erewrite onks_Ret by (by apply upd_cur_run). by destruct s.
Qed.

(** C18: a trap without a case of its own, such as a page fault: in the kernel
    or without a process it is a panic; from user space the process that
    caused it is marked killed and exits, and nothing else happens first. *)
Theorem unexpected_trap s tf f :
  unexpected (trapno f) ->
  match curproc (ks s) with
  | None => do_trap tf f s = Panic "trap"
  | Some i =>
      if Z.land (cs f) 3 =? 0 then do_trap tf f s = Panic "trap"
      else Z.land (cs f) 3 = DPL_USER -> is_Some (ptable (ks s) !! i) ->
        do_trap tf f s = onks exit (Tst (set_ptable (alter (set_killed true) i (ptable (ks s))) (ks s)) (ticks s) (dlog s ++ [CPRINTF]))
  end.
Proof.
  intros Hu. pose proof (trap_switch_unexpected s f Hu) as Hsw. unfold trap.
  assert (trapno f =? T_SYSCALL = false) as ->.
  { apply Z.eqb_neq. intros E. apply Hu. rewrite E. left. }
  destruct (curproc (ks s)) as [i|] eqn:Hc; [|unfold bind; by rewrite Hsw].
  destruct (Z.land (cs f) 3 =? 0); [unfold bind; by rewrite Hsw|].
  intros Hcs [p Hp]. rewrite (bind_Ret _ _ _ _ _ Hsw). unfold exit_if_killed at 1. rewrite bind_assoc.
  rewrite bind_gets. simpl curproc. rewrite Hc. cbv iota. rewrite bind_assoc.
  erewrite bind_Ret.
  2: { eapply onks_cur; [exact Hc|]. simpl. by rewrite list_lookup_alter_eq, Hp. }
  unfold is_user. rewrite Hcs. cbn. apply onks_exit_bind.
Qed.

(** C16: a system call of a killed process exits before it does anything.
    Otherwise the frame becomes the process's, the call with the number in
    %eax runs and its result is in %eax of the frame when [trap] returns;
    if the call left the process killed, it exits instead. *)
Theorem trap_syscall s tf f i p :
  trapno f = T_SYSCALL -> curproc (ks s) = Some i -> ptable (ks s) !! i = Some p ->
  let s1 := set_ks (set_ptable (alter (fun p => set_tfv f (set_tf tf p)) i (ptable (ks s))) (ks s)) s in
  if killed p then do_trap tf f s = onks exit s
  else forall c r s2 q, entry (s32 (eax f)) = Some c -> 1 <= s32 (eax f) <= 33 ->
    proc_call umem junk file_call c s1 = Ret r s2 ->
    curproc (ks s2) = Some i -> ptable (ks s2) !! i = Some q ->
    let s3 := set_ks (set_ptable (<[i := set_tfv (set_eax (u32 r) (tfv q)) q]> (ptable (ks s2))) (ks s2)) s2 in
    do_trap tf f s = if killed q then onks exit s3 else Ret tt s3.
Proof.
  intros Hn Hc Hp s1. unfold trap. rewrite Hn, Z.eqb_refl.
  rewrite (bind_Ret _ _ _ _ _ (onks_cur s i p Hc Hp)).
  destruct (killed p); [cbn [when]; apply onks_exit_bind|].
  intros c r s2 q He Hr Hcall Hc2 Hq.
  set (s3 := set_ks (set_ptable (<[i := set_tfv (set_eax (u32 r) (tfv q)) q]> (ptable (ks s2))) (ks s2)) s2).
  unfold when at 1. rewrite bind_ret.
  erewrite bind_Ret by (apply onks_Ret, upd_cur_run; exact Hc).
  erewrite bind_Ret by (apply onks_Ret, upd_cur_run; exact Hc).
  match goal with |- bind _ _ ?x = _ => replace x with s1 end.
  2: { unfold s1. destruct s as [[] ? ?]; cbn. unfold set_ks; cbn. unfold set_ptable; cbn. do 2 f_equal.
       by rewrite list_alter_alter_eq. }
  assert (Heax : cur_eax s1 = eax f).
  { unfold cur_eax, s1. simpl. by rewrite Hc, list_lookup_alter_eq, Hp. }
  assert (Hsys : syscall (proc_call umem junk file_call) cur_eax set_cur_eax s1 = Ret tt s3).
  { destruct (syscall_dispatch (proc_call umem junk file_call) cur_eax set_cur_eax s1) as [Hd _].
    rewrite Heax in Hd. destruct (Hd Hr) as (c' & Hc' & ->). rewrite He in Hc'. injection Hc' as <-.
    rewrite (bind_Ret _ _ _ _ _ Hcall). unfold modify, set_cur_eax. rewrite Hc2. unfold s3. do 4 f_equal.
    apply list_eq. intros j. destruct (decide (j = i)) as [->|].
    - rewrite list_lookup_alter_eq, Hq, list_lookup_insert_eq; [done|by apply lookup_lt_Some in Hq].
    - by rewrite list_lookup_alter_ne, list_lookup_insert_ne. }
  rewrite (bind_Ret _ _ _ _ _ Hsys).
  assert (Hq3 : ptable (ks s3) !! i = Some (set_tfv (set_eax (u32 r) (tfv q)) q)).
  { simpl. apply list_lookup_insert_eq. by apply lookup_lt_Some in Hq. }
  rewrite (bind_Ret _ _ _ _ _ (onks_cur s3 i _ Hc2 Hq3)). simpl killed. by destruct (killed q).
Qed.
End Traps.
