(* ===== verification/SysprocTheorems.v ===== *)
(** * Sleeping for a number of ticks, and the interrupt table (sysproc.c, trap.c)

    The run of a process in [sys_sleep] through the scheduler and the timer
    interrupt, the gates of the interrupt table, and the properties of traps
    at concrete states. *)
From S2P Require Import Prelude Mmu Spinlock Proc ProcLocks ProcSpec ProcWait ProcExit KSync Bytes Syscall Sysproc SysprocSpec.

(** ** The interrupt table *)

Lemma gate_offset_SETGATE istrap sel off d :
  0 <= off < 2 ^ 32 -> gate_offset (SETGATE istrap sel off d) = off.
Proof. intros Ho. unfold gate_offset. simpl. change 0xffff with (Z.ones 16). by apply lor_split. Qed.

(** Each of the 256 gates of [tvinit] is present, enters the kernel's code
    segment at the entry point of its vector, and can be entered by an int
    instruction of user code exactly for T_SYSCALL, the one gate that leaves
    interrupts on. *)
Theorem tvinit_gates vectors i :
  (i < 256)%nat -> 0 <= vectors i < 2 ^ 32 ->
  exists g, tvinit vectors !! i = Some g /\ gate_offset g = vectors i /\ gate_cs g = 8 /\ gate_p g = 1 /\
    (gate_dpl g = DPL_USER <-> Z.of_nat i = T_SYSCALL) /\
    (gate_type g = STS_TG32 <-> Z.of_nat i = T_SYSCALL).
Proof.
  intros Hi Hv. unfold tvinit. change (Z.to_nat T_SYSCALL) with 64%nat.
  destruct (decide (i = 64%nat)) as [->|Hne].
  - rewrite list_lookup_insert_eq by (rewrite length_fmap, length_seq; lia).
    eexists. split; [reflexivity|]. split; [by apply gate_offset_SETGATE|]. done.
  - rewrite list_lookup_insert_ne by done. rewrite list_lookup_fmap.
    rewrite lookup_seq_lt by done. eexists. split; [reflexivity|].
    split; [by apply gate_offset_SETGATE|]. unfold T_SYSCALL. cbn. split_and!; try done; split; intros; lia || done.
Qed.

(** ** Sleeping *)

Section Sleep.
Context {W : Type} `{Services W} (umem : W -> Z -> list Z) (junk : Z) (file_call : sysno -> M (tst W) Z).
Implicit Types s : tst W.

(** The hardware takes an interrupt: its gate clears the interrupt flag and
    iret restores it. *)
Definition interrupt (f : trapframe) : M (tst W) unit :=
  b <~ gets (fun s => eflags_if (this_cpu (lks (ks s))));;;
  onks (zoom lks set_lks cli);;;
  trap umem junk file_call 0 f;;;
  onks (zoom lks set_lks (set_if b)).

(** A timer interrupt that arrives in the kernel. *)
Definition tick_frame : trapframe :=
  Trapframe 0 0 0 0 0 0 0 0 0 0 0 0 (T_IRQ0 + IRQ_TIMER) 0 0 8 0 0 0.

(** Process [i], which called [sys_sleep] and went to sleep, gives the CPU to
    the scheduler, which finds nothing else to run; a timer interrupt arrives
    and the next pass of the scheduler resumes whom it picks. *)
Definition nap (i : nat) (ticks0 n : Z) (o : outcome (tst W) Z) : outcome (tst W) Z :=
  match o with
  | Sched s =>
      (onks (scheduler_return i);;;
       interrupt tick_frame;;;
       r <~ onks scheduler_pass;;;
       if decide (r = Some i) then sys_sleep_resume true ticks0 n else hang) s
  | o => o
  end.

(** No entry but [i] is runnable or waits for the clock. *)
Definition others_wait (i : nat) (t : list proc) : Prop :=
  forall j q, j <> i -> t !! j = Some q ->
    state q <> RUNNABLE /\ ~ (state q = SLEEPING /\ chan q = Some ChTicks).

Definition switchkvm_ok : Prop := forall w : W, exists w', switchkvm w = Ret tt w'.

Record asleep (i : nat) (p : proc) (t : Z) s : Prop := {
  as_lks : lks (ks s) = busy 0 [PTABLE];
  as_cur : curproc (ks s) = Some i;
  as_entry : ptable (ks s) !! i = Some (set_state SLEEPING (set_chan (Some ChTicks) p));
  as_len : length (ptable (ks s)) = NPROC;
  as_others : others_wait i (ptable (ks s));
  as_ticks : ticks s = t
}.

Lemma others_alter i f t : others_wait i t -> others_wait i (alter f i t).
Proof. intros Ho j q Hj. rewrite list_lookup_alter_ne by done. by apply Ho. Qed.

(** The test of the loop of [sys_sleep], on CPU [c]: it returns, or the
    process sleeps on the clock. *)
Lemma sleep_loop_run s c i p ticks0 n :
  lks (ks s) = held c true [TICKSLOCK] -> curproc (ks s) = Some i -> ptable (ks s) !! i = Some p ->
  sleep_loop ticks0 n s =
    if u32 (ticks s - ticks0) <? u32 n then
      if killed p then Ret (-1) (set_ks (set_lks (idle c true) (ks s)) s)
      else Sched (set_ks (set_ptable (alter (fun p => set_state SLEEPING (set_chan (Some ChTicks) p)) i (ptable (ks s)))
                    (set_lks (busy c [PTABLE]) (ks s))) s)
    else Ret 0 (set_ks (set_lks (idle c true) (ks s)) s).
Proof.
  intros Hl Hc Hp. unfold sleep_loop. rewrite bind_gets.
  assert (Hrel : onks (release_l TICKSLOCK) s = Ret tt (set_ks (set_lks (idle c true) (ks s)) s)).
  { apply onks_Ret. eapply release_l_held; [exact Hl|unfold TICKSLOCK; lia]. }
  destruct (_ <? _); [|by rewrite (bind_Ret _ _ _ _ _ Hrel)].
  rewrite (bind_Ret _ _ _ _ _ (onks_cur s i p Hc Hp)). destruct (killed p); [by rewrite (bind_Ret _ _ _ _ _ Hrel)|].
  erewrite bind_Sched; [reflexivity|]. erewrite onks_Sched; [reflexivity|].
  unfold sleep. rewrite bind_gets, Hc. cbv iota.
  change (negb (TICKSLOCK =? PTABLE)%nat) with true. cbn [when]. rewrite bind_assoc.
  erewrite bind_Ret by (eapply acquire_l_held; [exact Hl|unfold PTABLE, TICKSLOCK; lia..]).
  erewrite bind_Ret by (eapply (release_l_busy2' c TICKSLOCK PTABLE); [reflexivity|unfold PTABLE, TICKSLOCK; lia..]).
  rewrite !bind_upd_proc. erewrite (sched_held c true); [|reflexivity|exact Hc| |].
  - cbn. unfold set_ptable; cbn. by rewrite list_alter_alter_eq.
  - simpl. by rewrite list_alter_alter_eq, list_lookup_alter_eq, Hp.
  - done.
Qed.

Lemma sleep_loop_sleeps s i p ticks0 n t :
  lks (ks s) = held 0 true [TICKSLOCK] -> curproc (ks s) = Some i -> ptable (ks s) !! i = Some p ->
  killed p = false -> length (ptable (ks s)) = NPROC -> others_wait i (ptable (ks s)) -> ticks s = t ->
  u32 (t - ticks0) < u32 n -> exists s', sleep_loop ticks0 n s = Sched s' /\ asleep i p t s'.
Proof.
  intros Hl Hc Hp Hk Hlen Ho Ht Hlt. eexists. split.
  { rewrite (sleep_loop_run s 0 i p ticks0 n Hl Hc Hp), Ht, (proj2 (Z.ltb_lt _ _)) by done. by rewrite Hk. }
  split; simpl; try done.
  - by rewrite list_lookup_alter_eq, Hp.
  - by rewrite length_alter.
  - by apply others_alter.
Qed.

Lemma u32_since t0 j : 0 <= t0 < 2 ^ 32 -> 0 <= j < 2 ^ 32 -> u32 (u32 (t0 + j) - t0) = j.
Proof. intros. unfold u32. rewrite Zminus_mod_idemp_l. replace (t0 + j - t0) with j by lia. by apply Z.mod_small. Qed.

(** *** Sleeping among other processes

    While process [i] does not run, the other processes and the interrupt
    handlers may change everything but its entry of the table, in which it is
    woken up and perhaps killed; [d] clock ticks go by, and then the scheduler
    of some CPU switches to it, holding ptable.lock. *)
Definition runs_again (i : nat) (d : Z) s s1 : Prop :=
  0 <= d /\ ticks s1 = u32 (ticks s + d) /\ curproc (ks s1) = Some i /\
  (exists c e, lks (ks s1) = held c e [PTABLE]) /\
  (exists p k, ptable (ks s) !! i = Some p /\ ptable (ks s1) !! i = Some (set_killed k (set_state RUNNING p))).

(** From outcome [o], the process was resumed once for each of [ds], that
    many ticks later each time. *)
Inductive sleep_rounds (i : nat) (ticks0 n : Z) : outcome (tst W) Z -> list Z -> outcome (tst W) Z -> Prop :=
| rounds_end o : sleep_rounds i ticks0 n o [] o
| rounds_resume s s1 d ds o :
    runs_again i d s s1 -> sleep_rounds i ticks0 n (sys_sleep_resume true ticks0 n s1) ds o ->
    sleep_rounds i ticks0 n (Sched s) (d :: ds) o.

Definition sum_ticks : list Z -> Z := foldr Z.add 0.

(** What [sys_sleep] has come to when its loop was at its test [t] ticks after
    the call and was resumed after [ds] more. *)
Definition sleep_outcome (i : nat) (n t : Z) (ds : list Z) (o : outcome (tst W) Z) : Prop :=
  match o with
  | Sched s' => t + sum_ticks ds < u32 n /\ exists c q, lks (ks s') = busy c [PTABLE] /\
      ptable (ks s') !! i = Some q /\ state q = SLEEPING /\ chan q = Some ChTicks
  | Ret r s' => (forall ds' d, ds = ds' ++ [d] -> t + sum_ticks ds' < u32 n) /\ (exists c, lks (ks s') = idle c true) /\
      if t + sum_ticks ds <? u32 n then r = -1 /\ exists q, ptable (ks s') !! i = Some q /\ killed q = true else r = 0
  | _ => False
  end.

Lemma sleep_resume_run s s1 i d ticks0 n :
  runs_again i d s s1 ->
  exists c s2 p, sys_sleep_resume true ticks0 n s1 = sleep_loop ticks0 n s2 /\
    lks (ks s2) = held c true [TICKSLOCK] /\ curproc (ks s2) = Some i /\ ptable (ks s2) !! i = Some p /\
    ticks s2 = u32 (ticks s + d).
Proof.
  intros (Hd & Ht & Hc & (c & e & Hl) & p & k & _ & Hp).
  eexists c, _, _. split_and!.
  - apply (bind_Ret _ (fun _ => sleep_loop ticks0 n) _ tt). apply onks_Ret. unfold sleep_resume, sched_resume.
    erewrite bind_Ret by (unfold zoom; rewrite Hl; reflexivity).
    erewrite bind_Ret by (apply upd_cur_run; exact Hc).
    change (negb (TICKSLOCK =? PTABLE)%nat) with true. cbn [when].
    erewrite bind_Ret by (eapply release_l_busy1; [reflexivity|unfold PTABLE; lia]).
    eapply acquire_l_idle; [reflexivity|unfold TICKSLOCK; lia].
  - done.
  - done.
  - simpl. by rewrite list_lookup_alter_eq, Hp.
  - done.
Qed.

(** The outcome of the test itself. *)
Lemma sleep_loop_outcome i ticks0 n s c p t :
  lks (ks s) = held c true [TICKSLOCK] -> curproc (ks s) = Some i -> ptable (ks s) !! i = Some p ->
  0 <= ticks0 < 2 ^ 32 -> 0 <= t < 2 ^ 32 -> ticks s = u32 (ticks0 + t) ->
  sleep_outcome i n t [] (sleep_loop ticks0 n s) /\
  forall s', sleep_loop ticks0 n s = Sched s' -> ticks s' = u32 (ticks0 + t).
Proof.
  intros Hl Hc Hp H0 Ht Hts. rewrite (sleep_loop_run s c i p ticks0 n Hl Hc Hp), Hts, u32_since by done.
  destruct (Z.ltb_spec t (u32 n)) as [Hlt|Hge]; [destruct (killed p) eqn:Hk|]; (split; [|intros s' E]); try done.
  - split; [|split; [by eexists|]]. { intros ds' d E. by destruct ds'. }
    simpl. rewrite (proj2 (Z.ltb_lt _ _)) by lia. split; [done|]. by exists p.
  - split; [simpl; lia|]. eexists c, _. split; [done|]. simpl. by rewrite list_lookup_alter_eq, Hp.
  - injection E as <-. done.
  - split; [|split; [by eexists|]]. { intros ds' d E. by destruct ds'. }
    simpl. by rewrite (proj2 (Z.ltb_ge _ _)) by lia.
Qed.

Lemma sleep_outcome_cons i n t d ds o :
  t < u32 n -> sleep_outcome i n (t + d) ds o -> sleep_outcome i n t (d :: ds) o.
Proof.
  unfold sleep_outcome. simpl. rewrite Z.add_assoc. destruct o as [r s'| |s'| |]; try done.
  intros Ht (Hp & Hx). split; [|done]. intros [|d' ds'] d1; simpl; intros [= -> E]; [lia|].
  rewrite Z.add_assoc. eauto.
Qed.

Lemma sleep_rounds_outcome i ticks0 n ds : forall s c p t o,
  lks (ks s) = held c true [TICKSLOCK] -> curproc (ks s) = Some i -> ptable (ks s) !! i = Some p ->
  0 <= ticks0 < 2 ^ 32 -> 0 <= t -> ticks s = u32 (ticks0 + t) -> t + sum_ticks ds < 2 ^ 32 ->
  Forall (fun d => 0 <= d) ds -> sleep_rounds i ticks0 n (sleep_loop ticks0 n s) ds o -> sleep_outcome i n t ds o.
Proof.
  assert (Hsum : forall l, Forall (fun d => 0 <= d) l -> 0 <= sum_ticks l) by (induction 1; simpl; lia).
  induction ds as [|d ds IH]; intros s c p t o Hl Hc Hp H0 Ht Hts Hlt Hds Hr.
  all: pose proof (Hsum _ Hds); destruct (sleep_loop_outcome i ticks0 n s c p t Hl Hc Hp H0 ltac:(lia) Hts) as [Ho Hsch].
  { by inversion Hr; subst. }
  apply Forall_cons in Hds as [Hd Hds]. pose proof (Hsum _ Hds). simpl in Hlt.
  inversion Hr as [|s0 s1 ? ? ? Hres Hrest Es]; subst. rewrite <- Es in Ho, Hsch. specialize (Hsch s0 eq_refl).
  destruct (sleep_resume_run s0 s1 i d ticks0 n Hres) as (c2 & s2 & p2 & E2 & L2 & C2 & P2 & T2). rewrite E2 in Hrest.
  apply sleep_outcome_cons; [destruct Ho as [Ho _]; simpl in Ho; lia|].
  eapply IH; try done; [lia| |lia]. rewrite T2, Hsch, u32_add_l. f_equal. lia.
Qed.

Lemma sleep_rounds_nonneg i ticks0 n o ds o' : sleep_rounds i ticks0 n o ds o' -> Forall (fun d => 0 <= d) ds.
Proof. induction 1 as [|s s1 d ds o [Hd _]]; by constructor. Qed.

(** The interrupt while the scheduler is idle. *)
Lemma interrupt_idle s e :
  lks (ks s) = idle 0 e -> curproc (ks s) = None ->
  exists e', interrupt tick_frame s =
    Ret tt (Tst (set_lks (idle 0 e') (set_ptable (woken (ptable (ks s))) (ks s))) (u32 (ticks s + 1)) (dlog s ++ [LAPICEOI])).
Proof.
  intros Hl Hc. unfold interrupt. rewrite bind_gets, Hl. cbn [eflags_if this_cpu idle lks_with].
  assert (Hcli : onks (zoom lks set_lks cli) s = Ret tt (set_ks (set_lks (free 0 e false) (ks s)) s)).
  { apply onks_Ret. unfold zoom. by rewrite Hl. }
  rewrite (bind_Ret _ _ _ _ _ Hcli). unfold trap.
  change (trapno tick_frame =? T_SYSCALL) with false. cbv iota.
  destruct (trap_switch_timer (set_ks (set_lks (free 0 e false) (ks s)) s) 0 e tick_frame eq_refl eq_refl) as [e' Hsw].
  rewrite !bind_assoc, (bind_Ret _ _ _ _ _ Hsw), !bind_assoc.
  erewrite bind_Ret by (by apply exit_if_killed_none). rewrite bind_assoc, bind_gets. simpl curproc. rewrite Hc. cbv iota.
  rewrite bind_assoc, bind_ret. erewrite bind_Ret by (by apply exit_if_killed_none).
  exists e'. erewrite onks_Ret by reflexivity. by destruct s as [[] ? ?].
Qed.

Lemma others_wait_first i t :
  (i < length t)%nat -> others_wait i t -> find_first (is_state RUNNABLE) (alter (set_state RUNNABLE) i t) = Some i.
Proof.
  intros Hi Ho. apply find_first_Some. split.
  - apply lookup_lt_is_Some_2 in Hi as [p Hp]. exists (set_state RUNNABLE p).
    by rewrite list_lookup_alter_eq, Hp.
  - intros j q Hj. rewrite list_lookup_alter_ne by lia. intros Hq.
    apply bool_decide_false. by apply (Ho j q); [lia|].
Qed.

(** Only process [i] wakes up. *)
Lemma woken_alone i p t :
  t !! i = Some (set_state SLEEPING (set_chan (Some ChTicks) p)) -> others_wait i t ->
  woken t = alter (set_state RUNNABLE) i t.
Proof.
  intros Hp Ho. apply list_eq. intros j. unfold woken. rewrite list_lookup_fmap.
  destruct (decide (j = i)) as [->|Hj].
  - by rewrite list_lookup_alter_eq, Hp.
  - rewrite list_lookup_alter_ne by done. destruct (t !! j) as [q|] eqn:Hq; [|done]. simpl. f_equal.
    destruct (Ho j q Hj Hq) as [_ Hn]. unfold wake, is_state.
    destruct (bool_decide (state q = SLEEPING)) eqn:E1; [|done].
    destruct (bool_decide (chan q = Some ChTicks)) eqn:E2; [|done].
    apply bool_decide_eq_true in E1, E2. by destruct Hn.
Qed.

Lemma scheduler_pass_alone (s : kst W) e i p :
  lks s = idle 0 e -> length (ptable s) = NPROC -> switchuvm_ok -> pgdir p <> 0 ->
  ptable s !! i = Some (set_state SLEEPING (set_chan (Some ChTicks) p)) -> others_wait i (ptable s) ->
  exists s' : kst W, scheduler_pass (set_ptable (woken (ptable s)) s) = Ret (Some i) s' /\ curproc s' = Some i /\
    lks s' = busy 0 [PTABLE] /\ ptable s' = alter (set_state RUNNING) i (ptable s).
Proof.
  intros Hl Hlen Hsw Hpg Hp Ho. pose proof (woken_alone i p _ Hp Ho) as Hw.
  pose proof (scheduler_pass_run (set_ptable (woken (ptable s)) s) 0 e) as Hrun.
  cbn [ptable set_ptable lks] in Hrun. rewrite Hw in Hrun |- *.
  rewrite (others_wait_first i) in Hrun by (done || by eapply lookup_lt_Some).
  destruct Hrun as (s' & Hr & Hc & Hlk & Ht); [done|by rewrite length_alter| |done|].
  - intros j q. destruct (decide (j = i)) as [->|Hj].
    + rewrite list_lookup_alter_eq, Hp. by intros [= <-].
    + rewrite list_lookup_alter_ne by done. intros Hq Hst. by destruct (Ho j q Hj Hq).
  - exists s'. split_and!; try done. rewrite Ht, list_alter_alter_eq. apply list_alter_ext; [|done].
    intros x _. done.
Qed.

(** One nap: the clock advances and the loop of [sys_sleep] is at its test. *)
Lemma nap_run i p t ticks0 n s :
  switchuvm_ok -> switchkvm_ok -> pgdir p <> 0 -> asleep i p t s ->
  exists s', nap i ticks0 n (Sched s) = sleep_loop ticks0 n s' /\
    lks (ks s') = held 0 true [TICKSLOCK] /\ curproc (ks s') = Some i /\
    ptable (ks s') !! i = Some (set_chan None (set_state RUNNING p)) /\
    length (ptable (ks s')) = NPROC /\ others_wait i (ptable (ks s')) /\ ticks s' = u32 (t + 1).
Proof.
  intros Hsu Hsk Hpg [Hl Hc Hp Hlen Ho Ht]. unfold nap. destruct (Hsk (world (ks s))) as [w Hw].
  assert (Hret : scheduler_return i (ks s) = Ret None (set_lks (idle 0 true) (set_curproc None (set_world w (ks s))))).
  { apply scheduler_return_none; try done. intros j q Hj Hq. by apply (Ho j q); [lia|]. }
  rewrite (bind_Ret _ _ _ _ _ (onks_Ret _ _ _ _ Hret)).
  edestruct (interrupt_idle (set_ks (set_lks (idle 0 true) (set_curproc None (set_world w (ks s)))) s) true) as [e Hi]; [done|done|].
  rewrite (bind_Ret _ _ _ _ _ Hi).
  destruct (scheduler_pass_alone (set_lks (idle 0 e) (set_curproc None (set_world w (ks s)))) e i p)
    as (k & Hk & Hkc & Hkl & Hkt); try done.
  erewrite bind_Ret.
  2: { apply onks_Ret. etransitivity; [|exact Hk]. by destruct s as [[] ? ?]. }
  cbv beta. rewrite decide_True by done. unfold sys_sleep_resume.
  cbn [ptable set_lks set_curproc set_world] in Hkt.
  eexists. split.
  { apply (bind_Ret _ (fun _ => sleep_loop ticks0 n) _ tt). apply onks_Ret. unfold sleep_resume, sched_resume.
    erewrite bind_Ret by (unfold zoom; cbn [ks set_ks]; rewrite Hkl; reflexivity).
    erewrite bind_Ret by (apply upd_cur_run; exact Hkc).
    change (negb (TICKSLOCK =? PTABLE)%nat) with true. cbn [when].
    erewrite bind_Ret by (eapply release_l_busy1; [reflexivity|unfold PTABLE; lia]).
    eapply acquire_l_idle; [reflexivity|unfold TICKSLOCK; lia]. }
  simpl. rewrite Hkt. split_and!; try done.
  - by rewrite list_alter_alter_eq, list_lookup_alter_eq, Hp.
  - by rewrite !length_alter.
  - by do 2 apply others_alter.
  - by rewrite Ht.
Qed.

(** [sys_sleep] up to its first sleep or its return. *)
Lemma sys_sleep_start s e i n :
  lks (ks s) = idle 0 e -> curproc (ks s) = Some i ->
  forall p, ptable (ks s) !! i = Some p ->
  argint (user_of umem (ks s) p) 0 = Some (Some n) ->
  sys_sleep umem s = sleep_loop (ticks s) n (set_ks (set_lks (held 0 true [TICKSLOCK]) (ks s)) s).
Proof.
  intros Hl Hc p Hp Ha. unfold sys_sleep, proc_argint. rewrite bind_assoc.
  rewrite (bind_Ret _ _ _ _ _ (onks_cur s i p Hc Hp)).
  rewrite (bind_gets_opt (fun s => argint (user_of umem (ks s) p) 0) _ s _ Ha). cbv iota.
  erewrite bind_Ret by (apply onks_Ret; eapply acquire_l_idle; [exact Hl|unfold TICKSLOCK; lia]).
  by rewrite bind_gets.
Qed.

(** The process after [j] naps, as long as the requested ticks have not passed. *)
Lemma naps_asleep s e i p n (j : nat) :
  switchuvm_ok -> switchkvm_ok ->
  lks (ks s) = idle 0 e -> curproc (ks s) = Some i -> ptable (ks s) !! i = Some p ->
  state p = RUNNING -> killed p = false -> pgdir p <> 0 ->
  length (ptable (ks s)) = NPROC -> others_wait i (ptable (ks s)) ->
  argint (user_of umem (ks s) p) 0 = Some (Some n) -> 0 <= ticks s < 2 ^ 32 ->
  Z.of_nat j < u32 n ->
  exists s', Nat.iter j (nap i (ticks s) n) (sys_sleep umem s) = Sched s' /\
    asleep i p (u32 (ticks s + Z.of_nat j)) s'.
Proof.
  intros Hsu Hsk Hl Hc Hp Hst Hk Hpg Hlen Ho Ha Ht. pose proof (u32_range n) as Hn.
  rewrite (sys_sleep_start s e i n Hl Hc p Hp Ha). induction j as [|j IH]; intros Hj.
  - cbn [Nat.iter nat_rect]. replace (ticks s + Z.of_nat 0) with (ticks s) by lia. rewrite u32_small by lia.
    eapply sleep_loop_sleeps; try done. replace (ticks s - ticks s) with 0 by lia. exact Hj.
  - destruct IH as (s1 & E1 & A1); [lia|]. rewrite Nat.iter_succ, E1.
    destruct (nap_run i p _ (ticks s) n s1 Hsu Hsk Hpg A1) as (s2 & E2 & L2 & C2 & P2 & N2 & O2 & T2).
    rewrite E2. rewrite u32_add_l in T2. replace (ticks s + Z.of_nat j + 1) with (ticks s + Z.of_nat (S j)) in T2 by lia.
    destruct (sleep_loop_sleeps s2 i (set_chan None (set_state RUNNING p)) (ticks s) n (u32 (ticks s + Z.of_nat (S j))))
      as (s3 & E3 & [? ? ? ? ? ?]); try done.
    + rewrite u32_since by lia. done.
    + exists s3. split; [done|]. by split.
Qed.

(** The process returns at the tick at which the requested ticks have passed. *)
Lemma naps_return s e i p n :
  switchuvm_ok -> switchkvm_ok ->
  lks (ks s) = idle 0 e -> curproc (ks s) = Some i -> ptable (ks s) !! i = Some p ->
  state p = RUNNING -> killed p = false -> pgdir p <> 0 ->
  length (ptable (ks s)) = NPROC -> others_wait i (ptable (ks s)) ->
  argint (user_of umem (ks s) p) 0 = Some (Some n) -> 0 <= ticks s < 2 ^ 32 ->
  exists s', Nat.iter (Z.to_nat (u32 n)) (nap i (ticks s) n) (sys_sleep umem s) = Ret 0 s' /\
    ticks s' = u32 (ticks s + u32 n) /\ lks (ks s') = idle 0 true.
Proof.
  intros Hsu Hsk Hl Hc Hp Hst Hk Hpg Hlen Ho Ha Ht. pose proof (u32_range n) as Hn.
  destruct (Z.to_nat (u32 n)) as [|j] eqn:Ej.
  - cbn [Nat.iter nat_rect]. rewrite (sys_sleep_start s e i n Hl Hc p Hp Ha).
    rewrite (sleep_loop_run _ 0 i p) by done. replace (u32 n) with 0 by lia.
    pose proof (u32_range (ticks s - ticks s)). cbn [ticks set_ks]. rewrite (proj2 (Z.ltb_ge _ _)) by lia.
    eexists. split_and!; try done. cbn. by rewrite Z.add_0_r, u32_small.
  - edestruct (naps_asleep s e i p n j) as (s1 & E1 & A1); eauto; [lia|].
    rewrite Nat.iter_succ, E1.
    destruct (nap_run i p _ (ticks s) n s1 Hsu Hsk Hpg A1) as (s2 & E2 & L2 & C2 & P2 & N2 & O2 & T2). rewrite E2.
    rewrite u32_add_l in T2. replace (ticks s + Z.of_nat j + 1) with (ticks s + u32 n) in T2 by lia.
    rewrite (sleep_loop_run _ 0 i _ _ _ L2 C2 P2), T2, u32_since by lia. rewrite Z.ltb_irrefl.
    eexists. by split_and!.
Qed.

End Sleep.

(** ** The properties at concrete states *)

(** One user process runs, init waits; the user stack has the word [a] as
    the first argument. *)
Definition mem_arg (a : Z) : rworld -> Z -> list Z := fun _ _ => le4 0 ++ le4 a.
Definition shell : proc := user_proc 2 0x3000 0x4000 RUNNING (Some 0%nat) (-1).
Definition t_demo (t : Z) : tst rworld := Tst (demo 1 [shell] 3) t [].
Definition no_file_call : sysno -> M (tst rworld) Z := fun _ => ret (-1).

Definition frame_of (n c a : Z) : trapframe := Trapframe 0 0 0 0 0 0 0 a 0 0 0 0 n 0 0 c 0 0 0.

Lemma recording_switch_ok : switchuvm_ok (W := rworld) /\ switchkvm_ok (W := rworld).
Proof. split; [intros pg w _|intros w]; by eexists. Qed.

Lemma t_demo_others t : others_wait 1 (ptable (ks (t_demo t))).
Proof.
  intros j q Hj. destruct j as [|[|j]]; [intros [= <-]|done|].
  - split; [done|]. by intros [_ [=]].
  - change (ptable (ks (t_demo t)) !! S (S j)) with ((replicate 62 free_proc : list proc) !! j).
    intros [-> _]%lookup_replicate. split; [done|]. by intros [[=] _].
Qed.

(** The process runs again [d] ticks later, on CPU 2. *)
Definition later (d : Z) (s : tst rworld) : tst rworld :=
  Tst (set_lks (held 2 false [PTABLE]) (set_curproc (Some 1%nat)
    (set_ptable (alter (set_state RUNNING) 1%nat (ptable (ks s))) (ks s)))) (u32 (ticks s + d)) (dlog s).

Lemma later_resumed d s p :
  0 <= d -> ptable (ks s) !! 1%nat = Some p -> runs_again 1 d s (later d s).
Proof.
  intros Hd Hp. split_and!; try done; [by exists 2%nat, false|]. exists p, (killed p).
  split; [done|]. simpl. rewrite list_lookup_alter_eq, Hp. by destruct p.
Qed.

(** Resumed after one tick and three ticks later, it returns. *)
Lemma sleep_rounds_demo :
  exists s', sleep_rounds (W := rworld) 1 (2 ^ 32 - 1) 2 (sys_sleep (mem_arg 2) (t_demo (2 ^ 32 - 1))) [1; 3] (Ret 0 s').
Proof.
  eexists. destruct (sys_sleep (mem_arg 2) (t_demo (2 ^ 32 - 1))) as [| |s1| |] eqn:E1; try (vm_compute in E1; discriminate).
  vm_compute in E1. injection E1 as <-.
  eapply rounds_resume; [eapply later_resumed; [lia|vm_compute; reflexivity]|].
  match goal with |- sleep_rounds _ _ _ ?o _ _ => destruct o as [| |s2| |] eqn:E2 end; try (vm_compute in E2; discriminate).
  vm_compute in E2. injection E2 as <-.
  eapply rounds_resume; [eapply later_resumed; [lia|vm_compute; reflexivity]|].
  match goal with |- sleep_rounds _ _ _ ?o _ _ => destruct o as [r s3| | | |] eqn:E3 end; try (vm_compute in E3; discriminate).
  vm_compute in E3. injection E3 as <- <-. constructor.
Qed.


Lemma timer_preempts_witness :
  exists s', trap (mem_arg 0) 0 no_file_call 0 (frame_of 32 27 0)
      (set_ks (set_lks (free 0 true false) (ks (t_demo 5))) (t_demo 5)) = Sched s' /\
    ticks s' = 6 /\ ptable (ks s') !! 1%nat = Some (set_state RUNNABLE shell).
Proof.
  destruct (timer_preempts (mem_arg 0) 0 no_file_call (set_ks (set_lks (free 0 true false) (ks (t_demo 5))) (t_demo 5))
              0 true 0 (frame_of 32 27 0) 1 shell eq_refl eq_refl eq_refl eq_refl eq_refl eq_refl) as (s' & E & T' & P & _).
  exists s'. split_and!; [exact E|exact T'|exact P].
Defined.

Lemma unexpected_trap_witness :
  exists k, trap (mem_arg 0) 0 no_file_call 0 (frame_of 14 27 0) (t_demo 5) = Sched k /\
    (fun p => (state p, killed p)) <$> (ptable (ks k) !! 1%nat) = Some (ZOMBIE, true).
Proof.
  pose proof (unexpected_trap (mem_arg 0) 0 no_file_call (t_demo 5) 0 (frame_of 14 27 0)) as Hu. cbv beta in Hu.
  rewrite Hu; [|by apply (bool_decide_unpack _); vm_compute|done|by eexists].
  eexists. split; [vm_compute; reflexivity|]. vm_compute. reflexivity.
Defined.

(** getpid by process 2 *)
Lemma trap_syscall_witness :
  exists s', trap (mem_arg 0) 0 no_file_call 0x4f00 (frame_of 64 27 11) (t_demo 5) = Ret tt s' /\
    (fun p => eax (tfv p)) <$> (ptable (ks s') !! 1%nat) = Some 2.
Proof.
  pose proof (trap_syscall (mem_arg 0) 0 no_file_call (t_demo 5) 0x4f00 (frame_of 64 27 11) 1 shell
    eq_refl eq_refl eq_refl) as Ht.
  cbv zeta in Ht. change (killed shell) with false in Ht. cbv iota in Ht.
  rewrite (Ht SYS_getpid 2 _ (set_tfv (frame_of 64 27 11) (set_tf 0x4f00 shell)) eq_refl ltac:(vm_compute; split; congruence) eq_refl eq_refl eq_refl).
  eexists. split; [reflexivity|]. reflexivity.
Defined.

Lemma tvinit_gates_witness :
  gate_dpl <$> (tvinit (fun i => 0x80100000 + Z.of_nat i) !! 64%nat) = Some DPL_USER.
Proof.
  destruct (tvinit_gates (fun i => 0x80100000 + Z.of_nat i) 64) as (g & Hg & _ & _ & _ & Hd & _); [lia|lia|].
  rewrite Hg. simpl. f_equal. by apply Hd.
Defined.

(** Mutex and condition identifiers from user space are not checked
    against the size of the tables: locking mutex 64 of 64, or unlocking
    mutex -1, accesses memory outside of mtable with mtable.lock held. *)
Theorem mutex_id_unchecked :
  sys_kthread_mutex_lock (mem_arg 64) 0 (t_demo 0) = Fault /\
  sys_kthread_mutex_unlock (mem_arg (-1)) 0 (t_demo 0) = Fault /\
  sys_kthread_cond_signal (mem_arg 64) 0 (t_demo 0) = Fault.
Proof. by vm_compute. Qed.
