(* ===== verification/Sh.v ===== *)
(** * The shell's parser (sh.c)

    The command line is the buffer [buf]; pointers into it are offsets.  The
    nodes that the constructors allocate are the entries of [hp], pointers to
    them are indices, [None] is the null pointer; malloc is taken to succeed.
    [pos] is the variable that the parsing functions share by its address.
    [Panic] is the shell's own panic, which ends the process. *)
From S2P Require Import Prelude Strings Fs.

Definition MAXARGS : nat := 10.

(** struct execcmd, redircmd, pipecmd, listcmd, backcmd. *)
Inductive cmd :=
| EXEC (argv eargv : list (option nat))
| REDIR (c : option nat) (file efile : nat) (mode fd : Z)
| PIPE (left right : option nat)
| LIST (left right : option nat)
| BACK (c : option nat).

Record shst := Shst { hp : list cmd; pos : nat; buf : list Z }.
Definition set_hp (v : list cmd) (s : shst) : shst := Shst v (pos s) (buf s).
Definition set_pos (v : nat) (s : shst) : shst := Shst (hp s) v (buf s).
Definition set_buf (v : list Z) (s : shst) : shst := Shst (hp s) (pos s) v.

Abbreviation P := (M shst).

(** ** Constructors *)

Definition new_cmd (c : cmd) : P nat :=
  n <~ gets (fun s => length (hp s));;;
  modify (fun s => set_hp (hp s ++ [c]) s);;;
  ret n.

Definition execcmd : P nat := new_cmd (EXEC (replicate MAXARGS None) (replicate MAXARGS None)).
Definition redircmd (subcmd : nat) (file efile : nat) (mode fd : Z) : P nat := new_cmd (REDIR (Some subcmd) file efile mode fd).
Definition pipecmd (left right : nat) : P nat := new_cmd (PIPE (Some left) (Some right)).
Definition listcmd (left right : nat) : P nat := new_cmd (LIST (Some left) (Some right)).
Definition backcmd (subcmd : nat) : P nat := new_cmd (BACK (Some subcmd)).

(** ** Tokens *)

Definition whitespace : list Z := [32; 9; 13; 10; 11].
Definition symbols : list Z := [60; 124; 62; 38; 59; 40; 41].

(** strchr(set, c) != 0 *)
Definition in_set (set : list Z) (c : Z) : bool :=
  match strchr (cstr set) c with Some (Some _) => true | _ => false end.

Definition tokchar (c : Z) : bool := negb (in_set whitespace c) && negb (in_set symbols c).

(** Skip while the character at [s] passes the test and [s < es]; [n] is [es - s]. *)
Fixpoint skip_while (test : Z -> bool) (n : nat) (b : list Z) (s : nat) : option nat :=
  match n with
  | O => Some s
  | S n' => c ← b !! s; if test c then skip_while test n' b (S s) else Some s
  end.

Section Parser.
Context (es : nat).

Definition skip (test : Z -> bool) (s : nat) : P nat := gets_opt (fun t => skip_while test (es - s) (buf t) s).
Definition deref (s : nat) : P Z := gets_opt (fun t => buf t !! s).

(** The token, where it starts and where it ends. *)
Definition gettoken : P (Z * nat * nat) :=
  s <~ gets pos;;;
  q <~ skip (in_set whitespace) s;;;
  c <~ deref q;;;
  r <~ (if c =? 0 then ret (c, q)
        else if (c =? 124) || (c =? 40) || (c =? 41) || (c =? 59) || (c =? 38) || (c =? 60) then ret (c, S q)
        else if c =? 62 then
          c2 <~ deref (S q);;;
          if c2 =? 62 then ret (43, S (S q)) else ret (c, S q)
        else s <~ skip tokchar q;;; ret (97, s));;;
  s <~ skip (in_set whitespace) (snd r);;;
  modify (set_pos s);;;
  ret (fst r, q, snd r).

Definition peek (toks : list Z) : P bool :=
  s <~ gets pos;;;
  s <~ skip (in_set whitespace) s;;;
  modify (set_pos s);;;
  c <~ deref s;;;
  ret (negb (c =? 0) && in_set toks c).

(** ** Parsing *)

Fixpoint redirs_loop (n : nat) (cmd : nat) : P nat :=
  match n with
  | O => hang
  | S n' =>
      more <~ peek [60; 62];;;
      if negb more then ret cmd else
      tok <~ gettoken;;;
      a <~ gettoken;;;
      if negb (fst (fst a) =? 97) then panic "missing file for redirection" else
      let q := snd (fst a) in let eq := snd a in
      cmd <~ (if fst (fst tok) =? 60 then redircmd cmd q eq O_RDONLY 0
              else if fst (fst tok) =? 62 then redircmd cmd q eq (Z.lor O_WRONLY O_CREATE) 1
              else if fst (fst tok) =? 43 then redircmd cmd q eq (Z.lor O_WRONLY O_CREATE) 1
              else ret cmd);;;
      redirs_loop n' cmd
  end.
Definition parseredirs (cmd : nat) : P nat := redirs_loop (S es) cmd.

(** [cmd->argv[argc] = q; cmd->eargv[argc] = eq;] *)
Definition set_arg (i : nat) (argc : nat) (q eq : option nat) : P unit :=
  modify_opt (fun s =>
    match hp s !! i with
    | Some (EXEC a e) => if (argc <? length a)%nat then Some (set_hp (<[i := EXEC (<[argc := q]> a) (<[argc := eq]> e)]> (hp s)) s) else None
    | _ => None
    end).

(** The loop over the arguments of the execcmd [i]; [rt] is the variable ret. *)
Fixpoint args_loop (n : nat) (i argc rt : nat) : P nat :=
  match n with
  | O => hang
  | S n' =>
      stop <~ peek [124; 41; 38; 59];;;
      if stop then set_arg i argc None None;;; ret rt else
      t <~ gettoken;;;
      if fst (fst t) =? 0 then set_arg i argc None None;;; ret rt else
      if negb (fst (fst t) =? 97) then panic "syntax" else
      set_arg i argc (Some (snd (fst t))) (Some (snd t));;;
      let argc := S argc in
      if (MAXARGS <=? argc)%nat then panic "too many args" else
      rt <~ parseredirs rt;;;
      args_loop n' i argc rt
  end.

(** [while(peek(ps, es, "&"))] *)
Fixpoint back_loop (n : nat) (cmd : nat) : P nat :=
  match n with
  | O => hang
  | S n' =>
      more <~ peek [38];;;
      if negb more then ret cmd else
      gettoken;;;
      cmd <~ backcmd cmd;;;
      back_loop n' cmd
  end.

Fixpoint parseline (n : nat) : P nat :=
  match n with
  | O => hang
  | S n' =>
      cmd <~ parsepipe n';;;
      cmd <~ back_loop (S es) cmd;;;
      more <~ peek [59];;;
      if more then
        gettoken;;;
        right <~ parseline n';;;
        listcmd cmd right
      else ret cmd
  end
with parsepipe (n : nat) : P nat :=
  match n with
  | O => hang
  | S n' =>
      cmd <~ parseexec n';;;
      more <~ peek [124];;;
      if more then
        gettoken;;;
        right <~ parsepipe n';;;
        pipecmd cmd right
      else ret cmd
  end
with parseexec (n : nat) : P nat :=
  match n with
  | O => hang
  | S n' =>
      block <~ peek [40];;;
      if block then parseblock n' else
      i <~ execcmd;;;
      rt <~ parseredirs i;;;
      args_loop (S es) i 0 rt
  end
with parseblock (n : nat) : P nat :=
  match n with
  | O => hang
  | S n' =>
      open <~ peek [40];;;
      if negb open then panic "parseblock" else
      gettoken;;;
      cmd <~ parseline n';;;
      close <~ peek [41];;;
      if negb close then panic "syntax - missing )" else
      gettoken;;;
      parseredirs cmd
  end.
End Parser.

(** ** Terminating the strings *)

(** [*p = 0;] *)
Definition end_string (p : nat) : P unit :=
  modify_opt (fun s => if (p <? length (buf s))%nat then Some (set_buf (<[p := 0]> (buf s)) s) else None).

Fixpoint end_args (argv eargv : list (option nat)) : P unit :=
  match argv, eargv with
  | None :: _, _ => ret tt
  | Some _ :: argv', Some e :: eargv' => end_string e;;; end_args argv' eargv'
  | _, _ => fault
  end.

(** A command is allocated after its parts, so its index bounds the depth. *)
Fixpoint nulterminate (n : nat) (cmd : option nat) : P unit :=
  match n, cmd with
  | _, None => ret tt
  | O, _ => hang
  | S n', Some i =>
      c <~ gets_opt (fun s => hp s !! i);;;
      match c with
      | EXEC argv eargv => end_args argv eargv
      | REDIR c _ efile _ _ => nulterminate n' c;;; end_string efile
      | PIPE l r => nulterminate n' l;;; nulterminate n' r
      | LIST l r => nulterminate n' l;;; nulterminate n' r
      | BACK c => nulterminate n' c
      end
  end.

(** The line [s], a string in [buf].  The message with the rest of the line,
    before the panic, goes no further. *)
Definition parsecmd : P nat :=
  es <~ gets_opt (fun s => strlen (buf s));;;
  modify (set_pos 0);;;
  cmd <~ parseline es (4 * S es);;;
  peek es [];;;
  s <~ gets pos;;;
  if negb (s =? es)%nat then panic "syntax" else
  nulterminate (S cmd) (Some cmd);;;
  ret cmd.
