(* ===== verification/ShSpec.v ===== *)
(** * The shell's language

    A reference for sh.c: tokens, command trees and a parser from tokens to
    trees, without buffers, pointers or nodes; and the tokens that [gettoken]
    and [peek] find in a line. *)
From S2P Require Import Prelude Strings Fs Sh.

(** ** Tokens *)

Inductive tok := TLess | TBar | TGreater | TAmp | TSemi | TOpen | TClose | TApp | TWord (w : list Z).

#[export] Instance tok_eq_dec : EqDecision tok.
Proof. solve_decision. Defined.

(** The token of one symbol. *)
Definition symbol (c : Z) : tok :=
  if c =? 60 then TLess else if c =? 124 then TBar else if c =? 62 then TGreater else if c =? 38 then TAmp
  else if c =? 59 then TSemi else if c =? 40 then TOpen else TClose.

Fixpoint span (test : Z -> bool) (t : list Z) : list Z * list Z :=
  match t with
  | [] => ([], [])
  | c :: t' => if test c then let '(a, b) := span test t' in (c :: a, b) else ([], t)
  end.

(** The first token of a text and the text behind it. *)
Definition next (t : list Z) : option (tok * list Z) :=
  match snd (span (in_set whitespace) t) with
  | [] => None
  | c :: r =>
      if in_set symbols c then
        match r with
        | d :: r' => if (c =? 62) && (d =? 62) then Some (TApp, r') else Some (symbol c, r)
        | [] => Some (symbol c, r)
        end
      else let '(w, r) := span tokchar (c :: r) in Some (TWord w, r)
  end.

Fixpoint lex_n (n : nat) (t : list Z) : list tok :=
  match n with
  | O => []
  | S n' => match next t with None => [] | Some (k, r) => k :: lex_n n' r end
  end.
Definition lex (t : list Z) : list tok := lex_n (length t) t.

(** ** Trees *)

Inductive ast :=
| AExec (argv : list (list Z))
| ARedir (c : ast) (file : list Z) (mode fd : Z)
| APipe (left right : ast)
| AList (left right : ast)
| ABack (c : ast).

Record redir := Redir { r_file : list Z; r_mode : Z; r_fd : Z }.
Definition wrap (c : ast) (rs : list redir) : ast := foldl (fun c r => ARedir c (r_file r) (r_mode r) (r_fd r)) c rs.

(** ** Parsing *)

(** The result, or the message of the error. *)
Inductive res (A : Type) := OK (a : A) | Bad (msg : string).
Arguments OK {A} a.
Arguments Bad {A} msg.

(** The mode and descriptor of a redirection. *)
Definition redir_of (k : tok) (w : list Z) : option redir :=
  match k with
  | TLess => Some (Redir w O_RDONLY 0)
  | TGreater | TApp => Some (Redir w (Z.lor O_WRONLY O_CREATE) 1)
  | _ => None
  end.
Definition is_redir (k : tok) : bool := match k with TLess | TGreater | TApp => true | _ => false end.

Fixpoint p_redirs (ts : list tok) (rs : list redir) : res (list redir * list tok) :=
  match ts with
  | k :: ts' =>
      if is_redir k then
        match ts' with
        | TWord w :: ts'' => p_redirs ts'' (rs ++ option_list (redir_of k w))
        | _ => Bad "missing file for redirection"
        end
      else OK (rs, ts)
  | [] => OK (rs, ts)
  end.

(** Words and redirections in any order. *)
Fixpoint p_args (ts : list tok) (args : list (list Z)) (rs : list redir) : res (ast * list tok) :=
  match ts with
  | [] => OK (wrap (AExec args) rs, [])
  | TWord w :: ts' => if (9 <=? length args)%nat then Bad "too many args" else p_args ts' (args ++ [w]) rs
  | k :: ts' =>
      if is_redir k then
        match ts' with
        | TWord w :: ts'' => p_args ts'' args (rs ++ option_list (redir_of k w))
        | _ => Bad "missing file for redirection"
        end
      else match k with TOpen => Bad "syntax" | _ => OK (wrap (AExec args) rs, ts) end
  end.

Fixpoint p_backs (ts : list tok) (c : ast) : ast * list tok :=
  match ts with TAmp :: ts' => p_backs ts' (ABack c) | _ => (c, ts) end.

(** [None]: out of fuel. *)
Fixpoint p_line (n : nat) (ts : list tok) : option (res (ast * list tok)) :=
  match n with
  | O => None
  | S n' =>
      match p_pipe n' ts with
      | Some (OK (c, ts1)) =>
          match p_backs ts1 c with
          | (c, TSemi :: ts2) =>
              match p_line n' ts2 with
              | Some (OK (c', ts3)) => Some (OK (AList c c', ts3))
              | r => r
              end
          | (c, ts2) => Some (OK (c, ts2))
          end
      | r => r
      end
  end
with p_pipe (n : nat) (ts : list tok) : option (res (ast * list tok)) :=
  match n with
  | O => None
  | S n' =>
      match p_exec n' ts with
      | Some (OK (c, TBar :: ts1)) =>
          match p_pipe n' ts1 with
          | Some (OK (c', ts2)) => Some (OK (APipe c c', ts2))
          | r => r
          end
      | r => r
      end
  end
with p_exec (n : nat) (ts : list tok) : option (res (ast * list tok)) :=
  match n with
  | O => None
  | S n' =>
      match ts with
      | TOpen :: ts1 => p_block n' ts1
      | _ => Some (p_args ts [] [])
      end
  end
with p_block (n : nat) (ts : list tok) : option (res (ast * list tok)) :=
  match n with
  | O => None
  | S n' =>
      match p_line n' ts with
      | Some (OK (c, TClose :: ts1)) =>
          match p_redirs ts1 [] with
          | OK (rs, ts2) => Some (OK (wrap c rs, ts2))
          | Bad msg => Some (Bad msg)
          end
      | Some (OK _) => Some (Bad "syntax - missing )")
      | r => r
      end
  end.

Definition p_cmd (t : list Z) : res ast :=
  match p_line (4 * S (length t)) (lex t) with
  | Some (OK (c, [])) => OK c
  | Some (OK _) => Bad "syntax"
  | Some (Bad msg) => Bad msg
  | None => Bad "out of fuel"
  end.
