(* ===== verification/ShLex.v ===== *)
(** * The shell's tokens (sh.c)

    [gettoken] and [peek] on a line are [next] on what is left of it. *)
From S2P Require Import Prelude Strings Fs Sh ShSpec.

(** ** Sets of characters *)

Lemma strchr_set (set : list Z) c :
  0 ∉ set -> (exists n, strchr (cstr set) c = Some (Some n)) /\ c ∈ set \/ strchr (cstr set) c = Some None /\ c ∉ set.
Proof.
  unfold cstr. induction set as [|x set IH]; intros H0; simpl.
  - right. split; [done|]. apply not_elem_of_nil.
  - apply not_elem_of_cons in H0 as [Hx H0]. destruct (Z.eqb_spec x 0) as [->|_]; [done|].
    destruct (Z.eqb_spec x c) as [->|Hc]; [left; split; [by eexists|left]|].
    destruct (IH H0) as [[[n E] Hin]|[E Hin]]; rewrite E; simpl.
    + left. split; [by eexists|by right].
    + right. split; [done|]. by apply not_elem_of_cons.
Qed.

Lemma in_set_spec set c : 0 ∉ set -> in_set set c = bool_decide (c ∈ set).
Proof.
  intros H0. unfold in_set. destruct (strchr_set set c H0) as [[[n ->] Hin]|[-> Hin]].
  - by rewrite bool_decide_eq_true_2.
  - by rewrite bool_decide_eq_false_2.
Qed.

(** The character 0 is not in a set written out. *)
Ltac no_nul := unfold whitespace, symbols; rewrite ?elem_of_cons, ?elem_of_nil; lia.

Lemma whitespace_spec c : in_set whitespace c = bool_decide (c ∈ whitespace).
Proof. apply in_set_spec. no_nul. Qed.

Lemma symbols_spec c : in_set symbols c = bool_decide (c ∈ symbols).
Proof. apply in_set_spec. no_nul. Qed.

Lemma space_not_symbol c : in_set whitespace c = true -> in_set symbols c = false.
Proof.
  rewrite whitespace_spec, symbols_spec. intros H%bool_decide_eq_true. apply bool_decide_eq_false. unfold whitespace, symbols in *.
  rewrite !elem_of_cons, elem_of_nil in *. lia.
Qed.

(** ** Texts *)

Lemma span_app test t : fst (span test t) ++ snd (span test t) = t.
Proof. induction t as [|c t IH]; simpl; [done|]. destruct (test c); [|done]. destruct (span test t). simpl in *. by rewrite IH. Qed.

Lemma span_length test t : (length (fst (span test t)) + length (snd (span test t)) = length t)%nat.
Proof. rewrite <- length_app. by rewrite span_app. Qed.

Lemma span_rest test t : match snd (span test t) with [] => True | c :: _ => test c = false end.
Proof. induction t as [|c t IH]; simpl; [done|]. destruct (test c) eqn:E; [|done]. by destruct (span test t). Qed.

Lemma span_all test t : forallb test (fst (span test t)) = true.
Proof. induction t as [|c t IH]; simpl; [done|]. destruct (test c) eqn:E; [|done]. destruct (span test t). simpl in *. by rewrite E. Qed.

Lemma span_cons test c t : test c = true -> span test (c :: t) = (c :: fst (span test t), snd (span test t)).
Proof. intros E. simpl. rewrite E. by destruct (span test t). Qed.

Lemma word_first c : in_set whitespace c = false -> in_set symbols c = false -> tokchar c = true.
Proof. intros E1 E2. unfold tokchar. by rewrite E1, E2. Qed.

Lemma next_shorter t k r : next t = Some (k, r) -> (length r < length t)%nat.
Proof.
  unfold next. pose proof (span_length (in_set whitespace) t) as Hl. pose proof (span_rest (in_set whitespace) t) as Hw.
  destruct (snd (span _ t)) as [|c u]; [done|]. simpl in Hl. destruct (in_set symbols c) eqn:Es.
  - destruct u as [|d u']; [intros [= <- <-]; simpl in *; lia|]. destruct ((c =? 62) && (d =? 62)); intros [= <- <-]; simpl in *; lia.
  - rewrite (span_cons _ _ _ (word_first c Hw Es)). intros [= <- <-]. pose proof (span_length tokchar u). simpl in *. lia.
Qed.

Lemma lex_fuel n t : (length t <= n)%nat -> lex_n n t = lex t.
Proof.
  unfold lex. remember (length t) as m eqn:Em. assert (Hm : (length t <= m)%nat) by lia. clear Em. revert m t Hm.
  induction n as [|n IH]; intros [|m] t Hm Hn; try done; try lia; simpl.
  - destruct t; [done|simpl in Hm; lia].
  - destruct (next t) as [[k r]|] eqn:E; [|done]. pose proof (next_shorter _ _ _ E). f_equal. apply IH; lia.
Qed.

Lemma lex_next t : lex t = match next t with None => [] | Some (k, r) => k :: lex r end.
Proof.
  destruct (next t) as [[k r]|] eqn:E.
  - pose proof (next_shorter _ _ _ E). rewrite <- (lex_fuel (S (length t)) t) by lia. simpl. rewrite E. f_equal. apply lex_fuel. lia.
  - unfold lex. destruct (length t); simpl; [done|]. by rewrite E.
Qed.

Lemma lex_length t : (length (lex t) <= length t)%nat.
Proof.
  remember (length t) as m eqn:Em. assert (Hm : (length t <= m)%nat) by lia. clear Em. revert t Hm.
  induction m as [|m IH]; intros t Hm; rewrite lex_next; destruct (next t) as [[k r]|] eqn:E; simpl; try lia;
    pose proof (next_shorter _ _ _ E); [lia|]. specialize (IH r). lia.
Qed.

(** White space in front does not matter. *)
Lemma span_space t : span (in_set whitespace) (snd (span (in_set whitespace) t)) = ([], snd (span (in_set whitespace) t)).
Proof. pose proof (span_rest (in_set whitespace) t) as H. destruct (snd _) as [|c r]; [done|]. simpl. by rewrite H. Qed.

Lemma lex_space t : lex (snd (span (in_set whitespace) t)) = lex t.
Proof. rewrite !lex_next. unfold next. by rewrite span_space. Qed.

(** The code that [gettoken] returns for a token. *)
Definition code (k : tok) : Z :=
  match k with
  | TLess => 60 | TBar => 124 | TGreater => 62 | TAmp => 38 | TSemi => 59 | TOpen => 40 | TClose => 41 | TApp => 43 | TWord _ => 97
  end.

(** What [peek] sees of a token. *)
Definition seen (toks : list Z) (ts : list tok) : bool :=
  match ts with [] => false | TWord _ :: _ => false | TApp :: _ => in_set toks 62 | k :: _ => in_set toks (code k) end.

(** ** A line *)

Section Line.
Context (text junk : list Z) (Htext : Forall (fun c => c <> 0) text).
Abbreviation es := (length text).
Definition line : list Z := text ++ 0 :: junk.

(** A position that is not in a word, and a word from [q] to [e]. *)
Definition sep (e : nat) : Prop := e = es \/ exists c, text !! e = Some c /\ tokchar c = false.
Record word_at (q e : nat) (w : list Z) : Prop := {
  wa_range : (q < e <= es)%nat;
  wa_word : w = take (e - q) (drop q text);
  wa_chars : forallb tokchar w = true;
  wa_sep : sep e
}.

Lemma line_lookup p : (p <= es)%nat -> line !! p = Some (match drop p text with [] => 0 | c :: _ => c end).
Proof.
  intros Hp. unfold line. destruct (decide (p = es)) as [->|Hne].
  - rewrite lookup_app_r by lia. rewrite Nat.sub_diag, drop_all. done.
  - destruct (lookup_lt_is_Some_2 text p) as [c Hc]; [lia|]. rewrite lookup_app_l by lia. by rewrite Hc, (drop_S _ _ _ Hc).
Qed.

Lemma skip_spec test p : (p <= es)%nat ->
  let q := (p + length (fst (span test (drop p text))))%nat in
  skip_while test (es - p) line p = Some q /\ drop q text = snd (span test (drop p text)) /\ (p <= q <= es)%nat.
Proof.
  remember (es - p)%nat as n eqn:En. revert p En. induction n as [|n IH]; intros p En Hp.
  - assert (p = es) as -> by lia. rewrite drop_all. simpl. rewrite Nat.add_0_r, drop_all. split_and!; [done|done|lia|lia].
  - destruct (lookup_lt_is_Some_2 text p) as [c Hc]; [lia|]. cbn [skip_while]. rewrite line_lookup by lia. rewrite (drop_S _ _ _ Hc). cbn [mbind option_bind].
    destruct (test c) eqn:Et.
    + rewrite (span_cons _ _ _ Et). cbn [fst snd length]. destruct (IH (S p)) as (E & Hd & Hr); [lia|lia|]. rewrite E.
      rewrite Nat.add_succ_r. simpl in *. split_and!; [done|done|lia|lia].
    + cbn [span]. rewrite Et. cbn [fst snd length]. rewrite Nat.add_0_r. split_and!; [done|by rewrite (drop_S _ _ _ Hc)|lia|lia].
Qed.

Lemma skip_run test p (s : shst) : buf s = line -> (p <= es)%nat ->
  exists q, skip es test p s = Ret q s /\ drop q text = snd (span test (drop p text)) /\ q = (p + length (fst (span test (drop p text))))%nat /\ (p <= q <= es)%nat.
Proof.
  intros Hb Hp. destruct (skip_spec test p Hp) as (E & Hd & Hr). eexists. split; [|split; [exact Hd|split; [done|exact Hr]]].
  unfold skip, gets_opt. by rewrite Hb, E.
Qed.

Lemma deref_run p (s : shst) : buf s = line -> (p <= es)%nat -> deref p s = Ret (match drop p text with [] => 0 | c :: _ => c end) s.
Proof. intros Hb Hp. unfold deref, gets_opt. by rewrite Hb, line_lookup. Qed.

Lemma drop_nonzero p c r : drop p text = c :: r -> c <> 0.
Proof. intros E. pose proof (Forall_drop _ p _ Htext) as Hd. rewrite E in Hd. by apply Forall_cons in Hd as [? _]. Qed.

(** What is left of the line as tokens. *)
Definition rest (s : shst) : list tok := lex (drop (pos s) text).
Record ready (s : shst) : Prop := { re_buf : buf s = line; re_pos : (pos s <= es)%nat }.

Lemma peek_run toks s : ready s ->
  (forall c, in_set toks c = true -> in_set symbols c = true) ->
  exists p, peek es toks s = Ret (seen toks (rest s)) (set_pos p s) /\ ready (set_pos p s) /\ rest (set_pos p s) = rest s /\ (pos s <= p)%nat.
Proof.
  intros [Hb Hp] Htoks. destruct (skip_run (in_set whitespace) (pos s) s Hb Hp) as (q & E & Hd & _ & Hq). exists q. split_and!.
  - unfold peek. rewrite bind_gets, (bind_Ret _ _ _ _ _ E), bind_modify. rewrite (bind_Ret _ _ _ _ _ (deref_run q (set_pos q s) Hb ltac:(lia))).
    unfold ret. f_equal. unfold rest. rewrite Hd. rewrite lex_next. unfold next. destruct (snd (span _ _)) as [|c r] eqn:Es; [done|].
    rewrite (proj2 (Z.eqb_neq c 0)) by (eapply drop_nonzero; by rewrite Hd). cbn [negb andb].
    pose proof (span_rest (in_set whitespace) (drop (pos s) text)) as Hw. rewrite Es in Hw.
    destruct (in_set symbols c) eqn:Esy.
    + assert (Hsym : seen toks [symbol c] = in_set toks c).
      { rewrite symbols_spec in Esy. apply bool_decide_eq_true in Esy. unfold symbols in Esy. rewrite !elem_of_cons, elem_of_nil in Esy.
        destruct Esy as [-> | [-> | [-> | [-> | [-> | [-> | [-> | []]]]]]]]; done. }
      destruct r as [|d r']; [by rewrite <- Hsym|]. destruct ((c =? 62) && (d =? 62)) eqn:E62; [|by rewrite <- Hsym].
      apply andb_true_iff in E62 as [E62 _]. apply Z.eqb_eq in E62 as ->. done.
    + rewrite (span_cons _ _ _ (word_first c Hw Esy)). simpl. destruct (in_set toks c) eqn:Et; [|done]. apply Htoks in Et. congruence.
  - split; [done|simpl; lia].
  - unfold rest. simpl. by rewrite Hd, lex_space.
  - lia.
Qed.

(** [peek] stops at the end exactly when no token is left. *)
Lemma peek_end toks s b s' : ready s -> peek es toks s = Ret b s' -> pos s' = es <-> rest s = [].
Proof.
  intros [Hb Hp]. destruct (skip_run (in_set whitespace) (pos s) s Hb Hp) as (q & E & Hd & _ & Hq).
  unfold peek. rewrite bind_gets, (bind_Ret _ _ _ _ _ E), bind_modify. rewrite (bind_Ret _ _ _ _ _ (deref_run q (set_pos q s) Hb ltac:(lia))).
  intros [= _ <-]. simpl. unfold rest. rewrite <- lex_space, <- Hd. split.
  - intros ->. by rewrite drop_all.
  - intros Hl. destruct (drop q text) as [|c r] eqn:Eq; [pose proof (length_drop text q) as Hlen; rewrite Eq in Hlen; simpl in Hlen; lia|exfalso].
    rewrite lex_next in Hl. unfold next in Hl. pose proof (span_rest (in_set whitespace) (drop (pos s) text)) as Hw. rewrite <- Hd in Hw.
    assert (Es : span (in_set whitespace) (c :: r) = ([], c :: r)) by (simpl; by rewrite Hw). rewrite Es in Hl. cbn [snd] in Hl.
    destruct (in_set symbols c); [|by destruct (span tokchar (c :: r))]. destruct r as [|d r]; [done|]. by destruct ((c =? 62) && (d =? 62)).
Qed.

(** The token that starts at [q]: its code and its end. *)
Definition token_at (q : nat) : M shst (Z * nat) :=
  c <~ deref q;;;
  (if c =? 0 then ret (c, q)
   else if (c =? 124) || (c =? 40) || (c =? 41) || (c =? 59) || (c =? 38) || (c =? 60) then ret (c, S q)
   else if c =? 62 then
     c2 <~ deref (S q);;;
     if c2 =? 62 then ret (43, S (S q)) else ret (c, S q)
   else s <~ skip es tokchar q;;; ret (97, s)).

Lemma drop_tail p c r : drop p text = c :: r -> drop (S p) text = r /\ (S p <= es)%nat.
Proof.
  intros E. replace (S p) with (p + 1)%nat by lia. rewrite <- drop_drop, E. split; [done|].
  pose proof (length_drop text p) as Hl. rewrite E in Hl. simpl in Hl. lia.
Qed.

Lemma symbol_token q c r s : buf s = line -> drop q text = c :: r -> in_set symbols c = true -> c <> 62 ->
  token_at q s = Ret (code (symbol c), S q) s.
Proof.
  intros Hb Hd Hs Hne. destruct (drop_tail _ _ _ Hd) as [_ Hq]. unfold token_at. rewrite (bind_Ret _ _ _ _ _ (deref_run q s Hb ltac:(lia))), Hd.
  rewrite symbols_spec in Hs. apply bool_decide_eq_true in Hs. unfold symbols in Hs. rewrite !elem_of_cons, elem_of_nil in Hs.
  destruct Hs as [-> | [-> | [-> | [-> | [-> | [-> | [-> | []]]]]]]]; done.
Qed.

Lemma greater_token q r s : buf s = line -> drop q text = 62 :: r ->
  token_at q s = match r with 62 :: _ => Ret (code TApp, S (S q)) s | _ => Ret (code TGreater, S q) s end.
Proof.
  intros Hb Hd. destruct (drop_tail _ _ _ Hd) as [Hd' Hq]. unfold token_at. rewrite (bind_Ret _ _ _ _ _ (deref_run q s Hb ltac:(lia))), Hd.
  cbn [Z.eqb Pos.eqb orb]. rewrite (bind_Ret _ _ _ _ _ (deref_run (S q) s Hb Hq)), Hd'. destruct r as [|d r]; [done|].
  destruct (Z.eqb_spec d 62) as [->|Hne]; [done|]. destruct d as [|d|d]; [done| |done]. repeat (destruct d as [d|d|]; try done).
Qed.

Lemma word_token q c r s : buf s = line -> drop q text = c :: r -> in_set whitespace c = false -> in_set symbols c = false ->
  let w := fst (span tokchar (c :: r)) in let e := (q + length w)%nat in
  token_at q s = Ret (97, e) s /\ drop e text = snd (span tokchar (c :: r)) /\ word_at q e w.
Proof.
  intros Hb Hd Hw Hs. destruct (drop_tail _ _ _ Hd) as [_ Hq]. destruct (skip_run tokchar q s Hb ltac:(lia)) as (e & E & He & Ee & Hr). rewrite Hd in He, Ee.
  cbv zeta. rewrite <- Ee. split_and!; [|done|].
  - unfold token_at. rewrite (bind_Ret _ _ _ _ _ (deref_run q s Hb ltac:(lia))), Hd. rewrite (proj2 (Z.eqb_neq c 0)) by by eapply drop_nonzero.
    rewrite symbols_spec in Hs. apply bool_decide_eq_false in Hs. unfold symbols in Hs. rewrite !elem_of_cons, elem_of_nil in Hs.
    rewrite !(proj2 (Z.eqb_neq c _)) by tauto. cbn [orb]. by rewrite (bind_Ret _ _ _ _ _ E).
  - rewrite (span_cons _ _ _ (word_first c Hw Hs)) in *. cbn [fst snd length] in *. split.
    + lia.
    + rewrite Hd. replace (e - q)%nat with (S (length (fst (span tokchar r)))) by lia. cbn [take]. f_equal.
      rewrite <- (take_app_length (fst (span tokchar r)) (snd (span tokchar r))) at 1. by rewrite span_app.
    + simpl. rewrite (word_first c Hw Hs). apply span_all.
    + pose proof (span_rest tokchar r) as Hrest. unfold sep. destruct (snd (span tokchar r)) as [|d u] eqn:Eu.
      * left. pose proof (length_drop text e) as Hl. rewrite He in Hl. simpl in Hl. lia.
      * right. exists d. split; [|done]. rewrite <- (Nat.add_0_r e), <- lookup_drop, He. done.
Qed.

(** [gettoken] takes the next token. *)
Lemma gettoken_run s : ready s ->
  match rest s with
  | [] => exists q e p, gettoken es s = Ret (0, q, e) (set_pos p s) /\ ready (set_pos p s) /\ rest (set_pos p s) = [] /\ (pos s <= p)%nat
  | k :: ts => exists q e p, gettoken es s = Ret (code k, q, e) (set_pos p s) /\ ready (set_pos p s) /\ rest (set_pos p s) = ts /\
      (pos s < p)%nat /\ (forall w, k = TWord w -> word_at q e w)
  end.
Proof.
  intros [Hb Hp]. destruct (skip_run (in_set whitespace) (pos s) s Hb Hp) as (q & E & Hd & _ & Hq).
  assert (Hgt : forall c e, token_at q s = Ret (c, e) s -> (e <= es)%nat ->
    exists p, gettoken es s = Ret (c, q, e) (set_pos p s) /\ ready (set_pos p s) /\ (e <= p)%nat /\ rest (set_pos p s) = lex (drop e text)).
  { intros c e Et He. destruct (skip_run (in_set whitespace) e s Hb He) as (p & E2 & Hd2 & _ & Hp2). exists p. split_and!.
    - unfold gettoken. rewrite bind_gets, (bind_Ret _ _ _ _ _ E). unfold token_at in Et. unfold bind at 1. unfold bind at 1 in Et.
      destruct (deref q s) as [ch s'| | | |]; try done. unfold bind at 1. rewrite Et. by rewrite (bind_Ret _ _ _ _ _ E2), bind_modify.
    - split; [done|simpl; lia].
    - lia.
    - unfold rest. simpl. by rewrite Hd2, lex_space. }
  change (rest s) with (lex (drop (pos s) text)). rewrite lex_next. unfold next. pose proof (span_rest (in_set whitespace) (drop (pos s) text)) as Hw. rewrite <- Hd in *.
  destruct (drop q text) as [|c r] eqn:Eq.
  { assert (Et : token_at q s = Ret (0, q) s) by (unfold token_at; by rewrite (bind_Ret _ _ _ _ _ (deref_run q s Hb ltac:(lia))), Eq).
    destruct (Hgt 0 q Et) as (p & Eg & Hrd & Hle & Hre); [lia|]. exists q, q, p. split_and!; [done|done|by rewrite Hre, Eq|lia]. }
  destruct (drop_tail _ _ _ Eq) as [Er Hq1]. destruct (in_set symbols c) eqn:Es.
  - destruct (Z.eqb_spec c 62) as [->|Hc].
    + pose proof (greater_token q r s Hb Eq) as Et. destruct r as [|d r'].
      { destruct (Hgt _ _ Et Hq1) as (p & Eg & Hrd & Hle & Hre). exists q, (S q), p. rewrite Hre, Er. split_and!; [done|done|done|lia|done]. }
      destruct (drop_tail _ _ _ Er) as [Er' Hq2]. destruct (Z.eqb_spec d 62) as [->|Hd2]; cbn [andb].
      * destruct (Hgt _ _ Et Hq2) as (p & Eg & Hrd & Hle & Hre). exists q, (S (S q)), p. rewrite Hre, Er'. split_and!; [done|done|done|lia|done].
      * assert (Et' : token_at q s = Ret (code TGreater, S q) s). { rewrite Et. destruct d as [|d|d]; [done| |done]. repeat (destruct d as [d|d|]; try done). }
        destruct (Hgt _ _ Et' Hq1) as (p & Eg & Hrd & Hle & Hre). exists q, (S q), p. rewrite Hre, Er. split_and!; [done|done|done|lia|done].
    + pose proof (symbol_token q c r s Hb Eq Es Hc) as Et. destruct (Hgt _ _ Et Hq1) as (p & Eg & Hrd & Hle & Hre).
      assert (Hnw : forall w, symbol c = TWord w -> word_at q (S q) w). { intros w. unfold symbol. by repeat case_match. }
      destruct r as [|d r']; cbn [andb]; exists q, (S q), p; rewrite Hre, Er; (split_and!; [done|done|done|lia|done]).
  - destruct (word_token q c r s Hb Eq Hw Es) as (Et & He & Hwa). destruct (span tokchar (c :: r)) as [w r'] eqn:Esp. cbn [fst snd] in *.
    destruct (Hgt _ _ Et) as (p & Eg & Hrd & Hle & Hre); [apply Hwa|]. exists q, (q + length w)%nat, p. rewrite Hre, He.
    split_and!; [done|done|done| |by intros w' [= <-]]. pose proof (wa_range _ _ _ Hwa). lia.
Qed.
End Line.
