(* ===== verification/ShParse.v ===== *)
(** * The shell's parser against its reference (sh.c)

    The nodes that the parser allocates represent the tree of the reference
    parser, with every string in the line; where the reference fails the
    parser panics with the same message. *)
From S2P Require Import Prelude Strings Fs Sh ShSpec ShLex.

Lemma bind_Panic {S A B} (m : M S A) (f : A -> M S B) s msg : m s = Panic msg -> bind m f s = Panic msg.
Proof. intros E. unfold bind. by rewrite E. Qed.

(** ** Facts about the reference *)

Lemma list_ind2 {A} (Q : list A -> Prop) : Q [] -> (forall x, Q [x]) -> (forall x y l, Q l -> Q (y :: l) -> Q (x :: y :: l)) -> forall l, Q l.
Proof.
  intros H0 H1 H2 l. cut (Q l /\ forall x, Q (x :: l)); [by intros [? _]|]. induction l as [|y l [IH1 IH2]]; [by split|].
  split; [apply IH2|]. intros x. by apply H2.
Qed.

(** Redirections can be taken first. *)
Lemma p_args_redirs ts args rs :
  p_args ts args rs = match p_redirs ts rs with OK (rs', ts') => p_args ts' args rs' | Bad m => Bad m end.
Proof.
  revert rs. induction ts as [|k|k k2 ts IH IH2] using list_ind2; intros rs; [done|by destruct k|].
  cbn [p_redirs]. destruct (is_redir k) eqn:Er; [|done].
  destruct k2 as [| | | | | | | |w]; try by destruct k. rewrite <- IH. by destruct k.
Qed.

(** What is left starts with no redirection. *)
Definition no_redir (ts : list tok) : Prop := match ts with [] => True | k :: _ => is_redir k = false end.

Lemma p_redirs_stop ts rs rs' ts' : p_redirs ts rs = OK (rs', ts') -> no_redir ts'.
Proof.
  revert rs. induction ts as [|k|k k2 ts IH IH2] using list_ind2; intros rs; cbn [p_redirs].
  - by intros [= <- <-].
  - destruct (is_redir k) eqn:E; [done|]. by intros [= <- <-].
  - destruct (is_redir k) eqn:E; [|by intros [= <- <-]]. destruct k2; try done. apply IH.
Qed.

Section Rep.
(** When the characters from [q] to [e] are the word [w]. *)
Context (word_at : nat -> nat -> list Z -> Prop).

(** ** Nodes that represent a tree *)

(** The arguments so far, then a null pointer. *)
Record args_at (a e : list (option nat)) (ws : list (list Z)) : Prop := {
  aa_max : (length ws <= 9)%nat;
  aa_length : length a = MAXARGS /\ length e = MAXARGS;
  aa_words : forall i w, ws !! i = Some w -> exists q z, a !! i = Some (Some q) /\ e !! i = Some (Some z) /\ word_at q z w
}.

Fixpoint rep (h : list cmd) (p : nat) (c : ast) : Prop :=
  match c with
  | AExec ws => exists a e, h !! p = Some (EXEC a e) /\ args_at a e ws /\ a !! length ws = Some None
  | ARedir c f m d => exists p' q e, h !! p = Some (REDIR (Some p') q e m d) /\ (p' < p)%nat /\ word_at q e f /\ rep h p' c
  | APipe l r => exists pl pr, h !! p = Some (PIPE (Some pl) (Some pr)) /\ (pl < p)%nat /\ (pr < p)%nat /\ rep h pl l /\ rep h pr r
  | AList l r => exists pl pr, h !! p = Some (LIST (Some pl) (Some pr)) /\ (pl < p)%nat /\ (pr < p)%nat /\ rep h pl l /\ rep h pr r
  | ABack c => exists p', h !! p = Some (BACK (Some p')) /\ (p' < p)%nat /\ rep h p' c
  end.

(** A chain of redirections from [p] out to [p']. *)
Inductive chain (h : list cmd) (p : nat) : list redir -> nat -> Prop :=
| chain_nil : chain h p [] p
| chain_snoc rs p1 p2 r q e : chain h p rs p1 -> (p1 < p2)%nat -> h !! p2 = Some (REDIR (Some p1) q e (r_mode r) (r_fd r)) ->
    word_at q e (r_file r) -> chain h p (rs ++ [r]) p2.

Lemma chain_one h p p2 r q e : (p < p2)%nat -> h !! p2 = Some (REDIR (Some p) q e (r_mode r) (r_fd r)) -> word_at q e (r_file r) -> chain h p [r] p2.
Proof. intros Hlt Hn Hw. by apply (chain_snoc h p [] p p2 r q e (chain_nil h p)). Qed.

Definition agree (n : nat) (h h' : list cmd) : Prop := (length h <= length h')%nat /\ forall j, (j < n)%nat -> h' !! j = h !! j.

Lemma agree_refl n h : agree n h h.
Proof. by split. Qed.

Lemma agree_trans n m h1 h2 h3 : agree n h1 h2 -> agree m h2 h3 -> (n <= m)%nat -> agree n h1 h3.
Proof. intros [L1 A1] [L2 A2] Hn. split; [lia|]. intros j Hj. rewrite A2 by lia. by apply A1. Qed.

Lemma agree_app h l : agree (length h) h (h ++ l).
Proof. split; [rewrite length_app; lia|]. intros j Hj. by apply lookup_app_l. Qed.

Lemma rep_lt h p c : rep h p c -> (p < length h)%nat.
Proof. destruct c; simpl; naive_solver eauto using lookup_lt_Some. Qed.

Lemma rep_agree n h h' p c : rep h p c -> agree n h h' -> (p < n)%nat -> rep h' p c.
Proof.
  intros Hr [_ Ha]. revert p Hr. induction c as [ws|c IH f m d|l IHl r IHr|l IHl r IHr|c IH]; intros p Hr Hp; cbn [rep] in *.
  - by rewrite Ha.
  - destruct Hr as (p' & q & e & Hn & Hlt & Hw & Hc). exists p', q, e. rewrite Ha by done. split_and!; try done. apply IH; [done|lia].
  - destruct Hr as (pl & pr & Hn & Hl & Hr' & Hcl & Hcr). exists pl, pr. rewrite Ha by done. split_and!; try done; [apply IHl|apply IHr]; done || lia.
  - destruct Hr as (pl & pr & Hn & Hl & Hr' & Hcl & Hcr). exists pl, pr. rewrite Ha by done. split_and!; try done; [apply IHl|apply IHr]; done || lia.
  - destruct Hr as (p' & Hn & Hlt & Hc). exists p'. rewrite Ha by done. split_and!; try done. apply IH; [done|lia].
Qed.

Lemma chain_le h p rs p' : chain h p rs p' -> (p <= p')%nat /\ (p < length h -> p' < length h)%nat.
Proof.
  induction 1 as [|rs p1 p2 r q e _ [IH1 IH2] Hlt Hn _]; [lia|]. split; [lia|]. intros _. by eapply lookup_lt_Some.
Qed.

Lemma chain_agree h h' p rs p' : chain h p rs p' -> (forall j, (p < j <= p')%nat -> h' !! j = h !! j) -> chain h' p rs p'.
Proof.
  induction 1 as [|rs p1 p2 r q e Hc IH Hlt Hn Hw]; intros Ha; [constructor|]. pose proof (chain_le _ _ _ _ Hc).
  eapply chain_snoc; [apply IH; intros j Hj; apply Ha; lia|done| |done]. rewrite Ha by lia. done.
Qed.

Lemma chain_trans h p rs1 p1 rs2 p2 : chain h p rs1 p1 -> chain h p1 rs2 p2 -> chain h p (rs1 ++ rs2) p2.
Proof.
  intros H1 H2. induction H2 as [|rs p3 p4 r q e Hc IH Hlt Hn Hw]; [by rewrite app_nil_r|]. rewrite app_assoc. by eapply chain_snoc.
Qed.

Lemma rep_wrap h p rs p' c : chain h p rs p' -> rep h p c -> rep h p' (wrap c rs).
Proof.
  intros Hc Hr. induction Hc as [|rs p1 p2 r q e Hc IH Hlt Hn Hw]; [done|]. unfold wrap. rewrite foldl_app. cbn [foldl rep].
  exists p1, q, e. split_and!; try done.
Qed.
End Rep.

Lemma args_mono (W W' : nat -> nat -> list Z -> Prop) a e ws : (forall q z w, W q z w -> W' q z w) -> args_at W a e ws -> args_at W' a e ws.
Proof. intros HW [H1 H2 H3]. split; [done|done|]. intros i w Hi. destruct (H3 i w Hi) as (q & z & ? & ? & ?). exists q, z. split_and!; auto. Qed.

Lemma rep_mono (W W' : nat -> nat -> list Z -> Prop) h p c : (forall q z w, W q z w -> W' q z w) -> rep W h p c -> rep W' h p c.
Proof.
  intros HW. revert p. induction c as [ws|c IH f m d|l IHl r IHr|l IHl r IHr|c IH]; intros p Hr; cbn [rep] in *.
  - destruct Hr as (a & e & Hn & Ha & Hz). exists a, e. split_and!; [done|by eapply args_mono|done].
  - destruct Hr as (p' & q & e & ? & ? & ? & ?). exists p', q, e. split_and!; auto.
  - destruct Hr as (pl & pr & ? & ? & ? & ? & ?). exists pl, pr. split_and!; auto.
  - destruct Hr as (pl & pr & ? & ? & ? & ? & ?). exists pl, pr. split_and!; auto.
  - destruct Hr as (p' & ? & ? & ?). exists p'. split_and!; auto.
Qed.

Section Parse.
Context (text junk : list Z) (Htext : Forall (fun c => c <> 0) text).
Abbreviation es := (length text).
Abbreviation rep := (rep (word_at text)).
Abbreviation chain := (chain (word_at text)).
Abbreviation ready := (ready text junk).
Abbreviation rest := (rest text).

(** ** Steps *)

Ltac peeks := let c := fresh in let Hc := fresh in intros c Hc; rewrite in_set_spec in Hc by no_nul; rewrite symbols_spec; apply bool_decide_eq_true in Hc; apply bool_decide_eq_true;
  unfold symbols; rewrite ?elem_of_cons, ?elem_of_nil in *; tauto.

Lemma new_cmd_run c s : ready s ->
  exists s', new_cmd c s = Ret (length (hp s)) s' /\ hp s' = hp s ++ [c] /\ pos s' = pos s /\ ready s' /\ rest s' = rest s.
Proof. intros [Hb Hp]. exists (set_hp (hp s ++ [c]) s). by repeat split. Qed.

(** The redirections in front: a chain out from [p]. *)
Lemma redirs_run n p s rs : ready s -> (p < length (hp s))%nat -> (es - pos s < n)%nat ->
  match p_redirs (rest s) rs with
  | OK (rs', ts') => exists added p' s', rs' = rs ++ added /\ redirs_loop es n p s = Ret p' s' /\ ready s' /\ rest s' = ts' /\
      agree (length (hp s)) (hp s) (hp s') /\ chain (hp s') p added p' /\ (pos s <= pos s')%nat
  | Bad m => redirs_loop es n p s = Panic m
  end.
Proof.
  revert p s rs. induction n as [|n IH]; intros p s rs Hr Hp Hn; [lia|]. cbn [redirs_loop].
  destruct (peek_run text junk Htext [60; 62] s Hr) as (p1 & E1 & Hr1 & Hre1 & Hp1); [peeks|]. rewrite (bind_Ret _ _ _ _ _ E1).
  destruct (rest s) as [|k ts] eqn:Ers.
  { cbn [p_redirs seen negb]. exists [], p, (set_pos p1 s). rewrite app_nil_r. split_and!; first [done|constructor]. }
  assert (Hseen : seen [60; 62] (k :: ts) = is_redir k) by by destruct k.
  rewrite Hseen. cbn [p_redirs]. destruct (is_redir k) eqn:Ek; cbn [negb].
  2: { exists [], p, (set_pos p1 s). rewrite app_nil_r. split_and!; first [done|constructor]. }
  pose proof (gettoken_run text junk Htext _ Hr1) as Hg. rewrite Hre1 in Hg. destruct Hg as (q2 & e2 & p2 & E2 & Hr2 & Hre2 & Hp2 & _).
  rewrite (bind_Ret _ _ _ _ _ E2). pose proof (gettoken_run text junk Htext _ Hr2) as Hg. rewrite Hre2 in Hg.
  destruct ts as [|k2 ts].
  { destruct Hg as (q3 & e3 & p3 & E3 & _). by rewrite (bind_Ret _ _ _ _ _ E3). }
  destruct Hg as (q3 & e3 & p3 & E3 & Hr3 & Hre3 & Hp3 & Hw). rewrite (bind_Ret _ _ _ _ _ E3). cbn [fst snd].
  destruct k2 as [| | | | | | | |w]; try done. specialize (Hw w eq_refl). cbn [code Z.eqb Pos.eqb negb].
  set (s3 := set_pos p3 (set_pos p2 (set_pos p1 s))) in *.
  assert (Hnew : exists r, redir_of k w = Some r /\ r_file r = w /\
    (if code k =? 60 then redircmd p q3 e3 O_RDONLY 0 else if code k =? 62 then redircmd p q3 e3 (Z.lor O_WRONLY O_CREATE) 1
     else if code k =? 43 then redircmd p q3 e3 (Z.lor O_WRONLY O_CREATE) 1 else ret p) = new_cmd (REDIR (Some p) q3 e3 (r_mode r) (r_fd r))).
  { destruct k; try done; by eexists. }
  destruct Hnew as (r & Er & Hfile & ->). rewrite Er. change (option_list (Some r)) with [r].
  destruct (new_cmd_run (REDIR (Some p) q3 e3 (r_mode r) (r_fd r)) s3 Hr3) as (s4 & E4 & Hh4 & Hp4 & Hr4 & Hre4). rewrite (bind_Ret _ _ _ _ _ E4).
  change (hp s3) with (hp s) in *. cbn [pos set_pos] in Hp2, Hp3. change (pos s3) with p3 in Hp4. pose proof (re_pos _ _ _ Hr3) as Hes. change (pos s3) with p3 in Hes.
  specialize (IH (length (hp s)) s4 (rs ++ [r]) Hr4). rewrite Hh4, length_app, Hre4, Hre3 in IH. cbn [length] in IH. specialize (IH ltac:(lia) ltac:(lia)).
  destruct (p_redirs ts (rs ++ [r])) as [[rs' ts']|m]; [|done].
  destruct IH as (added & p' & s' & -> & E5 & Hr5 & Hre5 & [Hl5 Ha5] & Hc5 & Hp5). exists (r :: added), p', s'. rewrite <- app_assoc.
  split_and!; try done; [| |lia].
  - split; [rewrite length_app in Hl5; lia|]. intros j Hj. rewrite Ha5 by lia. by apply lookup_app_l.
  - apply (chain_trans _ _ _ [r] (length (hp s))); [|done]. apply (chain_one _ _ _ _ _ q3 e3); [done| |by rewrite Hfile].
    rewrite Ha5 by lia. by apply list_lookup_middle.
Qed.

(** ** Arguments *)

(** The execcmd [i] with the arguments so far. *)
Definition part (h : list cmd) (i : nat) (args : list (list Z)) : Prop := exists a e, h !! i = Some (EXEC a e) /\ args_at (word_at text) a e args.

Lemma set_arg_run i args q e s : part (hp s) i args ->
  exists h', set_arg i (length args) q e s = Ret tt (set_hp h' s) /\ length h' = length (hp s) /\ (forall j, j <> i -> h' !! j = hp s !! j) /\
    (exists a z, h' !! i = Some (EXEC a z) /\ a !! length args = Some q /\ z !! length args = Some e /\ length a = MAXARGS /\ length z = MAXARGS /\
      (forall k w, args !! k = Some w -> exists q z', a !! k = Some (Some q) /\ z !! k = Some (Some z') /\ word_at text q z' w)).
Proof.
  intros (a & z & Hn & [Hm [La Lz] Hw]). exists (<[i := EXEC (<[length args := q]> a) (<[length args := e]> z)]> (hp s)). split_and!.
  - unfold set_arg, modify_opt. rewrite Hn. rewrite (proj2 (Nat.ltb_lt _ _)) by (rewrite La; unfold MAXARGS; lia). done.
  - apply length_insert.
  - intros j Hj. by apply list_lookup_insert_ne.
  - exists (<[length args := q]> a), (<[length args := e]> z). rewrite !length_insert. split_and!; try done.
    + apply list_lookup_insert_eq. by eapply lookup_lt_Some.
    + apply list_lookup_insert_eq. rewrite La. unfold MAXARGS. lia.
    + apply list_lookup_insert_eq. rewrite Lz. unfold MAXARGS. lia.
    + intros k w Hk. pose proof (lookup_lt_Some _ _ _ Hk). rewrite !list_lookup_insert_ne by lia. by apply Hw.
Qed.

(** The null pointer after the last argument. *)
Lemma end_arg_run i args rs rt s : part (hp s) i args -> chain (hp s) i rs rt -> (i < length (hp s))%nat -> (length args <= 9)%nat -> ready s ->
  exists s', (set_arg i (length args) None None;;; ret rt) s = Ret rt s' /\ ready s' /\ rest s' = rest s /\ pos s' = pos s /\
    agree i (hp s) (hp s') /\ rep (hp s') rt (wrap (AExec args) rs).
Proof.
  intros Hpart Hc Hi Hm [Hb Hp]. destruct (set_arg_run i args None None s Hpart) as (h' & E & Hl & Hoth & (a & z & Hn & Ha & _ & La & Lz & Hw)).
  exists (set_hp h' s). rewrite (bind_Ret _ _ _ _ _ E). split_and!; try done.
  - split; [simpl; lia|]. intros j Hj. apply Hoth. lia.
  - apply (rep_wrap _ _ i). 2: { by exists a, z. }
    eapply chain_agree; [exact Hc|]. intros j Hj. apply Hoth. lia.
Qed.

Lemma arg_run i args w q e s : part (hp s) i args -> word_at text q e w -> ready s -> (length args < 9)%nat ->
  exists s', set_arg i (length args) (Some q) (Some e) s = Ret tt s' /\ ready s' /\ rest s' = rest s /\ pos s' = pos s /\
    length (hp s') = length (hp s) /\ (forall j, j <> i -> hp s' !! j = hp s !! j) /\ part (hp s') i (args ++ [w]).
Proof.
  intros Hpart Hwa [Hb Hp] Hlt. destruct (set_arg_run i args (Some q) (Some e) s Hpart) as (h' & E & Hl & Hoth & (a & z & Hn & Ha & Hz & La & Lz & Hw)).
  exists (set_hp h' s). split_and!; try done. exists a, z. split; [done|]. split; [rewrite length_app; simpl; lia|done|].
  intros k w' Hk. apply lookup_app_Some in Hk as [Hk|[Hge Hk]]; [by apply Hw|]. apply list_lookup_singleton_Some in Hk as [Hk <-].
  replace k with (length args) by lia. by exists q, e.
Qed.

(** The outcome of the parser for a result of the reference. *)
Definition refines (m : M shst nat) (s : shst) (n : nat) (r : res (ast * list tok)) : Prop :=
  match r with
  | OK (c, ts) => exists p s', m s = Ret p s' /\ ready s' /\ rest s' = ts /\ agree n (hp s) (hp s') /\ rep (hp s') p c /\ (pos s <= pos s')%nat
  | Bad msg => m s = Panic msg
  end.

Lemma args_run n i args rs rt s : ready s -> part (hp s) i args -> chain (hp s) i rs rt -> no_redir (rest s) -> (length args <= 9)%nat ->
  (es - pos s < n)%nat -> refines (args_loop es n i (length args) rt) s i (p_args (rest s) args rs).
Proof.
  revert args rs rt s. induction n as [|n IH]; intros args rs rt s Hr Hpart Hc Hno Hm Hn; [lia|]. cbn [args_loop]. unfold refines.
  assert (Hi : (i < length (hp s))%nat) by (destruct Hpart as (a & e & Hi & _); by eapply lookup_lt_Some).
  destruct (peek_run text junk Htext [124; 41; 38; 59] s Hr) as (p1 & E1 & Hr1 & Hre1 & Hp1); [peeks|]. rewrite (bind_Ret _ _ _ _ _ E1).
  assert (Hend : forall p, (pos s <= p)%nat -> ready (set_pos p s) -> exists s', (set_arg i (length args) None None;;; ret rt) (set_pos p s) = Ret rt s' /\ ready s' /\
    rest s' = rest (set_pos p s) /\ agree i (hp s) (hp s') /\ rep (hp s') rt (wrap (AExec args) rs) /\ (pos s <= pos s')%nat).
  { intros p Hp Hrp. destruct (end_arg_run i args rs rt (set_pos p s) Hpart Hc Hi Hm Hrp) as (s' & E & ? & ? & Hps & ? & ?). exists s'. split_and!; try done. rewrite Hps. done. }
  pose proof (gettoken_run text junk Htext _ Hr1) as Hg. rewrite Hre1 in Hg. destruct (rest s) as [|k ts] eqn:Ers.
  { cbn [seen p_args]. destruct Hg as (q2 & e2 & p2 & E2 & Hr2 & Hre2 & Hp2). rewrite (bind_Ret _ _ _ _ _ E2). cbn [fst snd Z.eqb].
    destruct (Hend p2) as (s' & E & H1 & H2 & H3 & H4 & H5); [simpl in Hp2; lia|done|]. exists rt, s'. split_and!; try done. by rewrite H2. }
  destruct (decide (k = TBar \/ k = TClose \/ k = TAmp \/ k = TSemi)) as [Hstop|Hgo].
  { assert (Hk : seen [124; 41; 38; 59] (k :: ts) = true /\ p_args (k :: ts) args rs = OK (wrap (AExec args) rs, k :: ts)) by by destruct Hstop as [-> | [-> | [-> | ->]]].
    destruct Hk as [-> ->]. destruct (Hend p1 Hp1 Hr1) as (s' & E & H1 & H2 & H3 & H4 & H5). exists rt, s'. split_and!; try done. by rewrite H2. }
  assert (Hk : seen [124; 41; 38; 59] (k :: ts) = false) by (destruct k; try done; exfalso; apply Hgo; tauto). rewrite Hk.
  destruct Hg as (q2 & e2 & p2 & E2 & Hr2 & Hre2 & Hp2 & Hw). rewrite (bind_Ret _ _ _ _ _ E2). cbn [fst snd]. cbn [pos set_pos] in Hp2.
  destruct k as [| | | | | | | |w]; try done; try (exfalso; apply Hgo; tauto). specialize (Hw w eq_refl). cbn [code Z.eqb Pos.eqb negb p_args].
  set (s2 := set_pos p2 (set_pos p1 s)) in *. destruct (Nat.leb_spec 9 (length args)) as [H9|H9].
  { destruct (set_arg_run i args (Some q2) (Some e2) s2 Hpart) as (h' & E3 & _). rewrite (bind_Ret _ _ _ _ _ E3). by rewrite (proj2 (Nat.leb_le MAXARGS _)) by (unfold MAXARGS; lia). }
  destruct (arg_run i args w q2 e2 s2 Hpart Hw Hr2 H9) as (s3 & E3 & Hr3 & Hre3 & Hp3 & Hl3 & Hoth3 & Hpart3). change (hp s2) with (hp s) in *. change (pos s2) with p2 in Hp3.
  rewrite (bind_Ret _ _ _ _ _ E3). rewrite (proj2 (Nat.leb_gt MAXARGS _)) by (unfold MAXARGS; lia).
  assert (Hc3 : chain (hp s3) i rs rt) by (eapply chain_agree; [exact Hc|]; intros j Hj; apply Hoth3; lia). destruct (chain_le _ _ _ _ _ Hc3) as [Hle3 Hlt3].
  rewrite p_args_redirs. rewrite Hre2 in Hre3. pose proof (redirs_run (S es) rt s3 rs Hr3 ltac:(lia) ltac:(lia)) as Hred. rewrite Hre3 in Hred.
  destruct (p_redirs ts rs) as [[rs' ts']|m] eqn:Ered; [|unfold parseredirs; by rewrite (bind_Panic _ _ _ _ Hred)].
  destruct Hred as (added & rt' & s4 & -> & E4 & Hr4 & Hre4 & [Hl4 Ha4] & Hc4 & Hp4). unfold parseredirs. rewrite (bind_Ret _ _ _ _ _ E4).
  pose proof (re_pos _ _ _ Hr2) as Hes. change (pos s2) with p2 in Hes.
  assert (Hi3 : (i < length (hp s3))%nat) by lia.
  assert (Hpart4 : part (hp s4) i (args ++ [w])) by (destruct Hpart3 as (a & e & Hn3 & Ha3); exists a, e; split; [by rewrite Ha4 by lia|done]).
  assert (Hc4' : chain (hp s4) i (rs ++ added) rt') by (apply (chain_trans _ _ _ _ rt); [eapply chain_agree; [exact Hc3|]; intros j Hj; apply Ha4; lia|done]).
  assert (Hno4 : no_redir (rest s4)) by (rewrite Hre4; by eapply p_redirs_stop).
  assert (Hlen : length (args ++ [w]) = S (length args)) by (rewrite length_app; simpl; lia).
  specialize (IH (args ++ [w]) (rs ++ added) rt' s4 Hr4 Hpart4 Hc4' Hno4 ltac:(lia) ltac:(lia)). rewrite Hre4, Hlen in IH. unfold refines in IH.
  destruct (p_args ts' (args ++ [w]) (rs ++ added)) as [[c ts'']|m]; [|done]. destruct IH as (p & s' & E5 & H1 & H2 & [H3 H4] & H5 & H6).
  exists p, s'. split_and!; try done; [|lia]. split; [lia|]. intros j Hj. rewrite H4, Ha4, Hoth3 by lia. done.
Qed.

(** ** Lines, pipes and blocks *)

(** A node above parts that are there. *)
Lemma node_run c t s n : ready s -> (n <= length (hp s))%nat ->
  (forall h, agree (length (hp s)) (hp s) h -> h !! length (hp s) = Some c -> rep h (length (hp s)) t) ->
  exists p s', new_cmd c s = Ret p s' /\ ready s' /\ rest s' = rest s /\ pos s' = pos s /\ agree n (hp s) (hp s') /\ rep (hp s') p t.
Proof.
  intros Hr Hn Ht. destruct (new_cmd_run c s Hr) as (s' & E & Hh & Hp & Hr' & Hre). exists (length (hp s)), s'. split_and!; try done.
  - rewrite Hh. eapply agree_trans; [apply (agree_refl n)|apply agree_app|done].
  - apply Ht; [rewrite Hh; apply agree_app|]. rewrite Hh. by apply list_lookup_middle.
Qed.

(** The symbols that the parser tests for one by one. *)
Definition mark (k : tok) : Prop := match k with TAmp | TSemi | TBar | TOpen | TClose => True | _ => False end.

Lemma seen_mark k ts : mark k -> seen [code k] ts = bool_decide (head ts = Some k).
Proof. intros Hk. destruct ts as [|k2 ts]; [by destruct k|]. by destruct k, k2. Qed.

(** The next token is [k] and can be taken, or it is not. *)
Lemma mark_run k s : mark k -> ready s ->
  exists p1, ready (set_pos p1 s) /\ rest (set_pos p1 s) = rest s /\ (pos s <= p1)%nat /\
    ((exists ts p2 q e, rest s = k :: ts /\ peek es [code k] s = Ret true (set_pos p1 s) /\ gettoken es (set_pos p1 s) = Ret (code k, q, e) (set_pos p2 s) /\
       ready (set_pos p2 s) /\ rest (set_pos p2 s) = ts /\ (p1 < p2 <= es)%nat) \/
     head (rest s) <> Some k /\ peek es [code k] s = Ret false (set_pos p1 s)).
Proof.
  intros Hk Hr. destruct (peek_run text junk Htext [code k] s Hr) as (p1 & E1 & Hr1 & Hre1 & Hp1); [destruct k; try done; cbn [code]; peeks|].
  rewrite (seen_mark k _ Hk) in E1. exists p1. split_and!; try done. destruct (decide (head (rest s) = Some k)) as [Hh|Hh].
  - left. rewrite bool_decide_eq_true_2 in E1 by done. pose proof (gettoken_run text junk Htext _ Hr1) as Hg. rewrite Hre1 in Hg.
    destruct (rest s) as [|k' ts]; [done|]. injection Hh as ->. destruct Hg as (q & e & p2 & E2 & Hr2 & Hre2 & Hp2 & _).
    pose proof (re_pos _ _ _ Hr2). cbn [pos set_pos] in *. by exists ts, p2, q, e.
  - right. by rewrite bool_decide_eq_false_2 in E1 by done.
Qed.

Lemma backs_run n p s c : ready s -> rep (hp s) p c -> (es - pos s < n)%nat ->
  exists p' s', back_loop es n p s = Ret p' s' /\ ready s' /\ rest s' = snd (p_backs (rest s) c) /\ agree (length (hp s)) (hp s) (hp s') /\
    rep (hp s') p' (fst (p_backs (rest s) c)) /\ (pos s <= pos s')%nat.
Proof.
  revert p s c. induction n as [|n IH]; intros p s c Hr Hp Hn; [lia|]. cbn [back_loop]. change [38] with [code TAmp].
  destruct (mark_run TAmp s I Hr) as (p1 & Hr1 & Hre1 & Hp1 & [(ts & p2 & q2 & e2 & Ets & E1 & E2 & Hr2 & Hre2 & Hp2)|[Hno E1]]); rewrite (bind_Ret _ _ _ _ _ E1); cbn [negb].
  2: { assert (Hs : p_backs (rest s) c = (c, rest s)) by by destruct (rest s) as [|[] ts]. rewrite Hs. exists p, (set_pos p1 s). split_and!; done. }
  rewrite Ets. cbn [p_backs]. rewrite (bind_Ret _ _ _ _ _ E2).
  destruct (node_run (BACK (Some p)) (ABack c) _ (length (hp s)) Hr2) as (p3 & s3 & E3 & Hr3 & Hre3 & Hp3 & Ha3 & Hrep3); [done| |].
  { intros h Ha Hh. exists p. pose proof (rep_lt _ _ _ _ Hp). split_and!; [done|done|]. by eapply rep_agree. }
  unfold backcmd. rewrite (bind_Ret _ _ _ _ _ E3). cbn [pos set_pos] in Hp3.
  destruct (IH p3 s3 (ABack c) Hr3 Hrep3) as (p4 & s4 & E4 & Hr4 & Hre4 & Ha4 & Hrep4 & Hp4); [lia|]. rewrite Hre3, Hre2 in *.
  exists p4, s4. split_and!; try done; [|lia]. eapply agree_trans; [exact Ha3|exact Ha4|apply Ha3].
Qed.

(** What the four parsing functions do with fuel [n]. *)
Record parses (n : nat) : Prop := {
  ps_line : forall s r, ready s -> p_line n (rest s) = Some r -> refines (parseline es n) s (length (hp s)) r;
  ps_pipe : forall s r, ready s -> p_pipe n (rest s) = Some r -> refines (parsepipe es n) s (length (hp s)) r;
  ps_exec : forall s r, ready s -> p_exec n (rest s) = Some r -> refines (parseexec es n) s (length (hp s)) r;
  ps_block : forall s r ts, ready s -> rest s = TOpen :: ts -> p_block n ts = Some r -> refines (parseblock es n) s (length (hp s)) r
}.

(** A second part after the symbol [k], and the node above both. *)
Lemma pair_run k (node : nat -> nat -> cmd) (tree : ast -> ast -> ast) (parse : M shst nat) (spec : list tok -> option (res (ast * list tok))) :
  mark k -> (forall h p pl pr l r, h !! p = Some (node pl pr) -> (pl < p)%nat -> (pr < p)%nat -> rep h pl l -> rep h pr r -> rep h p (tree l r)) ->
  (forall s r, ready s -> spec (rest s) = Some r -> refines parse s (length (hp s)) r) ->
  forall s c p r, ready s -> rep (hp s) p c ->
  match rest s with
  | k' :: ts => if decide (k' = k) then match spec ts with Some (OK (c', ts')) => Some (OK (tree c c', ts')) | r => r end else Some (OK (c, rest s))
  | [] => Some (OK (c, []))
  end = Some r ->
  refines (more <~ peek es [code k];;; if more then gettoken es;;; right <~ parse;;; new_cmd (node p right) else ret p) s (length (hp s)) r.
Proof.
  intros Hk Hnode Hparse s c p r Hr Hp Hspec. unfold refines.
  destruct (mark_run k s Hk Hr) as (p1 & Hr1 & Hre1 & Hp1 & [(ts & p2 & q2 & e2 & Ets & E1 & E2 & Hr2 & Hre2 & Hp2)|[Hno E1]]); rewrite (bind_Ret _ _ _ _ _ E1).
  2: { assert (r = OK (c, rest s)) as ->. { destruct (rest s) as [|k' ts]; [by injection Hspec|]. rewrite decide_False in Hspec by (intros ->; by apply Hno). by injection Hspec. }
       exists p, (set_pos p1 s). split_and!; done. }
  rewrite Ets, decide_True in Hspec by done. rewrite (bind_Ret _ _ _ _ _ E2). destruct (spec ts) as [[[c' ts']|m]|] eqn:Espec; [| |done].
  2: { injection Hspec as <-. pose proof (Hparse _ (Bad m) Hr2 ltac:(by rewrite Hre2)) as Hb. by rewrite (bind_Panic _ _ _ _ Hb). }
  injection Hspec as <-. destruct (Hparse _ (OK (c', ts')) Hr2 ltac:(by rewrite Hre2)) as (p3 & s3 & E3 & Hr3 & Hre3 & Ha3 & Hrep3 & Hp3).
  rewrite (bind_Ret _ _ _ _ _ E3). cbn [hp set_pos pos] in *. pose proof (rep_lt _ _ _ _ Hp) as Hplt.
  assert (Hp' : rep (hp s3) p c) by by eapply rep_agree.
  destruct (node_run (node p p3) (tree c c') s3 (length (hp s)) Hr3) as (p4 & s4 & E4 & Hr4 & Hre4 & Hp4 & Ha4 & Hrep4); [apply Ha3| |].
  { intros h Ha Hh. pose proof (rep_lt _ _ _ _ Hp'). pose proof (rep_lt _ _ _ _ Hrep3). eapply Hnode; try done; by eapply rep_agree. }
  exists p4, s4. split_and!; try done; [congruence| |lia]. by apply (agree_trans _ (length (hp s)) _ _ _ Ha3 Ha4).
Qed.

Lemma refines_bind (m : M shst nat) (f : nat -> M shst nat) s r r' :
  refines m s (length (hp s)) r ->
  match r with
  | OK (c, ts) => forall p s', ready s' -> rest s' = ts -> rep (hp s') p c -> refines (f p) s' (length (hp s')) r'
  | Bad msg => r' = Bad msg
  end -> refines (bind m f) s (length (hp s)) r'.
Proof.
  destruct r as [[c ts]|msg]; unfold refines at 1.
  - intros (p & s1 & E & Hr & Hre & Ha & Hrep & Hp) Hf. specialize (Hf p s1 Hr Hre Hrep). unfold refines in *. rewrite (bind_Ret _ _ _ _ _ E).
    destruct r' as [[c' ts']|msg]; [|done]. destruct Hf as (p2 & s2 & E2 & ? & ? & Ha2 & ? & ?). exists p2, s2. split_and!; try done; [|lia].
    eapply agree_trans; [exact Ha|exact Ha2|apply Ha].
  - intros E ->. by apply bind_Panic.
Qed.

Lemma line_step n : parses n -> forall s r, ready s -> p_line (S n) (rest s) = Some r -> refines (parseline es (S n)) s (length (hp s)) r.
Proof.
  intros [Hline Hpipe _ _] s r Hr Hspec. cbn [p_line parseline] in *. destruct (p_pipe n (rest s)) as [r1|] eqn:E1; [|done].
  apply (refines_bind _ _ _ r1); [by apply Hpipe|]. destruct r1 as [[c ts]|msg]; [|by injection Hspec]. intros p s1 Hr1 Hre1 Hp1.
  destruct (backs_run (S es) p s1 c Hr1 Hp1) as (p2 & s2 & E2 & Hr2 & Hre2 & Ha2 & Hp2 & Hle2); [lia|]. rewrite Hre1 in *.
  apply (refines_bind _ _ _ (OK (p_backs ts c))).
  { unfold refines. rewrite (surjective_pairing (p_backs ts c)). exists p2, s2. split_and!; done. }
  destruct (p_backs ts c) as [c2 ts2]. intros p3 s3 Hr3 Hre3 Hp3.
  apply (pair_run TSemi (fun l r => LIST (Some l) (Some r)) AList (parseline es n) (p_line n) I) with (c := c2); try done.
  - intros h q pl pr l r0 Hn Hl Hr' Hcl Hcr. by exists pl, pr.
  - rewrite Hre3. destruct ts2 as [|[] ts2]; done.
Qed.

Lemma pipe_step n : parses n -> forall s r, ready s -> p_pipe (S n) (rest s) = Some r -> refines (parsepipe es (S n)) s (length (hp s)) r.
Proof.
  intros [_ Hpipe Hexec _] s r Hr Hspec. cbn [p_pipe parsepipe] in *. destruct (p_exec n (rest s)) as [r1|] eqn:E1; [|done].
  apply (refines_bind _ _ _ r1); [by apply Hexec|]. destruct r1 as [[c ts]|msg]; [|by injection Hspec]. intros p s1 Hr1 Hre1 Hp1.
  apply (pair_run TBar (fun l r => PIPE (Some l) (Some r)) APipe (parsepipe es n) (p_pipe n) I) with (c := c); try done.
  - intros h q pl pr l r0 Hn Hl Hr' Hcl Hcr. by exists pl, pr.
  - rewrite Hre1. destruct ts as [|[] ts]; done.
Qed.

Lemma exec_step n : parses n -> forall s r, ready s -> p_exec (S n) (rest s) = Some r -> refines (parseexec es (S n)) s (length (hp s)) r.
Proof.
  intros [_ _ _ Hblock] s r Hr Hspec. cbn [p_exec parseexec] in *. unfold refines. change [40] with [code TOpen].
  destruct (mark_run TOpen s I Hr) as (p1 & Hr1 & Hre1 & Hp1 & [(ts & p2 & q2 & e2 & Ets & E1 & _)|[Hno E1]]); rewrite (bind_Ret _ _ _ _ _ E1).
  { rewrite Ets in Hspec. rewrite Ets in Hre1. pose proof (Hblock _ r ts Hr1 Hre1 Hspec) as Hb. unfold refines in Hb. destruct r as [[c ts']|m]; [|done].
    destruct Hb as (p & s' & ? & ? & ? & ? & ? & ?). exists p, s'. split_and!; try done. cbn [pos set_pos] in *. lia. }
  assert (Hspec' : p_args (rest s) [] [] = r) by (destruct (rest s) as [|[] ts]; try done; by injection Hspec). clear Hspec. rewrite p_args_redirs in Hspec'.
  destruct (new_cmd_run (EXEC (replicate MAXARGS None) (replicate MAXARGS None)) _ Hr1) as (s2 & E2 & Hh2 & Hp2 & Hr2 & Hre2). cbn [hp set_pos pos] in *.
  unfold execcmd. rewrite (bind_Ret _ _ _ _ _ E2). set (i := length (hp s)) in *.
  assert (Hi : (i < length (hp s2))%nat) by (rewrite Hh2, length_app; simpl; lia).
  pose proof (redirs_run (S es) i s2 [] Hr2 Hi ltac:(lia)) as Hred. rewrite Hre2, Hre1 in Hred. unfold parseredirs.
  destruct (p_redirs (rest s) []) as [[rs ts']|m] eqn:Ered; [|subst r; by apply bind_Panic].
  destruct Hred as (added & rt & s3 & -> & E3 & Hr3 & Hre3 & [Hl3 Ha3] & Hc3 & Hp3). rewrite (bind_Ret _ _ _ _ _ E3). cbn [app] in *.
  assert (Hpart : part (hp s3) i []).
  { exists (replicate MAXARGS None), (replicate MAXARGS None). split; [|split; [simpl; lia|done|done]]. rewrite Ha3 by done. rewrite Hh2. by apply list_lookup_middle. }
  pose proof (args_run (S es) i [] added rt s3 Hr3 Hpart Hc3) as Hargs. rewrite Hre3 in Hargs. specialize (Hargs ltac:(by eapply p_redirs_stop) ltac:(simpl; lia) ltac:(lia)).
  rewrite Hspec' in Hargs. unfold refines in Hargs. destruct r as [[c ts'']|m]; [|exact Hargs]. destruct Hargs as (p & s4 & E4 & ? & ? & [Hl4 Ha4] & ? & ?).
  exists p, s4. split_and!; try done; [|lia]. split; [rewrite Hh2, length_app in *; lia|]. intros j Hj. rewrite Ha4, Ha3, Hh2 by lia. by apply lookup_app_l.
Qed.

Lemma block_step n : parses n -> forall s r ts, ready s -> rest s = TOpen :: ts -> p_block (S n) ts = Some r -> refines (parseblock es (S n)) s (length (hp s)) r.
Proof.
  intros [Hline _ _ _] s r ts Hr Ets Hspec. cbn [p_block parseblock] in *. change [40] with [code TOpen]. change [41] with [code TClose].
  destruct (mark_run TOpen s I Hr) as (p1 & Hr1 & Hre1 & Hp1 & [(ts0 & p2 & q2 & e2 & Ets' & E1 & E2 & Hr2 & Hre2 & Hp2)|[Hno _]]); [|by rewrite Ets in Hno].
  rewrite Ets in Ets'. injection Ets' as <-. destruct (p_line n ts) as [r1|] eqn:El; [|done].
  assert (Href : refines (cmd <~ parseline es n;;; close <~ peek es [code TClose];;;
    if negb close then panic "syntax - missing )" else gettoken es;;; parseredirs es cmd) (set_pos p2 s) (length (hp (set_pos p2 s))) r).
  { apply (refines_bind _ _ _ r1); [apply Hline; [done|by rewrite Hre2]|]. destruct r1 as [[c ts1]|m]; [|by injection Hspec]. intros p s3 Hr3 Hre3 Hp3. unfold refines.
    destruct (mark_run TClose s3 I Hr3) as (p4 & Hr4 & Hre4 & Hp4 & [(ts4 & p5 & q5 & e5 & Ets4 & E4 & E5 & Hr5 & Hre5 & Hp5)|[Hno4 E4]]); rewrite (bind_Ret _ _ _ _ _ E4); cbn [negb].
    2: { rewrite Hre3 in Hno4. destruct ts1 as [|[] ts1]; try (injection Hspec as <-; done). by destruct Hno4. }
    rewrite (bind_Ret _ _ _ _ _ E5). rewrite <- Hre3, Ets4 in Hspec. pose proof (rep_lt _ _ _ _ Hp3) as Hlt.
    pose proof (redirs_run (S es) p (set_pos p5 s3) [] Hr5 Hlt ltac:(lia)) as Hred. rewrite Hre5 in Hred. unfold parseredirs.
    destruct (p_redirs ts4 []) as [[rs ts5]|m]; injection Hspec as <-; [|done]. destruct Hred as (added & p' & s6 & -> & E6 & ? & ? & Ha6 & Hc6 & Hp6).
    exists p', s6. cbn [hp set_pos pos] in *. split_and!; try done; [|lia]. eapply rep_wrap; [exact Hc6|]. by eapply rep_agree. }
  unfold refines in *. rewrite (bind_Ret _ _ _ _ _ E1). cbn [negb]. rewrite (bind_Ret _ _ _ _ _ E2). destruct r as [[c ts']|m]; [|done].
  destruct Href as (p & s' & ? & ? & ? & ? & ? & ?). exists p, s'. split_and!; try done. cbn [pos set_pos] in *. lia.
Qed.

Lemma parses_all n : parses n.
Proof. induction n as [|n IH]; [by split|]. split; [by apply line_step|by apply pipe_step|by apply exec_step|by apply block_step]. Qed.
End Parse.
