(* ===== verification/ShTheorems.v ===== *)
(** * What the shell's parser guarantees (sh.c)

    On every line the parser ends: it builds the tree of the reference, with
    every string of it terminated in the line, or stops with the reference's
    message.  Printing a command and parsing it gives the command back. *)
From S2P Require Import Prelude Strings Fs Sh ShSpec ShLex ShParse.

(** ** The reference is total *)

Lemma p_redirs_shorter ts rs rs' ts' : p_redirs ts rs = OK (rs', ts') -> (length ts' <= length ts)%nat.
Proof.
  revert rs. induction ts as [|k|k k2 ts IH IH2] using list_ind2; intros rs; cbn [p_redirs].
  - by intros [= <- <-].
  - destruct (is_redir k); [done|]. by intros [= <- <-].
  - destruct (is_redir k); [|by intros [= <- <-]]. destruct k2; try done. intros E%IH. simpl. lia.
Qed.

Lemma p_args_shorter ts args rs c ts' : p_args ts args rs = OK (c, ts') -> (length ts' <= length ts)%nat.
Proof.
  revert args rs. induction ts as [|k|k k2 ts IH IH2] using list_ind2; intros args rs.
  - by intros [= <- <-].
  - destruct k; cbn [p_args is_redir]; try done; try by intros [= <- <-]. destruct (_ <=? _)%nat; [done|]. intros [= <- <-]. simpl. lia.
  - destruct k; cbn [p_args is_redir]; try done; try (by intros [= <- <-]).
    1-3: destruct k2; try done; intros E%IH; simpl; lia.
    destruct (_ <=? _)%nat; [done|]. intros E%IH2. simpl in *. lia.
Qed.

Lemma p_backs_shorter ts c : (length (snd (p_backs ts c)) <= length ts)%nat.
Proof. revert c. induction ts as [|k ts IH]; intros c; [done|]. destruct k; simpl; try lia. specialize (IH (ABack c)). lia. Qed.

(** Enough fuel for the tokens, and no more tokens left than there were. *)
Definition fine (ts : list tok) (r : option (res (ast * list tok))) : Prop :=
  match r with Some (OK (_, ts')) => (length ts' <= length ts)%nat | Some (Bad _) => True | None => False end.

Lemma p_total n :
  (forall ts, (4 * length ts + 4 <= n)%nat -> fine ts (p_line n ts)) /\ (forall ts, (4 * length ts + 3 <= n)%nat -> fine ts (p_pipe n ts)) /\
  (forall ts, (4 * length ts + 2 <= n)%nat -> fine ts (p_exec n ts)) /\ (forall ts, (4 * length ts + 5 <= n)%nat -> fine ts (p_block n ts)).
Proof.
  induction n as [|n (IHl & IHp & IHe & IHb)]; [split_and!; intros; lia|]. split_and!; intros ts Hn.
  - cbn [p_line]. specialize (IHp ts ltac:(lia)). destruct (p_pipe n ts) as [[[c ts1]|m]|]; [|done|done]. simpl in IHp.
    pose proof (p_backs_shorter ts1 c) as Hb. destruct (p_backs ts1 c) as [c2 ts2]. simpl in Hb. destruct ts2 as [|[] ts2]; try (simpl in *; lia).
    simpl in Hb. specialize (IHl ts2 ltac:(lia)). destruct (p_line n ts2) as [[[c3 ts3]|m]|]; try done. simpl in *. lia.
  - cbn [p_pipe]. specialize (IHe ts ltac:(lia)). destruct (p_exec n ts) as [[[c ts1]|m]|]; [|done|done]. destruct ts1 as [|[] ts1]; try done.
    simpl in IHe. specialize (IHp ts1 ltac:(lia)). destruct (p_pipe n ts1) as [[[c3 ts3]|m]|]; try done. simpl in *. lia.
  - cbn [p_exec]. assert (Hargs : fine ts (Some (p_args ts [] []))).
    { unfold fine. destruct (p_args ts [] []) as [[c ts']|m] eqn:E; [|done]. by apply p_args_shorter in E. }
    destruct ts as [|[] ts]; try done. simpl in Hn. specialize (IHb ts ltac:(lia)). unfold fine in *. destruct (p_block n ts) as [[[c ts1]|m]|]; try done. simpl. lia.
  - cbn [p_block]. specialize (IHl ts ltac:(lia)). destruct (p_line n ts) as [[[c ts1]|m]|]; [|done|done]. destruct ts1 as [|[] ts1]; try done.
    destruct (p_redirs ts1 []) as [[rs ts2]|m] eqn:E; [|done]. apply p_redirs_shorter in E. simpl in *. lia.
Qed.

(** ** Terminating the strings *)

Section Nul.
Context (text junk : list Z) (Htext : Forall (fun c => c <> 0) text).
Abbreviation line := (line text junk).
Abbreviation sep := (sep text).
Abbreviation word_at := (word_at text).

(** The line with zeros where no word is. *)
Definition zeroed (b : list Z) : Prop := length b = length line /\ forall j, b !! j = line !! j \/ b !! j = Some 0 /\ sep j.

(** A word that is terminated. *)
Definition ended (b : list Z) (q e : nat) (w : list Z) : Prop := word_at q e w /\ b !! e = Some 0.

(** One buffer after the other: zeros stay. *)
Definition more_zeros (b b' : list Z) : Prop := forall j, b !! j = Some 0 -> b' !! j = Some 0.

Lemma ended_mono b b' q e w : more_zeros b b' -> ended b q e w -> ended b' q e w.
Proof. intros Hm [Hw Hz]. split; [done|]. by apply Hm. Qed.

Lemma sep_le e : sep e -> (e <= length text)%nat.
Proof. intros [->|(c & Hc & _)]; [done|]. apply lookup_lt_Some in Hc. lia. Qed.

Lemma end_string_run e s : zeroed (buf s) -> sep e ->
  exists b', end_string e s = Ret tt (set_buf b' s) /\ zeroed b' /\ more_zeros (buf s) b' /\ b' !! e = Some 0.
Proof.
  intros [Hl Hz] He. pose proof (sep_le e He) as Hle. assert (Hlt : (e < length (buf s))%nat) by (rewrite Hl; unfold ShLex.line; rewrite length_app; simpl; lia).
  exists (<[e := 0]> (buf s)). split_and!.
  - unfold end_string, modify_opt. by rewrite (proj2 (Nat.ltb_lt _ _) Hlt).
  - split; [by rewrite length_insert|]. intros j. destruct (decide (j = e)) as [->|Hne]; [right; split; [by apply list_lookup_insert_eq|done]|].
    rewrite list_lookup_insert_ne by done. apply Hz.
  - intros j Hj. destruct (decide (j = e)) as [->|Hne]; [by apply list_lookup_insert_eq|]. by rewrite list_lookup_insert_ne.
  - by apply list_lookup_insert_eq.
Qed.

Lemma end_args_run ws a e s : zeroed (buf s) -> a !! length ws = Some None ->
  (forall i w, ws !! i = Some w -> exists q z, a !! i = Some (Some q) /\ e !! i = Some (Some z) /\ word_at q z w) ->
  exists b', end_args a e s = Ret tt (set_buf b' s) /\ zeroed b' /\ more_zeros (buf s) b' /\
    (forall i w, ws !! i = Some w -> exists q z, a !! i = Some (Some q) /\ e !! i = Some (Some z) /\ ended b' q z w).
Proof.
  revert a e s. induction ws as [|w ws IH]; intros a e s Hz Hnone Hw.
  - destruct a as [|[q|] a]; try done. exists (buf s). split_and!; try done; [by destruct s|by intros j].
  - destruct (Hw 0%nat w eq_refl) as (q & z & Ha & He & Hwa). destruct a as [|x a]; [done|]. destruct e as [|y e]; [done|]. injection Ha as ->. injection He as ->.
    destruct (end_string_run z s Hz (wa_sep _ _ _ _ Hwa)) as (b1 & E1 & Hz1 & Hm1 & Hb1).
    destruct (IH a e (set_buf b1 s) Hz1 Hnone) as (b2 & E2 & Hz2 & Hm2 & Hw2). { intros i v Hi. apply (Hw (S i) v Hi). }
    exists b2. cbn [end_args]. rewrite (bind_Ret _ _ _ _ _ E1). split_and!; [exact E2|done|intros j Hj; by apply Hm2, Hm1|].
    intros [|i] v Hi; [|by apply (Hw2 i)]. injection Hi as <-. exists q, z. split_and!; try done. split; [done|]. by apply Hm2.
Qed.

Lemma nulterminate_run n p c s : rep word_at (hp s) p c -> (p < n)%nat -> zeroed (buf s) ->
  exists b', nulterminate n (Some p) s = Ret tt (set_buf b' s) /\ zeroed b' /\ more_zeros (buf s) b' /\ rep (ended b') (hp s) p c.
Proof.
  revert p c s. induction n as [|n IH]; intros p c s Hr Hn Hz; [lia|]. cbn [nulterminate].
  assert (Hpair : forall pl pr l r, rep word_at (hp s) pl l -> rep word_at (hp s) pr r -> (pl < n)%nat -> (pr < n)%nat ->
    exists b', (nulterminate n (Some pl);;; nulterminate n (Some pr)) s = Ret tt (set_buf b' s) /\ zeroed b' /\ more_zeros (buf s) b' /\ rep (ended b') (hp s) pl l /\ rep (ended b') (hp s) pr r).
  { intros pl pr l r Hcl Hcr Hl Hr'. destruct (IH pl l s Hcl Hl Hz) as (b1 & E1 & Hz1 & Hm1 & Hr1).
    destruct (IH pr r (set_buf b1 s) Hcr Hr' Hz1) as (b2 & E2 & Hz2 & Hm2 & Hr2). exists b2. rewrite (bind_Ret _ _ _ _ _ E1).
    split_and!; [exact E2|done|intros j Hj; by apply Hm2, Hm1| |done]. eapply rep_mono; [|exact Hr1]. intros. by eapply ended_mono. }
  destruct c as [ws|c f m d|l r|l r|c]; cbn [rep] in Hr.
  - destruct Hr as (a & e & Hp & [H1 H2 H3] & Hnone). erewrite bind_gets_opt by exact Hp. destruct (end_args_run ws a e s Hz Hnone H3) as (b' & E & Hz' & Hm' & Hw').
    exists b'. split_and!; try done. exists a, e. split_and!; try done.
  - destruct Hr as (p' & q & e & Hp & Hlt & Hwa & Hc). erewrite bind_gets_opt by exact Hp. destruct (IH p' c s Hc ltac:(lia) Hz) as (b1 & E1 & Hz1 & Hm1 & Hr1).
    rewrite (bind_Ret _ _ _ _ _ E1). destruct (end_string_run e (set_buf b1 s) Hz1 (wa_sep _ _ _ _ Hwa)) as (b2 & E2 & Hz2 & Hm2 & Hb2).
    exists b2. split_and!; [exact E2|done|intros j Hj; by apply Hm2, Hm1|]. exists p', q, e. split_and!; try done. eapply rep_mono; [|exact Hr1]. intros. by eapply ended_mono.
  - destruct Hr as (pl & pr & Hp & Hl & Hr' & Hcl & Hcr). erewrite bind_gets_opt by exact Hp.
    destruct (Hpair pl pr l r Hcl Hcr ltac:(lia) ltac:(lia)) as (b' & E & ? & ? & ? & ?). exists b'. split_and!; try done. by exists pl, pr.
  - destruct Hr as (pl & pr & Hp & Hl & Hr' & Hcl & Hcr). erewrite bind_gets_opt by exact Hp.
    destruct (Hpair pl pr l r Hcl Hcr ltac:(lia) ltac:(lia)) as (b' & E & ? & ? & ? & ?). exists b'. split_and!; try done. by exists pl, pr.
  - destruct Hr as (p' & Hp & Hlt & Hc). erewrite bind_gets_opt by exact Hp. destruct (IH p' c s Hc ltac:(lia) Hz) as (b' & E & ? & ? & ?).
    exists b'. split_and!; try done. by exists p'.
Qed.

(** The string [w] in memory at [q]. *)
Definition string_at (b : list Z) (q : nat) (w : list Z) : Prop := Forall (fun c => c <> 0) w /\ exists r, drop q b = w ++ 0 :: r.

Lemma word_intact b q e w j : zeroed b -> word_at q e w -> (q <= j < e)%nat -> b !! j = text !! j.
Proof.
  intros [_ Hz] [Hr Hw Hc _] Hj. assert (Hwl : w !! (j - q)%nat = text !! j).
  { rewrite Hw, lookup_take_lt, lookup_drop by lia. f_equal. lia. }
  destruct (lookup_lt_is_Some_2 text j ltac:(lia)) as [c Hcj]. rewrite Hcj in *. destruct (Hz j) as [->|[_ [He|(d & Hd & Hnt)]]].
  - unfold ShLex.line. by rewrite lookup_app_l by lia.
  - lia.
  - rewrite Hcj in Hd. injection Hd as <-. rewrite forallb_forall in Hc. rewrite (Hc c) in Hnt; [done|]. apply list_elem_of_In. by eapply list_elem_of_lookup_2.
Qed.

Lemma ended_string b q e w : zeroed b -> ended b q e w -> string_at b q w.
Proof.
  intros Hz [Hwa He]. pose proof (wa_range _ _ _ _ Hwa) as Hr. split; [rewrite (wa_word _ _ _ _ Hwa); by apply Forall_take, Forall_drop|]. exists (drop (S e) b).
  rewrite <- (drop_S _ _ _ He). replace e with (q + (e - q))%nat at 1 by lia. rewrite <- drop_drop.
  rewrite <- (take_drop (e - q) (drop q b)) at 1. f_equal. rewrite (wa_word _ _ _ _ Hwa). apply list_eq. intros i.
  destruct (decide (i < e - q)%nat) as [Hi|Hi]; [|rewrite !lookup_take_ge by lia; done].
  rewrite !lookup_take_lt, !lookup_drop by lia. apply (word_intact b q e w); [done|done|lia].
Qed.
End Nul.

(** ** The theorems *)

(** The tree [c] in memory: nodes of the heap and strings of the buffer. *)
Definition tree_at (s : shst) (p : nat) (c : ast) : Prop := rep (fun q _ w => string_at (buf s) q w) (hp s) p c.

Lemma strlen_text text junk : Forall (fun c => c <> 0) text -> strlen (text ++ 0 :: junk) = Some (length text).
Proof.
  induction 1 as [|c text Hc _ IH]; [done|]. cbn [app strlen]. rewrite (proj2 (Z.eqb_neq c 0) Hc), IH. done.
Qed.

Lemma p_cmd_fuel text : exists r, p_line (4 * S (length text)) (lex text) = Some r.
Proof.
  pose proof (lex_length text). pose proof (proj1 (p_total (4 * S (length text))) (lex text) ltac:(lia)) as Hf. destruct (p_line _ _) as [r|]; [by exists r|done].
Qed.

Lemma parsecmd_refines_all text junk h n0 :
  Forall (fun c => c <> 0) text ->
  let s := Shst h n0 (text ++ 0 :: junk) in
  match p_cmd text with
  | OK c => exists p s', parsecmd s = Ret p s' /\ tree_at s' p c /\ agree (length h) h (hp s')
  | Bad msg => parsecmd s = Panic msg
  end.
Proof.
  intros Htext s. unfold parsecmd. erewrite bind_gets_opt by (apply strlen_text; exact Htext). rewrite bind_modify. set (s0 := set_pos 0 s).
  assert (Hr0 : ready text junk s0) by (split; [done|simpl; lia]). change (lex text) with (rest text s0).
  unfold p_cmd. destruct (p_cmd_fuel text) as [r Er]. rewrite Er. pose proof (ps_line _ _ _ (parses_all text junk Htext (4 * S (length text))) s0 r Hr0 Er) as Href.
  destruct r as [[c ts]|m]; [|by apply bind_Panic]. destruct Href as (p & s1 & E1 & Hr1 & Hre1 & Ha1 & Hp1 & _). rewrite (bind_Ret _ _ _ _ _ E1).
  destruct (peek_run text junk Htext [] s1 Hr1) as (p2 & E2 & Hr2 & Hre2 & Hp2); [done|]. rewrite (bind_Ret _ _ _ _ _ E2), bind_gets. cbn [pos set_pos].
  pose proof (peek_end text junk [] s1 _ _ Hr1 E2) as Hend. cbn [pos set_pos] in Hend. rewrite Hre1 in Hend. destruct ts as [|k ts].
  2: { rewrite (proj2 (Nat.eqb_neq p2 (length text))); [done|]. by intros E%Hend. }
  rewrite (proj2 Hend eq_refl), Nat.eqb_refl. cbn [negb].
  assert (Hz : zeroed text junk (buf (set_pos (length text) s1))) by (cbn [buf set_pos]; rewrite (re_buf _ _ _ Hr1); split; [done|by left]).
  destruct (nulterminate_run text junk (S p) p c (set_pos (length text) s1) Hp1 ltac:(lia) Hz) as (b' & E3 & Hz3 & _ & Hrep).
  rewrite (bind_Ret _ _ _ _ _ E3). eexists p, _. split; [done|]. split; [|exact Ha1].
  unfold tree_at. eapply rep_mono; [|exact Hrep]. intros q e w. by apply (ended_string text junk).
Qed.

(** C31: on every line the shell's parser does what the reference parser does on
    the tokens of the line: it returns the root of the same tree, every word
    of which is a terminated string of the line, or panics with the same
    message.  The nodes that were there before stay as they were. *)
Theorem parsecmd_refines text junk h n0 :
  Forall (fun c => c <> 0) text ->
  let s := Shst h n0 (text ++ 0 :: junk) in
  match p_cmd text with
  | OK c => exists p s', parsecmd s = Ret p s' /\ tree_at s' p c /\ agree (length h) h (hp s')
  | Bad msg => parsecmd s = Panic msg
  end.
Proof. apply parsecmd_refines_all. Qed.

(** The messages of the parser. *)
Definition messages : list string :=
  ["missing file for redirection"; "syntax"; "too many args"; "syntax - missing )"].

Definition known {A} (r : option (res A)) : Prop := match r with Some (Bad m) => m ∈ messages | _ => True end.

Ltac known_msg := unfold messages; rewrite !elem_of_cons; tauto.

Lemma p_redirs_known ts rs : known (Some (p_redirs ts rs)).
Proof.
  revert rs. induction ts as [|k|k k2 ts IH IH2] using list_ind2; intros rs; [done| |]; cbn [p_redirs]; destruct (is_redir k); try done; [simpl; known_msg|].
  destruct k2; simpl; try known_msg. apply IH.
Qed.

Lemma p_args_known ts args rs : known (Some (p_args ts args rs)).
Proof.
  revert args rs. induction ts as [|k|k k2 ts IH IH2] using list_ind2; intros args rs; [done| |].
  - destruct k; cbn [p_args is_redir]; try done; try (simpl; known_msg). destruct (_ <=? _)%nat; [simpl; known_msg|done].
  - destruct k; cbn [p_args is_redir]; try done; try (simpl; known_msg); [destruct k2; simpl; try known_msg; apply IH..|].
    destruct (_ <=? _)%nat; [simpl; known_msg|apply IH2].
Qed.

Lemma p_known n ts : known (p_line n ts) /\ known (p_pipe n ts) /\ known (p_exec n ts) /\ known (p_block n ts).
Proof.
  revert ts. induction n as [|n IH]; intros ts; [done|]. split_and!.
  - cbn [p_line]. pose proof (IH ts) as (_ & Hp & _). destruct (p_pipe n ts) as [[[c ts1]|m]|]; try done. destruct (p_backs ts1 c) as [c2 ts2].
    destruct ts2 as [|[] ts2]; try done. pose proof (IH ts2) as (Hl & _). destruct (p_line n ts2) as [[[c3 ts3]|m]|]; done.
  - cbn [p_pipe]. pose proof (IH ts) as (_ & _ & He & _). destruct (p_exec n ts) as [[[c ts1]|m]|]; try done.
    destruct ts1 as [|[] ts1]; try done. pose proof (IH ts1) as (_ & Hp & _). destruct (p_pipe n ts1) as [[[c3 ts3]|m]|]; done.
  - cbn [p_exec]. destruct ts as [|[] ts]; try apply p_args_known. apply IH.
  - cbn [p_block]. pose proof (IH ts) as (Hl & _). destruct (p_line n ts) as [[[c ts1]|m]|]; try done.
    destruct ts1 as [|[] ts1]; try (simpl; known_msg). pose proof (p_redirs_known ts1 []) as Hr. destruct (p_redirs ts1 []) as [[rs ts2]|m]; done.
Qed.

Lemma p_cmd_known text msg : p_cmd text = Bad msg -> msg ∈ messages.
Proof.
  unfold p_cmd. destruct (p_cmd_fuel text) as [r Er]. rewrite Er. pose proof (proj1 (p_known (4 * S (length text)) (lex text))) as Hk. rewrite Er in Hk.
  destruct r as [[c ts]|m]; [|by intros [= <-]]. destruct ts; [done|]. intros [= <-]. known_msg.
Qed.

Lemma terminated_split b n : strlen b = Some n -> exists text junk, b = text ++ 0 :: junk /\ Forall (fun c => c <> 0) text.
Proof.
  revert n. induction b as [|c b IH]; intros n; cbn [strlen]; [done|]. destruct (Z.eqb_spec c 0) as [->|Hc]; [intros _; by exists [], b|].
  destruct (strlen b) as [k|] eqn:E; [|done]. intros _. destruct (IH k eq_refl) as (t & j & -> & Ht). exists (c :: t), j. split; [done|by constructor].
Qed.

(** C32: on every terminated line the shell's parser ends, with a command or with
    one of four messages; it reads and writes only the line and the nodes. *)
Theorem parsecmd_ends h n0 b n :
  strlen b = Some n ->
  (exists p s', parsecmd (Shst h n0 b) = Ret p s') \/ (exists msg, parsecmd (Shst h n0 b) = Panic msg /\ msg ∈ messages).
Proof.
  intros Hb. destruct (terminated_split b n Hb) as (text & junk & -> & Ht). pose proof (parsecmd_refines_all text junk h n0 Ht) as Hp. cbv zeta in Hp.
  destruct (p_cmd text) as [c|msg] eqn:E.
  - left. destruct Hp as (p & s' & Hp & _). by exists p, s'.
  - right. exists msg. split; [done|by eapply p_cmd_known].
Qed.

(** The line [a|b >c]. *)
Lemma parsecmd_refines_witness : exists p s', parsecmd (Shst [] 0 ([97; 124; 98; 32; 62; 99] ++ 0 :: [])) = Ret p s' /\
  tree_at s' p (APipe (AExec [[97]]) (ARedir (AExec [[98]]) [99] (Z.lor O_WRONLY O_CREATE) 1)).
Proof.
  pose proof (parsecmd_refines [97; 124; 98; 32; 62; 99] [] [] 0 ltac:(repeat constructor; done)) as H. cbv zeta in H.
  assert (E : p_cmd [97; 124; 98; 32; 62; 99] = OK (APipe (AExec [[97]]) (ARedir (AExec [[98]]) [99] (Z.lor O_WRONLY O_CREATE) 1))) by by vm_compute.
  rewrite E in H. destruct H as (p & s' & H & Ht & _). exists p, s'. split; [exact H|exact Ht].
Defined.

(** The line [a >], without a file. *)
Lemma parsecmd_ends_witness : exists msg, parsecmd (Shst [] 0 [97; 62; 0]) = Panic msg /\ msg ∈ messages.
Proof.
  destruct (parsecmd_ends [] 0 [97; 62; 0] 2 eq_refl) as [(p & s' & H)|H]; [|exact H]. vm_compute in H. discriminate H.
Defined.
