(* ===== verification/ShPrint.v ===== *)
(** * Printing commands and parsing them back (sh.c)

    [print] writes a command tree as a line, with parentheses where the grammar
    needs them; the shell's parser gives the tree back. *)
From S2P Require Import Prelude Strings Fs Sh ShSpec ShLex ShParse ShTheorems.

(** ** Printing *)

Definition paren (b : bool) (ts : list tok) : list tok := if b then TOpen :: ts ++ [TClose] else ts.

(** Levels: 0 a line, 1 without [;], 2 without [&], 3 without [|]. *)
Fixpoint show (lvl : nat) (c : ast) : list tok :=
  match c with
  | AExec ws => TWord <$> ws
  | ARedir c f _ d => show 3 c ++ [if d =? 0 then TLess else TGreater; TWord f]
  | APipe l r => paren (2 <? lvl)%nat (show 3 l ++ TBar :: show 2 r)
  | ABack c => paren (1 <? lvl)%nat (show 1 c ++ [TAmp])
  | AList l r => paren (0 <? lvl)%nat (show 1 l ++ TSemi :: show 0 r)
  end.

Definition tok_text (k : tok) : list Z := match k with TApp => [62; 62] | TWord w => w | k => [code k] end.
Definition print_toks (ts : list tok) : list Z := concat ((fun k => 32 :: tok_text k) <$> ts).
Definition print (c : ast) : list Z := print_toks (show 0 c).

(** Words and commands that can be written. *)
Definition word_ok (w : list Z) : Prop := w <> [] /\ forallb tokchar w = true /\ Forall (fun c => c <> 0) w.

Fixpoint printable (c : ast) : Prop :=
  match c with
  | AExec ws => (length ws <= 9)%nat /\ Forall word_ok ws
  | ARedir c f m d => printable c /\ word_ok f /\ (m = O_RDONLY /\ d = 0 \/ m = Z.lor O_WRONLY O_CREATE /\ d = 1)
  | APipe l r => printable l /\ printable r
  | AList l r => printable l /\ printable r
  | ABack c => printable c
  end.

(** ** Tokens of the text *)

Definition tok_ok (k : tok) : Prop := match k with TWord w => word_ok w | _ => True end.

(** A text that does not continue a word. *)
Definition breaks (t : list Z) : Prop := match t with [] => True | c :: _ => c = 32 end.

Lemma next_print k t : tok_ok k -> breaks t -> next (32 :: tok_text k ++ t) = Some (k, t).
Proof.
  intros Hk Ht. unfold next. rewrite (span_cons (in_set whitespace) 32) by done. cbn [snd].
  destruct k as [| | | | | | | |w]; cbn [tok_text code app]; try (destruct t as [|d t]; [done|]; simpl in Ht; subst d; done).
  destruct Hk as (Hne & Hc & _). destruct w as [|c w]; [done|]. cbn [forallb] in Hc. apply andb_true_iff in Hc as [Hc Hw].
  pose proof Hc as Hc'. unfold tokchar in Hc'. apply andb_true_iff in Hc' as [Hsp Hsy]. apply negb_true_iff in Hsp, Hsy.
  assert (Es : span (in_set whitespace) ((c :: w) ++ t) = ([], (c :: w) ++ t)) by (simpl; by rewrite Hsp). rewrite Es. cbn [snd app]. rewrite Hsy.
  assert (Hspan : span tokchar ((c :: w) ++ t) = (c :: w, t)).
  { clear -Hc Hw Ht. assert (Hcw : forallb tokchar (c :: w) = true) by (simpl; by rewrite Hc). revert Hcw. generalize (c :: w). clear -Ht. intros l. induction l as [|x l IH]; simpl.
    - intros _. destruct t as [|d t]; [done|]. simpl in Ht. by subst d.
    - intros [Hx Hl]%andb_true_iff. rewrite Hx. by rewrite (IH Hl). }
  change (c :: w ++ t) with ((c :: w) ++ t). by rewrite Hspan.
Qed.

Lemma print_breaks ts : breaks (print_toks ts).
Proof. by destruct ts. Qed.

Lemma lex_print ts : Forall tok_ok ts -> lex (print_toks ts) = ts.
Proof.
  induction 1 as [|k ts Hk Hts IH]; [done|]. rewrite lex_next. unfold print_toks. cbn [fmap list_fmap concat].
  change ((32 :: tok_text k) ++ ?r) with (32 :: tok_text k ++ r). rewrite next_print by (done || apply print_breaks). f_equal. exact IH.
Qed.

Lemma show_ok lvl c : printable c -> Forall tok_ok (show lvl c).
Proof.
  assert (Hparen : forall b ts, Forall tok_ok ts -> Forall tok_ok (paren b ts)).
  { intros b ts Hts. destruct b; [|done]. constructor; [done|]. apply Forall_app. split; [done|]. by constructor. }
  revert lvl. induction c as [ws|c IH f m d|l IHl r IHr|l IHl r IHr|c IH]; intros lvl; cbn [printable show].
  - intros [_ Hw]. apply Forall_fmap. eapply Forall_impl; [exact Hw|done].
  - intros (Hc & Hf & _). apply Forall_app. split; [by apply IH|]. constructor; [by destruct (d =? 0)|]. by constructor.
  - intros [Hl Hr]. apply Hparen, Forall_app. split; [by apply IHl|]. constructor; [done|by apply IHr].
  - intros [Hl Hr]. apply Hparen, Forall_app. split; [by apply IHl|]. constructor; [done|by apply IHr].
  - intros Hc. apply Hparen, Forall_app. split; [by apply IH|]. by constructor.
Qed.

Lemma print_nonzero ts : Forall tok_ok ts -> Forall (fun c => c <> 0) (print_toks ts).
Proof.
  induction 1 as [|k ts Hk Hts IH]; [constructor|]. unfold print_toks. cbn [fmap list_fmap concat]. apply Forall_app. split; [|exact IH]. constructor; [done|].
  destruct k; cbn [tok_text code]; try (repeat constructor; done). apply Hk.
Qed.

(** ** Parsing what was printed *)

(** Tokens that end a simple command. *)
Definition stops (ts : list tok) : Prop := match ts with [] => True | k :: _ => match k with TBar | TAmp | TSemi | TClose => True | _ => False end end.
Definition closes (ts : list tok) : Prop := ts = [] \/ exists r, ts = TClose :: r.

Lemma stops_redirs ts : stops ts -> p_redirs ts [] = OK ([], ts).
Proof. by destruct ts as [|[] ts]. Qed.

Lemma p_redirs_acc ts rs rs' ts' : p_redirs ts [] = OK (rs', ts') -> p_redirs ts rs = OK (rs ++ rs', ts').
Proof.
  cut (forall r0, p_redirs ts r0 = OK (rs', ts') -> forall rs0, p_redirs ts (rs0 ++ r0) = OK (rs0 ++ rs', ts')).
  { intros Hc H. specialize (Hc [] H rs). by rewrite app_nil_r in Hc. }
  induction ts as [|k|k k2 ts IH IH2] using list_ind2; intros r0; cbn [p_redirs].
  - intros [= <- <-]. done.
  - destruct (is_redir k); [done|]. by intros [= <- <-].
  - destruct (is_redir k); [|by intros [= <- <-]]. destruct k2 as [| | | | | | | |w]; try done. intros H rs0. rewrite <- app_assoc. by apply IH.
Qed.

Lemma p_args_words ws ts args : (length args + length ws <= 9)%nat -> p_args ((TWord <$> ws) ++ ts) args [] = p_args ts (args ++ ws) [].
Proof.
  revert args. induction ws as [|w ws IH]; intros args Hl; [by rewrite app_nil_r|]. cbn [fmap list_fmap app p_args]. simpl in Hl.
  rewrite (proj2 (Nat.leb_gt _ _)) by lia. rewrite IH by (rewrite length_app; simpl; lia). by rewrite <- app_assoc.
Qed.

(** What the reference does with the printed command, at every level. *)
Record parses_back (c : ast) : Prop := {
  pb_exec : forall n ts rs rest, (4 * length (show 3 c ++ ts) + 2 <= n)%nat -> p_redirs ts [] = OK (rs, rest) -> stops rest ->
    p_exec n (show 3 c ++ ts) = Some (OK (wrap c rs, rest));
  pb_pipe : forall n rest, (4 * length (show 2 c ++ rest) + 3 <= n)%nat -> stops rest -> head rest <> Some TBar ->
    p_pipe n (show 2 c ++ rest) = Some (OK (c, rest));
  pb_back : forall n ts, (4 * length (show 1 c ++ ts) + 3 <= n)%nat -> stops ts -> head ts <> Some TBar ->
    exists c0 ts0, p_pipe n (show 1 c ++ ts) = Some (OK (c0, ts0)) /\ p_backs ts0 c0 = p_backs ts c;
  pb_line : forall n rest, (4 * length (show 0 c ++ rest) + 4 <= n)%nat -> closes rest -> p_line n (show 0 c ++ rest) = Some (OK (c, rest))
}.

Section Levels.
Context (c : ast).

Lemma level_exec :
  show 3 c = TOpen :: show 0 c ++ [TClose] ->
  (forall n rest, (4 * length (show 0 c ++ rest) + 4 <= n)%nat -> closes rest -> p_line n (show 0 c ++ rest) = Some (OK (c, rest))) ->
  forall n ts rs rest, (4 * length (show 3 c ++ ts) + 2 <= n)%nat -> p_redirs ts [] = OK (rs, rest) -> stops rest ->
    p_exec n (show 3 c ++ ts) = Some (OK (wrap c rs, rest)).
Proof.
  intros E Hline n ts rs rest Hn Hr Hst. rewrite E in *. cbn [app length] in *. rewrite <- app_assoc in *. cbn [app] in *. rewrite length_app in Hn. cbn [length] in Hn.
  destruct n as [|[|n]]; [lia|lia|]. cbn [p_exec p_block]. rewrite Hline; [by rewrite Hr|rewrite length_app; cbn [length]; lia|right; by eexists].
Qed.

Lemma level_pipe :
  show 2 c = show 3 c ->
  (forall n ts rs rest, (4 * length (show 3 c ++ ts) + 2 <= n)%nat -> p_redirs ts [] = OK (rs, rest) -> stops rest ->
    p_exec n (show 3 c ++ ts) = Some (OK (wrap c rs, rest))) ->
  forall n rest, (4 * length (show 2 c ++ rest) + 3 <= n)%nat -> stops rest -> head rest <> Some TBar -> p_pipe n (show 2 c ++ rest) = Some (OK (c, rest)).
Proof.
  intros E Hexec n rest Hn Hst Hbar. rewrite E in *. destruct n as [|n]; [lia|]. cbn [p_pipe].
  rewrite (Hexec n rest [] rest); [|lia|by apply stops_redirs|done]. by destruct rest as [|[] rest].
Qed.

Lemma level_back :
  show 1 c = show 2 c ->
  (forall n rest, (4 * length (show 2 c ++ rest) + 3 <= n)%nat -> stops rest -> head rest <> Some TBar -> p_pipe n (show 2 c ++ rest) = Some (OK (c, rest))) ->
  forall n ts, (4 * length (show 1 c ++ ts) + 3 <= n)%nat -> stops ts -> head ts <> Some TBar ->
    exists c0 ts0, p_pipe n (show 1 c ++ ts) = Some (OK (c0, ts0)) /\ p_backs ts0 c0 = p_backs ts c.
Proof. intros E Hpipe n ts Hn Hst Hbar. rewrite E in *. exists c, ts. split; [by apply Hpipe|done]. Qed.

Lemma level_line :
  show 0 c = show 1 c ->
  (forall n ts, (4 * length (show 1 c ++ ts) + 3 <= n)%nat -> stops ts -> head ts <> Some TBar ->
    exists c0 ts0, p_pipe n (show 1 c ++ ts) = Some (OK (c0, ts0)) /\ p_backs ts0 c0 = p_backs ts c) ->
  forall n rest, (4 * length (show 0 c ++ rest) + 4 <= n)%nat -> closes rest -> p_line n (show 0 c ++ rest) = Some (OK (c, rest)).
Proof.
  intros E Hback n rest Hn Hcl. rewrite E in *. destruct n as [|n]; [lia|]. cbn [p_line].
  destruct (Hback n rest) as (c0 & ts0 & -> & ->); [lia|by destruct Hcl as [-> | [r ->]]..|]. by destruct Hcl as [-> | [r ->]].
Qed.
End Levels.

Lemma show_parses c : printable c -> parses_back c.
Proof.
  induction c as [ws|c IH f m d|l IHl r IHr|l IHl r IHr|c IH]; cbn [printable].
  - intros [Hmax _]. assert (He : forall n ts rs rest, (4 * length (show 3 (AExec ws) ++ ts) + 2 <= n)%nat -> p_redirs ts [] = OK (rs, rest) -> stops rest ->
      p_exec n (show 3 (AExec ws) ++ ts) = Some (OK (wrap (AExec ws) rs, rest))).
    { intros n ts rs rest Hn Hr Hst. destruct n as [|n]; [lia|]. cbn [show].
      assert (Hargs : p_args ((TWord <$> ws) ++ ts) [] [] = OK (wrap (AExec ws) rs, rest)).
      { rewrite p_args_words by (simpl; lia). cbn [app]. rewrite p_args_redirs, Hr. by destruct rest as [|[] rest]. }
      cbn [p_exec]. destruct ws as [|w ws]; [|cbn [fmap list_fmap app] in *; by rewrite Hargs].
      cbn [fmap list_fmap app] in *. rewrite Hargs. by destruct ts as [|[] ts]. }
    pose proof (level_pipe (AExec ws) eq_refl He) as Hp. pose proof (level_back (AExec ws) eq_refl Hp) as Hb. split; [done|done|done|]. by apply level_line.
  - intros (Hc & _ & Hmd). specialize (IH Hc).
    assert (He : forall n ts rs rest, (4 * length (show 3 (ARedir c f m d) ++ ts) + 2 <= n)%nat -> p_redirs ts [] = OK (rs, rest) -> stops rest ->
      p_exec n (show 3 (ARedir c f m d) ++ ts) = Some (OK (wrap (ARedir c f m d) rs, rest))).
    { intros n ts rs rest Hn Hr Hst. cbn [show] in *. rewrite <- app_assoc in *. apply (pb_exec _ IH n _ (Redir f m d :: rs)); [done| |done].
      assert (Hk : is_redir (if d =? 0 then TLess else TGreater) = true /\ redir_of (if d =? 0 then TLess else TGreater) f = Some (Redir f m d)) by by destruct Hmd as [[-> ->]|[-> ->]].
      destruct Hk as [Hk1 Hk2]. cbn [app p_redirs]. rewrite Hk1, Hk2. by apply (p_redirs_acc ts [Redir f m d]). }
    pose proof (level_pipe (ARedir c f m d) eq_refl He) as Hp. pose proof (level_back (ARedir c f m d) eq_refl Hp) as Hb. split; [done|done|done|]. by apply level_line.
  - intros [Hl Hr]. specialize (IHl Hl). specialize (IHr Hr).
    assert (Hp : forall n rest, (4 * length (show 2 (APipe l r) ++ rest) + 3 <= n)%nat -> stops rest -> head rest <> Some TBar -> p_pipe n (show 2 (APipe l r) ++ rest) = Some (OK (APipe l r, rest))).
    { intros n rest Hn Hst Hbar. cbn [show] in *. change (paren (2 <? 2)%nat ?x) with x in *. rewrite <- app_assoc in *. cbn [app] in *. destruct n as [|n]; [lia|]. cbn [p_pipe].
      rewrite (pb_exec _ IHl n _ [] (TBar :: show 2 r ++ rest)); [|lia|done|done]. change (wrap l []) with l. rewrite length_app in Hn. cbn [length] in Hn.
      by rewrite (pb_pipe _ IHr n rest) by (done || lia). }
    pose proof (level_back (APipe l r) eq_refl Hp) as Hb. pose proof (level_line (APipe l r) eq_refl Hb) as Hline. split; [by apply level_exec|done|done|done].
  - intros [Hl Hr]. specialize (IHl Hl). specialize (IHr Hr).
    assert (Hline : forall n rest, (4 * length (show 0 (AList l r) ++ rest) + 4 <= n)%nat -> closes rest -> p_line n (show 0 (AList l r) ++ rest) = Some (OK (AList l r, rest))).
    { intros n rest Hn Hcl. cbn [show] in *. change (paren (0 <? 0)%nat ?x) with x in *. rewrite <- app_assoc in *. cbn [app] in *. destruct n as [|n]; [lia|]. cbn [p_line].
      destruct (pb_back _ IHl n (TSemi :: show 0 r ++ rest)) as (c0 & ts0 & -> & ->); [lia|done|done|]. cbn [p_backs]. rewrite length_app in Hn. cbn [length] in Hn.
      by rewrite (pb_line _ IHr n rest) by (done || lia). }
    pose proof (level_exec (AList l r) eq_refl Hline) as He. pose proof (level_pipe (AList l r) eq_refl He) as Hp. split; [done|done|by apply level_back|done].
  - intros Hc. specialize (IH Hc).
    assert (Hb : forall n ts, (4 * length (show 1 (ABack c) ++ ts) + 3 <= n)%nat -> stops ts -> head ts <> Some TBar ->
      exists c0 ts0, p_pipe n (show 1 (ABack c) ++ ts) = Some (OK (c0, ts0)) /\ p_backs ts0 c0 = p_backs ts (ABack c)).
    { intros n ts Hn Hst Hbar. cbn [show] in *. change (paren (1 <? 1)%nat ?x) with x in *. rewrite <- app_assoc in *. cbn [app] in *.
      destruct (pb_back _ IH n (TAmp :: ts)) as (c0 & ts0 & E & E'); [lia|done|done|]. by exists c0, ts0. }
    pose proof (level_line (ABack c) eq_refl Hb) as Hline. pose proof (level_exec (ABack c) eq_refl Hline) as He. split; [done|by apply level_pipe|done|done].
Qed.

Lemma print_parses c : printable c -> p_cmd (print c) = OK c.
Proof.
  intros Hc. unfold p_cmd, print. pose proof (show_ok 0 c Hc) as Hok. rewrite lex_print by done. pose proof (lex_length (print_toks (show 0 c))) as Hl. rewrite lex_print in Hl by done.
  pose proof (pb_line c (show_parses c Hc) (4 * S (length (print_toks (show 0 c)))) []) as Hp. rewrite app_nil_r in Hp. rewrite Hp; [done|lia|by left].
Qed.

(** C33: printing a command and parsing the line gives the command back, with its
    words as terminated strings of the line. *)
Theorem print_parse c junk h n0 :
  printable c ->
  exists p s', parsecmd (Shst h n0 (print c ++ 0 :: junk)) = Ret p s' /\ tree_at s' p c.
Proof.
  intros Hc. pose proof (parsecmd_refines_all (print c) junk h n0 (print_nonzero _ (show_ok 0 c Hc))) as Hp. cbv zeta in Hp. rewrite (print_parses c Hc) in Hp.
  destruct Hp as (p & s' & E & Ht & _). by exists p, s'.
Qed.

(** ( a < f | b ; c ) & *)
Definition cmd_demo : ast := ABack (AList (APipe (ARedir (AExec [[97]]) [102] O_RDONLY 0) (AExec [[98]])) (AExec [[99]])).

Lemma print_parse_witness : exists p s', parsecmd (Shst [] 0 (print cmd_demo ++ [0])) = Ret p s' /\ tree_at s' p cmd_demo.
Proof.
  apply (print_parse cmd_demo [] [] 0). cbn [cmd_demo printable length]. unfold word_ok.
  split_and!; try done; try lia; try (by left); repeat constructor; done.
Defined.
