(* ===== verification/ShRun.v ===== *)
(** * Running commands (sh.c)

    [runcmd] turns the nodes of a command into the system calls that the
    processes make, as a tree with a branch for a child and for each failure.
    [execs] follows the tree through the descriptor tables of the processes,
    where open, dup and pipe take the lowest free descriptors and any call may
    be refused, and collects the programs that are run, with the table each of
    them is given, and the messages.  [getcmd] and the loop of main read the
    lines. *)
From S2P Require Import Prelude Strings Fs Sh ShSpec ShLex ShParse ShTheorems.

(** ** System calls of a shell process *)

(** The formats of printf are without their newline. *)
Inductive act :=
| Exit
| Exec (argv : list (list Z)) (k : act)
| Printf (fmt : string) (args : list (list Z)) (k : act)
| Close (fd : nat) (k : act)
| Open (file : list Z) (mode : Z) (ok fail : act)
| Dup (fd : nat) (k : act)
| Pipe (ok : nat -> nat -> act) (fail : act)
| Fork (child parent fail : act)
| Wait (k : act).

(** panic and fork1 of the shell. *)
Definition sh_panic (msg : list Z) : act := Printf "%s" [msg] Exit.
Definition fork1 (child parent : act) : act := Fork child parent (sh_panic [102; 111; 114; 107]).

(** The string at [q], and the vector of arguments. *)
Definition str_of (b : list Z) (q : nat) : option (list Z) := _ ← strlen (drop q b); Some (cut (drop q b)).

Fixpoint args_of (b : list Z) (argv : list (option nat)) : option (list (list Z)) :=
  match argv with
  | None :: _ => Some []
  | Some q :: argv' => w ← str_of b q; ws ← args_of b argv'; Some (w :: ws)
  | [] => None
  end.

Definition pipe_act (left right : act) : act :=
  Pipe (fun p0 p1 =>
    fork1 (Close 1 (Dup p1 (Close p0 (Close p1 left))))
      (fork1 (Close 0 (Dup p0 (Close p0 (Close p1 right))))
        (Close p0 (Close p1 (Wait (Wait Exit)))))) (sh_panic [112; 105; 112; 101]).

Definition exec_act (argv : list (list Z)) : act :=
  match argv with [] => Exit | path :: _ => Exec argv (Printf "exec %s failed" [path] Exit) end.
Definition redir_act (file : list Z) (mode : Z) (fd : nat) (k : act) : act :=
  Close fd (Open file mode k (Printf "open %s failed" [file] Exit)).

Fixpoint runcmd (n : nat) (h : list cmd) (b : list Z) (cmd : option nat) : option act :=
  match cmd, n with
  | None, _ => Some Exit
  | _, O => None
  | Some i, S n' =>
      c ← h !! i;
      match c with
      | EXEC argv _ => ws ← args_of b argv; Some (exec_act ws)
      | REDIR c q _ mode fd => file ← str_of b q; k ← runcmd n' h b c; Some (redir_act file mode (Z.to_nat fd) k)
      | LIST l r => kl ← runcmd n' h b l; kr ← runcmd n' h b r; Some (fork1 kl (Wait kr))
      | PIPE l r => kl ← runcmd n' h b l; kr ← runcmd n' h b r; Some (pipe_act kl kr)
      | BACK c => k ← runcmd n' h b c; Some (fork1 k Exit)
      end
  end.

(** ** Reading lines *)

(** [getcmd] with the bytes of the input: the buffer, or nothing at its end. *)
Definition getcmd (nbuf : nat) (input : list Z) : option (list Z) * list Z :=
  let '(w, rest) := gets_line (Z.of_nat nbuf) input in
  let b := w ++ replicate (nbuf - length w) 0 in
  (match b with c :: _ => if c =? 0 then None else Some b | [] => None end, rest).

(** What main does with a line. *)
Inductive job := Chdir (path : list Z) | Run (b : list Z).

Definition job_of (b : list Z) : option job :=
  match b with
  | 99 :: 100 :: 32 :: _ => n ← strlen b; Some (Chdir (cut (drop 3 (<[pred n := 0]> b))))
  | _ => Some (Run b)
  end.

Fixpoint sh_main (n : nat) (input : list Z) : option (list job) :=
  match n with
  | O => None
  | S n' =>
      match getcmd 100 input with
      | (None, _) => Some []
      | (Some b, rest) => j ← job_of b; js ← sh_main n' rest; Some (j :: js)
      end
  end.

(** ** Descriptors *)

Inductive ofile := FOld (i : nat) | FFile (name : list Z) (mode : Z) | FRead (p : nat) | FWrite (p : nat).
Abbreviation fdtab := (gmap nat ofile).

(** The lowest free descriptor. *)
Definition lowest (t : fdtab) : option nat := fst <$> list_find (fun i => t !! i = None) (seq 0 16).

(** What the processes of a command do that is seen from outside: a program
    that is run, with its descriptors, and a message. *)
Inductive event := Ran (argv : list (list Z)) (t : fdtab) | Said (fmt : string) (args : list (list Z)).

(** The kernel may refuse any open, pipe, fork and exec: [ch] tells, call by
    call, whether it succeeds; the calls behind its end do. *)
Definition succeeds (ch : list bool) : bool := default true (head ch).

(** The events of a process and of its children, those of a child before those
    of its parent after the fork; [n] numbers the pipes. *)
Fixpoint execs (a : act) (t : fdtab) (n : nat) (ch : list bool) : list event * nat * list bool :=
  match a with
  | Exit => ([], n, ch)
  | Exec argv k => if succeeds ch then ([Ran argv t], n, tail ch) else execs k t n (tail ch)
  | Printf fmt args k => let '(l, n, ch) := execs k t n ch in (Said fmt args :: l, n, ch)
  | Close fd k => execs k (delete fd t) n ch
  | Open f m ok fail =>
      match lowest t with
      | Some i => if succeeds ch then execs ok (<[i := FFile f m]> t) n (tail ch) else execs fail t n (tail ch)
      | None => execs fail t n ch
      end
  | Dup fd k => match lowest t, t !! fd with Some i, Some f => execs k (<[i := f]> t) n ch | _, _ => execs k t n ch end
  | Pipe ok fail =>
      match lowest t with
      | Some p0 =>
          match lowest (<[p0 := FRead n]> t) with
          | Some p1 =>
              if succeeds ch then execs (ok p0 p1) (<[p1 := FWrite n]> (<[p0 := FRead n]> t)) (S n) (tail ch)
              else execs fail t n (tail ch)
          | None => execs fail t n ch
          end
      | None => execs fail t n ch
      end
  | Fork c p fail =>
      if succeeds ch then
        let '(l1, n1, ch1) := execs c t n (tail ch) in
        let '(l2, n2, ch2) := execs p t n1 ch1 in (l1 ++ l2, n2, ch2)
      else execs fail t n (tail ch)
  | Wait k => execs k t n ch
  end.

(** The start of main: open the console until descriptor 3 is reached. *)
Definition console : list Z := [99; 111; 110; 115; 111; 108; 101].
Fixpoint open_console (n : nat) (t : fdtab) : fdtab :=
  match n, lowest t with
  | S n', Some fd =>
      let t := <[fd := FFile console O_RDWR]> t in
      if (3 <=? fd)%nat then delete fd t else open_console n' t
  | _, _ => t
  end.
