(* ===== verification/ShRunTheorems.v ===== *)
(** * What running a command line does (sh.c)

    Every program of the line is run once, with its arguments, and with the
    descriptors that the line gives it; a call that the kernel refuses ends the
    part of the line that depends on it, with a message. *)
From S2P Require Import Prelude Strings Fs Sh ShSpec ShLex ShParse ShTheorems ShRun.

(** ** From nodes to trees *)

Fixpoint run_ast (c : ast) : act :=
  match c with
  | AExec ws => exec_act ws
  | ARedir c f m d => redir_act f m (Z.to_nat d) (run_ast c)
  | APipe l r => pipe_act (run_ast l) (run_ast r)
  | AList l r => fork1 (run_ast l) (Wait (run_ast r))
  | ABack c => fork1 (run_ast c) Exit
  end.

Lemma str_of_string b q w : string_at b q w -> str_of b q = Some w.
Proof.
  intros [Hw [r E]]. unfold str_of. rewrite E. rewrite (strlen_text w r Hw). simpl. f_equal.
  clear E. induction Hw as [|c w Hc _ IH]; [done|]. simpl. rewrite (proj2 (Z.eqb_neq c 0) Hc). by rewrite IH.
Qed.

Lemma args_of_words b a ws :
  a !! length ws = Some None -> (forall i w, ws !! i = Some w -> exists q, a !! i = Some (Some q) /\ string_at b q w) -> args_of b a = Some ws.
Proof.
  revert a. induction ws as [|w ws IH]; intros a Hn Hw.
  - by destruct a as [|[q|] a].
  - destruct (Hw 0%nat w eq_refl) as (q & Ha & Hs). destruct a as [|x a]; [done|]. injection Ha as ->. cbn [args_of]. rewrite (str_of_string _ _ _ Hs). simpl.
    rewrite (IH a Hn); [done|]. intros i v Hi. apply (Hw (S i) v Hi).
Qed.

Lemma runcmd_tree n s p c : tree_at s p c -> (p < n)%nat -> runcmd n (hp s) (buf s) (Some p) = Some (run_ast c).
Proof.
  unfold tree_at. revert p c. induction n as [|n IH]; intros p c Ht Hn; [lia|]. cbn [runcmd].
  destruct c as [ws|c f m d|l r|l r|c]; cbn [rep] in Ht.
  - destruct Ht as (a & e & -> & [H1 H2 H3] & Hz). simpl. rewrite (args_of_words (buf s) a ws Hz); [done|]. intros i w Hi. destruct (H3 i w Hi) as (q & z & ? & _ & ?). by exists q.
  - destruct Ht as (p' & q & e & -> & Hlt & Hs & Hc). simpl. rewrite (str_of_string _ _ _ Hs). simpl. by rewrite (IH p' c Hc ltac:(lia)).
  - destruct Ht as (pl & pr & -> & Hl & Hr & Hcl & Hcr). simpl. by rewrite (IH pl l Hcl ltac:(lia)), (IH pr r Hcr ltac:(lia)).
  - destruct Ht as (pl & pr & -> & Hl & Hr & Hcl & Hcr). simpl. by rewrite (IH pl l Hcl ltac:(lia)), (IH pr r Hcr ltac:(lia)).
  - destruct Ht as (p' & -> & Hlt & Hc). simpl. by rewrite (IH p' c Hc ltac:(lia)).
Qed.

(** ** What a command means *)

(** The process that cannot fork says so and ends. *)
Definition no_fork : event := Said "%s" [[102; 111; 114; 107]].

(** The programs to run, each with its descriptors, and the messages, when the
    calls that [ch] refuses fail; [n] numbers the pipes.  A redirection that
    cannot be made keeps its command from running.  A pipe that cannot be made,
    or a process that cannot be started, ends the command there: what was
    started before goes on. *)
Fixpoint plan (c : ast) (t : fdtab) (n : nat) (ch : list bool) : list event * nat * list bool :=
  match c with
  | AExec [] => ([], n, ch)
  | AExec (w :: ws) => (if succeeds ch then [Ran (w :: ws) t] else [Said "exec %s failed" [w]], n, tail ch)
  | ARedir c f m d =>
      if succeeds ch then plan c (<[Z.to_nat d := FFile f m]> t) n (tail ch)
      else ([Said "open %s failed" [f]], n, tail ch)
  | APipe l r =>
      if negb (succeeds ch) then ([Said "%s" [[112; 105; 112; 101]]], n, tail ch) else
      let ch := tail ch in
      if negb (succeeds ch) then ([no_fork], S n, tail ch) else
      let '(l1, n1, ch) := plan l (<[1%nat := FWrite n]> t) (S n) (tail ch) in
      if negb (succeeds ch) then (l1 ++ [no_fork], n1, tail ch) else
      let '(l2, n2, ch) := plan r (<[0%nat := FRead n]> t) n1 (tail ch) in (l1 ++ l2, n2, ch)
  | AList l r =>
      if negb (succeeds ch) then ([no_fork], n, tail ch) else
      let '(l1, n1, ch) := plan l t n (tail ch) in
      let '(l2, n2, ch) := plan r t n1 ch in (l1 ++ l2, n2, ch)
  | ABack c => if succeeds ch then plan c t n (tail ch) else ([no_fork], n, tail ch)
  end.

(** Redirections are of the standard input or output. *)
Fixpoint std_redirs (c : ast) : Prop :=
  match c with
  | AExec _ => True
  | ARedir c _ _ d => (d = 0 \/ d = 1) /\ std_redirs c
  | APipe l r | AList l r => std_redirs l /\ std_redirs r
  | ABack c => std_redirs c
  end.

(** ** Descriptors *)

(** Standard input and output are open, two descriptors are free. *)
Record table_ok (t : fdtab) (p0 p1 : nat) : Prop := {
  to_std : is_Some (t !! 0%nat) /\ is_Some (t !! 1%nat);
  to_free : t !! p0 = None /\ t !! p1 = None;
  to_range : (1 < p0 < p1)%nat /\ (p1 < 16)%nat;
  to_low : forall i, (i < p1)%nat -> i <> p0 -> is_Some (t !! i)
}.

Lemma lowest_is (t : fdtab) i : (i < 16)%nat -> t !! i = None -> (forall j, (j < i)%nat -> is_Some (t !! j)) -> lowest t = Some i.
Proof.
  intros Hi Hn Hlow. unfold lowest. assert (E : list_find (fun i => t !! i = None) (seq 0 16) = Some (i, i)).
  { apply list_find_Some. split_and!; [by apply lookup_seq_lt|done|]. intros j y Hj Hlt Hy. apply lookup_seq in Hj as [-> Hj]. destruct (Hlow j Hlt) as [f Hf]. simpl in Hy. by rewrite Hf in Hy. }
  by rewrite E.
Qed.

Lemma table_insert t p0 p1 d f : table_ok t p0 p1 -> (d = 0 \/ d = 1)%nat -> table_ok (<[d := f]> t) p0 p1.
Proof.
  intros [Hstd Hfree Hr Hlow] Hd. assert (Hs : forall i, is_Some (t !! i) -> is_Some (<[d := f]> t !! i)).
  { intros i Hi. destruct (decide (d = i)) as [->|Hne]; [rewrite lookup_insert_eq; by eexists|by rewrite lookup_insert_ne]. }
  split; [destruct Hstd; split; by apply Hs|split; rewrite lookup_insert_ne by lia; apply Hfree|done|]. intros i Hi Hne. by apply Hs, Hlow.
Qed.

Lemma redir_table t p0 p1 d f : table_ok t p0 p1 -> (d = 0 \/ d = 1)%nat -> lowest (delete d t) = Some d /\ <[d := f]> (delete d t) = <[d := f]> t.
Proof.
  intros [[H0 H1] _ _ _] Hd. split; [|apply insert_delete_eq]. apply lowest_is; [lia|apply lookup_delete_eq|]. intros j Hj.
  assert (j = 0%nat) as -> by lia. by rewrite lookup_delete_ne by lia.
Qed.

(** The tables at the two ends of a pipe. *)
Lemma pipe_table t p0 p1 n : table_ok t p0 p1 ->
  let t2 := <[p1 := FWrite n]> (<[p0 := FRead n]> t) in
  lowest t = Some p0 /\ lowest (<[p0 := FRead n]> t) = Some p1 /\
  forall d x, (d = 0 \/ d = 1)%nat -> lowest (delete d t2) = Some d /\ delete p1 (delete p0 (<[d := x]> (delete d t2))) = <[d := x]> t.
Proof.
  intros [Hstd [Hf0 Hf1] [Hr Hmax] Hlow] t2. split_and!.
  - apply lowest_is; [lia|done|]. intros j Hj. apply Hlow; lia.
  - apply lowest_is; [lia|by rewrite lookup_insert_ne by lia|]. intros j Hj. destruct (decide (p0 = j)) as [->|Hne]; [rewrite lookup_insert_eq; by eexists|].
    rewrite lookup_insert_ne by done. apply Hlow; lia.
  - intros d x Hd. split.
    + apply lowest_is; [lia|apply lookup_delete_eq|]. intros j Hj. assert (j = 0%nat) as -> by lia. rewrite lookup_delete_ne by lia. unfold t2. rewrite !lookup_insert_ne by lia. apply Hstd.
    + rewrite insert_delete_eq. apply map_eq. intros i. destruct (decide (i = p1)) as [->|H1]; [rewrite lookup_delete_eq, lookup_insert_ne by lia; done|].
      rewrite lookup_delete_ne by done. destruct (decide (i = p0)) as [->|H0]; [rewrite lookup_delete_eq, lookup_insert_ne by lia; done|].
      rewrite lookup_delete_ne by done. destruct (decide (i = d)) as [->|Hi]; [by rewrite !lookup_insert_eq|]. rewrite !(lookup_insert_ne _ d) by done. unfold t2. by rewrite !lookup_insert_ne by done.
Qed.

Lemma execs_plan c t n ch p0 p1 : std_redirs c -> table_ok t p0 p1 -> execs (run_ast c) t n ch = plan c t n ch.
Proof.
  revert t n ch. induction c as [ws|c IH f m d|l IHl r IHr|l IHl r IHr|c IH]; intros t n ch Hc Ht; cbn [run_ast std_redirs] in *.
  - destruct ws; [done|]. cbn. by destruct (succeeds ch).
  - destruct Hc as [Hd Hc]. assert (Hd' : (Z.to_nat d = 0 \/ Z.to_nat d = 1)%nat) by lia. destruct (redir_table t p0 p1 (Z.to_nat d) (FFile f m) Ht Hd') as [E1 E2].
    unfold redir_act. cbn [execs plan]. rewrite E1, E2. destruct (succeeds ch); [|done]. apply IH; [done|by apply table_insert].
  - destruct Hc as [Hl Hr]. destruct (pipe_table t p0 p1 n Ht) as (E1 & E2 & Hends). unfold pipe_act, fork1, sh_panic. cbn [execs plan]. rewrite E1, E2.
    destruct (Hends 1%nat (FWrite n) ltac:(lia)) as [E3 E4]. destruct (Hends 0%nat (FRead n) ltac:(lia)) as [E5 E6].
    destruct (succeeds ch); [|done]. cbn [execs negb]. rewrite E3, E5. destruct (succeeds (tail ch)); [|done]. cbn [negb].
    pose proof (to_range _ _ _ Ht) as Hrg.
    rewrite (lookup_delete_ne _ 1%nat p1), lookup_insert_eq by lia. rewrite (lookup_delete_ne _ 0%nat p0) by lia. rewrite (lookup_insert_ne _ p1 p0), lookup_insert_eq by lia.
    rewrite E4, E6. rewrite IHl by (done || (apply table_insert; [done|lia])). destruct (plan l _ (S n) _) as [[l1 n1] ch1].
    destruct (succeeds ch1); [|done]. cbn [negb].
    rewrite IHr by (done || (apply table_insert; [done|lia])). destruct (plan r _ n1 _) as [[l2 n2] ch2]. by rewrite app_nil_r.
  - destruct Hc as [Hl Hr]. unfold fork1, sh_panic. cbn [execs plan]. destruct (succeeds ch); [|done]. cbn [negb].
    rewrite IHl by done. destruct (plan l t n _) as [[l1 n1] ch1]. rewrite IHr by done. done.
  - unfold fork1, sh_panic. cbn [execs plan]. destruct (succeeds ch); [|done]. rewrite IH by done. destruct (plan c t n _) as [[l1 n1] ch1]. by rewrite app_nil_r.
Qed.

(** When no call is refused, nothing but programs is seen: each of the command,
    once. *)
Fixpoint programs (c : ast) : list (list (list Z)) :=
  match c with
  | AExec [] => []
  | AExec ws => [ws]
  | ARedir c _ _ _ | ABack c => programs c
  | APipe l r | AList l r => programs l ++ programs r
  end.

Definition ran (e : event) : option (list (list Z)) := match e with Ran argv _ => Some argv | Said _ _ => None end.

Lemma plan_all c t n : exists l n', plan c t n [] = (l, n', []) /\ ran <$> l = Some <$> programs c.
Proof.
  revert t n. induction c as [ws|c IH f m d|l IHl r IHr|l IHl r IHr|c IH]; intros t n; cbn [plan programs].
  - destruct ws; eexists _, _; done.
  - apply IH.
  - cbn. destruct (IHl (<[1%nat := FWrite n]> t) (S n)) as (l1 & n1 & -> & E1). cbn.
    destruct (IHr (<[0%nat := FRead n]> t) n1) as (l2 & n2 & -> & E2). eexists _, _. split; [done|]. by rewrite !fmap_app, E1, E2.
  - cbn. destruct (IHl t n) as (l1 & n1 & -> & E1). destruct (IHr t n1) as (l2 & n2 & -> & E2). eexists _, _. split; [done|].
    by rewrite !fmap_app, E1, E2.
  - apply IH.
Qed.

(** ** Trees of the parser *)

Definition redir_std (r : redir) : Prop := r_fd r = 0 \/ r_fd r = 1.

Lemma wrap_std c rs : std_redirs c -> Forall redir_std rs -> std_redirs (wrap c rs).
Proof.
  intros Hc Hrs. revert c Hc. induction Hrs as [|r rs Hr _ IH]; intros c Hc; [done|]. unfold wrap. cbn [foldl]. apply IH. by split.
Qed.

Lemma redir_of_std k w rs : Forall redir_std rs -> Forall redir_std (rs ++ option_list (redir_of k w)).
Proof.
  intros Hrs. apply Forall_app. split; [done|]. destruct k; simpl; try apply Forall_nil_2; apply Forall_singleton; [by left|by right|by right].
Qed.

Lemma p_redirs_std ts rs rs' ts' : Forall redir_std rs -> p_redirs ts rs = OK (rs', ts') -> Forall redir_std rs'.
Proof.
  revert rs. induction ts as [|k|k k2 ts IH IH2] using list_ind2; intros rs Hrs; cbn [p_redirs].
  - by intros [= <- <-].
  - destruct (is_redir k); [done|]. by intros [= <- <-].
  - destruct (is_redir k); [|by intros [= <- <-]]. destruct k2; try done. apply IH. by apply redir_of_std.
Qed.

Lemma p_args_std ts args rs c ts' : Forall redir_std rs -> p_args ts args rs = OK (c, ts') -> std_redirs c.
Proof.
  revert args rs. induction ts as [|k|k k2 ts IH IH2] using list_ind2; intros args rs Hrs.
  - intros [= <- <-]. by apply wrap_std.
  - destruct k; cbn [p_args is_redir]; try done; try (intros [= <- <-]; by apply wrap_std). destruct (_ <=? _)%nat; [done|]. intros [= <- <-]. by apply wrap_std.
  - destruct k; cbn [p_args is_redir]; try done; try (intros [= <- <-]; by apply wrap_std).
    1-3: destruct k2; try done; apply IH, redir_of_std, Hrs.
    destruct (_ <=? _)%nat; [done|]. by apply IH2.
Qed.

Lemma p_backs_std ts c : std_redirs c -> std_redirs (fst (p_backs ts c)).
Proof. revert c. induction ts as [|k ts IH]; intros c Hc; [done|]. destruct k; try done. by apply IH. Qed.

Definition std_res (r : option (res (ast * list tok))) : Prop := match r with Some (OK (c, _)) => std_redirs c | _ => True end.

Lemma p_std n ts : std_res (p_line n ts) /\ std_res (p_pipe n ts) /\ std_res (p_exec n ts) /\ std_res (p_block n ts).
Proof.
  revert ts. induction n as [|n IH]; intros ts; [done|]. split_and!.
  - cbn [p_line]. pose proof (IH ts) as (_ & Hp & _). destruct (p_pipe n ts) as [[[c ts1]|m]|]; try done. pose proof (p_backs_std ts1 c Hp) as Hb. destruct (p_backs ts1 c) as [c2 ts2].
    destruct ts2 as [|[] ts2]; try done. pose proof (IH ts2) as (Hl & _). destruct (p_line n ts2) as [[[c3 ts3]|m]|]; done.
  - cbn [p_pipe]. pose proof (IH ts) as (_ & _ & He & _). destruct (p_exec n ts) as [[[c ts1]|m]|]; try done.
    destruct ts1 as [|[] ts1]; try done. pose proof (IH ts1) as (_ & Hp & _). destruct (p_pipe n ts1) as [[[c3 ts3]|m]|]; done.
  - cbn [p_exec]. assert (Ha : std_res (Some (p_args ts [] []))) by (unfold std_res; destruct (p_args ts [] []) as [[c ts']|m] eqn:E; [|done]; eapply p_args_std; [|exact E]; constructor).
    destruct ts as [|[] ts]; try done. apply IH.
  - cbn [p_block]. pose proof (IH ts) as (Hl & _). destruct (p_line n ts) as [[[c ts1]|m]|]; try done.
    destruct ts1 as [|[] ts1]; try done. destruct (p_redirs ts1 []) as [[rs ts2]|m] eqn:E; [|done]. apply p_redirs_std in E; [|constructor]. by apply wrap_std.
Qed.

Lemma p_cmd_std text c : p_cmd text = OK c -> std_redirs c.
Proof.
  unfold p_cmd. pose proof (proj1 (p_std (4 * S (length text)) (lex text))) as Hs. destruct (p_line _ _) as [[[c' ts]|m]|]; try done. destruct ts; [|done]. by intros [= <-].
Qed.

(** C34: the shell runs a line as it is written.  For the tree [c] of the line,
    and whichever of the calls of open, pipe, fork and exec the kernel refuses,
    the processes run exactly the programs of [plan c] and print exactly its
    messages: each program with its arguments and with the descriptors of the
    shell but for its redirections and for the ends of its pipes, no other end
    of a pipe open in it; no command whose redirection could not be made, and
    none behind a process that could not be started.  When no call is refused
    they run every program of the line, once, and print nothing. *)
Theorem shell_runs text junk h n0 c t n p0 p1 :
  Forall (fun c => c <> 0) text -> p_cmd text = OK c -> table_ok t p0 p1 ->
  exists p s' a, parsecmd (Shst h n0 (text ++ 0 :: junk)) = Ret p s' /\ runcmd (S p) (hp s') (buf s') (Some p) = Some a /\
    (forall ch, execs a t n ch = plan c t n ch) /\
    exists l n', execs a t n [] = (l, n', []) /\ ran <$> l = Some <$> programs c.
Proof.
  intros Htext Hc Ht. pose proof (parsecmd_refines_all text junk h n0 Htext) as Hp. cbv zeta in Hp. rewrite Hc in Hp. destruct Hp as (p & s' & E & Htree & _).
  exists p, s', (run_ast c). split; [exact E|]. split; [apply runcmd_tree; [exact Htree|lia]|].
  assert (He : forall ch, execs (run_ast c) t n ch = plan c t n ch) by (intros ch; eapply execs_plan; [by eapply p_cmd_std|exact Ht]).
  split; [exact He|]. rewrite He. apply plan_all.
Qed.

(** The table with the three standard descriptors. *)
Definition std_table : fdtab := {[ 0%nat := FOld 0; 1%nat := FOld 1; 2%nat := FOld 2 ]}.

Lemma std_table_ok : table_ok std_table 3 4.
Proof.
  split; [split; by eexists|done|lia|]. intros i Hi Hne. assert (i = 0 \/ i = 1 \/ i = 2)%nat as [-> | [-> | ->]] by lia; by eexists.
Qed.

(** a < f | b, with every call successful and when f cannot be opened *)
Lemma shell_runs_witness : exists p s' a, parsecmd (Shst [] 0 ([97; 60; 102; 124; 98] ++ 0 :: [])) = Ret p s' /\ runcmd (S p) (hp s') (buf s') (Some p) = Some a /\
  execs a std_table 0 [] = ([Ran [[97]] (<[0%nat := FFile [102] 0]> (<[1%nat := FWrite 0]> std_table)); Ran [[98]] (<[0%nat := FRead 0]> std_table)], 1%nat, []) /\
  execs a std_table 0 [true; true; false] = ([Said "open %s failed" [[102]]; Ran [[98]] (<[0%nat := FRead 0]> std_table)], 1%nat, []).
Proof.
  destruct (shell_runs [97; 60; 102; 124; 98] [] [] 0 (APipe (ARedir (AExec [[97]]) [102] O_RDONLY 0) (AExec [[98]])) std_table 0 3 4) as (p & s' & a & E1 & E2 & E3 & _).
  - repeat constructor; done.
  - vm_compute. reflexivity.
  - apply std_table_ok.
  - exists p, s', a. split; [exact E1|]. split; [exact E2|]. split; rewrite E3; reflexivity.
Defined.

(** ** Lines *)

(** A line that fits into the buffer. *)
Record line_ok (l : list Z) : Prop := {
  lk_end : exists w, l = w ++ [10] /\ Forall (fun c => c <> 0 /\ c <> 10 /\ c <> 13) w;
  lk_fits : (length l <= 99)%nat
}.

Definition line_buf (l : list Z) : list Z := l ++ replicate (100 - length l) 0.

Lemma gets_loop_line w rest n : Forall (fun c => c <> 0 /\ c <> 10 /\ c <> 13) w -> (length w < n)%nat -> gets_loop n (w ++ 10 :: rest) = (w ++ [10], rest).
Proof.
  intros Hw. revert n. induction Hw as [|c w (_ & H1 & H2) _ IH]; intros [|n] Hn; simpl in *; try lia; [done|].
  rewrite (proj2 (Z.eqb_neq c 10) H1), (proj2 (Z.eqb_neq c 13) H2). simpl. by rewrite IH by lia.
Qed.

Lemma getcmd_line l rest : line_ok l -> getcmd 100 (l ++ rest) = (Some (line_buf l), rest).
Proof.
  intros [(w & -> & Hw) Hfit]. rewrite length_app in Hfit. cbn [length] in Hfit. unfold getcmd, gets_line. change (Z.to_nat (Z.of_nat 100 - 1)) with 99%nat.
  rewrite <- app_assoc. cbn [app]. rewrite gets_loop_line by (done || lia). unfold line_buf. rewrite !length_app. cbn [length].
  replace (100 - (length w + 1))%nat with (S (100 - (length w + 1 + 1)))%nat by lia. cbn [replicate]. rewrite <- !app_assoc. cbn [app].
  destruct w as [|c w]; [done|]. apply Forall_cons in Hw as [[Hc _] _]. cbn [app]. by rewrite (proj2 (Z.eqb_neq c 0) Hc).
Qed.

(** Every line of the input is handled, once and in order, and then the shell exits. *)
Theorem sh_main_lines ls n js :
  Forall line_ok ls -> (length ls < n)%nat -> mapM job_of (line_buf <$> ls) = Some js -> sh_main n (concat ls) = Some js.
Proof.
  intros Hls. revert n js. induction Hls as [|l ls Hl _ IH]; intros [|n] js Hn Hjs; cbn [length] in Hn; try lia.
  - injection Hjs as <-. done.
  - cbn [concat sh_main]. rewrite (getcmd_line l (concat ls) Hl). cbn [fmap list_fmap mapM] in Hjs.
    destruct (job_of (line_buf l)) as [j|] eqn:Ej; [|done]. cbn [mbind option_bind] in Hjs |- *. destruct (mapM job_of (line_buf <$> ls)) as [js'|] eqn:E; [|done].
    injection Hjs as <-. by rewrite (IH n js') by (done || lia).
Qed.

(** A line of 120 characters is run as two commands. *)
Lemma long_line_splits : sh_main 10 (replicate 120 97 ++ [10]) =
  Some [Run (replicate 99 97 ++ [0]); Run (replicate 21 97 ++ [10] ++ replicate 78 0)].
Proof. by vm_compute. Qed.

(** cd without a newline behind it loses the last letter of its directory. *)
Lemma cd_chops : sh_main 10 [99; 100; 32; 97; 98] = Some [Chdir [97]].
Proof. by vm_compute. Qed.

(** >> is taken as >: nothing is appended. *)
Lemma append_overwrites : p_cmd [97; 62; 62; 102] = p_cmd [97; 62; 102].
Proof. by vm_compute. Qed.

(** The lowest free descriptor when those from 3 on are free. *)
Lemma lowest_three (t : fdtab) : (forall i, (3 <= i)%nat -> t !! i = None) ->
  exists fd, lowest t = Some fd /\ (fd <= 3)%nat /\ t !! fd = None /\ (forall j, (j < fd)%nat -> is_Some (t !! j)).
Proof.
  intros Hhigh. assert (Hc : forall fd, (fd <= 3)%nat -> t !! fd = None -> (forall j, (j < fd)%nat -> is_Some (t !! j)) ->
    exists fd, lowest t = Some fd /\ (fd <= 3)%nat /\ t !! fd = None /\ (forall j, (j < fd)%nat -> is_Some (t !! j))).
  { intros fd Hfd Hn Hlow. exists fd. split_and!; try done. apply lowest_is; [lia|done|done]. }
  destruct (t !! 0%nat) as [f0|] eqn:E0; [|apply (Hc 0%nat); [lia|done|lia]]. destruct (t !! 1%nat) as [f1|] eqn:E1.
  2: { apply (Hc 1%nat); [lia|done|]. intros j Hj. assert (j = 0%nat) as -> by lia. by eexists. }
  destruct (t !! 2%nat) as [f2|] eqn:E2.
  - apply (Hc 3%nat); [lia|by apply Hhigh|]. intros j Hj. assert (j = 0 \/ j = 1 \/ j = 2)%nat as [-> | [-> | ->]] by lia; by eexists.
  - apply (Hc 2%nat); [lia|done|]. intros j Hj. assert (j = 0 \/ j = 1)%nat as [-> | ->] by lia; by eexists.
Qed.

(** main leaves descriptors 0, 1 and 2 open, those that were open as they were,
    and no other. *)
Theorem open_console_std t n : (forall i, (3 <= i)%nat -> t !! i = None) -> (4 <= n)%nat ->
  (forall i, (i < 3)%nat -> is_Some (open_console n t !! i)) /\ (forall i, (3 <= i)%nat -> open_console n t !! i = None) /\
  (forall i f, t !! i = Some f -> open_console n t !! i = Some f).
Proof.
  intros Hhigh Hn. destruct (lowest_three t Hhigh) as (fd & El & Hfd & Hnone & Hlow). assert (Hm : (4 - fd <= n)%nat) by lia. clear Hn.
  revert t n fd Hhigh El Hfd Hnone Hlow Hm. intros t n. revert t. induction n as [|n IH]; intros t fd Hhigh El Hfd Hnone Hlow Hm; [lia|].
  cbn [open_console]. rewrite El. destruct (Nat.leb_spec 3 fd) as [H3|H3].
  - assert (fd = 3%nat) as -> by lia. rewrite delete_insert_id by done. split_and!; try done.
  - set (t' := <[fd := FFile console O_RDWR]> t). assert (Hhigh' : forall i, (3 <= i)%nat -> t' !! i = None) by (intros i Hi; unfold t'; rewrite lookup_insert_ne by lia; by apply Hhigh).
    destruct (lowest_three t' Hhigh') as (fd' & El' & Hfd' & Hnone' & Hlow').
    assert (Hlt : (fd < fd')%nat). { destruct (Nat.lt_trichotomy fd fd') as [?|[->|Hgt]]; [done| |].
      - unfold t' in Hnone'. by rewrite lookup_insert_eq in Hnone'.
      - destruct (Hlow fd' Hgt) as [x Hx]. unfold t' in Hnone'. rewrite lookup_insert_ne in Hnone' by lia. by rewrite Hx in Hnone'. }
    destruct (IH t' fd' Hhigh' El' Hfd' Hnone' Hlow' ltac:(lia)) as (H1 & H2 & H4). split_and!; try done.
    intros i f Hi. apply H4. unfold t'. rewrite lookup_insert_ne; [done|]. intros ->. by rewrite Hnone in Hi.
Qed.
